(* ===== verification/_CoqProject ===== *)
-Q . S2P
Prelude.v
PyStr.v
Numbers.v
PyVal.v
Host.v
Sim.v
Json.v
Encoding.v
HttpProxy.v
BootInfo.v
McUtil.v
McWallet.v
ScUtil.v
Processes.v
ScLoops.v
Forging.v
ForgingProps.v
Checks.v
Bootstrap.v
BootstrapProps.v
Framework.v
AccountSetup.v
FrameworkProps.v
McFramework.v
HttpCalls.v
Tools.v
ToolsProps.v
AccountCalls.v
AccountUtil.v
AccountProps.v
SmartContract.v
SmartContractProps.v
Scenarios.v
NetScenarios.v
ForgingScenarios.v
StakeScenarios.v
DelayScenarios.v
ChainScenarios.v
MempoolScenarios.v
CertScenarios.v
EvmScenarios.v
CswScenarios.v
BackwardScenarios.v
CertificateScenarios.v
KeyRotationScenarios.v
EvmRotationScenarios.v
ForgerScenarios.v
EvmForgerScenarios.v
NativeForgerScenarios.v
RegisterScenarios.v
PagedStakesScenarios.v
OwnershipScenarios.v
EvmBackwardScenarios.v
SeederScenarios.v
WebsocketScenarios.v
RewardScenarios.v
RecoveryScenarios.v
ConsensusScenarios.v
SyncScenarios.v
EvmMempoolScenarios.v
InteropScenarios.v
PagerScenarios.v
TokenScenarios.v
EvmStateScenarios.v
KeyScenarios.v
FeePaymentScenarios.v
PendingCertScenarios.v
NodeInfoScenarios.v
FeeMarketScenarios.v
CertFeeScenarios.v
BlockScenarios.v
ScenarioProps.v
WithdrawalProps.v
ForgerProps.v
RotationProps.v
NativeProps.v
RecoveryProps.v
InteropProps.v
TransactionProps.v
