(* ===== verification/Prelude.v ===== *)
(** * Verification of the Sidechains-SDK Python test framework (qa/)

    ** The program

    The Python code of the repository, under qa/, is the framework that tests
    Horizen sidechains end to end.  It starts mainchain nodes (zend) and
    sidechain nodes (Java processes), bootstraps a sidechain on the mainchain,
    writes the nodes' configuration files, talks to the nodes over JSON-RPC and
    REST, drives block forging slot by slot, and checks what the nodes report.
    The test scenarios (qa/*.py) are classes on top of it.  The nodes
    themselves (Scala, Java, Go, C++) are outside the model: they are the
    environment of the framework.

    Its parts, bottom up: encodings and wallet arithmetic (test_framework/
    util.py), the two HTTP proxies (test_framework/authproxy.py and
    SidechainTestFramework/sidechainauthproxy.py), configuration records
    (sc_boostrap_info.py), mainchain helpers (util.py), sidechain helpers
    (scutil.py), forging helpers and block checks (scutil.py,
    sc_forging_util.py), the bootstrap of a sidechain (scutil.py), one wrapper
    per REST endpoint (httpCalls/, account/httpCalls/), account-model helpers
    (account/utils.py, account/ac_utils.py), smart contracts
    (account/ac_use_smart_contract.py and its neighbours), the tools around the
    nodes (mc_test/mc_test.py, the websocket clients, the signing server), the
    drivers that run a test (sc_test_framework.py, account/ac_chain_setup.py,
    test_framework.py), and the scenarios, whose classes give the driver its
    steps.

    ** The embedding

    A Python value is a [pyval] (PyVal.v) with the language's operations on it
    (equality across number types, arithmetic, indexing, [str], [int],
    membership).  Integers are unbounded [Z]; [Decimal] has the context of 28
    digits and floats are IEEE binary64 numbers (Numbers.v).  A pure function
    that can raise returns an [outcome]: a value, an exception, or [NoFuel].
    A function with effects is a computation [M W A] (Host.v) on a state that
    holds the module-level variables the sources declare [global], the heap of
    lists shared between objects, the trace of external actions in order, and
    the outside world [W].  State changes made before an exception stay.  What
    the sources reach outside (nodes, clock, operating system, random
    numbers) is given by the classes [Nodes], [Clock], [Os] and [Rng]; the
    theorems hold for every instance, some under the laws [ClockLaws] and
    [RngLaws].  HttpProxy.v discharges [Nodes] by the proxies over an HTTP
    connection ([http_nodes], [http_clock_laws]); Sim.v gives the concrete
    hosts in which the witnesses run.  Third-party packages are parameters:
    [Http] (http.client), [EthUtils], [EthHash], [EthEvents], [EthHex],
    [EthSelectors], [EthBloom] and [EthRlp] (eth_utils, eth_bloom, rlp),
    [EthAbi] (eth_abi), [AddressCodecs] (base58), [Remote] (requests, and the
    process of the signing server), [Websocket] and [WebsocketClose], Flask,
    and [str_exn], the text of an exception that the language library raises.
    A scenario is a [TestClass]: its methods are computations on the attributes
    of [self] ([FW]).

    ** Files

    - Prelude: ordered dictionaries, [range], sums, tactics, hint databases.
    - PyStr, Numbers, PyVal, Json: strings and their methods, decimal and
      binary64 numbers, values, [json.dumps]/[json.loads] with the round trip
      [dumps_loads_lemma].
    - Host, Sim: the monad, the environment classes and a
      weakest-precondition calculus; the simulated hosts.
    - Encoding: hexadecimal, JSON-RPC request text, byte order, padding,
      base 64 (util.py).
    - HttpProxy: both proxy classes, from URL parsing to the request on the
      wire (authproxy.py, sidechainauthproxy.py).
    - BootInfo: the configuration records (sc_boostrap_info.py).
    - McUtil, McWallet: util.py, and its input selection and change.
    - ScUtil, ScLoops: scutil.py without forging and bootstrap; its polling
      loops.
    - Processes: the two process tables and the ports.
    - Forging, ForgingProps, Checks: forging, and the checks of chain and
      blocks.
    - Bootstrap, BootstrapProps: bootstrap and configuration files.
    - Framework, AccountSetup, FrameworkProps: the driver [main], the
      account-model test class, and what a run guarantees.
    - McFramework: the mainchain-only driver, splitting and joining.
    - HttpCalls, AccountCalls: the endpoint wrappers.
    - Tools, ToolsProps: the proof tool, sidechains other than the tested one,
      the websocket clients, the signing server.
    - AccountUtil, AccountProps: account/utils.py and account/ac_utils.py.
    - SmartContract, SmartContractProps: contract wrappers, compilation, the
      proxy contract, raw transactions.
    - Scenarios (shared parts, starting nodes), NetScenarios (net_*.py,
      mc_sc_connected_nodes.py), ForgingScenarios (mc_sc_forging1 to 4),
      StakeScenarios (mc_sc_forging5, delegation, fee payments),
      DelayScenarios (delayed references, both models), ChainScenarios
      (transfers, epochs, ceasing), MempoolScenarios (fees, memory pool),
      CertScenarios (certificate submitters), EvmScenarios (account model),
      CswScenarios (withdrawals from a ceased sidechain), BackwardScenarios
      (backward transfers and their certificates), CertificateScenarios
      (queues of certificates, limits of forks), KeyRotationScenarios and
      EvmRotationScenarios (rotation of certificate keys, both models),
      ForgerScenarios (closed lists of forgers, delegation, reward address),
      EvmForgerScenarios (stakes of the account model), NativeForgerScenarios
      (the second contract of the stakes), RegisterScenarios (registration of
      forgers), PagedStakesScenarios (stakes by owner), OwnershipScenarios
      (mainchain addresses linked to accounts, also multisignature),
      EvmBackwardScenarios (withdrawals of the account model),
      SeederScenarios (nodes that only pass blocks on), WebsocketScenarios
      (websocket servers of both models), RewardScenarios (rewards of forgers
      and delegators), RecoveryScenarios (storages after a crash, backup),
      ConsensusScenarios (parameters of the consensus that forks change),
      SyncScenarios (status of the synchronisation), EvmMempoolScenarios
      (order, replacement and eviction in the pool), InteropScenarios
      (contracts that call native ones), PagerScenarios (stakes page by page),
      TokenScenarios (contracts and their events), EvmStateScenarios (blocks as
      contracts see them), KeyScenarios (keys in files, raw transactions),
      FeePaymentScenarios (payments by RPC and websocket),
      PendingCertScenarios (certificates that wait for signatures),
      NodeInfoScenarios (what nodes say of themselves), FeeMarketScenarios
      (gas prices and block tags), CertFeeScenarios (fees and signers of
      certificates), BlockScenarios (what a block may contain): test classes,
      one [run_test] per script.
    - ScenarioProps (also of the ways scripts ask for a refusal),
      WithdrawalProps (ceased sidechains, backward transfers, pending
      certificates), ForgerProps, RotationProps, NativeProps (stakes, rewards,
      ownership), RecoveryProps (also of the synchronisation), InteropProps
      (also of pages and tokens), TransactionProps (memory pool, states, keys
      and transfers): what a passing scenario
      has seen, what its decoders and sums compute, and what its checks cannot
      notice.

    Definitions keep the names of the sources; a helper that models part of a
    function has a name of its own.  [wait_loop], for instance, is the loop
    the three timed waits of scutil.py share.

    ** What the theorems show

    - The wire (HttpProxy, Encoding): which request a call sends, that the body
      decodes to what was passed, when it is sent again, and what a reply
      turns into; the token of the Basic authentication.
    - Wallet (McWallet, Checks): inputs selected are a sub-multiset of the
      unspent outputs with exactly the total returned; change is conserved;
      the coinbase address chosen has the most outputs; a balance check
      passes exactly when numbers and sums agree.
    - Time (ScLoops): the timed loops end within their limit whatever the nodes
      answer, and end well only when the condition was seen.
    - Forging (ForgingProps): slots are tried consecutively, at most
      an epoch's worth; the block id returned is that of the last reply;
      withdrawal epochs are the last complete ones.
    - Processes (Processes, FrameworkProps): over any sequence of operations no
      process leaves a table without being waited for; [main] stops what was
      started, and its exit status 0 means success.
    - Configuration (BootstrapProps, BootInfo): every placeholder of
      template.conf is filled with a value of its type; who is told which
      secret; which options are accepted.
    - Endpoints and account model (HttpCalls, AccountCalls, AccountProps): one
      call with the body that decodes to the arguments, and the outcome read
      from the reply; exact conversions, the split of fees, the three calls of
      a transaction.
    - Smart contracts (SmartContractProps): the function table of a contract,
      the calls of a transaction, the address a deployment returns, the
      replies of a read-only call.
    - Tools (ToolsProps): command lines that can be read back, the secret put in
      place of the public key, the number of receptions of a message.
    - Mainchain driver (McFramework): splitting and joining alternate; what a
      failed assertion does.
    - Scenarios, what was seen (ScenarioProps, WithdrawalProps, ForgerProps,
      RotationProps, NativeProps, RecoveryProps): the replies
      a passing run has seen ([observed]): peers of a ring, references of 200 blocks, fees paid out, transactions in order of
      their fee rate, nullifiers unknown before and known after the
      withdrawals, certificates that pay what was withdrawn, certificates of
      pending epochs published in order, each committed to the block of the
      one before, keys all rotated and certificates signed with them, votes
      that opened the list of forgers, storages that recovered after every
      crash, the status of a synchronisation that counted its blocks; the loops
      that fill a memory pool or ask for a status end.
    - Scenarios, what is computed (NativeProps, ForgerProps, InteropProps,
      TransactionProps, NodeInfoScenarios, FeeMarketScenarios,
      CertFeeScenarios, BlockScenarios):
      the bytes of a list or a page of stakes, of the links of addresses and of
      calls written by hand are decoded to what was encoded; the stakes of the
      signers add up, the migration of stakes conserves them, rewards are
      conserved and shared with the remainder to one forger, transfers conserve
      balances, outputs use up a box exactly; pages are complete whatever their
      size; the order the test expects in a block is that of the tips within
      the order of nonces; a dumped file of keys is read back; the window of a
      history of fees ends at the tip; and a configuration file is rewritten
      line by line.
    - Divergences found on the way are theorems too: the header sent without an
      API key, the unreachable error of a missing result, the exception of a
      malformed format string, the shutdown of a class whose nodes are [None],
      the refusals two scenarios ask for and cannot notice, the block one
      scenario forges and does not look at, the reward address two checks of
      events compare with itself, the answers of nodes that are checked only
      for being there, the refusals whose failure is caught with them, the
      second deployment that is not tried.

    ** Bounds

    The only fuel is that of loops that are unbounded in the sources:
    [sync_blocks], [sync_mempools], [wait_handshake], [wait_socket] wait
    forever for a condition and take the number of iterations; the timed loops
    ([wait_loop], [sync_mempools_loop]) take fuel that [enough] shows
    sufficient from the limit alone, so their theorems exclude [NoFuel].
    [forge_loop] is bounded by the slots of an epoch, as in the source, and
    [recv_loop] by the 499 receptions its counter allows.  The loops of the
    scenarios ([wait_certificate], [wait_either], [wait_idle], [advance_loop],
    [wait_pinging], [wait_pinging_others], [wait_two_certificates],
    [wait_quietly], [wait_either_pinging], [fill_pool], [another_address],
    [all_pages]) are unbounded in the scripts and take fuel; for [fill_pool]
    and [all_pages] the fuel that is enough is a theorem.
    [sync_status_loop] ends after 200 seconds, for which 202 rounds are enough.
    [wait_for_cert_loop] is bounded by its 100 checks, as in the script.
    Decimal amounts in the wallet theorems are below [zat_limit], where 28
    digits hold every sum exactly.

    ** Not modelled

    Option parsing, log output (kept only where it can raise or where its
    argument calls a node), the start of the Flask process, and
    [initialize_sc_chain_clean], which nothing calls.  The generators of test
    vectors (test_data_generators/) print the result of library calls; one of
    them cannot be imported.  Twelve scripts are left out: demo.py waits at the
    keyboard, sc_mem_usage.py measures the memory of a process with psutil,
    the setup of sc_genesisinfo_sc_versions.py leaves attributes of its own in
    [self], for which [Self] has no place, and the others
    (sc_evm_test_debug_methods.py, sc_evm_rpc_eth.py,
    sc_evm_block_size_limit.py, sc_evm_dump.py, sc_evm_estimateGas.py,
    sc_node_termination_during_sync.py, sc_node_api_test.py,
    account_websocket_server_rpc.py, account_websocket_server_sync.py) repeat
    requests of the modelled ones or compare replies with long literals. *)

From Stdlib Require Export ZArith Lia.
From stdpp Require Export base strings pretty option list.

(** Concatenation of strings computes on constructors. *)
#[global] Arguments String.append !_ _ : simpl nomatch.

(** ** Notation scope of the development *)

Declare Scope py_scope.
Delimit Scope py_scope with py.

(** ** Hint database and tactics *)

Create HintDb py discriminated.
Create Rewrite HintDb py.

(** Case analysis on the scrutinee of the first [match] of the goal (or of a
    hypothesis), keeping the equation. *)
Ltac case_scrut :=
  match goal with
  | |- context [match ?x with _ => _ end] =>
      lazymatch x with
      | context [match _ with _ => _ end] => fail
      | _ => destruct x eqn:?
      end
  | H : context [match ?x with _ => _ end] |- _ =>
      lazymatch x with
      | context [match _ with _ => _ end] => fail
      | _ => destruct x eqn:?
      end
  end.

(** Turns the boolean comparisons that the executable definitions use into
    the propositions [lia] reads. *)
Ltac b2p :=
  repeat match goal with
  | H : (_ && _) = true |- _ => apply andb_true_iff in H as [? ?]
  | H : (_ || _) = false |- _ => apply orb_false_iff in H as [? ?]
  | H : negb _ = true |- _ => apply negb_true_iff in H
  | H : negb _ = false |- _ => apply negb_false_iff in H
  | H : Z.eqb _ _ = true |- _ => apply Z.eqb_eq in H
  | H : Z.eqb _ _ = false |- _ => apply Z.eqb_neq in H
  | H : Z.ltb _ _ = true |- _ => apply Z.ltb_lt in H
  | H : Z.ltb _ _ = false |- _ => apply Z.ltb_ge in H
  | H : Z.leb _ _ = true |- _ => apply Z.leb_le in H
  | H : Z.leb _ _ = false |- _ => apply Z.leb_gt in H
  | H : Nat.eqb _ _ = true |- _ => apply Nat.eqb_eq in H
  | H : Nat.eqb _ _ = false |- _ => apply Nat.eqb_neq in H
  | H : Nat.ltb _ _ = true |- _ => apply Nat.ltb_lt in H
  | H : Nat.ltb _ _ = false |- _ => apply Nat.ltb_ge in H
  | H : String.eqb _ _ = true |- _ => apply String.eqb_eq in H
  | H : String.eqb _ _ = false |- _ => apply String.eqb_neq in H
  end.

(** Linear arithmetic with division and remainder by constants, on [Z], [N] and [nat]. *)
Ltac div_lia := zify; Z.to_euclidean_division_equations; lia.

(** ** Ordered dictionaries

    A Python [dict] keeps insertion order: assigning to an existing key keeps
    its place, a new key goes last, and iteration follows that order.  The
    model is an association list with the three operations the code uses. *)
Section Dict.
Context {K V : Type} `{EqDecision K}.

Fixpoint dict_get (k : K) (d : list (K * V)) : option V :=
  match d with
  | [] => None
  | (k', v) :: d' => if decide (k = k') then Some v else dict_get k d'
  end.

Fixpoint dict_set (k : K) (v : V) (d : list (K * V)) : list (K * V) :=
  match d with
  | [] => [(k, v)]
  | (k', v') :: d' =>
      if decide (k = k') then (k, v) :: d' else (k', v') :: dict_set k v d'
  end.

Fixpoint dict_del (k : K) (d : list (K * V)) : list (K * V) :=
  match d with
  | [] => []
  | (k', v') :: d' => if decide (k = k') then d' else (k', v') :: dict_del k d'
  end.

Definition dict_mem (k : K) (d : list (K * V)) : bool :=
  match dict_get k d with Some _ => true | None => false end.

Lemma dict_get_set_eq k v d : dict_get k (dict_set k v d) = Some v.
Proof. induction d as [|[k' v'] d IH]; simpl; repeat (case_decide; simpl); congruence. Qed.

Lemma dict_get_set_ne k k' v d :
  k ≠ k' → dict_get k (dict_set k' v d) = dict_get k d.
Proof.
  intros Hne. induction d as [|[k2 v2] d IH]; simpl; repeat (case_decide; simpl); congruence.
Qed.

Lemma dict_get_del_ne k k' d : k ≠ k' → dict_get k (dict_del k' d) = dict_get k d.
Proof.
  intros Hne. induction d as [|[k2 v2] d IH]; simpl; repeat (case_decide; simpl); congruence.
Qed.

Lemma dict_get_None k d : dict_get k d = None ↔ k ∉ d.*1.
Proof.
  induction d as [|[k' v'] d IH]; simpl.
  - split; [intros _; apply not_elem_of_nil | done].
  - rewrite not_elem_of_cons. case_decide; naive_solver.
Qed.

Lemma dict_get_Some_elem k v d : dict_get k d = Some v → (k, v) ∈ d.
Proof.
  induction d as [|[k' v'] d IH]; simpl; [done|].
  case_decide; intros; simplify_eq; [left | right; auto].
Qed.

Lemma dict_del_keys_subset k k' d : k ∈ (dict_del k' d).*1 → k ∈ d.*1.
Proof.
  induction d as [|[k2 v2] d IH]; simpl; [done|].
  case_decide; simpl; rewrite ?elem_of_cons; naive_solver.
Qed.

Lemma dict_del_nodup k d : NoDup d.*1 → NoDup (dict_del k d).*1.
Proof.
  induction d as [|[k2 v2] d IH]; simpl; [done|].
  rewrite NoDup_cons. intros [Hn Hd]. case_decide; simpl; [done|].
  apply NoDup_cons. split; [|auto]. eauto using dict_del_keys_subset.
Qed.

Lemma dict_get_del_eq k d : NoDup d.*1 → dict_get k (dict_del k d) = None.
Proof.
  induction d as [|[k2 v2] d IH]; simpl; [done|].
  rewrite NoDup_cons. intros [Hn Hd]. case_decide; subst; simpl.
  - by apply dict_get_None.
  - case_decide; [done|auto].
Qed.

Lemma dict_set_keys_elem k k' v d : k ∈ (dict_set k' v d).*1 ↔ k = k' ∨ k ∈ d.*1.
Proof.
  induction d as [|[k2 v2] d IH]; simpl.
  - rewrite elem_of_cons. naive_solver.
  - case_decide; simpl; rewrite ?elem_of_cons, ?IH; naive_solver.
Qed.

Lemma dict_set_nodup k v d : NoDup d.*1 → NoDup (dict_set k v d).*1.
Proof.
  induction d as [|[k2 v2] d IH]; simpl.
  - intros _. apply NoDup_cons. split; [apply not_elem_of_nil | constructor].
  - rewrite NoDup_cons. intros [Hn Hd]. case_decide; simpl; apply NoDup_cons; subst; [done|].
    split; [|auto]. rewrite dict_set_keys_elem. naive_solver.
Qed.

(** A new key goes to the end. *)
Lemma dict_set_fresh k v d : k ∉ d.*1 → dict_set k v d = d ++ [(k, v)].
Proof.
  induction d as [|[k2 v2] d IH]; simpl; [done|].
  rewrite not_elem_of_cons. intros [? ?]. case_decide; [done|]. by rewrite IH.
Qed.
End Dict.

#[export] Hint Rewrite @dict_get_set_eq : py.
#[export] Hint Resolve dict_set_nodup dict_del_nodup : py.

(** [range(a, b)] of Python on integers. *)
Definition zrange (a b : Z) : list Z := seqZ a (b - a).

(** Sum of a list of integers. *)
Definition zsum (l : list Z) : Z := foldr Z.add 0%Z l.

Lemma zsum_app l k : zsum (l ++ k) = (zsum l + zsum k)%Z.
Proof. induction l as [|x l IH]; simpl; [done|]. unfold zsum in *. simpl. lia. Qed.

Lemma zsum_perm l k : l ≡ₚ k → zsum l = zsum k.
Proof. unfold zsum. induction 1; simpl; lia. Qed.
