(* ===== verification/PyStr.v ===== *)
(** * Python's [str] and [bytes] operations used by the code

    A [str] is a [string] of code points below 256; [bytes] are a [string] of
    8-bit characters.  The operations below are the ones the sources call:
    [startswith], [in], [replace], [split], [ljust]/[rjust], [lower],
    [removesuffix], slicing, [hexlify]/[unhexlify], [hex], and [int(s, base)].
    The theorems give the round trips the framework relies on when it turns
    integers and byte strings into the hexadecimal text of the node APIs. *)

From S2P Require Import Prelude.
From Stdlib Require Import Ascii String.


(** ** Searching and slicing *)

Definition startswith (s p : string) : bool := String.prefix p s.

Fixpoint str_drop (n : nat) (s : string) : string :=
  match n, s with
  | 0, _ => s
  | S n', String _ s' => str_drop n' s'
  | S _, EmptyString => EmptyString
  end.

Fixpoint str_take (n : nat) (s : string) : string :=
  match n, s with
  | S n', String c s' => String c (str_take n' s')
  | _, _ => EmptyString
  end.

Definition endswith (s p : string) : bool :=
  (String.length p <=? String.length s)
  && String.eqb (str_drop (String.length s - String.length p) s) p.

Definition removesuffix (s p : string) : string :=
  if negb (String.eqb p "") && endswith s p
  then str_take (String.length s - String.length p) s else s.

(** [sub in s] *)
Fixpoint str_contains (sub s : string) : bool :=
  String.prefix sub s
  || match s with EmptyString => false | String _ s' => str_contains sub s' end.

(** [s.replace(old, new)] for a non-empty [old]: leftmost, non-overlapping. *)
Fixpoint replace_go (old new : string) (skip : nat) (s : string) : string :=
  match s with
  | EmptyString => EmptyString
  | String c s' =>
      match skip with
      | S k => replace_go old new k s'
      | 0 => if String.prefix old s
             then new +:+ replace_go old new (pred (String.length old)) s'
             else String c (replace_go old new 0 s')
      end
  end.

Definition str_replace (s old new : string) : string := replace_go old new 0 s.

(** [s.replace(c, d)] on one character. *)
Fixpoint replace_char (c d : ascii) (s : string) : string :=
  match s with
  | EmptyString => EmptyString
  | String x s' => String (if Ascii.eqb x c then d else x) (replace_char c d s')
  end.

(** [s.split(sep)] for a one-character separator. *)
Fixpoint split_char (sep : ascii) (s : string) : list string :=
  match s with
  | EmptyString => [EmptyString]
  | String x s' =>
      if Ascii.eqb x sep then EmptyString :: split_char sep s'
      else match split_char sep s' with
           | [] => [String x EmptyString]
           | w :: ws => String x w :: ws
           end
  end.

Definition is_space (c : ascii) : bool :=
  let n := nat_of_ascii c in
  (n =? 32)%nat || ((9 <=? n) && (n <=? 13))%nat.

(** [s.split()]: maximal runs of non-space characters. *)
Fixpoint split_ws_go (word s : string) : list string :=
  match s with
  | EmptyString => if String.eqb word "" then [] else [word]
  | String x s' =>
      if is_space x
      then (if String.eqb word "" then [] else [word]) ++ split_ws_go "" s'
      else split_ws_go (word +:+ String x EmptyString) s'
  end%list.

Definition split_ws (s : string) : list string := split_ws_go "" s.

Fixpoint str_repeat (c : ascii) (n : nat) : string :=
  match n with 0 => EmptyString | S n' => String c (str_repeat c n') end.

Definition ljust (s : string) (w : nat) (c : ascii) : string :=
  s +:+ str_repeat c (w - String.length s).

Definition rjust (s : string) (w : nat) (c : ascii) : string :=
  str_repeat c (w - String.length s) +:+ s.

Definition lower_char (c : ascii) : ascii :=
  let n := nat_of_ascii c in
  if ((65 <=? n) && (n <=? 90))%nat then ascii_of_nat (n + 32) else c.

Fixpoint lower (s : string) : string :=
  match s with
  | EmptyString => EmptyString
  | String c s' => String (lower_char c) (lower s')
  end.

Fixpoint str_rev_append (s acc : string) : string :=
  match s with
  | EmptyString => acc
  | String c s' => str_rev_append s' (String c acc)
  end.

(** [s[::-1]] *)
Definition str_rev (s : string) : string := str_rev_append s EmptyString.

(** [sep.join(l)] *)
Definition str_join (sep : string) (l : list string) : string := String.concat sep l.

Fixpoint lstrip (s : string) : string :=
  match s with
  | String c s' => if is_space c then lstrip s' else s
  | EmptyString => EmptyString
  end.

Definition strip (s : string) : string := str_rev (lstrip (str_rev (lstrip s))).

(** [os.path.join(a, b)] on POSIX *)
Definition path_join (a b : string) : string :=
  if startswith b "/" then b
  else if String.eqb a "" || endswith a "/" then a +:+ b
  else a +:+ "/" +:+ b.

(** [s.find(sub)] as the text before and after the first occurrence. *)
Fixpoint split_at (sub s : string) : option (string * string) :=
  if String.prefix sub s then Some ("", str_drop (String.length sub) s)
  else match s with
       | EmptyString => None
       | String c s' => match split_at sub s' with
                        | Some (a, b) => Some (String c a, b)
                        | None => None
                        end
       end.

(** ** Hexadecimal digits *)

Definition hex_digit (n : N) : ascii :=
  if (n <? 10)%N then ascii_of_N (48 + n) else ascii_of_N (87 + n).

Definition digit_val (c : ascii) : option N :=
  let n := N_of_ascii c in
  if ((48 <=? n) && (n <=? 57))%N then Some (n - 48)%N
  else if ((97 <=? n) && (n <=? 122))%N then Some (n - 87)%N
  else if ((65 <=? n) && (n <=? 90))%N then Some (n - 55)%N
  else None.

Definition hex_val (c : ascii) : option N :=
  match digit_val c with
  | Some n => if (n <? 16)%N then Some n else None
  | None => None
  end.

(** [binascii.hexlify] (and [bytes.hex]) *)
Fixpoint hexlify (b : string) : string :=
  match b with
  | EmptyString => EmptyString
  | String c b' =>
      let n := N_of_ascii c in
      String (hex_digit (n / 16)) (String (hex_digit (n mod 16)) (hexlify b'))
  end.

(** [binascii.unhexlify]: [None] where Python raises [binascii.Error]. *)
Fixpoint unhexlify (s : string) : option string :=
  match s with
  | EmptyString => Some EmptyString
  | String h (String l s') =>
      match hex_val h, hex_val l, unhexlify s' with
      | Some a, Some b, Some r => Some (String (ascii_of_N (16 * a + b)) r)
      | _, _, _ => None
      end
  | String _ EmptyString => None
  end.

(** ** Integers as text *)

(** Digits of [n] in a base up to 16, most significant first. *)
Fixpoint digits_go (fuel : nat) (base n : N) (acc : string) : string :=
  match fuel with
  | 0 => acc
  | S f =>
      let acc' := String (hex_digit (n mod base)) acc in
      if (n <? base)%N then acc' else digits_go f base (n / base) acc'
  end.

Definition digits (base n : N) : string := digits_go (S (N.to_nat (N.log2 n))) base n "".

(** [hex(z)] *)
Definition hex (z : Z) : string :=
  (if (z <? 0)%Z then "-0x" else "0x") +:+ digits 16 (Z.to_N (Z.abs z)).

(** [str(z)] *)
Definition str_of_Z (z : Z) : string :=
  (if (z <? 0)%Z then "-" else "") +:+ digits 10 (Z.to_N (Z.abs z)).

(** Digits with single underscores between them, as [int()] accepts them. *)
Fixpoint parse_digits (base : N) (acc : N) (under_ok : bool) (s : string) : option N :=
  match s with
  | EmptyString => if under_ok then Some acc else None
  | String c s' =>
      if Ascii.eqb c "_" then if under_ok then parse_digits base acc false s' else None
      else match digit_val c with
           | Some d => if (d <? base)%N then parse_digits base (acc * base + d)%N true s'
                       else None
           | None => None
           end
  end.

Definition strip_prefix (p s : string) : option string :=
  if startswith (lower s) p then Some (str_drop (String.length p) s) else None.

(** After a base prefix one underscore is allowed. *)
Definition parse_prefixed (base : N) (s : string) : option N :=
  match s with
  | String c s' => if Ascii.eqb c "_" then parse_digits base 0 false s'
                   else parse_digits base 0 false s
  | EmptyString => None
  end.

Definition parse_nat (base : N) (s : string) : option N :=
  if (base =? 16)%N then
    match strip_prefix "0x" s with
    | Some r => parse_prefixed 16 r
    | None => parse_digits 16 0 false s
    end
  else if (base =? 0)%N then
    match strip_prefix "0x" s, strip_prefix "0o" s, strip_prefix "0b" s with
    | Some r, _, _ => parse_prefixed 16 r
    | _, Some r, _ => parse_prefixed 8 r
    | _, _, Some r => parse_prefixed 2 r
    | _, _, _ =>
        match parse_digits 10 0 false s with
        | Some n => if startswith s "0" && negb (n =? 0)%N then None else Some n
        | None => None
        end
    end
  else parse_digits base 0 false s.

(** [int(s, base)] for base 0, 10 or 16; [None] is [ValueError]. *)
Definition parse_int (base : N) (s : string) : option Z :=
  match strip s with
  | String "-" r => option_map (fun n => - Z.of_N n)%Z (parse_nat base r)
  | String "+" r => option_map Z.of_N (parse_nat base r)
  | r => option_map Z.of_N (parse_nat base r)
  end.

Example int_hex_ex : parse_int 16 (hex (-255)) = Some (-255)%Z.
Proof. reflexivity. Qed.
Example int_under_ex : parse_int 10 " 1_000 " = Some 1000%Z.
Proof. reflexivity. Qed.
Example split_ex : split_ws " a  bc " = ["a"; "bc"].
Proof. reflexivity. Qed.
Example replace_ex : str_replace "rpc_eth_rpc_" "rpc_" "" = "eth_".
Proof. reflexivity. Qed.

(** ** Facts about characters, by enumeration of the 256 code points *)

Ltac by_char := intros [[] [] [] [] [] [] [] []]; vm_compute; try done.

Lemma hex_byte (c : ascii) :
  hex_val (hex_digit (N_of_ascii c / 16)) = Some (N_of_ascii c / 16)%N
  ∧ hex_val (hex_digit (N_of_ascii c mod 16)) = Some (N_of_ascii c mod 16)%N
  ∧ ascii_of_N (16 * (N_of_ascii c / 16) + N_of_ascii c mod 16) = c.
Proof. revert c. by_char. Qed.

Lemma hex_val_lower (c : ascii) (n : N) :
  hex_val c = Some n → (n < 16)%N ∧ hex_digit n = lower_char c.
Proof.
  revert c. intros [[] [] [] [] [] [] [] []]; intros H; vm_compute in H; try done;
    injection H as <-; split; vm_compute; done.
Qed.

Lemma hex_digit_val (d : N) :
  (d < 16)%N → digit_val (hex_digit d) = Some d ∧ Ascii.eqb (hex_digit d) "_" = false
               ∧ is_space (hex_digit d) = false.
Proof.
  intros Hd.
  assert (d = 0 ∨ d = 1 ∨ d = 2 ∨ d = 3 ∨ d = 4 ∨ d = 5 ∨ d = 6 ∨ d = 7 ∨ d = 8 ∨ d = 9 ∨ d = 10 ∨ d = 11 ∨ d = 12 ∨ d = 13 ∨ d = 14 ∨ d = 15)%N as H by lia.
  destruct_or! H; subst; by vm_compute.
Qed.

(** ** [hexlify] and [unhexlify] are inverse (up to letter case) *)

Lemma unhexlify_hexlify b : unhexlify (hexlify b) = Some b.
Proof.
  induction b as [|c b IH]; [done|]. simpl hexlify. cbn [unhexlify].
  destruct (hex_byte c) as (-> & -> & Hc). by rewrite IH, Hc.
Qed.

(** Induction on a string two characters at a time. *)
Lemma string_ind2 (P : string → Prop) :
  P "" → (∀ c, P (String c "")) → (∀ c d s, P s → P (String c (String d s))) → ∀ s, P s.
Proof.
  intros H0 H1 H2 s.
  assert (P s ∧ ∀ c, P (String c s)) as [? _]; [|done].
  induction s as [|d s [IH1 IH2]]; split; auto.
Qed.

Lemma hexlify_unhexlify s b : unhexlify s = Some b → hexlify b = lower s.
Proof.
  revert b. induction s as [| |h l s IH] using string_ind2; intros b; cbn [unhexlify]; intros H;
    simplify_eq; [done|].
  destruct (hex_val h) as [x|] eqn:Hh, (hex_val l) as [y|] eqn:Hl, (unhexlify s) as [r|] eqn:Hs;
    simplify_eq.
  apply hex_val_lower in Hh as [? Hh], Hl as [? Hl].
  cbn [hexlify lower]. rewrite N_ascii_embedding by lia.
  replace ((16 * x + y) / 16)%N with x by (apply N.div_unique with y; lia).
  replace ((16 * x + y) mod 16)%N with y by (apply N.mod_unique with x; lia).
  by rewrite Hh, Hl, (IH r).
Qed.

Lemma hexlify_length b : String.length (hexlify b) = 2 * String.length b.
Proof. induction b; simpl in *; lia. Qed.

(** ** Reversal and stripping *)

Lemma str_app_assoc (s t u : string) : (s +:+ t) +:+ u = s +:+ (t +:+ u).
Proof. induction s as [|c s IH]; simpl; [done|]. by rewrite IH. Qed.

Lemma str_rev_append_spec s acc : str_rev_append s acc = str_rev s +:+ acc.
Proof.
  unfold str_rev. revert acc. induction s as [|c s IH]; intros acc; [done|].
  simpl. rewrite (IH (String c acc)), (IH (String c "")), str_app_assoc. done.
Qed.

Lemma str_rev_cons c s : str_rev (String c s) = str_rev s +:+ String c "".
Proof. unfold str_rev at 1. simpl. apply str_rev_append_spec. Qed.

Lemma str_app_nil_r s : s +:+ "" = s.
Proof. induction s as [|c s IH]; simpl; [done|]. by rewrite IH. Qed.

Lemma str_rev_app s t : str_rev (s +:+ t) = str_rev t +:+ str_rev s.
Proof.
  induction s as [|c s IH]; simpl; [by rewrite str_app_nil_r|].
  by rewrite !str_rev_cons, IH, str_app_assoc.
Qed.

Lemma str_rev_involutive s : str_rev (str_rev s) = s.
Proof. induction s as [|c s IH]; [done|]. by rewrite str_rev_cons, str_rev_app, IH. Qed.

Lemma str_length_app s t : String.length (s +:+ t) = String.length s + String.length t.
Proof. induction s; simpl; lia. Qed.

Lemma str_length_repeat c n : String.length (str_repeat c n) = n.
Proof. induction n; simpl; lia. Qed.

Fixpoint str_all (p : ascii → bool) (s : string) : bool :=
  match s with EmptyString => true | String c s' => p c && str_all p s' end.

Lemma str_all_app p s t : str_all p (s +:+ t) = str_all p s && str_all p t.
Proof. induction s as [|c s IH]; simpl; [done|]. by rewrite IH, andb_assoc. Qed.

Lemma str_all_rev p s : str_all p (str_rev s) = str_all p s.
Proof.
  induction s as [|c s IH]; [done|]. rewrite str_rev_cons, str_all_app, IH. simpl.
  by rewrite andb_true_r, andb_comm.
Qed.

Definition non_space (c : ascii) : bool := negb (is_space c).

Lemma lstrip_id s : str_all non_space s = true → lstrip s = s.
Proof.
  destruct s as [|c s]; [done|]. simpl. unfold non_space at 1.
  intros [H _]%andb_true_iff. apply negb_true_iff in H. by rewrite H.
Qed.

Lemma strip_id s : str_all non_space s = true → strip s = s.
Proof.
  intros H. unfold strip. rewrite (lstrip_id s), lstrip_id by (by rewrite ?str_all_rev).
  apply str_rev_involutive.
Qed.

(** ** Printing an integer and reading it back *)

Lemma digits_go_all p base n acc fuel :
  (2 <= base <= 16)%N → (∀ d, (d < 16)%N → p (hex_digit d) = true) →
  str_all p acc = true → str_all p (digits_go fuel base n acc) = true.
Proof.
  intros Hb Hp. revert n acc. induction fuel as [|f IH]; intros n acc Hacc; [done|]. simpl.
  assert (str_all p (String (hex_digit (n mod base)) acc) = true).
  { simpl. rewrite Hacc, Hp; [done|]. pose proof (N.mod_lt n base). lia. }
  destruct (n <? base)%N; auto.
Qed.

Lemma parse_digits_go base f n u acc :
  (2 <= base <= 16)%N → (n < base ^ N.of_nat (S f))%N →
  parse_digits base 0 u (digits_go (S f) base n acc) = parse_digits base n true acc.
Proof.
  intros Hb. revert n acc. induction f as [|f IH]; intros n acc Hn;
    cbn [digits_go] in *; pose proof (N.mod_lt n base ltac:(lia)) as Hm;
    destruct (hex_digit_val (n mod base) ltac:(lia)) as (Hv & Hu & _);
    (destruct (N.ltb_spec n base) as [Hlt|Hge];
     [ cbn [parse_digits]; rewrite Hu, Hv, (proj2 (N.ltb_lt _ _) Hm);
       by rewrite N.mod_small, N.mul_0_l by done |]).
  - simpl in Hn. lia.
  - rewrite IH.
    2:{ apply N.Div0.div_lt_upper_bound. rewrite Nat2N.inj_succ, N.pow_succ_r' in Hn. lia. }
    cbn [parse_digits]. rewrite Hu, Hv, (proj2 (N.ltb_lt _ _) Hm).
    f_equal. rewrite N.mul_comm. symmetry. apply N.div_mod. lia.
Qed.

Lemma digits_fuel base n :
  (2 <= base)%N → (n < base ^ N.of_nat (S (N.to_nat (N.log2 n))))%N.
Proof.
  intros Hb. rewrite Nat2N.inj_succ, N2Nat.id.
  apply N.lt_le_trans with (2 ^ N.succ (N.log2 n))%N; [|apply N.pow_le_mono_l; lia].
  destruct (decide (n = 0%N)) as [->|]; [done|]. apply N.log2_spec. lia.
Qed.

Lemma parse_digits_digits base n u :
  (2 <= base <= 16)%N → parse_digits base 0 u (digits base n) = Some n.
Proof. intros Hb. unfold digits. rewrite parse_digits_go; [done|done|apply digits_fuel; lia]. Qed.

Lemma digits_all p base n :
  (2 <= base <= 16)%N → (∀ d, (d < 16)%N → p (hex_digit d) = true) →
  str_all p (digits base n) = true.
Proof. intros. by apply digits_go_all. Qed.

Lemma digits_head base n :
  (2 <= base <= 16)%N → ∃ d r, (d < 16)%N ∧ digits base n = String (hex_digit d) r.
Proof.
  intros Hb. unfold digits. set (fuel := N.to_nat (N.log2 n)). clearbody fuel.
  assert (∀ f m acc d0, (d0 < 16)%N → ∃ d r, (d < 16)%N ∧
      digits_go f base m (String (hex_digit d0) acc) = String (hex_digit d) r) as Hgo.
  { induction f as [|f IH]; intros m acc d0 H0; simpl; [eauto|].
    pose proof (N.mod_lt m base ltac:(lia)).
    destruct (m <? base)%N; [exists (m mod base)%N; eauto with lia | apply IH; lia]. }
  simpl. pose proof (N.mod_lt n base ltac:(lia)).
  destruct (n <? base)%N; [exists (n mod base)%N; eauto with lia | apply Hgo; lia].
Qed.

Lemma prefix_0x_digits n : startswith (lower ("0x" +:+ digits 16 n)) "0x" = true.
Proof. unfold startswith. simpl. by destruct (lower (digits 16 n)). Qed.

Lemma non_space_digit d : (d < 16)%N → non_space (hex_digit d) = true.
Proof. intros Hd. unfold non_space. by destruct (hex_digit_val d Hd) as (_ & _ & ->). Qed.

(** Reading back what [hex()] prints, for every integer. *)
Lemma parse_hex z : parse_int 16 (hex z) = Some z.
Proof.
  assert (parse_nat 16 ("0x" +:+ digits 16 (Z.to_N (Z.abs z))) = Some (Z.to_N (Z.abs z))) as Hp.
  { unfold parse_nat, strip_prefix. simpl N.eqb. cbv iota. rewrite prefix_0x_digits.
    change (str_drop (String.length "0x") ("0x" +:+ digits 16 (Z.to_N (Z.abs z))))
      with (digits 16 (Z.to_N (Z.abs z))).
    rewrite <- (parse_digits_digits 16 (Z.to_N (Z.abs z)) false) by lia.
    destruct (digits_head 16 (Z.to_N (Z.abs z)) ltac:(lia)) as (d & r & Hd & ->).
    cbn [parse_prefixed]. by destruct (hex_digit_val d Hd) as (_ & -> & _). }
  unfold parse_int, hex. rewrite strip_id.
  - destruct (Z.ltb_spec z 0); cbn [String.append]; [|].
    + change (String "0" (String "x" (digits 16 (Z.to_N (Z.abs z)))))
        with ("0x" +:+ digits 16 (Z.to_N (Z.abs z))).
      rewrite Hp. simpl. f_equal. lia.
    + change (String "0" (String "x" (digits 16 (Z.to_N (Z.abs z)))))
        with ("0x" +:+ digits 16 (Z.to_N (Z.abs z))).
      rewrite Hp. simpl. f_equal. lia.
  - rewrite str_all_app, digits_all by (lia || exact non_space_digit).
    by destruct (z <? 0)%Z.
Qed.

(** Reading back what [str()] prints, for every integer. *)
Lemma parse_str_of_Z z : parse_int 10 (str_of_Z z) = Some z.
Proof.
  unfold parse_int, str_of_Z. rewrite strip_id.
  - destruct (digits_head 10 (Z.to_N (Z.abs z)) ltac:(lia)) as (d & r & Hd & Heq).
    assert (parse_nat 10 (String (hex_digit d) r) = Some (Z.to_N (Z.abs z))) as Hp.
    { rewrite <- Heq. unfold parse_nat. simpl N.eqb. cbv iota. by apply parse_digits_digits. }
    rewrite Heq. destruct (Z.ltb_spec z 0); cbn [String.append].
    + rewrite Hp. simpl. f_equal. lia.
    + destruct (hex_digit_val d Hd) as (Hv & _).
      assert (hex_digit d ≠ "-"%char ∧ hex_digit d ≠ "+"%char) as [Hm Hpl].
      { split; intros E; rewrite E in Hv; vm_compute in Hv; done. }
      transitivity (option_map Z.of_N (parse_nat 10 (String (hex_digit d) r))).
      * destruct (hex_digit d) as [[] [] [] [] [] [] [] []]; done.
      * rewrite Hp. simpl. f_equal. lia.
  - rewrite str_all_app, digits_all by (lia || exact non_space_digit).
    by destruct (z <? 0)%Z.
Qed.

#[export] Hint Rewrite unhexlify_hexlify parse_hex parse_str_of_Z str_rev_involutive : py.
