(* ===== verification/Numbers.v ===== *)
(** * Python's numbers: [decimal.Decimal] and binary64 [float]

    The node APIs carry coin amounts as [Decimal] (the proxies parse JSON
    numbers with [parse_float=decimal.Decimal]) and the framework adds,
    subtracts, halves and quantizes them in the default decimal context
    (28 significant digits, ROUND_HALF_EVEN).  [float] appears where the code
    calls [float()], [/] or [round()]; it is IEEE binary64, modelled by the
    Standard Library's executable [spec_float]. *)

From S2P Require Import Prelude PyStr.
From Stdlib Require Import SpecFloat QArith Ascii String.
From stdpp Require Import base list.
Local Open Scope Z_scope.

(** ** Decimals *)

Record decimal := Dec { d_coef : Z; d_exp : Z }.

#[export] Instance decimal_eq_dec : EqDecision decimal.
Proof. solve_decision. Defined.

Definition dec_prec : Z := 28.

Definition ndigits (n : Z) : Z := Z.of_nat (String.length (digits 10 (Z.to_N n))).

(** [a / b] to the nearest integer, ties to even, for [0 <= a], [0 < b]. *)
Definition div_half_even (a b : Z) : Z :=
  let q := a / b in
  let r := a mod b in
  if 2 * r <? b then q
  else if b <? 2 * r then q + 1
  else if Z.even q then q else q + 1.

Definition with_sign (s c : Z) : Z := if s <? 0 then - c else c.

(** Rounding to the context precision ([Decimal._fix]). *)
Definition dec_fix (d : decimal) : decimal :=
  let c := Z.abs (d_coef d) in
  let n := ndigits c in
  if n <=? dec_prec then d
  else let k := n - dec_prec in
       let q := div_half_even c (10 ^ k) in
       if dec_prec <? ndigits q
       then Dec (with_sign (d_coef d) (q / 10)) (d_exp d + k + 1)
       else Dec (with_sign (d_coef d) q) (d_exp d + k).

Definition dec_scale (e : Z) (d : decimal) : Z := d_coef d * 10 ^ (d_exp d - e).

Definition dec_add (a b : decimal) : decimal :=
  let e := Z.min (d_exp a) (d_exp b) in
  dec_fix (Dec (dec_scale e a + dec_scale e b) e).

Definition dec_sub (a b : decimal) : decimal :=
  let e := Z.min (d_exp a) (d_exp b) in
  dec_fix (Dec (dec_scale e a - dec_scale e b) e).

Definition dec_mul (a b : decimal) : decimal :=
  dec_fix (Dec (d_coef a * d_coef b) (d_exp a + d_exp b)).

Fixpoint strip_zeros (fuel : nat) (coeff exp ideal : Z) : Z * Z :=
  match fuel with
  | O => (coeff, exp)
  | S f => if (exp <? ideal) && (coeff mod 10 =? 0)
           then strip_zeros f (coeff / 10) (exp + 1) ideal
           else (coeff, exp)
  end.

(** [a / b] for a non-zero [b] ([Decimal.__truediv__]). *)
Definition dec_div (a b : decimal) : decimal :=
  let ideal := d_exp a - d_exp b in
  if d_coef a =? 0 then Dec 0 ideal
  else
    let ca := Z.abs (d_coef a) in
    let cb := Z.abs (d_coef b) in
    let shift := ndigits cb - ndigits ca + dec_prec + 1 in
    let num := if 0 <=? shift then ca * 10 ^ shift else ca in
    let den := if 0 <=? shift then cb else cb * 10 ^ (- shift) in
    let coeff := num / den in
    let rem := num mod den in
    let '(c, e) :=
      if rem =? 0 then strip_zeros (Z.to_nat (Z.abs shift + 1)) coeff (ideal - shift) ideal
      else (if coeff mod 5 =? 0 then coeff + 1 else coeff, ideal - shift) in
    dec_fix (Dec (with_sign (d_coef a * d_coef b) c) e).

Definition dec_compare (a b : decimal) : comparison :=
  let e := Z.min (d_exp a) (d_exp b) in
  Z.compare (dec_scale e a) (dec_scale e b).

Definition dec_ltb (a b : decimal) : bool :=
  match dec_compare a b with Lt => true | _ => false end.
Definition dec_eqb (a b : decimal) : bool :=
  match dec_compare a b with Eq => true | _ => false end.

(** [d.quantize(Decimal('1E e'), rounding=ROUND_DOWN)]; [None] is
    [decimal.InvalidOperation] (the result does not fit the precision). *)
Definition dec_quantize_down (d : decimal) (e : Z) : option decimal :=
  let c := if e <=? d_exp d then d_coef d * 10 ^ (d_exp d - e)
           else Z.quot (d_coef d) (10 ^ (e - d_exp d)) in
  if ndigits (Z.abs c) <=? dec_prec then Some (Dec c e) else None.

(** [round(d)]: the nearest integer, ties to even. *)
Definition dec_round (d : decimal) : Z :=
  if 0 <=? d_exp d then d_coef d * 10 ^ d_exp d
  else with_sign (d_coef d) (div_half_even (Z.abs (d_coef d)) (10 ^ (- d_exp d))).

(** [int(d)]: truncation. *)
Definition dec_trunc (d : decimal) : Z :=
  if 0 <=? d_exp d then d_coef d * 10 ^ d_exp d else Z.quot (d_coef d) (10 ^ (- d_exp d)).

Definition dec_Q (d : decimal) : Q :=
  if 0 <=? d_exp d then inject_Z (d_coef d * 10 ^ d_exp d)
  else (d_coef d # Z.to_pos (10 ^ (- d_exp d)))%Q.

(** [str(d)] *)
Definition dec_str (d : decimal) : string :=
  let ds := digits 10 (Z.to_N (Z.abs (d_coef d))) in
  let len := Z.of_nat (String.length ds) in
  let left := d_exp d + len in
  let dot := if (d_exp d <=? 0) && (-6 <? left) then left else 1 in
  let int_part := if dot <=? 0 then "0"
                  else if len <=? dot then ds +:+ str_repeat "0"%char (Z.to_nat (dot - len))
                  else str_take (Z.to_nat dot) ds in
  let frac := if dot <=? 0 then "." +:+ str_repeat "0"%char (Z.to_nat (- dot)) +:+ ds
              else if len <=? dot then "" else "." +:+ str_drop (Z.to_nat dot) ds in
  let e := left - dot in
  (if d_coef d <? 0 then "-" else "") +:+ int_part +:+ frac
  +:+ (if e =? 0 then ""
       else "E" +:+ (if 0 <? e then "+" else "") +:+ str_of_Z e).

Example dec_str_ex :
  map dec_str [Dec 3322 (-2); Dec 1 (-8); Dec (-5) 3; Dec 123 0; Dec 0 (-8)]
  = ["33.22"; "1E-8"; "-5E+3"; "123"; "0E-8"].
Proof. reflexivity. Qed.

(** ** Floats *)

Definition f_prec : Z := 53.
Definition f_emax : Z := 1024.

Abbreviation float64 := spec_float.

#[export] Instance float_eq_dec : EqDecision float64.
Proof. solve_decision. Defined.

Definition float_of_Z (z : Z) : float64 := binary_normalize f_prec f_emax z 0 false.

(** [float(Decimal)] and float literals: the binary64 number nearest to [c * 10^e]. *)
Definition float_of_dec (d : decimal) : float64 :=
  if 0 <=? d_exp d then float_of_Z (d_coef d * 10 ^ d_exp d)
  else match d_coef d, 10 ^ (- d_exp d) with
       | Zpos c, Zpos p => SFdiv f_prec f_emax (S754_finite false c 0) (S754_finite false p 0)
       | Zneg c, Zpos p => SFdiv f_prec f_emax (S754_finite true c 0) (S754_finite false p 0)
       | _, _ => S754_zero false
       end.

Definition float_mul (x y : float64) : float64 := SFmul f_prec f_emax x y.
Definition float_div (x y : float64) : float64 := SFdiv f_prec f_emax x y.
Definition float_add (x y : float64) : float64 := SFadd f_prec f_emax x y.
Definition float_sub (x y : float64) : float64 := SFsub f_prec f_emax x y.

(** [a / b] on integers: the nearest binary64 number; [None] is [ZeroDivisionError]. *)
Definition int_truediv (a b : Z) : option float64 :=
  match a, b with
  | _, Z0 => None
  | Z0, _ => Some (S754_zero false)
  | Zpos p, Zpos q => Some (float_div (S754_finite false p 0) (S754_finite false q 0))
  | Zneg p, Zpos q => Some (float_div (S754_finite true p 0) (S754_finite false q 0))
  | Zpos p, Zneg q => Some (float_div (S754_finite true p 0) (S754_finite false q 0))
  | Zneg p, Zneg q => Some (float_div (S754_finite false p 0) (S754_finite false q 0))
  end.

Definition float_Q (x : float64) : option Q :=
  match x with
  | S754_zero _ => Some 0%Q
  | S754_finite s m e =>
      let z := if s then Zneg m else Zpos m in
      Some (if 0 <=? e then inject_Z (z * 2 ^ e) else (z # Z.to_pos (2 ^ (- e)))%Q)
  | _ => None
  end.

(** [int(x)]: truncation ([None]: infinity and NaN raise). *)
Definition float_trunc (x : float64) : option Z :=
  match float_Q x with Some q => Some (Z.quot (Qnum q) (Zpos (Qden q))) | None => None end.

(** [round(x)]: nearest integer, ties to even. *)
Definition float_round (x : float64) : option Z :=
  match float_Q x with
  | Some q => Some (with_sign (Qnum q) (div_half_even (Z.abs (Qnum q)) (Zpos (Qden q))))
  | None => None
  end.

(** [repr(x)]: the shortest decimal that reads back as [x]. *)
Fixpoint lead_zeros (fuel : nat) (num den j : Z) : Z :=
  match fuel with
  | O => j
  | S f => if den <=? num then j else lead_zeros f (num * 10) den (j + 1)
  end.

(** [k] with [10^(k-1) <= num/den < 10^k]. *)
Definition dec_point (num den : Z) : Z :=
  if den <=? num then ndigits (num / den) else 1 - lead_zeros 400 num den 0.

Fixpoint strip_tail0 (s : string) : string :=
  match s with
  | EmptyString => EmptyString
  | String c s' =>
      let r := strip_tail0 s' in
      if String.eqb r "" && Ascii.eqb c "0"%char then EmptyString else String c r
  end.

Fixpoint shortest (fuel n : nat) (x : float64) (num den k : Z) : string * Z :=
  let e := k - Z.of_nat n in
  let d := if 0 <=? e then div_half_even num (den * 10 ^ e)
           else div_half_even (num * 10 ^ (- e)) den in
  let ds := digits 10 (Z.to_N d) in
  let res := (strip_tail0 ds, k + (Z.of_nat (String.length ds) - Z.of_nat n)) in
  match fuel with
  | O => res
  | S f => if bool_decide (float_of_dec (Dec d e) = x) then res
           else shortest f (S n) x num den k
  end.

Definition pad2 (s : string) : string := if (String.length s <? 2)%nat then "0" +:+ s else s.

Definition float_repr (x : float64) : string :=
  match x with
  | S754_nan => "nan"
  | S754_infinity s => if s then "-inf" else "inf"
  | S754_zero s => if s then "-0.0" else "0.0"
  | S754_finite s m e =>
      let num := if 0 <=? e then Zpos m * 2 ^ e else Zpos m in
      let den := if 0 <=? e then 1 else 2 ^ (- e) in
      let '(ds, pt) := shortest 16 1 (S754_finite false m e) num den (dec_point num den) in
      let len := Z.of_nat (String.length ds) in
      (if s then "-" else "") +:+
      (if (-4 <? pt) && (pt <=? 16) then
         if pt <=? 0 then "0." +:+ str_repeat "0"%char (Z.to_nat (- pt)) +:+ ds
         else if len <=? pt then ds +:+ str_repeat "0"%char (Z.to_nat (pt - len)) +:+ ".0"
         else str_take (Z.to_nat pt) ds +:+ "." +:+ str_drop (Z.to_nat pt) ds
       else
         str_take 1 ds +:+ (if len <=? 1 then "" else "." +:+ str_drop 1 ds) +:+ "e"
         +:+ (if pt - 1 <? 0 then "-" else "+") +:+ pad2 (digits 10 (Z.to_N (Z.abs (pt - 1)))))
  end.

Example float_repr_ex :
  map (fun d => float_repr (float_of_dec d))
    [Dec 1 (-4); Dec 1 (-5); Dec 3322 (-2); Dec 2000000000000003 (-8); Dec 1 16; Dec 15 14;
     Dec (-25) (-1); Dec 1 (-1)]
  = ["0.0001"; "1e-05"; "33.22"; "20000000.00000003"; "1e+16"; "1500000000000000.0"; "-2.5"; "0.1"].
Proof. vm_compute. reflexivity. Qed.

(** ** Exactness of decimal arithmetic below the precision *)

Lemma digits_go_length fuel n acc (k : nat) :
  (n < 10 ^ N.of_nat (S k))%N →
  (String.length (digits_go fuel 10 n acc) <= String.length acc + S k)%nat.
Proof.
  revert n acc k. induction fuel as [|f IH]; intros n acc k Hn; simpl; [lia|].
  destruct (N.ltb_spec n 10) as [?|?]; simpl; [lia|].
  destruct k as [|k]; [simpl in Hn; lia|].
  rewrite (IH (n / 10)%N _ k); simpl; [lia|].
  apply N.Div0.div_lt_upper_bound.
  rewrite (Nat2N.inj_succ (S k)), N.pow_succ_r' in Hn. done.
Qed.

Lemma ndigits_le n k : 0 <= n < 10 ^ k → 1 <= k → ndigits n <= k.
Proof.
  intros [H0 Hn] Hk. unfold ndigits, digits.
  pose proof (digits_go_length (S (N.to_nat (N.log2 (Z.to_N n)))) (Z.to_N n) ""
                (Z.to_nat (k - 1))) as H.
  cbn [String.length] in H.
  assert (Z.to_N n < 10 ^ N.of_nat (S (Z.to_nat (k - 1))))%N as Hlt.
  { apply N2Z.inj_lt. rewrite Z2N.id by done. rewrite N2Z.inj_pow.
    replace (Z.of_N (N.of_nat (S (Z.to_nat (k - 1))))) with k by lia. done. }
  specialize (H Hlt). lia.
Qed.

Lemma dec_fix_small d : Z.abs (d_coef d) < 10 ^ 28 → dec_fix d = d.
Proof.
  intros H. unfold dec_fix.
  pose proof (ndigits_le (Z.abs (d_coef d)) 28 ltac:(lia) ltac:(lia)) as Hn.
  unfold dec_prec. by rewrite (proj2 (Z.leb_le _ _) Hn).
Qed.

(** [in_zat d z]: the decimal [d] is exactly [z] hundred-millionths, the
    smallest unit of the coin (a zatoshi). *)
Definition in_zat (d : decimal) (z : Z) : Prop :=
  -8 <= d_exp d ∧ d_coef d * 10 ^ (d_exp d + 8) = z.

Definition zat_limit : Z := 10 ^ 26.

Lemma pow10_pos k : 0 <= k → 0 < 10 ^ k.
Proof. intros. by apply Z.pow_pos_nonneg. Qed.

Lemma in_zat_scale d z e :
  in_zat d z → -8 <= e <= d_exp d → dec_scale e d * 10 ^ (e + 8) = z.
Proof.
  intros [Hd <-] He. unfold dec_scale. rewrite <- Z.mul_assoc, <- Z.pow_add_r by lia.
  do 2 f_equal. lia.
Qed.

Lemma scaled_abs_le c z k : 0 <= k → c * 10 ^ k = z → Z.abs c <= Z.abs z.
Proof. intros Hk <-. rewrite Z.abs_mul. pose proof (pow10_pos k Hk). nia. Qed.

Lemma dec_add_zat a b x y :
  in_zat a x → in_zat b y → Z.abs x < zat_limit → Z.abs y < zat_limit →
  in_zat (dec_add a b) (x + y).
Proof.
  intros Ha Hb Hx Hy. unfold dec_add. set (e := Z.min (d_exp a) (d_exp b)).
  assert (-8 <= e) by (unfold in_zat in *; lia).
  pose proof (in_zat_scale a x e Ha ltac:(lia)) as Ea.
  pose proof (in_zat_scale b y e Hb ltac:(lia)) as Eb.
  assert ((dec_scale e a + dec_scale e b) * 10 ^ (e + 8) = x + y) as Es by lia.
  rewrite dec_fix_small; [split; simpl; [lia|exact Es]|].
  pose proof (scaled_abs_le _ _ (e + 8) ltac:(lia) Es). unfold zat_limit in *. simpl. lia.
Qed.

Lemma dec_sub_zat a b x y :
  in_zat a x → in_zat b y → Z.abs x < zat_limit → Z.abs y < zat_limit →
  in_zat (dec_sub a b) (x - y).
Proof.
  intros Ha Hb Hx Hy. unfold dec_sub. set (e := Z.min (d_exp a) (d_exp b)).
  assert (-8 <= e) by (unfold in_zat in *; lia).
  pose proof (in_zat_scale a x e Ha ltac:(lia)) as Ea.
  pose proof (in_zat_scale b y e Hb ltac:(lia)) as Eb.
  assert ((dec_scale e a - dec_scale e b) * 10 ^ (e + 8) = x - y) as Es by lia.
  rewrite dec_fix_small; [split; simpl; [lia|exact Es]|].
  pose proof (scaled_abs_le _ _ (e + 8) ltac:(lia) Es). unfold zat_limit in *. simpl. lia.
Qed.

Lemma dec_compare_zat a b x y :
  in_zat a x → in_zat b y → dec_compare a b = Z.compare x y.
Proof.
  intros Ha Hb. unfold dec_compare. set (e := Z.min (d_exp a) (d_exp b)).
  assert (-8 <= e) by (unfold in_zat in *; lia).
  rewrite <- (in_zat_scale a x e Ha ltac:(lia)), <- (in_zat_scale b y e Hb ltac:(lia)).
  apply Zmult_compare_compat_r. pose proof (pow10_pos (e + 8)). lia.
Qed.

Lemma dec_ltb_zat a b x y : in_zat a x → in_zat b y → dec_ltb a b = (x <? y).
Proof. intros Ha Hb. unfold dec_ltb. rewrite (dec_compare_zat a b x y) by done. done. Qed.

(** The coefficient a decimal of [z] zatoshis can have. *)
Lemma in_zat_coef d z : in_zat d z → Z.abs (d_coef d) <= Z.abs z.
Proof. intros [? ?]. eapply scaled_abs_le; [|done]. lia. Qed.

Lemma strip_zeros_step (n fuel : nat) a e ideal :
  e + Z.of_nat n <= ideal →
  strip_zeros (n + fuel) (a * 10 ^ Z.of_nat n) e ideal = strip_zeros fuel a (e + Z.of_nat n) ideal.
Proof.
  revert a e. induction n as [|n IH]; intros a e He.
  - simpl. f_equal; lia.
  - cbn [strip_zeros Nat.add].
    replace (a * 10 ^ Z.of_nat (S n)) with (a * 10 ^ Z.of_nat n * 10)
      by (rewrite Nat2Z.inj_succ, Z.pow_succ_r by lia; lia).
    rewrite Z_mod_mult, Z.div_mul by lia.
    rewrite (proj2 (Z.ltb_lt _ _)) by lia. simpl andb. cbv iota.
    rewrite IH by lia. f_equal. lia.
Qed.

Lemma ndigits_pos n : 1 <= ndigits n.
Proof.
  unfold ndigits. destruct (digits_head 10 (Z.to_N n)) as (d & r & _ & ->); [lia|]. simpl. lia.
Qed.

(** Halving is exact: an even coefficient is halved, an odd one gets one more
    decimal place. *)
Lemma dec_half d :
  0 < d_coef d < 10 ^ 27 →
  dec_div d (Dec 2 0) =
  if Z.even (d_coef d) then Dec (d_coef d / 2) (d_exp d) else Dec (5 * d_coef d) (d_exp d - 1).
Proof.
  intros Hc. unfold dec_div. cbn [d_coef d_exp].
  rewrite (proj2 (Z.eqb_neq _ _)) by lia.
  change (ndigits (Z.abs 2)) with 1. unfold dec_prec.
  rewrite (Z.abs_eq (d_coef d)), (Z.abs_eq 2) by lia.
  pose proof (ndigits_le (d_coef d) 27 ltac:(lia) ltac:(lia)).
  pose proof (ndigits_pos (d_coef d)).
  set (s := 1 - ndigits (d_coef d) + 28 + 1). assert (3 <= s <= 29) as Hs by lia. clearbody s.
  rewrite (proj2 (Z.leb_le _ _)) by lia. cbv zeta.
  replace (d_coef d * 10 ^ s) with (5 * d_coef d * 10 ^ Z.of_nat (Z.to_nat (s - 1)) * 2)
    by (replace s with (Z.succ (s - 1)) at 2 by lia; rewrite Z.pow_succ_r, Z2Nat.id by lia; lia).
  rewrite Z_mod_mult, Z.div_mul by lia. simpl Z.eqb. cbv iota.
  replace (Z.to_nat (Z.abs s + 1)) with (Z.to_nat (s - 1) + 2)%nat by lia.
  rewrite strip_zeros_step by lia. rewrite Z2Nat.id by lia.
  replace (d_exp d - 0 - s + (s - 1)) with (d_exp d - 1) by lia. cbn [strip_zeros].
  rewrite (proj2 (Z.ltb_lt (d_exp d - 1) (d_exp d - 0))) by lia. simpl andb.
  unfold with_sign. rewrite (proj2 (Z.ltb_ge (d_coef d * 2) 0)) by lia.
  pose proof (Zeven_mod (d_coef d)) as Heven.
  destruct (Z.even (d_coef d)) eqn:Ev.
  - apply Z.even_spec in Ev as [m Hm].
    replace (5 * d_coef d) with (m * 10) by lia. rewrite Z_mod_mult, Z.div_mul by lia.
    simpl Z.eqb. cbv iota.
    rewrite (proj2 (Z.ltb_ge _ _)) by lia. simpl andb. cbv iota.
    rewrite dec_fix_small by (simpl; lia).
    rewrite Hm, Z.mul_comm, Z.div_mul by lia. f_equal. lia.
  - assert (5 * d_coef d mod 10 <> 0) as Hne.
    { intros Hz. apply Z.mod_divide in Hz as [q Hq]; [|lia].
      assert (d_coef d = 2 * q) as E by lia. rewrite E in Ev. by rewrite Z.even_mul in Ev. }
    rewrite (proj2 (Z.eqb_neq _ _)) by done. cbv iota.
    rewrite dec_fix_small by (simpl; lia). done.
Qed.

(** [Decimal(change / 2).quantize(Decimal('0.00000001'), rounding=ROUND_DOWN)] is the
    integer half of the zatoshis. *)
Lemma dec_half_quantized d z :
  in_zat d z → 0 < z < zat_limit →
  dec_quantize_down (dec_div d (Dec 2 0)) (-8) = Some (Dec (z / 2) (-8)).
Proof.
  intros Hd Hz. pose proof (in_zat_coef d z Hd) as Hc. destruct Hd as [He Hv].
  assert (0 < d_coef d) by (pose proof (pow10_pos (d_exp d + 8)); nia).
  unfold zat_limit in *. rewrite dec_half by lia.
  assert (∀ c, 0 <= c <= z → (if ndigits (Z.abs c) <=? dec_prec then Some (Dec c (-8)) else None)
                             = Some (Dec c (-8))) as Hfit.
  { intros c Hcz. pose proof (ndigits_le (Z.abs c) 28 ltac:(lia) ltac:(lia)).
    unfold dec_prec. by rewrite (proj2 (Z.leb_le _ _)) by lia. }
  assert (z / 2 <= z) by (apply Z.div_le_upper_bound; lia).
  assert (0 <= z / 2) by (apply Z.div_pos; lia).
  unfold dec_quantize_down. destruct (Z.even (d_coef d)) eqn:Ev; cbn [d_coef d_exp].
  - apply Z.even_spec in Ev as [m Hm]. rewrite (proj2 (Z.leb_le (-8) (d_exp d))) by lia.
    replace (d_coef d / 2 * 10 ^ (d_exp d - -8)) with (z / 2); [by apply Hfit|].
    replace (d_coef d / 2) with m by (apply Z.div_unique_exact; lia).
    symmetry. apply Z.div_unique_exact; [lia|]. rewrite <- Hv, Hm.
    replace (d_exp d - -8) with (d_exp d + 8) by lia. lia.
  - destruct (Z.leb_spec (-8) (d_exp d - 1)) as [Hge|Hlt].
    + replace (5 * d_coef d * 10 ^ (d_exp d - 1 - -8)) with (z / 2); [by apply Hfit|].
      symmetry. apply Z.div_unique_exact; [lia|]. rewrite <- Hv.
      replace (d_exp d + 8) with (Z.succ (d_exp d - 1 - -8)) by lia.
      rewrite Z.pow_succ_r by lia. lia.
    + assert (d_exp d = -8) as E by lia. rewrite E in Hv |- *.
      change (-8 - (-8 - 1)) with 1. change (10 ^ 1) with 10.
      change (-8 + 8) with 0 in Hv. rewrite Z.pow_0_r, Z.mul_1_r in Hv. subst z.
      replace (Z.quot (5 * d_coef d) 10) with (d_coef d / 2); [by apply Hfit|].
      rewrite Z.quot_div_nonneg by lia.
      replace 10 with (5 * 2) by lia. rewrite Z.div_mul_cancel_l by lia. done.
Qed.
