(* ===== verification/PyVal.v ===== *)
(** * Python values, exceptions and the operations the code applies to them

    The framework is dynamically typed: every node response is a nested
    [dict]/[list] of JSON data that the code indexes, compares and adds.
    [pyval] is that universe; the operations below follow the language:
    indexing raises [KeyError]/[IndexError]/[TypeError], [==] is numeric across
    [bool], [int], [Decimal] and [float] and ignores the order of [dict] keys,
    arithmetic between [Decimal] and [float] is a [TypeError]. *)

From S2P Require Import Prelude PyStr Numbers.
From Stdlib Require Import SpecFloat QArith Ascii String.
From stdpp Require Import base list.
Local Open Scope Z_scope.

(** ** Values *)

Unset Elimination Schemes.
Inductive pyval : Type :=
| PNone
| PBool (b : bool)
| PInt (z : Z)
| PDec (d : decimal)
| PFloat (x : float64)
| PStr (s : string)
| PBytes (b : string)
| PList (l : list pyval)
| PTuple (l : list pyval)
| PDict (d : list (string * pyval)).
Set Elimination Schemes.

Section pyval_ind.
Variable P : pyval → Prop.
Hypothesis Hnone : P PNone.
Hypothesis Hbool : ∀ b, P (PBool b).
Hypothesis Hint : ∀ z, P (PInt z).
Hypothesis Hdec : ∀ d, P (PDec d).
Hypothesis Hfloat : ∀ x, P (PFloat x).
Hypothesis Hstr : ∀ s, P (PStr s).
Hypothesis Hbytes : ∀ b, P (PBytes b).
Hypothesis Hlist : ∀ l, Forall P l → P (PList l).
Hypothesis Htuple : ∀ l, Forall P l → P (PTuple l).
Hypothesis Hdict : ∀ d, Forall (λ kv, P kv.2) d → P (PDict d).

(** Induction that reaches the elements of lists, tuples and dictionaries. *)
Fixpoint pyval_nested_ind (v : pyval) : P v :=
  let go := fix go (l : list pyval) : Forall P l :=
    match l with
    | [] => Forall_nil_2 P
    | x :: l' => Forall_cons_2 P x l' (pyval_nested_ind x) (go l')
    end in
  match v with
  | PNone => Hnone
  | PBool b => Hbool b
  | PInt z => Hint z
  | PDec d => Hdec d
  | PFloat x => Hfloat x
  | PStr s => Hstr s
  | PBytes b => Hbytes b
  | PList l => Hlist l (go l)
  | PTuple l => Htuple l (go l)
  | PDict d => Hdict d
      ((fix god (d : list (string * pyval)) : Forall (λ kv, P kv.2) d :=
          match d with
          | [] => Forall_nil_2 _
          | kv :: d' => Forall_cons_2 _ kv d' (pyval_nested_ind kv.2) (god d')
          end) d)
  end.
End pyval_ind.

#[export] Instance pyval_eq_dec : EqDecision pyval.
Proof.
  refine (fix go (v w : pyval) : Decision (v = w) :=
    let gol := list_eq_dec (dec := go) in
    let gop := list_eq_dec (dec := prod_eq_dec (EqDecision1 := go)) in
    match v, w with
    | PNone, PNone => left eq_refl
    | PBool a, PBool b => cast_if (decide (a = b))
    | PInt a, PInt b => cast_if (decide (a = b))
    | PDec a, PDec b => cast_if (decide (a = b))
    | PFloat a, PFloat b => cast_if (decide (a = b))
    | PStr a, PStr b => cast_if (decide (a = b))
    | PBytes a, PBytes b => cast_if (decide (a = b))
    | PList a, PList b => cast_if (gol a b)
    | PTuple a, PTuple b => cast_if (gol a b)
    | PDict a, PDict b => cast_if (gop a b)
    | _, _ => right _
    end); abstract congruence.
Defined.

(** ** Exceptions *)

Inductive exn : Type :=
| TimeoutException (operation : string)
| AssertionError (msg : string)
| RuntimeError (msg : string)
| EvmExecutionError (msg : string)
| GenericException (msg : string)
| ValueError (msg : string)
| TypeError
| KeyError (key : string)
| IndexError
| AttributeError (name : string)
| UnboundLocalError (name : string)
| ZeroDivisionError
| InvalidOperation
| CalledProcessError (returncode : Z)
| OSError (what : string)
| HttpException (class : string) (line : string) (errno : Z)
| JSONRPCException (error : pyval)
| SCAPIException (error : string)
| SystemExit (code : Z).

#[export] Instance exn_eq_dec : EqDecision exn.
Proof. solve_decision. Defined.

(** [type(e).__name__] *)
Definition exn_name (e : exn) : string :=
  match e with
  | TimeoutException _ => "TimeoutException"
  | AssertionError _ => "AssertionError"
  | RuntimeError _ => "RuntimeError"
  | EvmExecutionError _ => "EvmExecutionError"
  | GenericException _ => "Exception"
  | ValueError _ => "ValueError"
  | TypeError => "TypeError"
  | KeyError _ => "KeyError"
  | IndexError => "IndexError"
  | AttributeError _ => "AttributeError"
  | UnboundLocalError _ => "UnboundLocalError"
  | ZeroDivisionError => "ZeroDivisionError"
  | InvalidOperation => "InvalidOperation"
  | CalledProcessError _ => "CalledProcessError"
  | OSError _ => "OSError"
  | HttpException c _ _ => c
  | JSONRPCException _ => "JSONRPCException"
  | SCAPIException _ => "SCAPIException"
  | SystemExit _ => "SystemExit"
  end.

(** What [except Exception] catches: everything but [SystemExit]. *)
Definition is_Exception (e : exn) : bool :=
  match e with SystemExit _ => false | _ => true end.

(** ** Results of running code: a value, an exception, or a loop cut short *)

Inductive outcome (A : Type) : Type :=
| Val (a : A)
| Exc (e : exn)
| NoFuel.
Arguments Val {A} a.
Arguments Exc {A} e.
Arguments NoFuel {A}.

Definition obind {A B} (o : outcome A) (f : A → outcome B) : outcome B :=
  match o with Val a => f a | Exc e => Exc e | NoFuel => NoFuel end.

Definition of_opt {A} (e : exn) (o : option A) : outcome A :=
  match o with Some a => Val a | None => Exc e end.

Fixpoint omapM {A B} (f : A → outcome B) (l : list A) : outcome (list B) :=
  match l with
  | [] => Val []
  | x :: l' => obind (f x) (λ y, obind (omapM f l') (λ ys, Val (y :: ys)))
  end.

Notation "'let?' x := o 'in' k" := (obind o (λ x, k))
  (at level 10, x name, o at level 100, k at level 200) : py_scope.

Lemma obind_Val_inv {A B} (o : outcome A) (f : A → outcome B) b :
  obind o f = Val b → ∃ a, o = Val a ∧ f a = Val b.
Proof. destruct o; simpl; eauto; done. Qed.

Lemma omapM_cons_inv {A B} (f : A → outcome B) x l ys :
  omapM f (x :: l) = Val ys → ∃ y ys', ys = y :: ys' ∧ f x = Val y ∧ omapM f l = Val ys'.
Proof. simpl. intros (y & ? & (ys' & ? & [= <-])%obind_Val_inv)%obind_Val_inv. eauto. Qed.

(** ** Numbers *)

Definition num_Q (v : pyval) : option Q :=
  match v with
  | PBool b => Some (if b then 1%Q else 0%Q)
  | PInt z => Some (inject_Z z)
  | PDec d => Some (dec_Q d)
  | PFloat x => float_Q x
  | _ => None
  end.

Definition int_of_bool (b : bool) : Z := if b then 1 else 0.

(** [bool] is a subclass of [int]. *)
Definition as_int (v : pyval) : option Z :=
  match v with
  | PBool b => Some (int_of_bool b)
  | PInt z => Some z
  | _ => None
  end.

Definition as_dec (v : pyval) : option decimal :=
  match v with
  | PDec d => Some d
  | _ => match as_int v with Some z => Some (Dec z 0) | None => None end
  end.

Definition as_float (v : pyval) : option float64 :=
  match v with
  | PFloat x => Some x
  | _ => match as_int v with Some z => Some (float_of_Z z) | None => None end
  end.

(** Binary arithmetic: on [int]s, then [Decimal] with [int], then [float] with
    [int]; anything else is a [TypeError]. *)
Definition arith (fi : Z → Z → pyval) (fd : decimal → decimal → pyval)
    (ff : float64 → float64 → pyval) (a b : pyval) : outcome pyval :=
  match as_int a, as_int b with
  | Some x, Some y => Val (fi x y)
  | _, _ =>
      match as_dec a, as_dec b with
      | Some x, Some y => Val (fd x y)
      | _, _ =>
          match as_float a, as_float b with
          | Some x, Some y => Val (ff x y)
          | _, _ => Exc TypeError
          end
      end
  end.

Definition py_add (a b : pyval) : outcome pyval :=
  match a, b with
  | PStr s, PStr t => Val (PStr (s +:+ t))
  | PList l, PList k => Val (PList (l ++ k))
  | _, _ => arith (λ x y, PInt (x + y)) (λ x y, PDec (dec_add x y))
                  (λ x y, PFloat (float_add x y)) a b
  end.

Definition py_sub : pyval → pyval → outcome pyval :=
  arith (λ x y, PInt (x - y)) (λ x y, PDec (dec_sub x y)) (λ x y, PFloat (float_sub x y)).

Definition py_mul : pyval → pyval → outcome pyval :=
  arith (λ x y, PInt (x * y)) (λ x y, PDec (dec_mul x y)) (λ x y, PFloat (float_mul x y)).

(** [a / b] *)
Definition py_truediv (a b : pyval) : outcome pyval :=
  match num_Q b with
  | Some q =>
      if Qeq_bool q 0%Q
      then match a, b with PDec _, _ | _, PDec _ => Exc InvalidOperation | _, _ => Exc ZeroDivisionError end
      else match as_int a, as_int b with
           | Some x, Some y =>
               match int_truediv x y with Some f => Val (PFloat f) | None => Exc ZeroDivisionError end
           | _, _ =>
               match as_dec a, as_dec b with
               | Some x, Some y => Val (PDec (dec_div x y))
               | _, _ => match as_float a, as_float b with
                         | Some x, Some y => Val (PFloat (float_div x y))
                         | _, _ => Exc TypeError
                         end
               end
           end
  | None => Exc TypeError
  end.

(** [int(v)] *)
Definition py_int (v : pyval) : outcome Z :=
  match v with
  | PBool b => Val (int_of_bool b)
  | PInt z => Val z
  | PDec d => Val (dec_trunc d)
  | PFloat x => of_opt (ValueError "") (float_trunc x)
  | PStr s => of_opt (ValueError "") (parse_int 10 s)
  | _ => Exc TypeError
  end.

(** [int(v, base)] *)
Definition py_int_base (v : pyval) (base : N) : outcome Z :=
  match v with
  | PStr s => of_opt (ValueError "") (parse_int base s)
  | _ => Exc TypeError
  end.

(** [round(v)] *)
Definition py_round (v : pyval) : outcome Z :=
  match v with
  | PBool b => Val (int_of_bool b)
  | PInt z => Val z
  | PDec d => Val (dec_round d)
  | PFloat x => of_opt (ValueError "") (float_round x)
  | _ => Exc TypeError
  end.

(** ** Equality and order *)

Fixpoint py_eqb (a b : pyval) : bool :=
  let eql := fix eql (l k : list pyval) : bool :=
    match l, k with
    | [], [] => true
    | x :: l', y :: k' => py_eqb x y && eql l' k'
    | _, _ => false
    end in
  match a, b with
  | PNone, PNone => true
  | PStr s, PStr t => String.eqb s t
  | PBytes s, PBytes t => String.eqb s t
  | PList l, PList k => eql l k
  | PTuple l, PTuple k => eql l k
  | PDict d, PDict e =>
      (length d =? length e)%nat &&
      (fix eqd (d : list (string * pyval)) : bool :=
         match d with
         | [] => true
         | (k, x) :: d' =>
             match dict_get k e with
             | Some y => py_eqb x y && eqd d'
             | None => false
             end
         end) d
  | _, _ => match num_Q a, num_Q b with
            | Some x, Some y => Qeq_bool x y
            | _, _ => false
            end
  end.

Definition py_neqb (a b : pyval) : bool := negb (py_eqb a b).

(** [a < b] on numbers and on strings. *)
Definition py_lt (a b : pyval) : outcome bool :=
  match a, b with
  | PStr s, PStr t => Val (String.ltb s t)
  | _, _ => match num_Q a, num_Q b with
            | Some x, Some y => Val (match Qcompare x y with Lt => true | _ => false end)
            | _, _ => Exc TypeError
            end
  end.

Definition py_gt (a b : pyval) : outcome bool := py_lt b a.
Definition py_le (a b : pyval) : outcome bool :=
  match py_lt b a with Val r => Val (negb r) | Exc e => Exc e | NoFuel => NoFuel end.
Definition py_ge (a b : pyval) : outcome bool := py_le b a.

(** Truth value of an object. *)
Definition truthy (v : pyval) : bool :=
  match v with
  | PNone => false
  | PBool b => b
  | PStr s | PBytes s => negb (String.eqb s "")
  | PList l | PTuple l => match l with [] => false | _ => true end
  | PDict d => match d with [] => false | _ => true end
  | _ => match num_Q v with Some q => negb (Qeq_bool q 0%Q) | None => true end
  end.

(** ** Containers *)

(** [v[k]] with a string key. *)
Definition getitem (v : pyval) (k : string) : outcome pyval :=
  match v with
  | PDict d => of_opt (KeyError k) (dict_get k d)
  | _ => Exc TypeError
  end.

(** [v[k1][k2]...] *)
Definition getpath (v : pyval) (ks : list string) : outcome pyval :=
  foldl (λ o k, obind o (λ w, getitem w k)) (Val v) ks.

(** [l[i]], negative indices counting from the end. *)
Definition list_index {A} (l : list A) (i : Z) : outcome A :=
  let n := Z.of_nat (length l) in
  let j := if i <? 0 then i + n else i in
  if (0 <=? j) && (j <? n) then of_opt IndexError (l !! Z.to_nat j) else Exc IndexError.

Lemma list_index_nat {A} (l : list A) i : list_index l (Z.of_nat i) = of_opt IndexError (l !! i).
Proof.
  unfold list_index. replace (Z.of_nat i <? 0) with false by (symmetry; apply Z.ltb_ge; lia). rewrite Nat2Z.id.
  destruct (l !! i) as [x|] eqn:E.
  - apply lookup_lt_Some in E. replace (0 <=? Z.of_nat i) with true by (symmetry; apply Z.leb_le; lia).
    by replace (Z.of_nat i <? Z.of_nat (length l)) with true by (symmetry; apply Z.ltb_lt; lia).
  - by destruct (_ && _).
Qed.

Lemma list_index_lookup {A} (l : list A) i x : l !! i = Some x → list_index l (Z.of_nat i) = Val x.
Proof. intros E. by rewrite list_index_nat, E. Qed.

Definition getindex (v : pyval) (i : Z) : outcome pyval :=
  match v with
  | PList l | PTuple l => list_index l i
  | PStr s => obind (list_index (String.list_ascii_of_string s) i)
                    (λ c, Val (PStr (String c "")))
  | _ => Exc TypeError
  end.

Definition py_len (v : pyval) : outcome Z :=
  match v with
  | PStr s | PBytes s => Val (Z.of_nat (String.length s))
  | PList l | PTuple l => Val (Z.of_nat (length l))
  | PDict d => Val (Z.of_nat (length d))
  | _ => Exc TypeError
  end.

(** Iterating over a value: the elements of a list or tuple, the keys of a
    dictionary, the characters of a string. *)
Definition py_iter (v : pyval) : outcome (list pyval) :=
  match v with
  | PList l | PTuple l => Val l
  | PDict d => Val (map (λ kv, PStr kv.1) d)
  | PStr s => Val (map (λ c, PStr (String c "")) (String.list_ascii_of_string s))
  | _ => Exc TypeError
  end.

Definition list_mem (v : pyval) (l : list pyval) : bool := existsb (py_eqb v) l.

(** What may be a member of a [set]. *)
Fixpoint py_hashable (v : pyval) : bool :=
  match v with
  | PList _ | PDict _ => false
  | PTuple l => forallb py_hashable l
  | _ => true
  end.

(** The distinct elements of a list, as [set()] keeps them. *)
Fixpoint py_dedup (l : list pyval) : list pyval :=
  match l with
  | [] => []
  | x :: l' => if list_mem x l' then py_dedup l' else x :: py_dedup l'
  end.

(** [set(l) == set(k)] *)
Definition py_set_eqb (l k : list pyval) : bool :=
  forallb (λ x, list_mem x k) l && forallb (λ x, list_mem x l) k.

(** [k in v] *)
Definition py_in (k : pyval) (v : pyval) : outcome bool :=
  match v, k with
  | PDict d, PStr s => Val (dict_mem s d)
  | PDict _, (PList _ | PDict _) => Exc TypeError
  | PDict _, _ => Val false
  | (PList l | PTuple l), _ => Val (list_mem k l)
  | PStr t, PStr s => Val (str_contains s t)
  | _, _ => Exc TypeError
  end.

(** ["key" in v] *)
Definition has_key (k : string) (v : pyval) : outcome bool := py_in (PStr k) v.

(** ** [str()] and [repr()] *)

Definition hex2 (n : N) : string := String (hex_digit (n / 16)) (String (hex_digit (n mod 16)) "").

Fixpoint repr_chars (q : ascii) (s : string) : string :=
  match s with
  | EmptyString => ""
  | String c s' =>
      let n := N_of_ascii c in
      (if Ascii.eqb c "\" then "\\"
       else if Ascii.eqb c q then String "\" (String q "")
       else if (n =? 10)%N then "\n" else if (n =? 13)%N then "\r" else if (n =? 9)%N then "\t"
       else if ((n <? 32) || ((127 <=? n) && (n <=? 160)) || (n =? 173))%N then "\x" +:+ hex2 n
       else String c "") +:+ repr_chars q s'
  end.

Definition dquote : ascii := ascii_of_nat 34.
Definition squote : ascii := ascii_of_nat 39.

Fixpoint str_has (c : ascii) (s : string) : bool :=
  match s with EmptyString => false | String d s' => Ascii.eqb c d || str_has c s' end.

Definition repr_str (s : string) : string :=
  let q := if str_has squote s && negb (str_has dquote s) then dquote else squote in
  String q (repr_chars q s +:+ String q "").

Fixpoint py_repr (v : pyval) : string :=
  match v with
  | PNone => "None"
  | PBool b => if b then "True" else "False"
  | PInt z => str_of_Z z
  | PDec d => "Decimal('" +:+ dec_str d +:+ "')"
  | PFloat x => float_repr x
  | PStr s => repr_str s
  | PBytes s => String "b" (repr_str s)
  | PList l => "[" +:+ str_join ", " (map py_repr l) +:+ "]"
  | PTuple [x] => "(" +:+ py_repr x +:+ ",)"
  | PTuple l => "(" +:+ str_join ", " (map py_repr l) +:+ ")"
  | PDict d => "{" +:+ str_join ", " (map (λ kv, repr_str kv.1 +:+ ": " +:+ py_repr kv.2) d) +:+ "}"
  end.

Definition py_str (v : pyval) : string :=
  match v with
  | PStr s => s
  | PDec d => dec_str d
  | _ => py_repr v
  end.

Example py_repr_ex :
  py_repr (PDict [("a", PList [PInt 1; PNone]); ("b", PStr "xy")]) = "{'a': [1, None], 'b': 'xy'}".
Proof. vm_compute. reflexivity. Qed.
