(* ===== verification/Host.v ===== *)
(** * The host: interpreter state, effects and the environment interfaces

    Every stateful function of the framework is a computation [M W A]: it
    reads and updates the interpreter state [St W] and ends with a value, an
    exception, or an exhausted loop bound.  [St] holds the module-level
    variables the sources declare [global], a heap of the mutable lists that
    are shared between objects, a trace of the external actions in the order
    they happen, and the outside world [W].

    What lies outside the sources (the mainchain and sidechain nodes behind
    their HTTP APIs, the clock, the operating system, the random generator)
    is reached only through the type classes below; the theorems quantify
    over every instance, and [Sim] gives a concrete one. *)

From S2P Require Import Prelude PyStr Numbers PyVal.
From Stdlib Require Import Ascii String.
From stdpp Require Import base list.
Local Open Scope Z_scope.

(** ** Connections to nodes *)

(** The class of a proxy object: [AuthServiceProxy] (authproxy.py) for the
    mainchain, [SidechainAuthServiceProxy] (sidechainauthproxy.py) for the
    sidechain nodes. *)
Inductive proxy_kind := KAuthService | KSidechain.

#[export] Instance proxy_kind_eq_dec : EqDecision proxy_kind.
Proof. solve_decision. Defined.

(** What the framework keeps of a connected node: the proxy object's class,
    service URL, the host name parsed from it, API key, socket timeout in
    seconds, and the data directory stored on it. *)
Record proxy := Proxy {
  px_kind : proxy_kind;
  px_url : string;
  px_hostname : string;
  px_auth : option string;
  px_timeout : Z;
  px_dataDir : string
}.

#[export] Instance proxy_eq_dec : EqDecision proxy.
Proof. solve_decision. Defined.

(** ** External actions *)

Inductive event :=
| ECall (p : proxy) (method : string) (args : list pyval) (kwargs : list (string * pyval))
| ESleep (us : Z)
| EPopen (argv : list string)
| EWait (h : Z)
| ERun (argv : list string)
| EWrite (path content : string)
| EMkdir (path : string)
| ERmtree (path : string)
| EWsSend (connection : Z) (text : string)
| EWsRecv (connection : Z).

#[export] Instance event_eq_dec : EqDecision event.
Proof. solve_decision. Defined.

(** ** Module-level variables *)

Record globals := Globals {
  sc_parallel_test : Z;                        (* scutil.parallel_test *)
  mc_parallel_test : Z;                        (* util.parallel_test *)
  is_jacoco_included : bool;                   (* scutil *)
  sidechainclient_processes : list (Z * Z);    (* scutil: node index -> process *)
  bitcoind_processes : list (Z * Z);           (* util: node index -> process *)
  ac_cwd : option string;                      (* ac_utils.cwd *)
  nodeModulesInstalled : bool;                 (* ac_utils *)
  sigHashesGenerated : bool                    (* ac_smart_contract_compile *)
}.

Definition init_globals : globals := Globals 0 0 false [] [] None false false.

Record St (W : Type) := mkSt {
  world : W;
  trace : list event;
  heap : list (list pyval);
  glob : globals
}.
Arguments mkSt {W}.
Arguments world {W}.
Arguments trace {W}.
Arguments heap {W}.
Arguments glob {W}.

Definition init_st {W} (w : W) : St W := mkSt w [] [] init_globals.

Definition set_world {W} (w : W) (st : St W) : St W := mkSt w (trace st) (heap st) (glob st).
Definition log_event {W} (e : event) (st : St W) : St W :=
  mkSt (world st) (trace st ++ [e]) (heap st) (glob st).
Definition set_heap {W} (h : list (list pyval)) (st : St W) : St W :=
  mkSt (world st) (trace st) h (glob st).
Definition set_glob {W} (g : globals) (st : St W) : St W :=
  mkSt (world st) (trace st) (heap st) g.

(** ** The monad *)

Definition M (W A : Type) : Type := St W → outcome A * St W.

Definition ret {W A} (a : A) : M W A := λ st, (Val a, st).
Definition raise {W A} (e : exn) : M W A := λ st, (Exc e, st).
Definition out_of_fuel {W A} : M W A := λ st, (NoFuel, st).
Definition bind {W A B} (m : M W A) (k : A → M W B) : M W B := λ st,
  match m st with
  | (Val a, st') => k a st'
  | (Exc e, st') => (Exc e, st')
  | (NoFuel, st') => (NoFuel, st')
  end.

(** A computation on values only. *)
Definition lift {W A} (o : outcome A) : M W A := λ st, (o, st).

(** [try: m except ...: h]: the handler decides by the exception; the state
    changes made before the exception stay. *)
Definition catch {W A} (m : M W A) (h : exn → M W A) : M W A := λ st,
  match m st with
  | (Exc e, st') => h e st'
  | r => r
  end.

Definition gets {W A} (f : globals → A) : M W A := λ st, (Val (f (glob st)), st).
Definition modify_glob {W} (f : globals → globals) : M W unit := λ st,
  (Val tt, set_glob (f (glob st)) st).

Notation "'let!' x := m 'in' k" := (bind m (λ x, k))
  (at level 10, x name, m at level 100, k at level 200) : py_scope.
Notation "'let!' ' x := m 'in' k" := (bind m (λ x, k))
  (at level 10, x strict pattern, m at level 100, k at level 200) : py_scope.
Notation "'do!' m 'in' k" := (bind m (λ _, k))
  (at level 10, m at level 100, k at level 200) : py_scope.
Notation "'let%' x := o 'in' k" := (bind (lift o) (λ x, k))
  (at level 10, x name, o at level 100, k at level 200) : py_scope.
Notation "'let%' ' x := o 'in' k" := (bind (lift o) (λ x, k))
  (at level 10, x strict pattern, o at level 100, k at level 200) : py_scope.
Notation "'do%' o 'in' k" := (bind (lift o) (λ _, k))
  (at level 10, o at level 100, k at level 200) : py_scope.
Open Scope py_scope.

Fixpoint mmap {W A B} (f : A → M W B) (l : list A) : M W (list B) :=
  match l with
  | [] => ret []
  | x :: l' => let! y := f x in let! ys := mmap f l' in ret (y :: ys)
  end.

Fixpoint forM_ {W A} (l : list A) (f : A → M W unit) : M W unit :=
  match l with
  | [] => ret tt
  | x :: l' => do! f x in forM_ l' f
  end.

Fixpoint foldM {W A B} (f : B → A → M W B) (b : B) (l : list A) : M W B :=
  match l with
  | [] => ret b
  | x :: l' => let! b' := f b x in foldM f b' l'
  end.

Definition when {W} (b : bool) (m : M W unit) : M W unit := if b then m else ret tt.

(** ** The heap of shared lists *)

Definition alloc {W} (l : list pyval) : M W nat := λ st,
  (Val (length (heap st)), set_heap (heap st ++ [l]) st).
Definition read_list {W} (r : nat) : M W (list pyval) := λ st,
  (of_opt (UnboundLocalError "heap") (heap st !! r), st).
Definition append_list {W} (r : nat) (v : pyval) : M W unit := λ st,
  (Val tt, set_heap (alter (λ l, l ++ [v]) r (heap st)) st).

(** ** Environment interfaces *)

(** A method call on a node's API, as the proxies deliver it: the decoded
    response, or the exception the proxy raises. *)
Class Nodes (W : Type) :=
  node_call : proxy → string → list pyval → list (string * pyval) → W → (exn + pyval) * W.

(** [time.time()] and [time.sleep()], in microseconds. *)
Class Clock (W : Type) := {
  clk_now : W → Z * W;
  clk_sleep : Z → W → W
}.

(** The operating system: processes, environment, files, sockets. *)
Class Os (W : Type) := {
  os_getpid : W → Z;
  os_getenv : string → W → option string;
  os_setenv : string → string → W → W;
  os_home : W → string;
  os_qa_dir : W → string;                       (* absolute path of qa/ *)
  os_platform : W → string;
  os_isdir : string → W → bool;
  os_isfile : string → W → bool;
  os_makedirs : string → W → (exn + unit) * W;
  os_read : string → W → exn + string;
  os_write : string → string → W → (exn + unit) * W;
  os_remove : string → W → (exn + unit) * W;
  os_copytree : string → string → W → (exn + unit) * W;
  os_rmtree : string → W → (exn + unit) * W;
  os_walk_files : string → W → list (string * string);  (* (directory, file name) *)
  os_popen : list string → W → (exn + Z) * W;          (* the process handle *)
  os_wait : Z → W → W;
  os_poll : Z → W → option Z * W;                       (* return code, if ended *)
  os_communicate : list string → W → (exn + string) * W;  (* stdout of a process run to its end *)
  os_run : list string → W → (exn + (Z * string * string)) * W;  (* code, stdout, stderr *)
  os_connect_ex : string → Z → W → Z * W
}.

(** The [random] module, [os.urandom] and the seed of string hashes. *)
Class Rng (W : Type) := {
  rng_shuffle : ∀ {A : Type}, list A → W → list A * W;
  rng_randint : Z → Z → W → Z * W;
  rng_urandom : nat → W → string * W;
  (* iteration order of [set(l)], which depends on the hash seed *)
  rng_setiter : list pyval → W → list pyval
}.

Definition of_sum {A} (r : exn + A) : outcome A :=
  match r with inr a => Val a | inl e => Exc e end.

Section Effects.
Context {W : Type} `{Nodes W, Clock W, Os W, Rng W}.

Definition call_kw (p : proxy) (m : string) (args : list pyval) (kw : list (string * pyval))
    : M W pyval := λ st,
  let '(r, w) := node_call p m args kw (world st) in
  (of_sum r, log_event (ECall p m args kw) (set_world w st)).

Definition call (p : proxy) (m : string) (args : list pyval) : M W pyval := call_kw p m args [].

Definition time_time : M W Z := λ st,
  let '(t, w) := clk_now (world st) in (Val t, set_world w st).

Definition sleep (us : Z) : M W unit := λ st,
  (Val tt, log_event (ESleep us) (set_world (clk_sleep us (world st)) st)).

Definition ask {A} (f : W → A) : M W A := λ st, (Val (f (world st)), st).

Definition run_os {A} (f : W → (exn + A) * W) : M W A := λ st,
  let '(r, w) := f (world st) in (of_sum r, set_world w st).

Definition act {A} (e : event) (f : W → (exn + A) * W) : M W A := λ st,
  let '(r, w) := f (world st) in (of_sum r, log_event e (set_world w st)).

Definition makedirs (path : string) : M W unit := act (EMkdir path) (os_makedirs path).
Definition write_file (path content : string) : M W unit :=
  act (EWrite path content) (os_write path content).
Definition popen (argv : list string) : M W Z := act (EPopen argv) (os_popen argv).
Definition wait_proc (h : Z) : M W unit :=
  act (EWait h) (λ w, (inr tt, os_wait h w)).
Definition communicate (argv : list string) : M W string := act (ERun argv) (os_communicate argv).
Definition run_proc (argv : list string) : M W (Z * string * string) := act (ERun argv) (os_run argv).
Definition rmtree (path : string) : M W unit := act (ERmtree path) (os_rmtree path).

(** [subprocess.check_call(argv)] *)
Definition check_call (argv : list string) : M W unit :=
  let! '(code, _, _) := run_proc argv in
  if code =? 0 then ret tt else raise (CalledProcessError code).

(** [os.getenv(name, default)] *)
Definition getenv (name default : string) : M W string :=
  let! v := ask (os_getenv name) in ret (match v with Some s => s | None => default end).

Definition shuffle {A} (l : list A) : M W (list A) := λ st,
  let '(r, w) := rng_shuffle l (world st) in (Val r, set_world w st).
Definition randint (a b : Z) : M W Z := λ st,
  let '(r, w) := rng_randint a b (world st) in (Val r, set_world w st).
Definition urandom (n : nat) : M W string := λ st,
  let '(r, w) := rng_urandom n (world st) in (Val r, set_world w st).

(** [random.choice(l)] *)
Definition choice {A} (l : list A) : M W A :=
  match l with
  | [] => raise IndexError
  | _ => let! i := randint 0 (Z.of_nat (length l) - 1) in lift (list_index l i)
  end.

(** The elements of [set(l)] in the order they are iterated over. *)
Definition setiter (l : list pyval) : M W (list pyval) :=
  if forallb py_hashable l then ask (rng_setiter l) else raise TypeError.
End Effects.

(** ** Running a computation step by step *)

Section Run.
Context {W : Type} `{Nodes W, Clock W, Os W, Rng W}.
Implicit Types st : St W.

Lemma call_run p m args st r w :
  node_call p m args [] (world st) = (inr r, w) →
  call p m args st = (Val r, log_event (ECall p m args []) (set_world w st)).
Proof. intros E. unfold call, call_kw. by rewrite E. Qed.

Lemma bind_call_run {A} p m args (k : pyval → M W A) st r w :
  node_call p m args [] (world st) = (inr r, w) →
  bind (call p m args) k st = k r (log_event (ECall p m args []) (set_world w st)).
Proof. intros E. unfold bind. by rewrite (call_run _ _ _ _ _ _ E). Qed.

Lemma bind_lift_run {A B} (o : outcome A) a (k : A → M W B) st :
  o = Val a → bind (lift o) k st = k a st.
Proof. by intros ->. Qed.

Lemma bind_run {A B} (m : M W A) (k : A → M W B) st a st' :
  m st = (Val a, st') → bind m k st = k a st'.
Proof. intros E. unfold bind. by rewrite E. Qed.
End Run.

(** Evaluates the next pure step. *)
Ltac pure_step := erewrite bind_lift_run by reflexivity; cbv beta.

(** Takes the next call's reply from a hypothesis. *)
Ltac call_step H := erewrite bind_call_run by exact H; cbv beta.

(** ** Reading a run that ended with a value *)

Section Invert.
Context {W : Type}.
Implicit Types st : St W.

Lemma bind_Val_inv {A B} (m : M W A) (k : A → M W B) st b st' :
  bind m k st = (Val b, st') → ∃ a st1, m st = (Val a, st1) ∧ k a st1 = (Val b, st').
Proof. unfold bind. destruct (m st) as [[a|e|] st1]; try done. eauto. Qed.

Lemma lift_Val_inv {A} (o : outcome A) st a st' : lift o st = (Val a, st') → o = Val a ∧ st' = st.
Proof. unfold lift. by intros [= -> ->]. Qed.

Lemma ret_Val_inv {A} (x : A) st a st' : ret x st = (Val a, st') → x = a ∧ st' = st.
Proof. unfold ret. by intros [= -> ->]. Qed.

Lemma call_Val_inv `{Nodes W} p m args st v st' :
  call p m args st = (Val v, st') →
  ∃ w, node_call p m args [] (world st) = (inr v, w) ∧ st' = log_event (ECall p m args []) (set_world w st).
Proof.
  unfold call, call_kw. destruct (node_call p m args [] (world st)) as [[e|r] w]; simpl; [done|].
  intros [= -> <-]. eauto.
Qed.

Lemma bind_lift_exc {A B} (o : outcome A) e (k : A → M W B) st :
  o = Exc e → bind (lift o) k st = (Exc e, st).
Proof. by intros ->. Qed.
End Invert.

(** Splits the run of a sequence that ended with a value into its steps. *)
Ltac inv_step :=
  match goal with
  | H : bind _ _ _ = (Val _, _) |- _ => apply bind_Val_inv in H as (? & ? & ? & H); cbv beta in H
  | H : lift _ _ = (Val _, _) |- _ => apply lift_Val_inv in H as [? ?]
  | H : ret _ _ = (Val _, _) |- _ => apply ret_Val_inv in H as [? ?]
  | H : raise _ _ = (Val _, _) |- _ => discriminate H
  | H : obind _ _ = Val _ |- _ => apply obind_Val_inv in H as (? & ? & H); cbv beta in H
  | H : Exc _ = Val _ |- _ => discriminate H
  | H : ?x = ?y |- _ => is_var x; subst x
  | H : ?x = ?y |- _ => is_var y; subst y
  end.

Ltac inv_run := repeat inv_step.

(** ** Laws of the environment used by the termination and safety theorems *)

(** [time.sleep(d)] suspends for at least [d], and no call moves the clock back. *)
Class ClockLaws (W : Type) `{Nodes W, Clock W} := {
  clk : W → Z;
  clk_now_val : ∀ w, (clk_now w).1 = clk w;
  clk_now_mono : ∀ w, clk w ≤ clk (clk_now w).2;
  clk_sleep_mono : ∀ w d, 0 ≤ d → clk w + d ≤ clk (clk_sleep d w);
  clk_call_mono : ∀ p m a k w, clk w ≤ clk (node_call p m a k w).2
}.

(** [random.shuffle] permutes, [random.randint] stays in its range, a set
    iterates once over each distinct element. *)
Class RngLaws (W : Type) `{Rng W} := {
  shuffle_perm : ∀ A (l : list A) w, (rng_shuffle l w).1 ≡ₚ l;
  randint_range : ∀ a b w, a ≤ b → a ≤ (rng_randint a b w).1 ≤ b;
  setiter_perm : ∀ l w, rng_setiter l w ≡ₚ py_dedup l
}.

(** ** A weakest-precondition calculus *)

Definition wp {W A} (m : M W A) (Q : outcome A → St W → Prop) (st : St W) : Prop :=
  Q (m st).1 (m st).2.

Section wp.
Context {W : Type}.
Implicit Types st : St W.

Lemma wp_ret {A} (a : A) Q st : Q (Val a) st → wp (ret a) Q st.
Proof. done. Qed.
Lemma wp_raise {A} e (Q : outcome A → St W → Prop) st : Q (Exc e) st → wp (raise e) Q st.
Proof. done. Qed.
Lemma wp_lift {A} (o : outcome A) (Q : outcome A → St W → Prop) st : Q o st → wp (lift o) Q st.
Proof. done. Qed.

Lemma wp_bind {A B} (m : M W A) (k : A → M W B) Q st :
  wp m (λ o st', match o with
                 | Val a => wp (k a) Q st'
                 | Exc e => Q (Exc e) st'
                 | NoFuel => Q NoFuel st'
                 end) st →
  wp (bind m k) Q st.
Proof. unfold wp, bind. destruct (m st) as [[a|e|] st']; simpl; auto. Qed.

Lemma wp_mono {A} (m : M W A) (Q Q' : outcome A → St W → Prop) st :
  (∀ o st', Q o st' → Q' o st') → wp m Q st → wp m Q' st.
Proof. unfold wp. auto. Qed.

Lemma wp_catch {A} (m : M W A) (h : exn → M W A) Q st :
  wp m (λ o st', match o with Exc e => wp (h e) Q st' | o => Q o st' end) st →
  wp (catch m h) Q st.
Proof. unfold wp, catch. destruct (m st) as [[a|e|] st']; simpl; auto. Qed.

(** Invariant rule for a [for] loop: the invariant is indexed by the part of
    the list already done and the part left. *)
Lemma wp_forM_ {A} (f : A → M W unit) (I : list A → list A → St W → Prop)
    (Q : outcome unit → St W → Prop) l done st :
  (∀ d x r st, I d (x :: r) st →
     wp (f x) (λ o st', match o with
                        | Val _ => I (d ++ [x]) r st'
                        | o => Q o st'
                        end) st) →
  (∀ d st, I d [] st → Q (Val tt) st) →
  I done l st → wp (forM_ l f) Q st.
Proof.
  intros Hstep Hend. revert done st. induction l as [|x l IH]; intros d st HI; simpl.
  - apply wp_ret. eauto.
  - apply wp_bind. eapply wp_mono; [|by apply Hstep].
    intros [[]|e|] st'; simpl; auto. intros. by eapply IH.
Qed.

(** Invariant rule for building a list. *)
Lemma wp_mmap {A B} (f : A → M W B) (I : list A → list B → St W → Prop)
    (Q : outcome (list B) → St W → Prop) l st :
  I [] [] st →
  (∀ d ys x r st, l = d ++ x :: r → I d ys st →
     wp (f x) (λ o st', match o with
                        | Val y => I (d ++ [x]) (ys ++ [y]) st'
                        | Exc e => Q (Exc e) st'
                        | NoFuel => Q NoFuel st'
                        end) st) →
  (∀ ys st, I l ys st → Q (Val ys) st) →
  wp (mmap f l) Q st.
Proof.
  intros H0 Hstep Hend.
  assert (∀ r d ys st, l = d ++ r → I d ys st →
    wp (mmap f r) (λ o st', match o with Val zs => I l (ys ++ zs) st'
                            | Exc e => Q (Exc e) st' | NoFuel => Q NoFuel st' end) st) as Hgen.
  { induction r as [|x r IH]; intros d ys st' Hl HI; simpl.
    - apply wp_ret. rewrite app_nil_r in *. by subst.
    - apply wp_bind. eapply wp_mono; [|by eapply (Hstep d ys x r)].
      intros [y|e|] st2; simpl; auto. intros HI2. apply wp_bind.
      eapply wp_mono; [|apply (IH (d ++ [x]) (ys ++ [y])); [by rewrite <- app_assoc|done]].
      intros [zs|e|] st3; simpl; auto. intros. apply wp_ret. by rewrite <- app_assoc in *. }
  eapply wp_mono; [|by apply (Hgen l [] [])]. intros [ys|e|] st'; simpl; auto.
Qed.
End wp.

(** Steps through a computation with [wp]. *)
Ltac wp_step :=
  first [ apply wp_bind | apply wp_ret | apply wp_raise | apply wp_lift | apply wp_catch ].

#[export] Hint Resolve wp_ret wp_raise wp_lift : py.
