(* ===== verification/Sim.v ===== *)
(** * A simulated host

    A concrete environment in which every theorem's hypotheses can be
    discharged and every definition runs: a clock that advances by the time
    asked for, nodes that answer by a script indexed by the number of the
    call, a small file system, processes that print what a table says. *)

From S2P Require Import Prelude PyStr Numbers PyVal Host.
From Stdlib Require Import Ascii String.
From stdpp Require Import base list.
Local Open Scope Z_scope.

Record sim := Sim {
  s_now : Z;
  s_calls : nat;
  s_node : nat → proxy → string → list pyval → exn + pyval;
  s_files : list (string * string);
  s_dirs : list string;
  s_tool : list string → exn + string;
  s_pid : Z;
  s_procs : Z
}.

Definition sim_of (f : nat → proxy → string → list pyval → exn + pyval) : sim :=
  Sim 0 0 f [] [] (λ _, inr "{}") 4242 0.

Definition tick (s : sim) : sim :=
  Sim (s_now s) (S (s_calls s)) (s_node s) (s_files s) (s_dirs s) (s_tool s) (s_pid s) (s_procs s).

Definition advance (d : Z) (s : sim) : sim :=
  Sim (s_now s + Z.max 0 d) (s_calls s) (s_node s) (s_files s) (s_dirs s) (s_tool s) (s_pid s)
    (s_procs s).

Definition put_file (p c : string) (s : sim) : sim :=
  Sim (s_now s) (s_calls s) (s_node s) (dict_set p c (s_files s)) (s_dirs s) (s_tool s)
    (s_pid s) (s_procs s).

Definition del_file (p : string) (s : sim) : sim :=
  Sim (s_now s) (s_calls s) (s_node s) (dict_del p (s_files s)) (s_dirs s) (s_tool s)
    (s_pid s) (s_procs s).

Definition put_dir (p : string) (s : sim) : sim :=
  Sim (s_now s) (s_calls s) (s_node s) (s_files s) (p :: s_dirs s) (s_tool s) (s_pid s)
    (s_procs s).

Definition spawn (s : sim) : sim :=
  Sim (s_now s) (s_calls s) (s_node s) (s_files s) (s_dirs s) (s_tool s) (s_pid s)
    (s_procs s + 1).

(** The files below a directory, each as its directory and its name. *)
Definition split_file (p : string) : string * string :=
  match split_at "/" (str_rev p) with
  | Some (n, d) => (str_rev d, str_rev n)
  | None => ("", p)
  end.

#[export] Instance sim_nodes : Nodes sim :=
  λ p m args _ s, (s_node s (s_calls s) p m args, tick s).

#[export] Instance sim_clock : Clock sim := {
  clk_now s := (s_now s, s);
  clk_sleep d s := advance d s
}.

#[export] Instance sim_os : Os sim := {
  os_getpid := s_pid;
  os_getenv _ _ := None;
  os_setenv _ _ s := s;
  os_home _ := "/home/user";
  os_qa_dir _ := "/sdk/qa";
  os_platform _ := "linux";
  os_isdir p s := bool_decide (p ∈ s_dirs s);
  os_isfile p s := dict_mem p (s_files s);
  os_makedirs p s := (inr tt, put_dir p s);
  os_read p s := match dict_get p (s_files s) with Some c => inr c | None => inl (OSError p) end;
  os_write p c s := (inr tt, put_file p c s);
  os_remove p s := (inr tt, del_file p s);
  os_copytree _ _ s := (inr tt, s);
  os_rmtree _ s := (inr tt, s);
  os_walk_files d s := map split_file (filter (λ p, startswith p (d +:+ "/") = true) (map fst (s_files s)));
  os_popen _ s := (inr (s_procs s), spawn s);
  os_wait _ s := s;
  os_poll _ s := (Some 0, s);
  os_communicate argv s := (s_tool s argv, s);
  os_run argv s := (match s_tool s argv with inr out => inr (0, out, "") | inl e => inl e end, s);
  os_connect_ex _ _ s := (0, s)
}.

#[export] Instance sim_rng : Rng sim := {
  rng_shuffle _ l s := (reverse l, s);
  rng_randint a _ s := (a, s);
  rng_urandom n s := (str_repeat "a" n, s);
  rng_setiter l _ := py_dedup l
}.

#[export] Instance sim_clock_laws : ClockLaws sim.
Proof. refine {| clk := s_now |}; abstract (intros; simpl; lia). Defined.

#[export] Instance sim_rng_laws : RngLaws sim.
Proof.
  split.
  - intros A l w. simpl. apply reverse_Permutation.
  - intros a b w Hab. simpl. lia.
  - done.
Qed.

(** A sidechain node and a mainchain node of the simulation. *)
Definition sc0 : proxy :=
  Proxy KSidechain "http://127.0.0.1:8200" "127.0.0.1" (Some "TopSecret") 6000000 "/tmp/sc_node0".
Definition sc1 : proxy :=
  Proxy KSidechain "http://127.0.0.1:8201" "127.0.0.1" (Some "TopSecret") 6000000 "/tmp/sc_node1".
Definition mc0 : proxy :=
  Proxy KAuthService "http://rt:rt@127.0.0.1:12000" "127.0.0.1" None 600 "".

(** ** A host without surprises

    Every call is answered by an empty object and every system call succeeds,
    in every state: for hypotheses that range over all worlds. *)
Inductive calm := Calm.

#[export] Instance calm_nodes : Nodes calm := λ _ _ _ _ w, (inr (PDict []), w).
#[export] Instance calm_clock : Clock calm := { clk_now w := (0, w); clk_sleep _ w := w }.
#[export] Instance calm_os : Os calm := {
  os_getpid _ := 1;
  os_getenv n _ := if String.eqb n "PATH" then Some "/usr/bin" else None;
  os_setenv _ _ s := s;
  os_home _ := "/home/user";
  os_qa_dir _ := "/sdk/qa";
  os_platform _ := "linux";
  os_isdir _ _ := true;
  os_isfile _ _ := true;
  os_makedirs _ w := (inr tt, w);
  os_read _ _ := inr "";
  os_write _ _ w := (inr tt, w);
  os_remove _ w := (inr tt, w);
  os_copytree _ _ w := (inr tt, w);
  os_rmtree _ w := (inr tt, w);
  os_walk_files _ _ := [];
  os_popen _ w := (inr 7, w);
  os_wait _ w := w;
  os_poll _ w := (None, w);
  os_communicate _ w := (inr "{}", w);
  os_run _ w := (inr (0, "", ""), w);
  os_connect_ex _ _ w := (0, w)
}.
#[export] Instance calm_rng : Rng calm := {
  rng_shuffle _ l w := (l, w);
  rng_randint a _ w := (a, w);
  rng_urandom n w := (str_repeat "a" n, w);
  rng_setiter l _ := py_dedup l
}.
