(* ===== verification/Json.v ===== *)
(** * [json.dumps] and [json.loads] as the framework uses them

    Requests to the nodes are the text of [json.dumps] (default separators,
    ASCII escapes); responses are read by [json.loads], with
    [parse_float=decimal.Decimal] in the proxies.  [dumps_loads] shows that the
    text the framework sends denotes exactly the value it was built from.
    A code point above 255 does not exist in the model's strings, so an escape
    for one is a decoding error here. *)

From S2P Require Import Prelude PyStr Numbers PyVal.
From Stdlib Require Import Ascii String.
From stdpp Require Import base list.
Local Open Scope Z_scope.

(** ** Encoding *)

Definition esc_char (c : ascii) : string :=
  let n := N_of_ascii c in
  if (n =? 34)%N then String "\" (String c "")
  else if (n =? 92)%N then "\\"
  else if (n =? 10)%N then "\n" else if (n =? 13)%N then "\r" else if (n =? 9)%N then "\t"
  else if (n =? 12)%N then "\f" else if (n =? 8)%N then "\b"
  else if ((32 <=? n) && (n <=? 126))%N then String c ""
  else "\u00" +:+ hex2 n.

Fixpoint esc (s : string) : string :=
  match s with EmptyString => "" | String c s' => esc_char c +:+ esc s' end.

Definition quoted (s : string) : string := String dquote (esc s +:+ String dquote "").

Definition float_json (x : float64) : string :=
  match x with
  | SpecFloat.S754_nan => "NaN"
  | SpecFloat.S754_infinity s => if s then "-Infinity" else "Infinity"
  | _ => float_repr x
  end.

(** [json.dumps(v, default=...)]; [default] is applied to the decimals, the only
    objects of the model that JSON has no syntax for besides [bytes]. *)
Fixpoint dumps_with (default : option (decimal → float64)) (v : pyval) : outcome string :=
  match v with
  | PNone => Val "null"
  | PBool b => Val (if b then "true" else "false")
  | PInt z => Val (str_of_Z z)
  | PFloat x => Val (float_json x)
  | PDec d => match default with Some f => Val (float_json (f d)) | None => Exc TypeError end
  | PStr s => Val (quoted s)
  | PBytes _ => Exc TypeError
  | PList l | PTuple l =>
      obind (omapM (dumps_with default) l) (λ ss, Val ("[" +:+ str_join ", " ss +:+ "]"))
  | PDict d =>
      obind (omapM (λ kv, obind (dumps_with default kv.2) (λ t, Val (quoted kv.1 +:+ ": " +:+ t))) d)
        (λ ss, Val ("{" +:+ str_join ", " ss +:+ "}"))
  end.

Definition dumps : pyval → outcome string := dumps_with None.

(** [json.dumps(v, indent=2)]: one element per line, indented by depth. *)
Definition nl : string := String (ascii_of_N 10) "".

Fixpoint dumps_indent (depth : nat) (v : pyval) : outcome string :=
  let open := nl +:+ str_repeat " " (2 * S depth) in
  let close := nl +:+ str_repeat " " (2 * depth) in
  match v with
  | PList [] | PTuple [] => Val "[]"
  | PDict [] => Val "{}"
  | PList l | PTuple l =>
      obind (omapM (dumps_indent (S depth)) l) (λ ss,
      Val ("[" +:+ open +:+ str_join ("," +:+ open) ss +:+ close +:+ "]"))
  | PDict d =>
      obind (omapM (λ kv, obind (dumps_indent (S depth) kv.2) (λ t, Val (quoted kv.1 +:+ ": " +:+ t))) d)
        (λ ss, Val ("{" +:+ open +:+ str_join ("," +:+ open) ss +:+ close +:+ "}"))
  | _ => dumps v
  end.

(** ** Decoding *)

Definition json_space (c : ascii) : bool :=
  let n := N_of_ascii c in ((n =? 32) || (n =? 9) || (n =? 10) || (n =? 13))%N.

Fixpoint skip_ws (s : string) : string :=
  match s with
  | String c s' => if json_space c then skip_ws s' else s
  | EmptyString => EmptyString
  end.

Definition esc_val (e : ascii) : option ascii :=
  let n := N_of_ascii e in
  if (n =? 34)%N || (n =? 92)%N || (n =? 47)%N then Some e
  else if (n =? 110)%N then Some (ascii_of_N 10)
  else if (n =? 114)%N then Some (ascii_of_N 13)
  else if (n =? 116)%N then Some (ascii_of_N 9)
  else if (n =? 102)%N then Some (ascii_of_N 12)
  else if (n =? 98)%N then Some (ascii_of_N 8)
  else None.

Definition cons_str (c : ascii) (o : option (string * string)) : option (string * string) :=
  match o with Some (t, r) => Some (String c t, r) | None => None end.

(** The rest of a string literal, after its opening quote. *)
Fixpoint p_str (s : string) : option (string * string) :=
  match s with
  | EmptyString => None
  | String c s' =>
      if Ascii.eqb c dquote then Some ("", s')
      else if Ascii.eqb c "\" then
        match s' with
        | String e s2 =>
            if Ascii.eqb e "u" then
              match s2 with
              | String h1 (String h2 (String h3 (String h4 r))) =>
                  match hex_val h1, hex_val h2, hex_val h3, hex_val h4 with
                  | Some 0%N, Some 0%N, Some x, Some y =>
                      cons_str (ascii_of_N (16 * x + y)) (p_str r)
                  | _, _, _, _ => None
                  end
              | _ => None
              end
            else match esc_val e with Some d => cons_str d (p_str s2) | None => None end
        | EmptyString => None
        end
      else if (N_of_ascii c <? 32)%N then None
      else cons_str c (p_str s')
  end.

Definition is_digit (c : ascii) : bool :=
  let n := N_of_ascii c in ((48 <=? n) && (n <=? 57))%N.

Fixpoint span_digits (s : string) : string * string :=
  match s with
  | String c s' =>
      if is_digit c then let '(d, r) := span_digits s' in (String c d, r) else ("", s)
  | EmptyString => ("", "")
  end.

(** How a number with a fraction or an exponent is built. *)
Definition parse_float_as_decimal (d : decimal) : pyval := PDec d.
Definition parse_float_as_float (d : decimal) : pyval := PFloat (float_of_dec d).

Definition digits_Z (s : string) : Z :=
  match parse_digits 10 0 true s with Some n => Z.of_N n | None => 0 end.

(** The optional exponent of a number. *)
Definition p_exp (s : string) : option (Z * string) :=
  match s with
  | String e s' =>
      if (N_of_ascii e =? 101)%N || (N_of_ascii e =? 69)%N then
        let '(sg, s2) := match s' with
                         | String "-" r => (-1, r)
                         | String "+" r => (1, r)
                         | _ => (1, s')
                         end in
        let '(d, r) := span_digits s2 in
        if String.eqb d "" then None else Some (sg * digits_Z d, r)
      else None
  | EmptyString => None
  end.

Definition p_frac (s : string) : option (string * string) :=
  match s with
  | String "." s' => let '(d, r) := span_digits s' in if String.eqb d "" then None else Some (d, r)
  | _ => None
  end.

Definition p_number (pf : decimal → pyval) (s : string) : option (pyval * string) :=
  let '(sg, s1) := match s with String "-" r => (-1, r) | _ => (1, s) end in
  let '(ds0, r0) := span_digits s1 in
  let '(ds, r) := match ds0 with
                  | String "0" (String _ _ as t) => ("0", t +:+ r0)
                  | _ => (ds0, r0)
                  end in
  if String.eqb ds "" then None
  else
    match p_frac r, p_exp (match p_frac r with Some (_, r1) => r1 | None => r end) with
    | None, None => Some (PInt (sg * digits_Z ds), r)
    | Some (f, r1), None =>
        Some (pf (Dec (sg * digits_Z (ds +:+ f)) (- Z.of_nat (String.length f))), r1)
    | None, Some (e, r2) => Some (pf (Dec (sg * digits_Z ds) e), r2)
    | Some (f, _), Some (e, r2) =>
        Some (pf (Dec (sg * digits_Z (ds +:+ f)) (e - Z.of_nat (String.length f))), r2)
    end.

(** A literal word. *)
Definition p_word (w : string) (v : pyval) (s : string) : option (pyval * string) :=
  if String.prefix w s then Some (v, str_drop (String.length w) s) else None.

Section parse.
Variable pf : decimal → pyval.

Fixpoint p_value (fuel : nat) (s : string) : option (pyval * string) :=
  match fuel with
  | O => None
  | S f =>
      match s with
      | EmptyString => None
      | String c s' =>
          if Ascii.eqb c dquote then
            match p_str s' with Some (t, r) => Some (PStr t, r) | None => None end
          else if Ascii.eqb c "[" then
            match skip_ws s' with
            | String "]" r => Some (PList [], r)
            | s1 => match p_elems f s1 with Some (l, r) => Some (PList l, r) | None => None end
            end
          else if Ascii.eqb c "{" then
            match skip_ws s' with
            | String "}" r => Some (PDict [], r)
            | s1 => match p_members f s1 with
                    | Some (l, r) => Some (PDict (foldl (λ d kv, dict_set kv.1 kv.2 d) [] l), r)
                    | None => None
                    end
            end
          else if Ascii.eqb c "n" then p_word "null" PNone s
          else if Ascii.eqb c "t" then p_word "true" (PBool true) s
          else if Ascii.eqb c "f" then p_word "false" (PBool false) s
          else if Ascii.eqb c "N" then p_word "NaN" (PFloat SpecFloat.S754_nan) s
          else if Ascii.eqb c "I" then p_word "Infinity" (PFloat (SpecFloat.S754_infinity false)) s
          else if String.prefix "-Infinity" s then
            p_word "-Infinity" (PFloat (SpecFloat.S754_infinity true)) s
          else p_number pf s
      end
  end
with p_elems (fuel : nat) (s : string) : option (list pyval * string) :=
  match fuel with
  | O => None
  | S f =>
      match p_value f s with
      | Some (v, r) =>
          match skip_ws r with
          | String "]" r' => Some ([v], r')
          | String "," r' =>
              match p_elems f (skip_ws r') with Some (l, r2) => Some (v :: l, r2) | None => None end
          | _ => None
          end
      | None => None
      end
  end
with p_members (fuel : nat) (s : string) : option (list (string * pyval) * string) :=
  match fuel with
  | O => None
  | S f =>
      match s with
      | String c s' =>
          if Ascii.eqb c dquote then
            match p_str s' with
            | Some (k, r) =>
                match skip_ws r with
                | String ":" r1 =>
                    match p_value f (skip_ws r1) with
                    | Some (v, r2) =>
                        match skip_ws r2 with
                        | String "}" r3 => Some ([(k, v)], r3)
                        | String "," r3 =>
                            match p_members f (skip_ws r3) with
                            | Some (l, r4) => Some ((k, v) :: l, r4)
                            | None => None
                            end
                        | _ => None
                        end
                    | None => None
                    end
                | _ => None
                end
            | None => None
            end
          else None
      | EmptyString => None
      end
  end.
End parse.

Definition loads_with (pf : decimal → pyval) (s : string) : outcome pyval :=
  match p_value pf (S (String.length s)) (skip_ws s) with
  | Some (v, r) => if String.eqb (skip_ws r) "" then Val v else Exc (ValueError "")
  | None => Exc (ValueError "")
  end.

(** [json.loads(s)] and [json.loads(s, parse_float=decimal.Decimal)] *)
Definition loads : string → outcome pyval := loads_with parse_float_as_float.
Definition loads_decimal : string → outcome pyval := loads_with parse_float_as_decimal.

Example loads_ex :
  loads_decimal (" { " +:+ quoted "a" +:+ " : [1, -2.50, 1e3], " +:+ quoted "b" +:+ ":null} ")
  = Val (PDict [("a", PList [PInt 1; PDec (Dec (-250) (-2)); PDec (Dec 1 3)]); ("b", PNone)]).
Proof. vm_compute. reflexivity. Qed.
Example loads_bad : loads "[1,]" = Exc (ValueError "") ∧ loads "01" = Exc (ValueError "").
Proof. split; vm_compute; reflexivity. Qed.

(** ** Round trip *)

(** Values JSON represents exactly: no floats, decimals, bytes or tuples, and
    no repeated keys. *)
Fixpoint json_ok (v : pyval) : bool :=
  match v with
  | PNone | PBool _ | PInt _ | PStr _ => true
  | PList l => forallb json_ok l
  | PDict d => bool_decide (NoDup d.*1) && forallb (λ kv, json_ok kv.2) d
  | _ => false
  end.

(** The text of such a value. *)
Fixpoint render (v : pyval) : string :=
  match v with
  | PNone => "null"
  | PBool b => if b then "true" else "false"
  | PInt z => str_of_Z z
  | PStr s => quoted s
  | PList l => "[" +:+ str_join ", " (map render l) +:+ "]"
  | PDict d => "{" +:+ str_join ", " (map (λ kv, quoted kv.1 +:+ ": " +:+ render kv.2) d) +:+ "}"
  | _ => ""
  end.

Lemma omapM_Val {A B} (f : A → outcome B) (g : A → B) l :
  Forall (λ x, f x = Val (g x)) l → omapM f l = Val (map g l).
Proof. induction 1 as [|x l Hx Hl IH]; simpl; [done|]. by rewrite Hx, IH. Qed.

Lemma forallb_Forall {A} (p : A → bool) l : forallb p l = true ↔ Forall (λ x, p x = true) l.
Proof.
  rewrite forallb_forall, Forall_forall. by setoid_rewrite list_elem_of_In.
Qed.

Lemma Forall_mp {A} (P Q : A → Prop) l : Forall (λ x, P x → Q x) l → Forall P l → Forall Q l.
Proof. induction 1 as [|x l Hx Hl IH]; intros Hp; inversion Hp; subst; auto. Qed.

Lemma dumps_render dflt v : json_ok v = true → dumps_with dflt v = Val (render v).
Proof.
  induction v as [| | | | | | |l IH|l IH|d IH] using pyval_nested_ind; simpl; try done.
  - intros Hok%forallb_Forall. by rewrite (omapM_Val _ render _ (Forall_mp _ _ _ IH Hok)).
  - intros [_ Hok%forallb_Forall]%andb_true_iff.
    erewrite (omapM_Val _ (λ kv, quoted kv.1 +:+ ": " +:+ render kv.2)); [done|].
    apply (Forall_mp (λ kv, json_ok kv.2 = true) _ _); [|done].
    eapply Forall_impl; [exact IH|]. intros kv Hkv Hk. simpl in *. by rewrite (Hkv Hk).
Qed.

Lemma p_str_esc_char c t : p_str (esc_char c +:+ t) = cons_str c (p_str t).
Proof. revert c. intros [[] [] [] [] [] [] [] []]; reflexivity. Qed.

Lemma p_str_esc s rest : p_str (esc s +:+ String dquote rest) = Some (s, rest).
Proof.
  induction s as [|c s IH]; [done|]. cbn [esc]. rewrite str_app_assoc, p_str_esc_char, IH. done.
Qed.

(** What may follow a value inside a document. *)
Definition rest_ok (r : string) : Prop :=
  r = "" ∨ ∃ c t, r = String c t ∧ (c = "," ∨ c = "]" ∨ c = "}" ∨ c = " ")%char.

Lemma rest_ok_comma r : rest_ok (String "," r).
Proof. right. eexists _, _. split; [reflexivity|auto]. Qed.
Lemma rest_ok_bracket r : rest_ok (String "]" r).
Proof. right. eexists _, _. split; [reflexivity|auto]. Qed.
Lemma rest_ok_brace r : rest_ok (String "}" r).
Proof. right. eexists _, _. split; [reflexivity|auto]. Qed.
Lemma rest_ok_blank r : rest_ok (String " " r).
Proof. right. eexists _, _. split; [reflexivity|auto]. Qed.
#[local] Hint Resolve rest_ok_comma rest_ok_bracket rest_ok_brace rest_ok_blank : core.

Lemma skip_ws_comma r : skip_ws (String "," r) = String "," r.
Proof. reflexivity. Qed.
Lemma skip_ws_colon r : skip_ws (String ":" r) = String ":" r.
Proof. reflexivity. Qed.
Lemma skip_ws_blank r : skip_ws (String " " r) = skip_ws r.
Proof. reflexivity. Qed.

Definition starts_value (c : ascii) : bool :=
  negb (json_space c) && negb (Ascii.eqb c "]") && negb (Ascii.eqb c "}").

Lemma hex_digit10 d : (d < 10)%N → is_digit (hex_digit d) = true ∧ starts_value (hex_digit d) = true.
Proof.
  intros Hd.
  assert (d = 0 ∨ d = 1 ∨ d = 2 ∨ d = 3 ∨ d = 4 ∨ d = 5 ∨ d = 6 ∨ d = 7 ∨ d = 8 ∨ d = 9)%N as H
    by lia.
  destruct_or! H; subst; by vm_compute.
Qed.

Lemma digits10_go_head fuel n acc :
  (n < 10 ^ N.of_nat (S fuel))%N →
  ∃ d r, (d < 10)%N ∧ (d = 0 → n = 0)%N ∧ digits_go (S fuel) 10 n acc = String (hex_digit d) r
         ∧ (n = 0%N → r = acc).
Proof.
  revert n acc. induction fuel as [|f IH]; intros n acc Hn; cbn [digits_go];
    (destruct (N.ltb_spec n 10) as [Hlt|Hge];
     [ exists (n mod 10)%N, acc; rewrite N.mod_small by done; repeat split; auto |]).
  - simpl in Hn. lia.
  - destruct (IH (n / 10)%N (String (hex_digit (n mod 10)) acc)) as (d & r & Hd & Hz & Heq & _).
    { apply N.Div0.div_lt_upper_bound. rewrite Nat2N.inj_succ, N.pow_succ_r' in Hn. lia. }
    exists d, r. repeat split; [done| |done|lia].
    intros Hd0. specialize (Hz Hd0). apply N.div_small_iff in Hz; lia.
Qed.

Lemma digits10_head n :
  ∃ d r, (d < 10)%N ∧ (d = 0 → n = 0)%N ∧ digits 10 n = String (hex_digit d) r ∧ (n = 0%N → r = "").
Proof. apply digits10_go_head. apply digits_fuel. lia. Qed.

Lemma span_digits_app ds rest :
  str_all is_digit ds = true → rest_ok rest → span_digits (ds +:+ rest) = (ds, rest).
Proof.
  intros Hds Hr. induction ds as [|c ds IH]; simpl in *.
  - by destruct Hr as [->|(c & t & -> & [->|[->|[->| ->]]])].
  - apply andb_true_iff in Hds as [-> Hds]. by rewrite (IH Hds).
Qed.

Lemma digits10_all n : str_all is_digit (digits 10 n) = true.
Proof.
  unfold digits. generalize (S (N.to_nat (N.log2 n))) as fuel.
  assert (∀ fuel m acc, str_all is_digit acc = true → str_all is_digit (digits_go fuel 10 m acc) = true) as H.
  { induction fuel as [|f IH]; intros m acc Hacc; simpl; [done|].
    assert (str_all is_digit (String (hex_digit (m mod 10)) acc) = true).
    { simpl. rewrite Hacc, andb_true_r. apply hex_digit10. by apply N.mod_lt. }
    destruct (m <? 10)%N; auto. }
  intros. by apply H.
Qed.

Lemma digits_Z_digits n : digits_Z (digits 10 n) = Z.of_N n.
Proof. unfold digits_Z. by rewrite parse_digits_digits by lia. Qed.

Lemma p_frac_rest r : rest_ok r → p_frac r = None.
Proof. intros [->|(c & t & -> & [->|[->|[->| ->]]])]; done. Qed.
Lemma p_exp_rest r : rest_ok r → p_exp r = None.
Proof. intros [->|(c & t & -> & [->|[->|[->| ->]]])]; done. Qed.

Lemma p_number_sign pf z rest :
  rest_ok rest → p_number pf (str_of_Z z +:+ rest) = Some (PInt z, rest).
Proof.
  intros Hr. unfold str_of_Z. set (n := Z.to_N (Z.abs z)).
  destruct (digits10_head n) as (d & r & Hd & Hz & Heq & H0).
  assert (∀ sg, (let '(ds0, r0) := span_digits (digits 10 n +:+ rest) in
     let '(ds, r) := match ds0 with
                     | String "0" (String _ _ as t) => ("0", t +:+ r0) | _ => (ds0, r0) end in
     if String.eqb ds "" then None
     else match p_frac r, p_exp (match p_frac r with Some (_, r1) => r1 | None => r end) with
          | None, None => Some (PInt (sg * digits_Z ds), r)
          | Some (f, r1), None =>
              Some (pf (Dec (sg * digits_Z (ds +:+ f)) (- Z.of_nat (String.length f))), r1)
          | None, Some (e, r2) => Some (pf (Dec (sg * digits_Z ds) e), r2)
          | Some (f, _), Some (e, r2) =>
              Some (pf (Dec (sg * digits_Z (ds +:+ f)) (e - Z.of_nat (String.length f))), r2)
          end) = Some (PInt (sg * Z.of_N n), rest)) as Hmain.
  { intros sg. rewrite span_digits_app by (done || apply digits10_all).
    assert (match digits 10 n with
            | String "0" (String _ _ as t) => ("0", t +:+ rest) | _ => (digits 10 n, rest) end
            = (digits 10 n, rest)) as ->.
    { rewrite Heq. destruct (decide (d = 0%N)) as [->|Hne].
      - rewrite H0 by auto. done.
      - assert (hex_digit d ≠ "0"%char).
        { intros E. destruct (hex_digit_val d ltac:(lia)) as [Hv _]. rewrite E in Hv. 
          vm_compute in Hv. congruence. }
        destruct (hex_digit d) as [[] [] [] [] [] [] [] []]; done. }
    rewrite p_frac_rest, p_exp_rest by done. rewrite digits_Z_digits.
    by rewrite Heq. }
  unfold p_number. destruct (Z.ltb_spec z 0) as [Hneg|Hpos].
  - cbn [String.append]. cbv iota beta. rewrite Hmain. do 3 f_equal. lia.
  - cbn [String.append].
    assert (match digits 10 n +:+ rest with String "-" r => (-1, r) | _ => (1, digits 10 n +:+ rest) end
            = (1, digits 10 n +:+ rest)) as ->.
    { rewrite Heq. simpl. destruct (hex_digit10 d Hd) as [Hdig _].
      destruct (hex_digit d) as [[] [] [] [] [] [] [] []]; done. }
    rewrite Hmain. do 3 f_equal. lia.
Qed.

(** A bound on the parser's recursion. *)
Fixpoint vsize (v : pyval) : nat :=
  match v with
  | PList l => S (foldr (λ x n, S (vsize x) + n)%nat O l)
  | PDict d => S (foldr (λ kv n, S (vsize kv.2) + n)%nat O d)
  | _ => 1%nat
  end.

Definition elems_size (l : list pyval) : nat := foldr (λ x n, S (vsize x) + n)%nat O l.
Definition members_size (d : list (string * pyval)) : nat :=
  foldr (λ kv n, S (vsize kv.2) + n)%nat O d.

Lemma str_of_Z_head z :
  ∃ c t, str_of_Z z = String c t ∧ starts_value c = true
         ∧ (c = "-"%char ∨ is_digit c = true)
         ∧ ∀ r, String.prefix "-Infinity" (str_of_Z z +:+ r) = false.
Proof.
  unfold str_of_Z. destruct (digits10_head (Z.to_N (Z.abs z))) as (d & r & Hd & _ & -> & _).
  destruct (hex_digit10 d Hd) as [Hdig Hst].
  destruct (z <? 0).
  - exists "-"%char, (String (hex_digit d) r). repeat split; [auto|]. intros r'. simpl.
    destruct (hex_digit d) as [[] [] [] [] [] [] [] []]; done.
  - exists (hex_digit d), r. repeat split; auto. intros r'. simpl.
    destruct (hex_digit d) as [[] [] [] [] [] [] [] []]; done.
Qed.

Lemma render_head v :
  json_ok v = true → ∃ c t, render v = String c t ∧ starts_value c = true.
Proof.
  destruct v as [|[]|z| | | | |l|l|d]; simpl; intros Hok; try done; unfold quoted; eauto.
  destruct (str_of_Z_head z) as (c & t & ? & ? & _). eauto.
Qed.

Lemma starts_value_skip c t : starts_value c = true → skip_ws (String c t) = String c t.
Proof. unfold starts_value. simpl. by destruct (json_space c). Qed.

Lemma skip_ws_render v r :
  json_ok v = true → skip_ws (render v +:+ r) = render v +:+ r.
Proof. intros (c & t & -> & Hc)%render_head. by apply starts_value_skip. Qed.

Lemma not_bracket c t {A} (a : string → A) (b : string → A) :
  starts_value c = true →
  match String c t with String "]" r => a r | s1 => b s1 end = b (String c t)
  ∧ match String c t with String "}" r => a r | s1 => b s1 end = b (String c t).
Proof. destruct c as [[] [] [] [] [] [] [] []]; try done; intros H; vm_compute in H; done. Qed.

Lemma p_value_int pf fuel z rest :
  rest_ok rest → p_value pf (S fuel) (str_of_Z z +:+ rest) = Some (PInt z, rest).
Proof.
  intros Hr. destruct (str_of_Z_head z) as (c & t & Heq & _ & Hc & Hinf).
  specialize (Hinf rest). rewrite <- (p_number_sign pf z rest Hr).
  rewrite Heq in *. cbn [String.append] in *. cbn [p_value]. rewrite Hinf.
  destruct Hc as [->|Hc]; [done|].
  destruct c as [[] [] [] [] [] [] [] []]; done.
Qed.

Section roundtrip.
Variable pf : decimal → pyval.

Definition parses (v : pyval) : Prop :=
  ∀ fuel rest, (vsize v <= fuel)%nat → rest_ok rest →
    p_value pf fuel (render v +:+ rest) = Some (v, rest).

Lemma p_elems_render l :
  l ≠ [] → Forall (λ v, json_ok v = true) l → Forall parses l →
  ∀ fuel rest, (elems_size l <= fuel)%nat →
    p_elems pf fuel (str_join ", " (map render l) +:+ String "]" rest) = Some (l, rest).
Proof.
  intros Hne Hok Hp. induction Hp as [|v l Hv Hl IH]; [done|].
  inversion Hok as [|? ? Hv0 Hl0]; subst. clear Hne.
  intros fuel rest Hf. cbn [elems_size foldr] in Hf. fold (elems_size l) in Hf.
  destruct fuel as [|f]; [lia|]. cbn [p_elems].
  destruct l as [|w l].
  - simpl str_join. rewrite Hv; [done|lia|auto].
  - change (str_join ", " (map render (v :: w :: l)))
      with (render v +:+ (", " +:+ str_join ", " (map render (w :: l)))).
    rewrite !str_app_assoc, Hv by (lia || apply rest_ok_comma).
    cbn [String.append]. rewrite skip_ws_comma, skip_ws_blank.
    assert (∃ r, str_join ", " (map render (w :: l)) +:+ String "]" rest = render w +:+ r) as [r Hr].
    { destruct l; simpl; [eauto|]. rewrite !str_app_assoc. eauto. }
    rewrite Hr, skip_ws_render by (by inversion Hl0). rewrite <- Hr.
    rewrite IH by (done || (cbn [elems_size foldr] in *; lia)). done.
Qed.

Definition member_text (kv : string * pyval) : string := quoted kv.1 +:+ ": " +:+ render kv.2.

Lemma p_members_render d :
  d ≠ [] → Forall (λ kv, json_ok kv.2 = true) d → Forall (λ kv, parses kv.2) d →
  ∀ fuel rest, (members_size d <= fuel)%nat →
    p_members pf fuel (str_join ", " (map member_text d) +:+ String "}" rest) = Some (d, rest).
Proof.
  intros Hne Hok Hp. induction Hp as [|[k v] l Hv Hl IH]; [done|].
  inversion Hok as [|? ? Hv0 Hl0]; subst. simpl in Hv, Hv0. clear Hne.
  intros fuel rest Hf. cbn [members_size foldr snd] in Hf. fold (members_size l) in Hf.
  destruct fuel as [|f]; [lia|].
  assert (∀ tl, p_str (esc k +:+ String dquote "" +:+ ": " +:+ tl) = Some (k, ": " +:+ tl)) as Hk.
  { intros tl. cbn [String.append]. apply p_str_esc. }
  destruct l as [|kv l].
  - simpl str_join. unfold member_text, quoted. cbn [fst snd String.append p_members].
    rewrite !str_app_assoc. cbn [String.append]. simpl (Ascii.eqb dquote dquote). cbv iota.
    rewrite p_str_esc, skip_ws_colon, skip_ws_blank, skip_ws_render by done. rewrite Hv; [done|lia|auto].
  - change (str_join ", " (map member_text ((k, v) :: kv :: l)))
      with (member_text (k, v) +:+ (", " +:+ str_join ", " (map member_text (kv :: l)))).
    unfold member_text at 1, quoted. cbn [fst snd]. cbn [String.append p_members].
    rewrite !str_app_assoc. cbn [String.append]. simpl (Ascii.eqb dquote dquote). cbv iota.
    rewrite p_str_esc, skip_ws_colon, skip_ws_blank, ?str_app_assoc, skip_ws_render by done.
    rewrite Hv by (lia || apply rest_ok_comma).
    cbn [String.append]. rewrite skip_ws_comma, skip_ws_blank.
    assert (∃ r, str_join ", " (map member_text (kv :: l)) +:+ String "}" rest = String dquote r) as [r Hr].
    { destruct l; simpl; unfold member_text, quoted; cbn [String.append]; eauto. }
    rewrite Hr. change (skip_ws (String dquote r)) with (String dquote r). rewrite <- Hr.
    rewrite IH by (done || (cbn [members_size foldr] in *; lia)). done.
Qed.

(** Members written without a blank after the colon. *)
Lemma p_members_first f k v tl :
  json_ok v = true → parses v → (vsize v <= f)%nat →
  p_members pf (S f) (quoted k +:+ ":" +:+ render v +:+ ", " +:+ String dquote tl)
  = match p_members pf f (String dquote tl) with Some (l, r) => Some ((k, v) :: l, r) | None => None end.
Proof.
  intros Hok Hv Hf. unfold quoted. cbn [String.append p_members]. rewrite !str_app_assoc. cbn [String.append].
  simpl (Ascii.eqb dquote dquote). cbv iota. rewrite p_str_esc, skip_ws_colon, skip_ws_render by done.
  rewrite Hv by (done || apply rest_ok_comma). rewrite skip_ws_comma, skip_ws_blank. done.
Qed.

Lemma p_members_last f k v rest :
  json_ok v = true → parses v → (vsize v <= f)%nat →
  p_members pf (S f) (quoted k +:+ ":" +:+ render v +:+ " }" +:+ rest) = Some ([(k, v)], rest).
Proof.
  intros Hok Hv Hf. unfold quoted. cbn [String.append p_members]. rewrite !str_app_assoc. cbn [String.append].
  simpl (Ascii.eqb dquote dquote). cbv iota. rewrite p_str_esc, skip_ws_colon, skip_ws_render by done.
  rewrite Hv by (done || apply rest_ok_blank). done.
Qed.

(** Reading the members of a dictionary in order rebuilds it. *)
Lemma foldl_dict_set (d acc : list (string * pyval)) :
  NoDup (acc ++ d).*1 → foldl (λ d kv, dict_set kv.1 kv.2 d) acc d = acc ++ d.
Proof.
  revert acc. induction d as [|[k v] d IH]; intros acc Hnd; simpl; [by rewrite app_nil_r|].
  rewrite dict_set_fresh.
  - rewrite IH, <- app_assoc; [done|]. by rewrite <- app_assoc.
  - rewrite fmap_app in Hnd. apply NoDup_app in Hnd as (_ & Hd & _).
    intros Hin. apply (Hd k Hin). left.
Qed.

Lemma parses_ok v : json_ok v = true → parses v.
Proof.
  induction v as [| [] |z| | |s| |l IH| |d IH] using pyval_nested_ind; intros Hok; try done;
    intros [|f] rest Hf Hr; simpl in Hf; try lia; try (by cbn; destruct rest).
  - by apply p_value_int.
  - cbn [render p_value quoted String.append]. rewrite str_app_assoc. cbn [String.append].
    simpl (Ascii.eqb dquote dquote). cbv iota. by rewrite p_str_esc.
  - simpl in Hok. apply forallb_Forall in Hok. cbn [render]. rewrite !str_app_assoc.
    destruct l as [|v l]; [done|].
    assert (json_ok v = true) as Hv by (by inversion Hok).
    destruct (render_head v Hv) as (c & t & Hc & Hst).
    assert (∃ r, str_join ", " (map render (v :: l)) +:+ String "]" rest = String c r) as [r Hj].
    { destruct l; simpl; rewrite Hc; cbn [String.append]; eauto. }
    cbn [String.append p_value]. simpl (Ascii.eqb _ dquote). simpl (Ascii.eqb _ "[").
    cbv iota. rewrite Hj, starts_value_skip by done.
    rewrite (proj1 (not_bracket c r (λ r, Some (PList [], r)) (λ s1,
      match p_elems pf f s1 with Some (l0, r0) => Some (PList l0, r0) | None => None end) Hst)).
    rewrite <- Hj, p_elems_render; [done|done|done|by apply (Forall_mp _ _ _ IH)|].
    unfold elems_size. simpl in *. lia.
  - simpl in Hok. apply andb_true_iff in Hok as [Hnd%bool_decide_eq_true Hok%forallb_Forall].
    cbn [render]. rewrite !str_app_assoc. fold member_text.
    destruct d as [|kv d]; [done|].
    assert (∃ r, str_join ", " (map member_text (kv :: d)) +:+ String "}" rest = String dquote r) as [r Hj].
    { destruct d; simpl; unfold member_text, quoted; cbn [String.append]; eauto. }
    cbn [String.append p_value]. simpl (Ascii.eqb _ dquote). simpl (Ascii.eqb _ "[").
    simpl (Ascii.eqb _ "{"). cbv iota. rewrite Hj. change (skip_ws (String dquote r)) with (String dquote r).
    cbv beta iota delta [dquote ascii_of_nat ascii_of_pos]. fold dquote.
    change (match p_members pf f (String dquote r) with
            | Some (l, r0) => Some (PDict (foldl (λ d0 kv0, dict_set kv0.1 kv0.2 d0) [] l), r0)
            | None => None end = Some (PDict (kv :: d), rest)).
    rewrite <- Hj, p_members_render; [|done|done|by apply (Forall_mp (λ kv, json_ok kv.2 = true))|].
    + by rewrite foldl_dict_set.
    + unfold members_size. simpl in *. lia.
Qed.

Lemma join_length {A} (f : A → string) (g : A → nat) l :
  Forall (λ x, (g x <= String.length (f x))%nat) l →
  (foldr (λ x n, S (g x) + n) 0 l <= S (String.length (str_join ", " (map f l))))%nat.
Proof.
  induction 1 as [|x l Hx Hl IH]; [simpl; lia|]. destruct l as [|y l]; [simpl in *; lia|].
  change (str_join ", " (map f (x :: y :: l))) with (f x +:+ (", " +:+ str_join ", " (map f (y :: l)))).
  rewrite !str_length_app. cbn [foldr] in *. simpl (String.length ", "). lia.
Qed.

Lemma vsize_length v : json_ok v = true → (vsize v <= String.length (render v))%nat.
Proof.
  induction v as [| [] |z| | |s| |l IH| |d IH] using pyval_nested_ind; intros Hok; try done; try (simpl; lia).
  - destruct (str_of_Z_head z) as (c & t & Hz & _). simpl. rewrite Hz. simpl. lia.
  - simpl in Hok. apply forallb_Forall in Hok.
    pose proof (join_length render vsize l (Forall_mp _ _ _ IH Hok)).
    cbn [render vsize]. rewrite !str_length_app. simpl (String.length "["). simpl (String.length "]"). lia.
  - simpl in Hok. apply andb_true_iff in Hok as [_ Hok%forallb_Forall].
    assert (Forall (λ kv, (vsize kv.2 <= String.length (member_text kv))%nat) d) as Hm.
    { apply (Forall_mp (λ kv, json_ok kv.2 = true) _ _); [|done].
      eapply Forall_impl; [exact IH|]. intros kv Hkv Hk. specialize (Hkv Hk).
      unfold member_text. rewrite !str_length_app. lia. }
    pose proof (join_length member_text (λ kv, vsize kv.2) d Hm) as Hj.
    cbn [render vsize]. fold member_text. rewrite !str_length_app.
    simpl (String.length "{"). simpl (String.length "}"). lia.
Qed.

(** What is sent is what was meant: encoding a JSON value never fails and
    decoding the text gives the value back, whatever the reading of floats. *)
Lemma dumps_loads_lemma dflt v :
  json_ok v = true → ∃ s, dumps_with dflt v = Val s ∧ loads_with pf s = Val v.
Proof.
  intros Hok. exists (render v). split; [by apply dumps_render|].
  unfold loads_with. pose proof (vsize_length v Hok) as Hl.
  pose proof (skip_ws_render v "" Hok) as Hs. rewrite str_app_nil_r in Hs. rewrite Hs.
  assert (p_value pf (S (String.length (render v))) (render v) = Some (v, "")) as ->; [|done].
  rewrite <- (str_app_nil_r (render v)) at 2. apply parses_ok; [done|lia|left; done].
Qed.
End roundtrip.

(** ** Decoded values can be encoded *)

Fixpoint no_bytes (v : pyval) : bool :=
  match v with
  | PBytes _ => false
  | PList l | PTuple l => forallb no_bytes l
  | PDict d => forallb (λ kv, no_bytes kv.2) d
  | _ => true
  end.

Lemma omapM_total {A B} (f : A → outcome B) l :
  Forall (λ x, ∃ y, f x = Val y) l → ∃ ys, omapM f l = Val ys.
Proof.
  induction 1 as [|x l [y Hy] Hl [ys IH]]; simpl; [eauto|]. rewrite Hy, IH. simpl. eauto.
Qed.

Lemma dumps_total f v : no_bytes v = true → ∃ s, dumps_with (Some f) v = Val s.
Proof.
  assert (∀ l, Forall (λ v, no_bytes v = true → ∃ s, dumps_with (Some f) v = Val s) l →
    forallb no_bytes l = true → ∃ ys, omapM (dumps_with (Some f)) l = Val ys) as Hl.
  { intros l IH Hv%forallb_Forall. apply omapM_total. by apply (Forall_mp _ _ _ IH). }
  induction v as [| | | | | | |l IH|l IH|d IH] using pyval_nested_ind; simpl; eauto; try done.
  - intros Hv. destruct (Hl l IH Hv) as [ys ->]. simpl. eauto.
  - intros Hv. destruct (Hl l IH Hv) as [ys ->]. simpl. eauto.
  - intros Hv%forallb_Forall. 
    match goal with |- context [omapM ?g d] => destruct (omapM_total g d) as [ys ->] end;
      [|simpl; eauto].
    clear Hl. induction IH as [|kv d Hkv Hd IH]; constructor; inversion Hv; subst; auto.
    destruct Hkv as [s Hs]; [done|]. rewrite Hs. simpl. eauto.
Qed.

Lemma foldl_dict_set_no_bytes l acc :
  forallb (λ kv : string * pyval, no_bytes kv.2) acc = true →
  forallb (λ kv : string * pyval, no_bytes kv.2) l = true →
  forallb (λ kv : string * pyval, no_bytes kv.2) (foldl (λ d kv, dict_set kv.1 kv.2 d) acc l) = true.
Proof.
  revert acc. induction l as [|[k v] l IH]; intros acc Ha Hl; simpl; [done|].
  simpl in Hl. apply andb_true_iff in Hl as [Hv Hl]. apply IH; [|done]. clear IH Hl.
  induction acc as [|[k2 v2] acc IH]; simpl; [by rewrite Hv|].
  simpl in Ha. apply andb_true_iff in Ha as [Hv2 Ha].
  case_decide; simpl; rewrite ?Hv, ?Hv2; auto.
Qed.

Ltac parse_cases := repeat first [progress simplify_eq/= | case_scrut; simplify_eq/=].

Lemma p_number_no_bytes pf s v r :
  (∀ d, no_bytes (pf d) = true) → p_number pf s = Some (v, r) → no_bytes v = true.
Proof.
  intros Hpf. unfold p_number.
  destruct (match s with String "-" r => (-1, r) | _ => (1, s) end) as [sg s1].
  destruct (span_digits s1) as [ds0 r0].
  destruct (match ds0 with String "0" (String _ _ as t) => ("0", t +:+ r0) | _ => (ds0, r0) end) as [ds r'].
  destruct (String.eqb ds ""); [done|].
  destruct (p_frac r') as [[f r1]|].
  - destruct (p_exp r1) as [[e r2]|]; intros [= <- <-]; auto.
  - destruct (p_exp r') as [[e r2]|]; intros [= <- <-]; auto.
Qed.

Lemma p_word_no_bytes w u s v r : no_bytes u = true → p_word w u s = Some (v, r) → no_bytes v = true.
Proof. unfold p_word. destruct (String.prefix w s); [|done]. by intros ? [= <- <-]. Qed.

Lemma parser_no_bytes pf fuel :
  (∀ d, no_bytes (pf d) = true) →
  (∀ s v r, p_value pf fuel s = Some (v, r) → no_bytes v = true)
  ∧ (∀ s l r, p_elems pf fuel s = Some (l, r) → forallb no_bytes l = true)
  ∧ (∀ s l r, p_members pf fuel s = Some (l, r) → forallb (λ kv, no_bytes kv.2) l = true).
Proof.
  intros Hpf. induction fuel as [|f (IHv & IHe & IHm)]; [done|]. split; [|split].
  - intros [|c s] v r; [done|]. cbn [p_value].
    destruct (Ascii.eqb c dquote).
    { destruct (p_str s) as [[t r']|]; [|done]. by intros [= <- <-]. }
    destruct (Ascii.eqb c "[").
    { intros Hv. assert (v = PList [] ∨ ∃ l r', v = PList l ∧ p_elems pf f (skip_ws s) = Some (l, r'))
        as [->|(l & r' & -> & He)]; [|done|exact (IHe _ _ _ He)].
      destruct (skip_ws s) as [|[[] [] [] [] [] [] [] []] s1];
        repeat (case_scrut; try done); simplify_eq; eauto 10. }
    destruct (Ascii.eqb c "{").
    { intros Hv. assert (v = PDict [] ∨ ∃ l r', (v = PDict (foldl (λ d kv, dict_set kv.1 kv.2 d) [] l)
        ∧ p_members pf f (skip_ws s) = Some (l, r'))) as [->|(l & r' & -> & He)];
        [|done|by apply foldl_dict_set_no_bytes; [|apply (IHm _ _ _ He)]].
      destruct (skip_ws s) as [|[[] [] [] [] [] [] [] []] s1];
        repeat (case_scrut; try done); simplify_eq; eauto 10. }
    repeat match goal with |- context [if ?b then _ else _] => destruct b;
      [intros Hw; by eapply p_word_no_bytes in Hw|] end.
    by apply p_number_no_bytes.
  - intros s l r. cbn [p_elems]. destruct (p_value pf f s) as [[v r1]|] eqn:Hv; [|done].
    apply IHv in Hv. destruct (skip_ws r1) as [|c s1]; [done|].
    destruct c as [[] [] [] [] [] [] [] []]; try done; try (intros [= <- <-]; simpl; by rewrite Hv).
    destruct (p_elems pf f (skip_ws s1)) as [[l' r2]|] eqn:He; [|done].
    apply IHe in He. intros [= <- <-]. simpl. by rewrite Hv, He.
  - intros s l r. cbn [p_members]. destruct s as [|c s]; [done|].
    destruct (Ascii.eqb c dquote); [|done]. destruct (p_str s) as [[k r1]|]; [|done].
    destruct (skip_ws r1) as [|c1 s1]; [done|].
    assert (∀ (o : option (list (string * pyval) * string)),
      match String c1 s1 with String ":" r2 => o | _ => None end = Some (l, r) → o = Some (l, r)) as Hcolon.
    { intros o. destruct c1 as [[] [] [] [] [] [] [] []]; done. }
    intros Hm.
    assert (match p_value pf f (skip_ws s1) with
            | Some (v, r2) => match skip_ws r2 with
                | String "}" r3 => Some ([(k, v)], r3)
                | String "," r3 => match p_members pf f (skip_ws r3) with
                                   | Some (l, r4) => Some ((k, v) :: l, r4) | None => None end
                | _ => None end
            | None => None end = Some (l, r)) as Hm2.
    { destruct c1 as [[] [] [] [] [] [] [] []]; done. }
    clear Hm Hcolon. destruct (p_value pf f (skip_ws s1)) as [[v r2]|] eqn:Hv; [|done].
    apply IHv in Hv. destruct (skip_ws r2) as [|c2 s2]; [done|].
    destruct c2 as [[] [] [] [] [] [] [] []]; try done;
      try (injection Hm2 as <- <-; simpl; by rewrite Hv).
    destruct (p_members pf f (skip_ws s2)) as [[l' r4]|] eqn:He; [|done].
    apply IHm in He. injection Hm2 as <- <-. simpl. by rewrite Hv, He.
Qed.

Lemma loads_decimal_no_bytes s v : loads_decimal s = Val v → no_bytes v = true.
Proof.
  unfold loads_decimal, loads_with.
  destruct (p_value _ _ _) as [[w r]|] eqn:Hp; [|done]. destruct (String.eqb _ _); [|done].
  intros [= <-]. by apply parser_no_bytes in Hp.
Qed.

Lemma dict_get_no_bytes k d v :
  forallb (λ kv : string * pyval, no_bytes kv.2) d = true → dict_get k d = Some v → no_bytes v = true.
Proof.
  intros Hd%forallb_Forall Hg%dict_get_Some_elem.
  rewrite Forall_forall in Hd. apply (Hd _ Hg).
Qed.
