(* ===== verification/Encoding.v ===== *)
(** * Encodings of test_framework/util.py

    The conversions the framework applies to what it sends: integers to
    hexadecimal inside a JSON-RPC request, bytes to and from hexadecimal text,
    the byte order of hashes, the padding of field elements, base64 text, and
    the start-up check that JSON keeps the precision of coin amounts. *)

From S2P Require Import Prelude PyStr Numbers PyVal Json.
From Stdlib Require Import Ascii String.
From stdpp Require Import base list.
Local Open Scope Z_scope.

(** ** Requests *)

(** Recursively convert integers to hex. *)
Fixpoint obj_to_hex (obj : pyval) : pyval :=
  match obj with
  | PBool b => PBool b
  | PInt z => PStr (hex z)
  | PDict d => PDict (map (λ kv, (kv.1, obj_to_hex kv.2)) d)
  | PList l | PTuple l => PList (map obj_to_hex l)
  | _ => obj
  end.

Definition create_json2_rpc_request (method : string) (args : pyval) : outcome string :=
  dumps (PDict [("jsonrpc", PStr "2.0"); ("method", PStr method);
                ("params", obj_to_hex args); ("id", PStr "1")]).

Definition check_json_precision : outcome unit :=
  let n := Dec 2000000000000003 (-8) in
  obind (dumps (PFloat (float_of_dec n))) (λ text,
  obind (loads text) (λ x,
  obind (py_mul x (PFloat (float_of_dec (Dec 1 8)))) (λ y,
  obind (py_int y) (λ satoshis,
  if satoshis =? 2000000000000003 then Val tt
  else Exc (RuntimeError "JSON encode/decode loses precision"))))).

(** ** Hexadecimal text *)

Definition bytes_to_hex_str (byte_str : string) : string := hexlify byte_str.

Definition hex_str_to_bytes (hex_str : string) : outcome string :=
  of_opt (ValueError "binascii.Error") (unhexlify hex_str).

Definition swap_bytes (input_buf : string) : outcome string :=
  obind (hex_str_to_bytes input_buf) (λ b, Val (hexlify (str_rev b))).

Definition FIELD_ELEMENT_STRING_SIZE : nat := 64.

Definition get_field_element_with_padding (field_element : string) (sidechain_version : Z)
    : outcome string :=
  if sidechain_version =? 0 then Val (rjust field_element FIELD_ELEMENT_STRING_SIZE "0")
  else if (sidechain_version =? 1) || (sidechain_version =? 2)
  then Val (ljust field_element FIELD_ELEMENT_STRING_SIZE "0")
  else Exc (AssertionError "").

(** ** Base64 *)

Definition b64_char (n : N) : ascii :=
  if (n <? 26)%N then ascii_of_N (65 + n)
  else if (n <? 52)%N then ascii_of_N (71 + n)
  else if (n <? 62)%N then ascii_of_N (n - 4)
  else if (n =? 62)%N then "+"%char else "/"%char.

(** [b64encode]: three bytes to four characters, padded with [=]. *)
Fixpoint b64encode (s : string) : string :=
  match s with
  | String a (String b (String c r)) =>
      let n := (65536 * N_of_ascii a + 256 * N_of_ascii b + N_of_ascii c)%N in
      String (b64_char (n / 262144)) (String (b64_char ((n / 4096) mod 64))
        (String (b64_char ((n / 64) mod 64)) (String (b64_char (n mod 64)) (b64encode r))))
  | String a (String b EmptyString) =>
      let n := (1024 * N_of_ascii a + 4 * N_of_ascii b)%N in
      String (b64_char (n / 4096)) (String (b64_char ((n / 64) mod 64))
        (String (b64_char (n mod 64)) "="))
  | String a EmptyString =>
      let n := (16 * N_of_ascii a)%N in
      String (b64_char (n / 64)) (String (b64_char (n mod 64)) "==")
  | EmptyString => EmptyString
  end.

(** [s.encode('utf-8')] on code points below 256. *)
Fixpoint utf8 (s : string) : string :=
  match s with
  | EmptyString => EmptyString
  | String c s' =>
      let n := N_of_ascii c in
      if (n <? 128)%N then String c (utf8 s')
      else String (ascii_of_N (192 + n / 64)) (String (ascii_of_N (128 + n mod 64)) (utf8 s'))
  end.

Definition str_to_b64str (s : string) : string := b64encode (utf8 s).

Example b64_ex : str_to_b64str "user:TopSecret" = "dXNlcjpUb3BTZWNyZXQ=".
Proof. reflexivity. Qed.

(** ** Properties *)

(** No [int] other than the booleans is left anywhere. *)
Fixpoint no_int (v : pyval) : bool :=
  match v with
  | PInt _ | PTuple _ => false
  | PList l => forallb no_int l
  | PDict d => forallb (λ kv, no_int kv.2) d
  | _ => true
  end.

(** Same shape, with [str]ings in place of [int]s that read back as them. *)
Inductive hex_of : pyval → pyval → Prop :=
| hex_of_int z s : parse_int 16 s = Some z → hex_of (PInt z) (PStr s)
| hex_of_list l k : Forall2 hex_of l k → hex_of (PList l) (PList k)
| hex_of_tuple l k : Forall2 hex_of l k → hex_of (PTuple l) (PList k)
| hex_of_dict d e :
    Forall2 (λ a b : string * pyval, a.1 = b.1 ∧ hex_of a.2 b.2) d e → hex_of (PDict d) (PDict e)
| hex_of_same v :
    match v with PInt _ | PList _ | PTuple _ | PDict _ => False | _ => True end → hex_of v v.

Lemma Forall_map_iff {A B} (f : A → B) (p : B → bool) l :
  Forall (λ x, p (f x) = true) l → forallb p (map f l) = true.
Proof. induction 1 as [|x l Hx Hl IH]; simpl; [done|]. by rewrite Hx, IH. Qed.

Lemma obj_to_hex_no_int v : no_int (obj_to_hex v) = true.
Proof.
  induction v as [| | | | | | |l IH|l IH|d IH] using pyval_nested_ind; simpl; try done;
    by apply Forall_map_iff.
Qed.

Lemma obj_to_hex_id v : no_int v = true → obj_to_hex v = v.
Proof.
  induction v as [| | | | | | |l IH|l IH|d IH] using pyval_nested_ind; simpl; try done.
  - intros Hv%forallb_Forall. f_equal. induction IH as [|x l Hx Hl IH]; [done|].
    inversion Hv; subst. simpl. rewrite Hx, IH; done.
  - intros Hv%forallb_Forall. f_equal. induction IH as [|[k x] l Hx Hl IH]; [done|].
    inversion Hv; subst. simpl in *. rewrite Hx, IH; done.
Qed.

Lemma obj_to_hex_shape v : hex_of v (obj_to_hex v).
Proof.
  induction v as [| | | | | | |l IH|l IH|d IH] using pyval_nested_ind; simpl;
    try (by apply hex_of_same).
  - constructor. apply parse_hex.
  - constructor. induction IH; constructor; auto.
  - constructor. induction IH; constructor; auto.
  - constructor. induction IH; constructor; auto.
Qed.

(** [obj_to_hex] replaces every integer by a hexadecimal string that reads
    back as the same integer (negative ones included), keeps booleans, keys and
    all other leaves, turns tuples into lists, leaves no integer behind, and
    applying it twice changes nothing more. *)
Theorem obj_to_hex_spec (v : pyval) :
  hex_of v (obj_to_hex v) ∧ no_int (obj_to_hex v) = true
  ∧ obj_to_hex (obj_to_hex v) = obj_to_hex v.
Proof.
  split; [apply obj_to_hex_shape|]. split; [apply obj_to_hex_no_int|].
  apply obj_to_hex_id, obj_to_hex_no_int.
Qed.

(** JSON data that may contain tuples. *)
Fixpoint json_args (v : pyval) : bool :=
  match v with
  | PNone | PBool _ | PInt _ | PStr _ => true
  | PList l | PTuple l => forallb json_args l
  | PDict d => bool_decide (NoDup d.*1) && forallb (λ kv, json_args kv.2) d
  | _ => false
  end.

Lemma obj_to_hex_json_ok v : json_args v = true → json_ok (obj_to_hex v) = true.
Proof.
  induction v as [| | | | | | |l IH|l IH|d IH] using pyval_nested_ind; simpl; try done.
  - intros Hv%forallb_Forall. by apply Forall_map_iff, (Forall_mp _ _ _ IH).
  - intros Hv%forallb_Forall. by apply Forall_map_iff, (Forall_mp _ _ _ IH).
  - intros [Hnd Hv%forallb_Forall]%andb_true_iff. apply andb_true_iff. split.
    + apply bool_decide_eq_true in Hnd. apply bool_decide_eq_true.
      change (map ?f ?l) with (f <$> l). by rewrite <- list_fmap_compose.
    + apply Forall_map_iff. by apply (Forall_mp (λ kv, json_args kv.2 = true)).
Qed.

Definition rpc_request_object (method : string) (args : pyval) : pyval :=
  PDict [("jsonrpc", PStr "2.0"); ("method", PStr method);
         ("params", obj_to_hex args); ("id", PStr "1")].

Lemma rpc_request_json_ok method args :
  json_args args = true → json_ok (rpc_request_object method args) = true.
Proof. intros H. simpl. by rewrite obj_to_hex_json_ok. Qed.

(** The text [create_json2_rpc_request] builds from any JSON arguments is
    valid JSON, and a reader decodes from it exactly the version, the method
    name, the arguments with their integers in hexadecimal, and the id. *)
Theorem create_json2_rpc_request_wire (method : string) (args : pyval) (pf : decimal → pyval) :
  json_args args = true →
  ∃ text, create_json2_rpc_request method args = Val text
        ∧ loads_with pf text = Val (rpc_request_object method args).
Proof. intros H. by apply (dumps_loads_lemma pf None), rpc_request_json_ok. Qed.

Lemma create_json2_rpc_request_wire_witness :
  ∃ text, create_json2_rpc_request "eth_getBalance" (PTuple [PStr "0xab"; PInt 12; PBool true]) = Val text
        ∧ loads_with parse_float_as_float text
          = Val (rpc_request_object "eth_getBalance" (PTuple [PStr "0xab"; PInt 12; PBool true])).
Proof. apply create_json2_rpc_request_wire. reflexivity. Defined.

Lemma check_json_precision_ok : check_json_precision = Val tt.
Proof. vm_compute. reflexivity. Qed.

Lemma swap_bytes_hex b : swap_bytes (hexlify b) = Val (hexlify (str_rev b)).
Proof. unfold swap_bytes, hex_str_to_bytes. by rewrite unhexlify_hexlify. Qed.

(** [swap_bytes] fails exactly on text that is not an even number of
    hexadecimal digits; otherwise swapping twice gives the input back in
    lower case, and a swapped hash has the length of the original. *)
Theorem swap_bytes_involutive (s : string) :
  match swap_bytes s with
  | Val t => swap_bytes t = Val (lower s) ∧ String.length t = String.length (lower s)
  | Exc e => unhexlify s = None ∧ e = ValueError "binascii.Error"
  | NoFuel => False
  end.
Proof.
  unfold swap_bytes at 1, hex_str_to_bytes. destruct (unhexlify s) as [b|] eqn:Hb; simpl; [|done].
  rewrite swap_bytes_hex, str_rev_involutive, <- (hexlify_unhexlify s b Hb).
  split; [done|]. rewrite !hexlify_length. f_equal.
  clear Hb. induction b as [|c b IH]; [done|]. rewrite str_rev_cons, str_length_app. simpl. lia.
Qed.

(** For the sidechain versions 0, 1 and 2 the padded field element has 64
    digits (more only if the input already had more) and the input's digits at
    its end for version 0 and at its start for 1 and 2; any other version is an
    assertion failure. *)
Theorem get_field_element_with_padding_spec (fe : string) (version : Z) :
  match get_field_element_with_padding fe version with
  | Val r =>
      String.length r = Nat.max 64 (String.length fe)
      ∧ ((version = 0 ∧ r = str_repeat "0" (64 - String.length fe) +:+ fe)
         ∨ ((version = 1 ∨ version = 2) ∧ r = fe +:+ str_repeat "0" (64 - String.length fe)))
  | Exc e => e = AssertionError "" ∧ ¬ (0 <= version <= 2)
  | NoFuel => False
  end.
Proof.
  unfold get_field_element_with_padding.
  destruct (version =? 0) eqn:H0, (version =? 1) eqn:H1, (version =? 2) eqn:H2; b2p; simpl; try lia;
    unfold rjust, ljust, FIELD_ELEMENT_STRING_SIZE;
    try (rewrite str_length_app, str_length_repeat; split; [lia|]; auto).
  split; [done|lia].
Qed.

(** Decoding base64: the inverse of [b64encode], for the round trip. *)
Definition b64_val (c : ascii) : N :=
  let n := N_of_ascii c in
  if ((65 <=? n) && (n <=? 90))%N then n - 65
  else if ((97 <=? n) && (n <=? 122))%N then n - 71
  else if ((48 <=? n) && (n <=? 57))%N then n + 4
  else if (n =? 43)%N then 62 else 63.

Fixpoint b64decode (s : string) : string :=
  match s with
  | String a (String b (String c (String d r))) =>
      if Ascii.eqb c "=" then String (ascii_of_N ((64 * b64_val a + b64_val b) / 16)) ""
      else if Ascii.eqb d "=" then
        let n := (4096 * b64_val a + 64 * b64_val b + b64_val c)%N in
        String (ascii_of_N (n / 1024)) (String (ascii_of_N ((n / 4) mod 256)) "")
      else
        let n := (262144 * b64_val a + 4096 * b64_val b + 64 * b64_val c + b64_val d)%N in
        String (ascii_of_N (n / 65536)) (String (ascii_of_N ((n / 256) mod 256))
          (String (ascii_of_N (n mod 256)) (b64decode r)))
  | _ => ""
  end.

Lemma b64_char_val (n : N) :
  (n < 64)%N → b64_val (b64_char n) = n ∧ Ascii.eqb (b64_char n) "=" = false.
Proof.
  intros Hn.
  assert (forallb (λ i, (b64_val (b64_char (N.of_nat i)) =? N.of_nat i)%N
                        && negb (Ascii.eqb (b64_char (N.of_nat i)) "=")) (seq 0 64) = true) as H
    by (vm_compute; reflexivity).
  rewrite forallb_forall in H. specialize (H (N.to_nat n)).
  rewrite N2Nat.id in H. rewrite in_seq in H. specialize (H ltac:(lia)). b2p.
  by apply N.eqb_eq in H.
Qed.

Lemma byte_lt (c : ascii) : (N_of_ascii c < 256)%N.
Proof. apply N_ascii_bounded. Qed.

Lemma ascii_of_N_eq c n : n = N_of_ascii c → ascii_of_N n = c.
Proof. intros ->. apply ascii_N_embedding. Qed.

Ltac b64_digit :=
  match goal with
  | |- context [b64_val (b64_char ?n)] => rewrite (proj1 (b64_char_val n ltac:(div_lia)))
  | |- context [Ascii.eqb (b64_char ?n) _] => rewrite (proj2 (b64_char_val n ltac:(div_lia)))
  | |- context [Ascii.eqb "=" "="] => change (Ascii.eqb "=" "=") with true; cbv iota
  end.

Lemma b64_roundtrip_fuel n s :
  (String.length s <= n)%nat → b64decode (b64encode s) = s.
Proof.
  revert s. induction n as [|n IH]; intros s Hs; (destruct s as [|a [|b [|c r]]]; [done|..]); simpl in Hs; try lia.
  - pose proof (byte_lt a). cbn [b64encode b64decode]. repeat b64_digit. cbv zeta.
    f_equal. apply ascii_of_N_eq. div_lia.
  - pose proof (byte_lt a); pose proof (byte_lt b). cbn [b64encode b64decode].
    repeat b64_digit. cbv zeta.
    f_equal; [|f_equal]; apply ascii_of_N_eq; div_lia.
  - pose proof (byte_lt a); pose proof (byte_lt b); pose proof (byte_lt c). cbn [b64encode b64decode].
    repeat b64_digit. cbv zeta. rewrite IH by lia.
    f_equal; [|f_equal; [|f_equal]]; apply ascii_of_N_eq; div_lia.
Qed.

Lemma b64_roundtrip s : b64decode (b64encode s) = s.
Proof. by apply (b64_roundtrip_fuel (String.length s)). Qed.
