(* ===== verification/HttpProxy.v ===== *)
(** * The proxies: authproxy.py and sidechainauthproxy.py

    [AuthServiceProxy] speaks JSON-RPC to the mainchain nodes,
    [SidechainAuthServiceProxy] the REST and Ethereum RPC interfaces of the
    sidechain nodes.  Attribute access builds a callable proxy, a call builds
    one HTTP request, sends it with one retry if the connection was closed, and
    decodes the response.  [http_nodes] packages the two classes as the
    [Nodes] interface the rest of the development is written against; the
    connection itself ([http.client]) is the interface [Http]. *)

From S2P Require Import Prelude PyStr Numbers PyVal Host Json Encoding Sim.
From Stdlib Require Import Ascii String.
From stdpp Require Import base list.
Local Open Scope Z_scope.

(** ** URLs ([urllib.parse.urlparse]) *)

Record url := Url {
  u_scheme : string;
  u_username : option string;
  u_password : option string;
  u_hostname : option string;
  u_port : option string;
  u_path : string
}.

Definition scheme_char (c : ascii) : bool :=
  match digit_val c with Some n => (n <? 36)%N | None => false end
  || Ascii.eqb c "+" || Ascii.eqb c "-" || Ascii.eqb c ".".

(** The text up to the first character satisfying [p]. *)
Fixpoint span_until (p : ascii → bool) (s : string) : string * string :=
  match s with
  | EmptyString => ("", "")
  | String c s' => if p c then ("", s) else let '(a, b) := span_until p s' in (String c a, b)
  end.

(** [s.rpartition('@')] *)
Fixpoint rpartition_at (s : string) : option (string * string) :=
  match s with
  | EmptyString => None
  | String c s' =>
      match rpartition_at s' with
      | Some (a, b) => Some (String c a, b)
      | None => if Ascii.eqb c "@" then Some ("", s') else None
      end
  end.

Definition opt_nonempty (s : string) : option string := if String.eqb s "" then None else Some s.

Definition urlparse (s : string) : url :=
  let '(scheme, rest) :=
    match split_at ":" s with
    | Some (a, b) => if negb (String.eqb a "") && str_all scheme_char a then (lower a, b) else ("", s)
    | None => ("", s)
    end in
  let '(netloc, path) :=
    if startswith rest "//"
    then span_until (λ c, Ascii.eqb c "/" || Ascii.eqb c "?" || Ascii.eqb c "#") (str_drop 2 rest)
    else ("", rest) in
  let '(user, pass, hostinfo) :=
    match rpartition_at netloc with
    | Some (info, host) =>
        match split_at ":" info with
        | Some (u, p) => (Some u, Some p, host)
        | None => (Some info, None, host)
        end
    | None => (None, None, netloc)
    end in
  let '(host, port) :=
    match split_at ":" hostinfo with
    | Some (h, p) => (h, opt_nonempty p)
    | None => (hostinfo, None)
    end in
  Url scheme user pass (opt_nonempty (lower host)) port
    (fst (span_until (λ c, Ascii.eqb c "?" || Ascii.eqb c "#") path)).

(** The property [url.port] *)
Definition url_port (u : url) : outcome (option Z) :=
  match u_port u with
  | None => Val None
  | Some p => if str_all is_digit p
              then let n := digits_Z p in
                   if n <=? 65535 then Val (Some n) else Exc (ValueError "Port out of range 0-65535")
              else Exc (ValueError "Port could not be cast to integer value")
  end.

Example urlparse_ex :
  urlparse "http://rt:rt@127.0.0.1:12000"
  = Url "http" (Some "rt") (Some "rt") (Some "127.0.0.1") (Some "12000") "".
Proof. reflexivity. Qed.

(** ** Connections *)

Record conn := Conn { c_tls : bool; c_host : option string; c_port : Z; c_timeout : Z }.

(** A header value: text, bytes, or an object that is neither. *)
Inductive hval :=
| HStr (s : string)
| HBytes (b : string)
| HNone
| HProxyObject (service_name : string)
| HBasicUnknownUser (password : string).

Record request := Request {
  r_conn : conn;
  r_method : string;
  r_path : string;
  r_body : pyval;
  r_headers : list (string * hval)
}.

(** [http.client]: sending a request, reading the response (status and decoded
    text, or no response object), closing. *)
Class Http (W : Type) := {
  http_request : request → W → (exn + unit) * W;
  http_getresponse : conn → W → (exn + option (Z * string)) * W;
  http_close : conn → W → W
}.

(** The world with the classes' request counters [__id_count]. *)
Record HW (W : Type) := mkHW { hw_world : W; mc_id_count : Z; sc_id_count : Z }.
Arguments mkHW {W}.
Arguments hw_world {W}.
Arguments mc_id_count {W}.
Arguments sc_id_count {W}.

Definition hw_set {W} (w : W) (h : HW W) : HW W := mkHW w (mc_id_count h) (sc_id_count h).

Section Http.
Context {W : Type} `{Http W}.
Local Abbreviation MH := (M (HW W)).

Definition on_world {A} (f : W → (exn + A) * W) : MH A :=
  run_os (λ h, let '(r, w) := f (hw_world h) in (r, hw_set w h)).

Definition send (r : request) : MH unit := on_world (http_request r).
Definition getresponse (c : conn) : MH (option (Z * string)) := on_world (http_getresponse c).
Definition close (c : conn) : MH unit := on_world (λ w, (inr tt, http_close c w)).

Definition next_mc_id : MH Z :=
  run_os (λ h, (inr (mc_id_count h + 1), mkHW (hw_world h) (mc_id_count h + 1) (sc_id_count h))).
Definition next_sc_id : MH Z :=
  run_os (λ h, (inr (sc_id_count h + 1), mkHW (hw_world h) (mc_id_count h) (sc_id_count h + 1))).

Definition connection (u : url) (port timeout : Z) : conn :=
  Conn (String.eqb (u_scheme u) "https") (u_hostname u) port timeout.

Definition opt_hstr (o : option string) : hval := match o with Some s => HStr s | None => HNone end.

(** ** authproxy.py *)

Definition MC_USER_AGENT : string := "AuthServiceProxy/0.1".
Definition MC_HTTP_TIMEOUT : Z := 600.

Record AuthServiceProxy := mkAuthServiceProxy {
  a_service_url : string;
  a_service_name : option string;
  a_url : url;
  a_auth_header : string;
  a_conn : conn
}.

Definition EncodeDecimal (d : decimal) : float64 := float_of_dec d.

Definition AuthServiceProxy_init (service_url : string) (service_name : option string)
    (timeout : Z) (c : option conn) : outcome AuthServiceProxy :=
  let u := urlparse service_url in
  obind (url_port u) (λ p,
  let port := match p with Some n => n | None => 80 end in
  match u_username u, u_password u with
  | Some user, Some passwd =>
      let authpair := utf8 user +:+ ":" +:+ utf8 passwd in
      Val (mkAuthServiceProxy service_url service_name u ("Basic " +:+ b64encode authpair)
             (match c with Some c => c | None => connection u port timeout end))
  | _, _ => Exc TypeError
  end).

Definition sub_name (service_name : option string) (name : string) : string :=
  match service_name with Some s => s +:+ "." +:+ name | None => name end.

Definition AuthServiceProxy_getattr (self : AuthServiceProxy) (name : string)
    : outcome AuthServiceProxy :=
  if startswith name "__" && endswith name "__" then Exc (AttributeError "")
  else AuthServiceProxy_init (a_service_url self) (Some (sub_name (a_service_name self) name))
         MC_HTTP_TIMEOUT (Some (a_conn self)).

Definition is_BadStatusLine (class : string) : bool :=
  String.eqb class "BadStatusLine" || String.eqb class "RemoteDisconnected".

(** The closed-connection test of [AuthServiceProxy._request]. *)
Definition mc_retry (e : exn) : bool :=
  match e with
  | HttpException class line errno =>
      (is_BadStatusLine class
       && (String.eqb line "''"
           || String.eqb line "No status line received - the server has closed the connection"))
      || String.eqb class "BrokenPipeError" || String.eqb class "ConnectionResetError"
      || (String.eqb class "error" && ((errno =? 10053) || (errno =? 10054)))
  | _ => false
  end.

Definition AuthServiceProxy_get_response (self : AuthServiceProxy) : MH pyval :=
  let! http_response := getresponse (a_conn self) in
  match http_response with
  | None => raise (JSONRPCException (PDict [("code", PInt (-342));
                     ("message", PStr "missing HTTP response from server")]))
  | Some (_, responsedata) =>
      let% response := loads_decimal responsedata in
      let% has_error := has_key "error" response in
      do! (if has_error then
             let% err := getitem response "error" in
             match err with
             | PNone =>
                 (* the arguments of the debug message are evaluated *)
                 let% _ := getitem response "id" in
                 let% result := getitem response "result" in
                 do% dumps_with (Some EncodeDecimal) result in ret tt
             | _ => ret tt
             end
           else ret tt) in
      ret response
  end.

Definition AuthServiceProxy_request (self : AuthServiceProxy) (method path : string)
    (postdata : pyval) : MH pyval :=
  let headers := [("Host", opt_hstr (u_hostname (a_url self))); ("User-Agent", HStr MC_USER_AGENT);
                  ("Authorization", HBytes (a_auth_header self));
                  ("Content-type", HStr "application/json")] in
  let r := Request (a_conn self) method path postdata headers in
  catch (do! send r in AuthServiceProxy_get_response self) (λ e,
    if is_Exception e && mc_retry e then
      do! close (a_conn self) in do! send r in AuthServiceProxy_get_response self
    else raise e).

Definition AuthServiceProxy_call (self : AuthServiceProxy) (args : list pyval) : MH pyval :=
  let! id_count := next_mc_id in
  do% dumps_with (Some EncodeDecimal) (PTuple args) in
  let name := match a_service_name self with Some s => PStr s | None => PNone end in
  let% postdata := dumps_with (Some EncodeDecimal)
    (PDict [("version", PStr "1.1"); ("method", name); ("params", PTuple args);
            ("id", PInt id_count)]) in
  let! response := AuthServiceProxy_request self "POST" (u_path (a_url self)) (PStr postdata) in
  let% err := getitem response "error" in
  match err with
  | PNone =>
      let% has_result := has_key "result" response in
      if has_result then lift (getitem response "result")
      else raise (JSONRPCException (PDict [("code", PInt (-343));
                    ("message", PStr "missing JSON-RPC result")]))
  | _ => raise (JSONRPCException err)
  end.

Definition AuthServiceProxy_batch (self : AuthServiceProxy) (rpc_call_list : list pyval) : MH pyval :=
  let% postdata := dumps_with (Some EncodeDecimal) (PList rpc_call_list) in
  AuthServiceProxy_request self "POST" (u_path (a_url self)) (PStr postdata).

(** ** sidechainauthproxy.py *)

Definition SC_USER_AGENT : string := "SidechainAuthServiceProxy/0.1".
Definition SC_HTTP_TIMEOUT : Z := 6000000.

Definition basic_auth (username password : string) : string :=
  "Basic " +:+ b64encode (utf8 (username +:+ ":" +:+ password)).

(** [s_auth_header] and [s_user] are the attributes [__auth_header] and [_user],
    which exist only when a key was given. *)
Record SidechainAuthServiceProxy := mkSidechainAuthServiceProxy {
  s_service_url : string;
  s_service_name : option string;
  s_url : url;
  s_auth_api_key : option string;
  s_user : option string;
  s_auth_header : option string;
  s_conn : conn
}.

Definition SidechainAuthServiceProxy_init (service_url : string) (service_name : option string)
    (timeout : Z) (c : option conn) (auth_api_key : option string)
    : outcome SidechainAuthServiceProxy :=
  let u := urlparse service_url in
  obind (url_port u) (λ p,
  let port := match p with Some n => n | None => 80 end in
  Val (mkSidechainAuthServiceProxy service_url service_name u auth_api_key
         (match auth_api_key with Some _ => Some "user" | None => None end)
         (match auth_api_key with Some k => Some (utf8 (basic_auth "user" k)) | None => None end)
         (match c with Some c => c | None => connection u port timeout end))).

Definition SidechainAuthServiceProxy_getattr (self : SidechainAuthServiceProxy) (name : string)
    : outcome SidechainAuthServiceProxy :=
  if startswith name "__" && endswith name "__" then Exc (AttributeError "")
  else SidechainAuthServiceProxy_init (s_service_url self)
         (Some (sub_name (s_service_name self) name)) SC_HTTP_TIMEOUT (Some (s_conn self))
         (s_auth_api_key self).

(** The closed-connection test of [SidechainAuthServiceProxy._request]. *)
Definition sc_retry (e : exn) : bool :=
  match e with
  | HttpException class line errno =>
      (is_BadStatusLine class && String.eqb line "''")
      || String.eqb class "BrokenPipeError" || String.eqb class "ConnectionResetError"
      || (String.eqb class "error" && ((errno =? 10053) || (errno =? 10054)))
  | _ => false
  end.

Definition SidechainAuthServiceProxy_get_response (self : SidechainAuthServiceProxy) : MH pyval :=
  let! http_response := getresponse (s_conn self) in
  match http_response with
  | None => raise (SCAPIException "missing HTTP response from server")
  | Some (status, responsedata) =>
      if status =? 200 then lift (loads_decimal responsedata)
      else raise (SCAPIException responsedata)
  end.

(** The value of [self.__auth_header]: without the attribute, [__getattr__]
    answers with a proxy named after it. *)
Definition auth_header_of (self : SidechainAuthServiceProxy) : hval :=
  match s_auth_header self with
  | Some h => HBytes h
  | None => HProxyObject (sub_name (s_service_name self) "_SidechainAuthServiceProxy__auth_header")
  end.

Definition sc_headers (self : SidechainAuthServiceProxy) (api_key : pyval) : list (string * hval) :=
  [("Host", opt_hstr (u_hostname (s_url self))); ("User-Agent", HStr SC_USER_AGENT);
   ("Content-type", HStr "application/json");
   ("Authorization",
     match api_key with
     | PNone => auth_header_of self
     | _ => match s_user self with
            | Some user => HStr (basic_auth user (py_str api_key))
            | None => HBasicUnknownUser (py_str api_key)
            end
     end)].

Definition SidechainAuthServiceProxy_request (self : SidechainAuthServiceProxy)
    (method path : string) (postdata api_key : pyval) : MH pyval :=
  let r := Request (s_conn self) method path postdata (sc_headers self api_key) in
  catch (do! send r in SidechainAuthServiceProxy_get_response self) (λ e,
    if is_Exception e && sc_retry e then
      do! close (s_conn self) in do! send r in SidechainAuthServiceProxy_get_response self
    else raise e).

(** The HTTP method, the path and the positional arguments of a call. *)
Definition sc_route (service_name : string) (args : list pyval)
    : outcome (string * string * list pyval) :=
  obind (if startswith service_name "get"
         then match split_at "get_" service_name with
              | Some (_, path) => Val ("GET", path)
              | None => Exc IndexError
              end
         else Val ("POST", service_name)) (λ mp,
  let '(method, path) := mp in
  if str_contains "rpc_" path then
    let rpc_method := str_replace path "rpc_" "" in
    obind (create_json2_rpc_request rpc_method (PTuple args)) (λ body,
    Val (method, "/ethv1", [PStr body]))
  else Val (method, "/" +:+ replace_char "_" "/" path, args)).

Definition SidechainAuthServiceProxy_call (self : SidechainAuthServiceProxy) (args : list pyval)
    (kwargs : list (string * pyval)) : MH pyval :=
  do! next_sc_id in
  match s_service_name self with
  | None => raise TypeError
  | Some service_name =>
      let% '(method, path, args) := sc_route service_name args in
      let postdata := match args with a :: _ => a | [] => PNone end in
      let auth := match args with _ :: a :: _ => a | _ => PNone end in
      let% postdata := (match kwargs with
                        | [] => Val postdata
                        | _ => obind (dumps (PDict kwargs)) (λ s, Val (PStr s))
                        end) in
      SidechainAuthServiceProxy_request self method path postdata auth
  end.

(** ** The [Nodes] interface *)

Definition run_call {A} (m : MH A) (h : HW W) : (exn + A) * HW W :=
  match m (init_st h) with
  | (Val a, st) => (inr a, world st)
  | (Exc e, st) => (inl e, world st)
  | (NoFuel, st) => (inl (RuntimeError "unreachable: no loop in a call"), world st)
  end.

(** [p.name(args, kwargs)] *)
Definition proxy_call (p : proxy) (name : string) (args : list pyval)
    (kwargs : list (string * pyval)) : MH pyval :=
  match px_kind p with
  | KAuthService =>
      let% self := AuthServiceProxy_init (px_url p) None (px_timeout p) None in
      let% callable := AuthServiceProxy_getattr self name in
      match kwargs with [] => AuthServiceProxy_call callable args | _ => raise TypeError end
  | KSidechain =>
      let% self := SidechainAuthServiceProxy_init (px_url p) None (px_timeout p) None (px_auth p) in
      let% callable := SidechainAuthServiceProxy_getattr self name in
      SidechainAuthServiceProxy_call callable args kwargs
  end.

#[export] Instance http_nodes : Nodes (HW W) :=
  λ p name args kwargs h, run_call (proxy_call p name args kwargs) h.
End Http.

(** ** What goes over the wire *)

(** A connection whose requests are recorded. *)
Class HttpLog (W : Type) `{Http W} := {
  sent : W → list request;
  sent_request : ∀ r w, sent (http_request r w).2 = sent w ++ [r];
  sent_getresponse : ∀ c w, sent (http_getresponse c w).2 = sent w;
  sent_close : ∀ c w, sent (http_close c w) = sent w
}.

Section Wire.
Context {W : Type} `{HttpLog W}.
Local Abbreviation MH := (M (HW W)).

Definition sent_st (st : St (HW W)) : list request := sent (hw_world (world st)).

(** A computation that sends nothing. *)
Definition silent {A} (m : MH A) : Prop := ∀ st, sent_st (m st).2 = sent_st st.

Lemma silent_ret {A} (a : A) : silent (ret a).
Proof. done. Qed.
Lemma silent_raise {A} e : silent (raise (A := A) e).
Proof. done. Qed.
Lemma silent_lift {A} (o : outcome A) : silent (lift o).
Proof. done. Qed.
Lemma silent_bind {A B} (m : MH A) (k : A → MH B) :
  silent m → (∀ a, silent (k a)) → silent (bind m k).
Proof.
  intros Hm Hk st. unfold bind. specialize (Hm st).
  destruct (m st) as [[a|e|] st']; simpl in *; [by rewrite (Hk a)|done|done].
Qed.
Lemma silent_getresponse c : silent (getresponse c).
Proof.
  intros st. unfold getresponse, on_world, run_os.
  pose proof (sent_getresponse c (hw_world (world st))) as Hs.
  destruct (http_getresponse c (hw_world (world st))) as [r w]. exact Hs.
Qed.
Lemma silent_close c : silent (close c).
Proof. intros st. unfold close, on_world, run_os, sent_st. simpl. apply sent_close. Qed.
Lemma silent_next_mc_id : silent next_mc_id.
Proof. done. Qed.
Lemma silent_next_sc_id : silent next_sc_id.
Proof. done. Qed.

Lemma sent_send r st : sent_st (send r st).2 = sent_st st ++ [r].
Proof.
  unfold send, on_world, run_os, sent_st.
  pose proof (sent_request r (hw_world (world st))) as Hs.
  destruct (http_request r (hw_world (world st))) as [x w]. exact Hs.
Qed.

Create HintDb silent discriminated.
#[local] Hint Resolve silent_ret silent_raise silent_lift silent_getresponse silent_close
  silent_next_mc_id silent_next_sc_id : silent.

Ltac solve_silent :=
  repeat first
    [ progress eauto with silent
    | apply silent_bind; [|intros ?]
    | match goal with |- silent (match ?x with _ => _ end) => destruct x end
    | match goal with |- silent (if ?x then _ else _) => destruct x end ].

Lemma silent_mc_response self : silent (AuthServiceProxy_get_response self).
Proof. unfold AuthServiceProxy_get_response. solve_silent. Qed.
Lemma silent_sc_response self : silent (SidechainAuthServiceProxy_get_response self).
Proof. unfold SidechainAuthServiceProxy_get_response. solve_silent. Qed.

(** One try: the request, then the response. *)
Definition attempt {A} (r : request) (read : MH A) : MH A := do! send r in read.

Lemma sent_attempt {A} r (read : MH A) st :
  silent read → sent_st (attempt r read st).2 = sent_st st ++ [r].
Proof.
  intros Hr. unfold attempt, bind. pose proof (sent_send r st) as Hs.
  destruct (send r st) as [[[]|e|] st']; simpl in *; [by rewrite Hr|done|done].
Qed.

(** The connection was found closed at the first try. *)
Definition closed_first {A} (retry : exn → bool) (r : request) (read : MH A) (st : St (HW W)) : bool :=
  match (attempt r read st).1 with Exc e => is_Exception e && retry e | _ => false end.

Definition with_retry {A} (retry : exn → bool) (c : conn) (r : request) (read : MH A) : MH A :=
  catch (attempt r read) (λ e,
    if is_Exception e && retry e then do! close c in attempt r read else raise e).

Lemma with_retry_spec {A} retry c r (read : MH A) st :
  silent read →
  if closed_first retry r read st
  then with_retry retry c r read st = attempt r read (close c (attempt r read st).2).2
       ∧ sent_st (with_retry retry c r read st).2 = sent_st st ++ [r; r]
  else with_retry retry c r read st = attempt r read st
       ∧ sent_st (with_retry retry c r read st).2 = sent_st st ++ [r].
Proof.
  intros Hr. unfold closed_first, with_retry, catch.
  pose proof (sent_attempt r read st Hr) as Hs.
  destruct (attempt r read st) as [[a|e|] st']; simpl in *; try done.
  destruct (is_Exception e && retry e); [|done].
  assert ((do! close c in attempt r read) st' = attempt r read (close c st').2) as -> by done.
  split; [done|]. rewrite sent_attempt by done. rewrite silent_close, Hs, <- app_assoc. done.
Qed.

Lemma with_retry_sent {A} retry c r (read : MH A) st :
  silent read →
  ∃ n, (n = 1 ∨ n = 2)%nat ∧ sent_st (with_retry retry c r read st).2 = sent_st st ++ repeat r n.
Proof.
  intros Hr. pose proof (with_retry_spec retry c r read st Hr) as Hs.
  destruct (closed_first retry r read st); destruct Hs as [_ Hs]; eauto.
Qed.


Definition api_headers (p : proxy) (k : string) : list (string * hval) :=
  [("Host", opt_hstr (u_hostname (urlparse (px_url p)))); ("User-Agent", HStr SC_USER_AGENT);
   ("Content-type", HStr "application/json");
   ("Authorization", HBytes (utf8 (basic_auth "user" k)))].

Lemma run_call_sent {A} (m : MH A) h :
  sent (hw_world (run_call m h).2) = sent_st (m (init_st h)).2.
Proof. unfold run_call, sent_st. by destruct (m (init_st h)) as [[a|e|] st]. Qed.

Definition px_port (p : proxy) : outcome Z :=
  obind (url_port (urlparse (px_url p))) (λ o, Val (match o with Some n => n | None => 80 end)).

Definition px_conn (p : proxy) (port : Z) : conn :=
  connection (urlparse (px_url p)) port (px_timeout p).

(** A sidechain call whose route is known sends that request. *)
Lemma sc_call_sent p name args k port h method path body :
  px_kind p = KSidechain → px_auth p = Some k → px_port p = Val port →
  startswith name "__" = false → sc_route name args = Val (method, path, [body]) →
  ∃ n, (n = 1 ∨ n = 2)%nat ∧
    sent (hw_world (node_call p name args [] h).2)
    = sent (hw_world h) ++ repeat (Request (px_conn p port) method path body (api_headers p k)) n.
Proof.
  intros Hk Ha Hp Hn Hr. unfold node_call, http_nodes. rewrite run_call_sent.
  unfold proxy_call. rewrite Hk. unfold SidechainAuthServiceProxy_getattr, SidechainAuthServiceProxy_init.
  unfold px_port in Hp. rewrite Ha, Hn.
  destruct (url_port (urlparse (px_url p))) as [o|e|] eqn:Hu; simplify_eq/=.
  unfold SidechainAuthServiceProxy_call, bind, lift. simpl. rewrite Hu. simpl. rewrite Hr.
  apply (with_retry_sent sc_retry _ (Request _ _ _ _ _)), silent_sc_response.
Qed.



(** A call on a sidechain proxy built without an API key, and with no key
    among the arguments, does not leave the Authorization header out: it passes
    to the HTTP library an object (a proxy for a method of that name) that is
    not a header value. *)
Theorem no_key_sends_object (self : SidechainAuthServiceProxy) (url name : string) (timeout : Z) :
  SidechainAuthServiceProxy_init url (Some name) timeout None None = Val self →
  ∃ svc, ("Authorization", HProxyObject svc) ∈ sc_headers self PNone.
Proof.
  unfold SidechainAuthServiceProxy_init. destruct (url_port (urlparse url)); simpl; [|done|done].
  intros [= <-]. exists (name +:+ "._SidechainAuthServiceProxy__auth_header").
  unfold sc_headers, auth_header_of. simpl. do 3 right. left.
Qed.

(** *** The mainchain proxy *)

Definition mc_request_object (name : string) (args : list pyval) (id : Z) : pyval :=
  PDict [("version", PStr "1.1"); ("method", PStr name); ("params", PList args); ("id", PInt id)].

(** The callable [proxy.name]. *)
Lemma mc_callable p name port :
  px_port p = Val port → startswith name "__" = false →
  match AuthServiceProxy_init (px_url p) None (px_timeout p) None with
  | Val self => ∃ callable, AuthServiceProxy_getattr self name = Val callable
      ∧ a_service_name callable = Some name ∧ a_url callable = urlparse (px_url p)
      ∧ a_conn callable = px_conn p port ∧ a_auth_header callable = a_auth_header self
  | Exc e => e = TypeError
  | NoFuel => False
  end.
Proof.
  unfold px_port, AuthServiceProxy_getattr, AuthServiceProxy_init. intros Hp Hn. rewrite Hn.
  destruct (url_port (urlparse (px_url p))) as [o|e|] eqn:Hu; simplify_eq/=.
  destruct (u_username (urlparse (px_url p))) as [u|] eqn:Hus; [|done].
  destruct (u_password (urlparse (px_url p))) as [w|] eqn:Hpw; [|done].
  simpl. rewrite Hu, Hus, Hpw. simpl. eauto 10.
Qed.

Lemma mc_postdata name args id :
  forallb json_ok args = true →
  ∃ text, dumps_with (Some EncodeDecimal)
    (PDict [("version", PStr "1.1"); ("method", PStr name); ("params", PTuple args); ("id", PInt id)])
    = Val text ∧ loads_decimal text = Val (mc_request_object name args id).
Proof.
  intros Ha. apply (dumps_loads_lemma parse_float_as_decimal (Some EncodeDecimal) (mc_request_object name args id)).
  simpl. by rewrite Ha.
Qed.

Lemma json_ok_no_bytes v : json_ok v = true → no_bytes v = true.
Proof.
  induction v as [| | | | | | |l IH|l IH|d IH] using pyval_nested_ind; simpl; try done.
  - intros Hv%forallb_Forall. by apply forallb_Forall, (Forall_mp _ _ _ IH).
  - intros [_ Hv%forallb_Forall]%andb_true_iff. apply forallb_Forall.
    by apply (Forall_mp (λ kv, json_ok kv.2 = true)).
Qed.

Lemma json_ok_args_no_bytes args : forallb json_ok args = true → no_bytes (PTuple args) = true.
Proof.
  intros Hargs%forallb_Forall. simpl. apply forallb_Forall.
  eapply Forall_impl; [exact Hargs|]. apply json_ok_no_bytes.
Qed.

(** C13: a mainchain call with JSON arguments posts, once (twice when the
    connection was found closed), a body that decodes to the method name, the
    arguments in order and the next value of the request counter. *)
Theorem mc_call_wire (p : proxy) (name : string) (port : Z) (args : list pyval)
    (self : AuthServiceProxy) (h : HW W) :
  px_kind p = KAuthService → px_port p = Val port → startswith name "__" = false →
  AuthServiceProxy_init (px_url p) None (px_timeout p) None = Val self →
  forallb json_ok args = true →
  ∃ n text hdrs, (n = 1 ∨ n = 2)%nat
    ∧ loads_decimal text = Val (mc_request_object name args (mc_id_count h + 1))
    ∧ ("Authorization", HBytes (a_auth_header self)) ∈ hdrs
    ∧ sent (hw_world (node_call p name args [] h).2)
      = sent (hw_world h) ++ repeat (Request (px_conn p port) "POST"
          (u_path (urlparse (px_url p))) (PStr text) hdrs) n.
Proof.
  intros Hk Hp Hn Hself Hargs. pose proof (mc_callable p name port Hp Hn) as Hc. rewrite Hself in Hc.
  destruct Hc as (callable & Hget & Hname & Hurl & Hconn & Hauth).
  destruct (mc_postdata name args (mc_id_count h + 1) Hargs) as (text & Hd & Hl).
  destruct (dumps_total EncodeDecimal (PTuple args)) as [dbg Hdbg].
  { by apply json_ok_args_no_bytes. }
  set (hdrs := [("Host", opt_hstr (u_hostname (a_url callable))); ("User-Agent", HStr MC_USER_AGENT);
                ("Authorization", HBytes (a_auth_header callable));
                ("Content-type", HStr "application/json")]).
  set (st1 := (next_mc_id (init_st h)).2).
  destruct (with_retry_sent mc_retry (a_conn callable)
    (Request (a_conn callable) "POST" (u_path (a_url callable)) (PStr text) hdrs)
    (AuthServiceProxy_get_response callable) st1 (silent_mc_response _)) as (n & Hn2 & Hs).
  exists n, text, hdrs. split; [done|]. split; [done|]. split.
  { rewrite <- Hauth. unfold hdrs. do 2 right. left. }
  unfold node_call, http_nodes. rewrite run_call_sent. rewrite <- Hurl, <- Hconn.
  unfold proxy_call. rewrite Hk, Hself. unfold bind at 1, lift at 1. unfold bind at 1, lift at 1.
  rewrite Hget. unfold AuthServiceProxy_call. unfold bind at 1.
  change (next_mc_id (init_st h)) with (Val (mc_id_count h + 1), st1). cbv iota beta.
  unfold bind at 1, lift at 1. rewrite Hdbg. rewrite Hname. unfold bind at 1, lift at 1. rewrite Hd.
  change (sent (hw_world h)) with (sent_st st1). rewrite <- Hs.
  unfold bind at 1. change (AuthServiceProxy_request callable "POST" (u_path (a_url callable)) (PStr text))
    with (with_retry mc_retry (a_conn callable)
      (Request (a_conn callable) "POST" (u_path (a_url callable)) (PStr text) hdrs)
      (AuthServiceProxy_get_response callable)).
  destruct (with_retry mc_retry _ _ _ st1) as [[a|e|] st2]; try done. simpl.
  unfold bind, lift. destruct (getitem a "error") as [err|e|]; try done.
  destruct err; try done. destruct (has_key "result" a) as [[]|e|]; done.
Qed.

(** What the caller gets from a decoded JSON-RPC response object. *)
Definition mc_result (d : list (string * pyval)) : outcome pyval :=
  match dict_get "error" d with
  | Some PNone =>
      match dict_get "id" d, dict_get "result" d with
      | None, _ => Exc (KeyError "id")
      | _, None => Exc (KeyError "result")
      | _, Some v => Val v
      end
  | Some err => Exc (JSONRPCException err)
  | None => Exc (KeyError "error")
  end.

Lemma mc_response_cases self st status body d w2 :
  http_getresponse (a_conn self) (hw_world (world st)) = (inr (Some (status, body)), w2) →
  loads_decimal body = Val (PDict d) →
  (AuthServiceProxy_get_response self st).1 =
  match dict_get "error" d, mc_result d with
  | Some PNone, Exc e => Exc e
  | _, _ => Val (PDict d)
  end.
Proof.
  intros Hr Hb. pose proof (loads_decimal_no_bytes _ _ Hb) as Hnb.
  unfold AuthServiceProxy_get_response, getresponse, on_world, run_os, bind, lift.
  rewrite Hr. simpl. rewrite Hb. unfold has_key, getitem, py_in, dict_mem, mc_result.
  destruct (dict_get "error" d) as [[]|] eqn:He; simpl; try rewrite He; try done.
  destruct (dict_get "id" d) as [i|]; simpl; [|done].
  destruct (dict_get "result" d) as [v|] eqn:Hv; simpl; [|done].
  destruct (dumps_total EncodeDecimal v) as [t ->]; [|done].
  by apply (dict_get_no_bytes "result" d).
Qed.

(** C18: when the server answers a mainchain call with a JSON object, the call
    returns its result if the error is null and raises the server's error
    otherwise; a response without a result is a [KeyError] raised while the
    response is read, so the "missing JSON-RPC result" error that [__call__]
    prepares for that case is never produced. *)
Theorem mc_call_result (self : AuthServiceProxy) (name body : string) (args : list pyval)
    (d : list (string * pyval)) (status : Z) (st : St (HW W)) :
  a_service_name self = Some name → forallb json_ok args = true →
  (∀ r, ∃ w1 w2, http_request r (hw_world (world st)) = (inr tt, w1)
     ∧ http_getresponse (a_conn self) w1 = (inr (Some (status, body)), w2)) →
  loads_decimal body = Val (PDict d) →
  (AuthServiceProxy_call self args st).1 = mc_result d.
Proof.
  intros Hname Hargs Hw Hb.
  destruct (dumps_total EncodeDecimal (PTuple args)) as [dbg Hdbg]. { by apply json_ok_args_no_bytes. }
  destruct (mc_postdata name args (mc_id_count (world st) + 1) Hargs) as (text & Hd & _).
  unfold AuthServiceProxy_call. rewrite Hname. set (st1 := (next_mc_id st).2).
  unfold bind at 1. change (next_mc_id st) with (Val (mc_id_count (world st) + 1), st1). cbv iota beta.
  unfold bind at 1, lift at 1. rewrite Hdbg. unfold bind at 1, lift at 1. rewrite Hd.
  set (res := AuthServiceProxy_request self "POST" (u_path (a_url self)) (PStr text)).
  assert ((res st1).1 = match dict_get "error" d, mc_result d with
                        | Some PNone, Exc e => Exc e | _, _ => Val (PDict d) end) as Hres.
  { unfold res, AuthServiceProxy_request, catch, bind at 1, send, on_world, run_os.
    match goal with |- context [http_request ?r _] => destruct (Hw r) as (w1 & w2 & Hreq & Hget) end.
    change (hw_world (world st1)) with (hw_world (world st)). rewrite Hreq. simpl.
    match goal with |- context [AuthServiceProxy_get_response self ?s] => set (st2 := s) end.
    pose proof (mc_response_cases self st2 status body d w2 Hget Hb) as Hc.
    destruct (AuthServiceProxy_get_response self st2) as [o st3]. simpl in Hc. subst o.
    unfold mc_result. destruct (dict_get "error" d) as [[]|]; try done.
    destruct (dict_get "id" d); [|done]. by destruct (dict_get "result" d). }
  unfold bind. destruct (res st1) as [o st2]. simpl in Hres. subst o.
  unfold mc_result, lift, getitem, has_key, py_in, dict_mem.
  destruct (dict_get "error" d) as [[]|] eqn:He; simpl; try (rewrite He; done).
  destruct (dict_get "id" d); [|done]. destruct (dict_get "result" d) as [v|] eqn:Hv; [|done].
  simpl. rewrite He. simpl. by rewrite ?Hv.
Qed.
End Wire.

(** ** A recorded connection, for the concrete runs *)

(** Requests so far and the scripted responses left. *)
Record wire := Wire { w_sent : list request; w_replies : list (exn + option (Z * string)) }.

#[export] Instance wire_http : Http wire := {
  http_request r w := (inr tt, Wire (w_sent w ++ [r]) (w_replies w));
  http_getresponse _ w :=
    match w_replies w with
    | [] => (inl (HttpException "RemoteDisconnected" "''" 0), w)
    | x :: l => (x, Wire (w_sent w) l)
    end;
  http_close _ w := w
}.

#[export] Instance wire_log : HttpLog wire.
Proof.
  refine {| sent := w_sent |}; [done| |done].
  intros c w. simpl. by destruct (w_replies w).
Defined.

Definition wire0 (l : list (exn + option (Z * string))) : HW wire := mkHW (Wire [] l) 0 0.

(** A closed connection, then an answer. *)
Example retry_ex :
  let '(r, h) := node_call sc0 "block_best" [] []
    (wire0 [inl (HttpException "RemoteDisconnected" "''" 0); inr (Some (200, "7"))]) in
  r = inr (PInt 7) ∧ map r_path (w_sent (hw_world h)) = ["/block/best"; "/block/best"].
Proof. vm_compute. split; reflexivity. Qed.



Definition no_key_self : SidechainAuthServiceProxy :=
  mkSidechainAuthServiceProxy "http://127.0.0.1:8200" (Some "block_best")
    (urlparse "http://127.0.0.1:8200") None None None
    (connection (urlparse "http://127.0.0.1:8200") 8200 600).

Lemma no_key_sends_object_witness :
  ∃ svc, ("Authorization", HProxyObject svc) ∈ sc_headers no_key_self PNone.
Proof. apply (no_key_sends_object no_key_self "http://127.0.0.1:8200" "block_best" 600). reflexivity. Defined.

Definition mc_self (name : option string) : AuthServiceProxy :=
  mkAuthServiceProxy "http://rt:rt@127.0.0.1:12000" name (urlparse "http://rt:rt@127.0.0.1:12000")
    ("Basic " +:+ b64encode "rt:rt") (connection (urlparse "http://rt:rt@127.0.0.1:12000") 12000 600).

Lemma mc_call_wire_witness :
  ∃ n text hdrs, (n = 1 ∨ n = 2)%nat
    ∧ loads_decimal text = Val (mc_request_object "generate" [PInt 1] (0 + 1))
    ∧ ("Authorization", HBytes (a_auth_header (mc_self None))) ∈ hdrs
    ∧ sent (hw_world (node_call mc0 "generate" [PInt 1] [] (wire0 [])).2)
      = [] ++ repeat (Request (px_conn mc0 12000) "POST" "" (PStr text) hdrs) n.
Proof.
  exact (mc_call_wire mc0 "generate" 12000 [PInt 1] (mc_self None) (wire0 [])
    eq_refl eq_refl eq_refl eq_refl eq_refl).
Defined.

Definition mc_reply : string :=
  "{" +:+ quoted "result" +:+ ": 479, " +:+ quoted "error" +:+ ": null, " +:+ quoted "id" +:+ ": 1}".

Lemma mc_call_result_witness :
  (AuthServiceProxy_call (mc_self (Some "getblockcount")) []
     (init_st (wire0 [inr (Some (200, mc_reply))]))).1
  = mc_result [("result", PInt 479); ("error", PNone); ("id", PInt 1)].
Proof.
  apply (mc_call_result (mc_self (Some "getblockcount")) "getblockcount" mc_reply [] _ 200).
  - reflexivity.
  - reflexivity.
  - intros r. eexists _, _. split; reflexivity.
  - vm_compute. reflexivity.
Defined.

(** ** The clock under the proxies *)

(** If no HTTP operation moves the clock back, neither does a call. *)
Class HttpClock (W : Type) `{Http W, Clock W} := {
  hclk : W → Z;
  hclk_now_val : ∀ w, (clk_now w).1 = hclk w;
  hclk_now_mono : ∀ w, hclk w ≤ hclk (clk_now w).2;
  hclk_sleep_mono : ∀ w d, 0 ≤ d → hclk w + d ≤ hclk (clk_sleep d w);
  hclk_request : ∀ r w, hclk w ≤ hclk (http_request r w).2;
  hclk_getresponse : ∀ c w, hclk w ≤ hclk (http_getresponse c w).2;
  hclk_close : ∀ c w, hclk w ≤ hclk (http_close c w)
}.

Section HttpClock.
Context {W : Type} `{HttpClock W}.

#[export] Instance hw_clock : Clock (HW W) := {
  clk_now h := let '(t, w) := clk_now (hw_world h) in (t, hw_set w h);
  clk_sleep d h := hw_set (clk_sleep d (hw_world h)) h
}.

Definition st_clk (st : St (HW W)) : Z := hclk (hw_world (world st)).

(** A computation that does not move the clock back. *)
Definition forward {A} (m : M (HW W) A) : Prop := ∀ st, st_clk st ≤ st_clk (m st).2.

Lemma forward_ret {A} (a : A) : forward (ret a).
Proof. intros st. apply Z.le_refl. Qed.
Lemma forward_raise {A} e : forward (raise (A := A) e).
Proof. intros st. apply Z.le_refl. Qed.
Lemma forward_lift {A} (o : outcome A) : forward (lift o).
Proof. intros st. apply Z.le_refl. Qed.
Lemma forward_bind {A B} (m : M (HW W) A) (k : A → M (HW W) B) :
  forward m → (∀ a, forward (k a)) → forward (bind m k).
Proof.
  intros Hm Hk st. unfold bind. specialize (Hm st).
  destruct (m st) as [[a|e|] st']; simpl in *; [specialize (Hk a st'); lia|done|done].
Qed.
Lemma forward_catch {A} (m : M (HW W) A) h :
  forward m → (∀ e, forward (h e)) → forward (catch m h).
Proof.
  intros Hm Hk st. unfold catch. specialize (Hm st).
  destruct (m st) as [[a|e|] st']; simpl in *; [done|specialize (Hk e st'); lia|done].
Qed.
Lemma forward_on_world {A} (f : W → (exn + A) * W) :
  (∀ w, hclk w ≤ hclk (f w).2) → forward (on_world f).
Proof.
  intros Hf st. unfold on_world, run_os, st_clk. specialize (Hf (hw_world (world st))).
  by destruct (f (hw_world (world st))) as [r w].
Qed.
Lemma forward_send r : forward (send r).
Proof. apply forward_on_world. intros w. apply hclk_request. Qed.
Lemma forward_getresponse c : forward (getresponse c).
Proof. apply forward_on_world. intros w. apply hclk_getresponse. Qed.
Lemma forward_close c : forward (close c).
Proof. apply forward_on_world. intros w. apply hclk_close. Qed.
Lemma forward_next_mc_id : forward next_mc_id.
Proof. intros st. apply Z.le_refl. Qed.
Lemma forward_next_sc_id : forward next_sc_id.
Proof. intros st. apply Z.le_refl. Qed.

Create HintDb forward discriminated.
#[local] Hint Resolve forward_ret forward_raise forward_lift forward_send forward_getresponse
  forward_close forward_next_mc_id forward_next_sc_id : forward.

Lemma forward_proxy_call p name args kw : forward (proxy_call p name args kw).
Proof.
  unfold proxy_call, AuthServiceProxy_call, AuthServiceProxy_request, AuthServiceProxy_get_response,
    SidechainAuthServiceProxy_call, SidechainAuthServiceProxy_request,
    SidechainAuthServiceProxy_get_response.
  repeat first
    [ progress eauto with forward
    | apply forward_bind; [|intros ?]
    | apply forward_catch; [|intros ?]
    | match goal with |- forward (match ?x with _ => _ end) => destruct x end
    | match goal with |- forward (if ?x then _ else _) => destruct x end ].
Qed.

(** The proxies keep the promise on the clock that the waiting loops use. *)
#[export] Instance http_clock_laws : ClockLaws (HW W).
Proof.
  refine {| clk h := hclk (hw_world h) |}.
  - intros h. simpl. rewrite <- hclk_now_val. by destruct (clk_now (hw_world h)).
  - intros h. simpl. pose proof (hclk_now_mono (hw_world h)). by destruct (clk_now (hw_world h)).
  - intros h d Hd. simpl. by apply hclk_sleep_mono.
  - intros p m a k h. unfold node_call, http_nodes, run_call.
    pose proof (forward_proxy_call p m a k (init_st h)) as Hf.
    destruct (proxy_call p m a k (init_st h)) as [[v|e|] st']; exact Hf.
Defined.
End HttpClock.
