(* ===== verification/BootInfo.v ===== *)
(** * Configuration objects: SidechainTestFramework/sc_boostrap_info.py

    The classes are records; a constructor with checks or derived attributes is
    a function of the same name with [_init].  An attribute that exists only in
    some cases is an option.  [allowed_forgers] is a mutable list that several
    node configurations can share, so the record holds a reference into the
    heap of lists. *)

From S2P Require Import Prelude PyStr Numbers PyVal Host Sim.
From Stdlib Require Import Ascii String.
From stdpp Require Import base list.
Local Open Scope Z_scope.

Definition LARGE_WITHDRAWAL_EPOCH_LENGTH : Z := 900.
Definition SC_CREATION_VERSION_0 : Z := 0.
Definition SC_CREATION_VERSION_1 : Z := 1.
Definition SC_CREATION_VERSION_2 : Z := 2.
Definition NO_KEY_ROTATION_CIRCUIT : string := "NaiveThresholdSignatureCircuit".
Definition KEY_ROTATION_CIRCUIT : string := "NaiveThresholdSignatureCircuitWithKeyRotation".
Definition DEFAULT_API_KEY : string := "TopSecret".
Definition DEFAULT_MAX_NONCE_GAP : Z := 16.
Definition DEFAULT_MAX_ACCOUNT_SLOTS : Z := 16.
Definition DEFAULT_MAX_MEMPOOL_SLOTS : Z := 6144.
Definition DEFAULT_MAX_NONEXEC_POOL_SLOTS : Z := 1024.
Definition DEFAULT_TX_LIFETIME : Z := 10800.

Record SCCreationInfo := mkSCCreationInfo {
  mc_node : proxy;
  forward_amount : pyval;
  sci_withdrawal_epoch_length : Z;
  btr_data_length : Z;
  sc_creation_version : Z;
  cert_max_keys : Z;
  cert_sig_threshold : Z;
  csw_enabled : bool;
  non_ceasing : bool;
  sci_circuit_type : string
}.

(** The second error message concatenates a string with an integer, which is
    itself the exception that leaves the constructor. *)
Definition SCCreationInfo_init (mc_node : proxy) (forward_amount : pyval)
    (withdrawal_epoch_length btr_data_length sc_creation_version cert_max_keys cert_sig_threshold : Z)
    (csw_enabled is_non_ceasing : bool) (circuit_type : string) : outcome SCCreationInfo :=
  if csw_enabled && is_non_ceasing
  then Exc (RuntimeError "Cannot enable CSW and Non-ceasing options simultaneously.")
  else if negb (sc_creation_version =? SC_CREATION_VERSION_2) && is_non_ceasing
  then obind (py_add (PStr "Cannot initialize non-ceasing sidechain with version different from ")
                     (PInt SC_CREATION_VERSION_2)) (λ m,
       obind (py_add m (PStr ". Found ")) (λ m,
       obind (py_add m (PInt sc_creation_version)) (λ m,
       Exc (RuntimeError (py_str m)))))
  else Val (mkSCCreationInfo mc_node forward_amount withdrawal_epoch_length btr_data_length
              sc_creation_version cert_max_keys cert_sig_threshold csw_enabled is_non_ceasing
              circuit_type).

(** The constructor's default arguments. *)
Definition SCCreationInfo_defaults (mc_node : proxy) : outcome SCCreationInfo :=
  SCCreationInfo_init mc_node (PInt 100) LARGE_WITHDRAWAL_EPOCH_LENGTH 0 SC_CREATION_VERSION_1 7 5
    false false NO_KEY_ROTATION_CIRCUIT.

Record MCConnectionInfo := mkMCConnectionInfo {
  address : string;
  connectionTimeout : Z;
  reconnectionDelay : Z;
  reconnectionMaxAttempts : Z
}.

Definition MCConnectionInfo_defaults : MCConnectionInfo :=
  mkMCConnectionInfo "ws://localhost:8888" 100 1 1.

Record SCForgerConfiguration := mkSCForgerConfiguration {
  restrict_forgers : bool;
  allowed_forgers : nat;               (* reference to the list *)
  forger_reward_address : string
}.

Definition qt : string := String dquote "".

Definition forger_entry (blockSign vrf : string) : string :=
  "{ blockSignProposition = " +:+ qt +:+ blockSign +:+ qt +:+ " NEW_LINE vrfPublicKey = " +:+ qt
  +:+ vrf +:+ qt +:+ " }".

Definition SCForgerConfiguration_init {W} (restrict_forgers : bool)
    (allowed_forgers : list (string * string)) (forger_reward_address : string)
    : M W SCForgerConfiguration :=
  let! r := alloc [] in
  do! forM_ allowed_forgers (λ f, append_list r (PStr (forger_entry f.1 f.2))) in
  ret (mkSCForgerConfiguration restrict_forgers r forger_reward_address).

Record SCNodeConfiguration := mkSCNodeConfiguration {
  mc_connection_info : MCConnectionInfo;
  cert_submitter_enabled : bool;
  cert_signing_enabled : bool;
  submitter_private_keys_indexes : list Z;
  max_incoming_connections : Z;
  max_outgoing_connections : Z;
  get_peers_interval : string;
  automatic_fee_computation : bool;
  certificate_fee : pyval;
  forger_options : SCForgerConfiguration;
  api_key : string;
  max_fee : Z;
  mempool_max_size : Z;
  mempool_min_fee_rate : Z;
  initial_private_keys : list pyval;
  initial_signing_private_keys : list pyval;
  remote_keys_manager_enabled : bool;
  remote_keys_server_address : option pyval;   (* attribute only if enabled *)
  known_peers : list pyval;
  declared_address : option string;            (* attribute only if given *)
  storage_backup_interval : string;
  storage_backup_delay : string;
  websocket_server_enabled : bool;
  websocket_server_port : Z;
  allow_unprotected_txs : bool;
  max_nonce_gap : Z;
  max_account_slots : Z;
  max_mempool_slots : Z;
  max_nonexec_pool_slots : Z;
  tx_lifetime : Z;
  handling_txs_enabled : bool;
  evm_state_dump_enabled : bool
}.

Definition SCNodeConfiguration_init
    (mc_connection_info : MCConnectionInfo) (cert_submitter_enabled cert_signing_enabled : bool)
    (submitter_private_keys_indexes : option (list Z))
    (max_incoming_connections max_outgoing_connections : Z) (get_peers_interval : string)
    (automatic_fee_computation : bool) (certificate_fee : pyval)
    (forger_options : SCForgerConfiguration) (mempool_max_size mempool_min_fee_rate : Z)
    (api_key : string) (max_fee : Z) (initial_private_keys : list pyval)
    (remote_keys_manager_enabled : bool) (remote_keys_server_address : pyval)
    (known_peers : list pyval) (declared_address : option string)
    (initial_signing_private_keys : list pyval) (storage_backup_interval storage_backup_delay : string)
    (websocket_server_enabled : bool) (websocket_server_port : Z) (allow_unprotected_txs : bool)
    (max_nonce_gap max_account_slots max_mempool_slots max_nonexec_pool_slots tx_lifetime : Z)
    (handling_txs_enabled evm_state_dump_enabled : bool) : SCNodeConfiguration :=
  mkSCNodeConfiguration mc_connection_info cert_submitter_enabled cert_signing_enabled
    (match submitter_private_keys_indexes with Some l => l | None => zrange 0 7 end)
    max_incoming_connections max_outgoing_connections get_peers_interval automatic_fee_computation
    certificate_fee forger_options api_key max_fee mempool_max_size mempool_min_fee_rate
    initial_private_keys initial_signing_private_keys remote_keys_manager_enabled
    (if remote_keys_manager_enabled then Some remote_keys_server_address else None)
    known_peers declared_address storage_backup_interval storage_backup_delay
    websocket_server_enabled websocket_server_port allow_unprotected_txs max_nonce_gap
    max_account_slots max_mempool_slots max_nonexec_pool_slots tx_lifetime handling_txs_enabled
    evm_state_dump_enabled.

(** All arguments but the connection left at their defaults; the default forger
    options are one object, made when the class is defined. *)
Definition SCNodeConfiguration_defaults (mc : MCConnectionInfo) (shared : SCForgerConfiguration)
    : SCNodeConfiguration :=
  SCNodeConfiguration_init mc true true None 100 100 "2m" true (PFloat (float_of_dec (Dec 1 (-4))))
    shared 300 0 DEFAULT_API_KEY 10000000 [] false PNone [] None [] "15m" "5m" false 0 true
    DEFAULT_MAX_NONCE_GAP DEFAULT_MAX_ACCOUNT_SLOTS DEFAULT_MAX_MEMPOOL_SLOTS
    DEFAULT_MAX_NONEXEC_POOL_SLOTS DEFAULT_TX_LIFETIME true true.

(** [update_websocket_config]: the configuration with the two fields changed. *)
Definition update_websocket_config (c : SCNodeConfiguration) (enabled : bool) (port : Z)
    : SCNodeConfiguration :=
  mkSCNodeConfiguration (mc_connection_info c) (cert_submitter_enabled c) (cert_signing_enabled c)
    (submitter_private_keys_indexes c) (max_incoming_connections c) (max_outgoing_connections c)
    (get_peers_interval c) (automatic_fee_computation c) (certificate_fee c) (forger_options c)
    (api_key c) (max_fee c) (mempool_max_size c) (mempool_min_fee_rate c) (initial_private_keys c)
    (initial_signing_private_keys c) (remote_keys_manager_enabled c) (remote_keys_server_address c)
    (known_peers c) (declared_address c) (storage_backup_interval c) (storage_backup_delay c)
    enabled port (allow_unprotected_txs c) (max_nonce_gap c) (max_account_slots c)
    (max_mempool_slots c) (max_nonexec_pool_slots c) (tx_lifetime c) (handling_txs_enabled c)
    (evm_state_dump_enabled c).

Record SCNetworkConfiguration := mkSCNetworkConfiguration {
  sc_creation_info : SCCreationInfo;
  sc_nodes_configuration : list SCNodeConfiguration
}.

Record Account := mkAccount { secret : pyval; publicKey : pyval }.
Record VrfAccount := mkVrfAccount { vrf_secret : pyval; vrf_publicKey : pyval }.
Record AccountKey := mkAccountKey { ak_secret : pyval; proposition : pyval }.
Record SchnorrAccount := mkSchnorrAccount { schnorr_secret : pyval; schnorr_publicKey : pyval }.

Record CertificateProofInfo := mkCertificateProofInfo {
  threshold : pyval;
  genSysConstant : pyval;
  verificationKey : pyval;
  schnorr_signers_secrets : list pyval;
  public_signing_keys : list pyval;
  schnorr_masters_secrets : list pyval;
  public_master_keys : list pyval
}.

Record ProofKeysPaths := mkProofKeysPaths {
  proving_key_path : string;
  verification_key_path : string
}.

Record SCBootstrapInfo := mkSCBootstrapInfo {
  sidechain_id : pyval;
  genesis_account : option Account;
  genesis_account_balance : pyval;
  mainchain_block_height : pyval;
  sidechain_genesis_block_hex : pyval;
  pow_data : pyval;
  network : pyval;
  withdrawal_epoch_length : Z;
  genesis_vrf_account : option VrfAccount;
  certificate_proof_info : CertificateProofInfo;
  initial_cumulative_comm_tree_hash : pyval;
  is_non_ceasing : bool;
  cert_keys_paths : ProofKeysPaths;
  csw_keys_paths : option ProofKeysPaths;
  genesis_evm_account : option AccountKey;
  circuit_type : string
}.

(** ** Properties *)

(** The options of a sidechain are accepted exactly when it is ceasing, or
    non-ceasing of version 2 without ceased-sidechain withdrawals; a
    non-ceasing sidechain of another version is refused with a [TypeError] from
    building the message, not with the [RuntimeError] the check announces. *)
Theorem SCCreationInfo_init_spec (mc : proxy) (amount : pyval) (wel btr version maxk thr : Z)
    (csw nc : bool) (circuit : string) :
  SCCreationInfo_init mc amount wel btr version maxk thr csw nc circuit =
  (if negb nc || ((version =? 2) && negb csw)
   then Val (mkSCCreationInfo mc amount wel btr version maxk thr csw nc circuit)
   else if csw then Exc (RuntimeError "Cannot enable CSW and Non-ceasing options simultaneously.")
        else Exc TypeError).
Proof.
  unfold SCCreationInfo_init, SC_CREATION_VERSION_2. destruct csw, nc, (version =? 2); reflexivity.
Qed.
