(* ===== verification/McUtil.v ===== *)
(** * Mainchain helpers: test_framework/util.py

    Ports, start-up and shutdown of the mainchain nodes and their process
    table, polling loops, peer connections, the assertion helpers, and the
    wallet routines that choose inputs and split change.  Polling loops have no
    time limit in the source; they take the number of iterations as fuel. *)

From S2P Require Import Prelude PyStr Numbers PyVal Host Sim Json Encoding HttpProxy BootInfo.
From Stdlib Require Import Ascii String.
From stdpp Require Import base list.
Local Open Scope Z_scope.

Definition secs (n : Z) : Z := n * 1000000.

Definition COIN : Z := 100000000.

(** ** Assertions *)

Definition message_suffix (message : string) : string :=
  if String.eqb message "" then message else "; " +:+ message.

Definition newline : string := String (ascii_of_nat 10) "".

Definition assert_equal (expected actual : pyval) (message : string) : outcome unit :=
  if py_neqb expected actual
  then Exc (AssertionError ("(left == right)" +:+ message_suffix message +:+ newline +:+ "  left: <"
         +:+ py_str expected +:+ ">" +:+ newline +:+ " right: <" +:+ py_str actual +:+ ">"))
  else Val tt.

Definition assert_not_equal (expected actual : pyval) (message : string) : outcome unit :=
  if py_eqb expected actual
  then Exc (AssertionError ("(left != right)" +:+ message_suffix message +:+ newline +:+ "  left: <"
         +:+ py_str expected +:+ ">" +:+ newline +:+ " right: <" +:+ py_str actual +:+ ">"))
  else Val tt.

Definition assert_true (condition : bool) (message : string) : outcome unit :=
  if condition then Val tt else Exc (AssertionError message).

Definition assert_false (condition : bool) (message : string) : outcome unit :=
  assert_true (negb condition) message.

Definition assert_greater_than (thing1 thing2 : pyval) : outcome unit :=
  obind (py_le thing1 thing2) (λ b,
  if b then Exc (AssertionError (py_str thing1 +:+ " <= " +:+ py_str thing2)) else Val tt).

Definition fail (message : string) : outcome unit := Exc (AssertionError message).

(** [assert_raises(exc, fun, ...)]: [exc] is given as the test of the except clause. *)
Definition assert_raises {W A} (exc : exn → bool) (fun_ : M W A) : M W unit := λ st,
  match fun_ st with
  | (Exc e, st') =>
      if exc e then (Val tt, st')
      else if is_Exception e
           then (Exc (AssertionError ("Unexpected exception raised: " +:+ exn_name e)), st')
           else (Exc e, st')
  | (Val _, st') => (Exc (AssertionError "No exception raised"), st')
  | (NoFuel, st') => (NoFuel, st')
  end.

(** [_rpchost_to_args]: the match of [(\[[0-9a-fA-f:]+\]|[^:]+)(?::([0-9]+))?$];
    the class [A-f] of the source also holds the characters between Z and a. *)
Definition ip6_char (c : ascii) : bool :=
  let n := N_of_ascii c in
  ((48 <=? n) && (n <=? 57))%N || ((97 <=? n) && (n <=? 102))%N || ((65 <=? n) && (n <=? 102))%N
  || (n =? 58)%N.

(** The optional port up to the end of the text (or before a final newline). *)
Definition port_tail (s : string) : option (option string) :=
  let s := removesuffix s newline in
  match s with
  | EmptyString => Some None
  | String ":" p => if negb (String.eqb p "") && str_all is_digit p then Some (Some p) else None
  | _ => None
  end.

Definition rpchost_match (s : string) : option (string * option string) :=
  let alt1 :=
    match s with
    | String "[" r =>
        let '(body, rest) := span_until (λ c, negb (ip6_char c)) r in
        (* [A-f] holds the bracket too: give back the last one *)
        match split_at "]" (str_rev body) with
        | Some (after, before) =>
            if String.eqb before "" then None
            else match port_tail (str_rev after +:+ rest) with
                 | Some p => Some ("[" +:+ str_rev before +:+ "]", p)
                 | None => None
                 end
        | None => None
        end
    | _ => None
    end in
  match alt1 with
  | Some r => Some r
  | None =>
      let '(host, rest) := span_until (λ c, Ascii.eqb c ":") s in
      if String.eqb host "" then None
      else if String.eqb rest "" then Some (host, None)
      else match port_tail rest with Some p => Some (host, p) | None => None end
  end.

Definition rpchost_to_args (rpchost : option string) : outcome (list string) :=
  match rpchost with
  | None => Val []
  | Some rpchost =>
      match rpchost_match rpchost with
      | None => Exc (ValueError ("Invalid RPC host spec " +:+ rpchost))
      | Some (rpcconnect, rpcport) =>
          let rpcconnect := if startswith rpcconnect "["
            then str_take (String.length rpcconnect - 2) (str_drop 1 rpcconnect) else rpcconnect in
          Val (["-rpcconnect=" +:+ rpcconnect]
               ++ match rpcport with
                  | Some p => if String.eqb p "" then [] else ["-rpcport=" +:+ p]
                  | None => []
                  end)
      end
  end.

Example rpchost_ex :
  rpchost_to_args (Some "127.0.0.1:12000") = Val ["-rpcconnect=127.0.0.1"; "-rpcport=12000"]
  ∧ rpchost_to_args (Some "[::1]:80") = Val ["-rpcconnect=::1"; "-rpcport=80"]
  ∧ rpchost_to_args (Some "a:b:c") = Exc (ValueError "Invalid RPC host spec a:b:c").
Proof. vm_compute. auto. Qed.

(** ** Module state *)

Definition upd_mc_parallel (n : Z) (g : globals) : globals :=
  Globals (sc_parallel_test g) n (is_jacoco_included g) (sidechainclient_processes g)
    (bitcoind_processes g) (ac_cwd g) (nodeModulesInstalled g) (sigHashesGenerated g).

Definition upd_bitcoind (f : list (Z * Z) → list (Z * Z)) (g : globals) : globals :=
  Globals (sc_parallel_test g) (mc_parallel_test g) (is_jacoco_included g)
    (sidechainclient_processes g) (f (bitcoind_processes g)) (ac_cwd g) (nodeModulesInstalled g)
    (sigHashesGenerated g).

(** The port numbers as functions of the module state and the process id. *)
Definition mc_port_modifier (parallel_test : Z) : option Z :=
  if parallel_test >? 0 then Some ((parallel_test - 1) * 100) else None.

Definition mc_port (start_port parallel_test pid n : Z) : Z :=
  match mc_port_modifier parallel_test with
  | Some modifier => start_port + modifier + n
  | None => start_port + n + pid mod 999
  end.

Section McUtil.
Context {W : Type} `{Nodes W, Clock W, Os W, Rng W}.
Local Abbreviation MW := (M W).

Definition set_mc_parallel_test (n : Z) : MW unit := modify_glob (upd_mc_parallel n).

Definition start_port_modifier : MW (option Z) :=
  let! parallel_test := gets mc_parallel_test in ret (mc_port_modifier parallel_test).

Definition port_from (start_port n : Z) : MW Z :=
  let! parallel_test := gets mc_parallel_test in
  let! pid := ask os_getpid in
  ret (mc_port start_port parallel_test pid n).

Definition p2p_port (n : Z) : MW Z := port_from 11000 n.
Definition rpc_port (n : Z) : MW Z := port_from 12000 n.
Definition websocket_port_by_mc_node_index (n : Z) : MW Z := port_from 13000 n.

(** ** Polling *)

(** [counts == [counts[0]] * len(counts)] *)
Definition all_equal_first (counts : list pyval) : outcome bool :=
  match counts with
  | [] => Exc IndexError
  | c :: _ => Val (forallb (λ x, py_eqb x c) counts)
  end.

Fixpoint sync_blocks (fuel : nat) (rpc_connections : list proxy) (wait : Z) : MW unit :=
  match fuel with
  | O => out_of_fuel
  | S f =>
      let! counts := mmap (λ x, call x "getblockcount" []) rpc_connections in
      let% same := all_equal_first counts in
      if same then ret tt
      else do! sleep wait in sync_blocks f rpc_connections wait
  end.

(** [set(node.getrawmempool())] *)
Definition mempool_set (node : proxy) : MW (list pyval) :=
  let! pool := call node "getrawmempool" [] in
  let% l := py_iter pool in
  if forallb py_hashable l then ret l else raise TypeError.

Fixpoint sync_mempools (fuel : nat) (rpc_connections : list proxy) (wait : Z) : MW unit :=
  match fuel with
  | O => out_of_fuel
  | S f =>
      let% first := list_index rpc_connections 0 in
      let! pool := mempool_set first in
      let! num_match := foldM (λ num_match x,
        let! p := mempool_set x in
        ret (if py_set_eqb p pool then num_match + 1 else num_match)) 1 (tail rpc_connections) in
      if num_match =? Z.of_nat (length rpc_connections) then ret tt
      else do! sleep wait in sync_mempools f rpc_connections wait
  end.

(** ** Data directories and processes *)

Definition node_dir (dirname : string) (n : Z) : string := path_join dirname ("node" +:+ str_of_Z n).

Definition initialize_datadir (dirname : string) (n : Z) (websocket_port : pyval) : MW string :=
  let datadir := node_dir dirname n in
  let! exists_ := ask (os_isdir datadir) in
  do! when (negb exists_) (makedirs datadir) in
  let! port := p2p_port n in
  let! rpcport := rpc_port n in
  do! write_file (path_join datadir "zen.conf")
    ("regtest=1" +:+ newline +:+ "showmetrics=0" +:+ newline +:+ "rpcuser=rt" +:+ newline
     +:+ "rpcpassword=rt" +:+ newline +:+ "port=" +:+ str_of_Z port +:+ newline
     +:+ "rpcport=" +:+ str_of_Z rpcport +:+ newline +:+ "listenonion=0" +:+ newline
     +:+ "debug=ws" +:+ newline
     +:+ match websocket_port with
         | PNone => ""
         | _ => "wsport=" +:+ py_str websocket_port +:+ newline
         end) in
  ret datadir.

Definition mc_proxy (url : string) (timeout : Z) : MW proxy :=
  let% self := AuthServiceProxy_init url None timeout None in
  ret (Proxy KAuthService url (default "" (u_hostname (a_url self))) None timeout "").

Definition set_node_times (nodes : list proxy) (t : Z) : MW unit :=
  forM_ nodes (λ node, do! call node "setmocktime" [PInt t] in ret tt).

(** The caller's list is emptied; the model returns the list it leaves. *)
Definition stop_nodes (nodes : list proxy) : MW (list proxy) :=
  do! forM_ nodes (λ node, do! call node "stop" [] in ret tt) in ret [].

Definition wait_bitcoinds : MW unit :=
  let! procs := gets bitcoind_processes in
  do! forM_ procs (λ p, wait_proc p.2) in
  modify_glob (upd_bitcoind (λ _, [])).

Definition log_filename (dirname : string) (n_node : Z) (logname : string) : string :=
  path_join (path_join (node_dir dirname n_node) "regtest") logname.

Definition remove_file (path : string) : MW unit := run_os (os_remove path).

(** One of the four nodes of the cached chain. *)
Definition start_cache_node (i : Z) : MW unit :=
  let! datadir := initialize_datadir "cache" i (PList []) in
  let! bitcoind := getenv "BITCOIND" "bitcoind" in
  let args := [bitcoind; "-keypool=1"; "-datadir=" +:+ datadir; "-discover=0"] in
  let! args := (if i >? 0
                then let! p := p2p_port 0 in ret (args ++ ["-connect=127.0.0.1:" +:+ str_of_Z p])
                else ret args) in
  let! h := popen args in
  do! modify_glob (upd_bitcoind (dict_set i h)) in
  let! cli := getenv "BITCOINCLI" "bitcoin-cli" in
  check_call [cli; "-datadir=" +:+ datadir; "-rpcwait"; "getblockcount"].

Definition connect_cache_node (i : Z) : MW proxy :=
  let! port := rpc_port i in
  catch (mc_proxy ("http://rt:rt@127.0.0.1:" +:+ str_of_Z port) MC_HTTP_TIMEOUT)
    (λ _, raise (SystemExit 1)).

(** 2 rounds of 25 blocks by each of the 4 nodes, 10 minutes apart. *)
Definition mine_cache_chain (fuel : nat) (rpcs : list proxy) : MW Z :=
  foldM (λ block_time _,
    foldM (λ block_time peer,
      let! block_time := foldM (λ block_time _,
        do! set_node_times rpcs block_time in
        let% node := list_index rpcs peer in
        do! call node "generate" [PInt 1] in
        ret (block_time + 10 * 60)) block_time (zrange 0 25) in
      do! sync_blocks fuel rpcs (secs 1) in ret block_time) block_time (zrange 0 4))
    1388534400 (zrange 0 2).

Definition initialize_chain (fuel : nat) (test_dir : string) : MW unit :=
  let! cached := ask (os_isdir (path_join "cache" "node0")) in
  do! when (negb cached) (
    do! forM_ (zrange 0 4) start_cache_node in
    let! rpcs := mmap connect_cache_node (zrange 0 4) in
    do! mine_cache_chain fuel rpcs in
    do! stop_nodes rpcs in
    do! wait_bitcoinds in
    forM_ (zrange 0 4) (λ i,
      forM_ ["debug.log"; "db.log"; "peers.dat"; "fee_estimates.dat"] (λ f,
        remove_file (log_filename "cache" i f)))) in
  forM_ (zrange 0 4) (λ i,
    do! run_os (os_copytree (node_dir "cache" i) (node_dir test_dir i)) in
    do! initialize_datadir test_dir i PNone in ret tt).

Definition initialize_chain_clean (test_dir : string) (num_nodes : Z) : MW unit :=
  forM_ (zrange 0 num_nodes) (λ i,
    let! ws := websocket_port_by_mc_node_index i in
    do! initialize_datadir test_dir i (PInt ws) in ret tt).

Definition start_node (i : Z) (dirname : string) (extra_args : option (list string))
    (rpchost : option string) (timewait : option Z) (binary : option string) : MW proxy :=
  let datadir := node_dir dirname i in
  let! binary := (match binary with Some b => ret b | None => getenv "BITCOIND" "zend" end) in
  let! found := ask (os_isfile binary) in
  if negb found then raise (GenericException ("no such file: " +:+ binary)) else
  let args := [binary; "-datadir=" +:+ datadir; "-keypool=1"; "-discover=0"; "-rest"; "-websocket";
               "-logtimemicros"] ++ default [] extra_args in
  let! h := popen args in
  do! modify_glob (upd_bitcoind (dict_set i h)) in
  let! cli := getenv "BITCOINCLI" "bitcoin-cli" in
  let% host_args := rpchost_to_args rpchost in
  do! check_call ([cli; "-datadir=" +:+ datadir] ++ host_args ++ ["-rpcwait"; "getblockcount"]) in
  let! port := rpc_port i in
  let host := match rpchost with Some (String _ _ as s) => s | _ => "127.0.0.1" end in
  mc_proxy ("http://rt:rt@" +:+ host +:+ ":" +:+ str_of_Z port) (default MC_HTTP_TIMEOUT timewait).

Definition start_nodes (num_nodes : Z) (dirname : string)
    (extra_args : option (list (option (list string)))) (rpchost : option string)
    (binary : option (list (option string))) : MW (list proxy) :=
  let extra_args := default (map (λ _, None) (zrange 0 num_nodes)) extra_args in
  let binary := default (map (λ _, None) (zrange 0 num_nodes)) binary in
  mmap (λ i,
    let% e := list_index extra_args i in
    let% b := list_index binary i in
    start_node i dirname e rpchost None b) (zrange 0 num_nodes).

Definition bitcoind_process (i : Z) : MW Z :=
  let! procs := gets bitcoind_processes in
  lift (of_opt (KeyError (str_of_Z i)) (dict_get i procs)).

(** The process's return code after [poll()]. *)
Definition check_node (i : Z) : MW (option Z) :=
  let! h := bitcoind_process i in
  run_os (λ w, let '(code, w') := os_poll h w in (inr code, w')).

Definition stop_node (node : proxy) (i : Z) : MW unit :=
  do! call node "stop" [] in
  let! h := bitcoind_process i in
  do! wait_proc h in
  modify_glob (upd_bitcoind (dict_del i)).

(** ** Peers *)

(** [any(peer['version'] == 0 for peer in peers)], stopping at the first. *)
Fixpoint any_version_zero (peers : list pyval) : outcome bool :=
  match peers with
  | [] => Val false
  | p :: ps =>
      obind (getitem p "version") (λ v,
      if py_eqb v (PInt 0) then Val true else any_version_zero ps)
  end.

Fixpoint wait_handshake (fuel : nat) (from_connection : proxy) : MW unit :=
  match fuel with
  | O => out_of_fuel
  | S f =>
      let! info := call from_connection "getpeerinfo" [] in
      let% peers := py_iter info in
      let% pending := any_version_zero peers in
      if pending then do! sleep 100000 in wait_handshake f from_connection else ret tt
  end.

Definition mc_ip_port (node_num : Z) : MW string :=
  let! port := p2p_port node_num in ret ("127.0.0.1:" +:+ str_of_Z port).

Definition connect_nodes (fuel : nat) (from_connection : proxy) (node_num : Z) : MW unit :=
  let! ip_port := mc_ip_port node_num in
  do! call from_connection "addnode" [PStr ip_port; PStr "onetry"] in
  wait_handshake fuel from_connection.

Definition connect_nodes_bi (fuel : nat) (nodes : list proxy) (a b : Z) : MW unit :=
  let% na := list_index nodes a in
  do! connect_nodes fuel na b in
  let% nb := list_index nodes b in
  connect_nodes fuel nb a.

Definition disconnect_nodes (fuel : nat) (from_connection : proxy) (node_num : Z) : MW unit :=
  let! ip_port := mc_ip_port node_num in
  do! call from_connection "disconnectnode" [PStr ip_port] in
  wait_handshake fuel from_connection.

Definition disconnect_nodes_bi (fuel : nat) (nodes : list proxy) (a b : Z) : MW unit :=
  let% na := list_index nodes a in
  do! disconnect_nodes fuel na b in
  let% nb := list_index nodes b in
  disconnect_nodes fuel nb a.

(** ** Wallet *)

Fixpoint find_value (i : Z) (vouts : list pyval) (amount : pyval) : outcome (option Z) :=
  match vouts with
  | [] => Val None
  | o :: os =>
      obind (getitem o "value") (λ v,
      if py_eqb v amount then Val (Some i) else find_value (i + 1) os amount)
  end.

Definition find_output (node : proxy) (txid : pyval) (amount : pyval) : MW Z :=
  let! txdata := call node "getrawtransaction" [txid; PInt 1] in
  let% vout := getitem txdata "vout" in
  let% vouts := py_iter vout in
  let% found := find_value 0 vouts amount in
  match found with
  | Some i => ret i
  | None => raise (RuntimeError ("find_output txid " +:+ py_str txid +:+ " : " +:+ py_str amount
                     +:+ " not found"))
  end.

(** The loop of [gather_inputs]: [utxo] holds the shuffled list from its end,
    so that taking its head is [utxo.pop()]. *)
Fixpoint gather_loop (utxo : list pyval) (amount_needed total_in : pyval) (inputs : list pyval)
    : outcome (pyval * list pyval) :=
  obind (py_lt total_in amount_needed) (λ below,
  if below then
    match utxo with
    | [] => Val (total_in, inputs)
    | t :: utxo' =>
        obind (getitem t "amount") (λ amount,
        obind (py_add total_in amount) (λ total_in,
        obind (getitem t "txid") (λ txid,
        obind (getitem t "vout") (λ vout,
        obind (getitem t "address") (λ address,
        gather_loop utxo' amount_needed total_in
          (inputs ++ [PDict [("txid", txid); ("vout", vout); ("address", address)]]))))))
    end
  else Val (total_in, inputs)).

Definition dec_zero8 : pyval := PDec (Dec 0 (-8)).

(** ["%d" % v] *)
Definition fmt_d (v : pyval) : outcome string :=
  match v with PStr _ => Exc TypeError | _ => obind (py_int v) (λ z, Val (str_of_Z z)) end.

Definition gather_inputs (from_node : proxy) (amount_needed : pyval) (confirmations_required : Z)
    : MW (pyval * list pyval) :=
  do% (if confirmations_required >=? 0 then Val tt else Exc (AssertionError "")) in
  let! unspent := call from_node "listunspent" [PInt confirmations_required] in
  let% utxo := py_iter unspent in
  let! utxo := shuffle utxo in
  let% '(total_in, inputs) := gather_loop (reverse utxo) amount_needed dec_zero8 [] in
  let% below := py_lt total_in amount_needed in
  if below then
    let% need := fmt_d amount_needed in
    let% have := fmt_d total_in in
    raise (RuntimeError ("Insufficient funds: need " +:+ need +:+ ", have " +:+ have))
  else ret (total_in, inputs).

(** The key of an output dictionary: addresses are strings. *)
Definition as_key (v : pyval) : outcome string :=
  match v with PStr s => Val s | _ => Exc TypeError end.

(** [Decimal(v).quantize(Decimal('0.00000001'), rounding=ROUND_DOWN)] for a decimal or integer. *)
Definition quantize8 (v : pyval) : outcome pyval :=
  match as_dec v with
  | Some d => match dec_quantize_down d (-8) with
              | Some q => Val (PDec q)
              | None => Exc InvalidOperation
              end
  | None => Exc TypeError
  end.

Definition make_change (from_node : proxy) (amount_in amount_out fee : pyval)
    : MW (list (string * pyval)) :=
  let% amount := py_add amount_out fee in
  let% change := py_sub amount_in amount in
  let% twice := py_mul amount (PInt 2) in
  let% big := py_gt change twice in
  let! '(outputs, change) :=
    (if big then
       let! change_address := call from_node "getnewaddress" [] in
       let% half := py_truediv change (PInt 2) in
       let% half := quantize8 half in
       let% key := as_key change_address in
       let% rest := py_sub amount_in amount in
       let% change := py_sub rest half in
       ret (dict_set key half [], change)
     else ret ([], change)) in
  let% positive := py_gt change (PInt 0) in
  if positive then
    let! address := call from_node "getnewaddress" [] in
    let% key := as_key address in
    ret (dict_set key change outputs)
  else ret outputs.

(** [float(v)] *)
Definition py_float (v : pyval) : outcome pyval :=
  match v with
  | PDec d => Val (PFloat (float_of_dec d))
  | _ => match as_float v with Some x => Val (PFloat x) | None => Exc TypeError end
  end.

(** Create, sign and broadcast a transaction: its id and its hex. *)
Definition send_rawtx (from_node : proxy) (inputs : list pyval) (outputs : list (string * pyval))
    : MW (pyval * pyval) :=
  let! rawtx := call from_node "createrawtransaction" [PList inputs; PDict outputs] in
  let! signresult := call from_node "signrawtransaction" [rawtx] in
  let% hex := getitem signresult "hex" in
  let! txid := call from_node "sendrawtransaction" [hex; PBool true] in
  ret (txid, hex).

Definition send_zeropri_transaction (from_node to_node : proxy) (amount fee : pyval)
    : MW (pyval * pyval) :=
  let! self_address := call from_node "getnewaddress" [] in
  let% fee2 := py_mul fee (PInt 2) in
  let% needed := py_add amount fee2 in
  let! '(total_in, inputs) := gather_inputs from_node needed 1 in
  let% with_fee := py_add amount fee in
  let! outputs := make_change from_node total_in with_fee fee in
  let% key := as_key self_address in
  let% value := py_float with_fee in
  let! '(self_txid, _) := send_rawtx from_node inputs (dict_set key value outputs) in
  let! vout := find_output from_node self_txid with_fee in
  let! to_address := call to_node "getnewaddress" [] in
  let% to_key := as_key to_address in
  let% value := py_float amount in
  send_rawtx from_node [PDict [("txid", self_txid); ("vout", PInt vout)]] [(to_key, value)].

(** [min_fee + fee_increment * random.randint(0, fee_variants)] *)
Definition random_fee (min_fee fee_increment : pyval) (fee_variants : Z) : MW pyval :=
  let! k := randint 0 fee_variants in
  let% inc := py_mul fee_increment (PInt k) in
  lift (py_add min_fee inc).

Definition random_zeropri_transaction (nodes : list proxy) (amount min_fee fee_increment : pyval)
    (fee_variants : Z) : MW (pyval * pyval * pyval) :=
  let! from_node := choice nodes in
  let! to_node := choice nodes in
  let! fee := random_fee min_fee fee_increment fee_variants in
  let! '(txid, txhex) := send_zeropri_transaction from_node to_node amount fee in
  ret (txid, txhex, fee).

Definition random_transaction (nodes : list proxy) (amount min_fee fee_increment : pyval)
    (fee_variants : Z) : MW (pyval * pyval * pyval) :=
  let! from_node := choice nodes in
  let! to_node := choice nodes in
  let! fee := random_fee min_fee fee_increment fee_variants in
  let% needed := py_add amount fee in
  let! '(total_in, inputs) := gather_inputs from_node needed 1 in
  let! outputs := make_change from_node total_in amount fee in
  let% value := py_float amount in
  let! to_address := call to_node "getnewaddress" [] in
  let% key := as_key to_address in
  let! '(txid, hex) := send_rawtx from_node inputs (dict_set key value outputs) in
  ret (txid, hex, fee).

(** ** Asynchronous operations *)

(** The polling loop over the remaining attempts. *)
Fixpoint poll_operation (attempts : nat) (node : proxy) (myopid : pyval) : MW (option pyval) :=
  match attempts with
  | O => ret None
  | S n =>
      let! results := call node "z_getoperationresult" [PList [myopid]] in
      let% len := py_len results in
      if len >? 0 then let% r := getindex results 0 in ret (Some r)
      else do! sleep (secs 1) in poll_operation n node myopid
  end.

Definition wait_and_assert_operationid_status_result (node : proxy) (myopid : pyval)
    (in_status : string) (in_errormsg : pyval) (timeout : Z) : MW pyval :=
  let! result := poll_operation (length (zrange 1 timeout)) node myopid in
  match result with
  | None | Some PNone => raise (AssertionError "timeout occured")
  | Some result =>
      let% status := getitem result "status" in
      let! errormsg :=
        (if py_eqb status (PStr "failed") then
           let% e := getpath result ["error"; "message"] in
           do% assert_equal in_errormsg e "" in ret e
         else ret PNone) in
      do% assert_equal (PStr in_status) status
        ("Operation returned mismatched status. Error Message: " +:+ py_str errormsg) in
      ret result
  end.

Definition wait_and_assert_operationid_status (node : proxy) (myopid : pyval) (in_status : string)
    (in_errormsg : pyval) (timeout : Z) : MW pyval :=
  let! result := wait_and_assert_operationid_status_result node myopid in_status in_errormsg timeout in
  let% status := getitem result "status" in
  if py_eqb status (PStr "success") then lift (getpath result ["result"; "txid"]) else ret PNone.

(** ** Coinbase addresses *)

Definition count_of (addrs : list pyval) (a : pyval) : Z :=
  Z.of_nat (length (filter (λ x, Is_true (py_eqb x a)) addrs)).

(** [(m, a) < (n, b)] *)
Definition pair_lt (x y : Z * pyval) : outcome bool :=
  if x.1 =? y.1 then if py_eqb x.2 y.2 then Val false else py_lt x.2 y.2 else Val (x.1 <? y.1).

(** [sorted(l, reverse=True)] *)
Fixpoint insert_desc (x : Z * pyval) (l : list (Z * pyval)) : outcome (list (Z * pyval)) :=
  match l with
  | [] => Val [x]
  | y :: l' => obind (pair_lt x y) (λ b,
      if b then obind (insert_desc x l') (λ r, Val (y :: r)) else Val (x :: l))
  end.

Definition sorted_desc (l : list (Z * pyval)) : outcome (list (Z * pyval)) :=
  foldr (λ x acc, obind acc (insert_desc x)) (Val []) l.

Fixpoint generated_addresses (utxos : list pyval) : outcome (list pyval) :=
  match utxos with
  | [] => Val []
  | u :: us =>
      obind (getitem u "generated") (λ g,
      if truthy g then obind (getitem u "address") (λ a,
                       obind (generated_addresses us) (λ l, Val (a :: l)))
      else generated_addresses us)
  end.

Definition get_coinbase_address (node : proxy) (expected_utxos : option Z) : MW pyval :=
  let! unspent := call node "listunspent" [] in
  let% utxos := py_iter unspent in
  let% addrs := generated_addresses utxos in
  let! distinct := setiter addrs in
  do% assert_true (negb (length distinct =? 0)%nat) "" in
  match expected_utxos with
  | None =>
      let! distinct := setiter addrs in
      let% sorted := sorted_desc (map (λ a, (count_of addrs a, a)) distinct) in
      let% first := list_index sorted 0 in
      ret first.2
  | Some n =>
      let! distinct := setiter addrs in
      let addrs := filter (λ a, Is_true (count_of addrs a =? n)) distinct in
      do% assert_true (negb (length addrs =? 0)%nat) "" in
      lift (list_index addrs 0)
  end.

(** ** Sidechains on the mainchain *)

Definition certificate_field_config_csw_enabled : list Z := [255; 255].
Definition certificate_field_config_csw_disabled : list Z := [].
Definition certificate_with_key_rotation_field_config : list Z := repeat 255 32.

(** The choice of the certificate's field configuration, with its assertions. *)
Definition fe_certificate_field_configs (circuit_type : string) (sc_creation_version : Z)
    (is_csw_enabled : bool) : outcome (list Z) :=
  if String.eqb circuit_type KEY_ROTATION_CIRCUIT then
    if sc_creation_version >=? 2 then
      if is_csw_enabled then Exc (AssertionError "With key rotation circuit csw must be disabled")
      else Val certificate_with_key_rotation_field_config
    else Exc (AssertionError "With key rotation circuit sc creation version should be >= 2")
  else Val (if is_csw_enabled then certificate_field_config_csw_enabled
            else certificate_field_config_csw_disabled).

Definition initialize_new_sidechain_in_mainchain (mainchain_node : proxy)
    (withdrawal_epoch_length public_key forward_transfer_amount vrf_public_key gen_sys_constant
     cert_vk csw_vk btr_data_length : pyval) (sc_creation_version : Z) (is_csw_enabled : bool)
    (circuit_type : string) (account_public_key : pyval) : MW (pyval * pyval * pyval) :=
  let! number_of_blocks := call mainchain_node "getblockcount" [] in
  let% diff := py_sub (PInt 479) number_of_blocks in
  let% low := py_gt diff (PInt 1) in
  do! when low (do! call mainchain_node "generate" [diff] in ret tt) in
  let% '(custom_creation_data, to_address) :=
    (match account_public_key with
     | PNone => Val (vrf_public_key, public_key)
     | _ => obind (py_add vrf_public_key public_key) (λ d, Val (d, account_public_key))
     end) in
  let% fe_configs := fe_certificate_field_configs circuit_type sc_creation_version is_csw_enabled in
  let sc_create_args := PDict [
    ("version", PInt sc_creation_version);
    ("withdrawalEpochLength", withdrawal_epoch_length);
    ("toaddress", to_address);
    ("amount", forward_transfer_amount);
    ("wCertVk", cert_vk);
    ("customData", custom_creation_data);
    ("constant", gen_sys_constant);
    ("wCeasedVk", csw_vk);
    ("vFieldElementCertificateFieldConfig", PList (map PInt fe_configs));
    ("vBitVectorCertificateFieldConfig", PList []);
    ("forwardTransferScFee", PInt 0);
    ("mainchainBackwardTransferScFee", PInt 0);
    ("mainchainBackwardTransferRequestDataLength", btr_data_length)] in
  let! sc_create_res := call mainchain_node "sc_create" [sc_create_args] in
  let% transaction_id := getitem sc_create_res "txid" in
  let% sidechain_id := getitem sc_create_res "scid" in
  let! generated := call mainchain_node "generate" [PInt 1] in
  let% mc_block_hash := getindex generated 0 in
  do! call mainchain_node "gettransaction" [transaction_id] in
  do! call mainchain_node "getblock" [mc_block_hash; PBool false] in
  let! genesis_info := call mainchain_node "getscgenesisinfo" [sidechain_id] in
  let! height := call mainchain_node "getblockcount" [] in
  ret (genesis_info, height, sidechain_id).

Definition forward_transfer_to_sidechain (sidechain_id : pyval) (mainchain_node : proxy)
    (public_key forward_transfer_amount mc_return_address : pyval) (generate_block : bool)
    : MW (pyval * pyval) :=
  let ft_args := PList [PDict [
    ("toaddress", public_key);
    ("amount", forward_transfer_amount);
    ("scid", sidechain_id);
    ("mcReturnAddress", mc_return_address)]] in
  do! call mainchain_node "sc_send" [ft_args] in
  do! when generate_block (do! call mainchain_node "generate" [PInt 1] in ret tt) in
  let! info := call mainchain_node "getscinfo" [sidechain_id] in
  let! height := call mainchain_node "getblockcount" [] in
  ret (info, height).

(** The first UTXO above the amount, with the difference. *)
Fixpoint find_spendable (utxos : list pyval) (min_amount : pyval) : outcome (pyval * pyval) :=
  match utxos with
  | [] => Val (PBool false, PInt 0)
  | u :: us =>
      obind (getitem u "amount") (λ amount,
      obind (py_gt amount min_amount) (λ enough,
      if enough then obind (py_sub amount min_amount) (λ change, Val (u, change))
      else find_spendable us min_amount))
  end.

Definition get_spendable (mc_node : proxy) (min_amount : pyval) : MW (pyval * pyval) :=
  let! listunspent := call mc_node "listunspent" [] in
  let% utxos := py_iter listunspent in
  let% '(utx, change) := find_spendable utxos min_amount in
  do% assert_equal (PBool (py_neqb utx (PBool false))) (PBool true) "" in
  ret (utx, change).

(** [key in sc_info and sc_info[key] != ''] *)
Definition nonempty_field (sc_info : pyval) (key : string) : outcome (option pyval) :=
  obind (has_key key sc_info) (λ present,
  if present then
    obind (getitem sc_info key) (λ v, Val (if py_neqb v (PStr "") then Some v else None))
  else Val None).

(** [a // b] on integers *)
Definition py_floordiv (a b : pyval) : outcome pyval :=
  match as_int a, as_int b with
  | Some x, Some y => if y =? 0 then Exc ZeroDivisionError else Val (PInt (x / y))
  | _, _ => Exc TypeError
  end.

(** The last epoch that has ended, and the height of its last block. *)
Definition last_epoch_end (current_height sc_creating_height epochLen : pyval)
    : outcome (pyval * pyval) :=
  obind (py_sub current_height sc_creating_height) (λ d,
  obind (py_add d (PInt 1)) (λ d1,
  obind (py_floordiv d1 epochLen) (λ q,
  obind (py_sub q (PInt 1)) (λ epoch_number,
  obind (py_sub sc_creating_height (PInt 1)) (λ base,
  obind (py_add epoch_number (PInt 1)) (λ e1,
  obind (py_mul e1 epochLen) (λ off,
  obind (py_add base off) (λ height, Val (epoch_number, height))))))))).

Definition PHANTOM_PREV_CERT_HASH : pyval := PStr "PHANTOM_PREV_CERT_HASH".

Definition get_epoch_data (scid : pyval) (node : proxy) (epochLen : pyval) (is_non_ceasing : bool)
    (reference_height : pyval) : MW (pyval * pyval * pyval) :=
  let! info := call node "getscinfo" [scid] in
  let% items := getitem info "items" in
  let% sc_info := getindex items 0 in
  let% state := getitem sc_info "state" in
  if py_eqb state (PStr "UNCONFIRMED") then ret (PInt 0, PStr "", PHANTOM_PREV_CERT_HASH)
  else if is_non_ceasing then
    let% has_epoch := has_key "unconfTopQualityCertificateEpoch" sc_info in
    let% epoch_number := (if has_epoch
      then obind (getitem sc_info "unconfTopQualityCertificateEpoch") (λ e, py_add e (PInt 1))
      else getitem sc_info "epoch") in
    let! height := (match reference_height with
                    | PNone => call node "getblockcount" []
                    | h => ret h
                    end) in
    let! block := call node "getblock" [PStr (py_str height)] in
    let% epoch_cum_tree_hash := getitem block "scCumTreeHash" in
    let% unconf := nonempty_field sc_info "unconfTopQualityCertificateDataHash" in
    let% last_cert_data_hash := (match unconf with
      | Some h => Val h
      | None => obind (nonempty_field sc_info "lastCertificateDataHash")
                  (λ o, Val (default PHANTOM_PREV_CERT_HASH o))
      end) in
    ret (epoch_number, epoch_cum_tree_hash, last_cert_data_hash)
  else
    let% sc_creating_height := getitem sc_info "createdAtBlockHeight" in
    let! current_height := call node "getblockcount" [] in
    let% '(epoch_number, end_height) := last_epoch_end current_height sc_creating_height epochLen in
    let! end_epoch_block_hash := call node "getblockhash" [end_height] in
    let! block := call node "getblock" [end_epoch_block_hash] in
    let% epoch_cum_tree_hash := getitem block "scCumTreeHash" in
    let% last := nonempty_field sc_info "lastCertificateDataHash" in
    ret (epoch_number, epoch_cum_tree_hash, default PHANTOM_PREV_CERT_HASH last).
End McUtil.
