(* ===== verification/McWallet.v ===== *)
(** * Wallet routines of test_framework/util.py: what they guarantee

    Amounts are decimals; [in_zat d z] says that [d] is exactly [z]
    hundred-millionths.  Below 10^26 of these units the 28-digit context is
    exact, and [gather_inputs] and [make_change] conserve value to the unit. *)

From S2P Require Import Prelude PyStr Numbers PyVal Host Sim McUtil.
From Stdlib Require Import Ascii String QArith.
From stdpp Require Import base list.
Local Open Scope Z_scope.

(** ** Exact arithmetic on amounts *)

Lemma dec_Q_zat d z : in_zat d z → Qeq (dec_Q d) (z # 100000000).
Proof.
  intros [He Hz]. unfold dec_Q. destruct (Z.leb_spec 0 (d_exp d)) as [Hp|Hn].
  - unfold Qeq, inject_Z. simpl. rewrite <- Hz, Z.pow_add_r by lia.
    change (10 ^ 8) with 100000000. lia.
  - unfold Qeq. simpl. rewrite Z2Pos.id by (apply Z.pow_pos_nonneg; lia).
    rewrite <- Hz, <- Z.mul_assoc, <- Z.pow_add_r by lia.
    replace (d_exp d + 8 + - d_exp d) with 8 by lia. done.
Qed.

Lemma py_lt_zat a b x y : in_zat a x → in_zat b y → py_lt (PDec a) (PDec b) = Val (x <? y).
Proof.
  intros Ha%dec_Q_zat Hb%dec_Q_zat. unfold py_lt, num_Q. rewrite Ha, Hb. f_equal.
  unfold Qcompare. simpl. rewrite Z.ltb_compare.
  by rewrite <- (Zmult_compare_compat_r x y 100000000) by lia.
Qed.

(** ** Choosing inputs *)

(** An unspent output as the node lists it, of [z] units. *)
Definition utxo_of (v : pyval) (z : Z) : Prop :=
  ∃ fields d txid vout address,
    v = PDict fields ∧ dict_get "amount" fields = Some (PDec d) ∧ in_zat d z ∧ 0 <= z
    ∧ dict_get "txid" fields = Some txid ∧ dict_get "vout" fields = Some vout
    ∧ dict_get "address" fields = Some address.

(** The input that spends it. *)
Definition input_of (v : pyval) : pyval :=
  match v with
  | PDict f => PDict [("txid", default PNone (dict_get "txid" f));
                      ("vout", default PNone (dict_get "vout" f));
                      ("address", default PNone (dict_get "address" f))]
  | _ => PNone
  end.

Lemma zsum_nonneg l : Forall (λ z, 0 <= z) l → 0 <= zsum l.
Proof. induction 1 as [|x l Hx Hl IH]; unfold zsum in *; simpl; lia. Qed.

Lemma utxos_nonneg us zs : Forall2 utxo_of us zs → Forall (λ z, 0 <= z) zs.
Proof. induction 1 as [|u z us zs (f & d & ? & ? & ? & _ & _ & _ & Hz & _) Hr IH]; constructor; auto. Qed.

(** The loop takes the outputs in order and stops at the first point where the
    target is reached. *)
Lemma gather_loop_spec us zs need n acc a ins :
  Forall2 utxo_of us zs → in_zat need n → in_zat acc a → 0 <= a → a + zsum zs < zat_limit →
  ∃ k total,
    gather_loop us (PDec need) (PDec acc) ins
      = Val (PDec total, ins ++ map input_of (take k us))
    ∧ (k <= length us)%nat ∧ in_zat total (a + zsum (take k zs))
    ∧ (n <= a + zsum (take k zs) ∨ k = length us)
    ∧ (∀ j, (j < k)%nat → a + zsum (take j zs) < n).
Proof.
  intros Hu Hn. revert acc a ins.
  induction Hu as [|u z us zs Hu Hus IH]; intros acc a ins Ha Ha0 Hlim.
  { exists 0%nat, acc. cbn [gather_loop]. rewrite (py_lt_zat acc need a n) by done. simpl.
    rewrite app_nil_r, Z.add_0_r. split; [by destruct (a <? n)|]. split; [lia|].
    split; [done|]. split; [auto|]. intros j Hj; lia. }
  cbn [gather_loop]. rewrite (py_lt_zat acc need a n) by done. simpl.
  destruct (Z.ltb_spec a n) as [Hlt|Hge].
  2:{ exists 0%nat, acc. rewrite app_nil_r. cbn. rewrite Z.add_0_r.
      split; [done|]. split; [lia|]. split; [done|]. split; [auto|]. intros j Hj; lia. }
  pose proof (zsum_nonneg zs (utxos_nonneg us zs Hus)) as Hpos.
  destruct Hu as (f & d & txid & vout & addr & -> & Hamt & Hd & Hz & Htx & Hvo & Had).
  unfold getitem. rewrite Hamt, Htx, Hvo, Had. cbn [of_opt obind].
  cbn [py_add arith as_int as_dec obind]. unfold zsum in Hlim, Hpos |- *. simpl in Hlim.
  destruct (IH (dec_add acc d) (a + z) (ins ++ [input_of (PDict f)])) as (k & total & Hg & Hk & Ht & Hor & Hmin).
  { apply dec_add_zat; auto; lia. } { lia. } { unfold zsum. lia. }
  exists (S k), total. unfold input_of in Hg. rewrite Htx, Hvo, Had in Hg. cbn [default] in Hg.
  cbn [take map foldr length]. split.
  { etransitivity; [exact Hg|]. simpl. rewrite Htx, Hvo, Had, <- app_assoc. done. }
  unfold zsum in *. split; [lia|]. split; [by rewrite Z.add_assoc|]. split; [destruct Hor; [left|right]; lia|].
  intros [|j] Hj; simpl; [lia|]. specialize (Hmin j ltac:(lia)). lia.
Qed.

Lemma Forall2_perm_l {A B} (R : A → B → Prop) l l' k :
  l ≡ₚ l' → Forall2 R l k → ∃ k', k ≡ₚ k' ∧ Forall2 R l' k'.
Proof.
  intros Hp. revert k. induction Hp as [|x l l' Hp IH|x y l|l1 l2 l3 H1 IH1 H2 IH2]; intros k Hk.
  - inversion Hk; subst. eauto.
  - inversion Hk as [|? z ? k0 Hx Hl]; subst. destruct (IH k0 Hl) as (k' & ? & ?). exists (z :: k'). auto.
  - inversion Hk as [|? z ? k0 Hx Hl]; subst. inversion Hl as [|? z' ? k1 Hy Hl']; subst.
    exists (z' :: z :: k1). split; [constructor|auto].
  - destruct (IH1 k Hk) as (k' & ? & Hk'). destruct (IH2 k' Hk') as (k2 & ? & ?).
    exists k2. split; [by etransitivity|done].
Qed.

Section Gather.
Context {W : Type} `{Nodes W, Clock W, Os W, Rng W} `{!RngLaws W}.

(** C3: [gather_inputs] returns inputs that spend a sub-multiset of the listed
    outputs, whose exact sum is the total returned and is at least the amount
    needed; it raises only when all the listed outputs together are too little,
    and then it is the insufficient-funds error. *)
Theorem gather_inputs_sound (from_node : proxy) (need : decimal) (n conf : Z) (us : list pyval)
    (zs : list Z) (st : St W) (w : W) :
  0 <= conf →
  node_call from_node "listunspent" [PInt conf] [] (world st) = (inr (PList us), w) →
  Forall2 utxo_of us zs → zsum zs < zat_limit → in_zat need n →
  match (gather_inputs from_node (PDec need) conf st).1 with
  | Val (total, inputs) =>
      ∃ t chosen rest czs, us ≡ₚ chosen ++ rest ∧ inputs = map input_of chosen
        ∧ total = PDec t ∧ Forall2 utxo_of chosen czs ∧ in_zat t (zsum czs) ∧ n <= zsum czs
  | Exc e => zsum zs < n ∧ ∃ m, e = RuntimeError m
  | NoFuel => False
  end.
Proof.
  intros Hc Hcall Hus Hlim Hn. unfold gather_inputs.
  rewrite (proj2 (Z.geb_le _ _)) by lia.
  unfold bind at 1, lift at 1. unfold bind at 1, call, call_kw. rewrite Hcall. cbn [of_sum].
  unfold bind at 1, lift at 1. cbn [py_iter]. unfold bind at 1, shuffle.
  match goal with |- context [rng_shuffle us ?w] => pose proof (shuffle_perm _ us w) as Hp;
    destruct (rng_shuffle us w) as [us' w'] end. simpl in Hp.
  destruct (Forall2_perm_l utxo_of us (reverse us') zs) as (zs' & Hzp & Hus').
  { rewrite reverse_Permutation. by symmetry. } { done. }
  rewrite (zsum_perm _ _ Hzp) in *.
  destruct (gather_loop_spec (reverse us') zs' need n (Dec 0 (-8)) 0 [])
    as (k & total & Hg & Hk & Ht & Hor & _); [done|done|split; [simpl; lia|done]|lia|lia|].
  unfold bind at 1, lift at 1, dec_zero8. rewrite Hg. cbn [app].
  unfold bind at 1, lift at 1. rewrite (py_lt_zat total need _ n Ht Hn).
  rewrite Z.add_0_l in *. destruct (Z.ltb_spec (zsum (take k zs')) n) as [Hlt|Hge].
  - simpl. split; [|eauto]. destruct Hor as [?| ->]; [lia|].
    rewrite (Forall2_length _ _ _ Hus'), firstn_all in Hlt. done.
  - simpl. exists total, (take k (reverse us')), (drop k (reverse us')), (take k zs').
    rewrite take_drop. split; [by rewrite reverse_Permutation|].
    split; [done|]. split; [done|]. split; [by apply Forall2_take|]. done.
Qed.
End Gather.

(** The hypotheses hold on a wallet of two outputs. *)
Definition utxo_ex (txid : string) (amount : decimal) : pyval :=
  PDict [("txid", PStr txid); ("vout", PInt 0); ("address", PStr "zt1"); ("amount", PDec amount)].

Definition wallet_sim : St sim :=
  init_st (sim_of (λ _ _ _ _, inr (PList [utxo_ex "a" (Dec 15 (-1)); utxo_ex "b" (Dec 2 0)]))).

Lemma utxo_ex_of txid d z : in_zat d z → 0 <= z → utxo_of (utxo_ex txid d) z.
Proof. intros. do 5 eexists. repeat split; try done; apply H. Qed.

Lemma gather_inputs_sound_witness :
  match (gather_inputs mc0 (PDec (Dec 3 0)) 1 wallet_sim).1 with
  | Val (total, inputs) =>
      ∃ t chosen rest czs,
        [utxo_ex "a" (Dec 15 (-1)); utxo_ex "b" (Dec 2 0)] ≡ₚ chosen ++ rest
        ∧ inputs = map input_of chosen
        ∧ total = PDec t ∧ Forall2 utxo_of chosen czs ∧ in_zat t (zsum czs) ∧ 300000000 <= zsum czs
  | Exc e => zsum [150000000; 200000000] < 300000000 ∧ ∃ m, e = RuntimeError m
  | NoFuel => False
  end.
Proof.
  apply (gather_inputs_sound mc0 (Dec 3 0) 300000000 1 _ [150000000; 200000000] wallet_sim
    (tick (world wallet_sim))); try done.
  repeat constructor; apply utxo_ex_of; done.
Defined.

(** ** Splitting change *)

Lemma dec_mul2_zat d z : in_zat d z → Z.abs z < zat_limit → in_zat (dec_mul d (Dec 2 0)) (z * 2).
Proof.
  intros Hd Hz. pose proof (in_zat_coef d z Hd) as Hc. destruct Hd as [He Hv].
  unfold dec_mul. cbn [d_coef d_exp]. unfold zat_limit in *. rewrite dec_fix_small by (simpl; lia).
  split; simpl; [lia|]. rewrite Z.add_0_r. lia.
Qed.

Lemma py_gt0_zat d z : in_zat d z → py_gt (PDec d) (PInt 0) = Val (0 <? z).
Proof.
  intros Hd. assert (in_zat (Dec 0 0) 0) as H0 by (split; [simpl; lia|done]).
  change (py_gt (PDec d) (PInt 0)) with (py_lt (PDec (Dec 0 0)) (PDec d)). by apply py_lt_zat.
Qed.

(** The units of the outputs of a change dictionary. *)
Definition outputs_zat (outputs : list (string * pyval)) (zs : list Z) : Prop :=
  Forall2 (λ kv z, ∃ d, kv.2 = PDec d ∧ in_zat d z ∧ 0 < z) outputs zs.

Lemma half_positive c : 0 < c → 0 < c - c / 2 ∧ 0 <= c / 2.
Proof. intros. split; [assert (c / 2 < c) by (apply Z.div_lt; lia); lia|apply Z.div_pos; lia]. Qed.

Section Change.
Context {W : Type} `{Nodes W, Clock W, Os W, Rng W}.

(** A node that hands out two different new addresses. *)
Definition two_addresses (node : proxy) (w : W) : Prop :=
  ∃ a w1 b w2, node_call node "getnewaddress" [] [] w = (inr (PStr a), w1)
    ∧ node_call node "getnewaddress" [] [] w1 = (inr (PStr b), w2) ∧ a ≠ b.

(** C2: change is conserved: whatever is left of the inputs after the payment
    and the fee is divided, to the last unit, over at most two outputs, each of
    a positive amount; nothing left means no output. *)
Theorem make_change_conserves (from_node : proxy) (d_in d_out d_fee : decimal) (i o f : Z) (st : St W) :
  in_zat d_in i → in_zat d_out o → in_zat d_fee f → 0 < o → 0 <= f → o + f <= i → i < zat_limit →
  two_addresses from_node (world st) →
  ∃ outputs zs, (make_change from_node (PDec d_in) (PDec d_out) (PDec d_fee) st).1 = Val outputs
    ∧ outputs_zat outputs zs ∧ (length outputs <= 2)%nat ∧ o + f + zsum zs = i.
Proof.
  intros Hi Ho Hf Ho0 Hf0 Hle Hlim (a & w1 & b & w2 & Ha & Hb & Hab).
  assert (in_zat (dec_add d_out d_fee) (o + f)) as Ham by (apply dec_add_zat; auto; lia).
  assert (in_zat (dec_sub d_in (dec_add d_out d_fee)) (i - (o + f))) as Hch by (apply dec_sub_zat; auto; lia).
  assert (in_zat (dec_mul (dec_add d_out d_fee) (Dec 2 0)) ((o + f) * 2)) as Htw by (apply dec_mul2_zat; auto; lia).
  set (am := dec_add d_out d_fee) in *. set (ch := dec_sub d_in am) in *. set (c := i - (o + f)) in *.
  unfold make_change. unfold bind at 1, lift at 1.
  change (py_add (PDec d_out) (PDec d_fee)) with (Val (PDec am)).
  unfold bind at 1, lift at 1. change (py_sub (PDec d_in) (PDec am)) with (Val (PDec ch)).
  unfold bind at 1, lift at 1. change (py_mul (PDec am) (PInt 2)) with (Val (PDec (dec_mul am (Dec 2 0)))).
  unfold bind at 1, lift at 1, py_gt at 1. rewrite (py_lt_zat _ _ _ _ Htw Hch).
  destruct (Z.ltb_spec ((o + f) * 2) c) as [Hbig|Hsmall].
  - unfold bind at 1, bind at 1, call, call_kw. rewrite Ha. cbn [of_sum].
    assert (0 < c < zat_limit) as Hcr by (unfold c in *; lia).
    assert (py_truediv (PDec ch) (PInt 2) = Val (PDec (dec_div ch (Dec 2 0)))) as Hdiv by done.
    unfold bind at 1, lift at 1. rewrite Hdiv. unfold bind at 1, lift at 1, quantize8, as_dec.
    rewrite (dec_half_quantized ch c Hch Hcr). unfold bind at 1, lift at 1. cbn [as_key].
    unfold bind at 1, lift at 1. change (py_sub (PDec d_in) (PDec am)) with (Val (PDec ch)).
    set (rest := dec_sub ch (Dec (c / 2) (-8))).
    unfold bind at 1, lift at 1. change (py_sub (PDec ch) (PDec (Dec (c / 2) (-8)))) with (Val (PDec rest)).
    destruct (half_positive c ltac:(lia)) as [Hr Hh].
    assert (in_zat (Dec (c / 2) (-8)) (c / 2)) as Hhalf by (split; simpl; lia).
    assert (in_zat rest (c - c / 2)) as Hrest by (apply dec_sub_zat; auto; lia).
    cbn [ret]. unfold bind at 1, lift at 1. rewrite (py_gt0_zat rest _ Hrest).
    rewrite (proj2 (Z.ltb_lt _ _) Hr). unfold bind at 1, call, call_kw. cbn [world log_event set_world].
    rewrite Hb. cbn [of_sum]. unfold bind, lift. simpl.
    rewrite decide_False by congruence.
    exists [(a, PDec (Dec (c / 2) (-8))); (b, PDec rest)], [c / 2; c - c / 2].
    split; [done|]. split; [|simpl; unfold zsum, c in *; simpl; split; lia].
    assert (0 < c / 2) by (apply Z.div_str_pos; unfold c in *; lia).
    repeat constructor; eexists; eauto.
  - unfold bind at 1. cbn [ret]. unfold bind at 1, lift at 1. rewrite (py_gt0_zat ch c Hch).
    destruct (Z.ltb_spec 0 c) as [Hpos|Hz].
    + unfold bind at 1, call, call_kw. rewrite Ha. simpl.
      exists [(a, PDec ch)], [c]. split; [done|]. split; [|unfold zsum, c; simpl; split; lia].
      repeat constructor. eexists; eauto.
    + exists [], []. simpl. unfold zsum, c in *. simpl. repeat split; [constructor|lia|lia].
Qed.
End Change.

(** A wallet that numbers its addresses. *)
Definition address_sim : St sim :=
  init_st (sim_of (λ n _ _ _, inr (PStr (str_of_Z (Z.of_nat n))))).

Lemma make_change_conserves_witness :
  ∃ outputs zs,
    (make_change mc0 (PDec (Dec 10 0)) (PDec (Dec 15 (-1))) (PDec (Dec 1 (-4))) address_sim).1 = Val outputs
    ∧ outputs_zat outputs zs ∧ (length outputs <= 2)%nat ∧ 150000000 + 10000 + zsum zs = 1000000000.
Proof.
  apply make_change_conserves; try (split; done); try done.
  eexists "0", _, "1", _. split; [reflexivity|]. split; [reflexivity|done].
Defined.
