(* ===== verification/ScUtil.v ===== *)
(** * Sidechain node helpers: SidechainTestFramework/scutil.py

    Ports, waiting loops with their time limits, the processes of the
    sidechain nodes, peer connections, and the checks on blocks and balances.
    Times are in microseconds.  A loop that ends by its time limit takes the
    number of iterations as fuel; [ScLoops] shows how much is enough. *)

From S2P Require Import Prelude PyStr Numbers PyVal Host Sim Json Encoding HttpProxy BootInfo McUtil.
From Stdlib Require Import Ascii String.
From stdpp Require Import base list.
Local Open Scope Z_scope.

Definition WAIT_CONST : Z := secs 1.
Definition SNAPSHOT_VERSION_TAG : string := "0.13.0".

Definition DEFAULT_REST_API_TIMEOUT : Z := 5.
Definition DEFAULT_MAX_PACKET_SIZE : Z := 5 * 1024 * 1024 + 100.
Definition DEFAULT_ACCOUNT_MODEL_MAX_PACKET_SIZE : Z := 7 * 1024 * 1024 + 100.
Definition SLOTS_IN_EPOCH : Z := 720.
Definition SIMPLE_APP_SLOT_TIME : Z := 120.
Definition EVM_APP_SLOT_TIME : Z := 12.
Definition DEFAULT_SIMPLE_APP_GENESIS_TIMESTAMP_REWIND : Z := SLOTS_IN_EPOCH * SIMPLE_APP_SLOT_TIME * 5.
Definition DEFAULT_EVM_APP_GENESIS_TIMESTAMP_REWIND : Z := SLOTS_IN_EPOCH * EVM_APP_SLOT_TIME * 5.

Definition UtxoModel : string := "utxo".
Definition AccountModel : string := "account".
Definition DefaultModel : string := UtxoModel.

Record LogInfo := mkLogInfo { logFileLevel : string; logConsoleLevel : string }.
Definition LogInfo_defaults : LogInfo := mkLogInfo "all" "error".

(** ** Module state *)

Definition upd_sc_parallel (n : Z) (g : globals) : globals :=
  Globals n (mc_parallel_test g) (is_jacoco_included g) (sidechainclient_processes g)
    (bitcoind_processes g) (ac_cwd g) (nodeModulesInstalled g) (sigHashesGenerated g).

Definition upd_jacoco (b : bool) (g : globals) : globals :=
  Globals (sc_parallel_test g) (mc_parallel_test g) b (sidechainclient_processes g)
    (bitcoind_processes g) (ac_cwd g) (nodeModulesInstalled g) (sigHashesGenerated g).

Definition upd_sc_procs (f : list (Z * Z) → list (Z * Z)) (g : globals) : globals :=
  Globals (sc_parallel_test g) (mc_parallel_test g) (is_jacoco_included g)
    (f (sidechainclient_processes g)) (bitcoind_processes g) (ac_cwd g) (nodeModulesInstalled g)
    (sigHashesGenerated g).

(** The port numbers as functions of the module state and the process id. *)
Definition sc_port_modifier (parallel_test : Z) : option Z :=
  if parallel_test >? 0 then Some ((parallel_test - 1) * 20) else None.

Definition sc_p2p_port_of (parallel_test pid n : Z) : Z :=
  match sc_port_modifier parallel_test with
  | Some modifier => 8500 + modifier + n
  | None => 8300 + n + pid mod 999
  end.

Definition sc_rpc_port_of (parallel_test pid n : Z) : Z :=
  match sc_port_modifier parallel_test with
  | Some modifier => 8200 + modifier + n
  | None => 8200 + n + pid mod 999
  end.

Section ScUtil.
Context {W : Type} `{Nodes W, Clock W, Os W, Rng W}.
Local Abbreviation MW := (M W).

Definition set_sc_parallel_test (n : Z) : MW unit := modify_glob (upd_sc_parallel n).
Definition set_jacoco (value : bool) : MW unit := modify_glob (upd_jacoco value).

Definition sc_start_port_modifier : MW (option Z) :=
  let! parallel_test := gets sc_parallel_test in ret (sc_port_modifier parallel_test).

Definition sc_p2p_port (n : Z) : MW Z :=
  let! parallel_test := gets sc_parallel_test in
  let! pid := ask os_getpid in
  ret (sc_p2p_port_of parallel_test pid n).

Definition sc_rpc_port (n : Z) : MW Z :=
  let! parallel_test := gets sc_parallel_test in
  let! pid := ask os_getpid in
  ret (sc_rpc_port_of parallel_test pid n).

(** ** Waiting *)

(** [while True: if time.time() - start >= wait_for: raise TimeoutException(operation);
    if the condition holds: break; time.sleep(WAIT_CONST)] *)
Fixpoint wait_loop (fuel : nat) (start wait_for : Z) (operation : string) (condition : MW bool)
    : MW unit :=
  match fuel with
  | O => out_of_fuel
  | S f =>
      let! now := time_time in
      if now - start >=? wait_for then raise (TimeoutException operation)
      else let! stop := condition in
           if stop then ret tt
           else do! sleep WAIT_CONST in wait_loop f start wait_for operation condition
  end.

Definition wait_for_next_sc_blocks (fuel : nat) (node : proxy) (expected_height wait_for : Z)
    : MW unit :=
  let! start := time_time in
  wait_loop fuel start wait_for "Waiting blocks" (
    let! best := call node "block_best" [] in
    let% h := getpath best ["result"; "height"] in
    let% height := py_int h in
    ret (height >=? expected_height)).

Fixpoint wait_socket (fuel : nat) (port : Z) : MW unit :=
  match fuel with
  | O => out_of_fuel
  | S f =>
      let! code := run_os (λ w, let '(c, w') := os_connect_ex "127.0.0.1" port w in (inr c, w')) in
      if code =? 0 then ret tt else do! sleep WAIT_CONST in wait_socket f port
  end.

Definition wait_for_sc_node_initialization (fuel : nat) (nodes : list proxy) : MW unit :=
  forM_ (zrange 0 (Z.of_nat (length nodes))) (λ i,
    let! port := sc_rpc_port i in wait_socket fuel port).

(** The current heights of the nodes. *)
Definition node_height (x : proxy) : MW Z :=
  let! r := call x "block_currentHeight" [] in
  let% h := getpath r ["result"; "height"] in
  lift (py_int h).

Definition heights_equal (counts : list Z) : outcome bool :=
  match counts with
  | [] => Exc IndexError
  | c :: _ => Val (forallb (Z.eqb c) counts)
  end.

Definition sync_sc_blocks (fuel : nat) (api_connections : list proxy) (wait_for : Z) : MW unit :=
  let! start := time_time in
  wait_loop fuel start wait_for "Syncing blocks" (
    let! counts := mmap node_height api_connections in
    lift (heights_equal counts)).

Definition sc_pool (x : proxy) (request tag : string) : MW pyval :=
  let! r := call x "transaction_allTransactions" [PStr request] in
  lift (getpath r ["result"; tag]).

(** The loop of [sync_sc_mempools]: the reference pool is read before the time check. *)
Fixpoint sync_mempools_loop (fuel : nat) (start wait_for : Z) (api_connections : list proxy)
    (request tag : string) : MW unit :=
  match fuel with
  | O => out_of_fuel
  | S f =>
      let% first := list_index api_connections 0 in
      let! refpool := sc_pool first request tag in
      let! now := time_time in
      if now - start >=? wait_for then raise (TimeoutException "Syncing mempools")
      else
        let! num_match := foldM (λ num_match x,
          let! nodepool := sc_pool x request tag in
          ret (if py_eqb nodepool refpool then num_match + 1 else num_match)) 1 (tail api_connections) in
        if num_match =? Z.of_nat (length api_connections) then ret tt
        else do! sleep WAIT_CONST in sync_mempools_loop f start wait_for api_connections request tag
  end.

Definition sync_sc_mempools (fuel : nat) (api_connections : list proxy) (wait_for : Z)
    (mempool_cardinality_only : bool) : MW unit :=
  let '(format, tag) := if mempool_cardinality_only then (false, "transactionIds")
                        else (true, "transactions") in
  let% request := dumps (PDict [("format", PBool format)]) in
  let! start := time_time in
  sync_mempools_loop fuel start wait_for api_connections request tag.

(** ** Processes *)

(** The parent of a directory, as [os.path.abspath(join(d, '..'))]. *)
Definition parent_dir (d : string) : string :=
  match split_at "/" (str_rev d) with
  | Some (_, rest) => if String.eqb rest "" then "/" else str_rev rest
  | None => "/"
  end.

Definition get_lib_separator : MW string :=
  let! p := ask os_platform in ret (if startswith p "win" then ";" else ":").

Definition get_examples_dir : MW string :=
  let! qa := ask os_qa_dir in ret (path_join (parent_dir qa) "examples").

Definition get_resources_dir : MW string :=
  let! qa := ask os_qa_dir in ret (path_join qa "resources").

Definition SIMPLE_APP_BINARY : MW string :=
  let! ex := get_examples_dir in
  let! sep := get_lib_separator in
  ret (ex +:+ "/utxo/simpleapp/target/sidechains-sdk-simpleapp-" +:+ SNAPSHOT_VERSION_TAG +:+ ".jar"
       +:+ sep +:+ ex +:+ "/utxo/simpleapp/target/lib/* io.horizen.examples.SimpleApp").

Definition EVM_APP_BINARY : MW string :=
  let! ex := get_examples_dir in
  let! sep := get_lib_separator in
  ret (ex +:+ "/account/evmapp/target/sidechains-sdk-evmapp-" +:+ SNAPSHOT_VERSION_TAG +:+ ".jar"
       +:+ sep +:+ ex +:+ "/account/evmapp/target/lib/* io.horizen.examples.EvmApp").

Definition UTXO_BOOTSTRAPPING_TOOL : MW string :=
  let! ex := get_examples_dir in
  ret (ex +:+ "/utxo/utxoapp_sctool/target/sidechains-sdk-utxoapp_sctool-" +:+ SNAPSHOT_VERSION_TAG +:+ ".jar").

Definition EVM_BOOTSTRAPPING_TOOL : MW string :=
  let! ex := get_examples_dir in
  ret (ex +:+ "/account/evmapp_sctool/target/sidechains-sdk-evmapp_sctool-" +:+ SNAPSHOT_VERSION_TAG +:+ ".jar").

(** [l.index(x)] *)
Fixpoint index_of (x : string) (l : list string) : option Z :=
  match l with
  | [] => None
  | y :: l' => if String.eqb x y then Some 0 else option_map (Z.add 1) (index_of x l')
  end.

(** [extra_args[extra_args.index(name) + 1] if name in extra_args else default] *)
Definition extra_arg (extra_args : list string) (name default : string) : outcome string :=
  match index_of name extra_args with
  | Some i => list_index extra_args (i + 1)
  | None => Val default
  end.

Definition sc_extra_params (extra_args : option (list string)) : outcome (string * string) :=
  match extra_args with
  | None => Val ("", "")
  | Some extra_args =>
      let dbg := match index_of "-agentlib" extra_args with
                 | Some _ => " -agentlib:jdwp=transport=dt_socket,server=y,suspend=y,address=*:5005"
                 | None => ""
                 end in
      obind (extra_arg extra_args "-mc_block_delay_ref" "0") (λ delay,
      obind (extra_arg extra_args "-all_forks" "0") (λ forks,
      obind (extra_arg extra_args "-max_hist_rew_len" "100") (λ hist,
      Val (dbg, delay +:+ " " +:+ forks +:+ " " +:+ hist))))
  end.

Definition sc_node_dir (dirname : string) (i : Z) : string := path_join dirname ("sc_node" +:+ str_of_Z i).

Definition jacoco_cmd (user_home : string) : string :=
  let agent := foldl path_join user_home
    [".m2"; "repository"; "org"; "jacoco"; "org.jacoco.agent"; "0.8.9"; "org.jacoco.agent-0.8.9-runtime.jar"] in
  "-javaagent:" +:+ agent +:+ "=destfile=../coverage-reports/sidechains-sdk-" +:+ SNAPSHOT_VERSION_TAG
  +:+ "/sidechains-sdk-" +:+ SNAPSHOT_VERSION_TAG +:+ "-jacoco-report.exec,append=true".

Definition sc_bashcmd (jacoco : bool) (home dbg binary cfg params : string) : string :=
  "java --add-opens java.base/java.lang=ALL-UNNAMED " +:+ (if jacoco then jacoco_cmd home else "")
  +:+ dbg +:+ " -cp " +:+ binary +:+ " " +:+ cfg +:+ " " +:+ params.

Definition sc_proxy (url : string) (auth_api_key : option string) (dataDir : string) : MW proxy :=
  let% self := SidechainAuthServiceProxy_init url None SC_HTTP_TIMEOUT None auth_api_key in
  ret (Proxy KSidechain url (default "" (u_hostname (s_url self))) auth_api_key SC_HTTP_TIMEOUT dataDir).

(** ['127.0.0.1' or rpchost] is always the first operand. *)
Definition start_sc_node (i : Z) (dirname : string) (extra_args : option (list string))
    (rpchost : option string) (binary : option string) (print_output_to_file : bool) (auth_api_key : option string) : MW proxy :=
  let datadir := sc_node_dir dirname i in
  let! binary := (match binary with Some b => ret b | None => SIMPLE_APP_BINARY end) in
  let% '(dbg_agent_opt, additional_params) := sc_extra_params extra_args in
  let cfgFileName := datadir +:+ "/node" +:+ str_of_Z i +:+ ".conf" in
  let! user_home := ask os_home in
  let! jacoco := gets is_jacoco_included in
  let bashcmd := sc_bashcmd jacoco user_home dbg_agent_opt binary cfgFileName additional_params in
  do! when print_output_to_file (
    do! write_file (datadir +:+ "/log_out.txt") "" in write_file (datadir +:+ "/log_err.txt") "") in
  let! h := popen (split_ws bashcmd) in
  do! modify_glob (upd_sc_procs (dict_set i h)) in
  let! port := sc_rpc_port i in
  sc_proxy ("http://127.0.0.1:" +:+ str_of_Z port) auth_api_key datadir.

Definition start_sc_nodes (fuel : nat) (num_nodes : Z) (dirname : string)
    (extra_args : option (list (option (list string)))) (rpchost : option string)
    (binary : option (list (option string))) (print_output_to_file : bool) (auth_api_key : option string) : MW (list proxy) :=
  let extra_args := default (map (λ _, None) (zrange 0 num_nodes)) extra_args in
  let binary := default (map (λ _, None) (zrange 0 num_nodes)) binary in
  let! nodes := mmap (λ i,
    let% e := list_index extra_args i in
    let% b := list_index binary i in
    start_sc_node i dirname e rpchost b print_output_to_file auth_api_key) (zrange 0 num_nodes) in
  do! wait_for_sc_node_initialization fuel nodes in
  ret nodes.

Definition check_sc_node (i : Z) : MW (option Z) :=
  let! procs := gets sidechainclient_processes in
  let% h := of_opt (KeyError (str_of_Z i)) (dict_get i procs) in
  run_os (λ w, let '(code, w') := os_poll h w in (inr code, w')).

Definition stop_sc_node (node : proxy) (i : Z) : MW unit :=
  do! call node "node_stop" [] in
  let! procs := gets sidechainclient_processes in
  match dict_get i procs with
  | Some sc_proc =>
      do! wait_proc sc_proc in
      modify_glob (upd_sc_procs (dict_del i))
  | None => ret tt
  end.

(** [for idx in range(0, len(nodes)): if idx in processes: stop]; then the
    caller's list is emptied. *)
Fixpoint stop_sc_nodes_from (idx : Z) (nodes : list proxy) : MW unit :=
  match nodes with
  | [] => ret tt
  | node :: nodes' =>
      let! procs := gets sidechainclient_processes in
      do! when (dict_mem idx procs) (stop_sc_node node idx) in
      stop_sc_nodes_from (idx + 1) nodes'
  end.

Definition stop_sc_nodes (nodes : list proxy) : MW (list proxy) :=
  do! stop_sc_nodes_from 0 nodes in ret [].

Definition set_sc_node_times (nodes : list proxy) (t : Z) : MW unit := ret tt.

Definition wait_sidechainclients : MW unit :=
  let! procs := gets sidechainclient_processes in
  do! forM_ procs (λ p, wait_proc p.2) in
  modify_glob (upd_sc_procs (λ _, [])).

Definition get_sc_node_pids : MW (list Z) :=
  let! procs := gets sidechainclient_processes in ret (map snd procs).

(** ** Peers *)

Definition sc_connected_peers (node : proxy) : MW pyval :=
  let! r := call node "node_connectedPeers" [] in
  lift (getpath r ["result"; "peers"]).

(** [any(i for i in peers if i.get("remoteAddress") == address)] *)
Fixpoint any_remote (peers : list pyval) (address : string) : outcome bool :=
  match peers with
  | [] => Val false
  | PDict d :: ps =>
      if py_eqb (default PNone (dict_get "remoteAddress" d)) (PStr address) then Val true
      else any_remote ps address
  | _ :: _ => Exc (AttributeError "get")
  end.

Definition host_port_request (port : Z) : outcome string :=
  dumps (PDict [("host", PStr "127.0.0.1"); ("port", PStr (str_of_Z port))]).

Definition connect_sc_nodes (fuel : nat) (from_connection : proxy) (node_num wait_for : Z) : MW unit :=
  let! port := sc_p2p_port node_num in
  let ip_port := "127.0.0.1:" +:+ str_of_Z port in
  let% request := host_port_request port in
  do! call from_connection "node_connect" [PStr request] in
  let! start := time_time in
  wait_loop fuel start wait_for ("Trying to connect to node" +:+ str_of_Z node_num) (
    let! peers := sc_connected_peers from_connection in
    let% l := py_iter peers in
    lift (any_remote l ("/" +:+ ip_port))).

Definition disconnect_sc_nodes (from_connection : proxy) (node_num : Z) : MW unit :=
  let! port := sc_p2p_port node_num in
  let% request := host_port_request port in
  do! call from_connection "node_disconnect" [PStr request] in ret tt.

Definition disconnect_sc_nodes_bi (nodes : list proxy) (a b : Z) : MW unit :=
  let% na := list_index nodes a in
  do! disconnect_sc_nodes na b in
  let% nb := list_index nodes b in
  do! disconnect_sc_nodes nb a in
  sleep WAIT_CONST.

Definition connect_sc_nodes_bi (fuel : nat) (nodes : list proxy) (a b : Z) : MW unit :=
  let% na := list_index nodes a in
  do! connect_sc_nodes fuel na b (secs 25) in
  let% nb := list_index nodes b in
  connect_sc_nodes fuel nb a (secs 25).

(** ** Checks *)

Definition check_mainchain_block_reference_info (mc_block_reference_info expected_mc_block : pyval)
    : bool :=
  let body :=
    obind (getpath mc_block_reference_info ["blockReferenceInfo"; "parentHash"]) (λ parent_hash,
    obind (getpath mc_block_reference_info ["blockReferenceInfo"; "hash"]) (λ hash,
    obind (getpath mc_block_reference_info ["blockReferenceInfo"; "height"]) (λ height,
    obind (getitem expected_mc_block "hash") (λ expected_mc_block_hash,
    obind (getitem expected_mc_block "height") (λ expected_mc_block_height,
    obind (assert_equal expected_mc_block_hash hash "") (λ _,
    obind (assert_equal expected_mc_block_height height "") (λ _,
    obind (getitem expected_mc_block "previousblockhash") (λ expected_previous,
    assert_equal expected_previous parent_hash "")))))))) in
  match body with Val _ => true | _ => false end.

Fixpoint header_included (headers : list pyval) (expected_mc_block : pyval) : outcome bool :=
  match headers with
  | [] => Val false
  | h :: hs =>
      obind (getitem expected_mc_block "merkleroot") (λ expected,
      obind (getitem h "hashMerkleRoot") (λ root,
      if py_eqb expected root then Val true else header_included hs expected_mc_block))
  end.

Definition is_mainchain_block_included_in_sc_block (sc_block expected_mc_block : pyval) : outcome bool :=
  obind (getitem sc_block "mainchainHeaders") (λ headers,
  obind (py_iter headers) (λ l, header_included l expected_mc_block)).

Definition something_wrong {A} (response : pyval) : MW A :=
  raise (RuntimeError ("Something went wrong, see " +:+ py_str response)).

Definition check_wallet_coins_balance (sc_node : proxy) (expected_wallet_balance : pyval) : MW unit :=
  let! response := call sc_node "wallet_coinsBalance" [] in
  let% ok := has_key "result" response in
  if ok then
    let% balance := getitem response "result" in
    let% expected := py_mul expected_wallet_balance (PInt 100000000) in
    let% b := getitem balance "balance" in
    let% balance := py_int b in
    lift (assert_equal expected (PInt balance) "Unexpected coins balance")
  else something_wrong response.

(** The boxes of a public key, by type: their number and the sum of their values. *)
Fixpoint sum_boxes (boxes : list pyval) (pub_key : pyval) (box_class_name : option string)
    (boxes_balance boxes_count : pyval) : outcome (pyval * pyval) :=
  match boxes with
  | [] => Val (boxes_balance, boxes_count)
  | box :: boxes' =>
      obind (getpath box ["proposition"; "publicKey"]) (λ key,
      obind (if py_eqb key pub_key then
               match box_class_name with
               | None => Val true
               | Some c => obind (getitem box "typeName") (λ t, Val (py_eqb t (PStr c)))
               end
             else Val false) (λ mine,
      if mine then
        obind (getitem box "value") (λ box_value,
        obind (py_gt box_value (PInt 0)) (λ positive,
        obind (getitem box "id") (λ id,
        obind (assert_true positive ("Non positive value for box: " +:+ py_str id +:+ " with public key: "
                                     +:+ py_str pub_key)) (λ _,
        obind (py_add boxes_balance box_value) (λ balance,
        obind (py_add boxes_count (PInt 1)) (λ count,
        sum_boxes boxes' pub_key box_class_name balance count))))))
      else sum_boxes boxes' pub_key box_class_name boxes_balance boxes_count))
  end.

Definition check_box_balance (sc_node : proxy) (account : Account) (box_class_name : option string)
    (expected_boxes_count expected_balance : pyval) : MW unit :=
  let! response := call sc_node "wallet_allBoxes" [] in
  let% has_result := has_key "result" response in
  if negb has_result then something_wrong response else
  let% result := getitem response "result" in
  let% has_boxes := has_key "boxes" result in
  if negb has_boxes then something_wrong response else
  let% boxes := getitem result "boxes" in
  let pub_key := publicKey account in
  let% l := py_iter boxes in
  let% '(boxes_balance, boxes_count) := sum_boxes l pub_key box_class_name (PInt 0) (PInt 0) in
  do% assert_equal expected_boxes_count boxes_count
    ("Unexpected number of boxes for public key " +:+ py_str pub_key +:+ ". Expected "
     +:+ py_str expected_boxes_count +:+ " but found " +:+ py_str boxes_count +:+ ".") in
  let% expected := py_mul expected_balance (PInt 100000000) in
  lift (assert_equal expected boxes_balance
    ("Unexpected sum of balances for public key " +:+ py_str pub_key +:+ ". Expected "
     +:+ py_str expected +:+ " but found " +:+ py_str boxes_balance +:+ ".")).

Fixpoint if_csws_were_generated (sc_node : proxy) (csw_box_ids : list pyval) (allow_absent : bool)
    : MW bool :=
  match csw_box_ids with
  | [] => ret true
  | box_id :: ids =>
      let% req := dumps (PDict [("boxId", box_id)]) in
      let! r := call sc_node "csw_cswInfo" [PStr req] in
      let% status := getpath r ["result"; "cswInfo"; "proofInfo"; "status"] in
      if py_eqb status (PStr "Absent") && allow_absent then if_csws_were_generated sc_node ids allow_absent
      else if py_neqb status (PStr "Generated") then ret false
      else if_csws_were_generated sc_node ids allow_absent
  end.

Definition get_scinfo_data (scid : pyval) (mc_node : proxy) : MW (pyval * pyval * pyval * pyval * pyval) :=
  let! info := call mc_node "getscinfo" [scid] in
  let% items := getitem info "items" in
  let% r := getindex items 0 in
  let% sc_creating_height := getitem r "createdAtBlockHeight" in
  let% sc_version := getitem r "version" in
  let% sc_constant := getitem r "constant" in
  let% sc_customData := getitem r "customData" in
  let% epochLen := getitem r "withdrawalEpochLength" in
  let! current_height := call mc_node "getblockcount" [] in
  let% '(epoch_number, end_height) := last_epoch_end current_height sc_creating_height epochLen in
  let! end_epoch_block_hash := call mc_node "getblockhash" [end_height] in
  let! block := call mc_node "getblock" [end_epoch_block_hash] in
  let% epoch_cum_tree_hash := getitem block "scCumTreeHash" in
  ret (epoch_number, epoch_cum_tree_hash, sc_version, sc_constant, sc_customData).

Definition get_withdrawal_epoch (sc_node : proxy) : MW pyval :=
  let! best := call sc_node "block_best" [] in
  let% id := getpath best ["result"; "block"; "id"] in
  let% request := dumps (PDict [("blockId", id)]) in
  let! r := call sc_node "block_findBlockInfoById" [PStr request] in
  lift (getpath r ["result"; "blockInfo"; "withdrawalEpochInfo"; "epoch"]).
End ScUtil.
