(* ===== verification/Processes.v ===== *)
(** * The process tables of the two kinds of nodes, and their ports

    The module-level dictionaries [sidechainclient_processes] (scutil.py) and
    [bitcoind_processes] (util.py) are the framework's only record of the
    processes it started.  The file states what keeps them usable as such: an
    entry leaves a table only after its process was waited for, over every
    sequence of operations and whatever they raise; and the ports given to the
    nodes of parallel test groups do not meet. *)

From S2P Require Import Prelude PyStr Numbers PyVal Host Sim Json Encoding HttpProxy BootInfo McUtil ScUtil.
From Stdlib Require Import Ascii String.
From stdpp Require Import base list relations.
Local Open Scope Z_scope.

(** ** What every operation keeps *)

Inductive table := SidechainClients | Bitcoinds.

#[export] Instance table_eq_dec : EqDecision table.
Proof. solve_decision. Defined.

Definition procs (t : table) (g : globals) : list (Z * Z) :=
  match t with SidechainClients => sidechainclient_processes g | Bitcoinds => bitcoind_processes g end.

(** The record only grows, and an entry that is gone was waited for. *)
Definition kept {W} (st st' : St W) : Prop :=
  trace st `prefix_of` trace st'
  ∧ ∀ t i h, dict_get i (procs t (glob st)) = Some h →
      dict_get i (procs t (glob st')) = Some h ∨ EWait h ∈ trace st'.

#[export] Instance kept_preorder {W} : PreOrder (@kept W).
Proof.
  split.
  - intros st. split; [done|auto].
  - intros s1 s2 s3 [P1 K1] [P2 K2]. split; [by trans (trace s2)|].
    intros t i h Hi. destruct (K1 t i h Hi) as [H2|H2]; [by apply K2|].
    right. destruct P2 as [k ->]. apply elem_of_app. auto.
Qed.

(** Computations that leave the module-level variables alone. *)
Definition quiet {W A} (m : M W A) : Prop :=
  ∀ st, glob (m st).2 = glob st ∧ trace st `prefix_of` trace (m st).2.

(** Computations that keep the entries, from a state with the given variables. *)
Definition keeps {W A} (g : globals) (m : M W A) : Prop :=
  ∀ st, glob st = g → kept st (m st).2.

Section Rules.
Context {W : Type} `{Nodes W, Clock W, Os W, Rng W}.

Lemma quiet_ret {A} (a : A) : quiet (W := W) (ret a).
Proof. by intros st. Qed.
Lemma quiet_raise {A} e : quiet (W := W) (raise (A := A) e).
Proof. by intros st. Qed.
Lemma quiet_lift {A} (o : outcome A) : quiet (W := W) (lift o).
Proof. by intros st. Qed.
Lemma quiet_gets {A} (f : globals → A) : quiet (W := W) (gets f).
Proof. by intros st. Qed.
Lemma quiet_ask {A} (f : W → A) : quiet (ask f).
Proof. by intros st. Qed.
Lemma quiet_bind {A B} (m : M W A) (k : A → M W B) : quiet m → (∀ a, quiet (k a)) → quiet (bind m k).
Proof.
  intros Hm Hk st. unfold bind. destruct (Hm st) as [G P]. destruct (m st) as [[a|e|] st']; simpl in *; auto.
  destruct (Hk a st') as [G' P']. split; [congruence|by trans (trace st')].
Qed.
Lemma quiet_when b (m : M W unit) : quiet m → quiet (when b m).
Proof. intros. destruct b; simpl; [done|apply quiet_ret]. Qed.
Lemma quiet_act {A} e (f : W → (exn + A) * W) : quiet (act e f).
Proof. intros st. unfold act. destruct (f (world st)). simpl. split; [done|by apply prefix_app_r]. Qed.
Lemma quiet_run_os {A} (f : W → (exn + A) * W) : quiet (run_os f).
Proof. intros st. unfold run_os. by destruct (f (world st)). Qed.
Lemma quiet_call p m a : quiet (call (W := W) p m a).
Proof.
  intros st. unfold call, call_kw. destruct (node_call p m a [] (world st)). simpl.
  split; [done|by apply prefix_app_r].
Qed.
Lemma quiet_check_call argv : quiet (check_call (W := W) argv).
Proof.
  apply quiet_bind; [apply quiet_act|]. intros [[c ?] ?].
  destruct (c =? 0); [apply quiet_ret|apply quiet_raise].
Qed.

Lemma quiet_keeps {A} g (m : M W A) : quiet m → keeps g m.
Proof. intros Hm st _. destruct (Hm st) as [G P]. split; [done|]. rewrite G. auto. Qed.

(** Before the tables are touched, their content is known. *)
Lemma keeps_bind {A B} g (m : M W A) (k : A → M W B) :
  quiet m → (∀ a, keeps g (k a)) → keeps g (bind m k).
Proof.
  intros Hm Hk st Hg. destruct (quiet_keeps g m Hm st Hg) as [P K]. destruct (Hm st) as [G _].
  unfold bind. destruct (m st) as [[a|e|] st']; simpl in *; [|by split..].
  trans st'; [by split|]. apply Hk. congruence.
Qed.

(** Two computations that keep the entries in any state. *)
Lemma keeps_seq {A B} (m : M W A) (k : A → M W B) st :
  kept st (m st).2 → (∀ a st', kept st' (k a st').2) → kept st (bind m k st).2.
Proof.
  intros Hm Hk. unfold bind. destruct (m st) as [[a|e|] st']; simpl in *; [|done..]. by trans st'.
Qed.

(** A new process under an unused index. *)
Lemma keeps_register {A} t i h g (upd : (list (Z * Z) → list (Z * Z)) → globals → globals) (k : unit → M W A) :
  (∀ f g, procs t (upd f g) = f (procs t g)) → (∀ f g t', t' ≠ t → procs t' (upd f g) = procs t' g) →
  dict_get i (procs t g) = None → (∀ a, quiet (k a)) →
  keeps g (bind (modify_glob (upd (dict_set i h))) k).
Proof.
  intros Hupd Hoth Hi Hk st <-. apply keeps_seq; [|by intros; apply (quiet_keeps (glob st'))].
  split; [done|]. intros t' j h' Hj. left. simpl. destruct (decide (t' = t)) as [->|Hne].
  - rewrite Hupd. rewrite dict_get_set_ne; [done|]. intros ->. congruence.
  - by rewrite Hoth.
Qed.

(** A process waited for, then removed. *)
Lemma keeps_unregister t i h g (upd : (list (Z * Z) → list (Z * Z)) → globals → globals) :
  (∀ f g, procs t (upd f g) = f (procs t g)) → (∀ f g t', t' ≠ t → procs t' (upd f g) = procs t' g) →
  dict_get i (procs t g) = Some h →
  keeps g (bind (wait_proc h) (λ _, modify_glob (W := W) (upd (dict_del i)))).
Proof.
  intros Hupd Hoth Hi st <-. unfold bind, wait_proc, act. simpl. split; [by apply prefix_app_r|].
  intros t' j h' Hj. simpl. destruct (decide (t' = t)) as [->|Hne].
  - rewrite Hupd. destruct (decide (j = i)) as [->|Hji].
    + right. rewrite elem_of_app, list_elem_of_singleton. right. congruence.
    + left. by rewrite dict_get_del_ne.
  - left. by rewrite Hoth.
Qed.

(** Waiting for a list of handles. *)
Lemma wait_all_run (l : list (Z * Z)) (st : St W) :
  ∃ w, forM_ l (λ p, wait_proc p.2) st
       = (Val tt, mkSt w (trace st ++ map (λ p, EWait p.2) l) (heap st) (glob st)).
Proof.
  revert st. induction l as [|[i h] l IH]; intros st; cbn [forM_].
  - exists (world st). simpl. rewrite app_nil_r. by destruct st.
  - unfold bind at 1. change (wait_proc (i, h).2 st)
      with (Val tt, log_event (EWait h) (set_world (os_wait h (world st)) st)).
    cbn iota. destruct (IH (log_event (EWait h) (set_world (os_wait h (world st)) st))) as [w ->].
    exists w. simpl. by rewrite <- app_assoc.
Qed.
End Rules.

#[export] Hint Resolve quiet_ret quiet_raise quiet_lift quiet_gets quiet_ask quiet_bind quiet_when quiet_act
  quiet_run_os quiet_call quiet_check_call : py.
#[export] Hint Extern 2 (quiet (makedirs _)) => apply quiet_act : py.
#[export] Hint Extern 2 (quiet (write_file _ _)) => apply quiet_act : py.
#[export] Hint Extern 2 (quiet (popen _)) => apply quiet_act : py.

(** ** The operations on the tables *)

(** Starting a node ends a program's use of the index until it is stopped:
    the step applies to an index that is not in use. *)
Inductive proc_step {W : Type} `{Nodes W, Clock W, Os W, Rng W} (st : St W) : St W → Prop :=
| start_sc_step i dirname extra rpchost binary to_file key :
    dict_get i (procs SidechainClients (glob st)) = None →
    proc_step st (start_sc_node i dirname extra rpchost binary to_file key st).2
| start_mc_step i dirname extra rpchost timewait binary :
    dict_get i (procs Bitcoinds (glob st)) = None →
    proc_step st (start_node i dirname extra rpchost timewait binary st).2
| stop_sc_step node i : proc_step st (stop_sc_node node i st).2
| stop_sc_all_step nodes : proc_step st (stop_sc_nodes nodes st).2
| stop_mc_step node i : proc_step st (stop_node node i st).2
| stop_mc_all_step nodes : proc_step st (stop_nodes nodes st).2
| wait_sc_step : proc_step st (wait_sidechainclients st).2
| wait_mc_step : proc_step st (wait_bitcoinds st).2
| check_sc_step i : proc_step st (check_sc_node i st).2
| check_mc_step i : proc_step st (check_node i st).2.

Section Steps.
Context {W : Type} `{Nodes W, Clock W, Os W, Rng W}.

(** The two tables are updated by [upd_sc_procs] and [upd_bitcoind]. *)
Lemma sc_table_upd f g : procs SidechainClients (upd_sc_procs f g) = f (procs SidechainClients g).
Proof. done. Qed.
Lemma sc_table_other f g t : t ≠ SidechainClients → procs t (upd_sc_procs f g) = procs t g.
Proof. by destruct t. Qed.
Lemma mc_table_upd f g : procs Bitcoinds (upd_bitcoind f g) = f (procs Bitcoinds g).
Proof. done. Qed.
Lemma mc_table_other f g t : t ≠ Bitcoinds → procs t (upd_bitcoind f g) = procs t g.
Proof. by destruct t. Qed.

Lemma quiet_getenv n d : quiet (getenv (W := W) n d).
Proof. unfold getenv. auto 6 with py. Qed.

Lemma quiet_app_binary : quiet (SIMPLE_APP_BINARY (W := W)).
Proof. unfold SIMPLE_APP_BINARY, get_examples_dir, get_lib_separator. repeat (apply quiet_bind; intros); auto with py; by intros st. Qed.

Lemma quiet_sc_rpc_port n : quiet (sc_rpc_port (W := W) n).
Proof. unfold sc_rpc_port. auto 8 with py. Qed.

Lemma quiet_rpc_port n : quiet (rpc_port (W := W) n).
Proof. unfold rpc_port, port_from. auto 8 with py. Qed.

Lemma keeps_start_sc_node g i dirname extra rpchost binary to_file key :
  dict_get i (procs SidechainClients g) = None →
  keeps g (start_sc_node (W := W) i dirname extra rpchost binary to_file key).
Proof.
  intros Hi. unfold start_sc_node.
  apply keeps_bind; [destruct binary; auto using quiet_app_binary with py|intros b].
  apply keeps_bind; [auto with py|intros [dbg params]].
  apply keeps_bind; [auto with py|intros home]. apply keeps_bind; [auto with py|intros j].
  apply keeps_bind; [apply quiet_when; apply quiet_bind; intros; apply quiet_act|intros _].
  apply keeps_bind; [apply quiet_act|intros h].
  apply (keeps_register SidechainClients); auto using sc_table_other.
  intros _. apply quiet_bind; [apply quiet_sc_rpc_port|]. intros p. apply quiet_bind; auto with py.
Qed.

Lemma keeps_start_node g i dirname extra rpchost timewait binary :
  dict_get i (procs Bitcoinds g) = None →
  keeps g (start_node (W := W) i dirname extra rpchost timewait binary).
Proof.
  intros Hi. unfold start_node.
  apply keeps_bind; [destruct binary; auto using quiet_getenv with py|intros b].
  apply keeps_bind; [auto with py|intros []]; simpl; [|apply quiet_keeps; auto with py].
  apply keeps_bind; [apply quiet_act|intros h].
  apply (keeps_register Bitcoinds); auto using mc_table_other.
  intros _. apply quiet_bind; [apply quiet_getenv|]. intros cli.
  apply quiet_bind; [auto with py|intros host_args]. apply quiet_bind; [auto with py|intros _].
  apply quiet_bind; [apply quiet_rpc_port|intros port]. apply quiet_bind; auto with py.
Qed.

Lemma kept_stop_sc_node node i (st : St W) : kept st (stop_sc_node node i st).2.
Proof.
  apply keeps_seq; [by apply (quiet_keeps (glob st)); auto with py|]. intros _ st'.
  unfold bind, gets. simpl. case_scrut; [|done].
  by apply (keeps_unregister SidechainClients i _ (glob st') upd_sc_procs); auto using sc_table_other.
Qed.

Lemma kept_stop_node node i (st : St W) : kept st (stop_node node i st).2.
Proof.
  apply keeps_seq; [by apply (quiet_keeps (glob st)); auto with py|]. intros _ st'.
  unfold bind at 1, bitcoind_process, gets, lift. unfold bind at 1. simpl.
  destruct (dict_get i (bitcoind_processes (glob st'))) eqn:E; simpl; [|done].
  by apply (keeps_unregister Bitcoinds i _ (glob st') upd_bitcoind); auto using mc_table_other.
Qed.

Lemma kept_stop_sc_nodes_from nodes idx (st : St W) : kept st (stop_sc_nodes_from idx nodes st).2.
Proof.
  revert idx st. induction nodes as [|node nodes IH]; intros idx st; [done|].
  cbn [stop_sc_nodes_from]. unfold bind at 1, gets. apply keeps_seq; [|auto].
  destruct (dict_mem idx _); simpl; [apply kept_stop_sc_node|done].
Qed.

Lemma quiet_stop_nodes nodes : quiet (stop_nodes (W := W) nodes).
Proof.
  unfold stop_nodes. apply quiet_bind; [|auto with py].
  induction nodes; simpl; auto 6 with py.
Qed.

(** Waiting for everything leaves an empty table. *)
Lemma wait_sidechainclients_run (st : St W) :
  ∃ w, wait_sidechainclients st
    = (Val tt, mkSt w (trace st ++ map (λ p, EWait p.2) (procs SidechainClients (glob st))) (heap st)
                (upd_sc_procs (λ _, []) (glob st))).
Proof.
  unfold wait_sidechainclients, bind, gets. simpl.
  destruct (wait_all_run (sidechainclient_processes (glob st)) st) as [w E]. exists w. by rewrite E.
Qed.

Lemma wait_bitcoinds_run (st : St W) :
  ∃ w, wait_bitcoinds st
    = (Val tt, mkSt w (trace st ++ map (λ p, EWait p.2) (procs Bitcoinds (glob st))) (heap st)
                (upd_bitcoind (λ _, []) (glob st))).
Proof.
  unfold wait_bitcoinds, bind, gets. simpl.
  destruct (wait_all_run (bitcoind_processes (glob st)) st) as [w E]. exists w. by rewrite E.
Qed.

Lemma waited_elem i h (l : list (Z * Z)) :
  dict_get i l = Some h → EWait h ∈ map (λ p, EWait p.2) l.
Proof. intros Hi. apply list_elem_of_fmap. exists (i, h). split; [done|by apply dict_get_Some_elem]. Qed.

Lemma kept_wait_sc (st : St W) : kept st (wait_sidechainclients st).2.
Proof.
  destruct (wait_sidechainclients_run st) as [w ->]. split; simpl; [by apply prefix_app_r|].
  intros [] i h Hi; [|by left]. right. apply elem_of_app. right. by apply (waited_elem i).
Qed.

Lemma kept_wait_mc (st : St W) : kept st (wait_bitcoinds st).2.
Proof.
  destruct (wait_bitcoinds_run st) as [w ->]. split; simpl; [by apply prefix_app_r|].
  intros [] i h Hi; [by left|]. right. apply elem_of_app. right. by apply (waited_elem i).
Qed.

Lemma kept_step (st st' : St W) : proc_step st st' → kept st st'.
Proof.
  destruct 1.
  - by apply (keeps_start_sc_node (glob st)).
  - by apply (keeps_start_node (glob st)).
  - apply kept_stop_sc_node.
  - apply keeps_seq; [apply kept_stop_sc_nodes_from|done].
  - apply kept_stop_node.
  - apply (quiet_keeps (glob st)); [apply quiet_stop_nodes|done].
  - apply kept_wait_sc.
  - apply kept_wait_mc.
  - apply (quiet_keeps (glob st)); [|done]. unfold check_sc_node. auto 8 with py.
  - apply (quiet_keeps (glob st)); [|done]. unfold check_node, bitcoind_process. auto 10 with py.
Qed.

Lemma kept_steps (st st' : St W) : rtc proc_step st st' → kept st st'.
Proof. induction 1 as [|a b c Hs _ IH]; [done|]. trans b; [by apply kept_step|done]. Qed.


(** ** Stopping the sidechain nodes *)

(** The node at hand stops when asked, as long as the world stays in [ok]. *)
Definition stoppable (ok : W → Prop) (nodes : list proxy) : Prop :=
  ∀ node h w, node ∈ nodes → ok w →
    ∃ v w', node_call node "node_stop" [] [] w = (inr v, w') ∧ ok (os_wait h w').

(** The stop requests and waits for the nodes whose index is in the table. *)
Fixpoint stop_events (idx : Z) (nodes : list proxy) (d : list (Z * Z)) : list event :=
  match nodes with
  | [] => []
  | node :: nodes' =>
      match dict_get idx d with
      | Some h => [ECall node "node_stop" [] []; EWait h]
      | None => []
      end ++ stop_events (idx + 1) nodes' d
  end.

Lemma stop_sc_node_run node i h (st : St W) v w :
  node_call node "node_stop" [] [] (world st) = (inr v, w) →
  dict_get i (procs SidechainClients (glob st)) = Some h →
  stop_sc_node node i st
  = (Val tt, mkSt (os_wait h w) (trace st ++ [ECall node "node_stop" [] []; EWait h]) (heap st)
               (upd_sc_procs (dict_del i) (glob st))).
Proof.
  intros Hc Hi. unfold stop_sc_node, bind, call, call_kw. rewrite Hc. simpl.
  simpl in Hi. rewrite Hi. simpl. unfold act, log_event, set_glob. simpl. by rewrite <- app_assoc.
Qed.

Lemma stop_events_ext nodes idx d d' :
  (∀ j, idx <= j → dict_get j d = dict_get j d') → stop_events idx nodes d = stop_events idx nodes d'.
Proof.
  revert idx. induction nodes as [|node nodes IH]; intros idx Hd; simpl; [done|].
  rewrite Hd by lia. f_equal. apply IH. intros j Hj. apply Hd. lia.
Qed.

Lemma stop_sc_nodes_from_run ok nodes idx (st : St W) :
  stoppable ok nodes → ok (world st) →
  NoDup (procs SidechainClients (glob st)).*1 →
  let res := stop_sc_nodes_from idx nodes st in
  res.1 = Val tt ∧ trace res.2 = trace st ++ stop_events idx nodes (procs SidechainClients (glob st))
  ∧ (∀ i, dict_get i (procs SidechainClients (glob res.2))
         = if decide (idx <= i < idx + Z.of_nat (length nodes)) then None
           else dict_get i (procs SidechainClients (glob st)))
  ∧ procs Bitcoinds (glob res.2) = procs Bitcoinds (glob st) ∧ ok (world res.2).
Proof.
  intros Hstop. revert idx st. induction nodes as [|node nodes IH]; intros idx st Hok Hnd.
  { cbn [stop_sc_nodes_from length stop_events]. rewrite app_nil_r. repeat split; auto.
    intros i. rewrite decide_False; [done|lia]. }
  assert (stoppable ok nodes) as Hrest by (intros n h w Hn; apply Hstop; by right).
  specialize (IH Hrest). cbn [stop_sc_nodes_from stop_events]. unfold bind at 1, gets. simpl in Hnd.
  unfold bind, dict_mem. simpl. destruct (dict_get idx (sidechainclient_processes (glob st))) as [h|] eqn:Hi; simpl.
  - destruct (Hstop node h (world st) (ltac:(left)) Hok) as (v & w & Hc & Hok').
    rewrite (stop_sc_node_run node idx h st v w Hc Hi).
    match goal with |- context [stop_sc_nodes_from _ _ ?s] => specialize (IH (idx + 1) s) end.
    destruct IH as (R & T & D & B & O); [done|simpl; auto with py|]. simpl in *. split; [done|]. split; [|split; [|done]].
    + rewrite T, <- app_assoc. do 2 f_equal. simpl. do 2 f_equal. apply stop_events_ext.
      intros j Hj. apply dict_get_del_ne. lia.
    + intros i. rewrite D. destruct (decide (i = idx)) as [->|Hne].
      * rewrite decide_False by lia. rewrite decide_True by lia. by apply dict_get_del_eq.
      * rewrite dict_get_del_ne by done. do 2 case_decide; auto; lia.
  - destruct (IH (idx + 1) st Hok Hnd) as (R & T & D & B & O). simpl in *. split; [done|]. split; [done|]. split; [|done].
    intros i. rewrite D. destruct (decide (i = idx)) as [->|Hne].
    + rewrite decide_False by lia. by case_decide.
    + do 2 case_decide; auto; lia.
Qed.

(** [stop_sc_nodes] on nodes that answer the stop request asks exactly the
    nodes whose process is in the table to stop, in order, waits for each of
    these processes right after its request, and removes exactly these entries
    from the table; the caller's list is left empty. *)
Theorem stop_sc_nodes_spec (ok : W → Prop) (nodes : list proxy) (st : St W) :
  stoppable ok nodes → ok (world st) →
  NoDup (procs SidechainClients (glob st)).*1 →
  let res := stop_sc_nodes nodes st in
  res.1 = Val [] ∧ trace res.2 = trace st ++ stop_events 0 nodes (procs SidechainClients (glob st))
  ∧ ∀ i, dict_get i (procs SidechainClients (glob res.2))
         = if decide (0 <= i < Z.of_nat (length nodes)) then None
           else dict_get i (procs SidechainClients (glob st)).
Proof.
  intros Hs Hok Hnd. destruct (stop_sc_nodes_from_run ok nodes 0 st Hs Hok Hnd) as (R & T & D & _).
  unfold stop_sc_nodes, bind. destruct (stop_sc_nodes_from 0 nodes st) as [[[]|e|] st'] eqn:E; simpl in *; done.
Qed.
End Steps.

(** ** A run in the simulation *)

Definition quiet_nodes : sim := sim_of (λ _ _ _ _, inr (PDict [])).
Definition one_started : St sim :=
  (start_sc_node 0 "/tmp/t" None None None false (Some "TopSecret") (init_st quiet_nodes)).2.
Definition stopped_once : St sim := (stop_sc_nodes [sc0; sc1] one_started).2.


Lemma stop_sc_nodes_spec_witness :
  (stop_sc_nodes [sc0; sc1] one_started).1 = Val [].
Proof.
  apply (stop_sc_nodes_spec (λ w, s_node w = s_node quiet_nodes) [sc0; sc1] one_started).
  - intros node h w _ Hw. exists (PDict []), (tick w). split; [|done].
    unfold node_call, sim_nodes. by rewrite Hw.
  - vm_compute. reflexivity.
  - vm_compute. repeat constructor. intros Hin. inversion Hin.
Defined.

(** ** Ports *)

(** The five uses of a port by a test. *)
Inductive port_use := ScApi | ScPeers | McPeers | McRpc | McWebsocket.

Definition port_of (u : port_use) (parallel_test pid n : Z) : Z :=
  match u with
  | ScApi => sc_rpc_port_of parallel_test pid n
  | ScPeers => sc_p2p_port_of parallel_test pid n
  | McPeers => mc_port 11000 parallel_test pid n
  | McRpc => mc_port 12000 parallel_test pid n
  | McWebsocket => mc_port 13000 parallel_test pid n
  end.

(** [port_of] is what the functions of the sources return. *)
Lemma port_of_run {W} `{Nodes W, Clock W, Os W, Rng W} (n : Z) (st : St W) :
  let sc := sc_parallel_test (glob st) in
  let mc := mc_parallel_test (glob st) in
  let pid := os_getpid (world st) in
  sc_rpc_port n st = (Val (port_of ScApi sc pid n), st)
  ∧ sc_p2p_port n st = (Val (port_of ScPeers sc pid n), st)
  ∧ p2p_port n st = (Val (port_of McPeers mc pid n), st)
  ∧ rpc_port n st = (Val (port_of McRpc mc pid n), st)
  ∧ websocket_port_by_mc_node_index n st = (Val (port_of McWebsocket mc pid n), st).
Proof. done. Qed.


