(* ===== verification/ScLoops.v ===== *)
(** * The waiting loops of scutil.py

    Each loop of scutil.py that polls a node carries a time limit.  On a clock
    that does not run backwards and is advanced by [sleep], such a loop ends
    after at most one iteration per second of its limit, whatever the nodes
    answer: it returns, times out, or passes on an exception of a call.  When
    it returns, its condition held at the last poll. *)

From S2P Require Import Prelude PyStr Numbers PyVal Host Sim Json Encoding HttpProxy BootInfo McUtil ScUtil.
From Stdlib Require Import Ascii String.
From stdpp Require Import base list sets.
Local Open Scope Z_scope.

(** ** Computations without unbounded loops *)

Definition ends {A} (o : outcome A) : Prop := o ≠ NoFuel.

Lemma ends_bind {A B} (o : outcome A) (f : A → outcome B) :
  ends o → (∀ a, ends (f a)) → ends (obind o f).
Proof. unfold ends. destruct o; simpl; auto; done. Qed.
Lemma ends_of_opt {A} e (o : option A) : ends (of_opt e o).
Proof. by destruct o. Qed.
Lemma ends_getitem v k : ends (getitem v k).
Proof. destruct v; try done. apply ends_of_opt. Qed.
Lemma ends_getpath v ks : ends (getpath v ks).
Proof.
  unfold getpath. assert (∀ o, ends o → ends (foldl (λ o k, obind o (λ w, getitem w k)) o ks)) as Hg.
  { induction ks as [|k ks IH]; intros o Ho; simpl; [done|].
    apply IH, ends_bind; [done|]. intros. apply ends_getitem. }
  by apply Hg.
Qed.
Lemma ends_py_int v : ends (py_int v).
Proof. destruct v; try done; apply ends_of_opt. Qed.
Lemma ends_py_iter v : ends (py_iter v).
Proof. by destruct v. Qed.
Lemma ends_heights_equal l : ends (heights_equal l).
Proof. by destruct l. Qed.
Lemma ends_list_index {A} (l : list A) i : ends (list_index l i).
Proof. unfold list_index. case_match; [apply ends_of_opt|done]. Qed.
Lemma ends_any_remote l a : ends (any_remote l a).
Proof. induction l as [|[] l IH]; simpl; try done. by case_match. Qed.

Lemma ends_omapM {A B} (f : A → outcome B) l : Forall (λ x, ends (f x)) l → ends (omapM f l).
Proof.
  induction 1 as [|x l Hx Hl IH]; [done|]. apply ends_bind; [done|]. intros y. by apply ends_bind.
Qed.
Lemma ends_dumps dflt v : ends (dumps_with dflt v).
Proof.
  induction v as [| | |d| | | |l IH|l IH|d IH] using pyval_nested_ind; try done.
  - by destruct dflt.
  - apply ends_bind; [by apply ends_omapM|done].
  - apply ends_bind; [by apply ends_omapM|done].
  - apply ends_bind; [|done]. apply ends_omapM. eapply Forall_impl; [exact IH|].
    intros kv Hkv. by apply ends_bind.
Qed.

Create HintDb ends discriminated.
#[export] Hint Resolve ends_of_opt ends_getitem ends_getpath ends_py_int ends_py_iter
  ends_heights_equal ends_list_index ends_any_remote : ends.

Section Loops.
Context {W : Type} `{Nodes W, Clock W, Os W, Rng W} `{!ClockLaws W}.
Local Abbreviation MW := (M W).
Implicit Types st : St W.

(** Does not move the clock back and has no unbounded loop. *)
Definition timed {A} (m : MW A) : Prop :=
  ∀ st, clk (world st) ≤ clk (world (m st).2) ∧ ends (m st).1.

Lemma timed_ret {A} (a : A) : timed (ret a).
Proof. intros st. split; [simpl; lia|done]. Qed.
Lemma timed_raise {A} e : timed (raise (A := A) e).
Proof. intros st. split; [simpl; lia|done]. Qed.
Lemma timed_lift {A} (o : outcome A) : ends o → timed (lift o).
Proof. intros Ho st. split; [simpl; lia|done]. Qed.
Lemma timed_bind {A B} (m : MW A) (k : A → MW B) : timed m → (∀ a, timed (k a)) → timed (bind m k).
Proof.
  intros Hm Hk st. unfold bind. specialize (Hm st). destruct (m st) as [[a|e|] st']; simpl in *.
  - destruct (Hk a st'). split; [lia|done].
  - split; [lia|done].
  - by destruct Hm.
Qed.
Lemma timed_call p m a : timed (call p m a).
Proof.
  intros st. unfold call, call_kw. pose proof (clk_call_mono p m a [] (world st)) as Hc.
  destruct (node_call p m a [] (world st)) as [[e|v] w]; split; simpl in *; auto; done.
Qed.
Lemma timed_time : timed time_time.
Proof.
  intros st. unfold time_time. pose proof (clk_now_mono (world st)) as Hc.
  destruct (clk_now (world st)) as [t w]. split; simpl in *; auto; done.
Qed.
Lemma timed_mmap {A B} (f : A → MW B) l : (∀ x, timed (f x)) → timed (mmap f l).
Proof.
  intros Hf. induction l as [|x l IH]; simpl; [apply timed_ret|].
  apply timed_bind; [auto|]. intros y. apply timed_bind; [auto|]. intros ys. apply timed_ret.
Qed.
Lemma timed_foldM {A B} (f : B → A → MW B) b l : (∀ b x, timed (f b x)) → timed (foldM f b l).
Proof.
  intros Hf. revert b. induction l as [|x l IH]; intros b; simpl; [apply timed_ret|].
  apply timed_bind; auto.
Qed.

Create HintDb timed discriminated.
#[local] Hint Resolve timed_ret timed_raise timed_lift timed_call timed_time : timed.
#[local] Hint Resolve ends_of_opt ends_getitem ends_getpath ends_py_int ends_py_iter
  ends_heights_equal ends_list_index ends_any_remote : timed.

Ltac solve_timed :=
  repeat first
    [ progress eauto with timed
    | apply timed_bind; [|intros ?]
    | apply timed_mmap; intros ?
    | apply timed_foldM; intros ? ?
    | match goal with |- timed (if ?b then _ else _) => destruct b end ].

(** ** The generic loop *)

Lemma time_time_val st : ∃ st', time_time st = (Val (clk (world st)), st') ∧ clk (world st) ≤ clk (world st').
Proof.
  unfold time_time. pose proof (clk_now_mono (world st)) as Hc. pose proof (clk_now_val (world st)) as Hv.
  destruct (clk_now (world st)) as [t w]. simpl in *. subst. eexists. split; [done|]. exact Hc.
Qed.

Lemma sleep_clk d st : 0 ≤ d → clk (world st) + d ≤ clk (world (sleep d st).2).
Proof. intros Hd. by apply clk_sleep_mono. Qed.

(** What a run of the loop ends with: the condition held at the last poll, or
    the limit was reached, or the condition raised. *)
Definition loop_post (op : string) (limit : Z) (condition : MW bool) (res : outcome unit * St W) : Prop :=
  match res.1 with
  | Val _ => ∃ st', condition st' = (Val true, res.2)
  | Exc e => (e = TimeoutException op ∧ limit ≤ clk (world res.2))
             ∨ ∃ st', condition st' = (Exc e, res.2)
  | NoFuel => False
  end.

Lemma wait_loop_spec fuel start wait_for op (condition : MW bool) st :
  timed condition → (0 < fuel)%nat → wait_for - (clk (world st) - start) ≤ (Z.of_nat fuel - 1) * WAIT_CONST →
  loop_post op (start + wait_for) condition (wait_loop fuel start wait_for op condition st).
Proof.
  intros Hc. revert st. induction fuel as [|f IH]; intros st Hpos Hf; [lia|]. cbn [wait_loop].
  unfold bind at 1. destruct (time_time_val st) as (st1 & -> & Hst1). cbv iota beta.
  rewrite Z.geb_leb. destruct (Z.leb_spec wait_for (clk (world st) - start)) as [Hge|Hlt].
  { left. split; [done|]. simpl. lia. }
  unfold bind at 1. pose proof (Hc st1) as [Hmono Hends].
  destruct (condition st1) as [[[]|e|] st2] eqn:Hcond; simpl in Hmono, Hends.
  - exists st1. done.
  - unfold bind at 1. pose proof (sleep_clk WAIT_CONST st2 ltac:(done)) as Hs.
    destruct (sleep WAIT_CONST st2) as [o st3] eqn:Hsl. injection Hsl as <- Hst3. simpl in Hs.
    destruct f as [|f]; unfold WAIT_CONST, secs in *; [lia|]. apply (IH st3); lia.
  - right. exists st1. done.
  - done.
Qed.

(** Enough iterations for a limit of [wait_for] microseconds. *)
Definition enough (fuel : nat) (wait_for : Z) : Prop :=
  (0 < fuel)%nat ∧ wait_for ≤ (Z.of_nat fuel - 1) * WAIT_CONST.

Lemma wait_from_now fuel wait_for op (condition : MW bool) st :
  timed condition → enough fuel wait_for →
  loop_post op (clk (world st) + wait_for) condition
    ((let! start := time_time in wait_loop fuel start wait_for op condition) st).
Proof.
  intros Hc [Hpos Hf]. unfold bind. destruct (time_time_val st) as (st1 & -> & Hst1). cbv iota beta.
  apply wait_loop_spec; auto. lia.
Qed.

(** ** The loops of scutil.py *)

Definition poll_heights (api_connections : list proxy) : MW bool :=
  let! counts := mmap node_height api_connections in lift (heights_equal counts).

Lemma timed_node_height x : timed (node_height x).
Proof. unfold node_height. solve_timed. Qed.
#[local] Hint Resolve timed_node_height : timed.

Lemma timed_poll_heights l : timed (poll_heights l).
Proof. unfold poll_heights. solve_timed. Qed.

Lemma heights_equal_spec counts :
  heights_equal counts = Val true → ∃ c, Forall (λ x, x = c) counts ∧ counts ≠ [].
Proof.
  destruct counts as [|c cs]; [done|]. unfold heights_equal. intros Hh.
  assert (forallb (Z.eqb c) (c :: cs) = true) as Hf%forallb_Forall by congruence.
  exists c. split; [|done]. eapply Forall_impl; [exact Hf|]. intros x Hx. simpl in Hx. b2p. lia.
Qed.

(** C4: [sync_sc_blocks] ends after at most one poll per second of its limit,
    whatever the nodes answer: it times out only when the limit has passed, and
    when it returns, at the last poll all nodes had reported the same height. *)
Theorem sync_sc_blocks_spec (fuel : nat) (nodes : list proxy) (wait_for : Z) (st : St W) :
  enough fuel wait_for →
  let res := sync_sc_blocks fuel nodes wait_for st in
  match res.1 with
  | Val _ => ∃ st' counts c, mmap node_height nodes st' = (Val counts, res.2)
               ∧ length counts = length nodes ∧ Forall (λ x, x = c) counts
  | Exc e => (e = TimeoutException "Syncing blocks" ∧ clk (world st) + wait_for ≤ clk (world res.2))
             ∨ ∃ st', poll_heights nodes st' = (Exc e, res.2)
  | NoFuel => False
  end.
Proof.
  intros Hf. pose proof (wait_from_now fuel wait_for "Syncing blocks" (poll_heights nodes) st
    (timed_poll_heights nodes) Hf) as Hw.
  change ((let! start := time_time in wait_loop fuel start wait_for "Syncing blocks" (poll_heights nodes)) st)
    with (sync_sc_blocks fuel nodes wait_for st) in Hw.
  destruct (sync_sc_blocks fuel nodes wait_for st) as [[[]|e|] st2]; simpl in *; [|done|done].
  destruct Hw as [st' Hp]. exists st'. unfold poll_heights, bind, lift in Hp.
  assert (∀ l s cs s', mmap node_height l s = (Val cs, s') → length cs = length l) as Hlen.
  { clear. induction l as [|x l IH]; intros s cs s' Hm; simpl in Hm; [by injection Hm as <- _|].
    unfold bind in Hm. destruct (node_height x s) as [[y|e|] s1]; try done.
    destruct (mmap node_height l s1) as [[ys|e|] s2] eqn:Hl; try done.
    injection Hm as <- _. simpl. f_equal. by eapply IH. }
  destruct (mmap node_height nodes st') as [[counts|e|] st3] eqn:Hm; try done.
  injection Hp as Hh ->. apply heights_equal_spec in Hh as (c & Hc & _).
  exists counts, c. split; [done|]. split; [by eapply Hlen|done].
Qed.

Definition poll_peer (node : proxy) (address : string) : MW bool :=
  let! peers := sc_connected_peers node in
  let% l := py_iter peers in
  lift (any_remote l address).

Lemma timed_poll_peer node a : timed (poll_peer node a).
Proof. unfold poll_peer, sc_connected_peers. solve_timed. Qed.


Definition poll_best (node : proxy) (expected_height : Z) : MW bool :=
  let! best := call node "block_best" [] in
  let% h := getpath best ["result"; "height"] in
  let% height := py_int h in
  ret (height >=? expected_height).

Lemma timed_poll_best node h : timed (poll_best node h).
Proof. unfold poll_best. solve_timed. Qed.

Lemma wait_for_next_sc_blocks_ends fuel node h wait_for st :
  enough fuel wait_for → ends (wait_for_next_sc_blocks fuel node h wait_for st).1.
Proof.
  intros Hf. pose proof (wait_from_now fuel wait_for "Waiting blocks" (poll_best node h) st
    (timed_poll_best node h) Hf) as Hw.
  change ((let! start := time_time in wait_loop fuel start wait_for "Waiting blocks" (poll_best node h)) st)
    with (wait_for_next_sc_blocks fuel node h wait_for st) in Hw.
  by destruct (wait_for_next_sc_blocks fuel node h wait_for st) as [[[]|e|] st2].
Qed.

(** ** Liveness

    On a host that is prompt (every call, clock reading and sleep takes at most
    [lag] longer than it has to), a loop whose condition holds from some
    moment on returns, provided that moment is one poll before the limit. *)

Class Prompt (lag : Z) : Prop := {
  prompt_pos : 0 ≤ lag;
  prompt_now : ∀ w, clk (clk_now w).2 ≤ clk w + lag;
  prompt_sleep : ∀ d w, 0 ≤ d → clk (clk_sleep d w) ≤ clk w + d + lag;
  prompt_call : ∀ p m a k w, clk (node_call p m a k w).2 ≤ clk w + lag
}.

(** A poll that takes at most [cost], never raises, and is true from [T] on. *)
Record settles (condition : MW bool) (cost T : Z) : Prop := {
  settles_timed : timed condition;
  settles_cost : ∀ st, clk (world (condition st).2) ≤ clk (world st) + cost;
  settles_val : ∀ st, ∃ b, (condition st).1 = Val b;
  settles_true : ∀ st, T ≤ clk (world st) → (condition st).1 = Val true
}.

Lemma time_time_prompt `{!Prompt lag} st : clk (world (time_time st).2) ≤ clk (world st) + lag.
Proof. unfold time_time. pose proof (prompt_now (world st)). by destruct (clk_now (world st)). Qed.

Lemma wait_loop_live `{!Prompt lag} fuel start wait_for op (condition : MW bool) cost T st :
  settles condition cost T → 0 ≤ cost → T + cost + WAIT_CONST + 2 * lag < start + wait_for →
  clk (world st) < start + wait_for →
  (0 < fuel)%nat → wait_for - (clk (world st) - start) ≤ (Z.of_nat fuel - 1) * WAIT_CONST →
  (wait_loop fuel start wait_for op condition st).1 = Val tt.
Proof.
  intros Hc Hcost Hlim. revert st. induction fuel as [|f IH]; intros st Hnow Hpos Hf; [lia|]. cbn [wait_loop].
  unfold bind at 1. pose proof (time_time_prompt st) as Hlag.
  destruct (time_time_val st) as (st1 & E & Hst1). rewrite E in Hlag |- *. cbn [snd] in Hlag. cbv iota beta.
  rewrite Z.geb_leb. destruct (Z.leb_spec wait_for (clk (world st) - start)) as [Hge|Hlt]; [lia|].
  unfold bind at 1. pose proof (settles_timed _ _ _ Hc st1) as [Hmono _]. pose proof (settles_cost _ _ _ Hc st1) as Hup.
  pose proof (settles_true _ _ _ Hc st1) as Htrue. destruct (settles_val _ _ _ Hc st1) as [b Hb].
  destruct (condition st1) as [o st2]. cbn [fst snd] in *. subst o. destruct b; [done|].
  assert (clk (world st1) < T) as Hbefore by (apply Z.nle_gt; intros HT; by specialize (Htrue HT)).
  unfold bind at 1. pose proof (sleep_clk WAIT_CONST st2 ltac:(done)) as Hs.
  pose proof (prompt_sleep WAIT_CONST (world st2) ltac:(done)) as Hs2.
  destruct (sleep WAIT_CONST st2) as [o st3] eqn:Hsl. injection Hsl as <- Hst3. simpl in Hs. subst st3. simpl in Hs.
  destruct f as [|f]; unfold WAIT_CONST, secs in *; [lia|]. apply IH; simpl; lia.
Qed.

(** The node's answers, by the time they are given. *)
Definition reports_heights (nodes : list proxy) (ht : proxy → Z → Z) : Prop :=
  ∀ x w, x ∈ nodes → (node_call x "block_currentHeight" [] [] w).1
    = inr (PDict [("result", PDict [("height", PInt (ht x (clk w)))])]).

Lemma node_height_reports nodes ht x st :
  reports_heights nodes ht → x ∈ nodes →
  ∃ st', node_height x st = (Val (ht x (clk (world st))), st') ∧ world st' = (node_call x "block_currentHeight" [] [] (world st)).2.
Proof.
  intros Hr Hx. specialize (Hr x (world st) Hx). unfold node_height, bind, call, call_kw.
  destruct (node_call x "block_currentHeight" [] [] (world st)) as [r w]. simpl in *. subst r. by eexists.
Qed.

Lemma mmap_heights `{!Prompt lag} nodes ht l st :
  reports_heights nodes ht → l ⊆ nodes →
  ∃ counts st', mmap node_height l st = (Val counts, st')
    ∧ length counts = length l
    ∧ clk (world st) ≤ clk (world st') ≤ clk (world st) + Z.of_nat (length l) * lag
    ∧ ∀ T h, T ≤ clk (world st) → (∀ x t, x ∈ l → T ≤ t → ht x t = h) → Forall (λ c, c = h) counts.
Proof.
  intros Hr. revert st. induction l as [|x l IH]; intros st Hl; simpl.
  { eexists [], st. split_and!; [done..|lia|lia|constructor]. }
  destruct (node_height_reports nodes ht x st Hr ltac:(set_solver)) as (st1 & E & Hw).
  pose proof (prompt_call x "block_currentHeight" [] [] (world st)) as Hup.
  pose proof (clk_call_mono x "block_currentHeight" [] [] (world st)) as Hmono. rewrite <- Hw in Hup, Hmono.
  destruct (IH st1 ltac:(set_solver)) as (counts & st2 & E2 & Hlen & Hclk & Hall).
  unfold bind at 1. rewrite E. unfold bind at 1. rewrite E2. eexists _, st2. split_and!; [done|simpl; lia|lia|lia|].
  intros T h HT Hh. constructor; [apply Hh; [set_solver|done]|].
  apply (Hall T h); [lia|]. intros y t Hy Ht. apply Hh; [set_solver|done].
Qed.

Lemma poll_heights_settles `{!Prompt lag} nodes ht T h :
  nodes ≠ [] → reports_heights nodes ht → (∀ x t, x ∈ nodes → T ≤ t → ht x t = h) →
  settles (poll_heights nodes) (Z.of_nat (length nodes) * lag) T.
Proof.
  intros Hne Hr Hh.
  assert (∀ st, ∃ b st', poll_heights nodes st = (Val b, st') ∧ clk (world st') ≤ clk (world st) + Z.of_nat (length nodes) * lag
    ∧ (T ≤ clk (world st) → b = true)) as Hp.
  { intros st. destruct (mmap_heights nodes ht nodes st Hr ltac:(done)) as (counts & st' & E & Hlen & Hclk & Hall).
    unfold poll_heights, bind. rewrite E. destruct counts as [|c cs]; [by destruct nodes|].
    exists (forallb (Z.eqb c) (c :: cs)), st'. split; [done|]. split; [lia|]. intros HT.
    specialize (Hall T h HT Hh). apply forallb_Forall. apply Forall_cons in Hall as [-> Hall].
    constructor; [apply Z.eqb_refl|]. eapply Forall_impl; [exact Hall|]. intros ? ->. apply Z.eqb_refl. }
  split; [apply timed_poll_heights|..]; intros st; destruct (Hp st) as (b & st' & -> & Hc & Ht); simpl; [done|by exists b|].
  intros HT. by rewrite (Ht HT).
Qed.

(** C5: synchronisation is reached: if the nodes report heights that are the same
    from a moment [T] on, and [T] lies at least one round of polling (a call to
    each node and the second between polls) before the limit, then
    [sync_sc_blocks] returns, on any prompt host. *)
Theorem sync_sc_blocks_live `{!Prompt lag} (fuel : nat) (nodes : list proxy) (ht : proxy → Z → Z) (wait_for T h : Z)
    (st : St W) :
  nodes ≠ [] → reports_heights nodes ht → (∀ x t, x ∈ nodes → T ≤ t → ht x t = h) →
  enough fuel wait_for → 0 < wait_for - lag →
  T + Z.of_nat (length nodes) * lag + WAIT_CONST + 2 * lag < clk (world st) + wait_for →
  (sync_sc_blocks fuel nodes wait_for st).1 = Val tt.
Proof.
  intros Hne Hr Hh [Hpos Hf] Hw HT. unfold sync_sc_blocks. unfold bind at 1.
  pose proof (time_time_prompt st) as Hlag. pose proof prompt_pos as Hl0.
  destruct (time_time_val st) as (st1 & E & Hst1). rewrite E in Hlag |- *. cbn [snd] in Hlag. cbv iota beta.
  eapply (wait_loop_live fuel _ _ _ (poll_heights nodes) _ T);
    [by eapply poll_heights_settles|nia|done|lia|done|lia].
Qed.
End Loops.

(** Two nodes that agree from the third poll on. *)
Definition catching_up : St sim :=
  init_st (sim_of (λ n p _ _, inr (PDict [("result", PDict [("height",
    PInt (if (n <? 4)%nat && String.eqb (px_url p) (px_url sc1) then 4 else 5))])]))).

Lemma sync_sc_blocks_spec_witness :
  let res := sync_sc_blocks 30 [sc0; sc1] (secs 25) catching_up in
  match res.1 with
  | Val _ => ∃ st' counts c, mmap node_height [sc0; sc1] st' = (Val counts, res.2)
               ∧ length counts = length [sc0; sc1] ∧ Forall (λ x, x = c) counts
  | Exc e => (e = TimeoutException "Syncing blocks"
              ∧ clk (world catching_up) + secs 25 ≤ clk (world res.2))
             ∨ ∃ st', poll_heights [sc0; sc1] st' = (Exc e, res.2)
  | NoFuel => False
  end.
Proof. apply sync_sc_blocks_spec. split; [lia|done]. Defined.

Definition never_connects : St sim :=
  init_st (sim_of (λ _ _ _ _, inr (PDict [("result", PDict [("peers", PList [])])]))).

Example connect_times_out :
  (connect_sc_nodes 30 sc0 1 (secs 25) never_connects).1
  = Exc (TimeoutException "Trying to connect to node1").
Proof. vm_compute. reflexivity. Qed.


(** A host that is only a clock, with two nodes: the second learns of the last
    block after three seconds. *)
Inductive clock_world := At (now : Z).
Definition now_of (w : clock_world) : Z := match w with At t => t end.
Definition height_at (p : proxy) (t : Z) : Z := if (t <? secs 3) && String.eqb (px_url p) (px_url sc1) then 4 else 5.

#[export] Instance clock_world_nodes : Nodes clock_world :=
  λ p _ _ _ w, (inr (PDict [("result", PDict [("height", PInt (height_at p (now_of w)))])]), w).
#[export] Instance clock_world_clock : Clock clock_world := {
  clk_now w := (now_of w, w);
  clk_sleep d w := At (now_of w + Z.max 0 d)
}.
#[export] Instance clock_world_laws : ClockLaws clock_world.
Proof. refine {| clk := now_of |}; abstract (intros; simpl; lia). Defined.
#[export] Instance clock_world_prompt : Prompt (W := clock_world) 0.
Proof. split; intros; simpl; lia. Qed.

Lemma sync_sc_blocks_live_witness :
  (sync_sc_blocks 30 [sc0; sc1] (secs 25) (init_st (At 0))).1 = Val tt.
Proof.
  apply (sync_sc_blocks_live (lag := 0) 30 [sc0; sc1] height_at (secs 25) (secs 3) 5 (init_st (At 0))).
  - done.
  - intros x w _. reflexivity.
  - intros x t _ Ht. unfold height_at. by rewrite (proj2 (Z.ltb_ge _ _) Ht).
  - split; [lia|done].
  - done.
  - done.
Defined.
