(* ===== verification/Forging.v ===== *)
(** * Forging sidechain blocks: scutil.py and sc_forging_util.py

    Consensus time is divided in epochs of [slots_in_epoch] slots, numbered
    from 1.  [generate_next_block] asks a node to forge in the slot after its
    best block and, while the node answers that no block was created there,
    moves slot by slot through at most one epoch.  The second half is the
    checks on mainchain references and ommers of sc_forging_util.py. *)

From S2P Require Import Prelude PyStr Numbers PyVal Host Sim Json Encoding HttpProxy BootInfo McUtil ScUtil.
From Stdlib Require Import Ascii String.
From stdpp Require Import base list.
Local Open Scope Z_scope.

(** An integer of a node's response. *)
Definition num_Z (v : pyval) : outcome Z :=
  match v with PInt z => Val z | PBool b => Val (int_of_bool b) | _ => Exc TypeError end.

Definition generate_forging_request (epoch slot : Z) (forced_tx : pyval) : outcome string :=
  dumps (PDict [("epochNumber", PInt epoch); ("slotNumber", PInt slot); ("transactionsBytes", forced_tx)]).

Definition get_next_epoch_slot (epoch slot slots_in_epoch : Z) (force_switch_to_next_epoch : bool) : Z * Z :=
  let next_slot := slot + 1 in
  let next_epoch := epoch in
  if (next_slot >? slots_in_epoch) || force_switch_to_next_epoch
  then (next_epoch + 1, 1)
  else (next_epoch, next_slot).

(** ["error" in forge_result and forge_result["error"]["code"] == "0105"] *)
Definition block_not_created (forge_result : pyval) : outcome bool :=
  obind (has_key "error" forge_result) (λ e,
  if e then obind (getpath forge_result ["error"; "code"]) (λ c, Val (py_eqb c (PStr "0105")))
  else Val false).

(** The error descriptions that stop the search, in the order they are tested,
    with the message of the assertion error and whether it repeats the description. *)
Definition fatal_errors : list (string * string * bool) :=
  [("no forging stake", "No forging stake for the epoch", false);
   ("ForgerStakes list can't be empty", "Empty forger stakes list", false);
   ("top quality certificate", "Inconsistent top quality certificate", false);
   ("the sidechain has ceased", "Sidechain has ceased", false);
   ("semantically invalid", "One transaction in the block is semantically invalid", false);
   ("CertificateKeyRotationTransaction", "CertificateKeyRotationTransaction error: ", true);
   ("We can not forge until we have at least a mc block reference",
    "No mc refs in a long row of blocks error: ", true)].

Fixpoint fatal_error (table : list (string * string * bool)) (description : pyval) : outcome unit :=
  match table with
  | [] => Val tt
  | (pattern, message, with_description) :: table' =>
      obind (py_in (PStr pattern) description) (λ b,
      if b then Exc (AssertionError (message +:+ if with_description then py_str description else ""))
      else fatal_error table' description)
  end.

Section Forging.
Context {W : Type} `{Nodes W, Clock W, Os W, Rng W}.
Local Abbreviation MW := (M W).

Definition block_generate (node : proxy) (epoch slot : Z) (forced_tx : pyval) : MW pyval :=
  let% request := generate_forging_request epoch slot forced_tx in
  call node "block_generate" [PStr request].

(** The [while] loop: [count_slot] is the counter of slots left, which the body
    decrements and tests against 0 before it tries the next slot. *)
Fixpoint forge_loop (count_slot : nat) (node : proxy) (epoch slot slots_in_epoch : Z)
    (forced_tx forge_result : pyval) : MW pyval :=
  let% again := block_not_created forge_result in
  if negb again then ret forge_result
  else
    let% description := getpath forge_result ["error"; "description"] in
    do% fatal_error fatal_errors description in
    match count_slot with
    | O | S O =>
        raise (AssertionError ("Could not generate any block in this epoch: " +:+ py_str description))
    | S n =>
        let '(epoch, slot) := get_next_epoch_slot epoch slot slots_in_epoch false in
        let! forge_result := block_generate node epoch slot forced_tx in
        forge_loop n node epoch slot slots_in_epoch forced_tx forge_result
    end.

Definition forging_info (node : proxy) : MW (Z * Z * Z) :=
  let! r := call node "block_forgingInfo" [] in
  let% info := getitem r "result" in
  let% slots := getitem info "consensusSlotsInEpoch" in
  let% slot := getitem info "bestBlockSlotNumber" in
  let% epoch := getitem info "bestBlockEpochNumber" in
  let% slots_in_epoch := num_Z slots in
  let% best_slot := num_Z slot in
  let% best_epoch := num_Z epoch in
  ret (slots_in_epoch, best_slot, best_epoch).

Definition generate_next_block (node : proxy) (node_name : string)
    (force_switch_to_next_epoch : bool) (forced_tx : pyval) : MW pyval :=
  let! '(slots_in_epoch, best_slot, best_epoch) := forging_info node in
  let '(next_epoch, next_slot) :=
    get_next_epoch_slot best_epoch best_slot slots_in_epoch force_switch_to_next_epoch in
  let! forge_result := block_generate node next_epoch next_slot forced_tx in
  let! forge_result := forge_loop (Z.to_nat slots_in_epoch) node next_epoch next_slot slots_in_epoch
                         forced_tx forge_result in
  let% ok := has_key "result" forge_result in
  do% assert_true ok ("Error during block generation for SC " +:+ node_name) in
  lift (getpath forge_result ["result"; "blockId"]).

Definition generate_next_blocks (node : proxy) (node_name : string) (blocks_count : Z) : MW (list pyval) :=
  mmap (λ _, generate_next_block node node_name false PNone) (zrange 0 blocks_count).

Definition try_to_generate_block_in_slot (node : proxy) (next_epoch next_slot : Z) : MW pyval :=
  block_generate node next_epoch next_slot PNone.

(** ["result" in res and "blockId" in res["result"]] *)
Definition forged_id (res : pyval) : outcome (option pyval) :=
  obind (has_key "result" res) (λ b,
  if b then
    obind (getitem res "result") (λ r,
    obind (has_key "blockId" r) (λ b,
    if b then obind (getitem r "blockId") (λ id, Val (Some id)) else Val None))
  else Val None).

Fixpoint try_slots (n : nat) (node : proxy) (epoch slot slots_in_epoch : Z) (add_empty_slots : bool)
    (block_ids : list pyval) : MW (list pyval) :=
  match n with
  | O => ret block_ids
  | S n' =>
      let! res := try_to_generate_block_in_slot node epoch slot in
      let% id := forged_id res in
      let block_ids := match id with
                       | Some id => block_ids ++ [id]
                       | None => if add_empty_slots then block_ids ++ [PStr ""] else block_ids
                       end in
      let '(epoch, slot) := get_next_epoch_slot epoch slot slots_in_epoch false in
      try_slots n' node epoch slot slots_in_epoch add_empty_slots block_ids
  end.

Definition try_to_generate_block_in_slots (node : proxy) (slot_count : Z) (add_empty_slots : bool)
    : MW (list pyval) :=
  let! '(slots_in_epoch, best_slot, best_epoch) := forging_info node in
  let '(next_epoch, next_slot) := get_next_epoch_slot best_epoch best_slot slots_in_epoch false in
  try_slots (Z.to_nat slot_count) node next_epoch next_slot slots_in_epoch add_empty_slots [].

(** ** sc_forging_util.py *)

Definition find_block (sc_node : proxy) (scblock_id : pyval) : MW pyval :=
  let! res := call_kw sc_node "block_findById" [] [("blockId", scblock_id)] in
  lift (getpath res ["result"; "block"]).

Definition check_scparent (parent_scblock_id scblock_id : pyval) (sc_node : proxy) : MW unit :=
  let! block := find_block sc_node scblock_id in
  let% parent := getpath block ["header"; "parentId"] in
  lift (assert_equal parent_scblock_id parent ("SC Block " +:+ py_str scblock_id +:+ " parent id is different.")).

(** [for x in l: if x[field] == hash: return] then [fail(message)] *)
Fixpoint find_hash (l : list pyval) (field : string) (hash : pyval) (message : string) : outcome unit :=
  match l with
  | [] => fail message
  | x :: l' =>
      obind (getitem x field) (λ h,
      if py_eqb h hash then Val tt else find_hash l' field hash message)
  end.

Definition check_mcheader_presence (mcblock_hash scblock_id : pyval) (sc_node : proxy) : MW unit :=
  let! block := find_block sc_node scblock_id in
  let% headers := getitem block "mainchainHeaders" in
  let% l := py_iter headers in
  lift (find_hash l "hash" mcblock_hash ("MC hash " +:+ py_str mcblock_hash +:+ " was not found in SC Block "
          +:+ py_str scblock_id +:+ " mainchain headers.")).

Definition check_mcreferencedata_presence (mcblock_hash scblock_id : pyval) (sc_node : proxy) : MW unit :=
  let! block := find_block sc_node scblock_id in
  let% refs := getitem block "mainchainBlockReferencesData" in
  let% l := py_iter refs in
  lift (find_hash l "headerHash" mcblock_hash ("MC hash " +:+ py_str mcblock_hash
          +:+ " was not found in SC Block " +:+ py_str scblock_id +:+ " mainchain reference data.")).

Definition check_mcreference_presence (mcblock_hash scblock_id : pyval) (sc_node : proxy) : MW unit :=
  do! check_mcheader_presence mcblock_hash scblock_id sc_node in
  check_mcreferencedata_presence mcblock_hash scblock_id sc_node.

(** [assert_equal(amount, len(block[field]), ...)] *)
Definition check_amount (field what : string) (amount : Z) (scblock_id : pyval) (sc_node : proxy) : MW unit :=
  let! block := find_block sc_node scblock_id in
  let% l := getitem block field in
  let% n := py_len l in
  lift (assert_equal (PInt amount) (PInt n)
    ("SC Block " +:+ py_str scblock_id +:+ " " +:+ what +:+ " amount is different")).

Definition check_mcheaders_amount := check_amount "mainchainHeaders" "mainchain headers".
Definition check_mcreferencedata_amount := check_amount "mainchainBlockReferencesData" "mainchain ref data".
Definition check_ommers_amount := check_amount "ommers" "ommers".

Definition check_ommers_cumulative_score (score scblock_id : pyval) (sc_node : proxy) : MW unit :=
  let! block := find_block sc_node scblock_id in
  let% actual := getpath block ["header"; "ommersCumulativeScore"] in
  lift (assert_equal score actual ("SC Block " +:+ py_str scblock_id +:+ " ommers cumulative score is different")).

(** The headers of an (sub)ommer: [Val true] is the function's return; a first
    header that is not expected fails, and no header leaves the loop going. *)
Definition ommer_headers (headers : pyval) (expected : list pyval) (what : string) (id : pyval)
    : outcome bool :=
  match expected with
  | [] => Val true
  | _ =>
      obind (py_iter headers) (λ l,
      match l with
      | [] => Val false
      | header :: _ =>
          obind (getitem header "hash") (λ h,
          if list_mem h expected then Val true
          else Exc (AssertionError ("MC hash " +:+ py_str h +:+ " was not found in " +:+ what +:+ " "
                      +:+ py_str id +:+ " mainchain headers.")))
      end)
  end.

Fixpoint check_ommer_loop (ommers : list pyval) (ommer_scblock_id : pyval) (hashes : list pyval)
    (scblock_id : pyval) : outcome unit :=
  match ommers with
  | [] => fail ("Ommer id " +:+ py_str ommer_scblock_id +:+ " was not found in SC Block "
                +:+ py_str scblock_id +:+ " ommers.")
  | ommer :: ommers' =>
      obind (getpath ommer ["header"; "id"]) (λ id,
      if py_eqb id ommer_scblock_id then
        obind (getitem ommer "mainchainHeaders") (λ headers,
        obind (ommer_headers headers hashes "Ommer" ommer_scblock_id) (λ stop,
        if stop then Val tt else check_ommer_loop ommers' ommer_scblock_id hashes scblock_id))
      else check_ommer_loop ommers' ommer_scblock_id hashes scblock_id)
  end.

Definition check_ommer (ommer_scblock_id : pyval) (ommer_mcheaders_hashes : list pyval)
    (scblock_id : pyval) (sc_node : proxy) : MW unit :=
  let! block := find_block sc_node scblock_id in
  let% ommers := getitem block "ommers" in
  let% l := py_iter ommers in
  lift (check_ommer_loop l ommer_scblock_id ommer_mcheaders_hashes scblock_id).

(** The inner loop; after it the source formats a message whose format string
    is malformed, which is a [ValueError]. *)
Fixpoint subommer_loop (subommers : list pyval) (subommer_scblock_id : pyval) (hashes : list pyval)
    : outcome unit :=
  match subommers with
  | [] => Exc (ValueError "unexpected '{' in field name")
  | subommer :: subommers' =>
      obind (getpath subommer ["header"; "id"]) (λ id,
      if py_eqb id subommer_scblock_id then
        obind (getitem subommer "mainchainHeaders") (λ headers,
        obind (ommer_headers headers hashes "Subommer" subommer_scblock_id) (λ stop,
        if stop then Val tt else subommer_loop subommers' subommer_scblock_id hashes))
      else subommer_loop subommers' subommer_scblock_id hashes)
  end.

Fixpoint check_subommer_loop (ommers : list pyval) (ommer_scblock_id subommer_scblock_id : pyval)
    (hashes : list pyval) (scblock_id : pyval) : outcome unit :=
  match ommers with
  | [] => fail ("Ommer id " +:+ py_str ommer_scblock_id +:+ " was not found in SC Block "
                +:+ py_str scblock_id +:+ " ommers.")
  | ommer :: ommers' =>
      obind (getpath ommer ["header"; "id"]) (λ id,
      if py_eqb id ommer_scblock_id then
        obind (getitem ommer "ommers") (λ subommers,
        obind (py_iter subommers) (λ l, subommer_loop l subommer_scblock_id hashes))
      else check_subommer_loop ommers' ommer_scblock_id subommer_scblock_id hashes scblock_id)
  end.

Definition check_subommer (ommer_scblock_id subommer_scblock_id : pyval)
    (subommer_mcheader_hashes : list pyval) (scblock_id : pyval) (sc_node : proxy) : MW unit :=
  let! block := find_block sc_node scblock_id in
  let% ommers := getitem block "ommers" in
  let% l := py_iter ommers in
  lift (check_subommer_loop l ommer_scblock_id subommer_scblock_id subommer_mcheader_hashes scblock_id).

(** [proxy.method()["result"]["proposition"]["publicKey"]] *)
Definition new_public_key (sc_node : proxy) (method : string) : MW pyval :=
  let! r := call sc_node method [] in
  lift (getpath r ["result"; "proposition"; "publicKey"]).

(** ["text" + v] of a log message *)
Definition log_concat (v : pyval) : outcome unit :=
  obind (py_add (PStr "") v) (λ _, Val tt).

Definition mc_make_forward_transfer (mc_node sc_node : proxy) (sc_id ft_zen_amount mc_return_address : pyval)
    : MW pyval :=
  let! sc_address := new_public_key sc_node "wallet_createPrivateKey25519" in
  let! info := call mc_node "getmempoolinfo" [] in
  let% mc_mempool_size := getitem info "size" in
  let ft_args := PList [PDict [("toaddress", sc_address); ("amount", ft_zen_amount); ("scid", sc_id);
                               ("mcReturnAddress", mc_return_address)]] in
  let! mc_tx_id := call mc_node "sc_send" [ft_args] in
  do% log_concat mc_tx_id in
  let% expected := py_add mc_mempool_size (PInt 1) in
  let! info := call mc_node "getmempoolinfo" [] in
  let% size := getitem info "size" in
  do% assert_equal expected size "Forward Transfer expected to be added to mempool." in
  let! generated := call mc_node "generate" [PInt 1] in
  let% mc_block_hash := getindex generated 0 in
  do% log_concat mc_block_hash in
  ret mc_block_hash.

(** A response without a result fails with its text; one with a result is logged. *)
Definition require_result (res : pyval) (message : string) : MW unit :=
  let% ok := has_key "result" res in
  let% text := dumps res in
  if ok then ret tt else lift (fail (message +:+ text)).

Definition sc_create_forging_stake_mempool (sc_node : proxy) (stake_zen_amount : pyval) : MW unit :=
  let! sc_address := new_public_key sc_node "wallet_createPrivateKey25519" in
  let! sc_vrf_address := new_public_key sc_node "wallet_createVrfSecret" in
  let% value := py_mul stake_zen_amount (PInt 100000000) in
  let% request := dumps (PDict [("outputs", PList [PDict [
    ("publicKey", sc_address); ("blockSignPublicKey", sc_address); ("vrfPubKey", sc_vrf_address);
    ("value", value)]])]) in
  let! res := call sc_node "transaction_makeForgerStake" [PStr request] in
  require_result res "Forger stake creation failed: ".

Definition sc_make_withdrawal_request_mempool (mc_node sc_node : proxy) (bt_zen_amount : pyval) : MW unit :=
  let! mc_address := call mc_node "getnewaddress" [] in
  let% value := py_mul bt_zen_amount (PInt 100000000) in
  let% request := dumps (PDict [("outputs", PList [PDict [
    ("mainchainAddress", mc_address); ("value", value)]])]) in
  let! res := call sc_node "transaction_withdrawCoins" [PStr request] in
  require_result res "Withdraw coins failed: ".
End Forging.
