(* ===== verification/ForgingProps.v ===== *)
(** * Properties of forging

    Slots are ordered by their absolute number: slot [s] of epoch [e] is number
    [e * slots_in_epoch + s - 1].  The theorems say which slots a call tries,
    in which order, and where its result comes from.  A second part is about the checks of
    the chain and of wallets. *)

From S2P Require Import Prelude PyStr Numbers PyVal Host Sim Json Encoding HttpProxy BootInfo McUtil ScUtil.
From S2P Require Import ScLoops Forging.
From Stdlib Require Import Ascii String.
From stdpp Require Import base list.
Local Open Scope Z_scope.

Definition abs_slot (slots epoch slot : Z) : Z := epoch * slots + (slot - 1).
Definition slot_at (slots a : Z) : Z * Z := (a / slots, a mod slots + 1).
Definition slot_ok (slots slot : Z) : Prop := 1 <= slot <= slots.

Lemma slot_at_abs slots epoch slot : slot_ok slots slot → slot_at slots (abs_slot slots epoch slot) = (epoch, slot).
Proof.
  intros Hs. unfold slot_ok, slot_at, abs_slot in *. f_equal.
  - symmetry. apply Z.div_unique with (slot - 1); lia.
  - rewrite <- (Z.mod_unique (epoch * slots + (slot - 1)) slots epoch (slot - 1)); lia.
Qed.

Lemma slot_at_ok slots a : 0 < slots → slot_ok slots (slot_at slots a).2.
Proof. intros Hs. unfold slot_ok. simpl. pose proof (Z.mod_pos_bound a slots Hs). lia. Qed.

Lemma next_slot_abs slots epoch slot :
  slot_ok slots slot →
  get_next_epoch_slot epoch slot slots false = slot_at slots (abs_slot slots epoch slot + 1).
Proof.
  intros Hs. unfold get_next_epoch_slot, slot_ok in *. rewrite orb_false_r, Z.gtb_ltb.
  destruct (Z.ltb_spec slots (slot + 1)).
  - assert (slot = slots) as -> by lia. symmetry.
    replace (abs_slot slots epoch slots + 1) with (abs_slot slots (epoch + 1) 1) by (unfold abs_slot; lia).
    apply slot_at_abs. unfold slot_ok. lia.
  - symmetry. replace (abs_slot slots epoch slot + 1) with (abs_slot slots epoch (slot + 1)) by (unfold abs_slot; lia).
    apply slot_at_abs. unfold slot_ok. lia.
Qed.

Lemma next_slot_at slots a :
  0 < slots →
  get_next_epoch_slot (slot_at slots a).1 (slot_at slots a).2 slots false = slot_at slots (a + 1).
Proof.
  intros Hs. rewrite next_slot_abs by (by apply slot_at_ok). f_equal.
  unfold abs_slot, slot_at. simpl. pose proof (Z.div_mod a slots ltac:(lia)). lia.
Qed.

(** On a valid slot, [get_next_epoch_slot] gives the slot whose absolute
    number is one higher, crossing into slot 1 of the next epoch exactly after
    the last slot; when forced it gives the first slot of the next epoch; in
    both cases the result is again a valid slot, later than the argument. *)
Theorem get_next_epoch_slot_spec (slots epoch slot : Z) (force : bool) :
  slot_ok slots slot →
  let '(epoch', slot') := get_next_epoch_slot epoch slot slots force in
  slot_ok slots slot'
  ∧ abs_slot slots epoch slot < abs_slot slots epoch' slot'
  ∧ (force = false → abs_slot slots epoch' slot' = abs_slot slots epoch slot + 1)
  ∧ (force = true → (epoch', slot') = (epoch + 1, 1)).
Proof.
  intros Hs. unfold slot_ok, abs_slot, get_next_epoch_slot in *. rewrite Z.gtb_ltb.
  destruct force; rewrite ?orb_true_r, ?orb_false_r.
  - repeat split; try done; lia.
  - destruct (Z.ltb_spec slots (slot + 1)); repeat split; try done; try lia; intros _; lia.
Qed.

Lemma get_next_epoch_slot_spec_witness :
  let '(epoch', slot') := get_next_epoch_slot 3 720 720 false in
  slot_ok 720 slot'
  ∧ abs_slot 720 3 720 < abs_slot 720 epoch' slot'
  ∧ (false = false → abs_slot 720 epoch' slot' = abs_slot 720 3 720 + 1)
  ∧ (false = true → (epoch', slot') = (3 + 1, 1)).
Proof. apply (get_next_epoch_slot_spec 720 3 720 false). split; done. Defined.

Section Forge.
Context {W : Type} `{Nodes W, Clock W, Os W, Rng W}.
Local Abbreviation MW := (M W).
Implicit Types st : St W.

(** The request for a slot. *)
Definition slot_call (node : proxy) (slots : Z) (forced_tx : pyval) (a : Z) : event :=
  let '(epoch, slot) := slot_at slots a in
  ECall node "block_generate"
    [PStr (render (PDict [("epochNumber", PInt epoch); ("slotNumber", PInt slot);
                          ("transactionsBytes", forced_tx)]))] [].

Lemma trace_call p m args st : trace (call p m args st).2 = trace st ++ [ECall p m args []].
Proof. unfold call, call_kw. by destruct (node_call p m args [] (world st)). Qed.

Lemma trace_block_generate node slots forced_tx a st :
  json_ok forced_tx = true →
  trace (block_generate node (slot_at slots a).1 (slot_at slots a).2 forced_tx st).2
  = trace st ++ [slot_call node slots forced_tx a].
Proof.
  intros Ht. unfold block_generate, bind, lift, generate_forging_request, dumps.
  rewrite dumps_render by (simpl; by rewrite Ht). apply trace_call.
Qed.

(** A response that ends the search with a block id. *)
Definition accepted (r id : pyval) : Prop :=
  block_not_created r = Val false ∧ has_key "result" r = Val true ∧ getpath r ["result"; "blockId"] = Val id.

#[local] Arguments fatal_error : simpl never.

Lemma ends_py_in k v : ends (py_in k v).
Proof. by destruct v, k. Qed.

Lemma ends_fatal_error t d : ends (fatal_error t d).
Proof.
  induction t as [|[[p m] b] t IH]; [done|]. cbn [fatal_error].
  apply ends_bind; [apply ends_py_in|]. by intros [].
Qed.

Lemma ends_block_not_created r : ends (block_not_created r).
Proof.
  apply ends_bind; [apply ends_py_in|]. intros []; [|done].
  apply ends_bind; [apply ends_getpath|done].
Qed.

Lemma ends_block_generate node e s f st : ends (block_generate node e s f st).1.
Proof.
  unfold block_generate, bind, lift, call, call_kw.
  destruct (generate_forging_request e s f) as [q|ex|] eqn:Hq; simpl; try done.
  - by destruct (node_call node "block_generate" [PStr q] [] (world st)) as [[ex|v] w].
  - exfalso. revert Hq. apply ends_dumps.
Qed.

(** One turn of the loop: it ends without a further call, with the response it
    was given or an exception, or it goes on to the next slot. *)
Lemma forge_loop_step n node e s slots forced_tx r st :
  (∃ o, forge_loop n node e s slots forced_tx r st = (o, st)
        ∧ ends o ∧ ∀ r', o = Val r' → r' = r ∧ block_not_created r = Val false)
  ∨ (∃ n', n = S (S n') ∧ forge_loop n node e s slots forced_tx r st =
       (let '(e', s') := get_next_epoch_slot e s slots false in
        let! r2 := block_generate node e' s' forced_tx in
        forge_loop (S n') node e' s' slots forced_tx r2) st).
Proof.
  pose proof (ends_block_not_created r) as He1. pose proof (ends_getpath r ["error"; "description"]) as He2.
  pose proof (ends_fatal_error fatal_errors) as He3. unfold ends in *.
  destruct n as [|[|n]]; cbn [forge_loop]; unfold bind at 1, lift at 1;
    (destruct (block_not_created r) as [[]|ex|] eqn:Hb; simpl negb; cbv iota;
     [|left; eexists; split; [done|]; split; [congruence|naive_solver]..]);
    unfold bind at 1, lift at 1;
    (destruct (getpath r ["error"; "description"]) as [d|ex|] eqn:Hd;
     [|left; eexists; split; [done|]; split; [congruence|naive_solver]..]);
    unfold bind at 1, lift at 1;
    (destruct (fatal_error fatal_errors d) as [[]|ex|] eqn:Hf;
     [|left; eexists; split; [done|]; split; [congruence|naive_solver]|exfalso; by apply (He3 d)]).
  - left. eexists. split; [done|]. split; [done|naive_solver].
  - left. eexists. split; [done|]. split; [done|naive_solver].
  - right. exists n. split; [done|]. destruct (get_next_epoch_slot e s slots false).
    unfold bind at 1 2 3, lift at 1 2 3. cbn [negb]. by rewrite Hf.
Qed.

(** The loop started with a response for slot number [a] tries [a+1], [a+2],
    ... in order, fewer than [n] of them, and ends with the response to the
    last request. *)
Lemma forge_loop_spec n node slots forced_tx a r st :
  0 < slots → json_ok forced_tx = true →
  let res := forge_loop n node (slot_at slots a).1 (slot_at slots a).2 slots forced_tx r st in
  ∃ m, (m <= pred n)%nat
    ∧ trace res.2 = trace st ++ map (λ k, slot_call node slots forced_tx (a + 1 + Z.of_nat k)) (seq 0 m)
    ∧ match res.1 with
      | Val r' => block_not_created r' = Val false
          ∧ ((m = 0%nat ∧ r' = r ∧ res.2 = st)
             ∨ ∃ st', block_generate node (slot_at slots (a + Z.of_nat m)).1
                        (slot_at slots (a + Z.of_nat m)).2 forced_tx st' = (Val r', res.2))
      | Exc _ => True
      | NoFuel => False
      end.
Proof.
  intros Hs Ht. revert a r st. induction n as [n IH] using lt_wf_ind; intros a r st; cbv zeta.
  destruct (forge_loop_step n node (slot_at slots a).1 (slot_at slots a).2 slots forced_tx r st)
    as [(o & -> & Hends & Ho)|(n' & -> & ->)].
  { exists 0%nat. simpl. rewrite app_nil_r. split; [lia|]. split; [done|].
    destruct o as [r'|ex|]; try done. destruct (Ho r' eq_refl) as [-> Hb]. auto. }
  rewrite next_slot_at by done. destruct (slot_at slots (a + 1)) as [e2 s2] eqn:Hsl.
  unfold bind. pose proof (trace_block_generate node slots forced_tx (a + 1) st Ht) as Htr.
  rewrite Hsl in Htr. cbn [fst snd] in Htr.
  destruct (block_generate node e2 s2 forced_tx st) as [[r2|ex|] st2] eqn:Hbg; cbn [snd] in Htr.
  2: exists 1%nat; simpl; rewrite Z.add_0_r; split; [lia|done].
  2: exfalso; pose proof (ends_block_generate node e2 s2 forced_tx st) as Hg; by rewrite Hbg in Hg.
  destruct (IH (S n') ltac:(lia) (a + 1) r2 st2) as (m & Hm & Htrace & Hres).
  rewrite Hsl in Htrace, Hres. cbn [fst snd] in *.
  exists (S m). split; [simpl in *; lia|]. split.
  { etransitivity; [exact Htrace|]. rewrite Htr, <- app_assoc. cbn [seq map]. rewrite Z.add_0_r.
    f_equal. simpl. f_equal. rewrite <- seq_shift, map_map. apply map_ext. intros k. f_equal. lia. }
  destruct (forge_loop (S n') node e2 s2 slots forced_tx r2 st2) as [[r'|ex|] st3]; cbn [fst snd] in *; try done.
  destruct Hres as [Hok [(-> & -> & ->)|[st' Hst']]]; (split; [done|]); right.
  - exists st. change (a + Z.of_nat 1) with (a + 1). by rewrite Hsl.
  - exists st'. replace (a + Z.of_nat (S m)) with (a + 1 + Z.of_nat m) by lia. done.
Qed.

(** The first slot a call tries. *)
Definition first_slot (slots epoch slot : Z) (force : bool) : Z :=
  if force then (epoch + 1) * slots else abs_slot slots epoch slot + 1.

Lemma get_next_first slots epoch slot force :
  slot_ok slots slot →
  get_next_epoch_slot epoch slot slots force = slot_at slots (first_slot slots epoch slot force).
Proof.
  intros Hs. unfold first_slot. destruct force; [|by apply next_slot_abs].
  replace ((epoch + 1) * slots) with (abs_slot slots (epoch + 1) 1) by (unfold abs_slot; lia).
  rewrite slot_at_abs by (unfold slot_ok in *; lia).
  unfold get_next_epoch_slot. by rewrite orb_true_r.
Qed.

Definition forging_reply (slots slot epoch : Z) : pyval :=
  PDict [("result", PDict [("consensusSlotsInEpoch", PInt slots); ("bestBlockSlotNumber", PInt slot);
                           ("bestBlockEpochNumber", PInt epoch)])].

(** What [generate_next_block] does with the last response. *)
Definition accept_result (name : string) (r : pyval) : MW pyval :=
  let% ok := has_key "result" r in
  do% assert_true ok ("Error during block generation for SC " +:+ name) in
  lift (getpath r ["result"; "blockId"]).

Lemma accept_result_spec name r st :
  (accept_result name r st).2 = st
  ∧ match (accept_result name r st).1 with
    | Val id => has_key "result" r = Val true ∧ getpath r ["result"; "blockId"] = Val id
    | Exc _ => True
    | NoFuel => False
    end.
Proof.
  unfold accept_result, bind, lift. pose proof (ends_py_in (PStr "result") r) as He.
  pose proof (ends_getpath r ["result"; "blockId"]) as Hg. fold (has_key "result" r) in He.
  destruct (has_key "result" r) as [[]|ex|] eqn:Hk; simpl; try done.
  by destruct (getpath r ["result"; "blockId"]).
Qed.

End Forge.

(** A node that forges in the third slot it is asked for. *)
Definition third_slot : St sim :=
  init_st (sim_of (λ n _ m _,
    if String.eqb m "block_forgingInfo" then inr (forging_reply 720 720 3)
    else if (n <? 3)%nat
         then inr (PDict [("error", PDict [("code", PStr "0105"); ("description", PStr "skip slot")])])
         else inr (PDict [("result", PDict [("blockId", PStr "b1")])]))).

Example third_slot_run : (generate_next_block sc0 "node 0" false PNone third_slot).1 = Val (PStr "b1").
Proof. vm_compute. reflexivity. Qed.


(** * Properties of the chain and wallet checks

    Withdrawal epochs, coinbase addresses, ceased-sidechain withdrawals, box
    balances, and the runs of slots: what the helpers of util.py, scutil.py
    and sc_forging_util.py conclude from the nodes' replies. *)

(** ** Withdrawal epochs *)

(** The number of the last epoch of length [len] that is complete at height
    [current] on a sidechain created at height [created], and the height of
    the last block of an epoch. *)
Definition last_epoch (current created len : Z) : Z := (current - created + 1) / len - 1.
Definition epoch_last_height (created len epoch : Z) : Z := created - 1 + (epoch + 1) * len.

Lemma py_floordiv_int x y : y ≠ 0 → py_floordiv (PInt x) (PInt y) = Val (PInt (x / y)).
Proof. intros Hy. unfold py_floordiv, as_int. by rewrite (proj2 (Z.eqb_neq y 0) Hy). Qed.

Lemma last_epoch_end_ints (current created len : Z) :
  len ≠ 0 →
  last_epoch_end (PInt current) (PInt created) (PInt len)
  = Val (PInt (last_epoch current created len),
         PInt (epoch_last_height created len (last_epoch current created len))).
Proof.
  intros Hl. unfold last_epoch_end.
  change (py_sub (PInt current) (PInt created)) with (Val (PInt (current - created))). cbn [obind].
  change (py_add (PInt (current - created)) (PInt 1)) with (Val (PInt (current - created + 1))). cbn [obind].
  by rewrite py_floordiv_int.
Qed.

Lemma last_epoch_bounds (current created len : Z) :
  0 < len →
  let e := last_epoch current created len in
  epoch_last_height created len e <= current < epoch_last_height created len (e + 1).
Proof.
  intros Hl. unfold last_epoch, epoch_last_height.
  pose proof (Z.div_mod (current - created + 1) len ltac:(lia)).
  pose proof (Z.mod_pos_bound (current - created + 1) len Hl). simpl. nia.
Qed.

Section Epochs.
Context {W : Type} `{Nodes W, Clock W, Os W, Rng W}.
Implicit Types st : St W.

Definition sc_items (fields : list (string * pyval)) : pyval := PDict [("items", PList [PDict fields])].

(** The certificate hash a ceasing sidechain's info holds. *)
Definition last_certificate (fields : list (string * pyval)) : pyval :=
  match dict_get "lastCertificateDataHash" fields with
  | Some c => if py_eqb c (PStr "") then PHANTOM_PREV_CERT_HASH else c
  | None => PHANTOM_PREV_CERT_HASH
  end.

(** The state after the four calls both functions make. *)
Definition epoch_calls (node : proxy) (scid hash : pyval) (h : Z) (st : St W) (w : W) : St W :=
  mkSt w (trace st ++ [ECall node "getscinfo" [scid] []; ECall node "getblockcount" [] [];
                       ECall node "getblockhash" [PInt h] []; ECall node "getblock" [hash] []])
    (heap st) (glob st).

(** The replies on a sidechain with the given info, created at [created], when
    the mainchain is at [current]. *)
Definition epoch_replies (node : proxy) (scid hash cum : pyval) (fields : list (string * pyval))
    (created current len : Z) (w0 w1 w2 w3 w4 : W) : Prop :=
  node_call node "getscinfo" [scid] [] w0 = (inr (sc_items fields), w1)
  ∧ node_call node "getblockcount" [] [] w1 = (inr (PInt current), w2)
  ∧ node_call node "getblockhash" [PInt (epoch_last_height created len (last_epoch current created len))] [] w2
    = (inr hash, w3)
  ∧ node_call node "getblock" [hash] [] w3 = (inr (PDict [("scCumTreeHash", cum)]), w4).

Lemma getitem_field fields k v : dict_get k fields = Some v → getitem (PDict fields) k = Val v.
Proof. intros E. unfold getitem. by rewrite E. Qed.

Lemma nonempty_field_spec fields :
  obind (nonempty_field (PDict fields) "lastCertificateDataHash") (λ o, Val (default PHANTOM_PREV_CERT_HASH o))
  = Val (last_certificate fields).
Proof.
  unfold nonempty_field, last_certificate, has_key, py_in, getitem, dict_mem, py_neqb. simpl.
  destruct (dict_get "lastCertificateDataHash" fields) as [c|]; simpl; [|done].
  by destruct (py_eqb c (PStr "")).
Qed.

Lemma get_epoch_data_run (scid : pyval) (node : proxy) (created current len : Z) (state : string)
    (fields : list (string * pyval)) (hash cum : pyval) (st : St W) (w1 w2 w3 w4 : W) :
  0 < len → state ≠ "UNCONFIRMED" →
  dict_get "state" fields = Some (PStr state) → dict_get "createdAtBlockHeight" fields = Some (PInt created) →
  epoch_replies node scid hash cum fields created current len (world st) w1 w2 w3 w4 →
  let e := last_epoch current created len in
  get_epoch_data scid node (PInt len) false PNone st
  = (Val (PInt e, cum, last_certificate fields),
     epoch_calls node scid hash (epoch_last_height created len e) st w4).
Proof.
  intros Hl Hs Fs Fc (C1 & C2 & C3 & C4) e. unfold get_epoch_data. call_step C1. do 2 pure_step.
  rewrite (bind_lift_run _ _ _ _ (getitem_field _ _ _ Fs)).
  change (py_eqb (PStr state) (PStr "UNCONFIRMED")) with (String.eqb state "UNCONFIRMED").
  rewrite (proj2 (String.eqb_neq _ _) Hs). rewrite (bind_lift_run _ _ _ _ (getitem_field _ _ _ Fc)).
  call_step C2. rewrite (bind_lift_run _ _ _ _ (last_epoch_end_ints current created len ltac:(lia))).
  call_step C3. call_step C4. pure_step. pose proof (nonempty_field_spec fields) as E.
  destruct (nonempty_field (PDict fields) "lastCertificateDataHash") as [o|?|]; simpl in E; [|done..].
  rewrite (bind_lift_run _ o) by done. injection E as <-. unfold epoch_calls, ret, log_event, set_world. simpl.
  by rewrite <- !app_assoc.
Qed.

Lemma get_scinfo_data_run (scid : pyval) (node : proxy) (created current len : Z)
    (fields : list (string * pyval)) (ver const data hash cum : pyval) (st : St W) (w1 w2 w3 w4 : W) :
  0 < len → dict_get "createdAtBlockHeight" fields = Some (PInt created) →
  dict_get "version" fields = Some ver → dict_get "constant" fields = Some const →
  dict_get "customData" fields = Some data → dict_get "withdrawalEpochLength" fields = Some (PInt len) →
  epoch_replies node scid hash cum fields created current len (world st) w1 w2 w3 w4 →
  let e := last_epoch current created len in
  get_scinfo_data scid node st
  = (Val (PInt e, cum, ver, const, data), epoch_calls node scid hash (epoch_last_height created len e) st w4).
Proof.
  intros Hl Fc Fv Fk Fd Fl (C1 & C2 & C3 & C4) e. unfold get_scinfo_data. call_step C1. do 2 pure_step.
  rewrite (bind_lift_run _ _ _ _ (getitem_field _ _ _ Fc)), (bind_lift_run _ _ _ _ (getitem_field _ _ _ Fv)),
    (bind_lift_run _ _ _ _ (getitem_field _ _ _ Fk)), (bind_lift_run _ _ _ _ (getitem_field _ _ _ Fd)),
    (bind_lift_run _ _ _ _ (getitem_field _ _ _ Fl)).
  call_step C2. rewrite (bind_lift_run _ _ _ _ (last_epoch_end_ints current created len ltac:(lia))).
  call_step C3. call_step C4. pure_step. unfold epoch_calls, ret, log_event, set_world. simpl. by rewrite <- !app_assoc.
Qed.

End Epochs.

(** A sidechain created at height 420 with epochs of 10 blocks, at height 445. *)
Definition epoch_fields : list (string * pyval) :=
  [("state", PStr "ALIVE"); ("createdAtBlockHeight", PInt 420); ("version", PInt 1); ("constant", PStr "c");
   ("customData", PStr "d"); ("withdrawalEpochLength", PInt 10); ("lastCertificateDataHash", PStr "ff")].
Definition epoch_sim : St sim :=
  init_st (sim_of (λ _ _ m _,
    if String.eqb m "getscinfo" then inr (sc_items epoch_fields)
    else if String.eqb m "getblockcount" then inr (PInt 445)
    else if String.eqb m "getblockhash" then inr (PStr "h")
    else inr (PDict [("scCumTreeHash", PStr "cum")]))).


(** ** Authentication *)

(** The token of [basic_auth] is the base-64 form of the user's name, a
    colon and the password in UTF-8: decoding it gives exactly these bytes
    back, so for a name without a colon the server reads the pair sent. *)
Theorem basic_auth_decodes (username password : string) :
  ∃ token, basic_auth username password = "Basic " +:+ token
    ∧ b64decode token = utf8 (username +:+ ":" +:+ password).
Proof. eexists. split; [done|apply b64_roundtrip]. Qed.

(** ** Ceased-sidechain withdrawals *)

Section Csw.
Context {W : Type} `{Nodes W, Clock W, Os W, Rng W}.

Definition csw_reply (status : string) : pyval :=
  PDict [("result", PDict [("cswInfo", PDict [("proofInfo", PDict [("status", PStr status)])])])].

Definition csw_request (id : pyval) : string := render (PDict [("boxId", id)]).

Definition csw_done (allow_absent : bool) (status : string) : bool :=
  String.eqb status "Generated" || (String.eqb status "Absent" && allow_absent).

(** The nodes' answers for the boxes, asked one after the other. *)
Inductive csw_statuses (node : proxy) : W → list pyval → list string → Prop :=
| csw_none w : csw_statuses node w [] []
| csw_some w id ids status statuses w' :
    node_call node "csw_cswInfo" [PStr (csw_request id)] [] w = (inr (csw_reply status), w') →
    csw_statuses node w' ids statuses → csw_statuses node w (id :: ids) (status :: statuses).

(** [if_csws_were_generated] says yes exactly when every box's proof is
    generated, or absent where that is allowed; it asks for each box once, in
    order, and stops at the first that is not done. *)
Theorem if_csws_were_generated_spec (node : proxy) (ids : list pyval) (statuses : list string)
    (allow_absent : bool) (st : St W) :
  forallb json_ok ids = true → csw_statuses node (world st) ids statuses →
  let res := if_csws_were_generated node ids allow_absent st in
  res.1 = Val (forallb (csw_done allow_absent) statuses)
  ∧ ∃ m, trace res.2 = trace st ++ map (λ id, ECall node "csw_cswInfo" [PStr (csw_request id)] []) (take m ids)
       ∧ (forallb (csw_done allow_absent) statuses = true → m = length ids).
Proof.
  intros Hj Hc. remember (world st) as w eqn:Hw. revert st Hw Hj.
  induction Hc as [w|w id ids status statuses w' Hcall _ IH]; intros st Hw Hj.
  { split; [done|]. exists 0%nat. simpl. by rewrite app_nil_r. }
  cbn [forallb] in Hj |- *. apply andb_true_iff in Hj as [Hid Hids]. subst w. cbn [if_csws_were_generated].
  erewrite bind_lift_run by (unfold dumps; rewrite dumps_render by (simpl; by rewrite Hid); reflexivity).
  call_step Hcall. pure_step. cbv zeta.
  change (py_eqb (PStr status) (PStr "Absent")) with (String.eqb status "Absent").
  unfold py_neqb. change (py_eqb (PStr status) (PStr "Generated")) with (String.eqb status "Generated").
  set (st1 := log_event _ _). specialize (IH st1 eq_refl Hids). destruct IH as (IHr & m & IHt & IHm).
  assert (∀ m', trace st1 ++ map (λ id, ECall node "csw_cswInfo" [PStr (csw_request id)] []) (take m' ids)
    = trace st ++ map (λ id, ECall node "csw_cswInfo" [PStr (csw_request id)] []) (take (S m') (id :: ids))) as Ht.
  { intros m'. simpl. by rewrite <- app_assoc. }
  unfold csw_done at 1 3.
  destruct (String.eqb_spec status "Generated") as [->|Hg]; simpl.
  - split; [done|]. exists (S m). rewrite IHt, Ht. split; [done|]. intros. simpl. f_equal. auto.
  - destruct (String.eqb status "Absent" && allow_absent); simpl.
    + split; [done|]. exists (S m). rewrite IHt, Ht. split; [done|]. intros. simpl. f_equal. auto.
    + split; [done|]. exists 1%nat. split; [|done]. rewrite <- (Ht 0%nat). simpl. by rewrite app_nil_r.
Qed.
End Csw.

Definition csw_sim : St sim :=
  init_st (sim_of (λ n _ _ _, inr (csw_reply (if (n =? 0)%nat then "Generated" else "Absent")))).

Lemma if_csws_were_generated_spec_witness :
  (if_csws_were_generated sc0 [PStr "a"; PStr "b"] true csw_sim).1 = Val true.
Proof.
  apply (if_csws_were_generated_spec sc0 [PStr "a"; PStr "b"] ["Generated"; "Absent"] true csw_sim).
  - reflexivity.
  - econstructor; [reflexivity|]. econstructor; [reflexivity|]. constructor.
Defined.

(** ** Runs of slots *)

Section Slots.
Context {W : Type} `{Nodes W, Clock W, Os W, Rng W}.
Implicit Types st : St W.

Lemma ends_forged_id res : ends (forged_id res).
Proof.
  apply ends_bind; [apply ends_py_in|]. intros []; [|done].
  apply ends_bind; [apply ends_getitem|]. intros r.
  apply ends_bind; [apply ends_py_in|]. intros []; [|done].
  apply ends_bind; [apply ends_getitem|done].
Qed.

Lemma try_slots_spec n node slots add ids a st :
  0 < slots →
  let res := try_slots n node (slot_at slots a).1 (slot_at slots a).2 slots add ids st in
  ∃ m, (m <= n)%nat
    ∧ trace res.2 = trace st ++ map (λ k, slot_call node slots PNone (a + Z.of_nat k)) (seq 0 m)
    ∧ match res.1 with
      | Val r => m = n ∧ ∃ found, r = ids ++ found ∧ (length found <= n)%nat ∧ (add = true → length found = n)
      | Exc _ => True
      | NoFuel => False
      end.
Proof.
  intros Hs. revert a ids st. induction n as [|n IH]; intros a ids st.
  { exists 0%nat. simpl. rewrite app_nil_r. repeat split; auto. exists []. by rewrite app_nil_r. }
  cbn [try_slots]. unfold try_to_generate_block_in_slot. unfold bind at 1 3.
  pose proof (trace_block_generate node slots PNone a st eq_refl) as Htr.
  pose proof (ends_block_generate node (slot_at slots a).1 (slot_at slots a).2 PNone st) as He.
  assert (map (λ k, slot_call node slots PNone (a + Z.of_nat k)) (seq 0 1) = [slot_call node slots PNone a]) as Hone.
  { simpl. by rewrite Z.add_0_r. }
  destruct (block_generate node _ _ PNone st) as [[r|ex|] st1]; cbn [fst snd] in *; [| |done].
  2:{ exists 1%nat. split; [lia|]. by rewrite Htr, Hone. }
  pose proof (ends_forged_id r) as Hf. unfold bind, lift.
  destruct (forged_id r) as [id|ex|]; cbn [fst snd]; [| |done].
  2:{ exists 1%nat. split; [lia|]. by rewrite Htr, Hone. }
  rewrite (next_slot_at slots a Hs).
  destruct (slot_at slots (a + 1)) as [e s] eqn:Hn. cbv zeta.
  match goal with |- context [try_slots n node e s slots add ?l st1] => destruct (IH (a + 1) l st1) as (m & Hm & Ht & Hr) end.
  rewrite Hn in Ht, Hr. cbn [fst snd] in Ht, Hr.
  exists (S m). split; [lia|]. split.
  - rewrite Ht, Htr, <- app_assoc. simpl. rewrite Z.add_0_r. do 2 f_equal.
    rewrite <- seq_shift, map_map. apply map_ext. intros k. f_equal. lia.
  - destruct (try_slots n node e s slots add _ st1) as [[r'|ex|] st2]; cbn [fst snd] in *; [|done|done].
    destruct Hr as (-> & found & -> & Hl & Ha). split; [done|].
    destruct id as [id|]; [|destruct add].
    + exists (id :: found). rewrite <- app_assoc. simpl. repeat split; auto with lia.
    + exists (PStr "" :: found). rewrite <- app_assoc. simpl. repeat split; auto with lia.
    + exists found. repeat split; auto with lia.
Qed.

End Slots.

