(* ===== verification/Checks.v ===== *)
(** * Properties of the checks on boxes, addresses and ommers

    What it means that one of the assertion helpers passes: the balance check
    of scutil.py, the choice of a coinbase address of util.py and the ommer
    checks of sc_forging_util.py, on replies that hold the fields they read
    (any other fields may be there too). *)

From S2P Require Import Prelude PyStr Numbers PyVal Host Sim Json Encoding HttpProxy BootInfo McUtil ScUtil.
From S2P Require Import ScLoops Forging ForgingProps.
From Stdlib Require Import Ascii String QArith.
From stdpp Require Import base list sorting.
Local Open Scope string_scope.
Local Open Scope Z_scope.

Lemma py_lt_int a b : py_lt (PInt a) (PInt b) = Val (a <? b).
Proof. unfold py_lt, num_Q. simpl. unfold Qcompare. simpl. rewrite !Z.mul_1_r. by rewrite Z.ltb_compare. Qed.

Lemma py_eqb_int a b : py_eqb (PInt a) (PInt b) = (a =? b).
Proof.
  change (Qeq_bool (inject_Z a) (inject_Z b) = (a =? b)). unfold Qeq_bool. simpl. by rewrite !Z.mul_1_r.
Qed.

(** ** Box balances *)

Record box := Box { b_key : string; b_type : string; b_value : Z }.

(** A reply's box with these values in the fields that are read. *)
Definition box_of (v : pyval) (b : box) : Prop :=
  getpath v ["proposition"; "publicKey"] = Val (PStr (b_key b))
  ∧ getitem v "typeName" = Val (PStr (b_type b)) ∧ getitem v "value" = Val (PInt (b_value b))
  ∧ ∃ id, getitem v "id" = Val id.

(** The boxes the check counts. *)
Definition counted (key : string) (cls : option string) (b : box) : bool :=
  String.eqb (b_key b) key && match cls with Some c => String.eqb (b_type b) c | None => true end.

Definition counted_values (key : string) (cls : option string) (bs : list box) : list Z :=
  map b_value (List.filter (counted key cls) bs).

Definition assertion_failed {A} (o : outcome A) : Prop := ∃ m, o = Exc (AssertionError m).

(** A check that passes exactly under [P] and is an assertion failure otherwise. *)
Definition checks (P : Prop) (o : outcome unit) : Prop :=
  (o = Val tt ↔ P) ∧ (o ≠ Val tt → assertion_failed o).

Lemma checks_pass (P : Prop) : P → checks P (Val tt).
Proof. by split. Qed.
Lemma checks_fail (P : Prop) m : ¬ P → checks P (Exc (AssertionError m)).
Proof. split; [by split|]. intros _. by eexists. Qed.

Lemma sum_boxes_spec key cls vs bs balance count :
  Forall2 box_of vs bs →
  let zs := counted_values key cls bs in
  if forallb (λ z, 0 <? z) zs
  then sum_boxes vs (PStr key) cls (PInt balance) (PInt count)
       = Val (PInt (balance + zsum zs), PInt (count + Z.of_nat (length zs)))
  else assertion_failed (sum_boxes vs (PStr key) cls (PInt balance) (PInt count)).
Proof.
  intros Hb. revert balance count. induction Hb as [|v b vs bs (Hk & Ht & Hv & id & Hid) _ IH]; intros balance count.
  { simpl. by rewrite !Z.add_0_r. }
  unfold counted_values in *. cbn [List.filter sum_boxes]. rewrite Hk. cbn [obind].
  change (py_eqb (PStr (b_key b)) (PStr key)) with (String.eqb (b_key b) key).
  assert ((if String.eqb (b_key b) key
           then match cls with
                | Some c => obind (getitem v "typeName") (λ t, Val (py_eqb t (PStr c)))
                | None => Val true
                end else Val false) = Val (counted key cls b)) as ->.
  { unfold counted. destruct (String.eqb (b_key b) key); simpl; [|done]. destruct cls; [|done]. by rewrite Ht. }
  cbn [obind]. destruct (counted key cls b); [|apply IH].
  rewrite Hv. cbn [obind]. rewrite Hid.
  unfold py_gt. rewrite py_lt_int. cbn [obind map forallb].
  destruct (Z.ltb_spec 0 (b_value b)) as [Hpos|Hneg]; cbn [andb assert_true obind]; [|by eexists].
  change (py_add (PInt balance) (PInt (b_value b))) with (Val (PInt (balance + b_value b))). cbn [obind].
  change (py_add (PInt count) (PInt 1)) with (Val (PInt (count + 1))). cbn [obind].
  specialize (IH (balance + b_value b) (count + 1)). cbv zeta in IH.
  destruct (forallb _ _); [|done]. rewrite IH. do 3 f_equal; simpl; unfold zsum; simpl; lia.
Qed.

Lemma assert_equal_ints a b m : (assert_equal (PInt a) (PInt b) m = Val tt ∧ a = b)
                                ∨ (assertion_failed (assert_equal (PInt a) (PInt b) m) ∧ a ≠ b).
Proof.
  unfold assert_equal, py_neqb. rewrite py_eqb_int.
  destruct (Z.eqb_spec a b); simpl; [by left|]. right. split; [by eexists|done].
Qed.

Section Balance.
Context {W : Type} `{Nodes W, Clock W, Os W, Rng W}.

(** [check_box_balance] passes exactly when every box of the account (and
    class, if given) has a positive value, their number is the expected one
    and their values add up to the expected coins in zatoshis; in every other
    case it is an assertion failure. *)
Theorem check_box_balance_spec (node : proxy) (account : Account) (key : string) (cls : option string)
    (count coins : Z) (vs : list pyval) (bs : list box) (st : St W) (w : W) :
  publicKey account = PStr key → Forall2 box_of vs bs →
  node_call node "wallet_allBoxes" [] [] (world st)
    = (inr (PDict [("result", PDict [("boxes", PList vs)])]), w) →
  let zs := counted_values key cls bs in
  checks (Forall (λ z, 0 < z) zs ∧ Z.of_nat (length zs) = count ∧ zsum zs = coins * 100000000)
    (check_box_balance node account cls (PInt count) (PInt coins) st).1.
Proof.
  intros Hk Hb Hc zs. unfold check_box_balance. call_step Hc.
  do 2 (rewrite (bind_lift_run _ true) by reflexivity; cbn [negb]; cbv iota; pure_step).
  pure_step. rewrite Hk. pose proof (sum_boxes_spec key cls vs bs 0 0 Hb) as Hs. cbv zeta in Hs. fold zs in Hs.
  assert (forallb (λ z, 0 <? z) zs = true ↔ Forall (λ z, 0 < z) zs) as Hpos.
  { rewrite forallb_forall, List.Forall_forall. by setoid_rewrite Z.ltb_lt. }
  destruct (forallb (λ z, 0 <? z) zs).
  2:{ destruct Hs as [m Hs]. unfold bind, lift. rewrite Hs. apply checks_fail. intros [H' _]. by apply Hpos in H'. }
  rewrite (bind_lift_run _ _ _ _ Hs). rewrite !Z.add_0_l. cbv beta iota.
  match goal with |- context [assert_equal (PInt count) _ ?m] =>
    destruct (assert_equal_ints count (Z.of_nat (length zs)) m) as [[-> Hc1]|[[m1 ->] Hc1]] end.
  2:{ apply checks_fail. lia. }
  do 2 pure_step. unfold lift.
  match goal with |- context [assert_equal (PInt ?x) _ ?m] =>
    destruct (assert_equal_ints x (zsum zs) m) as [[-> Hc2]|[[m2 ->] Hc2]] end.
  - apply checks_pass. split; [by apply Hpos|lia].
  - apply checks_fail. lia.
Qed.
End Balance.

Definition box_json (key cls : string) (v : Z) : pyval :=
  PDict [("id", PStr "i"); ("typeName", PStr cls); ("value", PInt v);
         ("proposition", PDict [("publicKey", PStr key)])].
Definition boxes_sim : St sim :=
  init_st (sim_of (λ _ _ _ _, inr (PDict [("result", PDict [("boxes",
    PList [box_json "k" "ZenBox" 300000000; box_json "z" "ZenBox" 1; box_json "k" "ForgerBox" 200000000])])]))).

Lemma check_box_balance_spec_witness :
  (check_box_balance sc0 (mkAccount (PStr "s") (PStr "k")) None (PInt 2) (PInt 5) boxes_sim).1 = Val tt.
Proof.
  apply (check_box_balance_spec sc0 (mkAccount (PStr "s") (PStr "k")) "k" None 2 5
    [box_json "k" "ZenBox" 300000000; box_json "z" "ZenBox" 1; box_json "k" "ForgerBox" 200000000]
    [Box "k" "ZenBox" 300000000; Box "z" "ZenBox" 1; Box "k" "ForgerBox" 200000000]
    boxes_sim (tick (world boxes_sim))); try reflexivity.
  - repeat constructor; simpl; try reflexivity; by exists (PStr "i").
  - split; [repeat constructor|split; reflexivity].
Defined.

(** ** Ommers *)

Record ommer := Ommer { o_id : string; o_headers : list string }.

Definition header_of (h : pyval) (hash : string) : Prop := getitem h "hash" = Val (PStr hash).

(** A reply's ommer with this id and these mainchain header hashes. *)
Definition ommer_of (v : pyval) (o : ommer) : Prop :=
  getpath v ["header"; "id"] = Val (PStr (o_id o))
  ∧ ∃ hs, getitem v "mainchainHeaders" = Val (PList hs) ∧ Forall2 header_of hs (o_headers o).

(** The reply to [block_findById] with these ommers. *)
Definition block_with_ommers (vs : list pyval) : pyval :=
  PDict [("result", PDict [("block", PDict [("ommers", PList vs)])])].

Lemma list_mem_strings h hashes : list_mem (PStr h) (map PStr hashes) = bool_decide (h ∈ hashes).
Proof.
  unfold list_mem. induction hashes as [|x l IH]; [done|]. cbn [map existsb]. rewrite IH.
  change (py_eqb (PStr h) (PStr x)) with (String.eqb h x).
  destruct (String.eqb_spec h x) as [->|Hne]; simpl.
  - symmetry. apply bool_decide_eq_true. left.
  - apply bool_decide_ext. rewrite elem_of_cons. naive_solver.
Qed.

(** The ommer the check decides on: the first with the id, unless it has no
    header to compare with. *)
Definition ommer_shows (hashes : list string) (o : ommer) : Prop :=
  hashes = [] ∨ ∃ h rest, o_headers o = h :: rest ∧ h ∈ hashes.
Definition ommer_passed_over (id : string) (hashes : list string) (o : ommer) : Prop :=
  o_id o = id → hashes ≠ [] ∧ o_headers o = [].

Inductive ommer_checked (id : string) (hashes : list string) : list ommer → Prop :=
| ommer_here o os : o_id o = id → ommer_shows hashes o → ommer_checked id hashes (o :: os)
| ommer_later o os : ommer_passed_over id hashes o → ommer_checked id hashes os → ommer_checked id hashes (o :: os).

Lemma ommer_headers_spec hs headers hashes what id :
  Forall2 header_of hs headers →
  match headers, hashes with
  | _, [] => ommer_headers (PList hs) (map PStr hashes) what id = Val true
  | [], _ => ommer_headers (PList hs) (map PStr hashes) what id = Val false
  | h :: _, _ => if bool_decide (h ∈ hashes)
                 then ommer_headers (PList hs) (map PStr hashes) what id = Val true
                 else assertion_failed (ommer_headers (PList hs) (map PStr hashes) what id)
  end.
Proof.
  intros Hh. destruct hashes as [|x l]; [by destruct headers|].
  destruct Hh as [|v h hs headers Hv _]; [done|]. unfold ommer_headers. cbn [map py_iter obind]. rewrite Hv.
  cbn [obind]. change (PStr x :: map PStr l) with (map PStr (x :: l)). rewrite list_mem_strings.
  destruct (bool_decide (h ∈ x :: l)); [done|by eexists].
Qed.

Lemma check_ommer_loop_spec vs os id hashes block :
  Forall2 ommer_of vs os →
  checks (ommer_checked id hashes os) (check_ommer_loop vs (PStr id) (map PStr hashes) block).
Proof.
  induction 1 as [|v o vs os (Hid & hs & Hh & Hhs) _ IH].
  { apply checks_fail. inversion 1. }
  cbn [check_ommer_loop]. rewrite Hid. cbn [obind].
  change (py_eqb (PStr (o_id o)) (PStr id)) with (String.eqb (o_id o) id).
  destruct (String.eqb_spec (o_id o) id) as [E|E].
  - rewrite Hh. cbn [obind]. pose proof (ommer_headers_spec hs (o_headers o) hashes "Ommer" (PStr id) Hhs) as Ho.
    destruct (o_headers o) as [|h rest] eqn:Eh, hashes as [|x l].
    + rewrite Ho. apply checks_pass. apply ommer_here; [done|by left].
    + rewrite Ho. cbn [obind]. destruct IH as [I1 I2]. split; [|done]. rewrite I1. split.
      * intros Hc. by apply ommer_later.
      * inversion 1 as [? ? ? Hs|]; subst; [|done]. destruct Hs as [?|(? & ? & Hr & _)]; congruence.
    + rewrite Ho. apply checks_pass. apply ommer_here; [done|by left].
    + case_bool_decide as Hin.
      * rewrite Ho. apply checks_pass. apply ommer_here; [done|]. right. by exists h, rest.
      * destruct Ho as [m ->]. apply checks_fail. inversion 1 as [? ? ? Hs|? ? Hp]; subst.
        -- destruct Hs as [?|(h' & r' & Hr & Hin')]; congruence.
        -- destruct (Hp eq_refl). congruence.
  - destruct IH as [I1 I2]. split; [|done]. rewrite I1. split.
    + intros Hc. by apply ommer_later.
    + inversion 1; subst; done.
Qed.

Section Ommers.
Context {W : Type} `{Nodes W, Clock W, Os W, Rng W}.
Implicit Types st : St W.

Lemma find_block_run (node : proxy) (id : pyval) (b : pyval) st w :
  node_call node "block_findById" [] [("blockId", id)] (world st)
    = (inr (PDict [("result", PDict [("block", b)])]), w) →
  find_block node id st = (Val b, log_event (ECall node "block_findById" [] [("blockId", id)]) (set_world w st)).
Proof. intros E. unfold find_block, bind, call_kw. by rewrite E. Qed.

(** [check_ommer] passes exactly when the block has an ommer with the id
    and either no hashes were given or that ommer's first mainchain header is
    one of them; later headers are not looked at.  (Of several ommers with the
    id, the first that has a header decides.)  Otherwise it is an assertion
    failure. *)
Theorem check_ommer_spec (node : proxy) (id : string) (hashes : list string) (block : pyval)
    (vs : list pyval) (os : list ommer) (st : St W) (w : W) :
  Forall2 ommer_of vs os →
  node_call node "block_findById" [] [("blockId", block)] (world st) = (inr (block_with_ommers vs), w) →
  checks (ommer_checked id hashes os) (check_ommer (PStr id) (map PStr hashes) block node st).1.
Proof.
  intros Ho Hc. unfold check_ommer. rewrite (bind_run _ _ _ _ _ (find_block_run _ _ _ _ _ Hc)).
  do 2 pure_step. by apply check_ommer_loop_spec.
Qed.

(** When the block has the ommer but the ommer has no sub-ommer with the
    given id, [check_subommer] does not report it: the message's format string
    is malformed, and the failure is a [ValueError], which is not an assertion
    failure. *)
Theorem check_subommer_absent (node : proxy) (id sub : string) (hashes : list pyval) (block : pyval)
    (before after : list pyval) (v : pyval) (subs : list pyval) (st : St W) (w : W) :
  Forall (λ u, ∃ i, getpath u ["header"; "id"] = Val (PStr i) ∧ i ≠ id) before →
  getpath v ["header"; "id"] = Val (PStr id) → getitem v "ommers" = Val (PList subs) →
  Forall (λ u, ∃ i, getpath u ["header"; "id"] = Val (PStr i) ∧ i ≠ sub) subs →
  node_call node "block_findById" [] [("blockId", block)] (world st)
    = (inr (block_with_ommers (before ++ v :: after)), w) →
  let res := (check_subommer (PStr id) (PStr sub) hashes block node st).1 in
  (∃ m, res = Exc (ValueError m)) ∧ ¬ assertion_failed res.
Proof.
  intros Hb Hv Hs Hsubs Hc. cbv zeta.
  assert (∃ m, (check_subommer (PStr id) (PStr sub) hashes block node st).1 = Exc (ValueError m)) as [m E].
  { unfold check_subommer. rewrite (bind_run _ _ _ _ _ (find_block_run _ _ _ _ _ Hc)).
    do 2 pure_step. unfold lift. eexists. cbn [fst]. clear Hc. induction Hb as [|u before (i & Hi & Hne) _ IH].
    - cbn [app check_subommer_loop]. rewrite Hv. cbn [obind].
      change (py_eqb (PStr id) (PStr id)) with (String.eqb id id). rewrite String.eqb_refl, Hs. cbn [obind py_iter].
      clear Hs Hv. induction Hsubs as [|u subs (i & Hi & Hne) _ IH]; [reflexivity|].
      cbn [subommer_loop]. rewrite Hi. cbn [obind].
      change (py_eqb (PStr i) (PStr sub)) with (String.eqb i sub). by rewrite (proj2 (String.eqb_neq _ _) Hne).
    - cbn [app check_subommer_loop]. rewrite Hi. cbn [obind].
      change (py_eqb (PStr i) (PStr id)) with (String.eqb i id). rewrite (proj2 (String.eqb_neq _ _) Hne).
      apply IH. }
  rewrite E. split; [by eexists|]. by intros [? ?].
Qed.
End Ommers.

Definition ommer_json (id : string) (headers : list string) (subs : list pyval) : pyval :=
  PDict [("header", PDict [("id", PStr id)]);
         ("mainchainHeaders", PList (map (λ h, PDict [("hash", PStr h)]) headers)); ("ommers", PList subs)].
Definition ommer_sim : St sim :=
  init_st (sim_of (λ _ _ _ _,
    inr (block_with_ommers [ommer_json "o1" ["h1"; "h2"] [ommer_json "s1" [] []]]))).

(** The second header is missing from the given hashes, and the check passes. *)
Lemma check_ommer_spec_witness :
  (check_ommer (PStr "o1") (map PStr ["h1"]) (PStr "b") sc0 ommer_sim).1 = Val tt.
Proof.
  apply (check_ommer_spec sc0 "o1" ["h1"] (PStr "b") [ommer_json "o1" ["h1"; "h2"] [ommer_json "s1" [] []]]
    [Ommer "o1" ["h1"; "h2"]] ommer_sim
    (tick (world ommer_sim))).
  - repeat constructor. eexists. split; [reflexivity|]. repeat constructor.
  - reflexivity.
  - apply ommer_here; [reflexivity|]. right. exists "h1", ["h2"]. split; [reflexivity|left].
Defined.

Lemma check_subommer_absent_witness :
  ¬ assertion_failed (check_subommer (PStr "o1") (PStr "s2") [] (PStr "b") sc0 ommer_sim).1.
Proof.
  apply (check_subommer_absent sc0 "o1" "s2" [] (PStr "b") [] [] (ommer_json "o1" ["h1"; "h2"] [ommer_json "s1" [] []])
    [ommer_json "s1" [] []] ommer_sim (tick (world ommer_sim))); try reflexivity.
  - constructor.
  - constructor; [|constructor]. exists "s1". split; [reflexivity|discriminate].
Defined.

(** ** Coinbase addresses *)

Lemma py_dedup_strings l a : PStr a ∈ py_dedup (map PStr l) ↔ a ∈ l.
Proof.
  induction l as [|x l IH]; cbn [map py_dedup].
  { split; intros Hin; inversion Hin. }
  rewrite list_mem_strings. case_bool_decide as Hx; rewrite ?elem_of_cons, IH; [|naive_solver].
  split; [auto|]. intros [->|?]; done.
Qed.

Lemma py_dedup_only_strings l : ∃ k, py_dedup (map PStr l) = map PStr k.
Proof.
  induction l as [|x l [k IH]]; cbn [map py_dedup]; [by exists []|].
  destruct (list_mem _ _); [by exists k|]. exists (x :: k). cbn [map]. by rewrite IH.
Qed.

(** Addresses paired with a number, as the list to sort holds them. *)
Definition scored (ps : list (Z * string)) : list (Z * pyval) := map (λ p, (p.1, PStr p.2)) ps.

Lemma pair_lt_scored (x y : Z * string) :
  ∃ b, pair_lt (x.1, PStr x.2) (y.1, PStr y.2) = Val b ∧ if b then x.1 <= y.1 else y.1 <= x.1.
Proof.
  unfold pair_lt. cbn [fst snd]. destruct (Z.eqb_spec x.1 y.1) as [->|Hne].
  - destruct (py_eqb _ _); [by exists false|]. cbn [py_lt]. eexists. split; [done|]. by case_match.
  - eexists. split; [done|]. destruct (Z.ltb_spec x.1 y.1); lia.
Qed.

(** Every element's number is at most the first one's. *)
Definition head_max (ps : list (Z * string)) : Prop :=
  match ps with [] => True | h :: _ => Forall (λ p, p.1 <= h.1) ps end.

Lemma insert_desc_scored (x : Z * string) ps :
  head_max ps →
  ∃ qs, insert_desc (x.1, PStr x.2) (scored ps) = Val (scored qs) ∧ qs ≡ₚ x :: ps
      ∧ (∀ h t, qs = h :: t → h.1 = Z.max x.1 (match ps with [] => x.1 | y :: _ => y.1 end)).
Proof.
  clear. induction ps as [|y ps IH]; intros Hm; cbn [scored map insert_desc].
  { exists [x]. split; [done|]. split; [done|]. intros h t [= <- _]. lia. }
  destruct (pair_lt_scored x y) as (b & -> & Hb). cbn [obind]. destruct b.
  - assert (∃ qs, insert_desc (x.1, PStr x.2) (scored ps) = Val (scored qs) ∧ qs ≡ₚ x :: ps) as (qs & E & P).
    { clear. induction ps as [|z ps IH]; cbn [scored map insert_desc]; [by exists [x]|].
      destruct (pair_lt_scored x z) as ([] & -> & _); cbn [obind]; [|by exists (x :: z :: ps)].
      destruct IH as (qs & E & P). unfold scored in E. rewrite E. cbn [obind]. exists (z :: qs).
      split; [done|]. rewrite P. by apply perm_swap. }
    unfold scored in E. rewrite E. cbn [obind]. exists (y :: qs). split; [done|]. split.
    + rewrite P. by apply perm_swap.
    + intros h t [= <- _]. lia.
  - exists (x :: y :: ps). split; [done|]. split; [done|]. intros h t [= <- _]. lia.
Qed.

Lemma sorted_desc_scored ps :
  ∃ qs, sorted_desc (scored ps) = Val (scored qs) ∧ qs ≡ₚ ps ∧ head_max qs.
Proof.
  induction ps as [|x ps (qs & E & P & Hm)]; [by exists []|].
  unfold sorted_desc, scored in *. cbn [map foldr]. rewrite E. cbn [obind].
  destruct (insert_desc_scored x qs Hm) as (rs & E' & P' & Hh). unfold scored in E'.
  exists rs. split; [done|]. split; [by rewrite P', P|].
  destruct rs as [|h t]; [done|]. specialize (Hh h t eq_refl). unfold head_max. rewrite P'.
  constructor; [lia|]. destruct qs as [|y qs]; [constructor|]. eapply Forall_impl; [exact Hm|]. simpl. lia.
Qed.

Definition occurrences (l : list string) (a : string) : Z :=
  Z.of_nat (length (List.filter (String.eqb a) l)).

Lemma count_of_strings l a : count_of (map PStr l) (PStr a) = occurrences l a.
Proof.
  unfold count_of, occurrences. f_equal. induction l as [|x l IH]; [done|]. cbn [map List.filter].
  rewrite filter_cons. change (py_eqb (PStr x) (PStr a)) with (String.eqb x a). rewrite String.eqb_sym.
  destruct (String.eqb a x); case_decide as Hd; simpl in *; [lia|done..|done].
Qed.

Section Coinbase.
Context {W : Type} `{Nodes W, Clock W, Os W, Rng W, !RngLaws W}.

(** Without a filter, [get_coinbase_address] returns an address that holds
    generated coins and that no other address exceeds in the number of such
    outputs, whatever order the set of addresses is iterated in; with no
    generated output it is an assertion failure. *)
Theorem get_coinbase_address_most (node : proxy) (utxos : list pyval) (addrs : list string) (st : St W) (w : W) :
  node_call node "listunspent" [] [] (world st) = (inr (PList utxos), w) →
  generated_addresses utxos = Val (map PStr addrs) →
  match (get_coinbase_address node None st).1 with
  | Val v => ∃ a, v = PStr a ∧ a ∈ addrs ∧ ∀ b, occurrences addrs b <= occurrences addrs a
  | Exc e => e = AssertionError "" ∧ addrs = []
  | NoFuel => False
  end.
Proof.
  intros Hc Hg. unfold get_coinbase_address. call_step Hc. pure_step. rewrite (bind_lift_run _ _ _ _ Hg).
  set (st1 := log_event _ _).
  assert (forallb py_hashable (map PStr addrs) = true) as Hh by (clear; by induction addrs).
  pose proof (setiter_perm (map PStr addrs) (world st1)) as Hp.
  destruct (py_dedup_only_strings addrs) as [ks Hks]. rewrite Hks in Hp.
  assert (∃ ds, rng_setiter (map PStr addrs) (world st1) = map PStr ds ∧ ds ≡ₚ ks) as (ds & Hds & Hperm).
  { apply Permutation_map_inv in Hp as (ds & E & P). exists ds. by split. }
  assert (∀ a, a ∈ ds ↔ a ∈ addrs) as Hin.
  { intros a. rewrite Hperm, <- (py_dedup_strings addrs a), Hks. rewrite list_elem_of_fmap. naive_solver. }
  assert (setiter (map PStr addrs) st1 = (Val (map PStr ds), st1)) as Hset.
  { unfold setiter. rewrite Hh. unfold ask. by rewrite Hds. }
  rewrite (bind_run _ _ _ _ _ Hset). rewrite length_map.
  destruct ds as [|d ds].
  { simpl. split; [done|]. destruct addrs as [|a addrs]; [done|].
    assert (a ∈ []) as Hn by (apply Hin; left). inversion Hn. }
  cbn [length]. change (negb (S (length ds) =? 0)%nat) with true. pure_step. rewrite (bind_run _ _ _ _ _ Hset).
  assert (map (λ a, (count_of (map PStr addrs) a, a)) (map PStr (d :: ds))
    = scored (map (λ a, (occurrences addrs a, a)) (d :: ds))) as ->.
  { unfold scored. rewrite !map_map. apply map_ext. intros a. by rewrite count_of_strings. }
  destruct (sorted_desc_scored (map (λ a, (occurrences addrs a, a)) (d :: ds))) as (qs & E & P & Hm).
  rewrite (bind_lift_run _ _ _ _ E). destruct qs as [|[n a] qs].
  { apply Permutation_nil_l in P. discriminate. }
  pure_step. cbn [fst snd ret]. exists a. split; [done|].
  assert (∀ p, p ∈ (n, a) :: qs ↔ p ∈ map (λ a, (occurrences addrs a, a)) (d :: ds)) as Hp' by (intros p; by rewrite P).
  assert ((n, a) ∈ map (λ a, (occurrences addrs a, a)) (d :: ds)) as Ha by (apply Hp'; left).
  apply list_elem_of_fmap in Ha as (a' & [= -> <-] & Ha). split; [by apply Hin|]. intros b.
  destruct (decide (b ∈ addrs)) as [Hb|Hb].
  - assert ((occurrences addrs b, b) ∈ (occurrences addrs a, a) :: qs) as Hb'.
    { apply Hp', list_elem_of_fmap. exists b. split; [done|by apply Hin]. }
    unfold head_max in Hm. rewrite Forall_forall in Hm. by apply (Hm _ Hb').
  - unfold occurrences at 1. assert (List.filter (String.eqb b) addrs = []) as ->; [|simpl; unfold occurrences; lia].
    clear -Hb. induction addrs as [|x l IH]; [done|]. apply not_elem_of_cons in Hb as [Hx Hl]. simpl.
    rewrite (proj2 (String.eqb_neq b x) Hx). auto.
Qed.
End Coinbase.

Definition coinbase_json (a : string) (g : bool) : pyval :=
  PDict [("address", PStr a); ("generated", PBool g)].
Definition coinbase_utxos : list pyval :=
  [coinbase_json "a" true; coinbase_json "b" true; coinbase_json "a" false; coinbase_json "b" true].
Definition coinbase_sim : St sim := init_st (sim_of (λ _ _ _ _, inr (PList coinbase_utxos))).

Lemma get_coinbase_address_most_witness :
  generated_addresses coinbase_utxos = Val (map PStr ["a"; "b"; "b"])
  ∧ match (get_coinbase_address mc0 None coinbase_sim).1 with
    | Val v => ∃ a, v = PStr a ∧ a ∈ ["a"; "b"; "b"]
                  ∧ ∀ b, occurrences ["a"; "b"; "b"] b <= occurrences ["a"; "b"; "b"] a
    | Exc e => e = AssertionError "" ∧ ["a"; "b"; "b"] = []
    | NoFuel => False
    end.
Proof.
  split; [reflexivity|].
  apply (get_coinbase_address_most mc0 coinbase_utxos ["a"; "b"; "b"] coinbase_sim (tick (world coinbase_sim)));
    reflexivity.
Defined.
