(* ===== verification/Bootstrap.v ===== *)
(** * Bootstrapping a sidechain: scutil.py

    Keys, proofs and the genesis block come from the Java bootstrapping tool,
    run as a process that prints JSON; the sidechain is created on a mainchain
    node; each sidechain node gets a directory and a configuration file made
    from a template by [%]-substitution. *)

From S2P Require Import Prelude PyStr Numbers PyVal Host Sim Json Encoding HttpProxy BootInfo McUtil ScUtil.
From Stdlib Require Import Ascii String.
From stdpp Require Import base list.
Local Open Scope Z_scope.

(** ** [template % mapping] *)

(** One conversion of [%(KEY)c]. *)
Definition convert (c : ascii) (v : pyval) : outcome string :=
  if Ascii.eqb c "s" then Val (py_str v)
  else if Ascii.eqb c "d" then fmt_d v
  else Exc (ValueError "unsupported format character").

(** [key] is the text of a key being read, after [%(]. *)
Inductive fmt_state :=
| FText
| FPercent
| FKey (key : string)
| FConv (key : string).

Fixpoint percent_go (st : fmt_state) (s : string) (env : list (string * pyval)) : outcome string :=
  match s with
  | EmptyString => match st with FText => Val "" | _ => Exc (ValueError "incomplete format") end
  | String c s' =>
      match st with
      | FText =>
          if Ascii.eqb c "%" then percent_go FPercent s' env
          else obind (percent_go FText s' env) (λ t, Val (String c t))
      | FPercent =>
          if Ascii.eqb c "%" then obind (percent_go FText s' env) (λ t, Val (String "%" t))
          else if Ascii.eqb c "(" then percent_go (FKey "") s' env
          else Exc (ValueError "unsupported format character")
      | FKey key =>
          if Ascii.eqb c ")" then percent_go (FConv key) s' env
          else percent_go (FKey (key +:+ String c "")) s' env
      | FConv key =>
          obind (of_opt (KeyError key) (dict_get key env)) (λ v,
          obind (convert c v) (λ r,
          obind (percent_go FText s' env) (λ t, Val (r +:+ t))))
      end
  end.

Definition percent_format (template : string) (env : list (string * pyval)) : outcome string :=
  percent_go FText template env.

Example percent_ex :
  percent_format "n%(A)s = %(B)d%%" [("A", PStr "x"); ("B", PInt 7)] = Val "nx = 7%"
  ∧ percent_format "%(A)d" [("A", PStr "x")] = Exc TypeError
  ∧ percent_format "%(C)d" [("A", PStr "x")] = Exc (KeyError "C").
Proof. vm_compute. auto. Qed.

(** ** Key files *)

Definition cert_proof_keys_paths (dirname : string) (cert_threshold_sig_max_keys : Z) (isCSWEnabled : bool)
    (circuit_type : string) : outcome ProofKeysPaths :=
  let paths pk vk :=
    Val (mkProofKeysPaths
           (replace_char "\" "/" (path_join dirname (pk +:+ str_of_Z cert_threshold_sig_max_keys)))
           (replace_char "\" "/" (path_join dirname (vk +:+ str_of_Z cert_threshold_sig_max_keys)))) in
  if String.eqb circuit_type NO_KEY_ROTATION_CIRCUIT then
    if isCSWEnabled then paths "cert_marlin_snark_pk" "cert_marlin_snark_vk"
    else paths "cert_marlin_snark_pk_csw_disabled" "cert_marlin_snark_vk_csw_disabled"
  else if String.eqb circuit_type KEY_ROTATION_CIRCUIT then
    obind (assert_false isCSWEnabled "") (λ _,
    paths "cert_marlin_snark_pk_with_key_rotation" "cert_marlin_snark_vk_with_key_rotation")
  else (* [assert "type is not supported " + ...] holds of any text; [pk] is unbound *)
    Exc (UnboundLocalError "pk").

Definition csw_proof_keys_paths (dirname : string) (withdrawal_epoch_length : Z) : ProofKeysPaths :=
  mkProofKeysPaths
    (replace_char "\" "/" (path_join dirname ("csw_marlin_snark_pk_" +:+ str_of_Z withdrawal_epoch_length)))
    (replace_char "\" "/" (path_join dirname ("csw_marlin_snark_vk_" +:+ str_of_Z withdrawal_epoch_length))).

Definition get_websocket_configuration (index : Z) (array_of_MCConnectionInfo : list MCConnectionInfo)
    : outcome MCConnectionInfo :=
  if index <? Z.of_nat (length array_of_MCConnectionInfo)
  then list_index array_of_MCConnectionInfo index
  else Val MCConnectionInfo_defaults.

(** [720 * 120 / 2] *)
Definition DefaultBlockTimestampRewind : pyval := PFloat (float_of_Z 43200).

Definition str_bool (b : bool) : pyval := PStr (if b then "true" else "false").

(** The secrets written into a node's configuration, from its bootstrap info. *)
Definition genesis_secrets (info : SCBootstrapInfo) (config : SCNodeConfiguration) : list pyval :=
  (match genesis_vrf_account info with Some a => [vrf_secret a] | None => [] end)
  ++ (match genesis_account info with Some a => [secret a] | None => [] end)
  ++ (match genesis_evm_account info with Some a => [ak_secret a] | None => [] end)
  ++ (match genesis_account info with Some _ => initial_private_keys config | None => [] end).

Record run_options := mkOptions {
  tmpdir : string;
  logfilelevel : string;
  logconsolelevel : string;
  restapitimeout : Z
}.

Section Bootstrap.
Context {W : Type} `{Nodes W, Clock W, Os W, Rng W}.
Local Abbreviation MW := (M W).

(** ** The bootstrapping tool *)

(** The tool's output as JSON, or the error the framework raises. *)
Definition parse_tool_output (output message : string) : outcome pyval :=
  match loads output with
  | Exc (ValueError _) => Exc (GenericException message)
  | o => o
  end.

Definition launch_bootstrap_tool (command_name : string) (json_parameters : pyval) (model : string)
    : MW pyval :=
  let! tool := (if String.eqb model "account" then EVM_BOOTSTRAPPING_TOOL else UTXO_BOOTSTRAPPING_TOOL) in
  let% json_param := dumps json_parameters in
  let! output := communicate ["java"; "-jar"; tool; command_name; json_param] in
  lift (parse_tool_output output "Bootstrap tool error occurred").

Definition launch_db_tool (dirName storageNames command_name : string) (json_parameters : pyval) : MW pyval :=
  let storagesPath := dirName +:+ "/blockchain" in
  let% json_param := dumps json_parameters in
  let! sdk := getenv "SIDECHAIN_SDK" ".." in
  let! output := communicate ["java"; "-jar";
    sdk +:+ "/tools/dbtool/target/sidechains-sdk-dbtools-" +:+ SNAPSHOT_VERSION_TAG +:+ ".jar";
    storagesPath; storageNames; command_name; json_param] in
  lift (parse_tool_output output "DB tool error occurred").

Definition generate_genesis_data (genesis_info genesis_secret vrf_secret block_timestamp_rewind : pyval)
    (model : string) (virtual_withdrawal_epoch_length : Z) : MW pyval :=
  launch_bootstrap_tool "genesisinfo"
    (PDict [("model", PStr model); ("secret", genesis_secret); ("vrfSecret", vrf_secret);
            ("info", genesis_info); ("regtestBlockTimestampRewind", block_timestamp_rewind);
            ("virtualWithdrawalEpochLength", PInt virtual_withdrawal_epoch_length)]) model.

(** Run a key-generation command for the seeds [seed_1], ..., [seed_n]. *)
Definition generate_keys (command seed : string) (n : Z) (model : string) : MW (list pyval) :=
  mmap (λ i, launch_bootstrap_tool command
    (PDict [("seed", PStr (seed +:+ "_" +:+ str_of_Z (i + 1)))]) model) (zrange 0 n).

Definition generate_secrets (seed : string) (number_of_accounts : Z) (model : string) : MW (list Account) :=
  let! secrets := generate_keys "generatekey" seed number_of_accounts model in
  lift (omapM (λ s, obind (getitem s "secret") (λ a, obind (getitem s "publicKey") (λ b,
    Val (mkAccount a b)))) secrets).

Definition generate_vrf_secrets (seed : string) (number_of_vrf_keys : Z) (model : string) : MW (list VrfAccount) :=
  let! secrets := generate_keys "generateVrfKey" seed number_of_vrf_keys model in
  lift (omapM (λ s, obind (getitem s "vrfSecret") (λ a, obind (getitem s "vrfPublicKey") (λ b,
    Val (mkVrfAccount a b)))) secrets).

Definition generate_account_proposition (seed : string) (number_of_acc_props : Z) (model : string)
    : MW (list AccountKey) :=
  let! secrets := generate_keys "generateAccountKey" seed number_of_acc_props model in
  lift (omapM (λ s, obind (getitem s "accountSecret") (λ a, obind (getitem s "accountProposition") (λ b,
    Val (mkAccountKey a b)))) secrets).

Definition generate_cert_signer_secrets (seed : string) (number_of_schnorr_keys : Z) (model : string)
    : MW (list SchnorrAccount) :=
  let! secrets := generate_keys "generateCertificateSignerKey" seed number_of_schnorr_keys model in
  lift (omapM (λ s, obind (getitem s "signerSecret") (λ a, obind (getitem s "signerPublicKey") (λ b,
    Val (mkSchnorrAccount a b)))) secrets).

Definition generate_certificate_proof_info (seed : string) (number_of_signer_keys threshold : Z)
    (keys_paths : ProofKeysPaths) (is_csw_enabled : bool) (circuit_type model : string)
    : MW CertificateProofInfo :=
  let! signer_keys := generate_cert_signer_secrets seed number_of_signer_keys model in
  let signer_secrets := map schnorr_secret signer_keys in
  let public_signing_keys := map schnorr_publicKey signer_keys in
  let json_parameters := [("signersPublicKeys", PList public_signing_keys);
    ("threshold", PInt threshold); ("provingKeyPath", PStr (proving_key_path keys_paths));
    ("verificationKeyPath", PStr (verification_key_path keys_paths));
    ("isCSWEnabled", PBool is_csw_enabled)] in
  let! master_keys := (if String.eqb circuit_type KEY_ROTATION_CIRCUIT
    then generate_cert_signer_secrets ("master" +:+ seed) number_of_signer_keys model else ret []) in
  let public_master_keys := map schnorr_publicKey master_keys in
  let json_parameters := if String.eqb circuit_type KEY_ROTATION_CIRCUIT
    then dict_set "mastersPublicKeys" (PList public_master_keys) json_parameters else json_parameters in
  let! output := launch_bootstrap_tool
    (if String.eqb circuit_type NO_KEY_ROTATION_CIRCUIT then "generateCertProofInfo"
     else "generateCertWithKeyRotationProofInfo") (PDict json_parameters) model in
  let% threshold := getitem output "threshold" in
  let% verification_key := getitem output "verificationKey" in
  let% gen_sys_constant := getitem output "genSysConstant" in
  ret (mkCertificateProofInfo threshold gen_sys_constant verification_key signer_secrets
         public_signing_keys (map schnorr_secret master_keys) public_master_keys).

Definition get_known_peers (known_peers_indexes : list Z) : MW string :=
  let! addresses := mmap (λ index,
    let! port := sc_p2p_port index in
    ret (qt +:+ "127.0.0.1:" +:+ str_of_Z port +:+ qt)) known_peers_indexes in
  ret ("[" +:+ str_join "," addresses +:+ "]").

Definition generate_csw_proof_info (withdrawal_epoch_len : Z) (keys_paths : ProofKeysPaths) (model : string)
    : MW pyval :=
  let! output := launch_bootstrap_tool "generateCswProofInfo"
    (PDict [("withdrawalEpochLen", PInt withdrawal_epoch_len);
            ("provingKeyPath", PStr (proving_key_path keys_paths));
            ("verificationKeyPath", PStr (verification_key_path keys_paths))]) model in
  lift (getitem output "verificationKey").

Definition calculateApiKeyHash (auth_api_key model : string) : MW pyval :=
  let! r := launch_bootstrap_tool "encodeString" (PDict [("string", PStr auth_api_key)]) model in
  lift (getitem r "encodedString").

(** ** Node configuration files *)

Definition read_file (path : string) : MW string := run_os (λ w, (os_read path w, w)).

Definition ensure_dir (path : string) : MW unit :=
  let! there := ask (os_isdir path) in when (negb there) (makedirs path).

(** The substitution of the template. *)
Definition sc_config_env (dirname : string) (n : Z) (model : string) (info : SCBootstrapInfo)
    (cfg : SCNodeConfiguration) (log_info : LogInfo) (rest_api_timeout apiPort bindPort : Z)
    (api_key_hash : pyval) (signer_private_keys forgers : list pyval)
    : outcome (list (string * pyval)) :=
  let ws := mc_connection_info cfg in
  let proof := certificate_proof_info info in
  let csw f := PStr (match csw_keys_paths info with Some p => f p | None => "" end) in
  obind (dumps (PList (known_peers cfg))) (λ known_peers_json,
  obind (dumps (PStr (storage_backup_interval cfg))) (λ backup_interval,
  obind (dumps (PStr (storage_backup_delay cfg))) (λ backup_delay,
  obind (dumps (PList (genesis_secrets info cfg))) (λ secrets_json,
  obind (dumps (PList (public_signing_keys proof))) (λ signing_json,
  obind (dumps (PList signer_private_keys)) (λ signers_json,
  obind (dumps (PList (public_master_keys proof))) (λ masters_json,
  Val [("NODE_NUMBER", PInt n);
       ("DIRECTORY", PStr dirname);
       ("LOG_FILE_LEVEL", PStr (logFileLevel log_info));
       ("LOG_CONSOLE_LEVEL", PStr (logConsoleLevel log_info));
       ("WALLET_SEED", PStr ("sidechain_seed_" +:+ str_of_Z n));
       ("API_ADDRESS", PStr "127.0.0.1");
       ("API_PORT", PStr (str_of_Z apiPort));
       ("API_KEY_HASH", PStr (if py_neqb api_key_hash (PStr "")
          then "apiKeyHash = " +:+ qt +:+ py_str api_key_hash +:+ qt
          else String (ascii_of_nat 13) ""));
       ("API_TIMEOUT", PStr (str_of_Z rest_api_timeout +:+ "s"));
       ("BIND_PORT", PStr (str_of_Z bindPort));
       ("MAX_INCOMING_CONNECTIONS", PInt (max_incoming_connections cfg));
       ("MAX_OUTGOING_CONNECTIONS", PInt (max_outgoing_connections cfg));
       ("GET_PEERS_INTERVAL", PStr (get_peers_interval cfg));
       ("DECLARED_ADDRESS", PStr (match declared_address cfg with
          | Some a => "declaredAddress = " +:+ qt +:+ a +:+ qt | None => "" end));
       ("KNOWN_PEERS", PStr known_peers_json);
       ("STORAGE_BACKUP_INTERVAL", PStr backup_interval);
       ("STORAGE_BACKUP_DELAY", PStr backup_delay);
       ("ALLOW_UNPROTECTED_TXS", str_bool (allow_unprotected_txs cfg));
       ("OFFLINE_GENERATION", PStr "false");
       ("GENESIS_SECRETS", PStr secrets_json);
       ("MAX_TX_FEE", PInt (max_fee cfg));
       ("MEMPOOL_MAX_SIZE", PInt (mempool_max_size cfg));
       ("MEMPOOL_MIN_FEE_RATE", PInt (mempool_min_fee_rate cfg));
       ("SIDECHAIN_ID", sidechain_id info);
       ("GENESIS_DATA", sidechain_genesis_block_hex info);
       ("POW_DATA", pow_data info);
       ("BLOCK_HEIGHT", mainchain_block_height info);
       ("NETWORK", network info);
       ("NON_CEASING", str_bool (is_non_ceasing info));
       ("WITHDRAWAL_EPOCH_LENGTH", PInt (withdrawal_epoch_length info));
       ("INITIAL_COMM_TREE_CUMULATIVE_HASH", initial_cumulative_comm_tree_hash info);
       ("WEBSOCKET_ADDRESS", PStr (address ws));
       ("CONNECTION_TIMEOUT", PInt (connectionTimeout ws));
       ("RECONNECTION_DELAY", PInt (reconnectionDelay ws));
       ("RECONNECTION_MAX_ATTEMPTS", PInt (reconnectionMaxAttempts ws));
       ("WEBSOCKET_SERVER_ENABLED", str_bool (websocket_server_enabled cfg));
       ("WEBSOCKET_SERVER_PORT", PInt (websocket_server_port cfg));
       ("THRESHOLD", threshold proof);
       ("SUBMITTER_CERTIFICATE", str_bool (cert_submitter_enabled cfg));
       ("CERTIFICATE_SIGNING", str_bool (cert_signing_enabled cfg));
       ("SIGNER_PUBLIC_KEY", PStr signing_json);
       ("SIGNER_PRIVATE_KEY", PStr signers_json);
       ("MASTER_PUBLIC_KEY", PStr masters_json);
       ("MAX_PKS", PInt (Z.of_nat (length (public_signing_keys proof))));
       ("CERT_PROVING_KEY_PATH", PStr (proving_key_path (cert_keys_paths info)));
       ("CERT_VERIFICATION_KEY_PATH", PStr (verification_key_path (cert_keys_paths info)));
       ("AUTOMATIC_FEE_COMPUTATION", str_bool (automatic_fee_computation cfg));
       ("CERTIFICATE_FEE", certificate_fee cfg);
       ("CSW_PROVING_KEY_PATH", csw proving_key_path);
       ("CSW_VERIFICATION_KEY_PATH", csw verification_key_path);
       ("RESTRICT_FORGERS", str_bool (restrict_forgers (forger_options cfg)));
       ("ALLOWED_FORGERS_LIST", PList forgers);
       ("MAX_MODIFIERS_SPEC_MESSAGE_SIZE", PInt (if String.eqb model AccountModel
          then DEFAULT_ACCOUNT_MODEL_MAX_PACKET_SIZE else DEFAULT_MAX_PACKET_SIZE));
       ("CIRCUIT_TYPE", PStr (circuit_type info));
       ("REMOTE_KEY_MANAGER_ENABLED", str_bool (remote_keys_manager_enabled cfg));
       ("REMOTE_SERVER_ADDRESS", match remote_keys_server_address cfg with
          | Some a => a | None => PStr "" end);
       ("MAX_NONCE_GAP", PInt (max_nonce_gap cfg));
       ("MAX_ACCOUNT_SLOTS", PInt (max_account_slots cfg));
       ("MAX_MEMPOOL_SLOTS", PInt (max_mempool_slots cfg));
       ("MAX_NONEXEC_SLOTS", PInt (max_nonexec_pool_slots cfg));
       ("TX_LIFETIME", PInt (tx_lifetime cfg));
       ("HANDLING_TXS_ENABLED", str_bool (handling_txs_enabled cfg));
       ("FORGER_REWARD_ADDRESS", PStr (forger_reward_address (forger_options cfg)));
       ("EVM_STATE_DUMP_ENABLED", str_bool (evm_state_dump_enabled cfg))]))))))).

Definition node_config_entry (n apiPort : Z) : pyval :=
  PDict [("name", PStr ("node" +:+ str_of_Z n)); ("url", PStr ("http://127.0.0.1:" +:+ str_of_Z apiPort))].

(** A public key in a forger entry: [str + key] needs text. *)
Definition as_text (v : pyval) : outcome string :=
  match v with PStr s => Val s | _ => Exc TypeError end.

(** With restricted forgers, a node with the genesis keys allows itself: its
    entry is appended to the list its forger options refer to. *)
Definition allow_genesis_forger (info : SCBootstrapInfo) (cfg : SCNodeConfiguration) : MW unit :=
  match restrict_forgers (forger_options cfg), genesis_vrf_account info, genesis_account info with
  | true, Some vrf, Some acc =>
      let% k := as_text (publicKey acc) in
      let% v := as_text (vrf_publicKey vrf) in
      append_list (allowed_forgers (forger_options cfg)) (PStr (forger_entry k v))
  | _, _, _ => ret tt
  end.

Definition initialize_sc_datadir (dirname : string) (n : Z) (model : string) (info : SCBootstrapInfo)
    (cfg : SCNodeConfiguration) (log_info : LogInfo) (rest_api_timeout : Z) : MW (list pyval) :=
  let! apiPort := sc_rpc_port n in
  let! bindPort := sc_p2p_port n in
  let datadir := sc_node_dir dirname n in
  do! ensure_dir datadir in
  let! resourcesDir := get_resources_dir in
  let customFileName := resourcesDir +:+ "/template_" +:+ str_of_Z (n + 1) +:+ ".conf" in
  let! custom := ask (os_isfile customFileName) in
  let! tmpConfig := read_file (if custom then customFileName else resourcesDir +:+ "/template.conf") in
  let% signer_private_keys := omapM (list_index (schnorr_signers_secrets (certificate_proof_info info)))
    (submitter_private_keys_indexes cfg) in
  let! api_key_hash := (if String.eqb (api_key cfg) "" then ret (PStr "")
                        else calculateApiKeyHash (api_key cfg) model) in
  do! allow_genesis_forger info cfg in
  let! forgers := read_list (allowed_forgers (forger_options cfg)) in
  let% env := sc_config_env dirname n model info cfg log_info rest_api_timeout apiPort bindPort
    api_key_hash signer_private_keys forgers in
  let% config := percent_format tmpConfig env in
  let config := str_replace config (String squote "") "" in
  let config := str_replace config "NEW_LINE" newline in
  do! write_file (path_join datadir ("node" +:+ str_of_Z n +:+ ".conf")) config in
  ret [node_config_entry n apiPort].

Definition initialize_default_sc_datadir (dirname : string) (n : Z) (api_key : string) : MW (list pyval) :=
  let! apiPort := sc_rpc_port n in
  let! bindPort := sc_p2p_port n in
  let datadir := sc_node_dir dirname n in
  do! ensure_dir datadir in
  let! sdk := getenv "SIDECHAIN_SDK" ".." in
  let ps_keys_dir := sdk +:+ "/qa/ps_keys" in
  do! ensure_dir ps_keys_dir in
  let% cert_keys := cert_proof_keys_paths ps_keys_dir 7 false NO_KEY_ROTATION_CIRCUIT in
  let csw_keys := csw_proof_keys_paths ps_keys_dir LARGE_WITHDRAWAL_EPOCH_LENGTH in
  let! resourcesDir := get_resources_dir in
  let! tmpConfig := read_file (resourcesDir +:+ "/template_predefined_genesis.conf") in
  let% config := percent_format tmpConfig
    [("NODE_NUMBER", PInt n); ("DIRECTORY", PStr dirname);
     ("WALLET_SEED", PStr ("sidechain_seed_" +:+ str_of_Z n)); ("API_ADDRESS", PStr "127.0.0.1");
     ("API_PORT", PStr (str_of_Z apiPort)); ("API_TIMEOUT", PStr "5s");
     ("BIND_PORT", PStr (str_of_Z bindPort)); ("MAX_INCOMING_CONNECTIONS", PInt 100);
     ("MAX_OUTGOING_CONNECTIONS", PInt 100); ("KNOWN_PEERS", PList []);
     ("STORAGE_BACKUP_INTERVAL", PStr "15m"); ("STORAGE_BACKUP_DELAY", PStr "5m");
     ("ALLOW_UNPROTECTED_TXS", PStr "true"); ("GET_PEERS_INTERVAL", PStr "2m");
     ("OFFLINE_GENERATION", PStr "false"); ("SUBMITTER_CERTIFICATE", PStr "false");
     ("CERTIFICATE_SIGNING", PStr "false");
     ("CERT_PROVING_KEY_PATH", PStr (proving_key_path cert_keys));
     ("CERT_VERIFICATION_KEY_PATH", PStr (verification_key_path cert_keys));
     ("CSW_PROVING_KEY_PATH", PStr (proving_key_path csw_keys));
     ("CSW_VERIFICATION_KEY_PATH", PStr (verification_key_path csw_keys));
     ("RESTRICT_FORGERS", PStr "false"); ("ALLOWED_FORGERS_LIST", PList []);
     ("MAX_MODIFIERS_SPEC_MESSAGE_SIZE", PInt DEFAULT_MAX_PACKET_SIZE);
     ("REMOTE_KEY_MANAGER_ENABLED", PStr "false"); ("REMOTE_SERVER_ADDRESS", PStr "")] in
  do! write_file (path_join datadir ("node" +:+ str_of_Z n +:+ ".conf")) config in
  ret [node_config_entry n apiPort].

Definition initialize_default_sc_chain_clean (test_dir : string) (num_nodes : Z) (api_key : string) : MW unit :=
  forM_ (zrange 0 num_nodes) (λ i, do! initialize_default_sc_datadir test_dir i api_key in ret tt).

(** ** The sidechain and its nodes *)

Definition create_sidechain (sci : SCCreationInfo) (block_timestamp_rewind : pyval)
    (cert_keys_paths : ProofKeysPaths) (csw_keys_paths : option ProofKeysPaths) (model : string)
    : MW SCBootstrapInfo :=
  let! accounts := generate_secrets "seed" 1 model in
  let! vrf_keys := generate_vrf_secrets "seed" 1 model in
  let% genesis_account := list_index accounts 0 in
  let% vrf_key := list_index vrf_keys 0 in
  let withdrawal_epoch_length := if non_ceasing sci then 0 else sci_withdrawal_epoch_length sci in
  let virtual_withdrawal_epoch_length := if non_ceasing sci then sci_withdrawal_epoch_length sci else 0 in
  let! proof := generate_certificate_proof_info "seed" (cert_max_keys sci) (cert_sig_threshold sci)
    cert_keys_paths (csw_enabled sci) (sci_circuit_type sci) model in
  let! csw_verification_key := (match csw_keys_paths with
    | None => ret (PStr "")
    | Some p => generate_csw_proof_info (sci_withdrawal_epoch_length sci) p model
    end) in
  let! genesis_evm_account := (if String.eqb model AccountModel then
      let! evm_accounts := generate_account_proposition "seed" 1 model in
      let% a := list_index evm_accounts 0 in ret (Some a)
    else ret None) in
  let! '(genesis_info, height, scid) := initialize_new_sidechain_in_mainchain (mc_node sci)
    (PInt withdrawal_epoch_length) (publicKey genesis_account) (forward_amount sci)
    (vrf_publicKey vrf_key) (genSysConstant proof) (verificationKey proof) csw_verification_key
    (PInt (btr_data_length sci)) (sc_creation_version sci) (csw_enabled sci) (sci_circuit_type sci)
    (match genesis_evm_account with Some a => proposition a | None => PNone end) in
  let! genesis_data := generate_genesis_data genesis_info (secret genesis_account) (vrf_secret vrf_key)
    block_timestamp_rewind model virtual_withdrawal_epoch_length in
  let% block_hex := getitem genesis_data "scGenesisBlockHex" in
  let% pow := getitem genesis_data "powData" in
  let% net := getitem genesis_data "mcNetwork" in
  let% cum := getitem genesis_data "initialCumulativeCommTreeHash" in
  ret (mkSCBootstrapInfo scid (Some genesis_account) (forward_amount sci) height block_hex pow net
         (sci_withdrawal_epoch_length sci) (Some vrf_key) proof cum (non_ceasing sci) cert_keys_paths
         csw_keys_paths genesis_evm_account (sci_circuit_type sci)).

Definition bootstrap_sidechain_node (dirname : string) (n : Z) (info : SCBootstrapInfo)
    (cfg : SCNodeConfiguration) (model : string) (log_info : LogInfo) (rest_api_timeout : Z) : MW unit :=
  do! initialize_sc_datadir dirname n model info cfg log_info rest_api_timeout in ret tt.

(** The info given to every node but the first: without the genesis accounts. *)
Definition without_accounts (info : SCBootstrapInfo) (cert_keys : ProofKeysPaths)
    (csw_keys : option ProofKeysPaths) (circuit : string) : SCBootstrapInfo :=
  mkSCBootstrapInfo (sidechain_id info) None (genesis_account_balance info)
    (mainchain_block_height info) (sidechain_genesis_block_hex info) (pow_data info) (network info)
    (withdrawal_epoch_length info) (genesis_vrf_account info) (certificate_proof_info info)
    (initial_cumulative_comm_tree_hash info) (is_non_ceasing info) cert_keys csw_keys None circuit.

Definition bootstrap_sidechain_nodes (options : run_options) (net : SCNetworkConfiguration)
    (block_timestamp_rewind : pyval) (model : string) : MW SCBootstrapInfo :=
  let log_info := mkLogInfo (logfilelevel options) (logconsolelevel options) in
  let total := Z.of_nat (length (sc_nodes_configuration net)) in
  let sci := sc_creation_info net in
  let! sdk := getenv "SIDECHAIN_SDK" ".." in
  let ps_keys_dir := sdk +:+ "/qa/ps_keys" in
  do! ensure_dir ps_keys_dir in
  let% cert_keys := cert_proof_keys_paths ps_keys_dir (cert_max_keys sci) (csw_enabled sci)
    (sci_circuit_type sci) in
  let csw_keys := if csw_enabled sci
    then Some (csw_proof_keys_paths ps_keys_dir (sci_withdrawal_epoch_length sci)) else None in
  let! info := create_sidechain sci block_timestamp_rewind cert_keys csw_keys model in
  let empty := without_accounts info cert_keys csw_keys (sci_circuit_type sci) in
  do! forM_ (zrange 0 total) (λ i,
    let% cfg := list_index (sc_nodes_configuration net) i in
    bootstrap_sidechain_node (tmpdir options) i (if i =? 0 then info else empty) cfg model log_info
      (restapitimeout options)) in
  ret info.
End Bootstrap.
