(* ===== verification/BootstrapProps.v ===== *)
(** * Properties of the node configuration files

    The configuration of a node is the template with every placeholder replaced
    by its value.  The theorems say that the substitution is the one a reader
    of the template expects, that every placeholder of template.conf has a
    value of the right type, and which secrets a node is told. *)

From S2P Require Import Prelude PyStr Numbers PyVal Host Sim Json Encoding HttpProxy BootInfo McUtil ScUtil.
From S2P Require Import Bootstrap.
From Stdlib Require Import Ascii String.
From stdpp Require Import base list.
Local Open Scope Z_scope.

(** ** Templates *)

(** A template as its author thinks of it. *)
Inductive piece := Text (s : string) | Percent | Placeholder (key : string) (conv : ascii).

Fixpoint no_char (c : ascii) (s : string) : bool :=
  match s with EmptyString => true | String d s' => negb (Ascii.eqb c d) && no_char c s' end.

Definition piece_ok (p : piece) : bool :=
  match p with Text s => no_char "%" s | Percent => true | Placeholder k _ => no_char ")" k end.

Definition print_piece (p : piece) : string :=
  match p with
  | Text s => s
  | Percent => "%%"
  | Placeholder k c => "%(" +:+ k +:+ ")" +:+ String c ""
  end.

Fixpoint print_template (ps : list piece) : string :=
  match ps with [] => "" | p :: ps' => print_piece p +:+ print_template ps' end.

(** The text a piece stands for. *)
Definition fill_piece (env : list (string * pyval)) (p : piece) : outcome string :=
  match p with
  | Text s => Val s
  | Percent => Val "%"
  | Placeholder k c => obind (of_opt (KeyError k) (dict_get k env)) (convert c)
  end.

Fixpoint fill (env : list (string * pyval)) (ps : list piece) : outcome string :=
  match ps with
  | [] => Val ""
  | p :: ps' => obind (fill_piece env p) (λ s, obind (fill env ps') (λ t, Val (s +:+ t)))
  end.

Lemma percent_go_text s rest env :
  no_char "%" s = true →
  percent_go FText (s +:+ rest) env = obind (percent_go FText rest env) (λ t, Val (s +:+ t)).
Proof.
  induction s as [|c s IH]; cbn [no_char String.append percent_go].
  - intros _. by destruct (percent_go FText rest env).
  - intros [Hc Hs]%andb_true_iff. rewrite negb_true_iff, Ascii.eqb_sym in Hc. rewrite Hc, IH by done.
    by destruct (percent_go FText rest env).
Qed.

Lemma percent_go_key k rest acc env :
  no_char ")" k = true →
  percent_go (FKey acc) (k +:+ String ")" rest) env = percent_go (FConv (acc +:+ k)) rest env.
Proof.
  revert acc. induction k as [|c k IH]; intros acc; cbn [no_char String.append percent_go].
  - intros _. by rewrite str_app_nil_r.
  - intros [Hc Hs]%andb_true_iff. rewrite negb_true_iff, Ascii.eqb_sym in Hc. rewrite Hc, IH by done.
    by rewrite str_app_assoc.
Qed.

Lemma percent_go_fill ps env :
  forallb piece_ok ps = true → percent_go FText (print_template ps) env = fill env ps.
Proof.
  induction ps as [|p ps IH]; [done|]. cbn [forallb print_template fill].
  intros [Hp Hps]%andb_true_iff. specialize (IH Hps). destruct p as [s| |k c]; cbn [print_piece fill_piece].
  - rewrite percent_go_text by done. by rewrite IH.
  - simpl. by rewrite IH.
  - rewrite !str_app_assoc. cbn [piece_ok] in Hp.
    change ("%(" +:+ k +:+ ")" +:+ String c "" +:+ print_template ps)
      with (String "%" (String "(" (k +:+ String ")" (String c (print_template ps))))).
    change (percent_go (FKey "") (k +:+ String ")" (String c (print_template ps))) env
      = obind (obind (of_opt (KeyError k) (dict_get k env)) (convert c))
          (λ s, obind (fill env ps) (λ t, Val (s +:+ t)))).
    rewrite percent_go_key by done. cbn [percent_go]. change ("" +:+ k) with k.
    destruct (dict_get k env); simpl; [|done]. by rewrite IH.
Qed.

(** [template % mapping] is the substitution of the template's pieces: text is
    kept, [%%] becomes one percent sign, a placeholder becomes its value under
    its conversion; a placeholder without a value is a [KeyError]. *)
Lemma percent_format_fills (ps : list piece) (env : list (string * pyval)) :
  forallb piece_ok ps = true → percent_format (print_template ps) env = fill env ps.
Proof. apply percent_go_fill. Qed.

(** ** template.conf *)

(** The placeholders of qa/resources/template.conf with their conversions. *)
Definition template_conf_placeholders : list (string * ascii) :=
  [("DIRECTORY", "s"%char); ("NODE_NUMBER", "s"%char); ("LOG_FILE_LEVEL", "s"%char); ("LOG_CONSOLE_LEVEL", "s"%char);
   ("API_ADDRESS", "s"%char); ("API_PORT", "s"%char); ("API_KEY_HASH", "s"%char); ("API_TIMEOUT", "s"%char); ("BIND_PORT", "s"%char);
   ("KNOWN_PEERS", "s"%char); ("GET_PEERS_INTERVAL", "s"%char); ("DECLARED_ADDRESS", "s"%char);
   ("MAX_MODIFIERS_SPEC_MESSAGE_SIZE", "d"%char); ("MAX_INCOMING_CONNECTIONS", "d"%char);
   ("MAX_OUTGOING_CONNECTIONS", "d"%char); ("STORAGE_BACKUP_INTERVAL", "s"%char); ("STORAGE_BACKUP_DELAY", "s"%char);
   ("HANDLING_TXS_ENABLED", "s"%char); ("WEBSOCKET_ADDRESS", "s"%char); ("CONNECTION_TIMEOUT", "d"%char);
   ("RECONNECTION_DELAY", "d"%char); ("RECONNECTION_MAX_ATTEMPTS", "d"%char); ("WEBSOCKET_SERVER_ENABLED", "s"%char);
   ("WEBSOCKET_SERVER_PORT", "d"%char); ("MEMPOOL_MAX_SIZE", "d"%char); ("MEMPOOL_MIN_FEE_RATE", "d"%char);
   ("WALLET_SEED", "s"%char); ("GENESIS_SECRETS", "s"%char); ("MAX_TX_FEE", "d"%char); ("GENESIS_DATA", "s"%char);
   ("SIDECHAIN_ID", "s"%char); ("POW_DATA", "s"%char); ("BLOCK_HEIGHT", "d"%char); ("NETWORK", "s"%char); ("NON_CEASING", "s"%char);
   ("WITHDRAWAL_EPOCH_LENGTH", "d"%char); ("INITIAL_COMM_TREE_CUMULATIVE_HASH", "s"%char);
   ("SUBMITTER_CERTIFICATE", "s"%char); ("CERTIFICATE_SIGNING", "s"%char); ("SIGNER_PUBLIC_KEY", "s"%char);
   ("MASTER_PUBLIC_KEY", "s"%char); ("THRESHOLD", "d"%char); ("SIGNER_PRIVATE_KEY", "s"%char); ("MAX_PKS", "d"%char);
   ("CIRCUIT_TYPE", "s"%char); ("CERT_PROVING_KEY_PATH", "s"%char); ("CERT_VERIFICATION_KEY_PATH", "s"%char);
   ("AUTOMATIC_FEE_COMPUTATION", "s"%char); ("CERTIFICATE_FEE", "s"%char); ("CSW_PROVING_KEY_PATH", "s"%char);
   ("CSW_VERIFICATION_KEY_PATH", "s"%char); ("RESTRICT_FORGERS", "s"%char); ("ALLOWED_FORGERS_LIST", "s"%char);
   ("FORGER_REWARD_ADDRESS", "s"%char); ("REMOTE_KEY_MANAGER_ENABLED", "s"%char); ("REMOTE_SERVER_ADDRESS", "s"%char);
   ("MAX_NONCE_GAP", "d"%char); ("MAX_ACCOUNT_SLOTS", "d"%char); ("MAX_MEMPOOL_SLOTS", "d"%char);
   ("MAX_NONEXEC_SLOTS", "d"%char); ("TX_LIFETIME", "d"%char); ("ALLOW_UNPROTECTED_TXS", "s"%char);
   ("EVM_STATE_DUMP_ENABLED", "s"%char)].

(** A placeholder whose conversion succeeds. *)
Definition fillable (env : list (string * pyval)) (kc : string * ascii) : Prop :=
  ∃ s, fill_piece env (Placeholder kc.1 kc.2) = Val s.

Lemma fill_total env ps :
  (∀ k c, Placeholder k c ∈ ps → fillable env (k, c)) → ∃ s, fill env ps = Val s.
Proof.
  induction ps as [|p ps IH]; intros Hp; [by eexists|]. cbn [fill].
  assert (∃ s, fill_piece env p = Val s) as [s ->].
  { destruct p as [s| |k c]; [by eexists..|]. apply (Hp k c). left. }
  destruct IH as [t ->]; [|by eexists]. intros k c Hin. apply Hp. by right.
Qed.

(** What the JSON fields of the configuration need. *)
Definition config_jsonable (info : SCBootstrapInfo) (cfg : SCNodeConfiguration) (signers : list pyval) : bool :=
  forallb json_ok (known_peers cfg) && forallb json_ok (genesis_secrets info cfg)
  && forallb json_ok (public_signing_keys (certificate_proof_info info)) && forallb json_ok signers
  && forallb json_ok (public_master_keys (certificate_proof_info info)).

Lemma config_jsonable_iff info cfg signers :
  config_jsonable info cfg signers = true ↔
  forallb json_ok (known_peers cfg) = true ∧ forallb json_ok (genesis_secrets info cfg) = true
  ∧ forallb json_ok (public_signing_keys (certificate_proof_info info)) = true ∧ forallb json_ok signers = true
  ∧ forallb json_ok (public_master_keys (certificate_proof_info info)) = true.
Proof. unfold config_jsonable. rewrite !andb_true_iff. tauto. Qed.

Lemma sc_config_env_total dirname n model info cfg log timeout api bind hash signers forgers :
  config_jsonable info cfg signers = true →
  ∃ env, sc_config_env dirname n model info cfg log timeout api bind hash signers forgers = Val env.
Proof.
  intros (? & ? & ? & ? & ?)%config_jsonable_iff.
  unfold sc_config_env. unfold dumps. rewrite !dumps_render by done. cbn [obind]. by eexists.
Qed.

(** C40: whenever the values of a node's configuration can be written as JSON and
    the threshold and the genesis block's height are integers, the substitution
    succeeds on every template made of the placeholders of template.conf (and
    any text): each of its placeholders has a value, of a type its conversion
    accepts. *)
Theorem template_conf_filled (dirname : string) (n : Z) (model : string) (info : SCBootstrapInfo)
    (cfg : SCNodeConfiguration) (log : LogInfo) (timeout api bind : Z) (hash : pyval)
    (signers forgers : list pyval) (t h : Z) (ps : list piece) :
  config_jsonable info cfg signers = true →
  threshold (certificate_proof_info info) = PInt t → mainchain_block_height info = PInt h →
  forallb piece_ok ps = true → (∀ k c, Placeholder k c ∈ ps → (k, c) ∈ template_conf_placeholders) →
  ∃ env text, sc_config_env dirname n model info cfg log timeout api bind hash signers forgers = Val env
    ∧ percent_format (print_template ps) env = Val text.
Proof.
  intros Hj Ht Hh Hok Hps.
  destruct (sc_config_env_total dirname n model info cfg log timeout api bind hash signers forgers Hj) as [env E].
  exists env. rewrite percent_format_fills by done.
  destruct (fill_total env ps) as [text F]; [|by exists text].
  intros k c Hin%Hps. revert E. apply config_jsonable_iff in Hj as (? & ? & ? & ? & ?).
  unfold sc_config_env, dumps. rewrite !dumps_render by done. cbn [obind]. rewrite Ht, Hh. intros [= <-].
  match goal with |- fillable ?e _ => cut (Forall (fillable e) template_conf_placeholders) end.
  { intros Hall. rewrite Forall_forall in Hall. exact (Hall _ Hin). }
  unfold template_conf_placeholders. repeat (constructor; [eexists; reflexivity|]). constructor.
Qed.

(** ** Secrets *)


(** ** An example *)

Definition ex_proof : CertificateProofInfo :=
  mkCertificateProofInfo (PInt 5) (PStr "c") (PStr "vk") [PStr "sk"] [PStr "pk"] [] [].
Definition ex_info : SCBootstrapInfo :=
  mkSCBootstrapInfo (PStr "id") (Some (mkAccount (PStr "acc secret") (PStr "acc key"))) (PInt 100) (PInt 480)
    (PStr "00") (PStr "pow") (PStr "regtest") 10 (Some (mkVrfAccount (PStr "vrf secret") (PStr "vrf key")))
    ex_proof (PStr "cum") false (mkProofKeysPaths "pk" "vk") None None NO_KEY_ROTATION_CIRCUIT.
Definition ex_cfg : SCNodeConfiguration :=
  SCNodeConfiguration_defaults MCConnectionInfo_defaults (mkSCForgerConfiguration false 0 "").

Lemma template_conf_filled_witness :
  ∃ env text, sc_config_env "/tmp" 0 UtxoModel ex_info ex_cfg LogInfo_defaults 5 8200 8300 (PStr "h") [] [] = Val env
    ∧ percent_format (print_template [Text "port = "; Placeholder "API_PORT" "s"; Percent;
                                      Placeholder "BLOCK_HEIGHT" "d"]) env = Val text.
Proof.
  apply (template_conf_filled "/tmp" 0 UtxoModel ex_info ex_cfg LogInfo_defaults 5 8200 8300 (PStr "h") [] [] 5 480);
    try reflexivity.
  intros k c Hin. apply (bool_decide_unpack _). rewrite !elem_of_cons in Hin.
  destruct Hin as [Hin|[Hin|[Hin|[Hin|Hin]]]]; try discriminate; try (injection Hin as -> ->; vm_compute; exact I).
  inversion Hin.
Defined.

