(* ===== verification/Framework.v ===== *)
(** * The test driver: sc_test_framework.py

    [SidechainTestFramework.main] runs a test: directories and ports, the
    mainchain, the sidechain, the test itself, and whatever happened, the
    shutdown of the nodes.  A test class overrides the five steps, which are
    the fields of [TestClass].  The attributes of [self] outlive an exception,
    so they are part of the state: the world is paired with them, and the
    interfaces to the environment go through to the world.

    Option parsing and logging are not modelled: the options are a record, and
    [logging] calls are left out except where they can raise. *)

From S2P Require Import Prelude PyStr Numbers PyVal Host Sim Json Encoding HttpProxy BootInfo McUtil ScUtil.
From S2P Require Import Forging Bootstrap.
From Stdlib Require Import Ascii String.
From stdpp Require Import base list.
Local Open Scope Z_scope.

(** ** Options *)

Record Options := mkFrameworkOptions {
  op_tmpdir : string;
  nocleanup : bool;
  noshutdown : bool;
  op_restapitimeout : Z;
  op_logfilelevel : string;
  op_logconsolelevel : string;
  debugnode : option string;
  nonceasing : bool;
  certcircuittype : string;
  parallel : Z;
  mcblockdelay : Z;
  jacoco : bool;
  all_forks : bool;
  maxhistoryrewritinglength : Z
}.

(** Every option left at its default, in the given temporary directory. *)
Definition default_options (tmp : string) : Options :=
  mkFrameworkOptions tmp false false 5 "debug" "info" None false NO_KEY_ROTATION_CIRCUIT 0 0 false false 100.

Definition run_options_of (o : Options) : run_options :=
  mkOptions (op_tmpdir o) (op_logfilelevel o) (op_logconsolelevel o) (op_restapitimeout o).

(** ** The attributes of [self] *)

(** An attribute may be missing, or be [None], or hold a value. *)
Inductive attr (A : Type) := Missing | IsNone | Is (a : A).
Arguments Missing {A}.
Arguments IsNone {A}.
Arguments Is {A}.

Record Self := mkSelf {
  nodes : option (list proxy);
  sc_nodes : attr (list proxy);
  debug_extra_args : option (list (list string));
  number_of_sidechain_nodes : option Z;
  sc_nodes_bootstrap_info : option SCBootstrapInfo;
  is_network_split : option bool                (* of the mainchain-only driver *)
}.

Record FW (W : Type) := mkFW { fw_self : Self; fw_world : W }.
Arguments mkFW {W}.
Arguments fw_self {W}.
Arguments fw_world {W}.

Definition through {W A} (f : W → A * W) (w : FW W) : A * FW W :=
  let '(a, w') := f (fw_world w) in (a, mkFW (fw_self w) w').

Section Instances.
Context {W : Type} `{Nodes W, Clock W, Os W, Rng W}.

#[export] Instance fw_nodes : Nodes (FW W) := λ p m args kw, through (node_call p m args kw).

#[export] Instance fw_clock : Clock (FW W) := {
  clk_now := through clk_now;
  clk_sleep us w := mkFW (fw_self w) (clk_sleep us (fw_world w))
}.

#[export] Instance fw_os : Os (FW W) := {
  os_getpid w := os_getpid (fw_world w);
  os_getenv n w := os_getenv n (fw_world w);
  os_setenv n v w := mkFW (fw_self w) (os_setenv n v (fw_world w));
  os_home w := os_home (fw_world w);
  os_qa_dir w := os_qa_dir (fw_world w);
  os_platform w := os_platform (fw_world w);
  os_isdir p w := os_isdir p (fw_world w);
  os_isfile p w := os_isfile p (fw_world w);
  os_makedirs p := through (os_makedirs p);
  os_read p w := os_read p (fw_world w);
  os_write p c := through (os_write p c);
  os_remove p := through (os_remove p);
  os_copytree a b := through (os_copytree a b);
  os_rmtree p := through (os_rmtree p);
  os_walk_files d w := os_walk_files d (fw_world w);
  os_popen a := through (os_popen a);
  os_wait h w := mkFW (fw_self w) (os_wait h (fw_world w));
  os_poll h := through (os_poll h);
  os_communicate a := through (os_communicate a);
  os_run a := through (os_run a);
  os_connect_ex a p := through (os_connect_ex a p)
}.

#[export] Instance fw_rng : Rng (FW W) := {
  rng_shuffle A l := through (rng_shuffle l);
  rng_randint a b := through (rng_randint a b);
  rng_urandom n := through (rng_urandom n);
  rng_setiter l w := rng_setiter l (fw_world w)
}.
End Instances.

(** ** The class and its default methods *)

Record TestClass (W : Type) := mkTestClass {
  setup_chain : M (FW W) unit;
  setup_network : M (FW W) unit;
  sc_setup_chain : M (FW W) unit;
  sc_setup_network : M (FW W) unit;
  run_test : M (FW W) unit
}.
Arguments setup_chain {W}.
Arguments setup_network {W}.
Arguments sc_setup_chain {W}.
Arguments sc_setup_network {W}.
Arguments run_test {W}.

Section Framework.
Context {W : Type} `{Nodes W, Clock W, Os W, Rng W}.
Local Abbreviation MF := (M (FW W)).

Definition self_get {A} (f : Self → A) : MF A := ask (λ w, f (fw_self w)).
Definition self_put (f : Self → Self) : MF unit := run_os (λ w, (inr tt, mkFW (f (fw_self w)) (fw_world w))).

Definition put_nodes (l : list proxy) : MF unit := self_put (λ s,
  mkSelf (Some l) (sc_nodes s) (debug_extra_args s) (number_of_sidechain_nodes s) (sc_nodes_bootstrap_info s)
    (is_network_split s)).
Definition put_sc_nodes (l : list proxy) : MF unit := self_put (λ s,
  mkSelf (nodes s) (Is l) (debug_extra_args s) (number_of_sidechain_nodes s) (sc_nodes_bootstrap_info s)
    (is_network_split s)).
Definition put_debug (d : option (list (list string))) : MF unit := self_put (λ s,
  mkSelf (nodes s) (sc_nodes s) d (number_of_sidechain_nodes s) (sc_nodes_bootstrap_info s)
    (is_network_split s)).
Definition put_info (i : SCBootstrapInfo) : MF unit := self_put (λ s,
  mkSelf (nodes s) (sc_nodes s) (debug_extra_args s) (number_of_sidechain_nodes s) (Some i)
    (is_network_split s)).

Definition put_split (b : bool) : MF unit := self_put (λ s,
  mkSelf (nodes s) (sc_nodes s) (debug_extra_args s) (number_of_sidechain_nodes s) (sc_nodes_bootstrap_info s)
    (Some b)).

(** [self.nodes], [self.sc_nodes] where a list is needed *)
Definition get_nodes : MF (list proxy) :=
  let! l := self_get nodes in lift (of_opt (AttributeError "nodes") l).
Definition get_sc_nodes : MF (list proxy) :=
  let! a := self_get sc_nodes in
  match a with Missing => raise (AttributeError "sc_nodes") | IsNone => raise TypeError | Is l => ret l end.

Definition set_parallel_test (n : Z) : MF unit :=
  do! set_mc_parallel_test n in set_sc_parallel_test n.

Definition sync_nodes (fuel : nat) (mc_nodes : list proxy) : MF unit :=
  do! sync_blocks fuel mc_nodes (secs 1) in sync_mempools fuel mc_nodes (secs 1).

Definition sync_all (fuel : nat) : MF unit :=
  let! l := get_nodes in
  do! sync_blocks fuel l (secs 1) in
  let! l := get_nodes in sync_mempools fuel l (secs 1).

Definition sc_sync_nodes (fuel : nat) (l : list proxy) : MF unit :=
  do! sync_sc_blocks fuel l (secs 25) in sync_sc_mempools fuel l (secs 25) false.

Definition sc_sync_all (fuel : nat) (mempool_cardinality_only : bool) : MF unit :=
  let! l := get_sc_nodes in
  do! sync_sc_blocks fuel l (secs 25) in
  let! l := get_sc_nodes in sync_sc_mempools fuel l (secs 25) mempool_cardinality_only.

Definition default_setup_chain (o : Options) : MF unit := initialize_chain_clean (op_tmpdir o) 1.

Definition default_setup_nodes (o : Options) : MF (list proxy) := start_nodes 1 (op_tmpdir o) None None None.

Definition default_setup_network (fuel : nat) (o : Options) : MF unit :=
  let! l := default_setup_nodes o in
  do! put_nodes l in
  sync_all fuel.

(** The connection of a sidechain node to a mainchain node's websocket. *)
Definition ws_address (mc_node : proxy) : MF string :=
  let! port := websocket_port_by_mc_node_index 0 in
  ret ("ws://" +:+ px_hostname mc_node +:+ ":" +:+ str_of_Z port).

(** [shared] is the forger options object that is the default argument. *)
Definition default_sc_setup_chain (o : Options) (shared : SCForgerConfiguration) : MF unit :=
  let! l := get_nodes in
  let% mc_node_1 := list_index l 0 in
  let! address := ws_address mc_node_1 in
  let cfg := SCNodeConfiguration_defaults (mkMCConnectionInfo address 100 1 1) shared in
  let% sci := SCCreationInfo_init mc_node_1 (PInt 600) LARGE_WITHDRAWAL_EPOCH_LENGTH 0 SC_CREATION_VERSION_1 7 5
    false false NO_KEY_ROTATION_CIRCUIT in
  let! info := bootstrap_sidechain_nodes (run_options_of o) (mkSCNetworkConfiguration sci [cfg])
    DefaultBlockTimestampRewind DefaultModel in
  put_info info.

Definition default_sc_setup_nodes (fuel : nat) (o : Options) : MF (list proxy) :=
  start_sc_nodes fuel 1 (op_tmpdir o) None None None false (Some DEFAULT_API_KEY).

Definition default_sc_setup_network (fuel : nat) (o : Options) : MF unit :=
  let! l := default_sc_setup_nodes fuel o in
  do! put_sc_nodes l in
  sc_sync_all fuel false.

(** [self.number_of_sidechain_nodes], an attribute of the classes that have one *)
Definition get_number : MF Z :=
  let! n := self_get number_of_sidechain_nodes in
  lift (of_opt (AttributeError "number_of_sidechain_nodes") n).

Definition sc_setup_nodes_with_extra_arg (fuel : nat) (o : Options) (extra_arg_tag extra_arg_val : string)
    (binary : option string) (api_key : option string) : MF (list proxy) :=
  let! n := get_number in
  let! dbg := self_get debug_extra_args in
  let! extra_args := mmap (λ i,
    let% d := (match dbg with Some l => list_index l i | None => Val [""] end) in
    ret (Some ([extra_arg_tag; extra_arg_val] ++ d))) (zrange 0 n) in
  start_sc_nodes fuel n (op_tmpdir o) (Some extra_args) None (Some (repeat binary (Z.to_nat n))) false api_key.

Definition handle_debug_option (o : Options) : MF unit :=
  match debugnode o with
  | None => put_debug None
  | Some s =>
      let% sc_node_index := of_opt (ValueError "") (parse_int 10 s) in
      let! n := get_number in
      if (0 <=? sc_node_index) && (sc_node_index <? n)
      then put_debug (Some (map (λ i, if i =? sc_node_index then ["-agentlib"] else [""]) (zrange 0 n)))
      else raise (RuntimeError (newline +:+ "===> Error: could not handle --debugnode option. Index "
             +:+ str_of_Z sc_node_index +:+ " out of range [0, " +:+ str_of_Z (n - 1) +:+ "]"))
  end.

(** ** [main] *)

Definition test_body (o : Options) (c : TestClass W) : MF unit :=
  let! there := ask (os_isdir (op_tmpdir o)) in
  do! when (negb there) (makedirs (op_tmpdir o)) in
  do! when (parallel o >? 0) (set_parallel_test (parallel o)) in
  do! set_jacoco (jacoco o) in
  do! setup_chain c in
  do! setup_network c in
  do! sc_setup_chain c in
  do! sc_setup_network c in
  run_test c.

(** The [except] clauses: the message of a JSON-RPC error is looked up and
    concatenated, which can raise itself; [SystemExit] is not an [Exception]. *)
Definition report (e : exn) : MF unit :=
  match e with
  | JSONRPCException error =>
      let% m := getitem error "message" in lift (log_concat m)
  | SystemExit _ => raise e
  | _ => ret tt
  end.

(** The shutdown after the test: [hasattr] is true of an attribute that is
    [None], and [stop_sc_nodes(None)] is a [TypeError]. *)
Definition shutdown (o : Options) : MF unit :=
  if noshutdown o then ret tt
  else
    let! sc := self_get sc_nodes in
    do! (match sc with
         | Missing => ret tt
         | IsNone => raise TypeError
         | Is l => let! l' := stop_sc_nodes l in put_sc_nodes l'
         end) in
    let! mc := self_get nodes in
    match mc with
    | None => ret tt
    | Some l =>
        let! l' := stop_nodes l in
        do! put_nodes l' in
        wait_bitcoinds
    end.

(** The result of the [try] statement is [success]. *)
Definition try_test (o : Options) (c : TestClass W) : MF bool :=
  catch (do! test_body o c in ret true) (λ e, do! report e in ret false).

Definition main (o : Options) (c : TestClass W) : MF unit :=
  do% check_json_precision in
  do! handle_debug_option o in
  let! success := try_test o c in
  do! shutdown o in
  do! when (success && negb (nocleanup o) && negb (noshutdown o)) (rmtree (op_tmpdir o)) in
  raise (SystemExit (if success then 0 else 1)).

(** The class as it stands, with a test. *)
Definition SidechainTestFramework (fuel : nat) (o : Options) (shared : SCForgerConfiguration) (test : MF unit)
    : TestClass W :=
  mkTestClass W (default_setup_chain o) (default_setup_network fuel o) (default_sc_setup_chain o shared)
    (default_sc_setup_network fuel o) test.

(** ** [SidechainComparisonTestFramework]: two mainchain binaries, a list of jars *)

Definition comparison_setup_chain (o : Options) : MF unit := initialize_chain_clean (op_tmpdir o) 2.

Definition comparison_setup_network (o : Options) (testbinary refbinary : string) : MF unit :=
  let! l := start_nodes 2 (op_tmpdir o) (Some (repeat (Some ["-debug"; "-whitelist=127.0.0.1"]) 2)) None
    (Some ([Some testbinary] ++ repeat (Some refbinary) 1)) in
  put_nodes l.

Definition comparison_sc_setup_chain (o : Options) (jarspathlist : list string) : MF unit :=
  initialize_default_sc_chain_clean (op_tmpdir o) (Z.of_nat (length jarspathlist)) "".

Definition comparison_sc_setup_network (fuel : nat) (o : Options) (jarspathlist : list string) : MF unit :=
  let! l := start_sc_nodes fuel (Z.of_nat (length jarspathlist)) (op_tmpdir o) None None
    (Some (map Some jarspathlist)) false (Some DEFAULT_API_KEY) in
  put_sc_nodes l.
End Framework.
