(* ===== verification/AccountSetup.v ===== *)
(** * The account-model test class: account/ac_chain_setup.py

    [AccountChainSetup] is a test class of the driver: any number of mainchain
    and sidechain nodes with one configuration each, connected in a ring, and
    a first transfer of coins from the mainchain to an account. *)

From S2P Require Import Prelude PyStr Numbers PyVal Host Sim Json Encoding HttpProxy BootInfo McUtil ScUtil.
From S2P Require Import Forging Bootstrap Framework.
From Stdlib Require Import Ascii String.
From stdpp Require Import base list.
Local Open Scope Z_scope.

(** The constructor's arguments.  The initial private keys are the list that
    accompanies the forger options. *)
Record AccountChainSetup := mkAccountChainSetup {
  API_KEY : string;
  number_of_mc_nodes : Z;
  ac_number_of_sidechain_nodes : Z;
  withdrawalEpochLength : Z;
  ac_forward_amount : pyval;
  block_timestamp_rewind : pyval;
  ac_forger_options : option SCForgerConfiguration;
  ac_initial_private_keys : list pyval;
  circuittype_override : option string;
  ac_remote_keys_manager_enabled : bool;
  remote_keys_server_addresses : list pyval;
  ac_max_incoming_connections : Z;
  ac_connect_nodes : bool;
  ac_allow_unprotected_txs : bool;
  ac_max_nonce_gap : Z;
  ac_max_account_slots : Z;
  ac_max_mempool_slots : Z;
  ac_max_nonexec_pool_slots : Z;
  ac_tx_lifetime : Z;
  websocket_server_ports : list (option Z);
  ac_cert_max_keys : Z;
  ac_cert_sig_threshold : Z;
  submitters_private_keys_indexes : list (list Z)
}.

(** The check of the constructor; an empty list of ports stands for no ports. *)
Definition AccountChainSetup_ports (ports : list (option Z)) (number_of_sidechain_nodes : Z)
    : outcome (list (option Z)) :=
  let ports := match ports with [] => repeat None (Z.to_nat number_of_sidechain_nodes) | _ => ports end in
  if Z.of_nat (length ports) =? number_of_sidechain_nodes then Val ports else Exc (AssertionError "").

(** The attributes [__init__] sets: [sc_nodes] exists and is [None]. *)
Definition AccountChainSetup_self (a : AccountChainSetup) : Self :=
  mkSelf None IsNone None (Some (ac_number_of_sidechain_nodes a)) None None.

(** [l[x] if len(l) > x else default] *)
Definition nth_or {A} (l : list A) (x : Z) (d : A) : A := default d (l !! Z.to_nat x).

Section AccountSetup.
Context {W : Type} `{Nodes W, Clock W, Os W, Rng W}.
Local Abbreviation MF := (M (FW W)).

Definition ac_setup_nodes (o : Options) (a : AccountChainSetup) : MF (list proxy) :=
  start_nodes (number_of_mc_nodes a) (op_tmpdir o) None None None.

Definition ac_setup_network (fuel : nat) (o : Options) (a : AccountChainSetup) : MF unit :=
  let! l := ac_setup_nodes o a in
  do! put_nodes l in
  sync_all fuel.

(** The configuration of node [x]; only with forger options are they, and the
    initial keys, passed on. *)
Definition ac_node_configuration (a : AccountChainSetup) (shared : SCForgerConfiguration) (address : string)
    (x : Z) : outcome SCNodeConfiguration :=
  obind (list_index (websocket_server_ports a) x) (λ port,
  let '(forger_options, initial_keys) :=
    match ac_forger_options a with
    | None => (shared, [])
    | Some f => (f, ac_initial_private_keys a)
    end in
  Val (SCNodeConfiguration_init (mkMCConnectionInfo address 100 1 1) (x =? 0) true
    (submitters_private_keys_indexes a !! Z.to_nat x) (ac_max_incoming_connections a) 100 "2m" true
    (PFloat (float_of_dec (Dec 1 (-4)))) forger_options 300 0 (API_KEY a) 10000000 initial_keys
    (ac_remote_keys_manager_enabled a) (nth_or (remote_keys_server_addresses a) x (PStr "")) [] None []
    "15m" "5m" (match port with Some _ => true | None => false end) (default 0 port)
    (ac_allow_unprotected_txs a) (ac_max_nonce_gap a) (ac_max_account_slots a) (ac_max_mempool_slots a)
    (ac_max_nonexec_pool_slots a) (ac_tx_lifetime a) true true)).

Definition ac_sc_setup_chain (o : Options) (a : AccountChainSetup) (shared : SCForgerConfiguration) : MF unit :=
  let! l := get_nodes in
  let% mc_node := list_index l 0 in
  if Z.of_nat (length (submitters_private_keys_indexes a)) >? ac_number_of_sidechain_nodes a
  then raise (ValueError "Number of submitters_private_keys_indexes configs must be <= number_of_sidechain_nodes")
  else if existsb (λ ix : list Z, Z.of_nat (length ix) >? ac_cert_max_keys a) (submitters_private_keys_indexes a)
  then raise (ValueError "node_indexes must be <= cert_max_keys")
  else
  let! configurations := mmap (λ x,
    let! address := ws_address mc_node in
    lift (ac_node_configuration a shared address x)) (zrange 0 (ac_number_of_sidechain_nodes a)) in
  let circuit_type := default (certcircuittype o) (circuittype_override a) in
  let version := if String.eqb circuit_type KEY_ROTATION_CIRCUIT then SC_CREATION_VERSION_2
                 else SC_CREATION_VERSION_1 in
  let% sci := SCCreationInfo_init mc_node (ac_forward_amount a) (withdrawalEpochLength a) 0 version
    (ac_cert_max_keys a) (ac_cert_sig_threshold a) false (nonceasing o) circuit_type in
  let! info := bootstrap_sidechain_nodes (run_options_of o) (mkSCNetworkConfiguration sci configurations)
    (block_timestamp_rewind a) AccountModel in
  put_info info.

(** The arguments of a node, appended to its debug arguments in place. *)
Definition ac_extra_args (o : Options) : list string :=
  ["-mc_block_delay_ref"; str_of_Z (mcblockdelay o); "-all_forks"; (if all_forks o then "True" else "False");
   "-max_hist_rew_len"; str_of_Z (maxhistoryrewritinglength o)].

Definition ac_sc_setup_nodes (fuel : nat) (o : Options) (a : AccountChainSetup) : MF (list proxy) :=
  let! dbg := self_get debug_extra_args in
  let n := ac_number_of_sidechain_nodes a in
  let% params := (match dbg with
    | None => Val (map (λ _, ac_extra_args o) (zrange 0 n))
    | Some l => if n <=? Z.of_nat (length l)
                then Val (imap (λ i d, if Z.of_nat i <? n then d ++ ac_extra_args o else d) l)
                else Exc IndexError
    end) in
  do! (match dbg with None => ret tt | Some _ => put_debug (Some params) end) in
  let! binary := EVM_APP_BINARY in
  start_sc_nodes fuel n (op_tmpdir o) (Some (map Some params)) None (Some (repeat (Some binary) (Z.to_nat n)))
    false (Some (API_KEY a)).

(** [connect_sc_nodes(self.sc_nodes[i], j)] *)
Definition connect_pair (fuel : nat) (i j : Z) : MF unit :=
  let! l := get_sc_nodes in
  let% node := list_index l i in
  connect_sc_nodes fuel node j (secs 25).

Definition ac_sc_setup_network (fuel : nat) (o : Options) (a : AccountChainSetup) : MF unit :=
  let! l := ac_sc_setup_nodes fuel o a in
  do! put_sc_nodes l in
  let n := ac_number_of_sidechain_nodes a in
  when (ac_connect_nodes a) (
    if n >? 2 then
      do! forM_ (zrange 0 (n - 1)) (λ i, connect_pair fuel i (i + 1)) in
      do! connect_pair fuel (n - 1) 0 in
      sync_all fuel
    else if n =? 2 then
      do! connect_pair fuel 0 1 in
      sync_all fuel
    else ret tt).

(** What [sc_ac_setup] leaves in [self]. *)
Record AcState := mkAcState {
  ac_mc_return_address : pyval;
  ac_evm_address : pyval;
  ac_ft_amount_in_zen : pyval;
  ac_block_id : pyval
}.

Definition sc_ac_setup (fuel : nat) (wallet forwardTransfer : bool) (ft_amount_in_zen : pyval) : MF AcState :=
  let! scs := get_sc_nodes in
  let% sc_node := list_index scs 0 in
  let! mcs := get_nodes in
  let% mc_node := list_index mcs 0 in
  let! return_address := call mc_node "getnewaddress" [] in
  let! info := self_get sc_nodes_bootstrap_info in
  let% info := of_opt (AttributeError "mainchain_block_height") info in
  let! mc_block := call mc_node "getblock" [PStr (py_str (mainchain_block_height info))] in
  let% hash := getitem mc_block "hash" in
  let! mc_block_hex := call mc_node "getblock" [hash; PBool false] in
  do% log_concat mc_block_hex in
  let! best := call sc_node "block_best" [] in
  let% sc_best_block := getitem best "result" in
  let% height := getitem sc_best_block "height" in
  do% assert_equal height (PInt 1) "The best block has not the specified height." in
  let% block := getitem sc_best_block "block" in
  let% included := is_mainchain_block_included_in_sc_block block mc_block in
  do% assert_true included "The mainchain block is not included in SC node." in
  let! ref := call sc_node "mainchain_bestBlockReferenceInfo" [] in
  let% ref := getitem ref "result" in
  let same := check_mainchain_block_reference_info ref mc_block in
  do% assert_true same "The mainchain block is not included inside SC block reference info." in
  let! evm_address := (if wallet then
      let! r := call sc_node "wallet_createPrivateKeySecp256k1" [] in
      let% a := getpath r ["result"; "proposition"; "address"] in
      lift (py_add (PStr "0x") a)
    else ret PNone) in
  if wallet && forwardTransfer then
    let% to := (match evm_address with PStr s => Val (PStr (str_drop 2 s)) | _ => Exc TypeError end) in
    do! forward_transfer_to_sidechain (sidechain_id info) mc_node to ft_amount_in_zen return_address true in
    let! block_id := generate_next_block sc_node "first node" true PNone in
    do! sc_sync_all fuel false in
    let! best := call sc_node "block_best" [] in
    do% getitem best "result" in
    ret (mkAcState return_address evm_address ft_amount_in_zen block_id)
  else ret (mkAcState return_address evm_address PNone PNone).

(** The class with a test. *)
Definition AccountChainSetup_class (fuel : nat) (o : Options) (a : AccountChainSetup)
    (shared : SCForgerConfiguration) (test : MF unit) : TestClass W :=
  mkTestClass W (default_setup_chain o) (ac_setup_network fuel o a) (ac_sc_setup_chain o a shared)
    (ac_sc_setup_network fuel o a) test.
End AccountSetup.
