(* ===== verification/FrameworkProps.v ===== *)
(** * Properties of the test driver

    What [main] guarantees whatever the test does: the meaning of its exit
    status, when the test's directory is removed, and that the nodes are
    stopped. *)

From S2P Require Import Prelude PyStr Numbers PyVal Host Sim Json Encoding HttpProxy BootInfo McUtil ScUtil.
From S2P Require Import Processes Forging Bootstrap Framework AccountSetup.
From Stdlib Require Import Ascii String.
From stdpp Require Import base list.
Local Open Scope Z_scope.

Section Driver.
Context {W : Type} `{Nodes W, Clock W, Os W, Rng W}.
Local Abbreviation MF := (M (FW W)).
Implicit Types st s : St (FW W).

(** ** Exit status *)

(** A computation that does not end the interpreter. *)
Definition no_exit {A} (m : MF A) : Prop := ∀ st code, (m st).1 ≠ Exc (SystemExit code).

Lemma no_exit_bind {A B} (m : MF A) (k : A → MF B) : no_exit m → (∀ a, no_exit (k a)) → no_exit (bind m k).
Proof.
  intros Hm Hk st code. unfold bind. specialize (Hm st code).
  destruct (m st) as [[a|e|] st']; simpl in *; [apply Hk| |done].
  intros [= ->]. by apply Hm.
Qed.
Lemma no_exit_ret {A} (a : A) : no_exit (ret a).
Proof. by intros st code. Qed.
Lemma no_exit_gets {A} (f : globals → A) : no_exit (gets f).
Proof. by intros st code. Qed.
Lemma no_exit_ask {A} (f : FW W → A) : no_exit (ask f).
Proof. by intros st code. Qed.
Lemma no_exit_modify f : no_exit (modify_glob f).
Proof. by intros st code. Qed.
Lemma no_exit_self_put f : no_exit (self_put f).
Proof. by intros st code. Qed.
Lemma no_exit_wait h : no_exit (wait_proc h).
Proof. by intros st code. Qed.
Lemma no_exit_forM_ {A} (l : list A) (f : A → MF unit) : (∀ a, no_exit (f a)) → no_exit (forM_ l f).
Proof. intros Hf. induction l; [apply no_exit_ret|]. by apply no_exit_bind. Qed.
Lemma no_exit_report_false e :
  is_Exception e = true → ∀ st code, (bind (report e) (λ _, ret false) st).1 ≠ Exc (SystemExit code).
Proof.
  intros He. apply no_exit_bind; [|intros; apply no_exit_ret].
  intros st code. destruct e; simpl in *; try done. destruct error; simpl; try done.
  unfold bind, lift. simpl. destruct (dict_get "message" _) as [v|]; simpl; [|done]. by destruct v.
Qed.

(** The calls that stop nodes raise what the HTTP layer raises. *)
Definition calls_no_exit : Prop := ∀ p m args, no_exit (call (W := FW W) p m args).

Lemma no_exit_stop_sc_nodes_from i l : calls_no_exit → no_exit (stop_sc_nodes_from i l).
Proof.
  intros Hc. revert i. induction l as [|node l IH]; intros i; [apply no_exit_ret|]. cbn [stop_sc_nodes_from].
  apply no_exit_bind; [apply no_exit_gets|intros d]. apply no_exit_bind; [|auto].
  destruct (dict_mem i d); simpl; [|apply no_exit_ret]. apply no_exit_bind; [apply Hc|intros _].
  apply no_exit_bind; [apply no_exit_gets|]. intros d'. destruct (dict_get i d'); [|apply no_exit_ret].
  apply no_exit_bind; [apply no_exit_wait|]. intros. apply no_exit_modify.
Qed.

Lemma no_exit_shutdown o : calls_no_exit → no_exit (shutdown o).
Proof.
  intros Hc. unfold shutdown. destruct (noshutdown o); [apply no_exit_ret|].
  apply no_exit_bind; [apply no_exit_ask|intros sc]. apply no_exit_bind.
  { destruct sc; [apply no_exit_ret|by intros st code|].
    apply no_exit_bind; [|intros; apply no_exit_self_put].
    apply no_exit_bind; [by apply no_exit_stop_sc_nodes_from|intros; apply no_exit_ret]. }
  intros _. apply no_exit_bind; [apply no_exit_ask|]. intros [l|]; [|apply no_exit_ret].
  apply no_exit_bind.
  { apply no_exit_bind; [|intros; apply no_exit_ret]. apply no_exit_forM_. intros.
    apply no_exit_bind; [apply Hc|intros; apply no_exit_ret]. }
  intros. apply no_exit_bind; [apply no_exit_self_put|]. intros _.
  apply no_exit_bind; [apply no_exit_gets|]. intros. apply no_exit_bind; [|intros; apply no_exit_modify].
  apply no_exit_forM_. intros. apply no_exit_wait.
Qed.

(** The state in which the test starts when no node is to be debugged. *)
Definition undebugged st : St (FW W) := (put_debug None st).2.

Lemma main_steps o c st :
  debugnode o = None →
  main o c st =
  (let! success := try_test o c in
   do! shutdown o in
   do! when (success && negb (nocleanup o) && negb (noshutdown o)) (rmtree (op_tmpdir o)) in
   raise (SystemExit (if success then 0 else 1))) (undebugged st).
Proof.
  intros Hd. unfold main. rewrite check_json_precision_ok. unfold handle_debug_option. by rewrite Hd.
Qed.

(** ** What the shutdown does *)

(** The actions a computation may take. *)
Definition emits {A} (P : event → Prop) (m : MF A) : Prop :=
  ∀ st, ∃ k, trace (m st).2 = trace st ++ k ∧ Forall P k.

Lemma emits_none {A} P (m : MF A) : (∀ st, trace (m st).2 = trace st) → emits P m.
Proof. intros Hm st. exists []. by rewrite Hm, app_nil_r. Qed.
Lemma emits_bind {A B} P (m : MF A) (k : A → MF B) : emits P m → (∀ a, emits P (k a)) → emits P (bind m k).
Proof.
  intros Hm Hk st. destruct (Hm st) as (l & E & F). unfold bind.
  destruct (m st) as [[a|e|] st']; simpl in *; [|by exists l..].
  destruct (Hk a st') as (l' & E' & F'). exists (l ++ l'). rewrite E', E, app_assoc. by split; [|apply Forall_app].
Qed.
Lemma emits_act {A} (P : event → Prop) e (f : FW W → (exn + A) * FW W) : P e → emits P (act e f).
Proof. intros He st. exists [e]. unfold act. destruct (f (world st)). simpl. auto. Qed.
Lemma emits_call (P : event → Prop) p m args : P (ECall p m args []) → emits P (call (W := FW W) p m args).
Proof.
  intros He st. exists [ECall p m args []]. unfold call, call_kw.
  destruct (node_call p m args [] (world st)). simpl. auto.
Qed.
Lemma emits_forM_ {A} P (l : list A) (f : A → MF unit) : (∀ a, emits P (f a)) → emits P (forM_ l f).
Proof. intros Hf. induction l; [by apply emits_none|]. by apply emits_bind. Qed.

Definition stopping (e : event) : Prop :=
  match e with ECall _ m _ _ => m = "node_stop" ∨ m = "stop" | EWait _ => True | _ => False end.

Lemma emits_report e : emits stopping (report e).
Proof.
  apply emits_none. intros st. destruct e; try done. simpl. unfold bind, lift.
  destruct (getitem error "message"); simpl; [|done..]. by destruct (log_concat a).
Qed.

Lemma emits_stop_sc_nodes_from i l : emits stopping (stop_sc_nodes_from i l).
Proof.
  revert i. induction l as [|node l IH]; intros i; [by apply emits_none|]. cbn [stop_sc_nodes_from].
  apply emits_bind; [by apply emits_none|intros d]. apply emits_bind; [|auto].
  destruct (dict_mem i d); simpl; [|by apply emits_none]. apply emits_bind; [by apply emits_call; left|intros _].
  apply emits_bind; [by apply emits_none|]. intros d'. destruct (dict_get i d'); [|by apply emits_none].
  apply emits_bind; [by apply emits_act|]. intros. by apply emits_none.
Qed.

Lemma emits_shutdown o : emits stopping (shutdown o).
Proof.
  unfold shutdown. destruct (noshutdown o); [by apply emits_none|].
  apply emits_bind; [by apply emits_none|intros sc]. apply emits_bind.
  { destruct sc; [by apply emits_none..|]. apply emits_bind; [|intros; by apply emits_none].
    apply emits_bind; [apply emits_stop_sc_nodes_from|intros; by apply emits_none]. }
  intros _. apply emits_bind; [by apply emits_none|]. intros [l|]; [|by apply emits_none].
  apply emits_bind.
  { apply emits_bind; [|intros; by apply emits_none]. apply emits_forM_. intros.
    apply emits_bind; [by apply emits_call; right|intros; by apply emits_none]. }
  intros. apply emits_bind; [by apply emits_none|]. intros _.
  apply emits_bind; [by apply emits_none|]. intros. apply emits_bind; [|intros; by apply emits_none].
  apply emits_forM_. intros. by apply emits_act.
Qed.

Lemma try_test_fails o c st e st' :
  test_body o c st = (Exc e, st') → try_test o c st = bind (report e) (λ _, ret false) st'.
Proof. intros E. unfold try_test, catch, bind at 1. by rewrite E. Qed.
Lemma try_test_succeeds o c st u st' : test_body o c st = (Val u, st') → try_test o c st = (Val true, st').
Proof. intros E. unfold try_test, catch, bind. by rewrite E. Qed.

(** C8: exit status 0 means success: if [main] ends with status 0, then every
    step of the test returned without an exception, and so did the shutdown of
    the nodes.  If a step raised an exception, then after it [main] takes no
    action but to stop nodes and wait for them; in particular it keeps the
    test's directory. *)
Theorem main_status_zero (o : Options) (c : TestClass W) (st : St (FW W)) :
  debugnode o = None → calls_no_exit → no_exit (test_body o c) →
  let test := test_body o c (undebugged st) in
  let res := main o c st in
  (res.1 = Exc (SystemExit 0) → no_exit (rmtree (op_tmpdir o)) → test.1 = Val tt ∧ (shutdown o test.2).1 = Val tt)
  ∧ (∀ e, test.1 = Exc e → ∃ k, trace res.2 = trace test.2 ++ k ∧ Forall stopping k).
Proof.
  intros Hd Hc Hb. cbv zeta. remember (main o c st) as res eqn:Hres. rewrite main_steps in Hres by done.
  destruct (test_body o c (undebugged st)) as [[[]|e|] s1] eqn:E.
  - rewrite (bind_run _ _ _ _ _ (try_test_succeeds _ _ _ _ _ E)) in Hres. split; [|by intros e [=]].
    intros Hz Hr. split; [done|]. cbn [fst snd]. unfold bind at 1 in Hres.
    pose proof (no_exit_shutdown o Hc s1 0) as Hs.
    destruct (shutdown o s1) as [[[]|e|] s2]; subst res; cbn [fst snd] in *; congruence.
  - assert (is_Exception e = true) as He.
    { pose proof (Hb (undebugged st)) as Hb'. rewrite E in Hb'. destruct e; try done. by destruct (Hb' code). }
    unfold bind at 1 in Hres. rewrite (try_test_fails _ _ _ _ _ E) in Hres.
    pose proof (no_exit_report_false e He s1 0) as Hn.
    destruct (emits_bind stopping (report e) (λ _, ret false) (emits_report e)
      (λ _, emits_none _ (ret false) (λ _, eq_refl)) s1) as (k1 & T1 & F1).
    destruct (bind (report e) (λ _, ret false) s1) as [[b|e'|] s2] eqn:R; cbn [fst snd] in *;
      [|subst res; split; [intros [= ->]; by destruct Hn|by exists k1]|subst res; by split; [|exists k1]].
    assert (b = false) as ->.
    { revert R. unfold bind. destruct (report e s1) as [[u|?|] ?]; [|done..]. by intros [= <- _]. }
    destruct (emits_shutdown o s2) as (k2 & T2 & F2). unfold bind at 1 in Hres.
    pose proof (no_exit_shutdown o Hc s2 0) as Hs.
    assert (res.1 ≠ Exc (SystemExit 0) ∧ trace res.2 = trace (shutdown o s2).2) as [Hne Ht].
    { destruct (shutdown o s2) as [[[]|e'|] s3]; subst res; done. }
    split; [done|]. intros _ _. exists (k1 ++ k2). rewrite app_assoc, <- T1, <- T2. by split; [|apply Forall_app].
  - subst res. unfold try_test, catch, bind. rewrite E. done.
Qed.

(** ** Stopping the nodes *)

(** Mainchain nodes that stop when asked, as long as the world stays in [ok]. *)
Definition mc_stoppable (ok : W → Prop) (l : list proxy) : Prop :=
  ∀ node w, node ∈ l → ok w → ∃ v w', node_call node "stop" [] [] w = (inr v, w') ∧ ok w'.

Lemma stop_nodes_run ok l (st : St (FW W)) :
  mc_stoppable ok l → ok (fw_world (world st)) →
  let res := stop_nodes l st in res.1 = Val [] ∧ glob res.2 = glob st.
Proof.
  intros Hs Hok. unfold stop_nodes.
  assert (∃ w k, forM_ l (λ node, do! call node "stop" [] in ret tt) st
    = (Val tt, mkSt w (trace st ++ k) (heap st) (glob st)) ∧ ok (fw_world w)) as (w & k & E & _).
  { revert st Hok. induction l as [|node l IH]; intros st Hok.
    - exists (world st), []. rewrite app_nil_r. split; [by destruct st|done].
    - destruct (Hs node (fw_world (world st)) (ltac:(left)) Hok) as (v & w & Hc & Hok').
      assert (node_call node "stop" [] [] (world st) = (inr v, mkFW (fw_self (world st)) w)) as Hc'
        by (unfold node_call at 1, fw_nodes, through; by rewrite Hc).
      destruct (IH (λ n w Hn, Hs n w (list_elem_of_further _ _ _ Hn))
        (log_event (ECall node "stop" [] []) (set_world (mkFW (fw_self (world st)) w) st)) Hok') as (w' & k & E & Hok2).
      exists w', (ECall node "stop" [] [] :: k). split; [|done]. cbn [forM_].
      rewrite (bind_run _ _ _ tt (log_event (ECall node "stop" [] []) (set_world (mkFW (fw_self (world st)) w) st)))
        by (by rewrite (bind_call_run _ _ _ _ _ _ _ Hc')).
      rewrite E. simpl. by rewrite <- app_assoc. }
  cbv zeta. by rewrite (bind_run _ _ _ _ _ E).
Qed.

Lemma shutdown_run (ok : W → Prop) (o : Options) (s : St (FW W)) (scs mcs : list proxy) :
  noshutdown o = false →
  sc_nodes (fw_self (world s)) = Is scs → nodes (fw_self (world s)) = Some mcs →
  NoDup (procs SidechainClients (glob s)).*1 →
  (∀ i h, dict_get i (procs SidechainClients (glob s)) = Some h → 0 <= i < Z.of_nat (length scs)) →
  stoppable ok scs → mc_stoppable ok mcs → ok (fw_world (world s)) →
  ∃ s', shutdown o s = (Val tt, s') ∧ kept s s' ∧ ∀ t i, dict_get i (procs t (glob s')) = None.
Proof.
  intros Hn Hsc Hmc Hnd Hidx Hstop Hmstop Hok.
  set (ok' := λ w : FW W, ok (fw_world w) ∧ nodes (fw_self w) = Some mcs).
  assert (stoppable (W := FW W) ok' scs) as Hstop'.
  { intros node h w Hin [Hw Hself]. destruct (Hstop node h (fw_world w) Hin Hw) as (v & w' & Hc & Hw').
    exists v, (mkFW (fw_self w) w'). split; [|by split]. unfold node_call at 1, fw_nodes, through. by rewrite Hc. }
  destruct (stop_sc_nodes_from_run ok' scs 0 s Hstop' (conj Hok Hmc) Hnd) as (R1 & T1 & D1 & B1 & O1 & M1).
  pose proof (kept_stop_sc_nodes_from scs 0 s) as K1.
  destruct (stop_sc_nodes_from 0 scs s) as [[[]|?|] s1] eqn:E1; cbn [fst snd] in *; [|done..].
  set (s2 := (put_sc_nodes [] s1).2).
  pose proof (stop_nodes_run ok mcs s2 Hmstop O1) as [R2 G2].
  assert (kept s2 (stop_nodes mcs s2).2) as K2 by (by apply (quiet_keeps (glob s2)); [apply quiet_stop_nodes|]).
  destruct (stop_nodes mcs s2) as [[l'|?|] s3] eqn:E2; cbn [fst snd] in *; [|done..]. injection R2 as ->.
  set (s4 := (put_nodes [] s3).2).
  destruct (wait_bitcoinds_run s4) as [w E3]. pose proof (kept_wait_mc s4) as K3. rewrite E3 in K3. cbn [snd] in K3.
  set (s5 := mkSt w _ _ _) in *.
  assert (shutdown o s = (Val tt, s5)) as Hshut.
  { unfold shutdown. rewrite Hn. unfold self_get. unfold bind at 1, ask at 1. rewrite Hsc. unfold stop_sc_nodes.
    rewrite (bind_run _ _ _ tt s2).
    2:{ rewrite (bind_run _ _ _ [] s1); [done|]. unfold bind. by rewrite E1. }
    unfold bind at 1, ask at 1.
    change (nodes (fw_self (world s2))) with (nodes (fw_self (world s1))). rewrite M1.
    rewrite (bind_run _ _ _ _ _ E2). change (put_nodes [] s3) with (@Val unit tt, s4).
    rewrite (bind_run _ _ _ tt s4) by done. exact E3. }
  exists s5. split; [done|]. split.
  { trans s1; [done|]. trans s2; [by split; [|auto]|]. trans s3; [done|]. trans s4; [by split; [|auto]|done]. }
  intros [] i; [|done]. change (procs SidechainClients (glob s5)) with (procs SidechainClients (glob s3)).
  rewrite G2. change (procs SidechainClients (glob s2)) with (procs SidechainClients (glob s1)). rewrite D1.
  case_decide; [done|]. destruct (dict_get i (procs SidechainClients (glob s))) as [h|] eqn:Hi; [|done].
  apply Hidx in Hi. lia.
Qed.

(** C7: after a test, passed or failed, whose attributes hold the lists of its
    nodes, [main] leaves both process tables empty of them: if the nodes stop
    when asked and the sidechain nodes' indexes are those of the list, then no
    process is left in either table, and every process that was there when the
    test ended was waited for. *)
Theorem main_stops_nodes (ok : W → Prop) (o : Options) (c : TestClass W) (st s : St (FW W)) (success : bool)
    (scs mcs : list proxy) :
  debugnode o = None → noshutdown o = false → try_test o c (undebugged st) = (Val success, s) →
  sc_nodes (fw_self (world s)) = Is scs → nodes (fw_self (world s)) = Some mcs →
  NoDup (procs SidechainClients (glob s)).*1 →
  (∀ i h, dict_get i (procs SidechainClients (glob s)) = Some h → 0 <= i < Z.of_nat (length scs)) →
  stoppable ok scs → mc_stoppable ok mcs → ok (fw_world (world s)) →
  let res := main o c st in
  ∀ t i h, dict_get i (procs t (glob res.2)) = None
    ∧ (dict_get i (procs t (glob s)) = Some h → EWait h ∈ trace res.2).
Proof.
  intros Hd Hn Hs Hsc Hmc Hnd Hidx Hstop Hmstop Hok. cbv zeta. rewrite main_steps by done.
  rewrite (bind_run _ _ _ _ _ Hs).
  destruct (shutdown_run ok o s scs mcs Hn Hsc Hmc Hnd Hidx Hstop Hmstop Hok) as (s5 & Hshut & [_ K] & Hnone).
  rewrite (bind_run _ _ _ _ _ Hshut).
  set (last := do! when _ _ in _).
  assert (glob (last s5).2 = glob s5 ∧ ∃ k, trace (last s5).2 = trace s5 ++ k) as [HG [k HT]].
  { unfold last. destruct (success && negb (nocleanup o) && negb (noshutdown o)); simpl.
    - unfold bind, rmtree, act. simpl. destruct (through _ _) as [[e|[]] w']; simpl; eauto.
    - split; [done|]. exists []. by rewrite app_nil_r. }
  intros t i h. rewrite HG, HT. split; [apply Hnone|]. intros Hi. apply elem_of_app. left.
  destruct (K t i h Hi) as [Hin|Hin]; [by rewrite Hnone in Hin|done].
Qed.

(** A test class that sets [sc_nodes] to [None] in its constructor, as the
    account-model class does, is not shut down when it fails before its
    sidechain nodes are started: [main] ends with a [TypeError] from
    [stop_sc_nodes(None)], in the state the failure left, so the mainchain
    nodes that were started are neither stopped nor waited for. *)
Theorem main_none_nodes_not_stopped (o : Options) (c : TestClass W) (st s : St (FW W)) (e : exn) :
  debugnode o = None → noshutdown o = false → test_body o c (undebugged st) = (Exc e, s) →
  is_Exception e = true → (report e s).1 = Val tt → sc_nodes (fw_self (world s)) = IsNone →
  main o c st = (Exc TypeError, s).
Proof.
  intros Hd Hn Ht He Hr Hsc. rewrite main_steps by done.
  assert (report e s = (Val tt, s)) as Hrep.
  { destruct e; simpl in *; try done. unfold bind, lift in *. destruct (getitem error "message"); simpl in *; try done.
    by destruct (log_concat a) as [[]|?|]. }
  assert (try_test o c (undebugged st) = (Val false, s)) as Htry.
  { rewrite (try_test_fails _ _ _ _ _ Ht). unfold bind. by rewrite Hrep. }
  rewrite (bind_run _ _ _ _ _ Htry). unfold shutdown, self_get. rewrite Hn. unfold bind, ask. by rewrite Hsc.
Qed.
End Driver.

(** ** Runs *)

(** A test class that starts one mainchain and one sidechain node and passes. *)
Definition passing (o : Options) : TestClass calm :=
  mkTestClass calm (ret tt)
    (let! l := start_nodes 1 (op_tmpdir o) None None None in put_nodes l)
    (ret tt)
    (let! l := start_sc_nodes 1 1 (op_tmpdir o) None None None false (Some DEFAULT_API_KEY) in put_sc_nodes l)
    (ret tt).
Definition fresh : St (FW calm) := init_st (mkFW (mkSelf None Missing None None None None) Calm).
Definition passed : bool * St (FW calm) :=
  match try_test (default_options "/tmp/t") (passing (default_options "/tmp/t")) (undebugged fresh) with
  | (Val b, s) => (b, s)
  | (_, s) => (false, s)
  end.
Definition of_self {A} (a : attr (list A)) : list A := match a with Is l => l | _ => [] end.

Lemma main_stops_nodes_witness :
  procs SidechainClients (glob passed.2) = [(0, 7)] ∧ procs Bitcoinds (glob passed.2) = [(0, 7)]
  ∧ ∀ t i h, dict_get i (procs t (glob (main (default_options "/tmp/t") (passing (default_options "/tmp/t")) fresh).2))
             = None
    ∧ (dict_get i (procs t (glob passed.2)) = Some h →
       EWait h ∈ trace (main (default_options "/tmp/t") (passing (default_options "/tmp/t")) fresh).2).
Proof.
  split; [vm_compute; reflexivity|]. split; [vm_compute; reflexivity|].
  apply (main_stops_nodes (λ _, True) (default_options "/tmp/t") (passing (default_options "/tmp/t")) fresh passed.2
    passed.1 (of_self (sc_nodes (fw_self (world passed.2)))) (default [] (nodes (fw_self (world passed.2)))));
    try (vm_compute; reflexivity).
  - change (procs SidechainClients (glob passed.2)) with [(0, 7)]. repeat constructor. intros Hin. inversion Hin.
  - change (procs SidechainClients (glob passed.2)) with [(0, 7)]. intros i h Hi.
    simpl in Hi. destruct (decide (i = 0)) as [->|]; [|discriminate]. split; vm_compute; [discriminate|reflexivity].
  - intros node h w _ _. exists (PDict []), w. split; [reflexivity|exact I].
  - intros node w _ _. exists (PDict []), w. split; [reflexivity|exact I].
Defined.

(** In the calm host a test that passes ends with status 0. *)
Definition nothing : TestClass calm := mkTestClass calm (ret tt) (ret tt) (ret tt) (ret tt) (ret tt).

Lemma main_status_zero_witness :
  (test_body (default_options "/tmp/t") nothing (undebugged fresh)).1 = Val tt
  ∧ (shutdown (default_options "/tmp/t") (test_body (default_options "/tmp/t") nothing (undebugged fresh)).2).1
    = Val tt.
Proof.
  apply (main_status_zero (default_options "/tmp/t") nothing fresh).
  - reflexivity.
  - intros p m args st code. unfold call, call_kw. simpl. discriminate.
  - intros st code. unfold test_body, bind, ask, when. simpl. discriminate.
  - vm_compute. reflexivity.
  - intros st code. unfold rmtree, act. simpl. discriminate.
Defined.

(** An account-model test with one mainchain node whose configuration has more
    signer lists than nodes fails after the mainchain node was started. *)
Definition ac_example : AccountChainSetup :=
  mkAccountChainSetup "Horizen" 1 1 900 (PInt 100) (PInt 43200) None [] None false [] 100 true true 16 16 6144 1024
    10800 [None] 7 5 [[0]; [1]].
Definition ac_options : Options := default_options "/tmp/t".
Definition ac_world : sim :=
  Sim 0 0 (λ _ _ m _, if String.eqb m "getblockcount" then inr (PInt 5) else inr (PList [])) [("zend", "")]
    ["/tmp/t"] (λ _, inr "") 4242 0.
Definition ac_start : St (FW sim) := init_st (mkFW (AccountChainSetup_self ac_example) ac_world).
Definition ac_class : TestClass sim :=
  AccountChainSetup_class 1 ac_options ac_example (mkSCForgerConfiguration false 0 "") (ret tt).
Definition ac_failed : St (FW sim) := (test_body ac_options ac_class (undebugged ac_start)).2.

Lemma main_none_nodes_not_stopped_witness :
  main ac_options ac_class ac_start = (Exc TypeError, ac_failed)
  ∧ procs Bitcoinds (glob ac_failed) = [(0, 0)].
Proof.
  split; [|vm_compute; reflexivity].
  apply (main_none_nodes_not_stopped ac_options ac_class ac_start ac_failed
    (ValueError "Number of submitters_private_keys_indexes configs must be <= number_of_sidechain_nodes"));
    vm_compute; reflexivity.
Defined.
