(* ===== verification/McFramework.v ===== *)
(** * The mainchain-only test driver: test_framework/test_framework.py

    [BitcoinTestFramework] starts four mainchain nodes in a chain, can split
    the network into two halves and join it again, and runs a test.  Its
    attributes are those of [Self] (Framework.v).  Option parsing and printing
    are not modelled, except that the handler of a failed assertion reads an
    attribute that Python 3 exceptions do not have. *)

From S2P Require Import Prelude PyStr Numbers PyVal Host Sim Json Encoding HttpProxy BootInfo McUtil ScUtil.
From S2P Require Import Forging Bootstrap Framework Processes FrameworkProps.
From Stdlib Require Import Ascii String.
From stdpp Require Import base list.
Local Open Scope Z_scope.

Record McOptions := mkMcOptions {
  mco_nocleanup : bool;
  mco_noshutdown : bool;
  mco_srcdir : string;
  mco_tmpdir : string
}.

Record McTestClass (W : Type) := mkMcTestClass {
  mc_setup_chain : M (FW W) unit;
  mc_setup_network : M (FW W) unit;
  mc_run_test : M (FW W) unit
}.
Arguments mc_setup_chain {W}.
Arguments mc_setup_network {W}.
Arguments mc_run_test {W}.

Section McFramework.
Context {W : Type} `{Nodes W, Clock W, Os W, Rng W}.
Local Abbreviation MF := (M (FW W)).

Definition bitcoin_run_test : MF unit :=
  let! l := get_nodes in
  forM_ l (λ node,
    let! c := call node "getblockcount" [] in
    do% assert_equal c (PInt 200) "" in
    let! b := call node "getbalance" [] in
    lift (assert_equal b (PInt (25 * 10)) "")).

Definition bitcoin_setup_chain (fuel : nat) (o : McOptions) : MF unit := initialize_chain fuel (mco_tmpdir o).

Definition bitcoin_setup_nodes (o : McOptions) : MF (list proxy) := start_nodes 4 (mco_tmpdir o) None None None.

(** [self.is_network_split], set by [setup_network] *)
Definition get_split : MF bool :=
  let! b := self_get is_network_split in lift (of_opt (AttributeError "is_network_split") b).

Definition sync_part (fuel : nat) (part : list proxy → list proxy) (blocks : bool) : MF unit :=
  let! l := get_nodes in
  if blocks then sync_blocks fuel (part l) (secs 1) else sync_mempools fuel (part l) (secs 1).

Definition bitcoin_sync_all (fuel : nat) : MF unit :=
  let! split := get_split in
  if split then
    do! sync_part fuel (take 2) true in
    do! sync_part fuel (drop 2) true in
    do! sync_part fuel (take 2) false in
    sync_part fuel (drop 2) false
  else
    do! sync_part fuel (λ l, l) true in
    sync_part fuel (λ l, l) false.

(** [self.nodes[1:3]] *)
Definition middle (l : list proxy) : list proxy := take 2 (drop 1 l).

(** [connect_nodes_bi(self.nodes, a, b)] *)
Definition connect_self (fuel : nat) (a b : Z) : MF unit :=
  let! l := get_nodes in connect_nodes_bi fuel l a b.

Definition bitcoin_setup_network (fuel : nat) (o : McOptions) (split : bool) : MF unit :=
  let! l := bitcoin_setup_nodes o in
  do! put_nodes l in
  do! (if split then ret tt
       else
         do! connect_self fuel 1 2 in
         do! sync_part fuel middle true in
         sync_part fuel middle false) in
  do! connect_self fuel 0 1 in
  do! connect_self fuel 2 3 in
  do! put_split split in
  bitcoin_sync_all fuel.

(** [stop_nodes(self.nodes); wait_bitcoinds()]: the list itself is emptied. *)
Definition stop_self_nodes : MF unit :=
  let! l := get_nodes in
  let! l' := stop_nodes l in
  do! put_nodes l' in
  wait_bitcoinds.

Definition split_network (fuel : nat) (o : McOptions) : MF unit :=
  let! split := get_split in
  do% (if split then Exc (AssertionError "") else Val tt) in
  do! stop_self_nodes in
  bitcoin_setup_network fuel o true.

Definition join_network (fuel : nat) (o : McOptions) : MF unit :=
  let! split := get_split in
  do% (if split then Val tt else Exc (AssertionError "")) in
  do! stop_self_nodes in
  bitcoin_setup_network fuel o false.

(** [os.environ['PATH'] = self.options.srcdir + ":" + os.environ['PATH']] *)
Definition prepend_path (srcdir : string) : MF unit :=
  let! p := ask (os_getenv "PATH") in
  let% p := of_opt (KeyError "PATH") p in
  run_os (λ w, (inr tt, os_setenv "PATH" (srcdir +:+ ":" +:+ p) w)).

Definition bitcoin_test_body (o : McOptions) (c : McTestClass W) : MF unit :=
  let! there := ask (os_isdir (mco_tmpdir o)) in
  do! when (negb there) (makedirs (mco_tmpdir o)) in
  do! mc_setup_chain c in
  do! mc_setup_network c in
  mc_run_test c.

(** The [except] clauses: [e.message] of an [AssertionError] does not exist. *)
Definition bitcoin_report (e : exn) : MF unit :=
  match e with
  | JSONRPCException error =>
      let% m := getitem error "message" in lift (log_concat m)
  | AssertionError _ => raise (AttributeError "message")
  | SystemExit _ => raise e
  | _ => ret tt
  end.

Definition bitcoin_main (o : McOptions) (c : McTestClass W) : MF unit :=
  do! prepend_path (mco_srcdir o) in
  do% check_json_precision in
  let! success := catch (do! bitcoin_test_body o c in ret true) (λ e, do! bitcoin_report e in ret false) in
  do! (if mco_noshutdown o then ret tt else stop_self_nodes) in
  do! when (negb (mco_nocleanup o) && negb (mco_noshutdown o)) (rmtree (mco_tmpdir o)) in
  raise (SystemExit (if success then 0 else 1)).

Definition BitcoinTestFramework (fuel : nat) (o : McOptions) : McTestClass W :=
  mkMcTestClass W (bitcoin_setup_chain fuel o) (bitcoin_setup_network fuel o false) bitcoin_run_test.

(** [ComparisonTestFramework]: one binary to test, the others for reference. *)
Definition mc_comparison_setup_chain (o : McOptions) (num_nodes : Z) : MF unit :=
  initialize_chain_clean (mco_tmpdir o) num_nodes.

Definition mc_comparison_setup_network (o : McOptions) (num_nodes : Z) (testbinary refbinary : string) : MF unit :=
  let! l := start_nodes num_nodes (mco_tmpdir o)
    (Some (repeat (Some ["-debug"; "-whitelist=127.0.0.1"]) (Z.to_nat num_nodes))) None
    (Some (Some testbinary :: repeat (Some refbinary) (Z.to_nat (num_nodes - 1)))) in
  put_nodes l.

(** ** What keeps the attributes *)

Definition self_kept {A} (m : MF A) : Prop := ∀ st, fw_self (world (m st).2) = fw_self (world st).

Lemma self_kept_pure {A} (m : MF A) : (∀ st, (m st).2 = st) → self_kept m.
Proof. intros Hm st. by rewrite Hm. Qed.

Lemma self_kept_bind {A B} (m : MF A) (k : A → MF B) : self_kept m → (∀ a, self_kept (k a)) → self_kept (bind m k).
Proof.
  intros Hm Hk st. unfold bind. specialize (Hm st). destruct (m st) as [[a|e|] st1]; simpl in *; [|done..].
  by rewrite Hk.
Qed.

Lemma self_kept_call p m a : self_kept (call p m a).
Proof.
  intros st. unfold call, call_kw, node_call, fw_nodes, through.
  by destruct (node_call p m a [] (fw_world (world st))).
Qed.

Lemma self_kept_sleep d : self_kept (sleep d).
Proof. by intros st. Qed.

Lemma self_kept_mmap {A B} (f : A → MF B) l : (∀ x, self_kept (f x)) → self_kept (mmap f l).
Proof.
  intros Hf. induction l as [|x l IH]; simpl; [by apply self_kept_pure|].
  apply self_kept_bind; [done|]. intros y. apply self_kept_bind; [done|]. intros ys. by apply self_kept_pure.
Qed.

Lemma self_kept_foldM {A B} (f : B → A → MF B) b l : (∀ b x, self_kept (f b x)) → self_kept (foldM f b l).
Proof.
  intros Hf. revert b. induction l as [|x l IH]; intros b; simpl; [by apply self_kept_pure|].
  by apply self_kept_bind.
Qed.

Lemma self_kept_forM {A} (f : A → MF unit) l : (∀ x, self_kept (f x)) → self_kept (forM_ l f).
Proof.
  intros Hf. induction l as [|x l IH]; simpl; [by apply self_kept_pure|]. by apply self_kept_bind.
Qed.
End McFramework.

Create HintDb self_kept discriminated.
#[export] Hint Resolve self_kept_call self_kept_sleep : self_kept.

Ltac solve_self_kept :=
  repeat first
    [ progress eauto with self_kept
    | (by apply self_kept_pure)
    | apply self_kept_bind; [|intros ?]
    | apply self_kept_mmap; intros ?
    | apply self_kept_foldM; intros ? ?
    | apply self_kept_forM; intros ?
    | match goal with |- self_kept (if ?b then _ else _) => destruct b end ].

Section McNetwork.
Context {W : Type} `{Nodes W, Clock W, Os W, Rng W}.
Local Abbreviation MF := (M (FW W)).

Lemma self_kept_sync_blocks fuel l w : self_kept (sync_blocks fuel l w).
Proof. induction fuel as [|f IH]; cbn [sync_blocks]; solve_self_kept. Qed.

Lemma self_kept_mempool_set x : self_kept (mempool_set x).
Proof. unfold mempool_set. solve_self_kept. Qed.
#[local] Hint Resolve self_kept_mempool_set self_kept_sync_blocks : self_kept.

Lemma self_kept_sync_mempools fuel l w : self_kept (sync_mempools fuel l w).
Proof. induction fuel as [|f IH]; cbn [sync_mempools]; solve_self_kept. Qed.
#[local] Hint Resolve self_kept_sync_mempools : self_kept.

Lemma self_kept_sync_all fuel : self_kept (bitcoin_sync_all fuel).
Proof. unfold bitcoin_sync_all, sync_part, get_split, get_nodes, self_get. solve_self_kept. Qed.

Lemma bitcoin_setup_network_split fuel o split st st' :
  bitcoin_setup_network fuel o split st = (Val tt, st') → is_network_split (fw_self (world st')) = Some split.
Proof.
  unfold bitcoin_setup_network. intros Hs.
  apply bind_Val_inv in Hs as (l & s1 & _ & Hs). apply bind_Val_inv in Hs as ([] & s2 & _ & Hs).
  apply bind_Val_inv in Hs as ([] & s3 & _ & Hs). apply bind_Val_inv in Hs as ([] & s4 & _ & Hs).
  apply bind_Val_inv in Hs as ([] & s5 & _ & Hs). apply bind_Val_inv in Hs as ([] & s6 & Hput & Hs).
  pose proof (self_kept_sync_all fuel s6) as Hk. rewrite Hs in Hk. simpl in Hk. rewrite Hk.
  unfold put_split, self_put, run_os in Hput. by simplify_eq/=.
Qed.

(** The network is split and joined alternately: [split_network] that returns
    leaves the network marked as split and [join_network] as joined; splitting
    a network that is split, or joining one that is not, fails its assertion
    and does nothing, so no node is stopped. *)
Theorem network_split_join (fuel : nat) (o : McOptions) (st st' : St (FW W)) (b : bool) :
  is_network_split (fw_self (world st)) = Some b →
  (split_network fuel o st = (Val tt, st') → b = false ∧ is_network_split (fw_self (world st')) = Some true)
  ∧ (join_network fuel o st = (Val tt, st') → b = true ∧ is_network_split (fw_self (world st')) = Some false)
  ∧ (b = true → split_network fuel o st = (Exc (AssertionError ""), st))
  ∧ (b = false → join_network fuel o st = (Exc (AssertionError ""), st)).
Proof.
  intros Hb. assert (get_split st = (Val b, st)) as Hg.
  { unfold get_split, self_get, bind, ask. by rewrite Hb. }
  unfold split_network, join_network. rewrite !(bind_run _ _ _ _ _ Hg).
  split_and!; destruct b; try done; intros Hs;
    apply bind_Val_inv in Hs as ([] & s1 & [_ ->]%lift_Val_inv & Hs);
    apply bind_Val_inv in Hs as ([] & s2 & _ & Hs); split; try done; by eapply bitcoin_setup_network_split.
Qed.

(** The state once the search path is set. *)
Definition pathed (o : McOptions) (p : string) (st : St (FW W)) : St (FW W) :=
  set_world (os_setenv "PATH" (mco_srcdir o +:+ ":" +:+ p) (world st)) st.

Lemma prepend_path_run o p st :
  os_getenv "PATH" (world st) = Some p → prepend_path (mco_srcdir o) st = (Val tt, pathed o p st).
Proof. intros Hp. unfold prepend_path, bind, ask. by rewrite Hp. Qed.

(** A failed assertion takes the mainchain-only driver down: its handler reads
    an attribute the exception does not have, so [main] ends with an
    [AttributeError] in the state the failure left (no node is stopped or
    waited for, the directory stays), whereas after any other exception than
    an RPC error or an exit it goes on to stop the nodes. *)
Theorem bitcoin_main_assertion (o : McOptions) (c : McTestClass W) (st s : St (FW W)) (e : exn) (p : string) :
  os_getenv "PATH" (world st) = Some p →
  bitcoin_test_body o c (pathed o p st) = (Exc e, s) →
  (∀ msg, e = AssertionError msg → bitcoin_main o c st = (Exc (AttributeError "message"), s))
  ∧ (is_Exception e = true → (∀ msg, e ≠ AssertionError msg) → (∀ v, e ≠ JSONRPCException v) → mco_noshutdown o = false →
     bitcoin_main o c st
     = (do! stop_self_nodes in
        do! when (negb (mco_nocleanup o) && true) (rmtree (mco_tmpdir o)) in raise (SystemExit 1)) s).
Proof.
  intros Hp Ht. unfold bitcoin_main. rewrite (bind_run _ _ _ _ _ (prepend_path_run o p st Hp)).
  rewrite (bind_lift_run _ _ _ _ check_json_precision_ok).
  assert (catch (do! bitcoin_test_body o c in ret true) (λ e, do! bitcoin_report e in ret false) (pathed o p st)
          = (do! bitcoin_report e in ret false) s) as Hc.
  { unfold catch. unfold bind at 1. by rewrite Ht. }
  split.
  - intros msg ->. unfold bind at 1. by rewrite Hc.
  - intros He Ha Hj Hn. rewrite (bind_run _ _ _ false s); [by rewrite Hn|].
    rewrite Hc. destruct e; try done; [by destruct (Ha msg)|by destruct (Hj error)].
Qed.
End McNetwork.

(** ** Runs *)

Definition mc_options : McOptions := mkMcOptions false false "../../src" "/tmp/test".

Definition split_st : St (FW calm) := init_st (mkFW (mkSelf (Some [mc0]) Missing None None None (Some true)) Calm).

Lemma network_split_join_witness :
  split_network 3 mc_options split_st = (Exc (AssertionError ""), split_st)
  ∧ is_network_split (fw_self (world (join_network 3 mc_options split_st).2)) = Some false.
Proof.
  split; [|vm_compute; reflexivity].
  apply (network_split_join 3 mc_options split_st split_st true eq_refl). reflexivity.
Defined.

(** A test that starts a node and then finds a wrong value. *)
Definition wrong_value : McTestClass calm :=
  mkMcTestClass calm (ret tt) (let! l := start_nodes 1 "/tmp/test" None None None in put_nodes l)
    (lift (assert_equal (PInt 1) (PInt 2) "")).

Definition mc_fresh : St (FW calm) := init_st (mkFW (mkSelf None Missing None None None None) Calm).

Lemma bitcoin_main_assertion_witness :
  (bitcoin_main mc_options wrong_value mc_fresh).1 = Exc (AttributeError "message")
  ∧ bitcoind_processes (glob (bitcoin_main mc_options wrong_value mc_fresh).2) = [(0, 7)].
Proof.
  set (r := bitcoin_test_body mc_options wrong_value (pathed mc_options "/usr/bin" mc_fresh)).
  destruct (bitcoin_main_assertion mc_options wrong_value mc_fresh r.2
    (match r.1 with Exc e => e | _ => TypeError end) "/usr/bin") as [Ha _]; [vm_compute; reflexivity..|].
  rewrite (Ha _ eq_refl). split; vm_compute; reflexivity.
Defined.
