(* ===== verification/HttpCalls.v ===== *)
(** * REST calls of the UTXO model: qa/httpCalls/

    One function per file of the directory: build the JSON body, call the
    node's method with it (and with the API key when one is given), and pick
    the part of the response the caller wants.  [post] and the result readers
    are the shapes these functions share. *)

From S2P Require Import Prelude PyStr Numbers PyVal Host Sim Json Encoding HttpProxy BootInfo McUtil ScUtil.
From Stdlib Require Import Ascii String.
From stdpp Require Import base list.
Local Open Scope Z_scope.

Section Shapes.
Context {W : Type} `{Nodes W, Clock W, Os W, Rng W}.
Local Abbreviation MW := (M W).

(** The positional arguments of a call with an optional API key. *)
Definition with_key (request api_key : pyval) : list pyval :=
  match api_key with PNone => [request] | k => [request; k] end.

(** [request = json.dumps(j)] and the call with or without the key. *)
Definition post (node : proxy) (method : string) (j : list (string * pyval)) (api_key : pyval) : MW pyval :=
  let% request := dumps (PDict j) in
  call node method (with_key (PStr request) api_key).

(** [node.m({}, api_key)] with a key, [node.m()] without *)
Definition post_empty (node : proxy) (method : string) (api_key : pyval) : MW pyval :=
  call node method (match api_key with PNone => [] | k => [PDict []; k] end).

(** [if "result" in response: return response["result"]] else [RuntimeError] *)
Definition result_or_error (response : pyval) : MW pyval :=
  let% ok := has_key "result" response in
  if ok then lift (getitem response "result") else something_wrong response.

(** The same for a field of the result. *)
Definition result_field (field : string) (response : pyval) : MW pyval :=
  let% ok := has_key "result" response in
  if ok then
    let% result := getitem response "result" in
    let% there := has_key field result in
    if there then lift (getitem result field) else something_wrong response
  else something_wrong response.
End Shapes.

Section HttpCalls.
Context {W : Type} `{Nodes W, Clock W, Os W, Rng W}.
Local Abbreviation MW := (M W).

(** ** backup, block, node, peer, submitter *)

Definition getBlockIdForBackup (sidechainNode : proxy) : MW pyval :=
  call sidechainNode "backup_getSidechainBlockIdForBackup" [].

Definition http_block_best (sidechainNode : proxy) : MW pyval :=
  let! response := call sidechainNode "block_best" [] in
  lift (getpath response ["result"; "block"]).

Definition http_block_findById (sidechainNode : proxy) (blockId : pyval) : MW pyval :=
  let! response := post sidechainNode "block_findById" [("blockId", blockId)] PNone in
  result_or_error response.

Definition http_block_forging_info (sidechainNode : proxy) : MW pyval :=
  let! response := call sidechainNode "block_forgingInfo" [] in
  lift (getitem response "result").

Definition http_block_getFeePayments (sidechain_node : proxy) (block_id : pyval) : MW pyval :=
  let! response := post sidechain_node "block_getFeePayments" [("blockId", block_id)] PNone in
  result_or_error response.

Definition stop (sidechain_node : proxy) : MW pyval := call sidechain_node "node_stop" [].
Definition get_all_peers (sidechain_node : proxy) : MW pyval := call sidechain_node "node_allPeers" [].
Definition get_connected_peers (sidechain_node : proxy) : MW pyval :=
  call sidechain_node "node_connectedPeers" [].

Definition http_get_certifiers_keys (sidechainNode : proxy) (withdrawal_epoch : pyval) : MW pyval :=
  let! response := post sidechainNode "submitter_getCertifiersKeys"
    [("withdrawalEpoch", withdrawal_epoch)] PNone in
  lift (getitem response "result").

Definition http_get_key_rotation_message_to_sign_for_signing_key (sidechain_node : proxy)
    (pub_key_to_sign withdrawal_epoch : pyval) : MW pyval :=
  let! response := post sidechain_node "submitter_getKeyRotationMessageToSignForSigningKey"
    [("schnorrPublicKey", pub_key_to_sign); ("withdrawalEpoch", withdrawal_epoch)] PNone in
  lift (getitem response "result").

Definition http_get_key_rotation_message_to_sign_for_master_key (sidechain_node : proxy)
    (pub_key_to_sign withdrawal_epoch : pyval) : MW pyval :=
  let! response := post sidechain_node "submitter_getKeyRotationMessageToSignForMasterKey"
    [("schnorrPublicKey", pub_key_to_sign); ("withdrawalEpoch", withdrawal_epoch)] PNone in
  lift (getitem response "result").

Definition http_get_key_rotation_proof (sidechainNode : proxy)
    (withdrawal_epoch index_of_key key_type : pyval) : MW pyval :=
  post sidechainNode "submitter_getKeyRotationProof"
    [("withdrawalEpoch", withdrawal_epoch); ("indexOfKey", index_of_key); ("keyType", key_type)] PNone.

(** ** transaction *)

Definition allTransactions (sidechainNode : proxy) (format : bool) : MW pyval :=
  let! response := post sidechainNode "transaction_allTransactions" [("format", PBool format)] PNone in
  result_or_error response.

Definition http_create_core_transaction (sidechainNode : proxy)
    (inputs regularOutputs withdrawalRequestOutputs forgerOutputs api_key : pyval) : MW pyval :=
  let! response := post sidechainNode "transaction_createCoreTransaction"
    [("transactionInputs", inputs); ("regularOutputs", regularOutputs);
     ("withdrawalRequests", withdrawalRequestOutputs); ("forgerOutputs", forgerOutputs)] api_key in
  lift (getitem response "result").

Definition http_create_key_rotation_transaction (sidechainNode : proxy)
    (key_type key_index new_key signing_key_signature master_key_signature new_key_signature : pyval)
    (format automatic_send : bool) (api_key : pyval) : MW pyval :=
  post sidechainNode "transaction_createKeyRotationTransaction"
    [("keyType", key_type); ("keyIndex", key_index); ("newKey", new_key);
     ("signingKeySignature", signing_key_signature); ("masterKeySignature", master_key_signature);
     ("newKeySignature", new_key_signature); ("format", PBool format);
     ("automaticSend", PBool automatic_send)] api_key.

Definition http_transaction_findById (sidechainNode : proxy) (txid : pyval) (format : bool) : MW pyval :=
  let! response := post sidechainNode "transaction_findById"
    [("transactionId", txid); ("format", PBool format)] PNone in
  result_or_error response.

Definition makeForgerStake (sidechainNode : proxy)
    (address blockSignPublicKey vrfPublicKey amount fee api_key : pyval) : MW pyval :=
  post sidechainNode "transaction_makeForgerStake"
    [("outputs", PList [PDict [("publicKey", address); ("blockSignPublicKey", blockSignPublicKey);
                               ("vrfPubKey", vrfPublicKey); ("value", amount)]]);
     ("fee", fee)] api_key.

Definition createOpenStakeTransaction (sidechain_node : proxy)
    (boxid address forger_index fee : pyval) (format automatic_send : bool) (api_key : pyval) : MW pyval :=
  let! response := post sidechain_node "transaction_createOpenStakeTransaction"
    [("transactionInput", PDict [("boxId", boxid)]); ("regularOutputProposition", address);
     ("forgerIndex", forger_index); ("fee", fee); ("format", PBool format);
     ("automaticSend", PBool automatic_send)] api_key in
  lift (getitem response "result").

Definition createOpenStakeTransactionSimplified (sidechain_node : proxy)
    (forger_proposition forger_index fee : pyval) (format automatic_send : bool) (api_key : pyval) : MW pyval :=
  let! response := post sidechain_node "transaction_createOpenStakeTransactionSimplified"
    [("forgerProposition", forger_proposition); ("forgerIndex", forger_index); ("fee", fee);
     ("format", PBool format); ("automaticSend", PBool automatic_send)] api_key in
  lift (getitem response "result").

Definition sendCoinsToAddress (sidechainNode : proxy) (address amount fee api_key : pyval) : MW pyval :=
  let! response := post sidechainNode "transaction_sendCoinsToAddress"
    [("outputs", PList [PDict [("publicKey", PStr (py_str address)); ("value", amount)]]);
     ("fee", fee)] api_key in
  lift (getpath response ["result"; "transactionId"]).

Definition sendCoinsToAddressDryRun (sidechainNode : proxy) (address amount fee api_key : pyval) : MW pyval :=
  let! response := post sidechainNode "transaction_sendCoinsToAddress"
    [("outputs", PList [PDict [("publicKey", PStr (py_str address)); ("value", amount)]]);
     ("fee", fee); ("format", PBool false); ("automaticSend", PBool false)] api_key in
  lift (getitem response "result").

(** Outputs pairing the addresses with the amounts. *)
Definition pair_outputs (field : string) (addresses amounts : list pyval) : pyval :=
  PList (zip_with (λ a v, PDict [(field, a); ("value", v)]) addresses amounts).

Definition lengths_differ : pyval := PStr "Addresses and amunts have differente lengths!".

(** The second definition of the name in the file, the one in force. *)
Definition sendCointsToMultipleAddress (sidechainNode : proxy) (addresses amounts : list pyval) (fee : pyval)
    : MW pyval :=
  if negb (length addresses =? length amounts)%nat then ret lengths_differ
  else
    let! response := post sidechainNode "transaction_sendCoinsToAddress"
      [("outputs", pair_outputs "publicKey" addresses amounts); ("fee", fee)] PNone in
    result_field "transactionId" response.

Definition sendTransaction (sidechainNode : proxy) (tx_bytes api_key : pyval) : MW pyval :=
  post sidechainNode "transaction_sendTransaction" [("transactionBytes", tx_bytes)] api_key.

Definition spendForgingStake (sidechainNode : proxy)
    (inputBoxId valueRegular valueForging publicKey blockSignPublicKey vrfPubKey api_key : pyval) : MW unit :=
  do! post sidechainNode "transaction_spendForgingStake"
    [("transactionInputs", PList [PDict [("boxId", inputBoxId)]]);
     ("regularOutputs", PList [PDict [("publicKey", publicKey); ("value", valueRegular)]]);
     ("forgerOutputs", PList [PDict [("publicKey", publicKey); ("blockSignPublicKey", blockSignPublicKey);
                                     ("vrfPubKey", vrfPubKey); ("value", valueForging)]])] api_key in
  ret tt.

Definition withdrawCoins (sidechainNode : proxy) (mc_address amount fee api_key : pyval) : MW pyval :=
  post sidechainNode "transaction_withdrawCoins"
    [("outputs", PList [PDict [("mainchainAddress", mc_address); ("value", amount)]]);
     ("fee", fee)] api_key.

Definition withdrawMultiCoins (sidechainNode : proxy) (mc_addresses amounts : list pyval) (fee api_key : pyval)
    : MW pyval :=
  if negb (length mc_addresses =? length amounts)%nat then ret lengths_differ
  else post sidechainNode "transaction_withdrawCoins"
    [("outputs", pair_outputs "mainchainAddress" mc_addresses amounts); ("fee", fee)] api_key.

(** ** wallet *)

Definition http_wallet_allBoxes (sidechainNode : proxy) (typeName api_key : pyval) : MW pyval :=
  let% request := (match typeName with
                   | PNone => Val (PDict [])
                   | t => obind (dumps (PDict [("boxTypeClass", t)])) (λ s, Val (PStr s))
                   end) in
  let! response := call sidechainNode "wallet_allBoxes" (with_key request api_key) in
  lift (getpath response ["result"; "boxes"]).

Definition http_wallet_allBoxesOfType (sidechain_node : proxy) (box_type api_key : pyval) : MW pyval :=
  let! response := post sidechain_node "wallet_allBoxes" [("boxTypeClass", box_type)] api_key in
  lift (getpath response ["result"; "boxes"]).

Definition http_wallet_allPublicKeys (sidechainNode : proxy) (api_key : pyval) : MW pyval :=
  let! response := post_empty sidechainNode "wallet_allPublicKeys" api_key in
  lift (getpath response ["result"; "propositions"]).

Definition http_wallet_balance (sidechainNode : proxy) (api_key : pyval) : MW pyval :=
  let! response := post_empty sidechainNode "wallet_coinsBalance" api_key in
  lift (getpath response ["result"; "balance"]).

Definition http_wallet_createPrivateKey25519 (sidechainNode : proxy) (api_key : pyval) : MW pyval :=
  let! response := post_empty sidechainNode "wallet_createPrivateKey25519" api_key in
  lift (getpath response ["result"; "proposition"; "publicKey"]).

Definition http_wallet_createPrivateKeySec256k1 (sidechainNode : proxy) (api_key : pyval) : MW pyval :=
  let! response := post_empty sidechainNode "wallet_createPrivateKeySecp256k1" api_key in
  lift (getpath response ["result"; "proposition"; "address"]).

Definition http_wallet_createVrfSecret (sidechainNode : proxy) (api_key : pyval) : MW pyval :=
  let! response := post_empty sidechainNode "wallet_createVrfSecret" api_key in
  lift (getpath response ["result"; "proposition"; "publicKey"]).

Definition http_wallet_dumpSecrets (sidechainNode : proxy) (file_path api_key : pyval) : MW pyval :=
  let! response := post sidechainNode "wallet_dumpSecrets" [("path", file_path)] api_key in
  lift (getpath response ["result"; "status"]).

Definition http_wallet_exportSecret (sidechainNode : proxy) (public_key api_key : pyval) : MW pyval :=
  let! response := post sidechainNode "wallet_exportSecret" [("publickey", public_key)] api_key in
  lift (getpath response ["result"; "privKey"]).

Definition http_wallet_importSecret (sidechainNode : proxy) (secret api_key : pyval) : MW pyval :=
  let! response := post sidechainNode "wallet_importSecret" [("privKey", secret)] api_key in
  lift (getpath response ["result"; "proposition"]).

Definition http_wallet_importSecrets (sidechainNode : proxy) (file_path api_key : pyval) : MW pyval :=
  let! response := post sidechainNode "wallet_importSecrets" [("path", file_path)] api_key in
  lift (getitem response "result").
End HttpCalls.

(** ** Properties *)

Section Props.
Context {W : Type} `{Nodes W, Clock W, Os W, Rng W}.

(** Reading a response touches nothing. *)
Lemma result_field_state field v (st : St W) : (result_field field v st).2 = st.
Proof.
  unfold result_field, bind, lift, something_wrong, raise.
  repeat (case_match; simplify_eq/=); done.
Qed.

Definition wrong (v : pyval) : exn := RuntimeError ("Something went wrong, see " +:+ py_str v).

Lemma result_field_dict field d r (st : St W) :
  dict_get "result" d = Some (PDict r) →
  result_field field (PDict d) st
  = (match dict_get field r with Some x => Val x | None => Exc (wrong (PDict d)) end, st).
Proof.
  intros Hd. unfold result_field, bind, lift, has_key, py_in, dict_mem, getitem, something_wrong.
  rewrite Hd. cbn [of_opt]. by destruct (dict_get field r).
Qed.

Lemma result_field_none field d (st : St W) :
  dict_get "result" d = None → result_field field (PDict d) st = (Exc (wrong (PDict d)), st).
Proof.
  intros Hd. unfold result_field, bind, lift, has_key, py_in, dict_mem, something_wrong. by rewrite Hd.
Qed.

Lemma post_run node method j api_key st :
  json_ok (PDict j) = true →
  post node method j api_key st = call node method (with_key (PStr (render (PDict j))) api_key) st.
Proof.
  intros Hj. unfold post, bind, lift, dumps. by rewrite (dumps_render None (PDict j) Hj).
Qed.

(** The body of a multi-output payment lists every address once, in order, with
    its own amount. *)
Lemma pair_outputs_lookup field addresses amounts i a v :
  addresses !! i = Some a → amounts !! i = Some v →
  match pair_outputs field addresses amounts with
  | PList l => l !! i = Some (PDict [(field, a); ("value", v)]) ∧ length l = Nat.min (length addresses) (length amounts)
  | _ => False
  end.
Proof.
  intros Ha Hv. unfold pair_outputs. rewrite lookup_zip_with, Ha, Hv, length_zip_with. done.
Qed.

(** [withdrawMultiCoins] with lists of one length makes one call whose body
    decodes to the fee and one output per address, in order and with the amount
    at the same position; with lists of different lengths it calls nothing and
    returns the error text. *)
Theorem withdrawMultiCoins_request (node : proxy) (addresses amounts : list pyval) (fee api_key : pyval)
    (st : St W) (pf : decimal → pyval) :
  forallb json_ok addresses = true → forallb json_ok amounts = true → json_ok fee = true →
  if (length addresses =? length amounts)%nat then
    ∃ text outputs,
      withdrawMultiCoins node addresses amounts fee api_key st
        = call node "transaction_withdrawCoins" (with_key (PStr text) api_key) st
      ∧ loads_with pf text = Val (PDict [("outputs", PList outputs); ("fee", fee)])
      ∧ length outputs = length addresses
      ∧ ∀ i a v, addresses !! i = Some a → amounts !! i = Some v →
          outputs !! i = Some (PDict [("mainchainAddress", a); ("value", v)])
  else withdrawMultiCoins node addresses amounts fee api_key st
       = (Val (PStr "Addresses and amunts have differente lengths!"), st).
Proof.
  intros Ha Hv Hf. unfold withdrawMultiCoins.
  destruct (Nat.eqb_spec (length addresses) (length amounts)) as [Hl|Hl]; [|done]. simpl negb. cbv iota.
  set (outs := zip_with (λ a v, PDict [("mainchainAddress", a); ("value", v)]) addresses amounts).
  assert (json_ok (PDict [("outputs", PList outs); ("fee", fee)]) = true) as Hj.
  { simpl. rewrite Hf, !andb_true_r. apply forallb_Forall. unfold outs. clear Hl outs.
    apply forallb_Forall in Ha, Hv. revert amounts Hv.
    induction Ha as [|a l Ha Hl IH]; intros [|v vs] Hv; simpl; constructor; inversion Hv; subst.
    - simpl. by rewrite Ha, H5.
    - by apply IH. }
  destruct (dumps_loads_lemma pf None _ Hj) as (text & Hd & Hload).
  exists text, outs. split.
  { cbn [negb]. cbv iota. rewrite post_run by exact Hj. rewrite dumps_render in Hd by done. by injection Hd as <-. }
  split; [done|]. split; [unfold outs; rewrite length_zip_with; lia|].
  intros i a v Hi Hj'. unfold outs. by rewrite lookup_zip_with, Hi, Hj'.
Qed.
End Props.

Lemma withdrawMultiCoins_request_witness :
  ∃ text outputs,
    withdrawMultiCoins sc0 [PStr "a"; PStr "b"] [PInt 10; PInt 20] (PInt 1) PNone (init_st (sim_of (λ _ _ _ _, inr PNone)))
      = call sc0 "transaction_withdrawCoins" (with_key (PStr text) PNone) (init_st (sim_of (λ _ _ _ _, inr PNone)))
    ∧ loads_with parse_float_as_float text = Val (PDict [("outputs", PList outputs); ("fee", PInt 1)])
    ∧ length outputs = 2%nat
    ∧ ∀ i a v, [PStr "a"; PStr "b"] !! i = Some a → [PInt 10; PInt 20] !! i = Some v →
        outputs !! i = Some (PDict [("mainchainAddress", a); ("value", v)]).
Proof.
  exact (withdrawMultiCoins_request sc0 [PStr "a"; PStr "b"] [PInt 10; PInt 20] (PInt 1) PNone
    (init_st (sim_of (λ _ _ _ _, inr PNone))) parse_float_as_float eq_refl eq_refl eq_refl).
Defined.
