(* ===== verification/Tools.v ===== *)
(** * Programs driven from the framework

    The driver of the mainchain's proof tool (test_framework/mc_test/mc_test.py)
    and the functions of scutil.py that use it for a second sidechain, the
    server that signs with the keys of the certificate signers
    (secure_enclave_http_api_server.py), and the two websocket clients
    (websocket_client.py, account_websocket_client.py). *)

From S2P Require Import Prelude PyStr Numbers PyVal Host Sim Json Encoding HttpProxy BootInfo McUtil ScUtil.
From S2P Require Import Forging Bootstrap.
From Stdlib Require Import Ascii String.
From stdpp Require Import base list.
Local Open Scope Z_scope.

(** ** mc_test.py *)

Definition SC_FIELD_SIZE : nat := 32.
Definition SC_FIELD_SAFE_SIZE : nat := 31.
Definition MAX_SC_PROOF_SIZE_IN_BYTES : Z := 9 * 1024.
Definition MAX_SC_VK_SIZE_IN_BYTES : Z := 9 * 1024.

(** [os.path.dirname(p)] *)
Fixpoint rstrip_slashes (rev : string) : string :=
  match rev with String "/" r => rstrip_slashes r | _ => rev end.

Definition dirname (p : string) : string :=
  match split_at "/" (str_rev p) with
  | None => ""
  | Some (_, rest) =>
      let stripped := rstrip_slashes rest in
      if String.eqb stripped "" then str_rev rest +:+ "/" else str_rev stripped
  end.

Record MCTestUtils := mkMCTestUtils {
  mct_datadir : string;
  mct_srcdir : string;
  mct_ps_type : string
}.

(** [constant != None and constant != False] *)
Definition has_constant (constant : pyval) : bool :=
  py_neqb constant PNone && py_neqb constant (PBool false).

Definition get_file_prefix (self : MCTestUtils) (circ_type : string) (constant : pyval) : string :=
  mct_ps_type self +:+ "_" +:+ circ_type +:+ (if has_constant constant then "_" else "_no_const_").

Section McTest.
Context {W : Type} `{Nodes W, Clock W, Os W, Rng W}.
Local Abbreviation MW := (M W).

Definition generate_random_field_element_hex : MW string :=
  let! b := urandom SC_FIELD_SAFE_SIZE in
  ret (hexlify b +:+ str_join "" (repeat "00" (SC_FIELD_SIZE - SC_FIELD_SAFE_SIZE))).

Definition generate_random_field_element_hex_list (len : Z) : MW (list string) :=
  mmap (λ _, generate_random_field_element_hex) (zrange 0 len).

(** [assert condition] *)
Definition assert_stmt (b : bool) : MW unit := if b then ret tt else raise (AssertionError "").

Definition MCTestUtils_init (datadir srcdir ps_type : string) : MW MCTestUtils :=
  do! assert_stmt (String.eqb ps_type "darlin" || String.eqb ps_type "cob_marlin") in
  ret (mkMCTestUtils datadir srcdir ps_type).

(** The arguments before the double dash are options, the ones after it are
    read by position. *)
Definition get_args (self : MCTestUtils) (op circuit_type : string) (constant keyrot : pyval)
    (params_dir : string) (num_constraints segment_size : Z) (proof_path : option string) : MW (list string) :=
  let! tool := getenv "ZENDOOMC" (path_join (mct_srcdir self) "zendoo/mcTest") in
  ret ([tool; op; "-c"; circuit_type; "-p"; mct_ps_type self; "-s"; str_of_Z segment_size; "-n";
        str_of_Z num_constraints]
    ++ (match constant with
        | PNone => []
        | _ => if py_neqb constant (PBool false)
               then ["-k"; if py_eqb constant (PBool true) then "CONSTANT_PLACEHOLDER" else py_str constant]
               else []
        end)
    ++ (if py_eqb keyrot (PBool true) then ["-r"] else [])
    ++ ["--"; params_dir]
    ++ match proof_path with Some p => [p] | None => [] end).

Definition ensured (target_dir : string) : MW string :=
  let! there := ask (os_isdir target_dir) in
  do! when (negb there) (makedirs target_dir) in
  ret target_dir.

Definition get_params_dir (self : MCTestUtils) (id : string) : MW string :=
  ensured (mct_datadir self +:+ "/sc_" +:+ id +:+ "_params/").

Definition get_proofs_dir (self : MCTestUtils) (id : string) : MW string :=
  ensured (mct_datadir self +:+ "/sc_" +:+ id +:+ "_proofs/").

(** [_get_proof] and [_get_vk]: the bytes of a file in hexadecimal. *)
Definition get_file_hex (path : string) : MW string :=
  let! there := ask (os_isfile path) in
  do! assert_stmt there in
  let! bytes := read_file path in
  ret (hexlify bytes).

(** Both key files exist. *)
Definition has_keys (base : string) : MW bool :=
  let! pk := ask (os_isfile (base +:+ "test_pk")) in
  if pk then ask (os_isfile (base +:+ "test_vk")) else ret false.

(** [_generate_params]: [None] when the keys are already there. *)
Definition generate_params_with (self : MCTestUtils) (id circuit_type : string) (constant keyrot : pyval)
    (num_constraints segment_size : Z) : MW pyval :=
  let file_prefix := get_file_prefix self circuit_type constant in
  let! params_dir := get_params_dir self id in
  let! there := has_keys (params_dir +:+ file_prefix) in
  if there then ret PNone
  else
    let! args := get_args self "generate" circuit_type constant keyrot params_dir num_constraints segment_size None in
    do! check_call args in
    let! there := ask (os_isfile (params_dir +:+ file_prefix +:+ "test_pk")) in
    do! assert_stmt there in
    let! vk := get_file_hex (params_dir +:+ file_prefix +:+ "test_vk") in
    ret (PStr vk).

Definition CertTestUtils_init (datadir : string) (srcdir : option string) (ps_type : string) : MW MCTestUtils :=
  let! srcdir :=
    match srcdir with
    | Some d => ret d
    | None =>
        let! zendPath := getenv "BITCOIND" "N.A." in
        let! there := ask (os_isfile zendPath) in
        if there then ret (dirname zendPath) else raise (GenericException ("no such file: " +:+ zendPath))
    end in
  MCTestUtils_init datadir srcdir ps_type.

Definition cert_generate_params (self : MCTestUtils) (id : string) (constant keyrot : pyval)
    (num_constraints segment_size : Z) : MW pyval :=
  generate_params_with self id "cert" constant keyrot num_constraints segment_size.

(** [str(int(round(amount * COIN)))] *)
Definition satoshi_text (amount : pyval) : outcome string :=
  let? a := py_mul amount (PInt COIN) in
  let? z := py_round a in
  Val (str_of_Z z).

(** [for (pk, amount) in zip(pks, amounts)] *)
Fixpoint transfer_args (pks amounts : list pyval) : outcome (list string) :=
  match pks, amounts with
  | pk :: pks', amount :: amounts' =>
      let? a := satoshi_text amount in
      let? rest := transfer_args pks' amounts' in
      Val (py_str pk :: a :: rest)
  | _, _ => Val []
  end.

Definition prev_hash_text (prev_cert_hash : pyval) : string :=
  match prev_cert_hash with
  | PNone => "NO_PREV_CERT_HASH"
  | _ => if py_eqb prev_cert_hash (PInt 0) then "PHANTOM_PREV_CERT_HASH" else py_str prev_cert_hash
  end.

(** What follows the paths on the command line. *)
Definition cert_args (scid end_cum_comm_tree_root prev_cert_hash epoch_number quality btr_fee ft_min_amount : pyval)
    (pks amounts custom_fields : list pyval) : outcome (list string) :=
  let? fee := satoshi_text btr_fee in
  let? ft := satoshi_text ft_min_amount in
  let? transfers := transfer_args pks amounts in
  Val ([py_str scid; py_str end_cum_comm_tree_root; prev_hash_text prev_cert_hash; py_str epoch_number;
        py_str quality; fee; ft]
    ++ str_of_Z (Z.of_nat (length pks)) :: transfers
    ++ str_of_Z (Z.of_nat (length custom_fields)) :: map py_str custom_fields).

Definition cert_create_test_proof (self : MCTestUtils) (id : string)
    (scid epoch_number quality btr_fee ft_min_amount end_cum_comm_tree_root prev_cert_hash constant : pyval)
    (pks amounts custom_fields : list pyval) (num_constraints segment_size : Z) (keyrot : pyval) : MW pyval :=
  let file_prefix := get_file_prefix self "cert" constant in
  let! params_dir := get_params_dir self id in
  let! there := has_keys (params_dir +:+ file_prefix) in
  if negb there then ret PNone
  else
    let! proofs_dir := get_proofs_dir self id in
    let proof_path := proofs_dir +:+ "_epoch_" +:+ py_str epoch_number +:+ "_" +:+ file_prefix +:+ "_proof" in
    let! args := get_args self "create" "cert" constant keyrot params_dir num_constraints segment_size
                   (Some proof_path) in
    let% more := cert_args scid end_cum_comm_tree_root prev_cert_hash epoch_number quality btr_fee ft_min_amount
                   pks amounts custom_fields in
    do! check_call (args ++ more) in
    let! proof := get_file_hex proof_path in
    ret (PStr proof).

Definition csw_generate_params (self : MCTestUtils) (id : string) (constant keyrot : pyval)
    (num_constraints segment_size : Z) : MW pyval :=
  generate_params_with self id "csw" constant keyrot num_constraints segment_size.

Definition csw_create_test_proof (self : MCTestUtils) (id : string)
    (amount sc_id nullifier mc_pk_hash end_cum_comm_tree_root cert_data_hash constant : pyval)
    (num_constraints segment_size : Z) : MW pyval :=
  let file_prefix := get_file_prefix self "csw" constant in
  let! params_dir := get_params_dir self id in
  let! there := has_keys (params_dir +:+ file_prefix) in
  if negb there then ret PNone
  else
    let! proofs_dir := get_proofs_dir self id in
    let proof_path := proofs_dir +:+ "_addr_" +:+ py_str mc_pk_hash +:+ "_" +:+ file_prefix +:+ "_proof" in
    let! args := get_args self "create" "csw" constant PNone params_dir num_constraints segment_size
                   (Some proof_path) in
    let cert_data_hash := match cert_data_hash with PNone => "NO_CERT_DATA_HASH" | _ => py_str cert_data_hash end in
    let% sat := satoshi_text amount in
    do! check_call (args ++ [py_str sc_id; py_str end_cum_comm_tree_root; cert_data_hash; sat; py_str nullifier;
                             py_str mc_pk_hash]) in
    let! proof := get_file_hex proof_path in
    ret (PStr proof).

(** ** A second sidechain on the same mainchain (scutil.py) *)

(** [except Exception]: everything but [SystemExit] becomes a failed assertion. *)
Definition or_assert {A} (m : MW A) : MW A :=
  catch m (λ e, if is_Exception e then raise (AssertionError "") else raise e).

Definition create_alien_sidechain (mcTest : MCTestUtils) (mc_node : proxy) (scVersion epochLength : pyval)
    (customHexTag : string) (feCfgList : list pyval) : MW pyval :=
  let keyrot := py_eqb scVersion (PInt 2) in
  let! vk := cert_generate_params mcTest customHexTag (PBool true) (PBool keyrot) 1024 512 in
  let! constant := generate_random_field_element_hex in
  let cmdInput := PDict
    [("version", scVersion); ("withdrawalEpochLength", epochLength); ("toaddress", PStr "dada");
     ("amount", PFloat (float_of_dec (Dec 1 (-1)))); ("wCertVk", vk); ("constant", PStr constant);
     ("customData", PStr customHexTag); ("wCeasedVk", PStr "");
     ("vFieldElementCertificateFieldConfig", PList feCfgList); ("vBitVectorCertificateFieldConfig", PList [])] in
  let! r := or_assert (call mc_node "sc_create" [cmdInput]) in
  let% txid := getitem r "txid" in
  let! pool := call mc_node "getrawmempool" [] in
  let% there := py_in txid pool in
  do% assert_equal (PBool true) (PBool there) "" in
  ret r.

(** The address that is used as a key. *)
Definition str_arg (v : pyval) : outcome string :=
  match v with PStr s => Val s | _ => Exc TypeError end.

(** The version by the comparisons of [get_field_element_with_padding]; any
    other value is none of the three. *)
Definition version_case (v : pyval) : Z :=
  if py_eqb v (PInt 0) then 0 else if py_eqb v (PInt 1) then 1 else if py_eqb v (PInt 2) then 2 else -1.

Definition create_certificate_for_alien_sc (mcTest : MCTestUtils) (scid : string) (mc_node : proxy)
    (fePatternArray : list string) (prev_cert_data_hash : pyval) : MW pyval :=
  let! '(epoch_number, epoch_cum_tree_hash, sc_version, constant, sc_tag) := get_scinfo_data (PStr scid) mc_node in
  let! '(utx, change) := get_spendable mc_node (PDec (Dec 1 (-4))) in
  let% txid := getitem utx "txid" in
  let% vout := getitem utx "vout" in
  let inputs := PList [PDict [("txid", txid); ("vout", vout)]] in
  let! address := call mc_node "getnewaddress" [] in
  let% address := str_arg address in
  let outputs := PDict [(address, change)] in
  let% feList := omapM (λ p, get_field_element_with_padding p (version_case sc_version)) fePatternArray in
  let% scid_swapped := swap_bytes scid in
  let prev_cert_hash :=
    if py_eqb sc_version (PInt 2) && py_eqb prev_cert_data_hash PNone then PInt 0 else prev_cert_data_hash in
  let! scProof := cert_create_test_proof mcTest (py_str sc_tag) (PStr scid_swapped) epoch_number (PInt 10)
    (PFloat (float_of_Z 0)) (PFloat (float_of_Z 0)) epoch_cum_tree_hash prev_cert_hash constant [] [] (map PStr feList)
    1024 512 (PBool false) in
  let params := PDict
    [("scid", PStr scid); ("quality", PInt 10); ("endEpochCumScTxCommTreeRoot", epoch_cum_tree_hash);
     ("scProof", scProof); ("withdrawalEpochNumber", epoch_number);
     ("vFieldElementCertificateField", PList (map PStr fePatternArray)); ("vBitVectorCertificateField", PList [])] in
  let! cert := or_assert (
    let! rawcert := call mc_node "createrawcertificate" [inputs; outputs; PList []; params] in
    let! signed_cert := call mc_node "signrawtransaction" [rawcert] in
    let% h := getitem signed_cert "hex" in
    call mc_node "sendrawtransaction" [h]) in
  let! pool := call mc_node "getrawmempool" [] in
  let% there := py_in cert pool in
  do% assert_equal (PBool true) (PBool there) "" in
  ret cert.
End McTest.

(** ** secure_enclave_http_api_server.py *)

(** What the server uses of Flask's JSON module. *)
Class FlaskJson := {
  flask_dumps : pyval → outcome string;
  flask_loads : string → outcome pyval
}.

Record SecureEnclaveApiServer := mkSecureEnclaveApiServer {
  schnorr_secrets : list pyval;
  schnorr_public_keys : list pyval;
  enclave_host : string;
  enclave_port : Z
}.

Definition SecureEnclaveApiServer_init (secrets public_keys : option (list pyval)) (host : string) (port : Z)
    : SecureEnclaveApiServer :=
  mkSecureEnclaveApiServer (match secrets with Some l => l | None => [] end)
    (match public_keys with Some l => l | None => [] end) host port.

(** [l.index(x)] *)
Fixpoint list_index_of (x : pyval) (l : list pyval) : outcome Z :=
  match l with
  | [] => Exc (ValueError "index")
  | y :: l' => if py_eqb x y then Val 0 else let? i := list_index_of x l' in Val (i + 1)
  end.

(** [content['privateKey'] = sk; content.pop('publicKey', None)] *)
Definition with_private_key (content sk : pyval) : outcome pyval :=
  match content with
  | PDict d => Val (PDict (dict_del "publicKey" (dict_set "privateKey" sk d)))
  | _ => Exc TypeError
  end.

Section Enclave.
Context {W : Type} `{Nodes W, Clock W, Os W, Rng W} `{FlaskJson}.
Local Abbreviation MW := (M W).

Definition launch_signing_tool (json_parameters : pyval) : MW pyval :=
  let% json_param := flask_dumps json_parameters in
  let! sdk := getenv "SIDECHAIN_SDK" ".." in
  let! output := communicate ["java"; "-jar"; sdk +:+ "/tools/signingtool/target/sidechains-sdk-signingtools-"
                   +:+ SNAPSHOT_VERSION_TAG +:+ ".jar"; "createSignature"; json_param] in
  match flask_loads output with
  | Exc (ValueError _) => raise (GenericException "Signing tool error occurred")
  | o => lift o
  end.

(** The handler of [/api/v1/createSignature]: [headers] looks a header up,
    [data] is the body of the request. *)
Definition sign_message (self : SecureEnclaveApiServer) (headers : string → outcome string) (data : string)
    : MW pyval :=
  let% content := flask_loads data in
  let% agent := headers "User-Agent" in
  do! (if str_contains "akka-http" agent then
         let% ct := headers "Content-Type" in
         do% assert_equal (PStr "application/json") (PStr ct) "" in
         let% ac := headers "Accept" in
         lift (assert_equal (PStr "application/json") (PStr ac) "")
       else ret tt) in
  let% given := has_key "privateKey" content in
  let% content :=
    if negb given then
      let? pk := getitem content "publicKey" in
      let? index := list_index_of pk (schnorr_public_keys self) in
      let? sk := list_index (schnorr_secrets self) index in
      with_private_key content sk
    else Val content in
  launch_signing_tool content.

(** The handler of [/api/v1/listKeys]. *)
Definition list_keys (self : SecureEnclaveApiServer) : outcome string :=
  flask_dumps (PDict [("keys", PList (map (λ key, PDict [("publicKey", key); ("type", PStr "schnorr")])
                                          (schnorr_public_keys self)))]).
End Enclave.

(** ** The websocket clients *)

Definition EVENT_MSG_TYPE : Z := 0.
Definition REQUEST_MSG_TYPE : Z := 1.
Definition RESPONSE_MSG_TYPE : Z := 2.
Definition ERROR_MSG_TYPE : Z := 3.

Definition SEND_RAW_MEMPOOL_REQUEST : Z := 5.
Definition GET_MEMPOOL_TXS_REQUEST : Z := 4.
Definition GET_NEW_BLOCK_HASHES_REQUEST : Z := 2.
Definition GET_SINGLE_BLOCK_REQUEST : Z := 0.

Definition MEMPOOL_CHANGED_EVENT : Z := 2.
Definition UPDATE_TIP_EVENT : Z := 0.

Definition SUBSCRIBE_REQUEST : string := "eth_subscribe".
Definition UNSUBSCRIBE_REQUEST : string := "eth_unsubscribe".
Definition SUBSCRIBE_RESPONSE : string := "eth_subscription".
Definition UNSUBSCRIBE_RESPONSE : string := "eth_unsubscription".
Definition NEW_HEADS_SUBSCRIPTION : string := "newHeads".
Definition NEW_PENDING_TRANSACTIONS_SUBSCRIPTION : string := "newPendingTransactions".
Definition LOGS_SUBSCRIPTION : string := "logs".
Definition SYNC_SUBSCRIPTION : string := "syncing".

(** The package [websocket]: a connection by its URL. *)
Class Websocket (W : Type) := {
  ws_connect : string → W → (exn + Z) * W;
  ws_send : Z → string → W → (exn + unit) * W;
  ws_recv : Z → W → (exn + string) * W
}.

Section WebsocketClients.
Context {W : Type} `{Nodes W, Clock W, Os W, Rng W} `{Websocket W}.
Local Abbreviation MW := (M W).

Definition create_connection (url : string) : MW Z := run_os (ws_connect url).
Definition send (ws : Z) (text : string) : MW unit := act (EWsSend ws text) (ws_send ws text).
Definition recv (ws : Z) : MW string := act (EWsRecv ws) (ws_recv ws).

(** [for x in range(1, timeout)]: receive until a message is not empty; the last
    one is returned. *)
Fixpoint recv_loop (n : nat) (ws : Z) : MW string :=
  let! results := recv ws in
  if String.eqb results "" then
    do! sleep (secs 1) in
    match n with
    | O | S O => ret results
    | S n' => recv_loop n' ws
    end
  else ret results.

Definition ws_timeout : nat := 500.

Definition message_text (msgType requestId requestType : Z) (requestPayload : string) : string :=
  "{" +:+ quoted "msgType" +:+ ":" +:+ str_of_Z msgType +:+ ", " +:+ quoted "requestId" +:+ ":" +:+ str_of_Z requestId
  +:+ ", " +:+ quoted "requestType" +:+ ":" +:+ str_of_Z requestType +:+ ", " +:+ quoted "requestPayload" +:+ ":"
  +:+ requestPayload +:+ " }".

Definition WebsocketClient_sendMessage (ws msgType requestId requestType : Z) (requestPayload : string) : MW string :=
  do! send ws (message_text msgType requestId requestType requestPayload) in
  recv_loop (ws_timeout - 1) ws.

Definition checkMessageStaticFields (response : pyval) (msgType : Z) (requestId answerType : pyval) : outcome unit :=
  let? m := getitem response "msgType" in
  let? _ := assert_equal m (PInt msgType) "" in
  let? a := getitem response "answerType" in
  let? _ := assert_equal a answerType "" in
  if msgType =? 0 then
    let? there := has_key "requestId" response in assert_true (negb there) ""
  else
    let? r := getitem response "requestId" in assert_equal r requestId "".

Definition AccountWebsocketClient_sendMessage (ws : Z) (id : pyval) (request : string) (params : pyval) : MW string :=
  let% text := dumps (PDict [("jsonrpc", PStr "2.0"); ("id", id); ("method", PStr request); ("params", params)]) in
  do! send ws text in
  recv_loop (ws_timeout - 1) ws.
End WebsocketClients.
