(* ===== verification/ToolsProps.v ===== *)
(** * Properties of the tool drivers, the signing server and the websocket clients *)

From S2P Require Import Prelude PyStr Numbers PyVal Host Sim Json Encoding HttpProxy BootInfo McUtil ScUtil.
From S2P Require Import Forging Bootstrap Tools.
From Stdlib Require Import Ascii String.
From stdpp Require Import base list.
Local Open Scope Z_scope.

(** ** The command line of a certificate proof *)

(** How the tool reads the arguments after the paths: seven values, a count and
    that many pairs, a count and that many fields, and nothing else. *)
Fixpoint take_pairs (n : nat) (l : list string) : option (list (string * string) * list string) :=
  match n, l with
  | O, _ => Some ([], l)
  | S n', a :: b :: l' =>
      match take_pairs n' l' with Some (ps, r) => Some ((a, b) :: ps, r) | None => None end
  | S _, _ => None
  end.

Definition take_count (l : list string) : option (nat * list string) :=
  match l with
  | c :: l' => match parse_int 10 c with Some z => Some (Z.to_nat z, l') | None => None end
  | [] => None
  end.

Definition read_cert_args (l : list string) : option (list string * list (string * string) * list string) :=
  match take_count (drop 7 l) with
  | Some (n, l1) =>
      match take_pairs n l1 with
      | Some (ps, l2) =>
          match take_count l2 with
          | Some (m, l3) => if (length l3 =? m)%nat then Some (take 7 l, ps, l3) else None
          | None => None
          end
      | None => None
      end
  | None => None
  end.

Lemma take_count_nat n l : take_count (str_of_Z (Z.of_nat n) :: l) = Some (n, l).
Proof. unfold take_count. rewrite parse_str_of_Z. by rewrite Nat2Z.id. Qed.

Lemma take_pairs_transfers pks amounts l rest :
  length pks = length amounts → transfer_args pks amounts = Val l →
  ∃ sats, omapM satoshi_text amounts = Val sats
    ∧ take_pairs (length pks) (l ++ rest) = Some (zip (map py_str pks) sats, rest).
Proof.
  revert amounts l. induction pks as [|pk pks IH]; intros [|a amounts] l; simpl; try done.
  { intros _ [= <-]. by exists []. }
  intros [= Hlen] (s & Hs & (r & Hr & [= <-])%obind_Val_inv)%obind_Val_inv.
  destruct (IH amounts r Hlen Hr) as (sats & Hsats & Htake). exists (s :: sats). rewrite Hs. simpl.
  rewrite Hsats. split; [done|]. simpl. by rewrite Htake.
Qed.

(** The command line of a certificate proof can be read back: with as many
    amounts as keys, a reader that goes by the two counts finds the seven
    leading values, each key with its amount in satoshi, and the custom
    fields, with nothing left over. *)
Theorem cert_args_roundtrip (scid root prev epoch quality fee ft : pyval) (pks amounts fields : list pyval)
    (l : list string) :
  length pks = length amounts → cert_args scid root prev epoch quality fee ft pks amounts fields = Val l →
  ∃ f g sats, satoshi_text fee = Val f ∧ satoshi_text ft = Val g ∧ omapM satoshi_text amounts = Val sats
    ∧ read_cert_args l
      = Some ([py_str scid; py_str root; prev_hash_text prev; py_str epoch; py_str quality; f; g],
              zip (map py_str pks) sats, map py_str fields).
Proof.
  intros Hlen. unfold cert_args. intros (f & Hf & (g & Hg & (ts & Hts & [= <-])%obind_Val_inv)%obind_Val_inv)%obind_Val_inv.
  destruct (take_pairs_transfers pks amounts ts (str_of_Z (Z.of_nat (length fields)) :: map py_str fields) Hlen Hts)
    as (sats & Hsats & Htake).
  exists f, g, sats. split_and!; try done. unfold read_cert_args. cbn [app drop take].
  rewrite take_count_nat, Htake, take_count_nat, length_map, Nat.eqb_refl. done.
Qed.

Definition two_transfers : outcome (list string) :=
  cert_args (PStr "aa") (PStr "rr") (PInt 0) (PInt 3) (PInt 10) (PFloat (float_of_Z 0)) (PFloat (float_of_Z 0))
    [PStr "k1"; PStr "k2"] [PDec (Dec 5 (-1)); PInt 2] [PStr "f1"].

Lemma cert_args_roundtrip_witness :
  ∃ l sats, two_transfers = Val l ∧ omapM satoshi_text [PDec (Dec 5 (-1)); PInt 2] = Val sats
    ∧ read_cert_args l = Some (["aa"; "rr"; "PHANTOM_PREV_CERT_HASH"; "3"; "10"; "0"; "0"],
                               zip ["k1"; "k2"] sats, ["f1"]).
Proof.
  destruct two_transfers as [l|e|] eqn:E; [|vm_compute in E; discriminate E|vm_compute in E; discriminate E].
  destruct (cert_args_roundtrip (PStr "aa") (PStr "rr") (PInt 0) (PInt 3) (PInt 10) (PFloat (float_of_Z 0))
    (PFloat (float_of_Z 0)) [PStr "k1"; PStr "k2"] [PDec (Dec 5 (-1)); PInt 2] [PStr "f1"] l eq_refl E)
    as (f & g & sats & Hf & Hg & Hs & Hr).
  vm_compute in Hf, Hg. injection Hf as <-. injection Hg as <-. by exists l, sats.
Defined.

(** With fewer amounts than keys the count no longer matches what follows. *)
Example cert_args_mismatch :
  (∃ l, cert_args (PStr "aa") (PStr "rr") PNone (PInt 3) (PInt 10) (PInt 0) (PInt 0)
          [PStr "k1"; PStr "k2"] [PInt 2] [] = Val l
        ∧ read_cert_args l = None).
Proof. eexists. split; vm_compute; reflexivity. Qed.

(** ** Keys that are already there *)

Section Keys.
Context {W : Type} `{Nodes W, Clock W, Os W, Rng W}.
Implicit Types st : St W.

Definition params_of (self : MCTestUtils) (id : string) : string :=
  mct_datadir self +:+ "/sc_" +:+ id +:+ "_params/".

(** The directory and both key files of a sidechain exist. *)
Definition keys_exist (self : MCTestUtils) (id circ : string) (constant : pyval) (w : W) : Prop :=
  os_isdir (params_of self id) w = true
  ∧ os_isfile (params_of self id +:+ get_file_prefix self circ constant +:+ "test_pk") w = true
  ∧ os_isfile (params_of self id +:+ get_file_prefix self circ constant +:+ "test_vk") w = true.

Lemma generate_params_existing self id circ constant keyrot n s st :
  keys_exist self id circ constant (world st) →
  generate_params_with self id circ constant keyrot n s st = (Val PNone, st).
Proof.
  intros (Hd & Hpk & Hvk). unfold generate_params_with, get_params_dir, ensured, has_keys, bind, ask, ret, when.
  fold (params_of self id). rewrite Hd. simpl. rewrite !str_app_assoc, Hpk. simpl. by rewrite Hvk.
Qed.

Definition alien_command (scVersion epochLength vk : pyval) (constant tag : string) (fe : list pyval) : pyval :=
  PDict [("version", scVersion); ("withdrawalEpochLength", epochLength); ("toaddress", PStr "dada");
     ("amount", PFloat (float_of_dec (Dec 1 (-1)))); ("wCertVk", vk); ("constant", PStr constant);
     ("customData", PStr tag); ("wCeasedVk", PStr "");
     ("vFieldElementCertificateFieldConfig", PList fe); ("vBitVectorCertificateFieldConfig", PList [])].

(** The verification key is produced only the first time: when the keys of a
    tag are already in the data directory, no tool is run and the sidechain is
    created with a null key ([wCertVk]); whether the creation is accepted is
    then up to the mainchain node, and the result is returned only if its
    transaction is in the node's memory pool. *)
Theorem create_alien_sidechain_again (self : MCTestUtils) (mc : proxy) (version epochLength txid : pyval) (tag b : string)
    (fe pool : list pyval) st (w1 w2 w3 : W) :
  keys_exist self tag "cert" (PBool true) (world st) →
  rng_urandom SC_FIELD_SAFE_SIZE (world st) = (b, w1) →
  let cmd := alien_command version epochLength PNone (hexlify b +:+ "00") tag fe in
  node_call mc "sc_create" [cmd] [] w1 = (inr (PDict [("txid", txid)]), w2) →
  node_call mc "getrawmempool" [] [] w2 = (inr (PList pool), w3) →
  let res := create_alien_sidechain self mc version epochLength tag fe st in
  trace res.2 = trace st ++ [ECall mc "sc_create" [cmd] []; ECall mc "getrawmempool" [] []]
  ∧ (list_mem txid pool = true → res.1 = Val (PDict [("txid", txid)]))
  ∧ (list_mem txid pool = false → ∃ msg, res.1 = Exc (AssertionError msg)).
Proof.
  intros Hk Hr cmd Hc Hp. cbv zeta. unfold create_alien_sidechain, cert_generate_params.
  rewrite (bind_run _ _ _ _ _ (generate_params_existing self tag "cert" (PBool true) _ 1024 512 st Hk)).
  assert (generate_random_field_element_hex st = (Val (hexlify b +:+ "00"), set_world w1 st)) as Hg.
  { unfold generate_random_field_element_hex, bind, urandom. by rewrite Hr. }
  rewrite (bind_run _ _ _ _ _ Hg). fold (alien_command version epochLength PNone (hexlify b +:+ "00") tag fe). fold cmd.
  assert (or_assert (call mc "sc_create" [cmd]) (set_world w1 st)
    = (Val (PDict [("txid", txid)]), log_event (ECall mc "sc_create" [cmd] []) (set_world w2 (set_world w1 st)))) as Hs.
  { unfold or_assert, catch. by rewrite (call_run mc "sc_create" [cmd] (set_world w1 st) _ _ Hc). }
  rewrite (bind_run _ _ _ _ _ Hs). rewrite (bind_lift_run _ txid) by reflexivity.
  set (st2 := log_event _ _). rewrite (bind_run _ _ _ _ _ (call_run mc "getrawmempool" [] st2 _ _ Hp)).
  rewrite (bind_lift_run _ (list_mem txid pool)) by reflexivity. unfold bind, lift, ret, assert_equal.
  destruct (list_mem txid pool); cbn [py_neqb]; split_and!; try done; try (simpl; by rewrite <- app_assoc).
  intros _. eexists. reflexivity.
Qed.
End Keys.

(** The keys of the tag [5c00] are there. *)
Definition old_keys : St sim :=
  init_st (put_dir "/d/sc_5c00_params/"
    (put_file "/d/sc_5c00_params/cob_marlin_cert_test_pk" "p" (put_file "/d/sc_5c00_params/cob_marlin_cert_test_vk" "v"
      (sim_of (λ _ _ m _, inr (if String.eqb m "sc_create" then PDict [("txid", PStr "t1")] else PList [PStr "t1"])))))).

Lemma create_alien_sidechain_again_witness :
  (create_alien_sidechain (mkMCTestUtils "/d" "/s" "cob_marlin") mc0 (PInt 0) (PInt 10) "5c00" [] old_keys).1
  = Val (PDict [("txid", PStr "t1")]).
Proof.
  apply (create_alien_sidechain_again (mkMCTestUtils "/d" "/s" "cob_marlin") mc0 (PInt 0) (PInt 10) (PStr "t1") "5c00"
    (str_repeat "a" 31) [] [PStr "t1"] old_keys (world old_keys) (tick (world old_keys)) (tick (tick (world old_keys))));
    try reflexivity.
  split_and!; vm_compute; reflexivity.
Defined.

(** ** The signing server *)

Lemma list_index_of_first x l i :
  l !! i = Some x → py_eqb x x = true → Forall (λ y, py_eqb x y = false) (take i l) →
  list_index_of x l = Val (Z.of_nat i).
Proof.
  revert i. induction l as [|y l IH]; intros [|i]; simpl; try done.
  - intros [= ->] ->. done.
  - intros Hi Hx [-> Hf]%Forall_cons. rewrite (IH i Hi Hx Hf). simpl. do 2 f_equal. lia.
Qed.

Lemma list_index_of_absent x l :
  Forall (λ y, py_eqb x y = false) l → list_index_of x l = Exc (ValueError "index").
Proof. induction 1 as [|y l Hy Hl IH]; simpl; [done|]. by rewrite Hy, IH. Qed.

Section Signing.
Context {W : Type} `{Nodes W, Clock W, Os W, Rng W} `{FlaskJson}.
Implicit Types st : St W.

(** A request for a signature that names a public key is signed with the
    secret at the same place of the server's list: what is passed to the
    signing tool is the request with that secret and without the public key,
    everything else unchanged; a key the server does not know is refused
    without starting the tool. *)
Theorem sign_message_secret (self : SecureEnclaveApiServer) (headers : string → outcome string) (data agent : string)
    (d : list (string * pyval)) (pk : pyval) st :
  flask_loads data = Val (PDict d) → headers "User-Agent" = Val agent → str_contains "akka-http" agent = false →
  NoDup d.*1 → dict_get "privateKey" d = None → dict_get "publicKey" d = Some pk → py_eqb pk pk = true →
  (∀ i sk, schnorr_public_keys self !! i = Some pk →
     Forall (λ y, py_eqb pk y = false) (take i (schnorr_public_keys self)) → schnorr_secrets self !! i = Some sk →
     ∃ d', sign_message self headers data st = launch_signing_tool (PDict d') st
       ∧ dict_get "privateKey" d' = Some sk ∧ dict_get "publicKey" d' = None
       ∧ ∀ k, k ≠ "privateKey" → k ≠ "publicKey" → dict_get k d' = dict_get k d)
  ∧ (Forall (λ y, py_eqb pk y = false) (schnorr_public_keys self) →
     sign_message self headers data st = (Exc (ValueError "index"), st)).
Proof.
  intros Hl Ha Hag Hnd Hpriv Hpub Hrefl.
  assert (∀ o : outcome pyval,
    (let? pk0 := getitem (PDict d) "publicKey" in
     let? index := list_index_of pk0 (schnorr_public_keys self) in
     let? sk := list_index (schnorr_secrets self) index in with_private_key (PDict d) sk) = o →
    sign_message self headers data st = bind (lift o) launch_signing_tool st) as Hrun.
  { intros o Ho. unfold sign_message. rewrite (bind_lift_run _ _ _ _ Hl), (bind_lift_run _ _ _ _ Ha), Hag.
    rewrite (bind_run (ret tt) _ st tt st eq_refl).
    rewrite (bind_lift_run _ false) by (unfold has_key, py_in, dict_mem; by rewrite Hpriv). cbn [negb]. by rewrite Ho. }
  assert (getitem (PDict d) "publicKey" = Val pk) as Hget by (simpl; by rewrite Hpub).
  split.
  - intros i sk Hi Hfirst Hsk. exists (dict_del "publicKey" (dict_set "privateKey" sk d)). split.
    + rewrite (Hrun (Val (PDict (dict_del "publicKey" (dict_set "privateKey" sk d))))); [done|].
      rewrite Hget. cbn [obind]. rewrite (list_index_of_first _ _ i Hi Hrefl Hfirst). cbn [obind].
      by rewrite (list_index_lookup _ _ _ Hsk).
    + split_and!.
      * by rewrite dict_get_del_ne, dict_get_set_eq.
      * by apply dict_get_del_eq, dict_set_nodup.
      * intros k Hk1 Hk2. by rewrite dict_get_del_ne, dict_get_set_ne.
  - intros Hno. rewrite (Hrun (Exc (ValueError "index"))); [done|].
    rewrite Hget. cbn [obind]. by rewrite (list_index_of_absent _ _ Hno).
Qed.

(** The listing holds the public keys and nothing of the secrets: it is the
    same whatever they are. *)
Lemma list_keys_public secrets secrets' keys host port :
  list_keys (mkSecureEnclaveApiServer secrets keys host port)
  = list_keys (mkSecureEnclaveApiServer secrets' keys host port).
Proof. reflexivity. Qed.
End Signing.

#[export] Instance plain_flask : FlaskJson := { flask_dumps := dumps; flask_loads := loads }.

Definition two_keys : SecureEnclaveApiServer :=
  SecureEnclaveApiServer_init (Some [PStr "s0"; PStr "s1"]) (Some [PStr "p0"; PStr "p1"]) "127.0.0.1" 5000.

Definition sign_request : list (string * pyval) :=
  [("message", PStr "m"); ("publicKey", PStr "p1"); ("type", PStr "schnorr")].

Definition sign_body : string := match dumps (PDict sign_request) with Val s => s | _ => "" end.

Definition signing_host : St sim := init_st (Sim 0 0 (λ _ _ _ _, inr PNone) [] [] (λ _, inr "{}") 1 0).

Lemma sign_message_secret_witness :
  ∃ d', sign_message two_keys (λ _, Val "python-requests") sign_body signing_host
          = launch_signing_tool (PDict d') signing_host
        ∧ dict_get "privateKey" d' = Some (PStr "s1") ∧ dict_get "publicKey" d' = None.
Proof.
  destruct (sign_message_secret two_keys (λ _, Val "python-requests") sign_body "python-requests" sign_request (PStr "p1")
    signing_host) as [Hs _]; try reflexivity.
  - apply (bool_decide_eq_true_1 (NoDup sign_request.*1)). vm_compute. reflexivity.
  - destruct (Hs 1%nat (PStr "s1")) as (d' & E & Hp & Hq & _); [reflexivity|by repeat constructor|reflexivity|].
    exists d'. split; [exact E|]. split; [exact Hp|exact Hq].
Defined.

(** ** The websocket clients *)

Section Ws.
Context {W : Type} `{Nodes W, Clock W, Os W, Rng W} `{Websocket W}.
Implicit Types st : St W.

(** [k] receptions that came back empty, each followed by a second's sleep. *)
Definition empty_polls (ws : Z) (k : nat) : list event := concat (repeat [EWsRecv ws; ESleep (secs 1)] k).

(** A run of the loop: some empty receptions, then the outcome of the last. *)
Lemma recv_loop_run n ws st o st' :
  (0 < n)%nat → recv_loop n ws st = (o, st') →
  ∃ k, trace st' = trace st ++ empty_polls ws k
           ++ (match o with Val "" => [] | _ => [EWsRecv ws] end)
    ∧ (match o with Val "" => k = n | _ => (k < n)%nat end) ∧ o ≠ NoFuel.
Proof.
  revert st. induction n as [|n IH]; intros st Hn; [lia|]. cbn [recv_loop].
  unfold bind at 1, recv, act. destruct (ws_recv ws (world st)) as [[e|s] w]; cbn [of_sum].
  { intros [= <- <-]. exists O. split_and!; [done|lia|done]. }
  destruct (String.eqb_spec s "") as [->|Hs].
  - unfold bind, sleep. set (st1 := log_event (ESleep (secs 1)) _). destruct n as [|n].
    { unfold ret. intros [= <- <-]. exists 1%nat. split_and!; [|done|done]. simpl. by rewrite <- app_assoc. }
    intros (k & Ht & Hk & Hf)%IH; [|lia]. exists (S k). split_and!; [|destruct o as [[|]| |]; lia|done].
    rewrite Ht. simpl. unfold empty_polls. simpl. by rewrite <- !app_assoc.
  - unfold ret. intros [= <- <-]. exists O. destruct s as [|c s]; [done|]. split_and!; [done|lia|done].
Qed.

Lemma p_value_object pf f s l :
  p_members pf f (String dquote s) = Some (l, "") →
  p_value pf (S f) ("{" +:+ String dquote s) = Some (PDict (foldl (λ d kv, dict_set kv.1 kv.2 d) [] l), "").
Proof.
  intros Hm. cbn [String.append p_value]. simpl (Ascii.eqb _ dquote). simpl (Ascii.eqb _ "[").
  simpl (Ascii.eqb _ "{"). cbv iota. change (skip_ws (String dquote s)) with (String dquote s).
  cbv beta iota delta [dquote ascii_of_nat ascii_of_pos]. fold dquote.
  change (match p_members pf f (String dquote s) with
          | Some (l0, r0) => Some (PDict (foldl (λ d0 kv0, dict_set kv0.1 kv0.2 d0) [] l0), r0)
          | None => None end = Some (PDict (foldl (λ d kv, dict_set kv.1 kv.2 d) [] l), "")).
  by rewrite Hm.
Qed.

Lemma message_text_loads a b c payload :
  json_ok payload = true →
  loads (message_text a b c (render payload))
  = Val (PDict [("msgType", PInt a); ("requestId", PInt b); ("requestType", PInt c); ("requestPayload", payload)]).
Proof.
  intros Hok. set (T4 := quoted "requestPayload" +:+ ":" +:+ render payload +:+ " }" +:+ "").
  set (T3 := quoted "requestType" +:+ ":" +:+ render (PInt c) +:+ ", " +:+ T4).
  set (T2 := quoted "requestId" +:+ ":" +:+ render (PInt b) +:+ ", " +:+ T3).
  set (T1 := quoted "msgType" +:+ ":" +:+ render (PInt a) +:+ ", " +:+ T2).
  assert (message_text a b c (render payload) = "{" +:+ T1) as -> by reflexivity.
  assert (∃ f, String.length ("{" +:+ T1) = S (S (S (S (S f)))) ∧ (vsize payload <= f)%nat) as (f & Hlen & Hf).
  { pose proof (vsize_length payload Hok) as Hv. exists (String.length ("{" +:+ T1) - 5)%nat.
    unfold T1, T2, T3, T4. rewrite !str_length_app. cbn [String.length]. lia. }
  unfold loads, loads_with. rewrite Hlen. change (skip_ws ("{" +:+ T1)) with ("{" +:+ T1).
  pose proof (parses_ok parse_float_as_float) as Hp.
  assert (p_members parse_float_as_float (S (S (S (S (S f))))) T1
    = Some ([("msgType", PInt a); ("requestId", PInt b); ("requestType", PInt c); ("requestPayload", payload)], "")) as Hm.
  { unfold T1. change T2 with (String dquote (str_drop 1 T2)). rewrite p_members_first by (auto; simpl; lia).
    change (String dquote (str_drop 1 T2)) with T2. unfold T2.
    change T3 with (String dquote (str_drop 1 T3)). rewrite p_members_first by (auto; simpl; lia).
    change (String dquote (str_drop 1 T3)) with T3. unfold T3.
    change T4 with (String dquote (str_drop 1 T4)). rewrite p_members_first by (auto; simpl; lia).
    change (String dquote (str_drop 1 T4)) with T4. unfold T4. rewrite p_members_last by (auto; lia). done. }
  change T1 with (String dquote (str_drop 1 T1)) in Hm |- *. by rewrite (p_value_object _ _ _ _ Hm).
Qed.

(** A message sent over a websocket is sent once, and then at most 499
    receptions follow, a second apart while they are empty: the call returns
    the first message that is not empty, or the empty text exactly after 499
    empty receptions; a request whose payload is the text of a JSON object
    decodes to the four fields it was made from. *)
Theorem sendMessage_polls (ws msgType requestId requestType : Z) (payload : pyval) st o st' (w : W) :
  json_ok payload = true →
  ws_send ws (message_text msgType requestId requestType (render payload)) (world st) = (inr tt, w) →
  WebsocketClient_sendMessage ws msgType requestId requestType (render payload) st = (o, st') →
  (∃ k, trace st' = trace st ++ EWsSend ws (message_text msgType requestId requestType (render payload))
                      :: empty_polls ws k ++ (match o with Val "" => [] | _ => [EWsRecv ws] end)
     ∧ (match o with Val "" => k = 499%nat | _ => (k < 499)%nat end) ∧ o ≠ NoFuel)
  ∧ loads (message_text msgType requestId requestType (render payload))
    = Val (PDict [("msgType", PInt msgType); ("requestId", PInt requestId); ("requestType", PInt requestType);
                  ("requestPayload", payload)]).
Proof.
  intros Hok Hs Hr. split; [|by apply message_text_loads].
  unfold WebsocketClient_sendMessage, bind at 1, send, act in Hr. rewrite Hs in Hr. cbn [of_sum] in Hr.
  apply recv_loop_run in Hr as (k & Ht & Hk & Hf); [|unfold ws_timeout; lia]. exists k. split_and!; [|done|done].
  rewrite Ht. simpl. by rewrite <- app_assoc.
Qed.
End Ws.

(** The third reception brings a message. *)
#[export] Instance sim_ws : Websocket sim := {
  ws_connect _ s := (inr 1, s);
  ws_send _ _ s := (inr tt, s);
  ws_recv _ s := (inr (if (s_calls s <? 2)%nat then "" else "{}"), tick s)
}.

Lemma sendMessage_polls_witness :
  (WebsocketClient_sendMessage 1 REQUEST_MSG_TYPE 7 GET_SINGLE_BLOCK_REQUEST (render (PDict [("height", PInt 100)]))
     signing_host).1 = Val "{}"
  ∧ loads (message_text REQUEST_MSG_TYPE 7 GET_SINGLE_BLOCK_REQUEST (render (PDict [("height", PInt 100)])))
    = Val (PDict [("msgType", PInt 1); ("requestId", PInt 7); ("requestType", PInt 0);
                  ("requestPayload", PDict [("height", PInt 100)])]).
Proof.
  set (m := WebsocketClient_sendMessage 1 REQUEST_MSG_TYPE 7 GET_SINGLE_BLOCK_REQUEST (render (PDict [("height", PInt 100)]))
     signing_host).
  split; [vm_compute; reflexivity|].
  exact (proj2 (sendMessage_polls 1 1 7 0 (PDict [("height", PInt 100)]) signing_host m.1 m.2 (world signing_host)
    eq_refl eq_refl (surjective_pairing m))).
Defined.
