(* ===== verification/AccountCalls.v ===== *)
(** * REST calls of the account model: SidechainTestFramework/account/httpCalls/

    One function per file; the shared shapes come from [HttpCalls].  Arguments
    that the sources take by keyword are positional here, in the order of the
    source. *)

From S2P Require Import Prelude PyStr Numbers PyVal Host Sim Json Encoding HttpProxy BootInfo McUtil ScUtil.
From S2P Require Import HttpCalls.
From Stdlib Require Import Ascii String.
From stdpp Require Import base list.
Local Open Scope Z_scope.

(** The signature and target fields all transaction bodies share. *)
Record tx_args := mkTxArgs {
  fromAddress : pyval;
  toAddress : pyval;
  tx_nonce : pyval;
  gasLimit : pyval;
  tx_value : pyval;
  tx_data : pyval;
  signature_v : pyval;
  signature_r : pyval;
  signature_s : pyval
}.

(** The keyword defaults; the gas limit differs between the functions. *)
Definition tx_defaults (gas : Z) : tx_args :=
  mkTxArgs PNone PNone PNone (PInt gas) (PInt 0) (PStr "") PNone PNone PNone.

Definition legacy_body (a : tx_args) (gasPrice : pyval) : list (string * pyval) :=
  [("from", fromAddress a); ("to", toAddress a); ("nonce", tx_nonce a); ("gasLimit", gasLimit a);
   ("gasPrice", gasPrice); ("value", tx_value a); ("data", tx_data a);
   ("signature_v", signature_v a); ("signature_r", signature_r a); ("signature_s", signature_s a)].

Definition eip1559_body (a : tx_args) (maxPriorityFeePerGas maxFeePerGas : pyval) : list (string * pyval) :=
  [("from", fromAddress a); ("to", toAddress a); ("nonce", tx_nonce a); ("gasLimit", gasLimit a);
   ("maxPriorityFeePerGas", maxPriorityFeePerGas); ("maxFeePerGas", maxFeePerGas);
   ("value", tx_value a); ("data", tx_data a);
   ("signature_v", signature_v a); ("signature_r", signature_r a); ("signature_s", signature_s a)].

Definition gas_info (gas_limit max_fee_per_gas max_priority_fee_per_gas : pyval) : pyval :=
  PDict [("gasLimit", gas_limit); ("maxFeePerGas", max_fee_per_gas);
         ("maxPriorityFeePerGas", max_priority_fee_per_gas)].

Section AccountCalls.
Context {W : Type} `{Nodes W, Clock W, Os W, Rng W}.
Local Abbreviation MW := (M W).

Definition all_withdrawal_requests (sidechain_node : proxy) (epoch_number : pyval) : MW pyval :=
  let! response := post sidechain_node "transaction_allWithdrawalRequests" [("epochNum", epoch_number)] PNone in
  let% ok := has_key "result" response in
  if ok then lift (getpath response ["result"; "listOfWR"]) else something_wrong response.

Definition createEIP1559Transaction (sidechainNode : proxy) (a : tx_args)
    (maxPriorityFeePerGas maxFeePerGas api_key : pyval) : MW pyval :=
  let! response := post sidechainNode "transaction_createEIP1559Transaction"
    (eip1559_body a maxPriorityFeePerGas maxFeePerGas) api_key in
  result_field "transactionId" response.

Definition http_create_key_rotation_transaction_evm (sidechainNode : proxy)
    (key_type key_index new_key signing_key_signature master_key_signature new_key_signature nonce
     gas_limit max_fee_per_gas max_priority_fee_per_gas api_key : pyval) : MW pyval :=
  let j := [("keyType", key_type); ("keyIndex", key_index); ("newKey", new_key);
            ("signingKeySignature", signing_key_signature); ("masterKeySignature", master_key_signature);
            ("newKeySignature", new_key_signature); ("nonce", nonce)] in
  let j := match gas_limit with
           | PNone => j
           | g => dict_set "gasInfo" (gas_info g max_fee_per_gas max_priority_fee_per_gas) j
           end in
  post sidechainNode "transaction_createKeyRotationTransaction" j api_key.

Definition createLegacyEIP155Transaction (sidechainNode : proxy) (a : tx_args) (gasPrice api_key : pyval)
    : MW pyval :=
  let! response := post sidechainNode "transaction_createLegacyEIP155Transaction"
    (legacy_body a gasPrice) api_key in
  result_field "transactionId" response.

Definition createLegacyTransaction (sidechainNode : proxy) (a : tx_args) (gasPrice api_key : pyval)
    (output_raw_bytes : bool) : MW pyval :=
  let! response := post sidechainNode "transaction_createLegacyTransaction"
    (legacy_body a gasPrice ++ [("outputRawBytes", PBool output_raw_bytes)]) api_key in
  let% ok := has_key "result" response in
  if ok then
    if output_raw_bytes then lift (getpath response ["result"; "transactionBytes"])
    else result_field "transactionId" response
  else something_wrong response.

Definition createRawEIP1559Transaction (sidechainNode : proxy) (a : tx_args)
    (maxPriorityFeePerGas maxFeePerGas api_key : pyval) : MW pyval :=
  let! response := post sidechainNode "transaction_createEIP1559Transaction"
    (eip1559_body a maxPriorityFeePerGas maxFeePerGas ++ [("outputRawBytes", PBool true)]) api_key in
  result_field "transactionBytes" response.

Definition createRawLegacyEIP155Transaction (sidechainNode : proxy) (a : tx_args) (gasPrice api_key : pyval)
    : MW pyval :=
  let! response := post sidechainNode "transaction_createLegacyEIP155Transaction"
    (legacy_body a gasPrice ++ [("outputRawBytes", PBool true)]) api_key in
  result_field "transactionBytes" response.

Definition createRawLegacyTransaction (sidechainNode : proxy) (a : tx_args) (gasPrice api_key : pyval)
    : MW pyval :=
  let! response := post sidechainNode "transaction_createLegacyTransaction"
    (legacy_body a gasPrice ++ [("outputRawBytes", PBool true)]) api_key in
  result_field "transactionBytes" response.

Definition decodeTransaction (sidechainNode : proxy) (payload api_key : pyval) : MW pyval :=
  let! response := post sidechainNode "transaction_decodeTransactionBytes"
    [("transactionBytes", payload)] api_key in
  result_field "transaction" response.

Definition getKeyOwnerScAddresses (sidechainNode : proxy) (api_key : pyval) : MW pyval :=
  let! response := post sidechainNode "transaction_getKeysOwnerScAddresses" [] api_key in
  result_or_error response.

Definition getKeysOwnership (sidechainNode : proxy) (sc_address api_key : pyval) : MW pyval :=
  let! response := post sidechainNode "transaction_getKeysOwnership" [("scAddressOpt", sc_address)] api_key in
  result_or_error response.

Definition open_forger_list (sc_node : proxy) (forgerIndex : pyval) (api_error_expected : bool)
    (api_key : pyval) : MW pyval :=
  let! response := post sc_node "transaction_openForgerList" [("forgerIndex", forgerIndex)] api_key in
  if api_error_expected then ret response else result_or_error response.

(** The body of the three ownership calls. *)
Definition ownership_body (info : list (string * pyval))
    (nonce gas_limit max_fee_per_gas max_priority_fee_per_gas : pyval) : list (string * pyval) :=
  [("ownershipInfo", PDict info); ("nonce", nonce);
   ("gasInfo", gas_info gas_limit max_fee_per_gas max_priority_fee_per_gas)].

Definition removeKeysOwnership (sidechainNode : proxy)
    (sc_address mc_addr nonce gas_limit max_priority_fee_per_gas max_fee_per_gas api_key : pyval) : MW pyval :=
  let! response := post sidechainNode "transaction_removeKeysOwnership"
    (ownership_body [("scAddress", sc_address); ("mcTransparentAddress", mc_addr)]
       nonce gas_limit max_fee_per_gas max_priority_fee_per_gas) api_key in
  result_or_error response.

Definition sendKeysOwnership (sidechainNode : proxy)
    (sc_address mc_addr mc_signature nonce gas_limit max_priority_fee_per_gas max_fee_per_gas api_key : pyval)
    : MW pyval :=
  let! response := post sidechainNode "transaction_sendKeysOwnership"
    (ownership_body [("scAddress", sc_address); ("mcTransparentAddress", mc_addr);
                     ("mcSignature", mc_signature)]
       nonce gas_limit max_fee_per_gas max_priority_fee_per_gas) api_key in
  result_or_error response.

Definition sendMultisigKeysOwnership (sidechainNode : proxy)
    (sc_address mc_addr mc_signatures redeemScript nonce gas_limit max_priority_fee_per_gas max_fee_per_gas
     api_key : pyval) : MW pyval :=
  let! response := post sidechainNode "transaction_sendMultisigKeysOwnership"
    (ownership_body [("scAddress", sc_address); ("mcMultisigAddress", mc_addr);
                     ("mcSignatures", mc_signatures); ("redeemScript", redeemScript)]
       nonce gas_limit max_fee_per_gas max_priority_fee_per_gas) api_key in
  result_or_error response.

Definition sendTransaction (sidechainNode : proxy) (payload api_key : pyval) : MW pyval :=
  let! response := post sidechainNode "transaction_sendTransaction" [("transactionBytes", payload)] api_key in
  result_field "transactionId" response.

Definition signTransaction (sidechainNode : proxy) (fromAddress payload api_key : pyval) : MW pyval :=
  let! response := post sidechainNode "transaction_signTransaction"
    [("from", fromAddress); ("transactionBytes", payload)] api_key in
  result_field "transactionBytes" response.

Definition withdrawcoins (sidechain_node : proxy)
    (destMCAddress amount_in_zennies nonce gas_limit max_fee_per_gas max_priority_fee_per_gas api_key : pyval)
    : MW pyval :=
  let! response := post sidechain_node "transaction_withdrawCoins"
    [("nonce", nonce);
     ("withdrawalRequest", PDict [("mainchainAddress", PStr (py_str destMCAddress));
                                  ("value", amount_in_zennies)]);
     ("gasInfo", gas_info gas_limit max_fee_per_gas max_priority_fee_per_gas)] api_key in
  let% ok := has_key "result" response in
  if ok then ret response else something_wrong response.

Definition http_wallet_balance (sidechainNode : proxy) (evm_address api_key : pyval) : MW pyval :=
  let! response := post sidechainNode "wallet_getBalance" [("address", PStr (py_str evm_address))] api_key in
  result_field "balance" response.

(** ** Properties *)

Definition txid_reply (id : pyval) : pyval := PDict [("result", PDict [("transactionId", id)])].

(** [createEIP1559Transaction] on JSON arguments makes exactly one call, with
    a body that decodes to the fields given; from a response whose result holds
    the transaction id it returns that id, from a response without it it raises
    [RuntimeError] with the response's text, and an exception of the call is
    passed on unchanged. *)
Theorem createEIP1559Transaction_outcome (node : proxy) (a : tx_args) (prio maxfee api_key : pyval)
    (pf : decimal → pyval) (st : St W) :
  json_ok (PDict (eip1559_body a prio maxfee)) = true →
  ∃ text,
    loads_with pf text = Val (PDict (eip1559_body a prio maxfee))
    ∧ trace (createEIP1559Transaction node a prio maxfee api_key st).2 = trace st
      ++ [ECall node "transaction_createEIP1559Transaction" (with_key (PStr text) api_key) []]
    ∧ match (node_call node "transaction_createEIP1559Transaction" (with_key (PStr text) api_key) []
               (world st)).1 with
      | inl e => (createEIP1559Transaction node a prio maxfee api_key st).1 = Exc e
      | inr (PDict d) =>
          ∀ r, dict_get "result" d = Some (PDict r) ∨ dict_get "result" d = None ∧ r = [] →
          (createEIP1559Transaction node a prio maxfee api_key st).1
          = match dict_get "transactionId" r with
            | Some id => Val id
            | None => Exc (RuntimeError ("Something went wrong, see " +:+ py_str (PDict d)))
            end
      | inr _ => True
      end.
Proof.
  intros Hj. destruct (dumps_loads_lemma pf None _ Hj) as (text & Hd & Hl). exists text. split; [done|].
  rewrite dumps_render in Hd by done.
  assert (text = render (PDict (eip1559_body a prio maxfee))) as Htext by congruence. clear Hd Hl.
  assert (createEIP1559Transaction node a prio maxfee api_key st =
    (let! response := call node "transaction_createEIP1559Transaction" (with_key (PStr text) api_key) in
     result_field "transactionId" response) st) as ->.
  { unfold createEIP1559Transaction, bind. by rewrite post_run, <- Htext. }
  unfold bind, call, call_kw.
  destruct (node_call node "transaction_createEIP1559Transaction" (with_key (PStr text) api_key) [] (world st))
    as [[e|v] w]; cbn [of_sum fst snd]; [split; reflexivity|].
  rewrite result_field_state. split; [done|]. destruct v; try done.
  intros r [Hr|[Hr ->]].
  - by rewrite (result_field_dict _ _ _ _ Hr).
  - by rewrite result_field_none.
Qed.
End AccountCalls.

Lemma createEIP1559Transaction_outcome_witness :
  ∃ text, loads_with parse_float_as_float text
          = Val (PDict (eip1559_body (tx_defaults 230000) (PInt 900000000) (PInt 900000000)))
    ∧ trace (createEIP1559Transaction sc0 (tx_defaults 230000) (PInt 900000000) (PInt 900000000) PNone
               (init_st (sim_of (λ _ _ _ _, inr (txid_reply (PStr "ab")))))).2
      = [] ++ [ECall sc0 "transaction_createEIP1559Transaction" (with_key (PStr text) PNone) []].
Proof.
  destruct (createEIP1559Transaction_outcome sc0 (tx_defaults 230000) (PInt 900000000) (PInt 900000000) PNone
    parse_float_as_float (init_st (sim_of (λ _ _ _ _, inr (txid_reply (PStr "ab")))))) as (text & Hl & Ht & _).
  - vm_compute. reflexivity.
  - exists text. split; [exact Hl|exact Ht].
Defined.
