(* ===== verification/AccountUtil.v ===== *)
(** * Account-model helpers: account/utils.py and account/ac_utils.py

    Coin conversions, fees of a forged transaction, and the transactions sent
    through the Ethereum RPC interface.  The functions of the [eth_utils]
    package are the fields of [EthUtils]. *)

From S2P Require Import Prelude PyStr Numbers PyVal Host Sim Json Encoding HttpProxy BootInfo McUtil ScUtil.
From S2P Require Import Forging HttpCalls.
From Stdlib Require Import Ascii String.
From stdpp Require Import base list.
Local Open Scope Z_scope.

(** The third-party package [eth_utils]. *)
Class EthUtils := {
  to_checksum_address : pyval → outcome pyval;
  add_0x_prefix : pyval → outcome pyval
}.

(** ** account/utils.py *)

Definition ZENNY_TO_WEI_MULTIPLIER : Z := 10 ^ 10.

Definition convertZenToZennies (valueInZen : pyval) : outcome Z :=
  obind (py_mul valueInZen (PInt COIN)) py_round.

Definition convertZenniesToWei (valueInZennies : pyval) : outcome Z :=
  obind (py_mul (PInt ZENNY_TO_WEI_MULTIPLIER) valueInZennies) py_round.

Definition convertZenToWei (valueInZen : pyval) : outcome Z :=
  obind (convertZenToZennies valueInZen) (λ z, convertZenniesToWei (PInt z)).

Definition convertWeiToZen (valueInWei : pyval) : outcome pyval :=
  obind (py_truediv valueInWei (PInt ZENNY_TO_WEI_MULTIPLIER)) (λ a,
  obind (py_truediv a (PInt COIN)) (λ valueInZen,
  obind (py_truediv (PInt 1) (PInt COIN)) (λ least,
  obind (py_lt valueInZen least) (λ tiny,
  Val (if tiny then PInt 0 else valueInZen))))).

Definition convertZenniesToZen (valueInZennies : pyval) : outcome pyval :=
  py_truediv valueInZennies (PInt COIN).

(** ** account/ac_utils.py *)

Definition getChainIdFromSignatureV (sigV : Z) : outcome Z :=
  obind (py_truediv (PInt (sigV - 35)) (PInt 2)) py_int.

Inductive CallMethod := RPC_LEGACY | RPC_EIP155 | RPC_EIP1559.

Definition format_eoa (add : string) : string :=
  if startswith add "0x" then lower (str_drop 2 add) else lower add.

(** [if v is not None: r[k] = v] *)
Definition set_opt (k : string) (v : pyval) (r : list (string * pyval)) : list (string * pyval) :=
  match v with PNone => r | _ => dict_set k v r end.

Definition make_legacy_sign_payload (from_addr to nonce gas value data gas_price : pyval) : pyval :=
  PDict (set_opt "input" data (set_opt "to" to
    [("type", PInt 0); ("nonce", nonce); ("gas", gas); ("value", value); ("from", from_addr);
     ("gasPrice", gas_price)])).

Definition make_eip155_sign_payload (from_addr to nonce gas value data gas_price chain_id : pyval) : pyval :=
  PDict (set_opt "input" data (set_opt "to" to
    [("type", PInt 0); ("nonce", nonce); ("gas", gas); ("value", value); ("from", from_addr);
     ("gasPrice", gas_price); ("chainId", chain_id)])).

Definition make_eip1559_sign_payload
    (from_addr to nonce gas value data max_priority_fee_per_gas max_fee_per_gas chain_id : pyval) : pyval :=
  PDict (set_opt "input" data (set_opt "to" to
    [("type", PInt 2); ("nonce", nonce); ("gas", gas); ("value", value); ("from", from_addr);
     ("maxPriorityFeePerGas", max_priority_fee_per_gas); ("maxFeePerGas", max_fee_per_gas);
     ("chainId", chain_id)])).

Definition upd_cwd (c : string) (g : globals) : globals :=
  Globals (sc_parallel_test g) (mc_parallel_test g) (is_jacoco_included g) (sidechainclient_processes g)
    (bitcoind_processes g) (Some c) (nodeModulesInstalled g) (sigHashesGenerated g).

Definition upd_installed (g : globals) : globals :=
  Globals (sc_parallel_test g) (mc_parallel_test g) (is_jacoco_included g) (sidechainclient_processes g)
    (bitcoind_processes g) (ac_cwd g) true (sigHashesGenerated g).

Section AccountUtil.
Context {W : Type} `{Nodes W, Clock W, Os W, Rng W} `{EthUtils}.
Local Abbreviation MW := (M W).

Definition format_evm (add : pyval) : outcome pyval := to_checksum_address add.

(** A response with a [result] key that is not null, as its value. *)
Definition receipt_or_fail (resp : pyval) (cmd missing : string) : MW pyval :=
  let% ok := has_key "result" resp in
  if negb ok then
    let% text := dumps_indent 0 resp in
    raise (GenericException ("Rpc " +:+ cmd +:+ " cmd failed:" +:+ text))
  else
    let% r := getitem resp "result" in
    match r with PNone => raise (GenericException missing) | _ => ret r end.

Definition computeForgedTxFee (sc_node : proxy) (tx_hash : pyval) : MW (Z * Z * Z) :=
  let% tx_hash := add_0x_prefix tx_hash in
  let! resp := call sc_node "rpc_eth_getTransactionReceipt" [tx_hash] in
  let! receiptJson := receipt_or_fail resp "eth_getTransactionReceipt"
    ("Unexpected error: Receipt not found for transaction " +:+ py_str tx_hash) in
  let% g := getitem receiptJson "gasUsed" in
  let% gasUsed := py_int_base g 16 in
  let% p := getitem receiptJson "effectiveGasPrice" in
  let% effectiveGasPrice := py_int_base p 16 in
  let% block_hash := getitem receiptJson "blockHash" in
  let! resp := call sc_node "rpc_eth_getBlockByHash" [block_hash; PBool false] in
  let! blockJson := receipt_or_fail resp "eth_getBlockByHash"
    ("Unexpected error: block not found " +:+ py_str block_hash) in
  let% b := getitem blockJson "baseFeePerGas" in
  let% baseFeePerGas := py_int_base b 16 in
  let forgerTipPerGas := effectiveGasPrice - baseFeePerGas in
  ret (effectiveGasPrice * gasUsed, baseFeePerGas * gasUsed, forgerTipPerGas * gasUsed).

(** [os.environ.get("SIDECHAIN_SDK") + ...]: without the variable, a [TypeError]. *)
Definition get_cwd : MW string :=
  let! c := gets ac_cwd in
  match c with
  | Some c => ret c
  | None =>
      let! sdk := ask (os_getenv "SIDECHAIN_SDK") in
      match sdk with
      | None => raise TypeError
      | Some sdk =>
          let c := sdk +:+ "/qa/SidechainTestFramework/account/smart_contract_resources" in
          do! modify_glob (upd_cwd c) in ret c
      end
  end.

Definition install_npm_packages : MW unit :=
  let! installed := gets nodeModulesInstalled in
  if installed then ret tt
  else
    do! get_cwd in
    let! '(code, _, _) := run_proc ["yarn"; "install"; "--quiet"; "--non-interactive"; "--frozen-lockfile"] in
    do% (if code =? 0 then Val tt else Exc (CalledProcessError code)) in
    modify_glob upd_installed.

Definition ensure_nonce (node : proxy) (address nonce tag : pyval) : MW pyval :=
  match nonce with
  | PNone =>
      let% a := format_evm address in
      let! r := call node "rpc_eth_getTransactionCount" [a; tag] in
      let% n := getitem r "result" in
      let% on_chain_nonce := py_int_base n 16 in
      ret (PInt on_chain_nonce)
  | _ => ret nonce
  end.

Definition ensure_chain_id (node : proxy) : MW pyval :=
  let! r := call node "rpc_eth_chainId" [] in lift (getitem r "result").

Definition make_static_call_payload (from_addr to_addr nonce gas_limit gas_price value data : pyval)
    : outcome pyval :=
  obind (format_evm from_addr) (λ f,
  obind (format_evm to_addr) (λ t,
  Val (PDict [("from", f); ("to", t); ("nonce", nonce); ("gasLimit", gas_limit);
              ("gasPrice", gas_price); ("value", value); ("data", data)]))).

(** The result of a static call: [None] for no data. *)
Definition static_result (response : pyval) : MW pyval :=
  let% ok := has_key "result" response in
  if ok then
    let% r := getitem response "result" in
    match r with
    | PNone => ret PNone
    | _ => let% n := py_len r in ret (if n >? 0 then r else PNone)
    end
  else raise (RuntimeError "No result in static call, thus error").

(** Sign, send, and return the hash. *)
Definition sign_and_send (node : proxy) (payload : pyval) : MW pyval :=
  let! response := call node "rpc_eth_signTransaction" [payload] in
  let% signed := has_key "result" response in
  if signed then
    let% raw := getitem response "result" in
    let! response := call node "rpc_eth_sendRawTransaction" [raw] in
    let% sent := has_key "result" response in
    if sent then lift (getitem response "result") else something_wrong response
  else something_wrong response.

Definition sign_payload (call_method : CallMethod) (from_addr to nonce gas value data gas_price
    max_priority_fee_per_gas max_fee_per_gas chain_id : pyval) : pyval :=
  match call_method with
  | RPC_LEGACY => make_legacy_sign_payload from_addr to nonce gas value data gas_price
  | RPC_EIP155 => make_eip155_sign_payload from_addr to nonce gas value data gas_price chain_id
  | RPC_EIP1559 => make_eip1559_sign_payload from_addr to nonce gas value data max_priority_fee_per_gas
                     max_fee_per_gas chain_id
  end.

Definition eoa_transaction (node : proxy) (call_method : CallMethod) (static_call : bool)
    (from_addr to_addr value gas gas_price max_priority_fee_per_gas max_fee_per_gas data nonce tag : pyval)
    : MW pyval :=
  let! nonce := ensure_nonce node from_addr nonce tag in
  let! chain_id := ensure_chain_id node in
  let% from_addr := format_evm from_addr in
  let% to_addr := format_evm to_addr in
  if static_call then
    let% payload := make_static_call_payload from_addr to_addr nonce gas gas_price value data in
    let! response := call node "rpc_eth_call" [payload; tag] in
    static_result response
  else sign_and_send node (sign_payload call_method from_addr to_addr nonce gas value data gas_price
         max_priority_fee_per_gas max_fee_per_gas chain_id).

Definition eoa_transfer (node : proxy) (sender receiver amount : pyval) (call_method : CallMethod)
    (static_call : bool) (tag : pyval) : MW pyval :=
  let gas := PInt 21000 in
  let price := PInt 875000000 in
  if static_call
  then eoa_transaction node RPC_LEGACY true sender receiver amount gas price (PInt 1) price (PStr "0x") PNone tag
  else eoa_transaction node call_method false sender receiver amount gas price (PInt 1) price (PStr "0x")
         PNone (PStr "latest").

Definition generate_block_and_get_tx_receipt (node : proxy) (tx_hash : pyval) (return_status : bool) : MW pyval :=
  do! generate_next_block node "first node" false PNone in
  let! tx_receipt := call node "rpc_eth_getTransactionReceipt" [tx_hash] in
  if return_status then
    let% s := getpath tx_receipt ["result"; "status"] in
    let% status := py_int_base s 0 in
    ret (PInt status)
  else ret tx_receipt.

Definition random_byte_string (length : Z) : MW string :=
  let! bytes := mmap (λ _, randint 0 255) (zrange 0 length) in
  ret ("0x" +:+ hexlify (string_of_list_ascii (map (λ b, ascii_of_N (Z.to_N b)) bytes))).

Definition estimate_gas (node : proxy) (from_address to_address data value gasPrice nonce : pyval) : MW pyval :=
  call node "rpc_eth_estimateGas"
    [PDict [("from", from_address); ("to", to_address); ("data", data); ("value", value);
            ("gasPrice", gasPrice); ("nonce", nonce)]].

Definition ac_makeForgerStake (sc_node : proxy) (owner_address blockSignPubKey vrf_public_key amount nonce : pyval)
    : MW pyval :=
  post sc_node "transaction_makeForgerStake"
    [("forgerStakeInfo", PDict [("ownerAddress", owner_address); ("blockSignPublicKey", blockSignPubKey);
                                ("vrfPubKey", vrf_public_key); ("value", amount)]);
     ("nonce", nonce)] PNone.

Definition ac_registerForger (sc_node : proxy)
    (block_sign_pub_key vrf_public_key staked_amount reward_address reward_share nonce : pyval) : MW pyval :=
  post sc_node "transaction_registerForger"
    [("blockSignPubKey", block_sign_pub_key); ("vrfPubKey", vrf_public_key); ("stakedAmount", staked_amount);
     ("rewardShare", reward_share); ("rewardAddress", reward_address); ("nonce", nonce)] PNone.

Definition ac_updateForger (sc_node : proxy)
    (block_sign_pub_key vrf_public_key reward_address reward_share nonce : pyval) : MW pyval :=
  post sc_node "transaction_updateForger"
    [("blockSignPubKey", block_sign_pub_key); ("vrfPubKey", vrf_public_key);
     ("rewardShare", reward_share); ("rewardAddress", reward_address); ("nonce", nonce)] PNone.

Definition ac_pagedForgersStakesByForger (sc_node : proxy)
    (block_sign_pub_key vrf_public_key start_pos size : pyval) : MW pyval :=
  post sc_node "transaction_pagedForgersStakesByForger"
    [("blockSignPubKey", block_sign_pub_key); ("vrfPubKey", vrf_public_key); ("startPos", start_pos);
     ("size", size)] PNone.

Definition ac_pagedForgersStakesByDelegator (sc_node : proxy) (delegator_address start_pos size : pyval)
    : MW pyval :=
  post sc_node "transaction_pagedForgersStakesByDelegator"
    [("delegatorAddress", delegator_address); ("startPos", start_pos); ("size", size)] PNone.

Definition ac_invokeProxy (sc_node : proxy) (contract_address data nonce : pyval) (static : bool) : MW pyval :=
  post sc_node (if static then "transaction_invokeProxyStaticCall" else "transaction_invokeProxyCall")
    [("invokeInfo", PDict [("contractAddress", contract_address); ("dataStr", data)]); ("nonce", nonce)] PNone.

Definition rpc_get_balance (sc_node : proxy) (address : pyval) : MW Z :=
  let% a := format_evm address in
  let! r := call sc_node "rpc_eth_getBalance" [a; PStr "latest"] in
  let% b := getitem r "result" in
  lift (py_int_base b 16).
End AccountUtil.
