(* ===== verification/AccountProps.v ===== *)
(** * Properties of the account-model helpers *)

From S2P Require Import Prelude PyStr Numbers PyVal Host Sim Json Encoding HttpProxy BootInfo McUtil ScUtil.
From S2P Require Import Forging HttpCalls AccountUtil.
From Stdlib Require Import Ascii String.
From stdpp Require Import base list.
Local Open Scope Z_scope.

(** ** Coin conversions *)

Lemma div_half_even_exact a b : 0 < b → div_half_even (a * b) b = a.
Proof.
  intros Hb. unfold div_half_even. rewrite Z.div_mul, Z.mod_mul by lia.
  by rewrite (proj2 (Z.ltb_lt (2 * 0) b)) by lia.
Qed.

Lemma dec_round_zat d z :
  in_zat d z → Z.abs z < 10 ^ 20 → dec_round (dec_mul d (Dec COIN 0)) = z.
Proof.
  intros Hd Hz. pose proof (in_zat_coef d z Hd) as Hc. destruct Hd as [He Hv].
  unfold dec_mul, COIN. cbn [d_coef d_exp].
  rewrite dec_fix_small by (cbn [d_coef]; rewrite Z.abs_mul; change (10 ^ 28) with (10 ^ 20 * 100000000); lia).
  unfold dec_round. cbn [d_coef d_exp]. rewrite Z.add_0_r.
  destruct (Z.leb_spec 0 (d_exp d)) as [Hp|Hn].
  - rewrite <- Hv, Z.pow_add_r by lia. change (10 ^ 8) with 100000000. lia.
  - assert (d_coef d * 100000000 = z * 10 ^ (- d_exp d)) as E.
    { rewrite <- Hv. rewrite <- Z.mul_assoc, <- Z.pow_add_r by lia.
      replace (d_exp d + 8 + - d_exp d) with 8 by lia. done. }
    rewrite E. set (p := 10 ^ (- d_exp d)). assert (0 < p) as Hp by (apply Z.pow_pos_nonneg; lia).
    rewrite Z.abs_mul, (Z.abs_eq p) by lia. rewrite div_half_even_exact by done.
    unfold with_sign. destruct (Z.ltb_spec (z * p) 0); nia.
Qed.

(** A decimal amount of coins with at most eight places (below 10^12 coins)
    is converted to wei exactly: its number of zatoshis times 10^10, and an
    integer number of coins of any size to that number times 10^18. *)
Theorem convertZenToWei_exact (d : decimal) (z n : Z) :
  in_zat d z → Z.abs z < 10 ^ 20 →
  convertZenToWei (PDec d) = Val (z * 10 ^ 10) ∧ convertZenToWei (PInt n) = Val (n * 10 ^ 18).
Proof.
  intros Hd Hz. split.
  - unfold convertZenToWei, convertZenToZennies.
    change (py_mul (PDec d) (PInt COIN)) with (Val (PDec (dec_mul d (Dec COIN 0)))).
    cbn [obind py_round]. rewrite (dec_round_zat d z Hd Hz).
    change (Val (ZENNY_TO_WEI_MULTIPLIER * z) = Val (z * 10 ^ 10)). unfold ZENNY_TO_WEI_MULTIPLIER. f_equal. lia.
  - change (Val (ZENNY_TO_WEI_MULTIPLIER * (n * COIN)) = Val (n * 10 ^ 18)).
    unfold ZENNY_TO_WEI_MULTIPLIER, COIN. f_equal. lia.
Qed.

Lemma convertZenToWei_exact_witness :
  convertZenToWei (PDec (Dec 123456789 (-8))) = Val (123456789 * 10 ^ 10)
  ∧ convertZenToWei (PInt 3) = Val (3 * 10 ^ 18).
Proof. apply (convertZenToWei_exact (Dec 123456789 (-8)) 123456789 3); [split; done|done]. Defined.

(** Both signature values of every chain id below a bound decode to it. *)
Definition chain_ids_decode (bound : Z) : bool :=
  forallb (λ id, match getChainIdFromSignatureV (2 * id + 35), getChainIdFromSignatureV (2 * id + 36) with
                 | Val a, Val b => (a =? id) && (b =? id)
                 | _, _ => false
                 end) (seqZ 0 bound).

Lemma chain_ids_decode_8192 : chain_ids_decode 8192 = true.
Proof. vm_compute. reflexivity. Qed.

Lemma chain_ids_decode_spec bound id :
  chain_ids_decode bound = true → 0 <= id < bound →
  getChainIdFromSignatureV (2 * id + 35) = Val id ∧ getChainIdFromSignatureV (2 * id + 36) = Val id.
Proof.
  unfold chain_ids_decode. rewrite forallb_forall. intros Hall Hid.
  specialize (Hall id ltac:(apply list_elem_of_In, elem_of_seqZ; lia)). revert Hall.
  generalize (getChainIdFromSignatureV (2 * id + 35)) (getChainIdFromSignatureV (2 * id + 36)).
  intros [a|?|] [b|?|]; try done. intros [->%Z.eqb_eq ->%Z.eqb_eq]%andb_true_iff. done.
Qed.

(** [getChainIdFromSignatureV] recovers a chain id below 8192 from either of
    the two signature values that encode it, but not every chain id: the
    division goes through a float, and the chain id 2^53 + 1, encoded as
    [v = 2 * id + 35], comes back as 2^53. *)
Theorem getChainIdFromSignatureV_rounds (id : Z) :
  0 <= id < 8192 →
  getChainIdFromSignatureV (2 * id + 35) = Val id ∧ getChainIdFromSignatureV (2 * id + 36) = Val id
  ∧ getChainIdFromSignatureV (2 * (2 ^ 53 + 1) + 35) = Val (2 ^ 53).
Proof.
  intros Hid. destruct (chain_ids_decode_spec _ id chain_ids_decode_8192 Hid) as [E1 E2].
  split; [exact E1|]. split; [exact E2|]. vm_compute. reflexivity.
Qed.

Lemma getChainIdFromSignatureV_rounds_witness : getChainIdFromSignatureV (2 * 1997 + 36) = Val 1997.
Proof. apply (getChainIdFromSignatureV_rounds 1997). lia. Defined.

Section Account.
Context {W : Type} `{Nodes W, Clock W, Os W, Rng W} `{EthUtils}.

Lemma call_val p m a (st : St W) w0 v w :
  node_call p m a [] w0 = (inr v, w) → world st = w0 →
  call p m a st = (Val v, log_event (ECall p m a []) (set_world w st)).
Proof. intros Hc <-. unfold call, call_kw. by rewrite Hc. Qed.

Definition receipt (gas price : Z) (block : pyval) : pyval :=
  PDict [("result", PDict [("gasUsed", PStr (hex gas)); ("effectiveGasPrice", PStr (hex price));
                           ("blockHash", block)])].

Definition block_reply (base : Z) : pyval :=
  PDict [("result", PDict [("baseFeePerGas", PStr (hex base))])].

(** For a forged transaction, [computeForgedTxFee] returns the fee as gas
    used times the effective price, split exactly into the forgers' pool part
    (the block's base fee) and the forger's tip. *)
Theorem computeForgedTxFee_split (node : proxy) (tx tx0 block : pyval) (gas price base : Z) (st : St W) (w w' : W) :
  add_0x_prefix tx = Val tx0 →
  node_call node "rpc_eth_getTransactionReceipt" [tx0] [] (world st) = (inr (receipt gas price block), w) →
  node_call node "rpc_eth_getBlockByHash" [block; PBool false] [] w = (inr (block_reply base), w') →
  ∃ total pool tip, (computeForgedTxFee node tx st).1 = Val (total, pool, tip)
    ∧ total = price * gas ∧ pool = base * gas ∧ total = pool + tip.
Proof.
  intros Htx Hrec Hblk. exists (price * gas), (base * gas), ((price - base) * gas).
  split; [|repeat split; lia].
  unfold computeForgedTxFee. unfold bind at 1, lift at 1. rewrite Htx.
  unfold bind at 1. rewrite (call_val _ _ _ _ _ _ _ Hrec eq_refl).
  unfold receipt_or_fail, receipt. unfold bind, lift. simpl. rewrite !parse_hex. simpl.
  erewrite (call_val _ _ _ _ _ _ _ Hblk); [|reflexivity]. simpl. by rewrite parse_hex.
Qed.

(** A reply with a result. *)
Definition result_reply (v : pyval) : pyval := PDict [("result", v)].

(** The state after a call. *)
Definition called (p : proxy) (m : string) (args : list pyval) (w : W) (st : St W) : St W :=
  log_event (ECall p m args []) (set_world w st).

Lemma ensure_chain_id_run node chain (st : St W) w :
  node_call node "rpc_eth_chainId" [] [] (world st) = (inr (result_reply chain), w) →
  ensure_chain_id node st = (Val chain, called node "rpc_eth_chainId" [] w st).
Proof. intros Hc. unfold ensure_chain_id. by rewrite (bind_run _ _ _ _ _ (call_run _ _ _ _ _ _ Hc)). Qed.

Lemma ensure_nonce_run node addr a tag n (st : St W) w :
  to_checksum_address addr = Val a →
  node_call node "rpc_eth_getTransactionCount" [a; tag] [] (world st) = (inr (result_reply (PStr (hex n))), w) →
  ensure_nonce node addr PNone tag st = (Val (PInt n), called node "rpc_eth_getTransactionCount" [a; tag] w st).
Proof.
  intros Ha Hc. unfold ensure_nonce, format_evm. rewrite (bind_lift_run _ _ _ _ Ha).
  rewrite (bind_run _ _ _ _ _ (call_run _ _ _ _ _ _ Hc)). unfold bind, lift. simpl. by rewrite parse_hex.
Qed.

Lemma sign_and_send_run node payload raw hash (st : St W) w w' :
  node_call node "rpc_eth_signTransaction" [payload] [] (world st) = (inr (result_reply raw), w) →
  node_call node "rpc_eth_sendRawTransaction" [raw] [] w = (inr (result_reply hash), w') →
  sign_and_send node payload st
  = (Val hash, called node "rpc_eth_sendRawTransaction" [raw] w' (called node "rpc_eth_signTransaction" [payload] w st)).
Proof.
  intros Hs Hr. unfold sign_and_send. rewrite (bind_run _ _ _ _ _ (call_run _ _ _ _ _ _ Hs)).
  unfold bind at 1, lift at 1. simpl. unfold bind at 1, lift at 1. simpl.
  by rewrite (bind_run _ _ _ _ _ (call_run node _ _ (called node "rpc_eth_signTransaction" [payload] w st) _ _ Hr)).
Qed.

(** A transaction with a given nonce makes three calls: the chain id, the
    signature of a payload with the checksummed addresses and the given nonce,
    value, gas and data, and the broadcast of exactly what was signed; it
    returns the hash of the broadcast. *)
Theorem eoa_transaction_calls (node : proxy) (m : CallMethod) (from_ to_ f t value gas price prio maxfee data tag
    chain raw hash : pyval) (nonce : Z) (st : St W) (w1 w2 w3 : W) :
  to_checksum_address from_ = Val f → to_checksum_address to_ = Val t →
  let payload := sign_payload m f t (PInt nonce) gas value data price prio maxfee chain in
  node_call node "rpc_eth_chainId" [] [] (world st) = (inr (result_reply chain), w1) →
  node_call node "rpc_eth_signTransaction" [payload] [] w1 = (inr (result_reply raw), w2) →
  node_call node "rpc_eth_sendRawTransaction" [raw] [] w2 = (inr (result_reply hash), w3) →
  let res := eoa_transaction node m false from_ to_ value gas price prio maxfee data (PInt nonce) tag st in
  res.1 = Val hash
  ∧ trace res.2 = trace st ++ [ECall node "rpc_eth_chainId" [] []; ECall node "rpc_eth_signTransaction" [payload] [];
                               ECall node "rpc_eth_sendRawTransaction" [raw] []]
  ∧ world res.2 = w3.
Proof.
  intros Hf Ht payload Hc Hs Hr. cbv zeta.
  set (st1 := called node "rpc_eth_chainId" [] w1 st).
  set (st3 := called node "rpc_eth_sendRawTransaction" [raw] w3 (called node "rpc_eth_signTransaction" [payload] w2 st1)).
  assert (eoa_transaction node m false from_ to_ value gas price prio maxfee data (PInt nonce) tag st = (Val hash, st3)) as ->.
  { unfold eoa_transaction, format_evm.
    rewrite (bind_run (ensure_nonce _ _ (PInt nonce) _) _ _ (PInt nonce) st eq_refl).
    rewrite (bind_run _ _ _ _ _ (ensure_chain_id_run _ _ _ _ Hc)).
    rewrite (bind_lift_run _ _ _ _ Hf), (bind_lift_run _ _ _ _ Ht). by apply sign_and_send_run. }
  split; [done|]. split; [|done]. simpl. by rewrite <- !app_assoc.
Qed.

(** The text of random bytes: [0x] and two digits per byte. *)
Lemma random_byte_string_length n (st : St W) s st' :
  random_byte_string n st = (Val s, st') → String.length s = (2 + 2 * Z.to_nat n)%nat.
Proof.
  assert (∀ l st bs st', mmap (λ _ : Z, randint 0 255) l st = (Val bs, st') → length bs = length l) as Hm.
  { clear. induction l as [|x l IH]; intros st bs st'; simpl; [by intros [= <- _]|].
    unfold bind, randint. destruct (rng_randint 0 255 (world st)) as [r w].
    destruct (mmap _ l _) as [[ys|e|] s2] eqn:Hl; try done. intros [= <- _]. simpl. f_equal. by eapply IH. }
  unfold random_byte_string, bind. destruct (mmap _ _ st) as [[bs|e|] s2] eqn:Hb; try done.
  intros [= <- _]. apply Hm in Hb. unfold zrange in Hb. rewrite length_seqZ in Hb. simpl.
  rewrite hexlify_length. f_equal. f_equal.
  assert (∀ l, String.length (string_of_list_ascii l) = length l) as Hs by (clear; induction l; simpl; lia).
  rewrite Hs, length_map. lia.
Qed.
End Account.

(** Addresses that are their own checksummed form, hashes that have their prefix. *)
#[export] Instance plain_eth : EthUtils := {
  to_checksum_address v := Val v;
  add_0x_prefix v := match v with
                     | PStr s => Val (PStr (if startswith s "0x" then s else "0x" +:+ s))
                     | _ => Exc TypeError
                     end
}.

Definition fee_sim : St sim :=
  init_st (sim_of (λ _ _ m _, inr (if String.eqb m "rpc_eth_getBlockByHash" then block_reply 7
                                   else receipt 21000 10 (PStr "0xb")))).

Lemma computeForgedTxFee_split_witness :
  ∃ total pool tip, (computeForgedTxFee sc0 (PStr "ab") fee_sim).1 = Val (total, pool, tip)
    ∧ total = 10 * 21000 ∧ pool = 7 * 21000 ∧ total = pool + tip.
Proof.
  apply (computeForgedTxFee_split sc0 (PStr "ab") (PStr "0xab") (PStr "0xb") 21000 10 7 fee_sim
    (tick (world fee_sim)) (tick (tick (world fee_sim)))); reflexivity.
Defined.

Definition tx_sim : St sim :=
  init_st (sim_of (λ _ _ m _, inr (result_reply (PStr m)))).

Lemma eoa_transaction_calls_witness :
  (eoa_transaction sc0 RPC_EIP155 false (PStr "0xa") (PStr "0xb") (PInt 5) (PInt 21000) (PInt 1) (PInt 1)
     (PInt 1) (PStr "0x") (PInt 3) (PStr "latest") tx_sim).1 = Val (PStr "rpc_eth_sendRawTransaction").
Proof.
  exact (proj1 (eoa_transaction_calls sc0 RPC_EIP155 (PStr "0xa") (PStr "0xb") (PStr "0xa") (PStr "0xb") (PInt 5)
    (PInt 21000) (PInt 1) (PInt 1) (PInt 1) (PStr "0x") (PStr "latest") (PStr "rpc_eth_chainId")
    (PStr "rpc_eth_signTransaction") (PStr "rpc_eth_sendRawTransaction") 3 tx_sim (tick (world tx_sim))
    (tick (tick (world tx_sim))) (tick (tick (tick (world tx_sim)))) eq_refl eq_refl eq_refl eq_refl eq_refl)).
Defined.
