(* ===== verification/SmartContract.v ===== *)
(** * Smart contracts

    account/ac_use_smart_contract.py, ac_smart_contract_compile.py,
    mk_contract_address.py, simple_proxy_contract.py and ac_make_raw_tx.py, and
    the three functions of account/ac_utils.py that use a contract object.

    A [SmartContract] is the metadata of a compiled contract and the table of
    its functions by signature.  What the third-party packages compute is a
    parameter: ABI encoding and decoding ([eth_abi]), RLP ([rlp]), and the hash
    and byte conversions of [eth_utils]. *)

From S2P Require Import Prelude PyStr Numbers PyVal Host Sim Json Encoding HttpProxy BootInfo McUtil ScUtil.
From S2P Require Import Forging Bootstrap HttpCalls AccountUtil.
From Stdlib Require Import Ascii String.
From stdpp Require Import base list.
Local Open Scope Z_scope.

(** The package [eth_abi]: types and values to bytes and back. *)
Class EthAbi := {
  abi_encode : list pyval → list pyval → outcome string;
  abi_decode : list pyval → string → outcome (list pyval)
}.

(** [eth_utils.to_bytes(hexstr=...)], [eth_utils.keccak], [rlp.encode]. *)
Class EthHash := {
  to_bytes_hexstr : pyval → outcome string;
  keccak : string → string;
  rlp_encode : list pyval → outcome string
}.

(** ** Values *)

(** [sep.join(l)]: every element must be a [str]. *)
Definition py_join (sep : string) (l : list pyval) : outcome string :=
  let? texts := omapM (λ v, match v with PStr s => Val s | _ => Exc TypeError end) l in
  Val (str_join sep texts).

(** [bytes.fromhex(s)]: pairs of digits, with white space between bytes. *)
Fixpoint bytes_fromhex (s : string) : outcome string :=
  match s with
  | EmptyString => Val ""
  | String h s' =>
      if is_space h then bytes_fromhex s'
      else match s' with
           | String l s'' =>
               match hex_val h, hex_val l with
               | Some a, Some b => let? r := bytes_fromhex s'' in Val (String (ascii_of_N (16 * a + b)) r)
               | _, _ => Exc (ValueError "fromhex")
               end
           | EmptyString => Exc (ValueError "fromhex")
           end
  end.

(** A [str] on which a method is called. *)
Definition as_str (method : string) (v : pyval) : outcome string :=
  match v with PStr s => Val s | _ => Exc (AttributeError method) end.

Definition format_eoa_val (v : pyval) : outcome string :=
  let? s := as_str "startswith" v in Val (format_eoa s).

(** ** [ContractFunction] *)

Record ContractFunction := mkContractFunction {
  cf_name : pyval;
  cf_inputs : list pyval;
  cf_outputs : list pyval;
  cf_sigHash : pyval;
  cf_isConstructor : bool
}.

Section Contract.
Context `{EthAbi}.

Definition ContractFunction_encode (f : ContractFunction) (inputs : list pyval) : outcome pyval :=
  let? b := abi_encode (cf_inputs f) inputs in
  if negb (cf_isConstructor f) then py_add (cf_sigHash f) (PStr (hexlify b)) else Val (PStr (hexlify b)).

Definition ContractFunction_decode (f : ContractFunction) (output : string) : outcome pyval :=
  let? l := abi_decode (cf_outputs f) output in Val (PTuple l).

Definition ContractFunction_str (f : ContractFunction) : outcome string :=
  let? i := py_join "," (cf_inputs f) in
  let? o := py_join "," (cf_outputs f) in
  Val (py_str (cf_sigHash f) +:+ " :: " +:+ py_str (cf_name f) +:+ "(" +:+ i +:+ ") -> (" +:+ o +:+ ")").

(** ** [SmartContract] *)

Record SmartContract := mkSmartContract {
  Name : pyval;
  Source : pyval;
  Abi : pyval;
  Bytecode : pyval;
  Sighashes : pyval;
  Functions : list (string * ContractFunction)
}.

(** [__get_input_type]: a tuple is written out with the types of its
    components, at every depth. *)
Fixpoint get_input_type (inp : pyval) : outcome pyval :=
  match inp with
  | PDict d =>
      let? t := getitem inp "type" in
      if py_eqb t (PStr "tuple") then
        let? types :=
          (fix find (d : list (string * pyval)) : outcome (list pyval) :=
             match d with
             | [] => Exc (KeyError "components")
             | (k, v) :: d' =>
                 if String.eqb k "components" then
                   match v with
                   | PList l | PTuple l => omapM get_input_type l
                   | PDict [] | PStr "" => Val []
                   | _ => Exc TypeError
                   end
                 else find d'
             end) d in
        let? text := py_join "," types in
        Val (PStr ("(" +:+ text +:+ ")"))
      else Val t
  | _ => Exc TypeError
  end.

(** The types of a list of parameters: [for inp in obj[key]: l.append(...)]. *)
Definition param_types (obj : pyval) (key : string) : outcome (list pyval) :=
  let? ps := getitem obj key in
  let? ps := py_iter ps in
  omapM get_input_type ps.

(** One entry of the ABI: a function is filed under its signature, the
    constructor under its own name, anything else is left out. *)
Definition abi_entry (sighashes : pyval) (fs : list (string * ContractFunction)) (obj : pyval)
    : outcome (list (string * ContractFunction)) :=
  let? t := getitem obj "type" in
  if py_eqb t (PStr "function") then
    let? input_types := param_types obj "inputs" in
    let? output_types := param_types obj "outputs" in
    let? text := py_join "," input_types in
    let input_tuple := "(" +:+ text +:+ ")" in
    let? n := getitem obj "name" in
    let? sig_hash := getitem sighashes (py_str n +:+ input_tuple) in
    match n with
    | PStr name => Val (dict_set (name +:+ input_tuple)
                          (mkContractFunction n input_types output_types sig_hash false) fs)
    | _ => Exc TypeError
    end
  else if py_eqb t (PStr "constructor") then
    let? input_types := param_types obj "inputs" in
    Val (dict_set "constructor" (mkContractFunction (PStr "constructor") input_types [] (PStr "") true) fs)
  else Val fs.

(** The loop over [self.Abi]. *)
Fixpoint abi_functions (sighashes : pyval) (fs : list (string * ContractFunction)) (abi : list pyval)
    : outcome (list (string * ContractFunction)) :=
  match abi with
  | [] => Val fs
  | obj :: abi' => let? fs := abi_entry sighashes fs obj in abi_functions sighashes fs abi'
  end.

(** The last element of [s.split(sep)]. *)
Definition last_part (sep : ascii) (s : string) : string := List.last (split_char sep s) "".

Definition split_path (contr : string) : string :=
  last_part "\" (last_part "/" (removesuffix contr ".sol")).

(** [__load]: the fields of the metadata, in order. *)
Definition metadata_fields (metadata : pyval) : outcome (pyval * pyval * pyval * pyval * pyval) :=
  let? name := getitem metadata "contractName" in
  let? source := getitem metadata "sourceName" in
  let? abi := getitem metadata "abi" in
  let? bytecode := getitem metadata "bytecode" in
  let? sig_hashes := getitem metadata "sighashes" in
  Val (name, source, abi, bytecode, sig_hashes).

Definition lookup_function (c : SmartContract) (function_name : string) : outcome ContractFunction :=
  match dict_get function_name (Functions c) with
  | Some f => Val f
  | None => Exc (RuntimeError ("Function " +:+ function_name +:+ " does not exist on contract "
                               +:+ py_str (Name c)))
  end.

Definition raw_encode_call (c : SmartContract) (function_name : string) (args : list pyval) : outcome pyval :=
  let? f := lookup_function c function_name in ContractFunction_encode f args.

Definition raw_decode_call_result (c : SmartContract) (function_name : string) (data : string) : outcome pyval :=
  let? f := lookup_function c function_name in ContractFunction_decode f data.

Definition SmartContract_str (c : SmartContract) : outcome string :=
  match Functions c with
  | [] => match Name c with PStr s => Val s | _ => Exc TypeError end
  | fs =>
      let? head := py_add (Name c) (PStr (":" +:+ newline +:+ String (ascii_of_nat 9) "")) in
      let? items := omapM (λ kf, ContractFunction_str kf.2) fs in
      let? head := as_str "__str__" head in
      Val (head +:+ str_join (newline +:+ String (ascii_of_nat 9) "") items)
  end.
End Contract.

(** ** Compilation of the contracts *)

Definition upd_sighashes (g : globals) : globals :=
  Globals (sc_parallel_test g) (mc_parallel_test g) (is_jacoco_included g) (sidechainclient_processes g)
    (bitcoind_processes g) (ac_cwd g) (nodeModulesInstalled g) true.

Section Operations.
Context {W : Type} `{Nodes W, Clock W, Os W, Rng W} `{EthUtils, EthAbi, EthHash}.
Local Abbreviation MW := (M W).

Definition setenv (name value : string) : MW unit :=
  run_os (λ w, (inr tt, os_setenv name value w)).

Definition compile_smart_contracts : MW unit :=
  let! generated := gets sigHashesGenerated in
  if generated then ret tt
  else
    do! setenv "TS_NODE_TRANSPILE_ONLY" "1" in
    do! get_cwd in
    do! check_call ["npx"; "hardhat"; "compile"] in
    do! get_cwd in
    do! check_call ["npx"; "hardhat"; "sighashes"] in
    modify_glob upd_sighashes.

Definition prepare_resources : MW unit :=
  do! install_npm_packages in compile_smart_contracts.

(** ** Construction *)

Definition is_contract_file (contr file : string) : bool :=
  endswith file ".json" && negb (endswith file ".dbg.json") && String.eqb (removesuffix file ".json") contr.

Definition find_contract_data_path (contr : string) : MW string :=
  let! cwd := get_cwd in
  let! files := ask (os_walk_files (cwd +:+ "/artifacts/contracts")) in
  let sol_files := map (λ rf, path_join rf.1 rf.2) (filter (λ rf, is_contract_file contr rf.2 = true) files) in
  match sol_files with
  | [] => raise (RuntimeError ("Contract not found - check if a contract (not solidity file) with the name "
                               +:+ String dquote contr +:+ String dquote " exists"))
  | [path] => ret path
  | _ => raise (RuntimeError
           "Contract name is not unique, please change the names of the contracts so they are unique")
  end.

Definition load (json_file : string) : MW (pyval * pyval * pyval * pyval * pyval) :=
  let! text := read_file json_file in
  let% metadata := loads text in
  lift (metadata_fields metadata).

Definition SmartContract_init (contract_path : string) : MW SmartContract :=
  do! prepare_resources in
  let! path := find_contract_data_path (split_path (removesuffix contract_path ".sol")) in
  let! '(name, source, abi, bytecode, sig_hashes) := load path in
  let% entries := py_iter abi in
  let% fs := abi_functions sig_hashes [] entries in
  ret (mkSmartContract name source abi bytecode sig_hashes fs).

(** ** The payloads to sign *)

Definition set_to (to : pyval) (r : list (string * pyval)) : outcome pyval :=
  match to with
  | PNone => Val (PDict r)
  | _ => let? t := format_evm to in Val (PDict (dict_set "to" t r))
  end.

Definition contract_legacy_payload (from_addr to nonce gas value data gas_price : pyval) : outcome pyval :=
  let? f := format_evm from_addr in
  set_to to [("nonce", nonce); ("gas", gas); ("value", value); ("input", data); ("from", f);
             ("gasPrice", gas_price)].

Definition contract_eip155_payload (from_addr to nonce gas value data gas_price chain_id : pyval)
    : outcome pyval :=
  let? f := format_evm from_addr in
  set_to to [("nonce", nonce); ("gas", gas); ("value", value); ("input", data); ("from", f);
             ("gasPrice", gas_price); ("chainId", chain_id)].

Definition contract_eip1559_payload
    (from_addr to nonce gas value data max_priority_fee_per_gas max_fee_per_gas chain_id : pyval)
    : outcome pyval :=
  let? f := format_evm from_addr in
  set_to to [("nonce", nonce); ("gas", gas); ("value", value); ("input", data); ("from", f);
             ("maxPriorityFeePerGas", max_priority_fee_per_gas); ("maxFeePerGas", max_fee_per_gas);
             ("chainId", chain_id)].

Definition contract_payload (call_method : CallMethod) (from_addr to nonce gas value data gas_price
    max_fee_per_gas max_priority_fee_per_gas chain_id : pyval) : outcome pyval :=
  match call_method with
  | RPC_LEGACY => contract_legacy_payload from_addr to nonce gas value data gas_price
  | RPC_EIP155 => contract_eip155_payload from_addr to nonce gas value data gas_price chain_id
  | RPC_EIP1559 => contract_eip1559_payload from_addr to nonce gas value data max_priority_fee_per_gas
                     max_fee_per_gas chain_id
  end.

(** ** Calls *)

(** The options of a transaction, with the defaults of [call_function] and
    [deploy]. *)
Record TxOptions := mkTxOptions {
  opt_nonce : pyval;
  opt_gasLimit : pyval;
  opt_gasPrice : pyval;
  opt_maxFeePerGas : pyval;
  opt_maxPriorityFeePerGas : pyval;
  opt_value : pyval;
  opt_tag : pyval
}.

Definition default_tx_options (gasLimit : pyval) : TxOptions :=
  mkTxOptions PNone gasLimit (PInt 765630000) (PInt 765630000) (PInt 10) (PInt 0) (PStr "latest").

Definition call_function (c : SmartContract) (node : proxy) (functionName : string) (args : list pyval)
    (call_method : CallMethod) (fromAddress toAddress : pyval) (o : TxOptions) : MW pyval :=
  let% data := raw_encode_call c functionName args in
  let! nonce := ensure_nonce node fromAddress (opt_nonce o) (opt_tag o) in
  let! chain_id := ensure_chain_id node in
  let% from_addr := format_evm fromAddress in
  let% to := format_evm toAddress in
  let% payload := contract_payload call_method from_addr to nonce (opt_gasLimit o) (opt_value o) data
                    (opt_gasPrice o) (opt_maxFeePerGas o) (opt_maxPriorityFeePerGas o) chain_id in
  sign_and_send node payload.

(** [if response['result'] is not None and len(response['result']) > 0] *)
Definition has_data (r : pyval) : outcome bool :=
  match r with PNone => Val false | _ => let? n := py_len r in Val (n >? 0) end.

(** The error branch of [static_call]. *)
Definition static_error (response : pyval) : outcome exn :=
  let? m := getpath response ["error"; "message"] in
  let? message := as_str "startswith" m in
  let wrong := RuntimeError ("Something went wrong, see " +:+ py_str response) in
  if startswith message "execution reverted" then
    let? d := getpath response ["error"; "data"] in
    let? data := as_str "startswith" d in
    if startswith data "0x08c379a0" then
      if (String.length data <? 68)%nat then Val (EvmExecutionError "Execution reverted without a reason.")
      else
        let? b := bytes_fromhex (str_drop 2 data) in
        let? l := abi_decode [PStr "string"] (str_drop 4 b) in
        let? reason := list_index l 0 in
        Val (EvmExecutionError ("Execution reverted. Reason: " +:+ String dquote (py_str reason)
                                +:+ String dquote ""))
    else Val wrong
  else Val wrong.

Definition static_call (c : SmartContract) (node : proxy) (functionName : string) (args : list pyval)
    (fromAddress toAddress nonce gasLimit gasPrice value tag : pyval) (eip1898 isBlockHash : bool) : MW pyval :=
  let! '(rpc_tag, tag) :=
    if eip1898 && isBlockHash then
      let! b := call node "rpc_eth_getBlockByHash" [tag; PBool false] in
      let% n := getpath b ["result"; "number"] in
      ret (PDict [("blockHash", tag)], n)
    else if eip1898 then ret (PDict [("blockNumber", tag)], tag)
    else ret (tag, tag) in
  let% from_addr := format_evm fromAddress in
  let% to := format_evm toAddress in
  let! nonce := ensure_nonce node fromAddress nonce tag in
  let% data := raw_encode_call c functionName args in
  let request := set_opt "gasPrice" gasPrice (set_opt "gas" gasLimit
    [("from", from_addr); ("to", to); ("nonce", nonce); ("value", value); ("data", data)]) in
  let! response := call node "rpc_eth_call" [PDict request; rpc_tag] in
  let% ok := has_key "result" response in
  if ok then
    let% r := getitem response "result" in
    let% some := has_data r in
    if some then
      let% text := format_eoa_val r in
      let% b := bytes_fromhex text in
      lift (raw_decode_call_result c functionName b)
    else ret PNone
  else let% e := static_error response in raise e.

(** The data of a deployment: the byte code and the encoded arguments of the
    constructor, if there is one. *)
Definition SmartContract_estimate_gas (c : SmartContract) (node : proxy) (functionName : string)
    (args : list pyval) (fromAddress toAddress gasLimit gasPrice value nonce tag : pyval) : MW pyval :=
  let% from_addr := format_evm fromAddress in
  let! nonce := ensure_nonce node fromAddress nonce tag in
  let% data :=
    if String.eqb functionName "constructor" then
      match dict_get "constructor" (Functions c) with
      | Some f => let? text := ContractFunction_encode f args in py_add (Bytecode c) text
      | None => Val (Bytecode c)
      end
    else raw_encode_call c functionName args in
  let request := [("from", from_addr); ("nonce", nonce); ("value", value); ("data", data)] in
  let% request := match toAddress with
                  | PNone => Val request
                  | _ => let? t := format_evm toAddress in Val (dict_set "to" t request)
                  end in
  let request := set_opt "gasPrice" gasPrice (set_opt "gasLimit" gasLimit request) in
  let! response := call node "rpc_eth_estimateGas" [PDict request] in
  let% ok := has_key "result" response in
  if ok then
    let% r := getitem response "result" in
    let% some := has_data r in
    if some then let% n := py_int_base r 16 in ret (PInt n) else ret PNone
  else raise (EvmExecutionError ("Could not estimate gas: " +:+ py_str response)).

(** mk_contract_address.py *)
Definition mk_contract_address (sender nonce : pyval) : outcome pyval :=
  let? sender_bytes := to_bytes_hexstr sender in
  let? raw := rlp_encode [PBytes sender_bytes; nonce] in
  to_checksum_address (PBytes (str_drop 12 (keccak raw))).

Definition deploy (c : SmartContract) (node : proxy) (args : list pyval) (call_method : CallMethod)
    (fromAddress : pyval) (o : TxOptions) : MW (pyval * pyval) :=
  let% from_addr := format_evm fromAddress in
  let! nonce := ensure_nonce node from_addr (opt_nonce o) (opt_tag o) in
  let! chain_id := ensure_chain_id node in
  let% data :=
    match dict_get "constructor" (Functions c) with
    | Some f =>
        if negb (length args =? length (cf_inputs f))%nat then
          Exc (RuntimeError ("Constructor missing arguments: " +:+ str_of_Z (Z.of_nat (length args))
                 +:+ " were provided, but " +:+ str_of_Z (Z.of_nat (length (cf_inputs f))) +:+ " are necessary!"))
        else let? text := ContractFunction_encode f args in py_add (Bytecode c) text
    | None => Val (Bytecode c)
    end in
  let% payload := contract_payload call_method fromAddress PNone nonce (opt_gasLimit o) (opt_value o) data
                    (opt_gasPrice o) (opt_maxFeePerGas o) (opt_maxPriorityFeePerGas o) chain_id in
  let! hash := sign_and_send node payload in
  let% from_addr := format_evm fromAddress in
  let% a := mk_contract_address from_addr nonce in
  let% address := to_checksum_address a in
  ret (hash, address).

Definition get_balance (c : SmartContract) (node : proxy) (fromAddress contractAddress otherAddress : pyval)
    : MW pyval :=
  let other := match otherAddress with PNone => fromAddress | _ => otherAddress end in
  static_call c node "balanceOf(address)" [other] fromAddress contractAddress PNone PNone (PInt 900000000)
    (PInt 0) (PStr "latest") false false.

(** ** The helpers of account/ac_utils.py *)

Definition contract_function_static_call (node : proxy) (smart_contract_type : SmartContract)
    (smart_contract_address from_address : pyval) (method : string) (args : list pyval) (value tag : pyval)
    (eip1898 isBlockHash : bool) : MW pyval :=
  static_call smart_contract_type node method args from_address smart_contract_address PNone PNone PNone value
    tag eip1898 isBlockHash.

Definition contract_function_call (node : proxy) (smart_contract_type : SmartContract)
    (smart_contract_address from_address : pyval) (method : string) (args : list pyval)
    (value overrideGas tag : pyval) : MW pyval :=
  let! estimated_gas := SmartContract_estimate_gas smart_contract_type node method args from_address
                          smart_contract_address PNone PNone value PNone tag in
  let gas := match overrideGas with PNone => estimated_gas | _ => overrideGas end in
  call_function smart_contract_type node method args RPC_LEGACY from_address smart_contract_address
    (mkTxOptions PNone gas (PInt 765630000) (PInt 765630000) (PInt 10) value tag).

Definition deploy_smart_contract (node : proxy) (smart_contract : SmartContract) (from_address : pyval)
    (args : list pyval) (call_method : CallMethod) (next_block : bool) : MW pyval :=
  let! estimated_gas := SmartContract_estimate_gas smart_contract node "constructor" args from_address PNone
                          PNone PNone (PInt 0) PNone (PStr "latest") in
  let! '(tx_hash, address) := deploy smart_contract node args call_method from_address
                                (default_tx_options estimated_gas) in
  if next_block then
    do! generate_next_block node "first node" false PNone in
    let! tx_receipt := call node "rpc_eth_getTransactionReceipt" [tx_hash] in
    let% a := getpath tx_receipt ["result"; "contractAddress"] in
    let% text := as_str "lower" address in
    do% assert_equal a (PStr (lower text)) "" in
    ret address
  else ret address.

(** ** simple_proxy_contract.py *)

Record SimpleProxyContract := mkSimpleProxyContract {
  spc_sc_node : proxy;
  spc_contract : SmartContract;
  spc_contract_address : pyval
}.

Definition call_sig : string := "doCall(address,uint256,bytes)".
Definition static_call_sig : string := "doStaticCall(address,bytes)".

(** The three positional arguments after the address become constructor
    arguments. *)
Definition SimpleProxyContract_init (sc_node : proxy) (evm_address : pyval) (use_shanghai : bool)
    : MW SimpleProxyContract :=
  let! contract := SmartContract_init (if use_shanghai then "SimpleProxyShanghai" else "SimpleProxy") in
  let! address := deploy_smart_contract sc_node contract evm_address [PNone; PStr ""; PBool true] RPC_LEGACY true in
  ret (mkSimpleProxyContract sc_node contract address).

(** Data given as hexadecimal text or as bytes. *)
Definition proxy_data (data : pyval) : outcome pyval :=
  match data with
  | PStr s => let? b := hex_str_to_bytes s in Val (PBytes b)
  | PBytes _ => Val data
  | _ => Exc (GenericException "Only valid data types are byte arrays or string")
  end.

Definition proxy_request (p : SimpleProxyContract) (from nonce data_input : pyval) : list (string * pyval) :=
  [("to", spc_contract_address p); ("from", from); ("nonce", nonce); ("input", data_input)].

(** What [do_call] and [do_static_call] make of the reply. *)
Definition proxy_result (p : SimpleProxyContract) (sig : string) (result : pyval) : MW pyval :=
  let% ok := has_key "result" result in
  if ok then
    let% r := getitem result "result" in
    let% text := format_eoa_val r in
    let% b := hex_str_to_bytes text in
    let% raw_res := raw_decode_call_result (spc_contract p) sig b in
    lift (getindex raw_res 0)
  else something_wrong result.

Definition do_call (p : SimpleProxyContract) (from_address nonce target_addr value data : pyval) : MW pyval :=
  let% data := proxy_data data in
  let% data_input := raw_encode_call (spc_contract p) call_sig [target_addr; value; data] in
  let% from := add_0x_prefix from_address in
  let! result := call (spc_sc_node p) "rpc_eth_call"
                   [PDict (proxy_request p from nonce data_input); PStr "latest"] in
  proxy_result p call_sig result.

Definition do_call_trace (p : SimpleProxyContract) (from_address nonce target_addr value data : pyval) : MW pyval :=
  let% data := proxy_data data in
  let% data_input := raw_encode_call (spc_contract p) call_sig [target_addr; value; data] in
  let% from := add_0x_prefix from_address in
  call (spc_sc_node p) "rpc_debug_traceCall"
    [PDict (proxy_request p from nonce data_input); PStr "latest"; PDict [("tracer", PStr "callTracer")]].

Definition do_static_call (p : SimpleProxyContract) (from_address nonce target_addr data : pyval) : MW pyval :=
  let% data := proxy_data data in
  let% data_input := raw_encode_call (spc_contract p) static_call_sig [target_addr; data] in
  let% from := add_0x_prefix from_address in
  let! result := call (spc_sc_node p) "rpc_eth_call"
                   [PDict (proxy_request p from nonce data_input); PStr "latest"] in
  proxy_result p static_call_sig result.

Definition do_static_call_trace (p : SimpleProxyContract) (from_address nonce target_addr data : pyval) : MW pyval :=
  let% data := proxy_data data in
  let% data_input := raw_encode_call (spc_contract p) static_call_sig [target_addr; data] in
  let% from := add_0x_prefix from_address in
  call (spc_sc_node p) "rpc_debug_traceCall"
    [PDict (proxy_request p from nonce data_input); PStr "latest"; PDict [("tracer", PStr "callTracer")]].

Definition call_transaction (p : SimpleProxyContract) (from_add nonce target_addr value data gas_limit : pyval)
    : MW pyval :=
  let% data := proxy_data data in
  let% to := format_eoa_val (spc_contract_address p) in
  call_function (spc_contract p) (spc_sc_node p) call_sig [target_addr; value; data] RPC_LEGACY from_add (PStr to)
    (mkTxOptions nonce gas_limit (PInt 765630000) (PInt 765630000) (PInt 10) (PInt 0) (PStr "latest")).

Definition SimpleProxyContract_estimate_gas (p : SimpleProxyContract)
    (from_add nonce target_addr value data : pyval) (gas_limit : Z) : MW pyval :=
  let% data := proxy_data data in
  let% data_input := raw_encode_call (spc_contract p) call_sig [target_addr; value; data] in
  let% from := add_0x_prefix from_add in
  call (spc_sc_node p) "rpc_eth_estimateGas"
    [PDict [("from", from); ("to", spc_contract_address p); ("data", data_input); ("nonce", nonce);
            ("gas", PStr (hex gas_limit))]].

(** ** ac_make_raw_tx.py *)

Definition or_default (v : pyval) (default : string) : string :=
  match v with PNone => default | _ => py_str v end.

(** Runs the tool and takes the second word it prints. *)
Definition hardhat_raw (cmd : list string) : MW string :=
  do! get_cwd in
  let! '(code, out, err) := run_proc cmd in
  if negb (code =? 0) then raise (RuntimeError ("Something went wrong: " +:+ err))
  else let% w := list_index (split_char " " out) 1 in ret (strip w).

Definition raw_legacy (to : string) (value gas_limit gas_price nonce data : pyval) : MW string :=
  do! install_npm_packages in
  hardhat_raw (["npx"; "hardhat"; "legacytx"] ++ ["--to"; to] ++ ["--value"; or_default value "0x0"]
    ++ ["--gas-limit"; py_str gas_limit] ++ ["--gas-price"; py_str gas_price] ++ ["--nonce"; py_str nonce]
    ++ ["--data"; or_default data "0x"]).

Definition raw_eip1559 (to : string) (value gas_limit max_fee_per_gas max_priority_fee_per_gas chain_id nonce data
    : pyval) : MW string :=
  do! install_npm_packages in
  hardhat_raw (["npx"; "hardhat"; "eip1559tx"] ++ ["--to"; to] ++ ["--value"; or_default value "0x0"]
    ++ ["--gas-limit"; py_str gas_limit] ++ ["--max-fee-per-gas"; py_str max_fee_per_gas]
    ++ ["--max-priority-fee-per-gas"; py_str max_priority_fee_per_gas] ++ ["--nonce"; py_str nonce]
    ++ ["--chain-id"; py_str chain_id] ++ ["--data"; or_default data "0x"]).
End Operations.
