(* ===== verification/SmartContractProps.v ===== *)
(** * Properties of the smart-contract wrappers

    The table of functions built from an ABI, the data of a call, the
    transactions of a call and of a deployment, and what a reply of the node
    turns into. *)

From S2P Require Import Prelude PyStr Numbers PyVal Host Sim Json Encoding HttpProxy BootInfo McUtil ScUtil.
From S2P Require Import Forging Bootstrap HttpCalls AccountUtil AccountProps SmartContract.
From Stdlib Require Import Ascii String.
From stdpp Require Import base list.
Local Open Scope Z_scope.

(** ** ABI types, and how the compiler's metadata describes them *)

Unset Elimination Schemes.
Inductive abi_type :=
| AElem (name type : string)
| ATuple (name : string) (components : list abi_type).
Set Elimination Schemes.

Section abi_type_ind.
Variable P : abi_type → Prop.
Hypothesis Helem : ∀ n t, P (AElem n t).
Hypothesis Htuple : ∀ n l, Forall P l → P (ATuple n l).

Fixpoint abi_type_nested_ind (t : abi_type) : P t :=
  match t with
  | AElem n t => Helem n t
  | ATuple n l => Htuple n l
      ((fix go (l : list abi_type) : Forall P l :=
          match l with
          | [] => Forall_nil_2 P
          | x :: l' => Forall_cons_2 P x l' (abi_type_nested_ind x) (go l')
          end) l)
  end.
End abi_type_ind.

(** The description of a parameter in the metadata. *)
Fixpoint abi_json (t : abi_type) : pyval :=
  match t with
  | AElem n t => PDict [("internalType", PStr t); ("name", PStr n); ("type", PStr t)]
  | ATuple n l => PDict [("components", PList (map abi_json l)); ("name", PStr n); ("type", PStr "tuple")]
  end.

(** The canonical type of the ABI specification. *)
Fixpoint canonical (t : abi_type) : string :=
  match t with
  | AElem _ t => t
  | ATuple _ l => "(" +:+ str_join "," (map canonical l) +:+ ")"
  end.

(** No elementary type is called [tuple]. *)
Fixpoint abi_wf (t : abi_type) : bool :=
  match t with
  | AElem _ t => negb (String.eqb t "tuple")
  | ATuple _ l => forallb abi_wf l
  end.

Lemma omapM_map_Val {A B C} (f : B → outcome C) (g : A → B) (h : A → C) l :
  Forall (λ x, f (g x) = Val (h x)) l → omapM f (map g l) = Val (map h l).
Proof. induction 1 as [|x l Hx Hl IH]; simpl; [done|]. by rewrite Hx, IH. Qed.

Lemma py_join_strs sep l : py_join sep (map PStr l) = Val (str_join sep l).
Proof.
  unfold py_join. rewrite (omapM_map_Val _ PStr (λ s, s)) by (by apply Forall_forall).
  simpl. by rewrite map_id.
Qed.

Lemma get_input_type_canonical t :
  abi_wf t = true → get_input_type (abi_json t) = Val (PStr (canonical t)).
Proof.
  induction t as [n t|n l IH] using abi_type_nested_ind; cbn [abi_wf]; intros Hwf.
  - simpl. rewrite negb_true_iff in Hwf. by rewrite Hwf.
  - cbn [abi_json get_input_type]. cbn -[get_input_type py_join].
    rewrite (omapM_map_Val _ abi_json (λ t, PStr (canonical t))).
    + cbn [obind]. by rewrite <- (map_map canonical PStr), py_join_strs.
    + apply forallb_Forall in Hwf. by apply (Forall_mp _ _ _ IH).
Qed.

(** ** Entries of an ABI *)

Inductive abi_item :=
| AFunction (name : string) (inputs outputs : list abi_type)
| AConstructor (inputs : list abi_type)
| AOther (kind : string) (rest : list (string * pyval)).

Definition abi_params (l : list abi_type) : pyval := PList (map abi_json l).

Definition item_json (i : abi_item) : pyval :=
  match i with
  | AFunction n ins outs =>
      PDict [("inputs", abi_params ins); ("name", PStr n); ("outputs", abi_params outs); ("type", PStr "function")]
  | AConstructor ins => PDict [("inputs", abi_params ins); ("type", PStr "constructor")]
  | AOther k rest => PDict (("type", PStr k) :: rest)
  end.

Definition item_wf (i : abi_item) : bool :=
  match i with
  | AFunction _ ins outs => forallb abi_wf ins && forallb abi_wf outs
  | AConstructor ins => forallb abi_wf ins
  | AOther k _ => negb (String.eqb k "function") && negb (String.eqb k "constructor")
  end.

Definition types_of (l : list abi_type) : list pyval := map (λ t, PStr (canonical t)) l.

(** [name(type,type)] *)
Definition signature (n : string) (ins : list abi_type) : string :=
  n +:+ "(" +:+ str_join "," (map canonical ins) +:+ ")".

(** What an entry is filed under, and as what. *)
Definition filed (hashes : list (string * pyval)) (i : abi_item) : option (string * ContractFunction) :=
  match i with
  | AFunction n ins outs =>
      match dict_get (signature n ins) hashes with
      | Some h => Some (signature n ins, mkContractFunction (PStr n) (types_of ins) (types_of outs) h false)
      | None => None
      end
  | AConstructor ins =>
      Some ("constructor", mkContractFunction (PStr "constructor") (types_of ins) [] (PStr "") true)
  | AOther _ _ => None
  end.

(** Every function has its hash in the metadata. *)
Definition hashed (hashes : list (string * pyval)) (i : abi_item) : bool :=
  match i with AFunction n ins _ => dict_mem (signature n ins) hashes | _ => true end.

Lemma param_types_params obj key l :
  getitem obj key = Val (abi_params l) → forallb abi_wf l = true → param_types obj key = Val (types_of l).
Proof.
  intros Hg Hwf. unfold param_types. rewrite Hg. unfold abi_params. cbn [obind py_iter].
  apply omapM_map_Val. apply forallb_Forall in Hwf. eapply Forall_impl; [exact Hwf|].
  intros t. apply get_input_type_canonical.
Qed.

Lemma py_join_types l : py_join "," (types_of l) = Val (str_join "," (map canonical l)).
Proof. unfold types_of. by rewrite <- (map_map canonical PStr), py_join_strs. Qed.

(** One entry adds what it files, at its place. *)
Lemma abi_entry_files hashes fs i :
  item_wf i = true → hashed hashes i = true →
  abi_entry (PDict hashes) fs (item_json i)
  = Val (match filed hashes i with Some (k, f) => dict_set k f fs | None => fs end).
Proof.
  destruct i as [n ins outs|ins|k rest]; cbn [item_wf hashed filed]; intros Hwf Hh; unfold abi_entry;
    set (o := item_json _).
  - apply andb_true_iff in Hwf as [Hi Ho].
    replace (getitem o "type") with (@Val pyval (PStr "function")) by reflexivity. cbn [obind].
    rewrite (param_types_params o "inputs" ins) by done. cbn [obind].
    rewrite (param_types_params o "outputs" outs) by done. cbn [obind]. rewrite py_join_types. cbn [obind].
    replace (getitem o "name") with (@Val pyval (PStr n)) by reflexivity. cbn [obind py_str getitem].
    unfold dict_mem, signature in *. by destruct (dict_get _ hashes) as [h|].
  - replace (getitem o "type") with (@Val pyval (PStr "constructor")) by reflexivity. cbn [obind].
    by rewrite (param_types_params o "inputs" ins).
  - apply andb_true_iff in Hwf as [Hf%negb_true_iff Hc%negb_true_iff].
    replace (getitem o "type") with (@Val pyval (PStr k)) by reflexivity. cbn [obind py_eqb]. by rewrite Hf, Hc.
Qed.

(** Nothing in [l] is filed under [k]. *)
Definition not_filed (hashes : list (string * pyval)) (k : string) (l : list abi_item) : Prop :=
  Forall (λ i, ∀ f, filed hashes i ≠ Some (k, f)) l.

Lemma abi_functions_files hashes items fs :
  forallb item_wf items = true → forallb (hashed hashes) items = true →
  ∃ fs', abi_functions (PDict hashes) fs (map item_json items) = Val fs'
    ∧ (∀ k, not_filed hashes k items → dict_get k fs' = dict_get k fs)
    ∧ (∀ l1 i l2 k f, items = l1 ++ i :: l2 → filed hashes i = Some (k, f) → not_filed hashes k l2 →
         dict_get k fs' = Some f).
Proof.
  revert fs. induction items as [|i items IH]; intros fs; simpl.
  { intros _ _. exists fs. split; [done|]. split; [done|]. by intros [|? ?]. }
  intros [Hwf Hwfs]%andb_true_iff [Hh Hhs]%andb_true_iff.
  rewrite abi_entry_files by done. cbn [obind].
  set (fs1 := match filed hashes i with Some (k, f) => dict_set k f fs | None => fs end).
  destruct (IH fs1 Hwfs Hhs) as (fs' & E & Hother & Hlast). exists fs'. split; [done|]. split.
  - intros k Hn. unfold not_filed in Hn. apply Forall_cons in Hn as [Hi Hn]. rewrite (Hother k Hn). unfold fs1.
    destruct (filed hashes i) as [[k' f]|]; [|done]. apply dict_get_set_ne. intros ->. by apply (Hi f).
  - intros [|j l1] i' l2 k f; intros [= <- Hl] Hf Hn.
    + subst items. rewrite (Hother k Hn). unfold fs1. rewrite Hf. apply dict_get_set_eq.
    + by eapply Hlast.
Qed.

(** ** Construction *)

Section Construct.
Context {W : Type} `{Nodes W, Clock W, Os W, Rng W} `{EthUtils, EthAbi, EthHash}.
Implicit Types st : St W.

(** Node packages are installed and the contracts compiled. *)
Definition prepared (g : globals) : Prop := nodeModulesInstalled g = true ∧ sigHashesGenerated g = true.

Lemma prepare_resources_prepared st : prepared (glob st) → prepare_resources st = (Val tt, st).
Proof.
  intros [Hi Hg]. unfold prepare_resources, install_npm_packages, compile_smart_contracts, bind, gets.
  rewrite Hi. cbn. by rewrite Hg.
Qed.

Lemma get_cwd_flags st c st' :
  get_cwd st = (Val c, st') →
  nodeModulesInstalled (glob st') = nodeModulesInstalled (glob st)
  ∧ sigHashesGenerated (glob st') = sigHashesGenerated (glob st).
Proof.
  unfold get_cwd, bind, gets, ask, modify_glob, ret, raise. intros Hc. cbn in Hc.
  destruct (ac_cwd (glob st)) as [d|]; [by simplify_eq|].
  destruct (os_getenv _ _) as [sdk|]; cbn in Hc; by simplify_eq.
Qed.

Lemma check_call_glob argv st st' : check_call argv st = (Val tt, st') → glob st' = glob st.
Proof.
  unfold check_call, bind, run_proc, act. destruct (os_run argv (world st)) as [[e|[[code o] e]] w]; cbn; [done|].
  destruct (code =? 0); unfold ret, raise; by intros; simplify_eq.
Qed.

Lemma install_flags st st' :
  install_npm_packages st = (Val tt, st') → nodeModulesInstalled (glob st') = true.
Proof.
  unfold install_npm_packages. intros Hi. apply bind_Val_inv in Hi as (b & s1 & E & Hi).
  unfold gets in E. simplify_eq/=. destruct (nodeModulesInstalled (glob s1)) eqn:Hb.
  - inv_run. done.
  - apply bind_Val_inv in Hi as (c & s2 & _ & Hi). apply bind_Val_inv in Hi as ([[code o] e] & s3 & _ & Hi).
    apply bind_Val_inv in Hi as ([] & s4 & _ & Hi). unfold modify_glob in Hi. by simplify_eq/=.
Qed.

Lemma compile_flags st st' :
  compile_smart_contracts st = (Val tt, st') →
  sigHashesGenerated (glob st') = true ∧ nodeModulesInstalled (glob st') = nodeModulesInstalled (glob st).
Proof.
  unfold compile_smart_contracts. intros Hi. apply bind_Val_inv in Hi as (b & s1 & E & Hi).
  unfold gets in E. simplify_eq/=. destruct (sigHashesGenerated (glob s1)) eqn:Hb; [by inv_run|].
  apply bind_Val_inv in Hi as ([] & s2 & Hs & Hi). apply bind_Val_inv in Hi as (c1 & s3 & Hc1 & Hi).
  apply bind_Val_inv in Hi as ([] & s4 & Hr1 & Hi). apply bind_Val_inv in Hi as (c2 & s5 & Hc2 & Hi).
  apply bind_Val_inv in Hi as ([] & s6 & Hr2 & Hi). unfold modify_glob in Hi. simplify_eq/=.
  unfold setenv, run_os in Hs. simplify_eq/=.
  apply check_call_glob in Hr1, Hr2. apply get_cwd_flags in Hc1 as [Hc1 _], Hc2 as [Hc2 _].
  split; [done|]. cbn in *. congruence.
Qed.

(** Preparing the resources is done once: after a run that succeeds, a
    second run changes nothing and starts no process, and both module
    variables that record the work are set. *)
Theorem prepare_resources_once st st' :
  prepare_resources st = (Val tt, st') → prepared (glob st') ∧ prepare_resources st' = (Val tt, st').
Proof.
  intros Hp. assert (prepared (glob st')) as Hr; [|by split; [|apply prepare_resources_prepared]].
  unfold prepare_resources in Hp. apply bind_Val_inv in Hp as ([] & s1 & Hi & Hc).
  apply install_flags in Hi. apply compile_flags in Hc as [Hg Hn]. split; congruence.
Qed.

(** The metadata of a contract, as the compiler writes it. *)
Definition metadata (name source : string) (items : list abi_item) (bytecode : string)
    (hashes : list (string * pyval)) : pyval :=
  PDict [("contractName", PStr name); ("sourceName", PStr source); ("abi", PList (map item_json items));
         ("bytecode", PStr bytecode); ("sighashes", PDict hashes)].

End Construct.

(** ** Transactions *)

(** [to_checksum_address] leaves a checksummed address as it is. *)
Class EthUtilsLaws `{EthUtils} : Prop :=
  checksum_idem : ∀ a b, to_checksum_address a = Val b → to_checksum_address b = Val b ∧ b ≠ PNone.

(** The fields of a payload, without the recipient. *)
Definition contract_fields (m : CallMethod) (f nonce gas value data price maxfee prio chain : pyval)
    : list (string * pyval) :=
  [("nonce", nonce); ("gas", gas); ("value", value); ("input", data); ("from", f)]
  ++ match m with
     | RPC_LEGACY => [("gasPrice", price)]
     | RPC_EIP155 => [("gasPrice", price); ("chainId", chain)]
     | RPC_EIP1559 => [("maxPriorityFeePerGas", prio); ("maxFeePerGas", maxfee); ("chainId", chain)]
     end.

Section Transactions.
Context {W : Type} `{Nodes W, Clock W, Os W, Rng W} `{!EthUtils, !EthUtilsLaws, !EthAbi, !EthHash}.
Implicit Types st : St W.

Lemma contract_payload_to m from f t nonce gas value data price maxfee prio chain :
  to_checksum_address from = Val f → to_checksum_address t = Val t → t ≠ PNone →
  contract_payload m from t nonce gas value data price maxfee prio chain
  = Val (PDict (contract_fields m f nonce gas value data price maxfee prio chain ++ [("to", t)])).
Proof.
  intros Hf Ht Hn. destruct m; cbn [contract_payload];
    unfold contract_legacy_payload, contract_eip155_payload, contract_eip1559_payload, format_evm; rewrite Hf;
    cbn [obind]; unfold set_to; destruct t; try done; unfold format_evm; by rewrite Ht.
Qed.

Lemma contract_payload_new m from f nonce gas value data price maxfee prio chain :
  to_checksum_address from = Val f →
  contract_payload m from PNone nonce gas value data price maxfee prio chain
  = Val (PDict (contract_fields m f nonce gas value data price maxfee prio chain)).
Proof.
  intros Hf. destruct m; cbn [contract_payload];
    unfold contract_legacy_payload, contract_eip155_payload, contract_eip1559_payload, format_evm; by rewrite Hf.
Qed.

(** The text of a call: selector and arguments. *)
Lemma raw_encode_call_text c fn cf h args b :
  dict_get fn (Functions c) = Some cf → cf_isConstructor cf = false → cf_sigHash cf = PStr h →
  abi_encode (cf_inputs cf) args = Val b →
  raw_encode_call c fn args = Val (PStr (h +:+ hexlify b)).
Proof.
  intros Hf Hc Hh Hb. unfold raw_encode_call, lookup_function. rewrite Hf. cbn [obind].
  unfold ContractFunction_encode. by rewrite Hb, Hc, Hh.
Qed.

Lemma str_drop_app a b : str_drop (String.length a) (a +:+ b) = b.
Proof. induction a; simpl; [by destruct b|done]. Qed.


(** ** Replies to a static call *)

Lemma lower_hexlify b : lower (hexlify b) = hexlify b.
Proof. symmetry. apply hexlify_unhexlify, unhexlify_hexlify. Qed.

Lemma hex_digit_char (c : ascii) :
  is_space (hex_digit (N_of_ascii c / 16)) = false.
Proof. revert c. by_char. Qed.

Lemma bytes_fromhex_hexlify b : bytes_fromhex (hexlify b) = Val b.
Proof.
  induction b as [|c b IH]; [done|]. cbn [hexlify bytes_fromhex]. rewrite hex_digit_char.
  destruct (hex_byte c) as (-> & -> & Hc). by rewrite IH, <- Hc at 1; cbn [obind]; rewrite Hc.
Qed.

Lemma format_eoa_hex b : format_eoa ("0x" +:+ hexlify b) = hexlify b.
Proof.
  unfold format_eoa. cbn. replace (String.prefix "" (hexlify b)) with true by (by destruct (hexlify b)).
  apply lower_hexlify.
Qed.

Lemma prefix_app p s : String.prefix p (p +:+ s) = true.
Proof. induction p as [|c p IH]; simpl; [by destruct s|]. by destruct (ascii_dec c c). Qed.

Lemma startswith_app p s : startswith (p +:+ s) p = true.
Proof. apply prefix_app. Qed.

(** The selector of Solidity's [Error(string)]. *)
Definition revert_selector : string := "08c379a0".

Definition error_reply (message data : string) : pyval :=
  PDict [("error", PDict [("code", PInt 3); ("message", PStr message); ("data", PStr data)])].

Lemma static_error_reply message data :
  static_error (error_reply message data) =
  (if startswith message "execution reverted" then
     if startswith data "0x08c379a0" then
       if (String.length data <? 68)%nat then Val (EvmExecutionError "Execution reverted without a reason.")
       else
         let? b := bytes_fromhex (str_drop 2 data) in
         let? l := abi_decode [PStr "string"] (str_drop 4 b) in
         let? reason := list_index l 0 in
         Val (EvmExecutionError ("Execution reverted. Reason: " +:+ String dquote (py_str reason)
                                 +:+ String dquote ""))
     else Val (wrong (error_reply message data))
   else Val (wrong (error_reply message data))).
Proof. reflexivity. Qed.

Lemma static_error_revert rest payload reason :
  abi_decode [PStr "string"] payload = Val [PStr reason] → (29 <= String.length payload)%nat →
  static_error (error_reply ("execution reverted" +:+ rest) ("0x" +:+ revert_selector +:+ hexlify payload))
  = Val (EvmExecutionError ("Execution reverted. Reason: " +:+ String dquote (reason +:+ String dquote ""))).
Proof.
  intros Hd Hlen. rewrite static_error_reply, startswith_app.
  change ("0x" +:+ revert_selector +:+ hexlify payload) with ("0x08c379a0" +:+ hexlify payload).
  rewrite startswith_app.
  replace (String.length ("0x08c379a0" +:+ hexlify payload) <? 68)%nat with false
    by (symmetry; apply Nat.ltb_ge; cbn; rewrite hexlify_length; lia).
  change (str_drop 2 ("0x08c379a0" +:+ hexlify payload))
    with (hexlify (String (ascii_of_N 8) (String (ascii_of_N 195) (String (ascii_of_N 121) (String (ascii_of_N 160) payload))))).
  rewrite bytes_fromhex_hexlify. cbn [obind str_drop]. by rewrite Hd.
Qed.

Lemma static_error_short rest :
  (String.length rest < 58)%nat →
  static_error (error_reply "execution reverted" ("0x08c379a0" +:+ rest))
  = Val (EvmExecutionError "Execution reverted without a reason.").
Proof.
  intros Hlen. rewrite static_error_reply, startswith_app.
  replace (String.length ("0x08c379a0" +:+ rest) <? 68)%nat with true
    by (symmetry; apply Nat.ltb_lt; cbn; lia). done.
Qed.

(** ** Deployment *)

(** Deploying with a number of arguments other than the constructor's makes
    the two queries for nonce and chain id, then raises the error that names
    both numbers; nothing is signed or sent. *)
Theorem deploy_argument_count (c : SmartContract) (node : proxy) (cf : ContractFunction) (args : list pyval)
    (m : CallMethod) (from_ f gas price maxfee prio value tag chain : pyval) (n : Z) st (w1 w2 : W) :
  dict_get "constructor" (Functions c) = Some cf → length args ≠ length (cf_inputs cf) →
  to_checksum_address from_ = Val f →
  node_call node "rpc_eth_getTransactionCount" [f; tag] [] (world st) = (inr (result_reply (PStr (hex n))), w1) →
  node_call node "rpc_eth_chainId" [] [] w1 = (inr (result_reply chain), w2) →
  deploy c node args m from_ (mkTxOptions PNone gas price maxfee prio value tag) st
  = (Exc (RuntimeError ("Constructor missing arguments: " +:+ str_of_Z (Z.of_nat (length args))
       +:+ " were provided, but " +:+ str_of_Z (Z.of_nat (length (cf_inputs cf))) +:+ " are necessary!")),
     called node "rpc_eth_chainId" [] w2 (called node "rpc_eth_getTransactionCount" [f; tag] w1 st)).
Proof.
  intros Hcf Hlen Hf Hn Hi. unfold deploy. cbn [opt_nonce opt_tag]. rewrite (bind_lift_run _ _ _ _ Hf).
  destruct (checksum_idem _ _ Hf) as [Hff _]. rewrite (bind_run _ _ _ _ _ (ensure_nonce_run _ _ _ _ _ _ _ Hff Hn)).
  rewrite (bind_run _ _ _ _ _ (ensure_chain_id_run node chain (called node _ _ w1 st) w2 Hi)).
  apply bind_lift_exc. rewrite Hcf. by rewrite (proj2 (Nat.eqb_neq _ _) Hlen).
Qed.

(** What a deployment that returned says about the address. *)
Lemma ensure_nonce_asked node a tag st nonce st' :
  ensure_nonce node a PNone tag st = (Val nonce, st') →
  ∃ f n w reply r, to_checksum_address a = Val f ∧ nonce = PInt n
    ∧ node_call node "rpc_eth_getTransactionCount" [f; tag] [] (world st) = (inr reply, w)
    ∧ getitem reply "result" = Val r ∧ py_int_base r 16 = Val n.
Proof.
  unfold ensure_nonce. intros Hn. inv_run.
  match goal with Hc : call _ _ _ _ = _ |- _ => apply call_Val_inv in Hc as (w & Hc & ->) end.
  by repeat eexists.
Qed.

Lemma deploy_returns c node args m from_ gas st hash a st' :
  deploy c node args m from_ (default_tx_options gas) st = (Val (hash, a), st') →
  ∃ f n b, to_checksum_address from_ = Val f ∧ mk_contract_address f (PInt n) = Val b
    ∧ to_checksum_address b = Val a
    ∧ (∃ w w' reply r, node_call node "rpc_eth_getTransactionCount" [f; PStr "latest"] [] w = (inr reply, w')
         ∧ getitem reply "result" = Val r ∧ py_int_base r 16 = Val n)
    ∧ (∀ cf, dict_get "constructor" (Functions c) = Some cf → length args = length (cf_inputs cf)).
Proof.
  intros Hd. unfold deploy in Hd. cbn [default_tx_options opt_nonce opt_tag] in Hd.
  apply bind_Val_inv in Hd as (f & s1 & Hf & Hd). apply lift_Val_inv in Hf as [Hf ->].
  apply bind_Val_inv in Hd as (nonce & s2 & Hn & Hd). inv_run. simplify_eq.
  apply ensure_nonce_asked in Hn as (f' & n & w & reply & r & Hf' & -> & Hcall & Hr & Hint).
  destruct (checksum_idem _ _ Hf) as [Hff _]. unfold format_evm in *. rewrite Hff in Hf'. injection Hf' as <-.
  match goal with Hg : to_checksum_address from_ = Val ?x |- _ => assert (x = f) as -> by congruence end.
  match goal with Hm : mk_contract_address _ _ = Val ?b |- _ => exists f, n, b end.
  split_and!; try done; [do 4 eexists; split_and!; eassumption|]. intros cf Hcf.
  match goal with Hdata : match dict_get "constructor" _ with _ => _ end = Val _ |- _ => rewrite Hcf in Hdata;
    destruct (Nat.eqb_spec (length args) (length (cf_inputs cf))); [done|discriminate Hdata] end.
Qed.

(** Without a constructor the arguments are not looked at: the three values
    that [SimpleProxyContract] passes have no effect. *)
Lemma deploy_smart_contract_no_constructor node c from_ args m next_block (st : St W) :
  dict_get "constructor" (Functions c) = None →
  deploy_smart_contract node c from_ args m next_block st = deploy_smart_contract node c from_ [] m next_block st.
Proof.
  intros Hn. unfold deploy_smart_contract, SmartContract_estimate_gas, deploy. by rewrite Hn.
Qed.
End Transactions.

(** ** A concrete contract, node and third-party packages *)

(** Addresses are written as [0x] and the hexadecimal digits of their bytes. *)
#[export] Instance hex_eth : EthUtils := {
  to_checksum_address v := match v with
                           | PBytes b => Val (PStr ("0x" +:+ hexlify b))
                           | PStr s => Val (PStr s)
                           | _ => Exc TypeError
                           end;
  add_0x_prefix v := match v with
                     | PStr s => Val (PStr (if startswith s "0x" then s else "0x" +:+ s))
                     | _ => Exc TypeError
                     end
}.

#[export] Instance hex_eth_laws : EthUtilsLaws.
Proof. intros a b Hab. destruct a; simpl in Hab; by simplify_eq/=. Qed.

(** A string is encoded behind 64 bytes of header; other values take 32 bytes
    each. *)
#[export] Instance toy_abi : EthAbi := {
  abi_encode types vals :=
    match types, vals with
    | [PStr "string"], [PStr s] => Val (str_repeat "h" 64 +:+ s)
    | _, _ => if (length types =? length vals)%nat then Val (str_repeat "v" (32 * length vals)) else Exc TypeError
    end;
  abi_decode types b :=
    match types with
    | [PStr "string"] => Val [PStr (str_drop 64 b)]
    | _ => Val (map (λ _, PInt (Z.of_nat (String.length b))) types)
    end
}.

#[export] Instance toy_hash : EthHash := {
  to_bytes_hexstr v := match v with PStr s => of_opt (ValueError "") (unhexlify (str_drop 2 s)) | _ => Exc TypeError end;
  keccak s := str_take 32 (s +:+ str_repeat "k" 32);
  rlp_encode l := Val (py_repr (PList l))
}.

Lemma toy_keccak_length s : String.length (keccak s) = 32%nat.
Proof.
  assert (∀ n s, String.length (str_take n s) = Nat.min n (String.length s)) as Ht.
  { clear. induction n as [|n IH]; intros [|c s]; simpl; [done..|]. by rewrite IH. }
  unfold keccak, toy_hash. rewrite Ht, str_length_app. change (String.length (str_repeat "k" 32)) with 32%nat. lia.
Qed.

Definition token_items : list abi_item :=
  [AConstructor [AElem "supply" "uint256"];
   AOther "event" [("name", PStr "Transfer")];
   AFunction "balanceOf" [AElem "account" "address"] [AElem "" "uint256"];
   AFunction "place" [ATuple "order" [AElem "who" "address"; ATuple "price" [AElem "zen" "uint256"]]] []].

Definition token_hashes : list (string * pyval) :=
  [("balanceOf(address)", PStr "70a08231"); ("place((address,(uint256)))", PStr "01020304")].

Definition token_text : string :=
  match dumps (metadata "Token" "contracts/Token.sol" token_items "6080" token_hashes) with Val s => s | _ => "" end.

Definition ready : globals := Globals 0 0 false [] [] (Some "/r") true true.

Definition token_world : sim :=
  put_file "/r/artifacts/contracts/Token.sol/Token.dbg.json" "{}"
    (put_file "/r/artifacts/contracts/Token.sol/Token.json" token_text (sim_of (λ _ _ _ _, inr PNone))).

Definition token_st : St sim := mkSt token_world [] [] ready.

Lemma prepare_resources_once_witness :
  (prepare_resources (init_st (sim_of (λ _ _ _ _, inr PNone)) : St sim)).1 = Exc TypeError
  ∧ prepare_resources token_st = (Val tt, token_st)
  ∧ prepared (glob token_st).
Proof.
  split; [reflexivity|]. split; [reflexivity|]. exact (proj1 (prepare_resources_once token_st token_st eq_refl)).
Defined.


Definition token : SmartContract :=
  mkSmartContract (PStr "Token") (PStr "contracts/Token.sol") (PList []) (PStr "6080") (PDict token_hashes)
    [("constructor", mkContractFunction (PStr "constructor") [PStr "uint256"] [] (PStr "") true);
     ("balanceOf(address)", mkContractFunction (PStr "balanceOf") [PStr "address"] [PStr "uint256"] (PStr "70a08231") false)].

(** A node that answers every method a deployment and a call use. *)
Definition evm_node (m : string) : pyval :=
  if String.eqb m "rpc_eth_getTransactionCount" then result_reply (PStr (hex 5))
  else if String.eqb m "rpc_eth_estimateGas" then result_reply (PStr "0x5208")
  else if String.eqb m "block_forgingInfo" then
    result_reply (PDict [("consensusSlotsInEpoch", PInt 720); ("bestBlockSlotNumber", PInt 3); ("bestBlockEpochNumber", PInt 2)])
  else if String.eqb m "block_generate" then result_reply (PDict [("blockId", PStr "b1")])
  else if String.eqb m "rpc_eth_getTransactionReceipt" then
    result_reply (PDict [("contractAddress", PStr ("0x" +:+ hexlify (str_drop 12 (keccak (py_repr (PList [PBytes (String (ascii_of_N 171) ""); PInt 5]))))))])
  else result_reply (PStr m).

Definition evm_st : St sim := init_st (sim_of (λ _ _ m _, inr (evm_node m))).


Definition revert_st : St sim :=
  init_st (sim_of (λ _ _ m _, inr (error_reply "execution reverted: no funds"
    ("0x" +:+ revert_selector +:+ hexlify (str_repeat "h" 64 +:+ "no funds"))))).


Lemma deploy_argument_count_witness :
  (deploy token sc0 [] RPC_LEGACY (PStr "0xab") (default_tx_options (PInt 100000)) evm_st).1
  = Exc (RuntimeError "Constructor missing arguments: 0 were provided, but 1 are necessary!").
Proof.
  unfold default_tx_options.
  rewrite (deploy_argument_count token sc0 (mkContractFunction (PStr "constructor") [PStr "uint256"] [] (PStr "") true) []
    RPC_LEGACY (PStr "0xab") (PStr "0xab") (PInt 100000) (PInt 765630000) (PInt 765630000) (PInt 10) (PInt 0) (PStr "latest")
    (PStr "rpc_eth_chainId") 5 evm_st (tick (world evm_st)) (tick (tick (world evm_st))));
    [reflexivity|reflexivity|simpl; lia|reflexivity|reflexivity|reflexivity].
Defined.

