(* ===== verification/Scenarios.v ===== *)
(** * Scenarios: the shared parts, and the start of nodes

    A scenario is a test class of the driver: it overrides some of the five
    steps and its [run_test] drives the nodes and asserts on what they answer.
    Each class here is a [TestClass] whose fields are the methods of the
    script; [self] is the driver's.  [fuel] bounds the waiting loops, [shared]
    is the default forger options object of the node configurations.

    This file has what the scripts have in common and the scripts about
    starting nodes: mc_sc_nodes_alive.py, multipleclientstest.py and
    sc_bootstrap.py.  Log messages are left out except where building them can
    raise. *)

From S2P Require Import Prelude PyStr Numbers PyVal Host Sim Json Encoding HttpProxy BootInfo McUtil ScUtil.
From S2P Require Import Forging Bootstrap Framework McFramework HttpCalls.
From Stdlib Require Import Ascii String.
From stdpp Require Import base list.
Local Open Scope Z_scope.

Section Common.
Context {W : Type} `{Nodes W, Clock W, Os W, Rng W}.
Local Abbreviation MF := (M (FW W)).

(** [self.nodes[i]], [self.sc_nodes[i]] *)
Definition mc (i : Z) : MF proxy := let! l := get_nodes in lift (list_index l i).
Definition sc (i : Z) : MF proxy := let! l := get_sc_nodes in lift (list_index l i).

(** [self.sc_nodes_bootstrap_info], where an attribute of it is read *)
Definition boot_info : MF SCBootstrapInfo :=
  let! i := self_get sc_nodes_bootstrap_info in lift (of_opt (AttributeError "sc_nodes_bootstrap_info") i).

(** [mc_node.generate(1)[0]] *)
Definition mine (mc_node : proxy) : MF pyval :=
  let! l := call mc_node "generate" [PInt 1] in lift (getindex l 0).

(** [sc_node.block_best()["result"]] *)
Definition best (sc_node : proxy) : MF pyval :=
  let! r := call sc_node "block_best" [] in lift (getitem r "result").

(** [get_connected_peers(sc_node)['result']['peers']] *)
Definition peers_of (sc_node : proxy) : MF pyval :=
  let! r := get_connected_peers sc_node in lift (getpath r ["result"; "peers"]).

(** [except: pass] *)
Definition ignoring {A} (m : MF A) : MF unit := catch (do! m in ret tt) (λ _, ret tt).

(** [disconnect_nodes_bi(self.nodes, a, b)] *)
Definition disconnect_self (fuel : nat) (a b : Z) : MF unit :=
  let! l := get_nodes in disconnect_nodes_bi fuel l a b.

(** [connect_sc_nodes(self.sc_nodes[i], j)] *)
Definition connect_sc (fuel : nat) (i j : Z) : MF unit :=
  let! node := sc i in connect_sc_nodes fuel node j (secs 25).

(** ** Setup *)

(** [MCConnectionInfo(address="ws://{0}:{1}".format(mc_node.hostname, websocket_port_by_mc_node_index(i)))] *)
Definition ws_connection (mc_node : proxy) (i : Z) : MF MCConnectionInfo :=
  let! port := websocket_port_by_mc_node_index i in
  ret (mkMCConnectionInfo ("ws://" +:+ px_hostname mc_node +:+ ":" +:+ str_of_Z port) 100 1 1).

(** [SCNodeConfiguration(connection, ...)] with the keyword arguments the
    scenarios use; the rest are the defaults. *)
Definition node_configuration (connection : MCConnectionInfo) (shared : SCForgerConfiguration)
    (cert_submitter_enabled : bool) (max_incoming max_outgoing : Z) (get_peers_interval : string)
    (known_peers : list pyval) (declared_address : option string) (backup_interval backup_delay : string)
    : SCNodeConfiguration :=
  SCNodeConfiguration_init connection cert_submitter_enabled true None max_incoming max_outgoing get_peers_interval
    true (PFloat (float_of_dec (Dec 1 (-4)))) shared 300 0 DEFAULT_API_KEY 10000000 [] false PNone known_peers
    declared_address [] backup_interval backup_delay false 0 true DEFAULT_MAX_NONCE_GAP DEFAULT_MAX_ACCOUNT_SLOTS
    DEFAULT_MAX_MEMPOOL_SLOTS DEFAULT_MAX_NONEXEC_POOL_SLOTS DEFAULT_TX_LIFETIME true true.

(** [SCCreationInfo(mc_node, amount, epoch_length)] *)
Definition creation_info (mc_node : proxy) (amount epoch_length : Z) : outcome SCCreationInfo :=
  SCCreationInfo_init mc_node (PInt amount) epoch_length 0 SC_CREATION_VERSION_1 7 5 false false
    NO_KEY_ROTATION_CIRCUIT.

(** [bootstrap_sidechain_nodes(self.options, SCNetworkConfiguration(creation, *configurations), rewind, model)] *)
Definition bootstrap_model (model : string) (o : Options) (mc_node : proxy) (amount epoch_length : Z)
    (configurations : list SCNodeConfiguration) (rewind : pyval) : MF SCBootstrapInfo :=
  let% sci := creation_info mc_node amount epoch_length in
  bootstrap_sidechain_nodes (run_options_of o) (mkSCNetworkConfiguration sci configurations) rewind model.
Definition bootstrap := bootstrap_model DefaultModel.

Definition mc_setup_network (fuel : nat) (o : Options) (n : Z) : MF unit :=
  let! l := start_nodes n (op_tmpdir o) None None None in
  do! put_nodes l in
  sync_all fuel.

Definition utxo_sc_setup_nodes (fuel : nat) (o : Options) (n : Z) : MF (list proxy) :=
  start_sc_nodes fuel n (op_tmpdir o) None None None false (Some DEFAULT_API_KEY).

Definition utxo_sc_setup_network (fuel : nat) (o : Options) (n : Z) : MF unit :=
  let! l := utxo_sc_setup_nodes fuel o n in
  do! put_sc_nodes l in
  sc_sync_all fuel false.

(** A class with [n] mainchain and [m] sidechain nodes that overrides
    [setup_chain], [setup_nodes], [sc_setup_chain], [sc_setup_nodes] and [run_test]. *)
Definition scenario (fuel : nat) (o : Options) (n m : Z) (sc_chain test : MF unit) : TestClass W :=
  mkTestClass W (initialize_chain_clean (op_tmpdir o) n) (mc_setup_network fuel o n) sc_chain
    (utxo_sc_setup_network fuel o m) test.

(** ** mc_sc_nodes_alive.py *)

(** [for node in nodes: res = node.method(); assert_true(res is not None, ...)] *)
Fixpoint all_alive (what : string) (method : string) (i : Z) (l : list proxy) : MF unit :=
  match l with
  | [] => ret tt
  | node :: l' =>
      let! res := call node method [] in
      do% assert_true (match res with PNone => false | _ => true end)
        (what +:+ " node " +:+ str_of_Z i +:+ " not alive !") in
      all_alive what method (i + 1) l'
  end.

Definition MCSCNodesAlive_run_test : MF unit :=
  let! l := get_nodes in
  do! all_alive "MC" "getinfo" 0 l in
  let! l := get_sc_nodes in
  all_alive "SC" "node_connectedPeers" 0 l.

Definition MCSCNodesAlive (fuel : nat) (o : Options) (shared : SCForgerConfiguration) : TestClass W :=
  SidechainTestFramework fuel o shared MCSCNodesAlive_run_test.

(** ** multipleclientstest.py *)

Definition is_SCAPIException (e : exn) : bool := match e with SCAPIException _ => true | _ => false end.

(** The first sidechain node answers, the second raises; the method is called
    with the text that was meant to be the assertion's message. *)
Fixpoint clients_loop (i : Z) (l : list proxy) : MF unit :=
  match l with
  | [] => ret tt
  | node :: l' =>
      let message := "SC node " +:+ str_of_Z i +:+ " not alive !" in
      do! when (i =? 0) (
        let! res := call node "debug_info" [] in
        lift (assert_true (match res with PNone => false | _ => true end) message)) in
      do! when (i =? 1) (assert_raises is_SCAPIException (call node "debug_info" [PStr message])) in
      clients_loop (i + 1) l'
  end.

Definition MultipleClientsTest_run_test : MF unit :=
  let! l := get_nodes in
  do! all_alive "MC" "getinfo" 0 l in
  let! l := get_sc_nodes in
  clients_loop 0 l.

Definition MultipleClientsTest (fuel : nat) (o : Options) (testbinary refbinary : string) (jars : list string)
    : TestClass W :=
  mkTestClass W (comparison_setup_chain o) (comparison_setup_network o testbinary refbinary)
    (comparison_sc_setup_chain o jars) (comparison_sc_setup_network fuel o jars) MultipleClientsTest_run_test.

(** ** sc_bootstrap.py *)

(** [sc_setup_chain] of the scripts with one node and the default options. *)
Definition one_node_model (model : string) (o : Options) (shared : SCForgerConfiguration) (amount epoch_length : Z)
    (rewind : pyval) : MF SCBootstrapInfo :=
  let! mc_node := mc 0 in
  let! connection := ws_connection mc_node 0 in
  bootstrap_model model o mc_node amount epoch_length [SCNodeConfiguration_defaults connection shared] rewind.
Definition one_node_chain := one_node_model DefaultModel.

Definition SCBootstrap_sc_setup_chain (o : Options) (shared : SCForgerConfiguration) : MF unit :=
  let! info := one_node_chain o shared 100 LARGE_WITHDRAWAL_EPOCH_LENGTH DefaultBlockTimestampRewind in
  put_info info.

Definition SCBootstrap_run_test : MF unit :=
  let! sc_node := sc 0 in
  let! mc_node := mc 0 in
  let! info := boot_info in
  let! mc_block := call mc_node "getblock" [PStr (py_str (mainchain_block_height info))] in
  let% hash := getitem mc_block "hash" in
  let! mc_block_hex := call mc_node "getblock" [hash; PBool false] in
  do% log_concat mc_block_hex in
  let! sc_best_block := best sc_node in
  let% height := getitem sc_best_block "height" in
  do% assert_equal height (PInt 1) "The best block has not the specified height." in
  let% block := getitem sc_best_block "block" in
  let% res := is_mainchain_block_included_in_sc_block block mc_block in
  do% assert_true res "The mainchain block is not included in SC node." in
  let! r := call sc_node "mainchain_bestBlockReferenceInfo" [] in
  let% ref_info := getitem r "result" in
  do% assert_true (check_mainchain_block_reference_info ref_info mc_block)
    "The mainchain block is not included inside SC block reference info." in
  do! check_wallet_coins_balance sc_node (genesis_account_balance info) in
  let% account := of_opt (AttributeError "publicKey") (genesis_account info) in
  check_box_balance sc_node account (Some "ForgerBox") (PInt 1) (genesis_account_balance info).

Definition SCBootstrap (fuel : nat) (o : Options) (shared : SCForgerConfiguration) : TestClass W :=
  mkTestClass W (default_setup_chain o) (default_setup_network fuel o) (SCBootstrap_sc_setup_chain o shared)
    (default_sc_setup_network fuel o) SCBootstrap_run_test.
End Common.
