(* ===== verification/NetScenarios.v ===== *)
(** * Scenarios of the peer network: mc_sc_connected_nodes.py and net_*.py

    The nodes are started with limits, known peers and declared addresses,
    connected in some shape, and asked for their peers. *)

From S2P Require Import Prelude PyStr Numbers PyVal Host Sim Json Encoding HttpProxy BootInfo McUtil ScUtil.
From S2P Require Import Forging Bootstrap Framework McFramework HttpCalls Scenarios.
From Stdlib Require Import Ascii String.
From stdpp Require Import base list.
Local Open Scope Z_scope.

(** [[peer['remoteAddress'] for peer in peers]] *)
Definition remote_addresses (peers : list pyval) : outcome (list pyval) := omapM (λ p, getitem p "remoteAddress") peers.

Section Net.
Context {W : Type} `{Nodes W, Clock W, Os W, Rng W}.
Local Abbreviation MF := (M (FW W)).

(** ** mc_sc_connected_nodes.py *)

Definition MCSCConnectedNodes_sc_setup_chain (o : Options) (shared : SCForgerConfiguration) : MF unit :=
  let! mc_node_1 := mc 0 in
  let! mc_node_2 := mc 1 in
  let! connection_1 := ws_connection mc_node_1 0 in
  let! connection_2 := ws_connection mc_node_2 1 in
  let! info := bootstrap o mc_node_1 600 LARGE_WITHDRAWAL_EPOCH_LENGTH
    [SCNodeConfiguration_defaults connection_1 shared; SCNodeConfiguration_defaults connection_2 shared]
    DefaultBlockTimestampRewind in
  put_info info.

(** [sc_node.mainchain_bestBlockReferenceInfo()["result"]] *)
Definition best_reference (sc_node : proxy) : MF pyval :=
  let! r := call sc_node "mainchain_bestBlockReferenceInfo" [] in lift (getitem r "result").

(** [is_mainchain_block_included_in_sc_block(best["block"], mc_block)] *)
Definition included_in_best (best_block mc_block : pyval) : outcome bool :=
  obind (getitem best_block "block") (λ b, is_mainchain_block_included_in_sc_block b mc_block).

Definition ref_message : string := "The mainchain block is not included inside SC block reference info.".
Definition height_message : string := "The best block has not the specified height.".

(** The genesis block is in both sidechain nodes. *)
Definition connected_genesis (sc1 sc2 : proxy) (mc_block : pyval) : MF unit :=
  let! best1 := best sc1 in
  let! best2 := best sc2 in
  let% h1 := getitem best1 "height" in
  do% assert_equal h1 (PInt 1) height_message in
  let% h2 := getitem best2 "height" in
  do% assert_equal h2 (PInt 1) height_message in
  let% in1 := included_in_best best1 mc_block in
  let% in2 := included_in_best best2 mc_block in
  do% assert_true in1 "The mainchain block is not included for SC node 1." in
  do% assert_true in2 "The mainchain block is not included for SC node 2." in
  let! ref1 := best_reference sc1 in
  let! ref2 := best_reference sc2 in
  do% assert_true (check_mainchain_block_reference_info ref1 mc_block) ref_message in
  lift (assert_true (check_mainchain_block_reference_info ref2 mc_block) ref_message).

(** The new block is in the first sidechain node only. *)
Definition connected_new_block (sc1 sc2 : proxy) (mc_block : pyval) : MF unit :=
  let! best1 := best sc1 in
  let! best2 := best sc2 in
  let% h1 := getitem best1 "height" in
  do% assert_equal h1 (PInt 2) height_message in
  let% in1 := included_in_best best1 mc_block in
  do% assert_true in1 "The mainchain block is not included for SC node 1." in
  let% in2 := included_in_best best2 mc_block in
  do% assert_false in2 "The mainchain block is included for SC node 2." in
  let! ref1 := best_reference sc1 in
  let! ref2 := best_reference sc2 in
  do% assert_true (check_mainchain_block_reference_info ref1 mc_block) ref_message in
  lift (assert_false (check_mainchain_block_reference_info ref2 mc_block) ref_message).

Definition MCSCConnectedNodes_run_test (fuel : nat) : MF unit :=
  let! mc1 := mc 0 in
  do! mc 1 in
  let! sc1 := sc 0 in
  let! sc2 := sc 1 in
  let! info := boot_info in
  let! mc_block := call mc1 "getblock" [PStr (py_str (mainchain_block_height info))] in
  do! connected_genesis sc1 sc2 mc_block in
  let% account := of_opt (AttributeError "publicKey") (genesis_account info) in
  do! check_box_balance sc1 account (Some "ForgerBox") (PInt 1) (genesis_account_balance info) in
  do! check_wallet_coins_balance sc1 (genesis_account_balance info) in
  let! block_hash := mine mc1 in
  let! new_block := call mc1 "getblock" [block_hash] in
  do! generate_next_blocks sc1 "first node" 1 in
  do! connected_new_block sc1 sc2 new_block in
  do! connect_self fuel 0 1 in
  do! sync_all fuel in
  do! connect_sc fuel 0 1 in
  do! sc_sync_all fuel false in
  let! best2 := best sc2 in
  let% in2 := included_in_best best2 new_block in
  lift (assert_true in2 "The mainchain block is not included for SC node 2.").

Definition MCSCConnectedNodes (fuel : nat) (o : Options) (shared : SCForgerConfiguration) : TestClass W :=
  scenario fuel o 2 2 (MCSCConnectedNodes_sc_setup_chain o shared) (MCSCConnectedNodes_run_test fuel).

(** ** The setup of net_*.py *)

(** [f'127.0.0.1:{sc_p2p_port(i)}'] *)
Definition p2p_address (i : Z) : MF string :=
  let! port := sc_p2p_port i in ret ("127.0.0.1:" +:+ str_of_Z port).

(** One configuration per node of a list, each with its own connection
    information; then the sidechain of 600 coins and epochs of 1000 blocks. *)
Definition net_setup_chain (o : Options) (configurations : list (MCConnectionInfo → MF SCNodeConfiguration))
    : MF unit :=
  let! mc_node_1 := mc 0 in
  let! l := mmap (λ configuration,
    let! connection := ws_connection mc_node_1 0 in configuration connection) configurations in
  let! info := bootstrap o mc_node_1 600 1000 l DefaultBlockTimestampRewind in
  put_info info.

(** A node that declares its address: [declared_address=f'127.0.0.1:{sc_p2p_port(i)}'] *)
Definition declaring (shared : SCForgerConfiguration) (interval : string) (i : Z) (c : MCConnectionInfo)
    : MF SCNodeConfiguration :=
  let! a := p2p_address i in
  ret (node_configuration c shared true 100 100 interval [] (Some a) "15m" "5m").

Definition known (ports : list Z) : MF (list pyval) :=
  mmap (λ i, let! a := p2p_address i in ret (PStr a)) ports.

(** ** net_ring_of_nodes.py *)

Definition NetRingOfNodes_sc_setup_chain (o : Options) (shared : SCForgerConfiguration) : MF unit :=
  net_setup_chain o (map (declaring shared "5s") (zrange 0 10)).

(** [connect_sc_nodes(sc_nodes[i], j)] for a local list of nodes *)
Definition connect_in (fuel : nat) (sc_nodes : list proxy) (i j : Z) : MF unit :=
  let% node := list_index sc_nodes i in connect_sc_nodes fuel node j (secs 25).

(** The ring is closed and the nodes are left alone for a minute. *)
Definition ring_connect (fuel : nat) (sc_nodes : list proxy) : MF unit :=
  do! forM_ (zrange 0 (Z.of_nat (length sc_nodes) - 1)) (λ index,
    ignoring (connect_in fuel sc_nodes index (index + 1))) in
  do! connect_in fuel sc_nodes (-1) 0 in
  sleep (secs 60).

(** [len(get_connected_peers(sc_nodes[index])['result']['peers'])] and the assertion on it *)
Definition check_peer_count (sc_nodes : list proxy) (index : Z) (check : Z → outcome unit) : MF unit :=
  let% node := list_index sc_nodes index in
  let! connected_peers := peers_of node in
  let% k := py_len connected_peers in
  lift (check k).

Definition NetRingOfNodes_run_test (fuel : nat) : MF unit :=
  let! sc_nodes := get_sc_nodes in
  do! ring_connect fuel sc_nodes in
  forM_ (zrange 0 (Z.of_nat (length sc_nodes))) (λ index,
    check_peer_count sc_nodes index (λ k, assert_equal (PInt k) (PInt (Z.of_nat (length sc_nodes) - 1)) "")).

Definition NetRingOfNodes (fuel : nat) (o : Options) (shared : SCForgerConfiguration) : TestClass W :=
  scenario fuel o 1 10 (NetRingOfNodes_sc_setup_chain o shared) (NetRingOfNodes_run_test fuel).

(** ** net_first_known_peers.py *)

Definition NetFirstKnownPeers_sc_setup_chain (o : Options) (shared : SCForgerConfiguration) : MF unit :=
  net_setup_chain o ((λ c,
      let! peers := known [1; 2; 3] in
      let! a := p2p_address 0 in
      ret (node_configuration c shared true 100 5 "2m" peers (Some a) "15m" "5m"))
    :: map (declaring shared "2m") (zrange 1 10)).

Definition NetFirstKnownPeers_run_test (fuel : nat) : MF unit :=
  let! sc_nodes := get_sc_nodes in
  do! forM_ (zrange 1 (Z.of_nat (length sc_nodes) - 1)) (λ index, connect_in fuel sc_nodes index (index + 1)) in
  do! sleep (secs 10) in
  let% node := list_index sc_nodes 0 in
  let! connected_peers := peers_of node in
  let% k := py_len connected_peers in
  do% assert_true (k >=? 3) "" in
  let! known_peers := mmap (λ i, let! a := p2p_address i in ret (PStr ("/" +:+ a))) [1; 2; 3] in
  let% l := py_iter connected_peers in
  let% addresses := remote_addresses l in
  forM_ known_peers (λ address, lift (assert_true (list_mem address addresses) "")).

Definition NetFirstKnownPeers (fuel : nat) (o : Options) (shared : SCForgerConfiguration) : TestClass W :=
  scenario fuel o 1 10 (NetFirstKnownPeers_sc_setup_chain o shared) (NetFirstKnownPeers_run_test fuel).

(** ** net_incoming_connections.py *)

Definition NetIncomingConnections_sc_setup_chain (o : Options) (shared : SCForgerConfiguration)
    (max_incoming_connections : Z) : MF unit :=
  net_setup_chain o (
    (λ c, ret (node_configuration c shared true max_incoming_connections 0 "2m" [] None "15m" "5m"))
    :: repeat (λ c, ret (node_configuration c shared true 0 1 "2m" [] None "15m" "5m")) 7).

(** Every other node tries to connect to the first. *)
Definition incoming_connect (fuel : nat) (sc_nodes : list proxy) : MF unit :=
  do! forM_ (zrange 1 (Z.of_nat (length sc_nodes))) (λ index, ignoring (connect_in fuel sc_nodes index 0)) in
  sc_sync_all fuel false.

Definition NetIncomingConnections_run_test (fuel : nat) (max_incoming_connections : Z) : MF unit :=
  let! sc_nodes := get_sc_nodes in
  do! incoming_connect fuel sc_nodes in
  do! check_peer_count sc_nodes 0 (λ k, assert_true (k =? max_incoming_connections) "") in
  forM_ (zrange 1 (Z.of_nat (length sc_nodes))) (λ index,
    check_peer_count sc_nodes index (λ k, assert_true (k <=? 1) "")).

Definition NetIncomingConnections (fuel : nat) (o : Options) (shared : SCForgerConfiguration) : TestClass W :=
  scenario fuel o 1 8 (NetIncomingConnections_sc_setup_chain o shared 5) (NetIncomingConnections_run_test fuel 5).

(** ** net_peers_storage_persistence.py *)

Definition NetPeersStoragePersistence_sc_setup_chain (o : Options) (shared : SCForgerConfiguration) : MF unit :=
  net_setup_chain o ((λ c,
      let! a := p2p_address 0 in
      ret (node_configuration c shared true 100 100 "2m" [] (Some a) "1s" "5s"))
    :: repeat (λ c, ret (node_configuration c shared true 100 0 "2m" [] None "1s" "5s")) 4).

(** [get_all_peers(node)['result']['peers']] *)
Definition all_peers_of (sc_node : proxy) : MF pyval :=
  let! r := get_all_peers sc_node in lift (getpath r ["result"; "peers"]).

Definition NetPeersStoragePersistence_run_test (fuel : nat) (o : Options) : MF unit :=
  let! sc_nodes := get_sc_nodes in
  do! forM_ [1; 2; 3; 4] (λ j, connect_in fuel sc_nodes 0 j) in
  let% node := list_index sc_nodes 0 in
  let! all_peers_before := all_peers_of node in
  do! stop_sc_node node 0 in
  do! sleep (secs 5) in
  do! start_sc_node 0 (op_tmpdir o) None None None false (Some DEFAULT_API_KEY) in
  let! l := get_sc_nodes in
  do! wait_for_sc_node_initialization fuel l in
  do! sleep (secs 10) in
  let! all_peers_after := all_peers_of node in
  let% before := py_len all_peers_before in
  let% after := py_len all_peers_after in
  do% assert_true (before =? after) "" in
  let% l := py_iter all_peers_before in
  forM_ l (λ peer, let% there := py_in peer all_peers_after in lift (assert_true there "")).

Definition NetPeersStoragePersistence (fuel : nat) (o : Options) (shared : SCForgerConfiguration) : TestClass W :=
  scenario fuel o 1 5 (NetPeersStoragePersistence_sc_setup_chain o shared)
    (NetPeersStoragePersistence_run_test fuel o).

(** ** net_declared_address.py *)

Definition NetDeclaredAddress_sc_setup_chain (o : Options) (shared : SCForgerConfiguration) : MF unit :=
  net_setup_chain o ((λ c, ret (node_configuration c shared true 100 100 "5s" [] None "15m" "5m"))
    :: map (declaring shared "5s") [1; 2; 3; 4; 5]).

Definition NetDeclaredAddress_run_test (fuel : nat) : MF unit :=
  let! sc_nodes := get_sc_nodes in
  do! connect_in fuel sc_nodes 0 1 in
  do! connect_in fuel sc_nodes 1 2 in
  do! connect_in fuel sc_nodes 2 3 in
  do! connect_in fuel sc_nodes 2 4 in
  do! connect_in fuel sc_nodes 5 3 in
  do! sleep (secs 60) in
  let% node := list_index sc_nodes 0 in
  let! connected_peers := peers_of node in
  let% l := py_iter connected_peers in
  forM_ l (λ peer,
    let% t := getitem peer "connectionType" in
    lift (assert_true (py_eqb t (PStr "Outgoing")) "")).

Definition NetDeclaredAddress (fuel : nat) (o : Options) (shared : SCForgerConfiguration) : TestClass W :=
  scenario fuel o 1 6 (NetDeclaredAddress_sc_setup_chain o shared) (NetDeclaredAddress_run_test fuel).

(** ** net_skip_down_known_peer.py *)

Definition with_known (shared : SCForgerConfiguration) (ports : list Z) (more : list pyval) (i : Z)
    (c : MCConnectionInfo) : MF SCNodeConfiguration :=
  let! peers := known ports in
  let! a := p2p_address i in
  ret (node_configuration c shared true 100 100 "2m" (peers ++ more) (Some a) "15m" "5m").

Definition NetSkipDownKnownPeer_sc_setup_chain (o : Options) (shared : SCForgerConfiguration) : MF unit :=
  net_setup_chain o ([with_known shared [1; 2] [PStr "127.0.0.1:6666"] 0; with_known shared [3; 4; 5] [] 1;
    with_known shared [4; 5; 6] [] 2] ++ map (declaring shared "2m") [3; 4; 5; 6]).

(** The peers whose address is one of the two, the second compared only when
    the first differs. *)
Fixpoint peers_at (l : list pyval) (a b : string) : outcome Z :=
  match l with
  | [] => Val 0
  | peer :: l' =>
      let? address := getitem peer "remoteAddress" in
      let? n := peers_at l' a b in
      Val (if py_eqb address (PStr a) || py_eqb address (PStr b) then n + 1 else n)
  end.

Definition NetSkipDownKnownPeer_run_test : MF unit :=
  let! sc_nodes := get_sc_nodes in
  do! sleep (secs 5) in
  let% node := list_index sc_nodes 0 in
  let! connected_peers := peers_of node in
  let% k := py_len connected_peers in
  do% assert_true (k >=? 2) "" in
  let! a := p2p_address 1 in
  let! b := p2p_address 2 in
  let% l := py_iter connected_peers in
  let% n := peers_at l ("/" +:+ a) ("/" +:+ b) in
  lift (assert_true (n =? 2) "").

Definition NetSkipDownKnownPeer (fuel : nat) (o : Options) (shared : SCForgerConfiguration) : TestClass W :=
  scenario fuel o 1 7 (NetSkipDownKnownPeer_sc_setup_chain o shared) NetSkipDownKnownPeer_run_test.
End Net.
