(* ===== verification/ForgingScenarios.v ===== *)
(** * Scenarios of the forger: mc_sc_forging1.py to 5, delegation, fee payments

    The mainchain nodes are split and joined so that their chains fork; after
    each step a sidechain block is forged and its mainchain headers, reference
    data and ommers are checked.  Each numbered test of a script is a
    definition that passes the block ids and hashes on to the next. *)

From S2P Require Import Prelude PyStr Numbers PyVal Host Sim Json Encoding HttpProxy BootInfo McUtil ScUtil.
From S2P Require Import Forging Bootstrap Framework McFramework HttpCalls Scenarios.
From Stdlib Require Import QArith Ascii String.
From stdpp Require Import base list.
Local Open Scope Z_scope.

(** [720*120*5]: five consensus epochs *)
Definition five_epochs : pyval := PInt (720 * 120 * 5).

Section Forging.
Context {W : Type} `{Nodes W, Clock W, Os W, Rng W}.
Local Abbreviation MF := (M (FW W)).

(** ** Shared parts *)

(** [generate_next_blocks(sc_node, "first node", 1)[0]] *)
Definition forge (sc_node : proxy) : MF pyval :=
  let! l := generate_next_blocks sc_node "first node" 1 in lift (list_index l 0).

(** [assert_equal(hash, mc_node.getbestblockhash())] *)
Definition check_mc_tip (hash : pyval) (mc_node : proxy) : MF unit :=
  let! tip := call mc_node "getbestblockhash" [] in lift (assert_equal hash tip "").

(** The three amounts of a block, in the order the scripts check them. *)
Definition check_amounts (headers data ommers : Z) (id : pyval) (sc_node : proxy) : MF unit :=
  do! check_mcheaders_amount headers id sc_node in
  do! check_mcreferencedata_amount data id sc_node in
  check_ommers_amount ommers id sc_node.

Definition check_headers (hashes : list pyval) (id : pyval) (sc_node : proxy) : MF unit :=
  forM_ hashes (λ hash, check_mcheader_presence hash id sc_node).

Definition check_data (hashes : list pyval) (id : pyval) (sc_node : proxy) : MF unit :=
  forM_ hashes (λ hash, check_mcreferencedata_presence hash id sc_node).

(** [setup_network] of the scripts that connect node 0 to some others. *)
Definition star_setup_network (fuel : nat) (o : Options) (n : Z) (others : list Z) : MF unit :=
  let! l := start_nodes n (op_tmpdir o) None None None in
  do! put_nodes l in
  do! forM_ others (λ j, connect_self fuel 0 j) in
  sync_all fuel.

(** A class that also overrides [setup_network]. *)
Definition forging_scenario (o : Options) (fuel : nat) (n m : Z) (network sc_chain test : MF unit) : TestClass W :=
  mkTestClass W (initialize_chain_clean (op_tmpdir o) n) network sc_chain (utxo_sc_setup_network fuel o m) test.

(** [sc_setup_chain] that does not keep the bootstrap information. *)
Definition forging_sc_setup_chain (o : Options) (shared : SCForgerConfiguration) : MF unit :=
  do! one_node_chain o shared 600 LARGE_WITHDRAWAL_EPOCH_LENGTH DefaultBlockTimestampRewind in ret tt.

(** ** mc_sc_forging1.py *)

(** Test 1: nothing new on the mainchain. *)
Definition forging_no_mc_data (sc1 : proxy) : MF pyval :=
  let! id0 := forge sc1 in
  do! check_amounts 0 0 0 id0 sc1 in
  ret id0.

(** A sidechain block that refers to one new mainchain block. *)
Definition forging_one_reference (sc1 : proxy) (id0 hash1 : pyval) : MF pyval :=
  let! id1 := forge sc1 in
  do! check_scparent id0 id1 sc1 in
  do! check_mcheaders_amount 1 id1 sc1 in
  do! check_mcreferencedata_amount 1 id1 sc1 in
  do! check_mcreference_presence hash1 id1 sc1 in
  do! check_ommers_amount 0 id1 sc1 in
  ret id1.

(** Test 3: the second node's longer fork wins; block 1 becomes an ommer. *)
Definition forging_fork (fuel : nat) (mc1 mc2 sc1 : proxy) (id0 id1 hash1 : pyval) : MF (pyval * pyval * pyval) :=
  let! fork1 := mine mc2 in
  let! fork2 := mine mc2 in
  do! connect_self fuel 0 1 in
  do! sync_nodes fuel [mc1; mc2] in
  do! check_mc_tip fork2 mc1 in
  let! id2 := forge sc1 in
  do! check_scparent id0 id2 sc1 in
  do! check_mcheaders_amount 2 id2 sc1 in
  do! check_mcreferencedata_amount 0 id2 sc1 in
  do! check_headers [fork1; fork2] id2 sc1 in
  do! check_ommers_amount 1 id2 sc1 in
  do! check_ommers_cumulative_score (PInt 1) id2 sc1 in
  do! check_ommer id1 [hash1] id2 sc1 in
  ret (fork1, fork2, id2).

(** Test 4: two more blocks on the same tip, and the data of the fork. *)
Definition forging1_test4 (mc1 sc1 : proxy) (fork1 fork2 id2 : pyval) : MF (pyval * pyval) :=
  let! hash3 := mine mc1 in
  let! hash4 := mine mc1 in
  let! id3 := forge sc1 in
  do! check_scparent id2 id3 sc1 in
  do! check_mcheaders_amount 2 id3 sc1 in
  do! check_mcreferencedata_amount 4 id3 sc1 in
  do! check_headers [hash3; hash4] id3 sc1 in
  do! check_data [fork1; fork2; hash3; hash4] id3 sc1 in
  do! check_ommers_amount 0 id3 sc1 in
  let! id4 := forge sc1 in
  do! check_scparent id3 id4 sc1 in
  do! check_amounts 0 0 0 id4 sc1 in
  ret (id3, id4).

(** Test 5: the third node's fork of five blocks; recursive ommers. *)
Definition forging1_test5 (fuel : nat) (mc1 mc3 sc1 : proxy) (id0 id1 id2 id3 id4 hash1 : pyval) : MF unit :=
  let! generated := call mc3 "generate" [PInt 5] in
  let% tip := getindex generated (-1) in
  do! connect_self fuel 0 2 in
  do! sync_all fuel in
  do! check_mc_tip tip mc1 in
  let! id5 := forge sc1 in
  do! check_scparent id0 id5 sc1 in
  do! check_mcheaders_amount 5 id5 sc1 in
  do! check_mcreferencedata_amount 0 id5 sc1 in
  let% hashes := py_iter generated in
  do! check_headers hashes id5 sc1 in
  do! check_ommers_amount 3 id5 sc1 in
  do! check_ommers_cumulative_score (PInt 4) id5 sc1 in
  do! forM_ [id2; id3; id4] (λ ommer_id, check_ommer ommer_id [] id5 sc1) in
  do! check_subommer id2 id1 [hash1] id5 sc1 in
  let! id6 := forge sc1 in
  do! check_scparent id5 id6 sc1 in
  do! check_amounts 0 5 0 id6 sc1 in
  check_data hashes id6 sc1.

(** [sc_node1.block_forgingInfo()["result"]["forgingEnabled"]] *)
Definition forging_enabled (sc1 : proxy) : MF pyval :=
  let! r := call sc1 "block_forgingInfo" [] in lift (getpath r ["result"; "forgingEnabled"]).

Definition forging1_status (sc1 : proxy) : MF unit :=
  let! enabled := forging_enabled sc1 in
  do% assert_equal (PBool false) enabled "Automatic forging expected to be disabled." in
  let! r := call sc1 "block_startForging" [] in
  let% ok := has_key "result" r in
  do! when (negb ok) (lift (fail "Was not able to start auto forging.")) in
  let! enabled := forging_enabled sc1 in
  lift (assert_equal (PBool true) enabled "Automatic forging expected to be enabled.").

Definition MCSCForging1_run_test (fuel : nat) : MF unit :=
  do! sync_all fuel in
  do! disconnect_self fuel 0 1 in
  do! disconnect_self fuel 0 2 in
  let! mc1 := mc 0 in
  let! mc2 := mc 1 in
  let! mc3 := mc 2 in
  let! sc1 := sc 0 in
  let! id0 := forging_no_mc_data sc1 in
  let! hash1 := mine mc1 in
  let! id1 := forging_one_reference sc1 id0 hash1 in
  let! '(fork1, fork2, id2) := forging_fork fuel mc1 mc2 sc1 id0 id1 hash1 in
  let! '(id3, id4) := forging1_test4 mc1 sc1 fork1 fork2 id2 in
  do! forging1_test5 fuel mc1 mc3 sc1 id0 id1 id2 id3 id4 hash1 in
  forging1_status sc1.

Definition MCSCForging1 (fuel : nat) (o : Options) (shared : SCForgerConfiguration) : TestClass W :=
  forging_scenario o fuel 3 1 (star_setup_network fuel o 3 [1; 2]) (forging_sc_setup_chain o shared)
    (MCSCForging1_run_test fuel).

(** ** mc_sc_forging2.py *)

Definition MCSCForging2_sc_setup_chain (o : Options) (shared : SCForgerConfiguration) : MF unit :=
  let! mc_node_1 := mc 0 in
  let! connection := ws_connection mc_node_1 0 in
  do! bootstrap o mc_node_1 600 LARGE_WITHDRAWAL_EPOCH_LENGTH
    [SCNodeConfiguration_defaults connection shared;
     node_configuration MCConnectionInfo_defaults shared false 100 100 "2m" [] None "15m" "5m"]
    DefaultBlockTimestampRewind in
  ret tt.

Definition MCSCForging2_run_test (fuel : nat) : MF unit :=
  let! mc1 := mc 0 in
  let! mc2 := mc 1 in
  let! sc1 := sc 0 in
  let! sc2 := sc 1 in
  do! sync_all fuel in
  let! genesis := best sc1 in
  let! id0 := forging_no_mc_data sc1 in
  let! hash1 := mine mc1 in
  do! sync_all fuel in
  do! disconnect_self fuel 0 1 in
  let! hash2 := mine mc1 in
  let! id1 := forge sc1 in
  do! check_scparent id0 id1 sc1 in
  do! check_mcheaders_amount 2 id1 sc1 in
  do! check_mcreferencedata_amount 2 id1 sc1 in
  do! check_mcreference_presence hash1 id1 sc1 in
  do! check_mcreference_presence hash2 id1 sc1 in
  do! check_ommers_amount 0 id1 sc1 in
  let! fork1 := mine mc2 in
  let! fork2 := mine mc2 in
  do! connect_self fuel 0 1 in
  do! sync_all fuel in
  do! check_mc_tip fork2 mc1 in
  let! id2 := forge sc1 in
  do! check_scparent id0 id2 sc1 in
  do! check_mcheaders_amount 3 id2 sc1 in
  do! check_mcreferencedata_amount 0 id2 sc1 in
  do! check_headers [hash1; fork1; fork2] id2 sc1 in
  do! check_ommers_amount 1 id2 sc1 in
  do! check_ommers_cumulative_score (PInt 1) id2 sc1 in
  do! check_ommer id1 [hash1; hash2] id2 sc1 in
  let! best2 := best sc2 in
  do% assert_equal genesis best2 "" in
  do! connect_sc fuel 0 1 in
  do! sc_sync_all fuel false in
  let! best1 := best sc1 in
  let! best2 := best sc2 in
  lift (assert_equal best1 best2 "").

Definition MCSCForging2 (fuel : nat) (o : Options) (shared : SCForgerConfiguration) : TestClass W :=
  forging_scenario o fuel 2 2 (star_setup_network fuel o 2 [1]) (MCSCForging2_sc_setup_chain o shared)
    (MCSCForging2_run_test fuel).

(** ** mc_sc_forging3.py *)

(** [connect_nodes_bi(0, 2); sync_nodes([mc_node1, mc_node3]); disconnect_nodes_bi(0, 2)] *)
Definition sync_once (fuel : nat) (mc1 mc3 : proxy) : MF unit :=
  do! connect_self fuel 0 2 in
  do! sync_nodes fuel [mc1; mc3] in
  disconnect_self fuel 0 2.

(** Test 4: the first branch, with these hashes and tip, wins again; an ommer with a sub-ommer. *)
Definition forging_race (fuel : nat) (mc1 mc3 sc1 : proxy) (id0 id1 id2 : pyval) (hashes forks : list pyval)
    (hash1 tip : pyval) : MF unit :=
  do! sync_once fuel mc1 mc3 in
  do! check_mc_tip tip mc1 in
  let! id3 := forge sc1 in
  do! check_scparent id0 id3 sc1 in
  do! check_mcheaders_amount 3 id3 sc1 in
  do! check_mcreferencedata_amount 0 id3 sc1 in
  do! check_headers hashes id3 sc1 in
  do! check_ommers_cumulative_score (PInt 2) id3 sc1 in
  do! check_ommers_amount 1 id3 sc1 in
  do! check_ommer id2 forks id3 sc1 in
  check_subommer id2 id1 [hash1] id3 sc1.

Definition MCSCForging3_run_test (fuel : nat) : MF unit :=
  do! sync_all fuel in
  do! disconnect_self fuel 0 1 in
  do! disconnect_self fuel 0 2 in
  let! mc1 := mc 0 in
  let! mc2 := mc 1 in
  let! mc3 := mc 2 in
  let! sc1 := sc 0 in
  let! id0 := forging_no_mc_data sc1 in
  let! hash1 := mine mc1 in
  do! sync_once fuel mc1 mc3 in
  let! id1 := forging_one_reference sc1 id0 hash1 in
  let! '(fork1, fork2, id2) := forging_fork fuel mc1 mc2 sc1 id0 id1 hash1 in
  let! hash2 := mine mc3 in
  let! hash3 := mine mc3 in
  forging_race fuel mc1 mc3 sc1 id0 id1 id2 [hash1; hash2; hash3] [fork1; fork2] hash1 hash3.

Definition MCSCForging3 (fuel : nat) (o : Options) (shared : SCForgerConfiguration) : TestClass W :=
  forging_scenario o fuel 3 1 (star_setup_network fuel o 3 [1; 2]) (forging_sc_setup_chain o shared)
    (MCSCForging3_run_test fuel).

(** ** mc_sc_forging4.py *)

(** [v[a:b]] for [0 <= a <= b] *)
Definition slice {A} (a b : nat) (l : list A) : list A := take (b - a) (drop a l).
Definition py_slice (v : pyval) (a b : nat) : outcome (list pyval) :=
  match v with
  | PList l | PTuple l => Val (slice a b l)
  | PStr s => obind (py_iter v) (λ l, Val (slice a b l))
  | _ => Exc TypeError
  end.

(** [v[:b]] *)
Definition py_upto (v : pyval) (b : Z) : outcome (list pyval) :=
  let? n := py_len v in py_slice v 0 (Z.to_nat (if b <? 0 then Z.max 0 (n + b) else b)).

(** The references to the hashes [a:b] in one block. *)
Definition check_references (amount : Z) (hashes : pyval) (a b : nat) (id : pyval) (sc_node : proxy) : MF unit :=
  do! check_mcheaders_amount amount id sc_node in
  let% part := py_slice hashes a b in
  do! check_headers part id sc_node in
  do! check_mcreferencedata_amount amount id sc_node in
  let% part := py_slice hashes a b in
  check_data part id sc_node.

Definition MCSCForging4_run_test (fuel : nat) : MF unit :=
  do! sync_all fuel in
  let! mc_node := mc 0 in
  let! sc_node := sc 0 in
  let! hashes := call mc_node "generate" [PInt 200] in
  let! ids := generate_next_blocks sc_node "first node" 5 in
  do! forM_ [0; 1; 2; 3]%nat (λ i,
    let% id := list_index ids (Z.of_nat i) in
    check_references 49 hashes (i * 49) ((i + 1) * 49) id sc_node) in
  let% id := list_index ids 4 in
  check_references 4 hashes 196 200 id sc_node.

Definition MCSCForging4 (fuel : nat) (o : Options) (shared : SCForgerConfiguration) : TestClass W :=
  forging_scenario o fuel 1 1 (star_setup_network fuel o 1 []) (forging_sc_setup_chain o shared)
    (MCSCForging4_run_test fuel).
End Forging.
