(* ===== verification/StakeScenarios.v ===== *)
(** * Scenarios of stakes and fees: mc_sc_forging5.py, delegation, fee payments

    Coins are sent to the sidechain, delegated to a forger and spent; the
    last script computes what each forger is owed from the fees of the blocks
    and compares it with the nodes' balances. *)

From S2P Require Import Prelude PyStr Numbers PyVal Host Sim Json Encoding HttpProxy BootInfo McUtil ScUtil.
From S2P Require Import Forging Bootstrap Framework McFramework HttpCalls Scenarios ForgingScenarios.
From Stdlib Require Import QArith Qround Ascii String.
From stdpp Require Import base list.
Local Open Scope Z_scope.

(** ** The fee shares of mc_sc_forging_fee_payments.py *)

Record BlockFeeInfo := mkBlockFeeInfo { fee_node : Z; fee_value : Z }.

(** [math.floor(x)], [math.ceil(x)] *)
Definition float_floor (x : float64) : outcome Z := of_opt (ValueError "") (option_map Qfloor (float_Q x)).
Definition float_ceil (x : float64) : outcome Z := of_opt (ValueError "") (option_map Qceiling (float_Q x)).

(** [i < x % n]; the remainder of a float is exact *)
Definition below_remainder (i : Z) (x : float64) (n : Z) : outcome bool :=
  let? q := of_opt (ValueError "") (float_Q x) in
  let r := (q - inject_Z (n * Qfloor (q / inject_Z n)))%Q in
  Val (negb (Qle_bool r (inject_Z i))).

Definition tenths (n : Z) : float64 := float_of_dec (Dec n (-1)).

(** [total_fee += fee; pool_fee += math.ceil(fee * 0.3)] *)
Fixpoint pool_of (infos : list BlockFeeInfo) (total_fee : Z) (pool_fee : float64) : outcome (Z * float64) :=
  match infos with
  | [] => Val (total_fee, pool_fee)
  | b :: infos' =>
      let? c := float_ceil (float_mul (float_of_Z (fee_value b)) (tenths 3)) in
      pool_of infos' (total_fee + fee_value b) (float_add pool_fee (float_of_Z c))
  end.

(** [forger_fees[k] += v] *)
Definition add_fee (k v : Z) (forger_fees : list (Z * Z)) : list (Z * Z) :=
  dict_set k (default 0 (dict_get k forger_fees) + v) forger_fees.

Fixpoint shares (infos : list BlockFeeInfo) (idx n : Z) (pool_fee : float64) (forger_fees : list (Z * Z))
    : outcome (list (Z * Z)) :=
  match infos with
  | [] => Val forger_fees
  | b :: infos' =>
      let? own := float_floor (float_mul (float_of_Z (fee_value b)) (tenths 7)) in
      let forger_fees := add_fee (fee_node b) own forger_fees in
      let? part := float_floor (float_div pool_fee (float_of_Z n)) in
      let forger_fees := add_fee (fee_node b) part forger_fees in
      let? one_more := below_remainder idx pool_fee n in
      let forger_fees := if one_more then add_fee (fee_node b) 1 forger_fees else forger_fees in
      shares infos' (idx + 1) n pool_fee forger_fees
  end.

Definition forger_fees_of (infos : list BlockFeeInfo) : outcome (Z * list (Z * Z)) :=
  let? p := pool_of infos 0 (float_of_Z 0) in
  let? fees := shares infos 0 (Z.of_nat (length infos)) p.2 [] in
  Val (p.1, fees).

Section Stakes.
Context {W : Type} `{Nodes W, Clock W, Os W, Rng W}.
Local Abbreviation MF := (M (FW W)).

(** [sc_node.wallet_createPrivateKey25519()["result"]["proposition"]["publicKey"]] *)
Definition new_address (sc_node : proxy) : MF pyval := new_public_key sc_node "wallet_createPrivateKey25519".

(** [len(v)] compared with [assert_equal(n, len(v), message)] *)
Definition check_length (n : Z) (v : pyval) (message : string) : MF unit :=
  let% k := py_len v in lift (assert_equal (PInt n) (PInt k) message).

(** ** mc_sc_forging5.py *)

Definition MCSCForging5_sc_setup_chain (o : Options) (shared : SCForgerConfiguration) : MF unit :=
  let! info := one_node_chain o shared 600 LARGE_WITHDRAWAL_EPOCH_LENGTH five_epochs in
  put_info info.

(** One [ZenBox] of [amount] coins. *)
Definition check_one_zen_box (sc_node : proxy) (amount : Z) : MF pyval :=
  let! boxes := http_wallet_allBoxesOfType sc_node (PStr "ZenBox") PNone in
  do! check_length 1 boxes "Sidechain node expect to have 1 ZenBox - ForwardTransfer" in
  let% box := getindex boxes 0 in
  let% value := getitem box "value" in
  do% assert_equal (PInt (amount * COIN)) value "Sidechain node expect to have different ForwardTransfer amount" in
  ret boxes.

(** The memory pool holds one transaction, the given one. *)
Definition check_only_tx (sc_node : proxy) (tx_id : pyval) : MF unit :=
  let! r := allTransactions sc_node false in
  let% ids := getitem r "transactionIds" in
  do! check_length 1 ids "Different mempool size found" in
  let% there := py_in tx_id ids in
  lift (assert_true there "").

Definition MCSCForging5_run_test (fuel : nat) : MF unit :=
  let! mc1 := mc 0 in
  let! mc2 := mc 1 in
  let! sc_node := sc 0 in
  do! sync_all fuel in
  let! mc_return_address := call mc1 "getnewaddress" [] in
  let! sc_address_1 := new_address sc_node in
  let! info := boot_info in
  do! forward_transfer_to_sidechain (sidechain_id info) mc1 sc_address_1 (PInt 10) mc_return_address false in
  do! call mc1 "generate" [PInt 1] in
  let! id0 := generate_next_block sc_node "first node" false PNone in
  let! zen_boxes_1 := check_one_zen_box sc_node 10 in
  do! sync_all fuel in
  do! disconnect_self fuel 0 1 in
  let! hash1 := mine mc1 in
  let! sc_address_2 := new_address sc_node in
  let! tx1_id := sendCoinsToAddress sc_node sc_address_2 (PInt (10 * COIN)) (PInt 0) PNone in
  let! id1 := generate_next_block sc_node "first node" false PNone in
  let! zen_boxes_2 := check_one_zen_box sc_node 10 in
  do% assert_not_equal zen_boxes_1 zen_boxes_2 "Box was not spent" in
  let! sc_address_3 := new_address sc_node in
  let! tx2_id := sendCoinsToAddress sc_node sc_address_3 (PInt (10 * COIN)) (PInt 0) PNone in
  do! check_only_tx sc_node tx2_id in
  let! fork1 := mine mc2 in
  let! fork2 := mine mc2 in
  do! connect_self fuel 0 1 in
  do! sync_all fuel in
  do! check_mc_tip fork2 mc1 in
  let! id2 := generate_next_block sc_node "first node" false PNone in
  do! check_scparent id0 id2 sc_node in
  do! check_mcheaders_amount 2 id2 sc_node in
  do! check_mcreferencedata_amount 0 id2 sc_node in
  do! check_headers [fork1; fork2] id2 sc_node in
  do! check_ommers_amount 1 id2 sc_node in
  do! check_ommers_cumulative_score (PInt 1) id2 sc_node in
  do! check_ommer id1 [hash1] id2 sc_node in
  let! block := find_block sc_node id2 in
  let% txs := getitem block "sidechainTransactions" in
  do! check_length 0 txs "No txs expected in a block with ommers" in
  check_only_tx sc_node tx1_id.

Definition MCSCForging5 (fuel : nat) (o : Options) (shared : SCForgerConfiguration) : TestClass W :=
  forging_scenario o fuel 2 1 (star_setup_network fuel o 2 [1]) (MCSCForging5_sc_setup_chain o shared)
    (MCSCForging5_run_test fuel).

(** ** Shared by delegation and fee payments *)

(** [setup_network] without synchronisation *)
Definition bare_setup_network (o : Options) (n : Z) : MF unit :=
  let! l := start_nodes n (op_tmpdir o) None None None in put_nodes l.

Definition two_node_chain (o : Options) (shared : SCForgerConfiguration) (amount epoch_length : Z) : MF unit :=
  let! mc_node_1 := mc 0 in
  let! connection_1 := ws_connection mc_node_1 0 in
  let! connection_2 := ws_connection mc_node_1 0 in
  let! info := bootstrap o mc_node_1 amount epoch_length
    [SCNodeConfiguration_defaults connection_1 shared; SCNodeConfiguration_defaults connection_2 shared]
    five_epochs in
  put_info info.

(** A forward transfer that must reach the memory pool, then the block with it. *)
Definition transfer_in (mc_node : proxy) (address : pyval) (amount : Z) : MF pyval :=
  let! mc_return_address := call mc_node "getnewaddress" [] in
  let! info := boot_info in
  do! call mc_node "sc_send" [PList [PDict [("toaddress", address); ("amount", PInt amount);
    ("scid", sidechain_id info); ("mcReturnAddress", mc_return_address)]]] in
  let! pool := call mc_node "getmempoolinfo" [] in
  let% size := getitem pool "size" in
  do% assert_equal (PInt 1) size "Forward Transfer expected to be added to mempool." in
  mine mc_node.

(** A call with a JSON body whose response must have a result. *)
Definition must_succeed (sc_node : proxy) (method : string) (body : list (string * pyval)) (message : string)
    : MF unit :=
  let! res := post sc_node method body PNone in
  require_result res message.

Definition stake_output (owner signer vrf : pyval) (zen : Z) : pyval :=
  PDict [("publicKey", owner); ("blockSignPublicKey", signer); ("vrfPubKey", vrf); ("value", PInt (zen * 100000000))].

(** ** mc_sc_forging_delegation.py *)

(** [sc_node.wallet_allBoxes({"boxTypeClass": "ForgerBox"})["result"]["boxes"]] *)
Definition forger_boxes (sc_node : proxy) : MF pyval :=
  http_wallet_allBoxesOfType sc_node (PStr "ForgerBox") PNone.

Definition spend_stake_body (box_id key value : pyval) : list (string * pyval) :=
  [("transactionInputs", PList [PDict [("boxId", box_id)]]);
   ("regularOutputs", PList [PDict [("publicKey", key); ("value", value)]]);
   ("forgerOutputs", PList [])].

(** [try: ... except: pass else: fail(message)] *)
Definition must_fail (caught : exn → bool) (m : MF pyval) (message : string) : MF unit :=
  let! raised := catch (do! m in ret false) (λ e, if caught e then ret true else raise e) in
  if raised then ret tt else lift (fail message).

(** The stake of the block node 2 forged. *)
Definition check_stake (sc2 : proxy) (block_id address vrf : pyval) : MF unit :=
  let! block := find_block sc2 block_id in
  let% stake := getpath block ["header"; "forgingStakeInfo"] in
  do% dumps stake in
  let% amount := getitem stake "stakeAmount" in
  do% assert_equal amount (PInt (500 * 100000000)) "Forging stake is wrong." in
  let% key := getpath stake ["blockSignPublicKey"; "publicKey"] in
  do% assert_equal key address "Forging stake block sign key is wrong." in
  let% v := getpath stake ["vrfPublicKey"; "publicKey"] in
  lift (assert_equal v vrf "Forging stake vrf key is wrong.").

(** The stakes are spent: first node 1's own, then those delegated to node 2. *)
Definition delegation_spend (fuel : nat) (sc1 sc2 : proxy) (sc1_address : pyval) : MF unit :=
  let! boxes := forger_boxes sc1 in
  let% box := getindex boxes 0 in
  let% box_id := getitem box "id" in
  let! info := boot_info in
  let% value := py_mul (genesis_account_balance info) (PInt 100000000) in
  do! must_succeed sc1 "transaction_spendForgingStake" (spend_stake_body box_id sc1_address value)
    "spend forger stake failed: " in
  do! generate_next_block sc1 "first node" false PNone in
  do! generate_next_block sc1 "first node" true PNone in
  do! must_fail (λ _, true) (generate_next_block sc1 "first node" true PNone)
    "No forging stakes expected for SC node 1." in
  let! boxes := forger_boxes sc1 in
  let% l := py_iter boxes in
  do! forM_ l (λ box,
    let% box_id := getitem box "id" in
    let% value := getitem box "value" in
    do! post sc1 "transaction_spendForgingStake" (spend_stake_body box_id sc1_address value) PNone in
    sc_sync_all fuel false) in
  let! r := post sc1 "transaction_allTransactions" [("format", PBool false)] PNone in
  let% ids := getpath r ["result"; "transactionIds"] in
  let% k := py_len ids in
  do% assert_equal (PInt k) (PInt 2) "" in
  do! generate_next_block sc2 "second node" false PNone in
  do! sc_sync_all fuel false in
  let! boxes1 := forger_boxes sc1 in
  let! boxes2 := forger_boxes sc2 in
  let% k1 := py_len boxes1 in
  do% assert_true (k1 =? 0) "" in
  let% k2 := py_len boxes2 in
  do% assert_true (k2 =? 0) "" in
  must_fail is_Exception (generate_next_block sc2 "second node" true PNone) "Forging should not happen".

Definition MCSCForgingDelegation_run_test (fuel : nat) : MF unit :=
  let! mc_node := mc 0 in
  let! sc1 := sc 0 in
  let! sc2 := sc 1 in
  let! sc1_address := new_address sc1 in
  let account := mkAccount (PStr "") sc1_address in
  let! hash1 := transfer_in mc_node sc1_address 500 in
  let! id1 := generate_next_block sc1 "first node" false PNone in
  do! check_mcreference_presence hash1 id1 sc1 in
  let! info := boot_info in
  let% balance := py_add (genesis_account_balance info) (PInt 500) in
  do! check_wallet_coins_balance sc1 balance in
  do! check_box_balance sc1 account (Some "ZenBox") (PInt 1) (PInt 500) in
  let! sc2_address := new_address sc2 in
  let! sc2_vrf := new_public_key sc2 "wallet_createVrfSecret" in
  do! must_succeed sc1 "transaction_makeForgerStake"
    [("outputs", PList [stake_output sc1_address sc2_address sc2_vrf 300;
                        stake_output sc1_address sc2_address sc2_vrf (500 - 300)])]
    "make forger stake failed: " in
  do! generate_next_block sc1 "first node" false PNone in
  do! connect_sc fuel 0 1 in
  do! sc_sync_all fuel false in
  do! check_wallet_coins_balance sc1 balance in
  do! check_box_balance sc1 account (Some "ForgerBox") (PInt 2) (PInt 500) in
  do! check_wallet_coins_balance sc2 (PInt 0) in
  do! generate_next_block sc1 "first node" true PNone in
  do! sc_sync_all fuel false in
  let! id2 := generate_next_block sc2 "second node" true PNone in
  do! sc_sync_all fuel false in
  do! check_stake sc2 id2 sc2_address sc2_vrf in
  delegation_spend fuel sc1 sc2 sc1_address.

Definition MCSCForgingDelegation (fuel : nat) (o : Options) (shared : SCForgerConfiguration) : TestClass W :=
  forging_scenario o fuel 1 2 (bare_setup_network o 1)
    (two_node_chain o shared 100 LARGE_WITHDRAWAL_EPOCH_LENGTH) (MCSCForgingDelegation_run_test fuel).

(** ** mc_sc_forging_fee_payments.py *)

(** [int(sc_node.wallet_coinsBalance()["result"]["balance"])] *)
Definition coins_balance (sc_node : proxy) : MF Z :=
  let! r := call sc_node "wallet_coinsBalance" [] in
  let% b := getpath r ["result"; "balance"] in
  lift (py_int b).

(** [http_block_getFeePayments(sc_node, block_id)['feePayments']] *)
Definition fee_payments (sc_node : proxy) (block_id : pyval) : MF pyval :=
  let! r := http_block_getFeePayments sc_node block_id in lift (getitem r "feePayments").

(** The node and fee of each block of the withdrawal epoch, in order. *)
Definition epoch_fees : list BlockFeeInfo :=
  [mkBlockFeeInfo 1 0; mkBlockFeeInfo 1 0; mkBlockFeeInfo 1 1000; mkBlockFeeInfo 1 0;
   mkBlockFeeInfo 2 201; mkBlockFeeInfo 2 0].

(** Up to the last block but one of the epoch: the id of the block in its middle. *)
Definition fee_payments_epoch (fuel : nat) (mc_node sc1 sc2 : proxy) : MF pyval :=
  let! sc2_address := new_address sc2 in
  let account := mkAccount (PStr "") sc2_address in
  let! hash1 := transfer_in mc_node sc2_address 500 in
  let! id1 := generate_next_block sc1 "first node" false PNone in
  do! check_mcreference_presence hash1 id1 sc1 in
  do! sc_sync_all fuel false in
  do! check_wallet_coins_balance sc2 (PInt 500) in
  do! check_box_balance sc2 account (Some "ZenBox") (PInt 1) (PInt 500) in
  let! rewards := new_address sc2 in
  let! vrf := new_public_key sc2 "wallet_createVrfSecret" in
  do! must_succeed sc2 "transaction_makeForgerStake"
    [("outputs", PList [stake_output sc2_address rewards vrf 499]); ("fee", PInt 1000)]
    "make forger stake failed: " in
  do! sc_sync_all fuel false in
  do! generate_next_block sc1 "first node" false PNone in
  do! sc_sync_all fuel false in
  do! check_box_balance sc2 account (Some "ForgerBox") (PInt 1) (PInt 499) in
  do! generate_next_block sc1 "first node" true PNone in
  do! sc_sync_all fuel false in
  do! must_succeed sc2 "transaction_sendCoinsToAddress"
    [("outputs", PList [PDict [("publicKey", sc2_address); ("value", PInt 100000)]]); ("fee", PInt 201)]
    "send coins tx failed: " in
  let! middle := generate_next_block sc2 "second node" true PNone in
  do! sc_sync_all fuel false in
  do! call mc_node "generate" [PInt 3] in
  ret middle.

(** The checks after the last block of the epoch. *)
Definition fee_payments_checks (sc1 sc2 : proxy) (middle last : pyval) (before1 before2 : Z) : MF unit :=
  let% '(_, fees) := forger_fees_of epoch_fees in
  let! after1 := coins_balance sc1 in
  let! after2 := coins_balance sc2 in
  let% fees1 := of_opt (KeyError "1") (dict_get 1 fees) in
  let% fees2 := of_opt (KeyError "2") (dict_get 2 fees) in
  do% assert_equal (PInt after1) (PInt (before1 + fees1)) "Wrong fee payment amount for SC node 1" in
  do% assert_equal (PInt after2) (PInt (before2 + fees2)) "Wrong fee payment amount for SC node 2" in
  let message := "No fee payments expected to be found for the block in the middle of WE" in
  let! api1 := fee_payments sc1 middle in
  do! check_length 0 api1 message in
  let! api2 := fee_payments sc2 middle in
  do! check_length 0 api2 message in
  let! api1 := fee_payments sc1 last in
  let! api2 := fee_payments sc2 last in
  do% assert_equal api1 api2 "SC nodes have different view on the fee payments" in
  forM_ (zrange 1 (Z.of_nat (length fees) + 1)) (λ i,
    let% fee := of_opt (KeyError (str_of_Z i)) (dict_get i fees) in
    let% payment := getindex api1 (i - 1) in
    let% value := getitem payment "value" in
    lift (assert_equal (PInt fee) value ("Different fee value found for payment " +:+ str_of_Z i))).

Definition MCSCForgingFeePayments_run_test (fuel : nat) : MF unit :=
  let! mc_node := mc 0 in
  let! sc1 := sc 0 in
  let! sc2 := sc 1 in
  do! connect_sc fuel 0 1 in
  do! sc_sync_all fuel false in
  let! middle := fee_payments_epoch fuel mc_node sc1 sc2 in
  let! before1 := coins_balance sc1 in
  let! before2 := coins_balance sc2 in
  let! last := generate_next_block sc2 "second node" false PNone in
  do! sc_sync_all fuel false in
  fee_payments_checks sc1 sc2 middle last before1 before2.

Definition MCSCForgingFeePayments (fuel : nat) (o : Options) (shared : SCForgerConfiguration) : TestClass W :=
  forging_scenario o fuel 1 2 (bare_setup_network o 1) (two_node_chain o shared 500 5)
    (MCSCForgingFeePayments_run_test fuel).
End Stakes.

(** The shares of the scenario: all of 1201, 941 to the first node and 260 to the second. *)
Example epoch_fees_shares : forger_fees_of epoch_fees = Val (1201, [(1, 941); (2, 260)]).
Proof. vm_compute. reflexivity. Qed.
