(* ===== verification/DelayScenarios.v ===== *)
(** * Forging with a delay of the mainchain references: *_with_mc_block_delay.py

    The forging scenarios with nodes that leave out the last mainchain block
    (or as many as the option says), for both models: the tests of the
    account-model scripts are those of the UTXO-model ones, only the nodes are
    set up differently. *)

From S2P Require Import Prelude PyStr Numbers PyVal Host Sim Json Encoding HttpProxy BootInfo McUtil ScUtil.
From S2P Require Import Forging Bootstrap Framework McFramework HttpCalls Scenarios ForgingScenarios StakeScenarios.
From Stdlib Require Import Ascii String.
From stdpp Require Import base list.
Local Open Scope Z_scope.

Section Delay.
Context {W : Type} `{Nodes W, Clock W, Os W, Rng W}.
Local Abbreviation MF := (M (FW W)).

(** ** Setup *)

Definition delay_args (n : Z) : list string := ["-mc_block_delay_ref"; str_of_Z n].

(** [extra_args=[['-mc_block_delay_ref', '1']]] on one node *)
Definition delayed_sc_setup_network (fuel : nat) (o : Options) : MF unit :=
  let! l := start_sc_nodes fuel 1 (op_tmpdir o) (Some [Some (delay_args 1)]) None None false (Some DEFAULT_API_KEY) in
  do! put_sc_nodes l in
  sc_sync_all fuel false.

(** The same with the EVM application; [AccountChainSetup.sc_setup_network]
    connects nothing when there is one node. *)
Definition evm_delayed_sc_setup_network (fuel : nat) (o : Options) : MF unit :=
  let! binary := EVM_APP_BINARY in
  let! l := start_sc_nodes fuel 1 (op_tmpdir o) (Some [Some (delay_args 1)]) None (Some [Some binary]) false
    (Some DEFAULT_API_KEY) in
  put_sc_nodes l.

Definition evm_forging_sc_setup_chain (o : Options) (shared : SCForgerConfiguration) : MF unit :=
  do! one_node_model AccountModel o shared 600 LARGE_WITHDRAWAL_EPOCH_LENGTH DefaultBlockTimestampRewind in ret tt.

Definition delay_scenario (fuel : nat) (o : Options) (shared : SCForgerConfiguration) (n : Z) (others : list Z)
    (test : MF unit) : TestClass W :=
  mkTestClass W (initialize_chain_clean (op_tmpdir o) n) (star_setup_network fuel o n others)
    (forging_sc_setup_chain o shared) (delayed_sc_setup_network fuel o) test.

Definition evm_delay_scenario (fuel : nat) (o : Options) (shared : SCForgerConfiguration) (n : Z) (others : list Z)
    (test : MF unit) : TestClass W :=
  mkTestClass W (initialize_chain_clean (op_tmpdir o) n) (star_setup_network fuel o n others)
    (evm_forging_sc_setup_chain o shared) (evm_delayed_sc_setup_network fuel o) test.

(** ** mc_sc_forging1_with_mc_block_delay.py, mc_sc_evm_forging1_with_mc_block_delay.py *)

(** Test 3: a fork of three blocks, of which two are seen. *)
Definition delayed_fork (fuel : nat) (mc1 mc2 sc1 : proxy) (parent ommer hash1 : pyval)
    : MF (pyval * pyval * pyval * pyval) :=
  let! fork1 := mine mc2 in
  let! fork2 := mine mc2 in
  let! fork3 := mine mc2 in
  do! connect_self fuel 0 1 in
  do! sync_nodes fuel [mc1; mc2] in
  do! check_mc_tip fork3 mc1 in
  let! id := forge sc1 in
  do! check_scparent parent id sc1 in
  do! check_mcheaders_amount 2 id sc1 in
  do! check_mcreferencedata_amount 0 id sc1 in
  do! check_headers [fork1; fork2] id sc1 in
  do! check_ommers_amount 1 id sc1 in
  do! check_ommers_cumulative_score (PInt 1) id sc1 in
  do! check_ommer ommer [hash1] id sc1 in
  ret (fork1, fork2, fork3, id).

(** Test 2: the first new block is seen one block later; the ommers of the
    earlier block are counted again. *)
Definition delayed_reference (mc1 sc1 : proxy) (id0 : pyval) : MF (pyval * pyval * pyval) :=
  let! hash1 := mine mc1 in
  let! id1 := forge sc1 in
  do! check_scparent id0 id1 sc1 in
  do! check_mcheaders_amount 0 id1 sc1 in
  do! check_mcreferencedata_amount 0 id1 sc1 in
  do! mine mc1 in
  let! id2 := forge sc1 in
  do! check_mcheaders_amount 1 id2 sc1 in
  do! check_mcreferencedata_amount 1 id2 sc1 in
  do! check_mcreference_presence hash1 id2 sc1 in
  do! check_ommers_amount 0 id1 sc1 in
  ret (hash1, id1, id2).

Definition delayed_test4 (mc1 sc1 : proxy) (fork1 fork2 fork3 id3 : pyval) : MF (pyval * pyval) :=
  let! hash3 := mine mc1 in
  do! mine mc1 in
  let! id4 := forge sc1 in
  do! check_scparent id3 id4 sc1 in
  do! check_mcheaders_amount 2 id4 sc1 in
  do! check_mcreferencedata_amount 4 id4 sc1 in
  do! check_headers [fork3; hash3] id4 sc1 in
  do! check_data [fork1; fork2; fork3; hash3] id4 sc1 in
  do! check_ommers_amount 0 id4 sc1 in
  let! id5 := forge sc1 in
  do! check_scparent id4 id5 sc1 in
  do! check_amounts 0 0 0 id5 sc1 in
  ret (id4, id5).

Definition delayed_test5 (fuel : nat) (mc1 mc3 sc1 : proxy) (id1 id2 id3 id4 id5 hash1 : pyval) : MF unit :=
  let! generated := call mc3 "generate" [PInt 6] in
  let% tip := getindex generated (-1) in
  do! connect_self fuel 0 2 in
  do! sync_all fuel in
  do! check_mc_tip tip mc1 in
  let! id6 := forge sc1 in
  do! check_scparent id1 id6 sc1 in
  do! check_mcheaders_amount 5 id6 sc1 in
  do! check_mcreferencedata_amount 0 id6 sc1 in
  let% but_last := py_upto generated (-1) in
  do! check_headers but_last id6 sc1 in
  do! check_ommers_amount 3 id6 sc1 in
  do! check_ommers_cumulative_score (PInt 4) id6 sc1 in
  do! forM_ [id3; id4; id5] (λ ommer_id, check_ommer ommer_id [] id6 sc1) in
  do! check_subommer id3 id2 [hash1] id6 sc1 in
  let! id7 := forge sc1 in
  do! check_scparent id6 id7 sc1 in
  do! check_amounts 0 5 0 id7 sc1 in
  let% five := py_upto generated 5 in
  check_data five id7 sc1.

Definition MCSCForging1_delay_run_test (fuel : nat) : MF unit :=
  do! sync_all fuel in
  do! disconnect_self fuel 0 1 in
  do! disconnect_self fuel 0 2 in
  let! mc1 := mc 0 in
  let! mc2 := mc 1 in
  let! mc3 := mc 2 in
  let! sc1 := sc 0 in
  do! call mc1 "getbestblockhash" [] in
  let! id0 := forging_no_mc_data sc1 in
  let! '(hash1, id1, id2) := delayed_reference mc1 sc1 id0 in
  let! '(fork1, fork2, fork3, id3) := delayed_fork fuel mc1 mc2 sc1 id1 id2 hash1 in
  let! '(id4, id5) := delayed_test4 mc1 sc1 fork1 fork2 fork3 id3 in
  do! delayed_test5 fuel mc1 mc3 sc1 id1 id2 id3 id4 id5 hash1 in
  forging1_status sc1.

Definition MCSCForging1_delay (fuel : nat) (o : Options) (shared : SCForgerConfiguration) : TestClass W :=
  delay_scenario fuel o shared 3 [1; 2] (MCSCForging1_delay_run_test fuel).

(** The account-model script runs the same test. *)
Definition MCSCEvmForging1_run_test : nat → MF unit := MCSCForging1_delay_run_test.

Definition MCSCEvmForging1 (fuel : nat) (o : Options) (shared : SCForgerConfiguration) : TestClass W :=
  evm_delay_scenario fuel o shared 3 [1; 2] (MCSCEvmForging1_run_test fuel).

(** ** mc_sc_forging3_with_mc_block_delay.py, mc_sc_evm_forging3_with_mc_block_delay.py *)

Definition MCSCForging3_delay_run_test (fuel : nat) : MF unit :=
  do! sync_all fuel in
  do! disconnect_self fuel 0 1 in
  do! disconnect_self fuel 0 2 in
  let! mc1 := mc 0 in
  let! mc2 := mc 1 in
  let! mc3 := mc 2 in
  let! sc1 := sc 0 in
  let! id0 := forging_no_mc_data sc1 in
  let! hash1 := mine mc1 in
  let! hash2 := mine mc1 in
  do! sync_once fuel mc1 mc3 in
  let! id1 := forge sc1 in
  do! check_scparent id0 id1 sc1 in
  do! check_mcheaders_amount 1 id1 sc1 in
  do! check_mcheader_presence hash1 id1 sc1 in
  do! check_mcreferencedata_amount 1 id1 sc1 in
  do! check_mcreferencedata_presence hash1 id1 sc1 in
  do! check_ommers_amount 0 id1 sc1 in
  let! '(fork1, fork2, _, id2) := delayed_fork fuel mc1 mc2 sc1 id0 id1 hash1 in
  let! hash3 := mine mc3 in
  let! hash4 := mine mc3 in
  forging_race fuel mc1 mc3 sc1 id0 id1 id2 [hash1; hash2; hash3] [fork1; fork2] hash1 hash4.

Definition MCSCForging3_delay (fuel : nat) (o : Options) (shared : SCForgerConfiguration) : TestClass W :=
  delay_scenario fuel o shared 3 [1; 2] (MCSCForging3_delay_run_test fuel).

(** The account-model script runs the same test. *)
Definition MCSCEvmForging3_run_test : nat → MF unit := MCSCForging3_delay_run_test.

Definition MCSCEvmForging3 (fuel : nat) (o : Options) (shared : SCForgerConfiguration) : TestClass W :=
  evm_delay_scenario fuel o shared 3 [1; 2] (MCSCEvmForging3_run_test fuel).

(** ** mc_sc_forging4_with_mc_block_delay.py, mc_sc_evm_forging4_with_mc_block_delay.py *)

Definition inclusion_per_block : nat := 48.

Definition MCSCForging4_delay_run_test (fuel : nat) : MF unit :=
  do! sync_all fuel in
  let! mc_node := mc 0 in
  let! sc_node := sc 0 in
  let! hash0 := mine mc_node in
  let! id0 := forge sc_node in
  do! check_mcheaders_amount 0 id0 sc_node in
  do! check_mcreferencedata_amount 0 id0 sc_node in
  let! hashes := call mc_node "generate" [PInt 200] in
  let% included := (match hashes with PList l => Val (PList (hash0 :: take 199 l)) | _ => Exc TypeError end) in
  let! ids := generate_next_blocks sc_node "first node" 5 in
  do! forM_ [0; 1; 2; 3]%nat (λ i,
    let% id := list_index ids (Z.of_nat i) in
    check_references (Z.of_nat inclusion_per_block) included (i * inclusion_per_block) ((i + 1) * inclusion_per_block)
      id sc_node) in
  let% id := list_index ids 4 in
  check_references 8 included (inclusion_per_block * 4) 200 id sc_node.

Definition MCSCForging4_delay (fuel : nat) (o : Options) (shared : SCForgerConfiguration) : TestClass W :=
  delay_scenario fuel o shared 1 [] (MCSCForging4_delay_run_test fuel).

(** The account-model script runs the same test. *)
Definition MCSCEvmForging4_run_test : nat → MF unit := MCSCForging4_delay_run_test.

Definition MCSCEvmForging4 (fuel : nat) (o : Options) (shared : SCForgerConfiguration) : TestClass W :=
  evm_delay_scenario fuel o shared 1 [] (MCSCEvmForging4_run_test fuel).

(** ** mc_sc_forging_different_delay.py *)

Definition different_delay_sc_setup_chain (o : Options) (shared : SCForgerConfiguration) : MF unit :=
  let! mc_node_1 := mc 0 in
  let! connection_1 := ws_connection mc_node_1 0 in
  let! connection_2 := ws_connection mc_node_1 0 in
  let! info := bootstrap o mc_node_1 600 LARGE_WITHDRAWAL_EPOCH_LENGTH
    [SCNodeConfiguration_defaults connection_1 shared;
     node_configuration connection_2 shared false 100 100 "2m" [] None "15m" "5m"] five_epochs in
  put_info info.

(** The first node with the delay of the option, the second without. *)
Definition different_delay_sc_setup_network (fuel : nat) (o : Options) : MF unit :=
  let! l := start_sc_nodes fuel 2 (op_tmpdir o) (Some [Some (delay_args (mcblockdelay o)); Some []]) None None false
    (Some DEFAULT_API_KEY) in
  do! put_sc_nodes l in
  sc_sync_all fuel false.

(** [disconnect_sc_nodes(self.sc_nodes[0], 1)] *)
Definition disconnect_sc (i j : Z) : MF unit := let! node := sc i in disconnect_sc_nodes node j.

(** The second node gets coins and a stake, and forges. *)
Definition different_delay_stake (fuel : nat) (delay : Z) (mc1 sc1 sc2 : proxy) : MF unit :=
  let! sc2_address := new_address sc2 in
  let account := mkAccount (PStr "") sc2_address in
  let! mc_return_address := call mc1 "getnewaddress" [] in
  let! info := boot_info in
  do! call mc1 "sc_send" [PList [PDict [("toaddress", sc2_address); ("amount", PInt 500);
    ("scid", sidechain_id info); ("mcReturnAddress", mc_return_address)]]] in
  let! pool := call mc1 "getmempoolinfo" [] in
  let% size := getitem pool "size" in
  do% assert_equal (PInt 1) size "Forward Transfer expected to be added to mempool." in
  let! generated := call mc1 "generate" [PInt (1 + delay)] in
  let% hash1 := getindex generated 0 in
  let! id0 := generate_next_block sc1 "first node" false PNone in
  do! check_mcreference_presence hash1 id0 sc1 in
  do! connect_sc fuel 0 1 in
  do! sc_sync_all fuel false in
  do! check_wallet_coins_balance sc2 (PInt 500) in
  do! check_box_balance sc2 account (Some "ZenBox") (PInt 1) (PInt 500) in
  let! rewards := new_address sc2 in
  let! vrf := new_public_key sc2 "wallet_createVrfSecret" in
  do! must_succeed sc2 "transaction_makeForgerStake"
    [("outputs", PList [stake_output sc2_address rewards vrf 499]); ("fee", PInt 1000)]
    "make forger stake failed: " in
  do! sc_sync_all fuel false in
  do! generate_next_block sc1 "first node" false PNone in
  do! generate_next_block sc1 "first node" true PNone in
  do! sc_sync_all fuel false in
  do! generate_next_block sc2 "second node" true PNone in
  do! check_box_balance sc2 account (Some "ForgerBox") (PInt 1) (PInt 499) in
  do! disconnect_sc 0 1 in
  do! sc_sync_all fuel false in
  do! connect_sc fuel 0 1 in
  sc_sync_all fuel false.

(** One reference, seen by a node. *)
Definition one_reference (hash id : pyval) (sc_node : proxy) : MF unit :=
  do! check_mcheaders_amount 1 id sc_node in
  do! check_mcreferencedata_amount 1 id sc_node in
  do! check_mcreference_presence hash id sc_node in
  check_ommers_amount 0 id sc_node.

Definition MCSCForgingDifferentDelay_run_test (fuel : nat) (o : Options) : MF unit :=
  let delay := mcblockdelay o in
  let! mc1 := mc 0 in
  let! sc1 := sc 0 in
  let! sc2 := sc 1 in
  do! sync_all fuel in
  do! different_delay_stake fuel delay mc1 sc1 sc2 in
  let! id0 := forging_no_mc_data sc1 in
  let! hash1 := mine mc1 in
  do! sync_all fuel in
  let! more := call mc1 "generate" [PInt delay] in
  let! id1 := forge sc1 in
  do! check_scparent id0 id1 sc1 in
  do! one_reference hash1 id1 sc1 in
  do! connect_sc fuel 0 1 in
  do! sc_sync_all fuel false in
  do! one_reference hash1 id1 sc2 in
  do! disconnect_sc 0 1 in
  let! hash3 := mine mc1 in
  let! hash4 := mine mc1 in
  do! call sc1 "block_best" [] in
  let! ids := generate_next_blocks sc2 "second node" 1 in
  let% id2 := list_index ids 0 in
  do! check_scparent id1 id2 sc2 in
  do! check_mcheaders_amount (2 + delay) id2 sc2 in
  do! check_mcreferencedata_amount (2 + delay) id2 sc2 in
  let% between := py_iter more in
  do! forM_ between (λ hash, check_mcreference_presence hash id2 sc2) in
  do! check_mcreference_presence hash3 id2 sc2 in
  do! check_mcreference_presence hash4 id2 sc2 in
  do! check_ommers_amount 0 id2 sc2 in
  do! connect_sc fuel 0 1 in
  do! sc_sync_all fuel false in
  do! check_mcheaders_amount (2 + delay) id2 sc1 in
  do! check_mcreferencedata_amount (2 + delay) id2 sc1 in
  do! forM_ between (λ hash, check_mcreference_presence hash id2 sc2) in
  do! check_mcreference_presence hash3 id2 sc1 in
  do! check_mcreference_presence hash4 id2 sc1 in
  check_ommers_amount 0 id2 sc1.

Definition MCSCForgingDifferentDelay (fuel : nat) (o : Options) (shared : SCForgerConfiguration) : TestClass W :=
  mkTestClass W (initialize_chain_clean (op_tmpdir o) 1) (star_setup_network fuel o 1 [])
    (different_delay_sc_setup_chain o shared) (different_delay_sc_setup_network fuel o)
    (MCSCForgingDifferentDelay_run_test fuel o).
End Delay.
