(* ===== verification/ChainScenarios.v ===== *)
(** * Scenarios: forward transfers, epochs, the end of a sidechain

    sc_forward_transfer.py, sc_sync_after_fork.py, sc_cum_comm_tree_hash.py,
    sc_ceased.py, sc_withdrawal_epoch_last_block.py and sc_nodes_initialize.py,
    as test classes of the driver. *)

From S2P Require Import Prelude PyStr Numbers PyVal Host Sim Json Encoding HttpProxy BootInfo McUtil ScUtil.
From S2P Require Import Forging Bootstrap Framework McFramework HttpCalls.
From Stdlib Require Import Ascii String.
From stdpp Require Import base list.
From S2P Require Import Scenarios NetScenarios ForgingScenarios StakeScenarios.
Local Open Scope Z_scope.

Section Chain.
Context {W : Type} `{Nodes W, Clock W, Os W, Rng W}.
Local Abbreviation MF := (M (FW W)).

(** ** Shared parts *)

(** The block reported as best refers to the mainchain block, and so does the
    best reference of the node. *)
Definition check_included (sc_node : proxy) (sc_best_block mc_block : pyval) : MF unit :=
  let% res := included_in_best sc_best_block mc_block in
  do% assert_true res "The mainchain block is not included in SC node." in
  let! ref_info := best_reference sc_node in
  lift (assert_true (check_mainchain_block_reference_info ref_info mc_block) ref_message).

(** [self.sc_nodes_bootstrap_info.genesis_account] where it is used as an account *)
Definition account_of (info : SCBootstrapInfo) : outcome Account :=
  of_opt (AttributeError "publicKey") (genesis_account info).

(** The genesis account gets its balance once more, in the next block. *)
Definition transfer_again (mc_node : proxy) (mc_return_address : pyval) : MF pyval :=
  let! info := boot_info in
  let% account := account_of info in
  let! '(_, mc_block_count) := forward_transfer_to_sidechain (sidechain_id info) mc_node (publicKey account)
    (genesis_account_balance info) mc_return_address true in
  ret mc_block_count.

(** Two nodes of one configuration each, connected to the first mainchain node. *)
Definition twin_chain (o : Options) (shared : SCForgerConfiguration) (amount epoch_length : Z)
    (configure1 configure2 : MCConnectionInfo → SCNodeConfiguration) (rewind : pyval) : MF unit :=
  let! mc_node := mc 0 in
  let! connection_1 := ws_connection mc_node 0 in
  let! connection_2 := ws_connection mc_node 0 in
  let! info := bootstrap o mc_node amount epoch_length [configure1 connection_1; configure2 connection_2] rewind in
  put_info info.

(** [setup_network] with [start_nodes(1, tmpdir, extra_args=[args])] *)
Definition args_setup_network (fuel : nat) (o : Options) (args : list string) : MF unit :=
  let! l := start_nodes 1 (op_tmpdir o) (Some [Some args]) None None in
  do! put_nodes l in
  sync_all fuel.

Definition args_scenario (fuel : nat) (o : Options) (args : list string) (m : Z) (sc_chain test : MF unit)
    : TestClass W :=
  mkTestClass W (default_setup_chain o) (args_setup_network fuel o args) sc_chain (utxo_sc_setup_network fuel o m)
    test.

(** ** sc_forward_transfer.py *)

Definition SCForwardTransfer_sc_setup_chain (o : Options) (shared : SCForgerConfiguration) : MF unit :=
  let! info := one_node_chain o shared 100 5 DefaultBlockTimestampRewind in
  put_info info.

Definition SCForwardTransfer_run_test : MF unit :=
  let! sc_node := sc 0 in
  let! mc_node := mc 0 in
  let! info := boot_info in
  let! mc_block := call mc_node "getblock" [PStr (py_str (mainchain_block_height info))] in
  let! sc_best_block := best sc_node in
  let% height := getitem sc_best_block "height" in
  do% assert_equal height (PInt 1) height_message in
  do! check_included sc_node sc_best_block mc_block in
  do! check_wallet_coins_balance sc_node (genesis_account_balance info) in
  let% account := account_of info in
  do! check_box_balance sc_node account (Some "ForgerBox") (PInt 1) (genesis_account_balance info) in
  let! mc_return_address := call mc_node "getnewaddress" [] in
  let! mc_block_count := transfer_again mc_node mc_return_address in
  do! generate_next_blocks sc_node "first node" 1 in
  let! sc_best_block := best sc_node in
  let! mc_block := call mc_node "getblock" [PStr (py_str mc_block_count)] in
  let% height := getitem sc_best_block "height" in
  do% assert_equal height (PInt 2) height_message in
  do! check_included sc_node sc_best_block mc_block in
  let% twice := py_mul (genesis_account_balance info) (PInt 2) in
  do! check_wallet_coins_balance sc_node twice in
  check_box_balance sc_node account None (PInt 2) twice.

Definition SCForwardTransfer (fuel : nat) (o : Options) (shared : SCForgerConfiguration) : TestClass W :=
  scenario fuel o 1 1 (SCForwardTransfer_sc_setup_chain o shared) SCForwardTransfer_run_test.

(** ** sc_sync_after_fork.py *)

Definition SCSyncAfterFork_sc_setup_chain (o : Options) (shared : SCForgerConfiguration) : MF unit :=
  twin_chain o shared 100 100 (λ c, SCNodeConfiguration_defaults c shared) (λ c, SCNodeConfiguration_defaults c shared)
    (PInt (720 * 120 * 10)).

(** A block in each of the epochs 0 to 6, then the nodes meet. *)
Definition SCSyncAfterFork_run_test (fuel : nat) : MF unit :=
  do! mc 0 in
  let! sc1 := sc 0 in
  let! sc2 := sc 1 in
  do! generate_next_block sc1 "first node" false PNone in
  do! forM_ [1; 2; 3; 4; 5; 6] (λ _, do! generate_next_block sc1 "first node" true PNone in ret tt) in
  do! connect_sc fuel 0 1 in
  do! generate_next_block sc1 "first node" false PNone in
  do! sc_sync_all fuel false in
  let! best_1 := best sc1 in
  let! best_2 := best sc2 in
  lift (assert_equal best_1 best_2 "Nodes are unable to sync, best blocks are not equal").

Definition SCSyncAfterFork (fuel : nat) (o : Options) (shared : SCForgerConfiguration) : TestClass W :=
  scenario fuel o 1 2 (SCSyncAfterFork_sc_setup_chain o shared) (SCSyncAfterFork_run_test fuel).

(** ** sc_cum_comm_tree_hash.py *)

Definition SCCumCommTreeHash_sc_setup_chain (o : Options) (shared : SCForgerConfiguration) : MF unit :=
  let! info := one_node_chain o shared 100 LARGE_WITHDRAWAL_EPOCH_LENGTH DefaultBlockTimestampRewind in
  put_info info.

(** The header information of the sidechain node, printed when [logged], has
    the tree hash of the block. *)
Definition check_tree_hash (sc_node : proxy) (mc_block_hash mc_block_json : pyval) (logged : bool) (message : string)
    : MF unit :=
  let! header_info := post sc_node "mainchain_mainchainHeaderInfoByHash" [("hash", mc_block_hash)] PNone in
  do! when logged (do% dumps header_info in ret tt) in
  let% expected := getitem mc_block_json "scCumTreeHash" in
  let% found := getpath header_info ["result"; "mainchainHeaderInfo"; "cumulativeCommTreeHash"] in
  lift (assert_equal expected found message).

(** The log line of a block reads both of its hashes. *)
Definition log_commitment (mc_block_json : pyval) : outcome unit :=
  let? _ := getitem mc_block_json "scTxsCommitment" in
  let? _ := getitem mc_block_json "scCumTreeHash" in
  Val tt.

Definition tree_message : string := "SC block mcref scCumTreeHash is different to the MC one".

Definition check_tree_hashes (mc_node sc_node : proxy) (mc_blocks_hashes : pyval) : MF unit :=
  let% l := py_iter mc_blocks_hashes in
  forM_ l (λ hash,
    let! mc_block_json := call mc_node "getblock" [hash] in
    check_tree_hash sc_node hash mc_block_json false tree_message).

Definition SCCumCommTreeHash_run_test : MF unit :=
  let! sc_node := sc 0 in
  let! mc_node := mc 0 in
  let! hash := call mc_node "getbestblockhash" [] in
  let! json := call mc_node "getblock" [hash] in
  do% log_commitment json in
  do! check_tree_hash sc_node hash json true "Genesis block mcref scCumTreeHash is different to the MC one" in
  let! hash := mine mc_node in
  let! json := call mc_node "getblock" [hash] in
  do% log_commitment json in
  do! generate_next_block sc_node "scnode" false PNone in
  do! check_tree_hash sc_node hash json true tree_message in
  let! hashes := call mc_node "generate" [PInt 3] in
  do! generate_next_block sc_node "scnode" false PNone in
  do! check_tree_hashes mc_node sc_node hashes in
  do! generate_next_blocks sc_node "scnode" 2 in
  let! hash := mine mc_node in
  let! json := call mc_node "getblock" [hash] in
  do! generate_next_block sc_node "scnode" false PNone in
  do! check_tree_hash sc_node hash json false tree_message in
  let! hashes := call mc_node "generate" [PInt 10] in
  do! generate_next_block sc_node "scnode" false PNone in
  check_tree_hashes mc_node sc_node hashes.

Definition SCCumCommTreeHash (fuel : nat) (o : Options) (shared : SCForgerConfiguration) : TestClass W :=
  scenario fuel o 1 1 (SCCumCommTreeHash_sc_setup_chain o shared) SCCumCommTreeHash_run_test.

(** ** sc_ceased.py *)

Definition SCCeased_sc_setup_chain (o : Options) (shared : SCForgerConfiguration) : MF unit :=
  let! mc_node := mc 0 in
  let! connection := ws_connection mc_node 0 in
  let! info := bootstrap o mc_node 100 10
    [node_configuration connection shared false 100 100 "2m" [] None "15m" "5m"] five_epochs in
  put_info info.

(** [mc_node.getscinfo(sidechain_id)['items'][0]['state']] compared with a state *)
Definition check_sc_state (mc_node : proxy) (state message : string) : MF unit :=
  let! info := boot_info in
  let! r := call mc_node "getscinfo" [sidechain_id info] in
  let% items := getitem r "items" in
  let% sc_info := getindex items 0 in
  let% found := getitem sc_info "state" in
  lift (assert_equal (PStr state) found message).

(** [try: m; fail(message) except ...: pass], the [fail] inside the [try] *)
Definition fail_inside (caught : exn → bool) (m : MF pyval) (message : string) : MF unit :=
  catch (do! m in lift (fail message)) (λ e, if caught e then ret tt else raise e).

(** Up to the block that ends the submission window of the first epoch. *)
Definition ceased_run (mc_node sc_node : proxy) : MF unit :=
  do! call mc_node "generate" [PInt (10 - 1)] in
  do! generate_next_block sc_node "first node" false PNone in
  let! hashes := call mc_node "generate" [PInt (2 - 1)] in
  let% k := py_len hashes in
  do% assert_equal (PInt 1) (PInt (2 - k)) "1 MC block till the end of the withdrawal epoch expected." in
  do! check_sc_state mc_node "ALIVE" "Sidechain expected to be alive." in
  do! generate_next_block sc_node "first node" false PNone in
  let! hash := mine mc_node in
  do! check_sc_state mc_node "CEASED" "Sidechain expected to be ceased." in
  let! id := generate_next_block sc_node "first node" false PNone in
  do! check_mcreference_presence hash id sc_node in
  let! r := call sc_node "csw_hasCeased" [] in
  let% has_ceased := getpath r ["result"; "state"] in
  lift (assert_true (truthy has_ceased) "Sidechain expected to be ceased.").

(** One more block, which the node must refuse. *)
Definition ceased_refuses (sc_node : proxy) : MF unit :=
  fail_inside is_Exception (generate_next_block sc_node "first node" false PNone)
    "Node wrongly verified block at the end of the submission window for epoch with no certs.".

Definition SCCeased_run_test : MF unit :=
  let! mc_node := mc 0 in
  let! sc_node := sc 0 in
  do! ceased_run mc_node sc_node in
  ceased_refuses sc_node.

Definition SCCeased (fuel : nat) (o : Options) (shared : SCForgerConfiguration) : TestClass W :=
  args_scenario fuel o ["-debug=sc"; "-logtimemicros=1"] 1 (SCCeased_sc_setup_chain o shared) SCCeased_run_test.

(** ** sc_withdrawal_epoch_last_block.py *)

Definition SCWithdrawalEpochLastBlock_sc_setup_chain : Options → SCForgerConfiguration → MF unit :=
  SCForwardTransfer_sc_setup_chain.

(** One transaction in the memory pool. *)
Definition check_one_pooled (sc_node : proxy) : MF unit :=
  let! r := call sc_node "transaction_allTransactions" [] in
  let% txs := getpath r ["result"; "transactions"] in
  check_length 1 txs "FT spending Tx expected to be in the SC node mempool.".

Definition SCWithdrawalEpochLastBlock_run_test : MF unit :=
  let! mc_node := mc 0 in
  let! sc_node := sc 0 in
  let! mc_return_address := call mc_node "getnewaddress" [] in
  let! mc_block_count := transfer_again mc_node mc_return_address in
  do! generate_next_blocks sc_node "first node" 1 in
  let! sc_best_block := best sc_node in
  let! mc_block := call mc_node "getblock" [PStr (py_str mc_block_count)] in
  do! check_included sc_node sc_best_block mc_block in
  do! call mc_node "generate" [PInt (5 - 1 - 1 - 1)] in
  do! generate_next_blocks sc_node "first node" 1 in
  let! mc_block_count := transfer_again mc_node mc_return_address in
  let! info := boot_info in
  let% account := account_of info in
  let% value := py_sub (genesis_account_balance info) (PInt 10) in
  do! post sc_node "transaction_sendCoinsToAddress"
    [("outputs", PList [PDict [("publicKey", publicKey account); ("value", value)]]); ("fee", PInt 10)] PNone in
  do! check_one_pooled sc_node in
  do! generate_next_block sc_node "first node" false PNone in
  let! sc_best_block := best sc_node in
  let% txs := getpath sc_best_block ["block"; "sidechainTransactions"] in
  do! check_length 0 txs "No sidechain transactions expected." in
  let! mc_block := call mc_node "getblock" [PStr (py_str mc_block_count)] in
  do! check_included sc_node sc_best_block mc_block in
  check_one_pooled sc_node.

Definition SCWithdrawalEpochLastBlock (fuel : nat) (o : Options) (shared : SCForgerConfiguration) : TestClass W :=
  scenario fuel o 1 1 (SCWithdrawalEpochLastBlock_sc_setup_chain o shared) SCWithdrawalEpochLastBlock_run_test.

(** ** sc_nodes_initialize.py *)

Definition SidechainNodesInitializationTest_sc_setup_network (fuel : nat) (o : Options) : MF unit :=
  let! l := utxo_sc_setup_nodes fuel o 3 in
  do! put_sc_nodes l in
  do! connect_sc fuel 0 1 in
  do! connect_sc fuel 1 2 in
  do! connect_sc fuel 0 2 in
  sc_sync_all fuel false.

(** [peer["name"]] of each peer *)
Fixpoint peer_names (peers : list pyval) : outcome (list pyval) :=
  match peers with
  | [] => Val []
  | peer :: peers' =>
      let? name := getitem peer "name" in
      let? names := peer_names peers' in
      Val (name :: names)
  end.

Definition check_connections (node : proxy) (nodename : string) (other_nodes : list string) : MF unit :=
  let! r := call node "node_connectedPeers" [] in
  let% peers := getpath r ["result"; "peers"] in
  let% l := py_iter peers in
  let% peers_node := peer_names l in
  do% dumps (PList peers_node) in
  forM_ other_nodes (λ other_node,
    lift (assert_true (list_mem (PStr other_node) peers_node) (other_node +:+ " not connected to " +:+ nodename))).

(** Some box of the key, the first, has a positive value. *)
Fixpoint key_has_box (key : pyval) (boxes : list pyval) : outcome unit :=
  match boxes with
  | [] => assert_true false ("Box related to public key: " +:+ py_str key +:+ " not found")
  | box :: boxes' =>
      let? owner := getpath box ["proposition"; "publicKey"] in
      let? k := getitem key "publicKey" in
      if py_eqb owner k then
        let? value := getitem box "value" in
        let? positive := py_gt value (PInt 0) in
        let? id := getitem box "id" in
        assert_true positive ("Non positive value for box: " +:+ py_str id +:+ " with public key: " +:+ py_str key)
      else key_has_box key boxes'
  end.

Definition check_genesis_balances (node : proxy) (nodename : string) (expected_keys_count expected_boxes_count : Z)
    : MF unit :=
  let! r := call node "wallet_allPublicKeys" [] in
  let% public_keys := getpath r ["result"; "propositions"] in
  let! r := call node "wallet_allBoxes" [] in
  let% boxes := getpath r ["result"; "boxes"] in
  let! r := call node "wallet_coinsBalance" [] in
  let% balance := getitem r "result" in
  do! check_length expected_keys_count public_keys "Unexpected number of public keys" in
  do! check_length expected_boxes_count boxes "Unexpected number of boxes" in
  let% keys := py_iter public_keys in
  let% l := py_iter boxes in
  do! forM_ keys (λ key, lift (key_has_box key l)) in
  let% b := getitem balance "balance" in
  let% n := py_int b in
  do% assert_equal (PInt 10000000000) (PInt n) "Unexpected balance" in
  do% dumps b in ret tt.

Definition SidechainNodesInitializationTest_run_test : MF unit :=
  let! sc0 := sc 0 in
  do! check_connections sc0 "node0" ["node1"; "node2"] in
  let! sc1 := sc 1 in
  do! check_connections sc1 "node1" ["node0"; "node2"] in
  let! sc2 := sc 2 in
  check_connections sc2 "node2" ["node0"; "node1"].

Definition SidechainNodesInitializationTest (fuel : nat) (o : Options) : TestClass W :=
  mkTestClass W (ret tt) (ret tt) (initialize_default_sc_chain_clean (op_tmpdir o) 3 "")
    (SidechainNodesInitializationTest_sc_setup_network fuel o) SidechainNodesInitializationTest_run_test.
End Chain.
