(* ===== verification/MempoolScenarios.v ===== *)
(** * Scenarios: fees and the memory pool

    sc_mempool_max_fee.py, sc_mempool_min_fee_rate.py, sc_mempool_max_size.py
    and sc_forger_feerate.py, as test classes of the driver. *)

From S2P Require Import Prelude PyStr Numbers PyVal Host Sim Json Encoding HttpProxy BootInfo McUtil ScUtil.
From S2P Require Import Forging Bootstrap Framework McFramework HttpCalls.
From Stdlib Require Import Ascii String.
From stdpp Require Import base list.
From S2P Require Import Scenarios NetScenarios ForgingScenarios StakeScenarios ChainScenarios.
Local Open Scope Z_scope.

Section Mempool.
Context {W : Type} `{Nodes W, Clock W, Os W, Rng W}.
Local Abbreviation MF := (M (FW W)).

(** ** Shared parts *)

(** [SCNodeConfiguration(connection, mempool_max_size=..., mempool_min_fee_rate=..., max_fee=...)];
    the defaults are 300, 0 and 10000000. *)
Definition pool_configuration (shared : SCForgerConfiguration) (mempool_max_size mempool_min_fee_rate max_fee : Z)
    (connection : MCConnectionInfo) : SCNodeConfiguration :=
  SCNodeConfiguration_init connection true true None 100 100 "2m" true (PFloat (float_of_dec (Dec 1 (-4)))) shared
    mempool_max_size mempool_min_fee_rate DEFAULT_API_KEY max_fee [] false PNone [] None [] "15m" "5m" false 0 true
    DEFAULT_MAX_NONCE_GAP DEFAULT_MAX_ACCOUNT_SLOTS DEFAULT_MAX_MEMPOOL_SLOTS DEFAULT_MAX_NONEXEC_POOL_SLOTS
    DEFAULT_TX_LIFETIME true true.

Definition pool_args : list string := ["-debug=sc"; "-debug=ws"; "-logtimemicros=1"; "-scproofqueuesize=0"].

Definition pool_scenario (fuel : nat) (o : Options) (m : Z) (sc_chain test : MF unit) : TestClass W :=
  args_scenario fuel o pool_args m sc_chain test.

(** [error = False; try: m except: error = True; assert_false(error)] *)
Definition no_error {A} (m : MF A) : MF A := catch m (λ _, raise (AssertionError "")).

(** The sidechain nodes agree, forge and agree again. *)
Definition sync_forge (fuel : nat) (sc_node : proxy) : MF unit :=
  do! sc_sync_all fuel false in
  do! generate_next_blocks sc_node "first node" 1 in
  sc_sync_all fuel false.

(** The genesis balance is transferred to the address. *)
Definition transfer_balance (fuel : nat) (mc_node sc_node : proxy) (address : pyval) : MF unit :=
  let! info := boot_info in
  let! mc_address := call mc_node "getnewaddress" [] in
  do! forward_transfer_to_sidechain (sidechain_id info) mc_node address (genesis_account_balance info) mc_address
    true in
  sync_forge fuel sc_node.

(** The start of the three mempool tests: both nodes, connected, with an address each. *)
Definition pool_start (fuel : nat) : MF (proxy * proxy * proxy * pyval * pyval) :=
  do! sleep 100000 in
  do! sync_all fuel in
  let! sc1 := sc 0 in
  let! sc2 := sc 1 in
  do! connect_sc_nodes fuel sc1 1 (secs 25) in
  let! mc1 := mc 0 in
  let! address1 := http_wallet_createPrivateKey25519 sc1 PNone in
  let! address2 := http_wallet_createPrivateKey25519 sc2 PNone in
  do! generate_next_blocks sc1 "first node" 1 in
  ret (mc1, sc1, sc2, address1, address2).

(** The transfer, with the wallet's balance before and after. *)
Definition transfer_checked (fuel : nat) (mc1 sc1 : proxy) (address : pyval) : MF unit :=
  let! before := http_wallet_balance sc1 PNone in
  do! transfer_balance fuel mc1 sc1 address in
  let! after := http_wallet_balance sc1 PNone in
  let% gain := py_sub after before in
  let! info := boot_info in
  let% expected := py_mul (genesis_account_balance info) (PInt 100000000) in
  lift (assert_true (py_eqb gain expected) "").

(** [len(allTransactions(node, False)['transactionIds']) == n], and the ids *)
Definition pooled (sc_node : proxy) (n : Z) : MF pyval :=
  let! r := allTransactions sc_node false in
  let% ids := getitem r "transactionIds" in
  let% k := py_len ids in
  do% assert_true (k =? n) "" in
  ret ids.

Definition check_pooled (ids tx : pyval) : MF unit :=
  let% there := py_in tx ids in lift (assert_true there "").
Definition check_not_pooled (ids tx : pyval) : MF unit :=
  let% there := py_in tx ids in lift (assert_false there "").

(** ** sc_mempool_max_fee.py *)

Definition max_fee_limit : Z := 10.

Definition SCMempoolMaxFee_sc_setup_chain (o : Options) (shared : SCForgerConfiguration) : MF unit :=
  twin_chain o shared 100 10 (pool_configuration shared 300 0 max_fee_limit)
    (λ c, SCNodeConfiguration_defaults c shared) DefaultBlockTimestampRewind.

(** A fee above the limit is refused; the [fail] is inside the [try]. *)
Definition high_fee_refused (sc1 : proxy) (address2 : pyval) : MF unit :=
  fail_inside (λ _, true) (sendCoinsToAddress sc1 address2 (PInt 10) (PInt (max_fee_limit + 1)) PNone)
    "Transaction should not have been sent".

(** A transaction with an accepted fee, in a block. *)
Definition fee_accepted (fuel : nat) (sc1 : proxy) (address : pyval) (fee : Z) : MF unit :=
  do! sendCoinsToAddress sc1 address (PInt 100) (PInt fee) PNone in
  do! sync_all fuel in
  do! generate_next_blocks sc1 "first node" 1 in
  sc_sync_all fuel false.

Definition SCMempoolMaxFee_run_test (fuel : nat) : MF unit :=
  let! '(mc1, sc1, sc2, address1, address2) := pool_start fuel in
  do! transfer_balance fuel mc1 sc1 address1 in
  do! high_fee_refused sc1 address2 in
  do! fee_accepted fuel sc1 address2 max_fee_limit in
  do! fee_accepted fuel sc1 address2 (max_fee_limit - 1) in
  let! txid := sendCoinsToAddress sc2 address1 (PInt 10) (PInt (max_fee_limit + 1)) PNone in
  do! sync_all fuel in
  let! found2 := http_transaction_findById sc2 txid true in
  let! found1 := http_transaction_findById sc1 txid true in
  let% k := py_len found2 in
  do% assert_true (k >? 0) "" in
  let% k := py_len found1 in
  do% assert_true (k >? 0) "" in
  do% assert_equal found2 found1 "" in
  do! generate_next_blocks sc1 "first node" 1 in
  sc_sync_all fuel false.

Definition SCMempoolMaxFee (fuel : nat) (o : Options) (shared : SCForgerConfiguration) : TestClass W :=
  pool_scenario fuel o 2 (SCMempoolMaxFee_sc_setup_chain o shared) (SCMempoolMaxFee_run_test fuel).

(** ** sc_mempool_min_fee_rate.py *)

Definition SCMempoolMinFeeRate_sc_setup_chain (o : Options) (shared : SCForgerConfiguration) : MF unit :=
  twin_chain o shared 100 10 (λ c, SCNodeConfiguration_defaults c shared)
    (pool_configuration shared 300 500 10000000) DefaultBlockTimestampRewind.

Definition SCMempoolMinFeeRate_run_test (fuel : nat) : MF unit :=
  let! '(mc1, sc1, sc2, address1, address2) := pool_start fuel in
  do! transfer_checked fuel mc1 sc1 address1 in
  do! no_error (sendCointsToMultipleAddress sc1 (repeat address1 2) (repeat (PInt 10000) 2) (PInt 200)) in
  do! sync_forge fuel sc1 in
  let! low := no_error (sendCoinsToAddress sc1 address2 (PInt 1000) (PInt 80) PNone) in
  let! high := no_error (sendCoinsToAddress sc1 address2 (PInt 1000) (PInt 200) PNone) in
  do! sleep (secs 5) in
  let! ids2 := pooled sc2 1 in
  do! check_not_pooled ids2 low in
  do! check_pooled ids2 high in
  let! ids1 := pooled sc1 2 in
  do! check_pooled ids1 low in
  check_pooled ids1 high.

Definition SCMempoolMinFeeRate (fuel : nat) (o : Options) (shared : SCForgerConfiguration) : TestClass W :=
  pool_scenario fuel o 2 (SCMempoolMinFeeRate_sc_setup_chain o shared) (SCMempoolMinFeeRate_run_test fuel).

(** ** sc_mempool_max_size.py *)

Definition SCMempoolMaxSize_sc_setup_chain (o : Options) (shared : SCForgerConfiguration) : MF unit :=
  twin_chain o shared 100 10 (pool_configuration shared 1 0 10000000)
    (λ c, SCNodeConfiguration_defaults c shared) DefaultBlockTimestampRewind.

Definition mempool_max_size_bytes : Z := 1 * 1024 * 1024.

(** [http_transaction_findById(node, tx)['transaction']['size']] added to the size so far *)
Definition add_size (sc_node : proxy) (used tx : pyval) : MF pyval :=
  let! r := http_transaction_findById sc_node tx true in
  let% size := getpath r ["transaction"; "size"] in
  lift (py_add used size).

(** Eight outputs of 15 to the address, at a fee. *)
Definition send_eight (sc_node : proxy) (address : pyval) (fee : Z) : MF pyval :=
  sendCointsToMultipleAddress sc_node (repeat address 8) (repeat (PInt 15) 8) (PInt fee).

(** The loop that fills the memory pool: the number of transactions inserted. *)
Fixpoint fill_pool (fuel : nat) (sc_node : proxy) (address used : pyval) (inserted : Z) : MF Z :=
  match fuel with
  | O => out_of_fuel
  | S f =>
      let% more := py_lt used (PInt mempool_max_size_bytes) in
      if more then
        let! used := no_error (
          let! tx := send_eight sc_node address 50 in
          add_size sc_node used tx) in
        fill_pool f sc_node address used (inserted + 1)
      else ret inserted
  end.

Definition SCMempoolMaxSize_run_test (fuel : nat) : MF unit :=
  let! '(mc1, sc1, sc2, address1, address2) := pool_start fuel in
  do! transfer_checked fuel mc1 sc1 address1 in
  do! sendCointsToMultipleAddress sc1 (repeat address1 6) (repeat (PInt 181000) 6) (PInt 100) in
  do! sync_forge fuel sc1 in
  do! forM_ (zrange 0 6) (λ _,
    do! no_error (sendCointsToMultipleAddress sc1 (repeat address2 900) (repeat (PInt 200) 900) (PInt 100)) in
    ret tt) in
  do! sync_forge fuel sc1 in
  let! lowest := no_error (send_eight sc2 address1 30) in
  let! used := add_size sc2 (PInt 0) lowest in
  let! inserted := fill_pool fuel sc2 address1 used 1 in
  let! ids2 := pooled sc2 inserted in
  do! check_pooled ids2 lowest in
  let! ids1 := pooled sc1 (inserted - 1) in
  check_not_pooled ids1 lowest.

Definition SCMempoolMaxSize (fuel : nat) (o : Options) (shared : SCForgerConfiguration) : TestClass W :=
  pool_scenario fuel o 2 (SCMempoolMaxSize_sc_setup_chain o shared) (SCMempoolMaxSize_run_test fuel).

(** ** sc_forger_feerate.py *)

Definition SCForgerFeerate_sc_setup_chain (o : Options) (shared : SCForgerConfiguration) : MF unit :=
  let! info := one_node_chain o shared 100 10 DefaultBlockTimestampRewind in
  put_info info.

(** The amounts of [send_coins]: equal floats, the last one the rest. *)
Fixpoint split_amount (amount am : pyval) (i : Z) (n : nat) : outcome (list pyval) :=
  match n with
  | O => Val []
  | S n' =>
      let? am := (if (n' =? 0)%nat then let? taken := py_mul (PInt i) am in py_sub amount taken else Val am) in
      let? l := split_amount amount am (i + 1) n' in
      Val (am :: l)
  end.

(** A reply without a transaction id ends in [e.error], which a [KeyError] has not. *)
Definition send_coins (sc_node : proxy) (receiver : pyval) (amount fee : Z) (numberOfOutputs : Z) : MF pyval :=
  do% assert_true (numberOfOutputs >? 0) ("Invalid number of outputs " +:+ str_of_Z numberOfOutputs) in
  let% am := py_truediv (PInt amount) (PInt numberOfOutputs) in
  let% amounts := split_amount (PInt amount) am 0 (Z.to_nat numberOfOutputs) in
  let outputs := map (λ value, PDict [("publicKey", receiver); ("value", value)]) amounts in
  let! reply := post sc_node "transaction_sendCoinsToAddress" [("outputs", PList outputs); ("fee", PInt fee)] PNone in
  catch (lift (getpath reply ["result"; "transactionId"]))
    (λ e, if is_Exception e then raise (AttributeError "error") else raise e).

(** The fee rates of the transactions strictly decrease, from below the bound. *)
Fixpoint feerates_decrease (minFeeRate : pyval) (txs : list pyval) : outcome unit :=
  match txs with
  | [] => Val tt
  | tx :: txs' =>
      let? fee := getitem tx "fee" in
      let? size := getitem tx "size" in
      let? feeRate := py_truediv fee size in
      let? below := py_lt feeRate minFeeRate in
      let? _ := assert_true below "" in
      feerates_decrease feeRate txs'
  end.

Definition feerate_transfer (scid address mc_return_address : pyval) (amount : Z) : pyval :=
  PDict [("toaddress", address); ("amount", PInt amount); ("scid", scid); ("mcReturnAddress", mc_return_address)].

(** The transactions of the test: amount, fee and number of outputs. *)
Definition feerate_txs : list (Z * Z * Z) :=
  [(111111, 100, 5); (222222, 300, 5); (333333, 100, 1); (333333, 101, 1); (333333, 99, 1)].

Definition feerate_setup (mc_node sc_node : proxy) : MF unit :=
  do! generate_next_blocks sc_node "first node" 1 in
  let! address := new_address sc_node in
  let! mc_return_address := call mc_node "getnewaddress" [] in
  let! info := boot_info in
  do! call mc_node "sc_send" [PList (map (feerate_transfer (sidechain_id info) address mc_return_address)
    [10; 20; 30; 40; 50])] in
  let! pool := call mc_node "getmempoolinfo" [] in
  let% size := getitem pool "size" in
  do% assert_equal (PInt 1) size "Forward Transfer expected to be added to mempool." in
  do! call mc_node "generate" [PInt 1] in
  do! generate_next_blocks sc_node "first node" 1 in
  check_box_balance sc_node (mkAccount (PStr "") address) (Some "ZenBox") (PInt 5) (PInt 150).

Definition SCForgerFeerate_run_test (fuel : nat) : MF unit :=
  do! sleep 100000 in
  do! sync_all fuel in
  let! mc_node := mc 0 in
  let! sc_node := sc 0 in
  do! feerate_setup mc_node sc_node in
  let! r := call sc_node "wallet_allPublicKeys" [] in
  let% propositions := getpath r ["result"; "propositions"] in
  let% last := getindex propositions (-1) in
  let% address := getitem last "publicKey" in
  do! forM_ feerate_txs (λ '(amount, fee, n), do! send_coins sc_node address amount fee n in ret tt) in
  let! id := forge sc_node in
  let! block := find_block sc_node id in
  let% v := getitem block "sidechainTransactions" in
  let% txs := py_iter v in
  lift (feerates_decrease (PInt 100000000) txs).

Definition SCForgerFeerate (fuel : nat) (o : Options) (shared : SCForgerConfiguration) : TestClass W :=
  pool_scenario fuel o 1 (SCForgerFeerate_sc_setup_chain o shared) (SCForgerFeerate_run_test fuel).
End Mempool.
