(* ===== verification/CertScenarios.v ===== *)
(** * Scenarios: certificate submitters and synchronisation

    sc_multiple_cert_submitters.py, sc_cert_submitter_after_sync_1.py,
    sc_cert_submitter_after_sync_2.py and sc_node_response_along_sync.py, as
    test classes of the driver.  The classes that start their nodes with
    [-max_hist_rew_len] have the class attribute [number_of_sidechain_nodes],
    which is 2 in the [self] they run on. *)

From S2P Require Import Prelude PyStr Numbers PyVal Host Sim Json Encoding HttpProxy BootInfo McUtil ScUtil.
From S2P Require Import Forging Bootstrap Framework McFramework HttpCalls.
From Stdlib Require Import Ascii String.
From stdpp Require Import base list.
From S2P Require Import Scenarios NetScenarios ForgingScenarios StakeScenarios ChainScenarios.
Local Open Scope Z_scope.

Section Cert.
Context {W : Type} `{Nodes W, Clock W, Os W, Rng W}.
Local Abbreviation MF := (M (FW W)).

(** ** Shared parts *)

(** [SCNodeConfiguration(connection, submitter, True, keys)] *)
Definition submitter_configuration (shared : SCForgerConfiguration) (submitter : bool) (keys : list Z)
    (connection : MCConnectionInfo) : SCNodeConfiguration :=
  SCNodeConfiguration_init connection submitter true (Some keys) 100 100 "2m" true
    (PFloat (float_of_dec (Dec 1 (-4)))) shared 300 0 DEFAULT_API_KEY 10000000 [] false PNone [] None [] "15m" "5m"
    false 0 true DEFAULT_MAX_NONCE_GAP DEFAULT_MAX_ACCOUNT_SLOTS DEFAULT_MAX_MEMPOOL_SLOTS
    DEFAULT_MAX_NONEXEC_POOL_SLOTS DEFAULT_TX_LIFETIME true true.

(** The version the circuit of the options needs. *)
Definition version_for (o : Options) : Z :=
  if String.eqb (certcircuittype o) KEY_ROTATION_CIRCUIT then SC_CREATION_VERSION_2 else SC_CREATION_VERSION_1.

(** A sidechain with the circuit and the ceasing of the options. *)
Definition options_chain (o : Options) (amount epoch_length : Z)
    (configure1 configure2 : MCConnectionInfo → SCNodeConfiguration) (rewind : pyval) : MF unit :=
  let! mc_node := mc 0 in
  let! connection_1 := ws_connection mc_node 0 in
  let! connection_2 := ws_connection mc_node 0 in
  let% sci := SCCreationInfo_init mc_node (PInt amount) epoch_length 0 (version_for o) 7 5 false (nonceasing o)
    (certcircuittype o) in
  let! info := bootstrap_sidechain_nodes (run_options_of o)
    (mkSCNetworkConfiguration sci [configure1 connection_1; configure2 connection_2]) rewind DefaultModel in
  put_info info.

(** [sc_setup_nodes_with_extra_arg('-max_hist_rew_len', str(n), SIMPLE_APP_BINARY)] *)
Definition long_history_sc_setup_network (fuel : nat) (o : Options) (n : Z) : MF unit :=
  let! binary := SIMPLE_APP_BINARY in
  let! l := sc_setup_nodes_with_extra_arg fuel o "-max_hist_rew_len" (str_of_Z n) (Some binary)
    (Some DEFAULT_API_KEY) in
  do! put_sc_nodes l in
  sc_sync_all fuel false.

Definition cert_node_args : list string := ["-debug=sc"; "-logtimemicros=1"; "-scproofqueuesize=0"].

(** [sc_node.submitter_isCertGenerationActive()["result"]["state"]] as a condition *)
Definition generating (sc_node : proxy) : MF bool :=
  let! r := call sc_node "submitter_isCertGenerationActive" [] in
  let% state := getpath r ["result"; "state"] in
  ret (truthy state).

(** [mc_node.getmempoolinfo()["size"]] *)
Definition mc_pool_size (mc_node : proxy) : MF pyval :=
  let! info := call mc_node "getmempoolinfo" [] in lift (getitem info "size").

(** The loop that waits for the certificate of one submitter. *)
Fixpoint wait_certificate (fuel : nat) (mc_node sc_node : proxy) : MF unit :=
  match fuel with
  | O => out_of_fuel
  | S f =>
      let! size := mc_pool_size mc_node in
      let% empty := py_lt size (PInt 1) in
      if empty then
        let! active := generating sc_node in
        if active then
          do! generating sc_node in
          do! sleep (secs 2) in
          wait_certificate f mc_node sc_node
        else ret tt
      else ret tt
  end.

(** The wait and the check after it. *)
Definition certificate_arrives (fuel : nat) (mc_node sc_node : proxy) : MF unit :=
  do! sleep (secs 10) in
  do! wait_certificate fuel mc_node sc_node in
  let! size := mc_pool_size mc_node in
  lift (assert_equal (PInt 1) size "Certificates was not added to MC node mempool.").

(** [sc_node.submitter_isCertificateSubmitterEnabled()["result"]["enabled"]] *)
Definition submitter_enabled (sc_node : proxy) : MF pyval :=
  let! r := call sc_node "submitter_isCertificateSubmitterEnabled" [] in lift (getpath r ["result"; "enabled"]).

Definition check_enabled_twice (sc_node : proxy) : MF unit :=
  let! enabled := submitter_enabled sc_node in
  do% assert_equal (PBool true) enabled "" in
  let! enabled := submitter_enabled sc_node in
  lift (assert_equal (PBool true) enabled "").

(** [sync_sc_blocks(self.sc_nodes, wait_for, True)] *)
Definition sync_self_blocks (fuel : nat) (wait_for : Z) : MF unit :=
  let! l := get_sc_nodes in sync_sc_blocks fuel l (secs wait_for).

(** ** sc_cert_submitter_after_sync_1.py *)

Definition NUM_BLOCKS : Z := 2000.

Definition ScCertSubmitterAfterSync1_sc_setup_chain (o : Options) (shared : SCForgerConfiguration) : MF unit :=
  options_chain o 1000 10 (submitter_configuration shared false [0; 1; 2])
    (submitter_configuration shared true [3; 4; 5]) (PInt (720 * 120 * 10)).

Definition ScCertSubmitterAfterSync1_run_test (fuel : nat) : MF unit :=
  let! mc_node := mc 0 in
  let! sc1 := sc 0 in
  let! sc2 := sc 1 in
  do! generate_next_blocks sc1 "first node" NUM_BLOCKS in
  do! connect_sc_nodes fuel sc1 1 (secs 25) in
  do! sync_self_blocks fuel 300 in
  let! hashes := call mc_node "generate" [PInt (10 - 1 - 1)] in
  let% k := py_len hashes in
  do! generate_next_block sc1 "first node" false PNone in
  do! sc_sync_all fuel false in
  do! call mc_node "generate" [PInt (10 - 1 - k + 1)] in
  do! generate_next_block sc1 "second node" false PNone in
  do! generate_next_block sc1 "second node" false PNone in
  do! sc_sync_all fuel false in
  certificate_arrives fuel mc_node sc2.

Definition ScCertSubmitterAfterSync1 (fuel : nat) (o : Options) (shared : SCForgerConfiguration) : TestClass W :=
  mkTestClass W (default_setup_chain o) (args_setup_network fuel o cert_node_args)
    (ScCertSubmitterAfterSync1_sc_setup_chain o shared) (long_history_sc_setup_network fuel o (NUM_BLOCKS + 1))
    (ScCertSubmitterAfterSync1_run_test fuel).

(** ** sc_cert_submitter_after_sync_2.py *)

Definition ScCertSubmitterAfterSync2_sc_setup_chain (o : Options) (shared : SCForgerConfiguration) : MF unit :=
  options_chain o 100 100 (submitter_configuration shared true [0; 1; 2; 3; 4])
    (submitter_configuration shared true [4; 5; 6]) (PInt (720 * 120 * 10)).

Definition do_cert_cycle (fuel : nat) (mc_node sc_forger_node sc_submitter_node : proxy)
    (mc_blocks_in_epoch_left additional_sc_blocks : Z) : MF unit :=
  do! forM_ (zrange 0 (mc_blocks_in_epoch_left - 1)) (λ _,
    do! call mc_node "generate" [PInt 1] in
    do! generate_next_block sc_forger_node "node" false PNone in ret tt) in
  do! generate_next_blocks sc_forger_node "node" additional_sc_blocks in
  do! call mc_node "generate" [PInt 2] in
  do! generate_next_block sc_forger_node "second node" false PNone in
  do! generate_next_block sc_forger_node "second node" false PNone in
  certificate_arrives fuel mc_node sc_submitter_node.

Definition ScCertSubmitterAfterSync2_run_test (fuel : nat) : MF unit :=
  let! mc_node := mc 0 in
  let! sc1 := sc 0 in
  let! sc2 := sc 1 in
  do! forM_ (zrange 0 10) (λ _, do_cert_cycle fuel mc_node sc1 sc1 (100 - 1) 300) in
  do! connect_sc_nodes fuel sc1 1 (secs 25) in
  do! sleep (secs 20) in
  do! check_enabled_twice sc2 in
  do! sync_self_blocks fuel 1500 in
  do! call sc1 "submitter_disableCertificateSubmitter" [] in
  do! do_cert_cycle fuel mc_node sc1 sc2 (100 - 1) 5 in
  sleep (secs 20).

Definition ScCertSubmitterAfterSync2 (fuel : nat) (o : Options) (shared : SCForgerConfiguration) : TestClass W :=
  mkTestClass W (default_setup_chain o) (args_setup_network fuel o cert_node_args)
    (ScCertSubmitterAfterSync2_sc_setup_chain o shared) (long_history_sc_setup_network fuel o (3000 + 1))
    (ScCertSubmitterAfterSync2_run_test fuel).

(** ** sc_multiple_cert_submitters.py *)

Definition SCMultipleCertSubmitters_sc_setup_chain (o : Options) (shared : SCForgerConfiguration) : MF unit :=
  twin_chain o shared 100 10 (λ c, SCNodeConfiguration_defaults c shared) (λ c, SCNodeConfiguration_defaults c shared)
    DefaultBlockTimestampRewind.

(** [a or b]: the second node is asked only when the first is not generating *)
Definition either_generating (sc1 sc2 : proxy) : MF bool :=
  let! active := generating sc1 in
  if active then ret true else generating sc2.

(** The loop that waits for a certificate while either node works on one. *)
Fixpoint wait_either (fuel : nat) (mc_node sc1 sc2 : proxy) : MF unit :=
  match fuel with
  | O => out_of_fuel
  | S f =>
      let! size := mc_pool_size mc_node in
      let% empty := py_lt size (PInt 1) in
      if empty then
        let! active := either_generating sc1 sc2 in
        if active then
          do! generating sc1 in
          do! generating sc2 in
          do! sleep (secs 2) in
          wait_either f mc_node sc1 sc2
        else ret tt
      else ret tt
  end.

(** The loop that waits until both have stopped. *)
Fixpoint wait_idle (fuel : nat) (sc1 sc2 : proxy) : MF unit :=
  match fuel with
  | O => out_of_fuel
  | S f =>
      let! active := either_generating sc1 sc2 in
      if active then do! sleep (secs 2) in wait_idle f sc1 sc2 else ret tt
  end.

Definition submission_not_needed_msg : string :=
  "Submission not needed. Certificate of equal or higher quality already present in epoch 0".
Definition submission_successful : string := "Backward transfer certificate response had been received".

(** One node submitted, the other found that it need not. *)
Definition one_submitted (log0 log1 : string) : bool :=
  (str_contains submission_not_needed_msg log0 && str_contains submission_successful log1)
  || (str_contains submission_not_needed_msg log1 && str_contains submission_successful log0).

Definition check_logs (o : Options) : MF unit :=
  let! log0 := read_file (op_tmpdir o +:+ "/sc_node0/log/debugLog.txt") in
  let! log1 := read_file (op_tmpdir o +:+ "/sc_node1/log/debugLog.txt") in
  lift (assert_true (one_submitted log0 log1) "").

Definition SCMultipleCertSubmitters_run_test (fuel : nat) (o : Options) : MF unit :=
  do! sleep 100000 in
  let! mc_node := mc 0 in
  let! sc1 := sc 0 in
  let! sc2 := sc 1 in
  let! enabled := submitter_enabled sc1 in
  do% assert_true (truthy enabled) "sc node1 should be submitter" in
  let! enabled := submitter_enabled sc2 in
  do% assert_true (truthy enabled) "sc node2 should be submitter" in
  do! connect_sc_nodes fuel sc1 1 (secs 25) in
  let! hash1 := mine mc_node in
  let! id1 := forge sc1 in
  do! check_mcreferencedata_presence hash1 id1 sc1 in
  let! hashes := call mc_node "generate" [PInt 8] in
  let% epoch_end := getindex hashes 7 in
  let! id2 := generate_next_block sc1 "first node" false PNone in
  do! check_mcreferencedata_presence epoch_end id2 sc1 in
  let! hash2 := mine mc_node in
  let! id3 := forge sc1 in
  do! check_mcreference_presence hash2 id3 sc1 in
  do! sleep (secs 10) in
  do! wait_either fuel mc_node sc1 sc2 in
  let! size := mc_pool_size mc_node in
  do% assert_equal (PInt 1) size "Certificate was not added to Mc node mempool." in
  do! wait_idle fuel sc1 sc2 in
  check_logs o.

Definition SCMultipleCertSubmitters (fuel : nat) (o : Options) (shared : SCForgerConfiguration) : TestClass W :=
  scenario fuel o 1 2 (SCMultipleCertSubmitters_sc_setup_chain o shared) (SCMultipleCertSubmitters_run_test fuel o).

(** ** sc_node_response_along_sync.py *)

Definition BLOCKS_TO_FORGE : Z := 2000.

Definition sc_create_multiple_not_connected_nodes_network (mc_node_1 : proxy) (num_of_nodes_to_start mc_node_index : Z)
    (shared : SCForgerConfiguration) : MF SCNetworkConfiguration :=
  let! l := mmap (λ _,
    let! connection := ws_connection mc_node_1 mc_node_index in
    ret (SCNodeConfiguration_defaults connection shared)) (zrange 0 num_of_nodes_to_start) in
  let% sci := creation_info mc_node_1 600 LARGE_WITHDRAWAL_EPOCH_LENGTH in
  ret (mkSCNetworkConfiguration sci l).

Definition SCNodeResponseAlongSync_sc_setup_chain (o : Options) (shared : SCForgerConfiguration) : MF unit :=
  let! mc_node_1 := mc 0 in
  let! network := sc_create_multiple_not_connected_nodes_network mc_node_1 2 0 shared in
  let! info := bootstrap_sidechain_nodes (run_options_of o) network (PInt (720 * 120 * 8)) DefaultModel in
  put_info info.

(** [sc_node.block_best()['result']['block']['id']] *)
Definition best_id (sc_node : proxy) : MF pyval :=
  let! r := call sc_node "block_best" [] in lift (getpath r ["result"; "block"; "id"]).

(** At most [S n] looks, a second apart, for another best block of the second
    node: the last one seen and whether it differs. *)
Fixpoint wait_started (n : nat) (sc2 : proxy) (best1 best2_0 : pyval) : MF (pyval * bool) :=
  do! sleep (secs 1) in
  let! best2_1 := best_id sc2 in
  do% log_concat best1 in
  do% log_concat best2_0 in
  do% log_concat best2_1 in
  if py_neqb best2_1 best2_0 then ret (best2_1, true)
  else match n with
       | O => ret (best2_1, false)
       | S n' => wait_started n' sc2 best1 best2_0
       end.

Definition SCNodeResponseAlongSync_run_test (fuel : nat) : MF unit :=
  let! sc1 := sc 0 in
  let! sc2 := sc 1 in
  do! generate_next_blocks sc1 "sc_node1" BLOCKS_TO_FORGE in
  let! best1 := best_id sc1 in
  let! best2_0 := best_id sc2 in
  do% assert_not_equal best1 best2_0 "They are same already, quite weird" in
  do! connect_sc_nodes fuel sc1 1 (secs 25) in
  let! '(best2_1, synchStarted) := wait_started 29 sc2 best1 best2_0 in
  do! when (negb synchStarted)
    (lift (assert_equal (PBool synchStarted) (PBool true) "Sync has not started after 30 seconds")) in
  do% assert_not_equal best2_1 best1 " Too fast to synchronize, they are already sync" in
  do! check_enabled_twice sc1 in
  do! sync_self_blocks fuel 200 in
  let! best2_2 := best_id sc2 in
  do% log_concat best1 in
  let! best1_1 := best_id sc1 in
  do% log_concat best1_1 in
  do% log_concat best2_2 in
  lift (assert_equal best1 best2_2 "best 1 should be like best 2 at the end of synchronization").

Definition SCNodeResponseAlongSync (fuel : nat) (o : Options) (shared : SCForgerConfiguration) : TestClass W :=
  mkTestClass W (initialize_chain_clean (op_tmpdir o) 1) (mc_setup_network fuel o 1)
    (SCNodeResponseAlongSync_sc_setup_chain o shared) (long_history_sc_setup_network fuel o (BLOCKS_TO_FORGE + 1))
    (SCNodeResponseAlongSync_run_test fuel).
End Cert.
