(* ===== verification/EvmScenarios.v ===== *)
(** * Scenarios of the account model

    sc_evm_bootstrap.py, sc_evm_forward_transfer.py, sc_evm_rpc_net_methods.py,
    sc_evm_rpc_web3_methods.py, sc_evm_rpc_invalid_blocks.py,
    sc_evm_rpc_invalid_txs.py, sc_evm_base_fee.py, sc_evm_gas_fee_fork.py,
    sc_evm_mempool_timeout.py and sc_evm_cert_key_rotation_old_circuit.py.
    Each is an [AccountChainSetup_class] with the arguments its constructor
    passes on; what [sc_ac_setup] leaves in [self] is its result.

    [remove_0x_prefix] (eth_utils) and the text of an exception are parameters. *)

From S2P Require Import Prelude PyStr Numbers PyVal Host Sim Json Encoding HttpProxy BootInfo McUtil ScUtil.
From S2P Require Import Forging Bootstrap Framework AccountSetup McFramework HttpCalls AccountCalls AccountUtil SmartContract.
From Stdlib Require Import Ascii String.
From stdpp Require Import base list.
From S2P Require Import Scenarios NetScenarios ForgingScenarios StakeScenarios ChainScenarios.
Local Open Scope Z_scope.

(** ** The constructor's defaults *)

Definition ac_defaults (number_of_sidechain_nodes withdrawalEpochLength : Z) (rewind : pyval)
    (circuittype_override : option string) (max_incoming_connections : Z) (connect_nodes : bool) (tx_lifetime : Z)
    : AccountChainSetup :=
  mkAccountChainSetup "Horizen" 1 number_of_sidechain_nodes withdrawalEpochLength (PInt 100) rewind None []
    circuittype_override false [] max_incoming_connections connect_nodes true DEFAULT_MAX_NONCE_GAP
    DEFAULT_MAX_ACCOUNT_SLOTS DEFAULT_MAX_MEMPOOL_SLOTS DEFAULT_MAX_NONEXEC_POOL_SLOTS tx_lifetime
    (repeat None (Z.to_nat number_of_sidechain_nodes)) 7 5 [].

Definition evm_rewind : pyval := PInt DEFAULT_EVM_APP_GENESIS_TIMESTAMP_REWIND.

(** [super().__init__(number_of_sidechain_nodes=n, withdrawalEpochLength=length)] *)
Definition ac_simple (n length : Z) : AccountChainSetup := ac_defaults n length evm_rewind None 100 true DEFAULT_TX_LIFETIME.

(** [Decimal("33.22")], the default of [sc_ac_setup], and [Decimal('3000.0')] *)
Definition default_ft : pyval := PDec (Dec 3322 (-2)).
Definition ft_3000 : pyval := PDec (Dec 30000 (-1)).

(** ** Regular expressions of the scripts *)

(** The rest of the text after the first occurrence. *)
Fixpoint text_after (sub s : string) : option string :=
  if startswith s sub then Some (str_drop (String.length sub) s)
  else match s with EmptyString => None | String _ s' => text_after sub s' end.

(** [re.search(a + ".*" + b, s)] for literal [a] and [b]: both on one line *)
Definition search_both (a b s : string) : bool :=
  existsb (λ line, match text_after a line with Some rest => str_contains b rest | None => false end)
    (split_char (ascii_of_nat 10) s).

Fixpoint count_digits (s : string) : nat :=
  match s with
  | EmptyString => 0
  | String c s' => (if is_digit c then 1 else 0) + count_digits s'
  end.

(** [re.search(r'\d.*\d.*\d', s)] *)
Definition search_three_digits (s : string) : bool :=
  existsb (λ line, (3 <=? count_digits line)%nat) (split_char (ascii_of_nat 10) s).

(** [re.search(r'jdk\d{2,}', s)] *)
Fixpoint search_jdk (s : string) : bool :=
  (startswith s "jdk" && match str_drop 3 s with String a (String b _) => is_digit a && is_digit b | _ => false end)
  || match s with EmptyString => false | String _ s' => search_jdk s' end.

Section Evm.
Context {W : Type} `{Nodes W, Clock W, Os W, Rng W} `{EthUtils, EthAbi, EthHash}.
Context (remove_0x_prefix : pyval → outcome pyval) (str_exn : exn → string).
Local Abbreviation MF := (M (FW W)).

(** ["key" in v] as a check *)
Definition check_error (response : pyval) : MF unit :=
  let% there := has_key "error" response in lift (assert_true there "").
Definition check_no_error (response : pyval) : MF unit :=
  let% there := has_key "error" response in lift (assert_false there "").

(** ** sc_evm_bootstrap.py *)

Definition SCEvmBootstrap_run_test (fuel : nat) : MF unit :=
  let! sc1 := sc 0 in
  let! sc2 := sc 1 in
  let! mc_node := mc 0 in
  let! info := boot_info in
  let! mc_block := call mc_node "getblock" [PStr (py_str (mainchain_block_height info))] in
  let% hash := getitem mc_block "hash" in
  let! mc_block_hex := call mc_node "getblock" [hash; PBool false] in
  do% log_concat mc_block_hex in
  let! sc_best_block := best sc1 in
  let% height := getitem sc_best_block "height" in
  do% assert_equal height (PInt 1) height_message in
  do! check_included sc1 sc_best_block mc_block in
  do! must_fail is_Exception (http_wallet_createPrivateKeySec256k1 sc1 (PStr "qqq")) "Using a wrong key should fail" in
  do! http_wallet_createPrivateKeySec256k1 sc1 PNone in
  do! http_wallet_allPublicKeys sc1 PNone in
  do! generate_next_blocks sc1 "first node" 1 in
  do! sc_sync_all fuel false in
  let! sc_best_block := best sc2 in
  let% height := getitem sc_best_block "height" in
  lift (assert_equal (PInt 2) height height_message).

Definition SCEvmBootstrap (fuel : nat) (o : Options) (shared : SCForgerConfiguration) : TestClass W :=
  AccountChainSetup_class fuel o (ac_simple 2 LARGE_WITHDRAWAL_EPOCH_LENGTH) shared (SCEvmBootstrap_run_test fuel).

(** ** sc_evm_forward_transfer.py *)

(** [s.lower()] of an address *)
Definition lower_of (v : pyval) : outcome pyval :=
  match v with PStr s => Val (PStr (lower s)) | _ => Exc (AttributeError "lower") end.

(** The first forward transfer of a reply has the value and the receiver. *)
Definition check_forward_transfer (reply : pyval) (wei : Z) (evm_address : pyval) : MF unit :=
  let% l := getpath reply ["result"; "forwardTransfers"] in
  let% forward_transfer := getindex l 0 in
  let% value := getitem forward_transfer "value" in
  do% assert_equal (PStr (hex wei)) value "" in
  let% expected := lower_of evm_address in
  let% to := getitem forward_transfer "to" in
  lift (assert_equal expected to "").

(** The same through the REST interface, with a decimal value and no prefix. *)
Definition check_forward_transfer_api (sc_node : proxy) (s : AcState) (wei : Z) : MF unit :=
  let! r := post sc_node "block_getForwardTransfers" [("blockId", ac_block_id s)] PNone in
  let% l := getpath r ["result"; "forwardTransfers"] in
  let% forward_transfer := getindex l 0 in
  let% value := getitem forward_transfer "value" in
  let% n := py_int value in
  do% assert_equal (PInt wei) (PInt n) "" in
  let% expected := (match ac_evm_address s with PStr a => Val (PStr (format_eoa a)) | _ => Exc (AttributeError "startswith") end) in
  let% to := getitem forward_transfer "to" in
  lift (assert_equal expected to "").

Definition SCEvmForwardTransfer_run_test (fuel : nat) : MF unit :=
  let! sc_node := sc 0 in
  let! s := sc_ac_setup fuel true true default_ft in
  let% zennies := convertZenToZennies (ac_ft_amount_in_zen s) in
  let% wei := convertZenniesToWei (PInt zennies) in
  let! balance := call sc_node "rpc_eth_getBalance" [ac_evm_address s; PStr "latest"] in
  let% b := getitem balance "result" in
  do% assert_equal (PStr (hex wei)) b "FT to EOA failed" in
  let% id := add_0x_prefix (ac_block_id s) in
  let! r := call sc_node "rpc_zen_getForwardTransfers" [id] in
  do! check_forward_transfer r wei (ac_evm_address s) in
  let! best_block := best sc_node in
  let% block_number := getitem best_block "height" in
  let! r := call sc_node "rpc_zen_getForwardTransfers" [block_number] in
  do! check_forward_transfer r wei (ac_evm_address s) in
  let! result := call sc_node "rpc_zen_getForwardTransfers" [PStr "latest"] in
  let% there := has_key "error" result in
  do% assert_true there "rpc_zen_getForwardTransfers should fail when using tag parameter" in
  let% message := getpath result ["error"; "message"] in
  let% there := py_in (PStr "Invalid block input parameter") message in
  do% assert_true there "Wrong error" in
  check_forward_transfer_api sc_node s wei.

Definition SCEvmForwardTransfer (fuel : nat) (o : Options) (shared : SCForgerConfiguration) : TestClass W :=
  AccountChainSetup_class fuel o (ac_simple 1 20) shared (SCEvmForwardTransfer_run_test fuel).

(** ** sc_evm_rpc_net_methods.py *)

(** [int(node.rpc_net_peerCount()['result'], 16) == n] *)
Definition check_net_peers (sc_node : proxy) (n : Z) : MF unit :=
  let! r := call sc_node "rpc_net_peerCount" [] in
  let% v := getitem r "result" in
  let% k := py_int_base v 16 in
  lift (assert_true (k =? n) "").

(** [node.rpc_net_listening()['result'] is b] *)
Definition check_listening (sc_node : proxy) (b : bool) : MF unit :=
  let! r := call sc_node "rpc_net_listening" [] in
  let% v := getitem r "result" in
  lift (assert_true (match v with PBool c => Bool.eqb b c | _ => false end) "").

Definition SCEvmRpcNetMethods_run_test (fuel : nat) : MF unit :=
  let! sc1 := sc 0 in
  let! sc2 := sc 1 in
  do! connect_sc_nodes fuel sc1 1 (secs 25) in
  do! check_net_peers sc1 1 in
  do! check_net_peers sc2 1 in
  do! check_listening sc1 true in
  do! check_listening sc2 false in
  let! l := get_sc_nodes in
  do! disconnect_sc_nodes_bi l 0 1 in
  do! check_net_peers sc1 0 in
  do! check_net_peers sc2 0 in
  do! check_listening sc1 true in
  do! check_listening sc2 true in
  let! r := call sc1 "rpc_net_version" [] in
  let% v := getitem r "result" in
  let% version := py_int v in
  lift (assert_true (version =? 1000000001) "").

Definition SCEvmRpcNetMethods (fuel : nat) (o : Options) (shared : SCForgerConfiguration) : TestClass W :=
  AccountChainSetup_class fuel o (ac_defaults 2 10 evm_rewind None 1 false DEFAULT_TX_LIFETIME) shared
    (SCEvmRpcNetMethods_run_test fuel).

(** ** sc_evm_rpc_web3_methods.py *)

(** The message of the second assertion is [response['error']], read before the
    assertion is made. *)
Definition validate (response : pyval) (expected : option string) : MF unit :=
  match expected with
  | Some e =>
      do! check_no_error response in
      let% r := getitem response "result" in
      lift (assert_equal (PStr e) r "unexpected response")
  | None =>
      let% there := has_key "error" response in
      let% message := getitem response "error" in
      lift (assert_true there (py_str message))
  end.

(** The arguments of [web3_sha3] and what is expected. *)
Definition sha3_cases : list (string * option string) :=
  [("0x68656c6c6f20776f726c64", Some "0x47173285a8d7341e5e972fc677286384f802f8ef42a5ec5f03bbfa254cb01fad");
   ("0x68656C6C6F20776F726C64", Some "0x47173285a8d7341e5e972fc677286384f802f8ef42a5ec5f03bbfa254cb01fad");
   ("0x", Some "0xc5d2460186f7233c927e7db2dcc703c0e500b653ca82273b7bfad8045d85a470");
   ("0X68656C6C6F20776F726C64", None); ("0x68656c6c6f20776f726c642", None); ("0x68656c6c6f20776f726c6w", None);
   ("68656c6c6f20776f726c6w", None); ("68656c6c6f20776f726c64", None); ("", None)].

Definition SCEvmRpcWeb3Methods_run_test : MF unit :=
  let! sc1 := sc 0 in
  let! r := call sc1 "rpc_web3_clientVersion" [] in
  let% v := getitem r "result" in
  let clientVersion := py_str v in
  do% assert_true (startswith clientVersion "dev/") "" in
  let parts := split_char "/" clientVersion in
  let% sdk := list_index parts 1 in
  do% assert_true (search_three_digits sdk) "" in
  let% architecture := list_index parts 2 in
  do% assert_true ((0 <? String.length architecture)%nat && negb (String.eqb architecture "dev")) "" in
  let% jdk := list_index parts 3 in
  do% assert_true (search_jdk jdk) "" in
  forM_ sha3_cases (λ '(input, expected),
    let! response := call sc1 "rpc_web3_sha3" [PStr input] in validate response expected).

Definition SCEvmRpcWeb3Methods (fuel : nat) (o : Options) (shared : SCForgerConfiguration) : TestClass W :=
  AccountChainSetup_class fuel o (ac_simple 1 10) shared SCEvmRpcWeb3Methods_run_test.

(** ** sc_evm_rpc_invalid_blocks.py *)

(** [assert_response(response)] and [assert_response(response, expect_error=True)] *)
Definition assert_response (response : pyval) (expect_error : bool) : MF unit :=
  if expect_error then check_error response
  else
    do! check_no_error response in
    let% r := getitem response "result" in
    lift (assert_equal PNone r "unexpected response").

Definition rpc_checks (node : proxy) (checks : list (string * list pyval * bool)) : MF unit :=
  forM_ checks (λ '(method, args, expect_error),
    let! response := call node method args in assert_response response expect_error).

Definition by_number (node : proxy) (evm_address : pyval) (number : string) : MF unit :=
  rpc_checks node
    [("rpc_eth_getBlockByNumber", [PStr number; PBool false], false);
     ("rpc_eth_getBlockTransactionCountByNumber", [PStr number], false);
     ("rpc_eth_getTransactionByBlockNumberAndIndex", [PStr number; PStr "0x0"], false);
     ("rpc_eth_getTransactionByBlockNumberAndIndex", [PStr number; PStr "0x200"], false);
     ("rpc_eth_getCode", [evm_address; PStr number], true);
     ("rpc_eth_getProof", [evm_address; PList []; PStr number], false);
     ("rpc_eth_getBalance", [evm_address; PStr number], true);
     ("rpc_eth_getTransactionCount", [evm_address; PStr number], true);
     ("rpc_debug_traceBlockByNumber", [PStr number], false)].

Definition by_hash (node : proxy) (block_hash : string) : MF unit :=
  rpc_checks node
    [("rpc_eth_getBlockByHash", [PStr block_hash; PBool false], false);
     ("rpc_eth_getTransactionByBlockHashAndIndex", [PStr block_hash; PStr "0x0"], false);
     ("rpc_eth_getTransactionByBlockHashAndIndex", [PStr block_hash; PStr "0x200"], false);
     ("rpc_debug_traceBlockByHash", [PStr block_hash], false)].

Definition SCEvmRpcInvalidBlocks_run_test (fuel : nat) : MF unit :=
  let! s := sc_ac_setup fuel true true default_ft in
  let! sc_node := sc 0 in
  do! generate_next_blocks sc_node "first node" 4 in
  do! by_number sc_node (ac_evm_address s) "0x100" in
  do! by_number sc_node (ac_evm_address s) "0x1234" in
  do! by_hash sc_node "0x0000000000000000000000000000000000000000000000000000000000001234" in
  by_hash sc_node "0x00000000000000000000000000000000000000000000000000000000deadbeef".

Definition SCEvmRpcInvalidBlocks (fuel : nat) (o : Options) (shared : SCForgerConfiguration) : TestClass W :=
  AccountChainSetup_class fuel o (ac_simple 1 50) shared (SCEvmRpcInvalidBlocks_run_test fuel).

(** ** sc_evm_rpc_invalid_txs.py *)

(** [sc_node.wallet_createPrivateKeySecp256k1()["result"]["proposition"]["address"]] *)
Definition new_evm_address (sc_node : proxy) : MF pyval :=
  let! r := call sc_node "wallet_createPrivateKeySecp256k1" [] in lift (getpath r ["result"; "proposition"; "address"]).

(** The transaction is refused with the text about intrinsic gas. *)
Definition refused_by_gas (sc_node : proxy) (from_addr to_addr : pyval) : MF bool :=
  catch (
    let% wei := convertZenToWei (PInt 1) in
    do! eoa_transaction sc_node RPC_LEGACY false from_addr to_addr (PInt wei) (PInt 20000) (PInt 875000000) (PInt 1)
      (PInt 875000000) (PStr "0x") PNone (PStr "latest") in
    ret false)
  (λ e, match e with
        | RuntimeError m | EvmExecutionError m => ret (search_both "gas limit " " is below intrinsic gas" m)
        | _ => raise e
        end).

Definition SCEvmRPCInvalidTx_run_test (fuel : nat) : MF unit :=
  let! sc_node := sc 0 in
  let! s := sc_ac_setup fuel true true ft_3000 in
  let! address2 := new_evm_address sc_node in
  let! refused := refused_by_gas sc_node (ac_evm_address s) address2 in
  lift (assert_true refused "invalid transaction should be rejected by RPC api").

Definition SCEvmRPCInvalidTx (fuel : nat) (o : Options) (shared : SCForgerConfiguration) : TestClass W :=
  AccountChainSetup_class fuel o (ac_simple 1 20) shared (SCEvmRPCInvalidTx_run_test fuel).

(** ** sc_evm_base_fee.py *)

(** [if self.options.all_forks: exit()] *)
Definition not_with_all_forks (o : Options) : MF unit := when (all_forks o) (raise (SystemExit 0)).

(** A number in the header of the best block. *)
Definition check_header (sc_node : proxy) (field : string) (n : Z) : MF unit :=
  let! sc_best_block := best sc_node in
  let% v := getpath sc_best_block ["block"; "header"; field] in
  lift (assert_equal (PInt n) v "").

Definition send_legacy (sc_node : proxy) (from to : pyval) (wei nonce : Z) : MF pyval :=
  createLegacyTransaction sc_node (mkTxArgs from to (PInt nonce) (PInt 21000) (PInt wei) (PStr "") PNone PNone PNone)
    (PInt 1000000000) PNone false.

(** Two coins to a key generated from the seed. *)
Definition base_fee_transfer (sc_node : proxy) (from : pyval) (seed : string) (nonce : Z) : MF unit :=
  let! keys := generate_account_proposition seed 1 AccountModel in
  let% recipient := list_index keys 0 in
  let% wei := convertZenToWei (PDec (Dec 2 0)) in
  do! send_legacy sc_node from (proposition recipient) wei nonce in ret tt.

Definition SCEvmBaseFee_run_test (fuel : nat) (o : Options) : MF unit :=
  do! not_with_all_forks o in
  let! s := sc_ac_setup fuel true true default_ft in
  let! sc_node := sc 0 in
  let% from := remove_0x_prefix (ac_evm_address s) in
  do! check_header sc_node "baseFee" 875000000 in
  do! generate_next_block sc_node "first node" true PNone in
  do! check_header sc_node "baseFee" 765625000 in
  do! base_fee_transfer sc_node from "seed3" 0 in
  do! base_fee_transfer sc_node from "seed4" 1 in
  do! generate_next_blocks sc_node "first node" 1 in
  let! sc_best_block := best sc_node in
  let% gas := getpath sc_best_block ["block"; "header"; "gasUsed"] in
  do% assert_equal (PInt (21000 * 2)) gas "" in
  let% fee := getpath sc_best_block ["block"; "header"; "baseFee"] in
  lift (assert_equal (PInt 669921875) fee "").

Definition SCEvmBaseFee (fuel : nat) (o : Options) (shared : SCForgerConfiguration) : TestClass W :=
  AccountChainSetup_class fuel o (ac_simple 1 10) shared (SCEvmBaseFee_run_test fuel o).

(** ** sc_evm_gas_fee_fork.py *)

(** [sc_node.block_forgingInfo()["result"]["bestBlockEpochNumber"]] *)
Definition current_epoch (sc_node : proxy) : MF pyval :=
  let! r := call sc_node "block_forgingInfo" [] in lift (getpath r ["result"; "bestBlockEpochNumber"]).

Fixpoint advance_loop (fuel : nat) (sc_node : proxy) (epoch_number : Z) (epoch : pyval) : MF unit :=
  match fuel with
  | O => out_of_fuel
  | S f =>
      let% more := py_lt epoch (PInt epoch_number) in
      if more then
        do! generate_next_block sc_node "first node" true PNone in
        do! sc_sync_all fuel false in
        let! epoch := current_epoch sc_node in
        advance_loop f sc_node epoch_number epoch
      else ret tt
  end.

Definition advance_to_epoch (fuel : nat) (sc_node : proxy) (epoch_number : Z) : MF unit :=
  let! epoch := current_epoch sc_node in
  let% past := py_gt epoch (PInt epoch_number) in
  do% assert_false past "unexpected epoch number" in
  advance_loop fuel sc_node epoch_number epoch.

Definition assert_block_gas_limit (sc_node : proxy) (expected_gas_limit : Z) : MF unit :=
  let! r := call sc_node "rpc_eth_getBlockByNumber" [PStr "latest"; PBool false] in
  let% v := getpath r ["result"; "gasLimit"] in
  let% block_gas_limit := py_int_base v 16 in
  lift (assert_equal (PInt expected_gas_limit) (PInt block_gas_limit) "unexpected block gas limit").

Definition deploy_with_gas_limit (sc_node : proxy) (evm_address : pyval) (gas_limit : Z) (should_fail : bool)
    : MF unit :=
  let! smart_contract := SmartContract_init "TestERC20" in
  let! failure := catch (
      do! deploy smart_contract sc_node [] RPC_LEGACY evm_address (default_tx_options (PInt gas_limit)) in ret None)
    (λ e, if is_Exception e then ret (Some e) else raise e) in
  match failure with
  | Some e => when (negb should_fail) (lift (fail ("TX should be valid: " +:+ str_exn e)))
  | None => when should_fail (lift (fail "TX should be invalid"))
  end.

Definition SCEVMGasFeeFork_run_test (fuel : nat) (o : Options) : MF unit :=
  do! not_with_all_forks o in
  let! s := sc_ac_setup fuel true true default_ft in
  let! sc_node := sc 0 in
  do! assert_block_gas_limit sc_node 30000000 in
  do! advance_to_epoch fuel sc_node 3 in
  do! assert_block_gas_limit sc_node 30000000 in
  do! advance_to_epoch fuel sc_node 4 in
  do! assert_block_gas_limit sc_node 20000000 in
  do! deploy_with_gas_limit sc_node (ac_evm_address s) 22000000 true in
  do! advance_to_epoch fuel sc_node 15 in
  do! assert_block_gas_limit sc_node 25000000 in
  do! deploy_with_gas_limit sc_node (ac_evm_address s) 22000000 false in
  do! advance_to_epoch fuel sc_node 16 in
  assert_block_gas_limit sc_node 25000000.

Definition SCEVMGasFeeFork (fuel : nat) (o : Options) (shared : SCForgerConfiguration) : TestClass W :=
  AccountChainSetup_class fuel o
    (ac_defaults 1 80 (PInt (SLOTS_IN_EPOCH * EVM_APP_SLOT_TIME * 20)) None 100 true DEFAULT_TX_LIFETIME) shared
    (SCEVMGasFeeFork_run_test fuel o).

(** ** sc_evm_mempool_timeout.py *)

(** The number of transactions in the memory pool. *)
Definition check_pool (sc_node : proxy) (n : Z) : MF unit :=
  let! response := allTransactions sc_node false in
  let% ids := getitem response "transactionIds" in
  check_length n ids "Wrong number of txs in mem pool".

Definition SCEvmMempoolTimeout_run_test (fuel : nat) (tx_lifetime : Z) : MF unit :=
  let! mc_node := mc 0 in
  let! sc1 := sc 0 in
  let! sc2 := sc 1 in
  let! address := new_evm_address sc1 in
  let! info := boot_info in
  let! mc_return_address := call mc_node "getnewaddress" [] in
  do! forward_transfer_to_sidechain (sidechain_id info) mc_node address ft_3000 mc_return_address true in
  do! sync_all fuel in
  do! generate_next_block sc1 "first node" false PNone in
  do! sc_sync_all fuel false in
  do! forM_ (zrange 2 7) (λ nonce,
    do! createEIP1559Transaction sc1
      (mkTxArgs address address (PInt nonce) (PInt 230000) (PInt 1) (PStr "") PNone PNone PNone)
      (PInt 900000000) (PInt 900000000) PNone in ret tt) in
  do! generate_next_block sc1 "first node" false PNone in
  do! check_pool sc1 5 in
  do! sc_sync_all fuel false in
  do! check_pool sc2 5 in
  do! sleep (secs tx_lifetime) in
  do! generate_next_block sc1 "first node" false PNone in
  do! sc_sync_all fuel false in
  do! check_pool sc1 0 in
  check_pool sc2 0.

Definition SCEvmMempoolTimeout (fuel : nat) (o : Options) (shared : SCForgerConfiguration) : TestClass W :=
  AccountChainSetup_class fuel o (ac_defaults 2 LARGE_WITHDRAWAL_EPOCH_LENGTH evm_rewind None 100 true 1) shared
    (SCEvmMempoolTimeout_run_test fuel 1).

(** ** sc_evm_cert_key_rotation_old_circuit.py *)

(** The reply is an error with this description. *)
Definition check_refusal (response : pyval) (description : string) : MF unit :=
  do! check_error response in
  let% d := getpath response ["error"; "description"] in
  lift (assert_equal d (PStr description) "").

Definition SCKeyRotationOldCircuitTest_run_test (fuel : nat) : MF unit :=
  do! sleep 100000 in
  do! sync_all fuel in
  let! sc_node := sc 0 in
  do! sc_ac_setup fuel true true (PInt 10) in
  do! generate_next_blocks sc_node "first node" 1 in
  do! sc_sync_all fuel false in
  let! r := http_get_certifiers_keys sc_node (PInt 0) in
  let% keys := getitem r "certifiersKeys" in
  let% signing := getitem keys "signingKeys" in
  let% k := py_len signing in
  do% assert_equal (PInt k) (PInt 7) "" in
  let% master := getitem keys "masterKeys" in
  let% k := py_len master in
  do% assert_equal (PInt k) (PInt 0) "" in
  let! response := http_get_key_rotation_proof sc_node (PInt 0) (PInt 0) (PInt 0) in
  do! check_refusal response "The current circuit doesn't support key rotation proofs!" in
  let! response := http_create_key_rotation_transaction_evm sc_node (PInt 0) (PInt 0) (PStr "0") (PStr "0") (PStr "0")
    (PStr "0") PNone PNone (PInt 900000000) (PInt 900000000) PNone in
  check_refusal response "The current circuit doesn't support key rotation transaction!".

Definition SCKeyRotationOldCircuitTest (fuel : nat) (o : Options) (shared : SCForgerConfiguration) : TestClass W :=
  AccountChainSetup_class fuel o
    (ac_defaults 1 10 evm_rewind (Some NO_KEY_ROTATION_CIRCUIT) 100 true DEFAULT_TX_LIFETIME) shared
    (SCKeyRotationOldCircuitTest_run_test fuel).
End Evm.
