(* ===== verification/CswScenarios.v ===== *)
(** * Scenarios: withdrawals from a ceased sidechain

    sc_csw_ceased_at_epoch_1.py, its variant with a large epoch and
    sc_csw_ceased_at_epoch_2.py, as test classes of the driver.  The scripts
    keep [self.sidechain_id] of the bootstrap information; here the whole
    information is kept. *)

From S2P Require Import Prelude PyStr Numbers PyVal Host Sim Json Encoding HttpProxy BootInfo McUtil ScUtil.
From S2P Require Import Forging Bootstrap Framework McFramework HttpCalls.
From Stdlib Require Import Ascii String.
From stdpp Require Import base list.
From S2P Require Import Scenarios NetScenarios ForgingScenarios StakeScenarios ChainScenarios MempoolScenarios CertScenarios.
Local Open Scope Z_scope.

(** The ids of boxes, in order. *)
Fixpoint box_ids (boxes : list pyval) : outcome (list pyval) :=
  match boxes with
  | [] => Val []
  | box :: boxes' =>
      let? id := getitem box "id" in
      let? ids := box_ids boxes' in
      Val (id :: ids)
  end.

(** [any(box["id"] == id for box in boxes)] *)
Fixpoint any_box (id : pyval) (boxes : list pyval) : outcome bool :=
  match boxes with
  | [] => Val false
  | box :: boxes' =>
      let? i := getitem box "id" in
      if py_eqb i id then Val true else any_box id boxes'
  end.

(** [Decimal(v)] of a decimal or an integer *)
Definition to_decimal (v : pyval) : outcome pyval :=
  match as_dec v with Some d => Val (PDec d) | None => Exc TypeError end.

(** The record of a withdrawal for the mainchain, from the information of its box;
    [active] when the sidechain has an active certificate. *)
Definition sc_csw_of (active : bool) (csw_info amount : pyval) : outcome pyval :=
  let? sender := getpath csw_info ["proofInfo"; "receiverAddress"] in
  let? scId := getitem csw_info "scId" in
  let? nullifier := getitem csw_info "nullifier" in
  let? cert := (if active then getitem csw_info "activeCertData" else Val (PStr "")) in
  let? tree := getitem csw_info "ceasingCumScTxCommTree" in
  let? proof := getpath csw_info ["proofInfo"; "scProof"] in
  Val (PDict [("amount", PStr (py_str amount)); ("senderAddress", sender); ("scId", scId); ("nullifier", nullifier);
              ("activeCertData", cert); ("ceasingCumScTxCommTree", tree); ("scProof", proof)]).

Section Csw.
Context {W : Type} `{Nodes W, Clock W, Os W, Rng W}.
Local Abbreviation MF := (M (FW W)).

(** ** Setup *)

Definition csw_sc_setup_chain (o : Options) (shared : SCForgerConfiguration) (enabled csw : bool) (epoch_length : Z)
    : MF unit :=
  let! mc_node := mc 0 in
  let! connection := ws_connection mc_node 0 in
  let configuration := SCNodeConfiguration_init connection enabled enabled None 100 100 "2m" true
    (PFloat (float_of_dec (Dec 1 (-4)))) shared 300 0 DEFAULT_API_KEY 10000000 [] false PNone [] None [] "15m" "5m"
    false 0 true DEFAULT_MAX_NONCE_GAP DEFAULT_MAX_ACCOUNT_SLOTS DEFAULT_MAX_MEMPOOL_SLOTS
    DEFAULT_MAX_NONEXEC_POOL_SLOTS DEFAULT_TX_LIFETIME true true in
  let% sci := SCCreationInfo_init mc_node (PInt 1000) epoch_length 0 SC_CREATION_VERSION_1 7 5 csw false
    NO_KEY_ROTATION_CIRCUIT in
  let! info := bootstrap_sidechain_nodes (run_options_of o) (mkSCNetworkConfiguration sci [configuration])
    DefaultBlockTimestampRewind DefaultModel in
  put_info info.

(** ** Steps *)

(** [sc_node.csw_isCSWEnabled()["result"]["cswEnabled"]] *)
Definition check_csw_enabled (sc_node : proxy) : MF unit :=
  let! r := call sc_node "csw_isCSWEnabled" [] in
  let% enabled := getpath r ["result"; "cswEnabled"] in
  lift (assert_true (truthy enabled) "Ceased Sidechain Withdrawal expected to be enabled.").

(** The fields of the transaction that created the sidechain. *)
Definition check_creation_fields (csw : bool) (out : pyval) : outcome unit :=
  let expected := PList (map PInt (if csw then certificate_field_config_csw_enabled
                                   else certificate_field_config_csw_disabled)) in
  let? config := getitem out "vFieldElementCertificateFieldConfig" in
  let? _ := assert_true (py_eqb config expected)
    ("Custom Field Elements Configuration in MC are wrong. Expected: " +:+ py_str expected
     +:+ ", actual: " +:+ py_str config) in
  let? there := has_key "wCeasedVk" out in
  if csw then assert_true there "CSW verification key should be present"
  else assert_false there "CSW verification key should not be present".

(** The transaction that created the sidechain, on both chains. *)
Definition check_csw_creation (csw : bool) (mc_node sc_node : proxy) : MF unit :=
  let! height := call mc_node "getblockcount" [] in
  let! mc_block := call mc_node "getblock" [PStr (py_str height)] in
  let% txs := getitem mc_block "tx" in
  let% tx_id := getindex txs 1 in
  let! tx := call mc_node "getrawtransaction" [tx_id; PInt 1] in
  let% outs := getitem tx "vsc_ccout" in
  let% out := getindex outs 0 in
  do% check_creation_fields csw out in
  let% hash := getitem tx "blockhash" in
  let! id := best_id sc_node in
  check_mcreference_presence hash id sc_node.

(** A forward transfer to a new address. *)
Definition csw_transfer (mc_node sc_node : proxy) (amount : Z) (generate_block : bool) : MF unit :=
  let! address := new_address sc_node in
  let! mc_return_address := call mc_node "getnewaddress" [] in
  let! info := boot_info in
  do! forward_transfer_to_sidechain (sidechain_id info) mc_node address (PInt amount) mc_return_address generate_block in
  ret tt.

(** [sc_node.wallet_allBoxes({"boxTypeClass": type, ...})["result"]["boxes"]] *)
Definition boxes_of (sc_node : proxy) (type : string) (more : list (string * pyval)) : MF pyval :=
  let! r := post sc_node "wallet_allBoxes" ([("boxTypeClass", PStr type)] ++ more) PNone in
  lift (getpath r ["result"; "boxes"]).

Definition zen_boxes (sc_node : proxy) (more : list (string * pyval)) : MF pyval := boxes_of sc_node "ZenBox" more.

(** The first box of the wallet that is none of the given ones. *)
Definition new_box (sc_node : proxy) (known : list pyval) : MF pyval :=
  let% ids := box_ids known in
  let! boxes := zen_boxes sc_node [("excludeBoxIds", PList ids)] in
  lift (getindex boxes 0).

(** A box is spent and its value sent to a new address of the same wallet. *)
Definition resend (sc_node : proxy) (box : pyval) : MF unit :=
  let! address := new_address sc_node in
  let% id := getitem box "id" in
  let% value := getitem box "value" in
  let! r := post sc_node "transaction_createCoreTransaction"
    [("transactionInputs", PList [PDict [("boxId", id)]]);
     ("regularOutputs", PList [PDict [("publicKey", address); ("value", value)]]);
     ("withdrawalRequests", PList []); ("forgerOutputs", PList [])] PNone in
  let% raw_tx := getitem r "result" in
  let% text := dumps raw_tx in
  let! r := call sc_node "transaction_sendTransaction" [PStr text] in
  do% getitem r "result" in ret tt.

(** Two transfers in one block, the first box spent: both boxes and the new one. *)
Definition csw_first_transfers (mc_node sc_node : proxy) : MF (pyval * pyval * pyval) :=
  do! csw_transfer mc_node sc_node 10 false in
  do! sleep (secs 1) in
  do! csw_transfer mc_node sc_node 20 true in
  do! forge sc_node in
  let! boxes := zen_boxes sc_node [] in
  let% ft_box_1 := getindex boxes 0 in
  let% ft_box_2 := getindex boxes 1 in
  do! resend sc_node ft_box_1 in
  do! check_one_pooled sc_node in
  do! forge sc_node in
  let! utxo_box_1 := new_box sc_node [ft_box_2] in
  ret (ft_box_1, ft_box_2, utxo_box_1).

(** A transfer that is spent and one that is not: the three boxes, in the order
    they appear.  The [known] boxes are those of the wallet before. *)
Definition csw_more_transfers (mc_node sc_node : proxy) (amount1 amount2 : Z) (known : list pyval)
    : MF (pyval * pyval * pyval) :=
  do! csw_transfer mc_node sc_node amount1 true in
  do! forge sc_node in
  let! ft_box := new_box sc_node known in
  do! resend sc_node ft_box in
  do! forge sc_node in
  let! utxo_box := new_box sc_node known in
  do! csw_transfer mc_node sc_node amount2 true in
  do! forge sc_node in
  let! last_box := new_box sc_node (known ++ [utxo_box]) in
  ret (ft_box, utxo_box, last_box).

(** The last mainchain blocks of an epoch: the hash of the last one. *)
Definition csw_epoch_end (mc_node : proxy) (blocks : Z) : MF pyval :=
  let! hashes := call mc_node "generate" [PInt blocks] in
  let% hash := getindex hashes (-1) in
  do% log_concat hash in
  let! json := call mc_node "getblock" [hash] in
  let% root := getitem json "scCumTreeHash" in
  do% log_concat root in
  ret hash.

(** The mainchain blocks of the end of an epoch, and a sidechain block with them. *)
Definition csw_finish_epoch (mc_node sc_node : proxy) (blocks : Z) : MF unit :=
  let! hash := csw_epoch_end mc_node blocks in
  let! id := generate_next_block sc_node "first node" false PNone in
  check_mcreferencedata_presence hash id sc_node.

(** [sc_node.csw_hasCeased()["result"]["state"]] *)
Definition has_ceased (sc_node : proxy) : MF pyval :=
  let! r := call sc_node "csw_hasCeased" [] in lift (getpath r ["result"; "state"]).

(** The boxes of the wallet, all of the first kind and none of the second. *)
Definition check_wallet_boxes (sc_node : proxy) (closed opened : list pyval) : MF unit :=
  let% closed_ids := box_ids closed in
  let% opened_ids := box_ids opened in
  let! boxes := zen_boxes sc_node [] in
  let% l := py_iter boxes in
  do! forM_ closed_ids (λ id,
    let% there := any_box id l in
    do% log_concat id in
    lift (assert_true there ("Closed box not found in the wallet: " +:+ py_str id))) in
  forM_ opened_ids (λ id,
    let% there := any_box id l in
    do% log_concat id in
    lift (assert_false there ("Opened box appeared in the wallet: " +:+ py_str id))).

(** The boxes that can be withdrawn are the given ones. *)
Definition check_csw_boxes (sc_node : proxy) (csw_boxes : list pyval) : MF unit :=
  let! r := call sc_node "csw_cswBoxIds" [] in
  let% actual := getpath r ["result"; "cswBoxIds"] in
  let% k := py_len actual in
  do% assert_equal (PInt (Z.of_nat (length csw_boxes))) (PInt k) "Different CSW box ids found." in
  forM_ csw_boxes (λ box,
    let% id := getitem box "id" in
    let% there := py_in id actual in
    do% log_concat id in
    lift (assert_true there ("CSW box id not found: " +:+ py_str id))).

(** Whether the nullifier of the box, which is also returned, is on the mainchain. *)
Definition nullifier_state (mc_node sc_node : proxy) (id : pyval) : MF (pyval * pyval) :=
  let! r := post sc_node "csw_nullifier" [("boxId", id)] PNone in
  let% nullifier := getpath r ["result"; "nullifier"] in
  let! info := boot_info in
  let! r := call mc_node "checkcswnullifier" [sidechain_id info; nullifier] in
  let% present := getitem r "data" in
  ret (nullifier, present).

(** [sc_node.csw_cswInfo({"boxId": id})["result"]["cswInfo"]] *)
Definition csw_info_of (sc_node : proxy) (id : pyval) : MF pyval :=
  let! r := post sc_node "csw_cswInfo" [("boxId", id)] PNone in lift (getpath r ["result"; "cswInfo"]).

(** A box that nobody has asked a proof for: [kind] is the type expected of it and
    [active] says whether the sidechain has an active certificate. *)
Definition check_csw_absent (kind : pyval → outcome string) (active : bool) (mc_node sc_node : proxy)
    (tree box : pyval) : MF unit :=
  let% id := getitem box "id" in
  let! '(nullifier, present) := nullifier_state mc_node sc_node id in
  do% assert_equal (PStr "false") present "Nullifier must not be present in the MC." in
  let! csw_info := csw_info_of sc_node id in
  let% type := kind box in
  let% cswType := getitem csw_info "cswType" in
  do% assert_equal (PStr type) cswType "Type is different." in
  let% value := getitem box "value" in
  let% amount := getitem csw_info "amount" in
  do% assert_equal value amount "Amount is different." in
  let! info := boot_info in
  let% scId := getitem csw_info "scId" in
  do% assert_equal (sidechain_id info) scId "Sidechain id is different." in
  let% n := getitem csw_info "nullifier" in
  do% assert_equal nullifier n "Nullifier is different." in
  let% there := has_key "activeCertData" csw_info in
  do% (if active then assert_true there "ActiveCertData must exist."
       else assert_false there "ActiveCertData must not exist.") in
  let% t := getitem csw_info "ceasingCumScTxCommTree" in
  do% assert_equal tree t "CeasingCumScTxCommTree is different." in
  let% proof_info := getitem csw_info "proofInfo" in
  let% proof := has_key "scProof" proof_info in
  do% assert_false proof "scProof must not exist." in
  let% receiver := has_key "receiverAddress" proof_info in
  do% assert_false receiver "receiverAddress must not exist." in
  let% status := getitem proof_info "status" in
  lift (assert_equal (PStr "Absent") status "Proof must be absent.").

(** The proofs are asked for, each with a new receiver. *)
Definition start_proofs (mc_node sc_node : proxy) (ids : list pyval) : MF unit :=
  forM_ ids (λ id,
    let! receiver := call mc_node "getnewaddress" [] in
    let! r := post sc_node "csw_generateCswProof" [("boxId", id); ("receiverAddress", receiver)] PNone in
    let% state := getpath r ["result"; "state"] in
    lift (assert_equal (PStr "ProofGenerationStarted") state "Different proof generation state found")).

Fixpoint wait_proofs (attempts : nat) (sc_node : proxy) (ids : list pyval) : MF unit :=
  let! generated := if_csws_were_generated sc_node ids true in
  if generated then ret tt
  else match attempts with
       | O => ret tt
       | S a => do! sleep (secs 10) in wait_proofs a sc_node ids
       end.

(** The withdrawal of one box: a transaction that must be in the memory pool. *)
Definition send_csw (active : bool) (mc_node sc_node : proxy) (out_key : string) (id : pyval) : MF unit :=
  let! csw_info := csw_info_of sc_node id in
  let% a := getitem csw_info "amount" in
  let% d := to_decimal a in
  let% amount := py_truediv d (PInt 100000000) in
  let% sc_csw := sc_csw_of active csw_info amount in
  do! sleep (secs 1) in
  let! rawtx := call mc_node "createrawtransaction"
    [PList []; PDict [(out_key, PStr (py_str amount))]; PList [sc_csw]] in
  let! funded := call mc_node "fundrawtransaction" [rawtx] in
  let% hex := getitem funded "hex" in
  let! signed := call mc_node "signrawtransaction" [hex; PNone; PNone; PStr "NONE"] in
  let% hex := getitem signed "hex" in
  let! final := call mc_node "sendrawtransaction" [hex] in
  let! pool := call mc_node "getrawmempool" [] in
  let% there := py_in final pool in
  lift (assert_true there "").

(** All of them, a block after every fifth. *)
Fixpoint send_csws (active : bool) (mc_node sc_node : proxy) (out_key : string) (csw_txs : Z) (ids : list pyval)
    : MF unit :=
  match ids with
  | [] => ret tt
  | id :: ids' =>
      do! send_csw active mc_node sc_node out_key id in
      do! when ((csw_txs + 1) mod 5 =? 0) (do! call mc_node "generate" [PInt 1] in ret tt) in
      send_csws active mc_node sc_node out_key (csw_txs + 1) ids'
  end.

(** Every nullifier is on the mainchain. *)
Definition check_nullifiers (mc_node sc_node : proxy) (ids : list pyval) : MF unit :=
  forM_ ids (λ id,
    let! '(_, present) := nullifier_state mc_node sc_node id in
    do% log_concat id in
    lift (assert_equal (PStr "true") present ("Nullifier for box id = " +:+ py_str id +:+ " must be present in the MC."))).

(** The withdrawals of the boxes: absent, proved, sent, present.  The coins may
    need some [mature] blocks more before that. *)
Definition csw_withdraw (kind : pyval → outcome string) (active : bool) (mature : option Z) (attempts : nat)
    (mc_node sc_node : proxy) (csw_boxes : list pyval) : MF unit :=
  do! check_csw_boxes sc_node csw_boxes in
  let! info := boot_info in
  let! r := call mc_node "getceasingcumsccommtreehash" [sidechain_id info] in
  let% tree := getitem r "ceasingCumScTxCommTree" in
  do! forM_ csw_boxes (check_csw_absent kind active mc_node sc_node tree) in
  do! match mature with Some n => do! call mc_node "generate" [PInt n] in ret tt | None => ret tt end in
  let% ids := box_ids csw_boxes in
  do% assert_true (0 <? length ids)%nat "csw box ids expected to be defined." in
  do! start_proofs mc_node sc_node ids in
  do! wait_proofs attempts sc_node ids in
  let! generated := if_csws_were_generated sc_node ids false in
  do% assert_true generated "Some CSW proof was not generated." in
  let! out := call mc_node "getnewaddress" [] in
  let% out_key := as_key out in
  do! send_csws active mc_node sc_node out_key 0 ids in
  do! call mc_node "generate" [PInt 1] in
  check_nullifiers mc_node sc_node ids.

(** The type of the boxes of forward transfers. *)
Definition transferred (box : pyval) : outcome string := Val "ForwardTransferCswData".

(** The start of the scripts: both nodes, after a moment. *)
Definition csw_start (fuel : nat) : MF (proxy * proxy) :=
  do! sleep 100000 in
  do! sync_all fuel in
  let! mc_node := mc 0 in
  let! sc_node := sc 0 in
  ret (mc_node, sc_node).

(** The sidechain has ceased for both nodes. *)
Definition check_ceased (mc_node sc_node : proxy) : MF unit :=
  do! check_sc_state mc_node "CEASED" "Sidechain expected to be ceased." in
  let! ceased := has_ceased sc_node in
  lift (assert_true (truthy ceased) "Sidechain expected to be ceased.").

(** ** sc_csw_ceased_at_epoch_1.py *)

Definition SCCswCeasedAtEpoch1_sc_setup_chain (o : Options) (shared : SCForgerConfiguration) : MF unit :=
  csw_sc_setup_chain o shared false true 10.

Definition SCCswCeasedAtEpoch1_run_test (fuel : nat) : MF unit :=
  let! '(mc_node, sc_node) := csw_start fuel in
  do! check_csw_enabled sc_node in
  do! check_csw_creation true mc_node sc_node in
  let! '(ft1, ft2, utxo1) := csw_first_transfers mc_node sc_node in
  do! csw_finish_epoch mc_node sc_node (10 - 1 - 1) in
  let! '(ft3, utxo2, ft4) := csw_more_transfers mc_node sc_node 15 17 [ft2; utxo1] in
  do! check_ceased mc_node sc_node in
  do! check_wallet_boxes sc_node [ft2; ft4; utxo1; utxo2] [ft1; ft3] in
  do! check_csw_enabled sc_node in
  csw_withdraw transferred false None 100 mc_node sc_node [ft1; ft2; ft3; ft4].

Definition SCCswCeasedAtEpoch1 (fuel : nat) (o : Options) (shared : SCForgerConfiguration) : TestClass W :=
  pool_scenario fuel o 1 (SCCswCeasedAtEpoch1_sc_setup_chain o shared) (SCCswCeasedAtEpoch1_run_test fuel).

(** ** sc_csw_ceased_at_epoch_1_with_large_epoch_length.py *)

Definition SCCswCeasedAtEpoch1WithLargeEpochLength_sc_setup_chain (o : Options) (shared : SCForgerConfiguration)
    : MF unit :=
  csw_sc_setup_chain o shared false true LARGE_WITHDRAWAL_EPOCH_LENGTH.

(** The end of the first epoch, which takes several sidechain blocks. *)
Definition csw_finish_large_epoch (mc_node sc_node : proxy) (blocks : Z) : MF unit :=
  let! hash := csw_epoch_end mc_node blocks in
  do! generate_next_blocks sc_node "first node" (Z.max 1 (blocks / 10)) in
  let! r := call sc_node "mainchain_bestBlockReferenceInfo" [] in
  let% found := getpath r ["result"; "blockReferenceInfo"; "hash"] in
  lift (assert_equal hash found "").

(** The rest of the submission window. *)
Definition csw_leave_window (mc_node sc_node : proxy) (left : Z) : MF unit :=
  when (left >? 0) (
    do! call mc_node "generate" [PInt (left - 1)] in
    do! generate_next_blocks sc_node "first node" (left / 10) in
    do! call mc_node "generate" [PInt 1] in
    do! generate_next_block sc_node "first node" false PNone in ret tt).

(** The arguments of the assertion on [has_ceased] are swapped: the text, which
    is true, is its condition. *)
Definition SCCswCeasedAtEpoch1WithLargeEpochLength_run_test (fuel : nat) : MF unit :=
  let length := LARGE_WITHDRAWAL_EPOCH_LENGTH in
  let! '(mc_node, sc_node) := csw_start fuel in
  let! '(ft1, ft2, utxo1) := csw_first_transfers mc_node sc_node in
  do! csw_finish_large_epoch mc_node sc_node (length - 1 - 1) in
  let! '(ft3, utxo2, ft4) := csw_more_transfers mc_node sc_node 15 17 [ft2; utxo1] in
  do! csw_leave_window mc_node sc_node (length / 5 - length + (length - 1 - 1)) in
  do! check_sc_state mc_node "CEASED" "Sidechain expected to be ceased." in
  let! ceased := has_ceased sc_node in
  do% assert_true true (py_str ceased) in
  do! check_wallet_boxes sc_node [ft2; ft4; utxo1; utxo2] [ft1; ft3] in
  csw_withdraw transferred false None 200 mc_node sc_node [ft1; ft2; ft3; ft4].

Definition SCCswCeasedAtEpoch1WithLargeEpochLength (fuel : nat) (o : Options) (shared : SCForgerConfiguration)
    : TestClass W :=
  pool_scenario fuel o 1 (SCCswCeasedAtEpoch1WithLargeEpochLength_sc_setup_chain o shared)
    (SCCswCeasedAtEpoch1WithLargeEpochLength_run_test fuel).

(** ** sc_csw_ceased_at_epoch_2.py *)

Definition SCCswCeasedAtEpoch2_sc_setup_chain (o : Options) (shared : SCForgerConfiguration) : MF unit :=
  csw_sc_setup_chain o shared true true 10.

(** A mainchain block, and a sidechain block that refers to it. *)
Definition csw_referenced_block (mc_node sc_node : proxy) : MF unit :=
  let! hash := mine mc_node in
  let! id := forge sc_node in
  check_mcreference_presence hash id sc_node.

(** The loop that waits for the certificate, with a call that keeps the
    connection to the sidechain node alive. *)
Fixpoint wait_pinging (fuel : nat) (mc_node sc_node : proxy) : MF unit :=
  match fuel with
  | O => out_of_fuel
  | S f =>
      let! size := mc_pool_size mc_node in
      if py_eqb size (PInt 0) then
        let! active := generating sc_node in
        if active then
          do! sleep (secs 2) in
          do! call sc_node "block_best" [] in
          wait_pinging f mc_node sc_node
        else ret tt
      else ret tt
  end.

(** The certificate appears in the memory pool of the mainchain node. *)
Definition await_certificate (seconds : Z) (fuel : nat) (mc_node sc_node : proxy) : MF unit :=
  do! sleep (secs seconds) in
  do! wait_pinging fuel mc_node sc_node in
  let! size := mc_pool_size mc_node in
  lift (assert_equal (PInt 1) size "Certificate was not added to Mc node mempool.").

Definition csw_certificate : nat → proxy → proxy → MF unit := await_certificate 10.

Definition SCCswCeasedAtEpoch2_run_test (fuel : nat) : MF unit :=
  let! '(mc_node, sc_node) := csw_start fuel in
  do! check_csw_enabled sc_node in
  do! check_csw_creation true mc_node sc_node in
  let! '(ft1, ft2, utxo1) := csw_first_transfers mc_node sc_node in
  do! csw_finish_epoch mc_node sc_node (10 - 1 - 1) in
  do! csw_referenced_block mc_node sc_node in
  do! csw_certificate fuel mc_node sc_node in
  do! csw_referenced_block mc_node sc_node in
  let! '(ft3, utxo2, ft4) := csw_more_transfers mc_node sc_node 15 17 [ft2; utxo1] in
  do! call sc_node "submitter_disableCertificateSubmitter" [] in
  do! call sc_node "submitter_disableCertificateSigner" [] in
  do! csw_finish_epoch mc_node sc_node (10 - 1 - 1 - 1 - 1) in
  let! '(ft5, utxo3, ft6) := csw_more_transfers mc_node sc_node 22 27 [ft2; utxo1; ft4; utxo2] in
  do! check_ceased mc_node sc_node in
  do! check_wallet_boxes sc_node [ft2; ft4; ft6; utxo1; utxo2; utxo3] [ft1; ft3; ft5] in
  do! check_csw_enabled sc_node in
  csw_withdraw transferred false None 150 mc_node sc_node [ft1; ft2; ft3; ft4; ft5; ft6].

Definition SCCswCeasedAtEpoch2 (fuel : nat) (o : Options) (shared : SCForgerConfiguration) : TestClass W :=
  pool_scenario fuel o 1 (SCCswCeasedAtEpoch2_sc_setup_chain o shared) (SCCswCeasedAtEpoch2_run_test fuel).

(** ** sc_csw_ceased_at_epoch_3.py *)

Definition SCCswCeasedAtEpoch3_sc_setup_chain (o : Options) (shared : SCForgerConfiguration) : MF unit :=
  csw_sc_setup_chain o shared true true 10.

(** The first part of an epoch: a block, the certificate of the epoch before, and
    the block that takes it. *)
Definition csw_certified_epoch (fuel : nat) (mc_node sc_node : proxy) : MF unit :=
  do! csw_referenced_block mc_node sc_node in
  do! csw_certificate fuel mc_node sc_node in
  csw_referenced_block mc_node sc_node.

Definition disable_certificates (sc_node : proxy) : MF unit :=
  do! call sc_node "submitter_disableCertificateSubmitter" [] in
  do! call sc_node "submitter_disableCertificateSigner" [] in
  ret tt.

(** The type of a box that is in one of two lists. *)
Definition utxo_or_transferred (utxo_csw_boxes ft_csw_boxes : list pyval) (box : pyval) : outcome string :=
  if existsb (py_eqb box) utxo_csw_boxes then Val "UtxoCswData"
  else if existsb (py_eqb box) ft_csw_boxes then Val "ForwardTransferCswData"
  else let? _ := fail "Error in test flow." in Val "".

Definition SCCswCeasedAtEpoch3_run_test (fuel : nat) : MF unit :=
  let! '(mc_node, sc_node) := csw_start fuel in
  do! check_csw_enabled sc_node in
  do! check_csw_creation true mc_node sc_node in
  let! '(ft1, ft2, utxo1) := csw_first_transfers mc_node sc_node in
  do! csw_finish_epoch mc_node sc_node (10 - 1 - 1) in
  do! csw_certified_epoch fuel mc_node sc_node in
  let! '(ft3, utxo2, ft4) := csw_more_transfers mc_node sc_node 15 17 [ft2; utxo1] in
  do! csw_finish_epoch mc_node sc_node (10 - 1 - 1 - 1 - 1) in
  do! csw_certified_epoch fuel mc_node sc_node in
  let! '(ft5, utxo3, ft6) := csw_more_transfers mc_node sc_node 22 27 [ft2; utxo1; ft4; utxo2] in
  do! disable_certificates sc_node in
  do! csw_finish_epoch mc_node sc_node (10 - 1 - 1 - 1 - 1) in
  let! '(ft7, utxo4, ft8) := csw_more_transfers mc_node sc_node 7 8 [ft2; utxo1; ft4; utxo2; ft6; utxo3] in
  do! check_ceased mc_node sc_node in
  let! forger_boxes := boxes_of sc_node "ForgerBox" [] in
  let% sc_cr_utxo := getindex forger_boxes 0 in
  do! check_wallet_boxes sc_node [ft2; ft4; ft6; ft8; utxo1; utxo2; utxo3; utxo4] [ft1; ft3; ft5; ft7] in
  do! check_csw_enabled sc_node in
  let utxo_csw_boxes := [sc_cr_utxo; utxo1; ft2] in
  let ft_csw_boxes := [ft3; ft4; ft5; ft6; ft7; ft8] in
  csw_withdraw (utxo_or_transferred utxo_csw_boxes ft_csw_boxes) true (Some 3) 200 mc_node sc_node
    (utxo_csw_boxes ++ ft_csw_boxes).

Definition SCCswCeasedAtEpoch3 (fuel : nat) (o : Options) (shared : SCForgerConfiguration) : TestClass W :=
  pool_scenario fuel o 1 (SCCswCeasedAtEpoch3_sc_setup_chain o shared) (SCCswCeasedAtEpoch3_run_test fuel).

(** ** sc_csw_in_fee_payment.py *)

Definition ScCSWInFeePaymentTest_sc_setup_chain (o : Options) (shared : SCForgerConfiguration) : MF unit :=
  csw_sc_setup_chain o shared true true 10.

(** [self.FEE] *)
Definition CSW_FEE : Z := 5.

(** Coins sent to a new address of the same wallet, and a block. *)
Definition csw_send_to_self (sc_node : proxy) (amount : Z) : MF unit :=
  let! address := new_address sc_node in
  do! sendCoinsToAddress sc_node address (PInt amount) (PInt CSW_FEE) PNone in
  do! forge sc_node in ret tt.

(** Whether a box with the id is among them; all are looked at. *)
Fixpoint found_box (id : pyval) (found : bool) (boxes : list pyval) : outcome bool :=
  match boxes with
  | [] => Val found
  | box :: boxes' =>
      let? i := getitem box "id" in
      found_box id (if py_eqb i id then true else found) boxes'
  end.

(** The box of the fees of the epoch that the block ends: its id. *)
Definition fee_payment_box (sc_node : proxy) (sc_block_id : pyval) : MF pyval :=
  let! block := http_block_findById sc_node sc_block_id in
  let% hash := getpath block ["block"; "header"; "feePaymentsHash"] in
  do% assert_false (py_eqb hash (PStr (String.concat "" (repeat "0" 64)))) "" in
  let! fee_payments := http_block_getFeePayments sc_node sc_block_id in
  let% payments := getitem fee_payments "feePayments" in
  let% k := py_len payments in
  do% assert_equal (PInt k) (PInt 1) "" in
  let% payment := getindex payments 0 in
  let% id := getitem payment "id" in
  let! all_boxes := http_wallet_allBoxes sc_node PNone PNone in
  let% l := py_iter all_boxes in
  let% found := found_box id false l in
  do% assert_true found "" in
  ret id.

(** The withdrawal of the box, which pays its own fee: no other coins are added. *)
Definition send_fee_csw (mc_node sc_node : proxy) (id : pyval) : MF unit :=
  let! out := call mc_node "getnewaddress" [] in
  let! csw_info := csw_info_of sc_node id in
  let% a := getitem csw_info "amount" in
  let% d := to_decimal a in
  let% amount := py_truediv d (PInt 100000000) in
  let% sc_csw := sc_csw_of true csw_info amount in
  let% out_key := as_key out in
  do! sleep (secs 1) in
  let! rawtx := call mc_node "createrawtransaction"
    [PList []; PDict [(out_key, PStr (py_str amount))]; PList [sc_csw]] in
  let! signed := call mc_node "signrawtransaction" [rawtx; PNone; PNone; PStr "NONE"] in
  let% hex := getitem signed "hex" in
  let! final := call mc_node "sendrawtransaction" [hex] in
  let! pool := call mc_node "getrawmempool" [] in
  let% there := py_in final pool in
  lift (assert_true there "").

Definition ScCSWInFeePaymentTest_run_test (fuel : nat) : MF unit :=
  let! '(mc_node, sc_node) := csw_start fuel in
  do! check_csw_enabled sc_node in
  do! check_csw_creation true mc_node sc_node in
  do! csw_transfer mc_node sc_node 100 true in
  do! sleep (secs 1) in
  do! forge sc_node in
  do! csw_send_to_self sc_node 20 in
  do! csw_send_to_self sc_node 30 in
  let! hash := csw_epoch_end mc_node (10 - 1 - 1) in
  let! sc_block_id := generate_next_block sc_node "first node" false PNone in
  do! check_mcreferencedata_presence hash sc_block_id sc_node in
  let! id := fee_payment_box sc_node sc_block_id in
  do! csw_certified_epoch fuel mc_node sc_node in
  do! csw_finish_epoch mc_node sc_node (10 - 1 - 1) in
  do! csw_certified_epoch fuel mc_node sc_node in
  do! disable_certificates sc_node in
  do! csw_finish_epoch mc_node sc_node (10 - 1 - 1) in
  do! call mc_node "generate" [PInt 2] in
  do! forge sc_node in
  do! sleep (secs 3) in
  do! check_ceased mc_node sc_node in
  do! check_csw_enabled sc_node in
  let! r := call sc_node "csw_cswBoxIds" [] in
  let% actual := getpath r ["result"; "cswBoxIds"] in
  let% there := py_in id actual in
  do% assert_true there "" in
  do! start_proofs mc_node sc_node [id] in
  do! wait_proofs 200 sc_node [id] in
  let! generated := if_csws_were_generated sc_node [id] false in
  do% assert_true generated "Some CSW proof was not generated." in
  do! send_fee_csw mc_node sc_node id in
  do! call mc_node "generate" [PInt 1] in
  check_nullifiers mc_node sc_node [id].

Definition ScCSWInFeePaymentTest (fuel : nat) (o : Options) (shared : SCForgerConfiguration) : TestClass W :=
  pool_scenario fuel o 1 (ScCSWInFeePaymentTest_sc_setup_chain o shared) (ScCSWInFeePaymentTest_run_test fuel).

(** ** sc_csw_disabled.py *)

Definition CSW_DISABLED_ERROR_CODE : string := "0707".

Definition SCCswDisabled_sc_setup_chain (o : Options) (shared : SCForgerConfiguration) : MF unit :=
  csw_sc_setup_chain o shared true false 10.

(** The certificate of the last mainchain block: no fields of its own, and the same
    certificate on the sidechain. *)
Definition check_certificate_fields (mc_node sc_node : proxy) : MF unit :=
  let! height := call mc_node "getblockcount" [] in
  let! mc_block := call mc_node "getblock" [PStr (py_str height)] in
  let% certs := getitem mc_block "cert" in
  let% cert_id := getindex certs 0 in
  let! tx := call mc_node "getrawtransaction" [cert_id; PInt 1] in
  let% fields := getpath tx ["cert"; "vFieldElementCertificateField"] in
  let% k := py_len fields in
  do% assert_true (k =? 0) "Custom Field Elements list in certificate should be empty" in
  let! r := call sc_node "block_best" [] in
  let% sc_block := getpath r ["result"; "block"] in
  let% hash := getitem tx "blockhash" in
  let% id := getitem sc_block "id" in
  do! check_mcreference_presence hash id sc_node in
  let% data := getitem sc_block "mainchainBlockReferencesData" in
  let% first := getindex data 0 in
  let% sc_certificate := getitem first "topQualityCertificate" in
  let% fields := getitem sc_certificate "fieldElementCertificateFields" in
  let% k := py_len fields in
  do% assert_true (k =? 0) "Custom Field Elements list should be empty" in
  let% sc_hash := getitem sc_certificate "hash" in
  lift (assert_true (py_eqb cert_id sc_hash) "Certificate in SC should be the same that in MC").

(** The sidechain node is stopped and started again. *)
Definition restart_sc (fuel : nat) (o : Options) (sc_node : proxy) : MF unit :=
  do! stop_sc_node sc_node 0 in
  do! sleep (secs 5) in
  do! start_sc_node 0 (op_tmpdir o) None None None false (Some DEFAULT_API_KEY) in
  let! l := get_sc_nodes in
  do! wait_for_sc_node_initialization fuel l in
  sleep (secs 2).

(** Two more transfers, the first spent. *)
Definition csw_last_transfers (mc_node sc_node : proxy) (known : list pyval) : MF unit :=
  do! csw_transfer mc_node sc_node 7 true in
  do! forge sc_node in
  let! ft_box_7 := new_box sc_node known in
  do! resend sc_node ft_box_7 in
  do! forge sc_node in
  do! csw_transfer mc_node sc_node 8 true in
  do! forge sc_node in ret tt.

(** A method of the withdrawals answers that they are disabled. *)
Definition check_csw_refused (sc_node : proxy) (method name : string) : MF unit :=
  let! r := call sc_node method [] in
  let% code := getpath r ["error"; "code"] in
  lift (assert_equal (PStr CSW_DISABLED_ERROR_CODE) code ("Expected CSW disabled error code for " +:+ name +:+ "()")).

Definition SCCswDisabled_run_test (fuel : nat) (o : Options) : MF unit :=
  let! '(mc_node, sc_node) := csw_start fuel in
  do! check_csw_creation false mc_node sc_node in
  let! '(ft1, ft2, utxo1) := csw_first_transfers mc_node sc_node in
  do! csw_finish_epoch mc_node sc_node (10 - 1 - 1) in
  do! csw_certified_epoch fuel mc_node sc_node in
  do! check_certificate_fields mc_node sc_node in
  let! '(ft3, utxo2, ft4) := csw_more_transfers mc_node sc_node 15 17 [ft2; utxo1] in
  do! csw_finish_epoch mc_node sc_node (10 - 1 - 1 - 1 - 1) in
  do! csw_certified_epoch fuel mc_node sc_node in
  let! '(ft5, utxo3, ft6) := csw_more_transfers mc_node sc_node 22 27 [ft2; utxo1; ft4; utxo2] in
  do! disable_certificates sc_node in
  do! csw_finish_epoch mc_node sc_node (10 - 1 - 1 - 1 - 1) in
  do! restart_sc fuel o sc_node in
  do! csw_last_transfers mc_node sc_node [ft2; utxo1; ft4; utxo2; ft6; utxo3] in
  do! check_ceased mc_node sc_node in
  let! r := call sc_node "csw_isCSWEnabled" [] in
  let% enabled := getpath r ["result"; "cswEnabled"] in
  do% assert_false (truthy enabled) "Ceased Sidechain Withdrawal expected to be disabled." in
  do! check_csw_refused sc_node "csw_cswBoxIds" "cswBoxIds" in
  do! check_csw_refused sc_node "csw_cswInfo" "cswInfo" in
  do! check_csw_refused sc_node "csw_nullifier" "nullifier" in
  check_csw_refused sc_node "csw_generateCswProof" "generateCswProof".

Definition SCCswDisabled (fuel : nat) (o : Options) (shared : SCForgerConfiguration) : TestClass W :=
  pool_scenario fuel o 1 (SCCswDisabled_sc_setup_chain o shared) (SCCswDisabled_run_test fuel o).
End Csw.
