(* ===== verification/BackwardScenarios.v ===== *)
(** * Scenarios: backward transfers

    sc_backward_transfer.py and its variant with delayed references,
    sc_bwt_minimum_value.py, sc_bt_limit.py and sc_bt_limit_across_fork.py, as
    test classes of the driver. *)

From S2P Require Import Prelude PyStr Numbers PyVal Host Sim Json Encoding HttpProxy BootInfo McUtil ScUtil.
From S2P Require Import Forging Bootstrap Framework McFramework HttpCalls.
From Stdlib Require Import Ascii String.
From stdpp Require Import base list.
From S2P Require Import Scenarios NetScenarios ForgingScenarios StakeScenarios DelayScenarios ChainScenarios MempoolScenarios CertScenarios CswScenarios.
Local Open Scope Z_scope.

Section Backward.
Context {W : Type} `{Nodes W, Clock W, Os W, Rng W}.
Local Abbreviation MF := (M (FW W)).

(** ** Shared parts *)

(** A sidechain of one node, with the circuit and the ceasing of the options. *)
Definition options_one_chain (o : Options) (amount epoch_length max_keys threshold : Z)
    (configure : MCConnectionInfo → SCNodeConfiguration) (rewind : pyval) : MF unit :=
  let! mc_node := mc 0 in
  let! connection := ws_connection mc_node 0 in
  let% sci := SCCreationInfo_init mc_node (PInt amount) epoch_length 0 (version_for o) max_keys threshold false
    (nonceasing o) (certcircuittype o) in
  let! info := bootstrap_sidechain_nodes (run_options_of o) (mkSCNetworkConfiguration sci [configure connection])
    rewind DefaultModel in
  put_info info.

(** The genesis block refers to the block that created the sidechain; balances are
    those of the bootstrap. *)
Definition bt_genesis (mc_node sc_node : proxy) : MF unit :=
  let! hash := call mc_node "getbestblockhash" [] in
  let! id := best_id sc_node in
  do! check_mcreference_presence hash id sc_node in
  let! json := call mc_node "getblock" [hash] in
  let% height := getitem json "height" in
  let! info := boot_info in
  do% assert_equal height (mainchain_block_height info)
    "Genesis info expected to have the same genesis mc block height as in MC node." in
  do! check_wallet_coins_balance sc_node (genesis_account_balance info) in
  let% account := account_of info in
  check_box_balance sc_node account (Some "ForgerBox") (PInt 1) (genesis_account_balance info).

(** [ft_amount] *)
Definition bt_ft_amount : Z := 10.

(** A forward transfer in the memory pool: the address of the sidechain. *)
Definition bt_send_transfer (mc_node sc_node : proxy) : MF pyval :=
  let! address := new_address sc_node in
  let! mc_return_address := call mc_node "getnewaddress" [] in
  let! info := boot_info in
  do! call mc_node "sc_send" [PList [PDict [("toaddress", address); ("amount", PInt bt_ft_amount);
    ("scid", sidechain_id info); ("mcReturnAddress", mc_return_address)]]] in
  let! size := mc_pool_size mc_node in
  do% assert_equal (PInt 1) size "Forward Transfer expected to be added to mempool." in
  ret address.

(** The transfer is in the wallet. *)
Definition bt_transferred (sc_node : proxy) (address : pyval) : MF unit :=
  let! info := boot_info in
  let% total := py_add (genesis_account_balance info) (PInt bt_ft_amount) in
  do! check_wallet_coins_balance sc_node total in
  check_box_balance sc_node (mkAccount (PStr "") address) (Some "ZenBox") (PInt 1) (PInt bt_ft_amount).

(** The last mainchain blocks of an epoch: the hash at the index and its tree hash. *)
Definition bt_epoch_end (mc_node : proxy) (blocks index : Z) : MF (pyval * pyval) :=
  let! hashes := call mc_node "generate" [PInt blocks] in
  let% hash := getindex hashes index in
  do% log_concat hash in
  let! json := call mc_node "getblock" [hash] in
  let% root := getitem json "scCumTreeHash" in
  do% log_concat root in
  ret (hash, root).

(** No certificate is being generated. *)
Definition bt_skipped (sc_node : proxy) : MF unit :=
  do! sleep (secs 2) in
  let! active := generating sc_node in
  lift (assert_false active "Expected certificate generation will be skipped.").

(** The certificate is that of the sidechain, the epoch and the tree hash. *)
Definition bt_check_cert (cert : pyval) (epoch : Z) (root : pyval) : MF unit :=
  let! info := boot_info in
  let% scid := getpath cert ["cert"; "scid"] in
  do% assert_equal (sidechain_id info) scid "Sidechain Id in certificate is wrong." in
  let% number := getpath cert ["cert"; "epochNumber"] in
  do% assert_equal (PInt epoch) number "Sidechain epoch number in certificate is wrong." in
  let% found := getpath cert ["cert"; "endEpochCumScTxCommTreeRoot"] in
  lift (assert_equal root found "Sidechain endEpochCumScTxCommTreeRoot in certificate is wrong.").

(** The certificate in the memory pool, by its hash and content. *)
Definition bt_mc_cert (mc_node : proxy) (epoch : Z) (root : pyval) : MF (pyval * pyval) :=
  let! pool := call mc_node "getrawmempool" [] in
  let% hash := getindex pool 0 in
  do% log_concat hash in
  let! cert := call mc_node "getrawtransaction" [hash; PInt 1] in
  let! hex := call mc_node "getrawtransaction" [hash] in
  do% log_concat hex in
  do! bt_check_cert cert epoch root in
  ret (hash, cert).

(** The sum of the backward transfers of the certificate. *)
Definition bt_total (cert : pyval) (total : Z) : outcome unit :=
  let? found := getpath cert ["cert"; "totalAmount"] in
  assert_equal (PInt total) found "Sidechain total amount in certificate is wrong.".

(** The next mainchain block takes the certificate: its hash. *)
Definition bt_cert_taken (mc_node : proxy) (certHash : pyval) : MF pyval :=
  let! hash := mine mc_node in
  let! size := mc_pool_size mc_node in
  do% assert_equal (PInt 0) size "Certificate expected to be removed from MC node mempool." in
  let! block := call mc_node "getblock" [hash] in
  let% txs := getitem block "tx" in
  do! check_length 1 txs "MC block expected to contain 1 transaction." in
  let! block := call mc_node "getblock" [hash] in
  let% certs := getitem block "cert" in
  do! check_length 1 certs "MC block expected to contain 1 Certificate." in
  let! block := call mc_node "getblock" [hash] in
  let% certs := getitem block "cert" in
  let% cert := getindex certs 0 in
  do% assert_equal certHash cert "MC block expected to contain certificate." in
  ret hash.

(** The same; the block is fetched once more for the log. *)
Definition bt_cert_included (mc_node : proxy) (certHash : pyval) : MF pyval :=
  let! hash := bt_cert_taken mc_node certHash in
  do! call mc_node "getblock" [hash; PBool false] in
  ret hash.

(** The certificate as the best sidechain block refers to it. *)
Definition bt_sc_cert (sc_node : proxy) (epoch : Z) (root : pyval) (transfers : Z) : MF pyval :=
  let! r := call sc_node "block_best" [] in
  let% data := getpath r ["result"; "block"; "mainchainBlockReferencesData"] in
  let% mbrefdata := getindex data 0 in
  let% cert := getitem mbrefdata "topQualityCertificate" in
  let% leaves := getitem mbrefdata "lowerCertificateLeaves" in
  let% k := py_len leaves in
  do% assert_equal (PInt k) (PInt 0) "" in
  let! info := boot_info in
  let% scid := getitem cert "sidechainId" in
  do% assert_equal (sidechain_id info) scid "Sidechain Id in certificate is wrong." in
  let% number := getitem cert "epochNumber" in
  do% assert_equal (PInt epoch) number "Sidechain epoch number in certificate is wrong." in
  let% found := getitem cert "endCumulativeScTxCommitmentTreeRoot" in
  do% assert_equal root found "Sidechain endEpochCumScTxCommTreeRoot in certificate is wrong." in
  let% outputs := getitem cert "backwardTransferOutputs" in
  do! check_length transfers outputs "Backward transfer amount in certificate is wrong." in
  ret cert.

(** Both certificates are the same. *)
Definition bt_same_hash (certHash cert : pyval) : outcome unit :=
  let? hash := getitem cert "hash" in
  assert_equal certHash hash "Certificate hash is different to the one in MC.".

(** The reply has a result; it is printed either way. *)
Definition require_result (reply : pyval) (message : string) : outcome unit :=
  let? there := has_key "result" reply in
  let? text := dumps reply in
  if there then Val tt else fail (message +:+ text).

Definition withdraw_request (sc_node : proxy) (address : pyval) (value : Z) : MF pyval :=
  post sc_node "transaction_withdrawCoins"
    [("outputs", PList [PDict [("mainchainAddress", address); ("value", PInt value)]])] PNone.

(** A withdrawal to the address, in units of 10^-8. *)
Definition bt_withdraw (sc_node : proxy) (address : pyval) (value : Z) : MF pyval :=
  let! reply := withdraw_request sc_node address value in
  do% require_result reply "Withdraw coins failed: " in
  ret reply.

(** An output of the certificate on the mainchain. *)
Definition bt_vout_address (cert : pyval) (i : Z) : outcome pyval :=
  let? vout := getitem cert "vout" in
  let? out := getindex vout i in
  let? addresses := getpath out ["scriptPubKey"; "addresses"] in
  getindex addresses 0.

Definition bt_vout_value (cert : pyval) (i : Z) : outcome pyval :=
  let? vout := getitem cert "vout" in
  let? out := getindex vout i in
  getitem out "value".

(** A transfer of the certificate on the sidechain. *)
Definition bt_check_output (cert : pyval) (i : Z) (which : string) (address : pyval) (value : Z) : outcome unit :=
  let? outputs := getitem cert "backwardTransferOutputs" in
  let? out := getindex outputs i in
  let? found := getitem out "address" in
  let? _ := assert_equal address found (which +:+ " BT address is wrong.") in
  let? amount := getitem out "amount" in
  assert_equal (PInt value) amount (which +:+ " BT amount is wrong.").

(** ** sc_backward_transfer.py *)

Definition SCBackwardTransfer_sc_setup_chain (o : Options) (shared : SCForgerConfiguration) : MF unit :=
  options_one_chain o 1000 10 10 6 (submitter_configuration shared true (zrange 0 10)) DefaultBlockTimestampRewind.

Definition bt_amount1 : Z := bt_ft_amount - 3.
Definition bt_amount2 : Z := bt_ft_amount - bt_amount1.

(** Two withdrawals, the second asked for twice: their addresses. *)
Definition bt_withdrawals (mc_node sc_node : proxy) : MF (pyval * pyval) :=
  let! mc_address1 := call mc_node "getnewaddress" [] in
  do! bt_withdraw sc_node mc_address1 (bt_amount1 * 100000000) in
  do! generate_next_blocks sc_node "first node" 1 in
  let! node := mc 0 in
  let! mc_address2 := call node "getnewaddress" [] in
  do! bt_withdraw sc_node mc_address2 (bt_amount2 * 100000000) in
  do! withdraw_request sc_node mc_address2 (bt_amount2 * 100000000) in
  do! generate_next_blocks sc_node "first node" 1 in
  ret (mc_address1, mc_address2).

(** The transfers of the certificate on the mainchain. *)
Definition bt_check_entries (cert mc_address1 mc_address2 : pyval) : outcome unit :=
  let? v1 := bt_vout_value cert 1 in
  let? _ := assert_equal (PInt bt_amount1) v1 "First BT amount is wrong." in
  let? v2 := bt_vout_value cert 2 in
  let? _ := assert_equal (PInt bt_amount2) v2 "Second BT amount is wrong." in
  let? a1 := bt_vout_address cert 1 in
  let? _ := assert_equal mc_address1 a1 "First BT standard address is wrong." in
  let? a2 := bt_vout_address cert 2 in
  assert_equal mc_address2 a2 "Second BT standard address is wrong.".

(** The certificate of the second epoch on the sidechain. *)
Definition bt_check_returned (sc_node : proxy) (root certHash mc_address1 mc_address2 : pyval) : MF unit :=
  let! cert := bt_sc_cert sc_node 1 root 2 in
  do% bt_check_output cert 0 "First" mc_address1 (bt_amount1 * 100000000) in
  do% bt_check_output cert 1 "Second" mc_address2 (bt_amount2 * 100000000) in
  lift (bt_same_hash certHash cert).

Definition SCBackwardTransfer_run_test (fuel : nat) : MF unit :=
  let! '(mc_node, sc_node) := csw_start fuel in
  do! bt_genesis mc_node sc_node in
  let! sc_address := bt_send_transfer mc_node sc_node in
  do! csw_referenced_block mc_node sc_node in
  do! bt_transferred sc_node sc_address in
  let! '(hash0, root0) := bt_epoch_end mc_node 8 7 in
  let! scblock_id2 := generate_next_block sc_node "first node" false PNone in
  do! check_mcreferencedata_presence hash0 scblock_id2 sc_node in
  do! csw_referenced_block mc_node sc_node in
  do! await_certificate 10 fuel mc_node sc_node in
  do! forge sc_node in
  do! bt_skipped sc_node in
  let! '(certHash0, cert0) := bt_mc_cert mc_node 0 root0 in
  do% bt_total cert0 0 in
  let! hash := bt_cert_included mc_node certHash0 in
  let! scblock_id4 := forge sc_node in
  do! check_mcreference_presence hash scblock_id4 sc_node in
  do! bt_skipped sc_node in
  let! sc_cert0 := bt_sc_cert sc_node 0 root0 0 in
  do% bt_same_hash certHash0 sc_cert0 in
  let! '(mc_address1, mc_address2) := bt_withdrawals mc_node sc_node in
  let! '(hash1, root1) := bt_epoch_end mc_node 8 7 in
  let! id := generate_next_block sc_node "first node" false PNone in
  do! check_mcreferencedata_presence hash1 id sc_node in
  do! csw_referenced_block mc_node sc_node in
  do! await_certificate 10 fuel mc_node sc_node in
  do! forge sc_node in
  do! bt_skipped sc_node in
  let! '(certHash1, cert1) := bt_mc_cert mc_node 1 root1 in
  do% bt_total cert1 (bt_amount1 + bt_amount2) in
  let! hash := bt_cert_included mc_node certHash1 in
  do% bt_check_entries cert1 mc_address1 mc_address2 in
  let! scblock_id5 := forge sc_node in
  do! check_mcreference_presence hash scblock_id5 sc_node in
  do! bt_skipped sc_node in
  bt_check_returned sc_node root1 certHash1 mc_address1 mc_address2.

Definition SCBackwardTransfer (fuel : nat) (o : Options) (shared : SCForgerConfiguration) : TestClass W :=
  pool_scenario fuel o 1 (SCBackwardTransfer_sc_setup_chain o shared) (SCBackwardTransfer_run_test fuel).

(** ** sc_backward_transfer_with_mc_block_delay.py *)

Definition SCBackwardTransfer_delay_sc_setup_chain (o : Options) (shared : SCForgerConfiguration) : MF unit :=
  options_one_chain o 1000 20 10 6 (submitter_configuration shared true (zrange 0 10)) DefaultBlockTimestampRewind.

(** Header and data of the mainchain block are in the sidechain block. *)
Definition bt_header_and_data (hash id : pyval) (sc_node : proxy) : MF unit :=
  do! check_mcheader_presence hash id sc_node in
  check_mcreferencedata_presence hash id sc_node.

(** The start of an epoch: the last block of the one before appears with the first
    block of the new one, which appears with the second. *)
Definition bt_delayed_start (mc_node sc_node : proxy) (end_hash : pyval) : MF unit :=
  let! hash := mine mc_node in
  let! id := generate_next_block sc_node "first node" false PNone in
  do! check_mcreferencedata_presence end_hash id sc_node in
  do! mine mc_node in
  let! id := forge sc_node in
  bt_header_and_data hash id sc_node.

Definition SCBackwardTransfer_delay_run_test (fuel : nat) : MF unit :=
  let! '(mc_node, sc_node) := csw_start fuel in
  do! bt_genesis mc_node sc_node in
  let! sc_address := bt_send_transfer mc_node sc_node in
  let! hashes := call mc_node "generate" [PInt 2] in
  let% mcblock_hash1 := getindex hashes 0 in
  let! scblock_id1 := forge sc_node in
  do! check_mcreference_presence mcblock_hash1 scblock_id1 sc_node in
  do! bt_transferred sc_node sc_address in
  let! '(hash0, root0) := bt_epoch_end mc_node (20 - 1 - 2) (-1) in
  do! bt_delayed_start mc_node sc_node hash0 in
  do! await_certificate 20 fuel mc_node sc_node in
  do! forge sc_node in
  do! bt_skipped sc_node in
  let! '(certHash0, cert0) := bt_mc_cert mc_node 0 root0 in
  do% bt_total cert0 0 in
  let! hash := bt_cert_included mc_node certHash0 in
  do! forge sc_node in
  do! mine mc_node in
  let! scblock_id5 := forge sc_node in
  do! bt_header_and_data hash scblock_id5 sc_node in
  do! bt_skipped sc_node in
  let! sc_cert0 := bt_sc_cert sc_node 0 root0 0 in
  do% bt_same_hash certHash0 sc_cert0 in
  let! '(mc_address1, mc_address2) := bt_withdrawals mc_node sc_node in
  let! '(hash1, root1) := bt_epoch_end mc_node (20 - 1 - 1 - 1 - 1) (-1) in
  do! generate_next_block sc_node "first node" false PNone in
  do! bt_delayed_start mc_node sc_node hash1 in
  do! await_certificate 10 fuel mc_node sc_node in
  do! forge sc_node in
  do! bt_skipped sc_node in
  let! '(certHash1, cert1) := bt_mc_cert mc_node 1 root1 in
  do% bt_total cert1 (bt_amount1 + bt_amount2) in
  let! hash := bt_cert_included mc_node certHash1 in
  do% bt_check_entries cert1 mc_address1 mc_address2 in
  do! forge sc_node in
  do! bt_skipped sc_node in
  do! mine mc_node in
  let! scblock_id6 := forge sc_node in
  do! bt_header_and_data hash scblock_id6 sc_node in
  bt_check_returned sc_node root1 certHash1 mc_address1 mc_address2.

Definition SCBackwardTransfer_delay (fuel : nat) (o : Options) (shared : SCForgerConfiguration) : TestClass W :=
  mkTestClass W (default_setup_chain o) (args_setup_network fuel o pool_args)
    (SCBackwardTransfer_delay_sc_setup_chain o shared) (delayed_sc_setup_network fuel o)
    (SCBackwardTransfer_delay_run_test fuel).

(** ** sc_bwt_minimum_value.py *)

Definition SCBwtMinValue_sc_setup_chain (o : Options) (shared : SCForgerConfiguration) : MF unit :=
  options_one_chain o 100 10 7 5 (pool_configuration shared 300 0 (100 * COIN)) DefaultBlockTimestampRewind.

(** The reply has no result; otherwise the test fails. *)
Definition refuse_result (reply : pyval) (message : string) (with_reply : bool) : outcome unit :=
  let? there := has_key "result" reply in
  let? text := (if negb there || with_reply then dumps reply else Val "") in
  if there then fail (message +:+ text) else Val tt.

(** The transaction in the reply is sent. *)
Definition bt_send_result (sc_node : proxy) (reply : pyval) (message : string) : MF unit :=
  let% tx := getitem reply "result" in
  let% text := dumps tx in
  let! sent := call sc_node "transaction_sendTransaction" [PStr text] in
  lift (require_result sent message).

(** A core transaction that only withdraws, with inputs chosen by the node. *)
Definition core_simplified (sc_node : proxy) (address : pyval) (value : Z) : MF pyval :=
  post sc_node "transaction_createCoreTransactionSimplified"
    [("regularOutputs", PList []);
     ("withdrawalRequests", PList [PDict [("mainchainAddress", address); ("value", PInt value)]]);
     ("forgerOutputs", PList []); ("fee", PInt 5)] PNone.

(** A core transaction that spends the box, with a fee. *)
Definition core_from_box (sc_node : proxy) (box sc_address address : pyval) (value : Z) : MF pyval :=
  let% id := getitem box "id" in
  let% v := getitem box "value" in
  let% rest := py_sub v (PInt 100) in
  post sc_node "transaction_createCoreTransaction"
    [("transactionInputs", PList [PDict [("boxId", id)]]);
     ("regularOutputs", PList [PDict [("publicKey", sc_address); ("value", rest)]]);
     ("withdrawalRequests", PList [PDict [("mainchainAddress", address); ("value", PInt value)]]);
     ("forgerOutputs", PList [])] PNone.

(** 53 units are refused and 54 are accepted, in three ways: the addresses.  After
    the third, the reply that is looked at is that of the first way. *)
Definition min_value_withdrawals (sc_node : proxy) (sc_address : pyval) : MF (pyval * pyval * pyval) :=
  let failed := "Coins withdraw should have failed: " in
  let! node := mc 0 in
  let! mc_address1 := call node "getnewaddress" [] in
  let! reply := withdraw_request sc_node mc_address1 53 in
  do% refuse_result reply "It shouldn't be possible to send less than dust threshold coins(54 satoshi)" false in
  let! withdrawCoinsJson := bt_withdraw sc_node mc_address1 54 in
  do! generate_next_blocks sc_node "first node" 1 in
  let! node := mc 0 in
  let! mc_address2 := call node "getnewaddress" [] in
  let! reply := core_simplified sc_node mc_address2 53 in
  do% refuse_result reply failed true in
  let! reply := core_simplified sc_node mc_address2 54 in
  do% require_result reply "Coins withdraw failed: " in
  do! bt_send_result sc_node reply "Withdraw coins failed: " in
  do! generate_next_blocks sc_node "first node" 1 in
  let! node := mc 0 in
  let! mc_address3 := call node "getnewaddress" [] in
  let! r := call sc_node "wallet_allBoxes" [] in
  let% boxes := getpath r ["result"; "boxes"] in
  let% forger_box := getindex boxes 0 in
  let! reply := core_from_box sc_node forger_box sc_address mc_address3 53 in
  do% refuse_result reply failed true in
  let! reply := core_from_box sc_node forger_box sc_address mc_address3 54 in
  do% require_result withdrawCoinsJson "Coins withdraw failed: " in
  do! bt_send_result sc_node reply "Coins withdraw failed: " in
  do! generate_next_blocks sc_node "first node" 1 in
  ret (mc_address1, mc_address2, mc_address3).

(** The third transfer is read at the index of the second. *)
Definition SCBwtMinValue_run_test (fuel : nat) : MF unit :=
  let! '(mc_node, sc_node) := csw_start fuel in
  do! bt_genesis mc_node sc_node in
  let! sc_address := bt_send_transfer mc_node sc_node in
  do! csw_referenced_block mc_node sc_node in
  do! bt_transferred sc_node sc_address in
  let! '(a1, a2, a3) := min_value_withdrawals sc_node sc_address in
  let! '(hash, root) := bt_epoch_end mc_node 8 7 in
  let! id := generate_next_block sc_node "first node" false PNone in
  do! check_mcreferencedata_presence hash id sc_node in
  do! csw_referenced_block mc_node sc_node in
  do! await_certificate 10 fuel mc_node sc_node in
  do! forge sc_node in
  do! bt_skipped sc_node in
  let! '(certHash, cert) := bt_mc_cert mc_node 0 root in
  let! hash := bt_cert_included mc_node certHash in
  let% f1 := bt_vout_address cert 1 in
  do% assert_equal a1 f1 "First BT standard address is wrong." in
  let% f2 := bt_vout_address cert 2 in
  do% assert_equal a2 f2 "Second BT standard address is wrong." in
  let% f3 := bt_vout_address cert 3 in
  do% assert_equal a3 f3 "Third BT standard address is wrong." in
  let! id := forge sc_node in
  do! check_mcreference_presence hash id sc_node in
  do! bt_skipped sc_node in
  let! sc_cert := bt_sc_cert sc_node 0 root 3 in
  do% bt_check_output sc_cert 0 "First" a1 54 in
  do% bt_check_output sc_cert 1 "Second" a2 54 in
  do% bt_check_output sc_cert 1 "Second" a2 54 in
  lift (bt_same_hash certHash sc_cert).

Definition SCBwtMinValue (fuel : nat) (o : Options) (shared : SCForgerConfiguration) : TestClass W :=
  args_scenario fuel o cert_node_args 1 (SCBwtMinValue_sc_setup_chain o shared) (SCBwtMinValue_run_test fuel).

(** ** sc_bt_limit.py *)

Definition MAX_WBS_PER_EPOCH : Z := 3999.

Definition ScBtLimitTest_sc_setup_chain (o : Options) (shared : SCForgerConfiguration) : MF unit :=
  options_one_chain o 1000 11 7 5 (pool_configuration shared 300 0 10000000) five_epochs.

(** [assert_equal(http_block_forging_info(sc_node)["bestBlockEpochNumber"], n)] *)
Definition check_consensus_epoch (sc_node : proxy) (n : Z) : MF unit :=
  let! data := http_block_forging_info sc_node in
  let% epoch := getitem data "bestBlockEpochNumber" in
  lift (assert_equal epoch (PInt n) "").

(** [http_block_findById(sc_node, id)["block"]["sidechainTransactions"]] *)
Definition block_txs (sc_node : proxy) (id : pyval) : MF pyval :=
  let! block := http_block_findById sc_node id in lift (getpath block ["block"; "sidechainTransactions"]).

(** [assert_equal(len(txs), n)] *)
Definition check_tx_count (sc_node : proxy) (id : pyval) (n : Z) : MF unit :=
  let! txs := block_txs sc_node id in
  let% k := py_len txs in
  lift (assert_equal (PInt k) (PInt n) "").

(** [withdrawMultiCoins] with the first [k] of the addresses and amounts *)
Definition withdraw_many (sc_node : proxy) (bt_address : pyval) (amount k : Z) : MF pyval :=
  let n := Z.to_nat k in
  withdrawMultiCoins sc_node (repeat bt_address n) (repeat (PInt amount) n) (PInt 0) PNone.

(** [withdrawMultiCoins(...)["result"]["transactionId"]] *)
Definition withdraw_many_id (sc_node : proxy) (bt_address : pyval) (amount k : Z) : MF pyval :=
  let! r := withdraw_many sc_node bt_address amount k in lift (getpath r ["result"; "transactionId"]).

(** The id of the first transaction of the block *)
Definition first_tx (sc_node : proxy) (id : pyval) : MF pyval :=
  let! txs := block_txs sc_node id in
  let% tx := getindex txs 0 in
  lift (getitem tx "id").

(** [assert_equal(txs[0]["id"], tx_id)] *)
Definition check_first_tx (sc_node : proxy) (id tx_id : pyval) : MF unit :=
  let! first := first_tx sc_node id in
  lift (assert_equal first tx_id "").

(** A transfer to a new address, which is returned, and a sidechain block. *)
Definition limit_transfer (mc_node sc_node : proxy) (amount : Z) : MF pyval :=
  let! address := new_address sc_node in
  let! mc_return_address := call mc_node "getnewaddress" [] in
  let! info := boot_info in
  do! forward_transfer_to_sidechain (sidechain_id info) mc_node address (PInt amount) mc_return_address true in
  do! sleep (secs 1) in
  do! forge sc_node in
  ret address.

(** Epoch 0: the limit is not in force. *)
Definition limit_epoch0 (mc_node sc_node : proxy) : MF unit :=
  do! check_consensus_epoch sc_node 1 in
  let! address := limit_transfer mc_node sc_node 1000 in
  do! sendCointsToMultipleAddress sc_node (repeat address 10) (repeat (PFloat (float_of_dec (Dec 1 9))) 10) (PInt 0) in
  do! forge sc_node in
  let! bt_address := call mc_node "getnewaddress" [] in
  do! withdraw_many sc_node bt_address 10000 999 in
  let! id := forge sc_node in
  do! check_tx_count sc_node id 1 in
  let! '(hash, _) := bt_epoch_end mc_node (11 - 1 - 1) 0 in
  let! id := generate_next_block sc_node "first node" false PNone in
  do! http_block_findById sc_node id in
  check_mcreferencedata_presence hash id sc_node.

(** Epoch 1, first part: what fits into the open slots is included. *)
Definition limit_epoch1_slots (mc_node sc_node : proxy) (bt_address : pyval) : MF unit :=
  do! withdraw_many sc_node bt_address 10000 999 in
  let! id := forge sc_node in
  let! txs := block_txs sc_node id in
  do% assert_equal txs (PList []) "" in
  do! mine mc_node in
  let! id := forge sc_node in
  do! check_tx_count sc_node id 1 in
  do! withdraw_many sc_node bt_address 10000 98 in
  let! id := forge sc_node in
  do! check_tx_count sc_node id 1 in
  do! withdraw_many sc_node bt_address 10000 80 in
  do! withdraw_many sc_node bt_address 10000 80 in
  let! id := forge sc_node in
  check_tx_count sc_node id 1.

(** Epoch 1: the transaction that did not fit any more. *)
Definition limit_epoch1 (fuel : nat) (mc_node sc_node : proxy) : MF (pyval * pyval) :=
  do! mine mc_node in
  do! forge sc_node in
  do! await_certificate 10 fuel mc_node sc_node in
  do! mine mc_node in
  do! generate_next_block sc_node "first node" true PNone in
  do! check_consensus_epoch sc_node 3 in
  let! bt_address := call mc_node "getnewaddress" [] in
  do! limit_epoch1_slots mc_node sc_node bt_address in
  let wbs_mined := 999 + 98 + 80 + 80 + 999 + 999 in
  do! withdraw_many sc_node bt_address 10000 999 in
  do! withdraw_many sc_node bt_address 10000 999 in
  do! call mc_node "generate" [PInt (11 - 1 - 1 - 1 - 2)] in
  let! id := generate_next_block sc_node "first node" false PNone in
  do! check_tx_count sc_node id 3 in
  let! wbs_left_txid := withdraw_many_id sc_node bt_address 10000 (MAX_WBS_PER_EPOCH - wbs_mined) in
  do! mine mc_node in
  let! id := generate_next_block sc_node "first node" false PNone in
  do! check_first_tx sc_node id wbs_left_txid in
  let! not_included_tx_id := withdraw_many_id sc_node bt_address 10000 999 in
  let! '(hash, _) := bt_epoch_end mc_node 1 0 in
  let! id := generate_next_block sc_node "first node" false PNone in
  do! http_block_findById sc_node id in
  do! check_mcreferencedata_presence hash id sc_node in
  ret (bt_address, not_included_tx_id).

(** Epoch 2: it is included once there are enough slots. *)
Definition limit_epoch2 (fuel : nat) (mc_node sc_node : proxy) (bt_address not_included_tx_id : pyval) : MF unit :=
  let! hash := mine mc_node in
  let! id := forge sc_node in
  do! check_tx_count sc_node id 0 in
  do! check_mcreference_presence hash id sc_node in
  do! await_certificate 10 fuel mc_node sc_node in
  let! hash := mine mc_node in
  let! wbs_txid := withdraw_many_id sc_node bt_address 10000 300 in
  let! id := forge sc_node in
  do! check_mcreference_presence hash id sc_node in
  do! check_tx_count sc_node id 1 in
  do! check_first_tx sc_node id wbs_txid in
  do! call mc_node "generate" [PInt 3] in
  let! id := generate_next_block sc_node "first node" false PNone in
  let! first := first_tx sc_node id in
  do% assert_equal not_included_tx_id first "" in
  let! '(hash, _) := bt_epoch_end mc_node (11 - 1 - 1 - 3) (-1) in
  let! id := generate_next_block sc_node "first node" false PNone in
  do! check_tx_count sc_node id 0 in
  check_mcreferencedata_presence hash id sc_node.

Definition ScBtLimitTest_run_test (fuel : nat) : MF unit :=
  let! '(mc_node, sc_node) := csw_start fuel in
  do! limit_epoch0 mc_node sc_node in
  let! '(bt_address, not_included_tx_id) := limit_epoch1 fuel mc_node sc_node in
  do! limit_epoch2 fuel mc_node sc_node bt_address not_included_tx_id in
  do! csw_referenced_block mc_node sc_node in
  let! mc_addr := call mc_node "getnewaddress" [] in
  do! call mc_node "sendtoaddress" [mc_addr; PInt 10] in
  await_certificate 10 fuel mc_node sc_node.

Definition ScBtLimitTest (fuel : nat) (o : Options) (shared : SCForgerConfiguration) : TestClass W :=
  pool_scenario fuel o 1 (ScBtLimitTest_sc_setup_chain o shared) (ScBtLimitTest_run_test fuel).

(** ** sc_bt_limit_across_fork.py *)

Definition ScBtLimitAcrossForkTest_sc_setup_chain : Options → SCForgerConfiguration → MF unit :=
  ScBtLimitTest_sc_setup_chain.

Definition ScBtLimitAcrossForkTest_run_test (fuel : nat) : MF unit :=
  let! '(mc_node, sc_node) := csw_start fuel in
  do! check_consensus_epoch sc_node 1 in
  do! limit_transfer mc_node sc_node 100 in
  let! bt_address := call mc_node "getnewaddress" [] in
  do! withdraw_many sc_node bt_address 54 999 in
  do! check_consensus_epoch sc_node 2 in
  let! id := generate_next_block sc_node "first node" true PNone in
  do! check_consensus_epoch sc_node 3 in
  do! check_tx_count sc_node id 0 in
  do! call mc_node "generate" [PInt 1] in
  let! id := generate_next_block sc_node "first node" false PNone in
  check_tx_count sc_node id 1.

Definition ScBtLimitAcrossForkTest (fuel : nat) (o : Options) (shared : SCForgerConfiguration) : TestClass W :=
  pool_scenario fuel o 1 (ScBtLimitAcrossForkTest_sc_setup_chain o shared) (ScBtLimitAcrossForkTest_run_test fuel).
End Backward.
