(* ===== verification/CertificateScenarios.v ===== *)
(** * Scenarios: queues of certificates and limits of forks

    sc_ft_limit_fork.py, sc_dust_threshold_fork.py, sc_cert_no_coin_record.py,
    sc_multiple_certs.py, sc_multiple_pending_certs_non_ceasing.py and
    sc_withdrawal_certificate_after_mainchain_nodes_were_disconnected.py, as
    test classes of the driver. *)

From S2P Require Import Prelude PyStr Numbers PyVal Host Sim Json Encoding HttpProxy BootInfo McUtil ScUtil.
From S2P Require Import Forging Bootstrap Framework McFramework HttpCalls.
From Stdlib Require Import Ascii String.
From stdpp Require Import base list.
From S2P Require Import Scenarios NetScenarios ForgingScenarios StakeScenarios DelayScenarios ChainScenarios MempoolScenarios CertScenarios CswScenarios BackwardScenarios.
Local Open Scope Z_scope.

Section Certificates.
Context {W : Type} `{Nodes W, Clock W, Os W, Rng W}.
Local Abbreviation MF := (M (FW W)).

(** [720 * 120 * 10] *)
Definition ten_epochs : pyval := PInt (720 * 120 * 10).

(** A decimal literal with eight places as a float. *)
Definition zen_float (units : Z) : pyval := PFloat (float_of_dec (Dec units (-8))).

(** ** sc_ft_limit_fork.py *)

Definition SCFTLimitFork_sc_setup_chain (o : Options) (shared : SCForgerConfiguration) : MF unit :=
  let! info := one_node_chain o shared 100 10 ten_epochs in
  put_info info.

Definition do_ft (amount : pyval) : MF unit :=
  let! sc_node := sc 0 in
  let! mc_node := mc 0 in
  let! mempool_size_init := mc_pool_size mc_node in
  let! address := new_address sc_node in
  let! mc_return_address := call mc_node "getnewaddress" [] in
  let! info := boot_info in
  do! sleep (secs 1) in
  do! call mc_node "sc_send" [PList [PDict [("toaddress", address); ("amount", amount);
    ("scid", sidechain_id info); ("mcReturnAddress", mc_return_address)]]] in
  let% expected := py_add mempool_size_init (PInt 1) in
  let! size := mc_pool_size mc_node in
  lift (assert_equal expected size "Forward Transfer expected to be added to mempool.").

Definition generate_certificate (fuel : nat) : MF unit :=
  let! mc_node := mc 0 in
  let! sc_node := sc 0 in
  do! call mc_node "generate" [PInt 9] in
  do! generate_next_blocks sc_node "first node" 1 in
  do! call mc_node "generate" [PInt 1] in
  do! generate_next_blocks sc_node "first node" 1 in
  await_certificate 10 fuel mc_node sc_node.

(** The certificate in the memory pool, with its least amount of a transfer. *)
Definition pooled_certificate (mc_node : proxy) : MF (pyval * pyval) :=
  let! pool := call mc_node "getrawmempool" [] in
  let% hash := getindex pool 0 in
  let! cert := call mc_node "getrawtransaction" [hash; PInt 1] in
  ret (hash, cert).

(** [e.error] *)
Definition error_of (e : exn) : outcome pyval :=
  match e with
  | JSONRPCException v => Val v
  | SCAPIException s => Val (PStr s)
  | _ => Exc (AttributeError "error")
  end.

(** A transfer that must be refused with a message. *)
Definition ft_refused (amount : pyval) : MF unit :=
  let! raised := catch (do! do_ft amount in ret None) (λ e, if is_Exception e then ret (Some e) else raise e) in
  match raised with
  | Some e =>
      let% error := error_of e in
      let% message := getitem error "message" in
      lift (assert_equal (PStr "16: bad-sc-tx-not-applicable") message "")
  | None => lift (fail "Exception should have been thrown")
  end.

Definition SCFTLimitFork_run_test (fuel : nat) : MF unit :=
  let! '(mc_node, sc_node) := csw_start fuel in
  do! do_ft (zen_float 50) in
  do! generate_certificate fuel in
  do! check_consensus_epoch sc_node 2 in
  let! '(_, cert) := pooled_certificate mc_node in
  let% fee := getpath cert ["cert"; "ftScFee"] in
  do% assert_equal fee (PInt 0) "" in
  do! generate_next_block sc_node "first node" true PNone in
  do! check_consensus_epoch sc_node 3 in
  do! check_wallet_coins_balance sc_node (zen_float 10000000050) in
  do! do_ft (zen_float 50) in
  do! generate_certificate fuel in
  let! pool := call mc_node "getrawmempool" [] in
  let% hash := getindex pool 0 in
  do% log_concat hash in
  let! cert := call mc_node "getrawtransaction" [hash; PInt 1] in
  let% fee := getpath cert ["cert"; "ftScFee"] in
  let% limit := py_truediv (PDec (Dec 54 0)) (PDec (Dec 100000000 0)) in
  do% assert_equal fee limit "" in
  do! sync_all fuel in
  do! call mc_node "generate" [PInt 9] in
  do! generate_next_block sc_node "first node" true PNone in
  do! call mc_node "generate" [PInt 1] in
  do! generate_next_blocks sc_node "first node" 1 in
  do! ft_refused (zen_float 50) in
  do! do_ft (zen_float 55) in
  do! call mc_node "generate" [PInt 1] in
  do! generate_next_blocks sc_node "first node" 1 in
  check_wallet_coins_balance sc_node (zen_float 10000000155).

Definition SCFTLimitFork (fuel : nat) (o : Options) (shared : SCForgerConfiguration) : TestClass W :=
  pool_scenario fuel o 1 (SCFTLimitFork_sc_setup_chain o shared) (SCFTLimitFork_run_test fuel).

(** ** sc_dust_threshold_fork.py *)

Definition SCDustThresholdFork_sc_setup_chain (o : Options) (shared : SCForgerConfiguration) : MF unit :=
  twin_chain o shared 100 10 (pool_configuration shared 300 0 10000000) (pool_configuration shared 300 0 10000000)
    ten_epochs.

Definition no_pooled (sc_node : proxy) : MF unit :=
  let! r := call sc_node "transaction_allTransactions" [] in
  let% txs := getpath r ["result"; "transactions"] in
  check_length 0 txs "".

(** Less than the threshold is accepted before the fork. *)
Definition dust_before (fuel : nat) (mc_node sc_node sc_node2 : proxy) (sc_address_2 : pyval) : MF unit :=
  let! info := boot_info in
  let% account := account_of info in
  let! mc_return_address := call mc_node "getnewaddress" [] in
  do! forward_transfer_to_sidechain (sidechain_id info) mc_node (publicKey account) (genesis_account_balance info)
    mc_return_address true in
  do! call mc_node "generate" [PInt 1] in
  do! generate_next_block sc_node "first node" false PNone in
  do! check_consensus_epoch sc_node 2 in
  do! sendCoinsToAddress sc_node sc_address_2 (PInt 50) (PInt 0) PNone in
  do! generate_next_block sc_node "first node" false PNone in
  do! sc_sync_all fuel false in
  check_wallet_coins_balance sc_node2 (zen_float 50).

(** What was in the memory pools when the fork came is dropped. *)
Definition dust_fork (fuel : nat) (sc_node sc_node2 : proxy) (sc_address_1 sc_address_2 : pyval) : MF unit :=
  let! l := get_sc_nodes in
  do! disconnect_sc_nodes_bi l 0 1 in
  do! sendCoinsToAddress sc_node sc_address_2 (PInt 37) (PInt 0) PNone in
  do! sendCoinsToAddress sc_node2 sc_address_1 (PInt 44) (PInt 0) PNone in
  let! new_block_id := generate_next_block sc_node "first node" true PNone in
  let! forging_info := http_block_forging_info sc_node in
  let% epoch := getitem forging_info "bestBlockEpochNumber" in
  do% assert_equal (PInt 3) epoch "" in
  let! block := find_block sc_node new_block_id in
  let% txs := getitem block "sidechainTransactions" in
  do! check_length 0 txs "" in
  do! connect_sc fuel 0 1 in
  do! sc_sync_all fuel false in
  do! no_pooled sc_node in
  do! no_pooled sc_node2 in
  do! check_wallet_coins_balance sc_node2 (zen_float 50) in
  check_wallet_coins_balance sc_node (zen_float 19999999950).

Definition SCDustThresholdFork_run_test (fuel : nat) : MF unit :=
  do! sleep 100000 in
  do! sync_all fuel in
  let! mc_node := mc 0 in
  let! sc_node := sc 0 in
  let! sc_node2 := sc 1 in
  let! sc_address_1 := new_address sc_node in
  let! sc_address_2 := new_address sc_node2 in
  do! connect_sc fuel 0 1 in
  do! sc_sync_all fuel false in
  do! dust_before fuel mc_node sc_node sc_node2 sc_address_2 in
  do! dust_fork fuel sc_node sc_node2 sc_address_1 sc_address_2 in
  let! response := post sc_node "transaction_sendCoinsToAddress"
    [("outputs", PList [PDict [("publicKey", PStr (py_str sc_address_2)); ("value", PInt 50)]]); ("fee", PInt 50)]
    PNone in
  let% detail := getpath response ["error"; "detail"] in
  let% there := py_in (PStr "Coin box value [50] is below the threshold[54].") detail in
  do% assert_true there "" in
  do! sendCoinsToAddress sc_node sc_address_2 (PInt 100) (PInt 0) PNone in
  do! generate_next_block sc_node "first node" false PNone in
  do! sc_sync_all fuel false in
  do! check_wallet_coins_balance sc_node2 (zen_float 150) in
  check_wallet_coins_balance sc_node (zen_float 19999999850).

Definition SCDustThresholdFork (fuel : nat) (o : Options) (shared : SCForgerConfiguration) : TestClass W :=
  pool_scenario fuel o 2 (SCDustThresholdFork_sc_setup_chain o shared) (SCDustThresholdFork_run_test fuel).

(** ** sc_cert_no_coin_record.py *)

Definition SCCertNoCoinRecord_sc_setup_chain (o : Options) (shared : SCForgerConfiguration) : MF unit :=
  let! mc_node1 := mc 0 in
  let! connection_1 := ws_connection mc_node1 0 in
  let! mc_node2 := mc 1 in
  let! connection_2 := ws_connection mc_node2 1 in
  let! info := bootstrap o mc_node1 100 15
    [submitter_configuration shared false [0] connection_1; submitter_configuration shared true (zrange 0 7) connection_2]
    five_epochs in
  put_info info.

(** The loop that waits for the certificate of a submitter while other nodes are pinged. *)
Fixpoint wait_pinging_others (fuel : nat) (mc_node submitter : proxy) (pinged : list proxy) : MF unit :=
  match fuel with
  | O => out_of_fuel
  | S f =>
      let! size := mc_pool_size mc_node in
      if py_eqb size (PInt 0) then
        let! active := generating submitter in
        if active then
          do! sleep (secs 2) in
          do! forM_ pinged (λ node, do! call node "block_best" [] in ret tt) in
          wait_pinging_others f mc_node submitter pinged
        else ret tt
      else ret tt
  end.

(** The end of an epoch, the first block of the next and the certificate. *)
Definition no_coin_epoch (fuel : nat) (mc_node1 mc_node2 sc_node1 sc_node2 : proxy) (blocks : Z) : MF unit :=
  let! hashes := call mc_node1 "generate" [PInt blocks] in
  do% py_len hashes in
  do! generate_next_block sc_node1 "first node" false PNone in
  do! sc_sync_all fuel false in
  let! hash := mine mc_node1 in
  let! id := generate_next_block sc_node1 "first node" false PNone in
  do! check_mcreference_presence hash id sc_node1 in
  do! sync_all fuel in
  do! sleep (secs 10) in
  do! wait_pinging_others fuel mc_node2 sc_node2 [sc_node1] in
  let! size := mc_pool_size mc_node2 in
  lift (assert_equal (PInt 1) size "Certificate was not added to Mc node mempool.").

(** A mainchain block that both nodes have. *)
Definition mine_synced (fuel : nat) (mc_node : proxy) : MF unit :=
  do! call mc_node "generate" [PInt 1] in
  sync_all fuel.

Definition SCCertNoCoinRecord_run_test (fuel : nat) : MF unit :=
  let! mc_node1 := mc 0 in
  let! mc_node2 := mc 1 in
  do! connect_self fuel 0 1 in
  do! sync_all fuel in
  let! balance := call mc_node2 "getbalance" [] in
  do% assert_equal (PInt 0) balance "MC node 2 expect to have no Zen at all" in
  let! mc2_address := call mc_node2 "getnewaddress" [] in
  do! call mc_node1 "sendtoaddress" [mc2_address; PInt 1] in
  do! mine_synced fuel mc_node1 in
  let! balance := call mc_node2 "getbalance" [] in
  do% assert_equal (PInt 1) balance "MC node 2 expect to have some Zen" in
  let! sc_node1 := sc 0 in
  let! sc_node2 := sc 1 in
  do! connect_sc_nodes fuel sc_node1 1 (secs 25) in
  do! no_coin_epoch fuel mc_node1 mc_node2 sc_node1 sc_node2 (15 - 1 - 1) in
  do! sync_all fuel in
  do! mine_synced fuel mc_node1 in
  let! mc2_amount := call mc_node2 "getbalance" [] in
  let utxo_to_pay_bt_fee := PDec (Dec 1 (-2)) in
  let! mc1_address := call mc_node1 "getnewaddress" [] in
  let% rest := py_sub mc2_amount utxo_to_pay_bt_fee in
  do! call mc_node2 "sendtoaddress" [mc1_address; rest; PStr ""; PStr ""; PBool true] in
  do! mine_synced fuel mc_node1 in
  let! balance := call mc_node2 "getbalance" [] in
  do% assert_equal utxo_to_pay_bt_fee balance "MC node 2 expect to have no Zen at all" in
  no_coin_epoch fuel mc_node1 mc_node2 sc_node1 sc_node2 (15 - 1 - 1 - 1).

(** [start_nodes(n, tmpdir, extra_args=[args] * n)] *)
Definition many_args_setup_network (fuel : nat) (o : Options) (n : Z) (args : list string) : MF unit :=
  let! l := start_nodes n (op_tmpdir o) (Some (repeat (Some args) (Z.to_nat n))) None None in
  do! put_nodes l in
  sync_all fuel.

Definition SCCertNoCoinRecord (fuel : nat) (o : Options) (shared : SCForgerConfiguration) : TestClass W :=
  mkTestClass W (initialize_chain_clean (op_tmpdir o) 2)
    (many_args_setup_network fuel o 2 ["-debug=sc"; "-logtimemicros=1"])
    (SCCertNoCoinRecord_sc_setup_chain o shared) (utxo_sc_setup_network fuel o 2) (SCCertNoCoinRecord_run_test fuel).

(** ** sc_multiple_certs.py *)

Definition SCMultipleCerts_sc_setup_chain (o : Options) (shared : SCForgerConfiguration) : MF unit :=
  let! mc_node := mc 0 in
  let! connection_1 := ws_connection mc_node 0 in
  let! connection_2 := ws_connection mc_node 0 in
  let% sci := SCCreationInfo_init mc_node (PInt 100) 15 0 (version_for o) 7 5 false false (certcircuittype o) in
  let! info := bootstrap_sidechain_nodes (run_options_of o) (mkSCNetworkConfiguration sci
    [submitter_configuration shared true (zrange 0 7) connection_1;
     submitter_configuration shared true (zrange 0 6) connection_2]) five_epochs DefaultModel in
  put_info info.

Definition first_block (sc_node : proxy) (switch : bool) : MF pyval :=
  generate_next_block sc_node "first node" switch PNone.
Definition second_block (sc_node : proxy) (switch : bool) : MF pyval :=
  generate_next_block sc_node "second node" switch PNone.

(** The second node gets coins and a stake, and forges. *)
Definition second_forger (fuel : nat) (mc_node sc_node1 sc_node2 : proxy) : MF unit :=
  let! mc_return_address := call mc_node "getnewaddress" [] in
  let! info := boot_info in
  let! hash := mc_make_forward_transfer mc_node sc_node2 (sidechain_id info) (PInt (100 + 20)) mc_return_address in
  let! id := first_block sc_node1 false in
  do! check_mcreference_presence hash id sc_node1 in
  do! sc_sync_all fuel false in
  do! sc_create_forging_stake_mempool sc_node2 (PInt 100) in
  do! sc_sync_all fuel false in
  do! first_block sc_node1 false in
  do! first_block sc_node1 true in
  do! sc_sync_all fuel false in
  do! second_block sc_node2 true in
  sc_sync_all fuel false.

(** Either node generates a certificate. *)
Definition either_active (sc_node1 sc_node2 : proxy) : MF bool :=
  let! a := generating sc_node1 in
  if a then ret true else generating sc_node2.

(** The loop that waits for two certificates. *)
Fixpoint wait_two_certificates (fuel : nat) (mc_node sc_node1 sc_node2 : proxy) : MF unit :=
  match fuel with
  | O => out_of_fuel
  | S f =>
      let! size := mc_pool_size mc_node in
      let% few := py_lt size (PInt 2) in
      if few then
        let! active := either_active sc_node1 sc_node2 in
        if active then
          do! generating sc_node1 in
          do! generating sc_node2 in
          do! sleep (secs 2) in
          do! call sc_node1 "block_best" [] in
          do! call sc_node2 "block_best" [] in
          wait_two_certificates f mc_node sc_node1 sc_node2
        else ret tt
      else ret tt
  end.

(** The block with both certificates. *)
Definition two_certificates_mined (mc_node : proxy) : MF unit :=
  let! hash := mine mc_node in
  let! hex := call mc_node "getblock" [hash; PBool false] in
  do% log_concat hex in
  let! size := mc_pool_size mc_node in
  do% assert_equal (PInt 0) size "Certificate expected to be removed from MC node mempool." in
  let! block := call mc_node "getblock" [hash] in
  let% certs := getitem block "cert" in
  check_length 2 certs "MC block expected to contain 2 certs.".

(** The operation raises an exception. *)
Definition must_raise (m : MF pyval) (message : string) : MF unit :=
  let! error_occur := catch (do! m in ret false) (λ e, if is_Exception e then ret true else raise e) in
  lift (assert_true error_occur message).

Definition SCMultipleCerts_run_test (fuel : nat) : MF unit :=
  let! mc_node := mc 0 in
  let! sc_node1 := sc 0 in
  let! sc_node2 := sc 1 in
  do! connect_sc_nodes fuel sc_node1 1 (secs 25) in
  do! second_forger fuel mc_node sc_node1 sc_node2 in
  let! hashes := call mc_node "generate" [PInt (15 - 1 - 1 - 1)] in
  let% mined := py_len hashes in
  let left := 15 - 1 - 1 - mined in
  do! first_block sc_node1 false in
  do! sc_sync_all fuel false in
  let! l := get_sc_nodes in
  do! disconnect_sc_nodes_bi l 0 1 in
  do! sc_make_withdrawal_request_mempool mc_node sc_node2 (PInt 20) in
  do! second_block sc_node2 false in
  do! call mc_node "generate" [PInt (left + 1)] in
  do! second_block sc_node2 false in
  do! second_block sc_node2 false in
  do! sleep (secs 16) in
  do! first_block sc_node1 false in
  do! first_block sc_node1 false in
  do! sleep (secs 10) in
  do! wait_two_certificates fuel mc_node sc_node1 sc_node2 in
  let! size := mc_pool_size mc_node in
  do% assert_equal (PInt 2) size "Certificates was not added to MC node mempool." in
  do! first_block sc_node1 false in
  do! bt_skipped sc_node1 in
  do! two_certificates_mined mc_node in
  do! first_block sc_node1 false in
  do! second_block sc_node2 false in
  do! mine mc_node in
  do! first_block sc_node1 false in
  do! must_raise (second_block sc_node2 false) "Node 2 wrongly verified top quality cert as a valid one." in
  do! first_block sc_node1 false in
  do! connect_sc_nodes fuel sc_node1 1 (secs 25) in
  do! sync_self_blocks fuel 25 in
  let! best1 := call sc_node1 "block_best" [] in
  let! best2 := call sc_node2 "block_best" [] in
  lift (assert_equal best1 best2 "SC nodes are not synced as expected.").

Definition SCMultipleCerts (fuel : nat) (o : Options) (shared : SCForgerConfiguration) : TestClass W :=
  args_scenario fuel o cert_node_args 2 (SCMultipleCerts_sc_setup_chain o shared) (SCMultipleCerts_run_test fuel).

(** ** sc_multiple_pending_certs_non_ceasing.py *)

Definition total_withdrawal_epochs_number : nat := 5.

Definition SCMultiplePendingCertsNonCeasing_sc_setup_chain (o : Options) (shared : SCForgerConfiguration) : MF unit :=
  let! mc_node := mc 0 in
  let! connection_1 := ws_connection mc_node 0 in
  let! connection_2 := ws_connection mc_node 0 in
  let% sci := SCCreationInfo_init mc_node (PInt 100) 10 0 SC_CREATION_VERSION_2 7 5 false true KEY_ROTATION_CIRCUIT in
  let! info := bootstrap_sidechain_nodes (run_options_of o) (mkSCNetworkConfiguration sci
    [submitter_configuration shared true [0; 1; 2] connection_1;
     submitter_configuration shared false [3; 4; 5] connection_2]) five_epochs DefaultModel in
  put_info info.

(** As many withdrawals to the address as the epoch's number, each twice the one before. *)
Definition epoch_withdrawals (address : pyval) (we_number : Z) : list pyval :=
  map (λ i, PDict [("mainchainAddress", address); ("value", PInt (100000000 * 2 ^ i))]) (zrange 0 we_number).

(** The transaction with the withdrawals of the epoch: its id, when there are any. *)
Definition send_withdrawals (mc_node sc_node : proxy) (we_number : Z) : MF (option pyval) :=
  if we_number >? 0 then
    let! address := call mc_node "getnewaddress" [] in
    let! reply := post sc_node "transaction_withdrawCoins"
      [("outputs", PList (epoch_withdrawals address we_number))] PNone in
    do% require_result reply "Withdraw coins failed: " in
    let% id := getpath reply ["result"; "transactionId"] in
    ret (Some id)
  else ret None.

Definition pass_withdrawal_epoch (mc_node sc_node : proxy) (mc_blocks_before_wrs mc_block_after_wrs we_number : Z)
    : MF unit :=
  let! hashes := call mc_node "generate" [PInt mc_blocks_before_wrs] in
  let% mc_tip_hash := getindex hashes (-1) in
  let! wr_tx_id := send_withdrawals mc_node sc_node we_number in
  let! block_id := first_block sc_node false in
  do! check_mcreferencedata_presence mc_tip_hash block_id sc_node in
  let! block := find_block sc_node block_id in
  let% sc_txs := getitem block "sidechainTransactions" in
  do! check_length (if we_number >? 0 then 1 else 0) sc_txs "Only 1 Tx with WRs expected" in
  do! match wr_tx_id with
      | Some tx_id =>
          let% first := getindex sc_txs 0 in
          let% id := getitem first "id" in
          lift (assert_equal id tx_id "Tx with WRs is not as expected")
      | None => ret tt
      end in
  let! hashes := call mc_node "generate" [PInt mc_block_after_wrs] in
  let% mc_tip_hash := getindex hashes (-1) in
  let! block_id := first_block sc_node false in
  check_mcreferencedata_presence mc_tip_hash block_id sc_node.

(** The loop of [check_for_certificate]. *)
Fixpoint wait_quietly (fuel : nat) (mc_node sc_node : proxy) : MF unit :=
  match fuel with
  | O => out_of_fuel
  | S f =>
      let! size := mc_pool_size mc_node in
      let% empty := py_lt size (PInt 1) in
      if empty then
        let! active := generating sc_node in
        if active then do! sleep (secs 2) in wait_quietly f mc_node sc_node else ret tt
      else ret tt
  end.

Definition check_for_certificate (fuel : nat) (mc_node sc_submitter_node : proxy) : MF unit :=
  do! sleep (secs 10) in
  do! wait_quietly fuel mc_node sc_submitter_node in
  let! size := mc_pool_size mc_node in
  lift (assert_equal (PInt 1) size "Certificate was not added to MC node mempool.").

Definition half_epoch : Z := 10 / 2.

(** The epochs that pass without a certificate: the tree hash at the end of the first. *)
Definition pending_epochs (mc_node sc_node1 : proxy) : MF pyval :=
  foldM (λ root epoch_number,
    let left := if epoch_number =? 0 then 10 - 1 - 1 else 10 in
    do! pass_withdrawal_epoch mc_node sc_node1 (half_epoch - (10 - left)) half_epoch epoch_number in
    if epoch_number =? 0 then
      let! hash := call mc_node "getbestblockhash" [] in
      let! block := call mc_node "getblock" [hash] in
      lift (getitem block "scCumTreeHash")
    else ret root) (PStr "") (zrange 0 (Z.of_nat total_withdrawal_epochs_number)).

(** Epoch and tree hash of the certificate in the memory pool. *)
Definition check_pending_certificate (cert : pyval) (epoch_number : Z) (root : pyval) : outcome unit :=
  let? number := getpath cert ["cert"; "epochNumber"] in
  let? _ := assert_equal (PInt epoch_number) number "Sidechain epoch number in certificate is wrong." in
  let? found := getpath cert ["cert"; "endEpochCumScTxCommTreeRoot"] in
  assert_equal root found "Sidechain endEpochCumScTxCommTreeRoot in certificate is wrong.".

(** One certificate of the queue: the tree hash the next one must have. *)
Definition next_pending (fuel : nat) (mc_node sc_node1 : proxy) (root : pyval) (epoch_number : Z) : MF pyval :=
  do! check_for_certificate fuel mc_node sc_node1 in
  let! '(_, cert) := pooled_certificate mc_node in
  do% check_pending_certificate cert epoch_number root in
  let! hash := mine mc_node in
  let! block := call mc_node "getblock" [hash] in
  let% root := getitem block "scCumTreeHash" in
  do! sleep (secs 2) in
  let! active := generating sc_node1 in
  do% (if active then fail "Cert submission is not expected" else Val tt) in
  do! first_block sc_node1 false in
  do! sc_sync_all fuel false in
  ret root.

(** The nodes are connected; the pending certificates are published, and then that of the
    epoch that is in time. *)
Definition certificates_published (fuel : nat) (mc_node sc_node1 : proxy) (root : pyval) : MF unit :=
  do! connect_sc_nodes fuel sc_node1 1 (secs 25) in
  do! sc_sync_all fuel false in
  do! foldM (next_pending fuel mc_node sc_node1) root (zrange 0 (Z.of_nat total_withdrawal_epochs_number)) in
  let! hashes := call mc_node "generate" [PInt (10 - Z.of_nat total_withdrawal_epochs_number)] in
  let% mcblock_hash := getindex hashes (-1) in
  do! first_block sc_node1 false in
  do! call mc_node "generate" [PInt 1] in
  do! first_block sc_node1 false in
  do! check_for_certificate fuel mc_node sc_node1 in
  let! '(_, cert) := pooled_certificate mc_node in
  let% number := getpath cert ["cert"; "epochNumber"] in
  do% assert_equal (PInt (Z.of_nat total_withdrawal_epochs_number)) number
    "Sidechain epoch number in certificate is wrong." in
  let! mcblock := call mc_node "getblock" [mcblock_hash] in
  let% root := getitem mcblock "scCumTreeHash" in
  let% found := getpath cert ["cert"; "endEpochCumScTxCommTreeRoot"] in
  lift (assert_equal root found "Sidechain endEpochCumScTxCommTreeRoot in certificate is wrong.").

Definition SCMultiplePendingCertsNonCeasing_run_test (fuel : nat) : MF unit :=
  let! mc_node := mc 0 in
  let! sc_node1 := sc 0 in
  let! mc_return_address := call mc_node "getnewaddress" [] in
  let! info := boot_info in
  let% account := account_of info in
  do! forward_transfer_to_sidechain (sidechain_id info) mc_node (publicKey account)
    (PInt (100 + 2 ^ Z.of_nat total_withdrawal_epochs_number)) mc_return_address true in
  do! first_block sc_node1 false in
  let! root := pending_epochs mc_node sc_node1 in
  certificates_published fuel mc_node sc_node1 root.

Definition SCMultiplePendingCertsNonCeasing (fuel : nat) (o : Options) (shared : SCForgerConfiguration) : TestClass W :=
  args_scenario fuel o cert_node_args 2 (SCMultiplePendingCertsNonCeasing_sc_setup_chain o shared)
    (SCMultiplePendingCertsNonCeasing_run_test fuel).

(** ** sc_withdrawal_certificate_after_mainchain_nodes_were_disconnected.py *)

Definition WithdrawalCertificateAfterMainchainNodesWereDisconnected_sc_setup_chain (o : Options)
    (shared : SCForgerConfiguration) : MF unit :=
  let! mc_node := mc 0 in
  let! connection := ws_connection mc_node 0 in
  let% sci := SCCreationInfo_init mc_node (PInt 600) 10 0 2 7 5 false true KEY_ROTATION_CIRCUIT in
  let! info := bootstrap_sidechain_nodes (run_options_of o) (mkSCNetworkConfiguration sci
    [pool_configuration shared 300 0 10000000 connection]) DefaultBlockTimestampRewind DefaultModel in
  put_info info.

(** The loop of [wait_for_cert_to_appear_in_mc]: the checks that were left. *)
Fixpoint wait_for_cert_loop (left : nat) (mc_node sc_node : proxy) : MF nat :=
  let! size := mc_pool_size mc_node in
  if py_eqb size (PInt 0) then
    let! active := generating sc_node in
    if active then
      match left with
      | O => ret O
      | S k =>
          do! sleep (secs 2) in
          do! call sc_node "block_best" [] in
          wait_for_cert_loop k mc_node sc_node
      end
    else ret left
  else ret left.

Definition wait_for_cert_to_appear_in_mc (mc_node sc_node : proxy) (max_check_times : nat) : MF unit :=
  do! sleep (secs 10) in
  let! left := wait_for_cert_loop max_check_times mc_node sc_node in
  if (left =? 0)%nat
  then raise (GenericException ("Certificate did not appear in mc after " +:+ str_of_Z (Z.of_nat max_check_times)
                                +:+ " checks"))
  else ret tt.

Definition check_epoch (sc_node : proxy) (n : Z) : MF pyval :=
  let! epoch := get_withdrawal_epoch sc_node in
  do% assert_equal (PInt n) epoch "" in
  ret epoch.

(** The argument of [range]. *)
Definition range_stop (v : pyval) : outcome Z :=
  match v with PInt n => Val n | PBool b => Val (if b then 1 else 0) | _ => Exc TypeError end.

(** The number of mainchain headers of the best block. *)
Definition check_headers_count (sc_node : proxy) (n : Z) : MF unit :=
  let! r := call sc_node "block_best" [] in
  let% headers := getpath r ["result"; "block"; "mainchainHeaders"] in
  check_length n headers "".

(** Blocks that both mainchain nodes then have. *)
Definition mine_nine (fuel : nat) (mc_node1 mc_node2 : proxy) : MF unit :=
  let! hashes := call mc_node1 "generate" [PInt 9] in
  let% hash := getindex hashes (-1) in
  do! sync_all fuel in
  let! block1 := call mc_node1 "getblock" [hash] in
  let! block2 := call mc_node2 "getblock" [hash] in
  lift (assert_equal block1 block2 "").

(** The certificate arrives and is in the first of the next blocks. *)
Definition certificate_mined (fuel : nat) (mc_node sc_node : proxy) (blocks : Z) : MF unit :=
  do! wait_for_cert_to_appear_in_mc mc_node sc_node 100 in
  let! size := mc_pool_size mc_node in
  do% assert_equal (PInt 1) size "Certificate was not added to Mc node mempool." in
  let! pool := call mc_node "getrawmempool" [] in
  let% sc_cert_hash := getindex pool 0 in
  let! hashes := call mc_node "generate" [PInt blocks] in
  let% hash := getindex hashes 0 in
  do! sync_all fuel in
  let! block := call mc_node "getblock" [hash] in
  let% certs := getitem block "cert" in
  do! check_length 1 certs "" in
  let% cert := getindex certs 0 in
  lift (assert_equal sc_cert_hash cert "").

(** The end of an epoch for both mainchain nodes, with the headers in one block. *)
Definition epoch_reached (fuel : nat) (mc_node1 mc_node2 sc_node : proxy) (headers epoch : Z) : MF unit :=
  do! mine_nine fuel mc_node1 mc_node2 in
  do! first_block sc_node false in
  do! check_headers_count sc_node headers in
  do! mine_synced fuel mc_node1 in
  do! first_block sc_node false in
  do! check_epoch sc_node epoch in ret tt.

(** Three epochs of the second mainchain node that the sidechain does not see. *)
Definition disconnected_epochs (fuel : nat) (mc_node1 mc_node2 sc_node : proxy) : MF unit :=
  do! disconnect_self fuel 0 1 in
  do! forM_ [0; 1; 2] (λ _,
    do! call mc_node2 "generate" [PInt 9] in
    do! first_block sc_node false in
    do! call mc_node2 "generate" [PInt 1] in
    do! first_block sc_node false in ret tt) in
  let! count1 := call mc_node1 "getblockcount" [] in
  let! count2 := call mc_node2 "getblockcount" [] in
  let% ahead := py_sub count2 count1 in
  do% assert_equal (PInt 30) ahead "" in
  do! check_epoch sc_node 2 in
  do! first_block sc_node false in
  check_headers_count sc_node 0.

(** The mainchain nodes agree again, and the sidechain follows. *)
Definition reconnected (fuel : nat) (mc_node1 mc_node2 sc_node : proxy) : MF unit :=
  do! connect_self fuel 0 1 in
  do! sync_nodes fuel [mc_node1; mc_node2] in
  let! count1 := call mc_node1 "getblockcount" [] in
  let! count2 := call mc_node2 "getblockcount" [] in
  do% assert_equal count1 count2 "" in
  do! first_block sc_node false in
  do! check_headers_count sc_node 30 in
  do! check_epoch sc_node 2 in ret tt.

Definition WithdrawalCertificateAfterMainchainNodesWereDisconnected_run_test (fuel : nat) : MF unit :=
  do! connect_self fuel 0 1 in
  let! mc_node1 := mc 0 in
  let! mc_node2 := mc 1 in
  let! sc_node := sc 0 in
  let! enabled := submitter_enabled sc_node in
  do% assert_true (truthy enabled) "Node 1 submitter expected to be enabled." in
  do! check_epoch sc_node 0 in
  do! epoch_reached fuel mc_node1 mc_node2 sc_node 9 1 in
  do! certificate_mined fuel mc_node1 sc_node 10 in
  do! generate_next_blocks sc_node "first node" 5 in
  do! check_epoch sc_node 2 in
  do! disconnected_epochs fuel mc_node1 mc_node2 sc_node in
  do! reconnected fuel mc_node1 mc_node2 sc_node in
  let! mc_blocks := call mc_node1 "generate" [PInt 10] in
  do! sync_all fuel in
  let% l := py_iter mc_blocks in
  do! forM_ l (λ hash,
    let! block := call mc_node1 "getblock" [hash] in
    let% certs := getitem block "cert" in
    check_length 0 certs "") in
  do! generate_next_blocks sc_node "first node" 5 in
  let! epoch := check_epoch sc_node 6 in
  let% rounds := py_sub epoch (PInt 1) in
  let% rounds := range_stop rounds in
  do! forM_ (zrange 0 rounds) (λ _,
    do! generate_next_blocks sc_node "first node" 5 in
    certificate_mined fuel mc_node1 sc_node 1) in
  do! epoch_reached fuel mc_node1 mc_node2 sc_node 10 7 in
  certificate_mined fuel mc_node1 sc_node 1.

Definition WithdrawalCertificateAfterMainchainNodesWereDisconnected (fuel : nat) (o : Options)
    (shared : SCForgerConfiguration) : TestClass W :=
  scenario fuel o 2 1 (WithdrawalCertificateAfterMainchainNodesWereDisconnected_sc_setup_chain o shared)
    (WithdrawalCertificateAfterMainchainNodesWereDisconnected_run_test fuel).
End Certificates.
