(* ===== verification/KeyRotationScenarios.v ===== *)
(** * Scenarios: rotation of the keys that sign certificates

    sc_cert_key_rotation.py, sc_cert_key_rotation_across_epoch.py and
    sc_cert_key_rotation_old_circuit.py, as test classes of the driver, and the
    parts they share with the scripts of the account model.

    The scripts start a signing server in a process of its own and ask it for
    signatures with [requests]; both are outside the model, and what they do is
    the class [Remote].  The lists of master keys belong to the bootstrap
    information, and the scripts append to them in place. *)

From S2P Require Import Prelude PyStr Numbers PyVal Host Sim Json Encoding HttpProxy BootInfo McUtil ScUtil.
From S2P Require Import Forging Bootstrap Framework McFramework HttpCalls Tools.
From Stdlib Require Import Ascii String.
From stdpp Require Import base list.
From S2P Require Import Scenarios StakeScenarios ChainScenarios MempoolScenarios CswScenarios CertificateScenarios.
Local Open Scope Z_scope.

(** [requests.post(url, json=j).text], and [start] of the server's process. *)
Class Remote (W : Type) := {
  requests_post : string → pyval → W → (exn + string) * W;
  enclave_start : SecureEnclaveApiServer → W → (exn + unit) * W
}.

#[export] Instance fw_remote {W} `{Remote W} : Remote (FW W) := {
  requests_post url j := through (requests_post url j);
  enclave_start s := through (enclave_start s)
}.

(** ** The keys in the bootstrap information *)

Definition with_proof_info (info : SCBootstrapInfo) (p : CertificateProofInfo) : SCBootstrapInfo :=
  mkSCBootstrapInfo (sidechain_id info) (genesis_account info) (genesis_account_balance info)
    (mainchain_block_height info) (sidechain_genesis_block_hex info) (pow_data info) (network info)
    (withdrawal_epoch_length info) (genesis_vrf_account info) p (initial_cumulative_comm_tree_hash info)
    (is_non_ceasing info) (cert_keys_paths info) (csw_keys_paths info) (genesis_evm_account info) (circuit_type info).

(** [private_master_keys.append(k.secret); public_master_keys.append(k.publicKey)] *)
Definition append_master (p : CertificateProofInfo) (k : SchnorrAccount) : CertificateProofInfo :=
  mkCertificateProofInfo (threshold p) (genSysConstant p) (verificationKey p) (schnorr_signers_secrets p)
    (public_signing_keys p) (schnorr_masters_secrets p ++ [schnorr_secret k])
    (public_master_keys p ++ [schnorr_publicKey k]).

(** The keys a script generates. *)
Record NewKeys := mkNewKeys {
  new_signing_key : SchnorrAccount;
  new_signing_key_2 : SchnorrAccount;
  new_master_key : SchnorrAccount;
  new_signing_key_4 : SchnorrAccount;
  new_signing_keys : list SchnorrAccount;
  new_master_keys : list SchnorrAccount
}.

(** The three signatures of a rotation. *)
Record Signatures := mkSignatures {
  signing_signature : pyval;
  master_signature : pyval;
  new_key_signature : pyval
}.

(** Whose signature is asked for: that of a public key the server knows, or that
    of a private key. *)
Inductive signer := ByPublic (public_key : pyval) | ByKey (key : pyval).

(** The result of a rotation proof with an index, a type and a new key. *)
Definition check_proof_key (proof : pyval) (index : Z) (type : string) (key : pyval) : outcome unit :=
  let? i := getitem proof "index" in
  let? _ := assert_equal i (PInt index) "" in
  let? t := getpath proof ["keyType"; "value"] in
  let? _ := assert_equal t (PStr type) "" in
  let? k := getpath proof ["newKey"; "publicKey"] in
  assert_equal k key "".

(** The same with the signatures of the old keys, which are compared before the
    new key. *)
Definition check_proof_signed (proof : pyval) (index : Z) (type : string) (s : Signatures) (key : pyval)
    : outcome unit :=
  let? i := getitem proof "index" in
  let? _ := assert_equal i (PInt index) "" in
  let? t := getpath proof ["keyType"; "value"] in
  let? _ := assert_equal t (PStr type) "" in
  let? m := getpath proof ["masterKeySignature"; "signature"] in
  let? _ := assert_equal m (master_signature s) "" in
  let? g := getpath proof ["signingKeySignature"; "signature"] in
  let? _ := assert_equal g (signing_signature s) "" in
  let? k := getpath proof ["newKey"; "publicKey"] in
  assert_equal k key "".

Definition signing_proof : string := "SigningKeyRotationProofType".
Definition master_proof : string := "MasterKeyRotationProofType".

(** [keys[kind][i]["publicKey"]] compared with a key *)
Definition check_certifier (keys : pyval) (kind : string) (i : Z) (key : outcome pyval) : outcome unit :=
  let? l := getitem keys kind in
  let? e := getindex l i in
  let? k := getitem e "publicKey" in
  let? expected := key in
  assert_equal k expected "".

(** [for i in range(len(keys["signingKeys"]))]: both lists against the expected ones *)
Definition check_certifiers (keys : pyval) (signing master : Z → outcome pyval) : outcome unit :=
  let? l := getitem keys "signingKeys" in
  let? n := py_len l in
  let? _ := omapM (λ i,
    let? _ := check_certifier keys "signingKeys" i (signing i) in
    check_certifier keys "masterKeys" i (master i)) (zrange 0 n) in
  Val tt.

(** The number of keys of both kinds. *)
Definition check_key_counts (keys : pyval) (signing master : Z) : outcome unit :=
  let? l := getitem keys "signingKeys" in
  let? n := py_len l in
  let? _ := assert_equal (PInt n) (PInt signing) "" in
  let? l := getitem keys "masterKeys" in
  let? n := py_len l in
  assert_equal (PInt n) (PInt master) "".

Section Rotation.
Context {W : Type} `{Nodes W, Clock W, Os W, Rng W} `{Remote W}.
Local Abbreviation MF := (M (FW W)).

(** ** The signing server *)

Definition remote_keys_address (host : string) (port : Z) : string := "http://" +:+ host +:+ ":" +:+ str_of_Z port.

Definition secure_enclave_create_signature (address : string) (message_to_sign public_key key : pyval) : MF pyval :=
  let post_data := [("message", message_to_sign); ("type", PStr "schnorr")] in
  let% post_data :=
    if py_neqb public_key (PStr "") then Val (post_data ++ [("publicKey", public_key)])
    else if py_neqb key (PStr "") then Val (post_data ++ [("privateKey", key)])
    else Exc (GenericException "Either public key or private key should be provided to call createSignature") in
  let! text := run_os (requests_post (address +:+ "/api/v1/createSignature") (PDict post_data)) in
  lift (loads text).

(** [self.secure_enclave_create_signature(...)["signature"]] *)
Definition signature_of (address : string) (message : pyval) (by_ : signer) : MF pyval :=
  let! r := (match by_ with
             | ByPublic k => secure_enclave_create_signature address message k (PStr "")
             | ByKey k => secure_enclave_create_signature address message (PStr "") k
             end) in
  lift (getitem r "signature").

(** The three signatures, in the order of the scripts. *)
Definition sign_rotation (address : string) (message : pyval) (master signing new : signer) : MF Signatures :=
  let! m := signature_of address message master in
  let! s := signature_of address message signing in
  let! n := signature_of address message new in
  ret (mkSignatures s m n).

(** The master keys of the moment go to the server. *)
Definition start_enclave (host : string) (port : Z) : MF unit :=
  let! info := boot_info in
  let p := certificate_proof_info info in
  run_os (enclave_start (SecureEnclaveApiServer_init (Some (schnorr_masters_secrets p)) (Some (public_master_keys p))
                           host port)).

(** ** Keys *)

(** [generate_cert_signer_secrets(seed, 1, self.model)[0]] *)
Definition new_key (model seed : string) : MF SchnorrAccount :=
  let! l := generate_cert_signer_secrets seed 1 model in lift (list_index l 0).

Definition keep_master (k : SchnorrAccount) : MF unit :=
  let! info := boot_info in
  put_info (with_proof_info info (append_master (certificate_proof_info info) k)).

(** The pair of keys number [i] of the last rotation. *)
Definition new_key_pair (model : string) (i : Z) : MF (SchnorrAccount * SchnorrAccount) :=
  let! s := new_key model ("random_seed5" +:+ str_of_Z i) in
  do! keep_master s in
  let! m := new_key model ("random_seed6" +:+ str_of_Z i) in
  do! keep_master m in
  ret (s, m).

Definition rotation_keys (model : string) (cert_max_keys : Z) : MF NewKeys :=
  let! k1 := new_key model "random_seed" in
  let! k2 := new_key model "random_seed2" in
  let! k3 := new_key model "random_seed3" in
  let! k4 := new_key model "random_seed4" in
  do! forM_ [k1; k2; k3; k4] keep_master in
  let! pairs := mmap (new_key_pair model) (zrange 0 cert_max_keys) in
  ret (mkNewKeys k1 k2 k3 k4 (map fst pairs) (map snd pairs)).

(** The messages to sign. *)
Definition signing_message (sc_node : proxy) (key epoch : pyval) : MF pyval :=
  let! r := http_get_key_rotation_message_to_sign_for_signing_key sc_node key epoch in
  lift (getitem r "keyRotationMessageToSign").
Definition master_message (sc_node : proxy) (key epoch : pyval) : MF pyval :=
  let! r := http_get_key_rotation_message_to_sign_for_master_key sc_node key epoch in
  lift (getitem r "keyRotationMessageToSign").

(** ** Proofs and certifiers *)

Definition proof_result (sc_node : proxy) (epoch : pyval) (index type : Z) : MF pyval :=
  let! r := http_get_key_rotation_proof sc_node epoch (PInt index) (PInt type) in lift (getitem r "result").

Definition rotation_proof (sc_node : proxy) (epoch : pyval) (index type : Z) : MF pyval :=
  let! r := proof_result sc_node epoch index type in lift (getitem r "keyRotationProof").

(** No key was rotated in the epoch. *)
Definition no_rotation (sc_node : proxy) (epoch : pyval) (cert_max_keys : Z) : MF unit :=
  forM_ (zrange 0 cert_max_keys) (λ i,
    let! signer := proof_result sc_node epoch i 0 in
    let! master := proof_result sc_node epoch i 1 in
    do% assert_equal signer (PDict []) "" in
    lift (assert_equal master (PDict []) "")).

(** The proof that the signing key 0 was changed. *)
Definition check_signing_proof (sc_node : proxy) (epoch : pyval) (s : Signatures) (key : pyval) : MF unit :=
  let! proof := rotation_proof sc_node epoch 0 0 in
  lift (check_proof_signed proof 0 signing_proof s key).

(** All keys were changed. *)
Definition all_rotated (sc_node : proxy) (epoch : pyval) (k : NewKeys) (cert_max_keys : Z) : MF unit :=
  forM_ (zrange 0 cert_max_keys) (λ i,
    let! proof := rotation_proof sc_node epoch i 0 in
    let% s := list_index (new_signing_keys k) i in
    do% check_proof_key proof i signing_proof (schnorr_publicKey s) in
    let! proof := rotation_proof sc_node epoch i 1 in
    let% m := list_index (new_master_keys k) i in
    lift (check_proof_key proof i master_proof (schnorr_publicKey m))).

Definition certifiers_keys (sc_node : proxy) (epoch : Z) : MF pyval :=
  let! r := http_get_certifiers_keys sc_node (PInt epoch) in lift (getitem r "certifiersKeys").

(** [new_keys[i].publicKey] *)
Definition public_of (l : list SchnorrAccount) (i : Z) : outcome pyval :=
  let? k := list_index l i in Val (schnorr_publicKey k).

(** Who signs the last rotation of key [i]: the keys number 0 had been replaced
    before. *)
Definition last_signer (replaced : SchnorrAccount) (keys : list pyval) (i : Z) : outcome signer :=
  if i =? 0 then Val (ByKey (schnorr_secret replaced)) else let? k := list_index keys i in Val (ByKey k).

(** The signatures for both new keys number [i]: those of the old keys for the
    signing key, those for the master key, then the keys' own. *)
Definition sign_pair (address : string) (sc_node : proxy) (k : NewKeys) (private_master private_signing : list pyval)
    (epoch : pyval) (i : Z) : MF (SchnorrAccount * Signatures * SchnorrAccount * Signatures) :=
  let% new_s := list_index (new_signing_keys k) i in
  let! message_s := signing_message sc_node (schnorr_publicKey new_s) epoch in
  let% new_m := list_index (new_master_keys k) i in
  let! message_m := master_message sc_node (schnorr_publicKey new_m) epoch in
  let% master := last_signer (new_master_key k) private_master i in
  let! sm := signature_of address message_s master in
  let% signing := last_signer (new_signing_key_4 k) private_signing i in
  let! ss := signature_of address message_s signing in
  let! mm := signature_of address message_m master in
  let! ms := signature_of address message_m signing in
  let! sn := signature_of address message_s (ByKey (schnorr_secret new_s)) in
  let! mn := signature_of address message_m (ByKey (schnorr_secret new_m)) in
  ret (new_s, mkSignatures ss sm sn, new_m, mkSignatures ms mm mn).

(** ** sc_cert_key_rotation.py *)

Definition remote_configuration (shared : SCForgerConfiguration) (connection : MCConnectionInfo) (address : string)
    : SCNodeConfiguration :=
  SCNodeConfiguration_init connection true true None 100 100 "2m" true (PFloat (float_of_dec (Dec 1 (-4)))) shared
    300 0 DEFAULT_API_KEY 10000000 [] true (PStr address) [] None [] "15m" "5m" false 0 true DEFAULT_MAX_NONCE_GAP
    DEFAULT_MAX_ACCOUNT_SLOTS DEFAULT_MAX_MEMPOOL_SLOTS DEFAULT_MAX_NONEXEC_POOL_SLOTS DEFAULT_TX_LIFETIME true true.

Definition rotation_chain (o : Options) (configure : MCConnectionInfo → SCNodeConfiguration) (version : Z)
    (circuit : string) : MF unit :=
  let! mc_node := mc 0 in
  let! connection := ws_connection mc_node 0 in
  let% sci := SCCreationInfo_init mc_node (PInt 100) 10 0 version 7 5 false false circuit in
  let! info := bootstrap_sidechain_nodes (run_options_of o) (mkSCNetworkConfiguration sci [configure connection])
    ten_epochs DefaultModel in
  put_info info.

Definition SCKeyRotationTest_sc_setup_chain (o : Options) (shared : SCForgerConfiguration) : MF unit :=
  rotation_chain o (λ c, remote_configuration shared c (remote_keys_address "127.0.0.1" 5002)) SC_CREATION_VERSION_2
    KEY_ROTATION_CIRCUIT.

Definition get_certificate_info (block_hash : pyval) : MF (pyval * pyval) :=
  let! mc_node := mc 0 in
  let! block := call mc_node "getblock" [block_hash; PInt 2] in
  let% certs := getitem block "cert" in
  let% cert := getindex certs 0 in
  let% fields := getpath cert ["cert"; "vFieldElementCertificateField"] in
  let% cert_custom_field := getindex fields 0 in
  let% cert_quality := getpath cert ["cert"; "quality"] in
  ret (cert_custom_field, cert_quality).

(** The certificate of a block has the quality and the hash of the keys. *)
Definition check_keys_certificate (block_hash certificate_signers_keys : pyval) (cert_max_keys : Z) : MF unit :=
  let! '(field, quality) := get_certificate_info block_hash in
  do% assert_equal quality (PInt cert_max_keys) "" in
  let% root := getitem certificate_signers_keys "keysRootHash" in
  lift (assert_equal field root "").

(** [http_create_key_rotation_transaction(..., format=True, automatic_send=True)] *)
Definition rotate (sc_node : proxy) (type index : Z) (key : pyval) (s : Signatures) : MF pyval :=
  http_create_key_rotation_transaction sc_node (PInt type) (PInt index) key (signing_signature s) (master_signature s)
    (new_key_signature s) true true PNone.

(** A rotation that must be refused with a text. *)
Definition rotation_refused (sc_node : proxy) (type index : Z) (key : pyval) (s : Signatures) (text : string) : MF unit :=
  let! response := rotate sc_node type index key s in
  let% there := has_key "error" response in
  do% assert_true there "" in
  let% detail := getpath response ["error"; "detail"] in
  let% there := py_in (PStr text) detail in
  lift (assert_true there "").

(** [try: m except: pass else: fail("Exception expected")] *)
Definition must_not_work (m : MF pyval) : MF unit :=
  let! raised := catch (do! m in ret false) (λ _, ret true) in
  when (negb raised) (lift (fail "Exception expected")).

(** A rotation that must not give the id of a transaction. *)
Definition rotation_without_id (sc_node : proxy) (key : pyval) (s : Signatures) : MF unit :=
  must_not_work (let! r := rotate sc_node 0 0 key s in lift (getpath r ["result"; "transactionId"])).

(** A transfer to a new address. *)
Definition rotation_transfer (mc_node : proxy) (address : pyval) (generate_block : bool) : MF unit :=
  let! info := boot_info in
  let! mc_return_address := call mc_node "getnewaddress" [] in
  do! forward_transfer_to_sidechain (sidechain_id info) mc_node address (genesis_account_balance info)
    mc_return_address generate_block in
  ret tt.

Definition rotation_coins (fuel : nat) (mc_node sc_node : proxy) : MF unit :=
  let! sc_address_1 := http_wallet_createPrivateKey25519 sc_node PNone in
  do! rotation_transfer mc_node sc_address_1 true in
  do! sync_forge fuel sc_node in
  do! sendCointsToMultipleAddress sc_node (repeat sc_address_1 20) (repeat (PInt 1000) 20) (PInt 0) in
  sync_forge fuel sc_node.

(** Both kinds of keys are complete and none was rotated. *)
Definition check_first_keys (sc_node : proxy) (epoch cert_max_keys : Z) : MF unit :=
  let! keys := certifiers_keys sc_node epoch in
  do% check_key_counts keys cert_max_keys cert_max_keys in
  no_rotation sc_node (PInt 0) cert_max_keys.

(** Signatures of the master key and the signing key at an index, and of a new key. *)
Definition sign_at (address : string) (public_master private_signing : list pyval) (i : Z) (message : pyval)
    (new : SchnorrAccount) : MF Signatures :=
  let% master := list_index public_master i in
  let! m := signature_of address message (ByPublic master) in
  let% signing := list_index private_signing i in
  let! s := signature_of address message (ByKey signing) in
  let! n := signature_of address message (ByKey (schnorr_secret new)) in
  ret (mkSignatures s m n).

(** The same with the lists of the bootstrap information. *)
Definition sign_with (address : string) (i : Z) (message : pyval) (new : SchnorrAccount) : MF Signatures :=
  let! info := boot_info in
  let p := certificate_proof_info info in
  sign_at address (public_master_keys p) (schnorr_signers_secrets p) i message new.
Definition sign_with_first (address : string) : pyval → SchnorrAccount → MF Signatures := sign_with address 0.

Definition wrong_signing : string := "Signing key signature in CertificateKeyRotationTransaction is not valid".

(** The rotations that are refused: wrong signatures, index and type. *)
Definition rotation_negative (sc_node : proxy) (key : pyval) (s : Signatures) : MF unit :=
  do! rotation_refused sc_node 0 0 key (mkSignatures (master_signature s) (master_signature s) (new_key_signature s))
    wrong_signing in
  do! rotation_refused sc_node 0 0 key (mkSignatures (signing_signature s) (signing_signature s) (new_key_signature s))
    "Master key signature in CertificateKeyRotationTransaction is not valid" in
  do! rotation_refused sc_node 0 0 key (mkSignatures (signing_signature s) (master_signature s) (master_signature s))
    "New key signature in CertificateKeyRotationTransaction is not valid" in
  do! rotation_refused sc_node 0 100 key s "Key index in CertificateKeyRotationTransaction is out of range" in
  do! rotation_refused sc_node 356 0 key s "Key type enumeration value should be valid!" in
  rotation_refused sc_node 0 2 key s wrong_signing.

(** The same for signatures of the wrong messages. *)
Definition rotation_wrong_messages (address : string) (sc_node : proxy) (new : SchnorrAccount) (epoch : pyval) : MF unit :=
  let! message := master_message sc_node (schnorr_publicKey new) epoch in
  let! s := sign_with_first address message new in
  do! rotation_refused sc_node 0 0 (schnorr_publicKey new) s wrong_signing in
  let% later := py_add epoch (PInt 1) in
  let! message := signing_message sc_node (schnorr_publicKey new) later in
  let! s := sign_with_first address message new in
  rotation_refused sc_node 0 0 (schnorr_publicKey new) s wrong_signing.

(** The signing key 0 is changed, and not twice at once. *)
Definition rotation_first (fuel : nat) (address : string) (sc_node : proxy) (k : NewKeys) : MF (pyval * Signatures) :=
  let key := schnorr_publicKey (new_signing_key k) in
  let! epoch := get_withdrawal_epoch sc_node in
  let! message := signing_message sc_node key epoch in
  let! s := sign_with_first address message (new_signing_key k) in
  do! rotation_negative sc_node key s in
  do! rotation_wrong_messages address sc_node (new_signing_key k) epoch in
  do! rotate sc_node 0 0 key s in
  do! rotation_without_id sc_node key s in
  do! sync_forge fuel sc_node in
  do! check_signing_proof sc_node (PInt 0) s key in
  ret (epoch, s).

(** It is changed again, but not with the signatures of the first change. *)
Definition rotation_again (fuel : nat) (address : string) (sc_node : proxy) (k : NewKeys) (epoch : pyval)
    (old : Signatures) : MF unit :=
  let key := schnorr_publicKey (new_signing_key_2 k) in
  let! message := signing_message sc_node key epoch in
  let! s := sign_with_first address message (new_signing_key_2 k) in
  do! rotation_without_id sc_node key (mkSignatures (signing_signature old) (master_signature old) (new_key_signature s)) in
  do! rotate sc_node 0 0 key s in
  do! sync_forge fuel sc_node in
  check_signing_proof sc_node (PInt 0) s key.

(** The master key 0 is changed. *)
Definition rotation_master (fuel : nat) (address : string) (sc_node : proxy) (k : NewKeys) (epoch : pyval) : MF unit :=
  let key := schnorr_publicKey (new_master_key k) in
  let! message := master_message sc_node key epoch in
  let! s := sign_with_first address message (new_master_key k) in
  do! rotate sc_node 1 0 key s in
  sync_forge fuel sc_node.

(** The last mainchain blocks of an epoch: the hash of the first of them. *)
Definition rotation_last_blocks (mc_node : proxy) (blocks : Z) : MF pyval :=
  let! hashes := call mc_node "generate" [PInt blocks] in
  let% hash := getindex hashes 0 in
  let! json := call mc_node "getblock" [hash] in
  do% getitem json "scCumTreeHash" in
  ret hash.

Definition rotation_last_sc_block (sc_node : proxy) (hash : pyval) : MF unit :=
  let! id := generate_next_block sc_node "first node" false PNone in
  do! http_block_findById sc_node id in
  check_mcreferencedata_presence hash id sc_node.

Definition rotation_epoch_end (mc_node sc_node : proxy) (blocks : Z) : MF unit :=
  let! hash := rotation_last_blocks mc_node blocks in
  rotation_last_sc_block sc_node hash.

(** The certificate in the memory pool is mined, and the sidechain sees it. *)
Definition mine_certificate (mc_node sc_node : proxy) : MF pyval :=
  let! hash := mine mc_node in
  let! ids := generate_next_blocks sc_node "first node" 1 in
  let% id := list_index ids 0 in
  do! check_mcreference_presence hash id sc_node in
  ret hash.

(** The first block of an epoch, and the certificate of the epoch before. *)
Definition rotation_epoch_start (fuel : nat) (mc_node sc_node : proxy) : MF pyval :=
  do! mine mc_node in
  do! generate_next_blocks sc_node "first node" 1 in
  do! await_certificate 10 fuel mc_node sc_node in
  mine_certificate mc_node sc_node.

(** The keys before the end of the first epoch are those of the bootstrap, after
    it the two changed keys replace the first ones. *)
Definition rotation_epoch0_end (mc_node sc_node : proxy) (k : NewKeys) (blocks : Z) : MF unit :=
  let! info := boot_info in
  let p := certificate_proof_info info in
  let! hash := rotation_last_blocks mc_node blocks in
  let! keys := certifiers_keys sc_node (-1) in
  do% check_certifiers keys (list_index (public_signing_keys p)) (list_index (public_master_keys p)) in
  do! rotation_last_sc_block sc_node hash in
  let! keys := certifiers_keys sc_node 0 in
  lift (check_certifiers keys
    (λ i, if i =? 0 then Val (schnorr_publicKey (new_signing_key_2 k)) else list_index (public_signing_keys p) i)
    (λ i, if i =? 0 then Val (schnorr_publicKey (new_master_key k)) else list_index (public_master_keys p) i)).

(** The second epoch: the changed keys are in force, the signing key 0 is changed
    with their signatures. *)
Definition rotation_epoch1 (fuel : nat) (address : string) (mc_node sc_node : proxy) (k : NewKeys) : MF unit :=
  let! hash := rotation_epoch_start fuel mc_node sc_node in
  do! no_rotation sc_node (PInt 1) 7 in
  let! signers := http_get_certifiers_keys sc_node (PInt 0) in
  let% keys := getitem signers "certifiersKeys" in
  do% check_certifier keys "signingKeys" 0 (Val (schnorr_publicKey (new_signing_key_2 k))) in
  do% check_certifier keys "masterKeys" 0 (Val (schnorr_publicKey (new_master_key k))) in
  do! check_keys_certificate hash signers 7 in
  let key := schnorr_publicKey (new_signing_key_4 k) in
  let! epoch := get_withdrawal_epoch sc_node in
  let! message := signing_message sc_node key epoch in
  let! s := sign_rotation address message (ByKey (schnorr_secret (new_master_key k)))
    (ByKey (schnorr_secret (new_signing_key_2 k))) (ByKey (schnorr_secret (new_signing_key_4 k))) in
  do! rotate sc_node 0 0 key s in
  do! sync_forge fuel sc_node in
  rotation_epoch_end mc_node sc_node (10 - 1 - 1).

(** All keys are changed. *)
Definition rotate_all (address : string) (sc_node : proxy) (k : NewKeys) : MF unit :=
  let! info := boot_info in
  let p := certificate_proof_info info in
  let! epoch := get_withdrawal_epoch sc_node in
  forM_ (zrange 0 7) (λ i,
    let! '(new_s, ss, new_m, sm) :=
      sign_pair address sc_node k (schnorr_masters_secrets p) (schnorr_signers_secrets p) epoch i in
    do! rotate sc_node 0 i (schnorr_publicKey new_s) ss in
    do! rotate sc_node 1 i (schnorr_publicKey new_m) sm in
    ret tt).

Definition rotation_epoch2 (fuel : nat) (address : string) (mc_node sc_node : proxy) (k : NewKeys) : MF unit :=
  let! hash := rotation_epoch_start fuel mc_node sc_node in
  do! no_rotation sc_node (PInt 2) 7 in
  let! signers := http_get_certifiers_keys sc_node (PInt 1) in
  let% keys := getitem signers "certifiersKeys" in
  do% check_certifier keys "signingKeys" 0 (Val (schnorr_publicKey (new_signing_key_4 k))) in
  do! check_keys_certificate hash signers 7 in
  do! rotate_all address sc_node k in
  do! generate_next_blocks sc_node "first node" 1 in
  do! all_rotated sc_node (PInt 2) k 7 in
  rotation_epoch_end mc_node sc_node (10 - 1 - 1).

(** The new keys sign the certificates of the last two epochs. *)
Definition rotation_epoch3 (fuel : nat) (mc_node sc_node : proxy) (k : NewKeys) : MF pyval :=
  let! hash := rotation_epoch_start fuel mc_node sc_node in
  let! signers := http_get_certifiers_keys sc_node (PInt 2) in
  let% keys := getitem signers "certifiersKeys" in
  do% check_certifiers keys (public_of (new_signing_keys k)) (public_of (new_master_keys k)) in
  do! check_keys_certificate hash signers 7 in
  do! call mc_node "generate" [PInt (10 - 1 - 1)] in
  do! generate_next_block sc_node "first node" false PNone in
  ret signers.

Definition rotation_epoch4 (fuel : nat) (mc_node sc_node : proxy) (signers : pyval) : MF unit :=
  do! call mc_node "generate" [PInt 1] in
  do! generate_next_blocks sc_node "first node" 1 in
  do! await_certificate 10 fuel mc_node sc_node in
  let! hash := mine_certificate mc_node sc_node in
  check_keys_certificate hash signers 7.

Definition SCKeyRotationTest_run_test (fuel : nat) : MF unit :=
  let! '(mc_node, sc_node) := csw_start fuel in
  let address := remote_keys_address "127.0.0.1" 5002 in
  let! k := rotation_keys DefaultModel 7 in
  do! start_enclave "127.0.0.1" 5002 in
  do! rotation_coins fuel mc_node sc_node in
  do! check_first_keys sc_node (-1) 7 in
  let! '(epoch, s) := rotation_first fuel address sc_node k in
  do! rotation_again fuel address sc_node k epoch s in
  do! rotation_master fuel address sc_node k epoch in
  do! rotation_epoch0_end mc_node sc_node k (10 - 1 - 1) in
  do! rotation_epoch1 fuel address mc_node sc_node k in
  do! rotation_epoch2 fuel address mc_node sc_node k in
  let! signers := rotation_epoch3 fuel mc_node sc_node k in
  rotation_epoch4 fuel mc_node sc_node signers.

Definition SCKeyRotationTest (fuel : nat) (o : Options) (shared : SCForgerConfiguration) : TestClass W :=
  pool_scenario fuel o 1 (SCKeyRotationTest_sc_setup_chain o shared) (SCKeyRotationTest_run_test fuel).

(** ** sc_cert_key_rotation_across_epoch.py *)

Definition SCKeyRotationAcrossEpochTest_sc_setup_chain (o : Options) (shared : SCForgerConfiguration) : MF unit :=
  rotation_chain o (λ c, SCNodeConfiguration_defaults c shared) SC_CREATION_VERSION_2 KEY_ROTATION_CIRCUIT.

(** Two transfers, mined together. *)
Definition across_coins (fuel : nat) (mc_node sc_node : proxy) : MF unit :=
  let! sc_address_1 := http_wallet_createPrivateKey25519 sc_node PNone in
  do! rotation_transfer mc_node sc_address_1 false in
  do! sleep (secs 1) in
  do! rotation_transfer mc_node sc_address_1 true in
  sync_forge fuel sc_node.

(** The signing key 0 is changed to a new key, with the proof of it. *)
Definition across_change (fuel : nat) (address : string) (sc_node : proxy) (new : SchnorrAccount) (epoch : pyval)
    : MF unit :=
  let key := schnorr_publicKey new in
  let! message := signing_message sc_node key epoch in
  let! s := sign_with_first address message new in
  do! rotate sc_node 0 0 key s in
  do! sync_forge fuel sc_node in
  check_signing_proof sc_node (PInt 0) s key.

(** A rotation of the signing key [i] as a transaction that is sent afterwards:
    its bytes and its id. *)
Definition across_transaction (address : string) (sc_node : proxy) (seed : string) (i : Z) (epoch : pyval)
    : MF (pyval * pyval) :=
  let! new := new_key DefaultModel seed in
  let key := schnorr_publicKey new in
  let! message := signing_message sc_node key epoch in
  let! s := sign_with address i message new in
  let! r := http_create_key_rotation_transaction sc_node (PInt 0) (PInt i) key (signing_signature s)
    (master_signature s) (new_key_signature s) false false PNone in
  let% bytes := getpath r ["result"; "transactionBytes"] in
  let! r := sendTransaction sc_node bytes PNone in
  let% id := getpath r ["result"; "transactionId"] in
  ret (bytes, id).

(** [assert_equal(len(block_json["sidechainTransactions"]), 0)] *)
Definition no_block_txs (block_json : pyval) : outcome unit :=
  let? txs := getitem block_json "sidechainTransactions" in
  let? n := py_len txs in
  assert_equal (PInt n) (PInt 0) "".

(** A block with the transaction forced into it must be refused. *)
Definition across_forced (sc_node : proxy) (bytes : pyval) : MF unit :=
  must_not_work (let! id := generate_next_block sc_node "first node" true (PList [bytes]) in lift (getindex id 0)).

(** The end of the epoch: the two transactions stay in the memory pool. *)
Definition across_epoch_end (mc_node sc_node : proxy) (id3 id4 : pyval) : MF unit :=
  do! call mc_node "generate" [PInt 1] in
  do! generate_next_block sc_node "first node" false PNone in
  let! block_json := http_block_best sc_node in
  do% no_block_txs block_json in
  let! r := allTransactions sc_node false in
  let% ids := getitem r "transactionIds" in
  do! check_length 2 ids "Different mempool size found" in
  let% there := py_in id3 ids in
  do% assert_true there "" in
  let% there := py_in id4 ids in
  do% assert_true there "" in
  do! generate_next_blocks sc_node "first node" 1 in
  lift (no_block_txs block_json).

(** The next epoch: the transactions are refused in blocks and leave the pool. *)
Definition across_next_epoch (mc_node sc_node : proxy) (bytes3 bytes4 : pyval) : MF unit :=
  do! call mc_node "generate" [PInt 1] in
  do! across_forced sc_node bytes3 in
  do! across_forced sc_node bytes4 in
  do! generate_next_blocks sc_node "first node" 1 in
  let! block_json := http_block_best sc_node in
  do% no_block_txs block_json in
  let! r := allTransactions sc_node true in
  let% mempool := getitem r "transactions" in
  let% n := py_len mempool in
  lift (assert_equal (PInt n) (PInt 0) "").

Definition SCKeyRotationAcrossEpochTest_run_test (fuel : nat) : MF unit :=
  let! '(mc_node, sc_node) := csw_start fuel in
  let address := remote_keys_address "127.0.0.1" 5003 in
  do! start_enclave "127.0.0.1" 5003 in
  do! across_coins fuel mc_node sc_node in
  do! check_first_keys sc_node (-1) 7 in
  let! k1 := new_key DefaultModel "random_seed" in
  let! epoch := get_withdrawal_epoch sc_node in
  do! across_change fuel address sc_node k1 epoch in
  let! k2 := new_key DefaultModel "random_seed2" in
  do! across_change fuel address sc_node k2 epoch in
  do! call mc_node "generate" [PInt (10 - 1 - 1 - 1)] in
  do! generate_next_block sc_node "first node" false PNone in
  let! '(bytes3, id3) := across_transaction address sc_node "random_seed3" 0 epoch in
  let! '(bytes4, id4) := across_transaction address sc_node "random_seed4" 1 epoch in
  do! across_epoch_end mc_node sc_node id3 id4 in
  do! across_next_epoch mc_node sc_node bytes3 bytes4 in
  do! await_certificate 10 fuel mc_node sc_node in
  do! mine_certificate mc_node sc_node in
  let! block_json := http_block_best sc_node in
  let% txs := getitem block_json "sidechainTransactions" in
  let% n := py_len txs in
  do% assert_true (n =? 0) "" in
  do! no_rotation sc_node (PInt 1) 7 in
  let! keys := certifiers_keys sc_node 0 in
  lift (check_certifier keys "signingKeys" 0 (Val (schnorr_publicKey k2))).

Definition SCKeyRotationAcrossEpochTest (fuel : nat) (o : Options) (shared : SCForgerConfiguration) : TestClass W :=
  pool_scenario fuel o 1 (SCKeyRotationAcrossEpochTest_sc_setup_chain o shared)
    (SCKeyRotationAcrossEpochTest_run_test fuel).

(** ** sc_cert_key_rotation_old_circuit.py *)

Definition SCKeyRotationOldCircuitTest_sc_setup_chain (o : Options) (shared : SCForgerConfiguration) : MF unit :=
  rotation_chain o (λ c, SCNodeConfiguration_defaults c shared) SC_CREATION_VERSION_1 NO_KEY_ROTATION_CIRCUIT.

(** [assert("error" in response)] and the description of the error *)
Definition circuit_refused (response : pyval) (description : string) : MF unit :=
  let% there := has_key "error" response in
  do! when (negb there) (raise (AssertionError "")) in
  let% d := getpath response ["error"; "description"] in
  lift (assert_equal d (PStr description) "").

Definition SCKeyRotationOldCircuitTest_run_test (fuel : nat) : MF unit :=
  let! '(mc_node, sc_node) := csw_start fuel in
  let! sc_address_1 := http_wallet_createPrivateKey25519 sc_node PNone in
  do! rotation_transfer mc_node sc_address_1 true in
  do! sync_forge fuel sc_node in
  let! keys := certifiers_keys sc_node (-1) in
  do% check_key_counts keys 7 0 in
  let! response := http_get_key_rotation_proof sc_node (PInt 0) (PInt 0) (PInt 0) in
  do! circuit_refused response "The current circuit doesn't support key rotation proofs!" in
  let! response := rotate sc_node 0 0 (PStr "0") (mkSignatures (PStr "0") (PStr "0") (PStr "0")) in
  circuit_refused response "The current circuit doesn't support key rotation transaction!".

Definition SCKeyRotationOldCircuitTest (fuel : nat) (o : Options) (shared : SCForgerConfiguration) : TestClass W :=
  pool_scenario fuel o 1 (SCKeyRotationOldCircuitTest_sc_setup_chain o shared)
    (SCKeyRotationOldCircuitTest_run_test fuel).
End Rotation.
