(* ===== verification/EvmRotationScenarios.v ===== *)
(** * Scenarios: rotation of certificate keys in the account model

    sc_evm_cert_key_rotation.py, sc_evm_cert_key_rotation_multiple_nodes.py and
    sc_evm_cert_key_rotation_across_epoch.py, as test classes on
    [AccountChainSetup].  The topic of an event
    ([encode_hex(event_signature_to_log_topic(...))], eth_utils) is a parameter. *)

From S2P Require Import Prelude PyStr Numbers PyVal Host Sim Json Encoding HttpProxy BootInfo McUtil ScUtil.
From S2P Require Import Forging Bootstrap Framework AccountSetup McFramework HttpCalls AccountCalls AccountUtil SmartContract Tools.
From Stdlib Require Import Ascii String.
From stdpp Require Import base list.
From S2P Require Import Scenarios StakeScenarios ChainScenarios MempoolScenarios EvmScenarios CswScenarios CertificateScenarios KeyRotationScenarios.
Local Open Scope Z_scope.

(** ** Constants of account/utils.py *)

Definition WITHDRAWAL_REQ_SMART_CONTRACT_ADDRESS : string := "0000000000000000000011111111111111111111".
Definition FORGER_STAKE_SMART_CONTRACT_ADDRESS : string := "0000000000000000000022222222222222222222".
Definition FORGER_POOL_RECIPIENT_ADDRESS : string := "0000000000000000000033333333333333333333".
Definition CERTIFICATE_KEY_ROTATION_SMART_CONTRACT_ADDRESS : string := "0000000000000000000044444444444444444444".
Definition MC_ADDR_OWNERSHIP_SMART_CONTRACT_ADDRESS : string := "0000000000000000000088888888888888888888".
Definition PROXY_SMART_CONTRACT_ADDRESS : string := "00000000000000000000AAAAAAAAAAAAAAAAAAAA".
Definition FORGER_STAKE_V2_SMART_CONTRACT_ADDRESS : string := "0000000000000000000022222222222222222333".
Definition NULL_ADDRESS : string := "0000000000000000000000000000000000000000".
Definition ZENDAO_FORK_EPOCH : Z := 7.
Definition INTEROPERABILITY_FORK_EPOCH : Z := 50.
Definition VERSION_1_2_FORK_EPOCH : Z := 60.
Definition VERSION_1_3_FORK_EPOCH : Z := 70.
Definition VERSION_1_4_FORK_EPOCH : Z := 80.
Definition VERSION_1_5_FORK_EPOCH : Z := 90.

(** ** Events *)

Class EthEvents := event_topic : string → pyval.

(** [decode(types, hex_str_to_bytes(v[2:]))] *)
Definition decode_hex `{EthAbi} (types : list string) (v : pyval) : outcome (list pyval) :=
  let? s := (match v with PStr s => Val s | _ => Exc TypeError end) in
  let? b := hex_str_to_bytes (str_drop 2 s) in
  abi_decode (map PStr types) b.

(** [decode([type], hex_str_to_bytes(event['topics'][i][2:]))[0]] *)
Definition topic_value `{EthAbi} (event : pyval) (i : Z) (type : string) : outcome pyval :=
  let? topics := getitem event "topics" in
  let? t := getindex topics i in
  let? l := decode_hex [type] t in
  list_index l 0.

(** The number of topics, and the first one. *)
Definition check_event_id `{EthEvents} (event : pyval) (n : Z) (signature message : string) : outcome unit :=
  let? topics := getitem event "topics" in
  let? k := py_len topics in
  let? _ := assert_equal (PInt n) (PInt k) "Wrong number of topics in event" in
  let? event_id := getindex topics 0 in
  assert_equal (event_topic signature) event_id message.

(** [hexlify(a + b).decode('ascii')] *)
Definition hexlify_both (a b : pyval) : outcome pyval :=
  match a, b with
  | PBytes x, PBytes y => Val (PStr (hexlify (x +:+ y)))
  | _, _ => Exc TypeError
  end.

Definition check_key_rotation_event `{EthAbi, EthEvents} (event : pyval) (key_type key_index : Z)
    (key_value epoch : pyval) : outcome unit :=
  let? _ := check_event_id event 3 "SubmitKeyRotation(uint32,uint32,bytes32,bytes1,uint32)"
              "Wrong event signature in topics" in
  let? key_type_actual := topic_value event 1 "uint32" in
  let? _ := assert_equal (PInt key_type) key_type_actual "Wrong key type in topics" in
  let? key_index_actual := topic_value event 2 "uint32" in
  let? _ := assert_equal (PInt key_index) key_index_actual "Wrong key index in topics" in
  let? data := getitem event "data" in
  let? parts := decode_hex ["bytes32"; "bytes1"; "uint32"] data in
  match parts with
  | [key_value_part1; key_value_part2; epoch_actual] =>
      let? key := hexlify_both key_value_part1 key_value_part2 in
      let? _ := assert_equal key_value key "Wrong key value in event" in
      assert_equal epoch epoch_actual "Wrong epoch in event"
  | _ => Exc (ValueError "unpack")
  end.

(** [int(v['result'][field], 16)] *)
Definition hex_field (reply : pyval) (field : string) : outcome Z :=
  let? v := getpath reply ["result"; field] in py_int_base v 16.

Section EvmRotation.
Context {W : Type} `{Nodes W, Clock W, Os W, Rng W} `{Remote W} `{EthUtils, EthAbi, EthHash, EthEvents}.
Local Abbreviation MF := (M (FW W)).

(** ** Transactions *)

Definition evm_rotate (sc_node : proxy) (type index : Z) (key : pyval) (s : Signatures) (nonce gas_limit : pyval)
    : MF pyval :=
  http_create_key_rotation_transaction_evm sc_node (PInt type) (PInt index) key (signing_signature s)
    (master_signature s) (new_key_signature s) nonce gas_limit (PInt 900000000) (PInt 900000000) PNone.

(** [sc_node.rpc_eth_getTransactionReceipt("0x" + response['result']['transactionId'])] *)
Definition receipt_of (sc_node : proxy) (response : pyval) : MF pyval :=
  let% id := getpath response ["result"; "transactionId"] in
  let% hash := py_add (PStr "0x") id in
  call sc_node "rpc_eth_getTransactionReceipt" [hash].

(** The status in a receipt. *)
Definition check_status (receipt : pyval) (n : Z) (message : string) : MF unit :=
  let% status := hex_field receipt "status" in lift (assert_equal (PInt n) (PInt status) message).

Definition status_message : string := "Wrong tx status in receipt".

(** The receipt of the transaction of a response, with a status. *)
Definition receipt_status (sc_node : proxy) (response : pyval) (n : Z) : MF pyval :=
  let! receipt := receipt_of sc_node response in
  do! check_status receipt n status_message in
  ret receipt.

(** A rotation that is accepted as a transaction and fails in the block. *)
Definition evm_rotation_failed (sc_node : proxy) (index : Z) (key : pyval) (s : Signatures) : MF unit :=
  let! response := evm_rotate sc_node 0 index key s PNone PNone in
  do! generate_next_blocks sc_node "first node" 1 in
  do! receipt_status sc_node response 0 in
  ret tt.

(** A rotation that the node refuses. *)
Definition evm_rotation_refused (sc_node : proxy) (type index : Z) (key : pyval) (s : Signatures) (text : string)
    : MF unit :=
  let! response := evm_rotate sc_node type index key s PNone PNone in
  let% description := getpath response ["error"; "description"] in
  let% there := py_in (PStr text) description in
  lift (assert_true there "").

(** The first event of a receipt is the rotation. *)
Definition check_rotation_log (receipt : pyval) (type : Z) (key epoch : pyval) : MF unit :=
  let% logs := getpath receipt ["result"; "logs"] in
  let% event := getindex logs 0 in
  lift (check_key_rotation_event event type 0 key epoch).

(** A rotation of a key 0 that is applied: status, event, synchronised nodes. *)
Definition evm_rotation_applied (fuel : nat) (sc_node : proxy) (type : Z) (key : pyval) (s : Signatures) (epoch : pyval)
    : MF unit :=
  let! response := evm_rotate sc_node type 0 key s PNone PNone in
  do! check_no_error response in
  do! generate_next_blocks sc_node "first node" 1 in
  let! receipt := receipt_status sc_node response 1 in
  do! check_rotation_log receipt type key epoch in
  sc_sync_all fuel false.

(** The same where the proof is all that is checked. *)
Definition evm_rotation_sent (fuel : nat) (sc_node : proxy) (key : pyval) (s : Signatures) : MF unit :=
  let! response := evm_rotate sc_node 0 0 key s PNone PNone in
  do! check_no_error response in
  sync_forge fuel sc_node.

(** ** Epochs *)

(** The last mainchain blocks of an epoch, in a sidechain block. *)
Definition evm_epoch_end (mc_node sc_node : proxy) (blocks : Z) (sync : MF unit) : MF unit :=
  let! hashes := call mc_node "generate" [PInt blocks] in
  let% hash := getindex hashes 0 in
  let! id := generate_next_block sc_node "first node" false PNone in
  do! sync in
  check_mcreferencedata_presence hash id sc_node.

(** The certificate in the memory pool is signed with the expected keys. *)
Definition check_pooled_keys (mc_node : proxy) (roots : list pyval) (cert_max_keys : Z) : MF unit :=
  let! pool := call mc_node "getrawmempool" [] in
  let% cert_hash := getindex pool 0 in
  let! tx := call mc_node "getrawtransaction" [cert_hash; PInt 1] in
  let% cert := getitem tx "cert" in
  do! forM_ roots (λ root,
    let% fields := getitem cert "vFieldElementCertificateField" in
    let% field := getindex fields 0 in
    lift (assert_equal root field "Certificate Keys Root Hash incorrect")) in
  let% quality := getitem cert "quality" in
  lift (assert_equal (PInt cert_max_keys) quality "Certificate quality is wrong.").

(** The first block of an epoch and the certificate of the epoch before. *)
Definition evm_epoch_start (fuel : nat) (mc_node sc_node : proxy) (sync : bool) (roots : list pyval) : MF unit :=
  do! call mc_node "generate" [PInt 1] in
  do! generate_next_blocks sc_node "first node" 1 in
  do! when sync (sc_sync_all fuel false) in
  do! await_certificate 10 fuel mc_node sc_node in
  check_pooled_keys mc_node roots 7.

(** The keys of an epoch: the hash of all, the first of each kind. *)
Definition epoch_root (sc_node : proxy) (epoch : pyval) (check : pyval → outcome unit) : MF pyval :=
  let! r := http_get_certifiers_keys sc_node epoch in
  let% root := getitem r "keysRootHash" in
  let% keys := getitem r "certifiersKeys" in
  do% check keys in
  ret root.

Definition first_keys (signing : SchnorrAccount) (master : option SchnorrAccount) (keys : pyval) : outcome unit :=
  let? _ := check_certifier keys "signingKeys" 0 (Val (schnorr_publicKey signing)) in
  match master with
  | Some m => check_certifier keys "masterKeys" 0 (Val (schnorr_publicKey m))
  | None => Val tt
  end.

(** ** sc_evm_cert_key_rotation.py *)

Definition rotation_setup (n : Z) (rewind : pyval) (remote : bool) (addresses : list pyval) (indexes : list (list Z))
    : AccountChainSetup :=
  mkAccountChainSetup "Horizen" 1 n 10 (PInt 100) rewind None [] (Some KEY_ROTATION_CIRCUIT) remote addresses 100 true
    true DEFAULT_MAX_NONCE_GAP DEFAULT_MAX_ACCOUNT_SLOTS DEFAULT_MAX_MEMPOOL_SLOTS DEFAULT_MAX_NONEXEC_POOL_SLOTS
    DEFAULT_TX_LIFETIME (repeat None (Z.to_nat n)) 7 5 indexes.

(** No withdrawals yet, and two blocks. *)
Definition evm_rotation_begin (fuel : nat) (sc_node : proxy) : MF unit :=
  let! list_of_wr := all_withdrawal_requests sc_node (PInt 0) in
  do! check_length 0 list_of_wr "" in
  do! sync_forge fuel sc_node in
  do! generate_next_blocks sc_node "first node" 1 in
  sc_sync_all fuel false.

Definition evm_rotation_negative (sc_node : proxy) (key : pyval) (s : Signatures) : MF unit :=
  do! evm_rotation_failed sc_node 0 key (mkSignatures (master_signature s) (master_signature s) (new_key_signature s)) in
  do! evm_rotation_failed sc_node 0 key (mkSignatures (signing_signature s) (signing_signature s) (new_key_signature s)) in
  do! evm_rotation_failed sc_node 2 key s in
  do! evm_rotation_refused sc_node 0 100 key s "key index out of range" in
  do! evm_rotation_refused sc_node 3 0 key s "key type enumeration value invalid" in
  evm_rotation_refused sc_node 0 0 key (mkSignatures (signing_signature s) (master_signature s) (master_signature s))
    "self signature is invalid".

(** The signing key 0 is changed again, not with the old signatures. *)
Definition evm_rotation_again (fuel : nat) (sc_node : proxy) (new : SchnorrAccount)
    (sign : pyval → SchnorrAccount → MF Signatures) (epoch : pyval) (old : Signatures) : MF Signatures :=
  let key := schnorr_publicKey new in
  let! message := signing_message sc_node key epoch in
  let! s := sign message new in
  do! evm_rotation_failed sc_node 0 key
    (mkSignatures (signing_signature old) (master_signature old) (new_key_signature s)) in
  do! evm_rotation_sent fuel sc_node key s in
  ret s.

(** The change of the master key 0 with too little gas, and with enough. *)
Definition evm_rotation_gas (fuel : nat) (sc_node : proxy) (key : pyval) (s : Signatures) : MF unit :=
  let! response := evm_rotate sc_node 1 0 key s PNone (PInt 100000) in
  do! check_no_error response in
  do! generate_next_blocks sc_node "first node" 1 in
  let! receipt := receipt_status sc_node response 0 in
  let% used := hex_field receipt "gasUsed" in
  do% assert_true (used =? 100000) "Gas limit not used" in
  do! sc_sync_all fuel false in
  let! response := evm_rotate sc_node 1 0 key s PNone (PInt 299999) in
  do! check_no_error response in
  do! generate_next_blocks sc_node "first node" 1 in
  let! receipt := receipt_status sc_node response 1 in
  let% used := hex_field receipt "gasUsed" in
  do% assert_true (used <=? 299999) "Gas limit exceeded" in
  do! check_rotation_log receipt 1 key (PInt 0) in
  sc_sync_all fuel false.

(** The first epoch. *)
Definition evm_rotation_epoch0 (fuel : nat) (address : string) (sc_node : proxy) (k : NewKeys) : MF unit :=
  let key := schnorr_publicKey (new_signing_key k) in
  let! epoch := get_withdrawal_epoch sc_node in
  let! message := signing_message sc_node key epoch in
  let! s := sign_with_first address message (new_signing_key k) in
  do! evm_rotation_negative sc_node key s in
  do! evm_rotation_applied fuel sc_node 0 key s (PInt 0) in
  do! check_signing_proof sc_node (PInt 0) s key in
  let! s2 := evm_rotation_again fuel sc_node (new_signing_key_2 k) (sign_with_first address) epoch s in
  do! check_signing_proof sc_node (PInt 0) s2 (schnorr_publicKey (new_signing_key_2 k)) in
  let! message := master_message sc_node (schnorr_publicKey (new_master_key k)) epoch in
  let! s3 := sign_with_first address message (new_master_key k) in
  evm_rotation_gas fuel sc_node (schnorr_publicKey (new_master_key k)) s3.

(** The signing key 0 is changed with the signatures of the changed keys. *)
Definition evm_rotation_fourth (fuel : nat) (address : string) (sc_node : proxy) (k : NewKeys) (epoch : pyval)
    : MF unit :=
  let key := schnorr_publicKey (new_signing_key_4 k) in
  let! message := signing_message sc_node key epoch in
  let! s := sign_rotation address message (ByKey (schnorr_secret (new_master_key k)))
    (ByKey (schnorr_secret (new_signing_key_2 k))) (ByKey (schnorr_secret (new_signing_key_4 k))) in
  evm_rotation_sent fuel sc_node key s.

(** All keys are changed, one block for each. *)
Definition evm_rotate_all (address : string) (sc_node : proxy) (k : NewKeys) (private_master private_signing : list pyval)
    (epoch : pyval) : MF unit :=
  forM_ (zrange 0 7) (λ i,
    let! '(new_s, ss, new_m, sm) := sign_pair address sc_node k private_master private_signing epoch i in
    let! response := evm_rotate sc_node 0 i (schnorr_publicKey new_s) ss PNone PNone in
    do! check_no_error response in
    do! generate_next_blocks sc_node "first node" 1 in
    let! response := evm_rotate sc_node 1 i (schnorr_publicKey new_m) sm PNone PNone in
    do! check_no_error response in
    do! generate_next_blocks sc_node "first node" 1 in
    ret tt).

(** The second and the third epoch: the hash of the keys after each. *)
Definition evm_rotation_epoch1 (fuel : nat) (address : string) (mc_node sc_node : proxy) (k : NewKeys) (root : pyval)
    : MF pyval :=
  do! evm_epoch_start fuel mc_node sc_node false [root] in
  do! mine_certificate mc_node sc_node in
  do! no_rotation sc_node (PInt 1) 7 in
  let! epoch := get_withdrawal_epoch sc_node in
  do! evm_rotation_fourth fuel address sc_node k epoch in
  do! evm_epoch_end mc_node sc_node (10 - 1 - 1) (ret tt) in
  epoch_root sc_node (PInt 1) (first_keys (new_signing_key_4 k) None).

Definition evm_rotation_epoch2 (fuel : nat) (address : string) (mc_node sc_node : proxy) (k : NewKeys) (root : pyval)
    : MF pyval :=
  do! evm_epoch_start fuel mc_node sc_node false [root] in
  do! mine_certificate mc_node sc_node in
  do! no_rotation sc_node (PInt 2) 7 in
  let! epoch := get_withdrawal_epoch sc_node in
  let! info := boot_info in
  let p := certificate_proof_info info in
  do! evm_rotate_all address sc_node k (schnorr_masters_secrets p) (schnorr_signers_secrets p) epoch in
  do! generate_next_blocks sc_node "first node" 1 in
  do! all_rotated sc_node (PInt 2) k 7 in
  do! evm_epoch_end mc_node sc_node (10 - 1 - 1) (ret tt) in
  let! keys := certifiers_keys sc_node 3 in
  do% check_certifiers keys (public_of (new_signing_keys k)) (public_of (new_master_keys k)) in
  let! r := http_get_certifiers_keys sc_node (PInt 3) in
  lift (getitem r "keysRootHash").

(** The certificates of the last two epochs are signed with the new keys. *)
Definition evm_rotation_last (fuel : nat) (mc_node sc_node : proxy) (root : pyval) : MF unit :=
  do! evm_epoch_start fuel mc_node sc_node false [root] in
  do! mine_certificate mc_node sc_node in
  do! call mc_node "generate" [PInt (10 - 1 - 1)] in
  do! generate_next_block sc_node "first node" false PNone in
  evm_epoch_start fuel mc_node sc_node false [root].

(** The rotation of the signing key 0 as the input of the native contract. *)
Definition SUBMIT_KEY_ROTATION : string :=
  "submitKeyRotation(uint32,uint32,bytes32,bytes1,bytes32,bytes32,bytes32,bytes32,bytes32,bytes32)".

(** [b[:32], b[32:]] of the bytes of a hexadecimal text *)
Definition halves (v : pyval) : outcome (list pyval) :=
  let? s := (match v with PStr s => Val s | _ => Exc TypeError end) in
  let? b := hex_str_to_bytes s in
  Val [PBytes (str_take 32 b); PBytes (str_drop 32 b)].

Definition rotation_input (native_contract : SmartContract) (key : pyval) (s : Signatures) : outcome string :=
  let? k := halves key in
  let? g := halves (signing_signature s) in
  let? m := halves (master_signature s) in
  let? n := halves (new_key_signature s) in
  let? data := raw_encode_call native_contract SUBMIT_KEY_ROTATION ([PInt 0; PInt 0] ++ k ++ g ++ m ++ n) in
  format_eoa_val data.

(** The trace of a call of a native contract through the proxy contract. *)
Definition trace_result_of (trace_response : pyval) : MF pyval :=
  do! check_no_error trace_response in
  let% there := has_key "result" trace_response in
  do% assert_true there "" in
  lift (getitem trace_response "result").

(** [assert_equal(a.lower(), v[field].lower())] *)
Definition check_lower (a v : pyval) (field : string) : outcome unit :=
  let? expected := lower_of a in
  let? x := getitem v field in
  let? x := lower_of x in
  assert_equal expected x "".

Definition positive_hex (v : pyval) (field : string) : outcome unit :=
  let? x := getitem v field in
  let? n := py_int_base x 16 in
  assert_true (0 <? n) "".

(** The only call inside; [output] looks at what it returns. *)
Definition check_call_inside (trace_result contract_address : pyval) (native_address native_input : string)
    (output : pyval → outcome unit) : outcome unit :=
  let? _ := check_lower contract_address trace_result "to" in
  let? calls := getitem trace_result "calls" in
  let? n := py_len calls in
  let? _ := assert_equal (PInt 1) (PInt n) "" in
  let? native_call := getindex calls 0 in
  let? type := getitem native_call "type" in
  let? _ := assert_equal (PStr "CALL") type "" in
  let? _ := check_lower contract_address native_call "from" in
  let? to := getitem native_call "to" in
  let? _ := assert_equal (PStr ("0x" +:+ native_address)) to "" in
  let? _ := positive_hex native_call "gas" in
  let? _ := positive_hex native_call "gasUsed" in
  let? input := getitem native_call "input" in
  let? _ := assert_equal (PStr ("0x" +:+ native_input)) input "" in
  let? _ := output native_call in
  let? there := has_key "calls" native_call in
  assert_false there "".

Definition check_native_call (trace_result contract_address : pyval) (native_address native_input : string)
    (native_output : option string) : outcome unit :=
  check_call_inside trace_result contract_address native_address native_input (λ native_call,
    match native_output with
    | Some out => let? output := getitem native_call "output" in assert_equal (PStr ("0x" +:+ out)) output ""
    | None => Val tt
    end).

(** Before the fork the call is reverted; then the fork is reached. *)
Definition interop_fork (fuel : nat) (sc_node : proxy) (p : SimpleProxyContract) (address : pyval) (input : string)
    : MF unit :=
  do! catch (
    do! do_call p address (PInt 1) (PStr CERTIFICATE_KEY_ROTATION_SMART_CONTRACT_ADDRESS) (PInt 0) (PStr input) in
    lift (fail "Interoperability call should fail before fork point"))
  (λ e, match e with
        | RuntimeError m | EvmExecutionError m => lift (assert_true (str_contains "reverted" m) "")
        | _ => raise e
        end) in
  let! epoch := current_epoch sc_node in
  let% left := py_sub (PInt INTEROPERABILITY_FORK_EPOCH) epoch in
  let% left := range_stop left in
  forM_ (zrange 0 left) (λ _,
    do! generate_next_block sc_node "first node" true PNone in
    sc_sync_all fuel false).

(** The estimated, traced and used gas of the call, and its traces. *)
Definition interop_calls (fuel : nat) (sc_node : proxy) (p : SimpleProxyContract) (address key epoch : pyval)
    (input : string) : MF unit :=
  let target := PStr CERTIFICATE_KEY_ROTATION_SMART_CONTRACT_ADDRESS in
  let! exp_gas := SimpleProxyContract_estimate_gas p address (PInt 1) target (PInt 0) (PStr input) 20000000 in
  let! response := do_call_trace p address (PInt 1) target (PInt 0) (PStr input) in
  let! trace_result := trace_result_of response in
  do% check_native_call trace_result (spc_contract_address p) CERTIFICATE_KEY_ROTATION_SMART_CONTRACT_ADDRESS input None in
  let! tx_hash := call_transaction p address (PInt 1) target (PInt 0) (PStr input) (PInt 20000000) in
  do! generate_next_blocks sc_node "first node" 1 in
  do! sc_sync_all fuel false in
  let! receipt := call sc_node "rpc_eth_getTransactionReceipt" [tx_hash] in
  do! check_status receipt 1 status_message in
  do! check_rotation_log receipt 0 key epoch in
  let% gas_used := hex_field receipt "gasUsed" in
  let% estimated := getitem exp_gas "result" in
  let% estimated_gas := py_int_base estimated 16 in
  do% assert_true (gas_used <=? estimated_gas) "Wrong estimated gas" in
  let% traced := getitem trace_result "gasUsed" in
  let% gas_used_tracer := py_int_base traced 16 in
  do% assert_equal (PInt gas_used) (PInt gas_used_tracer) "Wrong gas" in
  let! response := call sc_node "rpc_debug_traceTransaction" [tx_hash; PDict [("tracer", PStr "callTracer")]] in
  let! trace_result := trace_result_of response in
  do% check_native_call trace_result (spc_contract_address p) CERTIFICATE_KEY_ROTATION_SMART_CONTRACT_ADDRESS input None in
  let% traced := getitem trace_result "gasUsed" in
  let% gas_used_tracer := py_int_base traced 16 in
  lift (assert_equal (PInt gas_used) (PInt gas_used_tracer) "Wrong gas").

(** A new account with coins, and the proxy contract. *)
Definition interop_account (mc_node sc_node : proxy) : MF pyval :=
  let! address := new_evm_address sc_node in
  let! info := boot_info in
  let! mc_return_address := call mc_node "getnewaddress" [] in
  do! forward_transfer_to_sidechain (sidechain_id info) mc_node address (PInt 50) mc_return_address true in
  do! generate_next_block sc_node "first node" false PNone in
  ret address.

Definition evm_rotation_interop (fuel : nat) (o : Options) (remote : string) (mc_node sc_node : proxy) (k : NewKeys)
    : MF unit :=
  do! sleep (secs 1) in
  let! address := interop_account mc_node sc_node in
  let! p := SimpleProxyContract_init sc_node address (all_forks o) in
  let! native_contract := SmartContract_init "CertKeyRotation" in
  let! new := new_key AccountModel "random_seed_interop" in
  let key := schnorr_publicKey new in
  let! epoch := get_withdrawal_epoch sc_node in
  let! message := signing_message sc_node key epoch in
  let% master := list_index (new_master_keys k) 0 in
  let! m := signature_of remote message (ByKey (schnorr_secret master)) in
  let% signing := list_index (new_signing_keys k) 0 in
  let! g := signature_of remote message (ByKey (schnorr_secret signing)) in
  let! n := signature_of remote message (ByKey (schnorr_secret new)) in
  let% input := rotation_input native_contract key (mkSignatures g m n) in
  do! when (negb (all_forks o)) (interop_fork fuel sc_node p address input) in
  interop_calls fuel sc_node p address key epoch input.

Definition EvmSCKeyRotationTest_run_test (fuel : nat) (o : Options) : MF unit :=
  do! sleep 100000 in
  do! sc_ac_setup fuel true true (PInt 10) in
  let! mc_node := mc 0 in
  let! sc_node := sc 0 in
  let address := remote_keys_address "127.0.0.1" 5000 in
  let! k := rotation_keys AccountModel 7 in
  do! start_enclave "127.0.0.1" 5000 in
  do! evm_rotation_begin fuel sc_node in
  do! epoch_root sc_node (PInt (-1)) (λ keys, check_key_counts keys 7 7) in
  do! no_rotation sc_node (PInt 0) 7 in
  do! evm_rotation_epoch0 fuel address sc_node k in
  do! evm_epoch_end mc_node sc_node (10 - 1 - 1) (ret tt) in
  let! root1 := epoch_root sc_node (PInt 0) (first_keys (new_signing_key_2 k) (Some (new_master_key k))) in
  let! root2 := evm_rotation_epoch1 fuel address mc_node sc_node k root1 in
  let! root3 := evm_rotation_epoch2 fuel address mc_node sc_node k root2 in
  do! evm_rotation_last fuel mc_node sc_node root3 in
  evm_rotation_interop fuel o address mc_node sc_node k.

Definition EvmSCKeyRotationTest (fuel : nat) (o : Options) (shared : SCForgerConfiguration) : TestClass W :=
  AccountChainSetup_class fuel o
    (rotation_setup 1 (PInt (1500 * EVM_APP_SLOT_TIME * INTEROPERABILITY_FORK_EPOCH)) true
       [PStr (remote_keys_address "127.0.0.1" 5000)] [zrange 0 7]) shared (EvmSCKeyRotationTest_run_test fuel o).

(** ** sc_evm_cert_key_rotation_multiple_nodes.py *)

(** [l[a:b]], to the end without [b] *)
Definition part {A} (a : nat) (b : option nat) (l : list A) : list A :=
  match b with Some b => take (b - a) (drop a l) | None => drop a l end.

(** What the server of a node knows: its part of the master keys, more keys, and
    its part of the new pairs. *)
Definition server_keys (sel : SchnorrAccount → pyval) (all : list pyval) (a : nat) (b : option nat)
    (more : list SchnorrAccount) (pairs : list (SchnorrAccount * SchnorrAccount)) : list pyval :=
  part a b all ++ map sel more ++ concat (map (λ sm, [sel sm.1; sel sm.2]) (part a b pairs)).

(** The keys, generated in the order of the script, and the three servers. *)
Definition nodes_keys : MF (NewKeys * list pyval) :=
  let! k1 := new_key AccountModel "random_seed" in
  let! k2 := new_key AccountModel "random_seed2" in
  let! k3 := new_key AccountModel "random_seed3" in
  let! k4 := new_key AccountModel "random_seed4" in
  let! pairs := mmap (λ i,
    let! s := new_key AccountModel ("random_seed5" +:+ str_of_Z i) in
    let! m := new_key AccountModel ("random_seed6" +:+ str_of_Z i) in
    ret (s, m)) (zrange 0 7) in
  let! info := boot_info in
  let p := certificate_proof_info info in
  let server (a : nat) (b : option nat) (more : list SchnorrAccount) (port : Z) : MF (list pyval) :=
    let publics := server_keys schnorr_publicKey (public_master_keys p) a b more pairs in
    do! run_os (enclave_start (SecureEnclaveApiServer_init
      (Some (server_keys schnorr_secret (schnorr_masters_secrets p) a b more pairs)) (Some publics) "127.0.0.1" port)) in
    ret publics in
  let! first_node_public_master_keys := server 0%nat (Some 3%nat) [k1; k2; k3; k4] 5100 in
  do! server 3%nat (Some 6%nat) [] 5101 in
  do! server 6%nat None [] 5102 in
  ret (mkNewKeys k1 k2 k3 k4 (map fst pairs) (map snd pairs), first_node_public_master_keys).

(** [for sc_node in self.sc_nodes: ...]: what each node reports *)
Definition on_nodes {A} (f : proxy → MF A) : MF (list A) := let! l := get_sc_nodes in mmap f l.

Definition nodes_root (epoch : pyval) (check : pyval → outcome unit) : MF (list pyval) :=
  on_nodes (λ node, epoch_root node epoch check).

(** The hashes only, without the keys. *)
Definition nodes_root_only (epoch : pyval) : MF (list pyval) :=
  on_nodes (λ node, let! r := http_get_certifiers_keys node epoch in lift (getitem r "keysRootHash")).

(** In the order of the script, the key before the hash. *)
Definition nodes_root_after (epoch : pyval) (check : pyval → outcome unit) : MF (list pyval) :=
  on_nodes (λ node,
    let! r := http_get_certifiers_keys node epoch in
    let% keys := getitem r "certifiersKeys" in
    do% check keys in
    lift (getitem r "keysRootHash")).

Definition nodes_no_rotation (epoch : pyval) : MF unit :=
  do! on_nodes (λ node, no_rotation node epoch 7) in ret tt.

Definition nodes_proof (epoch : pyval) (s : Signatures) (key : pyval) : MF unit :=
  do! on_nodes (λ node, check_signing_proof node epoch s key) in ret tt.

(** The certificate is mined and all nodes have its block. *)
Definition mine_certificate_synced (fuel : nat) (mc_node sc_node : proxy) : MF unit :=
  let! hash := mine mc_node in
  let! ids := generate_next_blocks sc_node "first node" 1 in
  let% id := list_index ids 0 in
  do! sc_sync_all fuel false in
  check_mcreference_presence hash id sc_node.

(** The rotations of the second epoch. *)
Definition nodes_epoch1 (fuel : nat) (sc_node : proxy) (k : NewKeys)
    (sign : pyval → SchnorrAccount → MF Signatures) : MF pyval :=
  let key := schnorr_publicKey (new_signing_key k) in
  let! epoch := get_withdrawal_epoch sc_node in
  let! message := signing_message sc_node key epoch in
  let! s := sign message (new_signing_key k) in
  do! evm_rotation_applied fuel sc_node 0 key s epoch in
  do! nodes_proof epoch s key in
  let! s2 := evm_rotation_again fuel sc_node (new_signing_key_2 k) sign epoch s in
  do! nodes_proof epoch s2 (schnorr_publicKey (new_signing_key_2 k)) in
  let! message := master_message sc_node (schnorr_publicKey (new_master_key k)) epoch in
  let! s3 := sign message (new_master_key k) in
  do! evm_rotation_applied fuel sc_node 1 (schnorr_publicKey (new_master_key k)) s3 epoch in
  ret epoch.

(** An epoch without rotations: the hashes at its end, and its number. *)
Definition nodes_quiet_epoch (fuel : nat) (mc_node sc_node : proxy) (roots : list pyval) : MF (pyval * list pyval) :=
  do! evm_epoch_start fuel mc_node sc_node true roots in
  do! mine_certificate_synced fuel mc_node sc_node in
  let! epoch := get_withdrawal_epoch sc_node in
  do! nodes_no_rotation epoch in
  do! evm_epoch_end mc_node sc_node (10 - 1 - 1) (sc_sync_all fuel false) in
  let! roots := nodes_root_only epoch in
  ret (epoch, roots).

(** The fifth epoch: the proofs asked for are those of the epoch before. *)
Definition nodes_epoch4 (fuel : nat) (address : string) (mc_node sc_node : proxy) (k : NewKeys) (previous : pyval)
    (roots : list pyval) : MF (list pyval) :=
  do! evm_epoch_start fuel mc_node sc_node true roots in
  do! mine_certificate_synced fuel mc_node sc_node in
  do! nodes_no_rotation previous in
  let! epoch := get_withdrawal_epoch sc_node in
  do! evm_rotation_fourth fuel address sc_node k epoch in
  do! evm_epoch_end mc_node sc_node (10 - 1 - 1) (ret tt) in
  nodes_root_after epoch (first_keys (new_signing_key_4 k) None).

(** The sixth epoch: all keys are changed. *)
Definition nodes_epoch5 (fuel : nat) (address : string) (mc_node sc_node : proxy) (k : NewKeys) (roots : list pyval)
    : MF (list pyval) :=
  do! evm_epoch_start fuel mc_node sc_node true roots in
  do! mine_certificate mc_node sc_node in
  let! epoch := get_withdrawal_epoch sc_node in
  do! nodes_no_rotation epoch in
  let! info := boot_info in
  let p := certificate_proof_info info in
  do! evm_rotate_all address sc_node k (schnorr_masters_secrets p) (schnorr_signers_secrets p) epoch in
  do! generate_next_blocks sc_node "first node" 1 in
  do! sc_sync_all fuel false in
  do! on_nodes (λ node, all_rotated node epoch k 7) in
  do! evm_epoch_end mc_node sc_node (10 - 1 - 1) (ret tt) in
  let! r := http_get_certifiers_keys sc_node epoch in
  let% keys := getitem r "certifiersKeys" in
  do% check_certifiers keys (public_of (new_signing_keys k)) (public_of (new_master_keys k)) in
  nodes_root_only epoch.

(** The last two epochs. *)
Definition nodes_last (fuel : nat) (mc_node sc_node : proxy) (roots : list pyval) : MF unit :=
  do! evm_epoch_start fuel mc_node sc_node true roots in
  do! mine_certificate mc_node sc_node in
  do! call mc_node "generate" [PInt (10 - 1 - 1)] in
  do! generate_next_block sc_node "first node" false PNone in
  do! sc_sync_all fuel false in
  evm_epoch_start fuel mc_node sc_node true roots.

Definition SCKeyRotationTestMultipleNodes_run_test (fuel : nat) : MF unit :=
  do! sleep 100000 in
  do! sc_ac_setup fuel true true (PInt 10) in
  let! mc_node := mc 0 in
  let! sc_node := sc 0 in
  let address := remote_keys_address "127.0.0.1" 5100 in
  let! info := boot_info in
  let! '(k, first_publics) := nodes_keys in
  let sign := sign_at address first_publics
    (part 0 (Some 3%nat) (schnorr_signers_secrets (certificate_proof_info info))) 0 in
  do! evm_rotation_begin fuel sc_node in
  let! roots := nodes_root (PInt (-1)) (λ keys, check_key_counts keys 7 7) in
  do! nodes_no_rotation (PInt 0) in
  do! evm_epoch_end mc_node sc_node (10 - 1 - 1) (sc_sync_all fuel false) in
  do! evm_epoch_start fuel mc_node sc_node true roots in
  do! mine_certificate_synced fuel mc_node sc_node in
  let! epoch := nodes_epoch1 fuel sc_node k sign in
  do! evm_epoch_end mc_node sc_node (10 - 1 - 1) (sc_sync_all fuel false) in
  let! roots := nodes_root epoch (first_keys (new_signing_key_2 k) (Some (new_master_key k))) in
  let! '(_, roots) := nodes_quiet_epoch fuel mc_node sc_node roots in
  let! '(epoch, roots) := nodes_quiet_epoch fuel mc_node sc_node roots in
  let! roots := nodes_epoch4 fuel address mc_node sc_node k epoch roots in
  let! roots := nodes_epoch5 fuel address mc_node sc_node k roots in
  nodes_last fuel mc_node sc_node roots.

Definition SCKeyRotationTestMultipleNodes (fuel : nat) (o : Options) (shared : SCForgerConfiguration) : TestClass W :=
  AccountChainSetup_class fuel o
    (rotation_setup 3 evm_rewind true (map (λ x, PStr (remote_keys_address "127.0.0.1" (5100 + x))) (zrange 0 3))
       [zrange 0 3; zrange 3 6; zrange 6 7]) shared (SCKeyRotationTestMultipleNodes_run_test fuel).

(** ** sc_evm_cert_key_rotation_across_epoch.py *)

(** The signing key 0 is changed to a new key; the response of the transaction
    and the signatures. *)
Definition evm_across_send (address : string) (sc_node : proxy) (new : SchnorrAccount) (nonce : Z)
    : MF (pyval * Signatures) :=
  let key := schnorr_publicKey new in
  let! epoch := get_withdrawal_epoch sc_node in
  let! message := signing_message sc_node key epoch in
  let! s := sign_with_first address message new in
  let! response := evm_rotate sc_node 0 0 key s (PInt nonce) PNone in
  ret (response, s).

Definition evm_across_change (fuel : nat) (address : string) (sc_node : proxy) (seed : string) (nonce : Z)
    : MF SchnorrAccount :=
  let! new := new_key AccountModel seed in
  let! '(response, s) := evm_across_send address sc_node new nonce in
  do! generate_next_blocks sc_node "first node" 1 in
  do! receipt_status sc_node response 1 in
  do! sc_sync_all fuel false in
  do! check_signing_proof sc_node (PInt 0) s (schnorr_publicKey new) in
  ret new.

Definition EvmSCKeyRotationAcrossEpochTest_run_test (fuel : nat) : MF unit :=
  do! sleep 100000 in
  do! sc_ac_setup fuel true true (PInt 10) in
  let! mc_node := mc 0 in
  let! sc_node := sc 0 in
  let address := remote_keys_address "127.0.0.1" 5001 in
  do! start_enclave "127.0.0.1" 5001 in
  do! generate_next_blocks sc_node "first node" 1 in
  do! sc_sync_all fuel false in
  do! check_first_keys sc_node 0 7 in
  do! evm_across_change fuel address sc_node "random_seed" 0 in
  let! k2 := evm_across_change fuel address sc_node "random_seed2" 1 in
  do! call mc_node "generate" [PInt (10 - 1 - 1 - 1)] in
  do! generate_next_block sc_node "first node" false PNone in
  let! k3 := new_key AccountModel "random_seed3" in
  let! '(response, _) := evm_across_send address sc_node k3 2 in
  do! call mc_node "generate" [PInt 1] in
  let! block_id := generate_next_block sc_node "first node" false PNone in
  let! r := http_block_findById sc_node block_id in
  let% sc_txs := getpath r ["block"; "sidechainTransactions"] in
  do! check_length 0 sc_txs "There should be no SC TXs in a block" in
  let! root := epoch_root sc_node (PInt 0) (first_keys k2 None) in
  do! call mc_node "generate" [PInt 1] in
  do! generate_next_block sc_node "first node" false PNone in
  do! receipt_status sc_node response 0 in
  do! await_certificate 10 fuel mc_node sc_node in
  do! check_pooled_keys mc_node [root] 7 in
  do! mine_certificate mc_node sc_node in
  let! block_json := http_block_best sc_node in
  let% txs := getitem block_json "sidechainTransactions" in
  let% n := py_len txs in
  do% assert_true (n =? 0) "" in
  no_rotation sc_node (PInt 1) 7.

Definition EvmSCKeyRotationAcrossEpochTest (fuel : nat) (o : Options) (shared : SCForgerConfiguration) : TestClass W :=
  AccountChainSetup_class fuel o (rotation_setup 1 evm_rewind false [] []) shared
    (EvmSCKeyRotationAcrossEpochTest_run_test fuel).
End EvmRotation.
