(* ===== verification/ForgerScenarios.v ===== *)
(** * Scenarios: who may forge

    sc_closed_forger.py and sc_evm_closed_forger.py (a closed list of forgers,
    opened by the votes of its members), sc_evm_forger_delegation.py,
    sc_evm_forger_reward_address.py and sc_evm_forger.py (stakes delegated,
    moved to a contract, spent).  [remove_0x_prefix] and [to_hex] of eth_utils
    are parameters. *)

From S2P Require Import Prelude PyStr Numbers PyVal Host Sim Json Encoding HttpProxy BootInfo McUtil ScUtil.
From S2P Require Import Forging Bootstrap Framework AccountSetup McFramework HttpCalls AccountCalls AccountUtil SmartContract Tools.
From Stdlib Require Import Ascii String QArith.
From stdpp Require Import base list.
From S2P Require Import Scenarios ForgingScenarios StakeScenarios ChainScenarios MempoolScenarios EvmScenarios BackwardScenarios.
From S2P Require Import CswScenarios CertificateScenarios KeyRotationScenarios EvmRotationScenarios.
Local Open Scope Z_scope.

Class EthHex := {
  remove_0x_prefix : pyval → outcome pyval;
  to_hex : pyval → outcome pyval
}.

(** ** Boxes and stakes in replies *)

(** [find_box] of [SidechainClosedForgerTest]: an empty object without such a box. *)
Fixpoint find_box (proposition : pyval) (boxes : list pyval) : outcome pyval :=
  match boxes with
  | [] => Val (PDict [])
  | box :: boxes' =>
      let? type := getitem box "typeName" in
      if py_eqb type (PStr "ZenBox") then
        let? key := getpath box ["proposition"; "publicKey"] in
        if py_eqb key proposition then Val box else find_box proposition boxes'
      else find_box proposition boxes'
  end.

(** The sum of the stakes of a block signer. *)
Fixpoint signer_stake (sum : pyval) (inSignerAddress : pyval) (entries : list pyval) : outcome pyval :=
  match entries with
  | [] => Val sum
  | entry :: entries' =>
      let? signerAddress := getpath entry ["forgerStakeData"; "forgerPublicKeys"; "blockSignPublicKey"; "publicKey"] in
      if py_eqb signerAddress inSignerAddress then
        let? amount := getpath entry ["forgerStakeData"; "stakedAmount"] in
        let? sum := py_add sum amount in
        signer_stake sum inSignerAddress entries'
      else signer_stake sum inSignerAddress entries'
  end.

Definition getSignerStakeAmount (myInfoList inSignerAddress : pyval) : outcome pyval :=
  let? l := py_iter myInfoList in signer_stake (PInt 0) inSignerAddress l.

(** The keys that the classes generate when they are defined. *)
Record AllowedForgers := mkAllowedForgers {
  allowed_forger_propositions : list Account;
  allowed_forger_vrf_public_keys : list VrfAccount
}.

Definition forger_key (f : AllowedForgers) (i : Z) : outcome pyval :=
  let? a := list_index (allowed_forger_propositions f) i in Val (publicKey a).

Definition forger_vrf (f : AllowedForgers) (i : Z) : outcome pyval :=
  let? a := list_index (allowed_forger_vrf_public_keys f) i in Val (vrf_publicKey a).

(** The pairs of keys, joined to texts in [SCForgerConfiguration]. *)
Definition allowed_pairs (f : AllowedForgers) (n : Z) : outcome (list (string * string)) :=
  omapM (λ i,
    let? k := forger_key f i in
    let? v := forger_vrf f i in
    match k, v with PStr k, PStr v => Val (k, v) | _, _ => Exc TypeError end) (zrange 0 n).

Section Forgers.
Context {W : Type} `{Nodes W, Clock W, Os W, Rng W} `{EthUtils, EthAbi, EthHash, EthEvents, EthHex}.
Context (str_exn : exn → string).
Local Abbreviation MF := (M (FW W)).

Definition generate_forgers (seed : string) (n : Z) (model : string) : MF AllowedForgers :=
  let! propositions := generate_secrets seed n model in
  let! vrf := generate_vrf_secrets seed n model in
  ret (mkAllowedForgers propositions vrf).

Definition initial_keys (f : AllowedForgers) : list pyval := map secret (allowed_forger_propositions f).

(** ** sc_closed_forger.py *)

Definition SidechainClosedForgerTest_sc_setup_chain (o : Options) (f : AllowedForgers) : MF unit :=
  let! mc_node_1 := mc 0 in
  let% pairs := allowed_pairs f 4 in
  let! forger_configuration := SCForgerConfiguration_init true pairs "" in
  let! connection := ws_connection mc_node_1 0 in
  let configuration := SCNodeConfiguration_init connection true true None 100 100 "2m" true
    (PFloat (float_of_dec (Dec 1 (-4)))) forger_configuration 300 0 DEFAULT_API_KEY 10000000000000 (initial_keys f)
    false PNone [] None [] "15m" "5m" false 0 true DEFAULT_MAX_NONCE_GAP DEFAULT_MAX_ACCOUNT_SLOTS
    DEFAULT_MAX_MEMPOOL_SLOTS DEFAULT_MAX_NONEXEC_POOL_SLOTS DEFAULT_TX_LIFETIME true true in
  let! info := bootstrap o mc_node_1 600 LARGE_WITHDRAWAL_EPOCH_LENGTH [configuration] five_epochs in
  put_info info.

(** [assert_true(text in res['error']['detail'])] *)
Definition check_detail (res : pyval) (text : string) : MF unit :=
  let% detail := getpath res ["error"; "detail"] in
  let% there := py_in (PStr text) detail in
  lift (assert_true there "").

Definition check_key (res : pyval) (key : string) : MF unit :=
  let% there := has_key key res in lift (assert_true there "").

(** A stake of the first forger, for a signer and a VRF key. *)
Definition closed_stake (sc_node : proxy) (f : AllowedForgers) (signer vrf : pyval) : MF pyval :=
  let% owner := forger_key f 0 in makeForgerStake sc_node owner signer vrf (PInt 1000) (PInt 0) PNone.

Definition stake_refused (sc_node : proxy) (f : AllowedForgers) (signer vrf : pyval) : MF unit :=
  let! result := closed_stake sc_node f signer vrf in
  do! check_key result "error" in
  check_detail result "This publicKey is not allowed to forge".

Definition stake_accepted (sc_node : proxy) (f : AllowedForgers) (signer vrf : pyval) : MF unit :=
  let! result := closed_stake sc_node f signer vrf in
  do! check_key result "result" in
  let% r := getitem result "result" in
  check_key r "transactionId".

(** The transaction that opens the stake of a forger: created, and sent. *)
Definition open_stake_tx (sc_node : proxy) (box key : pyval) (index : Z) (fee : pyval) : MF pyval :=
  let% id := getitem box "id" in
  createOpenStakeTransaction sc_node id key (PInt index) fee false false PNone.

Definition send_tx_bytes (sc_node : proxy) (tx_bytes : pyval) : MF pyval :=
  let% bytes := getitem tx_bytes "transactionBytes" in HttpCalls.sendTransaction sc_node bytes PNone.

Definition open_stake (sc_node : proxy) (box key : pyval) (index : Z) (fee : pyval) : MF pyval :=
  let! tx_bytes := open_stake_tx sc_node box key index fee in
  send_tx_bytes sc_node tx_bytes.

(** A box of a proposition among boxes, which must be there. *)
Definition box_of (boxes proposition : pyval) : outcome pyval :=
  let? l := py_iter boxes in
  let? box := find_box proposition l in
  let? _ := assert_true (py_neqb box (PDict [])) "" in
  Val box.

Definition wallet_box (sc_node : proxy) (proposition : pyval) : MF pyval :=
  let! allBoxes := http_wallet_allBoxes sc_node PNone PNone in
  lift (box_of allBoxes proposition).

Definition check_best_epoch (sc_node : proxy) (n : Z) : MF unit :=
  let! info := http_block_forging_info sc_node in
  let% epoch := getitem info "bestBlockEpochNumber" in
  lift (assert_equal epoch (PInt n) "").

(** Coins, stakes outside of the list and one inside: the keys outside of it. *)
Definition closed_stakes (fuel : nat) (mc_node sc_node : proxy) (f : AllowedForgers) : MF (pyval * pyval) :=
  do! generate_next_blocks sc_node "first node" 1 in
  let! info := boot_info in
  let% key0 := forger_key f 0 in
  let! mc_return_address := call mc_node "getnewaddress" [] in
  do! forward_transfer_to_sidechain (sidechain_id info) mc_node key0 (genesis_account_balance info)
    mc_return_address true in
  do! sync_forge fuel sc_node in
  let! new_public_key := http_wallet_createPrivateKey25519 sc_node PNone in
  let! new_vrf_public_key := http_wallet_createVrfSecret sc_node PNone in
  let% vrf0 := forger_vrf f 0 in
  do! stake_refused sc_node f new_public_key vrf0 in
  do! stake_refused sc_node f key0 new_vrf_public_key in
  do! stake_refused sc_node f new_public_key new_vrf_public_key in
  do! stake_accepted sc_node f key0 vrf0 in
  do! sync_forge fuel sc_node in
  ret (new_public_key, new_vrf_public_key).

(** Coins for all forgers and for the new key; the boxes after them. *)
Definition closed_boxes (fuel : nat) (sc_node : proxy) (f : AllowedForgers) (new_public_key : pyval) : MF pyval :=
  let props := map publicKey (allowed_forger_propositions f) in
  do! sendCointsToMultipleAddress sc_node (props ++ [new_public_key])
    (repeat (PInt 1000) (length props) ++ [PInt 1500]) (PInt 0) in
  do! sync_forge fuel sc_node in
  http_wallet_allBoxes sc_node PNone PNone.

(** What the node refuses to build, in the epoch of the fork and after it. *)
Definition open_stake_errors (sc_node : proxy) (box key : pyval) : MF unit :=
  let! res := open_stake sc_node box key 0 (PInt 0) in
  let% detail := getpath res ["error"; "detail"] in
  do% assert_true (truthy detail) "OpenStakeTransaction is still not allowed in this consensus epoch!" in
  do! generate_next_block sc_node "first node" true PNone in
  do! check_best_epoch sc_node 3 in
  do! fail_inside is_SCAPIException (open_stake_tx sc_node box key (-1) (PInt 0))
    "Try to send an openStake transaction with negative forgerIndex" in
  do! fail_inside is_SCAPIException (open_stake_tx sc_node box (PStr "") 0 (PInt 0))
    "Try to send an openStake transaction with empty output proposition" in
  do! fail_inside is_SCAPIException
    (createOpenStakeTransaction sc_node (PStr "") key (PInt 0) (PInt 0) false false PNone)
    "Try to send an openStake transaction with empty output proposition" in
  let! res := open_stake sc_node box key (4 + 1) (PInt 0) in
  check_detail res "ForgerIndex in OpenStakeTransaction is out of bound".

(** The first transaction of the best block makes no boxes. *)
Definition check_no_new_boxes (sc_node : proxy) : MF unit :=
  let! block := http_block_best sc_node in
  let% txs := getitem block "sidechainTransactions" in
  let% tx := getindex txs 0 in
  let% boxes := getitem tx "newBoxes" in
  lift (assert_equal boxes (PList []) "").

(** The vote of the first forger, and votes with its index again. *)
Definition first_vote (fuel : nat) (sc_node : proxy) (f : AllowedForgers) (allBoxes key : pyval) : MF unit :=
  let% key0 := forger_key f 0 in
  let% forger0_box := box_of allBoxes key0 in
  let! res := open_stake sc_node forger0_box key 2 (PInt 0) in
  do! check_detail res "OpenStakeTransaction input doesn't match the forgerIndex" in
  let% value := getitem forger0_box "value" in
  let! res := open_stake sc_node forger0_box key 0 value in
  do! check_no_error res in
  do! sc_sync_all fuel false in
  let! forger0_box2 := wallet_box sc_node key0 in
  let! tx_bytes := open_stake_tx sc_node forger0_box2 key 0 (PInt 0) in
  let! res := send_tx_bytes sc_node tx_bytes in
  do! check_detail res "Transaction is incompatible" in
  do! generate_next_blocks sc_node "first node" 1 in
  do! sc_sync_all fuel false in
  do! check_no_new_boxes sc_node in
  let! res := send_tx_bytes sc_node tx_bytes in
  check_detail res "Forger already opened the stake".

(** Coins for a forger. *)
Definition fund_forger (fuel : nat) (sc_node : proxy) (key : pyval) : MF unit :=
  do! sendCoinsToAddress sc_node key (PInt 1500) (PInt 0) PNone in
  sync_forge fuel sc_node.

Definition second_vote (fuel : nat) (sc_node : proxy) (f : AllowedForgers) (key : pyval) : MF unit :=
  let% key1 := forger_key f 1 in
  do! fund_forger fuel sc_node key1 in
  let! forger1_box := wallet_box sc_node key1 in
  let% id := getitem forger1_box "id" in
  let! res := createOpenStakeTransaction sc_node id key (PInt 1) (PInt 0) true true PNone in
  do! check_no_error res in
  sync_forge fuel sc_node.

Definition third_vote (fuel : nat) (sc_node : proxy) (f : AllowedForgers) : MF unit :=
  let% key2 := forger_key f 2 in
  do! fund_forger fuel sc_node key2 in
  let! forger2_box := wallet_box sc_node key2 in
  let% value := getitem forger2_box "value" in
  let! tx_bytes := createOpenStakeTransactionSimplified sc_node key2 (PInt 2) value false false PNone in
  let! res := send_tx_bytes sc_node tx_bytes in
  do! check_no_error res in
  do! sc_sync_all fuel false in
  let! ids := generate_next_blocks sc_node "first node" 1 in
  do% list_index ids 0 in
  do! sc_sync_all fuel false in
  check_no_new_boxes sc_node.

(** A vote after the list has been opened. *)
Definition late_vote (fuel : nat) (sc_node : proxy) (f : AllowedForgers) : MF unit :=
  let% key3 := forger_key f 3 in
  do! fund_forger fuel sc_node key3 in
  let! tx_bytes := createOpenStakeTransactionSimplified sc_node key3 (PInt 3) (PInt 0) false false PNone in
  let! res := send_tx_bytes sc_node tx_bytes in
  do! check_key res "error" in
  check_detail res "OpenStakeTransactions are not allowed because the forger operation has already been opened".

Definition SidechainClosedForgerTest_run_test (fuel : nat) (f : AllowedForgers) : MF unit :=
  do! sync_all fuel in
  let! sc_node := sc 0 in
  let! mc_node := mc 0 in
  let! '(new_public_key, new_vrf_public_key) := closed_stakes fuel mc_node sc_node f in
  let! allBoxes := closed_boxes fuel sc_node f new_public_key in
  let% new_public_key_box := box_of allBoxes new_public_key in
  do! check_best_epoch sc_node 2 in
  do! open_stake_errors sc_node new_public_key_box new_public_key in
  do! first_vote fuel sc_node f allBoxes new_public_key in
  do! second_vote fuel sc_node f new_public_key in
  do! stake_refused sc_node f new_public_key new_vrf_public_key in
  do! third_vote fuel sc_node f in
  do! stake_accepted sc_node f new_public_key new_vrf_public_key in
  do! sync_forge fuel sc_node in
  late_vote fuel sc_node f.

(** The keys are generated with the class. *)
Definition SidechainClosedForgerTest (fuel : nat) (o : Options) : MF (TestClass W) :=
  let! f := generate_forgers "seed2" 4 UtxoModel in
  ret (scenario fuel o 1 1 (SidechainClosedForgerTest_sc_setup_chain o f) (SidechainClosedForgerTest_run_test fuel f)).

(** ** Stakes of the account model *)

(** [AccountChainSetup] with the arguments of these classes. *)
Definition forger_setup (n length : Z) (amount : Z) (rewind : Z) (options : option SCForgerConfiguration)
    (keys : list pyval) : AccountChainSetup :=
  mkAccountChainSetup "Horizen" 1 n length (PInt amount) (PInt rewind) options keys None false [] 100 true true
    DEFAULT_MAX_NONCE_GAP DEFAULT_MAX_ACCOUNT_SLOTS DEFAULT_MAX_MEMPOOL_SLOTS DEFAULT_MAX_NONEXEC_POOL_SLOTS
    DEFAULT_TX_LIFETIME (repeat None (Z.to_nat n)) 7 5 [].

Definition new_vrf (sc_node : proxy) : MF pyval := new_public_key sc_node "wallet_createVrfSecret".

(** [sc_node.transaction_allForgingStakes()["result"]["stakes"]], or those of the wallet *)
Definition stakes_of (method : string) (sc_node : proxy) : MF pyval :=
  let! r := call sc_node method [] in lift (getpath r ["result"; "stakes"]).
Definition all_stakes := stakes_of "transaction_allForgingStakes".
Definition my_stakes := stakes_of "transaction_myForgingStakes".

Definition check_stakes (sc_node : proxy) (n : Z) : MF pyval :=
  let! stakes := all_stakes sc_node in
  do! check_length n stakes "" in
  ret stakes.

(** A stake, whose transaction must be created. *)
Definition make_stake (sc_node : proxy) (owner signer vrf amount : pyval) (nonce : pyval) (message : string)
    : MF pyval :=
  let% zennies := convertZenToZennies amount in
  let! result := ac_makeForgerStake sc_node owner signer vrf (PInt zennies) nonce in
  do% BackwardScenarios.require_result result message in
  ret result.

Definition transfer_to (mc_node : proxy) (address amount : pyval) (generate_block : bool) : MF unit :=
  let! info := boot_info in
  let! mc_return_address := call mc_node "getnewaddress" [] in
  do! forward_transfer_to_sidechain (sidechain_id info) mc_node address amount mc_return_address generate_block in
  ret tt.

(** The stake in the header of a block. *)
Definition stake_info (block : pyval) : outcome pyval :=
  getpath block ["result"; "block"; "header"; "forgingStakeInfo"].

(** A block, and the nodes agree. *)
Definition forge_synced (fuel : nat) (sc_node : proxy) (name : string) (switch : bool) : MF unit :=
  do! generate_next_block sc_node name switch PNone in
  sc_sync_all fuel false.

(** ** sc_evm_forger_delegation.py *)

(** A delegation of some coins. *)
Definition delegate (fuel : nat) (sc_node : proxy) (owner : pyval) (keys : pyval * pyval) (zen : Z) (nonce : pyval)
    : MF unit :=
  do! make_stake sc_node owner keys.1 keys.2 (PInt zen) nonce "make forger stake failed: " in
  sc_sync_all fuel false.

Definition forger_keys (sc_node : proxy) : MF (pyval * pyval) :=
  let! signer := new_address sc_node in
  let! vrf := new_vrf sc_node in
  ret (signer, vrf).

(** The stake of the best block as the third node reports it. *)
Definition check_best_stake (sc_node : proxy) (amount : pyval) (keys : pyval * pyval) : MF unit :=
  let! best_block := call sc_node "block_best" [] in
  let% info := stake_info best_block in
  let% x := getitem info "stakeAmount" in
  do% assert_equal x amount "" in
  let% x := getpath info ["blockSignPublicKey"; "publicKey"] in
  do% assert_equal x keys.1 "" in
  let% x := getpath info ["vrfPublicKey"; "publicKey"] in
  lift (assert_equal x keys.2 "").

(** The sum of the stakes of a signer, in wei. *)
Definition check_signer_stake (stakes signer zennies : pyval) : outcome unit :=
  let? wei := convertZenniesToWei zennies in
  let? sum := getSignerStakeAmount stakes signer in
  assert_equal (PInt wei) sum "".

(** The four delegations: the keys of the second and the third node. *)
Definition delegations (fuel : nat) (sc1 sc2 sc3 : proxy) (address1 address2 address3 : pyval)
    : MF ((pyval * pyval) * (pyval * pyval)) :=
  let! keys2 := forger_keys sc2 in
  do! delegate fuel sc1 address1 keys2 50 PNone in
  let! keys3 := forger_keys sc3 in
  do! delegate fuel sc1 address1 keys3 4 (PInt 1) in
  do! delegate fuel sc3 address3 keys2 60 PNone in
  do! delegate fuel sc2 address2 keys2 33 PNone in
  ret (keys2, keys3).

Definition check_my_stakes (sc_node : proxy) (n : Z) : MF unit :=
  let! stakes := my_stakes sc_node in check_length n stakes "".

Definition SCEvmForgerDelegation_run_test (fuel : nat) : MF unit :=
  let! mc_node := mc 0 in
  let! sc1 := sc 0 in
  let! sc2 := sc 1 in
  let! sc3 := sc 2 in
  let! address1 := new_evm_address sc1 in
  let! address2 := new_evm_address sc2 in
  let! address3 := new_evm_address sc3 in
  let! genesis := call sc1 "block_best" [] in
  let% info := stake_info genesis in
  let% gen_amount := getitem info "stakeAmount" in
  let% signer1 := getpath info ["blockSignPublicKey"; "publicKey"] in
  let% vrf1 := getpath info ["vrfPublicKey"; "publicKey"] in
  do! forM_ [address1; address2; address3] (λ a, transfer_to mc_node a (PDec (Dec 1000 (-1))) true) in
  do! forge_synced fuel sc1 "first node" false in
  let! '(keys2, keys3) := delegations fuel sc1 sc2 sc3 address1 address2 address3 in
  let! r := post sc1 "transaction_allTransactions" [("format", PBool false)] PNone in
  let% ids := getpath r ["result"; "transactionIds"] in
  do! check_length 4 ids "" in
  do! forge_synced fuel sc1 "first node" false in
  do! check_my_stakes sc1 3 in
  do! check_my_stakes sc2 1 in
  do! check_my_stakes sc3 1 in
  let! stakes := check_stakes sc1 5 in
  let% stake_2 := convertZenToZennies (PInt (50 + 33 + 60)) in
  let% stake_3 := convertZenToZennies (PInt 4) in
  do% check_signer_stake stakes signer1 gen_amount in
  do% check_signer_stake stakes keys2.1 (PInt stake_2) in
  do% check_signer_stake stakes keys3.1 (PInt stake_3) in
  do! forge_synced fuel sc1 "first node" true in
  do! check_best_stake sc3 gen_amount (signer1, vrf1) in
  do! forge_synced fuel sc2 "first node" true in
  check_best_stake sc3 (PInt stake_2) keys2.

Definition SCEvmForgerDelegation (fuel : nat) (o : Options) (shared : SCForgerConfiguration) : TestClass W :=
  AccountChainSetup_class fuel o (forger_setup 3 LARGE_WITHDRAWAL_EPOCH_LENGTH 99 (720 * 120 * 10) None []) shared
    (SCEvmForgerDelegation_run_test fuel).

(** ** sc_evm_forger_reward_address.py *)

(** The configuration of the second node gets the reward address.  The script
    goes line by line; the replaced text has no end of line. *)
Definition set_reward_address (tmpdir : string) (address : pyval) : MF unit :=
  let cfgFileName := path_join tmpdir "sc_node1" +:+ "/node1.conf" in
  let! config := read_file cfgFileName in
  do! write_file cfgFileName "" in
  let% a := remove_0x_prefix address in
  let% a := as_str "" a in
  write_file cfgFileName (str_replace config ("forgerRewardAddress = " +:+ qt +:+ qt)
                            ("forgerRewardAddress = " +:+ qt +:+ a +:+ qt)).

(** The second node is started again with its new configuration. *)
Definition restart_second (fuel : nat) (o : Options) : MF proxy :=
  let! binary := EVM_APP_BINARY in
  let! node := start_sc_node 1 (op_tmpdir o) None None (Some binary) false (Some "Horizen") in
  let! l := get_sc_nodes in
  do! wait_for_sc_node_initialization fuel l in
  do! connect_sc fuel 0 1 in
  ret node.

(** Coins for the second node, in a block that refers to their mainchain block. *)
Definition reward_coins (fuel : nat) (mc_node sc1 : proxy) (address : pyval) : MF unit :=
  do! transfer_to mc_node address (PFloat (float_of_Z 2)) false in
  do! sync_all fuel in
  let! pool := call mc_node "getmempoolinfo" [] in
  let% size := getitem pool "size" in
  do% assert_equal (PInt 1) size "Forward Transfer expected to be added to mempool." in
  let! hash := mine mc_node in
  let! id := generate_next_block sc1 "first node" false PNone in
  do! check_mcreference_presence hash id sc1 in
  sc_sync_all fuel false.

Definition ScEvmForgingFeePayments_run_test (fuel : nat) (o : Options) : MF unit :=
  let! s := sc_ac_setup fuel true true default_ft in
  do! not_with_all_forks o in
  let! mc_node := mc 0 in
  let! sc1 := sc 0 in
  let! sc2_before := sc 1 in
  do! advance_to_epoch fuel sc1 35 in
  let! contract := SmartContract_init "ReceivingEther" in
  let! contract_address := deploy_smart_contract sc1 contract (ac_evm_address s) [] RPC_LEGACY true in
  do! stop_sc_node sc2_before 1 in
  do! set_reward_address (op_tmpdir o) contract_address in
  let! sc2 := restart_second fuel o in
  let! address := new_evm_address sc2 in
  do! reward_coins fuel mc_node sc1 address in
  let! keys := forger_keys sc2 in
  let! result := make_stake sc2 address keys.1 keys.2 (PInt 1) PNone "make forger stake failed: " in
  let% tx_hash := getpath result ["result"; "transactionId"] in
  do! generate_next_block sc1 "first node" false PNone in
  do! computeForgedTxFee sc1 tx_hash in
  do! forge_synced fuel sc1 "first node" true in
  do! generate_next_block sc2 "second node" true PNone in
  do! call mc_node "generate" [PInt (20 - 2)] in
  let! last_block_id := generate_next_block sc2 "second node" false PNone in
  do! sc_sync_all fuel false in
  let! payments := fee_payments sc1 last_block_id in
  let% payment := getindex payments 1 in
  let% expected_fee := getitem payment "value" in
  let! balance := static_call contract sc1 "getBalance()" [] (ac_evm_address s) contract_address PNone PNone PNone
    (PInt 0) (PStr "latest") false false in
  let% actual_fee := getindex balance 0 in
  lift (assert_equal expected_fee actual_fee "Smart Contract received wrong forger fee payment").

Definition ScEvmForgingFeePayments (fuel : nat) (o : Options) (shared : SCForgerConfiguration) : TestClass W :=
  AccountChainSetup_class fuel o (forger_setup 2 20 20 (SLOTS_IN_EPOCH * EVM_APP_SLOT_TIME * 100) None []) shared
    (ScEvmForgingFeePayments_run_test fuel o).

(** ** sc_evm_closed_forger.py *)

(** [sc_node.rpc_eth_getTransactionReceipt(add_0x_prefix(tx_hash))] *)
Definition receipt_0x (sc_node : proxy) (tx_hash : pyval) : MF pyval :=
  let% hash := add_0x_prefix tx_hash in call sc_node "rpc_eth_getTransactionReceipt" [hash].

(** The number of topics of an event and its signature, both without prefix. *)
Definition check_topics (event : pyval) (n : Z) (signature : string) : outcome unit :=
  let? topics := getitem event "topics" in
  let? k := py_len topics in
  let? _ := assert_equal (PInt n) (PInt k) "Wrong number of topics in event" in
  let? id := getindex topics 0 in
  let? event_id := remove_0x_prefix id in
  let? event_signature := remove_0x_prefix (event_topic signature) in
  assert_equal event_signature event_id "Wrong event signature in topics".

Definition check_open_forger_list_event (event : pyval) (forgerIndex : Z) : outcome unit :=
  let? _ := check_topics event 2 "OpenForgerList(uint32,address,bytes32)" in
  let? index := topic_value event 1 "uint32" in
  let? _ := assert_equal index (PInt forgerIndex) "Wrong from address in topics" in
  let? data := getitem event "data" in
  let? parts := decode_hex ["address"; "bytes32"] data in
  match parts with
  | [_; pkey] => let? _ := to_hex pkey in Val tt
  | _ => Exc (ValueError "unpack")
  end.

Definition tryMakeForgerStake (fuel : nat) (sc_node : proxy) (owner signer vrf : pyval) (amount : Z) : MF bool :=
  let! res := ac_makeForgerStake sc_node owner signer vrf (PInt amount) PNone in
  do! check_key res "result" in
  do% dumps res in
  do! sc_sync_all fuel false in
  do! forge_synced fuel sc_node "first node" false in
  let% tx_hash := getpath res ["result"; "transactionId"] in
  let! receipt := receipt_0x sc_node tx_hash in
  let% status := hex_field receipt "status" in
  ret (status =? 1).

(** The reply of the node, none if it failed as expected; [e.error] is there
    for the exceptions of the two proxies only. *)
Definition open_list_reply (sc_node : proxy) (forgerIndex : Z) (api_error_expected : bool) : MF (option pyval) :=
  catch (let! r := open_forger_list sc_node (PInt forgerIndex) api_error_expected PNone in ret (Some r))
  (λ e,
    if negb (is_Exception e) then raise e
    else if api_error_expected then
      match e with
      | SCAPIException _ | JSONRPCException _ => ret None
      | _ => raise (AttributeError "error")
      end
    else raise (GenericException (str_exn e))).

Definition tryOpenForgerList (fuel : nat) (sc_node : proxy) (forgerIndex : Z) (api_error_expected : bool)
    (forger_node : option proxy) : MF bool :=
  let! reply := open_list_reply sc_node forgerIndex api_error_expected in
  match reply with
  | None => ret false
  | Some jsonRes =>
      if api_error_expected then
        do! check_key jsonRes "error" in
        ret false
      else
        do! forge_synced fuel (default sc_node forger_node) "first node" false in
        let% tx_hash := getitem jsonRes "transactionId" in
        let! receipt := receipt_0x sc_node tx_hash in
        let% status := hex_field receipt "status" in
        do! when (status =? 1) (
          let% logs := getpath receipt ["result"; "logs"] in
          do! check_length 1 logs "Wrong number of events in receipt" in
          let% event := getindex logs 0 in
          lift (check_open_forger_list_event event forgerIndex)) in
        ret (status =? 1)
  end.

Definition allowed_list (sc_node : proxy) : MF pyval :=
  let! r := call sc_node "transaction_allowedForgerList" [] in
  lift (getpath r ["result"; "allowedForgers"]).

(** The votes of the forgers, in order. *)
Fixpoint votes_are (i : Z) (votes : list Z) (allowed : pyval) : outcome unit :=
  match votes with
  | [] => Val tt
  | v :: votes' =>
      let? forger := getindex allowed i in
      let? vote := getitem forger "openForgersVote" in
      let? _ := assert_equal (PInt v) vote "" in
      votes_are (i + 1) votes' allowed
  end.

Definition check_votes (sc_node : proxy) (votes : list Z) : MF unit :=
  let! allowed := allowed_list sc_node in lift (votes_are 0 votes allowed).

(** [assert_equal(a.block_best()["result"], b.block_best()["result"])] *)
Definition same_best (a b : proxy) : MF unit :=
  let! x := best a in
  let! y := best b in
  lift (assert_equal x y "").

(** The best block of a node is that of two others. *)
Definition best_everywhere (a b c : proxy) : MF unit :=
  let! x := best a in
  let! y := best b in
  do% assert_equal x y "" in
  let! z := best c in
  lift (assert_equal x z "").

Definition forge_some (fuel : nat) (sc_node : proxy) (name : string) : MF unit :=
  do! generate_next_blocks sc_node name 3 in
  sc_sync_all fuel false.

(** A stake, and whether it must be made; an attempt to open the list, the same. *)
Definition expect_stake (fuel : nat) (sc_node : proxy) (owner signer vrf : pyval) (expected : bool) : MF unit :=
  let! result := tryMakeForgerStake fuel sc_node owner signer vrf 33 in
  lift (if expected then assert_true result "" else assert_false result "").

Definition expect_open (fuel : nat) (sc_node : proxy) (index : Z) (api_error : bool) (forger_node : option proxy)
    (expected : bool) : MF unit :=
  let! result := tryOpenForgerList fuel sc_node index api_error forger_node in
  lift (if expected then assert_true result "" else assert_false result "").

(** Accounts of the other nodes: the address of the third. *)
Definition closed_accounts (fuel : nat) (mc_node sc1 sc2 sc3 : proxy) (address1 : pyval) (wei : Z) : MF pyval :=
  let! address2 := new_evm_address sc2 in
  do! transfer_to mc_node address2 (PDec (Dec 10 (-1))) true in
  do! sleep (secs 2) in
  let! address3 := new_evm_address sc3 in
  do! transfer_to mc_node address3 (PDec (Dec 1000 (-1))) true in
  do! sleep (secs 2) in
  do! forge_synced fuel sc1 "first node" false in
  let! balance := AccountCalls.http_wallet_balance sc1 address1 PNone in
  do% assert_equal (PInt wei) balance "" in
  do! AccountCalls.http_wallet_balance sc2 address2 PNone in
  do! AccountCalls.http_wallet_balance sc3 address3 PNone in
  do! forge_some fuel sc1 "first node" in
  do! same_best sc1 sc2 in
  ret address3.

(** The votes: two of three open the list. *)
Definition closed_votes (fuel : nat) (sc1 sc2 : proxy) (owner outlaw vrf0 : pyval) : MF unit :=
  do! expect_open fuel sc1 0 false None true in
  do! check_votes sc1 [1; 0; 0] in
  do! expect_stake fuel sc1 owner outlaw vrf0 false in
  do! sc_sync_all fuel false in
  do! expect_open fuel sc1 0 false None false in
  do! expect_open fuel sc2 1 true (Some sc1) false in
  do! expect_open fuel sc1 (-1) true None false in
  do! expect_open fuel sc1 1 false None true in
  do! check_votes sc1 [1; 1; 0] in
  do! expect_stake fuel sc1 owner outlaw vrf0 true in
  do! expect_open fuel sc1 2 false None false in
  check_votes sc1 [1; 1; 0].

(** The third node forges two epochs after its stake. *)
Definition closed_third (fuel : nat) (sc1 sc2 sc3 : proxy) (address3 : pyval) : MF unit :=
  let! keys := forger_keys sc3 in
  do! make_stake sc1 address3 keys.1 keys.2 (PInt 50) PNone "make forger stake failed: " in
  do! sc_sync_all fuel false in
  do! forge_synced fuel sc1 "first node" false in
  do! same_best sc1 sc2 in
  do! forge_synced fuel sc1 "first node" true in
  do! must_fail is_Exception (generate_next_block sc3 "third node" false PNone)
    "No forging stakes expected for SC node 3." in
  do! sc_sync_all fuel false in
  do! forge_synced fuel sc1 "first node" true in
  do! forge_some fuel sc3 "third node" in
  do! best_everywhere sc3 sc1 sc2 in
  do! forge_some fuel sc1 "first node" in
  best_everywhere sc1 sc2 sc3.

Definition SCEvmClosedForgerList_run_test (fuel : nat) (f : AllowedForgers) : MF unit :=
  let ft_amount_in_zen := PDec (Dec 5000 (-1)) in
  let% wei := convertZenToWei ft_amount_in_zen in
  let! s := sc_ac_setup fuel true true ft_amount_in_zen in
  let! sc1 := sc 0 in
  let! sc2 := sc 1 in
  let! sc3 := sc 2 in
  let! mc_node := mc 0 in
  let% address1 := remove_0x_prefix (ac_evm_address s) in
  do! check_stakes sc1 1 in
  let! allowed := allowed_list sc1 in
  do! check_length 3 allowed "" in
  do% votes_are 0 [0; 0; 0] allowed in
  let! address3 := closed_accounts fuel mc_node sc1 sc2 sc3 address1 wei in
  let! '(outlaw, outlaw_vrf) := forger_keys sc1 in
  let% key0 := forger_key f 0 in
  let% vrf0 := forger_vrf f 0 in
  do! expect_stake fuel sc1 address1 outlaw vrf0 false in
  do! expect_stake fuel sc1 address1 key0 outlaw_vrf false in
  do! expect_stake fuel sc1 address1 outlaw outlaw_vrf false in
  do! expect_stake fuel sc1 address1 key0 vrf0 true in
  do! forge_some fuel sc1 "first node" in
  do! same_best sc1 sc2 in
  do! closed_votes fuel sc1 sc2 address1 outlaw vrf0 in
  closed_third fuel sc1 sc2 sc3 address3.

(** The keys are generated with the class, the configuration with its object. *)
Definition SCEvmClosedForgerList (fuel : nat) (o : Options) (shared : SCForgerConfiguration) : MF (TestClass W) :=
  let! f := generate_forgers "seed_2" 2 AccountModel in
  let% pairs := allowed_pairs f 2 in
  let! forger_configuration := SCForgerConfiguration_init true pairs "" in
  ret (AccountChainSetup_class fuel o
    (forger_setup 3 LARGE_WITHDRAWAL_EPOCH_LENGTH 100 (SLOTS_IN_EPOCH * EVM_APP_SLOT_TIME * 10)
       (Some forger_configuration) (initial_keys f)) shared (SCEvmClosedForgerList_run_test fuel f)).
End Forgers.
