(* ===== verification/EvmForgerScenarios.v ===== *)
(** * Scenarios: stakes of the account model

    sc_evm_forger.py: stakes are delegated, the balances of the owner and of the
    contract of the stakes are followed, the contract is called through a
    proxy contract, and all stakes are spent. *)

From S2P Require Import Prelude PyStr Numbers PyVal Host Sim Json Encoding HttpProxy BootInfo McUtil ScUtil.
From S2P Require Import Forging Bootstrap Framework AccountSetup McFramework HttpCalls AccountCalls AccountUtil SmartContract Tools.
From Stdlib Require Import Ascii String QArith.
From stdpp Require Import base list.
From S2P Require Import Scenarios ForgingScenarios StakeScenarios ChainScenarios MempoolScenarios EvmScenarios BackwardScenarios.
From S2P Require Import CswScenarios CertificateScenarios KeyRotationScenarios EvmRotationScenarios ForgerScenarios.
Local Open Scope Z_scope.

(** ** Values *)

(** [Decimal(v)]; of a float, its exact value *)
Definition decimal_of (v : pyval) : outcome pyval :=
  match v with
  | PFloat x =>
      let? q := of_opt InvalidOperation (float_Q x) in
      let q := Qred q in
      let k := Z.log2 (Zpos (Qden q)) in
      Val (PDec (Dec (Qnum q * 5 ^ k) (- k)))
  | _ => to_decimal v
  end.

(** [v[n:]] and [v[:n]] of a text *)
Definition text_from (n : nat) (v : pyval) : outcome pyval :=
  match v with PStr s => Val (PStr (str_drop n s)) | _ => Exc TypeError end.
Definition text_upto (n : nat) (v : pyval) : outcome pyval :=
  match v with PStr s => Val (PStr (str_take n s)) | _ => Exc TypeError end.

Definition bytes_hex (v : pyval) : outcome string :=
  match v with PBytes b => Val (bytes_to_hex_str b) | _ => Exc TypeError end.

(** ** The stakes the contract returns *)

Definition STAKE_TUPLE : string := "(bytes32,uint256,address,bytes32,bytes32,bytes1)".
Definition elem_size : nat := 192.

(** [[res[i:i + size] for i in range(0, n * size, size)]] *)
Fixpoint chunks (size n : nat) (res : string) : list string :=
  match n with
  | O => []
  | S n' => str_take size res :: chunks size n' (str_drop size res)
  end.

Definition decode_list_of_forger_stakes `{EthAbi} (result : pyval) (exp_num_of_stakes : Z)
    : outcome (list (list pyval)) :=
  match result with
  | PBytes b =>
      let res := str_drop 32 b in
      let? num_of_stakes := py_int_base (PStr (bytes_to_hex_str (str_take 32 res))) 16 in
      let? _ := assert_equal (PInt exp_num_of_stakes) (PInt num_of_stakes) "wrong number of forger stakes" in
      omapM (abi_decode [PStr STAKE_TUPLE]) (chunks elem_size (Z.to_nat num_of_stakes) (str_drop 32 res))
  | _ => Exc TypeError
  end.

(** The keys of the propositions of a wallet: public keys and addresses. *)
Fixpoint pubkeys_of (propositions : list pyval) : outcome (list pyval) :=
  match propositions with
  | [] => Val []
  | p :: propositions' =>
      let? is_key := py_in (PStr "publicKey") p in
      let? here := (if is_key then let? k := getitem p "publicKey" in Val [k]
                    else let? is_address := py_in (PStr "address") p in
                         if is_address then let? a := getitem p "address" in Val [a] else Val []) in
      let? others := pubkeys_of propositions' in
      Val (here ++ others)
  end.

Section EvmForger.
Context {W : Type} `{Nodes W, Clock W, Os W, Rng W} `{EthUtils, EthAbi, EthHash, EthEvents, EthHex}.
Local Abbreviation MF := (M (FW W)).

Definition get_sc_wallet_pubkeys (sc_node : proxy) : MF (list pyval) :=
  let! r := call sc_node "wallet_allPublicKeys" [] in
  let% propositions := getpath r ["result"; "propositions"] in
  let% l := py_iter propositions in
  lift (pubkeys_of l).

Definition print_current_epoch_and_slot (sc_node : proxy) : MF unit :=
  let! r := call sc_node "block_forgingInfo" [] in
  let% info := getitem r "result" in
  do% getitem info "bestBlockEpochNumber" in
  do% getitem info "bestBlockSlotNumber" in
  ret tt.

(** ** Events *)

(** [decode(['address'], ...)[0][2:]] of a topic *)
Definition topic_address (event : pyval) (i : Z) : outcome pyval :=
  let? a := topic_value event i "address" in text_from 2 a.

(** The identifier of the stake, in bytes. *)
Definition check_make_forger_stake_event (event source_addr owner amount : pyval) : outcome pyval :=
  let? _ := check_topics event 3 "DelegateForgerStake(address,address,bytes32,uint256)" in
  let? from_addr := topic_address event 1 in
  let? expected := lower_of source_addr in
  let? actual := lower_of from_addr in
  let? _ := assert_equal expected actual "Wrong from address in topics" in
  let? owner_addr := topic_address event 2 in
  let? _ := assert_equal owner owner_addr "Wrong owner address in topics" in
  let? data := getitem event "data" in
  let? parts := decode_hex ["bytes32"; "uint256"] data in
  match parts with
  | [stake_id; value] =>
      let? wei := convertZenToWei amount in
      let? _ := assert_equal (PInt wei) value "Wrong amount in event" in
      Val stake_id
  | _ => Exc (ValueError "unpack")
  end.

Definition check_spend_forger_stake_event (event owner stake_id : pyval) : outcome unit :=
  let? _ := check_topics event 2 "WithdrawForgerStake(address,bytes32)" in
  let? owner_addr := topic_address event 1 in
  let? _ := assert_equal owner owner_addr "Wrong owner address in topics" in
  let? data := getitem event "data" in
  let? parts := decode_hex ["bytes32"] data in
  match parts with
  | [stake] =>
      let? h := to_hex stake in
      let? h := text_from 2 h in
      assert_equal stake_id h "Wrong stake id in data"
  | _ => Exc (ValueError "unpack")
  end.

(** ** Balances and stakes *)

Definition balance_of (sc_node : proxy) (address : pyval) : MF pyval :=
  AccountCalls.http_wallet_balance sc_node address PNone.

Definition contract_balance (sc_node : proxy) : MF pyval := balance_of sc_node (PStr FORGER_STAKE_SMART_CONTRACT_ADDRESS).

(** The balance after a transaction: what it moved and its fee are gone. *)
Definition pay (sc_node : proxy) (address before tx_hash : pyval) (moved : Z) : MF (pyval * Z) :=
  let! '(gas_fee_paid, _, _) := computeForgedTxFee sc_node tx_hash in
  let! balance := balance_of sc_node address in
  let% x := (if moved =? 0 then Val before else py_sub before (PInt moved)) in
  let% expected := py_sub x (PInt gas_fee_paid) in
  do% assert_equal expected balance "" in
  ret (balance, gas_fee_paid).

(** A receipt with a status and a number of events. *)
Definition receipt_events (sc_node : proxy) (tx_hash : pyval) (status : Z) (message : string) (n : Z) : MF pyval :=
  let! receipt := receipt_0x sc_node tx_hash in
  do! check_status receipt status message in
  let% logs := getpath receipt ["result"; "logs"] in
  do! check_length n logs "Wrong number of events in receipt" in
  ret logs.

(** A block in the epoch or in the next one, and where the chain is. *)
Definition forge_printed (fuel : nat) (sc1 forger : proxy) (name : string) (switch : bool) : MF unit :=
  do! forge_synced fuel forger name switch in
  print_current_epoch_and_slot sc1.

(** A stake for a contract: the transaction is in a block and fails. *)
Definition stake_for_contract (fuel : nat) (sc1 : proxy) (contract : pyval) (keys : pyval * pyval)
    (address before : pyval) : MF pyval :=
  let! res := make_stake sc1 contract keys.1 keys.2 (PInt 300) PNone
    "make forger stake with native smart contract as owner should create a tx: " in
  do! forge_synced fuel sc1 "first node" false in
  let% tx_id := getpath res ["result"; "transactionId"] in
  do! receipt_events sc1 tx_id 0
    "Make forger stake with native smart contract as owner should create a failed tx" 0 in
  let! '(balance, _) := pay sc1 address before tx_id 0 in
  ret balance.

(** A stake that is made: its event, the stakes, the balance and the fee. *)
Definition stake_listed (fuel : nat) (sc1 : proxy) (address : pyval) (keys : pyval * pyval) (amount before : pyval)
    (stakes : Z) : MF (pyval * pyval * Z) :=
  let! res := make_stake sc1 address keys.1 keys.2 amount PNone "make forger stake failed: " in
  let% tx_hash := getpath res ["result"; "transactionId"] in
  do! sc_sync_all fuel false in
  do! forge_printed fuel sc1 sc1 "first node" false in
  let! logs := receipt_events sc1 tx_hash 1 "" 1 in
  let% event := getindex logs 0 in
  do% check_make_forger_stake_event event address address amount in
  let! stake_list := check_stakes sc1 stakes in
  let% wei := convertZenToWei amount in
  let! '(balance, gas_fee_paid) := pay sc1 address before tx_hash wei in
  ret (stake_list, balance, gas_fee_paid).

Definition stake_made (fuel : nat) (sc1 : proxy) (address : pyval) (keys : pyval * pyval) (amount before : pyval)
    (stakes : Z) : MF (pyval * Z) :=
  let! '(_, balance, gas_fee_paid) := stake_listed fuel sc1 address keys amount before stakes in
  ret (balance, gas_fee_paid).

(** A stake that is spent: the transaction. *)
Definition spend_stake (fuel : nat) (sc_node : proxy) (stake_id : string) : MF pyval :=
  let! res := post sc_node "transaction_spendForgingStake" [("stakeId", PStr stake_id)] PNone in
  do% BackwardScenarios.require_result res "spend forger stake failed: " in
  do! sc_sync_all fuel false in
  ret res.

Definition spent_event (sc1 : proxy) (tx_hash address stake_id : pyval) : MF unit :=
  let! logs := receipt_events sc1 tx_hash 1 "" 1 in
  let% event := getindex logs 0 in
  lift (check_spend_forger_stake_event event address stake_id).

Definition check_contract_balance (sc_node : proxy) (amounts : list pyval) (genesis : pyval) (message : string)
    : MF unit :=
  let% l := omapM convertZenToWei amounts in
  let% g := (match genesis with PNone => Val 0 | _ => convertZenniesToWei genesis end) in
  let! balance := contract_balance sc_node in
  lift (assert_equal (PInt (foldr Z.add 0 l + g)) balance message).

(** ** [run_test] *)

(** What the creation of the sidechain says of its owner and its keys. *)
Record Creation := mkCreation {
  sc_cr_owner_proposition : pyval;
  sc_cr_vrf_pub_key : pyval;
  sc_cr_sign_pub_key : pyval
}.

Definition creation_of (mc_node : proxy) : MF Creation :=
  let! info := boot_info in
  let! r := call mc_node "getscinfo" [sidechain_id info] in
  let% items := getitem r "items" in
  let% sc_info := getindex items 0 in
  let% hash := getitem sc_info "creatingTxHash" in
  let! tx := call mc_node "getrawtransaction" [PStr (py_str hash); PInt 1] in
  let% outs := getitem tx "vsc_ccout" in
  let% out := getindex outs 0 in
  let% address := getitem out "address" in
  let% owner := text_from 24 address in
  let% custom := getitem sc_info "customData" in
  let% vrf := text_upto 66 custom in
  let% sign := text_from 66 custom in
  ret (mkCreation owner vrf sign).

(** [assert_true(key in l, message)] *)
Definition check_listed (key : pyval) (l : list pyval) (message : string) : outcome unit :=
  let? there := py_in key (PList l) in assert_true there message.

(** The genesis stake is what the creation says: its amount and its identifier. *)
Definition genesis_stake (sc1 sc2 : proxy) (c : Creation) : MF (pyval * pyval) :=
  let! keys := get_sc_wallet_pubkeys sc1 in
  do% check_listed (sc_cr_owner_proposition c) keys "sc cr owner proposition not in wallet" in
  do% check_listed (sc_cr_vrf_pub_key c) keys "sc cr vrf pub key not in wallet" in
  do% check_listed (sc_cr_sign_pub_key c) keys "sc cr block signer pub key not in wallet" in
  let! genesis := call sc1 "block_best" [] in
  let% info := stake_info genesis in
  let% amount := getitem info "stakeAmount" in
  let% sign := getpath info ["blockSignPublicKey"; "publicKey"] in
  let% vrf := getpath info ["vrfPublicKey"; "publicKey"] in
  let! r1 := call sc1 "transaction_allForgingStakes" [] in
  let% r1 := getitem r1 "result" in
  let! r2 := call sc2 "transaction_allForgingStakes" [] in
  let% r2 := getitem r2 "result" in
  do% assert_equal r1 r2 "" in
  let! b1 := contract_balance sc1 in
  let! b2 := contract_balance sc2 in
  do% assert_equal b1 b2 "" in
  let! stakes := check_stakes sc1 1 in
  let% stake := getindex stakes 0 in
  let% owner := getpath stake ["forgerStakeData"; "ownerPublicKey"; "address"] in
  let% zennies := convertZenToZennies (PInt 100) in
  do% assert_equal amount (PInt zennies) "Forging stake amount is wrong." in
  do% assert_equal sign (sc_cr_sign_pub_key c) "Forging stake block sign key is wrong." in
  do% assert_equal vrf (sc_cr_vrf_pub_key c) "Forging stake vrf key is wrong." in
  do% assert_equal owner (sc_cr_owner_proposition c) "Forging stake owner proposition is wrong." in
  do! check_contract_balance sc1 [] amount "Contract address balance is wrong." in
  let% stake_id := getitem stake "stakeId" in
  ret (amount, stake_id).

Definition ft_500 : pyval := PDec (Dec 5000 (-1)).

(** [convertZenniesToWei(convertZenToZennies(amount))] and the balance of an account *)
Definition check_funded (sc_node : proxy) (address amount : pyval) : MF pyval :=
  let% wei := convertZenToWei amount in
  let! balance := balance_of sc_node address in
  do% assert_equal (PInt wei) balance "" in
  ret balance.

(** Coins for both nodes: the address of the first and its balance. *)
Definition forger_accounts (fuel : nat) (mc_node sc1 sc2 : proxy) : MF (pyval * pyval) :=
  let! address2 := new_evm_address sc2 in
  let one := PDec (Dec 10 (-1)) in
  do! transfer_to mc_node address2 one false in
  do! sleep (secs 2) in
  let! address1 := new_evm_address sc1 in
  do! transfer_to mc_node address1 ft_500 true in
  do! sync_all fuel in
  do! forge_printed fuel sc1 sc1 "first node" false in
  do! check_funded sc2 address2 one in
  let! balance := check_funded sc1 address1 ft_500 in
  ret (address1, balance).

Definition spend_of_other (sc2 : proxy) (stake_id : pyval) : MF unit :=
  let! res := post sc2 "transaction_spendForgingStake" [("stakeId", PStr (py_str stake_id))] PNone in
  let% there := has_key "error" res in
  do% assert_true there "The command should fail" in
  let% description := getpath res ["error"; "description"] in
  lift (assert_equal description (PStr "Forger Stake Owner not found") "").

(** Stakes for contracts fail, a native one and a deployed one: the keys of the
    second node and the balance. *)
Definition contract_stakes (fuel : nat) (sc1 sc2 : proxy) (address balance : pyval) : MF ((pyval * pyval) * pyval) :=
  let! keys := forger_keys sc2 in
  let! balance := stake_for_contract fuel sc1 (PStr WITHDRAWAL_REQ_SMART_CONTRACT_ADDRESS) keys address balance in
  let! initial_secret := random_byte_string 20 in
  let! contract := SmartContract_init "TestDeployingContract" in
  let% from := format_evm address in
  let! '(tx_hash, contract_address) := deploy contract sc1 [PStr initial_secret] RPC_LEGACY from
    (mkTxOptions PNone (PInt 10000000) (PInt 900000000) (PInt 765630000) (PInt 10) (PInt 0) (PStr "latest")) in
  do! sc_sync_all fuel false in
  do! forge_synced fuel sc1 "first node" false in
  let! '(balance, _) := pay sc1 address balance tx_hash 0 in
  let% eoa := format_eoa_val contract_address in
  let! balance := stake_for_contract fuel sc1 (PStr eoa) keys address balance in
  ret (keys, balance).

(** The rest of the coins, less the fees. *)
Definition second_amount (gas_fee_paid : Z) : outcome pyval :=
  let? zen := convertWeiToZen (PInt gas_fee_paid) in
  let? value_spent := py_add (PInt 300) zen in
  let? a := py_sub ft_500 (PDec (Dec 1 (-2))) in
  let? spent := decimal_of value_spent in
  py_sub a spent.

(** A node that has no stake yet, or no more. *)
Definition cannot_forge (forger : proxy) (name : string) (switch : bool) (who : string) : MF unit :=
  must_fail is_Exception (generate_next_block forger name switch PNone)
    ("No forging stakes expected for SC node " +:+ who +:+ ".").

(** The second node forges two epochs after the stakes. *)
Definition two_epochs (fuel : nat) (sc1 sc2 : proxy) : MF unit :=
  let refused := (
    do! cannot_forge sc2 "second node" false "2" in
    do! sc_sync_all fuel false in
    print_current_epoch_and_slot sc1) in
  do! refused in
  do! forge_printed fuel sc1 sc1 "first node" true in
  do! refused in
  do! forge_printed fuel sc1 sc1 "first node" true in
  forge_printed fuel sc1 sc2 "second node" false.

(** The genesis stake is spent; the first node forges until its epochs are over.
    The remaining stakes and the balance. *)
Definition spend_genesis (fuel : nat) (sc1 sc2 : proxy) (c : Creation) (genesis : pyval * pyval) (address : pyval)
    (amounts : list pyval) (balance : pyval) : MF (pyval * pyval) :=
  do! check_contract_balance sc1 amounts genesis.1 "" in
  let! res := spend_stake fuel sc1 (py_str genesis.2) in
  let% tx_hash := getpath res ["result"; "transactionId"] in
  do! forge_printed fuel sc1 sc1 "first node" false in
  let% wei := convertZenniesToWei genesis.1 in
  let! b := balance_of sc1 (sc_cr_owner_proposition c) in
  do% assert_equal (PInt wei) b "" in
  do! check_contract_balance sc1 amounts PNone "" in
  let! '(balance, _) := pay sc1 address balance tx_hash 0 in
  do! forge_printed fuel sc1 sc1 "first node" true in
  do! forge_printed fuel sc1 sc1 "first node" false in
  do! cannot_forge sc1 "first node" true "1" in
  let! stakes := check_stakes sc1 2 in
  let! final_balance := balance_of sc1 address in
  do% assert_equal balance final_balance "" in
  let! b := balance_of sc1 (sc_cr_owner_proposition c) in
  do% assert_equal (PInt wei) b "" in
  do! check_contract_balance sc1 amounts PNone "Contract address balance is wrong." in
  ret (stakes, final_balance).

(** ** Calls of the contract of the stakes through the proxy contract *)

Definition STAKES : pyval := PStr FORGER_STAKE_SMART_CONTRACT_ADDRESS.

(** An account with coins, the proxy contract, and coins for that. *)
Definition proxy_account (o : Options) (mc_node sc1 : proxy) : MF (pyval * SimpleProxyContract) :=
  let! address := new_evm_address sc1 in
  do! transfer_to mc_node address (PDec (Dec 500 (-1))) true in
  do! generate_next_block sc1 "first node" false PNone in
  let! p := SimpleProxyContract_init sc1 address (all_forks o) in
  let% to := format_eoa_val (spc_contract_address p) in
  let% wei := convertZenToWei (PInt 10) in
  do! createEIP1559Transaction sc1
    (mkTxArgs address (PStr to) (PInt 1) (PInt 230000) (PInt wei) (PStr "") PNone PNone PNone)
    (PInt 900000000) (PInt 900000000) PNone in
  do! generate_next_block sc1 "first node" false PNone in
  ret (address, p).

(** Before the fork the call is reverted; the second node reaches the fork. *)
Definition stakes_fork (fuel : nat) (sc1 sc2 : proxy) (p : SimpleProxyContract) (address : pyval) (input : string)
    : MF unit :=
  do! catch (
    do! do_static_call p address (PInt 1) STAKES (PStr input) in
    lift (fail "Interoperability call should fail before fork point"))
  (λ e, match e with
        | RuntimeError m | EvmExecutionError m => lift (assert_true (str_contains "reverted" m) "")
        | _ => raise e
        end) in
  let! epoch := current_epoch sc1 in
  let% left := py_sub (PInt INTEROPERABILITY_FORK_EPOCH) epoch in
  let% left := range_stop left in
  forM_ (zrange 0 left) (λ _, forge_synced fuel sc2 "first node" true).

(** The identifier of a stake of the node is that of a decoded stake. *)
Definition check_stake_id (stakes : pyval) (decoded : list (list pyval)) (i : Z) : outcome unit :=
  let? stake := getindex stakes i in
  let? id := getitem stake "stakeId" in
  let? d := list_index decoded i in
  let? t := list_index d 0 in
  let? x := getindex t 0 in
  let? h := bytes_hex x in
  assert_equal id (PStr h) "wrong stakeId".

(** [delegate(bytes32,bytes32,bytes1,address)] as the input of the contract *)
Definition delegate_input (native_contract : SmartContract) (keys : pyval * pyval) (address : pyval) : outcome string :=
  let? vrf := halves keys.2 in
  let? s := (match keys.1 with PStr s => Val s | _ => Exc TypeError end) in
  let? sign := hex_str_to_bytes s in
  let? data := raw_encode_call native_contract "delegate(bytes32,bytes32,bytes1,address)"
    ([PBytes sign] ++ vrf ++ [address]) in
  format_eoa_val data.

(** A stake through the proxy contract: its event, the gas, the trace; its
    identifier. *)
Definition proxy_stake (sc1 sc2 : proxy) (p : SimpleProxyContract) (address : pyval) (input : string) : MF string :=
  let% wei := convertZenToWei (PInt 1) in
  let! exp_gas := SimpleProxyContract_estimate_gas p address (PInt 2) STAKES (PInt wei) (PStr input) 20000000 in
  let! tx_id := call_transaction p address (PInt 2) STAKES (PInt wei) (PStr input) (PInt 20000000) in
  let! receipt := generate_block_and_get_tx_receipt sc2 tx_id false in
  do! check_status receipt 1 status_message in
  let% logs := getpath receipt ["result"; "logs"] in
  do! check_length 1 logs "Wrong number of events in receipt" in
  let% event := getindex logs 0 in
  let% source := text_from 2 (spc_contract_address p) in
  let% stake := check_make_forger_stake_event event source address (PInt 1) in
  let% gas_used := hex_field receipt "gasUsed" in
  let% estimated := getitem exp_gas "result" in
  let% estimated_gas := py_int_base estimated 16 in
  do% assert_true (gas_used <=? estimated_gas) "Wrong estimated gas" in
  let! response := call sc1 "rpc_debug_traceTransaction" [tx_id; PDict [("tracer", PStr "callTracer")]] in
  let! trace_result := trace_result_of response in
  let% stake_id := bytes_hex stake in
  do% check_native_call trace_result (spc_contract_address p) FORGER_STAKE_SMART_CONTRACT_ADDRESS input
    (Some stake_id) in
  let% traced := getitem trace_result "gasUsed" in
  let% gas_used_tracer := py_int_base traced 16 in
  do% assert_true (gas_used =? gas_used_tracer) "Wrong gas" in
  ret stake_id.

Definition forger_interop (fuel : nat) (o : Options) (mc_node sc1 sc2 : proxy) (keys : pyval * pyval) (stakes : pyval)
    : MF unit :=
  let! '(address, p) := proxy_account o mc_node sc1 in
  let! native_contract := SmartContract_init "ForgerStakes" in
  let% data := raw_encode_call native_contract "getAllForgersStakes()" [] in
  let% input := format_eoa_val data in
  do! when (negb (all_forks o)) (stakes_fork fuel sc1 sc2 p address input) in
  let! res := do_static_call p address (PInt 2) STAKES (PStr input) in
  let% decoded := decode_list_of_forger_stakes res 2 in
  do% check_stake_id stakes decoded 0 in
  do% check_stake_id stakes decoded 1 in
  let% input := delegate_input native_contract keys address in
  let! stake_id := proxy_stake sc1 sc2 p address input in
  do! spend_stake fuel sc1 stake_id in
  forge_synced fuel sc2 "second node" true.

(** ** The end: no stakes are left *)

(** [balance + convertZenToWei(amount)] *)
Definition check_returned (sc1 : proxy) (address balance amount : pyval) : MF pyval :=
  let! now := balance_of sc1 address in
  let% wei := convertZenToWei amount in
  let% expected := py_add balance (PInt wei) in
  do% assert_equal expected now "" in
  ret now.

Definition spend_all (fuel : nat) (sc1 sc2 : proxy) (address stakes balance amount1 amount2 : pyval) : MF unit :=
  let% stake1 := getindex stakes 0 in
  let% id1 := getitem stake1 "stakeId" in
  let% stake2 := getindex stakes 1 in
  let% id2 := getitem stake2 "stakeId" in
  let! res := spend_stake fuel sc1 (py_str id1) in
  let% tx_hash := getpath res ["result"; "transactionId"] in
  do! forge_printed fuel sc1 sc2 "second node" true in
  do! spent_event sc1 tx_hash address id1 in
  do! check_stakes sc1 1 in
  let! balance := check_returned sc1 address balance amount1 in
  let! res := spend_stake fuel sc1 (py_str id2) in
  let% tx_hash := getpath res ["result"; "transactionId"] in
  do! forge_printed fuel sc1 sc2 "first node" true in
  do! check_stakes sc1 0 in
  do! spent_event sc1 tx_hash address id2 in
  do! check_returned sc1 address balance amount2 in
  do! forge_printed fuel sc1 sc2 "first node" false in
  do! must_fail is_Exception (
    do! forge_printed fuel sc1 sc2 "second node" true in
    ret PNone) "No forging stakes expected for SC node 1." in
  do! sc_sync_all fuel false in
  print_current_epoch_and_slot sc1.

Definition SCEvmForger_run_test (fuel : nat) (o : Options) : MF unit :=
  let! mc_node := mc 0 in
  let! sc1 := sc 0 in
  let! sc2 := sc 1 in
  let! c := creation_of mc_node in
  let! genesis := genesis_stake sc1 sc2 c in
  let! '(address, balance) := forger_accounts fuel mc_node sc1 sc2 in
  do! spend_of_other sc2 genesis.2 in
  let! '(keys, balance) := contract_stakes fuel sc1 sc2 address balance in
  let amount1 := PInt 300 in
  let! '(balance, gas_fee_paid) := stake_made fuel sc1 address keys amount1 balance 2 in
  let% amount2 := second_amount gas_fee_paid in
  let! '(balance, _) := stake_made fuel sc1 address keys amount2 balance 3 in
  do! two_epochs fuel sc1 sc2 in
  let! '(stakes, balance) := spend_genesis fuel sc1 sc2 c genesis address [amount1; amount2] balance in
  do! forger_interop fuel o mc_node sc1 sc2 keys stakes in
  spend_all fuel sc1 sc2 address stakes balance amount1 amount2.

Definition SCEvmForger (fuel : nat) (o : Options) (shared : SCForgerConfiguration) : TestClass W :=
  AccountChainSetup_class fuel o
    (forger_setup 2 LARGE_WITHDRAWAL_EPOCH_LENGTH 100 (1500 * EVM_APP_SLOT_TIME * VERSION_1_3_FORK_EPOCH) None [])
    shared (SCEvmForger_run_test fuel o).
End EvmForger.
