(* ===== verification/NativeForgerScenarios.v ===== *)
(** * Scenarios: the second contract of the stakes

    sc_evm_native_forger_v2.py: stakes of the first contract are moved to the
    second one when it is activated; then stakes are delegated and withdrawn
    through it, by accounts and by a contract, and the pages of stakes it returns
    are decoded and compared with the sums kept by the script. *)

From S2P Require Import Prelude PyStr Numbers PyVal Host Sim Json Encoding HttpProxy BootInfo McUtil ScUtil.
From S2P Require Import Forging Bootstrap Framework AccountSetup McFramework HttpCalls AccountCalls AccountUtil SmartContract Tools.
From Stdlib Require Import Ascii String.
From stdpp Require Import base list.
From S2P Require Import Scenarios ForgingScenarios StakeScenarios ChainScenarios MempoolScenarios EvmScenarios BackwardScenarios.
From S2P Require Import CswScenarios CertificateScenarios KeyRotationScenarios EvmRotationScenarios ForgerScenarios EvmForgerScenarios.
Local Open Scope Z_scope.

Definition NULL_ADDRESS_0x : string := "0x0000000000000000000000000000000000000000".

(** ** Pages *)

(** A page: the next position in 32 bytes, an offset, the number of elements, and
    the elements, all of one size. *)
Definition decode_page `{EthAbi} {A} (elem_size : nat) (decode_elem : string → outcome A) (result : string)
    : outcome (pyval * list A) :=
  let? first := abi_decode [PStr "int32"] (str_take 32 result) in
  let? next_pos := list_index first 0 in
  let res := str_drop 32 (str_drop 32 result) in
  let? num_of_stakes := py_int_base (PStr (bytes_to_hex_str (str_take 32 res))) 16 in
  let? l := omapM decode_elem (chunks elem_size (Z.to_nat num_of_stakes) (str_drop 32 res)) in
  Val (next_pos, l).

(** [decode([type], b)[0]] *)
Definition decode_one `{EthAbi} (type : string) (b : string) : outcome pyval :=
  let? l := abi_decode [PStr type] b in list_index l 0.

(** [bytes_to_hex_str(v[i])] *)
Definition hex_at (v : pyval) (i : Z) : outcome string := let? x := getindex v i in bytes_hex x.

(** Signer, VRF key, share and address of a forger. *)
Definition decode_forger_info `{EthAbi} (result : string) : outcome (list pyval) :=
  let? raw_stake := decode_one "(bytes32,bytes32,bytes1,uint32,address)" result in
  let? sign := hex_at raw_stake 0 in
  let? vrf1 := hex_at raw_stake 1 in
  let? vrf2 := hex_at raw_stake 2 in
  let? share := getindex raw_stake 3 in
  let? address := getindex raw_stake 4 in
  Val [PStr sign; PStr (vrf1 +:+ vrf2); share; address].

Definition decode_paged_list_of_forgers `{EthAbi} : string → outcome (pyval * list (list pyval)) :=
  decode_page 160 decode_forger_info.

(** [dict(pairs)] *)
Fixpoint dict_of_pairs (d : list (string * pyval)) (pairs : list pyval) : outcome pyval :=
  match pairs with
  | [] => Val (PDict d)
  | (PTuple [PStr k; v] | PList [PStr k; v]) :: pairs' => dict_of_pairs (dict_set k v d) pairs'
  | _ => Exc TypeError
  end.

Definition decode_paged_list_of_forger_stakes `{EthAbi} (result : string) : outcome (pyval * pyval) :=
  let? page := decode_page 64 (decode_one "(address,uint256)") result in
  let? d := dict_of_pairs [] page.2 in
  Val (page.1, d).

Definition decode_delegator_stake `{EthAbi} (p : string) : outcome (list pyval) :=
  let? raw_stake := decode_one "(bytes32,bytes32,bytes1,uint256)" p in
  let? sign := hex_at raw_stake 0 in
  let? vrf1 := hex_at raw_stake 1 in
  let? vrf2 := hex_at raw_stake 2 in
  let? amount := getindex raw_stake 3 in
  Val [PStr sign; PStr (vrf1 +:+ vrf2); amount].

Definition decode_paged_list_of_delegator_stakes `{EthAbi} : string → outcome (pyval * list (list pyval)) :=
  decode_page 128 decode_delegator_stake.

(** ** Sums of the owners *)

Definition owner_of (stake : pyval) : outcome pyval := getpath stake ["forgerStakeData"; "ownerPublicKey"; "address"].
Definition staked_amount (stake : pyval) : outcome pyval := getpath stake ["forgerStakeData"; "stakedAmount"].

(** The sum of the first owner in the list that is the given one grows, or that of
    the genesis. *)
Fixpoint add_stake (owner amount : pyval) (sums : list (pyval * pyval)) (genesis : pyval)
    : outcome (list (pyval * pyval) * pyval) :=
  match sums with
  | [] => let? g := py_add genesis amount in Val ([], g)
  | (o, s) :: sums' =>
      if py_eqb owner o then let? s := py_add s amount in Val ((o, s) :: sums', genesis)
      else let? r := add_stake owner amount sums' genesis in Val ((o, s) :: r.1, r.2)
  end.

Fixpoint owner_sums (stakes : list pyval) (sums : list (pyval * pyval)) (genesis : pyval)
    : outcome (list (pyval * pyval) * pyval) :=
  match stakes with
  | [] => Val (sums, genesis)
  | stake :: stakes' =>
      let? owner := owner_of stake in
      let? amount := staked_amount stake in
      let? r := add_stake owner amount sums genesis in
      owner_sums stakes' r.1 r.2
  end.

(** A stake of the second contract is the sum of its owner; an owner without a sum
    must not be there. *)
Fixpoint check_owner (owner : pyval) (stake : pyval) (sums : list (pyval * option pyval)) (genesis : option pyval)
    : outcome unit :=
  let expect (sum : option pyval) : outcome unit :=
    match sum with
    | Some s => let? amount := staked_amount stake in assert_equal s amount "Forger stake is different after upgrade"
    | None => fail "returned stakes not belonging to an address of the node"
    end in
  match sums with
  | [] => expect genesis
  | (o, s) :: sums' => if py_eqb owner o then expect s else check_owner owner stake sums' genesis
  end.

Fixpoint check_owners (stakes : list pyval) (sums : list (pyval * option pyval)) (genesis : option pyval)
    : outcome unit :=
  match stakes with
  | [] => Val tt
  | stake :: stakes' =>
      let? owner := owner_of stake in
      let? _ := check_owner owner stake sums genesis in
      let? there := has_key "stakeId" stake in
      let? _ := assert_false there "" in
      check_owners stakes' sums genesis
  end.

(** ** Events *)

Definition check_signature `{EthEvents, EthHex} (event : pyval) (n : Z) (signature message : string) : outcome unit :=
  let? topics := getitem event "topics" in
  let? k := py_len topics in
  let? _ := assert_equal (PInt n) (PInt k) message in
  let? id := getindex topics 0 in
  let? event_id := remove_0x_prefix id in
  let? event_signature := remove_0x_prefix (event_topic signature) in
  assert_equal event_signature event_id "Wrong event signature in topics".

(** The events of delegation and withdrawal differ in their name. *)
Definition check_stake_event `{EthAbi, EthEvents, EthHex} (name what : string) (event sender vrf_pub_key
    block_sign_pub_key amount : pyval) : outcome unit :=
  let? _ := check_signature event 4 (name +:+ "(address,bytes32,bytes32,bytes1,uint256)")
              ("Wrong number of topics in " +:+ what) in
  let? from_addr := topic_address event 1 in
  let? expected := lower_of sender in
  let? actual := lower_of from_addr in
  let? _ := assert_equal expected actual "Wrong from address in topics" in
  let? vrf1 := topic_value event 2 "bytes32" in
  let? vrf2 := topic_value event 3 "bytes1" in
  let? vrf := bytes_hex vrf_pub_key in
  let? h1 := bytes_hex vrf1 in
  let? h2 := bytes_hex vrf2 in
  let? _ := assert_equal (PStr vrf) (PStr (h1 +:+ h2)) "wrong vrfPublicKey" in
  let? data := getitem event "data" in
  let? parts := decode_hex ["bytes32"; "uint256"] data in
  match parts with
  | [sign_pub_key; value] =>
      let? s := bytes_hex sign_pub_key in
      let? _ := assert_equal block_sign_pub_key (PStr s) "Wrong sign_pub_key in event" in
      assert_equal amount value "Wrong amount in event"
  | _ => Exc (ValueError "unpack")
  end.

Definition check_delegate_event `{EthAbi, EthEvents, EthHex} := check_stake_event "DelegateForgerStake" "delegate_event".
Definition check_withdraw_event `{EthAbi, EthEvents, EthHex} := check_stake_event "WithdrawForgerStake" "withdraw_event".

(** ** Keys of a forger *)

Record ForgerKeys := mkForgerKeys {
  fk_sign : pyval;                     (* hexadecimal *)
  fk_vrf : pyval;
  fk_sign_bytes : string;
  fk_vrf_bytes : string
}.

Definition forger_keys_of (sign vrf : pyval) : outcome ForgerKeys :=
  match sign, vrf with
  | PStr s, PStr v =>
      let? sb := hex_str_to_bytes s in
      let? vb := hex_str_to_bytes v in
      Val (mkForgerKeys sign vrf sb vb)
  | _, _ => Exc TypeError
  end.

(** The keys as arguments of the contract. *)
Definition key_args (k : ForgerKeys) : list pyval :=
  [PBytes (fk_sign_bytes k); PBytes (str_take 32 (fk_vrf_bytes k)); PBytes (str_drop 32 (fk_vrf_bytes k))].

(** [assert_equal(x, l[i])] for the fields in order *)
Fixpoint check_fields (expected actual : list pyval) : outcome unit :=
  match expected with
  | [] => Val tt
  | e :: expected' =>
      match actual with
      | [] => Exc IndexError
      | a :: actual' => let? _ := assert_equal e a "" in check_fields expected' actual'
      end
  end.

Section NativeForger.
Context {W : Type} `{Nodes W, Clock W, Os W, Rng W} `{EthUtils, EthAbi, EthHash, EthEvents, EthHex}.
Local Abbreviation MF := (M (FW W)).

(** ** Calls of the contracts *)

Definition STAKES_V2 : pyval := PStr FORGER_STAKE_V2_SMART_CONTRACT_ADDRESS.

(** A failing call must carry a text; the failure inside [try] is an
    [AssertionError], which the clause does not catch. *)
Definition must_revert {A} (m : MF A) (message text : string) : MF unit :=
  catch (do! m in lift (fail message))
  (λ e, match e with
        | RuntimeError m | EvmExecutionError m => lift (assert_true (str_contains text m) "")
        | _ => raise e
        end).

Definition static_on (sc_node : proxy) (c : SmartContract) (address from : pyval) (method : string) (args : list pyval)
    (value : Z) : MF pyval :=
  contract_function_static_call sc_node c address from method args (PInt value) (PStr "latest") false false.

Definition call_on (sc_node : proxy) (c : SmartContract) (address from : pyval) (method : string) (args : list pyval)
    (value : pyval) : MF pyval :=
  contract_function_call sc_node c address from method args value PNone (PStr "latest").

(** [hex_str_to_bytes(sc_node.rpc_eth_call({...}, tag)['result'][2:])] *)
Definition eth_call_bytes (sc_node : proxy) (to from : outcome pyval) (input tag : pyval) : MF string :=
  let% to := to in
  let% from := from in
  let! r := call sc_node "rpc_eth_call" [PDict [("to", to); ("from", from); ("input", input)]; tag] in
  let% text := getitem r "result" in
  let% text := (match text with PStr s => Val s | _ => Exc TypeError end) in
  lift (hex_str_to_bytes (str_drop 2 text)).

(** The call of a method of the second contract, from an account. *)
Definition v2_read (sc_node : proxy) (c : SmartContract) (from : pyval) (method : string) (args : list pyval)
    (tag : pyval) : MF string :=
  let% data := raw_encode_call c method args in
  eth_call_bytes sc_node (Val (PStr ("0x" +:+ FORGER_STAKE_V2_SMART_CONTRACT_ADDRESS))) (add_0x_prefix from) data tag.

(** The same with checksummed addresses. *)
Definition v2_read_evm (sc_node : proxy) (c : SmartContract) (from : pyval) (method : string) (args : list pyval)
    : MF string :=
  let% data := raw_encode_call c method args in
  eth_call_bytes sc_node (format_evm STAKES_V2) (format_evm from) data (PStr "latest").

(** The receipt of a transaction in the next block. *)
Definition block_receipt (sc_node : proxy) (tx_hash : pyval) : MF pyval :=
  let! r := generate_block_and_get_tx_receipt sc_node tx_hash false in
  let% receipt := getitem r "result" in
  let% status := getitem receipt "status" in
  do% assert_equal (PStr "0x1") status "Transaction failed" in
  ret receipt.

(** Its gas and its events. *)
Definition gas_and_logs (receipt : pyval) (gas n : Z) : MF pyval :=
  let% g := getitem receipt "gasUsed" in
  let% g := py_int_base g 16 in
  do% assert_equal (PInt gas) (PInt g) "wrong used gas" in
  let% logs := getitem receipt "logs" in
  do! check_length n logs "Wrong number of logs" in
  ret logs.

(** The epochs up to a fork. *)
Definition reach_fork (fuel : nat) (sc_node : proxy) (fork : Z) : MF unit :=
  let! epoch := current_epoch sc_node in
  let% left := py_sub (PInt fork) epoch in
  let% left := range_stop left in
  forM_ (zrange 0 left) (λ _, forge_synced fuel sc_node "first node" true).

(** ** Accounts and stakes of the first contract *)

Record Owners := mkOwners { own_1 : pyval; own_2 : pyval; own_3 : pyval; own_4 : pyval; own_5 : pyval; own_none : pyval }.

Definition native_accounts (fuel : nat) (mc_node sc1 sc2 : proxy) : MF (pyval * pyval * pyval) :=
  let! address2 := new_evm_address sc2 in
  let! address_none := new_evm_address sc2 in
  do! transfer_to mc_node address2 (PDec (Dec 5000 (-1))) false in
  do! sleep (secs 2) in
  let! address1 := new_evm_address sc1 in
  do! transfer_to mc_node address1 (PDec (Dec 10000 (-1))) true in
  do! sync_all fuel in
  do! forge_synced fuel sc1 "first node" false in
  do! print_current_epoch_and_slot sc1 in
  ret (address1, address2, address_none).

(** The keys of the first stake. *)
Definition first_forger (stakes : pyval) : outcome (pyval * pyval) :=
  let? stake := getindex stakes 0 in
  let? sign := getpath stake ["forgerStakeData"; "forgerPublicKeys"; "blockSignPublicKey"; "publicKey"] in
  let? vrf := getpath stake ["forgerStakeData"; "forgerPublicKeys"; "vrfPublicKey"; "publicKey"] in
  Val (sign, vrf).

(** The stakes made before the forks, in order; the scripts differ in the third one. *)
Definition old_stakes (third : Z) (w : Owners) : list (pyval * Z) :=
  [(own_1 w, 2); (own_2 w, 1); (own_2 w, third); (own_3 w, 2); (own_2 w, 1); (own_4 w, 3); (own_3 w, 3); (own_5 w, 1)].

Definition make_old_stakes (fuel : nat) (sc1 : proxy) (keys : pyval * pyval) (stakes : list (pyval * Z)) : MF unit :=
  do! forM_ (imap (λ i s, (Z.of_nat i, s)) stakes) (λ s,
    let% zennies := convertZenToZennies (PInt s.2.2) in
    do! ac_makeForgerStake sc1 s.2.1 keys.1 keys.2 (PInt zennies) (PInt s.1) in
    ret tt) in
  do! sc_sync_all fuel false in
  forge_synced fuel sc1 "first node" false.

(** [upgrade()] of the first contract after fork 1.3; the balance it has then. *)
Definition upgrade_old (fuel : nat) (sc1 : proxy) (old : SmartContract) (address1 : pyval) : MF Z :=
  do! call_on sc1 old STAKES address1 "upgrade()" [] (PInt 0) in
  do! forge_synced fuel sc1 "first node" true in
  let! balance := rpc_get_balance sc1 STAKES in
  do! must_revert (static_on sc1 old STAKES address1 "disableAndMigrate()" [] 0)
    "disableAndMigrate call should fail before fork point" "op code not supported" in
  ret balance.

(** [activate()] before the fork is a transfer. *)
Definition early_activate (fuel : nat) (sc1 : proxy) (v2 : SmartContract) (address1 : pyval) : MF unit :=
  let% zennies := convertZenToZennies (PInt 2) in
  let! tx_hash := call_on sc1 v2 STAKES_V2 address1 "activate()" [] (PInt zennies) in
  do! sc_sync_all fuel false in
  do! block_receipt sc1 tx_hash in
  reach_fork fuel sc1 VERSION_1_4_FORK_EPOCH.

Definition DELEGATE : string := "delegate(bytes32,bytes32,bytes1)".
Definition WITHDRAW : string := "withdraw(bytes32,bytes32,bytes1,uint256)".
Definition GET_FORGER : string := "getForger(bytes32,bytes32,bytes1)".
Definition PAGED_FORGERS : string := "getPagedForgers(int32,int32)".
Definition CURRENT_EPOCH : string := "getCurrentConsensusEpoch()".
Definition STAKE_START : string := "stakeStart(bytes32,bytes32,bytes1,address)".
Definition BY_FORGER : string := "getPagedForgersStakesByForger(bytes32,bytes32,bytes1,int32,int32)".
Definition BY_DELEGATOR : string := "getPagedForgersStakesByDelegator(address,int32,int32)".

(** Before [activate()] no method of the second contract works.  The keys of the
    forger, as they are used from here on. *)
Definition not_activated (sc1 : proxy) (old v2 : SmartContract) (address1 : pyval) (keys : pyval * pyval)
    : MF ForgerKeys :=
  do! must_revert (static_on sc1 old STAKES address1 "disableAndMigrate()" [] 0)
    "disableAndMigrate call should fail" "Authorization failed" in
  let% k := forger_keys_of keys.1 keys.2 in
  let% wei := convertZenToWei (PInt 1) in
  let% own := py_add (PStr "0x") address1 in
  do! forM_ [(DELEGATE, key_args k, "delegate call should fail"); (WITHDRAW, key_args k ++ [PInt wei], "withdraw call should fail");
         (GET_FORGER, key_args k, "getForger call should fail"); (PAGED_FORGERS, [PInt 0; PInt 100], "getForger call should fail");
         (CURRENT_EPOCH, [], "getCurrentConsensusEpoch call should fail");
         (STAKE_START, key_args k ++ [own], "stakeStart call should fail")]
    (λ t, must_revert (static_on sc1 v2 STAKES_V2 address1 t.1.1 t.1.2 0) t.2
            "Forger stake V2 has not been activated yet") in
  ret k.

(** Stakes of the first contract can still be made and spent: the identifier of the
    stake spent. *)
Definition last_old_stake (fuel : nat) (sc1 : proxy) (keys : pyval * pyval) (owner : pyval) (stakes : Z) : MF pyval :=
  let% zennies := convertZenToZennies (PInt 4) in
  let! res := ac_makeForgerStake sc1 owner keys.1 keys.2 (PInt zennies) PNone in
  let% there := has_key "result" res in
  do! when (negb there) (lift (fail "make forger stake with native smart contract v1 should work before activate")) in
  do! forge_synced fuel sc1 "first node" false in
  let! stake_list := check_stakes sc1 (stakes + 1) in
  let% stake := getindex stake_list (-1) in
  let% stake_id := getitem stake "stakeId" in
  let! res := post sc1 "transaction_spendForgingStake" [("stakeId", stake_id)] PNone in
  do% BackwardScenarios.require_result res "spend forger stake failed: " in
  do! sc_sync_all fuel false in
  do! forge_synced fuel sc1 "first node" false in
  ret stake_id.

(** [activate()]: its gas and its two events. *)
Definition activate (fuel : nat) (sc1 : proxy) (v2 : SmartContract) (address1 : pyval) : MF unit :=
  let! tx_hash := call_on sc1 v2 STAKES_V2 address1 "activate()" [] (PInt 0) in
  do! forge_synced fuel sc1 "first node" false in
  let! receipt := block_receipt sc1 tx_hash in
  let! logs := gas_and_logs receipt (21000 + 4 * 16) 2 in
  let% disable_event := getindex logs 0 in
  do% check_signature disable_event 1 "DisableStakeV1()" "Wrong number of topics in disable_event" in
  let% activate_event := getindex logs 1 in
  lift (check_signature activate_event 1 "ActivateStakeV2()" "Wrong number of topics in activate_event").

(** ** After the activation *)

(** The sums of the owners as the nodes report them, of all and of their own. *)
Definition migrated_stakes (sc1 sc2 : proxy) (sums : list (pyval * pyval)) (genesis : pyval) : MF unit :=
  let! all1 := all_stakes sc1 in
  let! all2 := all_stakes sc2 in
  do% assert_equal all1 all2 "Forging stakes are different on 2 nodes" in
  let% l := py_iter all1 in
  do% check_owners l (map (λ s, (s.1, Some s.2)) sums) (Some genesis) in
  match sums with
  | [(a1, s1); (a2, s2); (a3, s3); (a4, s4); (a5, s5)] =>
      let! mine1 := my_stakes sc1 in
      let% l := py_iter mine1 in
      do% check_owners l [(a1, Some s1); (a3, Some s3); (a5, Some s5); (a2, None); (a4, None)] (Some genesis) in
      let! mine2 := my_stakes sc2 in
      let% l := py_iter mine2 in
      lift (check_owners l [(a1, None); (a3, None); (a5, None); (a2, Some s2); (a4, Some s4)] None)
  | _ => raise (ValueError "unpack")
  end.

Definition disabled_text : string := "Method is disabled after Fork 1.4. Use Forger Stakes Native Smart Contract V2".

(** [if "error" not in res: fail(message)], and the description of an error *)
Definition check_disabled (res described : pyval) (message : string) : MF unit :=
  let% there := has_key "error" res in
  do! when (negb there) (lift (fail message)) in
  let% description := getpath described ["error"; "description"] in
  lift (assert_equal (PStr disabled_text) description "").

(** The balances; the first contract is disabled, also for the API.  For the pages
    the description compared is that of the call before. *)
Definition old_disabled (fuel : nat) (sc1 : proxy) (old v2 : SmartContract) (address1 : pyval) (keys : pyval * pyval)
    (owner stake_id : pyval) (balance v2_balance : Z) : MF unit :=
  let! b := rpc_get_balance sc1 STAKES in
  do% assert_equal (PInt 0) (PInt b) "" in
  let! b := rpc_get_balance sc1 STAKES_V2 in
  do% assert_equal (PInt (balance + v2_balance)) (PInt b) "" in
  do! must_revert (call_on sc1 v2 STAKES_V2 address1 "activate()" [] (PInt 0)) "activate call should fail" "" in
  do! must_revert (static_call old sc1 "getAllForgersStakes()" [] address1 STAKES PNone PNone PNone (PInt 0)
                     (PStr "latest") false false)
    "call should fail after activate of Forger Stake v2" "Method is disabled" in
  do! generate_next_block sc1 "first node" false PNone in
  let% zennies := convertZenToZennies (PInt 4) in
  let! made := ac_makeForgerStake sc1 owner keys.1 keys.2 (PInt zennies) PNone in
  do! check_disabled made made "make forger stake with native smart contract v1 should fail after activate" in
  do! forge_synced fuel sc1 "first node" false in
  let! spent := post sc1 "transaction_spendForgingStake" [("stakeId", stake_id)] PNone in
  do! check_disabled spent spent "spendForgingStake with native smart contract v1 should fail after activate" in
  let! paged := post sc1 "transaction_pagedForgingStakes" [("size", PInt 10); ("startPos", PInt 0)] PNone in
  check_disabled paged spent "pagedForgingStakes native smart contract v1 should fail after activate".

(** The forger of the first stake is registered, with no share and no address; that of
    the second node is not. *)
Definition registered_forger (sc1 : proxy) (v2 : SmartContract) (address1 : pyval) (k : ForgerKeys) (keys2 : pyval * pyval)
    : MF ForgerKeys :=
  let expected := [fk_sign k; fk_vrf k; PInt 0; PStr NULL_ADDRESS_0x] in
  let! bytes := v2_read_evm sc1 v2 address1 PAGED_FORGERS [PInt 0; PInt 100] in
  let% '(next_pos, forgers) := decode_paged_list_of_forgers bytes in
  do% assert_equal (PInt (-1)) next_pos "" in
  do% assert_equal (PInt 1) (PInt (Z.of_nat (length forgers))) "" in
  let% forger := list_index forgers 0 in
  do% check_fields expected forger in
  let! bytes := v2_read_evm sc1 v2 address1 GET_FORGER (key_args k) in
  let% info := decode_forger_info bytes in
  do% check_fields expected info in
  let% k2 := forger_keys_of keys2.1 keys2.2 in
  do! must_revert (static_on sc1 v2 STAKES_V2 address1 GET_FORGER (key_args k2) 0)
    "getForger call should fail if forger is not registered yet" "Forger doesn't exist." in
  ret k2.

(** ** Pages of stakes *)

(** The stakes of the forger: their number, the sums of owners and who has none. *)
Definition stakes_by_forger (sc1 : proxy) (v2 : SmartContract) (from : pyval) (k : ForgerKeys) (n : Z)
    (sums : list (pyval * pyval)) (absent : list pyval) : MF pyval :=
  let! bytes := v2_read sc1 v2 from BY_FORGER (key_args k ++ [PInt 0; PInt 100]) (PStr "latest") in
  let% '(next_pos, stakes) := decode_paged_list_of_forger_stakes bytes in
  do% assert_equal (PInt (-1)) next_pos "" in
  do! check_length n stakes "" in
  do! forM_ sums (λ s,
    let% key := py_add (PStr "0x") s.1 in
    let% key := as_str "" key in
    let% amount := getitem stakes key in
    lift (assert_equal s.2 amount "")) in
  do! forM_ absent (λ a,
    let% key := py_add (PStr "0x") a in
    let% there := py_in key stakes in
    lift (assert_false there "")) in
  ret stakes.

(** The stakes of a delegator: none, or one for the forger. *)
Definition stakes_by_delegator (sc1 : proxy) (v2 : SmartContract) (from delegator : pyval) (k : ForgerKeys)
    (amount : option pyval) : MF unit :=
  let! bytes := v2_read sc1 v2 from BY_DELEGATOR [delegator; PInt 0; PInt 100] (PStr "latest") in
  let% '(next_pos, stakes) := decode_paged_list_of_delegator_stakes bytes in
  do% assert_equal (PInt (-1)) next_pos "" in
  match amount with
  | Some a =>
      do% assert_equal (PInt 1) (PInt (Z.of_nat (length stakes))) "" in
      let% stake := list_index stakes 0 in
      lift (check_fields [fk_sign k; fk_vrf k; a] stake)
  | None => lift (assert_equal (PInt 0) (PInt (Z.of_nat (length stakes))) "")
  end.

(** The receipt of a transaction of the contract, with its gas and one event; the
    fee. *)
Definition v2_mined (sc1 : proxy) (tx_hash : pyval) (gas : Z) (check : pyval → outcome unit) : MF Z :=
  let! receipt := block_receipt sc1 tx_hash in
  let! logs := gas_and_logs receipt gas 1 in
  let% event := getindex logs 0 in
  do% check event in
  let! '(gas_fee_paid, _, _) := computeForgedTxFee sc1 tx_hash in
  ret gas_fee_paid.

(** [assert_equal(expected, rpc_get_balance(...))] *)
Definition check_balance (sc1 : proxy) (address : pyval) (expected : outcome pyval) : MF unit :=
  let% expected := expected in
  let! b := rpc_get_balance sc1 address in lift (assert_equal expected (PInt b) "").

(** A delegation of the first account: the balance of the contract after it. *)
Definition v2_delegate (fuel : nat) (sc1 : proxy) (v2 : SmartContract) (address1 : pyval) (k : ForgerKeys) (amount : Z)
    (v2_balance : Z) : MF Z :=
  let! before := rpc_get_balance sc1 address1 in
  let! tx_hash := call_on sc1 v2 STAKES_V2 address1 DELEGATE (key_args k) (PInt amount) in
  do! forge_synced fuel sc1 "first node" false in
  let! fee := v2_mined sc1 tx_hash 41403
    (λ e, check_delegate_event e address1 (PBytes (fk_vrf_bytes k)) (fk_sign k) (PInt amount)) in
  do! check_balance sc1 address1 (Val (PInt (before - amount - fee))) in
  do! check_balance sc1 STAKES_V2 (Val (PInt (amount + v2_balance))) in
  ret (v2_balance + amount).

(** When the stake of an address started. *)
Definition check_stake_start (sc1 : proxy) (v2 : SmartContract) (from address : pyval) (k : ForgerKeys) (epoch : Z)
    : MF unit :=
  let% a := py_add (PStr "0x") address in
  let! bytes := v2_read sc1 v2 from STAKE_START (key_args k ++ [a]) (PStr "latest") in
  let% e := decode_one "int32" bytes in
  lift (assert_equal (PInt epoch) e "").

(** A withdrawal of all of the second account: the balance of the contract after it. *)
Definition v2_withdraw (fuel : nat) (sc1 sc2 : proxy) (v2 : SmartContract) (address2 : pyval) (k : ForgerKeys)
    (amount : pyval) (v2_balance : Z) : MF pyval :=
  let! before := rpc_get_balance sc1 address2 in
  let! tx_hash := call_on sc2 v2 STAKES_V2 address2 WITHDRAW (key_args k ++ [amount]) (PInt 0) in
  do! forge_synced fuel sc1 "first node" false in
  let! fee := v2_mined sc1 tx_hash 41503
    (λ e, check_withdraw_event e address2 (PBytes (fk_vrf_bytes k)) (fk_sign k) amount) in
  do! check_balance sc1 address2 (let? x := py_add (PInt before) amount in py_sub x (PInt fee)) in
  let% left := py_sub (PInt v2_balance) amount in
  do! check_balance sc1 STAKES_V2 (Val left) in
  ret left.

(** The epoch the contract reports, now and at the block before the switch. *)
Definition v2_epochs (sc1 : proxy) (v2 : SmartContract) (address1 address2 : pyval) : MF unit :=
  let! r := static_on sc1 v2 STAKES_V2 address2 CURRENT_EPOCH [] 0 in
  let% epoch := getindex r 0 in
  let! best_epoch := current_epoch sc1 in
  do% assert_equal best_epoch epoch "" in
  let! block := call sc1 "block_best" [] in
  let% block_id := getpath block ["result"; "block"; "id"] in
  do! generate_next_block sc1 "first node" true PNone in
  let! best_epoch := current_epoch sc1 in
  do% assert_false (py_eqb epoch best_epoch) "" in
  let% hash := py_add (PStr "0x") block_id in
  let! bytes := v2_read sc1 v2 address1 CURRENT_EPOCH [] (PDict [("blockHash", hash)]) in
  let% epoch_at_block := decode_one "uint32" bytes in
  lift (assert_equal epoch epoch_at_block "").

(** ** Through the proxy contract *)

(** What changes with a call through the proxy contract: the balance of the account,
    of the proxy contract and of the contract of the stakes. *)
Record Balances := mkBalances { b_account : Z; b_proxy : Z; b_stakes : pyval }.

(** A call with its gas and its event; the account pays the fee, [moved] goes from the
    proxy contract to the stakes. *)
Definition proxy_call (sc1 : proxy) (p : SimpleProxyContract) (address : pyval) (nonce : Z) (value : Z) (input : string)
    (gas : Z) (check : pyval → outcome unit) (moved : Z) (b : Balances) : MF Balances :=
  let! tx_hash := call_transaction p address (PInt nonce) STAKES_V2 (PInt value) (PStr input) (PInt 20000000) in
  let! fee := v2_mined sc1 tx_hash gas check in
  do! check_balance sc1 address (Val (PInt (b_account b - fee))) in
  do! check_balance sc1 (spc_contract_address p) (Val (PInt (b_proxy b - moved))) in
  let% stakes := py_add (b_stakes b) (PInt moved) in
  do! check_balance sc1 STAKES_V2 (Val stakes) in
  ret (mkBalances (b_account b - fee) (b_proxy b - moved) stakes).

Definition native_input (v2 : SmartContract) (method : string) (args : list pyval) : outcome string :=
  let? data := raw_encode_call v2 method args in format_eoa_val data.

(** The stake of the proxy contract in a page, which is keyed by its address. *)
Definition proxy_in_page (p : SimpleProxyContract) (stakes : pyval) (amount : option Z) : outcome unit :=
  let? key := as_str "lower" (spc_contract_address p) in
  match amount with
  | Some a => let? x := getitem stakes (lower key) in assert_equal (PInt a) x ""
  | None => let? there := py_in (PStr (lower key)) stakes in assert_false there ""
  end.

(** A delegation and a withdrawal by the proxy contract. *)
Definition v2_interop (o : Options) (mc_node sc1 : proxy) (v2 : SmartContract) (address1 address2 : pyval) (k : ForgerKeys)
    (amount : Z) (sums : list (pyval * pyval)) (v2_balance : pyval) : MF unit :=
  let! '(address, p) := proxy_account o mc_node sc1 in
  let! account := rpc_get_balance sc1 address in
  let! proxy_balance := rpc_get_balance sc1 (spc_contract_address p) in
  let% eoa := format_eoa_val (spc_contract_address p) in
  let vrf := PBytes (fk_vrf_bytes k) in
  let% input := native_input v2 DELEGATE (key_args k) in
  let! b := proxy_call sc1 p address 2 amount input 183841
    (λ e, check_delegate_event e (PStr eoa) vrf (fk_sign k) (PInt amount)) amount
    (mkBalances account proxy_balance v2_balance) in
  let! stakes := stakes_by_forger sc1 v2 address1 k 6 sums [address2] in
  do% proxy_in_page p stakes (Some amount) in
  do! stakes_by_delegator sc1 v2 address1 (spc_contract_address p) k (Some (PInt amount)) in
  let% input := native_input v2 WITHDRAW (key_args k ++ [PInt amount]) in
  do! proxy_call sc1 p address 3 0 input 48675
    (λ e, check_withdraw_event e (PStr eoa) vrf (fk_sign k) (PInt amount)) (- amount) b in
  let! stakes := stakes_by_forger sc1 v2 address1 k 5 sums [address2] in
  do% proxy_in_page p stakes None in
  do! stakes_by_delegator sc1 v2 address1 (spc_contract_address p) k None in
  let% input := native_input v2 CURRENT_EPOCH [] in
  let! result := do_static_call p address (PInt 3) STAKES_V2 (PStr input) in
  let% result := (match result with PBytes b => Val b | _ => Exc TypeError end) in
  let% epoch := decode_one "uint32" result in
  let! best_epoch := current_epoch sc1 in
  lift (assert_equal best_epoch epoch "").

(** ** Rewards *)

(** Coins sent to the pool of the forgers are paid out at the end of the epoch, to the
    owner of the first stake. *)
Definition pool_rewards (fuel : nat) (mc_node sc1 : proxy) (first_stakes : pyval) : MF unit :=
  let half := PFloat (float_of_dec (Dec 5 (-1))) in
  let pool := PStr FORGER_POOL_RECIPIENT_ADDRESS in
  let% wei := convertZenToWei half in
  do! transfer_to mc_node (PStr (format_eoa FORGER_POOL_RECIPIENT_ADDRESS)) half false in
  do! call mc_node "generate" [PInt 1] in
  do! generate_next_block sc1 "second node" false PNone in
  do! check_balance sc1 pool (Val (PInt wei)) in
  do! call mc_node "generate" [PInt 19] in
  let! last_id := generate_next_block sc1 "first node" false PNone in
  do! sc_sync_all fuel false in
  do! check_balance sc1 pool (Val (PInt 0)) in
  let! payments := fee_payments sc1 last_id in
  let% stake := getindex first_stakes 0 in
  let% owner := owner_of stake in
  let% payment := getindex payments 0 in
  let% paid_to := getpath payment ["address"; "address"] in
  do% assert_equal owner paid_to "" in
  let% from_mc := getitem payment "valueFromMainchain" in
  do% assert_equal (PInt wei) from_mc "" in
  let% value := getitem payment "value" in
  let% fees := getitem payment "valueFromFees" in
  let% total := py_add from_mc fees in
  lift (assert_equal value total "").
(** ** [run_test] *)

(** Up to the activation: what the rest of the run uses. *)
Record Migrated := mkMigrated {
  mig_first_stakes : pyval;            (* stakes at the start *)
  mig_owners : Owners;
  mig_keys : ForgerKeys;               (* of the forger *)
  mig_keys_2 : pyval * pyval;          (* of the second node *)
  mig_sums : pyval * pyval * pyval * pyval * pyval;
  mig_v2 : SmartContract;
  mig_balance : Z                      (* of the second contract *)
}.

Definition run_migration (fuel : nat) (mc_node sc1 sc2 : proxy) : MF Migrated :=
  let! '(address1, address2, address_none) := native_accounts fuel mc_node sc1 sc2 in
  let! first_stakes := all_stakes sc1 in
  let% keys := first_forger first_stakes in
  let! keys2 := forger_keys sc2 in
  let! address3 := new_evm_address sc1 in
  let! address4 := new_evm_address sc2 in
  let! address5 := new_evm_address sc1 in
  let w := mkOwners address1 address2 address3 address4 address5 address_none in
  do! make_old_stakes fuel sc1 keys (old_stakes 11 w) in
  let! orig := check_stakes sc1 9 in
  let% l := py_iter orig in
  let% '(sums, genesis) :=
    owner_sums l [(address1, PInt 0); (address2, PInt 0); (address3, PInt 0); (address4, PInt 0); (address5, PInt 0)]
      (PInt 0) in
  do! reach_fork fuel sc1 VERSION_1_3_FORK_EPOCH in
  let! old := SmartContract_init "ForgerStakes" in
  let! balance := upgrade_old fuel sc1 old address1 in
  let! v2 := SmartContract_init "ForgerStakesV2" in
  do! early_activate fuel sc1 v2 address1 in
  let! k := not_activated sc1 old v2 address1 keys in
  let! stake_id := last_old_stake fuel sc1 keys address5 9 in
  let! v2_balance := rpc_get_balance sc1 STAKES_V2 in
  do! activate fuel sc1 v2 address1 in
  do! migrated_stakes sc1 sc2 sums genesis in
  do! old_disabled fuel sc1 old v2 address1 keys address5 stake_id balance v2_balance in
  match sums with
  | [(_, s1); (_, s2); (_, s3); (_, s4); (_, s5)] =>
      ret (mkMigrated first_stakes w k keys2 (s1, s2, s3, s4, s5) v2 (v2_balance + balance))
  | _ => raise (ValueError "unpack")
  end.

(** Delegation and withdrawal by accounts: what is left in the second contract. *)
Definition run_delegations (fuel : nat) (sc1 sc2 : proxy) (m : Migrated) (amount : Z)
    : MF (list (pyval * pyval) * pyval) :=
  let w := mig_owners m in
  let k := mig_keys m in
  let v2 := mig_v2 m in
  let '(s1, s2, s3, s4, s5) := mig_sums m in
  let! k2 := registered_forger sc1 v2 (own_1 w) k (mig_keys_2 m) in
  let! v2_balance := v2_delegate fuel sc1 v2 (own_1 w) k amount (mig_balance m) in
  let% s1 := py_add s1 (PInt amount) in
  do! stakes_by_forger sc1 v2 (own_1 w) k 6
    [(own_1 w, s1); (own_2 w, s2); (own_3 w, s3); (own_4 w, s4); (own_5 w, s5)] [] in
  let% delegator := py_add (PStr "0x") (own_1 w) in
  do! stakes_by_delegator sc1 v2 (own_1 w) delegator k (Some s1) in
  let% wei := convertZenToWei (PInt 1) in
  do! must_revert
    (static_on sc1 v2 STAKES_V2 (own_1 w) DELEGATE
      (key_args (mkForgerKeys (fk_sign k2) (fk_vrf k) (fk_sign_bytes k2) (fk_vrf_bytes k))) wei)
    "delegate call should fail" "Forger doesn't exist" in
  do! check_stake_start sc1 v2 (own_1 w) (own_1 w) k VERSION_1_4_FORK_EPOCH in
  do! check_stake_start sc1 v2 (own_1 w) (own_none w) k (-1) in
  let! v2_balance := v2_withdraw fuel sc1 sc2 v2 (own_2 w) k s2 v2_balance in
  let sums := [(own_1 w, s1); (own_3 w, s3); (own_4 w, s4); (own_5 w, s5)] in
  do! stakes_by_forger sc1 v2 (own_1 w) k 5 sums [own_2 w] in
  let% delegator := py_add (PStr "0x") (own_2 w) in
  do! stakes_by_delegator sc1 v2 (own_1 w) delegator k None in
  do! must_revert (static_on sc1 v2 STAKES_V2 (own_2 w) WITHDRAW (key_args k ++ [s2]) 0)
    "withdrawal call should fail" "Not enough stake" in
  ret (sums, v2_balance).

Definition SCEvmNativeForgerV2_run_test (fuel : nat) (o : Options) : MF unit :=
  do! not_with_all_forks o in
  let! mc_node := mc 0 in
  let! sc1 := sc 0 in
  let! sc2 := sc 1 in
  let! m := run_migration fuel mc_node sc1 sc2 in
  let w := mig_owners m in
  let% amount := convertZenToWei (PInt 1) in
  let! '(sums, v2_balance) := run_delegations fuel sc1 sc2 m amount in
  do! v2_epochs sc1 (mig_v2 m) (own_1 w) (own_2 w) in
  do! v2_interop o mc_node sc1 (mig_v2 m) (own_1 w) (own_2 w) (mig_keys m) amount sums v2_balance in
  pool_rewards fuel mc_node sc1 (mig_first_stakes m).

Definition SCEvmNativeForgerV2 (fuel : nat) (o : Options) (shared : SCForgerConfiguration) : TestClass W :=
  AccountChainSetup_class fuel o
    (forger_setup 2 20 100 (1500 * EVM_APP_SLOT_TIME * VERSION_1_4_FORK_EPOCH) None [])
    shared (SCEvmNativeForgerV2_run_test fuel o).
End NativeForger.
