(* ===== verification/RegisterScenarios.v ===== *)
(** * Scenarios: registration of forgers

    sc_evm_forger_v2_register.py: forgers are registered with the second contract of
    the stakes and updated, through the API and through the contract; the API
    refuses keys, amounts, shares and addresses that are not valid. *)

From S2P Require Import Prelude PyStr Numbers PyVal Host Sim Json Encoding HttpProxy BootInfo McUtil ScUtil.
From S2P Require Import Forging Bootstrap Framework AccountSetup McFramework HttpCalls AccountCalls AccountUtil SmartContract Tools.
From Stdlib Require Import Ascii String.
From stdpp Require Import base list.
From S2P Require Import Scenarios ForgingScenarios StakeScenarios ChainScenarios MempoolScenarios EvmScenarios BackwardScenarios.
From S2P Require Import CswScenarios CertificateScenarios KeyRotationScenarios EvmRotationScenarios ForgerScenarios EvmForgerScenarios.
From S2P Require Import NativeForgerScenarios.
Local Open Scope Z_scope.

(** ** Events *)

(** What the events of registration and update have in common: signature, sender and
    VRF key; the rest is in the data. *)
Definition check_forger_event `{EthAbi, EthEvents, EthHex} (event : pyval) (signature message : string)
    (sender vrf_pub_key : pyval) (types : list string) : outcome (list pyval) :=
  let? _ := check_signature event 4 signature message in
  let? from_addr := topic_address event 1 in
  let? expected := lower_of sender in
  let? actual := lower_of from_addr in
  let? _ := assert_equal expected actual "Wrong from address in topics" in
  let? vrf1 := topic_value event 2 "bytes32" in
  let? vrf2 := topic_value event 3 "bytes1" in
  let? h1 := bytes_hex vrf1 in
  let? h2 := bytes_hex vrf2 in
  let? _ := assert_equal vrf_pub_key (PStr (h1 +:+ h2)) "wrong vrfPublicKey" in
  let? data := getitem event "data" in
  decode_hex types data.

(** The address of the rewards is compared with itself, in both. *)
Definition check_register_event `{EthAbi, EthEvents, EthHex} (event sender vrf_pub_key block_sign_pub_key staked_amount
    rewards_share reward_address : pyval) : outcome unit :=
  let? parts := check_forger_event event "RegisterForger(address,bytes32,bytes32,bytes1,uint256,uint32,address)"
                  "Wrong number of topics in register_event" sender vrf_pub_key ["bytes32"; "uint256"; "uint32"; "address"] in
  match parts with
  | [pubKey25519; value; share; reward_contract_address] =>
      let? key := bytes_hex pubKey25519 in
      let? _ := assert_equal block_sign_pub_key (PStr key) "Wrong from address in topics" in
      let? _ := assert_equal staked_amount value "Wrong amount in event" in
      let? _ := assert_equal rewards_share share "Wrong rewards_share in event" in
      assert_equal reward_address reward_address "Wrong reward_address in event"
  | _ => Exc (ValueError "unpack")
  end.

Definition check_update_event `{EthAbi, EthEvents, EthHex} (event sender vrf_pub_key block_sign_pub_key rewards_share
    reward_address : pyval) : outcome unit :=
  let? parts := check_forger_event event "UpdateForger(address,bytes32,bytes32,bytes1,uint32,address)"
                  "Wrong number of topics in update forger event" sender vrf_pub_key ["bytes32"; "uint32"; "address"] in
  match parts with
  | [pubKey25519; share; reward_contract_address] =>
      let? key := bytes_hex pubKey25519 in
      let? _ := assert_equal block_sign_pub_key (PStr key) "Wrong from address in topics" in
      let? _ := assert_equal rewards_share share "Wrong rewards_share in event" in
      assert_equal reward_address reward_address "Wrong reward_address in event"
  | _ => Exc (ValueError "unpack")
  end.

(** ** Signatures *)

(** The slices of the signatures of both keys, as the contract takes them. *)
Definition signature_args (signature25519 signature_vrf : string) : list pyval :=
  [PBytes (str_take 32 signature25519); PBytes (str_drop 32 signature25519);
   PBytes (str_take 32 signature_vrf); PBytes (str_take 32 (str_drop 32 signature_vrf));
   PBytes (str_take 32 (str_drop 64 signature_vrf)); PBytes (str_drop 96 signature_vrf)].

(** The signatures written in the script, for the forger of the second node and for the
    genesis one. *)
Definition register_signatures : string * string :=
  ("776c7362afed8799826d1c61a202c248d11c82866c804db3ed919ecef8581fc65db2a019a543197fa150a3b923aca950b377cbd12701afe4c53361f29f971709",
   "d710141f62b7f656aaa21ae6fba716774d38e39708374c8b6e6a059482204e2a00e4dd3aabc76d76744e39f2f3e35c26c4ac7837d6ebc757ba4b31fbf92a1b9e0ea337dbf3deecb39e9df9134fc79107469d79acf44ee215eb7e063ab083489725").
Definition update_signatures : string * string :=
  ("e50f654c4bff1e99c282b0eec21ced63fac7ed28d9a7d4f6529c2dd7a7bce93fd419f1288c8c865a325f9b2a4439aab696384159b736f5ae1562e72f0638a50e",
   "8f0964a947fe634832cfbef589ed5956792085cd462b5a44d64bd0d0bdc75a0c0062b9c5cc55680ebdec91917721668d725c3b5f4f5c8529f8ed4458c86fb831279e7c8abfefc30eca46c565928d9c89adf27e2359f3827fcc8b6f62f4a4b8ee36").

Section Register.
Context {W : Type} `{Nodes W, Clock W, Os W, Rng W} `{EthUtils, EthAbi, EthHash, EthEvents, EthHex}.
Local Abbreviation MF := (M (FW W)).

(** ** Refusals of the API *)

(** An error with its code and a text in its description. *)
Definition check_refused (res : pyval) (code text : string) : MF unit :=
  do! check_error res in
  let% c := getpath res ["error"; "code"] in
  do% assert_equal (PStr code) c "" in
  let% description := getpath res ["error"; "description"] in
  let% there := py_in (PStr text) description in
  lift (assert_true there "").

(** [if 'error' not in res: fail(message)], else a text in a field of the error *)
Definition check_refused_in (res : pyval) (message field text : string) : MF unit :=
  let% there := has_key "error" res in
  if there then
    let% v := getpath res ["error"; field] in
    let% b := py_in (PStr text) v in
    lift (assert_true b "")
  else lift (fail message).

(** ** Preparation *)

(** An account on each node, with coins. *)
Definition two_accounts (fuel : nat) (mc_node sc1 sc2 : proxy) : MF (pyval * pyval) :=
  let! address2 := new_evm_address sc2 in
  do! transfer_to mc_node address2 (PDec (Dec 5000 (-1))) false in
  do! sleep (secs 2) in
  let! address1 := new_evm_address sc1 in
  do! transfer_to mc_node address1 (PDec (Dec 10000 (-1))) true in
  do! sync_all fuel in
  do! forge_synced fuel sc1 "first node" false in
  do! print_current_epoch_and_slot sc1 in
  ret (address1, address2).

(** What the script uses after the activation: accounts, keys (of the genesis, of the
    first and of the second node) and the contract. *)
Record Registration := mkRegistration {
  rg_address1 : pyval;
  rg_address2 : pyval;
  rg_genesis : pyval * pyval;
  rg_delegator : pyval;                (* owner of the genesis stake *)
  rg_keys1 : pyval * pyval;
  rg_keys2 : pyval * pyval;
  rg_v2 : SmartContract
}.

Definition staked_zennies : outcome Z := convertZenToZennies (PInt 10).

(** Registration is refused before the fork and before the activation. *)
Definition register_start (fuel : nat) (mc_node sc1 sc2 : proxy) : MF Registration :=
  let! '(address1, address2) := two_accounts fuel mc_node sc1 sc2 in
  let! stakes := all_stakes sc1 in
  let% genesis := first_forger stakes in
  let% stake := getindex stakes 0 in
  let% delegator := owner_of stake in
  let! keys2 := forger_keys sc2 in
  do! reach_fork fuel sc1 VERSION_1_3_FORK_EPOCH in
  let! old := SmartContract_init "ForgerStakes" in
  let! tx_hash := call_on sc1 old STAKES address1 "upgrade()" [] (PInt 0) in
  do! block_receipt sc1 tx_hash in
  let! keys1 := forger_keys sc1 in
  do! sc_sync_all fuel false in
  let% staked_amount := staked_zennies in
  let! res := ac_registerForger sc1 keys1.1 keys1.2 (PInt staked_amount) PNone (PInt 0) PNone in
  do! check_refused res "0204" "Fork 1.4 is not active, can not invoke this command" in
  do! reach_fork fuel sc1 VERSION_1_4_FORK_EPOCH in
  let! res := ac_registerForger sc1 keys1.1 keys1.2 (PInt staked_amount) PNone (PInt 0) PNone in
  do! check_refused res "0204" "Forger Stake Storage V2 is not active" in
  let! v2 := SmartContract_init "ForgerStakesV2" in
  let! tx_hash := call_on sc1 v2 STAKES_V2 address1 "activate()" [] (PInt 0) in
  do! forge_synced fuel sc1 "first node" false in
  let! receipt := block_receipt sc1 tx_hash in
  do! gas_and_logs receipt (21000 + 4 * 16) 2 in
  ret (mkRegistration address1 address2 genesis delegator keys1 keys2 v2).

(** ** Transactions of the API *)

(** The transaction of a reply is in a block: its identifier. *)
Definition api_mined (fuel : nat) (sc1 : proxy) (result : pyval) : MF pyval :=
  do! sc_sync_all fuel false in
  do! forge_synced fuel sc1 "first node" false in
  lift (getpath result ["result"; "transactionId"]).

(** The transaction fails. *)
Definition api_reverted (fuel : nat) (sc1 sc2 : proxy) (result : pyval) (message : string) : MF unit :=
  let! tx_id := api_mined fuel sc1 result in
  let! receipt := receipt_0x sc2 tx_id in
  check_status receipt 0 message.

(** The first event of a receipt with status 1. *)
Definition first_event (sc2 : proxy) (tx_id : pyval) (message : string) (n : option Z) : MF pyval :=
  let! receipt := receipt_0x sc2 tx_id in
  do! check_status receipt 1 message in
  let% logs := getpath receipt ["result"; "logs"] in
  do! (match n with Some n => check_length n logs "Wrong number of logs" | None => ret tt end) in
  lift (getindex logs 0).

(** Registrations the API or the contract refuses. *)
Definition bad_registrations (fuel : nat) (sc1 sc2 : proxy) (r : Registration) (staked_amount : Z) : MF unit :=
  let register (keys : pyval * pyval) (amount : Z) (address share : pyval) :=
    ac_registerForger sc1 keys.1 keys.2 (PInt amount) address share PNone in
  let k1 := rg_keys1 r in
  let! res := register (rg_genesis r) staked_amount PNone (PInt 0) in
  do! api_reverted fuel sc1 sc2 res "adding an existing forger should result in a reverted tx" in
  let! res := register k1 (staked_amount - 1) PNone (PInt 0) in
  do! check_refused_in res "Should not be able to create a valid staking" "description"
    "below the minimum stake amount threshold" in
  let! res := register ((rg_keys2 r).1, k1.2) staked_amount PNone (PInt 0) in
  do! check_refused_in res "Should not be able to create a valid signature 25519" "detail" "blockSignPubKey" in
  let! res := register (k1.1, (rg_keys2 r).2) staked_amount PNone (PInt 0) in
  do! check_refused_in res "Should not be able to create a valid vrf signature" "detail" "vrfPublicKey" in
  let! res := register k1 staked_amount PNone (PInt 1001) in
  do! check_refused res "0211" "Reward share must be in the range [0, 1000]" in
  let! res := register k1 staked_amount PNone (PInt 1000) in
  do! check_refused res "0211" "Reward share cannot be different from 0 if reward address is null" in
  let% reward_address := add_0x_prefix (rg_address2 r) in
  let! res := register k1 staked_amount reward_address (PInt 0) in
  do! check_refused res "0211" "Reward share cannot be 0 if reward address is defined " in
  let! res := register k1 staked_amount (PStr "0x111111112222222233333333444444445555555566") (PInt 1000) in
  do! check_refused res "0211" "Invalid address string length" in
  let! res := register k1 staked_amount (PStr "0x111111112222222233333333444444445555555h") (PInt 1000) in
  check_refused res "0211" "Unrecognized character: h".

(** ** Registrations *)

(** The first stake of a page.  The length compared is that of the reply, not that of
    its stakes. *)
Definition first_paged (reply : pyval) (amount : Z) : MF pyval :=
  do! check_length 1 reply "" in
  let% stakes := getpath reply ["result"; "stakes"] in
  let% stake := getindex stakes 0 in
  let% a := getitem stake "stakedAmount" in
  do% assert_equal a (PInt amount) "" in
  ret stake.

Definition by_forger (sc_node : proxy) (keys : pyval * pyval) : MF pyval :=
  ac_pagedForgersStakesByForger sc_node keys.1 keys.2 (PInt 0) (PInt 10).

(** The stakes of a delegator, for the keys of one forger. *)
Definition by_delegator (sc_node : proxy) (delegator : pyval) (amount : Z) (keys : pyval * pyval) : MF unit :=
  let% delegator := add_0x_prefix delegator in
  let! reply := ac_pagedForgersStakesByDelegator sc_node delegator (PInt 0) (PInt 10) in
  let! stake := first_paged reply amount in
  let% sign := getpath stake ["forgerPublicKeys"; "blockSignPublicKey"; "publicKey"] in
  do% assert_equal sign keys.1 "" in
  let% vrf := getpath stake ["forgerPublicKeys"; "vrfPublicKey"; "publicKey"] in
  lift (assert_equal vrf keys.2 "").

(** The account paid the amount and the fee, the contract has it. *)
Definition check_paid (node sc1 : proxy) (tx_id address : pyval) (before contract amount : Z) : MF unit :=
  let! '(gas_fee_paid, _, _) := computeForgedTxFee node tx_id in
  do! check_balance node address (Val (PInt (before - amount - gas_fee_paid))) in
  check_balance sc1 STAKES_V2 (Val (PInt (amount + contract))).

(** The forger of the first node, through the API: the balance of the contract and the
    amount. *)
Definition register_first (fuel : nat) (sc1 sc2 : proxy) (r : Registration) (staked_amount : Z) : MF (Z * Z) :=
  let% reward_address := add_0x_prefix (rg_address2 r) in
  let! before := rpc_get_balance sc1 (rg_address1 r) in
  let! contract := rpc_get_balance sc1 STAKES_V2 in
  let! result := ac_registerForger sc1 (rg_keys1 r).1 (rg_keys1 r).2 (PInt staked_amount) PNone (PInt 0) PNone in
  let! tx_id := api_mined fuel sc1 result in
  let! event := first_event sc2 tx_id "Registering a forger should succeed" (Some 1) in
  let% wei := convertZenniesToWei (PInt staked_amount) in
  do% check_register_event event (rg_address1 r) (rg_keys1 r).2 (rg_keys1 r).1 (PInt wei) (PInt 0) reward_address in
  do! check_paid sc1 sc1 tx_id (rg_address1 r) before contract wei in
  ret (contract + wei, wei).

(** The stakes of the genesis forger and of the first one. *)
Definition first_pages (sc1 : proxy) (r : Registration) (wei : Z) : MF Z :=
  do! check_stakes sc1 2 in
  let! list1 := by_forger sc1 (rg_genesis r) in
  let% genesis_wei := convertZenToWei (PInt 222) in
  let! stake := first_paged list1 genesis_wei in
  let% delegator := getpath stake ["delegator"; "address"] in
  do% assert_equal delegator (rg_delegator r) "" in
  let! before2 := rpc_get_balance sc1 (rg_address2 r) in
  let! list2 := by_forger sc1 (rg_keys1 r) in
  do! first_paged list2 wei in
  ret before2.

Definition REGISTER : string :=
  "registerForger(bytes32,bytes32,bytes1,uint32,address,bytes32,bytes32,bytes32,bytes32,bytes32,bytes1)".
Definition UPDATE : string :=
  "updateForger(bytes32,bytes32,bytes1,uint32,address,bytes32,bytes32,bytes32,bytes32,bytes32,bytes1)".

(** The arguments of [registerForger] and [updateForger]. *)
Definition forger_args (keys : pyval * pyval) (share : Z) (address : pyval) (signatures : string * string)
    : outcome (list pyval) :=
  let? a := (match address with PStr a => hex_str_to_bytes a | _ => Exc (AttributeError "encode") end) in
  let? k := forger_keys_of keys.1 keys.2 in
  let? s := hex_str_to_bytes signatures.1 in
  let? v := hex_str_to_bytes signatures.2 in
  Val (key_args k ++ [PInt share; PBytes a] ++ signature_args s v).

(** The forger of the second node, through the contract. *)
Definition register_second (fuel : nat) (sc1 sc2 : proxy) (r : Registration) (before2 contract : Z) : MF unit :=
  let keys := rg_keys2 r in
  let% args := forger_args keys 1000 (rg_address2 r) register_signatures in
  let% wei := convertZenToWei (PInt 33) in
  let! tx_id := call_on sc2 (rg_v2 r) STAKES_V2 (rg_address2 r) REGISTER args (PInt wei) in
  do! sc_sync_all fuel false in
  do! forge_synced fuel sc1 "first node" false in
  let! event := first_event sc2 tx_id "Registering a forger should succeed" None in
  do% check_register_event event (rg_address2 r) keys.2 keys.1 (PInt wei) (PInt 1000) (rg_address2 r) in
  do! check_paid sc2 sc1 tx_id (rg_address2 r) before2 contract wei in
  let! list3 := by_forger sc2 keys in
  do! first_paged list3 wei in
  ret tt.

(** ** Updates *)

Definition updated_address : string := "0x1111111122222222333333334444444455555555".
Definition updated_share : Z := 1.
Definition genesis_address : string := "3333333333333333333333333333333333333333".
Definition genesis_share : Z := 33.

Definition update (sc_node : proxy) (keys : pyval * pyval) (address : string) (share : Z) : MF pyval :=
  ac_updateForger sc_node keys.1 keys.2 (PStr address) (PInt share) PNone.

(** A refused update; a block is forged before the reply is looked at. *)
Definition update_refused (fuel : nat) (sc1 : proxy) (keys : pyval * pyval) (address : string) (share : Z) (text : string)
    : MF unit :=
  let! res := update sc1 keys address share in
  do! sc_sync_all fuel false in
  do! forge_synced fuel sc1 "first node" false in
  check_refused res "0211" text.

(** Too early, for a forger that is not there, for one with a share, and with values
    that are not valid. *)
Definition bad_updates (fuel : nat) (sc1 sc2 : proxy) (r : Registration) : MF unit :=
  do! forge_synced fuel sc1 "first node" true in
  let! res := update sc1 (rg_keys1 r) updated_address updated_share in
  do! sc_sync_all fuel false in
  do! check_refused res "0204" " 2 epochs must go by before invoking this command" in
  do! forge_synced fuel sc1 "first node" true in
  let! res := update sc1 ((rg_genesis r).1, (rg_keys1 r).2) updated_address updated_share in
  do! api_reverted fuel sc1 sc2 res "Upgrade forger should fail" in
  let! res := update sc2 (rg_keys2 r) updated_address updated_share in
  do! api_reverted fuel sc1 sc2 res "Upgrade forger should fail" in
  let refused := update_refused fuel sc1 (rg_keys1 r) in
  do! refused updated_address 0 "Reward share must be in the range (0, 1000]" in
  do! refused NULL_ADDRESS_0x updated_share "Reward address can not be the null address" in
  do! refused "0x0" updated_share "Invalid address string length" in
  refused "0h11111111222222223333333344444444555555" updated_share "Unrecognized character: h".

(** The share and the address of a forger, as the contract has them. *)
Definition check_forger (sc1 : proxy) (r : Registration) (keys : pyval * pyval) (share : Z) (address : string) : MF unit :=
  let% k := forger_keys_of keys.1 keys.2 in
  let! bytes := v2_read_evm sc1 (rg_v2 r) (rg_address1 r) GET_FORGER (key_args k) in
  let% info := decode_forger_info bytes in
  let% actual := list_index info 2 in
  do% assert_equal (PInt share) actual "" in
  let% expected := add_0x_prefix (PStr address) in
  let% actual := list_index info 3 in
  lift (assert_equal expected actual "").

(** The forger of the first node through the API, the genesis forger through the
    contract. *)
Definition good_updates (fuel : nat) (sc1 sc2 : proxy) (r : Registration) : MF unit :=
  let! result := update sc1 (rg_keys1 r) updated_address updated_share in
  let! tx_id := api_mined fuel sc1 result in
  let! event := first_event sc2 tx_id "Upgrade a forger should succeed" (Some 1) in
  do% check_update_event event (rg_address1 r) (rg_keys1 r).2 (rg_keys1 r).1 (PInt updated_share) (PStr updated_address) in
  do! check_forger sc1 r (rg_keys1 r) updated_share updated_address in
  let genesis := rg_genesis r in
  let% args := forger_args genesis genesis_share (PStr genesis_address) update_signatures in
  let! tx_id := call_on sc1 (rg_v2 r) STAKES_V2 (rg_address1 r) UPDATE args (PInt 0) in
  do! sc_sync_all fuel false in
  do! forge_synced fuel sc1 "first node" false in
  let! event := first_event sc2 tx_id "Registering a forger should succeed" None in
  do% check_update_event event (rg_address1 r) genesis.2 genesis.1 (PInt genesis_share) (PStr genesis_address) in
  check_forger sc1 r genesis genesis_share genesis_address.

(** ** [run_test] *)

Definition SCEvmForgerV2register_run_test (fuel : nat) (o : Options) : MF unit :=
  do! not_with_all_forks o in
  let! mc_node := mc 0 in
  let! sc1 := sc 0 in
  let! sc2 := sc 1 in
  let! r := register_start fuel mc_node sc1 sc2 in
  let% staked_amount := staked_zennies in
  do! bad_registrations fuel sc1 sc2 r staked_amount in
  let! '(contract, wei) := register_first fuel sc1 sc2 r staked_amount in
  let! before2 := first_pages sc1 r wei in
  do! register_second fuel sc1 sc2 r before2 contract in
  do! by_delegator sc1 (rg_address1 r) wei (rg_keys1 r) in
  let% genesis_wei := convertZenToWei (PInt 222) in
  do! by_delegator sc1 (rg_delegator r) genesis_wei (rg_genesis r) in
  do! bad_updates fuel sc1 sc2 r in
  good_updates fuel sc1 sc2 r.

Definition SCEvmForgerV2register (fuel : nat) (o : Options) (shared : SCForgerConfiguration) : TestClass W :=
  AccountChainSetup_class fuel o
    (forger_setup 2 LARGE_WITHDRAWAL_EPOCH_LENGTH 222 (1500 * EVM_APP_SLOT_TIME * VERSION_1_3_FORK_EPOCH) None [])
    shared (SCEvmForgerV2register_run_test fuel o).
End Register.
