(* ===== verification/PagedStakesScenarios.v ===== *)
(** * Scenarios: stakes by owner

    sc_evm_forger_v2.py: the first contract of the stakes after its upgrade returns the
    stakes of an owner in pages and their sum; stakes are made and spent as before, and
    the contract is called through the proxy contract. *)

From S2P Require Import Prelude PyStr Numbers PyVal Host Sim Json Encoding HttpProxy BootInfo McUtil ScUtil.
From S2P Require Import Forging Bootstrap Framework AccountSetup McFramework HttpCalls AccountCalls AccountUtil SmartContract Tools.
From Stdlib Require Import Ascii String.
From stdpp Require Import base list.
From S2P Require Import Scenarios ForgingScenarios StakeScenarios ChainScenarios MempoolScenarios EvmScenarios BackwardScenarios.
From S2P Require Import CswScenarios CertificateScenarios KeyRotationScenarios EvmRotationScenarios ForgerScenarios EvmForgerScenarios.
From S2P Require Import NativeForgerScenarios RegisterScenarios.
Local Open Scope Z_scope.

(** ** Stakes the contract returns *)

(** [check_list_of_stakes]: entry [i] of the expected ones and of the decoded ones. *)
Definition check_decoded_stake (expected : pyval) (stake : pyval) : outcome unit :=
  let? id := getitem expected "stakeId" in
  let? h := hex_at stake 0 in
  let? _ := assert_equal id (PStr h) "wrong stakeId" in
  let? amount := staked_amount expected in
  let? x := getindex stake 1 in
  let? _ := assert_equal amount x "wrong ownerPublicKey" in
  let? owner := owner_of expected in
  let? x := getindex stake 2 in
  let? x := text_from 2 x in
  let? _ := assert_equal owner x "wrong ownerPublicKey" in
  let? sign := getpath expected ["forgerStakeData"; "forgerPublicKeys"; "blockSignPublicKey"; "publicKey"] in
  let? h := hex_at stake 3 in
  let? _ := assert_equal sign (PStr h) "wrong blockSignPublicKey" in
  let? vrf := getpath expected ["forgerStakeData"; "forgerPublicKeys"; "vrfPublicKey"; "publicKey"] in
  let? h1 := hex_at stake 4 in
  let? h2 := hex_at stake 5 in
  assert_equal vrf (PStr (h1 +:+ h2)) "wrong vrfPublicKey".

Fixpoint check_list_of_stakes (expected : list pyval) (list_of_stakes : list (list pyval)) : outcome unit :=
  match list_of_stakes with
  | [] => Val tt
  | s :: list_of_stakes' =>
      let? stake := list_index s 0 in
      match expected with
      | [] => Exc IndexError
      | e :: expected' => let? _ := check_decoded_stake e stake in check_list_of_stakes expected' list_of_stakes'
      end
  end.

Definition check_upgrade_event `{EthAbi, EthEvents, EthHex} (event : pyval) (old new : Z) : outcome unit :=
  let? _ := check_topics event 1 "StakeUpgrade(uint32,uint32)" in
  let? data := getitem event "data" in
  let? parts := decode_hex ["uint32"; "uint32"] data in
  match parts with
  | [old_version; new_version] =>
      let? _ := assert_equal (PInt old) old_version "Wrong old version in event" in
      assert_equal (PInt new) new_version "Wrong new version in event"
  | _ => Exc (ValueError "unpack")
  end.

Definition decode_paged_list_of_forger_stakes `{EthAbi} (result : string) (exp_num_of_stakes : Z)
    : outcome (pyval * list (list pyval)) :=
  let? next_pos := decode_one "int32" (str_take 32 result) in
  let? list_of_stakes := decode_list_of_forger_stakes (PBytes (str_drop 32 result)) exp_num_of_stakes in
  Val (next_pos, list_of_stakes).

(** ** Stakes by their owners *)

(** A stake is appended to those of its owner; the last one of another owner is that of
    the genesis. *)
Fixpoint add_owned (owner stake : pyval) (groups : list (pyval * list pyval)) (genesis : pyval)
    : list (pyval * list pyval) * pyval :=
  match groups with
  | [] => ([], stake)
  | (o, l) :: groups' =>
      if py_eqb owner o then ((o, l ++ [stake]) :: groups', genesis)
      else let r := add_owned owner stake groups' genesis in ((o, l) :: r.1, r.2)
  end.

Fixpoint group_stakes (stakes : list pyval) (groups : list (pyval * list pyval)) (genesis : pyval)
    : outcome (list (pyval * list pyval) * pyval) :=
  match stakes with
  | [] => Val (groups, genesis)
  | stake :: stakes' =>
      let? owner := owner_of stake in
      let r := add_owned owner stake groups genesis in
      group_stakes stakes' r.1 r.2
  end.

(** [for stake in stakes: total = total + stake['forgerStakeData']['stakedAmount']] *)
Fixpoint total_of (total : pyval) (stakes : list pyval) : outcome pyval :=
  match stakes with
  | [] => Val total
  | stake :: stakes' => let? a := staked_amount stake in let? t := py_add total a in total_of t stakes'
  end.

(** [reversed] of a list of the API *)
Definition reversed_list (v : pyval) : outcome pyval :=
  match v with PList l => Val (PList (rev l)) | _ => Exc (AttributeError "reverse") end.

Definition PAGE_SIZE : Z := 2.
Definition BY_USER : string := "getPagedForgersStakesByUser(address,int32,int32)".
Definition STAKE_OF : string := "stakeOf(address)".

Section PagedStakes.
Context {W : Type} `{Nodes W, Clock W, Os W, Rng W} `{EthUtils, EthAbi, EthHash, EthEvents, EthHex}.
Local Abbreviation MF := (M (FW W)).

(** ** Methods of the contract *)

Definition v1_address : pyval := PStr ("0x" +:+ FORGER_STAKE_SMART_CONTRACT_ADDRESS).

Definition call_stake_of (c : SmartContract) (owner sender : pyval) : MF Z :=
  let% native_input := raw_encode_call c STAKE_OF [owner] in
  let! sc1 := sc 0 in
  let% from := add_0x_prefix sender in
  let! r := call sc1 "rpc_eth_call"
    [PDict [("to", v1_address); ("from", from); ("input", native_input)]; PStr "latest"] in
  let% text := getitem r "result" in
  let% text := text_from 2 text in
  lift (py_int_base text 16).

Definition call_paged_list_of_stakes_of_user (c : SmartContract) (owner start_pos : pyval) (page_size : Z) (sender : pyval)
    : MF string :=
  let% native_input := raw_encode_call c BY_USER [owner; start_pos; PInt page_size] in
  let! sc1 := sc 0 in
  eth_call_bytes sc1 (Val v1_address) (add_0x_prefix sender) native_input (PStr "latest").

(** A page of an owner: the expected number of stakes, the stakes and the next
    position. *)
Definition check_page (c : SmartContract) (owner sender start : pyval) (n : Z) (expected : list pyval) (next : Z)
    : MF pyval :=
  let! res := call_paged_list_of_stakes_of_user c owner start PAGE_SIZE sender in
  let% '(next_pos, list_of_stakes) := decode_paged_list_of_forger_stakes res n in
  do% check_list_of_stakes expected list_of_stakes in
  do% assert_equal (PInt next) next_pos "" in
  ret next_pos.

(** All stakes of an owner in one page. *)
Definition one_page (c : SmartContract) (owner sender : pyval) (expected : list pyval) : MF unit :=
  do! check_page c owner sender (PInt 0) (Z.of_nat (length expected)) expected (-1) in
  ret tt.

(** Three stakes are two pages. *)
Definition two_pages (c : SmartContract) (owner sender : pyval) (expected : list pyval) : MF unit :=
  let! next_pos := check_page c owner sender (PInt 0) PAGE_SIZE (take (Z.to_nat PAGE_SIZE) expected) PAGE_SIZE in
  do! check_page c owner sender next_pos 1 (drop (Z.to_nat PAGE_SIZE) expected) (-1) in
  ret tt.

(** An owner has no stakes, or their number is given and the stakes are not compared. *)
Definition page_length (c : SmartContract) (owner sender : pyval) (n : Z) : MF unit :=
  let! res := call_paged_list_of_stakes_of_user c owner (PInt 0) PAGE_SIZE sender in
  let% '(next_pos, list_of_stakes) := decode_paged_list_of_forger_stakes res n in
  do% assert_equal (PInt n) (PInt (Z.of_nat (length list_of_stakes))) "" in
  lift (assert_equal (PInt (-1)) next_pos "").

Definition check_stake_of (c : SmartContract) (owner sender expected : pyval) (message : string) : MF unit :=
  let! amount := call_stake_of c owner sender in
  lift (assert_equal expected (PInt amount) message).

(** What a call of a method costs. *)
Definition check_gas (sc1 : proxy) (c : SmartContract) (from : pyval) (method : string) (args : list pyval) (gas : Z)
    : MF unit :=
  let% native_input := raw_encode_call c method args in
  let% from := py_add (PStr "0x") from in
  let! result := estimate_gas sc1 from v1_address native_input (PStr "0x0") (PStr "0x4B9ACA00") PNone in
  let% g := getitem result "result" in
  let% g := py_int_base g 16 in
  lift (assert_equal (PInt gas) (PInt g) "").

(** ** Before the upgrade *)

(** Pages and sums are refused; the messages name the first in two ways. *)
Definition not_upgraded (sc1 : proxy) (c : SmartContract) (address : pyval) (paged : string) (text : string) : MF unit :=
  do! must_revert (static_on sc1 c STAKES address BY_USER [address; PInt 0; PInt 1] 0)
    (paged +:+ " call should fail before fork point") text in
  must_revert (static_on sc1 c STAKES address STAKE_OF [address] 0) "stakeOf call should fail before fork point" text.

Definition before_fork (fuel : nat) (sc1 : proxy) (address : pyval) : MF unit :=
  let! c := SmartContract_init "ForgerStakes" in
  do! not_upgraded sc1 c address "getPagedStakesOfUser" "op code not supported" in
  do! must_revert (static_on sc1 c STAKES address "upgrade()" [] 0) "upgrade call should fail before fork point"
    "op code not supported" in
  reach_fork fuel sc1 VERSION_1_3_FORK_EPOCH.

(** [upgrade()]: its result, its gas, its event, and the stakes in the reversed order. *)
Definition upgraded (sc1 : proxy) (c : SmartContract) (address orig : pyval) : MF unit :=
  let gas := 21000 + 4 * 16 in
  let! res := static_on sc1 c STAKES address "upgrade()" [] 0 in
  let% version := getindex res 0 in
  do% assert_equal (PInt 1) version "Storage version should have been version 2" in
  do! check_gas sc1 c address "upgrade()" [] gas in
  let! tx_hash := call_on sc1 c STAKES address "upgrade()" [] (PInt 0) in
  let! receipt := block_receipt sc1 tx_hash in
  let! logs := gas_and_logs receipt gas 1 in
  let% event := getindex logs 0 in
  do% check_upgrade_event event 0 1 in
  let! stakes := all_stakes sc1 in
  let% stakes := reversed_list stakes in
  lift (assert_equal orig stakes "").

(** ** Pages and sums of all owners *)

(** The sums of the five owners. *)
Definition owners_checked (sc1 : proxy) (c : SmartContract) (w : Owners) (groups : list (list pyval)) : MF (list pyval) :=
  let sender := own_1 w in
  match groups with
  | [g1; g2; g3; g4; g5] =>
      do! check_gas sc1 c sender BY_USER [sender; PInt 0; PInt 1] 36376 in
      do! one_page c (own_1 w) sender (rev g1) in
      do! two_pages c (own_2 w) sender (rev g2) in
      do! one_page c (own_3 w) sender (rev g3) in
      do! one_page c (own_4 w) sender (rev g4) in
      do! one_page c (own_5 w) sender (rev g5) in
      do! check_gas sc1 c sender STAKE_OF [sender] 25608 in
      mmap (λ og,
        let! amount := call_stake_of c og.1 sender in
        let% total := total_of (PInt 0) (rev og.2) in
        do% assert_equal total (PInt amount) "wrong stake amount" in
        ret total)
        [(own_1 w, g1); (own_2 w, g2); (own_3 w, g3); (own_4 w, g4); (own_5 w, g5)]
  | _ => raise (ValueError "unpack")
  end.

(** ** Stakes as before the upgrade *)

(** Stakes for contracts: the first one is only created, the second one is in a block
    and fails.  The proxy contract, which is deployed in between. *)
Definition stakes_of_contracts (fuel : nat) (o : Options) (sc1 : proxy) (address : pyval) (keys : pyval * pyval)
    : MF SimpleProxyContract :=
  let message := "make forger stake with native smart contract as owner should create a tx: " in
  do! make_stake sc1 (PStr WITHDRAWAL_REQ_SMART_CONTRACT_ADDRESS) keys.1 keys.2 (PInt 300) PNone message in
  do! forge_synced fuel sc1 "first node" false in
  let! p := SimpleProxyContract_init sc1 address (all_forks o) in
  do! sc_sync_all fuel false in
  do! forge_synced fuel sc1 "first node" false in
  let% eoa := format_eoa_val (spc_contract_address p) in
  let! res := make_stake sc1 (PStr eoa) keys.1 keys.2 (PInt 300) PNone message in
  do! forge_synced fuel sc1 "first node" false in
  let% tx_id := getpath res ["result"; "transactionId"] in
  do! receipt_events sc1 tx_id 0
    "Make forger stake with native smart contract as owner should create a failed tx" 0 in
  ret p.

(** [float(d)] of a decimal *)
Definition float_of (v : pyval) : outcome pyval :=
  match v with PDec d => Val (PFloat (float_of_dec d)) | _ => Exc TypeError end.

(** What is left of the balance, less the first amount again, its fee and a reserve. *)
Definition remaining_amount (balance : pyval) (gas_fee_paid : Z) : outcome pyval :=
  let? zen := convertWeiToZen (PInt gas_fee_paid) in
  let? value_spent := py_add (PInt 300) zen in
  let? left := convertWeiToZen balance in
  let? spent := decimal_of value_spent in
  let? reserved := py_add (PDec (Dec 1 (-2))) spent in
  let? reserved := float_of reserved in
  py_sub left reserved.

(** The two stakes of the second node: all stakes, the balance and the second amount. *)
Definition two_stakes_made (fuel : nat) (sc1 : proxy) (address : pyval) (keys : pyval * pyval) : MF (pyval * pyval * pyval) :=
  let! balance := balance_of sc1 address in
  let! '(_, balance, gas_fee_paid) := stake_listed fuel sc1 address keys (PInt 300) balance 10 in
  let% amount2 := remaining_amount balance gas_fee_paid in
  let! '(stakes, balance, _) := stake_listed fuel sc1 address keys amount2 balance 11 in
  ret (stakes, balance, amount2).

(** The whole amount at stake, in the contract. *)
Definition whole_stake (sc1 : proxy) (totals : list pyval) (genesis amount2 : pyval) : MF pyval :=
  let% g := staked_amount genesis in
  let% orig_stake_amount := foldl (λ acc x, let? a := acc in py_add a x) (Val (PInt 0)) (totals ++ [g]) in
  let% w1 := convertZenToWei (PInt 300) in
  let% w2 := convertZenToWei amount2 in
  let% total := py_add (PInt (w1 + w2)) orig_stake_amount in
  let! balance := contract_balance sc1 in
  do% assert_equal total balance "" in
  ret total.

(** The stakes of an owner among all stakes. *)
Fixpoint stakes_of_owner (owner : pyval) (stakes : list pyval) : outcome (list pyval) :=
  match stakes with
  | [] => Val []
  | stake :: stakes' =>
      let? o := owner_of stake in
      let? l := stakes_of_owner owner stakes' in
      Val (if py_eqb o owner then stake :: l else l)
  end.

(** The first account has three stakes now. *)
Definition three_stakes (c : SmartContract) (address stakes total1 amount2 : pyval) : MF unit :=
  let% l := py_iter stakes in
  let% mine := stakes_of_owner address l in
  do! two_pages c address address mine in
  let! amount := call_stake_of c address address in
  let% w1 := convertZenToWei (PInt 300) in
  let% w2 := convertZenToWei amount2 in
  let% t := py_add total1 (PInt w1) in
  let% t := py_add t (PInt w2) in
  lift (assert_equal t (PInt amount) "wrong stake amount").

(** The genesis stake is spent: the last stake takes its place.  The stakes that
    remain. *)
Definition genesis_spent (fuel : nat) (sc1 : proxy) (c : SmartContract) (address genesis stakes balance total : pyval)
    : MF pyval :=
  let% id := getitem genesis "stakeId" in
  let! res := spend_stake fuel sc1 (py_str id) in
  let% tx_hash := getpath res ["result"; "transactionId"] in
  do! forge_printed fuel sc1 sc1 "first node" false in
  let% stake_amount := staked_amount genesis in
  let% owner := owner_of genesis in
  let! b := balance_of sc1 owner in
  do% assert_equal stake_amount b "" in
  let% left := py_sub total stake_amount in
  let! b := contract_balance sc1 in
  do% assert_equal left b "" in
  do! pay sc1 address balance tx_hash 0 in
  let! current := all_stakes sc1 in
  let% before := py_iter stakes in
  let% after := py_iter current in
  let n := Z.of_nat (length before) in
  do% assert_equal (PInt (n - 1)) (PInt (Z.of_nat (length after))) "" in
  do% assert_equal (PList (take 8 before)) (PList (take 8 after)) "" in
  let% x := list_index before (n - 1) in
  let% y := list_index after 8 in
  do% assert_equal x y "" in
  let% x := list_index before (n - 2) in
  let% y := list_index after 9 in
  do% assert_equal x y "" in
  do! page_length c owner address 0 in
  do! check_stake_of c owner address (PInt 0) "" in
  ret current.

(** The first eight stakes are spent, each by the node of its owner. *)
Definition first_eight_spent (fuel : nat) (sc1 sc2 : proxy) (w : Owners) (stakes : pyval) : MF pyval :=
  do! forM_ (zrange 0 8) (λ i,
    let% stake := getindex stakes i in
    let% id := getitem stake "stakeId" in
    let% owner := owner_of stake in
    let node := if py_neqb owner (own_4 w) && py_neqb owner (own_2 w) then sc1 else sc2 in
    do! spend_stake fuel node (py_str id) in
    do! generate_next_block sc1 "first node" false PNone in
    ret tt) in
  do! sc_sync_all fuel false in
  let! stakes := check_stakes sc1 2 in
  do! generate_next_block sc2 "first node" true PNone in
  do! generate_next_block sc2 "first node" true PNone in
  do! sc_sync_all fuel false in
  do! cannot_forge sc1 "first node" false "1" in
  ret stakes.

(** The owner of entry [i] of the decoded stakes. *)
Definition decoded_owner (decoded : list (list pyval)) (i : Z) : outcome pyval :=
  let? d := list_index decoded i in
  let? t := list_index d 0 in
  let? x := getindex t 2 in
  text_from 2 x.

(** Pages and sums through the proxy contract. *)
Definition proxy_reads (p : SimpleProxyContract) (c : SmartContract) (address amount2 : pyval) : MF unit :=
  let read (method : string) (args : list pyval) : MF string :=
    let% input := native_input c method args in
    let! res := do_static_call p address (PInt 2) STAKES (PStr input) in
    lift (match res with PBytes b => Val b | _ => Exc TypeError end) in
  let! res := read BY_USER [address; PInt 0; PInt PAGE_SIZE] in
  let% '(next_pos, decoded) := decode_paged_list_of_forger_stakes res 2 in
  let% o := decoded_owner decoded 0 in
  do% assert_equal address o "wrong ownerPublicKey" in
  let% o := decoded_owner decoded 1 in
  do% assert_equal address o "wrong ownerPublicKey" in
  do% assert_equal (PInt (-1)) next_pos "" in
  let! res := read STAKE_OF [address] in
  let% amount := py_int_base (PStr (bytes_to_hex_str res)) 16 in
  let% both := py_add (PInt 300) amount2 in
  let% wei := convertZenToWei both in
  lift (assert_equal (PInt wei) (PInt amount) "wrong stake amount").

(** The last two stakes are spent. *)
Definition last_two_spent (fuel : nat) (sc1 sc2 : proxy) (c : SmartContract) (address stakes amount2 : pyval) : MF unit :=
  let% stake1 := getindex stakes 0 in
  let% id1 := getitem stake1 "stakeId" in
  let! res := spend_stake fuel sc1 (py_str id1) in
  let% tx_hash := getpath res ["result"; "transactionId"] in
  do! forge_printed fuel sc1 sc2 "second node" true in
  do! spent_event sc1 tx_hash address id1 in
  do! check_stakes sc1 1 in
  do! page_length c address address 1 in
  let! amount := call_stake_of c address address in
  let% wei := convertZenToWei amount2 in
  do% assert_equal (PInt wei) (PInt amount) "" in
  let% stake2 := getindex stakes 1 in
  let% id2 := getitem stake2 "stakeId" in
  do! spend_stake fuel sc1 (py_str id2) in
  do! forge_printed fuel sc1 sc2 "first node" true in
  do! check_stakes sc1 0 in
  do! page_length c address address 0 in
  check_stake_of c address address (PInt 0) "".

(** ** [run_test] *)

Definition SCEvmForgerV2_run_test (fuel : nat) (o : Options) : MF unit :=
  let! mc_node := mc 0 in
  let! sc1 := sc 0 in
  let! sc2 := sc 1 in
  let! '(address, address2) := two_accounts fuel mc_node sc1 sc2 in
  let! stakes := all_stakes sc1 in
  let% keys1 := first_forger stakes in
  let! keys2 := forger_keys sc2 in
  let! address3 := new_evm_address sc1 in
  let! address4 := new_evm_address sc2 in
  let! address5 := new_evm_address sc1 in
  let w := mkOwners address address2 address3 address4 address5 PNone in
  do! make_old_stakes fuel sc1 keys1 (old_stakes 6 w) in
  let! orig := check_stakes sc1 9 in
  let% l := py_iter orig in
  let% '(groups, genesis) :=
    group_stakes l [(address, []); (address2, []); (address3, []); (address4, []); (address5, [])] PNone in
  do! when (negb (all_forks o)) (before_fork fuel sc1 address) in
  let! c := SmartContract_init "ForgerStakes" in
  do! not_upgraded sc1 c address "getPagedForgersStakesByUser" "Forger stake storage not upgraded yet" in
  do! upgraded sc1 c address orig in
  let! totals := owners_checked sc1 c w (map snd groups) in
  let% own := list_index (map snd groups) 0 in
  let% stake := list_index (rev own) 0 in
  let% id := getitem stake "stakeId" in
  do! spend_of_other sc2 id in
  let! p := stakes_of_contracts fuel o sc1 address keys2 in
  let! '(stakes, balance, amount2) := two_stakes_made fuel sc1 address keys2 in
  do! two_epochs fuel sc1 sc2 in
  let! total := whole_stake sc1 totals genesis amount2 in
  let% total1 := list_index totals 0 in
  do! three_stakes c address stakes total1 amount2 in
  let! stakes := genesis_spent fuel sc1 c address genesis stakes balance total in
  let! stakes := first_eight_spent fuel sc1 sc2 w stakes in
  do! proxy_reads p c address amount2 in
  last_two_spent fuel sc1 sc2 c address stakes amount2.

Definition SCEvmForgerV2 (fuel : nat) (o : Options) (shared : SCForgerConfiguration) : TestClass W :=
  AccountChainSetup_class fuel o
    (forger_setup 2 LARGE_WITHDRAWAL_EPOCH_LENGTH 100 (1500 * EVM_APP_SLOT_TIME * VERSION_1_3_FORK_EPOCH) None [])
    shared (SCEvmForgerV2_run_test fuel o).
End PagedStakes.
