(* ===== verification/OwnershipScenarios.v ===== *)
(** * Scenarios: ownership of mainchain addresses

    sc_evm_mc_addr_ownership.py and sc_evm_mc_addr_ownership_multisig.py: mainchain
    addresses, single and multisig ones, are linked to accounts with signatures and
    unlinked, through the API, the native contract and the proxy contract; the links
    the contract returns are decoded and compared with those of the API.

    The selector of a method ([encode_hex(function_signature_to_4byte_selector(...))],
    eth_utils) is a parameter. *)

From S2P Require Import Prelude PyStr Numbers PyVal Host Sim Json Encoding HttpProxy BootInfo McUtil ScUtil.
From S2P Require Import Forging Bootstrap Framework AccountSetup McFramework HttpCalls AccountCalls AccountUtil SmartContract Tools.
From Stdlib Require Import Ascii String.
From stdpp Require Import base list.
From S2P Require Import Scenarios ForgingScenarios StakeScenarios ChainScenarios MempoolScenarios EvmScenarios BackwardScenarios.
From S2P Require Import CswScenarios CertificateScenarios KeyRotationScenarios EvmRotationScenarios ForgerScenarios EvmForgerScenarios.
From S2P Require Import NativeForgerScenarios.
Local Open Scope Z_scope.

Class EthSelectors := function_selector : string → pyval.

(** ** Texts in bytes *)

(** [b.decode('utf-8')]; texts are code points below 256, so a longer sequence is an
    error here as a broken one is. *)
Fixpoint utf8_decode (b : string) : outcome string :=
  match b with
  | EmptyString => Val EmptyString
  | String c b' =>
      let n := N_of_ascii c in
      if (n <? 128)%N then let? s := utf8_decode b' in Val (String c s)
      else if (194 <=? n)%N && (n <? 196)%N then
        match b' with
        | String d b'' =>
            let m := N_of_ascii d in
            if (128 <=? m)%N && (m <? 192)%N then
              let? s := utf8_decode b'' in Val (String (ascii_of_N ((n - 192) * 64 + (m - 128))) s)
            else Exc (ValueError "utf-8")
        | EmptyString => Exc (ValueError "utf-8")
        end
      else Exc (ValueError "utf-8")
  end.

(** [(mca3 + mca32).decode('utf-8')] *)
Definition mc_address_of (mca3 mca32 : pyval) : outcome string :=
  match mca3, mca32 with
  | PBytes a, PBytes b => utf8_decode (a +:+ b)
  | _, _ => Exc TypeError
  end.

(** ** Addresses of the wallet *)

(** The first address with a balance, in the groups of [listaddressgroupings]. *)
Fixpoint group_address (group : list pyval) : outcome (option (pyval * pyval)) :=
  match group with
  | [] => Val None
  | record :: group' =>
      let? addr := getindex record 0 in
      let? val := getindex record 1 in
      let? positive := py_lt (PInt 0) val in
      if positive then Val (Some (addr, val)) else group_address group'
  end.

Fixpoint get_address_with_balance (input_list : list pyval) : outcome (pyval * pyval) :=
  match input_list with
  | [] => Val (PNone, PInt 0)
  | group :: input_list' =>
      let? l := py_iter group in
      let? found := group_address l in
      match found with Some r => Val r | None => get_address_with_balance input_list' end
  end.

(** ** Links the contract returns *)

(** The links of one address grow; an address without any comes last. *)
Definition add_association (d : list (string * list string)) (sc_address mc_addr : string)
    : list (string * list string) :=
  dict_set sc_address (default [] (dict_get sc_address d) ++ [mc_addr]) d.

(** One link: the account with its checksum, and the mainchain address. *)
Definition decode_association `{EthAbi, EthUtils} (elem : string) : outcome (string * string) :=
  let? parts := abi_decode [PStr "address"; PStr "bytes3"; PStr "bytes32"] elem in
  match parts with
  | [address_pref; mca3; mca32] =>
      let? a := to_checksum_address address_pref in
      let? a := (match a with PStr s => Val s | _ => Exc TypeError end) in
      let? mc_addr := mc_address_of mca3 mca32 in
      Val (a, mc_addr)
  | _ => Exc (ValueError "unpack")
  end.

Fixpoint associations `{EthAbi, EthUtils} (d : list (string * list string)) (elems : list string)
    : outcome (list (string * list string)) :=
  match elems with
  | [] => Val d
  | e :: elems' => let? a := decode_association e in associations (add_association d a.1 a.2) elems'
  end.

(** An offset, which is 32, the number of links, and 96 bytes for every link. *)
Definition extract_sc_associations_list `{EthAbi, EthUtils} (b : string) : outcome (list (string * list string)) :=
  let? start_data_offset := decode_one "uint32" (str_take 32 b) in
  let? _ := assert_equal start_data_offset (PInt 32) "" in
  let? list_size := decode_one "uint32" (str_take 32 (str_drop 32 b)) in
  let? n := range_stop list_size in
  associations [] (chunks 96 (Z.to_nat n) (str_drop 64 b)).

Definition association_dict (d : list (string * list string)) : pyval :=
  PDict (map (λ kv, (kv.1, PList (map PStr kv.2))) d).

(** [dict(sorted(d.items()))]: the keys of a dictionary are distinct, so that the values
    are not compared. *)
Fixpoint insert_item (kv : string * pyval) (l : list (string * pyval)) : list (string * pyval) :=
  match l with
  | [] => [kv]
  | x :: l' => if String.ltb kv.1 x.1 then kv :: l else x :: insert_item kv l'
  end.

Definition sorted_items (l : list (string * pyval)) : list (string * pyval) := foldr insert_item [] l.

Definition check_get_key_ownership `{EthAbi, EthUtils} (abi_return_value : string) (exp_dict : pyval) : outcome unit :=
  let? b := hex_str_to_bytes abi_return_value in
  let? d := extract_sc_associations_list b in
  let? res := dumps (association_dict d) in
  match exp_dict with
  | PDict e => let? expected := dumps (PDict (sorted_items e)) in assert_equal (PStr res) (PStr expected) ""
  | _ => Exc (AttributeError "items")
  end.

(** ** Events *)

(** For an operation that is neither [add] nor [remove] the text given to [assert_false]
    is not empty, so that it fails. *)
Definition check_add_ownership_event `{EthAbi, EthEvents, EthHex} (event sc_addr mc_addr : pyval) (op : string)
    : outcome unit :=
  let? sig :=
    (if String.eqb op "add" then Val "AddMcAddrOwnership(address,bytes3,bytes32)"
     else if String.eqb op "remove" then Val "RemoveMcAddrOwnership(address,bytes3,bytes32)"
     else let? _ := assert_false true "" in Val "") in
  let? _ := check_topics event 2 sig in
  let? evt_sc_addr := topic_address event 1 in
  let? _ := assert_equal sc_addr evt_sc_addr "Wrong sc_addr address in topics" in
  let? data := getitem event "data" in
  let? parts := decode_hex ["bytes3"; "bytes32"] data in
  match parts with
  | [mca3; mca32] =>
      let? evt_mc_addr := mc_address_of mca3 mca32 in
      assert_equal mc_addr (PStr evt_mc_addr) "Wrong mc_addr string in topics"
  | _ => Exc (ValueError "unpack")
  end.

Section Ownership.
Context {W : Type} `{Nodes W, Clock W, Os W, Rng W} `{EthUtils, EthAbi, EthHash, EthEvents, EthHex, EthSelectors}.
Context (str_exn : exn → string).
Local Abbreviation MF := (M (FW W)).

Definition OWNERSHIP : string := MC_ADDR_OWNERSHIP_SMART_CONTRACT_ADDRESS.

(** ** Receipts *)

(** The event is compared only when the transaction succeeds and both addresses are
    given. *)
Definition check_receipt (sc_node : proxy) (tx_hash : pyval) (expected_receipt_status : Z) (sc_addr mc_addr : pyval)
    (evt_op : string) : MF unit :=
  let! receipt := receipt_0x sc_node tx_hash in
  let% there := has_key "result" receipt in
  let% result := (if there then getitem receipt "result" else Val PNone) in
  match result with
  | PNone =>
      let% text := dumps_indent 0 receipt in
      raise (GenericException ("Rpc eth_getTransactionReceipt cmd failed:" +:+ text))
  | _ =>
      do! check_status receipt expected_receipt_status "" in
      if expected_receipt_status =? 1 then
        match sc_addr, mc_addr with
        | PNone, _ | _, PNone => ret tt
        | _, _ =>
            let% logs := getitem result "logs" in
            do! check_length 1 logs "Wrong number of events in receipt" in
            let% event := getindex logs 0 in
            lift (check_add_ownership_event event sc_addr mc_addr evt_op)
        end
      else
        let% logs := getitem result "logs" in
        check_length 0 logs "No events should be in receipt"
  end.

Definition forge_and_check_receipt (fuel : nat) (sc_node : proxy) (tx_hash : pyval) (expected_receipt_status : Z)
    (sc_addr mc_addr : pyval) (evt_op : string) : MF unit :=
  do! forge_synced fuel sc_node "first node" false in
  check_receipt sc_node tx_hash expected_receipt_status sc_addr mc_addr evt_op.

(** A link or its removal that succeeds. *)
Definition linked (fuel : nat) (sc_node : proxy) (ret' sc_addr mc_addr : pyval) (op : string) : MF unit :=
  let% tx_hash := getitem ret' "transactionId" in
  forge_and_check_receipt fuel sc_node tx_hash 1 sc_addr mc_addr op.

(** The same with a synchronisation before the block. *)
Definition linked_synced (fuel : nat) (sc_node : proxy) (ret' sc_addr mc_addr : pyval) : MF unit :=
  let% tx_hash := getitem ret' "transactionId" in
  do! sc_sync_all fuel false in
  forge_and_check_receipt fuel sc_node tx_hash 1 sc_addr mc_addr "add".

(** ** Calls of the API *)

Definition send_keys (sc_node : proxy) (sc_address mc_addr mc_signature nonce : pyval) : MF pyval :=
  sendKeysOwnership sc_node sc_address mc_addr mc_signature nonce (PInt 2300000) (PInt 900000000) (PInt 900000000) PNone.

Definition remove_keys (sc_node : proxy) (sc_address mc_addr nonce : pyval) : MF pyval :=
  removeKeysOwnership sc_node sc_address mc_addr nonce (PInt 230000) (PInt 900000000) (PInt 900000000) PNone.

Definition send_multisig (sc_node : proxy) (sc_address mc_addr : pyval) (mc_signatures : list pyval)
    (redeemScript nonce : pyval) : MF pyval :=
  sendMultisigKeysOwnership sc_node sc_address mc_addr (PList mc_signatures) redeemScript nonce
    (PInt 2300000) (PInt 900000000) (PInt 900000000) PNone.

(** [try: m ... except C as err: assert_true(text in str(err)) else: fail(message)] *)
Definition refused_with {A} (m : MF A) (text_of : exn → option string) (text message : string) : MF unit :=
  let! raised := catch (do! m in ret None)
    (λ e, match text_of e with Some t => ret (Some t) | None => raise e end) in
  match raised with
  | Some t => lift (assert_true (str_contains text t) "")
  | None => lift (fail message)
  end.

Definition runtime_text (e : exn) : option string :=
  match e with RuntimeError m | EvmExecutionError m => Some m | _ => None end.
Definition any_text (e : exn) : option string := if is_Exception e then Some (str_exn e) else None.
Definition api_text (e : exn) : option string := match e with SCAPIException error => Some error | _ => None end.

(** The signature of a wallet address under a text. *)
Definition sign_with (mc_node : proxy) (taddr message : pyval) : MF pyval := call mc_node "signmessage" [taddr; message].

(** [print("mcSignature: " + mc_signature)] and the like *)
Definition print_link (sc_address taddr mc_signature : pyval) : MF unit :=
  do% py_add (PStr "scAddr: ") sc_address in
  do% py_add (PStr "mcAddr: ") taddr in
  do% py_add (PStr "mcSignature: ") mc_signature in
  ret tt.

(** The links of an account, as the API returns them: how many accounts, how many
    addresses, which addresses are there and which are not. *)
Definition check_links (ret' sc_checksum : pyval) (n : Z) (there absent : list pyval) : outcome unit :=
  let? keys := getitem ret' "keysOwnership" in
  let? k := py_len keys in
  let? _ := assert_true (k =? 1) "" in
  let? name := as_str "" sc_checksum in
  let? l := getitem keys name in
  let? m := py_len l in
  let? _ := assert_true (m =? n) "" in
  let? _ := omapM (λ a, let? b := py_in a l in assert_true b "") there in
  let? _ := omapM (λ a, let? b := py_in a l in assert_true (negb b) "") absent in
  Val tt.

(** The links of all accounts: two accounts, the second with one address. *)
Definition check_all_links (all sc1 sc2 : pyval) (n : Z) (taddr : pyval) : outcome unit :=
  let? keys := getitem all "keysOwnership" in
  let? k := py_len keys in
  let? _ := assert_equal (PInt 2) (PInt k) "" in
  let? a1 := as_str "" sc1 in
  let? l1 := getitem keys a1 in
  let? m1 := py_len l1 in
  let? _ := assert_equal (PInt n) (PInt m1) "" in
  let? a2 := as_str "" sc2 in
  let? l2 := getitem keys a2 in
  let? m2 := py_len l2 in
  let? _ := assert_equal (PInt 1) (PInt m2) "" in
  let? b := py_in taddr l2 in
  assert_true b "".

(** ** Preparation *)

Record Accounts := mkAccounts {
  acc_address : pyval;                 (* of the first node, without prefix *)
  acc_checksum : pyval;
  acc_address2 : pyval                 (* of the second node *)
}.

Definition ft_500_coins : pyval := PDec (Dec 5000 (-1)).

Definition ownership_accounts (fuel : nat) (mc_node sc1 sc2 : proxy) : MF Accounts :=
  let! s := sc_ac_setup fuel true true ft_500_coins in
  let! address2 := new_evm_address sc2 in
  let! info := boot_info in
  do! forward_transfer_to_sidechain (sidechain_id info) mc_node address2 ft_500_coins (ac_mc_return_address s) true in
  do! sc_sync_all fuel false in
  do! forge_synced fuel sc1 "first node" true in
  let% address := remove_0x_prefix (ac_evm_address s) in
  let% checksum := to_checksum_address (ac_evm_address s) in
  ret (mkAccounts address checksum address2).

(** A transaction that is no longer pooled: its status and the gas it used. *)
Definition forged_status (sc_node : proxy) (tx_hash : pyval) : MF (Z * pyval) :=
  let! response := allTransactions sc_node false in
  let% ids := getitem response "transactionIds" in
  let% pooled := py_in tx_hash ids in
  do% assert_true (negb pooled) "" in
  let! receipt := receipt_0x sc_node tx_hash in
  let% status := hex_field receipt "status" in
  ret (status, receipt).

(** Before the fork the contract is an address like any other: coins and data can be
    sent to it.  The next nonce is 1. *)
Definition before_zendao (fuel : nat) (sc1 sc2 : proxy) (a : Accounts) (taddr1 mc_signature1 : pyval) : MF unit :=
  let! tx_hash := createLegacyEIP155Transaction sc2
    (mkTxArgs (acc_address2 a) (PStr OWNERSHIP) PNone (PInt 21000) (PInt 123456) (PStr "") PNone PNone PNone)
    (PInt 1000000000) PNone in
  do! sc_sync_all fuel false in
  do! forge_synced fuel sc1 "first node" false in
  let! '(status, receipt) := forged_status sc1 tx_hash in
  do% assert_equal (PInt 1) (PInt status) "" in
  let% gas_used := hex_field receipt "gasUsed" in
  do% assert_equal (PInt gas_used) (PInt 21000) "" in
  let! balance := rpc_get_balance sc1 (PStr OWNERSHIP) in
  do% assert_equal (PInt balance) (PInt 123456) "" in
  do! print_link (acc_checksum a) taddr1 mc_signature1 in
  let! r := send_keys sc1 (acc_address a) taddr1 mc_signature1 (PInt 0) in
  let% tx_hash := getitem r "transactionId" in
  do! sc_sync_all fuel false in
  do! forge_synced fuel sc1 "first node" false in
  let! '(status, receipt) := forged_status sc1 tx_hash in
  do% assert_true (status =? 1) "" in
  let% gas_used := hex_field receipt "gasUsed" in
  do% assert_true (21000 <? gas_used) "" in
  reach_fork fuel sc1 ZENDAO_FORK_EPOCH.

(** An address of the wallet that is not the given one; the wallet recycles addresses. *)
Fixpoint another_address (fuel : nat) (mc_node : proxy) (taddr1 : pyval) : MF pyval :=
  match fuel with
  | O => out_of_fuel
  | S f =>
      let! taddr2 := call mc_node "getnewaddress" [] in
      if py_neqb taddr2 taddr1 then ret taddr2 else another_address f mc_node taddr1
  end.

(** ** Links of one account *)

(** Two links, and the second one removed: the second address with its signature, and
    the next nonce. *)
Definition two_links (fuel : nat) (mc_node sc1 : proxy) (a : Accounts) (taddr1 mc_signature1 : pyval) (nonce : Z)
    : MF (pyval * pyval * Z) :=
  let address := acc_address a in
  let! r := send_keys sc1 address taddr1 mc_signature1 (PInt nonce) in
  do! linked_synced fuel sc1 r address taddr1 in
  let! taddr2 := another_address fuel mc_node taddr1 in
  let! mc_signature2 := sign_with mc_node taddr2 (acc_checksum a) in
  do! print_link (acc_checksum a) taddr2 mc_signature2 in
  let% formatted := to_checksum_address address in
  let! r := send_keys sc1 formatted taddr2 mc_signature2 (PInt (nonce + 1)) in
  do! linked fuel sc1 r address taddr2 "add" in
  let! links := getKeysOwnership sc1 address PNone in
  let% formatted := to_checksum_address address in
  let! links' := getKeysOwnership sc1 formatted PNone in
  do% assert_equal links links' "" in
  do% check_links links (acc_checksum a) 2 [taddr1; taddr2] [] in
  let! r := remove_keys sc1 address taddr2 PNone in
  do! linked fuel sc1 r address taddr2 "remove" in
  let! links := getKeysOwnership sc1 address PNone in
  do% check_links links (acc_checksum a) 1 [taddr1] [taddr2] in
  let! links := getKeysOwnership sc1 (acc_address2 a) PNone in
  let% keys := getitem links "keysOwnership" in
  let% k := py_len keys in
  do% assert_true (k =? 0) "" in
  ret (taddr2, mc_signature2, nonce + 3).

(** Links that are refused, or whose transaction fails. *)
Definition bad_links (fuel : nat) (mc_node sc1 : proxy) (a : Accounts) (taddr1 mc_signature1 taddr2 mc_signature2 : pyval)
    (nonce : Z) : MF unit :=
  let address := acc_address a in
  do! refused_with (send_keys sc1 address taddr1 mc_signature1 PNone) runtime_text "already associated"
    "duplicate association should not work" in
  let! taddr3 := call mc_node "getnewaddress" [] in
  let! r := send_keys sc1 address taddr3 mc_signature1 (PInt nonce) in
  let% tx_hash := getitem r "transactionId" in
  do! forge_and_check_receipt fuel sc1 tx_hash 0 PNone PNone "add" in
  do! refused_with (send_keys sc1 (PStr "1234h") taddr2 mc_signature2 PNone) any_text "Account 1234h is invalid "
    "invalid sc address should not work" in
  do! refused_with (send_keys sc1 address (PStr "1LMcKyPmwebfygoeZP8E9jAMS2BcgH3Yip") mc_signature2 PNone) runtime_text
    "Invalid input parameters" "invalid mc address should not work" in
  do! refused_with (send_keys sc1 address taddr3 (PStr "xyz") PNone) runtime_text "Invalid input parameters"
    "invalid mc signature should not work" in
  do! refused_with (remove_keys sc1 address taddr3 PNone) any_text "not linked"
    "duplicate association should not work" in
  refused_with (remove_keys sc1 address PNone PNone) api_text "MC address must be specified"
    "duplicate association should not work".

(** Ten links in one block; their addresses. *)
Definition ten_links (fuel : nat) (mc_node sc1 : proxy) (a : Accounts) (nonce : Z) : MF (list pyval) :=
  let! sent := mmap (λ i,
    let! taddr := call mc_node "getnewaddress" [] in
    let! mc_signature := sign_with mc_node taddr (acc_checksum a) in
    do! print_link (acc_checksum a) taddr mc_signature in
    let! r := send_keys sc1 (acc_address a) taddr mc_signature (PInt (nonce + i)) in
    let% tx_hash := getitem r "transactionId" in
    do! sc_sync_all fuel false in
    ret (taddr, tx_hash)) (zrange 0 10) in
  do! forge_synced fuel sc1 "first node" false in
  do! forM_ sent (λ s, check_receipt sc1 s.2 1 (acc_address a) s.1 "add") in
  let! links := getKeysOwnership sc1 (acc_address a) PNone in
  do% check_links links (acc_checksum a) 12 (map fst sent) [] in
  ret (map fst sent).

(** [l.remove(x)] *)
Fixpoint list_remove (x : pyval) (l : list pyval) : outcome (list pyval) :=
  match l with
  | [] => Exc (ValueError "list.remove(x): x not in list")
  | y :: l' => if py_eqb y x then Val l' else let? r := list_remove x l' in Val (y :: r)
  end.

(** One of the ten is removed: the links that remain. *)
Definition one_removed (fuel : nat) (sc1 : proxy) (a : Accounts) (taddrs : list pyval) (nonce : Z) : MF pyval :=
  let% taddr_rem := list_index taddrs 4 in
  do% assert_true (Z.of_nat (length taddrs) =? 10) "" in
  let% taddrs := list_remove taddr_rem taddrs in
  do% assert_true (Z.of_nat (length taddrs) =? 9) "" in
  let% formatted := to_checksum_address (acc_address a) in
  do! remove_keys sc1 formatted taddr_rem (PInt nonce) in
  do! forge_synced fuel sc1 "first node" false in
  let! links := getKeysOwnership sc1 (acc_address a) PNone in
  do% check_links links (acc_checksum a) 11 taddrs [] in
  ret links.

(** ** Links of the other account *)

(** A link of the second account: its address and the checksum. *)
Definition second_account_link (fuel : nat) (mc_node sc1 sc2 : proxy) (a : Accounts) : MF (pyval * pyval) :=
  let! taddr := call mc_node "getnewaddress" [] in
  let% checksum2 := to_checksum_address (acc_address2 a) in
  let! mc_signature := sign_with mc_node taddr checksum2 in
  do! print_link checksum2 taddr mc_signature in
  let! r := send_keys sc2 (acc_address2 a) taddr mc_signature PNone in
  do! sc_sync_all fuel false in
  do! linked fuel sc1 r (acc_address2 a) taddr "add" in
  ret (taddr, checksum2).

(** An address of the first account cannot be linked to the second one. *)
Definition taken_link (mc_node sc2 : proxy) (a : Accounts) (taddr1 checksum2 : pyval) : MF unit :=
  let! mc_signature := sign_with mc_node taddr1 checksum2 in
  do! print_link checksum2 taddr1 mc_signature in
  refused_with (send_keys sc2 (acc_address2 a) taddr1 mc_signature PNone) runtime_text "is already associated"
    "duplicate association should not work".

(** ** The contract called directly *)

Definition selector_text (method : string) : outcome string :=
  match function_selector method with PStr s => Val s | _ => Exc TypeError end.

(** The reply of the contract has the expected length, and the links of the API. *)
Definition contract_links (sc2 : proxy) (a : Accounts) (data : outcome string) (records : Z) (expected : pyval) : MF unit :=
  let% from := format_evm (acc_address a) in
  let% to := format_evm (PStr OWNERSHIP) in
  let% data := data in
  let! response := call sc2 "rpc_eth_call"
    [PDict [("from", from); ("to", to); ("nonce", PInt 3); ("gasLimit", PInt 2300000); ("gasPrice", PInt 850000000);
            ("value", PInt 0); ("data", PStr data)]; PStr "latest"] in
  let% result := getitem response "result" in
  let% value := remove_0x_prefix result in
  let% value := as_str "" value in
  do% assert_equal (PInt (Z.of_nat (String.length value))) (PInt (2 * (32 + 32 + records * (3 * 32)))) "" in
  lift (check_get_key_ownership value expected).

Definition all_data : outcome string := selector_text "getAllKeyOwnerships()".
Definition address_data (a : Accounts) : outcome string :=
  let? s := selector_text "getKeyOwnerships(address)" in
  let? padded := py_add (PStr "000000000000000000000000") (acc_address a) in
  let? padded := as_str "" padded in
  Val (s +:+ padded).

(** Both methods against the links of the API. *)
Definition contract_checked (sc2 : proxy) (a : Accounts) (all links : pyval) (n1 n2 : Z) : MF unit :=
  let% expected := getitem all "keysOwnership" in
  do! contract_links sc2 a all_data n1 expected in
  let% expected := getitem links "keysOwnership" in
  contract_links sc2 a (address_data a) n2 expected.

(** The data of the first pooled transaction. *)
Definition pooled_data (sc_node : proxy) : MF string :=
  let! response := allTransactions sc_node true in
  let% txs := getitem response "transactions" in
  let% tx := getindex txs 0 in
  let% data := getitem tx "data" in
  lift (as_str "" data).

(** One more link of the second account uses the estimated gas. *)
Definition estimated_link (fuel : nat) (mc_node sc1 sc2 : proxy) (a : Accounts) (checksum2 : pyval) : MF unit :=
  let! taddr := call mc_node "getnewaddress" [] in
  let! mc_signature := sign_with mc_node taddr checksum2 in
  do! print_link checksum2 taddr mc_signature in
  let! r := send_keys sc2 (acc_address2 a) taddr mc_signature PNone in
  do! sc_sync_all fuel false in
  let% tx_hash := getitem r "transactionId" in
  let! data := pooled_data sc1 in
  let% to := to_checksum_address (PStr OWNERSHIP) in
  let! response := estimate_gas sc2 checksum2 to (PStr ("0x" +:+ data)) (PStr "0x0") (PStr "0x35a4e900") (PInt 0) in
  let% est_gas_used := getitem response "result" in
  do! forge_synced fuel sc1 "first node" false in
  let! receipt := receipt_0x sc1 tx_hash in
  let% status := hex_field receipt "status" in
  do% assert_true (status =? 1) "" in
  let% gas_used := getpath receipt ["result"; "gasUsed"] in
  lift (assert_equal est_gas_used gas_used "").

(** ** Through the proxy contract *)

(** A new account with 50 coins, and the proxy contract. *)
Definition ownership_proxy (mc_node sc1 : proxy) (shanghai : bool) : MF (pyval * SimpleProxyContract) :=
  let! address := new_evm_address sc1 in
  do! transfer_to mc_node address (PDec (Dec 500 (-1))) true in
  do! generate_next_block sc1 "first node" false PNone in
  let! p := SimpleProxyContract_init sc1 address shanghai in
  ret (address, p).

Definition static_bytes (p : SimpleProxyContract) (address : pyval) (input : string) : MF string :=
  let! res := do_static_call p address (PInt 1) (PStr OWNERSHIP) (PStr input) in
  lift (match res with PBytes b => Val b | _ => Exc TypeError end).

(** Before the fork a call is reverted. *)
Definition before_interop (fuel : nat) (sc1 : proxy) (p : SimpleProxyContract) (address : pyval) (input : string) : MF unit :=
  do! catch (
    do! static_bytes p address input in
    lift (fail "Interoperability call should fail before fork point"))
  (λ e, match runtime_text e with
        | Some m =>
            do% assert_true (str_contains "reverted" m) "" in
            lift (assert_true (str_contains "73686f756c6420776f726b" m) "")
        | None => raise e
        end) in
  reach_fork fuel sc1 INTEROPERABILITY_FORK_EPOCH.

(** The number of addresses of an account in the decoded links. *)
Definition check_count (d : list (string * list string)) (account : pyval) (n : Z) (message : string) : outcome unit :=
  let? k := as_str "" account in
  let? l := of_opt (KeyError k) (dict_get k d) in
  assert_equal (PInt n) (PInt (Z.of_nat (length l))) message.

(** The three methods that return links and accounts. *)
Definition proxy_links (fuel : nat) (o : Options) (sc1 : proxy) (p : SimpleProxyContract) (c : SmartContract)
    (address : pyval) (a : Accounts) (checksum2 : pyval) : MF unit :=
  let number := "wrong number of sidechain addresses" in
  let% input := native_input c "getAllKeyOwnerships()" [] in
  do! when (negb (all_forks o)) (before_interop fuel sc1 p address input) in
  let! res := static_bytes p address input in
  let% d := extract_sc_associations_list res in
  do% assert_equal (PInt 2) (PInt (Z.of_nat (length d))) number in
  do% check_count d (acc_checksum a) 11 " wrong number of associations for sc_address_1" in
  do% check_count d checksum2 2 "wrong number of associations for sc_address_2" in
  let% input := native_input c "getKeyOwnerships(address)" [acc_address a] in
  let! res := static_bytes p address input in
  let% d := extract_sc_associations_list res in
  do% assert_equal (PInt 1) (PInt (Z.of_nat (length d))) number in
  do% check_count d (acc_checksum a) 11 " wrong number of associations for sc_address_1" in
  let% input := native_input c "getKeyOwnerScAddresses()" [] in
  let! res := static_bytes p address input in
  let% decoded := raw_decode_call_result c "getKeyOwnerScAddresses()" res in
  let% accounts := getindex decoded 0 in
  do! check_length 2 accounts number in
  let% x := py_add (PStr "0x") (acc_address a) in
  let% b := py_in x accounts in
  do% assert_true b "" in
  let% x := py_add (PStr "0x") (acc_address2 a) in
  let% b := py_in x accounts in
  lift (assert_true b "").

(** The gas used is at most the estimated gas, and is the traced gas. *)
Definition check_gas_used (sc1 : proxy) (p : SimpleProxyContract) (tx_hash exp_gas trace_result : pyval) (input : string)
    : MF unit :=
  let! receipt := receipt_0x sc1 tx_hash in
  let% gas_used := hex_field receipt "gasUsed" in
  let% estimated := getitem exp_gas "result" in
  let% estimated_gas := py_int_base estimated 16 in
  do% assert_true (gas_used <=? estimated_gas) "Wrong estimated gas" in
  let% traced := getitem trace_result "gasUsed" in
  let% gas_used_tracer := py_int_base traced 16 in
  do% assert_equal (PInt gas_used) (PInt gas_used_tracer) "Wrong gas" in
  let! response := call sc1 "rpc_debug_traceTransaction" [tx_hash; PDict [("tracer", PStr "callTracer")]] in
  let! trace_result := trace_result_of response in
  do% check_native_call trace_result (spc_contract_address p) OWNERSHIP input None in
  let% traced := getitem trace_result "gasUsed" in
  let% gas_used_tracer := py_int_base traced 16 in
  lift (assert_equal (PInt gas_used) (PInt gas_used_tracer) "Wrong gas").

(** A call that changes links: estimated, traced, sent, and checked again after [more]. *)
Definition proxy_change (fuel : nat) (sc1 : proxy) (p : SimpleProxyContract) (address : pyval) (input : string)
    (gas_nonce nonce taddr : pyval) (op : string) (more : MF unit) : MF unit :=
  let! exp_gas := SimpleProxyContract_estimate_gas p address gas_nonce (PStr OWNERSHIP) (PInt 0) (PStr input) 20000000 in
  let! response := do_call_trace p address nonce (PStr OWNERSHIP) (PInt 0) (PStr input) in
  let! trace_result := trace_result_of response in
  do% check_native_call trace_result (spc_contract_address p) OWNERSHIP input None in
  let! tx_hash := call_transaction p address nonce (PStr OWNERSHIP) (PInt 0) (PStr input) (PInt 20000000) in
  do! forge_and_check_receipt fuel sc1 tx_hash 1 address taddr op in
  do! more in
  check_gas_used sc1 p tx_hash exp_gas trace_result input.

(** Removing a link that is gone fails, also in a trace. *)
Definition removed_trace (sc1 : proxy) (address : pyval) (input : string) : MF unit :=
  let% from := add_0x_prefix address in
  let% to := add_0x_prefix (PStr OWNERSHIP) in
  let% data := add_0x_prefix (PStr input) in
  let! r := call sc1 "rpc_debug_traceCall"
    [PDict [("from", from); ("to", to); ("gas", PStr "0x1e8480"); ("input", data)]; PStr "latest";
     PDict [("tracer", PStr "callTracer")]] in
  let% result := getitem r "result" in
  let% there := has_key "error" result in
  do% assert_true there "" in
  let% error := getitem result "error" in
  let% b := py_in (PStr "does not exist") error in
  lift (assert_true b "").

(** A link and its removal.  The data of the link is that of a transaction that is
    pooled and cannot be executed. *)
Definition proxy_changes (fuel : nat) (mc_node sc1 : proxy) (p : SimpleProxyContract) (c : SmartContract) (address : pyval)
    : MF unit :=
  let! taddr := call mc_node "getnewaddress" [] in
  let% checksum := to_checksum_address address in
  let! mc_signature := sign_with mc_node taddr checksum in
  do! send_keys sc1 address taddr mc_signature (PInt 10) in
  let! input := pooled_data sc1 in
  do! proxy_change fuel sc1 p address input (PInt 2) (PInt 1) taddr "add" (ret tt) in
  let% text := (match taddr with PStr t => Val (utf8 t) | _ => Exc TypeError end) in
  let% input := native_input c "removeKeysOwnership(bytes3,bytes32)"
    [PBytes (str_take 3 text); PBytes (str_drop 3 text)] in
  proxy_change fuel sc1 p address input (PInt 2) (PInt 2) taddr "remove" (removed_trace sc1 address input).

(** ** [run_test] of sc_evm_mc_addr_ownership.py *)

Definition SCEvmMcAddressOwnership_run_test (fuel : nat) (o : Options) : MF unit :=
  let! sc1 := sc 0 in
  let! mc_node := mc 0 in
  let! sc2 := sc 1 in
  let! a := ownership_accounts fuel mc_node sc1 sc2 in
  let! groups := call mc_node "listaddressgroupings" [] in
  let% l := py_iter groups in
  let% '(taddr1, _) := get_address_with_balance l in
  do% assert_true (match taddr1 with PNone => false | _ => true end) "" in
  let! balance := rpc_get_balance sc1 (PStr OWNERSHIP) in
  do% assert_equal (PInt balance) (PInt 0) "" in
  let! mc_signature1 := sign_with mc_node taddr1 (acc_checksum a) in
  do! when (negb (all_forks o)) (before_zendao fuel sc1 sc2 a taddr1 mc_signature1) in
  let nonce := if all_forks o then 0 else 1 in
  let! '(taddr2, mc_signature2, nonce) := two_links fuel mc_node sc1 a taddr1 mc_signature1 nonce in
  do! bad_links fuel mc_node sc1 a taddr1 mc_signature1 taddr2 mc_signature2 nonce in
  let! r := send_keys sc1 (acc_address a) taddr2 mc_signature2 (PInt (nonce + 1)) in
  do! linked fuel sc1 r (acc_address a) taddr2 "add" in
  let! taddrs := ten_links fuel mc_node sc1 a (nonce + 2) in
  let! links := one_removed fuel sc1 a taddrs (nonce + 12) in
  let! '(taddr_sc2, checksum2) := second_account_link fuel mc_node sc1 sc2 a in
  do! taken_link mc_node sc2 a taddr1 checksum2 in
  let! all := getKeysOwnership sc1 PNone PNone in
  do% check_all_links all (acc_checksum a) checksum2 11 taddr_sc2 in
  do! contract_checked sc2 a all links 12 11 in
  do! estimated_link fuel mc_node sc1 sc2 a checksum2 in
  let! '(address, p) := ownership_proxy mc_node sc1 (all_forks o) in
  let! c := SmartContract_init "McAddrOwnership" in
  do! proxy_links fuel o sc1 p c address a checksum2 in
  proxy_changes fuel mc_node sc1 p c address.

Definition ownership_setup : AccountChainSetup :=
  forger_setup 2 LARGE_WITHDRAWAL_EPOCH_LENGTH 100 (1500 * EVM_APP_SLOT_TIME * INTEROPERABILITY_FORK_EPOCH) None [].

Definition SCEvmMcAddressOwnership (fuel : nat) (o : Options) (shared : SCForgerConfiguration) : TestClass W :=
  AccountChainSetup_class fuel o ownership_setup shared (SCEvmMcAddressOwnership_run_test fuel o).

(** ** Multisig addresses *)

(** [getnewaddress] and [validateaddress]: an address and its public key. *)
Definition address_with_key (mc_node : proxy) : MF (pyval * pyval) :=
  let! address := call mc_node "getnewaddress" [] in
  let! validated := call mc_node "validateaddress" [address] in
  let% pubkey := getitem validated "pubkey" in
  ret (address, pubkey).

Definition addresses_with_keys (mc_node : proxy) (n : Z) : MF (list (pyval * pyval)) :=
  mmap (λ _, address_with_key mc_node) (zrange 0 n).

(** [createmultisig]: the address and the script. *)
Definition multisig_of (mc_node : proxy) (threshold : Z) (keys : list pyval) : MF (pyval * pyval) :=
  let! m_sig_obj := call mc_node "createmultisig" [PInt threshold; PList keys] in
  let% address := getitem m_sig_obj "address" in
  let% script := getitem m_sig_obj "redeemScript" in
  ret (address, script).

(** The signatures of the addresses whose index is below a limit, under the multisig
    address and the account. *)
Definition multisig_signatures (mc_node : proxy) (addresses : list pyval) (limit : Z) (multisig checksum : pyval)
    : MF (list pyval) :=
  mmap (λ i,
    let% address := list_index addresses i in
    let% message := py_add multisig checksum in
    sign_with mc_node address message)
    (filter (λ i, i < limit) (zrange 0 (Z.of_nat (length addresses)))).

(** The limit of the script is one more than the threshold. *)
Definition upto_threshold (threshold : Z) : Z := threshold + 1.

(** A multisig address of new addresses: addresses, multisig address, script. *)
Definition new_multisig (mc_node : proxy) (n threshold : Z) : MF (list pyval * pyval * pyval) :=
  let! l := addresses_with_keys mc_node n in
  let! '(multisig, script) := multisig_of mc_node threshold (map snd l) in
  ret (map fst l, multisig, script).

Definition priv_key_unc : string := "cUHcJUdzjNceFfUhLQtrrbjPtHo5NBP9ZofNxdSFnQqXijao761c".
Definition addr_unc : string := "ztTw2K532ewo9gynBJv7FFUgbD19Wpifv8G".
Definition uncomp_pubkey : string :=
  "042a5bb6de7d7d39455c2ddce7a6c6e9149e9633985e2d384af0c2900814d8d6a6945bc79b67aafa2ef611f8c16df2fd6a2581ade8d82b5c9b5dd31490d2536b6d".

(** The first multisig address: refused before its fork, linked after it. *)
Definition first_multisig (fuel : nat) (mc_node sc1 : proxy) (a : Accounts) : MF pyval :=
  do! reach_fork fuel sc1 ZENDAO_FORK_EPOCH in
  do% assert_true (2 <=? 3) "" in
  let! '(addresses, multisig, script) := new_multisig mc_node 3 2 in
  let! signatures := multisig_signatures mc_node addresses (upto_threshold 2) multisig (acc_checksum a) in
  let! r := send_multisig sc1 (acc_address a) multisig signatures script PNone in
  let% tx_hash := getitem r "transactionId" in
  do! sc_sync_all fuel false in
  do! forge_synced fuel sc1 "first node" false in
  let! '(status, _) := forged_status sc1 tx_hash in
  do% assert_true (status =? 0) "" in
  do! reach_fork fuel sc1 VERSION_1_2_FORK_EPOCH in
  let! r := send_multisig sc1 (acc_address a) multisig signatures script PNone in
  do! linked_synced fuel sc1 r (acc_address a) multisig in
  ret multisig.

(** The second one, with an uncompressed key; every address signs twice.  The multisig
    address, its script and the signatures. *)
Definition second_multisig (fuel : nat) (mc_node sc1 : proxy) (a : Accounts) : MF (pyval * pyval * list pyval) :=
  do! call mc_node "importprivkey" [PStr priv_key_unc] in
  let! l := addresses_with_keys mc_node 2 in
  let addresses := PStr addr_unc :: map fst l in
  let! '(multisig, script) := multisig_of mc_node 2 (PStr uncomp_pubkey :: map snd l) in
  let sign := multisig_signatures mc_node addresses (upto_threshold 2) multisig (acc_checksum a) in
  let! once := sign in
  let! twice := sign in
  let! r := send_multisig sc1 (acc_address a) multisig (once ++ twice) script PNone in
  do! linked_synced fuel sc1 r (acc_address a) multisig in
  ret (multisig, script, once ++ twice).

(** An ordinary address beside them, and the removal of it and of the first multisig
    address: the links that remain. *)
Definition multisig_links (fuel : nat) (mc_node sc1 : proxy) (a : Accounts) (multisig1 multisig2 : pyval) : MF pyval :=
  let address := acc_address a in
  let! taddr := call mc_node "getnewaddress" [] in
  let! mc_signature := sign_with mc_node taddr (acc_checksum a) in
  let% formatted := to_checksum_address address in
  let! r := send_keys sc1 formatted taddr mc_signature PNone in
  do! linked fuel sc1 r address taddr "add" in
  let! links := getKeysOwnership sc1 address PNone in
  let! links' := getKeysOwnership sc1 formatted PNone in
  do% assert_equal links links' "" in
  do% check_links links (acc_checksum a) 3 [multisig1; multisig2; taddr] [] in
  let! r := remove_keys sc1 address taddr PNone in
  do! linked fuel sc1 r address taddr "remove" in
  let! links := getKeysOwnership sc1 address PNone in
  do% check_links links (acc_checksum a) 2 [multisig1; multisig2] [taddr] in
  do! remove_keys sc1 formatted multisig1 PNone in
  do! forge_synced fuel sc1 "first node" false in
  let! links := getKeysOwnership sc1 address PNone in
  do% check_links links (acc_checksum a) 1 [multisig2] [] in
  ret links.

(** Parameters that are not valid. *)
Definition bad_multisigs (sc1 : proxy) (a : Accounts) (multisig2 script : pyval) (signatures : list pyval) : MF unit :=
  let address := acc_address a in
  do! refused_with (send_multisig sc1 (PStr "1234h") multisig2 signatures script PNone) any_text
    "Account 1234h is invalid " "invalid sc address should not work" in
  do! refused_with (send_multisig sc1 address (PStr "1LMcKyPmwebfygoeZP8E9jAMS2BcgH3Yip") signatures script PNone)
    runtime_text "Invalid input parameters" "invalid mc address should not work" in
  refused_with (send_multisig sc1 address multisig2 (signatures ++ [PStr "xyz"]) script PNone) runtime_text
    "Invalid input parameters" "invalid mc signature should not work".

(** Fewer signatures than the threshold, and the same signature twice: the transactions
    fail. *)
Definition too_few_signatures (fuel : nat) (mc_node sc1 : proxy) (a : Accounts) (multisig2 : pyval) : MF unit :=
  let! '(addresses, multisig, script) := new_multisig mc_node 3 2 in
  let% first := list_index addresses 0 in
  let% message := py_add multisig (acc_checksum a) in
  let failing (signatures : list pyval) (mc_addr : pyval) : MF unit :=
    let! r := send_multisig sc1 (acc_address a) multisig signatures script PNone in
    let% tx_hash := getitem r "transactionId" in
    do! sc_sync_all fuel false in
    forge_and_check_receipt fuel sc1 tx_hash 0 (acc_address a) mc_addr "add" in
  let! s1 := sign_with mc_node first message in
  do! failing [s1] multisig in
  let! s2 := sign_with mc_node first message in
  failing [s1; s2] multisig2.

(** The largest multisig address, and one of a single uncompressed key. *)
Definition extreme_multisigs (fuel : nat) (mc_node sc1 : proxy) (a : Accounts) : MF unit :=
  do% assert_true (15 <=? 15) "" in
  let! '(addresses, multisig, script) := new_multisig mc_node 15 15 in
  let! signatures := multisig_signatures mc_node addresses 15 multisig (acc_checksum a) in
  let! r := send_multisig sc1 (acc_address a) multisig signatures script PNone in
  do! linked_synced fuel sc1 r (acc_address a) multisig in
  let! '(multisig, script) := multisig_of mc_node 1 [PStr uncomp_pubkey] in
  let% message := py_add multisig (acc_checksum a) in
  let! signature := sign_with mc_node (PStr addr_unc) message in
  let! r := send_multisig sc1 (acc_address a) multisig [signature] script PNone in
  linked_synced fuel sc1 r (acc_address a) multisig.

(** A multisig link through the proxy contract. *)
Definition multisig_interop (fuel : nat) (mc_node sc1 : proxy) : MF unit :=
  do! reach_fork fuel sc1 INTEROPERABILITY_FORK_EPOCH in
  let! '(address, p) := ownership_proxy mc_node sc1 false in
  do! SmartContract_init "McAddrOwnership" in
  let! '(addresses, multisig, script) := new_multisig mc_node 3 2 in
  let% checksum := to_checksum_address address in
  let! signatures := multisig_signatures mc_node addresses (upto_threshold 2) multisig checksum in
  do! send_multisig sc1 address multisig signatures script (PInt 10) in
  let! input := pooled_data sc1 in
  let! exp_gas := SimpleProxyContract_estimate_gas p address PNone (PStr OWNERSHIP) (PInt 0) (PStr input) 20000000 in
  let% there := has_key "result" exp_gas in
  do% assert_true there "" in
  let! response := do_call_trace p address PNone (PStr OWNERSHIP) (PInt 0) (PStr input) in
  let! trace_result := trace_result_of response in
  do% check_native_call trace_result (spc_contract_address p) OWNERSHIP input None in
  let! tx_hash := call_transaction p address PNone (PStr OWNERSHIP) (PInt 0) (PStr input) (PInt 20000000) in
  do! forge_and_check_receipt fuel sc1 tx_hash 1 address multisig "add" in
  check_gas_used sc1 p tx_hash exp_gas trace_result input.

(** ** [run_test] of sc_evm_mc_addr_ownership_multisig.py *)

Definition SCEvmMcMultisigAddressOwnership_run_test (fuel : nat) : MF unit :=
  let! sc1 := sc 0 in
  let! mc_node := mc 0 in
  let! sc2 := sc 1 in
  let! a := ownership_accounts fuel mc_node sc1 sc2 in
  let! multisig1 := first_multisig fuel mc_node sc1 a in
  let! '(multisig2, script2, signatures) := second_multisig fuel mc_node sc1 a in
  let! links := multisig_links fuel mc_node sc1 a multisig1 multisig2 in
  let! '(taddr_sc2, checksum2) := second_account_link fuel mc_node sc1 sc2 a in
  let! all := getKeysOwnership sc1 PNone PNone in
  do% check_all_links all (acc_checksum a) checksum2 1 taddr_sc2 in
  do! bad_multisigs sc1 a multisig2 script2 signatures in
  do! too_few_signatures fuel mc_node sc1 a multisig2 in
  do! contract_checked sc2 a all links 2 1 in
  do! estimated_link fuel mc_node sc1 sc2 a checksum2 in
  do! extreme_multisigs fuel mc_node sc1 a in
  multisig_interop fuel mc_node sc1.

Definition SCEvmMcMultisigAddressOwnership (fuel : nat) (o : Options) (shared : SCForgerConfiguration) : TestClass W :=
  AccountChainSetup_class fuel o ownership_setup shared (SCEvmMcMultisigAddressOwnership_run_test fuel).
End Ownership.
