(* ===== verification/EvmBackwardScenarios.v ===== *)
(** * Scenarios: backward transfers of the account model

    sc_evm_backward_transfer.py, sc_evm_backward_transfer_2.py and
    sc_evm_bwt_corner_cases.py: requests of withdrawal through the API, the native
    contract and the proxy contract, the certificates that carry them, and requests
    that are refused.

    [base58.b58decode_check] and [eth_utils.encode_hex] are parameters. *)

From S2P Require Import Prelude PyStr Numbers PyVal Host Sim Json Encoding HttpProxy BootInfo McUtil ScUtil.
From S2P Require Import Forging Bootstrap Framework AccountSetup McFramework HttpCalls AccountCalls AccountUtil SmartContract Tools.
From Stdlib Require Import Ascii String.
From stdpp Require Import base list.
From S2P Require Import Scenarios ForgingScenarios StakeScenarios ChainScenarios MempoolScenarios EvmScenarios CswScenarios.
From S2P Require Import BackwardScenarios CertificateScenarios KeyRotationScenarios EvmRotationScenarios ForgerScenarios.
From S2P Require Import EvmForgerScenarios NativeForgerScenarios OwnershipScenarios.
Local Open Scope Z_scope.

Class AddressCodecs := {
  b58decode_check : string → outcome string;
  encode_hex : pyval → outcome pyval
}.

(** [base58.b58decode_check(address).hex()[4:]]: the hash of a public key, without the
    two bytes of the network. *)
Definition address_hash `{AddressCodecs} (address : pyval) : outcome string :=
  match address with
  | PStr a => let? b := b58decode_check a in Val (str_drop 4 (hexlify b))
  | _ => Exc TypeError
  end.

Definition check_withdrawal_event `{EthAbi, EthEvents, AddressCodecs} (event source_addr dest_addr : pyval)
    (amount : Z) (exp_epoch : Z) : outcome unit :=
  let? _ := check_event_id event 3 "AddWithdrawalRequest(address,bytes20,uint256,uint32)"
              "Wrong event signature in topics" in
  let? from_addr := topic_address event 1 in
  let? _ := assert_equal source_addr from_addr "Wrong from address in topics" in
  let? mcDestAddr := topic_value event 2 "bytes20" in
  let? expected := address_hash dest_addr in
  let? found := encode_hex mcDestAddr in
  let? found := text_from 2 found in
  let? _ := assert_equal (PStr expected) found "Wrong destination address in topics" in
  let? data := getitem event "data" in
  let? parts := decode_hex ["uint256"; "uint32"] data in
  match parts with
  | [wr_amount; epoch] =>
      let? wei := convertZenniesToWei (PInt amount) in
      let? _ := assert_equal (PInt wei) wr_amount "Wrong amount in event" in
      assert_equal (PInt exp_epoch) epoch "Wrong epoch in event"
  | _ => Exc (ValueError "unpack")
  end.

(** ** The requests the contract returns *)

Definition wr_elem_size : nat := 64.

(** An offset, the number of requests, and 64 bytes for every request: the amount and
    the address of the first two. *)
Definition withdrawal_at `{EthAbi} (elems : list string) (i : Z) : outcome (pyval * pyval) :=
  let? elem := list_index elems i in
  let? wr := abi_decode [PStr "(bytes20,uint256)"] elem in
  let? pair := list_index wr 0 in
  let? address := getindex pair 0 in
  let? amount := getindex pair 1 in
  Val (address, amount).

Definition withdrawal_elems (res : string) : outcome (list string) :=
  let res := str_drop 32 res in
  let? num_of_wr := py_int_base (PStr (bytes_to_hex_str (str_take 32 res))) 16 in
  let? _ := assert_equal (PInt 2) (PInt num_of_wr) "wrong number of backward transfer" in
  Val (chunks wr_elem_size (Z.to_nat num_of_wr) (str_drop 32 res)).

(** One of them is the request of an amount and an address. *)
Definition check_withdrawal_elem `{AddressCodecs} (wr : pyval * pyval) (zennies : Z) (mc_address : pyval) : outcome string :=
  let? wei := convertZenniesToWei (PInt zennies) in
  let? _ := assert_equal (PInt wei) wr.2 "Wrong amount in wr" in
  let? mcDestAddr := bytes_hex wr.1 in
  let? pk := address_hash mc_address in
  let? _ := assert_equal (PStr pk) (PStr mcDestAddr) "Wrong mc address" in
  Val pk.

Definition check_two_withdrawals `{EthAbi, AddressCodecs} (res : string) (z1 z2 : Z) (mc_address1 mc_address2 : pyval)
    : outcome string :=
  let? elems := withdrawal_elems res in
  let? wr_1 := withdrawal_at elems 0 in
  let? wr_2 := withdrawal_at elems 1 in
  let? pk1 := check_withdrawal_elem wr_1 z1 mc_address1 in
  let? _ := check_withdrawal_elem wr_2 z2 mc_address2 in
  Val pk1.

(** The entry of the list of the API. *)
Definition check_request (requests : pyval) (i : Z) (mc_address : pyval) (zennies : Z) : outcome unit :=
  let? r := getindex requests i in
  let? address := getpath r ["proposition"; "mainchainAddress"] in
  let? _ := assert_equal mc_address address "" in
  let? wei := convertZenniesToWei (PInt zennies) in
  let? value := getitem r "value" in
  let? _ := assert_equal (PInt wei) value "" in
  let? value := getitem r "valueInZennies" in
  assert_equal (PInt zennies) value "".

Section EvmBackward.
Context {W : Type} `{Nodes W, Clock W, Os W, Rng W} `{EthUtils, EthAbi, EthHash, EthEvents, EthHex, AddressCodecs}.
Context (str_exn : exn → string).
Local Abbreviation MF := (M (FW W)).

Definition REQUESTS : pyval := PStr WITHDRAWAL_REQ_SMART_CONTRACT_ADDRESS.

(** ** Shared parts *)

(** [withdrawcoins] with its defaults *)
Definition withdraw (sc_node : proxy) (mc_address : pyval) (zennies : Z) (nonce : pyval) : MF pyval :=
  withdrawcoins sc_node mc_address (PInt zennies) nonce (PInt 230000) (PInt 9000000000) (PInt 900000000) PNone.

Definition withdrawal_id (res : pyval) : outcome pyval :=
  let? id := getpath res ["result"; "transactionId"] in add_0x_prefix id.

(** The number of requests of an epoch. *)
Definition check_requests (sc_node : proxy) (epoch n : Z) (message : string) : MF pyval :=
  let! requests := all_withdrawal_requests sc_node (PInt epoch) in
  do! check_length n requests message in
  ret requests.

Definition wallet_balance (sc_node : proxy) (address : pyval) : MF pyval := http_wallet_balance sc_node address PNone.

(** The account with ten coins and no requests; [look] is what one script prints. *)
Definition evm_bt_start (fuel : nat) (look : proxy → MF unit) : MF (proxy * proxy * pyval) :=
  do! sleep 100000 in
  let! s := sc_ac_setup fuel true true (PInt bt_ft_amount) in
  let! mc_node := mc 0 in
  let! sc_node := sc 0 in
  do! look sc_node in
  let% address := remove_0x_prefix (ac_evm_address s) in
  do! check_requests sc_node 0 0 "" in
  ret (mc_node, sc_node, address).

Definition ft_amount_in_wei : outcome Z := convertZenToWei (PInt bt_ft_amount).

(** After the end of an epoch: the last block of it is referenced, the first one of
    the next is mined, and its certificate is in the memory pool. *)
Definition evm_bt_certified (fuel : nat) (mc_node sc_node : proxy) (hash : pyval) : MF unit :=
  let! id := generate_next_block sc_node "first node" false PNone in
  do! check_mcreferencedata_presence hash id sc_node in
  do! csw_referenced_block mc_node sc_node in
  do! await_certificate 10 fuel mc_node sc_node in
  do! forge sc_node in
  bt_skipped sc_node.

(** The certificate, in the mainchain block, is referenced by the sidechain. *)
Definition evm_bt_returned (sc_node : proxy) (hash : pyval) : MF unit :=
  let! id := forge sc_node in
  do! check_mcreference_presence hash id sc_node in
  bt_skipped sc_node.

(** The certificate without requests, on the sidechain. *)
Definition evm_bt_empty (sc_node : proxy) (root certHash : pyval) : MF unit :=
  let! cert := bt_sc_cert sc_node 0 root 0 in
  lift (bt_same_hash certHash cert).

(** Both amounts, in coins and in units of 10^-8. *)
Definition evm_bt_amount2 : Z := 1.
Definition zennies1 : outcome Z := convertZenToZennies (PInt bt_amount1).
Definition zennies2 : outcome Z := convertZenToZennies (PInt evm_bt_amount2).

(** The balance is that before less the request and the fee: the new balance. *)
Definition withdrawn_balance (sc_node : proxy) (tx_id address balance : pyval) (zennies : Z) : MF pyval :=
  let! '(gas_fee_paid, _, _) := computeForgedTxFee sc_node tx_id in
  let% wei := convertZenniesToWei (PInt zennies) in
  let% expected := py_sub balance (PInt wei) in
  let% expected := py_sub expected (PInt gas_fee_paid) in
  let! new_balance := wallet_balance sc_node address in
  do% assert_equal expected new_balance "wrong balance after first withdrawal request" in
  ret new_balance.

(** Two requests in epoch 1: their addresses.  [request] makes one and returns its
    transaction; [mined] is how its block and receipt are checked. *)
Definition evm_bt_requests (mc_node sc_node : proxy) (address : pyval) (request : pyval → Z → MF pyval)
    (mined : pyval → pyval → Z → MF unit) : MF (pyval * pyval) :=
  let! mc_address1 := call mc_node "getnewaddress" [] in
  let% z1 := zennies1 in
  let! tx_id := request mc_address1 z1 in
  let! balance := wallet_balance sc_node address in
  let% wei := ft_amount_in_wei in
  do% assert_equal (PInt wei) balance "wrong balance" in
  do! check_requests sc_node 1 0 "" in
  do! mined tx_id mc_address1 z1 in
  let! balance := withdrawn_balance sc_node tx_id address (PInt wei) z1 in
  let! requests := check_requests sc_node 1 1 "Wrong number of withdrawal requests" in
  do% check_request requests 0 mc_address1 z1 in
  let! node := mc 0 in
  let! mc_address2 := call node "getnewaddress" [] in
  let% z2 := zennies2 in
  let! tx_id := request mc_address2 z2 in
  do! mined tx_id mc_address2 z2 in
  do! withdrawn_balance sc_node tx_id address balance z2 in
  let! requests := check_requests sc_node 1 2 "" in
  do% check_request requests 0 mc_address1 z1 in
  do% check_request requests 1 mc_address2 z2 in
  ret (mc_address1, mc_address2).

(** The transfers of the certificate, on the mainchain and on the sidechain. *)
Definition evm_bt_entries (cert mc_address1 mc_address2 : pyval) : outcome unit :=
  let? v1 := bt_vout_value cert 1 in
  let? _ := assert_equal (PInt bt_amount1) v1 "First BT amount is wrong." in
  let? v2 := bt_vout_value cert 2 in
  let? _ := assert_equal (PInt evm_bt_amount2) v2 "Second BT amount is wrong." in
  let? a1 := bt_vout_address cert 1 in
  let? _ := assert_equal mc_address1 a1 "First BT standard address is wrong." in
  let? a2 := bt_vout_address cert 2 in
  assert_equal mc_address2 a2 "Second BT standard address is wrong.".

Definition evm_bt_outputs (sc_node : proxy) (root certHash mc_address1 mc_address2 : pyval) : MF unit :=
  let! cert := bt_sc_cert sc_node 1 root 2 in
  let% z1 := zennies1 in
  do% bt_check_output cert 0 "First" mc_address1 z1 in
  let% z2 := zennies2 in
  do% bt_check_output cert 1 "Second" mc_address2 z2 in
  lift (bt_same_hash certHash cert).

(** Epoch 1: its end, its certificate and what returns to the sidechain. *)
Definition evm_bt_epoch1 (fuel : nat) (mc_node sc_node : proxy) (blocks index : Z) (mc_address1 mc_address2 : pyval)
    : MF unit :=
  let! '(hash1, root1) := bt_epoch_end mc_node blocks index in
  do! evm_bt_certified fuel mc_node sc_node hash1 in
  let! '(certHash1, cert1) := bt_mc_cert mc_node 1 root1 in
  do% bt_total cert1 (bt_amount1 + evm_bt_amount2) in
  let! hash := bt_cert_included mc_node certHash1 in
  do% evm_bt_entries cert1 mc_address1 mc_address2 in
  do! evm_bt_returned sc_node hash in
  evm_bt_outputs sc_node root1 certHash1 mc_address1 mc_address2.

(** ** sc_evm_backward_transfer.py *)

(** The receipt of a request: successful, with the event of the request. *)
Definition check_withdrawal_receipt (receipt source mc_address : pyval) (zennies epoch : Z) : MF unit :=
  do! check_status receipt 1 "Wrong tx status in receipt" in
  let% logs := getpath receipt ["result"; "logs"] in
  do! check_length 1 logs "Wrong number of events in receipt" in
  let% logs := getpath receipt ["result"; "logs"] in
  let% wr_event := getindex logs 0 in
  lift (check_withdrawal_event wr_event source mc_address zennies epoch).

Definition withdrawal_mined (sc_node : proxy) (address tx_id mc_address : pyval) (zennies : Z) : MF unit :=
  let! receipt := generate_block_and_get_tx_receipt sc_node tx_id false in
  check_withdrawal_receipt receipt address mc_address zennies 1.

(** Epoch 0 of this script, which logs less than the others. *)
Definition evm_bt_epoch0 (fuel : nat) (mc_node sc_node : proxy) : MF unit :=
  let! hashes := call mc_node "generate" [PInt 8] in
  let% hash0 := getindex hashes 7 in
  let! json := call mc_node "getblock" [hash0] in
  let% root0 := getitem json "scCumTreeHash" in
  do! evm_bt_certified fuel mc_node sc_node hash0 in
  let! pool := call mc_node "getrawmempool" [] in
  let% certHash0 := getindex pool 0 in
  let! cert0 := call mc_node "getrawtransaction" [certHash0; PInt 1] in
  do! bt_check_cert cert0 0 root0 in
  do% bt_total cert0 0 in
  let! hash := bt_cert_taken mc_node certHash0 in
  do! evm_bt_returned sc_node hash in
  evm_bt_empty sc_node root0 certHash0.

(** A script address is refused. *)
Definition mc_script_address : pyval := PStr "zrE6EyAvxrW9uDzTPsekiq5mjawetEEE8p7".

Definition script_address_refused (sc_node : proxy) : MF unit :=
  let% z1 := zennies1 in
  refused_with (withdraw sc_node mc_script_address z1 PNone) runtime_text "Invalid Mc address" "Exception expected".

(** The requests of epoch 1 as the contract returns them to the proxy contract; before
    the fork the call is reverted.  The hash of the first address. *)
Definition proxy_requests (fuel : nat) (o : Options) (sc_node : proxy) (p : SimpleProxyContract) (c : SmartContract)
    (address mc_address1 mc_address2 : pyval) : MF string :=
  let% input := native_input c "getBackwardTransfers(uint32)" [PInt 1] in
  let read := do_static_call p address (PInt 1) REQUESTS (PStr input) in
  do! when (negb (all_forks o)) (
    do! must_revert read "Interoperability call should fail before fork point" "reverted" in
    reach_fork fuel sc_node INTEROPERABILITY_FORK_EPOCH) in
  let! res := read in
  let% res := (match res with PBytes b => Val b | _ => Exc TypeError end) in
  let% z1 := zennies1 in
  let% z2 := zennies2 in
  lift (check_two_withdrawals res z1 z2 mc_address1 mc_address2).

Definition BACKWARD_TRANSFER : string := "backwardTransfer(bytes20)".

(** The output of the call inside has 64 bytes. *)
Definition check_output_length (native_call : pyval) : outcome unit :=
  let? output := getitem native_call "output" in
  let? n := py_len output in
  assert_equal (PInt (Z.of_nat wr_elem_size * 2 + 2)) (PInt n) "".

(** A request of the proxy contract, which is given some coins first. *)
Definition proxy_request (sc_node : proxy) (p : SimpleProxyContract) (c : SmartContract) (address mc_address1 : pyval)
    (pk1 : string) : MF unit :=
  let% contract := format_eoa_val (spc_contract_address p) in
  do! createEIP1559Transaction sc_node
    (mkTxArgs address (PStr contract) (PInt 1) (PInt 230000) (PInt 1000000000000) (PStr "") PNone PNone PNone)
    (PInt 900000000) (PInt 900000000) PNone in
  do! generate_next_block sc_node "first node" false PNone in
  let% b := hex_str_to_bytes pk1 in
  let% input := native_input c BACKWARD_TRANSFER [PBytes b] in
  let% wei := convertZenniesToWei (PInt 100) in
  let! exp_gas := SimpleProxyContract_estimate_gas p address (PInt 2) REQUESTS (PInt wei) (PStr input) 20000000 in
  let! tx_id := call_transaction p address (PInt 2) REQUESTS (PInt wei) (PStr input) (PInt 20000000) in
  let! receipt := generate_block_and_get_tx_receipt sc_node tx_id false in
  do% getpath receipt ["result"; "gasUsed"] in
  do! check_withdrawal_receipt receipt (PStr contract) mc_address1 100 2 in
  let% gas_used := hex_field receipt "gasUsed" in
  let% estimated := getitem exp_gas "result" in
  let% estimated_gas := py_int_base estimated 16 in
  do% assert_true (gas_used <=? estimated_gas) "Wrong estimated gas" in
  let! response := call sc_node "rpc_debug_traceTransaction" [tx_id; PDict [("tracer", PStr "callTracer")]] in
  let! trace_result := trace_result_of response in
  do% check_call_inside trace_result (spc_contract_address p) WITHDRAWAL_REQ_SMART_CONTRACT_ADDRESS input
        check_output_length in
  let% traced := getitem trace_result "gasUsed" in
  let% gas_used_tracer := py_int_base traced 16 in
  lift (assert_true (gas_used =? gas_used_tracer) "Wrong gas").

(** A request by a call of the contract, whose transaction has the status: its hash. *)
Definition contract_request (sc_node : proxy) (c : SmartContract) (address : pyval) (pk1 status : string) : MF pyval :=
  let% b := hex_str_to_bytes pk1 in
  let% z2 := zennies2 in
  let% wei := convertZenniesToWei (PInt z2) in
  let! tx_hash := call_function c sc_node BACKWARD_TRANSFER [PBytes b] RPC_LEGACY address REQUESTS
    (mkTxOptions PNone (PInt 230000) (PInt 765630000) (PInt 765630000) (PInt 10) (PInt wei) (PStr "latest")) in
  let! r := generate_block_and_get_tx_receipt sc_node tx_hash false in
  let% found := getpath r ["result"; "status"] in
  do% assert_equal (PStr status) found "Transaction should fail" in
  ret tx_hash.

(** After fork 1.5 the API and the contract refuse; the failure inside [try] is caught
    too, and its text is not the expected one. *)
Definition after_fork_1_5 (fuel : nat) (sc_node : proxy) (c : SmartContract) (address mc_address2 : pyval) (pk1 : string)
    : MF unit :=
  do! advance_to_epoch fuel sc_node VERSION_1_5_FORK_EPOCH in
  let% z2 := zennies2 in
  do! catch (
    do! withdraw sc_node mc_address2 z2 PNone in
    lift (fail "call should fail after fork 1.5 activation"))
  (λ e, match any_text str_exn e with
        | Some m => lift (assert_true (str_contains "Fork 1.5 is active" m) "")
        | None => raise e
        end) in
  let! tx_hash := contract_request sc_node c address pk1 "0x0" in
  let! response := call sc_node "rpc_debug_traceTransaction" [tx_hash; PDict [("tracer", PStr "callTracer")]] in
  let% error := getpath response ["result"; "error"] in
  lift (assert_true (str_contains "fork 1.5 active" (py_str error)) "").

Definition SCEvmBackwardTransfer_run_test (fuel : nat) (o : Options) : MF unit :=
  let! '(mc_node, sc_node, address) := evm_bt_start fuel (λ n, do! current_epoch n in ret tt) in
  let! balance := wallet_balance sc_node address in
  let% wei := ft_amount_in_wei in
  do% assert_equal balance (PInt wei) "wrong balance" in
  do! evm_bt_epoch0 fuel mc_node sc_node in
  do! script_address_refused sc_node in
  let! '(mc_address1, mc_address2) := evm_bt_requests mc_node sc_node address
    (λ mc_address z, let! res := withdraw sc_node mc_address z PNone in lift (withdrawal_id res))
    (λ tx_id mc_address z, withdrawal_mined sc_node address tx_id mc_address z) in
  do! evm_bt_epoch1 fuel mc_node sc_node 8 7 mc_address1 mc_address2 in
  let! interop := new_evm_address sc_node in
  do! transfer_to mc_node interop (PDec (Dec 50 (-1))) true in
  do! generate_next_block sc_node "first node" false PNone in
  let! p := SimpleProxyContract_init sc_node interop (all_forks o) in
  let! c := SmartContract_init "WithdrawalRequests" in
  let! pk1 := proxy_requests fuel o sc_node p c interop mc_address1 mc_address2 in
  do! proxy_request sc_node p c interop mc_address1 pk1 in
  do! contract_request sc_node c interop pk1 "0x1" in
  after_fork_1_5 fuel sc_node c interop mc_address2 pk1.

Definition SCEvmBackwardTransfer (fuel : nat) (o : Options) (shared : SCForgerConfiguration) : TestClass W :=
  AccountChainSetup_class fuel o (forger_setup 1 10 100 (1500 * EVM_APP_SLOT_TIME * INTEROPERABILITY_FORK_EPOCH) None [])
    shared (SCEvmBackwardTransfer_run_test fuel o).

(** ** sc_evm_backward_transfer_2.py *)

(** The reply has no error. *)
Definition checked_withdrawal (sc_node : proxy) (mc_address : pyval) (z : Z) : MF pyval :=
  let! res := withdraw sc_node mc_address z PNone in
  let% failed := has_key "error" res in
  do% (if failed then let? text := dumps res in fail ("Creating Withdrawal request failed: " +:+ text) else Val tt) in
  lift (withdrawal_id res).

Definition withdrawal_status (sc_node : proxy) (tx_id : pyval) : MF unit :=
  let! status := generate_block_and_get_tx_receipt sc_node tx_id true in
  lift (assert_equal (PInt 1) status "Wrong tx status in receipt").

(** Its epochs have 50 blocks. *)
Definition SCEvmBackwardTransfer2_run_test (fuel : nat) : MF unit :=
  let! '(mc_node, sc_node, address) := evm_bt_start fuel (λ _, ret tt) in
  let! balance := wallet_balance sc_node address in
  let% wei := ft_amount_in_wei in
  do% assert_equal balance (PInt wei) "wrong balance" in
  let! hashes := call mc_node "generate" [PInt (50 - 2)] in
  let% hash0 := getindex hashes (50 - 3) in
  do! sleep (secs 10) in
  do% log_concat hash0 in
  let! json := call mc_node "getblock" [hash0] in
  let% root0 := getitem json "scCumTreeHash" in
  do% log_concat root0 in
  do! evm_bt_certified fuel mc_node sc_node hash0 in
  let! '(certHash0, cert0) := bt_mc_cert mc_node 0 root0 in
  do% bt_total cert0 0 in
  let! hash := bt_cert_included mc_node certHash0 in
  do! evm_bt_returned sc_node hash in
  do! evm_bt_empty sc_node root0 certHash0 in
  let! '(mc_address1, mc_address2) := evm_bt_requests mc_node sc_node address (checked_withdrawal sc_node)
    (λ tx_id _ _, withdrawal_status sc_node tx_id) in
  evm_bt_epoch1 fuel mc_node sc_node (50 - 2) (50 - 3) mc_address1 mc_address2.

Definition evm_bt_setup (length : Z) (gap slots : Z) : AccountChainSetup :=
  mkAccountChainSetup "Horizen" 1 1 length (PInt 100) (PInt DEFAULT_EVM_APP_GENESIS_TIMESTAMP_REWIND) None [] None false [] 100 true true
    gap slots DEFAULT_MAX_MEMPOOL_SLOTS DEFAULT_MAX_NONEXEC_POOL_SLOTS DEFAULT_TX_LIFETIME [None] 7 5 [].

Definition SCEvmBackwardTransfer2 (fuel : nat) (o : Options) (shared : SCForgerConfiguration) : TestClass W :=
  AccountChainSetup_class fuel o (evm_bt_setup 50 DEFAULT_MAX_NONCE_GAP DEFAULT_MAX_ACCOUNT_SLOTS) shared
    (SCEvmBackwardTransfer2_run_test fuel).

(** ** sc_evm_bwt_corner_cases.py *)

(** More than the account has: the API refuses, and nothing changes. *)
Definition insufficient_balance (sc_node : proxy) (mc_address1 address : pyval) : MF unit :=
  let% z := convertZenToZennies (PInt (bt_ft_amount + 3)) in
  do! catch (
    do! withdraw sc_node mc_address1 z PNone in
    lift (fail "Withdrawal request with insufficient balance should fail"))
  (λ e, match runtime_text e with Some _ => ret tt | None => raise e end) in
  do! generate_next_block sc_node "first node" false PNone in
  do! check_requests sc_node 0 0 "" in
  let! balance := wallet_balance sc_node address in
  let% wei := ft_amount_in_wei in
  lift (assert_equal (PInt wei) balance "wrong balance").

(** The first transaction of the best block. *)
Definition first_in_block (sc_node : proxy) : MF pyval :=
  let! r := call sc_node "block_best" [] in
  let% txs := getpath r ["result"; "block"; "sidechainTransactions"] in
  let% tx := getindex txs 0 in
  lift (getitem tx "id").

(** An amount the contract does not accept: the transaction fails, no request is made
    and the fee is paid.  The balance after it. *)
Definition failed_withdrawal (sc_node : proxy) (mc_address1 address balance : pyval) (zennies : Z) : MF pyval :=
  let! res := withdraw sc_node mc_address1 zennies PNone in
  let% tx_id := withdrawal_id res in
  let! receipt := generate_block_and_get_tx_receipt sc_node tx_id false in
  do! check_status receipt 0 "Wrong tx status in receipt" in
  let% logs := getpath receipt ["result"; "logs"] in
  do! check_length 0 logs "Wrong number of events in receipt" in
  do! check_requests sc_node 0 0 "" in
  let! new_balance := wallet_balance sc_node address in
  let! '(gas_fee_paid, _, _) := computeForgedTxFee sc_node tx_id in
  let% expected := py_sub balance (PInt gas_fee_paid) in
  do% assert_equal expected new_balance "wrong balance" in
  let! tx_in_block := first_in_block sc_node in
  let% id := remove_0x_prefix tx_id in
  do% assert_equal id tx_in_block "Tx is not in the block" in
  ret new_balance.

Definition num_of_wr : Z := 3999.
Definition num_of_blocks : Z := 14.
(** [int(num_of_wr / num_of_blocks)] *)
Definition num_of_wr_per_block : Z := num_of_wr / num_of_blocks.

(** The request with a number; the nonce is one more. *)
Definition numbered_withdrawal (sc_node : proxy) (mc_address2 : pyval) (i : Z) : MF pyval :=
  let! res := withdraw sc_node mc_address2 100 (PInt (i + 1)) in
  let% tx_id := withdrawal_id res in
  let% failed := has_key "error" res in
  do% (if failed then
         let? text := dumps res in
         fail ("Creating Withdrawal request " +:+ py_str (PInt i) +:+ " failed: " +:+ text)
       else Val tt) in
  ret tx_id.

(** The numbers of the requests of a block, and those of the last one. *)
Definition block_numbers (b : Z) : list Z :=
  zrange (num_of_wr_per_block * (b - 1) + 1) (num_of_wr_per_block * b + 1).
Definition last_numbers : list Z := zrange (num_of_blocks * num_of_wr_per_block + 1) (num_of_wr + 1).

(** As many requests as an epoch can have, in fifteen blocks: their transactions. *)
Definition many_withdrawals (sc_node : proxy) (mc_address2 : pyval) : MF (list pyval) :=
  let! ids := mmap (λ b,
    let! l := mmap (numbered_withdrawal sc_node mc_address2) (block_numbers b) in
    do! generate_next_block sc_node "first node" false PNone in
    ret l) (zrange 1 (num_of_blocks + 1)) in
  let! l := mmap (numbered_withdrawal sc_node mc_address2) last_numbers in
  do! generate_next_block sc_node "first node" false PNone in
  ret (mjoin ids ++ l).

(** The fees of transactions. *)
Definition fees_of (sc_node : proxy) (tx_ids : list pyval) : MF Z :=
  let! l := mmap (λ tx_id, let! '(gas_fee_paid, _, _) := computeForgedTxFee sc_node tx_id in ret gas_fee_paid) tx_ids in
  ret (foldl Z.add 0 l).

(** The largest number of requests of an epoch; one more has no effect but its fee. *)
Definition too_many_withdrawals (mc_node sc_node : proxy) (mc_address1 address balance : pyval) : MF unit :=
  let! mc_address2 := call mc_node "getnewaddress" [] in
  let! tx_ids := many_withdrawals sc_node mc_address2 in
  do! check_requests sc_node 0 num_of_wr "" in
  let! gas_fee := fees_of sc_node tx_ids in
  let! new_balance := wallet_balance sc_node address in
  let% wei := convertZenniesToWei (PInt (100 * num_of_wr)) in
  let% expected := py_sub balance (PInt wei) in
  let% expected := py_sub expected (PInt gas_fee) in
  do% assert_equal expected new_balance "wrong balance" in
  let! res := withdraw sc_node mc_address1 100 PNone in
  let% tx_id := withdrawal_id res in
  do! generate_next_block sc_node "first node" false PNone in
  do! check_requests sc_node 0 num_of_wr "" in
  let! '(gas_fee_paid, _, _) := computeForgedTxFee sc_node tx_id in
  let! new_balance := wallet_balance sc_node address in
  let% expected := py_sub expected (PInt gas_fee_paid) in
  do% assert_equal expected new_balance "wrong balance" in
  let! tx_in_block := first_in_block sc_node in
  let% id := remove_0x_prefix tx_id in
  lift (assert_equal tx_in_block id "Tx is not in the block").

Definition SCEvmBWTCornerCases_run_test (fuel : nat) : MF unit :=
  let! '(mc_node, sc_node, address) := evm_bt_start fuel (λ _, ret tt) in
  let! balance := wallet_balance sc_node address in
  let% wei := ft_amount_in_wei in
  do% assert_equal (PInt wei) balance "wrong balance" in
  let! mc_address1 := call mc_node "getnewaddress" [] in
  do! insufficient_balance sc_node mc_address1 address in
  let! balance := failed_withdrawal sc_node mc_address1 address (PInt wei) 53 in
  let% zen := convertWeiToZen (PInt 1) in
  let% zennies := convertZenToZennies zen in
  let! balance := failed_withdrawal sc_node mc_address1 address balance zennies in
  too_many_withdrawals mc_node sc_node mc_address1 address balance.

Definition SCEvmBWTCornerCases (fuel : nat) (o : Options) (shared : SCForgerConfiguration) : TestClass W :=
  AccountChainSetup_class fuel o (evm_bt_setup 10 1500 1500) shared (SCEvmBWTCornerCases_run_test fuel).
End EvmBackward.
