(* ===== verification/SeederScenarios.v ===== *)
(** * Scenarios: nodes that do not handle transactions

    sc_seedernode.py and sc_evm_seedernode.py: a seeder node follows the chain, keeps no
    transactions, and refuses to forge, to hold keys and to make transactions. *)

From S2P Require Import Prelude PyStr Numbers PyVal Host Sim Json Encoding HttpProxy BootInfo McUtil ScUtil.
From S2P Require Import Forging Bootstrap Framework AccountSetup McFramework HttpCalls AccountCalls AccountUtil SmartContract.
From Stdlib Require Import Ascii String.
From stdpp Require Import base list.
From S2P Require Import Scenarios ForgingScenarios StakeScenarios ChainScenarios MempoolScenarios EvmScenarios CswScenarios.
From S2P Require Import ForgerScenarios OwnershipScenarios.
Local Open Scope Z_scope.

(** [(j + 1) * (self.max_account_slots - 1)] and what goes before: the range of the
    transactions of a block. *)
Definition block_batch (slots j : Z) : list Z := zrange (j * slots) ((j + 1) * (slots - 1)).

Section Seeder.
Context {W : Type} `{Nodes W, Clock W, Os W, Rng W} `{EthUtils}.
Local Abbreviation MF := (M (FW W)).

(** ** Shared parts *)

(** [check_error_not_enabled_on_seeder_node], after a call that must raise. *)
Definition check_error_not_enabled_on_seeder_node (error : string) : outcome unit :=
  assert_true (str_contains "Invalid operation on node not supporting transactions." error) "".

Definition not_enabled {A} (m : MF A) : MF unit :=
  let! raised := catch (do! m in ret None)
    (λ e, match e with SCAPIException error => ret (Some error) | _ => raise e end) in
  match raised with
  | Some error => lift (check_error_not_enabled_on_seeder_node error)
  | None => lift (fail "expected exception when calling method")
  end.

(** An endpoint that does not exist. *)
Definition no_endpoint {A} (m : MF A) (message : string) : MF unit :=
  let! raised := catch (do! m in ret false) (λ e, if is_SCAPIException e then ret true else raise e) in
  if raised then ret tt else lift (fail message).

(** [node.method()["result"]["proposition"][field]] *)
Definition new_proposition (node : proxy) (method field : string) : MF pyval :=
  let! r := call node method [] in lift (getpath r ["result"; "proposition"; field]).

(** The configuration of a node; the seeder neither submits nor signs certificates and
    handles no transactions. *)
Definition seeder_configuration (shared : SCForgerConfiguration) (api_key : string) (remote seeder : bool)
    (connection : MCConnectionInfo) : SCNodeConfiguration :=
  SCNodeConfiguration_init connection (negb seeder) (negb seeder) None 100 100 "2m" true
    (PFloat (float_of_dec (Dec 1 (-4)))) shared 300 0 api_key 10000000 [] remote PNone [] None [] "15m" "5m"
    false 0 true DEFAULT_MAX_NONCE_GAP DEFAULT_MAX_ACCOUNT_SLOTS DEFAULT_MAX_MEMPOOL_SLOTS
    DEFAULT_MAX_NONEXEC_POOL_SLOTS DEFAULT_TX_LIFETIME (negb seeder) true.

(** Three nodes, the second one the seeder. *)
Definition seeder_configurations (shared : SCForgerConfiguration) (api_key : string) (remote : bool) (mc_node : proxy)
    : MF (list SCNodeConfiguration) :=
  mmap (λ seeder : bool,
    let! connection := ws_connection mc_node 0 in
    ret (seeder_configuration shared api_key remote seeder connection)) [false; true; false].

Definition seeder_nodes (fuel : nat) : MF (proxy * proxy * proxy * proxy) :=
  let! mc_node := mc 0 in
  let! sc1 := sc 0 in
  let! seeder := sc 1 in
  let! sc3 := sc 2 in
  do! connect_sc_nodes fuel sc1 1 (secs 25) in
  do! connect_sc_nodes fuel sc1 2 (secs 25) in
  ret (mc_node, sc1, seeder, sc3).

(** After a transfer all nodes have the same best block. *)
Definition seeder_synced (fuel : nat) (sc1 seeder sc3 : proxy) : MF unit :=
  do! sync_all fuel in
  do! generate_next_block sc1 "first node" false PNone in
  do! sc_sync_all fuel false in
  let! best_1 := best sc1 in
  let! best_3 := best sc3 in
  let! best_seeder := best seeder in
  do% assert_equal best_1 best_seeder "Seeder node best block is not equal to node 1 best" in
  lift (assert_equal best_3 best_seeder "Seeder node best block is not equal to node 3 best").

(** [len(allTransactions(node, False)['transactionIds'])] *)
Definition pool_length (node : proxy) : MF Z :=
  let! r := allTransactions node false in
  let% ids := getitem r "transactionIds" in
  lift (py_len ids).

Definition check_pool (node : proxy) (n : Z) : MF unit :=
  let! k := pool_length node in lift (assert_equal (PInt n) (PInt k) "").

(** The transaction is pooled by the other nodes only; a block takes it. *)
Definition seeder_pools (fuel : nat) (sc1 seeder sc3 : proxy) : MF unit :=
  do! sleep (secs 5) in
  do! check_pool sc1 1 in
  do! check_pool seeder 0 in
  do! check_pool sc3 1 in
  do! generate_next_block sc1 "first node" false PNone in
  sc_sync_all fuel false.

(** The seeder does not forge. *)
Definition no_forging (seeder : proxy) : MF unit :=
  do! not_enabled (call seeder "block_startForging" []) in
  do! not_enabled (call seeder "block_stopForging" []) in
  let! '(slots_in_epoch, best_slot, best_epoch) := forging_info seeder in
  let '(next_epoch, next_slot) := get_next_epoch_slot best_epoch best_slot slots_in_epoch false in
  not_enabled (block_generate seeder next_epoch next_slot PNone).

(** It has no wallet. *)
Definition no_wallet (o : Options) (seeder : proxy) : MF unit :=
  let message := "expected exception when calling wallet method" in
  do! no_endpoint (new_proposition seeder "wallet_createPrivateKeySecp256k1" "address") message in
  do! no_endpoint (new_proposition seeder "wallet_createVrfSecret" "publicKey") message in
  do! no_endpoint (new_proposition seeder "wallet_createPrivateKey25519" "publicKey") message in
  do! no_endpoint (http_wallet_importSecret seeder (PStr "bbbb") (PStr "fake_api_key")) message in
  no_endpoint (http_wallet_importSecrets seeder (PStr (op_tmpdir o +:+ "/dumpSecrets")) (PStr "fake_api_key"))
    "SCAPIException expected".

(** One of the two roles in certificates is switched on, then off. *)
Definition switch_role (seeder : proxy) (role action : string) : MF unit :=
  let enabled : MF bool :=
    let! r := call seeder ("submitter_isCertificate" +:+ role +:+ "Enabled") [] in
    let% v := getpath r ["result"; "enabled"] in
    ret (truthy v) in
  do! call seeder ("submitter_enableCertificate" +:+ role) [] in
  let! on := enabled in
  do% assert_true on ("Failed to enabling certificate " +:+ action +:+ " on seeder node") in
  do! call seeder ("submitter_disableCertificate" +:+ role) [] in
  let! on := enabled in
  lift (assert_false on ("Failed to disabling certificate " +:+ action +:+ " on seeder node")).

Definition roles_switched (seeder : proxy) : MF unit :=
  do! switch_role seeder "Submitter" "submitting" in
  switch_role seeder "Signer" "signing".

(** A call of the transaction API that is refused. *)
Definition refused_post (seeder : proxy) (method : string) (request : list (string * pyval)) : MF unit :=
  not_enabled (post seeder method request PNone).

(** The blocks are reverted by a fork of the mainchain: the transactions are back in
    the pools of the other nodes, and not in that of the seeder. *)
Definition seeder_reverted (fuel : nat) (mc_node sc1 seeder sc3 : proxy) (hashes : list pyval) : MF unit :=
  do! sc_sync_all fuel false in
  do! check_pool sc1 0 in
  do! check_pool seeder 0 in
  do! check_pool sc3 0 in
  let% first := list_index hashes 0 in
  do! call mc_node "invalidateblock" [first] in
  do! sleep (secs 5) in
  do! call mc_node "generate" [PInt (3 + 1)] in
  do! generate_next_block sc1 "first node" false PNone in
  let! k := pool_length sc1 in
  do% assert_true (0 <? k) "" in
  let! k := pool_length sc3 in
  do% assert_true (0 <? k) "" in
  check_pool seeder 0.

(** ** sc_seedernode.py *)

Definition SCSeederNode_sc_setup_chain (o : Options) (shared : SCForgerConfiguration) : MF unit :=
  let! mc_node := mc 0 in
  let! configurations := seeder_configurations shared DEFAULT_API_KEY false mc_node in
  let% sci := SCCreationInfo_init mc_node (PInt 600) 10 0 SC_CREATION_VERSION_1 7 5 true false NO_KEY_ROTATION_CIRCUIT in
  let! info := bootstrap_sidechain_nodes (run_options_of o) (mkSCNetworkConfiguration sci configurations)
    DefaultBlockTimestampRewind DefaultModel in
  put_info info.

Definition send_ten (sc1 : proxy) (sc_address_3 : pyval) : MF unit :=
  do! sendCoinsToAddress sc1 sc_address_3 (PInt 10) (PInt 0) PNone in ret tt.

(** A withdrawal of the value, as a field of requests. *)
Definition withdrawal_to (mc_address : pyval) (value : Z) : pyval :=
  PList [PDict [("mainchainAddress", mc_address); ("value", PInt value)]].

(** A transaction that spends the box, all but 100 to the account. *)
Definition core_request (box sc_address_1 mc_address2 : pyval) (value : Z) : outcome (list (string * pyval)) :=
  let? id := getitem box "id" in
  let? v := getitem box "value" in
  let? rest := py_sub v (PInt 100) in
  Val [("transactionInputs", PList [PDict [("boxId", id)]]);
       ("regularOutputs", PList [PDict [("publicKey", sc_address_1); ("value", rest)]]);
       ("withdrawalRequests", withdrawal_to mc_address2 value); ("forgerOutputs", PList [])].

(** The calls that make transactions of coins. *)
Definition no_coins (sc1 seeder : proxy) (sc_address_1 sc_address_3 mc_address2 : pyval) : MF unit :=
  do! refused_post seeder "transaction_createCoreTransactionSimplified"
    [("regularOutputs", PList []); ("withdrawalRequests", withdrawal_to mc_address2 1000); ("forgerOutputs", PList []);
     ("fee", PInt 0)] in
  let! r := call sc1 "wallet_allBoxes" [] in
  let% boxes := getpath r ["result"; "boxes"] in
  let% forger_box := getindex boxes 0 in
  let% request := core_request forger_box sc_address_1 mc_address2 1000 in
  do! refused_post seeder "transaction_createCoreTransaction" request in
  do! refused_post seeder "transaction_sendCoinsToAddress"
    [("outputs", PList [PDict [("publicKey", PStr (py_str sc_address_3)); ("value", PInt 10)]]); ("fee", PInt 0)] in
  let% request := core_request forger_box sc_address_1 mc_address2 90 in
  let! created := post sc1 "transaction_createCoreTransaction" request PNone in
  do! not_enabled (
    let% result := getitem created "result" in
    let% text := dumps result in
    call seeder "transaction_sendTransaction" [PStr text]) in
  refused_post seeder "transaction_withdrawCoins" [("outputs", withdrawal_to mc_address2 100); ("fee", PInt 0)].

(** Those that make and spend stakes, open the list of forgers and change keys. *)
Definition no_stakes (sc1 seeder : proxy) (sc_address_1 : pyval) : MF unit :=
  let! rewards_address := new_proposition sc1 "wallet_createPrivateKey25519" "publicKey" in
  let! vrf_address := new_proposition sc1 "wallet_createVrfSecret" "publicKey" in
  do! refused_post seeder "transaction_makeForgerStake"
    [("outputs", PList [PDict [("publicKey", sc_address_1); ("blockSignPublicKey", rewards_address);
                               ("vrfPubKey", vrf_address); ("value", PInt 10000000000)]]); ("fee", PInt 0)] in
  let! r := post sc1 "wallet_allBoxes" [("boxTypeClass", PStr "ForgerBox")] PNone in
  let% boxes := getpath r ["result"; "boxes"] in
  let% box := getindex boxes 0 in
  let% forger_box_id := getitem box "id" in
  let! info := boot_info in
  let% value := py_mul (genesis_account_balance info) (PInt 100000000) in
  do! refused_post seeder "transaction_spendForgingStake"
    [("transactionInputs", PList [PDict [("boxId", forger_box_id)]]);
     ("regularOutputs", PList [PDict [("publicKey", sc_address_1); ("value", value)]]); ("forgerOutputs", PList [])] in
  do! refused_post seeder "transaction_createOpenStakeTransactionSimplified"
    [("forgerProposition", sc_address_1); ("forgerIndex", PInt 0); ("fee", PInt 0); ("format", PBool false);
     ("automaticSend", PBool true)] in
  do! refused_post seeder "transaction_createOpenStakeTransaction"
    [("transactionInput", PDict [("boxId", forger_box_id)]); ("regularOutputProposition", sc_address_1);
     ("forgerIndex", PInt 0); ("fee", PInt 0); ("format", PBool false); ("automaticSend", PBool false)] in
  refused_post seeder "transaction_createKeyRotationTransaction"
    [("keyType", PInt 0); ("keyIndex", PInt 0); ("newKey", PInt 0); ("signingKeySignature", PStr "0");
     ("masterKeySignature", PStr "0"); ("newKeySignature", PStr "0"); ("format", PBool true); ("automaticSend", PBool true)].

(** Withdrawals of the ceased sidechain are enabled, and not on this node. *)
Definition no_csw (seeder : proxy) : MF unit :=
  do! check_csw_enabled seeder in
  forM_ ["csw_cswBoxIds"; "csw_cswInfo"; "csw_nullifier"; "csw_generateCswProof"] (λ method,
    not_enabled (call seeder method [])).

Definition SCSeederNode_run_test (fuel : nat) (o : Options) : MF unit :=
  let! '(mc_node, sc1, seeder, sc3) := seeder_nodes fuel in
  let! sc_address_1 := http_wallet_createPrivateKey25519 sc1 PNone in
  let! sc_address_3 := http_wallet_createPrivateKey25519 sc3 PNone in
  do! transfer_to mc_node sc_address_1 (PDec (Dec 5000 (-1))) true in
  do! seeder_synced fuel sc1 seeder sc3 in
  do! send_ten sc1 sc_address_3 in
  do! seeder_pools fuel sc1 seeder sc3 in
  do! no_forging seeder in
  do! no_wallet o seeder in
  do! roles_switched seeder in
  let! node := mc 0 in
  let! mc_address2 := call node "getnewaddress" [] in
  do! no_coins sc1 seeder sc_address_1 sc_address_3 mc_address2 in
  do! no_stakes sc1 seeder sc_address_1 in
  do! no_csw seeder in
  let! hashes := mmap (λ _,
    do! send_ten sc1 sc_address_3 in
    do! generate_next_block sc1 "first node" false PNone in
    mine mc_node) (zrange 0 3) in
  seeder_reverted fuel mc_node sc1 seeder sc3 hashes.

Definition SCSeederNode (fuel : nat) (o : Options) (shared : SCForgerConfiguration) : TestClass W :=
  mkTestClass W (default_setup_chain o) (default_setup_network fuel o) (SCSeederNode_sc_setup_chain o shared)
    (utxo_sc_setup_network fuel o 3) (SCSeederNode_run_test fuel o).

(** ** sc_evm_seedernode.py *)

Definition seeder_setup : AccountChainSetup :=
  mkAccountChainSetup "Horizen" 1 3 LARGE_WITHDRAWAL_EPOCH_LENGTH (PInt 100)
    (PInt DEFAULT_EVM_APP_GENESIS_TIMESTAMP_REWIND) None [] None false [] 100 false true DEFAULT_MAX_NONCE_GAP
    DEFAULT_MAX_ACCOUNT_SLOTS DEFAULT_MAX_MEMPOOL_SLOTS DEFAULT_MAX_NONEXEC_POOL_SLOTS DEFAULT_TX_LIFETIME
    [None; None; None] 7 5 [].

Definition SCEvmSeederNode_sc_setup_chain (o : Options) (shared : SCForgerConfiguration) : MF unit :=
  let a := seeder_setup in
  let! mc_node := mc 0 in
  let! configurations := seeder_configurations shared (API_KEY a) (ac_remote_keys_manager_enabled a) mc_node in
  let% sci := SCCreationInfo_init mc_node (ac_forward_amount a) (withdrawalEpochLength a) 0 SC_CREATION_VERSION_1 7 5
    false false NO_KEY_ROTATION_CIRCUIT in
  let! info := bootstrap_sidechain_nodes (run_options_of o) (mkSCNetworkConfiguration sci configurations)
    (block_timestamp_rewind a) AccountModel in
  put_info info.

Definition send_self (sc1 : proxy) (address : pyval) (nonce : Z) : MF unit :=
  do! createEIP1559Transaction sc1
    (mkTxArgs address address (PInt nonce) (PInt 230000) (PInt 1) (PStr "") PNone PNone PNone)
    (PInt 900000000) (PInt 900000000) PNone in
  ret tt.

(** The fields of the requests that create transactions. *)
Definition no_signature : list (string * pyval) :=
  [("value", PInt 1); ("data", PNone); ("signature_v", PNone); ("signature_r", PNone); ("signature_s", PNone)].

Definition self_request (address : pyval) (fees : list (string * pyval)) : list (string * pyval) :=
  [("from", address); ("to", address); ("nonce", PInt 0); ("gasLimit", PInt 100000)] ++ fees ++ no_signature.

Definition gas_price_1 : list (string * pyval) := [("gasPrice", PInt 1)].

Definition small_gas_info : pyval :=
  PDict [("gasLimit", PInt 10000); ("maxFeePerGas", PInt 100); ("maxPriorityFeePerGas", PInt 100)].

Definition raw_tx : string :=
  "96dc24d6874a9b01e4a7b7e5b74db504db3731f764293769caef100f551efadf7d378a015faca6ae62ae30a9bf5e3c6aa94f" +:+
  "58597edc381d0ec167fa0c84635e12a2d13ab965866ebf7c7aae458afedef1c17e08eb641135f592774e18401e0104f8e7f8" +:+
  "e0d98e3230332e3133322e39342e31333784787beded84556c094cf8528c39342e3133372e342e31333982765fb840621168" +:+
  "019b7491921722649cd1aa9608f23f8857d782e7495fb6765b821002c4aac6ba5da28a5c91b432e5fcc078931f802ffb5a3a" +:+
  "baba42adee7a0c927ff49ef8528c3136322e3234332e34362e39829dd4b840e437a4836b77ad9d9ffe73ee782ef2614e6d83" +:+
  "70fcf62191a6e488276e23717147073a7ce0b444d485fff5a0c34c4577251a7a990cf80d8542e21b95aa8c5e6cdd8e323033" +:+
  "2e3133322e39342e31333788ffffffffa5aadb3a84556c095384556c0919".

(** The calls that create, send and sign transactions. *)
Definition no_transactions (seeder : proxy) (address : pyval) : MF unit :=
  do! refused_post seeder "transaction_createLegacyEIP155Transaction" (self_request address gas_price_1) in
  do! refused_post seeder "transaction_createEIP1559Transaction"
    (self_request address [("maxPriorityFeePerGas", PInt 1000); ("maxFeePerGas", PInt 1100)]) in
  do! refused_post seeder "transaction_createLegacyTransaction"
    (self_request address gas_price_1 ++ [("outputRawBytes", PBool true)]) in
  do! refused_post seeder "transaction_sendTransaction" [("transactionBytes", PStr raw_tx)] in
  refused_post seeder "transaction_signTransaction" [("from", address); ("transactionBytes", PStr raw_tx)].

(** Stakes, withdrawals, contracts, the list of forgers and keys.  The list of forgers
    is asked for with the request of the contract. *)
Definition no_contracts (sc1 seeder : proxy) (address mc_return_address : pyval) : MF unit :=
  let! blockSignPubKey := new_proposition sc1 "wallet_createPrivateKey25519" "publicKey" in
  let! vrf_public_key := new_proposition sc1 "wallet_createVrfSecret" "publicKey" in
  do! refused_post seeder "transaction_makeForgerStake"
    [("forgerStakeInfo", PDict [("ownerAddress", address); ("blockSignPublicKey", blockSignPubKey);
                                ("vrfPubKey", vrf_public_key); ("value", PInt 10)]); ("nonce", PInt 0)] in
  do! refused_post seeder "transaction_withdrawCoins"
    [("nonce", PInt 0); ("withdrawalRequest", PDict [("mainchainAddress", PStr (py_str mc_return_address)); ("value", PInt 1)]);
     ("gasInfo", small_gas_info)] in
  let! r := call seeder "transaction_allForgingStakes" [] in
  let% stakes := getpath r ["result"; "stakes"] in
  let% stake := getindex stakes 0 in
  let% stake_id := getitem stake "stakeId" in
  do! refused_post seeder "transaction_spendForgingStake" [("stakeId", PStr (py_str stake_id))] in
  let request := [("contractCode", PStr "0x8888")] in
  do! refused_post seeder "transaction_createSmartContract" request in
  do! refused_post seeder "transaction_openForgerList" request in
  refused_post seeder "transaction_createKeyRotationTransaction"
    [("keyType", PInt 0); ("keyIndex", PInt 0); ("newKey", PInt 0); ("signingKeySignature", PStr "0");
     ("masterKeySignature", PStr "0"); ("newKeySignature", PStr "0"); ("nonce", PInt 0); ("gasInfo", small_gas_info)].

(** Links with mainchain addresses. *)
Definition no_links (mc_node seeder : proxy) (address : pyval) : MF unit :=
  let! mc_addr := call mc_node "getnewaddress" [] in
  let% checksum := to_checksum_address address in
  let! mc_signature := sign_with mc_node mc_addr checksum in
  do! refused_post seeder "transaction_sendKeysOwnership"
    [("ownershipInfo", PDict [("scAddress", address); ("mcTransparentAddress", mc_addr); ("mcSignature", mc_signature)])] in
  let! '(addresses, multisig, script) := new_multisig mc_node 3 2 in
  let! mc_signatures := multisig_signatures mc_node addresses (upto_threshold 2) multisig checksum in
  do! refused_post seeder "transaction_sendMultisigKeysOwnership"
    [("ownershipInfo", PDict [("scAddress", address); ("mcMultisigAddress", multisig); ("mcSignatures", PList mc_signatures);
                              ("redeemScript", script)])] in
  refused_post seeder "transaction_removeKeysOwnership"
    [("ownershipInfo", PDict [("scAddress", address); ("mcTransparentAddress", mc_addr)])].

Definition check_rpc_not_allowed (response : pyval) : outcome unit :=
  let? there := has_key "error" response in
  let? _ := assert_true there "" in
  let? message := getpath response ["error"; "message"] in
  let? _ := assert_equal (PStr "Action not allowed") message "" in
  let? code := getpath response ["error"; "code"] in
  assert_equal (PInt 2) code "".

Definition rpc_refused (seeder : proxy) (method : string) (args : list pyval) : MF unit :=
  let! response := call seeder method args in lift (check_rpc_not_allowed response).

Definition rpc_payload : pyval :=
  PDict [("nonce", PStr "0x1");
    ("data", PStr "0xd46e8dd67c5d32be8d46e8dd67c5d32be8058bb8eb970870f072445675058bb8eb970870f072445675");
    ("gasPrice", PStr "0x9184e72a000"); ("gas", PStr "0x76c0"); ("to", PStr "0x52cceccf519c4575a3cbf3bff5effa5e9181cec4");
    ("from", PStr "0x335a48952dfc1434c33878d692c42bede32071f9"); ("value", PStr "0x9184e72a")].

(** The RPC methods that write, and those of the pool. *)
Definition no_rpc (seeder : proxy) (address : pyval) : MF unit :=
  do! rpc_refused seeder "rpc_eth_sendRawTransaction" [PStr raw_tx] in
  do! rpc_refused seeder "rpc_eth_signTransaction"
    [PDict [("type", PInt 0); ("nonce", PInt 10); ("gas", PInt 23000); ("value", PInt 1); ("from", address);
            ("gasPrice", PInt 1000)]] in
  do! rpc_refused seeder "rpc_eth_sign"
    [PList [PStr "0x335a48952dfc1434c33878d692c42bede32071f9"; PStr "0xdeadbeef"]] in
  do! rpc_refused seeder "rpc_eth_sendTransaction" [rpc_payload] in
  do! rpc_refused seeder "rpc_eth_call" [rpc_payload; PStr "latest"] in
  do! rpc_refused seeder "rpc_eth_estimateGas" [rpc_payload] in
  do! rpc_refused seeder "rpc_txpool_status" [] in
  do! rpc_refused seeder "rpc_txpool_content" [] in
  let% prefixed := py_add (PStr "0x") address in
  do! rpc_refused seeder "rpc_txpool_contentFrom" [prefixed] in
  rpc_refused seeder "rpc_txpool_inspect" [].

(** The transactions of a block, one after another: the next nonce. *)
Fixpoint send_batch (sc1 : proxy) (address : pyval) (batch : list Z) (nonce : Z) : MF Z :=
  match batch with
  | [] => ret nonce
  | _ :: batch' =>
      do! send_self sc1 address nonce in
      send_batch sc1 address batch' (nonce + 1)
  end.

(** Blocks full of them, and a mainchain block before each: the hashes of the latter. *)
Fixpoint batch_blocks (mc_node sc1 : proxy) (address : pyval) (blocks : list Z) (nonce : Z) : MF (list pyval) :=
  match blocks with
  | [] => ret []
  | j :: blocks' =>
      let! nonce := send_batch sc1 address (block_batch (ac_max_account_slots seeder_setup) j) nonce in
      let! hash := mine mc_node in
      do! generate_next_block sc1 "first node" false PNone in
      let! hashes := batch_blocks mc_node sc1 address blocks' nonce in
      ret (hash :: hashes)
  end.

Definition SCEvmSeederNode_run_test (fuel : nat) (o : Options) : MF unit :=
  let! '(mc_node, sc1, seeder, sc3) := seeder_nodes fuel in
  let! address := new_evm_address sc1 in
  let! mc_return_address := call mc_node "getnewaddress" [] in
  let! info := boot_info in
  do! forward_transfer_to_sidechain (sidechain_id info) mc_node address (PDec (Dec 5000 (-1))) mc_return_address true in
  do! seeder_synced fuel sc1 seeder sc3 in
  do! send_self sc1 address 0 in
  do! seeder_pools fuel sc1 seeder sc3 in
  do! no_forging seeder in
  do! no_wallet o seeder in
  do! roles_switched seeder in
  do! no_transactions seeder address in
  do! no_contracts sc1 seeder address mc_return_address in
  do! no_links mc_node seeder address in
  do! no_rpc seeder address in
  let! hashes := batch_blocks mc_node sc1 address (zrange 0 3) 1 in
  seeder_reverted fuel mc_node sc1 seeder sc3 hashes.

Definition SCEvmSeederNode (fuel : nat) (o : Options) (shared : SCForgerConfiguration) : TestClass W :=
  mkTestClass W (default_setup_chain o) (ac_setup_network fuel o seeder_setup) (SCEvmSeederNode_sc_setup_chain o shared)
    (ac_sc_setup_network fuel o seeder_setup) (SCEvmSeederNode_run_test fuel o).
End Seeder.
