(* ===== verification/WebsocketScenarios.v ===== *)
(** * Scenarios: websocket servers of the nodes

    websocket_server.py and account_websocket_server.py: requests and subscriptions of
    a websocket client, and the events that follow blocks, transactions and forks.

    The package [websocket] is the parameter of the clients; closing a connection is
    one more operation of it. *)

From S2P Require Import Prelude PyStr Numbers PyVal Host Sim Json Encoding HttpProxy BootInfo McUtil ScUtil.
From S2P Require Import Forging Bootstrap Framework AccountSetup McFramework AccountCalls HttpCalls AccountUtil SmartContract Tools.
From Stdlib Require Import Ascii String.
From stdpp Require Import base list.
From S2P Require Import Scenarios ForgingScenarios StakeScenarios ChainScenarios MempoolScenarios EvmScenarios CswScenarios.
From S2P Require Import KeyRotationScenarios EvmRotationScenarios ForgerScenarios EvmForgerScenarios NativeForgerScenarios SeederScenarios.
Local Open Scope Z_scope.

(** A client of the driver is a client of the world. *)
#[export] Instance fw_websocket {W} `{Websocket W} : Websocket (FW W) := {
  ws_connect := λ url, through (ws_connect url);
  ws_send := λ ws text, through (ws_send ws text);
  ws_recv := λ ws, through (ws_recv ws)
}.

Class WebsocketClose (W : Type) := ws_close : Z → W → (exn + unit) * W.

(** ** Events *)

(** [newTipEvent], [changedMempoolEvent] *)
Record Events := mkEvents { new_tip : pyval; changed_mempool : pyval }.

(** Both variables start as empty texts. *)
Definition no_events : Events := mkEvents (PStr "") (PStr "").

(** [response['msgType'] == 0 and response['answerType'] == n] *)
Definition is_event (response : pyval) (n : Z) : outcome bool :=
  let? t := getitem response "msgType" in
  if py_eqb t (PInt 0) then let? a := getitem response "answerType" in Val (py_eqb a (PInt n)) else Val false.

(** A message is one of the two events, or unexpected. *)
Definition sort_event (e : Events) (response : pyval) : outcome Events :=
  let? tip := is_event response 0 in
  if tip then Val (mkEvents response (changed_mempool e))
  else
    let? changed := is_event response 2 in
    if changed then Val (mkEvents (new_tip e) response)
    else Exc (GenericException "Message not expected").

(** The block of an event or of a reply has no fee payments. *)
Definition NO_FEE_PAYMENTS : pyval := PStr "0000000000000000000000000000000000000000000000000000000000000000".

Definition check_no_fee_payments (payload : pyval) : outcome unit :=
  let? hash := getpath payload ["block"; "header"; "feePaymentsHash"] in
  let? _ := assert_equal hash NO_FEE_PAYMENTS "" in
  let? there := has_key "feePayments" payload in
  assert_false there "".

(** Fields of a payload against expected values. *)
Definition check_field (payload : pyval) (field : string) (expected : pyval) : outcome unit :=
  let? v := getitem payload field in assert_equal v expected "".

(** [assert_equal(len(payload[field]), n)] *)
Definition check_count_of (payload : pyval) (field : string) (n : Z) : outcome unit :=
  let? v := getitem payload field in
  let? k := py_len v in
  assert_equal (PInt k) (PInt n) "".

(** The size and the number of the transactions of the memory pool. *)
Definition check_raw_pool (payload : pyval) (n : Z) : outcome unit :=
  let? s := getitem payload "size" in
  let? size := py_int s in
  let? _ := assert_equal (PInt size) (PInt n) "" in
  check_count_of payload "transactions" n.

(** The hash and the height of a payload, and its block, without fee payments. *)
Definition check_block_place (payload block : pyval) (height : Z) : outcome unit :=
  let? _ := check_field payload "hash" block in
  check_field payload "height" (PInt height).

Definition check_block_content (payload content : pyval) : outcome unit :=
  let? _ := check_field payload "block" content in
  let? there := has_key "feePayments" payload in
  assert_true (negb there) "".

(** The hashes that follow the locator. *)
Definition check_hashes (payload : pyval) (height : Z) (hashes : list pyval) : outcome unit :=
  let? _ := check_field payload "height" (PInt height) in
  let? _ := check_count_of payload "hashes" (Z.of_nat (length hashes)) in
  match hashes with
  | [] => Val tt
  | h :: _ =>
      let? l := getitem payload "hashes" in
      let? x := getindex l 0 in
      assert_equal x h ""
  end.

(** ** Fields of the messages of the account model *)

Definition checkWsResponseStaticField (response : pyval) (method : string) (subscription : pyval) : outcome unit :=
  let? _ := check_field response "jsonrpc" (PStr "2.0") in
  let? _ := check_field response "method" (PStr method) in
  let? s := getpath response ["params"; "subscription"] in
  assert_equal s subscription "".

(** [assert_equal(a[field], b[field])] for the fields in order *)
Fixpoint same_fields (a b : pyval) (fields : list string) : outcome unit :=
  match fields with
  | [] => Val tt
  | f :: fields' =>
      let? x := getitem a f in
      let? y := getitem b f in
      let? _ := assert_equal x y "" in
      same_fields a b fields'
  end.

Definition block_fields : list string :=
  ["extraData"; "gasLimit"; "gasUsed"; "logsBloom"; "miner"; "nonce"; "number"; "parentHash"; "receiptsRoot"; "sha3Uncles";
   "stateRoot"; "timestamp"; "transactionsRoot"; "hash"].

Definition checkWsBlockResponse (wsBlock rpcBlock : pyval) : outcome unit :=
  let? _ := check_field wsBlock "difficulty" (PStr "0x0") in
  same_fields wsBlock rpcBlock block_fields.

(** [assert_equal(wsLog[field], rpcLog["logs"][0][field])] for the fields in order *)
Fixpoint same_log_fields (wsLog rpcLog : pyval) (fields : list string) : outcome unit :=
  match fields with
  | [] => Val tt
  | f :: fields' =>
      let? x := getitem wsLog f in
      let? logs := getitem rpcLog "logs" in
      let? log := getindex logs 0 in
      let? y := getitem log f in
      let? _ := assert_equal x y "" in
      same_log_fields wsLog rpcLog fields'
  end.

Definition checkWsLogResponse (wsLog rpcLog address : pyval) (removed : bool) : outcome unit :=
  let? _ := check_field wsLog "address" address in
  let? _ := same_fields wsLog rpcLog ["blockHash"; "blockNumber"] in
  let? _ := same_log_fields wsLog rpcLog ["data"; "logIndex"; "transactionHash"; "transactionIndex"; "topics"] in
  check_field wsLog "removed" (PBool removed).

(** [l[:-1]] and [l + [x]] of topics *)
Definition all_but_last (v : pyval) : outcome pyval :=
  match v with PList l => Val (PList (removelast l)) | _ => Exc TypeError end.

Section Websockets.
Context {W : Type} `{Nodes W, Clock W, Os W, Rng W} `{EthUtils, EthAbi, EthHash, EthHex} `{Websocket W, WebsocketClose W}.
Local Abbreviation MF := (M (FW W)).

(** ** Requests *)

Definition ws_receive (ws : Z) : MF pyval := let! text := recv ws in lift (loads text).

(** [for i in range (0,2)]: the messages are sorted as they arrive. *)
Fixpoint receive_events (n : nat) (e : Events) (ws : Z) : MF Events :=
  match n with
  | O => ret e
  | S n' =>
      let! response := ws_receive ws in
      let% e := sort_event e response in
      receive_events n' e ws
  end.

Definition ws_request (ws type : Z) (payload : outcome string) : MF pyval :=
  let% payload := payload in
  let! text := WebsocketClient_sendMessage ws REQUEST_MSG_TYPE 0 type payload in
  lift (loads text).

(** The payload of a reply, after the check of its fields. *)
Definition ws_payload (response : pyval) (type : Z) : outcome pyval :=
  let? _ := checkMessageStaticFields response RESPONSE_MSG_TYPE (PInt 0) (PInt type) in
  getitem response "responsePayload".

Definition ws_answer (ws type : Z) (payload : outcome string) : MF pyval :=
  let! response := ws_request ws type payload in lift (ws_payload response type).

(** A request that is answered with an error. *)
Definition ws_refused (ws type : Z) (payload : outcome string) (code : Z) (text : string) : MF unit :=
  let! response := ws_request ws type payload in
  do% checkMessageStaticFields response ERROR_MSG_TYPE (PInt 0) (PInt type) in
  do% check_field response "errorCode" (PInt code) in
  lift (check_field response "responsePayload" (PStr text)).

(** ** websocket_server.py *)

Definition ws_port : Z := 8024.

Definition SCWsServer_sc_setup_chain (o : Options) (shared : SCForgerConfiguration) : MF unit :=
  let! mc_node := mc 0 in
  let! connection := ws_connection mc_node 0 in
  let configuration := SCNodeConfiguration_init connection true true None 100 100 "2m" true
    (PFloat (float_of_dec (Dec 1 (-4)))) shared 300 0 DEFAULT_API_KEY 10000000 [] false PNone [] None [] "15m" "5m"
    true ws_port true DEFAULT_MAX_NONCE_GAP DEFAULT_MAX_ACCOUNT_SLOTS DEFAULT_MAX_MEMPOOL_SLOTS
    DEFAULT_MAX_NONEXEC_POOL_SLOTS DEFAULT_TX_LIFETIME true true in
  let! info := bootstrap o mc_node 500 10 [configuration] (PInt (720 * 120 * 5)) in
  put_info info.

(** [generate_next_blocks(sc_node1, "", 1)[0]] *)
Definition forge_unnamed (sc_node : proxy) : MF pyval :=
  let! l := generate_next_blocks sc_node "" 1 in lift (list_index l 0).

(** Coins for the account: the first block. *)
Definition ws_start (fuel : nat) (mc_node sc_node : proxy) : MF pyval :=
  let! info := boot_info in
  let% account := account_of info in
  do! sc_sync_all fuel false in
  do! transfer_to mc_node (publicKey account) (genesis_account_balance info) true in
  do! sc_sync_all fuel false in
  let! block := forge_unnamed sc_node in
  do! sc_sync_all fuel false in
  let! balance := http_wallet_balance sc_node PNone in
  let% twice := py_mul (genesis_account_balance info) (PInt 2) in
  let% expected := py_mul twice (PInt 100000000) in
  do% assert_equal balance expected "" in
  do! sleep (secs 5) in
  ret block.

Definition hashes_request (l : list pyval) : outcome string := dumps (PDict [("hash", PList l)]).

(** An empty memory pool. *)
Definition ws_empty_pool (ws : Z) : MF unit :=
  let! payload := ws_answer ws SEND_RAW_MEMPOOL_REQUEST (Val "{}") in
  do% check_raw_pool payload 0 in
  let! payload := ws_answer ws GET_MEMPOOL_TXS_REQUEST (hashes_request [PStr "non_existing_txid"]) in
  lift (check_count_of payload "transactions" 0).

(** One transaction in it; the first message received is the event. *)
Definition ws_one_pooled (fuel : nat) (sc_node : proxy) (ws : Z) : MF unit :=
  let! publicKey2 := http_wallet_createPrivateKey25519 sc_node PNone in
  let! txid := sendCoinsToAddress sc_node publicKey2 (PInt 50000000) (PInt 1000) PNone in
  do! sc_sync_all fuel false in
  do! WebsocketClient_sendMessage ws REQUEST_MSG_TYPE 0 SEND_RAW_MEMPOOL_REQUEST "{}" in
  let! response := ws_receive ws in
  let% payload := ws_payload response SEND_RAW_MEMPOOL_REQUEST in
  do% check_raw_pool payload 1 in
  let% txs := getitem payload "transactions" in
  let% tx := getindex txs 0 in
  do% assert_equal tx txid "" in
  let! payload := ws_answer ws GET_MEMPOOL_TXS_REQUEST (hashes_request [txid; PStr "non_existing_txid"]) in
  do% check_count_of payload "transactions" 1 in
  let! txJson := http_transaction_findById sc_node txid true in
  let% txs := getitem payload "transactions" in
  let% tx := getindex txs 0 in
  let% expected := getitem txJson "transaction" in
  do% assert_equal tx expected "" in
  ws_refused ws GET_MEMPOOL_TXS_REQUEST
    (hashes_request (txid :: map (λ i, PStr (str_of_Z i)) (zrange 2 12))) 4 "Exceed max number of transactions (10)!".

(** A block empties it: the block. *)
Definition ws_mined (fuel : nat) (sc_node : proxy) (ws : Z) : MF pyval :=
  let! block := forge_unnamed sc_node in
  do! sc_sync_all fuel false in
  do! recv ws in
  do! recv ws in
  let! payload := ws_answer ws SEND_RAW_MEMPOOL_REQUEST (Val "{}") in
  do% check_raw_pool payload 0 in
  ret block.

Definition UNKNOWN_BLOCK : pyval := PStr "d1d0af586e3e01abb7c9f493cb9bbfc2ff863e87cb035325d9e22df37fb1660e".

(** A block by its hash and by its height, and blocks that do not exist. *)
Definition ws_blocks (sc_node : proxy) (ws : Z) (block : pyval) : MF unit :=
  let! payload := ws_answer ws GET_SINGLE_BLOCK_REQUEST (dumps (PDict [("hash", block)])) in
  do% check_block_place payload block 3 in
  let! blockJson := http_block_findById sc_node block in
  let% content := getitem blockJson "block" in
  do% check_block_content payload content in
  let! payload := ws_answer ws GET_SINGLE_BLOCK_REQUEST (dumps (PDict [("height", PInt 3)])) in
  do% check_block_place payload block 3 in
  do% check_block_content payload content in
  do! ws_refused ws GET_SINGLE_BLOCK_REQUEST (dumps (PDict [("hash", UNKNOWN_BLOCK)])) 5 "Invalid parameter" in
  ws_refused ws GET_SINGLE_BLOCK_REQUEST (dumps (PDict [("height", PInt 5)])) 5 "Invalid parameter".

Definition locator_request (l : list pyval) : outcome string :=
  dumps (PDict [("locatorHashes", PList l); ("limit", PInt 2)]).

(** The blocks after a common one. *)
Definition ws_hashes (ws : Z) (block0 block1 : pyval) : MF unit :=
  let! payload := ws_answer ws GET_NEW_BLOCK_HASHES_REQUEST (locator_request [UNKNOWN_BLOCK]) in
  do% check_hashes payload (-1) [] in
  let! payload := ws_answer ws GET_NEW_BLOCK_HASHES_REQUEST (locator_request [block0]) in
  do% check_hashes payload 3 [block1] in
  let! payload := ws_answer ws GET_NEW_BLOCK_HASHES_REQUEST (locator_request [block0; block1]) in
  lift (check_hashes payload 3 [block1]).

(** The event of a memory pool with these transactions. *)
Definition check_pool_event (event : pyval) (transactions : list pyval) : outcome unit :=
  let? _ := checkMessageStaticFields event EVENT_MSG_TYPE (PInt (-1)) (PInt MEMPOOL_CHANGED_EVENT) in
  let? payload := getitem event "eventPayload" in
  let? _ := check_field payload "size" (PInt (Z.of_nat (length transactions))) in
  check_field payload "transactions" (PList transactions).

(** A block makes both events, in any order; a transaction makes one. *)
Definition ws_events (fuel : nat) (sc_node : proxy) (ws : Z) (publicKey1 : pyval) : MF unit :=
  do! forge_unnamed sc_node in
  do! sc_sync_all fuel false in
  let! e := receive_events 2 no_events ws in
  do% checkMessageStaticFields (new_tip e) EVENT_MSG_TYPE (PInt (-1)) (PInt UPDATE_TIP_EVENT) in
  let% payload := getitem (new_tip e) "eventPayload" in
  let! bestBlockJson := http_block_best sc_node in
  let% id := getitem bestBlockJson "id" in
  do% check_block_place payload id 4 in
  do% check_field payload "block" bestBlockJson in
  do% check_pool_event (changed_mempool e) [] in
  let! txid := sendCoinsToAddress sc_node publicKey1 (PInt 40000000) (PInt 1000) PNone in
  do! sc_sync_all fuel false in
  let! event := ws_receive ws in
  lift (check_pool_event event [txid]).

(** A block and its two events, after mainchain blocks. *)
Definition ws_advance (sc_node : proxy) (ws : Z) : MF unit :=
  do! forge_unnamed sc_node in
  do! recv ws in
  do! recv ws in
  ret tt.

(** The sidechain is alive in epoch 1. *)
Definition ws_check_alive (mc_node : proxy) : MF unit :=
  let! info := boot_info in
  let field (f : string) : MF pyval :=
    let! r := call mc_node "getscinfo" [sidechain_id info] in
    let% items := getitem r "items" in
    let% item := getindex items 0 in
    lift (getitem item f) in
  let! state := field "state" in
  do% assert_equal state (PStr "ALIVE") "" in
  let! epoch := field "epoch" in
  lift (assert_equal epoch (PInt 1) "").

(** An event of the last two messages, if it is that of a new tip, has no payments. *)
Definition check_tip_payments (response : pyval) : outcome unit :=
  let? tip := is_event response 0 in
  if tip then let? payload := getitem response "eventPayload" in check_no_fee_payments payload else Val tt.

(** An epoch without transactions has no fee payments. *)
Definition ws_no_payments (fuel : nat) (mc_node sc_node : proxy) (ws : Z) : MF unit :=
  do! ws_advance sc_node ws in
  do! call mc_node "generate" [PInt 8] in
  do! ws_advance sc_node ws in
  do! call mc_node "generate" [PInt 1] in
  do! ws_advance sc_node ws in
  do! await_certificate 10 fuel mc_node sc_node in
  do! ws_check_alive mc_node in
  do! call mc_node "generate" [PInt 9] in
  let! lastBlock := forge_unnamed sc_node in
  do! forM_ (zrange 0 2) (λ _, let! response := ws_receive ws in lift (check_tip_payments response)) in
  let! response := ws_request ws GET_SINGLE_BLOCK_REQUEST (dumps (PDict [("hash", lastBlock)])) in
  let% payload := getitem response "responsePayload" in
  lift (check_no_fee_payments payload).

Definition SCWsServer_run_test (fuel : nat) : MF unit :=
  let! mc_node := mc 0 in
  let! sc_node := sc 0 in
  let! block0 := ws_start fuel mc_node sc_node in
  let! ws := create_connection ("ws://localhost:" +:+ str_of_Z ws_port +:+ "/") in
  do! ws_empty_pool ws in
  do! ws_one_pooled fuel sc_node ws in
  let! block1 := ws_mined fuel sc_node ws in
  do! ws_blocks sc_node ws block1 in
  do! ws_hashes ws block0 block1 in
  let! info := boot_info in
  let% account := account_of info in
  do! ws_events fuel sc_node ws (publicKey account) in
  ws_no_payments fuel mc_node sc_node ws.

Definition SCWsServer (fuel : nat) (o : Options) (shared : SCForgerConfiguration) : TestClass W :=
  mkTestClass W (default_setup_chain o) (default_setup_network fuel o) (SCWsServer_sc_setup_chain o shared)
    (utxo_sc_setup_network fuel o 1) (SCWsServer_run_test fuel).

(** ** account_websocket_server.py *)

Definition account_ws_port : Z := 8026.

(** [json.loads(ws.sendMessage(ws_connection, SC_NODE1_ID, request, params))] *)
Definition account_request (ws : Z) (request : string) (params : list pyval) : MF pyval :=
  let! text := AccountWebsocketClient_sendMessage ws (PInt 1) request (PList params) in lift (loads text).

Definition subscribe (ws : Z) (params : list pyval) : MF pyval :=
  let! response := account_request ws SUBSCRIBE_REQUEST params in lift (getitem response "result").

Definition unsubscribe (ws : Z) (subscription : pyval) : MF pyval :=
  account_request ws UNSUBSCRIBE_REQUEST [subscription].

Definition rpc_best_block (node : proxy) : MF pyval :=
  call node "rpc_eth_getBlockByNumber" [PStr "latest"; PStr "true"].

(** The nodes have the same best block. *)
Definition same_best_block (sc1 sc2 : proxy) : MF unit :=
  let! b1 := rpc_best_block sc1 in
  let! b2 := rpc_best_block sc2 in
  lift (assert_equal b1 b2 "").

Definition disconnect_pair (sc1 sc2 : proxy) : MF unit :=
  let! l := get_sc_nodes in
  do! disconnect_sc_nodes_bi l 0 1 in
  same_best_block sc1 sc2.

Definition forge_second (sc2 : proxy) : MF unit :=
  do! generate_next_block sc2 "second node" false PNone in ret tt.

Definition three_blocks (sc2 : proxy) : MF unit := forM_ (zrange 0 3) (λ _, forge_second sc2).

(** The nodes are connected again, and agree after one more block. *)
Definition reconnect_pair (fuel : nat) (sc2 : proxy) (seconds : Z) : MF unit :=
  do! connect_sc fuel 0 1 in
  do! forge_second sc2 in
  let! l := get_sc_nodes in
  sync_sc_blocks fuel l (secs seconds).

Definition check_number (node : proxy) (number : string) : MF unit :=
  let! b := rpc_best_block node in
  let% n := getpath b ["result"; "number"] in
  lift (assert_equal (PStr number) n "").

Record WsAccounts := mkWsAccounts {
  wa_evm : pyval;          (* self.evm_address *)
  wa_first : pyval;        (* sc_node1_address *)
  wa_second : pyval        (* sc_node2_address *)
}.

(** The second node has coins and a stake, two epochs old. *)
Definition ws_accounts (fuel : nat) (sc1 sc2 : proxy) : MF WsAccounts :=
  let! s := sc_ac_setup fuel true true default_ft in
  let! first := new_evm_address sc1 in
  let! second := new_evm_address sc2 in
  let! info := boot_info in
  let! mc_node := mc 0 in
  do! forward_transfer_to_sidechain (sidechain_id info) mc_node second (PInt 50) (ac_mc_return_address s) true in
  do! forge_synced fuel sc1 "first node" true in
  let! vrf := new_proposition sc2 "wallet_createVrfSecret" "publicKey" in
  let! key := new_proposition sc2 "wallet_createPrivateKey25519" "publicKey" in
  let% zennies := convertZenToZennies (PInt 33) in
  let! result := ac_makeForgerStake sc2 second key vrf (PInt zennies) PNone in
  do! sc_sync_all fuel false in
  do! forge_synced fuel sc1 "first node" false in
  let% tx_id := getpath result ["result"; "transactionId"] in
  let! receipt := receipt_0x sc2 tx_id in
  do! check_status receipt 1 "Make forger stake with native smart contract as owner should create a failed tx" in
  do! forge_synced fuel sc1 "first node" true in
  do! forge_synced fuel sc1 "first node" true in
  ret (mkWsAccounts (ac_evm_address s) first second).

(** New blocks, and the blocks of a fork; the last block is not announced. *)
Definition ws_new_heads (fuel : nat) (sc1 sc2 : proxy) (ws : Z) : MF unit :=
  let! subscription := subscribe ws [PStr NEW_HEADS_SUBSCRIPTION] in
  do! forge_synced fuel sc1 "first node" false in
  let! response := ws_receive ws in
  let! rpc_block := rpc_best_block sc1 in
  do% checkWsResponseStaticField response SUBSCRIBE_RESPONSE subscription in
  let% block := getpath response ["params"; "result"] in
  let% expected := getitem rpc_block "result" in
  do% checkWsBlockResponse block expected in
  do! disconnect_pair sc1 sc2 in
  do! three_blocks sc2 in
  do! check_number sc2 "0xa" in
  do! generate_next_block sc1 "first node" false PNone in
  do! check_number sc1 "0x8" in
  do! reconnect_pair fuel sc2 60 in
  do! same_best_block sc1 sc2 in
  do! forM_ (zrange 0 5) (λ _, do! ws_receive ws in ret tt) in
  let! subscription2 := subscribe ws [PStr NEW_HEADS_SUBSCRIPTION] in
  do! unsubscribe ws subscription in
  do! unsubscribe ws subscription2 in
  forge_synced fuel sc1 "first node" false.

(** [createLegacyTransaction(node, fromAddress=..., toAddress=..., value=convertZenToWei(zen))] *)
Definition send_zen (node : proxy) (from to : pyval) (zen : Z) : MF pyval :=
  let% wei := convertZenToWei (PInt zen) in
  createLegacyTransaction node (mkTxArgs from to PNone (PInt 21000) (PInt wei) (PStr "") PNone PNone PNone)
    (PInt 1000000000) PNone false.

(** The next message is the event of the transaction. *)
Definition ws_pending_event (ws : Z) (subscription tx_hash : pyval) : MF unit :=
  let! response := ws_receive ws in
  do% checkWsResponseStaticField response SUBSCRIBE_RESPONSE subscription in
  let% result := getpath response ["params"; "result"] in
  let% expected := add_0x_prefix tx_hash in
  lift (assert_equal result expected "").

(** Transactions of the first node are announced, also when a fork returns them to the
    memory pool; those of the other node are not. *)
Definition ws_pending (fuel : nat) (sc1 sc2 : proxy) (a : WsAccounts) (ws : Z) : MF unit :=
  let! subscription := subscribe ws [PStr NEW_PENDING_TRANSACTIONS_SUBSCRIPTION] in
  do! send_zen sc2 PNone (wa_first a) 5 in
  do! sc_sync_all fuel false in
  do! forge_synced fuel sc1 "first node" false in
  let! tx_hash_2 := send_zen sc1 (wa_first a) (wa_second a) 3 in
  do! sc_sync_all fuel false in
  do! forge_synced fuel sc1 "first node" false in
  do! ws_pending_event ws subscription tx_hash_2 in
  do! forge_synced fuel sc1 "first node" false in
  let! address2 := new_evm_address sc1 in
  do! send_zen sc2 PNone address2 5 in
  do! sc_sync_all fuel false in
  do! forge_synced fuel sc1 "first node" false in
  let! tx_hash_2 := send_zen sc1 address2 (wa_second a) 3 in
  do! sc_sync_all fuel false in
  do! ws_pending_event ws subscription tx_hash_2 in
  do! forge_synced fuel sc1 "first node" false in
  do! disconnect_pair sc1 sc2 in
  let! tx_hash_3 := send_zen sc1 address2 (wa_second a) 1 in
  do! ws_pending_event ws subscription tx_hash_3 in
  do! generate_next_block sc1 "first node" false PNone in
  do! three_blocks sc2 in
  do! reconnect_pair fuel sc2 120 in
  do! ws_pending_event ws subscription tx_hash_3 in
  do! unsubscribe ws subscription in
  ret tt.

(** A contract of tokens with its supply: contract, address and another account. *)
Definition ws_token (sc1 : proxy) (a : WsAccounts) : MF (SmartContract * pyval * pyval) :=
  let! c := SmartContract_init "TestERC20" in
  let! address := deploy_smart_contract sc1 c (wa_evm a) [] RPC_LEGACY true in
  let% address := lower_of address in
  let read (method : string) (args : list pyval) : MF unit :=
    let! res := static_on sc1 c address (wa_evm a) method args 0 in
    let% v := getindex res 0 in
    lift (assert_equal v (PInt 100) "") in
  do! read "totalSupply()" [] in
  do! read "balanceOf(address)" [wa_evm a] in
  let! other := new_evm_address sc1 in
  ret (c, address, other).

(** The transfer of a token: its transaction. *)
Definition transfer_token (sc1 : proxy) (t : SmartContract * pyval * pyval) (a : WsAccounts) : MF pyval :=
  let '(c, address, other) := t in
  call_on sc1 c address (wa_evm a) "transfer(address,uint256)" [other; PInt 1] (PInt 0).

Definition token_mined (fuel : nat) (sc1 : proxy) (t : SmartContract * pyval * pyval) (a : WsAccounts) : MF pyval :=
  let! res := transfer_token sc1 t a in
  do! sc_sync_all fuel false in
  do! forge_synced fuel sc1 "first node" false in
  ret res.

Definition subscribe_logs (ws : Z) (filter : list (string * pyval)) : MF pyval :=
  subscribe ws [PStr "logs"; PDict filter].

(** The next message is the event of a log of the receipt. *)
Definition check_log_event (response subscription rpc_tx_receipt address : pyval) (removed : bool) : outcome unit :=
  let? _ := checkWsResponseStaticField response SUBSCRIBE_RESPONSE subscription in
  let? log := getpath response ["params"; "result"] in
  let? receipt := getitem rpc_tx_receipt "result" in
  checkWsLogResponse log receipt address removed.

Definition ws_log_event (sc1 : proxy) (ws : Z) (subscription res address : pyval) : MF pyval :=
  let! response := ws_receive ws in
  let! rpc_tx_receipt := call sc1 "rpc_eth_getTransactionReceipt" [res] in
  do% check_log_event response subscription rpc_tx_receipt address false in
  ret rpc_tx_receipt.

(** A filter that lets the log of a transfer through: the receipt. *)
Definition log_announced (fuel : nat) (sc1 : proxy) (ws : Z) (t : SmartContract * pyval * pyval) (a : WsAccounts)
    (filter : list (string * pyval)) : MF pyval :=
  let! subscription := subscribe_logs ws filter in
  let! res := token_mined fuel sc1 t a in
  let! receipt := ws_log_event sc1 ws subscription res t.1.2 in
  do! unsubscribe ws subscription in
  ret receipt.

(** One that does not: the next message is the reply to the unsubscription. *)
Definition log_hidden (fuel : nat) (sc1 : proxy) (ws : Z) (t : SmartContract * pyval * pyval) (a : WsAccounts)
    (filter : list (string * pyval)) : MF unit :=
  let! subscription := subscribe_logs ws filter in
  do! token_mined fuel sc1 t a in
  let! response := unsubscribe ws subscription in
  lift (check_field response "result" (PBool true)).

Definition unused_topic : pyval := PStr "0xedf252ad1be2c89b69c2b068fc378daa952ba7f163c4a11628f55a4df523b3ef".

(** Filters by address and by topics. *)
Definition ws_filters (fuel : nat) (sc1 sc2 : proxy) (ws : Z) (t : SmartContract * pyval * pyval) (a : WsAccounts)
    : MF unit :=
  let address := t.1.2 in
  do! log_announced fuel sc1 ws t a [("address", address)] in
  let! unused := new_evm_address sc2 in
  let% unused := add_0x_prefix unused in
  let! receipt := log_announced fuel sc1 ws t a [("address", PList [address; unused])] in
  let% logs := getpath receipt ["result"; "logs"] in
  let% log := getindex logs 0 in
  let% topics := getitem log "topics" in
  let% some := all_but_last topics in
  do! log_announced fuel sc1 ws t a [("address", PList [address]); ("topics", some)] in
  let% more := py_add topics (PList [unused_topic]) in
  do! log_hidden fuel sc1 ws t a [("address", PList [address]); ("topics", more)] in
  log_hidden fuel sc1 ws t a [("address", PList [address]); ("topics", PList [unused_topic])].

(** The log of a block that a fork removes is announced as removed, and again when
    another block includes the transaction. *)
Definition ws_removed_log (fuel : nat) (sc1 sc2 : proxy) (ws : Z) (t : SmartContract * pyval * pyval) (a : WsAccounts)
    : MF unit :=
  let address := t.1.2 in
  let! subscription := subscribe_logs ws [("address", PList [address])] in
  do! disconnect_pair sc1 sc2 in
  let! res := transfer_token sc1 t a in
  do! generate_next_block sc1 "first node" false PNone in
  let! receipt := ws_log_event sc1 ws subscription res address in
  do! three_blocks sc2 in
  do! reconnect_pair fuel sc2 60 in
  let! response := ws_receive ws in
  do% check_log_event response subscription receipt address true in
  do! forge_synced fuel sc1 "first node" false in
  do! ws_log_event sc1 ws subscription res address in
  ret tt.

Definition SCWsAccountServerTest_run_test (fuel : nat) : MF unit :=
  let! ws := create_connection ("ws://localhost:" +:+ str_of_Z account_ws_port +:+ "/") in
  let! sc1 := sc 0 in
  let! sc2 := sc 1 in
  let! a := ws_accounts fuel sc1 sc2 in
  do! ws_new_heads fuel sc1 sc2 ws in
  do! ws_pending fuel sc1 sc2 a ws in
  let! t := ws_token sc1 a in
  do! ws_filters fuel sc1 sc2 ws t a in
  do! ws_removed_log fuel sc1 sc2 ws t a in
  run_os (through (ws_close ws)).

Definition account_ws_setup : AccountChainSetup :=
  mkAccountChainSetup "Horizen" 1 2 20 (PInt 100) (PInt DEFAULT_EVM_APP_GENESIS_TIMESTAMP_REWIND) None [] None false [] 100
    true true DEFAULT_MAX_NONCE_GAP DEFAULT_MAX_ACCOUNT_SLOTS DEFAULT_MAX_MEMPOOL_SLOTS DEFAULT_MAX_NONEXEC_POOL_SLOTS
    DEFAULT_TX_LIFETIME [Some account_ws_port; None] 7 5 [].

Definition SCWsAccountServerTest (fuel : nat) (o : Options) (shared : SCForgerConfiguration) : TestClass W :=
  AccountChainSetup_class fuel o account_ws_setup shared (SCWsAccountServerTest_run_test fuel).
End Websockets.
