(* ===== verification/RewardScenarios.v ===== *)
(** * Scenarios: rewards of forgers and delegators

    sc_evm_forger_and_delegator_rewards.py and sc_evm_forging_fee_payments.py: the fees
    of the blocks of an epoch and a part of the mainchain's reward are shared among
    forgers and their delegators; the scripts compute what each is paid and compare it
    with the payments the nodes report.

    The selector of a method is a parameter, as for the links of accounts. *)

From S2P Require Import Prelude PyStr Numbers PyVal Host Sim Json Encoding HttpProxy BootInfo McUtil ScUtil.
From S2P Require Import Forging Bootstrap Framework AccountSetup McFramework HttpCalls AccountCalls AccountUtil SmartContract Tools.
From Stdlib Require Import Ascii String.
From stdpp Require Import base list.
From S2P Require Import Scenarios ForgingScenarios StakeScenarios ChainScenarios MempoolScenarios CertScenarios EvmScenarios CswScenarios.
From S2P Require Import KeyRotationScenarios EvmRotationScenarios ForgerScenarios EvmForgerScenarios NativeForgerScenarios.
From S2P Require Import OwnershipScenarios SeederScenarios.
Local Open Scope Z_scope.

(** ** Shares of forgers and delegators *)

(** What is left of the fees, by forger; the first forger before and after the fork. *)
Record Remainders := mkRemainders {
  rem_1_before : Z; rem_1_after : Z; rem_2 : Z; rem_3 : Z; rem_4 : Z; rem_5 : Z; rem_6 : Z; rem_7 : Z
}.

(** [calculate_remainders] returns [None] for other numbers, which cannot be unpacked. *)
Definition calculate_remainders (block_fee_remainder : Z) : outcome Remainders :=
  let r := block_fee_remainder in
  if r <=? 2 then Val (mkRemainders r 0 0 0 0 0 0 0)
  else if r <=? 5 then Val (mkRemainders 2 (r - 2) 0 0 0 0 0 0)
  else if r <=? 7 then Val (mkRemainders 2 3 (r - 5) 0 0 0 0 0)
  else if r <=? 9 then Val (mkRemainders 2 3 2 (r - 7) 0 0 0 0)
  else if r <=? 11 then Val (mkRemainders 2 3 2 2 (r - 9) 0 0 0)
  else if r <=? 13 then Val (mkRemainders 2 3 2 2 2 (r - 11) 0 0)
  else if r =? 14 then Val (mkRemainders 2 3 2 2 2 2 1 0)
  else if r =? 15 then Val (mkRemainders 2 3 2 2 2 2 1 1)
  else Exc TypeError.

(** A reward: the part of the mainchain and the part of the fees. *)
Record Reward := mkReward { from_mc : Z; from_fees : Z }.

Definition reward_total (r : Reward) : Z := from_mc r + from_fees r.

Record Rewards := mkRewards {
  forger_1_before : Reward; forger_1_after : Reward; forger_2 : Reward; forger_3 : Reward; forger_4 : Reward;
  forger_5 : Reward; forger_6 : Reward; forger_7 : Reward
}.

(** The reward of a number of the 16 blocks. *)
Definition blocks_reward (per_block_mc per_block_fee n extra : Z) : Reward :=
  mkReward (per_block_mc * n) (per_block_fee * n + extra).

Definition forger_rewards (per_block_mc total_block_fee tips1 tips2 : Z) : outcome Rewards :=
  let fee := total_block_fee / 16 in
  let? r := calculate_remainders (total_block_fee mod 16) in
  let reward := blocks_reward per_block_mc fee in
  Val (mkRewards (reward 2 (rem_1_before r)) (reward 3 (tips1 + rem_1_after r)) (reward 3 (tips2 + rem_2 r))
         (reward 2 (rem_3 r)) (reward 2 (rem_4 r)) (reward 2 (rem_5 r)) (reward 1 (rem_6 r)) (reward 1 (rem_7 r))).

(** A payment the nodes must report. *)
Record Payment := mkPayment { pay_address : string; pay_value : Z; pay_mc : Z; pay_fees : Z }.

(** [x // 2 + x % 2] and [x // 2]: the halves of a forger and of its delegator *)
Definition larger_half (x : Z) : Z := x / 2 + x mod 2.
Definition smaller_half (x : Z) : Z := x / 2.

Definition FORGER_REWARD_ADDRESS_1 : string := "0000000000000000000012341234123412341111".
Definition FORGER_REWARD_ADDRESS_3 : string := "0000000000000000000012341234123412343333".
Definition FORGER_REWARD_ADDRESS_4 : string := "0000000000000000000012341234123412344444".
Definition FORGER_REWARD_ADDRESS_5 : string := "0000000000000000000012341234123412345555".
Definition FORGER_REWARD_ADDRESS_6 : string := "0000000000000000000012341234123412346666".
Definition FORGER_REWARD_ADDRESS_7 : string := "0000000000000000000012341234123412347777".
Definition DELEGATOR_ADDRESS_1 : string := "0000000000000000000056785678567856781111".
Definition DELEGATOR_ADDRESS_2 : string := "0000000000000000000056785678567856782222".
Definition DELEGATOR_ADDRESS_3 : string := "0000000000000000000056785678567856783333".
Definition DELEGATOR_ADDRESS_6 : string := "0000000000000000000056785678567856785555".
Definition DELEGATOR_ADDRESS_7 : string := FORGER_REWARD_ADDRESS_7.

(** [f(total), f(mc), f(fee)] of one reward *)
Definition payment_by (address : string) (f : Z → Z) (r : Reward) : Payment :=
  mkPayment address (f (reward_total r)) (f (from_mc r)) (f (from_fees r)).

(** The first address has all of the first forger's reward before the fork, and the
    larger halves of the first two forgers. *)
Definition reward_1 (f : Rewards) : Payment :=
  let sum (p : Reward → Z) : Z :=
    p (forger_1_before f) + smaller_half (p (forger_1_after f)) + smaller_half (p (forger_2 f))
    + p (forger_1_after f) mod 2 + p (forger_2 f) mod 2 in
  mkPayment FORGER_REWARD_ADDRESS_1 (sum reward_total) (sum from_mc) (sum from_fees).

(** The third delegator has two forgers; the value is the sum of two halves, the parts
    are halves of sums. *)
Definition delegator_3 (f : Rewards) : Payment :=
  mkPayment DELEGATOR_ADDRESS_3
    (smaller_half (reward_total (forger_3 f)) + smaller_half (reward_total (forger_4 f)))
    (smaller_half (from_mc (forger_3 f) + from_mc (forger_4 f)))
    (smaller_half (from_fees (forger_3 f) + from_fees (forger_4 f))).

(** The payments in the order of the checks. *)
Definition expected_payments (f : Rewards) : list Payment :=
  [reward_1 f;
   payment_by FORGER_REWARD_ADDRESS_3 larger_half (forger_3 f);
   payment_by FORGER_REWARD_ADDRESS_4 larger_half (forger_4 f);
   payment_by FORGER_REWARD_ADDRESS_5 (λ x, x) (forger_5 f);
   payment_by FORGER_REWARD_ADDRESS_7 (λ x, x) (forger_7 f);
   payment_by DELEGATOR_ADDRESS_1 smaller_half (forger_1_after f);
   payment_by DELEGATOR_ADDRESS_2 smaller_half (forger_2 f);
   delegator_3 f;
   payment_by DELEGATOR_ADDRESS_6 (λ x, x) (forger_6 f)].

(** [[f for f in payments if keep(f)][0]] *)
Fixpoint keep_payments (keep : pyval → outcome bool) (payments : list pyval) : outcome (list pyval) :=
  match payments with
  | [] => Val []
  | f :: payments' =>
      let? b := keep f in
      let? rest := keep_payments keep payments' in
      Val (if b then f :: rest else rest)
  end.

Definition first_payment (keep : pyval → outcome bool) (payments : pyval) : outcome pyval :=
  let? l := py_iter payments in
  let? kept := keep_payments keep l in
  list_index kept 0.

(** [f['address']['address'] == address] *)
Definition paid_to (address : string) (f : pyval) : outcome bool :=
  let? a := getpath f ["address"; "address"] in Val (py_eqb a (PStr address)).

Definition check_payment (payments : pyval) (p : Payment) : outcome unit :=
  let? f := first_payment (paid_to (pay_address p)) payments in
  let? value := getitem f "value" in
  let? _ := assert_equal (PInt (pay_value p)) value "" in
  let? mc := getitem f "valueFromMainchain" in
  let? _ := assert_equal (PInt (pay_mc p)) mc "" in
  let? fees := getitem f "valueFromFees" in
  assert_equal (PInt (pay_fees p)) fees "".

Fixpoint check_payments (payments : pyval) (l : list Payment) : outcome unit :=
  match l with
  | [] => Val tt
  | p :: l' => let? _ := check_payment payments p in check_payments payments l'
  end.

(** ** Fees of blocks, sc_evm_forging_fee_payments.py *)

Record EvmBlockFeeInfo := mkEvmBlockFeeInfo { ev_node : Z; baseFee : Z; forgerTips : Z }.

(** [total_fee += baseFee + forgerTips; pool_fee += baseFee]; the second starts as 0.0. *)
Fixpoint evm_pool_of (infos : list EvmBlockFeeInfo) (total_fee : Z) (pool_fee : float64) : Z * float64 :=
  match infos with
  | [] => (total_fee, pool_fee)
  | b :: infos' =>
      evm_pool_of infos' (total_fee + (baseFee b + forgerTips b)) (float_add pool_fee (float_of_Z (baseFee b)))
  end.

Fixpoint evm_shares (infos : list EvmBlockFeeInfo) (idx n : Z) (pool_fee : float64) (average_fee : Z)
    (forger_fees : list (Z * Z)) : outcome (list (Z * Z)) :=
  match infos with
  | [] => Val forger_fees
  | b :: infos' =>
      let forger_fees := add_fee (ev_node b) (forgerTips b) forger_fees in
      let forger_fees := add_fee (ev_node b) average_fee forger_fees in
      let? one_more := below_remainder idx pool_fee n in
      let forger_fees := if one_more then add_fee (ev_node b) 1 forger_fees else forger_fees in
      evm_shares infos' (idx + 1) n pool_fee average_fee forger_fees
  end.

Definition evm_forger_fees (infos : list EvmBlockFeeInfo) : outcome (Z * list (Z * Z)) :=
  let n := Z.of_nat (length infos) in
  let '(total_fee, pool_fee) := evm_pool_of infos 0 (float_of_Z 0) in
  let? average_fee := float_floor (float_div pool_fee (float_of_Z n)) in
  let? fees := evm_shares infos 0 n pool_fee average_fee [] in
  Val (total_fee, fees).

Section Rewards.
Context {W : Type} `{Nodes W, Clock W, Os W, Rng W} `{EthUtils, EthAbi, EthHash, EthEvents, EthHex, EthSelectors}.
Local Abbreviation MF := (M (FW W)).

(** ** Shared parts *)

(** A node that pays rewards to an address; only the first one submits certificates. *)
Definition reward_configuration (options : SCForgerConfiguration) (submitter : bool) (connection : MCConnectionInfo)
    : SCNodeConfiguration :=
  SCNodeConfiguration_init connection submitter true None 100 100 "2m" true (PFloat (float_of_dec (Dec 1 (-4)))) options
    300 0 "Horizen" 10000000 [] false PNone [] None [] "15m" "5m" false 0 true DEFAULT_MAX_NONCE_GAP
    DEFAULT_MAX_ACCOUNT_SLOTS DEFAULT_MAX_MEMPOOL_SLOTS DEFAULT_MAX_NONEXEC_POOL_SLOTS DEFAULT_TX_LIFETIME true true.

(** One configuration for each reward address; [None] keeps the default options. *)
Definition reward_configurations (shared : SCForgerConfiguration) (mc_node : proxy) (addresses : list (option string))
    : MF (list SCNodeConfiguration) :=
  mmap (λ ia : Z * option string,
    let! connection := ws_connection mc_node 0 in
    let! options := (match ia.2 with
                     | Some a => SCForgerConfiguration_init false [] a
                     | None => ret shared
                     end) in
    ret (reward_configuration options (ia.1 =? 0) connection))
    (zip (zrange 0 (Z.of_nat (length addresses))) addresses).

Definition reward_rewind : Z := SLOTS_IN_EPOCH * EVM_APP_SLOT_TIME * 100.

Definition reward_setup_chain (o : Options) (shared : SCForgerConfiguration) (addresses : list (option string)) : MF unit :=
  let! mc_node := mc 0 in
  let! configurations := reward_configurations shared mc_node addresses in
  let! info := bootstrap_model AccountModel o mc_node 3 20 configurations (PInt reward_rewind) in
  put_info info.

Definition total_balance (sc_node : proxy) : MF pyval :=
  let! r := call sc_node "wallet_getTotalBalance" [] in lift (getpath r ["result"; "balance"]).

(** Coins of the mainchain for the pool of the forgers. *)
Definition pool_transfer (mc_node : proxy) (amount : Z) : MF unit :=
  transfer_to mc_node (PStr (format_eoa FORGER_POOL_RECIPIENT_ADDRESS)) (PInt amount) false.

Definition pool_balance : MF Z :=
  let! node := sc 0 in rpc_get_balance node (PStr FORGER_POOL_RECIPIENT_ADDRESS).

(** The transfer is in the next block of the first node. *)
Definition mined_transfer (fuel : nat) (mc_node : proxy) : MF unit :=
  do! sync_all fuel in
  let! size := mc_pool_size mc_node in
  do% assert_equal (PInt 1) size "Forward Transfer expected to be added to mempool." in
  let! hash := mine mc_node in
  let! sc1 := sc 0 in
  let! id := generate_next_block sc1 "first node" false PNone in
  check_mcreference_presence hash id sc1.

(** Two blocks, and the certificate. *)
Definition reward_certificate (fuel : nat) (mc_node sc1 : proxy) : MF unit :=
  do! generate_next_block sc1 "first node" false PNone in
  do! generate_next_block sc1 "first node" false PNone in
  certificate_arrives fuel mc_node sc1.

(** ** sc_evm_forger_and_delegator_rewards.py *)

Definition ScEvmForgerAndDelegatorRewards_sc_setup_chain (o : Options) (shared : SCForgerConfiguration) : MF unit :=
  reward_setup_chain o shared (map Some
    [FORGER_REWARD_ADDRESS_1; FORGER_REWARD_ADDRESS_1; FORGER_REWARD_ADDRESS_3; FORGER_REWARD_ADDRESS_4;
     FORGER_REWARD_ADDRESS_5; FORGER_REWARD_ADDRESS_6; FORGER_REWARD_ADDRESS_7]).

(** The address and the keys of a forger with a stake. *)
Definition create_forger_stake (fuel : nat) (mc_node sc_node : proxy) (ft_amount_in_zen forger_stake_amount : Z)
    : MF (pyval * pyval * pyval) :=
  let! address := new_evm_address sc_node in
  let! block_sign_pub_key := new_proposition sc_node "wallet_createPrivateKey25519" "publicKey" in
  let! vrf_pub_key := new_proposition sc_node "wallet_createVrfSecret" "publicKey" in
  let% ft_wei := convertZenToWei (PInt ft_amount_in_zen) in
  do! transfer_to mc_node address (PInt ft_amount_in_zen) false in
  do! mined_transfer fuel mc_node in
  do! sc_sync_all fuel false in
  let! balance := http_wallet_balance sc_node address PNone in
  do% assert_equal (PInt ft_wei) balance "" in
  let% stake_wei := convertZenToWei (PInt forger_stake_amount) in
  let! result := make_stake sc_node address block_sign_pub_key vrf_pub_key (PInt forger_stake_amount) PNone
    "make forger stake failed: " in
  do! sc_sync_all fuel false in
  let% tx_hash := getpath result ["result"; "transactionId"] in
  let! sc1 := sc 0 in
  do! forge_synced fuel sc1 "first node" false in
  let! '(fee, _, _) := computeForgedTxFee sc1 tx_hash in
  let! balance := total_balance sc_node in
  do% assert_equal (PInt (ft_wei - (stake_wei + fee))) balance "" in
  ret (address, block_sign_pub_key, vrf_pub_key).

(** The activation of the second contract: its fee and its tip. *)
Definition activate_stake_v2 (fuel : nat) (sc1 : proxy) (address : pyval) : MF (Z * Z) :=
  let! c := SmartContract_init "ForgerStakesV2" in
  let! tx_hash := call_on sc1 c STAKES_V2 address "activate()" [] (PInt 0) in
  do! generate_next_block sc1 "first node" false PNone in
  let! '(_, forgersPoolFee, forgerTip) := computeForgedTxFee sc1 tx_hash in
  do! sc_sync_all fuel false in
  do! generate_next_block sc1 "first node" false PNone in
  let! r := call sc1 "rpc_eth_getTransactionReceipt" [tx_hash] in
  let% receipt := getitem r "result" in
  let% status := getitem receipt "status" in
  do% assert_equal (PStr "0x1") status "Transaction failed" in
  let% gas := getitem receipt "gasUsed" in
  let% gas_used := py_int_base gas 16 in
  do% assert_equal (PInt (21000 + 4 * 16)) (PInt gas_used) "wrong used gas" in
  ret (forgersPoolFee, forgerTip).

(** The keys of the first stake. *)
Definition first_stake_keys (sc1 : proxy) : MF (pyval * pyval) :=
  let! stakes := all_stakes sc1 in
  let% stake := getindex stakes 0 in
  let% keys := getpath stake ["forgerStakeData"; "forgerPublicKeys"] in
  let% sign := getpath keys ["blockSignPublicKey"; "publicKey"] in
  let% vrf := getpath keys ["vrfPublicKey"; "publicKey"] in
  ret (sign, vrf).

(** Seven stakes, and the first contract upgraded: the account of the first node, and
    the keys of the forgers in order. *)
Definition seven_forgers (fuel : nat) (mc_node sc1 : proxy) (others : list proxy) : MF (pyval * list (pyval * pyval)) :=
  let! address := new_evm_address sc1 in
  do! transfer_to mc_node address (PInt 1000) false in
  do! call mc_node "generate" [PInt 1] in
  do! sync_all fuel in
  do! forge_synced fuel sc1 "first" true in
  let! first := first_stake_keys sc1 in
  let! rest := mmap (λ n, create_forger_stake fuel mc_node n 13 11) others in
  do! sc_sync_all fuel false in
  do! check_stakes sc1 7 in
  do! generate_next_block sc1 "first" true PNone in
  do! generate_next_block sc1 "first" true PNone in
  let! c := SmartContract_init "ForgerStakes" in
  do! call_on sc1 c (PStr FORGER_STAKE_SMART_CONTRACT_ADDRESS) address "upgrade()" [] (PInt 0) in
  do! forge_synced fuel sc1 "first node" true in
  ret (address, first :: map (λ k : pyval * pyval * pyval, (k.1.2, k.2)) rest).

Definition node_names : list string := ["second"; "third"; "fourth"; "fifth"; "sixth"; "seventh"].

(** The payments before the fork, which are only counted, and the certificate. *)
Definition payments_before_fork (fuel : nat) (mc_node sc1 : proxy) (others : list proxy) : MF unit :=
  do! forM_ (zip others node_names) (λ on, do! generate_next_block on.1 on.2 false PNone in ret tt) in
  do! advance_to_epoch fuel sc1 79 in
  do! pool_transfer mc_node 1000 in
  do! call mc_node "generate" [PInt (20 - 7)] in
  do! sync_all fuel in
  do! sc_sync_all fuel false in
  let! last := generate_next_block sc1 "first node" false PNone in
  do! sc_sync_all fuel false in
  let! payments := fee_payments sc1 last in
  do! check_length 7 payments "" in
  do! reward_certificate fuel mc_node sc1 in
  do! call mc_node "generate" [PInt 1] in
  do! sync_all fuel in
  do! sc_sync_all fuel false in
  do! generate_next_block sc1 "first" true PNone in
  pool_transfer mc_node 100.

(** The share and the reward address of a forger: the transaction. *)
Definition update_share (sc_node : proxy) (keys : pyval * pyval) (address : string) (share : Z) : MF pyval :=
  let! r := ac_updateForger sc_node keys.1 keys.2 (PStr address) (PInt share) PNone in
  lift (getpath r ["result"; "transactionId"]).

(** The forgers that are updated, with their reward addresses and shares. *)
Definition forger_updates : list (Z * string * Z) :=
  [(0, DELEGATOR_ADDRESS_1, 500); (1, DELEGATOR_ADDRESS_2, 500); (2, DELEGATOR_ADDRESS_3, 500);
   (3, DELEGATOR_ADDRESS_3, 500); (5, DELEGATOR_ADDRESS_6, 1000); (6, DELEGATOR_ADDRESS_7, 500)].

Definition update_forgers (nodes : list proxy) (keys : list (pyval * pyval)) : MF (list pyval) :=
  mmap (λ u : Z * string * Z,
    let% node := list_index nodes u.1.1 in
    let% k := list_index keys u.1.1 in
    update_share node k u.1.2 u.2) forger_updates.

(** How many blocks the others forge after the updates. *)
Definition later_blocks : list Z := [1; 2; 2; 2; 1; 1].

(** The fees and tips of transactions. *)
Definition fees_and_tips (sc1 : proxy) (txs : list pyval) : MF (Z * Z) :=
  let! l := mmap (λ tx, let! '(_, fee, tip) := computeForgedTxFee sc1 tx in ret (fee, tip)) txs in
  ret (foldl Z.add 0 (map fst l), foldl Z.add 0 (map snd l)).

Definition ScEvmForgerAndDelegatorRewards_run_test (fuel : nat) (o : Options) : MF unit :=
  do! not_with_all_forks o in
  let! mc_node := mc 0 in
  let! nodes := mmap sc (zrange 0 7) in
  let% sc1 := list_index nodes 0 in
  let% sc2 := list_index nodes 1 in
  let others := drop 1 nodes in
  do! connect_sc_nodes fuel sc1 1 (secs 25) in
  do! sc_sync_all fuel false in
  do! advance_to_epoch fuel sc1 67 in
  do! sync_all fuel in
  do! sc_sync_all fuel false in
  let! '(address, keys) := seven_forgers fuel mc_node sc1 others in
  do! payments_before_fork fuel mc_node sc1 others in
  let! '(fee_1, tips1) := activate_stake_v2 fuel sc1 address in
  let! txs := update_forgers nodes keys in
  do! sc_sync_all fuel false in
  do! generate_next_block sc2 "second" false PNone in
  let! '(fees, tips2) := fees_and_tips sc1 txs in
  do! forM_ (zip (zip others node_names) later_blocks) (λ onk,
    do! generate_next_blocks onk.1.1 onk.1.2 onk.2 in ret tt) in
  do! call mc_node "generate" [PInt (20 - 1)] in
  let% reward := convertZenniesToWei (PInt 2500000000) in
  let% f := forger_rewards (reward / 16) (fee_1 + fees) tips1 tips2 in
  let! last := generate_next_block sc2 "second" false PNone in
  let! payments := fee_payments sc1 last in
  do! check_length 9 payments "" in
  do% check_payments payments (expected_payments f) in
  sc_sync_all fuel false.

Definition ScEvmForgerAndDelegatorRewards (fuel : nat) (o : Options) (shared : SCForgerConfiguration) : TestClass W :=
  let a := forger_setup 7 20 50 reward_rewind None [] in
  mkTestClass W (default_setup_chain o) (ac_setup_network fuel o a)
    (ScEvmForgerAndDelegatorRewards_sc_setup_chain o shared) (ac_sc_setup_network fuel o a)
    (ScEvmForgerAndDelegatorRewards_run_test fuel o).

(** ** sc_evm_forging_fee_payments.py *)

Definition FORGER_REWARD_ADDRESS : string := "0000000000000000000012341234123412341234".

Definition EvmForgingFeePayments_sc_setup_chain (o : Options) (shared : SCForgerConfiguration) : MF unit :=
  reward_setup_chain o shared [None; Some FORGER_REWARD_ADDRESS].

Definition zen_float (n e : Z) : pyval := PFloat (float_of_dec (Dec n e)).

(** What the first epoch leaves: the account, the fees of the blocks, the block in the
    middle, and what the second node has paid out of its coins. *)
Record FeeEpoch := mkFeeEpoch {
  fe_address : pyval; fe_infos : list EvmBlockFeeInfo; fe_middle : pyval; fe_balance : Z
}.

(** Coins and a stake for the second node: its account, the fees of the stake's block,
    its balance, and the stakes. *)
Definition fee_epoch_stake (fuel : nat) (mc_node sc1 sc2 : proxy) (ft stake : pyval) : MF (pyval * Z * Z * Z * pyval) :=
  let! address := new_evm_address sc2 in
  let% ft_wei := convertZenToWei ft in
  do! transfer_to mc_node address ft false in
  do! mined_transfer fuel mc_node in
  do! sc_sync_all fuel false in
  let! balance := http_wallet_balance sc2 address PNone in
  do% assert_equal (PInt ft_wei) balance "" in
  do! http_wallet_balance sc2 address PNone in
  do! call sc2 "wallet_getTotalBalance" [] in
  let! sign := new_proposition sc2 "wallet_createPrivateKey25519" "publicKey" in
  let! vrf := new_proposition sc2 "wallet_createVrfSecret" "publicKey" in
  let% stake_wei := convertZenToWei stake in
  let! result := make_stake sc2 address sign vrf stake PNone "make forger stake failed: " in
  do! sc_sync_all fuel false in
  let% tx_hash_0 := getpath result ["result"; "transactionId"] in
  do! generate_next_block sc1 "first node" false PNone in
  let! '(fee_0, pool_0, tip_0) := computeForgedTxFee sc1 tx_hash_0 in
  do! call sc2 "wallet_getTotalBalance" [] in
  let! balance := total_balance sc2 in
  do% assert_equal (PInt (ft_wei - (stake_wei + fee_0))) balance "" in
  let! stakes := check_stakes sc1 2 in
  ret (address, pool_0, tip_0, ft_wei - (stake_wei + fee_0), stakes).

(** The base fee of a block. *)
Definition base_fee_of (sc_node : proxy) (block_id : pyval) : MF Z :=
  let% hash := add_0x_prefix block_id in
  let! r := call sc_node "rpc_eth_getBlockByHash" [hash; PBool false] in
  let% blockJson := getitem r "result" in
  match blockJson with
  | PNone => raise (GenericException ("Unexpected error: block not found " +:+ py_str block_id))
  | _ => let% f := getitem blockJson "baseFeePerGas" in lift (py_int_base f 16)
  end.

(** The blocks before the end of the epoch, with their fees. *)
Definition fee_epoch (fuel : nat) (mc_node sc1 sc2 : proxy) : MF FeeEpoch :=
  do! advance_to_epoch fuel sc1 35 in
  let infos := repeat (mkEvmBlockFeeInfo 1 0 0) 35 in
  do! connect_sc fuel 0 1 in
  do! sc_sync_all fuel false in
  let! '(address, pool_0, tip_0, balance, _) := fee_epoch_stake fuel mc_node sc1 sc2 (zen_float 120 (-1)) (PInt 11) in
  do! forge_synced fuel sc1 "first node" true in
  let! keys := generate_account_proposition "seed3" 1 AccountModel in
  let% recipient := list_index keys 0 in
  let% wei_1 := convertZenToWei (zen_float 22 (-3)) in
  let! tx_hash_1 := createLegacyTransaction sc2
    (mkTxArgs address (proposition recipient) PNone (PInt 21000) (PInt wei_1) (PStr "") PNone PNone PNone)
    (PInt 1000000000) PNone false in
  do! sc_sync_all fuel false in
  let! middle := generate_next_block sc1 "first node" false PNone in
  do! sc_sync_all fuel false in
  let! '(fee_1, pool_1, tip_1) := computeForgedTxFee sc1 tx_hash_1 in
  let% wei_2 := convertZenToWei (zen_float 1 (-3)) in
  let! baseFeePerGas := base_fee_of sc2 middle in
  let! tx_hash_2 := createEIP1559Transaction sc2
    (mkTxArgs address (proposition recipient) PNone (PInt 123400) (PInt wei_2) (PStr "") PNone PNone PNone)
    (PInt 56700) (PInt (baseFeePerGas + 56690)) PNone in
  do! sc_sync_all fuel false in
  let! middle := generate_next_block sc2 "second node" true PNone in
  do! sc_sync_all fuel false in
  let! '(fee_2, pool_2, tip_2) := computeForgedTxFee sc1 tx_hash_2 in
  do! sc_sync_all fuel false in
  ret (mkFeeEpoch address
    (infos ++ [mkEvmBlockFeeInfo 1 0 0; mkEvmBlockFeeInfo 1 pool_0 tip_0; mkEvmBlockFeeInfo 1 0 0;
               mkEvmBlockFeeInfo 1 pool_1 tip_1; mkEvmBlockFeeInfo 2 pool_2 tip_2])
    middle (balance - (wei_1 + fee_1) - (wei_2 + fee_2))).

(** The balances of both nodes, and what the reward address has. *)
Record Paid := mkPaid { paid_1 : pyval; paid_2 : pyval; paid_reward : pyval }.

(** The balances after the payments are those before with the fees; the second node's
    fees are at its reward address. *)
Definition check_paid (sc2 : proxy) (before1 before2 after1 after2 : pyval) (fees1 fees2 : Z) : MF Paid :=
  let% expected := py_add before1 (PInt fees1) in
  do% assert_equal expected after1 "Wrong fee payment amount for SC node 1" in
  let! reward := http_wallet_balance sc2 (PStr FORGER_REWARD_ADDRESS) PNone in
  let% expected := py_add before2 (PInt fees2) in
  let% found := py_add after2 reward in
  do% assert_equal expected found "Wrong fee payment amount for SC node 2" in
  ret (mkPaid after1 after2 reward).

Definition NO_PAYMENTS : string := "No fee payments expected to be found for the block in the middle of WE".

(** The payments the API reports, for a block in the middle and for the last one. *)
Definition api_payments (sc1 sc2 : proxy) (middle last : pyval) (fees : list (Z * Z)) : MF unit :=
  let! api1 := fee_payments sc1 middle in
  do! check_length 0 api1 NO_PAYMENTS in
  let! api2 := fee_payments sc2 middle in
  do! check_length 0 api2 NO_PAYMENTS in
  let! api1 := fee_payments sc1 last in
  let! api2 := fee_payments sc2 last in
  do% assert_equal api1 api2 "SC nodes have different view on the fee payments" in
  forM_ (zrange 1 (Z.of_nat (length fees) + 1)) (λ i,
    let% fee := of_opt (KeyError (str_of_Z i)) (dict_get i fees) in
    let% payment := getindex api1 (i - 1) in
    let% value := getitem payment "value" in
    lift (assert_equal (PInt fee) value ("Different fee value found for payment " +:+ str_of_Z i))).

(** The end of the first epoch: the pool keeps the mainchain's coins, and the fees are
    shared. *)
Definition fee_epoch_end (fuel : nat) (mc_node sc1 sc2 : proxy) (e : FeeEpoch) : MF Paid :=
  let% pool_wei := convertZenToWei (PInt 100) in
  do! pool_transfer mc_node 100 in
  do! call mc_node "generate" [PInt (20 - 2)] in
  let! balance := total_balance sc2 in
  do% assert_equal (PInt (fe_balance e)) balance "" in
  let! before1 := total_balance sc1 in
  let! before2 := total_balance sc2 in
  let! last := generate_next_block sc2 "second node" false PNone in
  do! sc_sync_all fuel false in
  let! pool := pool_balance in
  do% assert_equal (PInt pool) (PInt pool_wei) "" in
  let% '(total_fee, fees) := evm_forger_fees (fe_infos e ++ [mkEvmBlockFeeInfo 2 0 0]) in
  let! after1 := total_balance sc1 in
  let! after2 := total_balance sc2 in
  let% fees1 := of_opt (KeyError "1") (dict_get 1 fees) in
  let% fees2 := of_opt (KeyError "2") (dict_get 2 fees) in
  do% assert_equal (PInt (fees1 + fees2)) (PInt total_fee) "" in
  let! paid := check_paid sc2 before1 before2 after1 after2 fees1 fees2 in
  do! api_payments sc1 sc2 (fe_middle e) last fees in
  ret paid.

(** [f['address']['address'] != address], and the addresses of the RPC *)
Definition not_paid_to (address : string) (f : pyval) : outcome bool :=
  let? b := paid_to address f in Val (negb b).
Definition rpc_paid_to (address : string) (f : pyval) : outcome bool :=
  let? a := getitem f "address" in Val (py_eqb a (PStr ("0x" +:+ address))).
Definition rpc_not_paid_to (address : string) (f : pyval) : outcome bool :=
  let? b := rpc_paid_to address f in Val (negb b).

Definition check_value (keep : pyval → outcome bool) (payments : pyval) (fees : Z) : outcome unit :=
  let? f := first_payment keep payments in
  let? value := getitem f "value" in
  assert_equal (PInt fees) value "".

Definition check_hex_value (keep : pyval → outcome bool) (payments : pyval) (fees : Z) : outcome unit :=
  let? f := first_payment keep payments in
  let? value := getitem f "value" in
  let? n := py_int_base value 16 in
  assert_equal (PInt fees) (PInt n) "".

(** The payment at an index is all from the mainchain. *)
Definition all_from_mainchain (payments : pyval) (i : Z) : outcome unit :=
  let? p := getindex payments i in
  let? value := getitem p "value" in
  let? mc := getitem p "valueFromMainchain" in
  assert_equal value mc "".

Definition none_from_fees (payments : pyval) (i : Z) : outcome unit :=
  let? p := getindex payments i in
  let? fees := getitem p "valueFromFees" in
  assert_equal (PStr "0x0") fees "".

Definition rpc_payments (sc_node : proxy) (block_id : pyval) : MF pyval :=
  let% hash := add_0x_prefix block_id in
  let! r := call sc_node "rpc_zen_getFeePayments" [hash] in
  lift (getpath r ["result"; "payments"]).

(** The largest part of the pool that is distributed, by 25 blocks. *)
Definition distribution_cap : outcome Z := convertZenniesToWei (PInt 2500000000).

(** The epoch after the fork: 22 blocks of the first node and 3 of the second. *)
Definition capped_epoch (fuel : nat) (mc_node sc1 sc2 : proxy) (before : Paid) : MF unit :=
  do! reward_certificate fuel mc_node sc1 in
  do! advance_to_epoch fuel sc1 VERSION_1_4_FORK_EPOCH in
  do! generate_next_blocks sc1 "first node" 1 in
  do! generate_next_blocks sc2 "second node" 2 in
  do! call mc_node "generate" [PInt 20] in
  do! sc_sync_all fuel false in
  let! last := generate_next_block sc2 "second node" false PNone in
  do! sc_sync_all fuel false in
  let% cap := distribution_cap in
  let% pool_wei := convertZenToWei (PInt 100) in
  let fees1 := cap / 25 * 22 in
  let fees2 := cap / 25 * 3 in
  let% before2 := py_add (paid_2 before) (paid_reward before) in
  let! after1 := total_balance sc1 in
  let! after2 := total_balance sc2 in
  do! check_paid sc2 (paid_1 before) before2 after1 after2 fees1 fees2 in
  let! pool := pool_balance in
  do% assert_equal (PInt (pool_wei - cap)) (PInt pool) "" in
  let! api := fee_payments sc1 last in
  do% check_value (not_paid_to FORGER_REWARD_ADDRESS) api fees1 in
  do% check_value (paid_to FORGER_REWARD_ADDRESS) api fees2 in
  let! rpc1 := rpc_payments sc1 last in
  let! rpc2 := rpc_payments sc2 last in
  do% assert_equal rpc1 rpc2 "" in
  do% all_from_mainchain rpc1 0 in
  do% all_from_mainchain rpc1 1 in
  do% none_from_fees rpc1 0 in
  do% none_from_fees rpc1 1 in
  do% check_hex_value (rpc_not_paid_to FORGER_REWARD_ADDRESS) rpc1 fees1 in
  lift (check_hex_value (rpc_paid_to FORGER_REWARD_ADDRESS) rpc1 fees2).

(** A page of one stake has the expected length. *)
Definition one_stake_page (sc1 sc2 : proxy) (address : pyval) : MF unit :=
  let! c := SmartContract_init "ForgerStakes" in
  let contract := PStr FORGER_STAKE_SMART_CONTRACT_ADDRESS in
  do! call_on sc2 c contract address "upgrade()" [] (PInt 0) in
  do! generate_next_block sc1 "first node" false PNone in
  let% from := format_evm address in
  let% to := format_evm contract in
  let% selector := selector_text "getPagedForgersStakes(int32,int32)" in
  let data := selector +:+ str_join "" (repeat "00" 32) +:+ str_join "" (repeat "00" 31) +:+ "01" in
  let! response := call sc1 "rpc_eth_call"
    [PDict [("from", from); ("to", to); ("nonce", PInt 3); ("gasLimit", PInt 2300000); ("gasPrice", PInt 850000000);
            ("value", PInt 0); ("data", PStr data)]; PStr "latest"] in
  let% result := getitem response "result" in
  let% value := remove_0x_prefix result in
  let% n := py_len value in
  lift (assert_equal (PInt (2 * (32 + 32 + 32 + 1 * (6 * 32)))) (PInt n) "").

Definition EvmForgingFeePayments_run_test (fuel : nat) (o : Options) : MF unit :=
  do! not_with_all_forks o in
  let! mc_node := mc 0 in
  let! sc1 := sc 0 in
  let! sc2 := sc 1 in
  let! e := fee_epoch fuel mc_node sc1 sc2 in
  let! paid := fee_epoch_end fuel mc_node sc1 sc2 e in
  do! capped_epoch fuel mc_node sc1 sc2 paid in
  one_stake_page sc1 sc2 (fe_address e).

Definition EvmForgingFeePayments (fuel : nat) (o : Options) (shared : SCForgerConfiguration) : TestClass W :=
  let a := forger_setup 2 20 3 reward_rewind None [] in
  mkTestClass W (default_setup_chain o) (ac_setup_network fuel o a) (EvmForgingFeePayments_sc_setup_chain o shared)
    (ac_sc_setup_network fuel o a) (EvmForgingFeePayments_run_test fuel o).
End Rewards.
