(* ===== verification/RecoveryScenarios.v ===== *)
(** * Scenarios: storages of a node that crashed

    sc_storage_recovery_with_csw.py, sc_storage_recovery_without_csw.py and
    sc_evm_storage_recovery.py: the storages of a stopped node are rolled back by
    different numbers of versions, as a crash in the middle of an update would leave
    them, and the node must recover when it is started again.
    sc_blockid_for_backup.py: the block to which a backup of a sidechain goes back. *)

From S2P Require Import Prelude PyStr Numbers PyVal Host Sim Json Encoding HttpProxy BootInfo McUtil ScUtil.
From S2P Require Import Forging Bootstrap Framework AccountSetup McFramework HttpCalls AccountCalls AccountUtil.
From Stdlib Require Import Ascii String.
From stdpp Require Import base list.
From S2P Require Import Scenarios ForgingScenarios StakeScenarios ChainScenarios MempoolScenarios CertScenarios EvmScenarios CswScenarios.
Local Open Scope Z_scope.

(** ** Storages *)

(** The storages to roll back, each list with its number of versions, before the node is
    started again. *)
Definition CrashPoint : Type := list (list string * Z).

(** Storages of the wallet, and of the state and the wallet, in the order of their update. *)
Definition wallet_storages (csw : bool) : list string :=
  ["wallet"; "walletTransaction"; "walletForgingStake"] ++ (if csw then ["walletCswDataStorage"] else []).

Definition state_storages (csw : bool) : list string :=
  (if csw then ["stateUtxoMerkleTree"] else []) ++ ["state"; "stateForgerBox"].

Definition app_storages (csw : bool) : list string :=
  ["appState1"; "appState2"] ++ state_storages csw ++ ["appWallet1"; "appWallet2"] ++ wallet_storages csw.

(** [rollbackStorages(["history"], n)], then [rollbackStorages(l, 2)] *)
Definition crash_at (n : Z) (l : list string) : CrashPoint := [(["history"], n); (l, 2)].

(** The tests of the two scripts, in order. *)
Definition crash_points_csw : list CrashPoint :=
  [[(["history"], 2)]; [(["history"], 3)];
   crash_at 3 ["walletCswDataStorage"];
   crash_at 3 ["walletForgingStake"; "walletCswDataStorage"];
   crash_at 3 ["walletTransaction"; "walletForgingStake"; "walletCswDataStorage"];
   crash_at 3 ["wallet"; "walletTransaction"; "walletForgingStake"; "walletCswDataStorage"];
   crash_at 3 ["appWallet2"; "wallet"; "walletTransaction"; "walletForgingStake"; "walletCswDataStorage"];
   crash_at 3 ["stateForgerBox"; "appWallet1"; "appWallet2";
               "wallet"; "walletTransaction"; "walletForgingStake"; "walletCswDataStorage"];
   crash_at 3 ["state"; "stateForgerBox"; "appWallet1"; "appWallet2";
               "wallet"; "walletTransaction"; "walletForgingStake"; "walletCswDataStorage"];
   crash_at 3 ["stateUtxoMerkleTree"; "state"; "stateForgerBox"; "appWallet1"; "appWallet2";
               "wallet"; "walletTransaction"; "walletForgingStake"; "walletCswDataStorage"];
   crash_at 3 ["appState2"; "stateUtxoMerkleTree"; "state"; "stateForgerBox"; "appWallet1"; "appWallet2";
               "wallet"; "walletTransaction"; "walletForgingStake"; "walletCswDataStorage"];
   crash_at 4 ["appState1"; "appState2"; "stateUtxoMerkleTree"; "state"; "stateForgerBox"; "appWallet1"; "appWallet2";
               "wallet"; "walletTransaction"; "walletForgingStake"; "walletCswDataStorage"]].

Definition crash_points_no_csw : list CrashPoint :=
  [[(["history"], 2)]; [(["history"], 3)];
   crash_at 3 ["walletForgingStake"];
   crash_at 3 ["walletTransaction"; "walletForgingStake"];
   crash_at 3 ["wallet"; "walletTransaction"; "walletForgingStake"];
   crash_at 3 ["appWallet2"; "wallet"; "walletTransaction"; "walletForgingStake"];
   crash_at 3 ["stateForgerBox"; "appWallet1"; "appWallet2"; "wallet"; "walletTransaction"; "walletForgingStake"];
   crash_at 3 ["state"; "stateForgerBox"; "appWallet1"; "appWallet2"; "wallet"; "walletTransaction"; "walletForgingStake"];
   crash_at 3 ["appState2"; "state"; "stateForgerBox"; "appWallet1"; "appWallet2";
               "wallet"; "walletTransaction"; "walletForgingStake"];
   crash_at 4 ["appState1"; "appState2"; "state"; "stateForgerBox"; "appWallet1"; "appWallet2";
               "wallet"; "walletTransaction"; "walletForgingStake"]].

Definition crash_points_evm : list CrashPoint :=
  [[(["history"], 2)]; [(["history"], 3)]; crash_at 3 ["state"]; crash_at 4 ["state"]].

(** The inconsistency from which a node cannot recover. *)
Definition unexpected_csw : CrashPoint :=
  [(["history"], 7); (["stateUtxoMerkleTree"; "walletCswDataStorage"], 5);
   (["stateForgerBox"; "walletCswDataStorage"], 2); (["state"; "wallet"; "walletTransaction"; "walletForgingStake"], 13)].

Definition unexpected_no_csw : CrashPoint :=
  [(["history"], 7); (["stateForgerBox"], 2); (["state"; "wallet"; "walletTransaction"; "walletForgingStake"], 13)].

Definition unexpected_evm : CrashPoint := [(["history"], 7); (["state"], 13)].

(** The three scripts differ in these: [CUSTOM_STORAGE_NAMES], the binary of the second
    node, and the storages whose versions are compared with the tip. *)
Record RecoveryKind := mkRecoveryKind {
  rk_custom : string;
  rk_evm : bool;
  rk_versioned : list string
}.

Definition CUSTOM_STORAGE_NAMES : string := "appState1,appState2,appWallet1,appWallet2".

Definition recovery_csw : RecoveryKind := mkRecoveryKind CUSTOM_STORAGE_NAMES false (wallet_storages true ++ state_storages true).
Definition recovery_no_csw : RecoveryKind := mkRecoveryKind CUSTOM_STORAGE_NAMES false (wallet_storages false ++ state_storages false).
Definition recovery_evm : RecoveryKind := mkRecoveryKind "" true ["state"].

(** [NUM_BLOCKS = SLOTS_IN_EPOCH + 2 - h] in chunks of 90, and the rest if there is one. *)
Definition CHUNK_SIZE : Z := 90.

Definition chunk_sizes (num_blocks : Z) : list Z :=
  let chunks := num_blocks / CHUNK_SIZE in
  let remainder := num_blocks - chunks * CHUNK_SIZE in
  map (λ _, CHUNK_SIZE) (zrange 0 chunks) ++ (if 0 <? remainder then [remainder] else []).

Section Recovery.
Context {W : Type} `{Nodes W, Clock W, Os W, Rng W}.
Local Abbreviation MF := (M (FW W)).

(** ** The tool *)

Definition db_tool (k : RecoveryKind) (node : proxy) (command : string) (params : list (string * pyval)) : MF pyval :=
  launch_db_tool (px_dataDir node) (rk_custom k) command (PDict params).

Definition checkStoragesVersion (k : RecoveryKind) (node : proxy) (storages_list : list string) (expectedVersion : pyval)
    : MF unit :=
  forM_ storages_list (λ name,
    let! r := db_tool k node "lastVersionID" [("storage", PStr name)] in
    let% version := getitem r "version" in
    lift (assert_equal version expectedVersion "")).

(** The last versions of a storage. *)
Definition versions_of (k : RecoveryKind) (node : proxy) (name : string) (n : Z) : MF pyval :=
  let! r := db_tool k node "versionsList" [("storage", PStr name); ("numberOfVersionToRetrieve", PInt n)] in
  lift (getitem r "versionsList").

Definition rollbackStorages (k : RecoveryKind) (node : proxy) (storages_list : list string) (n : Z) : MF unit :=
  forM_ storages_list (λ name,
    let! versionsList := versions_of k node name n in
    let% rollbackVersion := getindex versionsList (-1) in
    let! r := db_tool k node "rollback" [("storage", PStr name); ("versionToRollback", rollbackVersion)] in
    let% current := getitem r "versionCurrent" in
    lift (assert_equal current rollbackVersion "")).

Definition roll_back (k : RecoveryKind) (node : proxy) (p : CrashPoint) : MF unit :=
  forM_ p (λ l, rollbackStorages k node l.1 l.2).

(** A storage of the stakes is one version ahead of the given block. *)
Definition check_one_ahead (k : RecoveryKind) (node : proxy) (block : pyval) : MF unit :=
  let! versionsList := versions_of k node "walletForgingStake" 2 in
  let% there := py_in block versionsList in
  do% assert_true there "" in
  let% last := getindex versionsList (-1) in
  lift (assert_equal block last "").

(** ** The second node *)

(** The connection to the started node is dropped; the old one is used. *)
Definition startAndSyncScNode2 (k : RecoveryKind) (fuel : nat) (o : Options) : MF unit :=
  let! binary := (if rk_evm k then let! b := EVM_APP_BINARY in ret (Some b) else ret None) in
  do! start_sc_node 1 (op_tmpdir o) None None binary false None in
  let! l := get_sc_nodes in
  do! wait_for_sc_node_initialization fuel l in
  do! sleep (secs 2) in
  do! connect_sc fuel 0 1 in
  sc_sync_all fuel false.

(** [assert_equal(sc_node1.block_best()["result"], sc_node2.block_best()["result"])] *)
Definition same_best (sc1 sc2 : proxy) : MF unit :=
  let! b1 := best sc1 in
  let! b2 := best sc2 in
  lift (assert_equal b1 b2 "").

(** [self.blocks] is passed along. *)
Definition forgeBlockAndCheckSync (k : RecoveryKind) (fuel : nat) (o : Options) (blocks : list pyval) : MF (list pyval) :=
  let! sc1 := sc 0 in
  let! new := generate_next_blocks sc1 "first node" 1 in
  let blocks := blocks ++ new in
  do! sleep (secs 2) in
  do! startAndSyncScNode2 k fuel o in
  let! sc1 := sc 0 in
  let! sc2 := sc 1 in
  do! same_best sc1 sc2 in
  do! stop_sc_node sc2 1 in
  do! sleep (secs 1) in
  let% chainTipId := list_index blocks (-1) in
  do! checkStoragesVersion k sc2 (rk_versioned k) chainTipId in
  ret blocks.

(** One test: the storages are rolled back, and the node recovers. *)
Definition crash_test (k : RecoveryKind) (fuel : nat) (o : Options) (sc2 : proxy) (p : CrashPoint) (blocks : list pyval)
    : MF (list pyval) :=
  do! roll_back k sc2 p in
  forgeBlockAndCheckSync k fuel o blocks.

Fixpoint crash_tests (k : RecoveryKind) (fuel : nat) (o : Options) (sc2 : proxy) (points : list CrashPoint)
    (blocks : list pyval) : MF (list pyval) :=
  match points with
  | [] => ret blocks
  | p :: points' =>
      let! blocks := crash_test k fuel o sc2 p blocks in
      crash_tests k fuel o sc2 points' blocks
  end.

(** The second node is stopped, the first one forges five blocks. *)
Definition recovery_start (k : RecoveryKind) (fuel : nat) (sc1 sc2 : proxy) (genesis_storages : list string)
    : MF (pyval * list pyval) :=
  do! sync_all fuel in
  do! stop_sc_node sc2 1 in
  let! id := best_id sc1 in
  let genesis := PStr (py_str id) in
  let! blocks := generate_next_blocks sc1 "first node" 5 in
  let! mc_node := mc 0 in
  do! call mc_node "generate" [PInt 1] in
  do! checkStoragesVersion k sc2 genesis_storages genesis in
  ret (genesis, blocks).

(** The second node catches up and is stopped again. *)
Definition recovery_catch_up (k : RecoveryKind) (fuel : nat) (o : Options) (sc1 sc2 : proxy) : MF unit :=
  do! startAndSyncScNode2 k fuel o in
  do! same_best sc1 sc2 in
  stop_sc_node sc2 1.

(** The blocks up to the end of the consensus epoch, in chunks after a mainchain block. *)
Fixpoint forge_chunks (fuel : nat) (sc1 : proxy) (sizes : list Z) (blocks : list pyval) : MF (list pyval) :=
  match sizes with
  | [] => ret blocks
  | n :: sizes' =>
      let! mc_node := mc 0 in
      do! call mc_node "generate" [PInt 1] in
      let! new := generate_next_blocks sc1 "first node" n in
      do! sc_sync_all fuel false in
      forge_chunks fuel sc1 sizes' (blocks ++ new)
  end.

Definition recovery_epoch_end (k : RecoveryKind) (fuel : nat) (o : Options) (sc1 sc2 : proxy) (blocks : list pyval)
    : MF (list pyval) :=
  do! startAndSyncScNode2 k fuel o in
  let h := Z.of_nat (length blocks) + 1 in
  let! blocks := forge_chunks fuel sc1 (chunk_sizes (SLOTS_IN_EPOCH + 2 - h)) blocks in
  do! same_best sc1 sc2 in
  do! stop_sc_node sc2 1 in
  ret blocks.

(** All storages are rolled back over the end of the epoch. *)
Definition recovery_epoch_switch (k : RecoveryKind) (fuel : nat) (o : Options) (sc2 : proxy) (csw : bool)
    (blocks : list pyval) : MF (list pyval) :=
  do! roll_back k sc2 (crash_at 3 (app_storages csw)) in
  let% block := list_index blocks (-2) in
  do! checkStoragesVersion k sc2 ["wallet"] block in
  do! check_one_ahead k sc2 block in
  forgeBlockAndCheckSync k fuel o blocks.

(** Any exception is the expected one. *)
Definition recovery_negative (k : RecoveryKind) (fuel : nat) (o : Options) (sc2 : proxy) (p : CrashPoint)
    (blocks : list pyval) : MF unit :=
  do! roll_back k sc2 p in
  let! raised := catch (do! forgeBlockAndCheckSync k fuel o blocks in ret false)
    (λ e, if is_Exception e then do! stop_sc_node sc2 1 in ret true else raise e) in
  if raised then ret tt else lift (fail "Exception should have been thrown").

(** ** The scripts of the UTXO model *)

Definition recovery_chain (model : string) (o : Options) (shared : SCForgerConfiguration) (epoch_length : Z) (csw : bool)
    (rewind : pyval) : MF unit :=
  let! mc_node := mc 0 in
  let! connection := ws_connection mc_node 0 in
  let configure c := node_configuration c shared false 100 100 "2m" [] None "15m" "5m" in
  let% sci := SCCreationInfo_init mc_node (PInt 600) epoch_length 0 SC_CREATION_VERSION_1 7 5 csw false NO_KEY_ROTATION_CIRCUIT in
  do! bootstrap_sidechain_nodes (run_options_of o)
    (mkSCNetworkConfiguration sci [configure connection; configure MCConnectionInfo_defaults]) rewind model in
  ret tt.

Definition StorageRecovery_run_test (csw : bool) (fuel : nat) (o : Options) : MF unit :=
  let k := if csw then recovery_csw else recovery_no_csw in
  let! sc1 := sc 0 in
  let! sc2 := sc 1 in
  let genesis_storages := if csw then ["wallet"; "walletTransaction"; "walletCswDataStorage"; "stateUtxoMerkleTree"; "state"; "stateForgerBox"]
                          else ["wallet"; "walletTransaction"; "state"; "stateForgerBox"] in
  let! '(genesis, blocks) := recovery_start k fuel sc1 sc2 genesis_storages in
  do! check_one_ahead k sc2 genesis in
  do! recovery_catch_up k fuel o sc1 sc2 in
  let! blocks := crash_tests k fuel o sc2 (if csw then crash_points_csw else crash_points_no_csw) blocks in
  let! blocks := recovery_epoch_end k fuel o sc1 sc2 blocks in
  let! blocks := recovery_epoch_switch k fuel o sc2 csw blocks in
  recovery_negative k fuel o sc2 (if csw then unexpected_csw else unexpected_no_csw) blocks.

Definition StorageRecovery (o : Options) (shared : SCForgerConfiguration) (csw : bool) (fuel : nat) (test : MF unit)
    : TestClass W :=
  mkTestClass W (initialize_chain_clean (op_tmpdir o) 1) (args_setup_network fuel o pool_args)
    (recovery_chain DefaultModel o shared 10 csw (PInt (2000 * 120))) (utxo_sc_setup_network fuel o 2) test.

Definition StorageRecoveryWithCSWTest_run_test : nat → Options → MF unit := StorageRecovery_run_test true.

Definition StorageRecoveryWithCSWTest (fuel : nat) (o : Options) (shared : SCForgerConfiguration) : TestClass W :=
  StorageRecovery o shared true fuel (StorageRecoveryWithCSWTest_run_test fuel o).

Definition StorageRecoveryWithoutCSWTest_run_test : nat → Options → MF unit := StorageRecovery_run_test false.

Definition StorageRecoveryWithoutCSWTest (fuel : nat) (o : Options) (shared : SCForgerConfiguration) : TestClass W :=
  StorageRecovery o shared false fuel (StorageRecoveryWithoutCSWTest_run_test fuel o).

(** ** sc_evm_storage_recovery.py *)

Definition EvmStorageRecovery_sc_setup_network (fuel : nat) (o : Options) : MF unit :=
  let! binary := EVM_APP_BINARY in
  let! l := start_sc_nodes fuel 2 (op_tmpdir o) None None (Some [Some binary; Some binary]) false (Some DEFAULT_API_KEY) in
  do! put_sc_nodes l in
  sc_sync_all fuel false.

Definition EvmStorageRecovery_run_test (fuel : nat) (o : Options) : MF unit :=
  let k := recovery_evm in
  let! sc1 := sc 0 in
  let! sc2 := sc 1 in
  let! '(_, blocks) := recovery_start k fuel sc1 sc2 ["state"] in
  let! r := call sc1 "node_storageVersions" [] in
  let% version := getpath r ["result"; "listOfVersions"; "AccountStateMetadataStorage"] in
  let% tip := list_index blocks (-1) in
  do% assert_equal version tip "" in
  do! recovery_catch_up k fuel o sc1 sc2 in
  let! blocks := crash_tests k fuel o sc2 crash_points_evm blocks in
  let! blocks := recovery_epoch_end k fuel o sc1 sc2 blocks in
  recovery_negative k fuel o sc2 unexpected_evm blocks.

Definition EvmStorageRecovery (fuel : nat) (o : Options) (shared : SCForgerConfiguration) : TestClass W :=
  mkTestClass W (initialize_chain_clean (op_tmpdir o) 1) (args_setup_network fuel o pool_args)
    (recovery_chain AccountModel o shared 10 false (PInt DEFAULT_EVM_APP_GENESIS_TIMESTAMP_REWIND))
    (EvmStorageRecovery_sc_setup_network fuel o) (EvmStorageRecovery_run_test fuel o).

(** ** sc_blockid_for_backup.py *)

Definition backup_length : Z := 10.

Definition SidechainBlockIdForBackup_sc_setup_chain (o : Options) (shared : SCForgerConfiguration) : MF unit :=
  let! mc_node := mc 0 in
  let! connection := ws_connection mc_node 0 in
  let configuration := SCNodeConfiguration_init connection true true None 100 100 "2m" false
    (PFloat (float_of_dec (Dec 1 (-4)))) shared 300 0 DEFAULT_API_KEY 10000000 [] false PNone [] None [] "15m" "5m"
    false 0 true DEFAULT_MAX_NONCE_GAP DEFAULT_MAX_ACCOUNT_SLOTS DEFAULT_MAX_MEMPOOL_SLOTS
    DEFAULT_MAX_NONEXEC_POOL_SLOTS DEFAULT_TX_LIFETIME true true in
  let! info := bootstrap o mc_node 600 backup_length [configuration] DefaultBlockTimestampRewind in
  put_info info.

(** There is no block for a backup before two epochs have passed. *)
Definition no_backup_yet (sc_node : proxy) : MF unit :=
  let! res := getBlockIdForBackup sc_node in
  let% there := has_key "error" res in
  do% assert_true there "" in
  let% code := getpath res ["error"; "code"] in
  lift (assert_equal code (PStr "0801") "").

Definition forge_one (sc_node : proxy) : MF unit :=
  do! generate_next_blocks sc_node "first node" 1 in ret tt.

(** The first block of the next epoch, and the certificate. *)
Definition backup_certificate (fuel : nat) (mc_node sc_node : proxy) : MF unit :=
  do! call mc_node "generate" [PInt 1] in
  do! forge_one sc_node in
  await_certificate 10 fuel mc_node sc_node.

(** One field of the first item. *)
Definition check_sc_field (mc_node : proxy) (field : string) (expected : pyval) : MF unit :=
  let! info := boot_info in
  let! r := call mc_node "getscinfo" [sidechain_id info] in
  let% items := getitem r "items" in
  let% item := getindex items 0 in
  let% found := getitem item field in
  lift (assert_equal found expected "").

(** An epoch in which there is still no block for a backup. *)
Definition backup_epoch (fuel : nat) (mc_node sc_node : proxy) (epoch : Z) : MF unit :=
  do! check_sc_field mc_node "state" (PStr "ALIVE") in
  do! check_sc_field mc_node "epoch" (PInt epoch) in
  do! no_backup_yet sc_node in
  do! call mc_node "generate" [PInt (backup_length - 1)] in
  do! forge_one sc_node in
  backup_certificate fuel mc_node sc_node.

(** The first epoch: the block that a backup will go back to. *)
Definition backup_first_epoch (fuel : nat) (mc_node sc_node : proxy) : MF pyval :=
  let! address := http_wallet_createPrivateKey25519 sc_node PNone in
  do! forge_one sc_node in
  let! info := boot_info in
  let! return_address := call mc_node "getnewaddress" [] in
  do! forward_transfer_to_sidechain (sidechain_id info) mc_node address (genesis_account_balance info) return_address true in
  do! sc_sync_all fuel false in
  do! forge_one sc_node in
  do! sc_sync_all fuel false in
  let! block := call mc_node "getblock" [PStr "480"; PInt 2] in
  let% txs := getitem block "tx" in
  let% tx := getindex txs 1 in
  let% outs := getitem tx "vsc_ccout" in
  let% n := py_len outs in
  do% assert_true (n =? 1) "" in
  do! no_backup_yet sc_node in
  do! call mc_node "generate" [PInt (backup_length - 2)] in
  do! forge_one sc_node in
  let! best := http_block_best sc_node in
  lift (getitem best "id").

Definition SidechainBlockIdForBackup_run_test (fuel : nat) : MF unit :=
  do! sync_all fuel in
  let! sc_node := sc 0 in
  let! mc_node := mc 0 in
  let! enabled := submitter_enabled sc_node in
  do% assert_true (truthy enabled) "Node 1 submitter expected to be enabled." in
  let! blockIdToRollback := backup_first_epoch fuel mc_node sc_node in
  do! backup_certificate fuel mc_node sc_node in
  do! backup_epoch fuel mc_node sc_node 1 in
  do! backup_epoch fuel mc_node sc_node 2 in
  let! res := getBlockIdForBackup sc_node in
  let% id := getpath res ["result"; "blockId"] in
  lift (assert_equal id blockIdToRollback "").

Definition SidechainBlockIdForBackup (fuel : nat) (o : Options) (shared : SCForgerConfiguration) : TestClass W :=
  scenario fuel o 1 1 (SidechainBlockIdForBackup_sc_setup_chain o shared) (SidechainBlockIdForBackup_run_test fuel).
End Recovery.
