(* ===== verification/ConsensusScenarios.v ===== *)
(** * Scenarios: forks of the consensus parameters

    sc_evm_consensus_parameters_fork.py, the two scripts with forks of the sidechain and
    of the mainchain, and sc_evm_active_slot_coefficient.py: the number of slots of an
    epoch, the length of a slot and the share of the slots that have a block change at
    given epochs, on both sides of a fork. *)

From S2P Require Import Prelude PyStr Numbers PyVal Host Sim Json Encoding HttpProxy BootInfo McUtil ScUtil.
From S2P Require Import Forging Bootstrap Framework AccountSetup McFramework HttpCalls AccountCalls AccountUtil SmartContract.
From Stdlib Require Import Ascii String.
From stdpp Require Import base list.
From S2P Require Import Scenarios ForgingScenarios StakeScenarios ChainScenarios MempoolScenarios CertScenarios EvmScenarios CswScenarios.
From S2P Require Import EvmRotationScenarios ForgerScenarios SeederScenarios.
Local Open Scope Z_scope.

(** [len(forged_block_ids) / slot_until_next_epoch * 100] *)
Definition block_created_percentage (blocks slots : Z) : outcome pyval :=
  let? share := py_truediv (PInt blocks) (PInt slots) in py_mul share (PInt 100).

(** [4.0 < percentage < 6.0] *)
Definition about_five_percent (percentage : pyval) : outcome bool :=
  let? above := py_lt (PFloat (float_of_Z 4)) percentage in
  if above then py_lt percentage (PFloat (float_of_Z 6)) else Val false.

Section Consensus.
Context {W : Type} `{Nodes W, Clock W, Os W, Rng W} `{EthUtils}.
Local Abbreviation MF := (M (FW W)).

(** ** Shared parts *)

(** Both nodes follow the first mainchain node; only the first is given both flags of
    certificates, whose defaults are the same. *)
Definition consensus_configuration (shared : SCForgerConfiguration) (connection : MCConnectionInfo) : SCNodeConfiguration :=
  SCNodeConfiguration_init connection true true None 100 100 "2m" true (PFloat (float_of_dec (Dec 1 (-4)))) shared
    300 0 "Horizen" 10000000 [] false PNone [] None [] "15m" "5m" false 0 true DEFAULT_MAX_NONCE_GAP
    DEFAULT_MAX_ACCOUNT_SLOTS DEFAULT_MAX_MEMPOOL_SLOTS DEFAULT_MAX_NONEXEC_POOL_SLOTS DEFAULT_TX_LIFETIME true true.

Definition consensus_sc_setup_chain (o : Options) (shared : SCForgerConfiguration) : MF unit :=
  let! mc_node := mc 0 in
  let! connection_1 := ws_connection mc_node 0 in
  let! connection_2 := ws_connection mc_node 0 in
  let% sci := SCCreationInfo_init mc_node (PInt 100) 10 0 SC_CREATION_VERSION_2 7 5 false true KEY_ROTATION_CIRCUIT in
  let! info := bootstrap_sidechain_nodes (run_options_of o)
    (mkSCNetworkConfiguration sci [consensus_configuration shared connection_1; consensus_configuration shared connection_2])
    (PInt (720 * 120 * 5)) AccountModel in
  put_info info.

(** [sc_setup_network] of two connected nodes that keep a long history *)
Definition consensus_sc_setup_network (fuel : nat) (o : Options) (history : Z) : MF unit :=
  let! binary := EVM_APP_BINARY in
  let! l := sc_setup_nodes_with_extra_arg fuel o "-max_hist_rew_len" (str_of_Z history) (Some binary) (Some "Horizen") in
  do! put_sc_nodes l in
  do! connect_pair fuel 0 1 in
  sync_all fuel.

Definition consensus_scenario (fuel : nat) (o : Options) (shared : SCForgerConfiguration) (history : Z) (test : MF unit)
    : TestClass W :=
  mkTestClass W (default_setup_chain o)
    (ac_setup_network fuel o (ac_defaults 2 10 evm_rewind (Some KEY_ROTATION_CIRCUIT) 100 true DEFAULT_TX_LIFETIME))
    (consensus_sc_setup_chain o shared) (consensus_sc_setup_network fuel o history) test.

(** The forging info of a node, with some of its fields compared. *)
Definition check_forging (sc_node : proxy) (expected : list (string * Z)) : MF pyval :=
  let! r := call sc_node "block_forgingInfo" [] in
  let% info := getitem r "result" in
  do! forM_ expected (λ fv, let% v := getitem info fv.1 in lift (assert_equal v (PInt fv.2) "")) in
  ret info.

Definition EPOCH : string := "bestBlockEpochNumber".
Definition SLOTS : string := "consensusSlotsInEpoch".
Definition SLOT : string := "bestBlockSlotNumber".
Definition SECONDS : string := "consensusSecondsInSlot".

(** Epochs of one block. *)
Definition switch_epochs (sc_node : proxy) (n : Z) : MF unit :=
  forM_ (zrange 0 n) (λ _, do! generate_next_block sc_node "first" true PNone in ret tt).

(** [sc_node.rpc_eth_getBlockByNumber("latest", "true")] *)
Definition latest_block (sc_node : proxy) : MF pyval :=
  call sc_node "rpc_eth_getBlockByNumber" [PStr "latest"; PStr "true"].

Definition same_latest (sc1 sc2 : proxy) : MF unit :=
  let! b1 := latest_block sc1 in
  let! b2 := latest_block sc2 in
  lift (assert_equal b1 b2 "").

(** [disconnect_sc_nodes_bi(self.sc_nodes, 0, 1)], after which both have the same tip *)
Definition part_nodes (sc1 sc2 : proxy) : MF unit :=
  let! l := get_sc_nodes in
  do! disconnect_sc_nodes_bi l 0 1 in
  same_latest sc1 sc2.

(** Blocks in all slots up to the end of the epoch, of which 5 % must have one. *)
Definition fill_epoch (sc_node : proxy) (info : pyval) : MF unit :=
  let% slot := getitem info SLOT in
  let% left := py_sub (PInt 1500) slot in
  let% slots := num_Z left in
  let! ids := try_to_generate_block_in_slots sc_node slots false in
  let% percentage := block_created_percentage (Z.of_nat (length ids)) slots in
  let% right := about_five_percent percentage in
  lift (assert_true right "").

(** The nodes are connected again, and the second one follows. *)
Definition nodes_join (fuel : nat) (sc1 sc2 : proxy) : MF unit :=
  do! connect_sc fuel 0 1 in
  do! generate_next_block sc1 "second node" false PNone in
  do! sync_self_blocks fuel 300 in
  same_latest sc1 sc2.

(** ** sc_evm_consensus_parameters_fork.py *)

(** The first epochs, with 720 slots. *)
Definition consensus_start (fuel : nat) (o : Options) : MF (proxy * proxy) :=
  do! not_with_all_forks o in
  do! sleep 100000 in
  do! sc_ac_setup fuel true true (PInt 10) in
  let! sc1 := sc 0 in
  let! sc2 := sc 1 in
  do! generate_next_blocks sc1 "first node" 1 in
  do! sc_sync_all fuel false in
  do! check_forging sc1 [(EPOCH, 2); (SLOTS, 720)] in
  ret (sc1, sc2).

Definition SCConsensusParamsForkTest_run_test (fuel : nat) (o : Options) : MF unit :=
  let! '(sc1, sc2) := consensus_start fuel o in
  do! switch_epochs sc1 17 in
  do! part_nodes sc1 sc2 in
  do! check_forging sc1 [(EPOCH, 19); (SLOTS, 720)] in
  do! switch_epochs sc1 1 in
  do! check_forging sc1 [(EPOCH, 20); (SLOTS, 1000); (SLOT, 1)] in
  do! generate_next_blocks sc1 "first node" 1000 in
  do! check_forging sc1 [(EPOCH, 21); (SLOT, 1)] in
  do! switch_epochs sc1 9 in
  do! check_forging sc1 [(EPOCH, 30); (SLOTS, 1500); (SLOT, 1)] in
  do! generate_next_blocks sc1 "first node" 1499 in
  do! check_forging sc1 [(EPOCH, 30); (SLOT, 1500)] in
  nodes_join fuel sc1 sc2.

Definition SCConsensusParamsForkTest (fuel : nat) (o : Options) (shared : SCForgerConfiguration) : TestClass W :=
  consensus_scenario fuel o shared 10000 (SCConsensusParamsForkTest_run_test fuel o).

(** ** sc_evm_active_slot_coefficient.py *)

Definition SCActiveSlotCoefficientTest_run_test (fuel : nat) (o : Options) : MF unit :=
  let! '(sc1, sc2) := consensus_start fuel o in
  do! switch_epochs sc1 33 in
  let! info := check_forging sc1 [(EPOCH, 35); (SLOTS, 1500)] in
  do% getitem info SLOT in
  do! part_nodes sc1 sc2 in
  do! fill_epoch sc1 info in
  nodes_join fuel sc1 sc2.

Definition SCActiveSlotCoefficientTest (fuel : nat) (o : Options) (shared : SCForgerConfiguration) : TestClass W :=
  consensus_scenario fuel o shared 2000 (SCActiveSlotCoefficientTest_run_test fuel o).

(** ** sc_evm_consensus_parameters_fork_with_sidechain_forks.py *)

(** Coins and a stake for the second node; three epochs later it can forge. *)
Definition second_forger (fuel : nat) (sc1 sc2 : proxy) (name name' : string) (mc_return_address : pyval)
    (coins stake : Z) : MF unit :=
  let! address := new_evm_address sc2 in
  let! info := boot_info in
  let! mc_node := mc 0 in
  do! forward_transfer_to_sidechain (sidechain_id info) mc_node address (PInt coins) mc_return_address true in
  do! forge_synced fuel sc1 name true in
  let! vrf := new_proposition sc2 "wallet_createVrfSecret" "publicKey" in
  let! sign := new_proposition sc2 "wallet_createPrivateKey25519" "publicKey" in
  let% zennies := convertZenToZennies (PInt stake) in
  let! result := ac_makeForgerStake sc2 address sign vrf (PInt zennies) PNone in
  do! sc_sync_all fuel false in
  do! forge_synced fuel sc1 name' false in
  let% tx_id := getpath result ["result"; "transactionId"] in
  let! receipt := receipt_0x sc2 tx_id in
  do! check_status receipt 1 "Make forger stake with native smart contract as owner should create a failed tx" in
  do! forge_synced fuel sc1 name true in
  forge_synced fuel sc1 name true.

(** A fork: both nodes switch the epoch and forge some blocks of their own. *)
Definition forge_apart (sc1 sc2 : proxy) (blocks1 : Z) (expected : list (string * Z)) : MF unit :=
  do! part_nodes sc1 sc2 in
  do! generate_next_block sc1 "first" true PNone in
  do! forM_ (zrange 0 blocks1) (λ _, do! generate_next_block sc1 "first" false PNone in ret tt) in
  do! check_forging sc1 expected in
  do! generate_next_block sc2 "second" true PNone in
  do! forM_ (zrange 0 1) (λ _, do! generate_next_block sc2 "second" false PNone in ret tt) in
  do! check_forging sc2 expected in
  ret tt.

(** Both nodes have the same tip and the same parameters. *)
Definition agree_on (sc1 sc2 : proxy) (expected : list (string * Z)) : MF pyval :=
  do! same_latest sc1 sc2 in
  do! check_forging sc1 expected in
  check_forging sc2 expected.

(** The nodes are connected again: the second one drops its blocks. *)
Definition fork_resolved (fuel : nat) (sc1 sc2 : proxy) (expected : list (string * Z)) : MF pyval :=
  do! connect_sc fuel 0 1 in
  do! sync_self_blocks fuel 20 in
  agree_on sc1 sc2 expected.

Definition SCConsensusParamsForkWithSidechainForksTest_run_test (fuel : nat) (o : Options) : MF unit :=
  do! not_with_all_forks o in
  do! sleep 100000 in
  let! s := sc_ac_setup fuel true true (PInt 10) in
  let! sc1 := sc 0 in
  let! sc2 := sc 1 in
  do! check_forging sc1 [(EPOCH, 2); (SLOTS, 720)] in
  do! second_forger fuel sc1 sc2 "first" "first node" (ac_mc_return_address s) 11 10 in
  do! switch_epochs sc1 14 in
  do! forge_apart sc1 sc2 20 [(EPOCH, 20); (SLOTS, 1000)] in
  do! fork_resolved fuel sc1 sc2 [(EPOCH, 20); (SLOTS, 1000)] in
  do! generate_next_block sc2 "second" true PNone in
  do! agree_on sc1 sc2 [(EPOCH, 21); (SLOTS, 1000)] in
  do! switch_epochs sc1 13 in
  do! check_forging sc1 [(EPOCH, 34)] in
  do! forge_apart sc1 sc2 5 [(EPOCH, 35)] in
  let! info := fork_resolved fuel sc1 sc2 [(EPOCH, 35); (SECONDS, 5); (SLOTS, 1500)] in
  fill_epoch sc1 info.

Definition SCConsensusParamsForkWithSidechainForksTest (fuel : nat) (o : Options) (shared : SCForgerConfiguration)
    : TestClass W :=
  consensus_scenario fuel o shared 1000 (SCConsensusParamsForkWithSidechainForksTest_run_test fuel o).

(** ** sc_evm_consensus_parameters_fork_with_mainchain_forks.py *)

(** Two mainchain nodes, connected. *)
Definition SCConsensusParamsForkWithMainchainForksTest_setup_network (fuel : nat) (o : Options) : MF unit :=
  let! l := start_nodes 2 (op_tmpdir o) None None None in
  do! put_nodes l in
  do! connect_self fuel 0 1 in
  sync_all fuel.

(** [sc_node.rpc_eth_getBlockByNumber("latest", "true")["result"]["number"]] *)
Definition latest_number (sc_node : proxy) : MF pyval :=
  let! b := latest_block sc_node in lift (getpath b ["result"; "number"]).

(** Coins for the first node, in its first block. *)
Definition mc_fork_transfer (fuel : nat) (mc1 mc2 sc1 : proxy) : MF unit :=
  let! mc_address_1 := call mc1 "getnewaddress" [] in
  let! sc_address_1 := new_evm_address sc1 in
  let! info := boot_info in
  do! forward_transfer_to_sidechain (sidechain_id info) mc1 sc_address_1 (PInt 10) mc_address_1 false in
  do! sleep (secs 2) in
  let! mc_address_2 := call mc2 "getnewaddress" [] in
  do! call mc1 "sendtoaddress" [mc_address_2; PInt 2] in
  do! sync_all fuel in
  do! call mc1 "generate" [PInt 1] in
  do! generate_next_block sc1 "first node" false PNone in
  let! balance := http_wallet_balance sc1 sc_address_1 PNone in
  let% wei := convertZenToWei (PInt 10) in
  lift (assert_equal (PInt wei) balance "").

(** The mainchain nodes are parted, and the first one mines a block. *)
Definition mc_part (fuel : nat) (mc1 : proxy) : MF unit :=
  do! sync_all fuel in
  do! disconnect_self fuel 0 1 in
  do! mine mc1 in ret tt.

(** The sidechain block with the new parameters is reverted with its mainchain block; the
    next one has the same height. *)
Definition mc_fork_reverts (fuel : nat) (mc1 mc2 sc1 : proxy) (parameters after : list (string * Z)) : MF pyval :=
  do! generate_next_block sc1 "first" true PNone in
  let! sc_block_fork_height := latest_number sc1 in
  do! check_forging sc1 parameters in
  do! mine mc2 in
  let! fork_mcblock_hash2 := mine mc2 in
  do! sleep (secs 1) in
  do! connect_self fuel 0 1 in
  do! sync_all fuel in
  do! sleep (secs 5) in
  let! tip := call mc1 "getbestblockhash" [] in
  do% assert_equal fork_mcblock_hash2 tip "" in
  do! generate_next_block sc1 "first" false PNone in
  let! info := check_forging sc1 after in
  let! number := latest_number sc1 in
  do% assert_equal number sc_block_fork_height "" in
  ret info.

Definition SCConsensusParamsForkWithMainchainForksTest_run_test (fuel : nat) (o : Options) : MF unit :=
  do! not_with_all_forks o in
  let! mc1 := mc 0 in
  let! mc2 := mc 1 in
  let! sc1 := sc 0 in
  let! sc2 := sc 1 in
  do! sync_all fuel in
  do! mc_fork_transfer fuel mc1 mc2 sc1 in
  do! switch_epochs sc1 17 in
  do! check_forging sc1 [(EPOCH, 19); (SLOTS, 720); (EPOCH, 19)] in
  do! mc_part fuel mc1 in
  do! check_forging sc1 [(SECONDS, 12); (SLOTS, 720); (EPOCH, 19)] in
  do! mc_fork_reverts fuel mc1 mc2 sc1 [(SECONDS, 18); (SLOTS, 1000); (EPOCH, 20)]
    [(SECONDS, 18); (SLOTS, 1000); (EPOCH, 20); (SLOT, 2)] in
  let! l := get_sc_nodes in
  do! disconnect_sc_nodes_bi l 0 1 in
  do! switch_epochs sc1 14 in
  do! check_forging sc1 [(EPOCH, 34)] in
  do! mc_part fuel mc1 in
  let! info := mc_fork_reverts fuel mc1 mc2 sc1 [(SECONDS, 5); (SLOTS, 1500); (EPOCH, 35)]
    [(SECONDS, 5); (SLOTS, 1500); (EPOCH, 35)] in
  do! fill_epoch sc1 info in
  do! connect_sc fuel 0 1 in
  do! sync_self_blocks fuel 20 in
  same_latest sc1 sc2.

Definition SCConsensusParamsForkWithMainchainForksTest (fuel : nat) (o : Options) (shared : SCForgerConfiguration)
    : TestClass W :=
  mkTestClass W (initialize_chain_clean (op_tmpdir o) 2) (SCConsensusParamsForkWithMainchainForksTest_setup_network fuel o)
    (consensus_sc_setup_chain o shared) (consensus_sc_setup_network fuel o 1000)
    (SCConsensusParamsForkWithMainchainForksTest_run_test fuel o).
End Consensus.
