(* ===== verification/SyncScenarios.v ===== *)
(** * Scenarios: the status of the synchronisation

    sc_evm_sync_status.py, sc_evm_sync_status_after_consensus_fork.py and
    sc_evm_sync_status_forger_nodes.py: a node that receives many blocks must report that
    it is synchronising, with the right numbers, and must stop to do so. *)

From S2P Require Import Prelude PyStr Numbers PyVal Host Sim Json Encoding HttpProxy BootInfo McUtil ScUtil.
From S2P Require Import Forging Bootstrap Framework AccountSetup McFramework HttpCalls AccountCalls AccountUtil SmartContract.
From Stdlib Require Import Ascii String.
From stdpp Require Import base list.
From S2P Require Import Scenarios ForgingScenarios StakeScenarios ChainScenarios MempoolScenarios CertScenarios EvmScenarios CswScenarios.
From S2P Require Import ForgerScenarios RecoveryScenarios ConsensusScenarios.
Local Open Scope Z_scope.

(** ** Replies of eth_syncing *)

(** [isinstance(res, dict) and "currentBlock" in res] *)
Definition is_syncing (res : pyval) : bool :=
  match res with PDict d => bool_decide (is_Some (dict_get "currentBlock" d)) | _ => false end.

(** The numbers of a reply; one of the scripts does not compare the first one. *)
Definition check_sync_numbers (expected_start : option Z) (res : pyval) : outcome unit :=
  let? s := getitem res "startingBlock" in
  let? decimal_starting_block := py_int_base s 16 in
  let? c := getitem res "currentBlock" in
  let? decimal_current_block := py_int_base c 16 in
  let? h := getitem res "highestBlock" in
  let? decimal_highest_block := py_int_base h 16 in
  let? _ := (match expected_start with
             | Some n => assert_equal (PInt n) (PInt decimal_starting_block) "unexpected value for startingBlock"
             | None => Val tt
             end) in
  let? _ := assert_true (decimal_current_block >? 0) "unexpected value for currentBlock" in
  let? _ := assert_true (decimal_current_block >=? decimal_starting_block) "startingBlock > currentBlock" in
  let? _ := assert_true (decimal_highest_block >? 0) "unexpected value for highestBlock" in
  let? _ := assert_true (decimal_highest_block - decimal_current_block >? 0) "currentBlock >= highestBlock" in
  assert_true (decimal_highest_block - decimal_starting_block >? 0) "startingBlock >= highestBlock".

(** [if type(is_sync) is bool and bool(is_sync): fail(...)] *)
Definition check_not_syncing (is_sync : pyval) : outcome unit :=
  match is_sync with
  | PBool true => fail "SC node 1 still consider itself syncing"
  | _ => Val tt
  end.

(** ** A pattern in a log *)

(** [\w] on code points below 256 *)
Definition is_word (c : ascii) : bool :=
  let n := N_of_ascii c in
  ((48 <=? n) && (n <=? 57) || (65 <=? n) && (n <=? 90) || (n =? 95) || (97 <=? n) && (n <=? 122)
   || (n =? 170) || (n =? 178) || (n =? 179) || (n =? 181) || (n =? 185) || (n =? 186)
   || (188 <=? n) && (n <=? 190) || (192 <=? n) && negb (n =? 215) && negb (n =? 247))%N.

(** [[a-zA-Z0-9-]] *)
Definition is_tip_char (c : ascii) : bool :=
  let n := N_of_ascii c in
  ((48 <=? n) && (n <=? 57) || (65 <=? n) && (n <=? 90) || (n =? 45) || (97 <=? n) && (n <=? 122))%N.

Fixpoint drop_tip (s : string) : string :=
  match s with
  | String c s' => if is_tip_char c then drop_tip s' else s
  | EmptyString => EmptyString
  end.

(** The rest of a text that starts with the given one. *)
Definition after (prefix s : string) : option string :=
  if startswith s prefix then Some (str_drop (String.length prefix) s) else None.

Definition at_word_end (s : string) : bool := match s with String c _ => negb (is_word c) | EmptyString => true end.

(** The pattern at the start of a text; the space after the tip is not one of its
    characters, so that only the longest tip can match. *)
Definition warning_here (s : string) : bool :=
  match after "SyncStatusActor: unexpected new tip " s with
  | Some (String c _ as tip) =>
      is_tip_char c &&
      match after " appeared due to recent node restart" (drop_tip tip) with
      | Some rest => at_word_end rest
      | None => false
      end
  | _ => false
  end.

(** [re.search]: the pattern starts where a word starts.  The script goes line by line;
    what the pattern matches has no end of line. *)
Fixpoint search_warning (in_word : bool) (s : string) : bool :=
  (negb in_word && warning_here s) || match s with String c s' => search_warning (is_word c) s' | EmptyString => false end.

Section Sync.
Context {W : Type} `{Nodes W, Clock W, Os W, Rng W} `{EthUtils}.
Local Abbreviation MF := (M (FW W)).

(** ** Shared parts *)

(** [int(sc_node.block_best()["result"]["height"])] *)
Definition best_height (sc_node : proxy) : MF Z :=
  let! b := best sc_node in
  let% h := getitem b "height" in
  lift (py_int h).

(** What is logged in every turn. *)
Definition log_status : MF unit :=
  let! sc1 := sc 1 in
  let! b := best sc1 in
  do% getitem b "height" in
  let! sc1 := sc 1 in
  let! r := call sc1 "node_connectedPeers" [] in
  do% getpath r ["result"; "peers"] in
  let! sc0 := sc 0 in
  let! r := call sc0 "node_connectedPeers" [] in
  do% getpath r ["result"; "peers"] in
  ret tt.

(** [self.sc_nodes[1].rpc_eth_syncing()["result"]] *)
Definition eth_syncing : MF pyval :=
  let! sc1 := sc 1 in
  let! r := call sc1 "rpc_eth_syncing" [] in
  lift (getitem r "result").

(** The first node is stopped in the middle. *)
Definition stop_sender : MF unit :=
  let! l := get_sc_nodes in
  do! disconnect_sc_nodes_bi l 0 1 in
  let! sc0 := sc 0 in
  stop_sc_node sc0 0.

(** [execute_stop and time.time() - start >= 15] *)
Definition time_to_stop (start : Z) (execute_stop : bool) : MF bool :=
  if execute_stop then let! now := time_time in ret (now - start >=? secs 15) else ret false.

(** One turn of the loop: whether it ends, and [sync_status].  A status that is over ends
    the loop with the variable reset. *)
Definition status_turn (expected_start : option Z) (start wait_for : Z) (execute_stop sync_status : bool)
    : MF (bool * bool) :=
  let! res := eth_syncing in
  do! log_status in
  let syncing := is_syncing res in
  do% (if syncing then check_sync_numbers expected_start res else Val tt) in
  if negb syncing && sync_status then ret (true, false)
  else
    let sync_status := syncing in
    let! now := time_time in
    do% (if now - start >=? wait_for then fail "Syncing blocks timeout" else Val tt) in
    let! l := get_sc_nodes in
    let! counts := mmap best_height l in
    let% same := heights_equal counts in
    if same then ret (true, sync_status)
    else
      let! stop := time_to_stop start execute_stop in
      if stop then do! stop_sender in ret (true, sync_status) else ret (false, sync_status).

(** [while True]: the value of [sync_status] when the loop ends *)
Fixpoint sync_status_loop (fuel : nat) (expected_start : option Z) (start wait_for : Z) (execute_stop sync_status : bool)
    : MF bool :=
  match fuel with
  | O => out_of_fuel
  | S f =>
      let! '(ended, sync_status) := status_turn expected_start start wait_for execute_stop sync_status in
      if ended then ret sync_status
      else do! sleep (secs 1) in sync_status_loop f expected_start start wait_for execute_stop sync_status
  end.

Definition sync_status_blocks (fuel : nat) (expected_start : option Z) (execute_stop : bool) : MF unit :=
  let! start := time_time in
  let! sync_status := sync_status_loop fuel expected_start start (secs 200) execute_stop false in
  if sync_status then ret tt else lift (fail "SC node 1 was in sync but has not detected that it is in sync").

Definition check_sync_status (fuel : nat) (starting_block_height : Z) (execute_stop : bool) : MF unit :=
  do! sync_status_blocks fuel (Some starting_block_height) execute_stop in
  do! sleep (secs (15 * 2)) in
  let! is_sync := eth_syncing in
  lift (check_not_syncing is_sync).

(** The arguments of the third script are a list in a list, in which the option is not
    found. *)
Definition run_sc_node (fuel : nat) (o : Options) (sc_node_idx : Z) (extra_args : option (list string)) : MF unit :=
  let! binary := EVM_APP_BINARY in
  do! start_sc_node sc_node_idx (op_tmpdir o) extra_args None (Some binary) false None in
  let! l := get_sc_nodes in
  do! wait_for_sc_node_initialization fuel l in
  sleep (secs 3).

Definition restart_sc_node (fuel : nat) (o : Options) (sc_node_idx : Z) (extra_args : option (list string)) : MF unit :=
  let! node := sc sc_node_idx in
  do! stop_sc_node node sc_node_idx in
  do! sleep (secs 2) in
  run_sc_node fuel o sc_node_idx extra_args.

(** Blocks in chunks, after a mainchain block each. *)
Definition forge_many (sc0 : proxy) (num_blocks : Z) : MF unit :=
  forM_ (chunk_sizes num_blocks) (λ n,
    let! mc_node := mc 0 in
    do! call mc_node "generate" [PInt 1] in
    do! generate_next_blocks sc0 "first node" n in
    ret tt).

(** The nodes are connected after five seconds. *)
Definition connect_late (fuel : nat) (i j : Z) : MF unit :=
  do! sleep (secs 5) in
  connect_sc fuel i j.

(** The second node is stopped, the first one forges, and the second one is started: its
    height. *)
Definition stop_and_forge (fuel : nat) (o : Options) (sc0 sc1 : proxy) (num_blocks : Z) : MF Z :=
  do! stop_sc_node sc1 1 in
  do! forge_many sc0 num_blocks in
  do! run_sc_node fuel o 1 None in
  let! h := best_height sc1 in
  do! connect_late fuel 0 1 in
  ret h.

(** ** sc_evm_sync_status.py *)

Definition sync_blocks : Z := 1500.

(** The nodes are only disconnected. *)
Definition forge_disconnected (fuel : nat) (sc0 sc1 : proxy) : MF unit :=
  let! l := get_sc_nodes in
  do! disconnect_sc_nodes_bi l 0 1 in
  let! height := best_height sc1 in
  do! forge_many sc0 sync_blocks in
  let! height' := best_height sc1 in
  do% assert_equal (PInt height) (PInt height') "nodes are wrongly connected" in
  do! connect_late fuel 0 1 in
  check_sync_status fuel (height + 1) false.

(** The first node is stopped during the synchronisation and started again. *)
Definition sender_stopped (fuel : nat) (o : Options) (sc0 sc1 : proxy) : MF unit :=
  let! l := get_sc_nodes in
  do! disconnect_sc_nodes_bi l 0 1 in
  let! height := stop_and_forge fuel o sc0 sc1 (sync_blocks * 2) in
  do! sleep (secs 5) in
  do! check_sync_status fuel (height + 1) true in
  let! height := best_height sc1 in
  do! run_sc_node fuel o 0 None in
  do! connect_late fuel 1 0 in
  check_sync_status fuel (height + 1) false.

Definition EvmSyncStatus_run_test (fuel : nat) (o : Options) : MF unit :=
  let! sc0 := sc 0 in
  let! sc1 := sc 1 in
  do! sync_all fuel in
  let! height := stop_and_forge fuel o sc0 sc1 sync_blocks in
  do! check_sync_status fuel (height + 1) false in
  do! forge_disconnected fuel sc0 sc1 in
  sender_stopped fuel o sc0 sc1.

Definition EvmSyncStatus (fuel : nat) (o : Options) (shared : SCForgerConfiguration) : TestClass W :=
  mkTestClass W (initialize_chain_clean (op_tmpdir o) 1) (args_setup_network fuel o pool_args)
    (recovery_chain AccountModel o shared 900 false (PInt (DEFAULT_EVM_APP_GENESIS_TIMESTAMP_REWIND * 5)))
    (EvmStorageRecovery_sc_setup_network fuel o) (EvmSyncStatus_run_test fuel o).

(** ** sc_evm_sync_status_after_consensus_fork.py *)

Definition sync_fork_sc_setup_network (fuel : nat) (o : Options) : MF unit :=
  let! binary := EVM_APP_BINARY in
  let! dbg := self_get debug_extra_args in
  let! l := start_sc_nodes fuel 2 (op_tmpdir o) (option_map (map Some) dbg) None (Some [Some binary; Some binary]) false
    (Some DEFAULT_API_KEY) in
  do! put_sc_nodes l in
  sc_sync_all fuel false.

(** The loop has a name of its own here. *)
Definition call_eth_syncing_to_sync_sc_blocks (fuel : nat) (starting_block_height : Z) (execute_stop : bool) : MF unit :=
  sync_status_blocks fuel (Some starting_block_height) execute_stop.

Definition EvmSyncStatusFork_run_test (fuel : nat) (o : Options) : MF unit :=
  let! sc0 := sc 0 in
  let! sc1 := sc 1 in
  do! sync_all fuel in
  do! forM_ (zrange 0 34) (λ _, do! generate_next_block sc0 "first node" true PNone in ret tt) in
  let! info := http_block_forging_info sc0 in
  let% epoch := getitem info "bestBlockEpochNumber" in
  do% assert_equal epoch (PInt 35) "" in
  let! height := stop_and_forge fuel o sc0 sc1 sync_blocks in
  check_sync_status fuel (height + 1) false.

Definition EvmSyncStatusFork (fuel : nat) (o : Options) (shared : SCForgerConfiguration) : TestClass W :=
  mkTestClass W (initialize_chain_clean (op_tmpdir o) 1) (args_setup_network fuel o pool_args)
    (recovery_chain AccountModel o shared 900 false (PInt (720 * 120 * 10))) (sync_fork_sc_setup_network fuel o)
    (EvmSyncStatusFork_run_test fuel o).

(** ** sc_evm_sync_status_forger_nodes.py *)

(** The loop without the comparison of the first block; the test does not call it. *)
Definition EvmSyncStatusForgerNodes_sync_sc_blocks (fuel : nat) (execute_stop : bool) : MF unit :=
  sync_status_blocks fuel None execute_stop.

Definition print_heights (sc0 sc1 : proxy) : MF unit :=
  do! best_height sc0 in
  do! best_height sc1 in ret tt.

(** The warning is in the log of the second node, which is read after a change of the
    directory. *)
Definition check_restart_warning (o : Options) : MF unit :=
  let! text := read_file (op_tmpdir o +:+ "/sc_node1/log/debugLog.txt") in
  lift (assert_true (search_warning false text) "").

Definition EvmSyncStatusForgerNodes_run_test (fuel : nat) (o : Options) : MF unit :=
  do! not_with_all_forks o in
  let! sc0 := sc 0 in
  let! sc1 := sc 1 in
  let! s := sc_ac_setup fuel true true default_ft in
  do! second_forger fuel sc0 sc1 "node 0" "node 0" (ac_mc_return_address s) 50 33 in
  let! l := get_sc_nodes in
  do! disconnect_sc_nodes_bi l 0 1 in
  do! sleep (secs 5) in
  do! generate_next_blocks sc0 "node 0" 200 in
  do! print_heights sc0 sc1 in
  do! stop_sc_node sc1 1 in
  do! sleep (secs 30) in
  do! run_sc_node fuel o 1 (Some []) in
  do! generate_next_blocks sc1 "node 1" 3 in
  do! sleep (secs 30) in
  do! print_heights sc0 sc1 in
  do! connect_sc fuel 0 1 in
  do! sync_all fuel in
  do! sleep (secs 30) in
  do! best_height sc1 in
  check_restart_warning o.

Definition sync_forger_setup : AccountChainSetup :=
  mkAccountChainSetup "Horizen" 1 2 20 (PInt 100) evm_rewind None [] None false [] 100 true true DEFAULT_MAX_NONCE_GAP
    DEFAULT_MAX_ACCOUNT_SLOTS DEFAULT_MAX_MEMPOOL_SLOTS DEFAULT_MAX_NONEXEC_POOL_SLOTS DEFAULT_TX_LIFETIME
    [Some 8026; None] 7 5 [].

Definition EvmSyncStatusForgerNodes (fuel : nat) (o : Options) (shared : SCForgerConfiguration) : TestClass W :=
  mkTestClass W (default_setup_chain o) (ac_setup_network fuel o sync_forger_setup)
    (ac_sc_setup_chain o sync_forger_setup shared) (consensus_sc_setup_network fuel o 1000)
    (EvmSyncStatusForgerNodes_run_test fuel o).
End Sync.
