(* ===== verification/EvmMempoolScenarios.v ===== *)
(** * Scenarios: the memory pool of the account model

    sc_evm_orphan_txs.py, sc_evm_mempool.py, sc_evm_mempool_size.py,
    sc_evm_mempool_invalid_txs.py and sc_evm_txpool.py: transactions that wait for a
    nonce, the order in a block, replacement, eviction from a full pool, transactions of
    reverted blocks, refused transactions, and the methods that show the pool. *)

From S2P Require Import Prelude PyStr Numbers PyVal Host Sim Json Encoding HttpProxy BootInfo McUtil ScUtil.
From S2P Require Import Forging Bootstrap Framework AccountSetup McFramework HttpCalls AccountCalls AccountUtil SmartContract.
From Stdlib Require Import Ascii String.
From stdpp Require Import base list.
From S2P Require Import Scenarios ForgingScenarios StakeScenarios ChainScenarios MempoolScenarios CertScenarios EvmScenarios CswScenarios.
From S2P Require Import EvmRotationScenarios ForgerScenarios EvmForgerScenarios NativeForgerScenarios OwnershipScenarios SeederScenarios.
Local Open Scope Z_scope.

(** ** Texts and values *)

(** ['FF' * n] *)
Fixpoint repeat_text (n : nat) (s : string) : string :=
  match n with O => EmptyString | S n' => s +:+ repeat_text n' s end.

Definition hex_value (z : Z) : pyval := PStr (hex z).

(** ['0x' + address] *)
Definition with_0x (address : pyval) : outcome string :=
  let? a := py_add (PStr "0x") address in as_str "" a.

(** [assert_true(tx[field] == value)] for the fields in order *)
Fixpoint fields_are (tx : pyval) (expected : list (string * pyval)) : outcome unit :=
  match expected with
  | [] => Val tt
  | (field, value) :: expected' =>
      let? v := getitem tx field in
      let? _ := assert_true (py_eqb v value) "" in
      fields_are tx expected'
  end.

(** The text of [txpool_inspect]: the multiplication sign is code point 215. *)
Definition inspect_text (what : string) (wei gas gas_price : Z) : string :=
  what +:+ ": " +:+ str_of_Z wei +:+ " wei + " +:+ str_of_Z gas +:+ " gas " +:+ String "215" " "
  +:+ str_of_Z gas_price +:+ " wei".

(** The same with the gas and the price of a transaction in the pool. *)
Definition inspect_of (what : string) (wei : Z) (tx : pyval) : outcome string :=
  let? g := getitem tx "gas" in
  let? gas := py_int_base g 16 in
  let? p := getitem tx "gasPrice" in
  let? price := py_int_base p 16 in
  Val (inspect_text what wei gas price).

Section EvmMempool.
Context {W : Type} `{Nodes W, Clock W, Os W, Rng W} `{EthUtils, EthAbi, EthHash, EthHex}.
Local Abbreviation MF := (M (FW W)).

(** ** Shared parts *)

Definition coins_500 : pyval := PDec (Dec 5000 (-1)).

(** Coins of the mainchain for an account, with a block. *)
Definition coins_for (address amount : pyval) : MF unit :=
  let! mc_node := mc 0 in transfer_to mc_node address amount true.

(** A transfer of one unit, with the fees of a transaction of type 2. *)
Definition send_one (sc_node : proxy) (from to : pyval) (nonce gas priority fee : Z) : MF pyval :=
  AccountCalls.createEIP1559Transaction sc_node
    (mkTxArgs from to (PInt nonce) (PInt gas) (PInt 1) (PStr "") PNone PNone PNone) (PInt priority) (PInt fee) PNone.

(** The fees most of the scripts use. *)
Definition send_plain (sc_node : proxy) (from to : pyval) (nonce : Z) : MF pyval :=
  send_one sc_node from to nonce 230000 900000000 900000000.

Definition send_legacy (sc_node : proxy) (from to : pyval) (nonce value gas gas_price : Z) : MF pyval :=
  createLegacyTransaction sc_node (mkTxArgs from to (PInt nonce) (PInt gas) (PInt value) (PStr "") PNone PNone PNone)
    (PInt gas_price) PNone false.

(** [allTransactions(sc_node, False)['transactionIds']] *)
Definition pool_ids (sc_node : proxy) : MF pyval :=
  let! r := allTransactions sc_node false in lift (getitem r "transactionIds").

(** [assert_equal(n, len(ids), message)] *)
Definition check_pool_size (sc_node : proxy) (n : Z) (message : string) : MF pyval :=
  let! ids := pool_ids sc_node in
  do! check_length n ids message in
  ret ids.

(** The transactions of the best block have the given ids, in order. *)
Definition check_block_txs (sc_node : proxy) (message : string) (expected : list (pyval * string)) : MF unit :=
  let! b := best sc_node in
  let% txs := getpath b ["block"; "sidechainTransactions"] in
  do! check_length (Z.of_nat (length expected)) txs message in
  forM_ (zip (zrange 0 (Z.of_nat (length expected))) expected) (λ ie,
    let% tx := getindex txs ie.1 in
    let% id := getitem tx "id" in
    lift (assert_equal ie.2.1 id ie.2.2)).

(** ** sc_evm_orphan_txs.py *)

(** The balances of the accounts of a wallet, and their sum. *)
Fixpoint sum_balances (sc_node : proxy) (balances : list pyval) (totBal : pyval) : MF pyval :=
  match balances with
  | [] => ret totBal
  | bal :: balances' =>
      let% address := getitem bal "address" in
      let% balance := getitem bal "balance" in
      let% request := dumps (PDict [("address", address)]) in
      let! r := call sc_node "wallet_getBalance" [PStr request] in
      let% found := getpath r ["result"; "balance"] in
      do% assert_equal balance found "" in
      let% totBal := py_add totBal balance in
      sum_balances sc_node balances' totBal
  end.

Definition checkNodeBalanceApi (sc_node : proxy) : MF unit :=
  let! r := call sc_node "wallet_getAllBalances" [] in
  let% all := getpath r ["result"; "balances"] in
  let% l := py_iter all in
  let! totBal := sum_balances sc_node l (PInt 0) in
  let! r := call sc_node "wallet_getTotalBalance" [] in
  let% found := getpath r ["result"; "balance"] in
  lift (assert_equal totBal found "").

(** A transaction whose nonce is too high waits for the one before it. *)
Definition orphan_waits (fuel : nat) (sc1 : proxy) (address1 address2 : pyval) : MF unit :=
  let% amount := convertZenToWei (PDec (Dec 11 0)) in
  let! orphan_tx_hash := send_legacy sc1 address1 address2 1 amount 21000 1000000000 in
  do! sc_sync_all fuel false in
  let! ids := pool_ids sc1 in
  do! check_pooled ids orphan_tx_hash in
  do! forge_synced fuel sc1 "first node" false in
  do! check_block_txs sc1 "Orphan transaction shouldn't be included in the block" [] in
  let! ids := pool_ids sc1 in
  do! check_pooled ids orphan_tx_hash in
  let! tx_hash_nonce_0 := send_legacy sc1 address1 address2 0 amount 21000 1000000000 in
  do! sc_sync_all fuel false in
  let! ids := pool_ids sc1 in
  do! check_pooled ids tx_hash_nonce_0 in
  do! forge_synced fuel sc1 "first node" false in
  do! check_block_txs sc1 "Wrong number of transactions in the block"
    [(tx_hash_nonce_0, "Wrong first tx"); (orphan_tx_hash, "Wrong second tx")] in
  do! check_pool_size sc1 0 "" in
  ret tt.

(** A transaction of the test of the order: its account, its nonce and its fees. *)
Inductive OrderedTx :=
| LegacyTx (gas_price : Z)
| Eip1559Tx (priority fee : Z).

(** The transactions in the order in which they are sent. *)
Definition ordered_txs : list (Z * Z * OrderedTx) :=
  [(0, 0, LegacyTx 900000003); (0, 1, LegacyTx 900000001); (0, 2, Eip1559Tx 900000110 900001100);
   (1, 0, LegacyTx 900000005); (1, 1, Eip1559Tx 900000002 900000002); (1, 2, LegacyTx 900000190);
   (2, 0, Eip1559Tx 900000010 900000100); (2, 1, Eip1559Tx 900000200 900002000); (2, 2, Eip1559Tx 900000006 900000060)].

(** Their places in the block, as positions in that list: C0, C1, C2, B0, A0, B1, B2, A1,
    A2. *)
Definition expected_order : list Z := [6; 7; 8; 3; 0; 4; 5; 1; 2].

Definition send_ordered (sc_node : proxy) (accounts : list pyval) (to : pyval) (t : Z * Z * OrderedTx) : MF pyval :=
  let% from := list_index accounts t.1.1 in
  match t.2 with
  | LegacyTx gas_price => send_legacy sc_node from to t.1.2 1 230000 gas_price
  | Eip1559Tx priority fee => send_one sc_node from to t.1.2 230000 priority fee
  end.

(** Transactions with higher tips come first, those of one account by nonce. *)
Definition ordered_in_block (fuel : nat) (sc1 : proxy) (accounts : list pyval) (address2 : pyval) : MF unit :=
  let! txs := mmap (send_ordered sc1 accounts address2) ordered_txs in
  do! sc_sync_all fuel false in
  do! forge_synced fuel sc1 "first node" false in
  let% expected := omapM (list_index txs) expected_order in
  check_block_txs sc1 "Wrong number of transactions in the block" (map (λ tx, (tx, "")) expected).

(** A transaction with the same nonce and a higher tip takes the place of the first. *)
Definition replaced (fuel : nat) (sc1 : proxy) (address address2 : pyval) : MF unit :=
  let! oldTxId := send_legacy sc1 address address2 3 1 230000 900000000 in
  let! ids := pool_ids sc1 in
  do! check_pooled ids oldTxId in
  let! newTxId := send_legacy sc1 address address2 3 1 230000 900000500 in
  let! ids := pool_ids sc1 in
  do! check_not_pooled ids oldTxId in
  do! check_pooled ids newTxId in
  do! sc_sync_all fuel false in
  do! forge_synced fuel sc1 "first node" false in
  check_block_txs sc1 "Wrong number of transactions in the block" [(newTxId, "")].

Definition SCEvmOrphanTXS_run_test (fuel : nat) : MF unit :=
  let! sc1 := sc 0 in
  let! sc2 := sc 1 in
  let! address1 := new_evm_address sc1 in
  let! address2 := new_evm_address sc2 in
  do! coins_for address1 coins_500 in
  do! sync_all fuel in
  do! forge_synced fuel sc1 "first node" false in
  do! orphan_waits fuel sc1 address1 address2 in
  let! accounts := mmap (λ _, new_evm_address sc1) (zrange 0 3) in
  do! forM_ accounts (λ a, coins_for a coins_500) in
  do! sync_all fuel in
  do! forge_synced fuel sc1 "first node" false in
  do! ordered_in_block fuel sc1 accounts address2 in
  let% addressA := list_index accounts 0 in
  do! replaced fuel sc1 addressA address2 in
  do! checkNodeBalanceApi sc1 in
  checkNodeBalanceApi sc2.

Definition SCEvmOrphanTXS (fuel : nat) (o : Options) (shared : SCForgerConfiguration) : TestClass W :=
  AccountChainSetup_class fuel o (ac_simple 2 LARGE_WITHDRAWAL_EPOCH_LENGTH) shared (SCEvmOrphanTXS_run_test fuel).

(** ** sc_evm_mempool.py *)

(** [n] transactions with the nonces from [nonce] on: their ids. *)
Definition send_many (sc_node : proxy) (from to : pyval) (nonce n : Z) : MF (list pyval) :=
  mmap (λ i, send_plain sc_node from to (nonce + i)) (zrange 0 n).

(** Transactions of both nodes in turn. *)
Definition send_common (sc1 sc2 : proxy) (address1 address2 : pyval) (nonce1 nonce2 n : Z) : MF unit :=
  forM_ (zrange 0 n) (λ i,
    do! send_plain sc1 address1 address2 (nonce1 + i) in
    do! send_plain sc2 address2 address1 (nonce2 + i) in
    ret tt).

(** [assert_true(len(ids) == n)] *)
Definition check_pool_count (sc_node : proxy) (n : Z) : MF pyval :=
  let! ids := pool_ids sc_node in
  let% k := py_len ids in
  do% assert_true (k =? n) "" in
  ret ids.

(** The pool has these transactions and no others. *)
Definition only_own (ids : pyval) (txs : list pyval) (message : string) : MF unit :=
  do! check_length (Z.of_nat (length txs)) ids message in
  forM_ txs (check_pooled ids).

(** A stake in the name of the second node; three epochs later it can forge. *)
Definition mempool_forger (fuel : nat) (sc1 sc2 : proxy) (address1 : pyval) : MF unit :=
  let! sign := new_proposition sc2 "wallet_createPrivateKey25519" "publicKey" in
  let! vrf := new_proposition sc2 "wallet_createVrfSecret" "publicKey" in
  do! make_stake sc1 address1 sign vrf (PInt 300) PNone "make forger stake failed: " in
  do! sc_sync_all fuel false in
  forM_ (zrange 0 3) (λ _, forge_synced fuel sc1 "first node" true).

Definition nodes_apart : MF unit := let! l := get_sc_nodes in disconnect_sc_nodes_bi l 0 1.

(** [connect_sc_nodes(sc_node_1, 1); sync_sc_blocks(self.sc_nodes)] *)
Definition nodes_together (fuel : nat) (sc1 : proxy) : MF unit :=
  do! connect_sc_nodes fuel sc1 1 (secs 25) in
  let! l := get_sc_nodes in
  sync_sc_blocks fuel l (secs 25).

(** A block of the first node takes its transactions out of both pools. *)
Definition block_applied (fuel : nat) (sc1 sc2 : proxy) (address1 address2 : pyval) : MF unit :=
  do! send_common sc1 sc2 address1 address2 1 0 4 in
  do! sc_sync_all fuel false in
  do! check_pool_count sc1 8 in
  do! check_pool_count sc2 8 in
  do! nodes_apart in
  do! send_many sc1 address1 address2 5 3 in
  let! node_2_tx_list := send_many sc2 address2 address1 4 5 in
  do! check_pool_count sc1 11 in
  do! check_pool_count sc2 13 in
  do! generate_next_block sc1 "first node" false PNone in
  do! check_pool_size sc1 0 "Wrong number of transactions in node 1 mempool" in
  do! nodes_together fuel sc1 in
  do! check_pool_count sc1 0 in
  let! ids := check_pool_count sc2 5 in
  only_own ids node_2_tx_list "Wrong number of transactions in node 2 mempool".

(** The block of the first node is reverted: its own transactions are back in its pool. *)
Definition block_reverted (fuel : nat) (sc1 sc2 : proxy) (address1 address2 : pyval) : MF unit :=
  do! forge_synced fuel sc2 "second node" false in
  do! send_common sc1 sc2 address1 address2 8 9 4 in
  do! sc_sync_all fuel false in
  do! nodes_apart in
  let! node_1_tx_list := send_many sc1 address1 address2 12 3 in
  do! generate_next_block sc1 "first node" false PNone in
  do! check_pool_size sc1 0 "Wrong number of transactions in node 1 mempool" in
  do! send_many sc2 address2 address2 13 3 in
  do! generate_next_block sc2 "second node" false PNone in
  do! send_many sc2 address2 address1 16 5 in
  do! generate_next_block sc2 "second node" false PNone in
  do! nodes_together fuel sc1 in
  let! b1 := best sc1 in
  let% id1 := getpath b1 ["block"; "header"; "id"] in
  let! b2 := best sc2 in
  let% id2 := getpath b2 ["block"; "header"; "id"] in
  do% assert_equal id1 id2 "" in
  let! ids := pool_ids sc1 in
  only_own ids node_1_tx_list "Wrong number of transactions in node 1 mempool".

Definition SCEvmMempool_run_test (fuel : nat) : MF unit :=
  let! sc1 := sc 0 in
  let! sc2 := sc 1 in
  let! address1 := new_evm_address sc1 in
  let! address2 := new_evm_address sc2 in
  do! coins_for address1 coins_500 in
  do! coins_for address2 coins_500 in
  do! sync_all fuel in
  do! forge_synced fuel sc1 "first node" false in
  do! mempool_forger fuel sc1 sc2 address1 in
  do! block_applied fuel sc1 sc2 address1 address2 in
  block_reverted fuel sc1 sc2 address1 address2.

Definition SCEvmMempool (fuel : nat) (o : Options) (shared : SCForgerConfiguration) : TestClass W :=
  AccountChainSetup_class fuel o (ac_simple 2 LARGE_WITHDRAWAL_EPOCH_LENGTH) shared (SCEvmMempool_run_test fuel).

(** ** sc_evm_mempool_size.py *)

Definition size_mempool_slots : Z := 16.
Definition size_nonexec_slots : Z := 15.

Definition in_pool (ids tx : pyval) (message : string) : MF unit :=
  let% there := py_in tx ids in lift (assert_true there message).
Definition out_of_pool (ids tx : pyval) (message : string) : MF unit :=
  let% there := py_in tx ids in lift (assert_false there message).

Definition wrong_number (node : Z) : string := "Wrong number of txs in mempool of node " +:+ str_of_Z node.

(** Three blocks with transactions, each with a mainchain block: the transactions and the
    mainchain blocks.  The batches get shorter by one, as in the test of seeder nodes. *)
Fixpoint reverted_blocks (mc_node sc1 : proxy) (address : pyval) (js : list Z) (nonce : Z) : MF (list pyval * list pyval) :=
  match js with
  | [] => ret ([], [])
  | j :: js' =>
      let batch := block_batch DEFAULT_MAX_ACCOUNT_SLOTS j in
      let n := Z.of_nat (length batch) in
      let! txs := send_many sc1 address address nonce n in
      let! hash := mine mc_node in
      do! generate_next_block sc1 "first node" false PNone in
      let! '(txs', hashes) := reverted_blocks mc_node sc1 address js' (nonce + n) in
      ret (txs ++ txs', hash :: hashes)
  end.

(** The oldest transaction is in the pool of a node, or it is not; the pool. *)
Definition check_oldest (sc_node : proxy) (n : Z) (number : string) (oldest : pyval) (there : bool) (message : string)
    : MF pyval :=
  let! ids := check_pool_size sc_node n number in
  do! (if there then in_pool ids oldest message else out_of_pool ids oldest message) in
  ret ids.

(** The pool is filled, and one more transaction drives the oldest out: the pool then. *)
Definition oldest_evicted (fuel : nat) (sc1 sc2 : proxy) (address1 oldest : pyval) (nonce : Z) : MF pyval :=
  do! send_many sc1 address1 address1 nonce (size_mempool_slots - 1) in
  do! check_oldest sc1 size_mempool_slots (wrong_number 1) oldest true "oldest_tx should still be in mem pool of node 1" in
  do! sc_sync_all fuel false in
  do! check_oldest sc2 size_mempool_slots (wrong_number 2) oldest true "oldest_tx should still be in mem pool of node 2" in
  do! send_plain sc1 address1 address1 (nonce + (size_mempool_slots - 1)) in
  let! txs_in_mempool := check_oldest sc1 size_mempool_slots (wrong_number 1) oldest false "oldest_tx is still in mem pool of node 1" in
  do! sc_sync_all fuel false in
  do! check_oldest sc2 size_mempool_slots (wrong_number 2) oldest false "oldest_tx is still in mem pool of node 2" in
  ret txs_in_mempool.

(** A transaction that cannot be executed drives two out: the pool then. *)
Definition two_evicted (fuel : nat) (sc1 sc2 : proxy) (address2 : pyval) : MF pyval :=
  let! non_exec_tx := send_one sc1 address2 address2 15 23000 900000000 900000000 in
  let! before := check_oldest sc1 size_nonexec_slots (wrong_number 1) non_exec_tx true "new tx is not in mem pool of node 1" in
  do! sc_sync_all fuel false in
  do! check_oldest sc2 size_nonexec_slots (wrong_number 2) non_exec_tx true "new tx is not in mem pool of node 2" in
  ret before.

(** The old transactions are gone; of those of the reverted blocks the first are there. *)
Definition check_reinjected (ids : pyval) (old : list pyval) (old_message : string) (reinjected_txs : list pyval)
    (node : Z) : MF unit :=
  let of_node := " mem pool of node " +:+ str_of_Z node in
  do! forM_ old (λ tx, out_of_pool ids tx (old_message +:+ " is still in" +:+ of_node)) in
  do! forM_ (zrange 0 size_mempool_slots) (λ i,
    let% tx := list_index reinjected_txs i in in_pool ids tx ("tx is not in" +:+ of_node)) in
  forM_ (zrange size_mempool_slots (Z.of_nat (length reinjected_txs))) (λ i,
    let% tx := list_index reinjected_txs i in
    out_of_pool ids tx ("tx should have been evicted from" +:+ of_node)).

(** [sc_node.block_best()["result"]["height"]] *)
Definition best_height_of (sc_node : proxy) : MF pyval := let! b := best sc_node in lift (getitem b "height").

(** The mainchain blocks are made invalid; the transactions of their sidechain blocks come
    back to the pools. *)
Definition blocks_reverted (fuel : nat) (mc_node sc1 sc2 : proxy) (first_hash height in_mempool before : pyval)
    (reinjected_txs : list pyval) : MF unit :=
  do! call mc_node "invalidateblock" [first_hash] in
  do! sleep (secs 5) in
  do! call mc_node "generate" [PInt (3 + 1)] in
  do! generate_next_block sc1 "first node" false PNone in
  let! new_block_height := best_height_of sc1 in
  let% expected := py_add height (PInt 1) in
  do% assert_equal expected new_block_height "Wrong block height after revert" in
  let! ids := check_pool_size sc1 size_mempool_slots (wrong_number 1) in
  let% old := py_iter before in
  do! check_reinjected ids old "txs_in_mempool_before_fork" reinjected_txs 1 in
  do! sc_sync_all fuel false in
  let! ids := check_pool_size sc2 size_mempool_slots (wrong_number 2) in
  let% old := py_iter in_mempool in
  check_reinjected ids old "txs_in_mempool" reinjected_txs 2.

Definition SCEvmMempoolSize_run_test (fuel : nat) : MF unit :=
  let! mc_node := mc 0 in
  let! sc1 := sc 0 in
  let! sc2 := sc 1 in
  let! address1 := new_evm_address sc1 in
  let! address2 := new_evm_address sc1 in
  do! coins_for address1 ft_3000 in
  do! coins_for address2 (PDec (Dec 100 (-1))) in
  do! sync_all fuel in
  do! forge_synced fuel sc1 "first node" false in
  let! oldest_tx := send_one sc1 address2 address2 14 23000 900000000 900000000 in
  let! height := best_height_of sc1 in
  let! '(reinjected_txs, hashes) := reverted_blocks mc_node sc1 address1 (zrange 0 3) 0 in
  do! check_oldest sc1 1 "Wrong number of txs in mem pool of node 1" oldest_tx true
    "oldest_tx is missing from mem pool of node 1" in
  do! sc_sync_all fuel false in
  do! check_oldest sc2 1 "Wrong number of txs in mem pool of node 2" oldest_tx true
    "oldest_tx is missing from mem pool of node 2" in
  let! in_mempool := oldest_evicted fuel sc1 sc2 address1 oldest_tx (Z.of_nat (length reinjected_txs)) in
  let! before := two_evicted fuel sc1 sc2 address2 in
  let% first_hash := list_index hashes 0 in
  blocks_reverted fuel mc_node sc1 sc2 first_hash height in_mempool before reinjected_txs.

(** [AccountChainSetup] with limits of the pool *)
Definition pool_setup (n : Z) (rewind : pyval) (nonce_gap mempool_slots nonexec_slots : Z) : AccountChainSetup :=
  mkAccountChainSetup "Horizen" 1 n LARGE_WITHDRAWAL_EPOCH_LENGTH (PInt 100) rewind None [] None false [] 100 true true
    nonce_gap DEFAULT_MAX_ACCOUNT_SLOTS mempool_slots nonexec_slots DEFAULT_TX_LIFETIME (repeat None (Z.to_nat n)) 7 5 [].

Definition SCEvmMempoolSize (fuel : nat) (o : Options) (shared : SCForgerConfiguration) : TestClass W :=
  AccountChainSetup_class fuel o (pool_setup 2 evm_rewind 100 size_mempool_slots size_nonexec_slots) shared
    (SCEvmMempoolSize_run_test fuel).

(** ** sc_evm_mempool_invalid_txs.py *)

Definition BLOCK_GAS_LIMIT : Z := 30000000.

(** A transaction that must be refused: the text of the error, and the ends of the
    messages. *)
Record InvalidTx := mkInvalidTx {
  inv_to : pyval; inv_nonce : Z; inv_gas : Z; inv_priority : Z; inv_fee : Z; inv_value : Z; inv_data : string;
  inv_text : string; inv_failed : string; inv_added : string
}.

(** [try: createEIP1559Transaction(...); fail(...) except RuntimeError as e: assert_true(text in str(e), ...)];
    the failure is no such error.  Then the size of the pool. *)
Definition refused_tx (sc_node : proxy) (from : pyval) (t : InvalidTx) (pool : Z) : MF unit :=
  let! raised := catch (
      do! AccountCalls.createEIP1559Transaction sc_node
        (mkTxArgs from (inv_to t) (PInt (inv_nonce t)) (PInt (inv_gas t)) (PInt (inv_value t)) (PStr (inv_data t))
          PNone PNone PNone) (PInt (inv_priority t)) (PInt (inv_fee t)) PNone in
      do% fail ("Adding a transaction " +:+ inv_failed t +:+ " should have failed") in
      ret None)
    (λ e, match runtime_text e with Some text => ret (Some text) | None => raise e end) in
  do% (match raised with
       | Some text => assert_true (str_contains (inv_text t) text) "Wrong exception type"
       | None => Val tt
       end) in
  do! check_pool_size sc_node pool ("Transaction " +:+ inv_added t +:+ " added to node 1 mempool") in
  ret tt.

Definition eip1559_error (priority fee : Z) : string :=
  "eip1559 transaction maxPriorityFeePerGas [" +:+ str_of_Z priority +:+ "] higher than maxFeePerGas ["
  +:+ str_of_Z fee +:+ "]".

(** The transactions before any other is in a block; [int(math.pow(2, 64)) + 1] is exact. *)
Definition invalid_txs (address1 address2 : pyval) : list InvalidTx :=
  let std := 900000000 in
  [mkInvalidTx address1 (-1) 10000 std 9000000000 1 "" "negative nonce" "with with negative nonce" "with negative nonce";
   mkInvalidTx address1 0 10000 std std (-1) "" "negative value" "with with negative value" "with negative value";
   mkInvalidTx address1 0 10000 std 1 1 "" (eip1559_error std 1) " with max fee lower than priority fee"
     " with max fee lower than priority fee";
   mkInvalidTx address1 0 (2 ^ 64 + 1) 1 1 1 "" "gas limit uint64 overflow" "with gas limit with more than 64 bits"
     "with gas limit with more than 64 bits";
   mkInvalidTx address2 0 (BLOCK_GAS_LIMIT + 10) std std 1 "" "Transaction gas limit exceeds block gas limit"
     "with gas limit > block gas limit" "with gas limit > block gas limit";
   mkInvalidTx PNone 0 100000 std std 1 "" "smart contract declaration transaction without data"
     "that creates a smart contract with empty data" "that creates a smart contract with empty data";
   mkInvalidTx PNone 0 10 std std 1 "012344" "below intrinsic gas" "with gas limit < intrinsic gas"
     "with gas limit < intrinsic gas";
   mkInvalidTx address1 0 20533001 std std 1 (repeat_text (128 * 1024) "FF") "transaction size exceeds maximum size"
     "with size bigger than 128 KB" "with size bigger than 128 KB";
   mkInvalidTx address1 (DEFAULT_MAX_NONCE_GAP + 10) 23000 std std 1 "" "nonce gap too wide" "with nonce gap too big"
     "with nonce gap too big"].

Definition nonce_too_low (address1 : pyval) : InvalidTx :=
  mkInvalidTx address1 1 100000 900000000 900000000 1 "" "nonce too low" "with nonce too low" "with nonce too low".

Definition account_size (address1 : pyval) (nonce : Z) : InvalidTx :=
  mkInvalidTx address1 nonce 1697801 900000000 900000000 1 (repeat_text (100 * 1024) "FF") "exceeds account available space"
    "exceeding the account size" "exceeding the account size".

Definition MAX_INITCODE_SIZE : Z := 49152.

Definition initcode_size : InvalidTx :=
  let size := str_of_Z MAX_INITCODE_SIZE in
  mkInvalidTx PNone 0 20533001 900000000 900000000 1 (repeat_text (Z.to_nat (MAX_INITCODE_SIZE + 1)) "FF")
    "max initcode size" ("with init code size bigger than " +:+ size +:+ " after Shanghai activation")
    ("that creates a smart contract with init code size bigger than " +:+ size +:+ " after Shanghai activation").

Definition SCEvmMempoolInvalidTxs_run_test (fuel : nat) : MF unit :=
  let! sc1 := sc 0 in
  let! address1 := new_evm_address sc1 in
  let! address2 := new_evm_address sc1 in
  do! coins_for address1 ft_3000 in
  do! coins_for address2 (PFloat (float_of_Z 1)) in
  do! sync_all fuel in
  do! forge_synced fuel sc1 "first node" false in
  do! forM_ (invalid_txs address1 address2) (λ t, refused_tx sc1 address1 t 0) in
  do! send_many sc1 address1 address1 0 10 in
  do! generate_next_block sc1 "first node" false PNone in
  do! refused_tx sc1 address1 (nonce_too_low address1) 0 in
  do! send_many sc1 address1 address1 10 (DEFAULT_MAX_ACCOUNT_SLOTS - 1) in
  do! refused_tx sc1 address1 (account_size address1 (10 + (DEFAULT_MAX_ACCOUNT_SLOTS - 1))) (DEFAULT_MAX_ACCOUNT_SLOTS - 1) in
  do! reach_fork fuel sc1 VERSION_1_3_FORK_EPOCH in
  refused_tx sc1 address1 initcode_size 0.

Definition SCEvmMempoolInvalidTxs (fuel : nat) (o : Options) (shared : SCForgerConfiguration) : TestClass W :=
  AccountChainSetup_class fuel o
    (pool_setup 1 (PInt (1500 * EVM_APP_SLOT_TIME * VERSION_1_3_FORK_EPOCH)) DEFAULT_MAX_NONCE_GAP 20 19) shared
    (SCEvmMempoolInvalidTxs_run_test fuel).

(** ** sc_evm_txpool.py *)

Definition do_send_raw_tx (raw_tx evm_signer_address : pyval) : MF pyval :=
  let! sc_node := sc 0 in
  let! signed_raw_tx := signTransaction sc_node evm_signer_address raw_tx PNone in
  AccountCalls.sendTransaction sc_node signed_raw_tx PNone.

Definition txpool_priority : Z := 1500000.
Definition txpool_amount : pyval := PDec (Dec 12 (-1)).

(** Nonces are passed as texts. *)
Definition send_raw_1559 (sc_node : proxy) (from to : pyval) (nonce : Z) : MF unit :=
  let% wei := convertZenToWei txpool_amount in
  let! raw_tx := createRawEIP1559Transaction sc_node
    (mkTxArgs from to (PStr (str_of_Z nonce)) (PInt 230000) (PInt wei) (PStr "") PNone PNone PNone) (PInt txpool_priority)
    (PInt 900000000) PNone in
  do! do_send_raw_tx raw_tx from in ret tt.

Definition send_raw_legacy (sc_node : proxy) (from to : pyval) (nonce : Z) : MF unit :=
  let% wei := convertZenToWei txpool_amount in
  let! raw_tx := createRawLegacyEIP155Transaction sc_node
    (mkTxArgs from to (PStr (str_of_Z nonce)) (PInt 21000) (PInt wei) (PStr "") PNone PNone PNone) (PInt 1000000000) PNone in
  do! do_send_raw_tx raw_tx from in ret tt.

(** [sc_node.rpc_txpool_...()['result']] *)
Definition txpool (sc_node : proxy) (method : string) (args : list pyval) : MF pyval :=
  let! r := call sc_node ("rpc_txpool_" +:+ method) args in lift (getitem r "result").

Definition check_txpool_status (sc_node : proxy) (pending queued : Z) : MF unit :=
  let! res := txpool sc_node "status" [] in
  lift (fields_are res [("pending", PInt pending); ("queued", PInt queued)]).

(** A transaction in the content of the pool, with its nonce, sender, receiver and value. *)
Definition check_content (content : pyval) (where_ from : string) (nonce : Z) (to value : pyval) : outcome pyval :=
  let? tx := getpath content [where_; from; str_of_Z nonce] in
  let? _ := fields_are tx [("nonce", hex_value nonce); ("from", PStr from); ("to", to); ("value", value)] in
  Val tx.

(** [assert_true(len(content[where]) == n)] *)
Definition check_content_size (content : pyval) (where_ : string) (n : Z) : outcome unit :=
  let? l := getitem content where_ in
  let? k := py_len l in
  assert_true (k =? n) "".

Definition check_content_from (sc_node : proxy) (address : string) (pending queued : Z) : MF unit :=
  let! content := txpool sc_node "contentFrom" [PStr address] in
  do% check_content_size content "pending" pending in
  lift (check_content_size content "queued" queued).

(** Texts of [txpool_inspect] by state, account and nonce. *)
Definition check_inspect (sc_node : proxy) (expected : list (string * string * Z * string)) : MF unit :=
  let! res := txpool sc_node "inspect" [] in
  forM_ expected (λ e,
    let '(where_, address, nonce, text) := e in
    let% found := getpath res [where_; address; str_of_Z nonce] in
    lift (assert_true (py_eqb found (PStr text)) "")).

(** Three transactions of one account. *)
Definition txpool_one_account (sc_node : proxy) (address1 address2 : pyval) (a1 a2 : string) (wei : Z) : MF unit :=
  do! forM_ (zrange 0 3) (λ i, send_raw_1559 sc_node address1 address2 i) in
  do! check_txpool_status sc_node 3 0 in
  let! content := txpool sc_node "content" [] in
  let% txs := omapM (λ i, check_content content "pending" a1 i (PStr a2) (hex_value wei)) (zrange 0 3) in
  do% check_content_size content "queued" 0 in
  do! check_content_from sc_node a1 3 0 in
  do! check_content_from sc_node a2 0 0 in
  let% tx1 := list_index txs 0 in
  let% text := inspect_of a2 wei tx1 in
  do! check_inspect sc_node (map (λ i, ("pending", a1, i, text)) (zrange 0 3)) in
  do% check_content_size content "queued" 0 in
  do! generate_next_block sc_node "first node" false PNone in ret tt.

(** Transactions of two accounts, one with a nonce that is too high. *)
Definition txpool_two_accounts (sc_node : proxy) (address1 address2 : pyval) (a1 a2 : string) (wei : Z) : MF unit :=
  do! send_raw_1559 sc_node address1 address2 3 in
  do! send_raw_1559 sc_node address2 address1 0 in
  do! send_raw_1559 sc_node address1 address2 8 in
  do! check_txpool_status sc_node 2 1 in
  let! content := txpool sc_node "content" [] in
  let% tx1 := check_content content "pending" a1 3 (PStr a2) (hex_value wei) in
  do% check_content content "pending" a2 0 (PStr a1) (hex_value wei) in
  do% check_content content "queued" a1 8 (PStr a2) (hex_value wei) in
  do! check_content_from sc_node a1 1 1 in
  do! check_content_from sc_node a2 1 0 in
  let% text1 := inspect_of a2 wei tx1 in
  let% text2 := inspect_of a1 wei tx1 in
  do! check_inspect sc_node [("pending", a1, 3, text1); ("pending", a2, 0, text2); ("queued", a1, 8, text1)] in
  do! generate_next_block sc_node "first node" false PNone in ret tt.

(** The deployment of a contract has no receiver. *)
Definition txpool_deployment (sc_node : proxy) (evm_address : pyval) (a1 a2 : string) (wei : Z) : MF unit :=
  let! c := SmartContract_init "StorageTestContract" in
  do! deploy c sc_node [PStr "Initial message"] RPC_LEGACY evm_address
    (mkTxOptions PNone (PInt 10000000) (PInt 900000000) (PInt 765630000) (PInt 10) (PInt 0) (PStr "latest")) in
  let! content := txpool sc_node "content" [] in
  let% tx1 := check_content content "pending" a1 4 PNone (hex_value 0) in
  let% tx2 := check_content content "queued" a1 8 (PStr a2) (hex_value wei) in
  let% p := getitem tx1 "gasPrice" in
  let% price := py_int_base p 16 in
  let% text := inspect_of a2 wei tx2 in
  do! check_inspect sc_node [("pending", a1, 4, inspect_text "contract creation" 0 10000000 price); ("queued", a1, 8, text)] in
  do! generate_next_block sc_node "first node" false PNone in ret tt.

(** A legacy transaction has none of the fields of the other type. *)
Definition check_legacy (tx : pyval) : outcome unit :=
  let absent (field : string) := let? there := has_key field tx in assert_true (negb there) "" in
  let? _ := absent "maxPriorityFeePerGas" in
  let? _ := absent "maxFeePerGas" in
  absent "accessList".

Definition check_type_2 (tx2 : pyval) : outcome unit :=
  let? _ := fields_are tx2 [("maxPriorityFeePerGas", hex_value txpool_priority)] in
  let? there := has_key "maxFeePerGas" tx2 in
  let? _ := assert_true there "" in
  let? there := has_key "accessList" tx2 in
  let? _ := assert_true there "" in
  let? l := getitem tx2 "accessList" in
  let? k := py_len l in
  assert_true (k =? 0) "".

Definition txpool_types (sc_node : proxy) (address1 address2 : pyval) (a1 a2 : string) (wei : Z) : MF unit :=
  do! send_raw_legacy sc_node address1 address2 5 in
  do! send_raw_1559 sc_node address1 address2 6 in
  do! check_txpool_status sc_node 2 1 in
  let! content := txpool sc_node "content" [] in
  let% tx1 := check_content content "pending" a1 5 (PStr a2) (hex_value wei) in
  do% check_legacy tx1 in
  let% tx2 := check_content content "pending" a1 6 (PStr a2) (hex_value wei) in
  do% check_type_2 tx2 in
  do% check_content content "queued" a1 8 (PStr a2) (hex_value wei) in
  let% text1 := inspect_of a2 wei tx1 in
  let% text2 := inspect_of a2 wei tx2 in
  check_inspect sc_node [("pending", a1, 5, text1); ("pending", a1, 6, text2); ("queued", a1, 8, text2)].

(** A parameter that is no address. *)
Definition txpool_bad_address (sc_node : proxy) : MF unit :=
  let! r := call sc_node "rpc_txpool_contentFrom" [PStr "0x0"] in
  let% error := getitem r "error" in
  lift (fields_are error [("code", PInt (-32602));
    ("message", PStr "Invalid params: invalid length: want 42 hex characters got 3");
    ("data", PStr "invalid length: want 42 hex characters got 3")]).

Definition SCEvmTxPool_run_test (fuel : nat) : MF unit :=
  let! s := sc_ac_setup fuel true true (PDec (Dec 10000 (-1))) in
  let! sc_node := sc 0 in
  let% address1 := remove_0x_prefix (ac_evm_address s) in
  let! address2 := new_evm_address sc_node in
  let% a1 := with_0x address1 in
  let% a2 := with_0x address2 in
  let% wei := convertZenToWei txpool_amount in
  do! txpool_one_account sc_node address1 address2 a1 a2 wei in
  do! txpool_two_accounts sc_node address1 address2 a1 a2 wei in
  do! txpool_deployment sc_node (ac_evm_address s) a1 a2 wei in
  do! txpool_types sc_node address1 address2 a1 a2 wei in
  do! txpool_bad_address sc_node in
  do! generate_next_block sc_node "first node" false PNone in ret tt.

Definition SCEvmTxPool (fuel : nat) (o : Options) (shared : SCForgerConfiguration) : TestClass W :=
  AccountChainSetup_class fuel o (ac_simple 1 80) shared (SCEvmTxPool_run_test fuel).
End EvmMempool.
