(* ===== verification/InteropScenarios.v ===== *)
(** * Scenarios: contracts that call native contracts, and the proxy contract

    sc_evm_native_interop.py and sc_evm_proxy_nsc.py: a contract that asks a native contract
    for the stakes, the native proxy contract that calls a contract or itself, the data of
    such calls made by hand, the traces of the calls and the estimates of their gas.

    The selector of a method, [remove_0x_prefix], [add_0x_prefix] and [decode] are
    parameters. *)

From S2P Require Import Prelude PyStr Numbers PyVal Host Sim Json Encoding HttpProxy BootInfo McUtil ScUtil.
From S2P Require Import Forging Bootstrap Framework AccountSetup McFramework HttpCalls AccountCalls AccountUtil SmartContract.
From Stdlib Require Import Ascii String.
From stdpp Require Import base list.
From S2P Require Import Scenarios ForgingScenarios StakeScenarios ChainScenarios MempoolScenarios CertScenarios EvmScenarios CswScenarios.
From S2P Require Import EvmRotationScenarios ForgerScenarios EvmForgerScenarios NativeForgerScenarios OwnershipScenarios SeederScenarios.
From S2P Require Import EvmMempoolScenarios.
Local Open Scope Z_scope.

(** ** Data of calls made by hand *)

Definition zeros (n : nat) : string := repeat_text n "0".

(** [remove_0x_prefix(v)], added to a text *)
Definition bare `{EthHex} (v : pyval) : outcome string :=
  let? r := remove_0x_prefix v in match r with PStr s => Val s | _ => Exc TypeError end.

(** [remove_0x_prefix(HexStr(hex(n)))] *)
Definition hex_digits `{EthHex} (n : Z) : outcome string := bare (PStr (hex n)).

Definition word_40 : string := zeros 62 +:+ "40".

(** The call of a contract through the native proxy contract: the address and the data, with
    its length in bytes after [length_zeros] zeros. *)
Definition proxy_input `{EthHex} (encoded_abi_method_signature : string) (address data : pyval) (length_zeros : nat)
    : outcome string :=
  let? a := bare address in
  let? d := bare data in
  let? h_len := hex_digits (Z.of_nat (String.length d) / 2) in
  Val (encoded_abi_method_signature +:+ zeros 24 +:+ a +:+ word_40 +:+ zeros length_zeros +:+ h_len +:+ d +:+ zeros 56).

(** A call of the proxy contract by itself. *)
Definition proxy_input_twice `{EthHex} (encoded_abi_method_signature : string) (address data : pyval) : outcome string :=
  let? d := bare data in
  let len := Z.of_nat (String.length d) / 2 in
  let? opcode := bare (PStr encoded_abi_method_signature) in
  let opcode_len := Z.of_nat (String.length opcode) / 2 in
  let padding_len := 32 - opcode_len in
  let? n := py_int_base (PStr (hex len)) 16 in
  let? a := bare address in
  let? h_len := hex_digits (4 + 3 * 32 + n + padding_len) in
  let? hex_len := hex_digits len in
  Val (encoded_abi_method_signature +:+ zeros 24 +:+ PROXY_SMART_CONTRACT_ADDRESS +:+ word_40 +:+ zeros 62 +:+ h_len
       +:+ opcode +:+ zeros 24 +:+ a +:+ word_40 +:+ zeros 62 +:+ hex_len +:+ d +:+ zeros 56 +:+ zeros 56).

(** ** Traces *)

(** [assert_true(text in reply["error"]["message"])] *)
Definition error_says (reply : pyval) (text : string) : outcome unit :=
  let? there := has_key "error" reply in
  let? _ := assert_true there "" in
  let? message := getpath reply ["error"; "message"] in
  let? there := py_in (PStr text) message in
  assert_true there "".

(** [assert_false("calls" in call)] *)
Definition no_calls (call : pyval) : outcome unit :=
  let? there := has_key "calls" call in assert_false there "".

(** The only call inside of a call. *)
Definition only_call (trace_result : pyval) : outcome pyval :=
  let? calls := getitem trace_result "calls" in
  let? n := py_len calls in
  let? _ := assert_equal (PInt 1) (PInt n) "" in
  getindex calls 0.

Definition field_is (expected : pyval) (v : pyval) (field : string) : outcome unit :=
  let? found := getitem v field in assert_equal expected found "".

(** [int(v[field], 16)] *)
Definition hex_of (v : pyval) (field : string) : outcome Z :=
  let? x := getitem v field in py_int_base x 16.

(** The frames inside of a trace: each has one call that uses less gas, the last none. *)
Fixpoint check_frames (n : nat) (lev_k gas_k : pyval) : outcome unit :=
  match n with
  | O => let? there := has_key "calls" lev_k in assert_true (negb there) ""
  | S n' =>
      let? lev_k := only_call lev_k in
      let? outer := py_int_base gas_k 16 in
      let? gas := getitem lev_k "gasUsed" in
      let? inner := py_int_base gas 16 in
      let? _ := assert_true (outer >? inner) "" in
      check_frames n' lev_k gas
  end.

Definition intrinsic_gas : Z := 21000 + 4 * 16.

Section Interop.
Context {W : Type} `{Nodes W, Clock W, Os W, Rng W} `{EthUtils, EthAbi, EthHash, EthHex, EthSelectors}.
Local Abbreviation MF := (M (FW W)).

Definition latest : pyval := PStr "latest".

Definition call_of (to input : pyval) : pyval := PDict [("to", to); ("input", input)].

Definition eth_call (node : proxy) (to input : pyval) : MF pyval := call node "rpc_eth_call" [call_of to input; latest].

Definition trace_call (node : proxy) (to input : pyval) (tracer : string) : MF pyval :=
  call node "rpc_debug_traceCall" [call_of to input; latest; PDict [("tracer", PStr tracer)]].

Definition default_trace (node : proxy) (to input : pyval) : MF pyval :=
  call node "rpc_debug_traceCall" [call_of to input; latest].

(** [int(node.rpc_eth_estimateGas(...)["result"], 16)], where it is used *)
Definition estimate (node : proxy) (to input : pyval) : MF pyval := call node "rpc_eth_estimateGas" [call_of to input].

(** ** sc_evm_native_interop.py *)

Definition NATIVE_INTEROP_GETFORGERSTAKES_SIG : string := "0xd9908c86".
Definition FORGER_STAKE_GETFORGERSTAKES_SIG : string := "0xf6ad3c23".
Definition stakes_contract : pyval := PStr ("0x" +:+ FORGER_STAKE_SMART_CONTRACT_ADDRESS).

(** [self.deploy(contract_name, *args)] *)
Definition deploy_named (evm_address : pyval) (contract_name : string) (args : list pyval) : MF (SmartContract * pyval) :=
  let! contract := SmartContract_init contract_name in
  let! node := sc 0 in
  let! address := deploy_smart_contract node contract evm_address args RPC_LEGACY true in
  ret (contract, address).

(** Gas of the trace and of the call inside against the estimates. *)
Definition check_estimates (trace_result inner interop direct : pyval) : outcome unit :=
  let? used := hex_of trace_result "gasUsed" in
  let? e := hex_of interop "result" in
  let? _ := assert_equal (PInt used) (PInt e) "" in
  let? used := hex_of inner "gasUsed" in
  let? e := hex_of direct "result" in
  assert_equal (PInt (used + intrinsic_gas)) (PInt e) "".

(** The trace of the default tracer has the same gas and the same output. *)
Definition check_default_trace (trace_result interop response : pyval) : MF unit :=
  let! r := trace_result_of response in
  let% e := hex_of interop "result" in
  do% field_is (PInt e) r "gas" in
  let% failed := getitem r "failed" in
  do% assert_false (truthy failed) "" in
  let% output := getitem trace_result "output" in
  let% value := getitem r "returnValue" in
  let% value := py_add (PStr "0x") value in
  lift (assert_equal output value "").

(** Two selectors, each once. *)
Definition check_selectors (response : pyval) (first second : pyval) : MF unit :=
  let! r := trace_result_of response in
  do! check_length 2 r "" in
  let% k1 := as_str "" first in
  let% k2 := as_str "" second in
  do% field_is (PInt 1) r k1 in
  lift (field_is (PInt 1) r k2).

(** A call of the native contract by a contract: its trace and the call inside. *)
Definition native_called (trace_result interop_address : pyval) : outcome pyval :=
  let? _ := check_lower interop_address trace_result "to" in
  let? native_call := only_call trace_result in
  let? _ := field_is (PStr NATIVE_INTEROP_GETFORGERSTAKES_SIG) trace_result "input" in
  let? _ := field_is (PStr "STATICCALL") native_call "type" in
  let? _ := check_lower interop_address native_call "from" in
  let? _ := field_is stakes_contract native_call "to" in
  let? _ := positive_hex native_call "gas" in
  let? _ := positive_hex native_call "gasUsed" in
  let? _ := field_is (PStr FORGER_STAKE_GETFORGERSTAKES_SIG) native_call "input" in
  let? output := getitem native_call "output" in
  let? n := py_len output in
  let? _ := assert_true (512 <? n) "" in
  let? _ := no_calls native_call in
  Val native_call.

(** From a contract to the native contract: the call inside of the trace. *)
Definition evm_to_native (node : proxy) (interop_address : pyval) : MF pyval :=
  let input := PStr NATIVE_INTEROP_GETFORGERSTAKES_SIG in
  let! actual_value := eth_call node interop_address input in
  let! expected_value := eth_call node stakes_contract (PStr FORGER_STAKE_GETFORGERSTAKES_SIG) in
  do% assert_equal expected_value actual_value "results do not match" in
  let! delegate_call_result := eth_call node interop_address (PStr "0x585e290d") in
  do% error_says delegate_call_result "unsupported call method" in
  let! call_code_result := eth_call node interop_address (PStr "0x3ef7a7c9") in
  do% error_says call_code_result "unsupported call method" in
  let! trace_response := trace_call node interop_address input "callTracer" in
  let! trace_result := trace_result_of trace_response in
  let% native_call := native_called trace_result interop_address in
  let! interop := estimate node interop_address input in
  let! native := estimate node stakes_contract (PStr FORGER_STAKE_GETFORGERSTAKES_SIG) in
  do% check_estimates trace_result native_call interop native in
  let! response := default_trace node interop_address input in
  do! check_default_trace trace_result interop response in
  let! response := trace_call node interop_address input "4byteTracer" in
  do! check_selectors response (PStr (NATIVE_INTEROP_GETFORGERSTAKES_SIG +:+ "-0"))
    (PStr (FORGER_STAKE_GETFORGERSTAKES_SIG +:+ "-0")) in
  ret native_call.

Definition selector_of (method : string) : outcome string := as_str "" (function_selector method).

(** [assert_equal(initial_value, int(reply['result'], 16))] *)
Definition check_value_of (reply : pyval) (value : Z) : outcome unit :=
  let? v := hex_of reply "result" in assert_equal (PInt value) (PInt v) "".

(** A call of a contract by the native proxy contract: its trace and the call inside.  The
    gas that is looked at is that of [native_call], the call of the other direction. *)
Definition evm_called (trace_result native_address storage_address input data native_call : pyval) (type : string)
    (trace_rest call_rest : pyval → outcome unit) : outcome pyval :=
  let? _ := check_lower native_address trace_result "to" in
  let? evm_call := only_call trace_result in
  let? _ := check_lower input trace_result "input" in
  let? _ := trace_rest trace_result in
  let? _ := field_is (PStr type) evm_call "type" in
  let? _ := check_lower native_address evm_call "from" in
  let? _ := check_lower storage_address evm_call "to" in
  let? _ := positive_hex native_call "gas" in
  let? _ := positive_hex native_call "gasUsed" in
  let? _ := check_lower data evm_call "input" in
  let? _ := call_rest evm_call in
  let? _ := no_calls evm_call in
  Val evm_call.

Definition output_is (value : Z) (evm_call : pyval) : outcome unit :=
  let? out := hex_of evm_call "output" in assert_equal (PInt value) (PInt out) "".

(** From the native proxy contract to a contract: the address of the proxy contract. *)
Definition native_to_evm (node : proxy) (storage_address data native_call : pyval) (initial_value : Z) : MF pyval :=
  let! direct := eth_call node storage_address data in
  do% check_value_of direct initial_value in
  let% selector := selector_of "invokeCall(address,bytes)" in
  let% data_input := proxy_input selector storage_address data 63 in
  let input := PStr data_input in
  let% native_address := format_evm (PStr PROXY_SMART_CONTRACT_ADDRESS) in
  let! through := eth_call node native_address input in
  do% check_value_of through initial_value in
  let! trace_response := trace_call node native_address input "callTracer" in
  let! trace_result := trace_result_of trace_response in
  let% evm_call := evm_called trace_result native_address storage_address input data native_call "CALL" (λ _, Val tt)
    (output_is initial_value) in
  let! interop := estimate node native_address input in
  let! evm := estimate node storage_address data in
  do% check_estimates trace_result evm_call interop evm in
  let! response := default_trace node native_address input in
  do! check_default_trace trace_result interop response in
  let! response := trace_call node native_address input "4byteTracer" in
  let% key := py_add data (PStr "-0") in
  do! check_selectors response key (PStr (selector +:+ "-128")) in
  ret native_address.

(** A method that writes cannot be called with a static call. *)
Definition write_protected (node : proxy) (storage_address native_address data native_call : pyval) : MF unit :=
  let% selector := selector_of "invokeStaticCall(address,bytes)" in
  let% data_input_failed := proxy_input selector storage_address data 63 in
  let input := PStr data_input_failed in
  let! result := eth_call node native_address input in
  do% error_says result "write protection" in
  let! trace_response := trace_call node native_address input "callTracer" in
  let! trace_result := trace_result_of trace_response in
  do% evm_called trace_result native_address storage_address input data native_call "STATICCALL"
    (λ r, field_is (PStr "write protection") r "error") (λ c, field_is (PStr "write protection") c "error") in
  ret tt.

Definition execute_test (evm_address interop_address : pyval) (storage_contract_name : string) : MF unit :=
  let! node := sc 0 in
  let! native_call := evm_to_native node interop_address in
  let initial_value := 142 in
  let! '(storage_contract, storage_address) := deploy_named evm_address storage_contract_name [PInt initial_value] in
  let% data_inc := raw_encode_call storage_contract "inc()" [] in
  let% data_retrieve := raw_encode_call storage_contract "retrieve()" [] in
  let! native_address := native_to_evm node storage_address data_retrieve native_call initial_value in
  write_protected node storage_address native_address data_inc native_call.

(** A contract compiled for the next version cannot be deployed; the fork is reached. *)
Definition shanghai_reached (fuel : nat) (node : proxy) (evm_address : pyval) : MF unit :=
  let! deployed := catch (do! deploy_named evm_address "NativeInteropShanghai" [] in ret true)
    (λ e, match runtime_text e with Some _ => ret false | None => raise e end) in
  do% (if deployed then fail "Exception expected" else Val tt) in
  reach_fork fuel node VERSION_1_3_FORK_EPOCH.

Definition SCEvmNativeInterop_run_test (fuel : nat) (o : Options) : MF unit :=
  let! s := sc_ac_setup fuel true true default_ft in
  let! node := sc 0 in
  let! '(_, interop_address) := deploy_named (ac_evm_address s) "NativeInterop" [] in
  do! (if all_forks o then forge_synced fuel node "first node" true
       else
         let! actual_value := eth_call node interop_address (PStr NATIVE_INTEROP_GETFORGERSTAKES_SIG) in
         do% error_says actual_value "reverted" in
         reach_fork fuel node INTEROPERABILITY_FORK_EPOCH) in
  do! execute_test (ac_evm_address s) interop_address "Storage" in
  do! when (negb (all_forks o)) (shanghai_reached fuel node (ac_evm_address s)) in
  let! '(_, interop_address) := deploy_named (ac_evm_address s) "NativeInteropShanghai" [] in
  execute_test (ac_evm_address s) interop_address "StorageShanghai".

Definition interop_rewind : pyval := PInt (1500 * EVM_APP_SLOT_TIME * INTEROPERABILITY_FORK_EPOCH).

Definition SCEvmNativeInterop (fuel : nat) (o : Options) (shared : SCForgerConfiguration) : TestClass W :=
  AccountChainSetup_class fuel o (ac_defaults 1 100 interop_rewind None 100 true DEFAULT_TX_LIFETIME) shared
    (SCEvmNativeInterop_run_test fuel o).

(** ** sc_evm_proxy_nsc.py *)

Definition NUM_OF_RECURSIONS : Z := 10.

(** The data of the last transaction with that id, or [None]. *)
Fixpoint input_of_tx (txs : list pyval) (tx_hash input_data : pyval) : outcome pyval :=
  match txs with
  | [] => Val input_data
  | tx :: txs' =>
      let? id := getitem tx "id" in
      let? input_data := (if py_eqb id tx_hash then getitem tx "data" else Val input_data) in
      input_of_tx txs' tx_hash input_data
  end.

Definition get_contract_input_data_from_mempool_tx (sc_node : proxy) (tx_hash : pyval) : MF pyval :=
  let% request := dumps (PDict [("format", PBool true)]) in
  let! r := call sc_node "transaction_allTransactions" [PStr request] in
  let% mempool_list := getpath r ["result"; "transactions"] in
  let% txs := py_iter mempool_list in
  lift (input_of_tx txs tx_hash PNone).

(** [ac_invokeProxy(...)['result']['transactionId']] *)
Definition invoke_proxy (sc_node : proxy) (address data nonce : pyval) (static : bool) : MF pyval :=
  let! r := ac_invokeProxy sc_node address data nonce static in lift (getpath r ["result"; "transactionId"]).

(** The call of a contract through the proxy contract. *)
Definition invoke_contract (fuel : nat) (sc_node : proxy) (contract_address data nonce : pyval) (static : bool) : MF pyval :=
  let% address := remove_0x_prefix contract_address in
  let! tx_hash := invoke_proxy sc_node address data nonce static in
  do! sc_sync_all fuel false in
  ret tx_hash.

Definition receipt_by_hash (sc_node : proxy) (tx_hash : pyval) : MF pyval :=
  let% hash := add_0x_prefix tx_hash in call sc_node "rpc_eth_getTransactionReceipt" [hash].

(** A block, and the status of a transaction in its receipt. *)
Definition mined_with_status (fuel : nat) (sc_node : proxy) (tx_hash : pyval) (n : Z) : MF unit :=
  do! forge_synced fuel sc_node "first node" false in
  let! receipt := receipt_by_hash sc_node tx_hash in
  let% status := hex_field receipt "status" in
  lift (assert_true (status =? n) "").

(** The text a contract keeps. *)
Definition check_message (sc_node : proxy) (c : SmartContract) (evm_address contract_address : pyval) (message : string)
    : MF unit :=
  let! res := static_call c sc_node "get()" [] evm_address contract_address PNone PNone (PInt 900000000) (PInt 0) latest
    false false in
  let% found := getindex res 0 in
  lift (assert_equal (PStr message) found "").

(** Coins for the address of the proxy contract before it is active. *)
Definition coins_for_proxy (fuel : nat) (sc_node : proxy) (evm_address : pyval) : MF unit :=
  let amount := 123456 in
  let% from := format_eoa_val evm_address in
  let! tx_hash := createLegacyEIP155Transaction sc_node
    (mkTxArgs (PStr from) (PStr PROXY_SMART_CONTRACT_ADDRESS) PNone (PInt 21000) (PInt amount) (PStr "") PNone PNone PNone)
    (PInt 1000000000) PNone in
  do! sc_sync_all fuel false in
  do! forge_synced fuel sc_node "first node" false in
  let! ids := pool_ids sc_node in
  let% there := py_in tx_hash ids in
  do% assert_true (negb there) "" in
  let! receipt := receipt_by_hash sc_node tx_hash in
  let% status := hex_field receipt "status" in
  do% assert_equal (PInt 1) (PInt status) "" in
  let% gas_used := hex_field receipt "gasUsed" in
  do% assert_equal (PInt gas_used) (PInt 21000) "" in
  let! balance := rpc_get_balance sc_node (PStr PROXY_SMART_CONTRACT_ADDRESS) in
  lift (assert_equal (PInt balance) (PInt amount) "").

(** A call through the proxy contract before the fork is a transfer; its status is not
    looked at, as [assert_true(1, status)] holds. *)
Definition invoked_before_fork (fuel : nat) (sc_node : proxy) (c : SmartContract) (contract_address : pyval) : MF unit :=
  let% data_get := raw_encode_call c "get()" [] in
  let! tx_hash := invoke_contract fuel sc_node contract_address data_get PNone true in
  do! forge_synced fuel sc_node "first node" false in
  let! ids := pool_ids sc_node in
  let% there := py_in tx_hash ids in
  do% assert_true (negb there) "" in
  let! receipt := receipt_by_hash sc_node tx_hash in
  do% hex_field receipt "status" in
  do% assert_true true "" in
  let% gas_used := hex_field receipt "gasUsed" in
  lift (assert_true (21000 <? gas_used) "").

(** [text[a:b]]; the bounds decoded from [uint32] are not negative. *)
Definition text_between (a b : Z) (s : string) : string :=
  str_take (Z.to_nat b - Z.to_nat a)%nat (str_drop (Z.to_nat a) s).

Definition uint32_at (a b : Z) (s : string) : outcome Z :=
  let? bytes := hex_str_to_bytes (text_between a b s) in
  let? l := abi_decode [PStr "uint32"] bytes in
  let? v := list_index l 0 in
  of_opt TypeError (as_int v).

(** The text that is encoded in the result of a call. *)
Definition decoded_message (result : string) : outcome string :=
  let? start_data_offset := uint32_at 0 (32 * 2) result in
  let? _ := assert_equal (PInt start_data_offset) (PInt 32) "" in
  let end_offset := start_data_offset + 32 in
  let? str_size := uint32_at (start_data_offset * 2) (end_offset * 2) result in
  let? bytes := bytes_fromhex (text_between (end_offset * 2) ((end_offset + str_size) * 2) result) in
  utf8_decode bytes.

(** A read through the proxy contract, as a transaction and as a call with its data. *)
Definition read_through_proxy (fuel : nat) (sc_node : proxy) (c : SmartContract) (evm_address contract_address : pyval)
    (message : string) : MF unit :=
  let% data_get := raw_encode_call c "get()" [] in
  let! tx_hash := invoke_contract fuel sc_node contract_address data_get PNone true in
  let! input_data_static := get_contract_input_data_from_mempool_tx sc_node tx_hash in
  do! mined_with_status fuel sc_node tx_hash 1 in
  let% from := format_evm evm_address in
  let! r := call sc_node "rpc_eth_getTransactionCount" [from; latest] in
  let% on_chain_nonce := hex_of r "result" in
  let% to := format_evm (PStr PROXY_SMART_CONTRACT_ADDRESS) in
  let% data := add_0x_prefix input_data_static in
  let! response := call sc_node "rpc_eth_call" [PDict [("from", from); ("to", to); ("nonce", PInt on_chain_nonce);
    ("gasLimit", PInt 2300000); ("gasPrice", PInt 850000000); ("value", PInt 0); ("data", data)]; latest] in
  let% r := getitem response "result" in
  let% result := bare r in
  let% found := decoded_message result in
  lift (assert_equal (PStr message) (PStr found) "").

(** A write through the proxy contract: not with a static call. *)
Definition write_through_proxy (fuel : nat) (sc_node : proxy) (c : SmartContract) (evm_address contract_address : pyval)
    : MF unit :=
  let message := "Proxy did it (n.1)" in
  let% data := raw_encode_call c "set(string)" [PStr message] in
  let! tx_hash := invoke_contract fuel sc_node contract_address data PNone true in
  do! mined_with_status fuel sc_node tx_hash 0 in
  let! tx_hash := invoke_contract fuel sc_node contract_address data PNone false in
  do! mined_with_status fuel sc_node tx_hash 1 in
  check_message sc_node c evm_address contract_address message.

(** A transaction with data made by hand. *)
Definition send_to_proxy (fuel : nat) (sc_node : proxy) (evm_address : pyval) (data_input : string) : MF unit :=
  let% from := remove_0x_prefix evm_address in
  let! tx_hash := AccountCalls.createEIP1559Transaction sc_node
    (mkTxArgs from (PStr PROXY_SMART_CONTRACT_ADDRESS) PNone (PInt 10000000) (PInt 0) (PStr data_input) PNone PNone PNone)
    (PInt 900000000) (PInt 900000000) PNone in
  do! sc_sync_all fuel false in
  mined_with_status fuel sc_node tx_hash 1.

Definition INVOKE_CALL : string := "invokeCall(address,bytes)".

Definition hand_made (fuel : nat) (sc_node : proxy) (c : SmartContract) (evm_address contract_address : pyval) : MF unit :=
  let message := "Proxy did it (n.2)" in
  let% data := raw_encode_call c "set(string)" [PStr message] in
  let% selector := selector_of INVOKE_CALL in
  let% data_input := proxy_input selector contract_address data 62 in
  do! send_to_proxy fuel sc_node evm_address data_input in
  check_message sc_node c evm_address contract_address message.

Definition proxy_trace_request (input : pyval) : outcome pyval :=
  let? to := format_evm (PStr PROXY_SMART_CONTRACT_ADDRESS) in
  Val (PDict [("to", to); ("nonce", PInt 3); ("input", input)]).

Definition hand_made_twice (fuel : nat) (sc_node : proxy) (c : SmartContract) (evm_address contract_address : pyval) : MF unit :=
  let message := "Proxy did it (n.3)" in
  let% data := raw_encode_call c "set(string)" [PStr message] in
  let% selector := selector_of INVOKE_CALL in
  let% data_input := proxy_input_twice selector contract_address data in
  do! send_to_proxy fuel sc_node evm_address data_input in
  do! check_message sc_node c evm_address contract_address message in
  let% request := proxy_trace_request (PStr data_input) in
  let! trace_response := call sc_node "rpc_debug_traceCall" [request; latest; PDict [("tracer", PStr "callTracer")]] in
  check_no_error trace_response.

(** The proxy contract is called with the data of the transaction before; the nonces leave a
    gap, so that none of them is forged. *)
Fixpoint recursions (fuel : nat) (sc_node : proxy) (nonces : list Z) (tx_hash : pyval) : MF pyval :=
  match nonces with
  | [] => ret tx_hash
  | nonce :: nonces' =>
      let! input_data := get_contract_input_data_from_mempool_tx sc_node tx_hash in
      let! tx_hash := invoke_proxy sc_node (PStr PROXY_SMART_CONTRACT_ADDRESS) input_data (PInt nonce) false in
      do! sc_sync_all fuel false in
      recursions fuel sc_node nonces' tx_hash
  end.

(** The last call has the next nonce; its trace has a frame for each recursion. *)
Definition recursive_calls (fuel : nat) (sc_node : proxy) (c : SmartContract) (evm_address contract_address : pyval) : MF unit :=
  let% from := format_evm evm_address in
  let! r := call sc_node "rpc_eth_getTransactionCount" [from; latest] in
  let% on_chain_nonce := hex_of r "result" in
  let message := "Proxy recursively did it" in
  let% data := raw_encode_call c "set(string)" [PStr message] in
  let! tx_hash := invoke_contract fuel sc_node contract_address data (PInt (on_chain_nonce + NUM_OF_RECURSIONS)) false in
  let! tx_hash := recursions fuel sc_node (map (λ i, on_chain_nonce + i + NUM_OF_RECURSIONS) (zrange 1 NUM_OF_RECURSIONS)) tx_hash in
  let! input_data := get_contract_input_data_from_mempool_tx sc_node tx_hash in
  let! tx_hash := invoke_proxy sc_node (PStr PROXY_SMART_CONTRACT_ADDRESS) input_data (PInt on_chain_nonce) false in
  do! sc_sync_all fuel false in
  do! mined_with_status fuel sc_node tx_hash 1 in
  let% input := add_0x_prefix input_data in
  let% request := proxy_trace_request input in
  let! trace_response := call sc_node "rpc_debug_traceCall" [request; latest; PDict [("tracer", PStr "callTracer")]] in
  let% lev_k := getitem trace_response "result" in
  let% gas_k := getitem lev_k "gasUsed" in
  do% check_frames (Z.to_nat NUM_OF_RECURSIONS) lev_k gas_k in
  do! check_message sc_node c evm_address contract_address message in
  let! estimation_interop := call sc_node "rpc_eth_estimateGas" [request] in
  let% e := getitem estimation_interop "result" in
  lift (assert_equal e gas_k "").

Definition SCEvmProxyNsc_run_test (fuel : nat) (o : Options) : MF unit :=
  do! not_with_all_forks o in
  let! s := sc_ac_setup fuel true true default_ft in
  let! sc_node := sc 0 in
  let evm_address := ac_evm_address s in
  do! coins_for_proxy fuel sc_node evm_address in
  let! c := SmartContract_init "StorageTestContract" in
  let message := "Initial message" in
  let! '(_, contract_address) := deploy c sc_node [PStr message] RPC_LEGACY evm_address
    (mkTxOptions PNone (PInt 10000000) (PInt 900000000) (PInt 765630000) (PInt 10) (PInt 0) (PStr "latest")) in
  do! generate_next_blocks sc_node "first node" 1 in
  do! sc_sync_all fuel false in
  do! check_message sc_node c evm_address contract_address message in
  do! invoked_before_fork fuel sc_node c contract_address in
  do! reach_fork fuel sc_node INTEROPERABILITY_FORK_EPOCH in
  do! read_through_proxy fuel sc_node c evm_address contract_address message in
  do! write_through_proxy fuel sc_node c evm_address contract_address in
  do! hand_made fuel sc_node c evm_address contract_address in
  do! hand_made_twice fuel sc_node c evm_address contract_address in
  recursive_calls fuel sc_node c evm_address contract_address.

Definition proxy_nsc_setup : AccountChainSetup :=
  mkAccountChainSetup "Horizen" 1 1 100 (PInt 100) interop_rewind None [] None false [] 100 true true
    (2 * NUM_OF_RECURSIONS + 1) (NUM_OF_RECURSIONS + 1) DEFAULT_MAX_MEMPOOL_SLOTS DEFAULT_MAX_NONEXEC_POOL_SLOTS
    DEFAULT_TX_LIFETIME [None] 7 5 [].

Definition SCEvmProxyNsc (fuel : nat) (o : Options) (shared : SCForgerConfiguration) : TestClass W :=
  AccountChainSetup_class fuel o proxy_nsc_setup shared (SCEvmProxyNsc_run_test fuel o).
End Interop.
