(* ===== verification/PagerScenarios.v ===== *)
(** * Scenarios: lists in pages, and long lists

    sc_evm_forger_stakes_pager.py, sc_evm_mc_addr_ownership_perf_test.py and
    sc_evm_forger_v2_perf.py: pages of stakes through the API and through the contract, the
    loop that reads all pages, many links of mainchain addresses and their removal, many
    forgers and stakes. *)

From S2P Require Import Prelude PyStr Numbers PyVal Host Sim Json Encoding HttpProxy BootInfo McUtil ScUtil.
From S2P Require Import Forging Bootstrap Framework AccountSetup McFramework HttpCalls AccountCalls AccountUtil SmartContract.
From Stdlib Require Import Ascii String.
From stdpp Require Import base list.
From S2P Require Import Scenarios ForgingScenarios StakeScenarios ChainScenarios MempoolScenarios CertScenarios EvmScenarios CswScenarios.
From S2P Require Import CertificateScenarios EvmRotationScenarios ForgerScenarios EvmForgerScenarios NativeForgerScenarios.
From S2P Require Import OwnershipScenarios SeederScenarios EvmMempoolScenarios InteropScenarios.
Local Open Scope Z_scope.

(** ** A page of stakes *)

(** [hexlify(v).decode('ascii')] *)
Definition hex_bytes (v : pyval) : outcome string :=
  match v with PBytes b => Val (hexlify b) | _ => Exc TypeError end.

Definition STAKE_ENTRY : list string := ["bytes32"; "uint256"; "address"; "bytes32"; "bytes32"; "bytes1"].

(** A stake as the API shows it. *)
Definition entry_dict (stake_id sign vrf : string) (address value : pyval) : pyval :=
  PDict [("stakeId", PStr stake_id);
         ("forgerStakeData", PDict [
            ("forgerPublicKeys", PDict [("blockSignPublicKey", PDict [("publicKey", PStr sign)]);
                                        ("vrfPublicKey", PDict [("publicKey", PStr vrf)])]);
            ("ownerPublicKey", PDict [("address", address)]);
            ("stakedAmount", value)])].

Definition paged_entry `{EthAbi, EthHex} (chunk : string) : outcome pyval :=
  let? b := hex_str_to_bytes chunk in
  let? l := abi_decode (map PStr STAKE_ENTRY) b in
  match l with
  | [stake_id_bytes; value; address; block_sign_pub_key_bytes; vrf32_bytes; vrf1_bytes] =>
      let? stake_id := hex_bytes stake_id_bytes in
      let? sign := hex_bytes block_sign_pub_key_bytes in
      let? vrf := (match vrf32_bytes, vrf1_bytes with PBytes a, PBytes b => Val (hexlify (a +:+ b)) | _, _ => Exc TypeError end) in
      let? address := remove_0x_prefix address in
      Val (entry_dict stake_id sign vrf address value)
  | _ => Exc (ValueError "unpack")
  end.

(** The entries, one after the other: six words of 32 bytes, two digits to a byte. *)
Fixpoint paged_entries `{EthAbi, EthHex} (n : nat) (s : string) : outcome (list pyval) :=
  match n with
  | O => Val []
  | S n' =>
      let? e := paged_entry (str_take (2 * 6 * 32) s) in
      let? l := paged_entries n' (str_drop (2 * 6 * 32) s) in
      Val (e :: l)
  end.

(** [decode([type], hex_str_to_bytes(text))[0]] *)
Definition decode_word `{EthAbi} (type : string) (text : string) : outcome pyval :=
  let? b := hex_str_to_bytes text in
  let? l := abi_decode [PStr type] b in
  list_index l 0.

Definition get_paged_stakes_from_abi `{EthAbi, EthHex} (abi_return_value : string) : outcome (pyval * list pyval) :=
  let? next_pos := decode_word "int32" (str_take 64 abi_return_value) in
  let? dynamic_data_start_offset := decode_word "int32" (text_between 64 128 abi_return_value) in
  let? _ := assert_equal dynamic_data_start_offset (PInt 64) "" in
  let? list_size := decode_word "uint32" (text_between 128 192 abi_return_value) in
  let? n := range_stop list_size in
  let? list_result := paged_entries (Z.to_nat n) (str_drop 192 abi_return_value) in
  Val (next_pos, list_result).

(** [s.zfill(width)]: a sign stays in front. *)
Definition zfill (width : nat) (s : string) : string :=
  let fill := zeros (width - String.length s) in
  match s with
  | String "-" r => String "-" (fill +:+ r)
  | String "+" r => String "+" (fill +:+ r)
  | _ => fill +:+ s
  end.

Definition padded_32_hex `{EthHex} (s : string) : outcome string :=
  let? r := bare (PStr s) in Val (zfill 64 r).

Section Pager.
Context {W : Type} `{Nodes W, Clock W, Os W, Rng W} `{EthUtils, EthAbi, EthHash, EthHex, EthSelectors}.
(** [str(e)] of an exception *)
Context (str_exn : exn → string).
Local Abbreviation MF := (M (FW W)).

Definition PAGED_STAKES : string := "getPagedForgersStakes(int32,int32)".

Definition get_paged_forging_stakes_via_eth_call (sc_node : proxy) (from_address start_pos : pyval) (page_size : Z)
    : MF (pyval * list pyval) :=
  let% start := range_stop start_pos in
  let% start := padded_32_hex (hex start) in
  let% size := padded_32_hex (hex page_size) in
  let% from := format_evm from_address in
  let% to := format_evm (PStr FORGER_STAKE_SMART_CONTRACT_ADDRESS) in
  let% selector := selector_of PAGED_STAKES in
  let! response := call sc_node "rpc_eth_call" [PDict [("from", from); ("to", to); ("gasLimit", PInt 2300000);
    ("gasPrice", PInt 950000000); ("value", PInt 0); ("data", PStr (selector +:+ start +:+ size))]; latest] in
  let% error := has_key "error" response in
  if error then raise (RuntimeError ("Something went wrong, see " +:+ py_str response))
  else
    let% r := getitem response "result" in
    let% abi_return_value := bare r in
    lift (get_paged_stakes_from_abi abi_return_value).

(** ** sc_evm_forger_stakes_pager.py *)

Definition NUM_OF_STAKES : Z := 51.
Definition NUM_OF_STAKE_TXES : Z := 50.

(** [sc_node.transaction_pagedForgingStakes(json.dumps({"size": ..., "startPos": ...}))] *)
Definition api_page (sc_node : proxy) (size : Z) (start_pos : pyval) : MF pyval :=
  let% request := dumps (PDict [("size", PInt size); ("startPos", start_pos)]) in
  call sc_node "transaction_pagedForgingStakes" [PStr request].

Definition api_page_result (sc_node : proxy) (size : Z) (start_pos : pyval) : MF pyval :=
  let! r := api_page sc_node size start_pos in lift (getitem r "result").

Definition too_early : string := "Paginated api should not be active before shanghai fork activation".

(** The contract and the API refuse a page. *)
Definition page_refused (sc1 sc2 : proxy) (address2 : pyval) (contract_text api_field api_message : string) : MF unit :=
  do! refused_with (get_paged_forging_stakes_via_eth_call sc2 address2 (PInt 0) 10) (any_text str_exn) contract_text too_early in
  let! r := api_page sc1 10 (PInt 0) in
  let% there := has_key "error" r in
  do% assert_true there "" in
  let% text := getpath r ["error"; api_field] in
  let% there := py_in (PStr api_message) text in
  lift (assert_true there "").

(** The stakes, with a block after the first of each fifty. *)
Definition many_stakes (fuel : nat) (sc1 : proxy) (address1 sign vrf : pyval) (on_chain_nonce : Z) : MF unit :=
  forM_ (zrange 0 NUM_OF_STAKES) (λ i,
    let amount := PFloat (float_of_dec (Dec 1 (-6))) in
    do! make_stake sc1 address1 sign vrf amount (PInt (on_chain_nonce + i)) "make forger stake failed: " in
    when (i mod NUM_OF_STAKE_TXES =? 0) (forge_synced fuel sc1 "first node" false)).

(** [assert_equal(v[field], expected)] *)
Definition field_equals (v : pyval) (field : string) (expected : pyval) : outcome unit :=
  let? found := getitem v field in assert_equal found expected "".

(** Everything in one page. *)
Definition one_big_page (sc1 sc2 : proxy) (address2 : pyval) : MF pyval :=
  let! '(next_pos, stake_list) := get_paged_forging_stakes_via_eth_call sc2 address2 (PInt 0) (NUM_OF_STAKES + 1) in
  let! res := api_page_result sc1 (NUM_OF_STAKES + 1) (PInt 0) in
  let! all := call sc1 "transaction_allForgingStakes" [] in
  let% all := getitem all "result" in
  do% field_equals res "nextPos" next_pos in
  do% field_equals res "nextPos" (PInt (-1)) in
  do% field_equals res "stakes" (PList stake_list) in
  do% field_equals all "stakes" (PList stake_list) in
  ret all.

(** A page of the contract and of the API: the next position and both lists. *)
Definition page_pair (sc1 sc2 : proxy) (address2 : pyval) (size : Z) (start_pos : pyval) : MF (pyval * list pyval * list pyval) :=
  let! '(next_pos, stake_list) := get_paged_forging_stakes_via_eth_call sc2 address2 start_pos size in
  let! res := api_page_result sc1 size start_pos in
  do% field_equals res "nextPos" next_pos in
  let% stakes := getitem res "stakes" in
  let% l := py_iter stakes in
  ret (next_pos, stake_list, l).

(** [while next_pos != -1]: all pages *)
Fixpoint all_pages (fuel : nat) (sc1 sc2 : proxy) (address2 : pyval) (size : Z) (next_pos : pyval)
    (list_all list_all_http_api : list pyval) : MF (list pyval * list pyval) :=
  match fuel with
  | O => out_of_fuel
  | S f =>
      if py_neqb next_pos (PInt (-1)) then
        let! '(next_pos, stake_list, l) := page_pair sc1 sc2 address2 size next_pos in
        all_pages f sc1 sc2 address2 size next_pos (list_all ++ stake_list) (list_all_http_api ++ l)
      else ret (list_all, list_all_http_api)
  end.

(** The pages together are the list of all stakes. *)
Definition page_by_page (fuel : nat) (sc1 sc2 : proxy) (address2 : pyval) (size : Z) (all : pyval) : MF unit :=
  let! '(list_all, list_all_http_api) := all_pages fuel sc1 sc2 address2 size (PInt 0) [] [] in
  do% field_equals all "stakes" (PList list_all) in
  lift (field_equals all "stakes" (PList list_all_http_api)).

(** A position or a size that is not valid. *)
Definition bad_pages (sc1 sc2 : proxy) (address2 : pyval) : MF unit :=
  let from_contract (start size : Z) : MF pyval :=
    do! get_paged_forging_stakes_via_eth_call sc2 address2 (PInt start) size in ret PNone in
  let start_pos := 2 * NUM_OF_STAKES in
  do! must_fail is_Exception (from_contract start_pos 10) "Paginated api should fail with bad start_pos value" in
  do! must_fail is_Exception (api_page_result sc1 10 (PInt start_pos)) "Paginated api should fail with bad indexes" in
  forM_ [-2; 0] (λ size,
    do! must_fail is_Exception (from_contract 0 size) "Paginated api should fail with bad size value" in
    refused_with (api_page sc1 size (PInt 0)) api_text "Size must be positive" "Paginated api should fail with bad size value").

(** A page through the proxy contract. *)
Definition proxy_page (sc1 : proxy) (native_contract : SmartContract) (address1 : pyval) : MF unit :=
  let! res := api_page_result sc1 5 (PInt 4) in
  let! p := SimpleProxyContract_init sc1 address1 true in
  let% input := native_input native_contract PAGED_STAKES [PInt 4; PInt 5] in
  let! interop_res_bytes := do_static_call p address1 (PInt 2) (PStr FORGER_STAKE_SMART_CONTRACT_ADDRESS) (PStr input) in
  let% b := (match interop_res_bytes with PBytes b => Val b | _ => Exc TypeError end) in
  let% page := get_paged_stakes_from_abi (bytes_to_hex_str b) in
  let% stakes := getitem res "stakes" in
  do% assert_equal (PList page.2) stakes "" in
  let% next := getitem res "nextPos" in
  lift (assert_equal page.1 next "").

Definition chain_nonce (sc_node : proxy) (address : pyval) : MF Z :=
  let% a := format_evm address in
  let! r := call sc_node "rpc_eth_getTransactionCount" [a; latest] in
  lift (hex_of r "result").

Definition SCEvmForgerStakesPager_run_test (fuel : nat) (o : Options) : MF unit :=
  do! not_with_all_forks o in
  let! sc1 := sc 0 in
  let! sc2 := sc 1 in
  let! address1 := new_evm_address sc1 in
  let! address2 := new_evm_address sc2 in
  let coins := PDec (Dec 1000 (-1)) in
  do! coins_for address1 coins in
  do! coins_for address2 coins in
  do! forge_synced fuel sc1 "first node" false in
  do! page_refused sc1 sc2 address2 "op code not supported" "description" "can not invoke" in
  do! reach_fork fuel sc1 VERSION_1_3_FORK_EPOCH in
  do! page_refused sc1 sc2 address2 "Forger stake storage not upgraded yet" "detail" "array size" in
  let! native_contract := SmartContract_init "ForgerStakes" in
  do! call_on sc2 native_contract (PStr FORGER_STAKE_SMART_CONTRACT_ADDRESS) address2 "upgrade()" [] (PInt 0) in
  do! generate_next_block sc1 "first node" false PNone in
  let! nonce := chain_nonce sc1 address1 in
  let! sign := new_proposition sc2 "wallet_createPrivateKey25519" "publicKey" in
  let! vrf := new_proposition sc2 "wallet_createVrfSecret" "publicKey" in
  do! many_stakes fuel sc1 address1 sign vrf nonce in
  do! forge_synced fuel sc1 "first node" false in
  let! all := one_big_page sc1 sc2 address2 in
  do! page_by_page fuel sc1 sc2 address2 (NUM_OF_STAKES / 3) all in
  do! page_by_page fuel sc1 sc2 address2 1 all in
  do! bad_pages sc1 sc2 address2 in
  proxy_page sc1 native_contract address1.

Definition pager_setup : AccountChainSetup :=
  mkAccountChainSetup "Horizen" 1 2 LARGE_WITHDRAWAL_EPOCH_LENGTH (PInt 99) (PInt (720 * 120 * 10)) None [] None false [] 100 true true
    NUM_OF_STAKE_TXES NUM_OF_STAKE_TXES DEFAULT_MAX_MEMPOOL_SLOTS DEFAULT_MAX_NONEXEC_POOL_SLOTS DEFAULT_TX_LIFETIME
    [None; None] 7 5 [].

Definition SCEvmForgerStakesPager (fuel : nat) (o : Options) (shared : SCForgerConfiguration) : TestClass W :=
  AccountChainSetup_class fuel o pager_setup shared (SCEvmForgerStakesPager_run_test fuel o).

(** ** sc_evm_mc_addr_ownership_perf_test.py *)

Definition num_of_sc_addresses : Z := 20.
Definition num_of_associations_per_sc_addr : Z := 20.
Definition total_num_of_associations : Z := num_of_sc_addresses * num_of_associations_per_sc_addr.

(** Accounts with coins; the nonces are those of the sender. *)
Definition funded_accounts (fuel : nat) (sc_node : proxy) (evm_address : pyval) : MF (list pyval) :=
  mmap (λ i,
    let! sc_address := new_evm_address sc_node in
    let% from := (match evm_address with PStr s => Val (str_drop 2 s) | _ => Exc TypeError end) in
    let% wei := convertZenToWei (PDec (Dec 5 (-1))) in
    do! AccountCalls.createEIP1559Transaction sc_node
      (mkTxArgs (PStr from) sc_address (PInt i) (PInt 230000) (PInt wei) (PStr "") PNone PNone PNone) (PInt 900000000)
      (PInt 900000000) PNone in
    do! sc_sync_all fuel false in
    do! when (i mod DEFAULT_MAX_NONCE_GAP =? 0) (forge_synced fuel sc_node "first node" false) in
    ret sc_address) (zrange 0 num_of_sc_addresses).

(** A link of a new mainchain address: the address and the transaction. *)
Definition link_new (fuel : nat) (mc_node sc_node : proxy) (sc_address checksum : pyval) (nonce : Z) : MF (pyval * pyval) :=
  let! taddr := call mc_node "getnewaddress" [] in
  let! mc_signature := call mc_node "signmessage" [taddr; checksum] in
  let! r := send_keys sc_node sc_address taddr mc_signature (PInt nonce) in
  let% tx_hash := getitem r "transactionId" in
  do! sc_sync_all fuel false in
  ret (taddr, tx_hash).

(** The first link of each account. *)
Definition first_links (fuel : nat) (mc_node sc_node : proxy) (scaddr_list : list pyval) : MF (list (pyval * pyval)) :=
  let num_of_tx_in_block := Z.min 32 num_of_sc_addresses in
  mmap (λ i,
    let% sc_address := list_index scaddr_list i in
    let% checksum := to_checksum_address sc_address in
    let! l := link_new fuel mc_node sc_node sc_address checksum 0 in
    do! when (i mod num_of_tx_in_block =? 0) (forge_synced fuel sc_node "first node" false) in
    ret l) (zrange 0 num_of_sc_addresses).

(** A call of the contract of the links; its reply, without the prefix. *)
Definition ownership_call (sc2 : proxy) (from : pyval) (gas : Z) (data : outcome string) : MF string :=
  let% from := format_evm from in
  let% to := format_evm (PStr MC_ADDR_OWNERSHIP_SMART_CONTRACT_ADDRESS) in
  let% data := data in
  let! response := call sc2 "rpc_eth_call"
    [PDict [("from", from); ("to", to); ("nonce", PInt 3); ("gasLimit", PInt gas); ("gasPrice", PInt 850000000);
            ("value", PInt 0); ("data", PStr data)]; latest] in
  do! check_no_error response in
  let% r := getitem response "result" in
  lift (bare r).

(** The account of the [i]-th link, and its nonce. *)
Definition link_place (i : Z) : Z * Z :=
  (i / (num_of_associations_per_sc_addr - 1), 1 + i mod (num_of_associations_per_sc_addr - 1)).

(** The other links: account by account, each with its nonces. *)
Definition more_links (fuel : nat) (mc_node sc_node : proxy) (scaddr_list : list pyval) : MF (list pyval) :=
  let num_of_tx_in_block := Z.min (num_of_associations_per_sc_addr - 1) DEFAULT_MAX_NONCE_GAP in
  mmap (λ i,
    let% sc_address := list_index scaddr_list (link_place i).1 in
    let% checksum := to_checksum_address sc_address in
    let! l := link_new fuel mc_node sc_node sc_address checksum (link_place i).2 in
    do! when (i mod num_of_tx_in_block =? 0) (forge_synced fuel sc_node "first node" false) in
    ret l.2) (zrange 0 (total_num_of_associations - num_of_sc_addresses)).

(** The gas of a transaction that succeeded. *)
Definition gas_of_link (sc_node : proxy) (tx_hash : pyval) : MF pyval :=
  let! receipt := receipt_by_hash sc_node tx_hash in
  let% status := hex_field receipt "status" in
  do% assert_true (status =? 1) "" in
  lift (getpath receipt ["result"; "gasUsed"]).

(** The links of an account, by the API and by the contract. *)
Definition check_account_links (sc_node sc2 : proxy) (sc_addr : pyval) : MF unit :=
  let! links := getKeysOwnership sc_node sc_addr PNone in
  let% owners := getitem links "keysOwnership" in
  let% n := py_len owners in
  do% assert_true (n =? 1) "" in
  let% checksum := to_checksum_address sc_addr in
  let% key := as_str "" checksum in
  let% l := getitem owners key in
  let% n := py_len l in
  do% assert_true (n =? num_of_associations_per_sc_addr) "" in
  let! value := ownership_call sc2 sc_addr 2300000 (
    let? padded := py_add (PStr "000000000000000000000000") sc_addr in
    let? s := selector_of "getKeyOwnerships(address)" in
    let? padded := as_str "" padded in
    Val (s +:+ padded)) in
  let exp_len := 32 + 32 + num_of_associations_per_sc_addr * (3 * 32) in
  lift (assert_equal (PInt (Z.of_nat (String.length value))) (PInt (2 * exp_len)) "").

(** Every account has its links, and no other account has any. *)
Definition check_all_accounts (sc_node : proxy) (scaddr_list : list pyval) : MF unit :=
  let! links := getKeysOwnership sc_node PNone PNone in
  let% owners := getitem links "keysOwnership" in
  let% n := py_len owners in
  do% assert_true (n =? num_of_sc_addresses) "" in
  let% items := (match owners with PDict d => Val d | _ => Exc (AttributeError "items") end) in
  forM_ items (λ kv : string * pyval,
    let% n := py_len kv.2 in
    do% assert_equal (PInt n) (PInt num_of_associations_per_sc_addr) "" in
    let% there := py_in (PStr (lower (str_drop 2 kv.1))) (PList scaddr_list) in
    lift (assert_true there "")).

(** The accounts that own an address. *)
Definition check_owner_accounts (sc_node : proxy) (scaddr_list : list pyval) : MF unit :=
  let! r := getKeyOwnerScAddresses sc_node PNone in
  let% owners := getitem r "owners" in
  let% n := py_len owners in
  do% assert_equal (PInt n) (PInt (Z.of_nat (length scaddr_list))) "" in
  forM_ scaddr_list (λ entry,
    let% checksum := to_checksum_address entry in
    let% there := py_in checksum owners in
    lift (assert_true there "")).

(** [getKeysOwnership(sc_node, sc_address=a)['keysOwnership'][to_checksum_address(a)]] and the next nonce *)
Definition links_and_nonce (sc_node : proxy) (sc_addr : pyval) : MF (list pyval * Z) :=
  let! links := getKeysOwnership sc_node sc_addr PNone in
  let% owners := getitem links "keysOwnership" in
  let% checksum := to_checksum_address sc_addr in
  let% key := as_str "" checksum in
  let% l := getitem owners key in
  let% l := py_iter l in
  let! r := call sc_node "rpc_eth_getTransactionCount" [checksum; latest] in
  let% nonce := hex_of r "result" in
  ret (l, nonce).

Definition remove_link (fuel : nat) (sc_node : proxy) (sc_addr mc_addr : pyval) (nonce : Z) : MF unit :=
  let! r := removeKeysOwnership sc_node sc_addr mc_addr (PInt nonce) (PInt 230000) (PInt 900000000) (PInt 900000000) PNone in
  do% getitem r "transactionId" in
  do! sc_sync_all fuel false in
  forge_synced fuel sc_node "first node" false.

(** The links of an account but the first one, from the end, with a mainchain block each. *)
Fixpoint remove_later_links (fuel : nat) (mc_node sc_node : proxy) (sc_addr : pyval) (first_round_mc_addrs entries : list pyval)
    (nonce : Z) : MF unit :=
  match entries with
  | [] => ret tt
  | entry :: entries' =>
      do! call mc_node "generate" [PInt 1] in
      let% there := py_in entry (PList first_round_mc_addrs) in
      if there then remove_later_links fuel mc_node sc_node sc_addr first_round_mc_addrs entries' nonce
      else
        do! remove_link fuel sc_node sc_addr entry nonce in
        remove_later_links fuel mc_node sc_node sc_addr first_round_mc_addrs entries' (nonce + 1)
  end.

Definition remove_links (fuel : nat) (mc_node sc_node : proxy) (scaddr_list first_round_mc_addrs : list pyval) : MF unit :=
  do! forM_ (reverse scaddr_list) (λ sc_addr,
    let! '(l, nonce) := links_and_nonce sc_node sc_addr in
    do! remove_later_links fuel mc_node sc_node sc_addr first_round_mc_addrs (reverse l) nonce in
    forge_synced fuel sc_node "first node" false) in
  forM_ (reverse scaddr_list) (λ sc_addr,
    let! links := getKeysOwnership sc_node sc_addr PNone in
    let% owners := getitem links "keysOwnership" in
    let% checksum := to_checksum_address sc_addr in
    let% key := as_str "" checksum in
    let% l := getitem owners key in
    do! check_length 1 l "" in
    let! r := call sc_node "rpc_eth_getTransactionCount" [checksum; latest] in
    let% nonce := hex_of r "result" in
    let% entry := getindex l 0 in
    remove_link fuel sc_node sc_addr entry nonce).

Definition SCEvmMcAddressOwnershipPerfTest_run_test (fuel : nat) : MF unit :=
  let! s := sc_ac_setup fuel true true ft_3000 in
  let! sc_node := sc 0 in
  let! mc_node := mc 0 in
  let! sc2 := sc 1 in
  do% assert_true (1 <? num_of_associations_per_sc_addr) "" in
  let! scaddr_list := funded_accounts fuel sc_node (ac_evm_address s) in
  do! forge_synced fuel sc_node "first node" true in
  do! reach_fork fuel sc_node ZENDAO_FORK_EPOCH in
  let! first := first_links fuel mc_node sc_node scaddr_list in
  do! forge_synced fuel sc_node "first node" false in
  let% last := list_index scaddr_list (-1) in
  do! ownership_call sc2 last 230000000 (selector_of "getKeyOwnerScAddresses()") in
  let! hashes := more_links fuel mc_node sc_node scaddr_list in
  do! forge_synced fuel sc_node "first node" false in
  let tx_hash_list := map snd first ++ hashes in
  let% tx_hash_first := list_index tx_hash_list num_of_sc_addresses in
  let% tx_hash_last := list_index tx_hash_list (-1) in
  let! gas_used_first := gas_of_link sc_node tx_hash_first in
  let! gas_used_last := gas_of_link sc_node tx_hash_last in
  do% assert_equal gas_used_first gas_used_last "" in
  do! forM_ scaddr_list (check_account_links sc_node sc2) in
  do! check_all_accounts sc_node scaddr_list in
  do! ownership_call sc2 last 230000000 (selector_of "getAllKeyOwnerships()") in
  do! check_owner_accounts sc_node scaddr_list in
  do! remove_links fuel mc_node sc_node scaddr_list (map fst first) in
  let! r := getKeyOwnerScAddresses sc_node PNone in
  let% owners := getitem r "owners" in
  let% n := py_len owners in
  do% assert_true (n =? 0) "" in
  let! links := getKeysOwnership sc_node PNone PNone in
  let% owners := getitem links "keysOwnership" in
  let% n := py_len owners in
  lift (assert_true (n =? 0) "").

(** [self.options.nonceasing = True; self.options.certcircuittype = KEY_ROTATION_CIRCUIT] *)
Definition perf_options (o : Options) : Options :=
  mkFrameworkOptions (op_tmpdir o) (nocleanup o) (noshutdown o) (op_restapitimeout o) (op_logfilelevel o)
    (op_logconsolelevel o) (debugnode o) true KEY_ROTATION_CIRCUIT (parallel o) (mcblockdelay o) (jacoco o) (all_forks o)
    (maxhistoryrewritinglength o).

Definition SCEvmMcAddressOwnershipPerfTest (fuel : nat) (o : Options) (shared : SCForgerConfiguration) : TestClass W :=
  AccountChainSetup_class fuel (perf_options o)
    (ac_defaults 2 LARGE_WITHDRAWAL_EPOCH_LENGTH (PInt (SLOTS_IN_EPOCH * EVM_APP_SLOT_TIME * (ZENDAO_FORK_EPOCH + 100))) None
       100 true DEFAULT_TX_LIFETIME) shared (SCEvmMcAddressOwnershipPerfTest_run_test fuel).

(** ** sc_evm_forger_v2_perf.py *)

(** [contract_function_call] of a contract without arguments, with its block and receipt *)
Definition contract_step (sc1 : proxy) (c : SmartContract) (contract : string) (address1 : pyval) (method : string)
    (between : MF unit) : MF unit :=
  let! tx_hash := call_on sc1 c (PStr contract) address1 method [] (PInt 0) in
  do! between in
  do! block_receipt sc1 tx_hash in
  ret tt.

Definition register_new (fuel : nat) (node : proxy) (amount : Z) (reward_address : pyval) : MF unit :=
  let! sign := new_proposition node "wallet_createPrivateKey25519" "publicKey" in
  let! vrf := new_proposition node "wallet_createVrfSecret" "publicKey" in
  do! ac_registerForger node sign vrf (PInt amount) reward_address (PInt 123) PNone in
  sc_sync_all fuel false.

Definition num_of_forgers : Z := 100.

(** Forgers of the first node, each in a block of its own, and one of the second. *)
Definition many_forgers (fuel : nat) (mc_node sc1 sc2 : proxy) (address2 : pyval) : MF unit :=
  let% reward_address := add_0x_prefix address2 in
  let% amount := convertZenToZennies (PInt 10) in
  do! call mc_node "generate" [PInt 1] in
  do! forM_ (zrange 0 (num_of_forgers - 2)) (λ _,
    do! register_new fuel sc1 amount reward_address in
    do! generate_next_block sc1 "first node" false PNone in
    do! call mc_node "generate" [PInt 1] in
    sc_sync_all fuel false) in
  let% amount := convertZenToZennies (PInt 100) in
  do! register_new fuel sc2 amount reward_address in
  do! forge_synced fuel sc1 "first node" false in
  do! check_stakes sc1 num_of_forgers in
  ret tt.

(** Two epochs later both nodes forge a block. *)
Definition lottery (mc_node sc1 sc2 : proxy) : MF unit :=
  do! call mc_node "generate" [PInt 1] in
  do! generate_next_block sc1 "first node" true PNone in
  do! generate_next_block sc1 "first node" true PNone in
  do! current_epoch sc1 in
  do! generate_next_block sc1 "first node" false PNone in
  do! generate_next_block sc2 "second node" false PNone in
  do! call mc_node "generate" [PInt 1] in
  ret tt.

Definition num_of_checkpoints : Z := 1000.
Definition STAKE_TOTAL : string := "stakeTotal(bytes32,bytes32,bytes1,address,uint32,uint32)".
Definition num_of_epochs : Z := 100.

(** A stake in each of many epochs, and the total of the stakes from each of them on. *)
Definition checkpoints (mc_node sc1 : proxy) (v2 : SmartContract) (k : ForgerKeys) (address1 address2 : pyval) : MF unit :=
  let% amount := convertZenniesToWei (PInt 1) in
  let! epoch := current_epoch sc1 in
  let% starting_epoch := py_add epoch (PInt 1) in
  do! forM_ (zrange 0 num_of_checkpoints) (λ _,
    do! contract_function_call sc1 v2 (PStr FORGER_STAKE_V2_SMART_CONTRACT_ADDRESS) address1 "delegate(bytes32,bytes32,bytes1)"
      (key_args k) (PInt amount) (PInt 200000) latest in
    do! generate_next_block sc1 "first node" true PNone in
    do! call mc_node "generate" [PInt 1] in
    ret tt) in
  forM_ (zrange 0 num_of_checkpoints) (λ i,
    let% from_epoch := py_add starting_epoch (PInt i) in
    let args := key_args k ++ [address1; from_epoch; PInt num_of_epochs] in
    do! time_time in
    do! static_on sc1 v2 (PStr FORGER_STAKE_V2_SMART_CONTRACT_ADDRESS) address2 STAKE_TOTAL args 0 in
    do! time_time in
    do! SmartContract_estimate_gas v2 sc1 STAKE_TOTAL args address2 (PStr FORGER_STAKE_V2_SMART_CONTRACT_ADDRESS) PNone PNone
      (PInt 0) PNone latest in
    ret tt).

Definition SCEvmForgerV2Perf_run_test (fuel : nat) : MF unit :=
  let! mc_node := mc 0 in
  let! sc1 := sc 0 in
  let! sc2 := sc 1 in
  let! address2 := new_evm_address sc2 in
  do! transfer_to mc_node address2 coins_500 false in
  do! sleep (secs 2) in
  let! address1 := new_evm_address sc1 in
  do! transfer_to mc_node address1 (PDec (Dec 20000 (-1))) true in
  do! sync_all fuel in
  do! forge_synced fuel sc1 "first node" false in
  do! print_current_epoch_and_slot sc1 in
  let! stakes := all_stakes sc1 in
  let% genesis := first_forger stakes in
  let% stake := getindex stakes 0 in
  do% owner_of stake in
  do! reach_fork fuel sc1 VERSION_1_3_FORK_EPOCH in
  let! v1 := SmartContract_init "ForgerStakes" in
  do! contract_step sc1 v1 FORGER_STAKE_SMART_CONTRACT_ADDRESS address1 "upgrade()" (ret tt) in
  do! reach_fork fuel sc1 VERSION_1_4_FORK_EPOCH in
  let! v2 := SmartContract_init "ForgerStakesV2" in
  do! contract_step sc1 v2 FORGER_STAKE_V2_SMART_CONTRACT_ADDRESS address1 "activate()" (forge_synced fuel sc1 "first node" false) in
  do! many_forgers fuel mc_node sc1 sc2 address2 in
  do! lottery mc_node sc1 sc2 in
  let% k := forger_keys_of genesis.1 genesis.2 in
  checkpoints mc_node sc1 v2 k address1 address2.

Definition perf_setup : AccountChainSetup :=
  mkAccountChainSetup "Horizen" 1 2 LARGE_WITHDRAWAL_EPOCH_LENGTH (PInt 222) (PInt (1500 * EVM_APP_SLOT_TIME * 1500)) None []
    None false [] 100 true true DEFAULT_MAX_NONCE_GAP DEFAULT_MAX_ACCOUNT_SLOTS DEFAULT_MAX_MEMPOOL_SLOTS
    DEFAULT_MAX_NONEXEC_POOL_SLOTS DEFAULT_TX_LIFETIME [None; None] 7 5 [].

Definition SCEvmForgerV2Perf (fuel : nat) (o : Options) (shared : SCForgerConfiguration) : TestClass W :=
  AccountChainSetup_class fuel o perf_setup shared (SCEvmForgerV2Perf_run_test fuel).
End Pager.
