(* ===== verification/TokenScenarios.v ===== *)
(** * Scenarios: tokens and other contracts

    sc_evm_test_erc721.py, sc_evm_test_metamask_related.py, sc_evm_test_erc20.py,
    sc_evm_test_storage_contract.py, sc_evm_contract_deployment_create2.py,
    sc_evm_test_contract_contract_deployment_and_interaction.py,
    sc_evm_delegatecall_contract.py and sc_evm_test_block_bloom_filter.py: contracts that are
    deployed, called and read, with the balances, owners and events after each call.

    The filter of a block ([eth_bloom.BloomFilter]) is a parameter. *)

From S2P Require Import Prelude PyStr Numbers PyVal Host Sim Json Encoding HttpProxy BootInfo McUtil ScUtil.
From S2P Require Import Forging Bootstrap Framework AccountSetup McFramework HttpCalls AccountCalls AccountUtil SmartContract.
From Stdlib Require Import QArith Ascii String.
From stdpp Require Import base list.
From S2P Require Import Scenarios ForgingScenarios StakeScenarios ChainScenarios MempoolScenarios CertScenarios EvmScenarios CswScenarios.
From S2P Require Import EvmRotationScenarios ForgerScenarios EvmForgerScenarios NativeForgerScenarios OwnershipScenarios SeederScenarios.
From S2P Require Import EvmMempoolScenarios InteropScenarios.
Local Open Scope Z_scope.

(** [bytes in BloomFilter(n)] *)
Class EthBloom := in_bloom : Z → string → bool.

Section Tokens.
Context {W : Type} `{Nodes W, Clock W, Os W, Rng W} `{EthUtils, EthAbi, EthHash, EthHex, EthSelectors, EthBloom}.
Local Abbreviation MF := (M (FW W)).

(** ** Shared parts *)

(** A contract at an address, as seen by an account. *)
Record Deployed := mkDeployed { d_contract : SmartContract; d_address : pyval }.

(** [contract_function_static_call(...)] and its first result *)
Definition view (node : proxy) (d : Deployed) (from : pyval) (method : string) (args : list pyval) : MF pyval :=
  static_on node (d_contract d) (d_address d) from method args 0.
Definition view_0 (node : proxy) (d : Deployed) (from : pyval) (method : string) (args : list pyval) : MF pyval :=
  let! res := view node d from method args in lift (getindex res 0).

Definition check_view (node : proxy) (d : Deployed) (from : pyval) (method : string) (args : list pyval) (expected : pyval)
    : MF unit :=
  let! found := view_0 node d from method args in lift (assert_equal expected found "").

Definition send (node : proxy) (d : Deployed) (from : pyval) (method : string) (args : list pyval) : MF pyval :=
  call_on node (d_contract d) (d_address d) from method args (PInt 0).

(** [assert_true(generate_block_and_get_tx_receipt(node, tx_hash, True), message)] *)
Definition mined_ok (node : proxy) (tx_hash : pyval) (message : string) : MF unit :=
  let! status := generate_block_and_get_tx_receipt node tx_hash true in
  lift (assert_true (truthy status) message).

(** A block with a receipt that is a success and has events. *)
Definition check_logged (tx_receipt : pyval) : outcome unit :=
  let? status := getitem tx_receipt "status" in
  let? _ := assert_equal (PStr "0x1") status "Transaction failed" in
  let? logs := getitem tx_receipt "logs" in
  let? log := getindex logs 0 in
  let? n := py_len log in
  assert_true (0 <? n) "Receipt does not include logs".
Definition mined_logged (node : proxy) (tx_hash : pyval) : MF pyval :=
  let! r := generate_block_and_get_tx_receipt node tx_hash false in
  let% tx_receipt := getitem r "result" in
  do% check_logged tx_receipt in
  ret tx_receipt.

Definition paid_for (node : proxy) (tx_hash : pyval) : MF Z :=
  let! '(gas_fee_paid, _, _) := computeForgedTxFee node tx_hash in ret gas_fee_paid.

(** [assert_true(len(res) == 0)] *)
Definition check_empty (res : pyval) : outcome unit := let? n := py_len res in assert_true (n =? 0) "".

(** ** sc_evm_test_erc721.py *)

(** The call of a token contract with the gas of an estimate, if none is given.  Every caller
    leaves [generate_block] off, here and in [set_paused]. *)
Definition mint_payable (node : proxy) (d : Deployed) (source_account : pyval) (amount : pyval) (tokenid : Z) (static : bool)
    (overrideGas : pyval) : MF pyval :=
  let method := "mint(uint256)" in
  if static then
    static_call (d_contract d) node method [PInt tokenid] source_account (d_address d) PNone PNone (PInt 900000000) amount
      latest false false
  else
    let! gas := (match overrideGas with
      | PNone => SmartContract_estimate_gas (d_contract d) node method [PInt tokenid] source_account (d_address d) PNone PNone
                   amount PNone latest
      | _ => ret overrideGas
      end) in
    call_function (d_contract d) node method [PInt tokenid] RPC_LEGACY source_account (d_address d)
      (mkTxOptions PNone gas (PInt 765630000) (PInt 765630000) (PInt 10) amount latest).

Definition get_native_balance (node : proxy) (addr : pyval) : MF Z := rpc_get_balance node addr.

Definition set_paused (node : proxy) (d : Deployed) (sender_address : pyval) (paused static : bool) : MF pyval :=
  let method := if paused then "pause()" else "unpause()" in
  if static then view node d sender_address method [] else send node d sender_address method [].

Definition compare_total_supply (node : proxy) (d : Deployed) (account_address : pyval) (expected_supply : Z) : MF unit :=
  check_view node d account_address "totalSupply()" [] (PInt expected_supply).

Definition compare_and_return_balance (node : proxy) (d : Deployed) (account_address expected_balance : pyval) : MF pyval :=
  let! b := get_balance (d_contract d) node account_address (d_address d) PNone in
  let% new_balance := getindex b 0 in
  do% assert_equal expected_balance new_balance "" in
  ret new_balance.

Definition compare_and_return_nat_balance (node : proxy) (account_address : pyval) (expected_balance : Z) : MF Z :=
  let! new_balance := get_native_balance node account_address in
  do% assert_equal (PInt expected_balance) (PInt new_balance) "" in
  ret new_balance.

Definition compare_ownerof (node : proxy) (d : Deployed) (sender_address : pyval) (tokenid : Z) (expected_owner : pyval) : MF unit :=
  let% expected_owner := format_evm expected_owner in
  let! owner := view_0 node d sender_address "ownerOf(uint256)" [PInt tokenid] in
  let% expected := format_evm expected_owner in
  let% found := format_evm owner in
  lift (assert_equal expected found "").

Definition collection : list pyval := [PStr "Test ERC721 Tokens"; PStr "TET"; PStr "https://localhost:1337"].

(** A collection of tokens without tokens: the contract, the balance and the tokens of the
    account. *)
Definition new_collection (node : proxy) (address : pyval) (m : CallMethod) : MF (Deployed * Z * pyval) :=
  let! c := SmartContract_init "TestERC721" in
  let! a := deploy_smart_contract node c address collection m true in
  let d := mkDeployed c a in
  do! compare_total_supply node d address 0 in
  do! check_view node d address "name()" [] (PStr "Test ERC721 Tokens") in
  do! check_view node d address "symbol()" [] (PStr "TET") in
  let! last_nat_balance := get_native_balance node address in
  let! last_balance := compare_and_return_balance node d address (PInt 0) in
  ret (d, last_nat_balance, last_balance).

Definition call_failed : string := "Contract call failed".

(** A second address with coins. *)
Definition second_account (node : proxy) (evm_address : pyval) : MF pyval :=
  let! a := new_evm_address node in
  let% other_address := format_evm a in
  do! call node "rpc_eth_getBalance" [PStr (py_str evm_address); latest] in
  do! call node "rpc_eth_getBalance" [other_address; latest] in
  let% from := format_eoa_val evm_address in
  let% to := format_eoa_val other_address in
  let% wei := convertZenToWei (PInt 30) in
  do! createLegacyTransaction node (mkTxArgs (PStr from) (PStr to) PNone (PInt 21000) (PInt wei) (PStr "") PNone PNone PNone)
    (PInt 1000000000) PNone false in
  do! generate_next_block node "first node" true PNone in
  do! call node "rpc_eth_getBalance" [other_address; latest] in
  ret other_address.

(** The balance and the tokens after a call. *)
Definition compare_balances (node : proxy) (d : Deployed) (address : pyval) (nat_balance : Z) (balance : pyval) (more : Z)
    : MF (Z * pyval) :=
  let! last_nat_balance := compare_and_return_nat_balance node address nat_balance in
  let% expected := py_add balance (PInt more) in
  let! last_balance := compare_and_return_balance node d address expected in
  ret (last_nat_balance, last_balance).

(** The first token; the supply is asked for in the name of a formatted address. *)
Definition first_token (node : proxy) (d : Deployed) (address other : pyval) (nat_balance : Z) (balance : pyval) : MF (Z * pyval) :=
  let! tx_hash := mint_payable node d address (PInt 1) 1 false PNone in
  do! mined_ok node tx_hash call_failed in
  let! paid := paid_for node tx_hash in
  let% a := format_evm address in
  do! compare_total_supply node d a 1 in
  do! compare_ownerof node d other 1 address in
  compare_balances node d address (nat_balance - 1 - paid) balance 1.

(** A paused contract creates no token. *)
Definition paused_tokens (node : proxy) (d : Deployed) (address : pyval) (nat_balance : Z) (balance : pyval) : MF (Z * pyval) :=
  let! res := set_paused node d address true true in
  do% check_empty res in
  let! tx_hash := set_paused node d address true false in
  do! mined_ok node tx_hash call_failed in
  let! paid_1 := paid_for node tx_hash in
  do! must_fail (λ e, match e with EvmExecutionError _ => true | _ => false end)
    (mint_payable node d address (PInt 1) 2 true PNone) "Exception should have been thrown" in
  let! tx_hash := mint_payable node d address (PInt 1) 2 false (PInt 9000000) in
  let! status := generate_block_and_get_tx_receipt node tx_hash true in
  do% assert_true (py_eqb status (PInt 0)) call_failed in
  let! paid_2 := paid_for node tx_hash in
  let% a := format_evm address in
  do! compare_total_supply node d a 1 in
  let! last_nat_balance := compare_and_return_nat_balance node address (nat_balance - paid_1 - paid_2) in
  let! last_balance := compare_and_return_balance node d address balance in
  ret (last_nat_balance, last_balance).

(** Then it does again.  The receipt of the first transaction is not a status: it is true. *)
Definition second_token (node : proxy) (d : Deployed) (address other : pyval) (nat_balance : Z) (balance : pyval) : MF (Z * pyval) :=
  let! res := set_paused node d address false true in
  do% check_empty res in
  let! tx_hash := set_paused node d address false false in
  let! status := generate_block_and_get_tx_receipt node tx_hash false in
  do% assert_true (truthy status) call_failed in
  let! paid_1 := paid_for node tx_hash in
  let! res := mint_payable node d address (PInt 1) 2 true PNone in
  do% check_empty res in
  let! tx_hash := mint_payable node d address (PInt 1) 2 false PNone in
  do! mined_ok node tx_hash call_failed in
  let! paid_2 := paid_for node tx_hash in
  let% a := format_evm address in
  do! compare_total_supply node d a 2 in
  do! compare_ownerof node d other 2 address in
  compare_balances node d address (nat_balance - 1 - paid_1 - paid_2) balance 1.

(** The first token is given to the other account. *)
Definition token_given (node : proxy) (d : Deployed) (address other : pyval) (nat_balance : Z) (balance : pyval) : MF unit :=
  let! tx_hash := send node d address "transferFrom(address,address,uint256)" [address; other; PInt 1] in
  do! mined_ok node tx_hash call_failed in
  let! paid := paid_for node tx_hash in
  let% a := format_evm address in
  do! compare_total_supply node d a 2 in
  do! compare_ownerof node d address 2 address in
  do! compare_ownerof node d other 1 other in
  do! compare_and_return_nat_balance node address (nat_balance - paid) in
  let% expected := py_sub balance (PInt 1) in
  let! last_balance := compare_and_return_balance node d address expected in
  do! compare_and_return_balance node d other last_balance in
  ret tt.

Definition SCEvmERC721Contract_run_test (fuel : nat) : MF unit :=
  let! node := sc 0 in
  let! s := sc_ac_setup fuel true true (PDec (Dec 33022 (-2))) in
  let address := ac_evm_address s in
  let! other := second_account node address in
  let! '(d, nat_balance, balance) := new_collection node address RPC_LEGACY in
  let! '(nat_balance, balance) := first_token node d address other nat_balance balance in
  let! '(nat_balance, balance) := paused_tokens node d address nat_balance balance in
  let! '(nat_balance, balance) := second_token node d address other nat_balance balance in
  token_given node d address other nat_balance balance.

Definition SCEvmERC721Contract (fuel : nat) (o : Options) (shared : SCForgerConfiguration) : TestClass W :=
  AccountChainSetup_class fuel o (ac_simple 1 40) shared (SCEvmERC721Contract_run_test fuel).

(** ** sc_evm_test_metamask_related.py *)

Definition eoa_assert_native_balance (node : proxy) (address : pyval) (expected_balance : Z) : MF unit :=
  let% a := format_evm address in
  let! res := call node "rpc_eth_getBalance" [a; latest] in
  let% ok := has_key "result" res in
  if negb ok then raise (RuntimeError ("Something went wrong, see " +:+ py_str res))
  else
    let% r := getitem res "result" in
    let% text := (match r with PStr s => Val s | _ => Exc TypeError end) in
    let% balance := py_int_base (PStr (str_drop 2 text)) 16 in
    lift (assert_equal (PInt expected_balance) (PInt balance) "Actual balance did not match expected balance").

(** [assert_equal(smart_contract.static_call(...)[0], expected)] *)
Definition static_is (node : proxy) (d : Deployed) (method : string) (args : list pyval) (from : pyval) (expected : Z) : MF unit :=
  let! res := static_call (d_contract d) node method args from (d_address d) PNone PNone PNone (PInt 0) latest false false in
  let% found := getindex res 0 in
  lift (assert_equal found (PInt expected) "").

Definition compare_erc20_balance (node : proxy) (d : Deployed) (account_address : pyval) (expected_balance : Z) : MF unit :=
  static_is node d "balanceOf(address)" [account_address] account_address expected_balance.

Definition transfer_erc20_tokens (node : proxy) (d : Deployed) (source_account target_account : pyval) (amount : Z)
    (static : bool) : MF pyval :=
  let method := "transfer(address,uint256)" in
  if static then view node d source_account method [target_account; PInt amount]
  else send node d source_account method [target_account; PInt amount].

Definition compare_erc20_total_supply (node : proxy) (d : Deployed) (sender_address : pyval) (expected_supply : Z) : MF unit :=
  static_is node d "totalSupply()" [] sender_address expected_supply.

Definition deploy_erc20_smart_contract (node : proxy) (c : SmartContract) (from_address : pyval) : MF pyval :=
  let! estimated_gas := SmartContract_estimate_gas c node "constructor" [] from_address PNone PNone PNone (PInt 0) PNone latest in
  let! '(tx_hash, address) := deploy c node [] RPC_LEGACY from_address (default_tx_options estimated_gas) in
  do! generate_next_blocks node "first node" 1 in
  let! tx_receipt := call node "rpc_eth_getTransactionReceipt" [tx_hash] in
  let% found := getpath tx_receipt ["result"; "contractAddress"] in
  let% found := format_evm found in
  let% expected := format_evm address in
  do% assert_equal found expected "" in
  ret address.

Definition tx_type_name (m : CallMethod) : string :=
  match m with RPC_LEGACY => "legacy" | RPC_EIP155 => "eip155" | RPC_EIP1559 => "eip1559" end.

(** The fields of a transaction by its type. *)
Definition check_tx_type_specific_outputs (tx_hash : pyval) (tx_type : string) : MF unit :=
  let! node := sc 0 in
  let! r := call node "rpc_eth_getTransactionByHash" [tx_hash] in
  let% tx := getitem r "result" in
  let% max_fee := has_key "maxFeePerGas" tx in
  let% max_priority := has_key "maxPriorityFeePerGas" tx in
  let% chain_id := has_key "chainId" tx in
  do% assert_true (if String.eqb tx_type "eip1559" then max_fee && max_priority else negb max_fee && negb max_priority) "" in
  lift (assert_true (if String.eqb tx_type "legacy" then negb chain_id else chain_id) "").

(** A transfer of one unit, tried and then made: its fee. *)
Definition transfer_one (node : proxy) (address other : pyval) (m : CallMethod) : MF Z :=
  do! eoa_transfer node address other (PInt 1) RPC_EIP155 true latest in
  let! tx_hash := eoa_transfer node address other (PInt 1) m false latest in
  do! mined_ok node tx_hash call_failed in
  do! check_tx_type_specific_outputs tx_hash (tx_type_name m) in
  paid_for node tx_hash.

(** The three types, with the balances after each; the last two checks are in the other
    order. *)
Definition transfers_by_type (node : proxy) (address other : pyval) (initial_balance : Z) : MF unit :=
  do! eoa_assert_native_balance node address initial_balance in
  do! eoa_assert_native_balance node other 0 in
  let! gas_used_legacy := transfer_one node address other RPC_LEGACY in
  do! eoa_assert_native_balance node address (initial_balance - (1 + gas_used_legacy)) in
  do! eoa_assert_native_balance node other 1 in
  let! gas_used_eip155 := transfer_one node address other RPC_EIP155 in
  do! eoa_assert_native_balance node address (initial_balance - (2 * 1 + gas_used_legacy + gas_used_eip155)) in
  do! eoa_assert_native_balance node other (2 * 1) in
  let! gas_used_eip1559 := transfer_one node address other RPC_EIP1559 in
  do! eoa_assert_native_balance node other (3 * 1) in
  eoa_assert_native_balance node address
    (initial_balance - (3 * 1 + gas_used_legacy + gas_used_eip155 + gas_used_eip1559)).

(** A token of a new collection; only the deployment uses the type. *)
Definition token_by_type (node : proxy) (address other : pyval) (m : CallMethod) : MF unit :=
  let! '(d, nat_balance, balance) := new_collection node address m in
  let! res := mint_payable node d address (PInt 1) 1 true PNone in
  do% check_empty res in
  let! tx_hash := mint_payable node d address (PInt 1) 1 false PNone in
  do! mined_ok node tx_hash call_failed in
  do! compare_total_supply node d address 1 in
  do! compare_ownerof node d other 1 address in
  let! gas_used := paid_for node tx_hash in
  do! compare_balances node d address (nat_balance - 1 - gas_used) balance 1 in
  ret tt.

(** A transfer of tokens of a new contract. *)
Definition erc20_transfer (node : proxy) (address other : pyval) : MF unit :=
  let! c := SmartContract_init "TestERC20" in
  let! a := deploy_erc20_smart_contract node c address in
  let d := mkDeployed c a in
  do! compare_erc20_total_supply node d address 100 in
  do! compare_erc20_balance node d address 100 in
  let! res := transfer_erc20_tokens node d address other 99 true in
  let% ok := getindex res 0 in
  do% assert_true (truthy ok) "" in
  do! compare_erc20_balance node d address 100 in
  let! tx_hash := transfer_erc20_tokens node d address other 99 false in
  do! mined_ok node tx_hash call_failed in
  do! compare_erc20_balance node d address (100 - 99) in
  compare_erc20_balance node d other 99.

Definition SCEvmMetamaskTest_run_test (fuel : nat) : MF unit :=
  let! node := sc 0 in
  let! s := sc_ac_setup fuel true true default_ft in
  let address := ac_evm_address s in
  let! a := new_evm_address node in
  let% other := format_evm a in
  let! r := call node "rpc_eth_getBalance" [address; latest] in
  let% initial_balance := hex_of r "result" in
  do! transfers_by_type node address other initial_balance in
  forM_ [RPC_EIP155; RPC_LEGACY; RPC_EIP1559] (λ m,
    do! token_by_type node address other m in
    erc20_transfer node address other).

Definition SCEvmMetamaskTest (fuel : nat) (o : Options) (shared : SCForgerConfiguration) : TestClass W :=
  AccountChainSetup_class fuel o (ac_simple 1 20) shared (SCEvmMetamaskTest_run_test fuel).

(** ** sc_evm_test_erc20.py *)

(** The tokens of an account, as the contract reports them to [from]. *)
Definition check_tokens (node : proxy) (d : Deployed) (from : pyval) (other : pyval) (expected : Z) : MF unit :=
  let! res := get_balance (d_contract d) node from (d_address d) other in
  let% found := getindex res 0 in
  lift (assert_equal (PInt expected) found "").

(** The mainchain block of the genesis, two addresses, and coins for both. *)
Definition erc20_start (fuel : nat) : MF (pyval * pyval) :=
  let! node := sc 0 in
  let! mc_node := mc 0 in
  let! info := boot_info in
  let! mc_block := call mc_node "getblock" [PStr (py_str (mainchain_block_height info))] in
  let% hash := getitem mc_block "hash" in
  let! mc_block_hex := call mc_node "getblock" [hash; PBool false] in
  do% log_concat mc_block_hex in
  let! sc_best_block := best node in
  let% height := getitem sc_best_block "height" in
  do% assert_equal (PInt 1) height "The best block has not the specified height." in
  let% block := getitem sc_best_block "block" in
  let% included := is_mainchain_block_included_in_sc_block block mc_block in
  do% assert_true included "The mainchain block is not included in SC node." in
  let! ref := call node "mainchain_bestBlockReferenceInfo" [] in
  let% ref := getitem ref "result" in
  do% assert_true (check_mainchain_block_reference_info ref mc_block)
    "The mainchain block is not included inside SC block reference info." in
  let! mc_return_address := call mc_node "getnewaddress" [] in
  let! a := new_evm_address node in
  let% address := format_evm a in
  let! a := new_evm_address node in
  let% other := format_evm a in
  do! call node "wallet_allPublicKeys" [] in
  let ft_amount_in_zen := PDec (Dec 10000 (-2)) in
  do! forM_ [address; other] (λ a,
    let% to := format_eoa_val a in
    do! forward_transfer_to_sidechain (sidechain_id info) mc_node (PStr to) ft_amount_in_zen mc_return_address true in
    ret tt) in
  do! forge_synced fuel node "first node" true in
  do! best node in
  ret (address, other).

Definition erc20_moved (node : proxy) (d : Deployed) (address other : pyval) : MF unit :=
  do! check_tokens node d address PNone (100 - 99) in
  check_tokens node d address other 99.

(** A transfer, tried and made; a second one is reverted. *)
Definition erc20_transfers (node : proxy) (d : Deployed) (address other : pyval) : MF unit :=
  let method := "transfer(address,uint256)" in
  let! ok := view_0 node d address method [other; PInt 99] in
  do% assert_true (truthy ok) "Static call failed" in
  do! check_tokens node d address PNone 100 in
  let! tx_hash := send node d address method [other; PInt 99] in
  do! mined_logged node tx_hash in
  do! erc20_moved node d address other in
  do! must_fail (λ e, match e with EvmExecutionError _ => true | _ => false end)
    (view node d address method [other; PInt 2]) "Exception should have been thrown" in
  erc20_moved node d address other.

(** The other account lets the first one take some back. *)
Definition erc20_approval (node : proxy) (d : Deployed) (address other : pyval) : MF unit :=
  let! tx_hash := send node d other "approve(address,uint256)" [address; PInt 10] in
  do! mined_ok node tx_hash "Transaction failed" in
  do! check_tokens node d address other 99 in
  do! check_view node d address "allowance(address,address)" [other; address] (PInt 10) in
  let method := "transferFrom(address,address,uint256)" in
  let! ok := view_0 node d address method [other; address; PInt 10] in
  do% assert_true (truthy ok) "Static call failed" in
  let! tx_hash := send node d address method [other; address; PInt 10] in
  do! mined_logged node tx_hash in
  do! check_tokens node d address PNone (100 - 99 + 10) in
  check_tokens node d address other (99 - 10).

Definition SCEvmERC20Contract_run_test (fuel : nat) : MF unit :=
  let! node := sc 0 in
  let! '(address, other) := erc20_start fuel in
  let! c := SmartContract_init "TestERC20" in
  let! a := deploy_smart_contract node c address [] RPC_LEGACY true in
  let d := mkDeployed c a in
  do! check_view node d address "totalSupply()" [] (PInt 100) in
  do! check_tokens node d address PNone 100 in
  do! forge_synced fuel node "first node" true in
  do! erc20_transfers node d address other in
  erc20_approval node d address other.

Definition SCEvmERC20Contract (fuel : nat) (o : Options) (shared : SCForgerConfiguration) : TestClass W :=
  AccountChainSetup_class fuel o (ac_simple 1 20) shared (SCEvmERC20Contract_run_test fuel).

(** ** sc_evm_test_storage_contract.py *)

(** [self.__set_storage_value(...)] as a read-only call: what it returns *)
Definition try_storage_value (d : Deployed) (sender : pyval) (value : string) : MF pyval :=
  let! node := sc 0 in
  static_call (d_contract d) node "set(string)" [PStr value] sender (d_address d) PNone PNone (PInt 900000000) (PInt 0) latest
    false false.

(** ... and as a transaction, with a block: the receipt *)
Definition set_storage_value (d : Deployed) (sender : pyval) (value : string) : MF pyval :=
  let! node := sc 0 in
  let! res := call_function (d_contract d) node "set(string)" [PStr value] RPC_LEGACY sender (d_address d)
    (default_tx_options (PInt 10000000)) in
  do! generate_next_blocks node "first node" 1 in
  let! tx_receipt := call node "rpc_eth_getTransactionReceipt" [res] in
  lift (getitem tx_receipt "result").

Definition check_storage_value (d : Deployed) (sender : pyval) (expected : string) : MF unit :=
  let! node := sc 0 in check_message node (d_contract d) sender (d_address d) expected.

(** The contract is deployed, and its address is that of the receipt. *)
Definition storage_deployed (node : proxy) (address : pyval) (message : string) : MF Deployed :=
  let! c := SmartContract_init "StorageTestContract" in
  let! estimated_gas := SmartContract_estimate_gas c node "constructor" [PStr message] address PNone PNone PNone (PInt 0) PNone
    latest in
  let! '(tx_hash, a) := deploy c node [PStr message] RPC_LEGACY address (default_tx_options estimated_gas) in
  let! tx_receipt := mined_logged node tx_hash in
  let% found := getitem tx_receipt "contractAddress" in
  let% found := format_evm found in
  do% assert_equal found a "" in
  ret (mkDeployed c a).

Definition storage_changed (d : Deployed) (address : pyval) (message : string) : MF unit :=
  let! tx_receipt := set_storage_value d address message in
  do% check_logged tx_receipt in
  check_storage_value d address message.

Definition SCEvmStorageContract_run_test (fuel : nat) : MF unit :=
  let! node := sc 0 in
  let! s := sc_ac_setup fuel true true (PDec (Dec 3000 0)) in
  let address := ac_evm_address s in
  let! d := storage_deployed node address "Initial message" in
  do! check_storage_value d address "Initial message" in
  let! block := call node "rpc_eth_getBlockByNumber" [PStr "0x3"; PStr "false"] in
  let% txs := getpath block ["result"; "transactions"] in
  let% tx_hash := getindex txs 0 in
  do! call node "rpc_eth_getTransactionReceipt" [tx_hash] in
  do! call node "rpc_eth_getTransactionByHash" [tx_hash] in
  do! catch (try_storage_value d address "This is a message")
    (λ e, match e with
          | EvmExecutionError _ => do% fail "static call failed but should not have" in ret PNone
          | _ => raise e
          end) in
  do! storage_changed d address "This is a message" in
  let! res := try_storage_value d address "This is a different message" in
  do% check_empty res in
  storage_changed d address "This is a different message".

Definition SCEvmStorageContract (fuel : nat) (o : Options) (shared : SCForgerConfiguration) : TestClass W :=
  AccountChainSetup_class fuel o (ac_simple 1 20) shared (SCEvmStorageContract_run_test fuel).

(** ** sc_evm_test_contract_contract_deployment_and_interaction.py *)

(** [assert_equal(1, generate_block_and_get_tx_receipt(node, tx_hash, True), ...)] *)
Definition mined_one (node : proxy) (tx_hash : pyval) : MF unit :=
  let! tx_status := generate_block_and_get_tx_receipt node tx_hash true in
  lift (assert_equal (PInt 1) tx_status "Transaction failed for some reason").

(** A method that returns nothing, tried and then called. *)
Definition tried_and_sent (node : proxy) (d : Deployed) (address : pyval) (method : string) (args : list pyval) : MF unit :=
  let! res := view node d address method args in
  do! check_length 0 res "" in
  let! tx_hash := send node d address method args in
  mined_one node tx_hash.

Definition assert_child_count_and_return (node : proxy) (d : Deployed) (address : pyval) (number_of_children : Z) : MF (list pyval) :=
  let! r := view_0 node d address "getChildren()" [] in
  let% children := py_iter r in
  do% assert_equal (PInt number_of_children) (PInt (Z.of_nat (length children))) "" in
  ret children.

Definition assert_secret (node : proxy) (child : SmartContract) (child_address address : pyval) (expected_secret : string) : MF unit :=
  check_view node (mkDeployed child child_address) address "checkParentSecret()" [] (PStr expected_secret).

(** A child is deployed; the last one knows the secret.  All children. *)
Definition child_deployed (node : proxy) (d : Deployed) (child : SmartContract) (address : pyval) (n : Z) (secret : string)
    : MF (list pyval) :=
  do! tried_and_sent node d address "deployContract()" [] in
  let! children := assert_child_count_and_return node d address n in
  let% last := list_index children (-1) in
  do! assert_secret node child last address secret in
  ret children.

Definition SCEvmDeployingContract_run_test (fuel : nat) : MF unit :=
  let! s := sc_ac_setup fuel true true default_ft in
  let! node := sc 0 in
  let address := ac_evm_address s in
  let! parent := SmartContract_init "TestDeployingContract" in
  let! child := SmartContract_init "TestDeployedContract" in
  let! initial_secret := random_byte_string 20 in
  let% evm_hex_address := to_checksum_address address in
  let! a := deploy_smart_contract node parent evm_hex_address [PStr initial_secret] RPC_LEGACY true in
  let d := mkDeployed parent a in
  do! assert_child_count_and_return node d address 0 in
  do! child_deployed node d child address 1 initial_secret in
  let! children := child_deployed node d child address 2 initial_secret in
  let! new_secret := random_byte_string 20 in
  let% last := list_index children (-1) in
  do! tried_and_sent node (mkDeployed child last) address "setParentSecret(string)" [PStr new_secret] in
  do! assert_secret node child last address new_secret in
  let% first := list_index children 0 in
  assert_secret node child first address new_secret.

Definition SCEvmDeployingContract (fuel : nat) (o : Options) (shared : SCForgerConfiguration) : TestClass W :=
  AccountChainSetup_class fuel o (ac_simple 1 100) shared (SCEvmDeployingContract_run_test fuel).

(** ** sc_evm_delegatecall_contract.py *)

Definition write_read_cycle (d : Deployed) (address : pyval) (write_method : string) (write_args : list pyval)
    (expected_value : Z) (overrideGas : pyval) : MF unit :=
  let! node := sc 0 in
  let! tx_hash := contract_function_call node (d_contract d) (d_address d) address write_method write_args (PInt 0) overrideGas
    latest in
  let! node := sc 0 in
  do! mined_ok node tx_hash "call failed" in
  let! node := sc 0 in
  let! found := view_0 node d address "num()" [] in
  lift (assert_equal (PInt expected_value) found "unexpected value").

Definition SCEvmDelegateCall_run_test (fuel : nat) : MF unit :=
  let! s := sc_ac_setup fuel true true default_ft in
  let address := ac_evm_address s in
  let! '(receiver, receiver_address) := deploy_named address "DelegateReceiver" [] in
  let! '(caller, caller_address) := deploy_named address "DelegateCaller" [] in
  let d := mkDeployed caller caller_address in
  do! write_read_cycle (mkDeployed receiver receiver_address) address "setVars(uint256)" [PInt 123] 123 PNone in
  do! write_read_cycle d address "setVars(address,uint256)" [receiver_address; PInt 456] 0 PNone in
  do! write_read_cycle d address "setVars(address,uint256)" [receiver_address; PInt 456] 456 (PInt 80000) in
  write_read_cycle d address "setVarsAssert(address,uint256)" [receiver_address; PInt 789] 789 PNone.

Definition SCEvmDelegateCall (fuel : nat) (o : Options) (shared : SCForgerConfiguration) : TestClass W :=
  AccountChainSetup_class fuel o (ac_simple 1 100) shared (SCEvmDelegateCall_run_test fuel).

(** ** sc_evm_contract_deployment_create2.py *)

(** [Decimal(x)] of a float, its exact value: with [n, d] its [as_integer_ratio] and
    [k = d.bit_length() - 1], the coefficient [n * 5 ** k] and the exponent [-k]. *)
Definition dec_of_float (x : float64) : option decimal :=
  match float_Q x with
  | Some q => let r := Qred q in
              let k := Z.log2 (Zpos (Qden r)) in
              Some (Dec (Qnum r * 5 ^ k) (- k))
  | None => None
  end.

(** [Decimal(12.34)] *)
Definition create2_zen : decimal := default (Dec 0 0) (dec_of_float (float_of_dec (Dec 1234 (-2)))).

Definition create2_amount : outcome Z :=
  let? z := convertZenToZennies (PDec create2_zen) in
  convertZenniesToWei (PInt z).

(** A call with its block. *)
Definition sent_ok (node : proxy) (d : Deployed) (address : pyval) (method : string) (args : list pyval) : MF unit :=
  let! tx_hash := send node d address method args in
  mined_ok node tx_hash "Transaction failed".

(** The storage of the wallet contract. *)
Definition storage_text (node : proxy) (d : Deployed) (from : pyval) : MF pyval := view_0 node d from "getStorageValue()" [].

(** The contract cannot be deployed to the same address again.  The method is the one read
    last, [getStorageValue()], which is not a method of the factory. *)
Definition not_deployed_again (node : proxy) (d : Deployed) (address : pyval) (salt : Z) : MF unit :=
  must_fail is_Exception (send node d address "getStorageValue()" [PInt salt])
    "Deploying a contract to the same address again should fail".

Definition SCEvmContractDeploymentCreate2_run_test (fuel : nat) : MF unit :=
  let! node := sc 0 in
  let! s := sc_ac_setup fuel true true default_ft in
  let address := ac_evm_address s in
  let! factory := SmartContract_init "Factory" in
  let! wallet := SmartContract_init "SimpleWallet" in
  let salt := 1337 in
  let% evm_hex_address := to_checksum_address address in
  let! a := deploy_smart_contract node factory evm_hex_address [] RPC_LEGACY true in
  let d := mkDeployed factory a in
  let! wallet_address := view_0 node d evm_hex_address "getAddress(uint256)" [PInt salt] in
  let w := mkDeployed wallet wallet_address in
  let% amount_zen := create2_amount in
  let! tx_hash := eoa_transfer node address wallet_address (PInt amount_zen) RPC_EIP155 false latest in
  do! mined_ok node tx_hash "Transaction failed" in
  do! compare_and_return_nat_balance node wallet_address amount_zen in
  do! sent_ok node d address "deploy(uint256)" [PInt salt] in
  let! balance := view_0 node w evm_hex_address "getBalance()" [] in
  do% assert_equal (PStr (str_of_Z amount_zen)) (PStr (py_str balance)) "" in
  do! sent_ok node w address "setStorageValue(string)" [PStr "5"] in
  let! storage_value := storage_text node w evm_hex_address in
  do% assert_equal (PStr "5") (PStr (py_str storage_value)) "" in
  do! sent_ok node w address "destroy(address)" [evm_hex_address] in
  do! sent_ok node d address "deploy(uint256)" [PInt salt] in
  let! storage_value := storage_text node w evm_hex_address in
  do% assert_equal (PStr "") storage_value "" in
  not_deployed_again node d address salt.

Definition SCEvmContractDeploymentCreate2 (fuel : nat) (o : Options) (shared : SCForgerConfiguration) : TestClass W :=
  AccountChainSetup_class fuel o (ac_simple 1 50) shared (SCEvmContractDeploymentCreate2_run_test fuel).

(** ** sc_evm_test_block_bloom_filter.py *)

Definition TOPIC_LENGTH : nat := 64.
Definition EMPTY_BLOOM_FILTER : string := "0x" +:+ zeros 512.

(** [bytes.fromhex("0" * (TOPIC_LENGTH - len(text)) + text)] *)
Definition topic_bytes (text : string) : outcome string :=
  bytes_fromhex (zeros (TOPIC_LENGTH - String.length text) +:+ text).

Definition logs_bloom (node : proxy) : MF pyval :=
  let! block := call node "rpc_eth_getBlockByNumber" [latest; PStr "false"] in
  lift (getpath block ["result"; "logsBloom"]).

(** What the filter of the latest block must have, in order. *)
Definition check_bloom (node : proxy) (expected : list (outcome string * string)) : MF unit :=
  let! bloom := logs_bloom node in
  let% bloom_filter := py_int_base bloom 16 in
  forM_ expected (λ e,
    let% bytes := e.1 in
    lift (assert_true (in_bloom bloom_filter bytes) ("bloom filter should contain " +:+ e.2))).

Definition address_bytes (address : pyval) : outcome string := let? a := bare address in bytes_fromhex a.
Definition TRANSFER_EVENT : outcome string := Val (keccak "Transfer(address,address,uint256)").

(** A transfer of tokens. *)
Definition bloom_erc20 (node : proxy) (address : pyval) : MF pyval :=
  let! c := SmartContract_init "TestERC20" in
  let! erc20_address := deploy_smart_contract node c address [] RPC_LEGACY true in
  let d := mkDeployed c erc20_address in
  let! found := view_0 node d address "totalSupply()" [] in
  do% assert_equal found (PInt 100) "" in
  let! found := view_0 node d address "balanceOf(address)" [address] in
  do% assert_equal found (PInt 100) "" in
  let! other := new_evm_address node in
  do! send node d address "transfer(address,uint256)" [other; PInt 1] in
  do! generate_next_block node "first node" false PNone in
  do! check_bloom node [(address_bytes erc20_address, "the address of emitting contract");
                        (TRANSFER_EVENT, "the signature of transfer event");
                        ((let? o := as_str "" other in topic_bytes o), "the address of receiver");
                        ((let? a := bare address in topic_bytes a), "the address of sender")] in
  ret other.

(** A new token. *)
Definition bloom_erc721 (node : proxy) (address : pyval) : MF unit :=
  let! c := SmartContract_init "TestERC721" in
  let! erc721_address := deploy_smart_contract node c address [PStr "Test"; PStr "Test"; PStr "Test"] RPC_LEGACY true in
  do! call_on node c erc721_address address "mint(uint256)" [PInt 1] (PInt 1) in
  do! generate_next_block node "first node" false PNone in
  check_bloom node [(address_bytes erc721_address, "the address of nft contract");
                    (TRANSFER_EVENT, "the signature of transfer event");
                    ((let? a := bare address in topic_bytes a), "the address of nft receiver");
                    (topic_bytes (str_of_Z 1), "the nft token id")].

Definition SCEvmBlockBloomFilter_run_test (fuel : nat) : MF unit :=
  let! node := sc 0 in
  let! s := sc_ac_setup fuel true true default_ft in
  let address := ac_evm_address s in
  let! other := bloom_erc20 node address in
  do! eoa_transfer node address other (PInt 1) RPC_EIP155 false latest in
  do! generate_next_block node "first node" false PNone in
  let! bloom := logs_bloom node in
  do% assert_equal bloom (PStr EMPTY_BLOOM_FILTER) "bloom filter isn't empty" in
  bloom_erc721 node address.

Definition SCEvmBlockBloomFilter (fuel : nat) (o : Options) (shared : SCForgerConfiguration) : TestClass W :=
  AccountChainSetup_class fuel o (ac_simple 1 20) shared (SCEvmBlockBloomFilter_run_test fuel).
End Tokens.

(** The amount is not disturbed by the inexact float: 12.34 coins in Wei. *)
Example create2_amount_ex :
  create2_zen = Dec 12339999999999999857891452847979962825775146484375 (-48) ∧ create2_amount = Val (1234 * 10 ^ 16).
Proof. vm_compute. done. Qed.
