(* ===== verification/EvmStateScenarios.v ===== *)
(** * Scenarios: blocks and states as contracts and requests see them

    sc_evm_test_prevrandao.py, sc_evm_context_blockhash.py, sc_evm_ft_to_smart_contract.py,
    sc_evm_eip_1898.py and sc_evm_shanghai.py: the random value and the hashes a contract
    reads, transfers of the mainchain to contracts, requests about an earlier block, and
    transactions that a fork makes invalid. *)

From S2P Require Import Prelude PyStr Numbers PyVal Host Sim Json Encoding HttpProxy BootInfo McUtil ScUtil.
From S2P Require Import Forging Bootstrap Framework AccountSetup McFramework HttpCalls AccountCalls AccountUtil SmartContract.
From Stdlib Require Import Ascii String.
From stdpp Require Import base list.
From S2P Require Import Scenarios ForgingScenarios StakeScenarios ChainScenarios MempoolScenarios CertScenarios EvmScenarios CswScenarios.
From S2P Require Import EvmRotationScenarios ForgerScenarios EvmForgerScenarios NativeForgerScenarios OwnershipScenarios SeederScenarios.
From S2P Require Import EvmMempoolScenarios InteropScenarios TokenScenarios.
Local Open Scope Z_scope.

(** [hex(n)] *)
Definition hex_text (n : pyval) : outcome pyval :=
  match as_int n with Some z => Val (PStr (hex z)) | None => Exc TypeError end.

(** [bytes.hex(b)] *)
Definition bytes_hex (b : pyval) : outcome string :=
  match b with PBytes s => Val (hexlify s) | _ => Exc TypeError end.

Section EvmState.
Context {W : Type} `{Nodes W, Clock W, Os W, Rng W} `{EthUtils, EthAbi, EthHash, EthHex, EthSelectors, EthBloom}.
Local Abbreviation MF := (M (FW W)).

(** ** sc_evm_test_prevrandao.py *)

(** A value the contract returns, in the state of a block. *)
Definition check_random (d : Deployed) (method : string) (sender : pyval) (expected_value : Z) (tag message : string) : MF unit :=
  let! node := sc 0 in
  let! res := static_call (d_contract d) node method [] sender (d_address d) PNone PNone (PInt 900000000) (PInt 0) (PStr tag)
    false false in
  let% found := getindex res 0 in
  lift (assert_equal (PInt expected_value) found message).

Definition get_random_by_prevrandao (d : Deployed) (sender : pyval) (expected_value : Z) (tag : string) : MF unit :=
  check_random d "getRandomByCallingPrevrandao()" sender expected_value tag "Different random value retrieved by using PREVRANDAO".
Definition get_random_by_difficulty (d : Deployed) (sender : pyval) (expected_value : Z) (tag : string) : MF unit :=
  check_random d "getRandomByCallingDifficulty()" sender expected_value tag "Different random value retrieved by using DIFFICULTY".
Definition get_persistent_random (d : Deployed) (sender : pyval) (expected_value : Z) (tag : string) : MF unit :=
  check_random d "persistentRandom()" sender expected_value tag "Different persistent random value retrieved".

Definition persist_random (d : Deployed) (sender : pyval) : MF pyval :=
  let! node := sc 0 in
  call_function (d_contract d) node "persistRandom()" [] RPC_LEGACY sender (d_address d) (default_tx_options (PInt 10000000)).

(** The value of a block, as text without prefix. *)
Definition vrf_output (block : pyval) : outcome pyval := getpath block ["block"; "header"; "vrfOutput"; "bytes"].

(** Both ways to read the value. *)
Definition both_randoms (d : Deployed) (sender : pyval) (expected_value : Z) (tag : string) : MF unit :=
  do! get_random_by_prevrandao d sender expected_value tag in
  get_random_by_difficulty d sender expected_value tag.

Definition random_deployed (node : proxy) (address : pyval) : MF Deployed :=
  let! c := SmartContract_init "PrevrandaoTestContract" in
  let! estimated_gas := SmartContract_estimate_gas c node "constructor" [] address PNone PNone PNone (PInt 0) PNone latest in
  let! '(tx_hash, a) := deploy c node [] RPC_LEGACY address (default_tx_options estimated_gas) in
  let! r := generate_block_and_get_tx_receipt node tx_hash false in
  let% tx_receipt := getitem r "result" in
  let% status := getitem tx_receipt "status" in
  do% assert_equal (PStr "0x1") status "Transaction unexpectedly failed" in
  let% found := getitem tx_receipt "contractAddress" in
  let% found := format_evm found in
  do% assert_equal found a "" in
  ret (mkDeployed c a).

(** The value of a block that is found by its id. *)
Definition random_of (node : proxy) (block_id : pyval) : MF (pyval * Z) :=
  let! block := http_block_findById node block_id in
  let% v := vrf_output block in
  let% text := add_0x_prefix v in
  let% n := py_int_base text 16 in
  ret (v, n).

(** The value a transaction stored is that of its block, which the block shows too. *)
Definition random_stored (node : proxy) (d : Deployed) (address : pyval) : MF unit :=
  let! res := persist_random d address in
  let! last_block_id := generate_next_block node "first node" false PNone in
  let! tx_receipt := call node "rpc_eth_getTransactionReceipt" [res] in
  let% s := getpath tx_receipt ["result"; "status"] in
  let% status := py_int_base s 16 in
  do% assert_equal (PInt 1) (PInt status) "Wrong tx status in receipt" in
  let! '(v, expected_random) := random_of node last_block_id in
  do! get_persistent_random d address expected_random "latest" in
  let% id := add_0x_prefix last_block_id in
  let! r := call node "rpc_eth_getBlockByHash" [id; PBool false] in
  let% last_block_eth := getitem r "result" in
  match last_block_eth with
  | PNone => raise (GenericException ("Unexpected error: block not found " +:+ py_str last_block_id))
  | _ =>
      let% expected := add_0x_prefix v in
      let% found := getitem last_block_eth "mixHash" in
      lift (assert_equal expected found "EthBlockView mixHash is different to AccountBlockHeader vrfOutput")
  end.

Definition SCEvmPrevrandao_run_test (fuel : nat) : MF unit :=
  let! node := sc 0 in
  let! s := sc_ac_setup fuel true true (PDec (Dec 3000 0)) in
  let address := ac_evm_address s in
  let! d := random_deployed node address in
  let! safe_block_id := generate_next_block node "first node" false PNone in
  do! generate_next_blocks node "first node" 50 in
  let! mc_node := mc 0 in
  do! call mc_node "generate" [PInt 1] in
  do! generate_next_blocks node "first node" 50 in
  let! best_block := best node in
  do% getitem best_block "height" in
  let% v := vrf_output best_block in
  let% text := py_add (PStr "0x") v in
  let% expected_random := py_int_base text 16 in
  do! both_randoms d address expected_random "latest" in
  do! both_randoms d address expected_random "pending" in
  let! '(_, expected_random) := random_of node safe_block_id in
  do! both_randoms d address expected_random "safe" in
  random_stored node d address.

Definition SCEvmPrevrandao (fuel : nat) (o : Options) (shared : SCForgerConfiguration) : TestClass W :=
  AccountChainSetup_class fuel o (ac_simple 1 20) shared (SCEvmPrevrandao_run_test fuel).

(** ** sc_evm_context_blockhash.py *)

Definition read_and_verify_blockhash (d : Deployed) (address : pyval) (offset : Z) (expected_block_hash tag : pyval) : MF unit :=
  let! node := sc 0 in
  let! read_value := contract_function_static_call node (d_contract d) (d_address d) address "get(uint256)" [PInt offset] (PInt 0)
    tag false false in
  let% h := getindex read_value 0 in
  let% actual_block_hash := bytes_hex h in
  lift (assert_equal expected_block_hash (PStr actual_block_hash) "unexpected value").

Definition zero_hash : string := zeros 64.

(** What is asked for in the state of the block [reference] before the last one, and what the
    answer must be: the hash of that block and of later ones is zero. *)
Definition asked_hash (reference : Z) (b : Z * pyval) : Z * pyval :=
  let offset := b.1 - reference in
  if offset <=? 0 then (0, PStr zero_hash) else (offset, b.2).

Definition check_hashes_at (d : Deployed) (address : pyval) (block_hashes : list (Z * pyval)) (reference : Z) (tag : pyval)
    : MF unit :=
  forM_ block_hashes (λ b, let '(offset, hash) := asked_hash reference b in
    read_and_verify_blockhash d address offset hash tag).

Definition SCEvmContextBlockHash_run_test (fuel : nat) : MF unit :=
  let! s := sc_ac_setup fuel true true default_ft in
  let address := ac_evm_address s in
  let! '(c, a) := deploy_named address "BlockHash" [] in
  let d := mkDeployed c a in
  let! block_hashes := mmap (λ offset,
    let! node := sc 0 in
    let! hash := generate_next_block node "first node" false PNone in
    ret (offset, hash)) [4; 3; 2; 1; 0] in
  let! node := sc 0 in
  let! height := best_height_of node in
  do! forM_ block_hashes (λ b, read_and_verify_blockhash d address (b.1 + 1) b.2 (PStr "pending")) in
  do! check_hashes_at d address block_hashes 0 latest in
  forM_ block_hashes (λ b, let '(offset, hash) := asked_hash 2 b in
    let% n := py_sub height (PInt 2) in
    let% tag := hex_text n in
    read_and_verify_blockhash d address offset hash tag).

Definition SCEvmContextBlockHash (fuel : nat) (o : Options) (shared : SCForgerConfiguration) : TestClass W :=
  AccountChainSetup_class fuel o (ac_simple 1 100) shared (SCEvmContextBlockHash_run_test fuel).

(** ** sc_evm_ft_to_smart_contract.py *)

Definition send_zen_to_address (fuel : nat) (address : pyval) (amount : Z) : MF unit :=
  let! mc_node := mc 0 in
  let% to := format_eoa_val address in
  do! transfer_to mc_node (PStr to) (PInt amount) true in
  do! sc_sync_all fuel false in
  let! node := sc 0 in
  do! generate_next_blocks node "first node" 1 in
  sc_sync_all fuel false.

(** The balances of an address and of the address of burned coins. *)
Definition two_balances (address : pyval) : MF (Z * Z) :=
  let! node := sc 0 in
  let! balance := rpc_get_balance node address in
  let! node := sc 0 in
  let! burn_balance := rpc_get_balance node (PStr NULL_ADDRESS) in
  ret (balance, burn_balance).

(** A transfer of the mainchain is credited, or it is burned. *)
Definition check_ft_to_smart_contract (fuel : nat) (address : pyval) (success : bool) : MF unit :=
  let! '(start_balance, start_burn_balance) := two_balances address in
  let% ft_amount_wei := convertZenToWei (PInt 1) in
  do! send_zen_to_address fuel address 1 in
  let! '(updated_bal, updated_burn_bal) := two_balances address in
  if success then
    do% assert_equal (PInt updated_bal) (PInt (start_balance + ft_amount_wei)) "" in
    lift (assert_equal (PInt updated_burn_bal) (PInt start_burn_balance) "")
  else
    do% assert_equal (PInt updated_bal) (PInt start_balance) "" in
    lift (assert_equal (PInt updated_burn_bal) (PInt (start_burn_balance + ft_amount_wei)) "").

Definition random_address : pyval := PStr "0000000000000000000012341234123412341234".

(** [self.sc_ac_setup(forwardTransfer=10)]: the amount is the default one *)
Definition SCEvmFtToNativeContract_run_test (fuel : nat) (o : Options) : MF unit :=
  do! not_with_all_forks o in
  let! node := sc 0 in
  let! s := sc_ac_setup fuel true true default_ft in
  let native := PStr FORGER_STAKE_SMART_CONTRACT_ADDRESS in
  do! check_ft_to_smart_contract fuel native false in
  let% evm_hex_address := to_checksum_address (ac_evm_address s) in
  let! c := SmartContract_init "BlockHash" in
  let! deployed := deploy_smart_contract node c evm_hex_address [] RPC_LEGACY true in
  do! check_ft_to_smart_contract fuel deployed false in
  do! check_ft_to_smart_contract fuel random_address true in
  let! node := sc 0 in
  do! advance_to_epoch fuel node VERSION_1_2_FORK_EPOCH in
  do! check_ft_to_smart_contract fuel native true in
  do! check_ft_to_smart_contract fuel deployed true in
  check_ft_to_smart_contract fuel random_address true.

Definition SCEvmFtToNativeContract (fuel : nat) (o : Options) (shared : SCForgerConfiguration) : TestClass W :=
  AccountChainSetup_class fuel o
    (ac_defaults 1 LARGE_WITHDRAWAL_EPOCH_LENGTH (PInt (SLOTS_IN_EPOCH * EVM_APP_SLOT_TIME * 100)) None 100 true DEFAULT_TX_LIFETIME)
    shared (SCEvmFtToNativeContract_run_test fuel o).

(** ** sc_evm_eip_1898.py *)

Definition assert_response (response expected : pyval) (expect_error : bool) : outcome unit :=
  let? e := has_key "error" response in
  if expect_error then assert_true e ""
  else
    let? _ := assert_false e "" in
    let? r := getitem response "result" in
    assert_equal expected r "unexpected response".

(** A method without a block and with the ways to name it: the answers are the same.  The
    last answer. *)
Definition same_answers (ask : list pyval → MF pyval) (blocks : list pyval) : MF pyval :=
  let! check := ask [] in
  let! answers := mmap (λ b,
    let! r := ask [b] in
    do% assert_equal check r "" in
    ret r) blocks in
  lift (list_index answers (-1)).

(** [sc_node.rpc_...(...)['result']], and the same as a number *)
Definition ask_result (node : proxy) (method : string) (args more : list pyval) : MF pyval :=
  let! r := call node method (args ++ more) in lift (getitem r "result").
Definition ask_number (node : proxy) (method : string) (args more : list pyval) : MF pyval :=
  let! r := ask_result node method args more in
  let% n := py_int_base r 16 in
  ret (PInt n).

(** Each of the blocks is refused. *)
Definition blocks_refused (node : proxy) (method : string) (args blocks : list pyval) : MF unit :=
  forM_ blocks (λ b,
    let! response := call node method (args ++ [b]) in
    lift (assert_response response PNone true)).

Definition eip1898_invalidInput_blockNumber : pyval := PDict [("blockNumber", PStr "0xffff")].
Definition eip1898_invalidInput_blockHash : pyval := PDict [("blockHash", PStr ("0x" +:+ repeat_text 64 "f"))].

(** The supply in the states of the same block: by name, number, and both fields.  Its
    number and its hash. *)
Definition supply_at_block (node : proxy) (d : Deployed) (address : pyval) : MF (pyval * pyval) :=
  let supply tag eip1898 isBlockHash :=
    (let! res := contract_function_static_call node (d_contract d) (d_address d) address "totalSupply()" [] (PInt 0) tag eip1898
       isBlockHash in
     let% found := getindex res 0 in
     lift (assert_equal (PInt 100) found "")) in
  do! supply latest false false in
  let! block_number := best_height_of node in
  let% h := hex_text block_number in
  let% hex_block_number := add_0x_prefix h in
  do! supply hex_block_number false false in
  do! supply hex_block_number true false in
  let! r := call node "rpc_eth_getBlockByNumber" [hex_block_number; PBool false] in
  let% block_hash := getpath r ["result"; "hash"] in
  do! supply block_hash true true in
  ret (hex_block_number, block_hash).

(** The requests of the storage that must be refused have no index: the block is in its
    place. *)
Definition SCEvmEIP1898_run_test (fuel : nat) : MF unit :=
  let! node := sc 0 in
  let! s := sc_ac_setup fuel true true default_ft in
  let address := ac_evm_address s in
  let! c := SmartContract_init "TestERC20" in
  let! contract := deploy_smart_contract node c address [] RPC_LEGACY true in
  let! '(hex_block_number, block_hash) := supply_at_block node (mkDeployed c contract) address in
  let named := [latest; hex_block_number; PDict [("blockNumber", hex_block_number)]; PDict [("blockHash", block_hash)]] in
  let both := PDict [("blockNumber", hex_block_number); ("blockHash", block_hash)] in
  let refused := [eip1898_invalidInput_blockNumber; eip1898_invalidInput_blockHash; both] in
  do! same_answers (ask_number node "rpc_eth_getBalance" [address]) named in
  do! blocks_refused node "rpc_eth_getBalance" [address] refused in
  let! storage := same_answers (ask_result node "rpc_eth_getStorageAt" [contract; PInt 1]) named in
  do! blocks_refused node "rpc_eth_getStorageAt" [address] refused in
  do! same_answers (ask_number node "rpc_eth_getTransactionCount" [address]) named in
  do! blocks_refused node "rpc_eth_getTransactionCount" [address] refused in
  do! same_answers (ask_result node "rpc_eth_getCode" [contract]) named in
  do! blocks_refused node "rpc_eth_getCode" [address] refused in
  do! same_answers (ask_result node "rpc_eth_getProof" [contract; PList [storage]]) named in
  blocks_refused node "rpc_eth_getProof" [address; PList [storage]] [eip1898_invalidInput_blockHash; both].

Definition SCEvmEIP1898 (fuel : nat) (o : Options) (shared : SCForgerConfiguration) : TestClass W :=
  AccountChainSetup_class fuel o (ac_simple 1 20) shared (SCEvmEIP1898_run_test fuel).

(** ** sc_evm_shanghai.py *)

(** A contract with the given code and gas; the nonce before is missing. *)
Definition early_contract (node : proxy) (from : pyval) (gas : Z) (data : string) : MF pyval :=
  AccountCalls.createEIP1559Transaction node
    (mkTxArgs from PNone (PInt 1) (PInt gas) (PInt 1) (PStr data) PNone PNone PNone) (PInt 900000000) (PInt 900000000) PNone.

(** Both transactions are in the pool, and nothing else. *)
Definition both_pooled (node : proxy) (tx_id_gas tx_id_initcode : pyval) (message : string) : MF unit :=
  let! ids := check_pool_size node 2 message in
  do! in_pool ids tx_id_gas "" in
  in_pool ids tx_id_initcode "".

(** [assert_equal(..., status_res[...])] *)
Definition pool_status (node : proxy) (pending queued : Z) : MF unit :=
  let! status_res := txpool node "status" [] in
  let% p := getitem status_res "pending" in
  do% assert_equal (PInt pending) p "" in
  let% q := getitem status_res "queued" in
  lift (assert_equal (PInt queued) q "").

(** The block has two transactions; the ids are looked for among the transactions
    themselves. *)
Definition check_shanghai_block (sc_best_block tx_id_gas tx_id_initcode : pyval) : MF unit :=
  let% block_tx_list := getpath sc_best_block ["block"; "sidechainTransactions"] in
  do! check_length 2 block_tx_list "Wrong number of transaction in the block" in
  do! out_of_pool block_tx_list tx_id_gas "" in
  out_of_pool block_tx_list tx_id_initcode "".

Definition SCEvmShanghai_run_test (fuel : nat) (o : Options) : MF unit :=
  do! not_with_all_forks o in
  let! node := sc 0 in
  let! address1 := new_evm_address node in
  let! address2 := new_evm_address node in
  do! coins_for address1 ft_3000 in
  do! coins_for address2 (PFloat (float_of_Z 1)) in
  do! sync_all fuel in
  do! forge_synced fuel node "first node" false in
  let! tx_id_gas := early_contract node address1 53049 "012344" in
  let! tx_id_initcode := early_contract node address2 20533001 (repeat_text (Z.to_nat (MAX_INITCODE_SIZE + 1)) "FF") in
  do! reach_fork fuel node VERSION_1_3_FORK_EPOCH in
  do! both_pooled node tx_id_gas tx_id_initcode "Wrong number of transaction in the mempool" in
  do! pool_status node 0 2 in
  do! send_plain node address1 address2 0 in
  do! send_plain node address2 address1 0 in
  do! pool_status node 4 0 in
  do! generate_next_block node "first node" false PNone in
  let! sc_best_block := best node in
  do! check_shanghai_block sc_best_block tx_id_gas tx_id_initcode in
  do! both_pooled node tx_id_gas tx_id_initcode
    "Transaction that creates a smart contract with empty data added to mempool" in
  pool_status node 2 0.

Definition SCEvmShanghai (fuel : nat) (o : Options) (shared : SCForgerConfiguration) : TestClass W :=
  AccountChainSetup_class fuel o
    (pool_setup 1 (PInt (1500 * EVM_APP_SLOT_TIME * VERSION_1_3_FORK_EPOCH)) DEFAULT_MAX_NONCE_GAP 20 19) shared
    (SCEvmShanghai_run_test fuel o).
End EvmState.
