(* ===== verification/KeyScenarios.v ===== *)
(** * Scenarios: keys in files, raw transactions and transfers

    sc_import_export_keys.py, sc_evm_import_export_keys.py, sc_evm_raw_tx_http_api.py and
    sc_evm_eoa2eoa.py: secrets that are exported, imported and dumped into a file;
    transactions that are made, signed, decoded and sent step by step; transfers between
    accounts with the balances after each.

    [rlp.decode] and the text of an exception are parameters. *)

From S2P Require Import Prelude PyStr Numbers PyVal Host Sim Json Encoding HttpProxy BootInfo McUtil ScUtil.
From S2P Require Import Forging Bootstrap Framework AccountSetup McFramework HttpCalls AccountCalls AccountUtil SmartContract.
From Stdlib Require Import Ascii String.
From stdpp Require Import base list.
From S2P Require Import Scenarios ForgingScenarios StakeScenarios ChainScenarios MempoolScenarios CertScenarios EvmScenarios CswScenarios.
From S2P Require Import EvmRotationScenarios ForgerScenarios EvmForgerScenarios NativeForgerScenarios OwnershipScenarios SeederScenarios.
From S2P Require Import EvmMempoolScenarios InteropScenarios TokenScenarios.
Local Open Scope Z_scope.

(** [rlp.decode(bytes)] *)
Class EthRlp := rlp_decode : string → outcome pyval.

(** ** Files of keys *)

Definition cr : ascii := ascii_of_nat 13.
Definition lf : ascii := ascii_of_nat 10.

(** A file opened as text: every line end is read as a line feed. *)
Fixpoint universal_newlines (s : string) : string :=
  match s with
  | EmptyString => EmptyString
  | String c s' =>
      if Ascii.eqb c cr then
        match s' with
        | String d s'' => if Ascii.eqb d lf then String lf (universal_newlines s'') else String lf (universal_newlines s')
        | EmptyString => String lf EmptyString
        end
      else String c (universal_newlines s')
  end.

(** [for line in f]: the lines with their ends; the last one may have none. *)
Fixpoint file_lines (s : string) : list string :=
  match s with
  | EmptyString => []
  | String c s' =>
      if Ascii.eqb c lf then String c EmptyString :: file_lines s'
      else match file_lines s' with
           | [] => [String c EmptyString]
           | l :: ls => String c l :: ls
           end
  end.

(** [s[:-1]] *)
Definition all_but_end (s : string) : string := str_take (String.length s - 1) s.

(** A secret and its public key; a line without a space is an error. *)
Definition key_line (line : string) : outcome (string * string) :=
  match split_char " " line with
  | a :: b :: _ => Val (a, all_but_end b)
  | _ => Exc IndexError
  end.

Fixpoint keys_of (lines : list string) : outcome (list (string * string)) :=
  match lines with
  | [] => Val []
  | line :: lines' =>
      if str_contains "#" line then keys_of lines'
      else
        let? key := key_line line in
        let? keys := keys_of lines' in
        Val (key :: keys)
  end.

Definition parse_keys (text : string) : outcome (list (string * string)) := keys_of (file_lines (universal_newlines text)).

(** ** Propositions *)

(** [any(p['publicKey'] == address for p in propositions)], up to the first one *)
Fixpoint find_public_key (propositions : list pyval) (address : pyval) : outcome bool :=
  match propositions with
  | [] => Val false
  | p :: propositions' =>
      let? k := getitem p "publicKey" in
      if py_eqb k address then Val true else find_public_key propositions' address
  end.

(** The same for the propositions with an address. *)
Fixpoint find_evm_address (propositions : list pyval) (address : pyval) : outcome bool :=
  match propositions with
  | [] => Val false
  | p :: propositions' =>
      let? there := has_key "address" p in
      if there then
        let? a := getitem p "address" in
        if py_eqb a address then Val true else find_evm_address propositions' address
      else find_evm_address propositions' address
  end.

(** [('publicKey' in sub and sub['publicKey']) or ('address' in sub and sub['address'])] *)
Definition key_or_address (sub : pyval) : outcome pyval :=
  let? there := has_key "publicKey" sub in
  let? first := if there then getitem sub "publicKey" else Val (PBool false) in
  if truthy first then Val first
  else
    let? there := has_key "address" sub in
    if there then getitem sub "address" else Val (PBool false).

(** The keys that are in the second wallet too; all of them are in the first. *)
Fixpoint common_keys (keys : list (string * string)) (propositions1 propositions2 : list pyval) (n : Z) : outcome Z :=
  match keys with
  | [] => Val n
  | key :: keys' =>
      let? _ := assert_true (list_mem (PStr key.2) propositions1) "" in
      common_keys keys' propositions1 propositions2 (if list_mem (PStr key.2) propositions2 then n + 1 else n)
  end.

Section Keys.
Context {W : Type} `{Nodes W, Clock W, Os W, Rng W} `{EthUtils, EthAbi, EthHash, EthHex, EthRlp}.
Context (str_exn : exn → string).
Local Abbreviation MF := (M (FW W)).

(** ** sc_import_export_keys.py and sc_evm_import_export_keys.py *)

Definition API_KEY_NODE1 : string := "aaaa".
Definition API_KEY_NODE2 : string := "Horizen2".

(** What the two scripts have of their own. *)
Record KeyTest := mkKeyTest {
  new_key : proxy → string → MF pyval;
  find_key : list pyval → pyval → outcome bool;
  proposition_of : pyval → outcome pyval;
  missing_keys : Z;
  key_message : string
}.

Definition key_configuration (shared : SCForgerConfiguration) (automatic_fee remote : bool) (api_key : string)
    (connection : MCConnectionInfo) : SCNodeConfiguration :=
  SCNodeConfiguration_init connection true true None 100 100 "2m" automatic_fee (PFloat (float_of_dec (Dec 1 (-4)))) shared
    300 0 api_key 10000000 [] remote PNone [] None [] "15m" "5m" false 0 true DEFAULT_MAX_NONCE_GAP
    DEFAULT_MAX_ACCOUNT_SLOTS DEFAULT_MAX_MEMPOOL_SLOTS DEFAULT_MAX_NONEXEC_POOL_SLOTS DEFAULT_TX_LIFETIME true true.

(** Two nodes with different API keys. *)
Definition key_configurations (shared : SCForgerConfiguration) (automatic_fee : bool) (mc_node : proxy)
    : MF (list SCNodeConfiguration) :=
  mmap (λ k,
    let! connection := ws_connection mc_node 0 in
    ret (key_configuration shared automatic_fee false k connection)) [API_KEY_NODE1; API_KEY_NODE2].

Definition all_keys (node : proxy) (api_key : string) : MF (list pyval) :=
  let! l := http_wallet_allPublicKeys node (PStr api_key) in lift (py_iter l).

(** The first account gets the amount of the genesis account. *)
Definition key_coins (fuel : nat) (t : KeyTest) (mc_node sc1 : proxy) : MF pyval :=
  let! r := call sc1 "submitter_isCertificateSubmitterEnabled" [] in
  let% enabled := getpath r ["result"; "enabled"] in
  do% assert_true (truthy enabled) "Node 1 submitter expected to be enabled." in
  let! address1 := new_key t sc1 API_KEY_NODE1 in
  do! generate_next_blocks sc1 "first node" 1 in
  let! info := boot_info in
  do! transfer_to mc_node address1 (genesis_account_balance info) true in
  do! sc_sync_all fuel false in
  do! generate_next_blocks sc1 "first node" 1 in
  do! sc_sync_all fuel false in
  ret address1.

(** A key of the second node is imported into the first; a wrong API key is refused. *)
Definition key_exchanged (t : KeyTest) (sc1 sc2 : proxy) : MF pyval :=
  let fake := PStr "fake_api_key" in
  let! address2 := new_key t sc2 API_KEY_NODE2 in
  let! pkeys_node1 := all_keys sc1 API_KEY_NODE1 in
  let! pkeys_node2 := all_keys sc2 API_KEY_NODE2 in
  let% there := find_key t pkeys_node1 address2 in
  do% assert_false there "" in
  let% there := find_key t pkeys_node2 address2 in
  do% assert_true there "" in
  do! no_endpoint (http_wallet_exportSecret sc2 address2 fake) (key_message t) in
  let! secret := http_wallet_exportSecret sc2 address2 (PStr API_KEY_NODE2) in
  do! no_endpoint (http_wallet_importSecret sc1 secret fake) (key_message t) in
  do! http_wallet_importSecret sc1 secret (PStr API_KEY_NODE1) in
  let! pkeys_node1 := all_keys sc1 API_KEY_NODE1 in
  let% there := find_key t pkeys_node1 address2 in
  do% assert_true there "" in
  ret address2.

(** The file with one more line. *)
Definition corrupted_copy (path path' : string) : MF unit :=
  let! text := read_file path in
  do! write_file path' text in
  let! text := read_file path' in
  write_file path' (text +:+ "Corrupted_line C_" +:+ newline).

(** The secrets of the first node are dumped; those the second one does not have are
    imported. *)
Definition keys_dumped (o : Options) (t : KeyTest) (sc1 sc2 : proxy) : MF unit :=
  let fake := PStr "fake_api_key" in
  let path := op_tmpdir o +:+ "/dumpSecrets" in
  let path' := op_tmpdir o +:+ "/dumpSecretsCorrupted" in
  let! address3 := new_key t sc1 API_KEY_NODE1 in
  let! address4 := new_key t sc1 API_KEY_NODE1 in
  do! no_endpoint (http_wallet_dumpSecrets sc1 (PStr path) fake) (key_message t) in
  do! http_wallet_dumpSecrets sc1 (PStr path) (PStr API_KEY_NODE1) in
  let! text := read_file path in
  let% key_list := parse_keys text in
  let! pkeys_node1 := all_keys sc1 API_KEY_NODE1 in
  let! pkeys_node2 := all_keys sc2 API_KEY_NODE2 in
  let n := Z.of_nat (length key_list) in
  do% assert_equal (PInt (Z.of_nat (length pkeys_node1))) (PInt n) "" in
  do% assert_equal (PInt (Z.of_nat (length pkeys_node2))) (PInt (n - missing_keys t)) "" in
  let% propositions1 := omapM (proposition_of t) pkeys_node1 in
  let% propositions2 := omapM (proposition_of t) pkeys_node2 in
  let% common_addresses := common_keys key_list propositions1 propositions2 0 in
  do% assert_equal (PInt common_addresses) (PInt (n - missing_keys t)) "" in
  do! no_endpoint (http_wallet_importSecrets sc2 (PStr path) fake) (key_message t) in
  do! corrupted_copy path path' in
  do! no_endpoint (http_wallet_importSecrets sc2 (PStr path') (PStr API_KEY_NODE2)) (key_message t) in
  let! result := http_wallet_importSecrets sc2 (PStr path) (PStr API_KEY_NODE2) in
  let% added := getitem result "successfullyAdded" in
  do% assert_equal added (PInt (missing_keys t)) "" in
  let% failed := getitem result "failedToAdd" in
  do% assert_equal failed (PInt common_addresses) "" in
  let% summary := getitem result "summary" in
  let% k := py_len summary in
  do% assert_equal (PInt k) (PInt common_addresses) "" in
  let% errors := py_iter summary in
  do! forM_ errors (λ error,
    let% d := getitem error "description" in
    let% there := py_in (PStr "requirement failed: Key already exists") d in
    lift (assert_true there "")) in
  let! pkeys_node2 := all_keys sc2 API_KEY_NODE2 in
  do% assert_equal (PInt (Z.of_nat (length pkeys_node2))) (PInt (Z.of_nat (length pkeys_node1))) "" in
  let% propositions2 := omapM (proposition_of t) pkeys_node2 in
  do! forM_ propositions2 (λ p, lift (assert_true (list_mem p propositions1) "")) in
  do% assert_true (list_mem address3 propositions2) "" in
  lift (assert_true (list_mem address4 propositions2) "").

Definition utxo_keys : KeyTest :=
  mkKeyTest (λ node api_key, http_wallet_createPrivateKey25519 node (PStr api_key)) find_public_key
    (λ p, getitem p "publicKey") 4 "SCAPIException expected".

Definition evm_keys : KeyTest :=
  mkKeyTest (λ node api_key,
      let! r := call node "wallet_createPrivateKeySecp256k1" [PDict []; PStr api_key] in
      lift (getpath r ["result"; "proposition"; "address"]))
    find_evm_address key_or_address 5 "SCAPIException expected.".

(** [start_sc_node(i, dirname, ..., auth_api_key=api_key)] *)
Definition start_key_node (o : Options) (i : Z) (args : option (list string)) (binary : option string) (api_key : string)
    : MF proxy :=
  start_sc_node i (op_tmpdir o) args None binary false (Some api_key).

Definition utxo_keys_setup_network (fuel : nat) (o : Options) : MF unit :=
  let! n1 := start_key_node o 0 None None API_KEY_NODE1 in
  do! put_sc_nodes [n1] in
  let! n2 := start_key_node o 1 None None API_KEY_NODE2 in
  do! put_sc_nodes [n1; n2] in
  wait_for_sc_node_initialization fuel [n1; n2].

Definition SidechainImportExportKeysTest_run_test (fuel : nat) (o : Options) : MF unit :=
  do! sync_all fuel in
  let! sc1 := sc 0 in
  let! sc2 := sc 1 in
  do! connect_sc_nodes fuel sc1 1 (secs 25) in
  let! mc_node := mc 0 in
  do! key_coins fuel utxo_keys mc_node sc1 in
  let! address2 := key_exchanged utxo_keys sc1 sc2 in
  let! balance_node1 := HttpCalls.http_wallet_balance sc1 (PStr API_KEY_NODE1) in
  let! balance_node2 := HttpCalls.http_wallet_balance sc2 (PStr API_KEY_NODE2) in
  do% assert_equal balance_node2 (PInt 0) "" in
  do! sendCoinsToAddress sc1 address2 (PInt 1000) (PInt 0) (PStr API_KEY_NODE1) in
  do! sc_sync_all fuel false in
  do! generate_next_blocks sc1 "first node" 1 in
  do! sc_sync_all fuel false in
  let! balance_node1_updated := HttpCalls.http_wallet_balance sc1 (PStr API_KEY_NODE1) in
  let! balance_node2_updated := HttpCalls.http_wallet_balance sc2 (PStr API_KEY_NODE2) in
  do% assert_equal balance_node1_updated balance_node1 "" in
  do% assert_equal balance_node2_updated (PInt 1000) "" in
  keys_dumped o utxo_keys sc1 sc2.

Definition SidechainImportExportKeysTest (fuel : nat) (o : Options) (shared : SCForgerConfiguration) : TestClass W :=
  mkTestClass W (initialize_chain_clean (op_tmpdir o) 1) (mc_setup_network fuel o 1)
    (let! mc_node := mc 0 in
     let! configurations := key_configurations shared false mc_node in
     let! info := bootstrap o mc_node 600 10 configurations DefaultBlockTimestampRewind in
     put_info info)
    (utxo_keys_setup_network fuel o)
    (SidechainImportExportKeysTest_run_test fuel o).

(** [sc_node.wallet_getTotalBalance(json.dumps({}), api_key)['result']['balance']] *)
Definition total_with_key (node : proxy) (api_key : string) : MF pyval :=
  call node "wallet_getTotalBalance" [PStr "{}"; PStr api_key].
Definition balance_in (reply : pyval) : outcome pyval := getpath reply ["result"; "balance"].

(** [int(receipt['result'][field][2:], 16)] *)
Definition hex_tail (receipt : pyval) (field : string) : outcome Z :=
  let? v := getpath receipt ["result"; field] in
  let? text := (match v with PStr s => Val s | _ => Exc TypeError end) in
  py_int_base (PStr (str_drop 2 text)) 16.

(** The status and the fee of a transaction. *)
Definition status_and_fee (node : proxy) (tx_hash : pyval) : MF (Z * Z) :=
  let% hash := add_0x_prefix tx_hash in
  let! receipt := call node "rpc_eth_getTransactionReceipt" [hash] in
  let% status := hex_field receipt "status" in
  let% used := hex_tail receipt "gasUsed" in
  let% price := hex_tail receipt "effectiveGasPrice" in
  ret (status, used * price).

Definition EvmSidechainImportExportKeysTest_run_test (fuel : nat) (o : Options) : MF unit :=
  do! sync_all fuel in
  let! sc1 := sc 0 in
  let! sc2 := sc 1 in
  let! mc_node := mc 0 in
  let! address1 := key_coins fuel evm_keys mc_node sc1 in
  let! address2 := key_exchanged evm_keys sc1 sc2 in
  let! balance_node1 := total_with_key sc1 API_KEY_NODE1 in
  let! balance_node2 := total_with_key sc2 API_KEY_NODE2 in
  let% b2 := balance_in balance_node2 in
  do% assert_equal b2 (PInt 0) "" in
  let% wei := convertZenToWei (PInt 99) in
  let! tx_hash := createLegacyTransaction sc1
    (mkTxArgs address1 address2 PNone (PInt 21000) (PInt wei) (PStr "") PNone PNone PNone) (PInt 1000000000) (PStr API_KEY_NODE1) false in
  do! sc_sync_all fuel false in
  let! ids := pool_ids sc1 in
  do! check_pooled ids tx_hash in
  do! generate_next_blocks sc1 "first node" 1 in
  do! sc_sync_all fuel false in
  let! '(status, fee) := status_and_fee sc1 tx_hash in
  do% assert_equal (PInt status) (PInt 1) "" in
  let! balance_node1_updated := total_with_key sc1 API_KEY_NODE1 in
  let! balance_node2_updated := total_with_key sc2 API_KEY_NODE2 in
  let% b1' := balance_in balance_node1_updated in
  let% with_fee := py_add b1' (PInt fee) in
  let% b1 := balance_in balance_node1 in
  do% assert_equal with_fee b1 "" in
  let% b2' := balance_in balance_node2_updated in
  do% assert_equal b2' (PInt wei) "" in
  keys_dumped o evm_keys sc1 sc2.

(** The key rotation circuit of the base class is not provided for: the version is 1. *)
Definition evm_keys_setup_chain (o : Options) (shared : SCForgerConfiguration) : MF unit :=
  let! mc_node := mc 0 in
  let! configurations := key_configurations shared true mc_node in
  let% sci := SCCreationInfo_init mc_node (PInt 100) 10 0 SC_CREATION_VERSION_1 7 5 false (nonceasing o) (certcircuittype o) in
  let! info := bootstrap_sidechain_nodes (run_options_of o) (mkSCNetworkConfiguration sci configurations) evm_rewind AccountModel in
  put_info info.

Definition evm_keys_setup_nodes (fuel : nat) (o : Options) : MF (list proxy) :=
  let! dbg := self_get debug_extra_args in
  let extra_args := match dbg with None => [None; None] | Some l => map Some l end in
  let! nodes := mmap (λ ik : Z * string,
    let% args := list_index extra_args ik.1 in
    let! binary := EVM_APP_BINARY in
    start_key_node o ik.1 args (Some binary) ik.2) [(0, API_KEY_NODE1); (1, API_KEY_NODE2)] in
  do! wait_for_sc_node_initialization fuel nodes in
  ret nodes.

Definition EvmSidechainImportExportKeysTest (fuel : nat) (o : Options) (shared : SCForgerConfiguration) : TestClass W :=
  let a := ac_simple 2 10 in
  mkTestClass W (default_setup_chain o) (ac_setup_network fuel o a) (evm_keys_setup_chain o shared)
    (let! l := evm_keys_setup_nodes fuel o in
     do! put_sc_nodes l in
     do! connect_pair fuel 0 1 in
     sync_all fuel)
    (EvmSidechainImportExportKeysTest_run_test fuel o).

(** ** sc_evm_eoa2eoa.py *)

(** [s.upper()] *)
Definition upper_char (c : ascii) : ascii :=
  let n := nat_of_ascii c in
  if ((97 <=? n) && (n <=? 122))%nat then ascii_of_nat (n - 32) else c.
Fixpoint upper (s : string) : string :=
  match s with EmptyString => EmptyString | String c s' => String (upper_char c) (upper s') end.

(** The result of a transfer: success, a message and the transaction. *)
Record Moved := mkMoved { mv_ok : bool; mv_message : string; mv_hash : pyval }.

(** The transaction, or the text of its refusal. *)
Definition create_transfer (node : proxy) (from to nonce : pyval) (wei : Z) (isEIP155 : bool) : MF (string + pyval) :=
  let args := mkTxArgs from to nonce (PInt 21000) (PInt wei) (PStr "") PNone PNone PNone in
  catch (
      let! tx_hash := (if isEIP155 then createLegacyEIP155Transaction node args (PInt 1000000000) PNone
                       else createLegacyTransaction node args (PInt 1000000000) PNone false) in
      ret (inr tx_hash))
    (λ e, match runtime_text e with Some text => ret (inl text) | None => raise e end).

(** The balances after a transaction: a failed one costs its fee; one to the same account
    too. *)
Definition check_moved (from_addr to_addr from0 to0 from1 to1 : pyval) (status wei fee : Z) : outcome bool :=
  if status =? 0 then
    let? _ := assert_equal to0 to1 "" in
    let? expected := py_sub from0 (PInt fee) in
    let? _ := assert_equal expected from1 "" in
    Val false
  else if status =? 1 then
    let? cond := (
      if negb (py_eqb from_addr to_addr) then
        let? t := py_add to0 (PInt wei) in
        let? f := py_sub from0 (PInt wei) in
        let? f := py_sub f (PInt fee) in
        Val (py_eqb t to1, py_eqb f from1)
      else
        let? t := py_sub to0 (PInt fee) in
        let? f := py_sub from0 (PInt fee) in
        Val (py_eqb t to1, py_eqb f from1)) in
    let? _ := assert_true cond.1 "" in
    let? _ := assert_true cond.2 "" in
    Val true
  else Val true.

(** [print_json_results] is false in every call. *)
Definition makeEoa2Eoa (fuel : nat) (from_node to_node : proxy) (from_addr to_addr amount_in_zen nonce : pyval) (isEIP155 : bool)
    : MF Moved :=
  let balance node a := AccountCalls.http_wallet_balance node a PNone in
  let! initial_balance_from := balance from_node from_addr in
  let! initial_balance_to := balance to_node to_addr in
  let% wei := convertZenToWei amount_in_zen in
  let! created := create_transfer from_node from_addr to_addr nonce wei isEIP155 in
  match created with
  | inl text => ret (mkMoved false ("send failed: " +:+ text) PNone)
  | inr tx_hash =>
      do! sc_sync_all fuel false in
      let! ids := pool_ids from_node in
      do! check_pooled ids tx_hash in
      do! forge_synced fuel from_node "first node" false in
      let! final_balance_from := balance from_node from_addr in
      let! final_balance_to := balance to_node to_addr in
      let! '(status, fee) := status_and_fee from_node tx_hash in
      let% ok := check_moved from_addr to_addr initial_balance_from initial_balance_to final_balance_from final_balance_to
        status wei fee in
      ret (mkMoved ok (if ok then "OK" else "receipt status FAILED") tx_hash)
  end.

(** [assert_true(ret, msg)] *)
Definition moved (m : MF Moved) : MF pyval :=
  let! r := m in
  do% assert_true (mv_ok r) (mv_message r) in
  ret (mv_hash r).
(** [if not ret: ... else: fail(message)] *)
Definition not_moved (m : MF Moved) (message : string) : MF unit :=
  let! r := m in if mv_ok r then lift (fail message) else ret tt.

Definition zen (coef exp : Z) : pyval := PDec (Dec coef exp).

(** What is possible. *)
Definition transfers_made (fuel : nat) (sc1 sc2 : proxy) (address1 : string) (address2 : pyval) : MF unit :=
  let from := PStr address1 in
  let move a to amount := moved (makeEoa2Eoa fuel sc1 sc2 a to amount PNone false) in
  do! move from address2 (zen 11 0) in
  do! move (PStr (upper address1)) address2 (zen 11 0) in
  let! address1_b := new_evm_address sc1 in
  do! move from address1_b (zen 22 0) in
  do! moved (makeEoa2Eoa fuel sc1 sc1 from from (zen 33 0) PNone false) in
  do! move from address2 (zen 1 (-8)) in
  do! move from address2 (zen 0 (-1)) in
  do! move from (PStr "63FaC9201494f0bd17B9892B9fae4d52fe3BD377") (zen 1 0) in
  let! txHash := moved (makeEoa2Eoa fuel sc1 sc2 from address2 (zen 15 0) PNone true) in
  let% hash := add_0x_prefix txHash in
  let! r := call sc1 "rpc_eth_getTransactionByHash" [hash] in
  let% txJsonResult := getitem r "result" in
  let% there := has_key "chainId" txJsonResult in
  do% assert_true there "" in
  do! moved (makeEoa2Eoa fuel sc1 sc2 (PStr (upper address1)) address2 (zen 15 0) PNone true) in
  ret tt.

(** A transfer of less than nothing: the failure inside [try] is caught too. *)
Definition negative_transfer (fuel : nat) (sc1 sc2 : proxy) (from address2 : pyval) : MF unit :=
  fail_inside is_Exception (
      do! makeEoa2Eoa fuel sc1 sc2 from address2 (zen (-1) (-1)) PNone false in
      ret PNone)
    "EOA2EOA with invalid format from address should not work".

(** What is not. *)
Definition transfers_refused (fuel : nat) (sc1 sc2 : proxy) (from address2 : pyval) : MF unit :=
  let move a to amount nonce := makeEoa2Eoa fuel sc1 sc2 a to amount nonce false in
  let! all := AccountCalls.http_wallet_balance sc1 from PNone in
  let% amount := convertWeiToZen all in
  do! not_moved (move from address2 amount PNone) "EOA2EOA of the whole balance should not work due to gas consummation" in
  let! not_owned_address := new_evm_address sc2 in
  do! not_moved (move not_owned_address address2 (zen 1 0) PNone) "EOA2EOA with not owned from address should not work" in
  do! negative_transfer fuel sc1 sc2 from address2 in
  do! not_moved (move from address2 (zen 33 0) (PInt 0)) "EOA2EOA with bad nonce should not work" in
  do! not_moved (move from address2 (zen 5678 0) PNone) "EOA2EOA with too big an amount should not work" in
  let native := "EOA2EOA to native smart contract should not work" in
  do! not_moved (move from (PStr FORGER_STAKE_SMART_CONTRACT_ADDRESS) (zen 1 0) PNone) native in
  not_moved (move from (PStr WITHDRAWAL_REQ_SMART_CONTRACT_ADDRESS) (zen 1 0) PNone) native.

Definition SCEvmEOA2EOA_run_test (fuel : nat) : MF unit :=
  let! s := sc_ac_setup fuel true true coins_500 in
  let! sc1 := sc 0 in
  let! sc2 := sc 1 in
  let% a := bare (ac_evm_address s) in
  let! address2 := new_evm_address sc2 in
  do! transfers_made fuel sc1 sc2 a address2 in
  transfers_refused fuel sc1 sc2 (PStr a) address2.

Definition SCEvmEOA2EOA (fuel : nat) (o : Options) (shared : SCForgerConfiguration) : TestClass W :=
  AccountChainSetup_class fuel o (ac_simple 2 LARGE_WITHDRAWAL_EPOCH_LENGTH) shared (SCEvmEOA2EOA_run_test fuel).

(** ** sc_evm_raw_tx_http_api.py *)

Definition b2x (b : string) : string := hexlify b.

(** [try: m; fail(message) except C as err: assert_true(text in str(err))] *)
Definition refused_inside {A} (m : MF A) (text_of : exn → option string) (text message : string) : MF unit :=
  let! raised := catch (do! m in do% fail message in ret None)
    (λ e, match text_of e with Some t => ret (Some t) | None => raise e end) in
  match raised with
  | Some t => lift (assert_true (str_contains text t) "")
  | None => ret tt
  end.

Definition do_test_raw_tx (fuel : nat) (raw_tx : pyval) (sc_node : proxy) (signer : pyval) : MF unit :=
  do! sc_sync_all fuel false in
  let! ids := pool_ids sc_node in
  do! check_length 0 ids "" in
  let! signed_raw_tx := signTransaction sc_node signer raw_tx PNone in
  let! tx_json := decodeTransaction sc_node signed_raw_tx PNone in
  let% signed := getitem tx_json "signed" in
  do% assert_equal signed (PBool true) "" in
  let! tx_hash := AccountCalls.sendTransaction sc_node signed_raw_tx PNone in
  do! sc_sync_all fuel false in
  let! ids := pool_ids sc_node in
  do! check_pooled ids tx_hash in
  do! forge_synced fuel sc_node "first node" false in
  let% hash := add_0x_prefix tx_hash in
  let! receipt := call sc_node "rpc_eth_getTransactionReceipt" [hash] in
  let% status := hex_field receipt "status" in
  lift (assert_equal (PInt status) (PInt 1) "").

(** A raw transaction of one of the types, with an amount and a signature. *)
Definition raw_of (m : CallMethod) (node : proxy) (from to amount : pyval) (v r s : pyval) : MF pyval :=
  let% wei := convertZenToWei amount in
  let args gas := mkTxArgs from to PNone (PInt gas) (PInt wei) (PStr "") v r s in
  match m with
  | RPC_LEGACY => createRawLegacyTransaction node (args 21000) (PInt 1000000000) PNone
  | RPC_EIP155 => createRawLegacyEIP155Transaction node (args 21000) (PInt 1000000000) PNone
  | RPC_EIP1559 => createRawEIP1559Transaction node (args 230000) (PInt 900000000) (PInt 900000000) PNone
  end.
Definition raw_unsigned (m : CallMethod) (node : proxy) (from to amount : pyval) : MF pyval :=
  raw_of m node from to amount PNone PNone PNone.

(** The type of a decoded transaction. *)
Definition check_type (tx_json : pyval) (m : CallMethod) : outcome unit :=
  let '(legacy, eip155, eip1559) :=
    match m with
    | RPC_LEGACY => (true, false, false) | RPC_EIP155 => (true, true, false) | RPC_EIP1559 => (false, false, true)
    end in
  let? _ := omapM (λ fb : string * bool, let? x := getitem tx_json fb.1 in assert_equal x (PBool fb.2) "")
    [("legacy", legacy); ("eip155", eip155); ("eip1559", eip1559); ("signed", false)] in
  Val tt.

Definition amount_1_2 : pyval := zen 12 (-1).
Definition amount_0_1 : pyval := zen 1 (-1).

Definition raw_by_type (fuel : nat) (sc1 sc2 : proxy) (address1 address2 : pyval) (m : CallMethod) : MF unit :=
  let! raw_tx := raw_unsigned m sc1 address1 address2 amount_1_2 in
  let! tx_json := decodeTransaction sc2 raw_tx PNone in
  do% check_type tx_json m in
  do_test_raw_tx fuel raw_tx sc1 address1.

(** A byte too many. *)
Definition spurious_bytes (sc1 sc2 : proxy) (address1 address2 : pyval) : MF unit :=
  let message := "Trailing bytes in raw object should not work" in
  let! raw_tx := raw_unsigned RPC_LEGACY sc1 address1 address2 amount_1_2 in
  let% longer := py_add raw_tx (PStr "ab") in
  do! refused_inside (decodeTransaction sc2 longer PNone) runtime_text "Spurious bytes" message in
  do! refused_inside (signTransaction sc1 address1 longer PNone) runtime_text "Spurious bytes" message in
  let! signed_raw_tx := signTransaction sc1 address1 raw_tx PNone in
  let% longer := py_add signed_raw_tx (PStr "cd") in
  refused_inside (AccountCalls.sendTransaction sc1 longer PNone) runtime_text "Spurious bytes" message.

Definition sig_v : string := "1b".
Definition sig_r : string := "20d7f34682e1c2834fcb0838e08be184ea6eba5189eda34c9a7561a209f7ed04".
Definition sig_s : string := "7c63c158f32d26630a9732d7553cfc5b16cff01f0a72c41842da693821ccdfcb".

(** The address of another node cannot sign; the signature of another transaction is of
    nobody with coins. *)
Definition wrong_signatures (fuel : nat) (sc1 sc2 : proxy) (address1 address2 : pyval) : MF unit :=
  let! wrong_signer_address := new_evm_address sc2 in
  let! raw_tx := raw_unsigned RPC_LEGACY sc1 address1 address2 amount_1_2 in
  do! refused_inside (signTransaction sc1 wrong_signer_address raw_tx PNone) runtime_text "ErrorInsufficientBalance"
    "Wrong from address for signing should not work" in
  do! sc_sync_all fuel false in
  let! raw_tx := raw_of RPC_LEGACY sc1 address1 address2 amount_0_1 (PStr sig_v) (PStr sig_r) (PStr sig_s) in
  let! tx_json := decodeTransaction sc2 raw_tx PNone in
  let% sig_json := getitem tx_json "signature" in
  do! forM_ [("v", sig_v); ("r", sig_r); ("s", sig_s)] (λ fx,
    let% x := getitem sig_json fx.1 in lift (assert_equal x (PStr fx.2) "")) in
  do! refused_inside (AccountCalls.sendTransaction sc1 raw_tx PNone) runtime_text "Insufficient funds"
    "Valid but wrong signature should not work" in
  sc_sync_all fuel false.

(** An unsigned transaction is not sent, and no block takes it. *)
Definition unsigned_refused (fuel : nat) (sc1 sc2 : proxy) (address1 address2 : pyval) : MF unit :=
  let! raw_tx := raw_unsigned RPC_EIP155 sc1 address1 address2 amount_0_1 in
  let! tx_json := decodeTransaction sc2 raw_tx PNone in
  let% signed := getitem tx_json "signed" in
  do% assert_equal signed (PBool false) "" in
  do! refused_inside (AccountCalls.sendTransaction sc1 raw_tx PNone) runtime_text "is not signed"
    "Valid but wrong signature should not work" in
  do! sc_sync_all fuel false in
  let! bhash := generate_next_block sc1 "first node" false (PList [raw_tx]) in
  do! sc_sync_all fuel false in
  let! block_json := http_block_best sc1 in
  let% id := getpath block_json ["header"; "id"] in
  do% assert_equal id bhash "" in
  let% txs := getitem block_json "sidechainTransactions" in
  let% n := py_len txs in
  do% assert_true (n =? 0) "" in
  sc_sync_all fuel false.

(** [l = list(bytearray(b)); l[i] -= 1; bytearray(l)] *)
Definition byte_less (i : nat) (b : string) : outcome string :=
  match String.get i b with
  | None => Exc IndexError
  | Some c =>
      let n := nat_of_ascii c in
      if (n =? 0)%nat then Exc (ValueError "byte must be in range(0, 256)")
      else Val (str_take i b +:+ String (ascii_of_nat (n - 1)) (str_drop (S i) b))
  end.

(** [int('0x' + b2x(v), 16)] *)
Definition number_of_bytes (v : pyval) : outcome Z :=
  match v with PBytes b => py_int_base (PStr ("0x" +:+ b2x b)) 16 | _ => Exc TypeError end.

(** The identifier of another chain: the last of its bytes is one less. *)
Definition wrong_chain (fuel : nat) (sc1 sc2 : proxy) (address1 address2 : pyval) : MF unit :=
  let! raw_tx := raw_unsigned RPC_EIP155 sc1 address1 address2 amount_0_1 in
  let! tx_json := decodeTransaction sc2 raw_tx PNone in
  let% chainId_ok := getitem tx_json "chainId" in
  let% text := (match raw_tx with PStr s => Val s | _ => Exc TypeError end) in
  let% b := of_opt (ValueError "a2b_hex") (unhexlify text) in
  let% b := byte_less 46 b in
  let new_eip155_raw_tx := PStr (b2x b) in
  let! tx_json := decodeTransaction sc2 new_eip155_raw_tx PNone in
  let% chainId_bad := getitem tx_json "chainId" in
  let% expected := py_sub chainId_ok (PInt 1) in
  do% assert_equal chainId_bad expected "" in
  let% decodedRlpList := rlp_decode (str_drop 1 b) in
  let% field := getindex decodedRlpList 6 in
  let% decodedRlpChainId := number_of_bytes field in
  do% assert_equal chainId_bad (PInt decodedRlpChainId) "" in
  let! bad_chainid_raw_tx := signTransaction sc1 address1 new_eip155_raw_tx PNone in
  let! tx_json := decodeTransaction sc1 bad_chainid_raw_tx PNone in
  let% signed := getitem tx_json "signed" in
  do% assert_equal signed (PBool true) "" in
  do! refused_inside (AccountCalls.sendTransaction sc1 bad_chainid_raw_tx PNone) runtime_text "different from expected SC chainId"
    "Wrong chainId should not work" in
  do! sc_sync_all fuel false in
  do! refused_inside (generate_next_block sc1 "first node" false (PList [bad_chainid_raw_tx])) (any_text str_exn)
    "does not match network chain ID " "Wrong chainId should not work" in
  sc_sync_all fuel false.

(** A request with bad bytes: the error has the text in a field. *)
Definition raw_rpc_refused (node : proxy) (raw_tx field text : string) : MF unit :=
  let! response := call node "rpc_eth_sendRawTransaction" [PStr raw_tx] in
  let% there := has_key "error" response in
  do% assert_true there "" in
  let% v := getpath response ["error"; field] in
  let% there := py_in (PStr text) v in
  lift (assert_true there "").

Definition bad_rlp : string := "0x96dc24d6874a9b01e4a7b7e5b74db504db3731f764293769caef100f551efadf7d378a015faca6ae62ae30a9bf5e3c6aa94f58597edc381d0ec167fa0c84635e12a2d13ab965866ebf7c7aae458afedef1c17e08eb641135f592774e18401e0104f8e7f8e0d98e3230332e3133322e39342e31333784787beded84556c094cf8528c39342e3133372e342e31333982765fb840621168019b7491921722649cd1aa9608f23f8857d782e7495fb6765b821002c4aac6ba5da28a5c91b432e5fcc078931f802ffb5a3ababa42adee7a0c927ff49ef8528c3136322e3234332e34362e39829dd4b840e437a4836b77ad9d9ffe73ee782ef2614e6d8370fcf62191a6e488276e23717147073a7ce0b444d485fff5a0c34c4577251a7a990cf80d8542e21b95aa8c5e6cdd8e3230332e3133322e39342e31333788ffffffffa5aadb3a84556c095384556c0919".
Definition trailing_rlp : string := "0xf86103018207d094b94f5374fce5edbc8e2a8697c15331677e6ebf0b0a8255441ca098ff921201554726367d2be8c804a7ff89ccf285ebc57dff8ae4c44b9c19ac4aa07c63c158f32d26630a9732d7553cfc5b16cff01f0a72c41842da693821ccdfcbef".

Definition SCEvmRawTxHttpApi_run_test (fuel : nat) : MF unit :=
  let! s := sc_ac_setup fuel true true coins_500 in
  let! sc1 := sc 0 in
  let! sc2 := sc 1 in
  let% a := bare (ac_evm_address s) in
  let address1 := PStr a in
  let! address2 := new_evm_address sc2 in
  do! forM_ [RPC_LEGACY; RPC_EIP155; RPC_EIP1559] (raw_by_type fuel sc1 sc2 address1 address2) in
  do! spurious_bytes sc1 sc2 address1 address2 in
  do! wrong_signatures fuel sc1 sc2 address1 address2 in
  do! unsigned_refused fuel sc1 sc2 address1 address2 in
  do! wrong_chain fuel sc1 sc2 address1 address2 in
  do! raw_rpc_refused sc1 bad_rlp "message" "Invalid params" in
  raw_rpc_refused sc1 trailing_rlp "data" "Spurious bytes".

Definition SCEvmRawTxHttpApi (fuel : nat) (o : Options) (shared : SCForgerConfiguration) : TestClass W :=
  AccountChainSetup_class fuel o (ac_simple 2 LARGE_WITHDRAWAL_EPOCH_LENGTH) shared (SCEvmRawTxHttpApi_run_test fuel).
End Keys.
