(* ===== verification/FeePaymentScenarios.v ===== *)
(** * Scenarios: payments of fees

    sc_evm_fee_payments_rpc.py, sc_evm_forging_fee_payments_rollback.py and
    websocket_server_fee_payments.py: the payments at the end of a withdrawal epoch as the
    RPC methods and the websocket report them, and after blocks of the mainchain were made
    invalid. *)

From S2P Require Import Prelude PyStr Numbers PyVal Host Sim Json Encoding HttpProxy BootInfo McUtil ScUtil.
From S2P Require Import Forging Bootstrap Framework AccountSetup McFramework AccountCalls HttpCalls AccountUtil SmartContract Tools.
From Stdlib Require Import Ascii String.
From stdpp Require Import base list.
From S2P Require Import Scenarios ForgingScenarios StakeScenarios ChainScenarios MempoolScenarios EvmScenarios CswScenarios CertScenarios.
From S2P Require Import KeyRotationScenarios EvmRotationScenarios ForgerScenarios EvmForgerScenarios NativeForgerScenarios SeederScenarios.
From S2P Require Import WebsocketScenarios RewardScenarios EvmMempoolScenarios.
Local Open Scope Z_scope.

(** ** Shares of sc_evm_forging_fee_payments_rollback.py *)

(** [math.floor(a / b)] of integers: the quotient is a float *)
Definition floor_quotient (a b : Z) : outcome Z :=
  match int_truediv a b with Some x => float_floor x | None => Exc ZeroDivisionError end.

(** The fees of both nodes, with the 59 blocks before the fork for the base fees; the
    remainder is the first node's. *)
Definition rollback_fees (pool_fee ft_pool_fee node_1_block_count node_2_block_count node_1_extra_fees : Z) : outcome (Z * Z) :=
  let n := node_1_block_count + node_2_block_count in
  let? pool_average_fee := floor_quotient pool_fee (n + 59) in
  let pool_rem := pool_fee mod (n + 59) in
  let node_1_pool_fee := (node_1_block_count + 59) * pool_average_fee + pool_rem in
  let node_2_pool_fee := node_2_block_count * pool_average_fee in
  let? ft_average_fee := floor_quotient ft_pool_fee n in
  Val (ft_average_fee * node_1_block_count + node_1_pool_fee + node_1_extra_fees,
       ft_average_fee * node_2_block_count + node_2_pool_fee).

(** ** Payments in a payload of the websocket *)

Definition check_fee_payments (payload api_fee_payments : pyval) (message : string) : outcome unit :=
  let? there := has_key "feePayments" payload in
  let? _ := assert_true there "" in
  let? boxes := getpath payload ["feePayments"; "newBoxes"] in
  assert_equal api_fee_payments boxes message.

Definition check_without_payments (payload : pyval) : outcome unit :=
  let? there := has_key "feePayments" payload in assert_true (negb there) "".

Section FeePayments.
Context {W : Type} `{Nodes W, Clock W, Os W, Rng W} `{EthUtils, EthAbi, EthHash, EthEvents, EthHex, EthSelectors}.
Local Abbreviation MF := (M (FW W)).

(** ** sc_evm_fee_payments_rpc.py *)

(** [(a, b) = sc_node.rpc_zen_getFeePayments(block)["result"]["payments"]], with the
    expected addresses and values *)
Definition check_two_payments (sc_node : proxy) (block address1 address2 : pyval) (fee1 fee2 : Z) : MF unit :=
  let! r := call sc_node "rpc_zen_getFeePayments" [block] in
  let% payments := getpath r ["result"; "payments"] in
  let% l := py_iter payments in
  match l with
  | [forger_data_1; forger_data_2] =>
      let% a := getitem forger_data_1 "address" in
      do% assert_equal address1 a "" in
      let% a := getitem forger_data_2 "address" in
      do% assert_equal address2 a "" in
      let% v := getitem forger_data_1 "value" in
      do% assert_equal v (PStr (hex fee1)) "" in
      let% v := getitem forger_data_2 "value" in
      lift (assert_equal v (PStr (hex fee2)) "")
  | _ => raise (ValueError "unpack")
  end.

Definition no_payments_at (sc_node : proxy) (block : pyval) : MF unit :=
  let! forger_data := call sc_node "rpc_zen_getFeePayments" [block] in
  let% payments := getpath forger_data ["result"; "payments"] in
  check_length 0 payments "".

Definition owner_of_stake (stakes : pyval) (i : Z) : outcome pyval :=
  let? stake := getindex stakes i in
  let? a := getpath stake ["forgerStakeData"; "ownerPublicKey"; "address"] in
  add_0x_prefix a.

(** The blocks of the epoch: their fees, the middle block and its height, the stakes. *)
Definition rpc_fee_epoch (fuel : nat) (mc_node sc1 sc2 : proxy) : MF (list EvmBlockFeeInfo * pyval * pyval * pyval) :=
  let! '(address, pool_0, tip_0, balance, stakes) := fee_epoch_stake fuel mc_node sc1 sc2 (zen_float 20 (-1)) (zen_float 15 (-3)) in
  do! forge_synced fuel sc1 "first node" true in
  let! keys := generate_account_proposition "seed3" 1 AccountModel in
  let% recipient := list_index keys 0 in
  let% wei_1 := convertZenToWei (zen_float 22 (-3)) in
  let! tx_hash_1 := createLegacyTransaction sc2
    (mkTxArgs address (proposition recipient) PNone (PInt 21000) (PInt wei_1) (PStr "") PNone PNone PNone)
    (PInt 1000000000) PNone false in
  do! sc_sync_all fuel false in
  let! middle := generate_next_block sc1 "first node" false PNone in
  let! middle_height := best_height_of sc1 in
  do! sc_sync_all fuel false in
  let! '(fee_1, pool_1, tip_1) := computeForgedTxFee sc1 tx_hash_1 in
  let% wei_2 := convertZenToWei (zen_float 1 (-3)) in
  let! baseFeePerGas := base_fee_of sc2 middle in
  let! tx_hash_2 := createEIP1559Transaction sc2
    (mkTxArgs address (proposition recipient) PNone (PInt 123400) (PInt wei_2) (PStr "") PNone PNone PNone)
    (PInt 56700) (PInt (baseFeePerGas + 56690)) PNone in
  let! middle := generate_next_block sc2 "second node" true PNone in
  do! sc_sync_all fuel false in
  let! '(fee_2, pool_2, tip_2) := computeForgedTxFee sc1 tx_hash_2 in
  do! sc_sync_all fuel false in
  do! call mc_node "generate" [PInt (20 - 2)] in
  let! found := total_balance sc2 in
  do% assert_equal found (PInt (balance - (wei_1 + fee_1) - (wei_2 + fee_2))) "" in
  ret ([mkEvmBlockFeeInfo 1 0 0; mkEvmBlockFeeInfo 1 0 0; mkEvmBlockFeeInfo 1 pool_0 tip_0; mkEvmBlockFeeInfo 1 0 0;
        mkEvmBlockFeeInfo 1 pool_1 tip_1; mkEvmBlockFeeInfo 2 pool_2 tip_2], middle, middle_height, stakes).

(** The payments by the hash and by the height of the last block; a tag is refused. *)
Definition ScEvmFeePaymentsRpc_run_test (fuel : nat) : MF unit :=
  let! mc_node := mc 0 in
  let! sc1 := sc 0 in
  let! sc2 := sc 1 in
  let! '(infos, middle, middle_height, stakes) := rpc_fee_epoch fuel mc_node sc1 sc2 in
  let! last := generate_next_block sc2 "second node" false PNone in
  do! sc_sync_all fuel false in
  let% '(_, fees) := evm_forger_fees (infos ++ [mkEvmBlockFeeInfo 2 0 0]) in
  let% hash := add_0x_prefix middle in
  do! no_payments_at sc1 hash in
  do! no_payments_at sc1 middle_height in
  let% address1 := owner_of_stake stakes 0 in
  let% address2 := owner_of_stake stakes 1 in
  let% fee1 := of_opt (KeyError "1") (dict_get 1 fees) in
  let% fee2 := of_opt (KeyError "2") (dict_get 2 fees) in
  let% hash := add_0x_prefix last in
  do! check_two_payments sc1 hash address1 address2 fee1 fee2 in
  let! height := best_height_of sc1 in
  do! check_two_payments sc1 height address1 address2 fee1 fee2 in
  let! result := call sc1 "rpc_zen_getFeePayments" [PStr "latest"] in
  let% there := has_key "error" result in
  do% assert_true there "rpc_zen_getFeePayments should fail when using tag parameter" in
  let% message := getpath result ["error"; "message"] in
  let% there := py_in (PStr "Invalid block input parameter") message in
  lift (assert_true there "Wrong error").

Definition ScEvmFeePaymentsRpc (fuel : nat) (o : Options) (shared : SCForgerConfiguration) : TestClass W :=
  AccountChainSetup_class fuel o (forger_setup 2 20 1 (720 * 120 * 5) None []) shared (ScEvmFeePaymentsRpc_run_test fuel).

(** ** sc_evm_forging_fee_payments_rollback.py *)

(** Coins and a stake for the second node: the fees of the stake's block. *)
Definition rollback_stake (fuel : nat) (mc_node sc1 sc2 : proxy) : MF (Z * Z) :=
  let! address := new_evm_address sc2 in
  let% ft_wei := convertZenToWei (zen_float 20 (-1)) in
  do! transfer_to mc_node address (zen_float 20 (-1)) false in
  do! sync_all fuel in
  let! size := mc_pool_size mc_node in
  do% assert_equal (PInt 1) size "Forward Transfer expected to be added to mempool." in
  do! call mc_node "generate" [PInt 1] in
  do! forge_synced fuel sc1 "first node" false in
  let! balance := AccountCalls.http_wallet_balance sc2 address PNone in
  do% assert_equal (PInt ft_wei) balance "" in
  let! sign := new_proposition sc2 "wallet_createPrivateKey25519" "publicKey" in
  let! vrf := new_proposition sc2 "wallet_createVrfSecret" "publicKey" in
  let% stake_wei := convertZenToWei (PInt 1) in
  let! result := make_stake sc2 address sign vrf (PInt 1) PNone "make forger stake failed: " in
  do! sc_sync_all fuel false in
  let% tx_hash_0 := getpath result ["result"; "transactionId"] in
  do! generate_next_block sc1 "first node" false PNone in
  let! '(fee_0, forgersPoolFee, forgerTip) := computeForgedTxFee sc1 tx_hash_0 in
  do! call sc2 "wallet_getTotalBalance" [] in
  let! found := total_balance sc2 in
  do% assert_equal (PInt (ft_wei - (stake_wei + fee_0))) found "" in
  do! check_stakes sc1 2 in
  ret (forgersPoolFee, forgerTip).

Definition pool_is (expected : Z) : MF unit :=
  let! forger_pool_balance := pool_balance in
  lift (assert_equal (PInt expected) (PInt forger_pool_balance) "").

(** A transfer to the pool of the forgers. *)
Definition to_pool (mc_node : proxy) (amount : pyval) : MF unit :=
  transfer_to mc_node (PStr (format_eoa FORGER_POOL_RECIPIENT_ADDRESS)) amount false.

(** The balances grew by the fees, which the API reports for the block. *)
Definition check_distributed (sc1 sc2 : proxy) (before1 before2 last : pyval) (fees : Z * Z) : MF unit :=
  let! after1 := total_balance sc1 in
  let! after2 := total_balance sc2 in
  let% expected := py_add before1 (PInt fees.1) in
  do% assert_equal expected after1 "Wrong fee payment amount for SC node 1" in
  let% expected := py_add before2 (PInt fees.2) in
  do% assert_equal expected after2 "Wrong fee payment amount for SC node 2" in
  let! api := fee_payments sc1 last in
  forM_ [(0, fees.1); (1, fees.2)] (λ p,
    let% payment := getindex api p.1 in
    let% value := getitem payment "value" in
    lift (assert_equal (PInt p.2) value "")).

(** Up to the end of the epoch: four blocks of each node, half a coin in the pool.  The
    blocks of the mainchain that are reverted later, and the balances before. *)
Definition rollback_epoch (fuel : nat) (mc_node sc1 sc2 : proxy) (pool_wei : Z) : MF (pyval * pyval * pyval * pyval * pyval) :=
  do! forge_synced fuel sc1 "first node" true in
  do! forge_synced fuel sc2 "second node" true in
  do! call mc_node "generate" [PInt (20 - 4)] in
  do! forge_synced fuel sc2 "second node" false in
  do! to_pool mc_node (zen_float 5 (-1)) in
  let! with_ft := mine mc_node in
  do! forge_synced fuel sc2 "second node" false in
  do! pool_is pool_wei in
  let! last_of_epoch := mine mc_node in
  let! before1 := total_balance sc1 in
  let! before2 := total_balance sc2 in
  let! last := generate_next_block sc2 "second node" false PNone in
  do! sc_sync_all fuel false in
  ret (with_ft, last_of_epoch, before1, before2, last).

(** The fork: more in the pool, two blocks more of the first node and two less of the
    second.  The last block. *)
Definition rollback_fork (fuel : nat) (mc_node sc1 : proxy) (with_ft last_of_epoch : pyval) : MF pyval :=
  do! call mc_node "invalidateblock" [with_ft] in
  do! call mc_node "invalidateblock" [last_of_epoch] in
  do! sleep (secs 5) in
  do! to_pool mc_node (PInt 1) in
  do! call mc_node "generate" [PInt 3] in
  do! sync_all fuel in
  do! generate_next_block sc1 "first node" false PNone in
  let! last := generate_next_block sc1 "first node" false PNone in
  do! sc_sync_all fuel false in
  ret last.

Definition FeePaymentsRollback_run_test (fuel : nat) (o : Options) : MF unit :=
  do! not_with_all_forks o in
  let! mc_node := mc 0 in
  let! sc1 := sc 0 in
  let! sc2 := sc 1 in
  do! advance_to_epoch fuel sc1 60 in
  do! connect_sc fuel 0 1 in
  do! sc_sync_all fuel false in
  let! '(pool_fee, tip) := rollback_stake fuel mc_node sc1 sc2 in
  let% pool_wei := convertZenToWei (zen_float 5 (-1)) in
  let! '(with_ft, last_of_epoch, before1, before2, last) := rollback_epoch fuel mc_node sc1 sc2 pool_wei in
  do! pool_is 0 in
  let% fees := rollback_fees pool_fee pool_wei 4 4 tip in
  do! check_distributed sc1 sc2 before1 before2 last fees in
  let% more := convertZenToWei (PInt 1) in
  let! last := rollback_fork fuel mc_node sc1 with_ft last_of_epoch in
  do! pool_is 0 in
  let% fees := rollback_fees pool_fee (pool_wei + more) 6 2 tip in
  check_distributed sc1 sc2 before1 before2 last fees.

Definition FeePaymentsRollback (fuel : nat) (o : Options) (shared : SCForgerConfiguration) : TestClass W :=
  AccountChainSetup_class fuel o (forger_setup 2 20 3 reward_rewind None []) shared (FeePaymentsRollback_run_test fuel o).
End FeePayments.

(** ** websocket_server_fee_payments.py *)

Section WebsocketFees.
Context {W : Type} `{Nodes W, Clock W, Os W, Rng W} `{Websocket W, WebsocketClose W}.
Local Abbreviation MF := (M (FW W)).

Definition fee_ws_port : Z := 8025.

Definition SCWsServerFeePayments_sc_setup_chain (o : Options) (shared : SCForgerConfiguration) : MF unit :=
  let! mc_node := mc 0 in
  let! connection := ws_connection mc_node 0 in
  let configuration := SCNodeConfiguration_init connection false false None 100 100 "2m" true
    (PFloat (float_of_dec (Dec 1 (-4)))) shared 300 0 DEFAULT_API_KEY 10000000 [] false PNone [] None [] "15m" "5m"
    true fee_ws_port true DEFAULT_MAX_NONCE_GAP DEFAULT_MAX_ACCOUNT_SLOTS DEFAULT_MAX_MEMPOOL_SLOTS
    DEFAULT_MAX_NONEXEC_POOL_SLOTS DEFAULT_TX_LIFETIME true true in
  let! info := bootstrap o mc_node 600 10 [configuration] DefaultBlockTimestampRewind in
  put_info info.

(** [new_tip_event] after two messages, which may be an earlier one. *)
Fixpoint receive_tip (n : nat) (ws : Z) (new_tip_event : option pyval) : MF (option pyval) :=
  match n with
  | O => ret new_tip_event
  | S n' =>
      let! response := ws_receive ws in
      let% tip := is_event response 0 in
      if tip then receive_tip n' ws (Some response)
      else
        let% changed := is_event response 2 in
        if changed then receive_tip n' ws new_tip_event else raise (GenericException "Message not expected")
  end.

(** The event of a new tip and its payload. *)
Definition tip_payload (new_tip_event : option pyval) (block : pyval) (height : Z) : outcome pyval :=
  let? event := of_opt (UnboundLocalError "new_tip_event") new_tip_event in
  let? _ := checkMessageStaticFields event EVENT_MSG_TYPE (PInt (-1)) (PInt UPDATE_TIP_EVENT) in
  let? payload := getitem event "eventPayload" in
  let? _ := check_block_place payload block height in
  Val payload.

(** [len(sc_node.transaction_allTransactions()["result"]["transactions"])] *)
Definition check_all_txs (sc_node : proxy) (n : Z) (message : string) : MF unit :=
  let! r := call sc_node "transaction_allTransactions" [] in
  let% txs := getpath r ["result"; "transactions"] in
  check_length n txs message.

(** A transfer to the same account that pays a fee, each in its own block. *)
Definition ws_fee_blocks (fuel : nat) (mc_node sc_node : proxy) : MF (list pyval) :=
  let! info := boot_info in
  let% account := account_of info in
  let balance := genesis_account_balance info in
  do! sc_sync_all fuel false in
  do! transfer_to mc_node (publicKey account) balance true in
  do! sc_sync_all fuel false in
  let! block1 := forge_unnamed sc_node in
  do! sc_sync_all fuel false in
  let! found := HttpCalls.http_wallet_balance sc_node PNone in
  let% twice := py_mul balance (PInt 2) in
  let% expected := py_mul twice (PInt 100000000) in
  do% assert_equal found expected "" in
  let% fee := py_truediv balance (PInt 10) in
  let% amount := py_sub balance fee in
  do! sendCoinsToAddress sc_node (publicKey account) amount fee PNone in
  do! check_all_txs sc_node 1 "1 Tx expected to be in the SC node mempool." in
  let! block2 := forge_unnamed sc_node in
  do! check_all_txs sc_node 0 "No Txs expected to be in the SC node mempool." in
  ret [block1; block2].

(** The block of a reply is the one asked for; the payments looked at are those of the
    event. *)
Definition single_block (ws : Z) (request : outcome string) (block : pyval) (height : Z) : MF unit :=
  let! payload := ws_answer ws GET_SINGLE_BLOCK_REQUEST request in
  lift (check_block_place payload block height).

Definition by_hash (block : pyval) : outcome string := dumps (PDict [("hash", block)]).

Definition no_payments_by_api (sc_node : proxy) (block : pyval) : MF unit :=
  let! api := fee_payments sc_node block in
  check_length 0 api "No fee payments expected to be paid.".

(** A block without payments, by its hash, after the event with [event_payload]. *)
Definition single_without_payments (sc_node : proxy) (ws : Z) (event_payload block : pyval) (height : Z) : MF unit :=
  do! single_block ws (by_hash block) block height in
  do% check_without_payments event_payload in
  no_payments_by_api sc_node block.

Definition SCWsServerFeePayments_run_test (fuel : nat) : MF unit :=
  let! mc_node := mc 0 in
  let! sc_node := sc 0 in
  let! blocks := ws_fee_blocks fuel mc_node sc_node in
  let! ws := create_connection ("ws://localhost:" +:+ str_of_Z fee_ws_port +:+ "/") in
  do! call mc_node "generate" [PInt (10 - 1 - 1)] in
  let! last := forge_unnamed sc_node in
  let blocks := blocks ++ [last] in
  let height := Z.of_nat (length blocks) + 1 in
  let! event := receive_tip 2 ws None in
  let% payload := tip_payload event last height in
  do% (let? there := has_key "feePayments" payload in assert_true there "") in
  let! api := fee_payments sc_node last in
  let% boxes := getpath payload ["feePayments"; "newBoxes"] in
  do% assert_equal api boxes "Different fee payments retrieved by new tip event." in
  let message := "Different fee payments retrieved for the block." in
  do! single_block ws (by_hash last) last height in
  do% check_fee_payments payload api message in
  do! single_block ws (dumps (PDict [("height", PInt height)])) last height in
  do% check_fee_payments payload api message in
  let! next := forge_unnamed sc_node in
  let blocks := blocks ++ [next] in
  let! event := receive_tip 2 ws event in
  let% payload := tip_payload event next (height + 1) in
  do% check_without_payments payload in
  do! no_payments_by_api sc_node next in
  let% before := list_index blocks (-3) in
  do! single_without_payments sc_node ws payload before (height - 1) in
  single_without_payments sc_node ws payload next (height + 1).

Definition SCWsServerFeePayments (fuel : nat) (o : Options) (shared : SCForgerConfiguration) : TestClass W :=
  mkTestClass W (default_setup_chain o) (default_setup_network fuel o) (SCWsServerFeePayments_sc_setup_chain o shared)
    (utxo_sc_setup_network fuel o 1) (SCWsServerFeePayments_run_test fuel).
End WebsocketFees.

(** The coins of the pool are shared without a rest, before and after the fork. *)
Example rollback_fees_ex :
  rollback_fees 0 (5 * 10 ^ 17) 4 4 0 = Val (25 * 10 ^ 16, 25 * 10 ^ 16)
  ∧ rollback_fees 0 (15 * 10 ^ 17) 6 2 0 = Val (1125 * 10 ^ 15, 375 * 10 ^ 15).
Proof. vm_compute. done. Qed.
