(* ===== verification/PendingCertScenarios.v ===== *)
(** * Scenarios: certificates that wait for signatures

    sc_evm_multiple_pending_certs_non_ceasing.py,
    sc_multiple_pending_certs_non_ceasing_with_delay.py and
    sc_cert_submission_decentralization.py: certificates of epochs that had to wait until
    enough nodes signed them, published one after the other, in the account model, with
    references to the mainchain that are delayed, and with the keys spread over nodes. *)

From S2P Require Import Prelude PyStr Numbers PyVal Host Sim Json Encoding HttpProxy BootInfo McUtil ScUtil.
From S2P Require Import Forging Bootstrap Framework AccountSetup McFramework HttpCalls AccountUtil.
From Stdlib Require Import Ascii String.
From stdpp Require Import base list.
From S2P Require Import Scenarios ForgingScenarios StakeScenarios ChainScenarios MempoolScenarios CertScenarios EvmScenarios.
From S2P Require Import BackwardScenarios CertificateScenarios.
Local Open Scope Z_scope.

Section PendingCerts.
Context {W : Type} `{Nodes W, Clock W, Os W, Rng W} `{EthUtils}.
Local Abbreviation MF := (M (FW W)).

(** ** sc_evm_multiple_pending_certs_non_ceasing.py *)

(** A node that signs, with the API key of the account-model tests. *)
Definition evm_pending_configuration (shared : SCForgerConfiguration) (submitter : bool) (keys : list Z)
    (connection : MCConnectionInfo) : SCNodeConfiguration :=
  SCNodeConfiguration_init connection submitter true (Some keys) 100 100 "2m" true
    (PFloat (float_of_dec (Dec 1 (-4)))) shared 300 0 "Horizen" 10000000 [] false PNone [] None [] "15m" "5m"
    false 0 true DEFAULT_MAX_NONCE_GAP DEFAULT_MAX_ACCOUNT_SLOTS DEFAULT_MAX_MEMPOOL_SLOTS
    DEFAULT_MAX_NONEXEC_POOL_SLOTS DEFAULT_TX_LIFETIME true true.

(** Two nodes with three keys each; only the first one submits. *)
Definition evm_pending_setup_chain (o : Options) (shared : SCForgerConfiguration) : MF unit :=
  let! mc_node := mc 0 in
  let! connection_1 := ws_connection mc_node 0 in
  let! connection_2 := ws_connection mc_node 0 in
  let% sci := SCCreationInfo_init mc_node (PInt 100) 10 0 SC_CREATION_VERSION_2 7 5 false true KEY_ROTATION_CIRCUIT in
  let! info := bootstrap_sidechain_nodes (run_options_of o) (mkSCNetworkConfiguration sci
    [evm_pending_configuration shared true [0; 1; 2] connection_1;
     evm_pending_configuration shared false [3; 4; 5] connection_2]) five_epochs AccountModel in
  put_info info.

(** One transaction for each withdrawal, with the next nonce and twice the amount. *)
Fixpoint evm_withdrawals (n : nat) (mc_node sc_node : proxy) (nonce sc_bt_amount : Z) : MF (list pyval) :=
  match n with
  | O => ret []
  | S n' =>
      let! address := call mc_node "getnewaddress" [] in
      let! reply := post sc_node "transaction_withdrawCoins"
        [("nonce", PInt nonce);
         ("withdrawalRequest", PDict [("mainchainAddress", address); ("value", PInt sc_bt_amount)]);
         ("gasInfo", PDict [("gasLimit", PInt 230000); ("maxFeePerGas", PInt 900000000);
                            ("maxPriorityFeePerGas", PInt 900000000)])] PNone in
      do% BackwardScenarios.require_result reply "Withdraw coins failed: " in
      let% id := getpath reply ["result"; "transactionId"] in
      let! ids := evm_withdrawals n' mc_node sc_node (nonce + 1) (sc_bt_amount * 2) in
      ret (id :: ids)
  end.

(** The block has the transactions in the order they were sent. *)
Definition check_epoch_txs (sc_txs : pyval) (ids : list pyval) : MF unit :=
  do! check_length (Z.of_nat (length ids)) sc_txs "Number of WRs transactions is wrong" in
  forM_ (zip (zrange 0 (Z.of_nat (length ids))) ids) (λ p,
    let% tx := getindex sc_txs p.1 in
    let% id := getitem tx "id" in
    lift (assert_equal id p.2 "Tx with WRs is not as expected")).

Definition evm_pass_withdrawal_epoch (mc_node sc_node : proxy) (mc_blocks_before_wrs mc_block_after_wrs we_number nonce : Z)
    : MF unit :=
  let! hashes := call mc_node "generate" [PInt mc_blocks_before_wrs] in
  let% mc_tip_hash := getindex hashes (-1) in
  let% sc_bt_amount := convertZenToZennies (PInt 1) in
  let! ids := evm_withdrawals (Z.to_nat we_number) mc_node sc_node nonce sc_bt_amount in
  let! block_id := first_block sc_node false in
  do! check_mcreferencedata_presence mc_tip_hash block_id sc_node in
  let! block := find_block sc_node block_id in
  let% sc_txs := getitem block "sidechainTransactions" in
  do! check_epoch_txs sc_txs ids in
  let! hashes := call mc_node "generate" [PInt mc_block_after_wrs] in
  let% mc_tip_hash := getindex hashes (-1) in
  let! block_id := first_block sc_node false in
  check_mcreferencedata_presence mc_tip_hash block_id sc_node.

(** The epochs that pass without a certificate: the tree hash at the end of the first; the
    nonce grows by the withdrawals of each. *)
Definition evm_pending_epochs (mc_node sc_node1 : proxy) : MF pyval :=
  let! '(root, _) := foldM (λ '(root, nonce) epoch_number,
    let left := if epoch_number =? 0 then 10 - 1 - 1 else 10 in
    do! evm_pass_withdrawal_epoch mc_node sc_node1 (half_epoch - (10 - left)) half_epoch epoch_number nonce in
    if epoch_number =? 0 then
      let! hash := call mc_node "getbestblockhash" [] in
      let! block := call mc_node "getblock" [hash] in
      let% root := getitem block "scCumTreeHash" in
      ret (root, nonce + epoch_number)
    else ret (root, nonce + epoch_number)) (PStr "", 0) (zrange 0 (Z.of_nat total_withdrawal_epochs_number)) in
  ret root.

Definition EvmMultiplePendingCerts_run_test (fuel : nat) : MF unit :=
  let! mc_node := mc 0 in
  let! sc_node1 := sc 0 in
  do! sc_ac_setup fuel true true (PInt 100) in
  do! first_block sc_node1 false in
  let! root := evm_pending_epochs mc_node sc_node1 in
  certificates_published fuel mc_node sc_node1 root.

Definition EvmMultiplePendingCerts (fuel : nat) (o : Options) (shared : SCForgerConfiguration) : TestClass W :=
  let a := ac_defaults 2 10 evm_rewind (Some KEY_ROTATION_CIRCUIT) 100 true DEFAULT_TX_LIFETIME in
  mkTestClass W (default_setup_chain o) (ac_setup_network fuel o a) (evm_pending_setup_chain o shared)
    (ac_sc_setup_network fuel o a) (EvmMultiplePendingCerts_run_test fuel).

(** ** sc_multiple_pending_certs_non_ceasing_with_delay.py *)

Definition mc_block_delay_ref : Z := 4.
Definition delayed_epoch_length : Z := 30.
Definition delayed_half_epoch : Z := delayed_epoch_length / 2.

Definition delayed_setup_chain (o : Options) (shared : SCForgerConfiguration) : MF unit :=
  do! run_os (λ w, (inr tt, os_setenv "SIDECHAIN_BLOCK_REF_DELAY" (str_of_Z mc_block_delay_ref) w)) in
  let! mc_node := mc 0 in
  let! connection_1 := ws_connection mc_node 0 in
  let! connection_2 := ws_connection mc_node 0 in
  let% sci := SCCreationInfo_init mc_node (PInt 100) delayed_epoch_length 0 SC_CREATION_VERSION_2 7 5 false true
    KEY_ROTATION_CIRCUIT in
  let! info := bootstrap_sidechain_nodes (run_options_of o) (mkSCNetworkConfiguration sci
    [submitter_configuration shared true [0; 1; 2] connection_1;
     submitter_configuration shared false [3; 4; 5] connection_2]) five_epochs DefaultModel in
  put_info info.

(** The newest block that may be referred to is some blocks below the tip. *)
Definition delayed_tip (hashes : pyval) : outcome pyval := getindex hashes (-1 - mc_block_delay_ref).

Definition delayed_pass_withdrawal_epoch (mc_node sc_node : proxy) (mc_blocks_before_wrs mc_block_after_wrs we_number : Z)
    : MF unit :=
  let! hashes := call mc_node "generate" [PInt mc_blocks_before_wrs] in
  let% mc_tip_hash := delayed_tip hashes in
  let! wr_tx_id := send_withdrawals mc_node sc_node we_number in
  let! block_id := first_block sc_node false in
  do! check_mcreferencedata_presence mc_tip_hash block_id sc_node in
  let! block := find_block sc_node block_id in
  let% sc_txs := getitem block "sidechainTransactions" in
  do! check_length (if we_number >? 0 then 1 else 0) sc_txs "Only 1 Tx with WRs expected" in
  do! match wr_tx_id with
      | Some tx_id =>
          let% first := getindex sc_txs 0 in
          let% id := getitem first "id" in
          lift (assert_equal id tx_id "Tx with WRs is not as expected")
      | None => ret tt
      end in
  let! hashes := call mc_node "generate" [PInt mc_block_after_wrs] in
  let% mc_tip_hash := delayed_tip hashes in
  let! block_id := first_block sc_node false in
  check_mcreferencedata_presence mc_tip_hash block_id sc_node.

(** The tree hash of the last block of an epoch, from the height of the creation. *)
Definition end_epoch_root (mc_node : proxy) (sc_creating_height : pyval) (epoch_number : Z) : MF pyval :=
  let% before := py_sub sc_creating_height (PInt 1) in
  let% height := py_add before (PInt ((epoch_number + 1) * delayed_epoch_length)) in
  let! hash := call mc_node "getblockhash" [height] in
  let! block := call mc_node "getblock" [hash] in
  lift (getitem block "scCumTreeHash").

Definition creating_height (mc_node : proxy) : MF pyval :=
  let! info := boot_info in
  let! r := call mc_node "getscinfo" [sidechain_id info] in
  let% items := getitem r "items" in
  let% item := getindex items 0 in
  lift (getitem item "createdAtBlockHeight").

(** The epochs without a certificate: the root and the height of the creation, both from the
    first one. *)
Definition delayed_epochs (mc_node sc_node1 : proxy) : MF (pyval * option pyval) :=
  foldM (λ '(root, height) epoch_number,
    let left := if epoch_number =? 0 then delayed_epoch_length - 1 - 1 + mc_block_delay_ref else delayed_epoch_length in
    do! delayed_pass_withdrawal_epoch mc_node sc_node1 (delayed_half_epoch - (delayed_epoch_length - left)) delayed_half_epoch
      epoch_number in
    if epoch_number =? 0 then
      let! height := creating_height mc_node in
      let! root := end_epoch_root mc_node height epoch_number in
      ret (root, Some height)
    else ret (root, height)) (PStr "", None) (zrange 0 (Z.of_nat total_withdrawal_epochs_number)).

(** One certificate; the first of the blocks mined has it, and the sidechain refers to that
    block. *)
Definition delayed_next_pending (fuel : nat) (mc_node sc_node1 : proxy) (root : pyval) (epoch_number : Z) : MF pyval :=
  do! check_for_certificate fuel mc_node sc_node1 in
  let! '(_, cert) := pooled_certificate mc_node in
  do% check_pending_certificate cert epoch_number root in
  let! hashes := call mc_node "generate" [PInt (1 + mc_block_delay_ref)] in
  let% hash := getindex hashes 0 in
  let! block := call mc_node "getblock" [hash] in
  let% root := getitem block "scCumTreeHash" in
  do! sleep (secs 2) in
  let! active := generating sc_node1 in
  do% (if active then fail "Cert submission is not expected" else Val tt) in
  let! block_id := first_block sc_node1 false in
  do! check_mcreferencedata_presence hash block_id sc_node1 in
  do! sc_sync_all fuel false in
  ret root.

Definition delayed_left : Z :=
  delayed_epoch_length - Z.of_nat total_withdrawal_epochs_number * (1 + mc_block_delay_ref).

Definition DelayedPendingCerts_run_test (fuel : nat) : MF unit :=
  let! mc_node := mc 0 in
  let! sc_node1 := sc 0 in
  let! mc_return_address := call mc_node "getnewaddress" [] in
  let! info := boot_info in
  let% account := account_of info in
  do! forward_transfer_to_sidechain (sidechain_id info) mc_node (publicKey account)
    (PInt (100 + 2 ^ Z.of_nat total_withdrawal_epochs_number)) mc_return_address true in
  do! first_block sc_node1 false in
  let! '(root, height) := delayed_epochs mc_node sc_node1 in
  do! connect_sc_nodes fuel sc_node1 1 (secs 25) in
  do! sc_sync_all fuel false in
  do! foldM (delayed_next_pending fuel mc_node sc_node1) root (zrange 0 (Z.of_nat total_withdrawal_epochs_number)) in
  let! hashes := call mc_node "generate" [PInt delayed_left] in
  do% getindex hashes (-1) in
  do! first_block sc_node1 false in
  do! call mc_node "generate" [PInt 1] in
  do! first_block sc_node1 false in
  do! check_for_certificate fuel mc_node sc_node1 in
  let! '(_, cert) := pooled_certificate mc_node in
  let% number := getpath cert ["cert"; "epochNumber"] in
  do% assert_equal (PInt (Z.of_nat total_withdrawal_epochs_number)) number "Sidechain epoch number in certificate is wrong." in
  let% height := of_opt (UnboundLocalError "sc_creating_height") height in
  let! root := end_epoch_root mc_node height 5 in
  let% found := getpath cert ["cert"; "endEpochCumScTxCommTreeRoot"] in
  lift (assert_equal root found "Sidechain endEpochCumScTxCommTreeRoot in certificate is wrong.").

Definition DelayedPendingCerts (fuel : nat) (o : Options) (shared : SCForgerConfiguration) : TestClass W :=
  args_scenario fuel o cert_node_args 2 (delayed_setup_chain o shared) (DelayedPendingCerts_run_test fuel).

(** ** sc_cert_submission_decentralization.py *)

Definition decentral_configuration (shared : SCForgerConfiguration) (submitter signing : bool) (keys : list Z)
    (connection : MCConnectionInfo) : SCNodeConfiguration :=
  SCNodeConfiguration_init connection submitter signing (Some keys) 100 100 "60m" true
    (PFloat (float_of_dec (Dec 1 (-4)))) shared 300 0 DEFAULT_API_KEY 10000000 [] false PNone [] None [] "15m" "5m"
    false 0 true DEFAULT_MAX_NONCE_GAP DEFAULT_MAX_ACCOUNT_SLOTS DEFAULT_MAX_MEMPOOL_SLOTS
    DEFAULT_MAX_NONEXEC_POOL_SLOTS DEFAULT_TX_LIFETIME true true.

(** Which node submits, which sign, and with which keys. *)
Definition decentral_nodes : list (bool * bool * list Z) :=
  [(true, true, [0; 1]); (false, true, [2; 3]); (false, false, zrange 0 7); (false, true, [4; 5; 6])].

Definition SCCertSubmissionDecentralization_sc_setup_chain (o : Options) (shared : SCForgerConfiguration) : MF unit :=
  let! mc_node := mc 0 in
  let! configurations := mmap (λ '(submitter, signing, keys),
    let! connection := ws_connection mc_node 0 in
    ret (decentral_configuration shared submitter signing keys connection)) decentral_nodes in
  let% sci := SCCreationInfo_init mc_node (PInt 1000) 10 0 (version_for o) 7 5 false (nonceasing o) (certcircuittype o) in
  let! info := bootstrap_sidechain_nodes (run_options_of o) (mkSCNetworkConfiguration sci configurations) five_epochs
    DefaultModel in
  put_info info.

(** The numbers of connections of the nodes, in order. *)
Definition check_peers (expected : list (Z * Z * string)) : MF unit :=
  forM_ expected (λ '(i, n, message),
    let! node := sc i in
    let! peers := sc_connected_peers node in
    check_length n peers message).

Definition node_text (i : Z) (what : string) : string := "Node " +:+ str_of_Z (i + 1) +:+ what.

(** What the submitter API of a node says of its roles. *)
Definition check_roles (i : Z) (submitter signing : bool) : MF unit :=
  let! node := sc i in
  let! r := call node "submitter_isCertificateSubmitterEnabled" [] in
  let% e := getpath r ["result"; "enabled"] in
  do% (if submitter then assert_true (truthy e) (node_text i " submitter expected to be enabled.")
       else assert_false (truthy e) (node_text i " submitter expected to be disabled.")) in
  let! r := call node "submitter_isCertificateSignerEnabled" [] in
  let% e := getpath r ["result"; "enabled"] in
  lift (if signing then assert_true (truthy e) (node_text i " cert signer expected to be enabled.")
        else assert_false (truthy e) (node_text i " cert signer expected to be disabled.")).

(** The end of an epoch, with the block of the sidechain, and the first block of the next
    one; the last block of the mainchain is at the index before the number. *)
Definition epoch_over (mc_node sc_node1 : proxy) (n : Z) (root_logged : bool) : MF unit :=
  let! hashes := call mc_node "generate" [PInt n] in
  let% end_hash := getindex hashes (n - 1) in
  do% log_concat end_hash in
  do! when root_logged (
    let! block := call mc_node "getblock" [end_hash] in
    let% root := getitem block "scCumTreeHash" in
    lift (log_concat root)) in
  let! id := first_block sc_node1 false in
  do! check_mcreferencedata_presence end_hash id sc_node1 in
  let! hash := mine mc_node in
  let! ids := generate_next_blocks sc_node1 "first node" 1 in
  let% id := list_index ids 0 in
  check_mcreference_presence hash id sc_node1.

(** A wait of some seconds, and until there is a certificate or none is generated; then
    the size of the memory pool. *)
Definition awaited_size (fuel : nat) (mc_node sc_node1 : proxy) (seconds n : Z) (message : string) : MF unit :=
  do! sleep (secs seconds) in
  do! wait_pinging_others fuel mc_node sc_node1 [] in
  let! size := mc_pool_size mc_node in
  lift (assert_equal (PInt n) size message).

Definition block_field (mc_node : proxy) (hash : pyval) (field : string) : MF pyval :=
  let! block := call mc_node "getblock" [hash] in lift (getitem block field).

(** The certificate of the pool is in the next block, which the sidechain refers to, with
    the quality of all keys. *)
Definition certificate_of_all (mc_node sc_node1 : proxy) (one_tx : bool) : MF unit :=
  let! pool := call mc_node "getrawmempool" [] in
  let% cert_hash := getindex pool 0 in
  let! hash := mine mc_node in
  let! size := mc_pool_size mc_node in
  do% assert_equal (PInt 0) size "Certificate expected to be removed from MC node mempool." in
  do! when one_tx (
    let! txs := block_field mc_node hash "tx" in
    check_length 1 txs "MC block expected to contain 1 transaction.") in
  let! certs := block_field mc_node hash "cert" in
  do! check_length 1 certs "MC block expected to contain 1 Certificate." in
  let! certs := block_field mc_node hash "cert" in
  let% first := getindex certs 0 in
  do% assert_equal cert_hash first "MC block expected to contain certificate." in
  do! call mc_node "getblock" [hash; PBool false] in
  let! ids := generate_next_blocks sc_node1 "first node" 1 in
  let% id := list_index ids 0 in
  do! check_mcreference_presence hash id sc_node1 in
  let! best_block := best sc_node1 in
  let% data := getpath best_block ["block"; "mainchainBlockReferencesData"] in
  let% mbrefdata := getindex data 0 in
  let% quality := getpath mbrefdata ["topQualityCertificate"; "quality"] in
  lift (assert_equal (PInt 7) quality "Certificate quality is wrong.").

Definition decentral_connected (fuel : nat) (sc_node1 sc_node3 sc_node4 : proxy) : MF unit :=
  do! connect_sc_nodes fuel sc_node1 1 (secs 25) in
  do! connect_sc_nodes fuel sc_node3 1 (secs 25) in
  do! connect_sc_nodes fuel sc_node4 2 (secs 25) in
  do! sc_sync_all fuel false in
  check_peers [(0, 1, "Sc Node 1 expect to have only 1 connection."); (1, 2, "Sc Node 2 expect to have 2 connections.");
               (2, 2, "Sc Node 3 expect to have 2 connections."); (3, 1, "Sc Node 4 expect to have only 1 connection.")].

(** Without the keys of the fourth node there is no certificate. *)
Definition decentral_apart (fuel : nat) (mc_node sc_node1 : proxy) : MF unit :=
  let! l := get_sc_nodes in
  do! disconnect_sc_nodes_bi l 2 3 in
  do! check_peers [(0, 1, "Sc Node 1 expect to have only 1 connection."); (1, 2, "Sc Node 2 expect to only 2 connection.");
                   (2, 1, "Sc Node 3 expect to only 1 connection."); (3, 0, "Sc Node 4 expect to have no connections.")] in
  do! epoch_over mc_node sc_node1 8 false in
  awaited_size fuel mc_node sc_node1 15 0 "Certificate was added to Mc node mempool.".

Definition SCCertSubmissionDecentralization_run_test (fuel : nat) : MF unit :=
  let! mc_node := mc 0 in
  let! sc_node1 := sc 0 in
  do! sc 1 in
  let! sc_node3 := sc 2 in
  let! sc_node4 := sc 3 in
  do! decentral_connected fuel sc_node1 sc_node3 sc_node4 in
  do! forM_ (zip (zrange 0 4) decentral_nodes) (λ '(i, (submitter, signing, _)), check_roles i submitter signing) in
  do! epoch_over mc_node sc_node1 9 true in
  do! awaited_size fuel mc_node sc_node1 15 1 "Certificate was not added to Mc node mempool." in
  do! certificate_of_all mc_node sc_node1 true in
  do! decentral_apart fuel mc_node sc_node1 in
  do! connect_sc_nodes fuel sc_node3 3 (secs 25) in
  do! sc_sync_all fuel false in
  do! awaited_size fuel mc_node sc_node1 20 1 "Certificate was not added to Mc node mmepool." in
  certificate_of_all mc_node sc_node1 false.

Definition SCCertSubmissionDecentralization (fuel : nat) (o : Options) (shared : SCForgerConfiguration) : TestClass W :=
  args_scenario fuel o cert_node_args 4 (SCCertSubmissionDecentralization_sc_setup_chain o shared)
    (SCCertSubmissionDecentralization_run_test fuel).
End PendingCerts.
