(* ===== verification/NodeInfoScenarios.v ===== *)
(** * Scenarios: what nodes say of themselves

    sc_node_info.py, sc_evm_node_info.py and sc_evm_multiple_cert_submitters.py: two
    nodes sign the certificate of the first epoch; then the answers of [node_info] are
    checked, or the logs of two nodes that both submit. *)

From S2P Require Import Prelude PyStr Numbers PyVal Host Sim Json Encoding HttpProxy BootInfo McUtil ScUtil.
From S2P Require Import Forging Bootstrap Framework AccountSetup McFramework HttpCalls AccountCalls AccountUtil.
From Stdlib Require Import Ascii String QArith.
From stdpp Require Import base list.
From S2P Require Import Scenarios ForgingScenarios StakeScenarios ChainScenarios MempoolScenarios CertScenarios EvmScenarios.
From S2P Require Import BackwardScenarios CertificateScenarios ForgerScenarios PendingCertScenarios.
Local Open Scope Z_scope.

(** ** The checks of an answer *)

(** [assert_true(info[field], message)] asks for a value that is not empty; only
    [assert_equal(info[field], value)] compares. *)
Inductive InfoCheck :=
| Present (message : pyval)
| Exactly (value : pyval).

Definition check_info_field (info : pyval) (c : string * InfoCheck) : outcome unit :=
  let? v := getitem info c.1 in
  match c.2 with
  | Present message => assert_true (truthy v) (py_str message)
  | Exactly value => assert_equal v value ""
  end.

Fixpoint check_info_fields (info : pyval) (cs : list (string * InfoCheck)) : outcome unit :=
  match cs with
  | [] => Val tt
  | c :: cs' => let? _ := check_info_field info c in check_info_fields info cs'
  end.

(** [list(info.keys()).__len__()] *)
Definition keys_number (info : pyval) : outcome Z :=
  match info with PDict d => Val (Z.of_nat (length d)) | _ => Exc (AttributeError "keys") end.

(** The checks of one answer, and that it has fields at all. *)
Definition check_node_info (cs : list (string * InfoCheck)) (n : Z) (info : pyval) : outcome unit :=
  let? _ := check_info_fields info cs in
  let? k := keys_number info in
  assert_true (negb (k =? 0)) (str_of_Z n).

Definition ceasing_name (info : SCBootstrapInfo) : string := if is_non_ceasing info then "non ceasing" else "ceasing".

(** The fields up to the stake, which both models have. *)
Definition common_checks (info : SCBootstrapInfo) (name type model : string) : list (string * InfoCheck) :=
  [("nodeName", Present (PStr name)); ("nodeType", Present (PStr type)); ("protocolVersion", Present (PStr "0.0.1"));
   ("agentName", Present (PStr "2-Hop")); ("sdkVersion", Present (PStr "sdkVersion should be present"));
   ("scId", Present (sidechain_id info)); ("scType", Present (PStr (ceasing_name info)));
   ("scModel", Present (PStr model)); ("scBlockHeight", Present (PInt 5)); ("scConsensusEpoch", Present (PInt 2));
   ("epochForgersStake", Present (PInt 10000000000))].

(** The epoch, the network, the last reference and the peers. *)
Definition chain_checks (info : SCBootstrapInfo) (mcblock_hash : pyval) : list (string * InfoCheck) :=
  [("scWithdrawalEpochLength", Present (PInt (withdrawal_epoch_length info))); ("scWithdrawalEpochNum", Exactly (PInt 1));
   ("scEnv", Present (network info)); ("lastMcBlockReferenceHash", Present mcblock_hash);
   ("numberOfPeers", Present (PInt 1)); ("numberOfConnectedPeers", Present (PInt 1));
   ("numberOfBlacklistedPeers", Exactly (PInt 0))].

(** The last certificate. *)
Definition certificate_checks (quality min_amount : Z) : list (string * InfoCheck) :=
  [("lastCertEpoch", Exactly (PInt 0)); ("lastCertQuality", Exactly (PInt quality)); ("lastCertBtrFee", Exactly (PInt 0));
   ("lastCertFtMinAmount", Exactly (PInt min_amount)); ("lastCertHash", Present (PStr "lastCertHash should be present"));
   ("errors", Exactly (PList []))].

Definition utxo_info_checks (info : SCBootstrapInfo) (mcblock_hash : pyval) (name type : string)
    : list (string * InfoCheck) :=
  common_checks info name type "UTXO" ++ chain_checks info mcblock_hash
  ++ [("numOfTxInMempool", Exactly (PInt 0)); ("mempoolUsedSizeKBytes", Exactly (PInt 0));
      ("mempoolUsedPercentage", Exactly (PInt 0))]
  ++ certificate_checks (Z.of_nat (length (public_signing_keys (certificate_proof_info info)))) 0.

Definition evm_info_checks (info : SCBootstrapInfo) (mcblock_hash : pyval) (name type : string)
    : list (string * InfoCheck) :=
  common_checks info name type "Account" ++ [("nextBaseFee", Present (PInt 512908936))] ++ chain_checks info mcblock_hash
  ++ [("maxMemPoolSlots", Present (PInt DEFAULT_MAX_MEMPOOL_SLOTS)); ("numOfTxInMempool", Exactly (PInt 0));
      ("executableTxSize", Exactly (PInt 0)); ("nonExecutableTxSize", Exactly (PInt 0))]
  ++ certificate_checks 6 54.

Section NodeInfo.
Context {W : Type} `{Nodes W, Clock W, Os W, Rng W} `{EthUtils, EthHex}.
Local Abbreviation MF := (M (FW W)).

(** ** Shared parts *)

(** The end of the first epoch and the first block of the next, each with its reference. *)
Definition first_epoch_over (mc_node sc_node : proxy) : MF unit :=
  let! hashes := call mc_node "generate" [PInt 8] in
  let% epoch_end := getindex hashes 7 in
  let! id2 := first_block sc_node false in
  do! check_mcreferencedata_presence epoch_end id2 sc_node in
  let! hash := mine mc_node in
  let! id3 := forge sc_node in
  check_mcreference_presence hash id3 sc_node.

(** The certificate is in the memory pool, then in a block with its reference: the hash. *)
Definition certificate_in_block (fuel : nat) (mc_node sc_node : proxy) : MF pyval :=
  do! sleep (secs 10) in
  do! wait_quietly fuel mc_node sc_node in
  let! size := mc_pool_size mc_node in
  do% assert_equal (PInt 1) size "Certificate was not added to Mc node mempool." in
  let! hash := mine mc_node in
  let! id := first_block sc_node false in
  do! check_mcreferencedata_presence hash id sc_node in
  ret hash.

(** Both nodes are asked before the first answer is checked. *)
Definition check_both_infos (sc1 sc2 : proxy) (first second : SCBootstrapInfo → list (string * InfoCheck)) (n : Z)
    : MF unit :=
  let! r1 := call sc1 "node_info" [] in
  let% info1 := getitem r1 "result" in
  let! r2 := call sc2 "node_info" [] in
  let% info2 := getitem r2 "result" in
  let! info := boot_info in
  do% check_node_info (first info) n info1 in
  lift (check_node_info (second info) n info2).

(** ** sc_node_info.py *)

Definition signer_only_configuration (shared : SCForgerConfiguration) (connection : MCConnectionInfo) : SCNodeConfiguration :=
  SCNodeConfiguration_init connection false true None 100 100 "2m" true
    (PFloat (float_of_dec (Dec 1 (-4)))) shared 300 0 DEFAULT_API_KEY 10000000 [] false PNone [] None [] "15m" "5m"
    false 0 true DEFAULT_MAX_NONCE_GAP DEFAULT_MAX_ACCOUNT_SLOTS DEFAULT_MAX_MEMPOOL_SLOTS
    DEFAULT_MAX_NONEXEC_POOL_SLOTS DEFAULT_TX_LIFETIME true true.

Definition SCNodeInfo_sc_setup_chain (o : Options) (shared : SCForgerConfiguration) : MF unit :=
  twin_chain o shared 100 10 (λ c, SCNodeConfiguration_defaults c shared) (signer_only_configuration shared)
    DefaultBlockTimestampRewind.

Definition SCNodeInfo_run_test (fuel : nat) : MF unit :=
  do! sleep 100000 in
  let! mc_node := mc 0 in
  let! sc1 := sc 0 in
  let! sc2 := sc 1 in
  do! connect_sc_nodes fuel sc1 1 (secs 25) in
  let! hash1 := mine mc_node in
  let! id1 := forge sc1 in
  do! check_mcreferencedata_presence hash1 id1 sc1 in
  do! first_epoch_over mc_node sc1 in
  let! hash := certificate_in_block fuel mc_node sc1 in
  check_both_infos sc1 sc2 (λ i, utxo_info_checks i hash "node0" "signer,submitter")
    (λ i, utxo_info_checks i hash "node1" "signer") 27.

Definition SCNodeInfo (fuel : nat) (o : Options) (shared : SCForgerConfiguration) : TestClass W :=
  scenario fuel o 1 2 (SCNodeInfo_sc_setup_chain o shared) (SCNodeInfo_run_test fuel).

(** ** sc_evm_node_info.py *)

(** Two nodes with three keys each; whether the second one submits too. *)
Definition evm_signers_chain (o : Options) (shared : SCForgerConfiguration) (second_submits : bool) : MF unit :=
  let! mc_node := mc 0 in
  let! connection_1 := ws_connection mc_node 0 in
  let! connection_2 := ws_connection mc_node 0 in
  let% sci := SCCreationInfo_init mc_node (PInt 100) 10 0 SC_CREATION_VERSION_2 7 5 false true KEY_ROTATION_CIRCUIT in
  let! info := bootstrap_sidechain_nodes (run_options_of o) (mkSCNetworkConfiguration sci
    [evm_pending_configuration shared true [0; 1; 2] connection_1;
     evm_pending_configuration shared second_submits [3; 4; 5] connection_2]) evm_rewind AccountModel in
  put_info info.

(** Ten coins arrive; the nodes are connected and [check] asks them about submitting. *)
Definition evm_signers_start (fuel : nat) (check : proxy → proxy → MF unit) : MF (proxy * proxy * proxy) :=
  do! sleep 100000 in
  let% zennies := convertZenToZennies (PInt 10) in
  let% wei := convertZenniesToWei (PInt zennies) in
  let! s := sc_ac_setup fuel true true (PInt 10) in
  let! mc_node := mc 0 in
  let! sc1 := sc 0 in
  let! sc2 := sc 1 in
  do! connect_sc_nodes fuel sc1 1 (secs 25) in
  do! check sc1 sc2 in
  let% address := remove_0x_prefix (ac_evm_address s) in
  let! new_balance := AccountCalls.http_wallet_balance sc1 address PNone in
  do% assert_equal new_balance (PInt wei) "wrong balance" in
  do! first_epoch_over mc_node sc1 in
  ret (mc_node, sc1, sc2).

Definition only_first_submits (sc1 sc2 : proxy) : MF unit :=
  let! enabled := submitter_enabled sc1 in
  do% assert_true (truthy enabled) "sc node1 should be submitter" in
  let! enabled := submitter_enabled sc2 in
  lift (assert_false (truthy enabled) "sc node2 should not be submitter").

Definition SCEvmNodeInfo_run_test (fuel : nat) : MF unit :=
  let! '(mc_node, sc1, sc2) := evm_signers_start fuel only_first_submits in
  let! hash := certificate_in_block fuel mc_node sc1 in
  check_both_infos sc1 sc2 (λ i, evm_info_checks i hash "node0" "signer,submitter")
    (λ i, evm_info_checks i hash "node0" "signer") 29.

Definition evm_signers_class (fuel : nat) (o : Options) (shared : SCForgerConfiguration) (second_submits : bool)
    (test : MF unit) : TestClass W :=
  let a := ac_defaults 2 10 evm_rewind None 100 true DEFAULT_TX_LIFETIME in
  mkTestClass W (default_setup_chain o) (ac_setup_network fuel o a) (evm_signers_chain o shared second_submits)
    (ac_sc_setup_network fuel o a) test.

Definition SCEvmNodeInfo (fuel : nat) (o : Options) (shared : SCForgerConfiguration) : TestClass W :=
  evm_signers_class fuel o shared false (SCEvmNodeInfo_run_test fuel).

(** ** sc_evm_multiple_cert_submitters.py *)

(** The loop that waits for a certificate, which also pings the first node. *)
Fixpoint wait_either_pinging (fuel : nat) (mc_node sc1 sc2 : proxy) : MF unit :=
  match fuel with
  | O => out_of_fuel
  | S f =>
      let! size := mc_pool_size mc_node in
      let% empty := py_lt size (PInt 1) in
      if empty then
        let! active := either_generating sc1 sc2 in
        if active then
          do! generating sc1 in
          do! generating sc2 in
          do! sleep (secs 2) in
          do! call sc1 "block_best" [] in
          wait_either_pinging f mc_node sc1 sc2
        else ret tt
      else ret tt
  end.

Definition evm_submission_not_needed_msg : string := "Submission not needed. Certificate already present in epoch 0".

(** One node submitted, the other found that it need not. *)
Definition evm_one_submitted (log0 log1 : string) : bool :=
  (str_contains evm_submission_not_needed_msg log0 && str_contains submission_successful log1)
  || (str_contains evm_submission_not_needed_msg log1 && str_contains submission_successful log0).

Definition evm_check_logs (o : Options) : MF unit :=
  let! log0 := read_file (op_tmpdir o +:+ "/sc_node0/log/debugLog.txt") in
  let! log1 := read_file (op_tmpdir o +:+ "/sc_node1/log/debugLog.txt") in
  lift (assert_true (evm_one_submitted log0 log1) "").

Definition SCEvmMultipleCertSubmittersTest_run_test (fuel : nat) (o : Options) : MF unit :=
  let! '(mc_node, sc1, sc2) := evm_signers_start fuel (λ sc1 sc2,
    do! submitter_enabled sc1 in
    do! submitter_enabled sc2 in
    ret tt) in
  do! sleep (secs 10) in
  do! wait_either_pinging fuel mc_node sc1 sc2 in
  let! size := mc_pool_size mc_node in
  do% assert_equal (PInt 1) size "Certificate was not added to Mc node mempool." in
  do! wait_idle fuel sc1 sc2 in
  evm_check_logs o.

Definition SCEvmMultipleCertSubmittersTest (fuel : nat) (o : Options) (shared : SCForgerConfiguration) : TestClass W :=
  evm_signers_class fuel o shared true (SCEvmMultipleCertSubmittersTest_run_test fuel o).
End NodeInfo.

(** ** What the checks of the answers notice *)

(** What each check asks of a value. *)
Definition info_ok (info : pyval) (c : string * InfoCheck) : Prop :=
  ∃ v, getitem info c.1 = Val v ∧
    match c.2 with Present _ => truthy v = true | Exactly value => py_eqb v value = true end.

Lemma check_info_field_ok info c : check_info_field info c = Val tt ↔ info_ok info c.
Proof.
  destruct c as [k [m | e]]; unfold check_info_field, info_ok; cbn; destruct (getitem info k) as [v | x |]; cbn;
    try (split; [done | by intros (? & ? & ?)]).
  - unfold assert_true. destruct (truthy v) eqn:E.
    + split; [by eauto | done].
    + split; [done |]. intros (v' & [= <-] & Ht). congruence.
  - unfold assert_equal, py_neqb. destruct (py_eqb v e) eqn:E; cbn.
    + split; [by eauto | done].
    + split; [done |]. intros (v' & [= <-] & Ht). congruence.
Qed.

(** An answer passes exactly when every field is there, those that are compared have their
    value, and the others are not empty. *)
Theorem check_info_fields_spec info cs : check_info_fields info cs = Val tt ↔ Forall (info_ok info) cs.
Proof.
  induction cs as [| c cs IH]; cbn; [by split; [constructor | done] |].
  rewrite Forall_cons, <- IH, <- check_info_field_ok.
  destruct (check_info_field info c) as [[] | x |]; cbn; naive_solver.
Qed.

(** The answer that has the same text in every field that is not compared. *)
Definition uniform_info (s : string) (cs : list (string * InfoCheck)) : pyval :=
  PDict (map (λ c, (c.1, match c.2 with Present _ => PStr s | Exactly value => value end)) cs).

(** A check of a value that equals itself. *)
Definition reflexive_check (c : string * InfoCheck) : Prop :=
  match c.2 with Present _ => True | Exactly value => py_eqb value value = true end.

Lemma uniform_info_get s cs c :
  NoDup (map fst cs) → c ∈ cs →
  getitem (uniform_info s cs) c.1 = Val (match c.2 with Present _ => PStr s | Exactly value => value end).
Proof.
  induction cs as [| c' cs IH]; cbn; [by intros _ ?%elem_of_nil |].
  intros [Hn Hd]%NoDup_cons Hc. destruct (decide (c.1 = c'.1)) as [E | N].
  - apply elem_of_cons in Hc as [-> | Hc]; [done |].
    destruct Hn. rewrite <- E. by apply list_elem_of_fmap_2.
  - apply elem_of_cons in Hc as [-> | Hc]; [done |]. by apply IH.
Qed.

(** Such an answer passes the checks. *)
Lemma uniform_info_passes s cs :
  s ≠ "" → NoDup (map fst cs) → Forall reflexive_check cs → check_info_fields (uniform_info s cs) cs = Val tt.
Proof.
  intros Hs Hd Hr. apply check_info_fields_spec, Forall_forall. intros c Hc.
  eexists. split; [by apply uniform_info_get |].
  rewrite Forall_forall in Hr. specialize (Hr c Hc). unfold reflexive_check in Hr.
  destruct c as [k [m | e]]; cbn in *; [by destruct s | done].
Qed.

(** With one text for the name, the type, the version, the sidechain, the height, the
    network and the hash of the mainchain block, the checks of both nodes pass: the
    expected values are only the messages of the assertions. *)
Theorem wrong_node_info_unnoticed info hash name type s :
  s ≠ "" →
  check_node_info (utxo_info_checks info hash name type) 27 (uniform_info s (utxo_info_checks info hash name type)) = Val tt
  ∧ check_node_info (evm_info_checks info hash name type) 29 (uniform_info s (evm_info_checks info hash name type)) = Val tt.
Proof.
  intros Hs. unfold check_node_info. split.
  - rewrite uniform_info_passes; [done | done | |].
    + apply (bool_decide_unpack _). by vm_compute.
    + repeat constructor; cbn. by apply Qeq_bool_iff.
  - rewrite uniform_info_passes; [done | done | |].
    + apply (bool_decide_unpack _). by vm_compute.
    + by repeat constructor.
Qed.
