(* ===== verification/FeeMarketScenarios.v ===== *)
(** * Scenarios: the price of gas and the tags of blocks

    sc_evm_gasPrice.py, sc_evm_feeHistory.py and sc_evm_rpc_block_tags.py: the price a node
    suggests, the history of fees over a window of blocks, and requests about the
    earliest, safe, finalized, pending and latest block. *)

From S2P Require Import Prelude PyStr Numbers PyVal Host Sim Json Encoding HttpProxy BootInfo McUtil ScUtil.
From S2P Require Import Forging Bootstrap Framework AccountSetup McFramework HttpCalls AccountCalls AccountUtil SmartContract.
From Stdlib Require Import Ascii String.
From stdpp Require Import base list.
From S2P Require Import Scenarios ForgingScenarios StakeScenarios ChainScenarios MempoolScenarios CertScenarios EvmScenarios CswScenarios.
From S2P Require Import EvmRotationScenarios ForgerScenarios EvmForgerScenarios NativeForgerScenarios OwnershipScenarios SeederScenarios.
From S2P Require Import CertificateScenarios EvmMempoolScenarios InteropScenarios TokenScenarios EvmStateScenarios.
Local Open Scope Z_scope.

(** ** Numbers *)

Definition maxPrice : Z := 500000000000.

(** The base fee and the tip, at most [maxPrice]. *)
Definition expected_price (base_fee minerFee : Z) : Z :=
  if minerFee >? maxPrice then base_fee + maxPrice else base_fee + minerFee.

(** The oldest block of a history that ends with the tip, and how many blocks it has. *)
Definition oldest_block (block_count sc_height : Z) : Z :=
  if sc_height >? block_count then sc_height - block_count + 1 else 1.
Definition expected_result_length (block_count sc_height : Z) : Z := Z.min block_count sc_height.

Definition as_number (v : pyval) : outcome Z := of_opt TypeError (as_int v).

(** The coins that are left when [n] transfers are paid. *)
Definition balance_used (gas_price value n : Z) : Z := (gas_price * 21000 + value) * n.
Definition pending_balance (balance : string) (gas_price value n : Z) : outcome pyval :=
  let? b := py_int_base (PStr balance) 16 in
  Val (PStr (hex (b - balance_used gas_price value n))).

Section FeeMarket.
Context {W : Type} `{Nodes W, Clock W, Os W, Rng W} `{EthUtils, EthAbi, EthHash, EthHex, EthSelectors, EthBloom}.
Local Abbreviation MF := (M (FW W)).

(** ** sc_evm_gasPrice.py *)

Definition do_send_raw_tx (sc_node : proxy) (raw_tx evm_signer_address : pyval) : MF pyval :=
  let! signed_raw_tx := signTransaction sc_node evm_signer_address raw_tx PNone in
  AccountCalls.sendTransaction sc_node signed_raw_tx PNone.

Definition do_check_gas_price (sc_node : proxy) (minerFee generate_blocks : Z) : MF unit :=
  do! when (generate_blocks >? 0) (do! generate_next_blocks sc_node "first node" generate_blocks in ret tt) in
  let! r := call sc_node "rpc_eth_getBlockByNumber" [PStr "latest"; PBool true] in
  let% fee := getpath r ["result"; "baseFeePerGas"] in
  let% base_fee := py_int_base fee 16 in
  let! r := call sc_node "rpc_eth_gasPrice" [] in
  let% price := getitem r "result" in
  let% found := py_int_base price 16 in
  lift (assert_equal (PInt (expected_price base_fee minerFee)) (PInt found) "").

(** One transfer, made, signed and sent. *)
Definition priced_transfer (sc_node : proxy) (address1 address2 : pyval) (priority fee nonce : Z) : MF unit :=
  let% wei := convertZenToWei (PDec (Dec 12 (-1))) in
  let! raw_tx := createRawEIP1559Transaction sc_node
    (mkTxArgs address1 address2 (PStr (str_of_Z nonce)) (PInt 230000) (PInt wei) (PStr "") PNone PNone PNone)
    (PInt priority) (PInt fee) PNone in
  do! do_send_raw_tx sc_node raw_tx address1 in
  ret tt.

(** Ten blocks with five transfers each. *)
Definition cheap_blocks (sc_node : proxy) (address1 address2 : pyval) (priority : Z) : MF unit :=
  forM_ (zrange 0 10) (λ j,
    do! forM_ (zrange 0 5) (λ i, priced_transfer sc_node address1 address2 priority 900000000 (5 * j + i)) in
    do! generate_next_block sc_node "first node" false PNone in
    ret tt).

(** Fifty blocks with one transfer each. *)
Definition expensive_blocks (sc_node : proxy) (address1 address2 : pyval) (priority : Z) : MF unit :=
  forM_ (zrange 0 10) (λ j, forM_ (zrange 0 5) (λ i,
    do! priced_transfer sc_node address1 address2 priority priority (50 + 5 * j + i) in
    do! generate_next_block sc_node "first node" false PNone in
    ret tt)).

Definition SCEvmGasPrice_run_test (fuel : nat) : MF unit :=
  let! s := sc_ac_setup fuel true true (PDec (Dec 10000 (-1))) in
  let! sc_node := sc 0 in
  let% address1 := remove_0x_prefix (ac_evm_address s) in
  let! address2 := new_evm_address sc_node in
  do! do_check_gas_price sc_node 0 1 in
  do! cheap_blocks sc_node address1 address2 1500000 in
  let! r := call sc_node "rpc_eth_getBlockByNumber" [PStr "latest"; PBool false] in
  let% txs := getpath r ["result"; "transactions"] in
  let% n := py_len txs in
  do% assert_true (n =? 5) "" in
  do! do_check_gas_price sc_node 1500000 0 in
  do! do_check_gas_price sc_node 1500000 40 in
  let! mc_node := mc 0 in
  do! call mc_node "generate" [PInt 1] in
  do! expensive_blocks sc_node address1 address2 600000000000 in
  do_check_gas_price sc_node 600000000000 0.

Definition SCEvmGasPrice (fuel : nat) (o : Options) (shared : SCForgerConfiguration) : TestClass W :=
  AccountChainSetup_class fuel o (ac_simple 1 80) shared (SCEvmGasPrice_run_test fuel).

(** ** sc_evm_feeHistory.py *)

(** [rpc_eth_feeHistory(hex(count), newest, percentiles)['result']] is asked for where the
    script reads it; here the whole reply. *)
Definition fee_history (sc_node : proxy) (count : Z) (newest : string) (percentiles : list pyval) : MF pyval :=
  call sc_node "rpc_eth_feeHistory" [PStr (hex count); PStr newest; PList percentiles].

Definition quartiles : list pyval := [PFloat (float_of_dec (Dec 250 (-1))); PFloat (float_of_dec (Dec 750 (-1)))].

(** [assert_equal(n, len(history['result'][field]))] *)
Definition history_length (history : pyval) (field : string) (n : Z) : MF unit :=
  let% l := getpath history ["result"; field] in
  let% k := py_len l in
  lift (assert_equal (PInt n) (PInt k) "").

(** The oldest block and the lengths of the lists: one more base fee than blocks. *)
Definition check_window (history : pyval) (oldest n : Z) : MF unit :=
  let% found := getpath history ["result"; "oldestBlock"] in
  do% assert_equal (PStr (hex oldest)) found "" in
  do! history_length history "baseFeePerGas" (n + 1) in
  history_length history "gasUsedRatio" n.

(** The history is the same on both nodes, and with both tags. *)
Definition histories_agree (sc1 sc2 : proxy) : MF unit :=
  let! b := best sc1 in
  let% height := getitem b "height" in
  let% sc_height := as_number height in
  let! pending1 := fee_history sc1 16 "pending" quartiles in
  let! pending2 := fee_history sc2 16 "pending" quartiles in
  let! latest1 := fee_history sc1 16 "latest" quartiles in
  let! latest2 := fee_history sc2 16 "latest" quartiles in
  let same := "fee history should be equal among connected nodes" in
  let% p1 := getitem pending1 "result" in
  let% p2 := getitem pending2 "result" in
  do% assert_equal p1 p2 same in
  let% l1 := getitem latest1 "result" in
  let% l2 := getitem latest2 "result" in
  do% assert_equal l1 l2 same in
  do% assert_equal p1 l1 "fee history should be equal for pending and latest block tag" in
  let n := expected_result_length 16 sc_height in
  do! check_window pending1 (oldest_block 16 sc_height) n in
  history_length pending1 "reward" n.

(** One block in the middle, and the blocks before the genesis block, which are not there. *)
Definition history_of (sc_node : proxy) (count : Z) (newest : string) (oldest n : Z) : MF unit :=
  let! history := fee_history sc_node count newest [] in
  do! check_window history oldest n in
  let% reward := getpath history ["result"; "reward"] in
  lift (assert_equal PNone reward "").

Definition SCEvmFeeHistory_run_test (fuel : nat) : MF unit :=
  let! sc1 := sc 0 in
  let! sc2 := sc 1 in
  let! address1 := new_evm_address sc1 in
  let! address2 := new_evm_address sc2 in
  do! coins_for address1 coins_500 in
  do! coins_for address2 coins_500 in
  do! sync_all fuel in
  do! forge_synced fuel sc1 "first node" false in
  do! mempool_forger fuel sc1 sc2 address1 in
  do! send_common sc1 sc2 address1 address2 1 0 10 in
  do! forge_synced fuel sc1 "first node" false in
  do! send_many sc1 address1 address2 11 3 in
  do! forge_synced fuel sc1 "first node" false in
  do! send_many sc2 address2 address1 10 5 in
  do! forge_synced fuel sc2 "second node" false in
  do! histories_agree sc1 sc2 in
  do! history_of sc1 1 (hex 5) 5 1 in
  history_of sc1 3 "earliest" 1 1.

Definition SCEvmFeeHistory (fuel : nat) (o : Options) (shared : SCForgerConfiguration) : TestClass W :=
  AccountChainSetup_class fuel o (ac_simple 2 LARGE_WITHDRAWAL_EPOCH_LENGTH) shared (SCEvmFeeHistory_run_test fuel).

(** ** sc_evm_rpc_block_tags.py *)

Definition tag_response (response expected : pyval) (expect_error : bool) : MF unit :=
  let% there := has_key "error" response in
  if expect_error then lift (assert_true there "")
  else
    do% assert_false there "" in
    let% r := getitem response "result" in
    lift (assert_equal expected r "unexpected response").

(** The answers that are expected with a tag. *)
Record TagAnswers := mkTagAnswers {
  ta_Balance : pyval;
  ta_TransactionCount : pyval;
  ta_BlockTransactionCount : pyval;
  ta_Block : pyval;
  ta_TransactionByIndex : pyval
}.

Definition is_none (v : pyval) : bool := match v with PNone => true | _ => false end.

(** There is no safe or final block among the first hundred. *)
Definition has_block (sc1 : proxy) (tag : string) : MF bool :=
  if String.eqb tag "safe" || String.eqb tag "finalized" then
    let! b := best sc1 in
    let% height := getitem b "height" in
    let% low := py_le height (PInt 100) in
    ret (negb low)
  else ret true.

Definition check_tag_answers (node : proxy) (evm_address : pyval) (tag : string) (there : bool) (e : TagAnswers) : MF unit :=
  let! res_balance := call node "rpc_eth_getBalance" [evm_address; PStr tag] in
  let! res_tx_count := call node "rpc_eth_getTransactionCount" [evm_address; PStr tag] in
  let! res_block_tx_count := call node "rpc_eth_getBlockTransactionCountByNumber" [PStr tag] in
  let! r := call node "rpc_eth_getBlockByNumber" [PStr tag; PBool false] in
  let% res_block := getitem r "result" in
  let! r := call node "rpc_eth_getTransactionByBlockNumberAndIndex" [PStr tag; PStr "0x0"] in
  let% res_tx_by_idx := getitem r "result" in
  do! tag_response res_balance (ta_Balance e) (is_none (ta_Balance e)) in
  do! tag_response res_tx_count (ta_TransactionCount e) (is_none (ta_TransactionCount e)) in
  do! tag_response res_block_tx_count (ta_BlockTransactionCount e) false in
  let% index := (if is_none res_tx_by_idx then Val PNone else getitem res_tx_by_idx "transactionIndex") in
  do% assert_equal (ta_TransactionByIndex e) index "" in
  let% found := (if there then getitem res_block (if String.eqb tag "earliest" then "parentHash" else "number")
                 else Val res_block) in
  lift (assert_equal (ta_Block e) found "").

Definition send_and_assert_tag_rpc_methods (evm_address : pyval) (tag : string) (e : TagAnswers) : MF unit :=
  do! when (negb (existsb (String.eqb tag) ["earliest"; "safe"; "finalized"; "pending"; "latest"]))
    (raise (GenericException "Tag passed is invalid.")) in
  let! sc1 := sc 0 in
  let! there := has_block sc1 tag in
  let! l := get_sc_nodes in
  forM_ l (λ node, check_tag_answers node evm_address tag there e).

(** The hash of a transaction of the block with the tag. *)
Definition tagged_tx_hash (node : proxy) (tag : string) (i : Z) : MF pyval :=
  let! r := call node "rpc_eth_getBlockByNumber" [PStr tag; PBool true] in
  let% txs := getpath r ["result"; "transactions"] in
  let% tx := getindex txs i in
  lift (getitem tx "hash").

(** [contract.Bytecode[0:19] in code] *)
Definition starts_in (bytecode code : pyval) : outcome bool :=
  let? b := as_str "" bytecode in
  let? c := as_str "" code in
  Val (str_contains (substring 0 19 b) c).

(** The contract is estimated, deployed and asked with a tag. *)
Definition tagged_deployment (node : proxy) (evm_address : pyval) (tag : string) (next_block : bool) : MF Deployed :=
  let! c := SmartContract_init "TestERC20" in
  let! pending := SmartContract_estimate_gas c node "constructor" [] evm_address PNone PNone PNone (PInt 0) PNone (PStr "pending") in
  let! latest := SmartContract_estimate_gas c node "constructor" [] evm_address PNone PNone PNone (PInt 0) PNone (PStr "latest") in
  do% assert_equal pending latest "" in
  let! r := call node "rpc_eth_getCode" [evm_address; PStr tag] in
  let% code := getitem r "result" in
  do% assert_equal (PStr "0x") code "" in
  let! address := deploy_smart_contract node c evm_address [] RPC_LEGACY next_block in
  let! r := call node "rpc_eth_getCode" [address; PStr tag] in
  let% code := getitem r "result" in
  let% there := starts_in (Bytecode c) code in
  do% assert_true there "" in
  ret (mkDeployed c address).

Definition do_contract_call_tests (fuel : nat) (node : proxy) (evm_address : pyval) (tag : string) (secondAddress : pyval)
    : MF unit :=
  do! when (negb (existsb (String.eqb tag) ["pending"; "latest"])) (raise (GenericException "Tag passed is invalid.")) in
  do! forge_synced fuel node "first node" true in
  let next_block := negb (String.eqb tag "pending") in
  let! d := tagged_deployment node evm_address tag next_block in
  let! res := contract_function_static_call node (d_contract d) (d_address d) evm_address "totalSupply()" [] (PInt 0)
    (PStr tag) false false in
  let% supply := getindex res 0 in
  do% assert_equal (PInt 100) supply "" in
  let! tx_hash := contract_function_call node (d_contract d) (d_address d) evm_address "transfer(address,uint256)"
    [secondAddress; PInt 10] (PInt 0) (PInt 500000) (PStr tag) in
  do! when next_block (forge_synced fuel node "first_node" false) in
  let! found := tagged_tx_hash node tag (if next_block then 0 else 1) in
  do% assert_equal tx_hash found "" in
  let! res := contract_function_static_call node (d_contract d) (d_address d) secondAddress "balanceOf(address)"
    [secondAddress] (PInt 0) (PStr "pending") false false in
  let% balance := getindex res 0 in
  lift (assert_equal (PInt 10) balance "").

(** Before any transaction: the tags on a chain of two blocks. *)
Definition tags_at_start (evm_address : pyval) (ft_wei : string) : MF unit :=
  let zero := PStr "0x0" in
  do! send_and_assert_tag_rpc_methods evm_address "earliest" (mkTagAnswers zero zero zero (PStr ("0x" +:+ zeros 64)) PNone) in
  let answers block := mkTagAnswers (PStr ft_wei) zero zero (PStr block) PNone in
  do! send_and_assert_tag_rpc_methods evm_address "pending" (answers "0x3") in
  do! send_and_assert_tag_rpc_methods evm_address "latest" (answers "0x2") in
  let none := mkTagAnswers PNone PNone PNone PNone PNone in
  do! send_and_assert_tag_rpc_methods evm_address "safe" none in
  send_and_assert_tag_rpc_methods evm_address "finalized" none.

(** Four transfers are in the pending block, and in the latest one when it is forged. *)
Definition tags_of_transfers (fuel : nat) (sc1 : proxy) (evm_address address1 address2 : pyval) (ft_wei : string) : MF unit :=
  let! hashes := mmap (λ nonce,
    let! id := send_plain sc1 address1 address2 nonce in
    lift (add_0x_prefix id)) (zrange 0 4) in
  let! r := call sc1 "rpc_eth_getBlockByNumber" [PStr "pending"; PBool false] in
  let% found := getpath r ["result"; "transactions"] in
  do% assert_equal (PList hashes) found "" in
  let! r := call sc1 "rpc_eth_getBlockByNumber" [PStr "pending"; PBool true] in
  let% txs := getpath r ["result"; "transactions"] in
  let% tx := getindex txs 0 in
  let% p := getitem tx "gasPrice" in
  let% gas_price := py_int_base p 16 in
  let% v := getitem tx "value" in
  let% value := py_int_base v 16 in
  let% left := pending_balance ft_wei gas_price value (Z.of_nat (length hashes)) in
  let answers := mkTagAnswers left (PStr "0x4") (PStr "0x4") (PStr "0x3") (PStr "0x0") in
  do! send_and_assert_tag_rpc_methods evm_address "pending" answers in
  do! forge_synced fuel sc1 "first node" false in
  send_and_assert_tag_rpc_methods evm_address "latest" answers.

(** [rpc_debug_traceBlockByNumber(tag)['result']] *)
Definition trace_of (sc_node : proxy) (tag : string) : MF pyval :=
  let! r := call sc_node "rpc_debug_traceBlockByNumber" [PStr tag] in lift (getitem r "result").

Definition SCEvmRpcBlockTags_run_test (fuel : nat) : MF unit :=
  let! sc1 := sc 0 in
  let% wei := convertZenToWei coins_500 in
  let ft_wei := hex wei in
  let! s := sc_ac_setup fuel true true coins_500 in
  let evm_address := ac_evm_address s in
  let% address1 := remove_0x_prefix evm_address in
  let! address2 := new_evm_address sc1 in
  do! sc_sync_all fuel false in
  do! tags_at_start evm_address ft_wei in
  do! tags_of_transfers fuel sc1 evm_address address1 address2 ft_wei in
  let% second := add_0x_prefix address2 in
  do! do_contract_call_tests fuel sc1 evm_address "pending" second in
  let! traceBlock_pending := trace_of sc1 "pending" in
  let% n := py_len traceBlock_pending in
  do% assert_true (n >? 0) "" in
  do! forge_synced fuel sc1 "first node" false in
  let! traceBlock_latest := trace_of sc1 "latest" in
  do% assert_equal traceBlock_pending traceBlock_latest "" in
  let% second := add_0x_prefix address2 in
  do! do_contract_call_tests fuel sc1 evm_address "latest" second in
  let! r := call sc1 "rpc_eth_blockNumber" [] in
  let% number := getitem r "result" in
  let% height := py_int_base number 16 in
  do! generate_next_blocks sc1 "first node" (101 - height) in
  let zero := PStr "0x0" in
  let answers := mkTagAnswers zero zero zero (PStr "0x1") PNone in
  do! send_and_assert_tag_rpc_methods evm_address "safe" answers in
  send_and_assert_tag_rpc_methods evm_address "finalized" answers.

Definition SCEvmRpcBlockTags (fuel : nat) (o : Options) (shared : SCForgerConfiguration) : TestClass W :=
  AccountChainSetup_class fuel o (ac_simple 2 50) shared (SCEvmRpcBlockTags_run_test fuel).
End FeeMarket.

(** ** What the numbers mean *)

(** The blocks of the history end with the tip, begin not before the genesis block, and are
    as many as asked for when the chain has them. *)
Theorem history_window_spec block_count sc_height :
  0 < block_count → 0 < sc_height →
  let o := oldest_block block_count sc_height in
  let n := expected_result_length block_count sc_height in
  o + n = sc_height + 1 ∧ 1 ≤ o ≤ sc_height ∧ 0 < n ≤ block_count ∧ (n < block_count → o = 1).
Proof. intros Hc Hh. cbn zeta. unfold oldest_block, expected_result_length. destruct (Z.gtb_spec sc_height block_count); lia. Qed.

(** The price grows with the tip up to a limit above the base fee, and never beyond. *)
Theorem expected_price_spec base_fee minerFee :
  expected_price base_fee minerFee = base_fee + Z.min minerFee maxPrice.
Proof. unfold expected_price. destruct (Z.gtb_spec minerFee maxPrice); lia. Qed.
