(* ===== verification/CertFeeScenarios.v ===== *)
(** * Scenarios: fees of certificates, keys of an enclave, certificates of other sidechains

    sc_cert_fee_conf.py, sc_cert_submitter_secure_enclave.py and
    sc_versions_and_mc_certs.py: the fee of a certificate as configured or by the rate of
    the mainchain node, a certificate signed with the keys of a server, and a mainchain
    block with the certificates of four sidechains. *)

From S2P Require Import Prelude PyStr Numbers PyVal Host Sim Json Encoding HttpProxy BootInfo McUtil ScUtil.
From S2P Require Import Forging Bootstrap Framework AccountSetup McFramework HttpCalls AccountUtil Tools.
From Stdlib Require Import Ascii String.
From stdpp Require Import base list.
From S2P Require Import Scenarios ForgingScenarios StakeScenarios ChainScenarios MempoolScenarios CertScenarios CswScenarios.
From S2P Require Import BackwardScenarios CertificateScenarios KeyRotationScenarios ForgerScenarios EvmForgerScenarios.
Local Open Scope Z_scope.

(** ** Fees *)

Definition EXPECTED_CERT_FEE : string := "0.00023".
Definition CUSTOM_FEE_RATE_ZAT_PER_BYTE : decimal := Dec 20 (-1).
Definition CUSTOM_FEE_RATE_ZEN_PER_KBYTE : decimal :=
  dec_mul (dec_div CUSTOM_FEE_RATE_ZAT_PER_BYTE (Dec COIN 0)) (Dec 1000 0).

Definition get_fee_rate (size fee : pyval) : outcome pyval :=
  let? zats := py_mul fee (PInt COIN) in
  py_truediv zats size.

(** [abs] of a decimal *)
Definition dec_abs (d : decimal) : decimal := dec_fix (Dec (Z.abs (d_coef d)) (d_exp d)).

Definition isclose (d1 d2 : pyval) (tolerance : decimal) : outcome bool :=
  let? dec1 := decimal_of d1 in
  let? dec2 := decimal_of d2 in
  let? difference := py_sub dec1 dec2 in
  match difference with
  | PDec d => py_le (PDec (dec_abs d)) (PDec tolerance)
  | _ => Exc TypeError
  end.

Section CertFee.
Context {W : Type} `{Nodes W, Clock W, Os W, Rng W} `{Remote W}.
Local Abbreviation MF := (M (FW W)).

(** ** sc_cert_fee_conf.py *)

Definition fee_configuration (shared : SCForgerConfiguration) (submitter automatic : bool) (certificate_fee : pyval)
    (connection : MCConnectionInfo) : SCNodeConfiguration :=
  SCNodeConfiguration_init connection submitter true None 100 100 "2m" automatic certificate_fee
    shared 300 0 DEFAULT_API_KEY 10000000 [] false PNone [] None [] "15m" "5m"
    false 0 true DEFAULT_MAX_NONCE_GAP DEFAULT_MAX_ACCOUNT_SLOTS DEFAULT_MAX_MEMPOOL_SLOTS
    DEFAULT_MAX_NONEXEC_POOL_SLOTS DEFAULT_TX_LIFETIME true true.

Definition CertFeeConfiguration_sc_setup_chain (o : Options) (shared : SCForgerConfiguration) : MF unit :=
  twin_chain o shared 100 10 (fee_configuration shared true false (PStr EXPECTED_CERT_FEE))
    (fee_configuration shared false true (PFloat (float_of_dec (Dec 1 (-4))))) DefaultBlockTimestampRewind.

Definition fee_node_args : list string :=
  ["-debug=sc"; "-logtimemicros=1"; "-paytxfee=" +:+ dec_str CUSTOM_FEE_RATE_ZEN_PER_KBYTE].

(** Which node submits. *)
Definition submitters_are (sc1 sc2 : proxy) (first : bool) : MF unit :=
  let! e1 := submitter_enabled sc1 in
  do% (if first then assert_true (truthy e1) "Node 1 submitter expected to be enabled."
       else assert_false (truthy e1) "Node 1 submitter expected to be disabled.") in
  let! e2 := submitter_enabled sc2 in
  lift (if first then assert_false (truthy e2) "Node 2 submitter expected to be disabled."
        else assert_true (truthy e2) "Node 2 submitter expected to be enabled.").

(** [mc_node.getrawmempool(True)[hash][field]] *)
Definition pool_entry (mc_node : proxy) (hash : pyval) (field : string) : MF pyval :=
  let! pool := call mc_node "getrawmempool" [PBool true] in
  let% h := str_arg hash in
  lift (getpath pool [h; field]).

(** The certificate of an epoch in the memory pool: its hash, fee and rate. *)
Definition certificate_rate (fuel : nat) (mc_node sc1 sc2 submitter : proxy) (epoch : Z) (root : pyval) (check : pyval → outcome unit)
    : MF (pyval * pyval) :=
  do! sleep (secs 10) in
  do! wait_pinging_others fuel mc_node submitter [sc1; sc2] in
  let! size := mc_pool_size mc_node in
  do% assert_equal (PInt 1) size "Certificate was not added to Mc node mempool." in
  let! '(hash, cert) := bt_mc_cert mc_node epoch root in
  do% bt_total cert 0 in
  let! cert_fee := pool_entry mc_node hash "fee" in
  let! cert_size := pool_entry mc_node hash "size" in
  do% check cert_fee in
  let% rate := get_fee_rate cert_size cert_fee in
  ret (hash, rate).

(** The first certificate has the configured fee. *)
Definition check_configured (cert_fee : pyval) : outcome unit :=
  let? fee := decimal_of cert_fee in
  assert_equal (PDec (Dec 23 (-5))) fee "Certificate fee is differ.".

(** The end of the second epoch; the log shows the hash of the first one again. *)
Definition second_epoch_end (mc_node sc1 : proxy) (we0_hash : pyval) : MF pyval :=
  let! hashes := call mc_node "generate" [PInt 8] in
  let% hash := getindex hashes 7 in
  do% log_concat we0_hash in
  let! json := call mc_node "getblock" [hash] in
  let% root := getitem json "scCumTreeHash" in
  do% log_concat root in
  let! l := generate_next_blocks sc1 "first node" 3 in
  do% list_index l 2 in
  ret root.

Definition CertFeeConfiguration_run_test (fuel : nat) : MF unit :=
  do! sleep 100000 in
  do! sync_all fuel in
  let! mc_node := mc 0 in
  let! sc1 := sc 0 in
  let! sc2 := sc 1 in
  do! connect_sc_nodes fuel sc1 1 (secs 25) in
  do! submitters_are sc1 sc2 true in
  let! '(we0_hash, root) := bt_epoch_end mc_node 9 8 in
  let! id2 := first_block sc1 false in
  do! check_mcreferencedata_presence we0_hash id2 sc1 in
  do! csw_referenced_block mc_node sc1 in
  let! '(certHash, _) := certificate_rate fuel mc_node sc1 sc2 sc1 0 root check_configured in
  let! hash := bt_cert_included mc_node certHash in
  let! id4 := forge sc1 in
  do! check_mcreference_presence hash id4 sc1 in
  do! call sc1 "submitter_disableCertificateSubmitter" [] in
  do! call sc2 "submitter_enableCertificateSubmitter" [] in
  do! submitters_are sc1 sc2 false in
  let! root := second_epoch_end mc_node sc1 we0_hash in
  do! csw_referenced_block mc_node sc1 in
  let! '(_, rate) := certificate_rate fuel mc_node sc1 sc2 sc2 1 root (λ _, Val tt) in
  let% close := isclose (PDec CUSTOM_FEE_RATE_ZAT_PER_BYTE) rate (Dec 5 (-3)) in
  lift (assert_true close "").

Definition CertFeeConfiguration (fuel : nat) (o : Options) (shared : SCForgerConfiguration) : TestClass W :=
  args_scenario fuel o fee_node_args 2 (CertFeeConfiguration_sc_setup_chain o shared) (CertFeeConfiguration_run_test fuel).

(** ** sc_cert_submitter_secure_enclave.py *)

Definition MAX_NUMBER_OF_KEYS : Z := 47.

Definition enclave_configuration (shared : SCForgerConfiguration) (address : string) (connection : MCConnectionInfo)
    : SCNodeConfiguration :=
  SCNodeConfiguration_init connection true true (Some [0; 1; 2]) 100 100 "2m" true (PFloat (float_of_dec (Dec 1 (-4))))
    shared 300 0 DEFAULT_API_KEY 10000000 [] true (PStr address) [] None [] "15m" "5m" false 0 true DEFAULT_MAX_NONCE_GAP
    DEFAULT_MAX_ACCOUNT_SLOTS DEFAULT_MAX_MEMPOOL_SLOTS DEFAULT_MAX_NONEXEC_POOL_SLOTS DEFAULT_TX_LIFETIME true true.

Definition ScCertSubmitterSecureEnclave_sc_setup_chain (o : Options) (shared : SCForgerConfiguration) : MF unit :=
  let! mc_node := mc 0 in
  let! connection := ws_connection mc_node 0 in
  let% sci := SCCreationInfo_init mc_node (PInt 100) 10 0 SC_CREATION_VERSION_1 MAX_NUMBER_OF_KEYS 5 true false
    NO_KEY_ROTATION_CIRCUIT in
  let! info := bootstrap_sidechain_nodes (run_options_of o) (mkSCNetworkConfiguration sci
    [enclave_configuration shared (remote_keys_address "127.0.0.1" (5000 + parallel o)) connection]) ten_epochs DefaultModel in
  put_info info.

(** The server has the keys from the fifth on. *)
Definition enclave_server (o : Options) (p : CertificateProofInfo) : SecureEnclaveApiServer :=
  SecureEnclaveApiServer_init (Some (skipn 4 (schnorr_signers_secrets p))) (Some (skipn 4 (public_signing_keys p)))
    "127.0.0.1" (5000 + parallel o).

Definition ScCertSubmitterSecureEnclave_run_test (fuel : nat) (o : Options) : MF unit :=
  let! mc_node := mc 0 in
  let! sc1 := sc 0 in
  let! info := boot_info in
  do! run_os (enclave_start (enclave_server o (certificate_proof_info info))) in
  let! hashes := call mc_node "generate" [PInt (10 - 1 - 1)] in
  let% k := py_len hashes in
  do! first_block sc1 false in
  do! sc_sync_all fuel false in
  do! call mc_node "generate" [PInt (10 - 1 - k + 1)] in
  do! first_block sc1 false in
  do! first_block sc1 false in
  do! sc_sync_all fuel false in
  do! sleep (secs 20) in
  do! wait_certificate fuel mc_node sc1 in
  let! size := mc_pool_size mc_node in
  do% assert_equal (PInt 1) size "Certificates was not added to MC node mempool." in
  let! '(_, cert) := pooled_certificate mc_node in
  let% quality := getpath cert ["cert"; "quality"] in
  lift (assert_equal (PInt (MAX_NUMBER_OF_KEYS - 1)) quality "Certificate has wrong quality").

Definition ScCertSubmitterSecureEnclave (fuel : nat) (o : Options) (shared : SCForgerConfiguration) : TestClass W :=
  args_scenario fuel o cert_node_args 1 (ScCertSubmitterSecureEnclave_sc_setup_chain o shared)
    (ScCertSubmitterSecureEnclave_run_test fuel o).

(** ** sc_versions_and_mc_certs.py *)

Definition SCVersionsAndMCCertificates_sc_setup_chain (o : Options) (shared : SCForgerConfiguration) : MF unit :=
  let! info := one_node_chain o shared 100 10 DefaultBlockTimestampRewind in
  put_info info.

Definition versions_node_args : list string := ["-debug=sc"; "-debug=ws"; "-logtimemicros=1"; "-scproofqueuesize=0"].

(** Another sidechain whose creation is in the memory pool: its id and transaction. *)
Definition alien_created (mcTest : MCTestUtils) (mc_node : proxy) (version : Z) (tag : string) : MF (string * pyval) :=
  let! r := create_alien_sidechain mcTest mc_node (PInt version) (PInt (10 - 1)) tag [PInt 128; PInt 128] in
  let% scid := getitem r "scid" in
  let% scid := str_arg scid in
  let% txid := getitem r "txid" in
  let! pool := call mc_node "getrawmempool" [] in
  let% there := py_in txid pool in
  do% assert_true there "Sc Creation is expected to be added to mempool." in
  ret (scid, txid).

(** [assert_true(tx in mc_node.getblock(hash)['tx'])] *)
Definition check_in_block (mc_node : proxy) (hash txid : pyval) : MF unit :=
  let! block := call mc_node "getblock" [hash] in
  let% txs := getitem block "tx" in
  let% there := py_in txid txs in
  lift (assert_true there "").

(** All sidechains have the end height of the first one. *)
Fixpoint same_end_heights (expEndEpochHeight : pyval) (items : list pyval) : outcome unit :=
  match items with
  | [] => Val tt
  | it :: items' =>
      let? scid := getitem it "scid" in
      let? height := getitem it "endEpochHeight" in
      let expEndEpochHeight := if py_eqb expEndEpochHeight PNone then height else expEndEpochHeight in
      let? _ := assert_equal height expEndEpochHeight ("Unexpected end epoch height for sc=" +:+ py_str scid) in
      same_end_heights expEndEpochHeight items'
  end.

Definition check_end_heights (mc_node : proxy) (n : Z) : MF unit :=
  let! r := call mc_node "getscinfo" [PStr "*"] in
  let% items := getitem r "items" in
  do! check_length n items "Unexpected number of sc info in MC" in
  let% l := py_iter items in
  lift (same_end_heights PNone l).

(** The field elements of the certificates: in the first version the last byte is limited. *)
Definition version_elements (version : Z) : list string :=
  if version =? 0 then ["1c5478a72455c080282cef347940143f"; "4b21c0f7bc8d1d4f02b7b0cc2e78073f"]
  else ["1c5478a72455c080282cef34794014c8"; "4b21c0f7bc8d1d4f02b7b0cc2e78072b"].

Definition alien_certificate (mcTest : MCTestUtils) (mc_node : proxy) (scid : string) (version : Z) : MF pyval :=
  let! cert := create_certificate_for_alien_sc mcTest scid mc_node (version_elements version) PNone in
  do! sleep (secs 1) in
  ret cert.

(** The next mainchain block has the certificates and only the coinbase: its hash. *)
Definition certificates_taken (mc_node : proxy) (n : Z) : MF pyval :=
  let! hash := mine mc_node in
  let! size := mc_pool_size mc_node in
  do% assert_equal (PInt 0) size "Certificate expected to be removed from MC node mempool." in
  let! block := call mc_node "getblock" [hash] in
  let% txs := getitem block "tx" in
  do! check_length 1 txs "MC block expected to contain 1 transaction (the coinbase only)." in
  let! block := call mc_node "getblock" [hash] in
  let% certs := getitem block "cert" in
  do! check_length n certs ("MC block expected to contain " +:+ str_of_Z n +:+ " Certificates.") in
  do! call mc_node "getblock" [hash; PBool false] in
  ret hash.

Definition SCVersionsAndMCCertificates_run_test (fuel : nat) (o : Options) : MF unit :=
  do! sleep 100000 in
  do! sync_all fuel in
  let! mc_node := mc 0 in
  let! sc_node := sc 0 in
  do! call mc_node "getblockcount" [] in
  let! mcTest := CertTestUtils_init (op_tmpdir o) None "cob_marlin" in
  let! '(scid0, _) := alien_created mcTest mc_node 0 "5c00" in
  let! '(scid1, crtx2) := alien_created mcTest mc_node 1 "5c01" in
  let! '(scid2, crtx3) := alien_created mcTest mc_node 2 "5c02" in
  let! hash1 := mine mc_node in
  do! check_in_block mc_node hash1 crtx2 in
  do! check_in_block mc_node hash1 crtx3 in
  let! id1 := forge sc_node in
  do! check_mcreference_presence hash1 id1 sc_node in
  let! '(we0_hash, root) := bt_epoch_end mc_node 8 7 in
  let! id2 := first_block sc_node false in
  do! check_mcreferencedata_presence we0_hash id2 sc_node in
  do! check_end_heights mc_node 4 in
  do! csw_referenced_block mc_node sc_node in
  do! await_certificate 10 fuel mc_node sc_node in
  let! pool := call mc_node "getrawmempool" [] in
  let% sc_cert_hash := getindex pool 0 in
  let! cert1 := alien_certificate mcTest mc_node scid0 0 in
  let! cert2 := alien_certificate mcTest mc_node scid1 1 in
  let! cert3 := alien_certificate mcTest mc_node scid2 2 in
  let! mempool := call mc_node "getrawmempool" [] in
  do! forM_ [cert1; cert2; cert3] (λ cert, let% there := py_in cert mempool in lift (assert_true there "")) in
  let! hash := certificates_taken mc_node 4 in
  let! id4 := forge sc_node in
  do! check_mcreference_presence hash id4 sc_node in
  let! cert := bt_sc_cert sc_node 0 root 0 in
  lift (bt_same_hash sc_cert_hash cert).

Definition SCVersionsAndMCCertificates (fuel : nat) (o : Options) (shared : SCForgerConfiguration) : TestClass W :=
  args_scenario fuel o versions_node_args 1 (SCVersionsAndMCCertificates_sc_setup_chain o shared)
    (SCVersionsAndMCCertificates_run_test fuel o).
End CertFee.

(** ** What the numbers mean *)

(** The argument of the mainchain node, and rates within and beyond the tolerance. *)
Example fee_rates_ex :
  nth 2 fee_node_args "" = "-paytxfee=0.00002000"
  ∧ get_fee_rate (PInt 3000) (PDec (Dec 6000 (-8))) = Val (PDec (Dec 200000000 (-8)))
  ∧ (let? r := get_fee_rate (PInt 3000) (PDec (Dec 6014 (-8))) in isclose (PDec CUSTOM_FEE_RATE_ZAT_PER_BYTE) r (Dec 5 (-3)))
    = Val true
  ∧ (let? r := get_fee_rate (PInt 3000) (PDec (Dec 6016 (-8))) in isclose (PDec CUSTOM_FEE_RATE_ZAT_PER_BYTE) r (Dec 5 (-3)))
    = Val false.
Proof. repeat split; vm_compute; reflexivity. Qed.

(** The keys of the node and those of the server together are as many as the quality that
    is expected: one key is with neither. *)
Theorem enclave_quality o p :
  Z.of_nat (length (public_signing_keys p)) = MAX_NUMBER_OF_KEYS →
  Z.of_nat (length ([0; 1; 2] : list Z)) + Z.of_nat (length (schnorr_public_keys (enclave_server o p))) = MAX_NUMBER_OF_KEYS - 1.
Proof. unfold MAX_NUMBER_OF_KEYS. cbn. rewrite length_skipn. lia. Qed.

(** When the heights pass, every sidechain has the same one, unless it has none. *)
Theorem same_end_heights_spec h items :
  py_eqb h PNone = false → same_end_heights h items = Val tt →
  Forall (λ it, ∃ v, getitem it "endEpochHeight" = Val v ∧ py_eqb v h = true) items.
Proof.
  intros Hh. induction items as [| it items IH]; [constructor |].
  cbn [same_end_heights]. rewrite Hh. intros (scid & _ & Hr)%obind_Val_inv.
  apply obind_Val_inv in Hr as (v & Hv & Hr). apply obind_Val_inv in Hr as ([] & E & Hr).
  constructor; [| by apply IH]. exists v. split; [done |].
  unfold assert_equal, py_neqb in E. by destruct (py_eqb v h).
Qed.
