(* ===== verification/BlockScenarios.v ===== *)
(** * Scenarios: what a block may contain

    sc_big_block.py, sc_fork_one_forced_tx.py, sc_evm_mc_fork.py,
    sc_evm_forbid_unprotected_txs.py and sc_evm_pause_forging.py: a block of a thousand
    transactions, transactions that are forced into a block, a block that replaces another
    after a fork of the mainchain, legacy transactions that a node does not accept, and
    blocks without references to the mainchain. *)

From S2P Require Import Prelude PyStr Numbers PyVal Host Sim Json Encoding HttpProxy BootInfo McUtil ScUtil.
From S2P Require Import Forging Bootstrap Framework AccountSetup McFramework HttpCalls AccountCalls AccountUtil.
From Stdlib Require Import Ascii String.
From stdpp Require Import base list.
From S2P Require Import Scenarios ForgingScenarios StakeScenarios ChainScenarios MempoolScenarios CertScenarios EvmScenarios CswScenarios.
From S2P Require Import BackwardScenarios CertificateScenarios EvmRotationScenarios ForgerScenarios EvmForgerScenarios NativeForgerScenarios.
From S2P Require Import OwnershipScenarios SeederScenarios EvmMempoolScenarios.
Local Open Scope Z_scope.

(** ** Numbers of sc_big_block.py *)

Definition MAX_TRANSACTION_OUTPUT : Z := 998.
Definition utxo_to_create : Z := 10000.
(** [int(utxo_to_create / self.MAX_TRANSACTION_OUTPUT)] *)
Definition tx_to_create : Z := utxo_to_create / MAX_TRANSACTION_OUTPUT.
Definition remaining_utxos : Z := utxo_to_create - tx_to_create * MAX_TRANSACTION_OUTPUT.

Definition big_ft_amount : Z := 1000.
(** [ft_amount * 1e8], and the part of it in each output; both are floats. *)
Definition ft_zennies : outcome pyval := py_mul (PInt big_ft_amount) (PFloat (float_of_dec (Dec 1 8))).
Definition utxo_amount : outcome pyval := let? z := ft_zennies in py_truediv z (PInt 10000).

(** What is left of a box when a transaction has all its outputs. *)
Definition change_of (value : pyval) : outcome pyval :=
  let? a := utxo_amount in
  let? spent := py_mul a (PInt MAX_TRANSACTION_OUTPUT) in
  py_sub value spent.

(** The boxes of an address. *)
Fixpoint find_boxes_of_address (boxes : list pyval) (address : pyval) : outcome (list pyval) :=
  match boxes with
  | [] => Val []
  | box :: boxes' =>
      let? key := getpath box ["proposition"; "publicKey"] in
      let? l := find_boxes_of_address boxes' address in
      Val (if py_eqb key address then box :: l else l)
  end.

Section Blocks.
Context {W : Type} `{Nodes W, Clock W, Os W, Rng W} `{EthUtils, EthHex}.
Context (str_exn : exn → string).
Local Abbreviation MF := (M (FW W)).

(** ** sc_big_block.py *)

(** [self.options.restapitimeout = 20] *)
Definition with_restapitimeout (o : Options) (t : Z) : Options :=
  mkFrameworkOptions (op_tmpdir o) (nocleanup o) (noshutdown o) t (op_logfilelevel o) (op_logconsolelevel o) (debugnode o)
    (nonceasing o) (certcircuittype o) (parallel o) (mcblockdelay o) (jacoco o) (all_forks o) (maxhistoryrewritinglength o).

Definition BigBlockTest_sc_setup_chain (o : Options) (shared : SCForgerConfiguration) : MF unit :=
  let! mc_node := mc 0 in
  let! connection := ws_connection mc_node 0 in
  let configuration := SCNodeConfiguration_init connection true true None 100 100 "2m" false
    (PFloat (float_of_dec (Dec 1 (-4)))) shared 300 0 DEFAULT_API_KEY 10000000 [] false PNone [] None [] "15m" "5m"
    false 0 true DEFAULT_MAX_NONCE_GAP DEFAULT_MAX_ACCOUNT_SLOTS DEFAULT_MAX_MEMPOOL_SLOTS
    DEFAULT_MAX_NONEXEC_POOL_SLOTS DEFAULT_TX_LIFETIME true true in
  let! info := bootstrap (with_restapitimeout o 20) mc_node 500 LARGE_WITHDRAWAL_EPOCH_LENGTH [configuration; configuration]
    DefaultBlockTimestampRewind in
  put_info info.

(** [generate_next_blocks(sc_node1, "first node", 1)[0]] between two synchronisations *)
Definition synced_block (fuel : nat) (sc_node : proxy) : MF unit :=
  do! sc_sync_all fuel false in
  do! forge sc_node in
  sc_sync_all fuel false.

(** The boxes of an address in the wallet, which has some. *)
Definition zen_boxes_of (sc_node : proxy) (address : pyval) : MF (list pyval) :=
  let! boxes := http_wallet_allBoxesOfType sc_node (PStr "ZenBox") PNone in
  let% l := py_iter boxes in
  lift (find_boxes_of_address l address).

(** A box is spent for outputs. *)
Definition spend_box (sc_node : proxy) (box : pyval) (outputs : list pyval) : MF unit :=
  let% id := getitem box "id" in
  let! r := http_create_core_transaction sc_node (PList [PDict [("boxId", id)]]) (PList outputs) (PList []) (PList []) PNone in
  let% raw_tx := getitem r "transactionBytes" in
  let! r := HttpCalls.sendTransaction sc_node raw_tx PNone in
  let% res := getitem r "result" in
  check_key res "transactionId".

(** [assert_true(len(ft_box), 0)]: there is one. *)
Definition some_box (boxes : list pyval) : outcome unit :=
  assert_true (negb (Z.of_nat (length boxes) =? 0)) (str_of_Z 0).

Definition output_to (address value : pyval) : pyval := PDict [("publicKey", address); ("value", value)].

(** The transactions with all their outputs, each from the change of the one before: the
    boxes of the change at the end. *)
Fixpoint full_transactions (n : nat) (fuel : nat) (sc_node : proxy) (ft_address receiver : pyval) (ft_box : list pyval)
    : MF (list pyval) :=
  match n with
  | O => ret ft_box
  | S n' =>
      let% amount := utxo_amount in
      let% box := list_index ft_box 0 in
      let% value := getitem box "value" in
      let% change := change_of value in
      do! spend_box sc_node box (repeat (output_to receiver amount) (Z.to_nat MAX_TRANSACTION_OUTPUT) ++ [output_to ft_address change]) in
      do! synced_block fuel sc_node in
      let! ft_box := zen_boxes_of sc_node ft_address in
      do% some_box ft_box in
      full_transactions n' fuel sc_node ft_address receiver ft_box
  end.

(** Coins arrive in one box. *)
Definition one_box (fuel : nat) (mc_node sc1 : proxy) : MF (pyval * list pyval) :=
  let! ft_address := http_wallet_createPrivateKey25519 sc1 PNone in
  let! mc_return_address := call mc_node "getnewaddress" [] in
  let! info := boot_info in
  do! forward_transfer_to_sidechain (sidechain_id info) mc_node ft_address (PInt big_ft_amount) mc_return_address true in
  do! synced_block fuel sc1 in
  let! boxes := http_wallet_allBoxesOfType sc1 (PStr "ZenBox") PNone in
  let% k := py_len boxes in
  do% assert_equal (PInt k) (PInt 1) "" in
  let% box := getindex boxes 0 in
  let% value := getitem box "value" in
  let% expected := ft_zennies in
  do% assert_equal value expected "" in
  let% l := py_iter boxes in
  let% ft_box := find_boxes_of_address l ft_address in
  do% some_box ft_box in
  ret (ft_address, ft_box).

(** The outputs are made: all of them are in the wallet. *)
Definition many_boxes (fuel : nat) (sc1 : proxy) (ft_address : pyval) (ft_box : list pyval) : MF unit :=
  let! receiver := http_wallet_createPrivateKey25519 sc1 PNone in
  let! ft_box := full_transactions (Z.to_nat tx_to_create) fuel sc1 ft_address receiver ft_box in
  do! when (remaining_utxos >? 0) (
    let% amount := utxo_amount in
    let% box := list_index ft_box 0 in
    do! spend_box sc1 box (repeat (output_to receiver amount) (Z.to_nat remaining_utxos)) in
    synced_block fuel sc1) in
  let! filtered_boxes := zen_boxes_of sc1 receiver in
  lift (assert_equal (PInt (Z.of_nat (length filtered_boxes))) (PInt utxo_to_create) "").

(** [assert_equal(len(tx["transaction"][field]), 10)] *)
Definition has_ten (tx : pyval) (field : string) : outcome unit :=
  let? l := getpath tx ["transaction"; field] in
  let? k := py_len l in
  assert_equal (PInt k) (PInt 10) "".

(** One of the thousand transactions: the length of its bytes. *)
Definition ten_to_ten (fuel : nat) (sc1 : proxy) (address_node2 : pyval) : MF Z :=
  let% amount := utxo_amount in
  let! res := sendCointsToMultipleAddress sc1 (repeat address_node2 10) (repeat amount 10) (PInt 0) in
  do% log_concat res in
  let! tx := http_transaction_findById sc1 res true in
  let! tx_bytes := http_transaction_findById sc1 res false in
  let% bytes := getitem tx_bytes "transactionBytes" in
  let% n := py_len bytes in
  do% has_ten tx "newBoxes" in
  do% has_ten tx "unlockers" in
  do! sc_sync_all fuel false in
  ret n.

Definition BigBlockTest_run_test (fuel : nat) : MF unit :=
  let! mc_node := mc 0 in
  let! sc1 := sc 0 in
  let! sc2 := sc 1 in
  do! connect_sc_nodes fuel sc1 1 (secs 25) in
  let! '(ft_address, ft_box) := one_box fuel mc_node sc1 in
  do! many_boxes fuel sc1 ft_address ft_box in
  let! address_node2 := http_wallet_createPrivateKey25519 sc2 PNone in
  let! transactions_bytes := foldM (λ sum _, let! n := ten_to_ten fuel sc1 address_node2 in ret (sum + n)) 0 (zrange 0 1000) in
  do% assert_true (transactions_bytes >? 1048576) "" in
  do! forge sc1 in
  do! sc_sync_all fuel false in
  let! block_node1 := http_block_best sc1 in
  let! block_node2 := http_block_best sc2 in
  do% assert_equal block_node1 block_node2 "" in
  let% txs := getitem block_node1 "sidechainTransactions" in
  let% k := py_len txs in
  lift (assert_equal (PInt k) (PInt 1000) "").

Definition BigBlockTest (fuel : nat) (o : Options) (shared : SCForgerConfiguration) : TestClass W :=
  scenario fuel o 1 2 (BigBlockTest_sc_setup_chain o shared) (BigBlockTest_run_test fuel).

(** ** sc_fork_one_forced_tx.py *)

Definition SidechainForkOneForcedTransactionsTest_sc_setup_chain (o : Options) (f : AllowedForgers) : MF unit :=
  let! mc_node_1 := mc 0 in
  let% pairs := allowed_pairs f 2 in
  let! forger_configuration := SCForgerConfiguration_init true pairs "" in
  let! connection := ws_connection mc_node_1 0 in
  let configuration := SCNodeConfiguration_init connection true true None 100 100 "2m" true
    (PFloat (float_of_dec (Dec 1 (-4)))) forger_configuration 300 0 DEFAULT_API_KEY 10000000000000 [] false PNone [] None
    (initial_keys f) "15m" "5m" false 0 true DEFAULT_MAX_NONCE_GAP DEFAULT_MAX_ACCOUNT_SLOTS
    DEFAULT_MAX_MEMPOOL_SLOTS DEFAULT_MAX_NONEXEC_POOL_SLOTS DEFAULT_TX_LIFETIME true true in
  let! info := bootstrap o mc_node_1 600 LARGE_WITHDRAWAL_EPOCH_LENGTH [configuration] five_epochs in
  put_info info.

(** [generate_next_blocks(sc_node1, "first node", 1)] between two synchronisations *)
Definition block_between (fuel : nat) (sc_node : proxy) : MF unit :=
  do! sc_sync_all fuel false in
  do! generate_next_blocks sc_node "first node" 1 in
  sc_sync_all fuel false.

(** Coins for the forgers and for a new key: the key. *)
Definition forced_coins (fuel : nat) (mc_node sc_node : proxy) (f : AllowedForgers) : MF pyval :=
  do! generate_next_blocks sc_node "first node" 1 in
  let! info := boot_info in
  let% key0 := forger_key f 0 in
  let! mc_return_address := call mc_node "getnewaddress" [] in
  do! forward_transfer_to_sidechain (sidechain_id info) mc_node key0 (genesis_account_balance info) mc_return_address true in
  do! block_between fuel sc_node in
  let! new_public_key := http_wallet_createPrivateKey25519 sc_node PNone in
  let props := map publicKey (allowed_forger_propositions f) in
  do! sendCointsToMultipleAddress sc_node props (repeat (PInt 1000) (length props)) (PInt 0) in
  do! block_between fuel sc_node in
  do! sendCoinsToAddress sc_node new_public_key (PInt 1500) (PInt 0) PNone in
  do! block_between fuel sc_node in
  ret new_public_key.

Definition epoch_is (sc_node : proxy) (n : Z) : MF unit :=
  let! info := http_block_forging_info sc_node in
  let% epoch := getitem info "bestBlockEpochNumber" in
  lift (assert_equal (PInt n) epoch "").

(** A block with a forced transaction, in the next epoch. *)
Definition forced_block (sc_node : proxy) (tx_bytes : pyval) : MF pyval :=
  generate_next_block sc_node "first node" true (PList [tx_bytes]).

(** The transaction makes the block invalid. *)
Definition forced_refused (sc_node : proxy) (tx_bytes : pyval) : MF unit :=
  let! raised := catch (do! forced_block sc_node tx_bytes in ret None)
    (λ e, if is_Exception e then ret (Some (str_exn e)) else raise e) in
  match raised with
  | Some text => lift (assert_true (str_contains "semantically invalid" text) "")
  | None => lift (fail "Forced transaction should fail to verify against stake")
  end.

Definition SidechainForkOneForcedTransactionsTest_run_test (fuel : nat) (f : AllowedForgers) : MF unit :=
  do! sync_all fuel in
  let! sc_node := sc 0 in
  let! mc_node := mc 0 in
  let! new_public_key := forced_coins fuel mc_node sc_node f in
  let! allBoxes := http_wallet_allBoxes sc_node PNone PNone in
  let% boxes := py_iter allBoxes in
  let% new_public_key_box := find_box new_public_key boxes in
  do% assert_true (py_neqb new_public_key_box (PDict [])) "" in
  do! epoch_is sc_node 2 in
  let! r := sendCoinsToAddressDryRun sc_node new_public_key (PInt 0) (PInt 0) PNone in
  let% low_amount_tx_bytes := getitem r "transactionBytes" in
  do! forced_refused sc_node low_amount_tx_bytes in
  let% key0 := forger_key f 0 in
  let% forger0_box := find_box key0 boxes in
  let% id := getitem forger0_box "id" in
  let% fee := getitem forger0_box "value" in
  let! r := createOpenStakeTransaction sc_node id new_public_key (PInt 0) fee false false PNone in
  let% open_stake_tx_bytes := getitem r "transactionBytes" in
  let! block_id := forced_block sc_node open_stake_tx_bytes in
  do! epoch_is sc_node 3 in
  let! block := find_block sc_node block_id in
  let% txs := getitem block "sidechainTransactions" in
  let% tx := getindex txs 0 in
  let% type := getitem tx "typeName" in
  lift (assert_equal (PStr "OpenStakeTransaction") type "").

Definition SidechainForkOneForcedTransactionsTest (fuel : nat) (o : Options) : MF (TestClass W) :=
  let! f := generate_forgers "seed" 2 UtxoModel in
  ret (scenario fuel o 1 1 (SidechainForkOneForcedTransactionsTest_sc_setup_chain o f)
         (SidechainForkOneForcedTransactionsTest_run_test fuel f)).

(** ** sc_evm_mc_fork.py *)

Definition SCEVMMCFork_setup_network (fuel : nat) (o : Options) (a : AccountChainSetup) : MF unit :=
  let! l := ac_setup_nodes o a in
  do! put_nodes l in
  do! connect_self fuel 0 1 in
  sync_all fuel.

Definition transfer_unmined (mc_node : proxy) (address : pyval) (amount : Z) (mc_return_address : pyval) : MF unit :=
  let! info := boot_info in
  do! forward_transfer_to_sidechain (sidechain_id info) mc_node address (PInt amount) mc_return_address false in
  ret tt.

Definition evm_balance_is (sc_node : proxy) (address : pyval) (expected : Z) : MF unit :=
  let! balance := AccountCalls.http_wallet_balance sc_node address PNone in
  lift (assert_equal (PInt expected) balance "").

(** The first node is alone for a block, the second one for two: their hashes and those of
    the sidechain blocks before and during the fork, with the transaction. *)
Definition forked_blocks (fuel : nat) (mc1 mc2 sc_node : proxy) (address1 address2_mc : pyval)
    : MF (pyval * (pyval * pyval) * pyval * pyval * pyval) :=
  let! l := get_nodes in
  do! disconnect_nodes_bi fuel l 0 1 in
  let! mcblock_hash1 := mine mc1 in
  let! address2 := new_evm_address sc_node in
  let% wei := convertZenToWei (PInt 1) in
  let! tx1 := AccountCalls.createEIP1559Transaction sc_node
    (mkTxArgs address1 address2 (PInt 0) (PInt 21000) (PInt wei) (PStr "") PNone PNone PNone) (PInt 900000000) (PInt 900000000)
    PNone in
  let! scblock_id1 := first_block sc_node false in
  let! fork_hash1 := mine mc2 in
  do! sleep (secs 1) in
  let! address3 := new_evm_address sc_node in
  do! transfer_unmined mc2 address3 1 address2_mc in
  do! sleep (secs 1) in
  let! fork_hash2 := mine mc2 in
  do! sleep (secs 1) in
  let! block := call mc2 "getblock" [fork_hash2] in
  let% txs := getitem block "tx" in
  do! check_length 2 txs "" in
  ret (mcblock_hash1, (fork_hash1, fork_hash2), scblock_id1, tx1, address3).

(** The block after the fork replaces the one before: headers only, an ommer, and no
    transactions. *)
Definition check_fork_block (sc_node : proxy) (id0 id1 id2 hash1 : pyval) (fork : pyval * pyval) : MF unit :=
  do! check_scparent id0 id2 sc_node in
  do! check_mcheaders_amount 2 id2 sc_node in
  do! check_mcreferencedata_amount 0 id2 sc_node in
  do! check_mcheader_presence fork.1 id2 sc_node in
  do! check_mcheader_presence fork.2 id2 sc_node in
  do! check_ommers_amount 1 id2 sc_node in
  do! check_ommers_cumulative_score (PInt 1) id2 sc_node in
  do! check_ommer id1 [hash1] id2 sc_node in
  let! block := find_block sc_node id2 in
  let% txs := getitem block "sidechainTransactions" in
  check_length 0 txs "No txs expected in a block with ommers".

Definition SCEVMMCFork_run_test (fuel : nat) : MF unit :=
  let! mc1 := mc 0 in
  let! mc2 := mc 1 in
  let! sc_node := sc 0 in
  do! sync_all fuel in
  let! mc_address_1 := call mc1 "getnewaddress" [] in
  let! address1 := new_evm_address sc_node in
  do! transfer_unmined mc1 address1 10 mc_address_1 in
  do! sleep (secs 2) in
  let! mc_address_2 := call mc2 "getnewaddress" [] in
  do! call mc1 "sendtoaddress" [mc_address_2; PInt 2] in
  do! sync_all fuel in
  do! call mc1 "generate" [PInt 1] in
  let! id0 := first_block sc_node false in
  let% wei := convertZenToWei (PInt 10) in
  do! evm_balance_is sc_node address1 wei in
  do! sync_all fuel in
  let! '(hash1, fork, id1, tx1, address3) := forked_blocks fuel mc1 mc2 sc_node address1 mc_address_2 in
  do! connect_self fuel 0 1 in
  do! sync_all fuel in
  do! check_mc_tip fork.2 mc1 in
  let! id2 := first_block sc_node false in
  do! check_fork_block sc_node id0 id1 id2 hash1 fork in
  do! evm_balance_is sc_node address3 0 in
  let! ids := check_pool_size sc_node 1 "" in
  let% there := py_in tx1 ids in
  do% assert_true there "" in
  do! first_block sc_node false in
  let% wei := convertZenToWei (PInt 1) in
  evm_balance_is sc_node address3 wei.

Definition SCEVMMCFork (fuel : nat) (o : Options) (shared : SCForgerConfiguration) : TestClass W :=
  let a := mkAccountChainSetup "Horizen" 2 1 LARGE_WITHDRAWAL_EPOCH_LENGTH (PInt 100) evm_rewind None [] None false [] 100 true
    true DEFAULT_MAX_NONCE_GAP DEFAULT_MAX_ACCOUNT_SLOTS DEFAULT_MAX_MEMPOOL_SLOTS DEFAULT_MAX_NONEXEC_POOL_SLOTS
    DEFAULT_TX_LIFETIME [None] 7 5 [] in
  mkTestClass W (initialize_chain_clean (op_tmpdir o) 2) (SCEVMMCFork_setup_network fuel o a) (ac_sc_setup_chain o a shared)
    (ac_sc_setup_network fuel o a) (SCEVMMCFork_run_test fuel).

(** ** sc_evm_forbid_unprotected_txs.py *)

Definition unprotected_configuration (a : AccountChainSetup) (shared : SCForgerConfiguration) (allow : bool)
    (connection : MCConnectionInfo) : SCNodeConfiguration :=
  SCNodeConfiguration_init connection true true None 100 100 "2m" true (PFloat (float_of_dec (Dec 1 (-4)))) shared
    300 0 (API_KEY a) 10000000 [] (ac_remote_keys_manager_enabled a) PNone [] None [] "15m" "5m" false 0 allow
    DEFAULT_MAX_NONCE_GAP DEFAULT_MAX_ACCOUNT_SLOTS DEFAULT_MAX_MEMPOOL_SLOTS DEFAULT_MAX_NONEXEC_POOL_SLOTS
    DEFAULT_TX_LIFETIME true true.

Definition SCEvmForbidUnprotectedTxs_sc_setup_chain (o : Options) (a : AccountChainSetup) (shared : SCForgerConfiguration)
    : MF unit :=
  let! mc_node := mc 0 in
  let! connection_1 := ws_connection mc_node 0 in
  let! connection_2 := ws_connection mc_node 0 in
  let! info := bootstrap_model AccountModel o mc_node 10 10
    [unprotected_configuration a shared false connection_1; unprotected_configuration a shared true connection_2]
    (block_timestamp_rewind a) in
  put_info info.

(** The default arguments of [createLegacyTransaction], for a transfer of one unit. *)
Definition unprotected_transfer (sc_node : proxy) (from to : pyval) (raw : bool) : MF pyval :=
  createLegacyTransaction sc_node (mkTxArgs from to PNone (PInt 21000) (PInt 1) (PStr "") PNone PNone PNone)
    (PInt 1000000000) PNone raw.

(** A legacy transaction is refused, and the pool stays empty. *)
Definition legacy_refused {A} (sc_node : proxy) (m : MF A) (message : string) : MF unit :=
  let! raised := catch (do! m in do% fail message in ret None)
    (λ e, match runtime_text e with Some t => ret (Some t) | None => raise e end) in
  do! match raised with
      | Some t => lift (assert_true (str_contains "Legacy unprotected transactions are not allowed" t) ("Got" +:+ t))
      | None => ret tt
      end in
  do! check_pool_size sc_node 0 "Mempool should be empty" in
  ret tt.

(** A block takes the transaction that is forced. *)
Definition legacy_forced (fuel : nat) (sc1 sc2 : proxy) (address recipient : pyval) : MF unit :=
  let! tx_bytes := unprotected_transfer sc1 address recipient true in
  let! forced_tx := signTransaction sc1 address tx_bytes PNone in
  let! block_id := generate_next_block sc1 "first node" false (PList [forced_tx]) in
  let! block := find_block sc1 block_id in
  let% txs := getitem block "sidechainTransactions" in
  let% k := py_len txs in
  do% assert_equal (PInt k) (PInt 1) "" in
  let% tx := getindex txs 0 in
  let% legacy := getitem tx "legacy" in
  do% assert_equal legacy (PBool true) "" in
  do! sc_sync_all fuel false in
  do! sleep (secs 2) in
  let! block_json := http_block_best sc2 in
  let% txs := getitem block_json "sidechainTransactions" in
  let% k := py_len txs in
  lift (assert_true (k =? 1) "").

(** Coins for both accounts. *)
Definition unprotected_coins (fuel : nat) (mc_node sc1 : proxy) (address1 address2 : pyval) : MF unit :=
  do! transfer_to mc_node address1 (PInt 50) true in
  do! forge_synced fuel sc1 "first node" true in
  do! transfer_to mc_node address2 (PInt 50) true in
  do! forge_synced fuel sc1 "first node" true in
  do! forge_synced fuel sc1 "first node" true in
  do! first_block sc1 false in
  ret tt.

Definition SCEvmForbidUnprotectedTxs_run_test (fuel : nat) : MF unit :=
  let! mc_node := mc 0 in
  let! sc1 := sc 0 in
  let! sc2 := sc 1 in
  do! connect_sc_nodes fuel sc1 1 (secs 25) in
  let! a := new_evm_address sc1 in
  let% evm_address := py_add (PStr "0x") a in
  let% address1 := remove_0x_prefix evm_address in
  let! address2 := new_evm_address sc2 in
  let! keys := generate_account_proposition "seed3" 1 AccountModel in
  let% key := list_index keys 0 in
  let recipient := proposition key in
  do! unprotected_coins fuel mc_node sc1 address1 address2 in
  do! legacy_refused sc1 (unprotected_transfer sc1 address1 recipient false) "Legacy http transaction should fail" in
  do! legacy_refused sc1 (eoa_transaction sc1 RPC_LEGACY false address1 recipient (PInt 1) (PInt 21000) (PInt 875000000)
    (PInt 1) (PInt 875000000) (PStr "0x") PNone (PStr "latest")) "Legacy rpc transaction should fail" in
  do! legacy_forced fuel sc1 sc2 address1 recipient in
  do! check_pool_size sc1 0 "" in
  do! sync_all fuel in
  do! sc_sync_all fuel false in
  do! unprotected_transfer sc2 address2 recipient false in
  do! sc_sync_all fuel false in
  do! check_pool_size sc1 1 "" in
  ret tt.

Definition SCEvmForbidUnprotectedTxs (fuel : nat) (o : Options) (shared : SCForgerConfiguration) : TestClass W :=
  let a := forger_setup 2 10 10 DEFAULT_EVM_APP_GENESIS_TIMESTAMP_REWIND None [] in
  mkTestClass W (default_setup_chain o) (ac_setup_network fuel o a) (SCEvmForbidUnprotectedTxs_sc_setup_chain o a shared)
    (ac_sc_setup_network fuel o a) (SCEvmForbidUnprotectedTxs_run_test fuel).

(** ** sc_evm_pause_forging.py *)

(** The first node may rewrite one block more. *)
Definition SCEvmPauseForging_sc_setup_nodes (fuel : nat) (o : Options) : MF (list proxy) :=
  let! dbg := self_get debug_extra_args in
  let% arg1 := (match dbg with Some l => list_index l 0 | None => Val [""] end) in
  let% arg2 := (match dbg with Some l => list_index l 1 | None => Val [""] end) in
  let! binary := EVM_APP_BINARY in
  start_sc_nodes fuel 2 (op_tmpdir o) (Some [Some (["-max_hist_rew_len"; str_of_Z 101] ++ arg1); Some arg2]) None
    (Some [Some binary; Some binary]) false (Some "Horizen").

Definition SCEvmPauseForging_sc_setup_network (fuel : nat) (o : Options) : MF unit :=
  let! l := SCEvmPauseForging_sc_setup_nodes fuel o in
  do! put_sc_nodes l in
  do! connect_pair fuel 0 1 in
  sync_all fuel.

(** The second node gets coins and almost all of them become a stake; two epochs pass. *)
Definition pause_stake (fuel : nat) (mc_node sc1 sc2 : proxy) : MF unit :=
  let! address2 := new_evm_address sc2 in
  do! transfer_to mc_node address2 (PInt 100) false in
  do! sync_all fuel in
  do! call mc_node "generate" [PInt 1] in
  do! forge_synced fuel sc1 "first node" true in
  let! sign := new_proposition sc2 "wallet_createPrivateKey25519" "publicKey" in
  let! vrf := new_proposition sc2 "wallet_createVrfSecret" "publicKey" in
  let% amount := py_sub (PInt 100) (PFloat (float_of_dec (Dec 1 (-2)))) in
  do! make_stake sc2 address2 sign vrf amount PNone "make forger stake failed: " in
  do! sc_sync_all fuel false in
  do! first_block sc1 false in
  let! r := call sc1 "transaction_allForgingStakes" [] in
  let% stakeList := getpath r ["result"; "stakes"] in
  do! check_length 2 stakeList "" in
  do! first_block sc1 true in
  do! first_block sc1 true in
  sc_sync_all fuel false.

Definition no_refs_error : string := "No mc refs in a long row of blocks error".

(** [except AssertionError as msg] with the check of the message. *)
Definition when_no_refs (m after : MF unit) : MF unit :=
  catch m (λ e, match e with
                | AssertionError text => do% assert_true (str_contains no_refs_error text) "" in after
                | _ => raise e
                end).

(** The epochs up to the fork; at the fork the block may be refused. *)
Definition reach_pausing_fork (fuel : nat) (sc1 : proxy) : MF unit :=
  let! epoch := current_epoch sc1 in
  let% left := py_sub (PInt VERSION_1_3_FORK_EPOCH) epoch in
  let% left := range_stop left in
  forM_ (zrange 0 left) (λ _, when_no_refs (forge_synced fuel sc1 "first node" true)
    (let! epoch := current_epoch sc1 in lift (assert_true (truthy epoch) (str_of_Z VERSION_1_3_FORK_EPOCH)))).

(** [len(sc_node_1.block_best()["result"]['block']['mainchainHeaders'])] *)
Definition check_best_headers (sc1 : proxy) (n : Z) : MF unit :=
  let! b := best sc1 in
  let% headers := getpath b ["block"; "mainchainHeaders"] in
  check_length n headers "".

(** The first of the blocks has the reference, the others have none. *)
Definition block_of_row (fuel : nat) (sc1 sc2 : proxy) (mc_block : pyval) (i : Z) : MF unit :=
  let! sc_block := second_block sc2 false in
  do! sc_sync_all fuel false in
  if i =? 0 then
    do! check_best_headers sc1 1 in
    let! r := call sc1 "mainchain_bestBlockReferenceInfo" [] in
    let% info := getitem r "result" in
    let% referencing := getpath info ["blockReferenceInfo"; "mainchainHeaderSidechainBlockId"] in
    let% referenced := getpath info ["blockReferenceInfo"; "hash"] in
    do% assert_equal sc_block referencing "" in
    lift (assert_equal mc_block referenced "")
  else check_best_headers sc1 0.

(** The second node cannot forge one more. *)
Definition cannot_forge (sc2 : proxy) : MF unit :=
  when_no_refs (do! second_block sc2 false in raise (RuntimeError "Should not be able to forge here!!!")) (ret tt).

Definition latest_block (sc_node : proxy) : MF pyval := call sc_node "rpc_eth_getBlockByNumber" [PStr "latest"; PStr "true"].

(** [rpc_eth_getBlockByNumber(height, False)['result']['hash']] *)
Definition block_hash_at (sc_node : proxy) (height : pyval) : MF pyval :=
  let! r := call sc_node "rpc_eth_getBlockByNumber" [height; PBool false] in lift (getpath r ["result"; "hash"]).

(** The first node forges alone, and its block is reverted when the second one forges again. *)
Definition illegal_tip (fuel : nat) (mc_node sc1 sc2 : proxy) : MF unit :=
  do! first_block sc1 false in
  let! b1 := latest_block sc1 in
  let! b2 := latest_block sc2 in
  do% assert_not_equal b1 b2 "" in
  let% parent := getpath b1 ["result"; "parentHash"] in
  let% hash2 := getpath b2 ["result"; "hash"] in
  do% assert_equal parent hash2 "" in
  let% height := getpath b1 ["result"; "number"] in
  let! before := block_hash_at sc1 height in
  do! call mc_node "generate" [PInt 1] in
  let! block_ids := generate_next_blocks sc2 "second node" 2 in
  do! sc_sync_all fuel false in
  let! after := block_hash_at sc1 height in
  do% assert_not_equal before after "" in
  let! b1 := latest_block sc1 in
  let! b2 := latest_block sc2 in
  do% assert_equal b1 b2 "" in
  let% hash := getpath b1 ["result"; "hash"] in
  let% id1 := list_index block_ids 1 in
  let% expected := py_add (PStr "0x") id1 in
  do% assert_equal hash expected "" in
  let% parent := getpath b1 ["result"; "parentHash"] in
  let% id0 := list_index block_ids 0 in
  let% expected := py_add (PStr "0x") id0 in
  lift (assert_equal parent expected "").

Definition SCEvmPauseForging_run_test (fuel : nat) : MF unit :=
  let! sc1 := sc 0 in
  let! sc2 := sc 1 in
  let! mc_node := mc 0 in
  do! pause_stake fuel mc_node sc1 sc2 in
  do! forM_ (zrange 0 102) (λ _, do! second_block sc1 false in sc_sync_all fuel false) in
  do! reach_pausing_fork fuel sc1 in
  let! hashes := call mc_node "generate" [PInt 1] in
  let% mc_block := getindex hashes (-1) in
  do! sc_sync_all fuel false in
  do! forM_ (zrange 0 100) (block_of_row fuel sc1 sc2 mc_block) in
  do! cannot_forge sc2 in
  illegal_tip fuel mc_node sc1 sc2.

Definition SCEvmPauseForging (fuel : nat) (o : Options) (shared : SCForgerConfiguration) : TestClass W :=
  let a := forger_setup 2 LARGE_WITHDRAWAL_EPOCH_LENGTH 100 (SLOTS_IN_EPOCH * EVM_APP_SLOT_TIME * 100) None [] in
  mkTestClass W (default_setup_chain o) (ac_setup_network fuel o a) (ac_sc_setup_chain o a shared)
    (SCEvmPauseForging_sc_setup_network fuel o) (SCEvmPauseForging_run_test fuel).
End Blocks.

(** ** What the numbers mean *)

(** The boxes found are those of the address, in their order. *)
Theorem find_boxes_of_address_spec boxes address l :
  find_boxes_of_address boxes address = Val l →
  sublist l boxes
  ∧ (∀ box, box ∈ boxes →
       box ∈ l ↔ ∃ key, getpath box ["proposition"; "publicKey"] = Val key ∧ py_eqb key address = true).
Proof.
  revert l. induction boxes as [| b boxes IH]; cbn [find_boxes_of_address]; intros l.
  - intros [= <-]. split; [constructor | by intros box ?%elem_of_nil].
  - intros (key & Hk & Hr)%obind_Val_inv. apply obind_Val_inv in Hr as (l' & Hl & [= <-]).
    destruct (IH _ Hl) as [Hs Hin]. split.
    + destruct (py_eqb key address); by constructor.
    + intros box [-> | Hb]%elem_of_cons.
      * destruct (py_eqb key address) eqn:E; [by split; [eauto | intros _; left] |].
        split; [| intros (k & Hk' & Ht); congruence].
        intros Hb. apply Hin in Hb; [done | eapply elem_of_submseteq, sublist_submseteq; done].
      * destruct (py_eqb key address) eqn:E; [| by apply Hin].
        rewrite elem_of_cons, Hin by done. split; [| auto].
        intros [-> | ?]; eauto.
Qed.

(** The change after some transactions. *)
Fixpoint change_after (n : nat) (value : pyval) : outcome pyval :=
  match n with O => Val value | S n' => let? c := change_of value in change_after n' c end.

(** All outputs are made, and the floats lose nothing: the last transaction spends exactly
    the change of the ones before. *)
Theorem big_block_outputs_exact :
  tx_to_create * MAX_TRANSACTION_OUTPUT + remaining_utxos = utxo_to_create
  ∧ 0 < remaining_utxos ≤ MAX_TRANSACTION_OUTPUT
  ∧ (let? z := ft_zennies in change_after (Z.to_nat tx_to_create) z)
    = (let? a := utxo_amount in py_mul a (PInt remaining_utxos))
  ∧ (let? a := utxo_amount in let? t := py_mul a (PInt utxo_to_create) in Val (py_eqb t (PInt (big_ft_amount * 10 ^ 8)))) = Val true.
Proof. repeat split; vm_compute; done. Qed.
