(* ===== verification/ScenarioProps.v ===== *)
(** * What a passing scenario says about the nodes

    The scenarios are oracles: the point of a run that ends without an
    exception is what it tells about the nodes.  [during] relates two states
    of a run between which only node calls happened, and [observed] says that
    a call made in between got a reply with some property; the theorems state
    for the scenarios which replies a passing run has seen.  A second part says what the
    checks can and cannot notice. *)

From S2P Require Import Prelude PyStr Numbers PyVal Host Sim Json Encoding HttpProxy BootInfo McUtil ScUtil.
From S2P Require Import Forging Bootstrap Framework McFramework HttpCalls Checks BootstrapProps.
From Stdlib Require Import Ascii String.
From stdpp Require Import base list relations.
From S2P Require Import Scenarios NetScenarios ForgingScenarios StakeScenarios.
From stdpp Require Import sorting.
From S2P Require Import ChainScenarios MempoolScenarios.
Local Open Scope Z_scope.

(** ** Runs that only call nodes *)

Section During.
Context {W : Type} `{Nodes W}.
Implicit Types s : St W.

(** One call of a node, whatever it answers. *)
Definition call_step s s' : Prop :=
  ∃ p m args kw r w, node_call p m args kw (world s) = (r, w) ∧ s' = log_event (ECall p m args kw) (set_world w s).

Definition during : St W → St W → Prop := rtc call_step.

(** A call made between the two states got a reply with the property. *)
Definition observed (p : proxy) (m : string) (args : list pyval) (kw : list (string * pyval)) (P : pyval → Prop)
    s1 s2 : Prop :=
  ∃ s reply w, during s1 s ∧ node_call p m args kw (world s) = (inr reply, w) ∧ P reply
    ∧ during (log_event (ECall p m args kw) (set_world w s)) s2.

Lemma observed_weaken p m args kw (P Q : pyval → Prop) a s1 s2 b :
  during a s1 → during s2 b → (∀ r, P r → Q r) → observed p m args kw P s1 s2 → observed p m args kw Q a b.
Proof.
  intros Ha Hb HPQ (s & r & w & H1 & Hc & HP & H2). exists s, r, w. split_and!; eauto.
  - by etrans.
  - by etrans.
Qed.

Lemma observed_during p m args kw P s1 s2 : observed p m args kw P s1 s2 → during s1 s2.
Proof.
  intros (s & r & w & H1 & Hc & _ & H2). etrans; [exact H1|]. eapply rtc_l; [|exact H2]. by repeat eexists.
Qed.

Lemma call_kw_observed p m args kw s v s' :
  call_kw p m args kw s = (Val v, s') → observed p m args kw (λ r, r = v) s s'.
Proof.
  unfold call_kw. destruct (node_call p m args kw (world s)) as [[e|r] w] eqn:E; simpl; [done|].
  intros [= -> <-]. exists s, v, w. split_and!; [apply rtc_refl|done|done|apply rtc_refl].
Qed.

Lemma call_observed c m args s v s' : call c m args s = (Val v, s') → observed c m args [] (λ r, r = v) s s'.
Proof. apply call_kw_observed. Qed.

(** A loop whose passes each observe something, from the states of an invariant
    that calls keep, observes it for every element. *)
Lemma forM_observed_inv (Inv : St W → Prop) {A} (f : A → M W unit) (O : A → St W → St W → Prop) :
  (∀ s s', during s s' → Inv s → Inv s') →
  (∀ x s s', Inv s → f x s = (Val tt, s') → O x s s') →
  (∀ x s s', O x s s' → during s s') →
  (∀ x a s s' b, during a s → during s' b → O x s s' → O x a b) →
  ∀ l s s', Inv s → forM_ l f s = (Val tt, s') → during s s' ∧ ∀ x, x ∈ l → O x s s'.
Proof.
  intros HI Hf Hd Hw l. induction l as [|x l IH]; intros s s' Hs; simpl.
  - intros [= <-]. split; [apply rtc_refl|]. by intros x Hx%elem_of_nil.
  - intros ([] & s1 & H1 & H2)%bind_Val_inv. pose proof (Hf _ _ _ Hs H1) as Ho. pose proof (Hd _ _ _ Ho) as Hd1.
    apply IH in H2 as [H2 H2']; [|by eapply HI]. split; [by etrans|]. intros y [->|Hy]%elem_of_cons.
    + eapply Hw; [apply rtc_refl|exact H2|exact Ho].
    + eapply Hw; [exact Hd1|apply rtc_refl|by apply H2'].
Qed.

Lemma forM_observed {A} (f : A → M W unit) (O : A → St W → St W → Prop) :
  (∀ x s s', f x s = (Val tt, s') → O x s s') →
  (∀ x s s', O x s s' → during s s') →
  (∀ x a s s' b, during a s → during s' b → O x s s' → O x a b) →
  ∀ l s s', forM_ l f s = (Val tt, s') → during s s' ∧ ∀ x, x ∈ l → O x s s'.
Proof. intros Hf Hd Hw l s s'. apply (forM_observed_inv (λ _, True)); eauto. Qed.
End During.

(** The next step of a run, whatever it was. *)
Ltac skip_step H := apply bind_Val_inv in H as (? & ? & _ & H); cbv beta in H.

(** A passed assertion. *)
Lemma assert_true_inv c msg : assert_true c msg = Val tt → c = true.
Proof. unfold assert_true. by destruct c. Qed.

Lemma assert_equal_inv a b msg : assert_equal a b msg = Val tt → py_eqb a b = true.
Proof. unfold assert_equal, py_neqb. by destruct (py_eqb a b). Qed.

Lemma assert_equal_int_inv a b msg : assert_equal (PInt a) (PInt b) msg = Val tt → a = b.
Proof. intros E%assert_equal_inv. rewrite py_eqb_int in E. by apply Z.eqb_eq. Qed.

Section Net.
Context {W : Type} `{Nodes W, Clock W, Os W, Rng W}.
Implicit Types st s : St (FW W).

Lemma get_sc_nodes_run l st : sc_nodes (fw_self (world st)) = Is l → get_sc_nodes st = (Val l, st).
Proof. intros E. unfold get_sc_nodes, self_get, bind, ask. by rewrite E. Qed.

(** A reply of [node_connectedPeers] with a number of peers. *)
Definition lists_peers (P : Z → Prop) (reply : pyval) : Prop :=
  ∃ peers k, getpath reply ["result"; "peers"] = Val peers ∧ py_len peers = Val k ∧ P k.

Lemma check_peer_count_inv l i check s s' :
  check_peer_count l i check s = (Val tt, s') →
  ∃ node, list_index l i = Val node
    ∧ observed node "node_connectedPeers" [] [] (lists_peers (λ k, check k = Val tt)) s s'.
Proof.
  unfold check_peer_count, peers_of, get_connected_peers, call. intros Hr. inv_run.
  eexists; split; [done|]. eapply observed_weaken; [apply rtc_refl|apply rtc_refl| |by eapply call_kw_observed].
  intros r ->. unfold lists_peers. eauto.
Qed.

Lemma check_peer_counts l check idx s s' :
  forM_ idx (λ i, check_peer_count l i check) s = (Val tt, s') →
  during s s' ∧ ∀ i node, i ∈ idx → list_index l i = Val node →
    observed node "node_connectedPeers" [] [] (lists_peers (λ k, check k = Val tt)) s s'.
Proof.
  intros Hr. eapply (forM_observed _ (λ i a b, ∃ node, list_index l i = Val node
    ∧ observed node "node_connectedPeers" [] [] (lists_peers (λ k, check k = Val tt)) a b)) in Hr as [Hd Ho].
  - split; [done|]. intros i node Hi Hn. destruct (Ho i Hi) as (node' & Hn' & Hobs). rewrite Hn in Hn'. by injection Hn' as <-.
  - intros x a b. apply check_peer_count_inv.
  - intros x a b (? & _ & Hobs). by eapply observed_during.
  - intros x a c d b Ha Hb (node & Hn & Hobs). exists node. split; [done|]. by eapply observed_weaken.
Qed.

(** When the ring test passes, every node answered, after the ring had been
    closed and a minute had gone by, that it is connected to all the others. *)
Theorem NetRingOfNodes_connected (fuel : nat) (l : list proxy) st st' :
  sc_nodes (fw_self (world st)) = Is l → NetRingOfNodes_run_test fuel st = (Val tt, st') →
  ∃ s, ring_connect fuel l st = (Val tt, s)
    ∧ ∀ node, node ∈ l →
        observed node "node_connectedPeers" [] [] (lists_peers (λ k, k = Z.of_nat (length l) - 1)) s st'.
Proof.
  intros Hl Hr. unfold NetRingOfNodes_run_test in Hr. erewrite bind_run in Hr by by apply get_sc_nodes_run.
  apply bind_Val_inv in Hr as ([] & s & Hc & Hr). exists s. split; [done|].
  apply check_peer_counts in Hr as [_ Ho]. intros node [i Hi]%list_elem_of_lookup.
  eapply observed_weaken; [apply rtc_refl|apply rtc_refl| |eapply (Ho (Z.of_nat i))].
  - intros r (peers & k & Hp & Hk & He). exists peers, k. by apply assert_equal_int_inv in He.
  - apply lookup_lt_Some in Hi. unfold zrange. apply elem_of_seqZ. lia.
  - by apply list_index_lookup.
Qed.
End Net.

Section ForgingRuns.
Context {W : Type} `{Nodes W, Clock W, Os W, Rng W}.
Implicit Types st s : St (FW W).

Lemma boot_info_state s info s' : boot_info s = (Val info, s') → s' = s.
Proof.
  unfold boot_info, self_get, bind, ask. destruct (sc_nodes_bootstrap_info _); simpl; [|done]. by intros [= _ ->].
Qed.

Lemma mc_Val_inv i s m s' : mc i s = (Val m, s') → s' = s.
Proof. unfold mc, get_nodes, self_get, ask. intros Hr. inv_run. congruence. Qed.

Lemma sc_Val_inv i s m s' : Scenarios.sc i s = (Val m, s') → s' = s.
Proof.
  unfold Scenarios.sc, get_sc_nodes, self_get, ask. intros (l & s1 & Hl & [_ ->]%lift_Val_inv)%bind_Val_inv.
  apply bind_Val_inv in Hl as (a & s2 & [= _ <-] & Ha).
  destruct a; [done|done|]. by apply ret_Val_inv in Ha as [_ ->].
Qed.

(** A reply of [block_findById] whose block lists the hash under a field. *)
Definition block_lists (field key : string) (hash reply : pyval) : Prop :=
  ∃ b v l x h, getpath reply ["result"; "block"] = Val b ∧ getitem b field = Val v ∧ py_iter v = Val l
    ∧ x ∈ l ∧ getitem x key = Val h ∧ py_eqb h hash = true.

Definition block_observed (c : proxy) (id : pyval) (P : pyval → Prop) s s' : Prop :=
  observed c "block_findById" [] [("blockId", id)] P s s'.

Lemma find_block_observed c id s b s' :
  find_block c id s = (Val b, s') → block_observed c id (λ r, getpath r ["result"; "block"] = Val b) s s'.
Proof.
  unfold find_block. intros Hr. inv_run.
  eapply observed_weaken; [apply rtc_refl|apply rtc_refl| |by eapply call_kw_observed]. by intros r ->.
Qed.

Lemma find_hash_inv l key hash msg :
  find_hash l key hash msg = Val tt → ∃ x h, x ∈ l ∧ getitem x key = Val h ∧ py_eqb h hash = true.
Proof.
  induction l as [|x l IH]; simpl; [done|]. intros (h & Hh & Hr)%obind_Val_inv.
  destruct (py_eqb h hash) eqn:E; [by exists x, h; split_and!; [left|..]|].
  apply IH in Hr as (y & h' & ? & ?). exists y, h'. split; [by right|done].
Qed.

Lemma presence_inv field key hash id c msg s s' :
  (let! block := find_block c id in let% v := getitem block field in let% l := py_iter v in
   lift (find_hash l key hash msg)) s = (Val tt, s') →
  block_observed c id (block_lists field key hash) s s'.
Proof.
  intros (b & s1 & Hb & Hr)%bind_Val_inv. apply bind_Val_inv in Hr as (v & s2 & [Hv ->]%lift_Val_inv & Hr).
  apply bind_Val_inv in Hr as (l & s3 & [Hl ->]%lift_Val_inv & [Hf ->]%lift_Val_inv).
  eapply observed_weaken; [apply rtc_refl|apply rtc_refl| |by eapply find_block_observed].
  intros r Hr. destruct (find_hash_inv _ _ _ _ Hf) as (x & h & ? & ? & ?). by exists b, v, l, x, h.
Qed.

Lemma check_amount_during field what n id c s s' : check_amount field what n id c s = (Val tt, s') → during s s'.
Proof.
  unfold check_amount. intros Hr. inv_run. by eapply observed_during, find_block_observed.
Qed.

Lemma presence_loop (check : pyval → M (FW W) unit) c id (P : pyval → pyval → Prop) l s s' :
  (∀ h s s', check h s = (Val tt, s') → block_observed c id (P h) s s') →
  forM_ l check s = (Val tt, s') → during s s' ∧ ∀ h, h ∈ l → block_observed c id (P h) s s'.
Proof.
  intros Hc. apply (forM_observed check (λ h, block_observed c id (P h))); [done|..].
  - intros. by eapply observed_during.
  - intros h a b d e Ha Hb. by apply observed_weaken.
Qed.

(** Both ways a block can carry a mainchain block. *)
Definition block_references (c : proxy) (id hash : pyval) s s' : Prop :=
  block_observed c id (block_lists "mainchainHeaders" "hash" hash) s s'
  ∧ block_observed c id (block_lists "mainchainBlockReferencesData" "headerHash" hash) s s'.

Lemma check_references_inv n l a b id c s s' :
  check_references n (PList l) a b id c s = (Val tt, s') →
  during s s' ∧ ∀ h, h ∈ slice a b l → block_references c id h s s'.
Proof.
  unfold check_references. intros ([] & s1 & D1%check_amount_during & Hr)%bind_Val_inv.
  apply bind_Val_inv in Hr as (part & s1' & [[= <-] ->]%lift_Val_inv & Hr).
  apply bind_Val_inv in Hr as ([] & s2 & Ho & Hr).
  apply (presence_loop _ c id (block_lists "mainchainHeaders" "hash")) in Ho as [D2 Ho2];
    [|intros ???; apply presence_inv].
  apply bind_Val_inv in Hr as ([] & s3 & D3%check_amount_during & Hr).
  apply bind_Val_inv in Hr as (part & s3' & [[= <-] ->]%lift_Val_inv & Hr).
  apply (presence_loop _ c id (block_lists "mainchainBlockReferencesData" "headerHash")) in Hr as [D4 Ho4];
    [|intros ???; apply presence_inv].
  split; [by do 3 (etrans; [eassumption|])|]. intros h Hh. split.
  - eapply observed_weaken; [exact D1|by etrans; [exact D3|]|done|by apply Ho2].
  - eapply observed_weaken; [by do 2 (etrans; [eassumption|])|apply rtc_refl|done|by apply Ho4].
Qed.

Lemma slice_lookup {A} (l : list A) a b j x : l !! j = Some x → (a ≤ j < b)%nat → x ∈ slice a b l.
Proof.
  intros Hj Hab. apply list_elem_of_lookup. exists (j - a)%nat. unfold slice.
  rewrite lookup_take_lt, lookup_drop by lia. by replace (a + (j - a))%nat with j by lia.
Qed.

(** The checks of the blocks that carry 49 references each. *)
Lemma reference_blocks ids l c idx s s' :
  forM_ idx (λ i, let% id := list_index ids (Z.of_nat i) in
                  check_references 49 (PList l) (i * 49) ((i + 1) * 49) id c) s = (Val tt, s') →
  during s s' ∧ ∀ i, i ∈ idx → ∃ id, ids !! i = Some id ∧ during s s'
    ∧ ∀ h, h ∈ slice (i * 49) ((i + 1) * 49) l → block_references c id h s s'.
Proof.
  apply (forM_observed _ (λ i s s', ∃ id, ids !! i = Some id ∧ during s s'
    ∧ ∀ h, h ∈ slice (i * 49) ((i + 1) * 49) l → block_references c id h s s')).
  - intros i a b (id & a' & [Hid ->]%lift_Val_inv & [Hd Hr]%check_references_inv)%bind_Val_inv.
    rewrite list_index_nat in Hid. destruct (ids !! i) as [x|]; simplify_eq/=. eauto.
  - by intros i a b (id & _ & Hd & _).
  - intros i a s1 s2 b Ha Hb (id & Hid & Hd & Hr). exists id. split_and!; [done|by do 2 (etrans; [eassumption|])|].
    intros h [Hh Hh']%Hr. split; by eapply observed_weaken.
Qed.

(** When the test of many mainchain blocks passes, each of the first 200 hashes
    the mainchain node generated was seen in the sidechain block of its turn,
    49 to a block, both among the headers and among the reference data the
    sidechain node reported for that block. *)
Theorem MCSCForging4_references (fuel : nat) st st' :
  MCSCForging4_run_test fuel st = (Val tt, st') →
  ∃ m c hashes ids s1 s2 s3,
    sync_all fuel st = (Val tt, s1) ∧ mc 0 s1 = (Val m, s1) ∧ Scenarios.sc 0 s1 = (Val c, s1)
    ∧ call m "generate" [PInt 200] s1 = (Val hashes, s2)
    ∧ generate_next_blocks c "first node" 5 s2 = (Val ids, s3)
    ∧ ∀ l j h, hashes = PList l → l !! j = Some h → (j < 200)%nat →
        ∃ id, ids !! (j / 49)%nat = Some id ∧ block_references c id h s3 st'.
Proof.
  unfold MCSCForging4_run_test. intros ([] & s1 & Hs & Hr)%bind_Val_inv.
  apply bind_Val_inv in Hr as (m & s1' & Hm & Hr). pose proof (mc_Val_inv _ _ _ _ Hm) as ->.
  apply bind_Val_inv in Hr as (c & s1' & Hc & Hr). pose proof (sc_Val_inv _ _ _ _ Hc) as ->.
  apply bind_Val_inv in Hr as (hashes & s2 & Hg & Hr). apply bind_Val_inv in Hr as (ids & s3 & Hi & Hr).
  exists m, c, hashes, ids, s1, s2, s3. split_and!; [done..|]. intros l j h -> Hj Hlt.
  apply bind_Val_inv in Hr as ([] & s4 & [D4 Ho]%reference_blocks & Hr).
  apply bind_Val_inv in Hr as (id & s4' & [Hid ->]%lift_Val_inv & [D5 Hl]%check_references_inv).
  destruct (decide (j < 196)%nat) as [Hs'|Hs'].
  - destruct (Ho (j / 49)%nat) as (id' & Hid' & _ & Hr).
    { assert (j / 49 < 4)%nat by (apply Nat.Div0.div_lt_upper_bound; lia).
      destruct (j / 49)%nat as [|[|[|[|]]]]; [set_solver..|lia]. }
    exists id'. split; [done|]. assert (h ∈ slice (j / 49 * 49) ((j / 49 + 1) * 49) l) as [Hh Hh']%Hr.
    { eapply slice_lookup; [exact Hj|]. pose proof (Nat.div_mod_eq j 49). pose proof (Nat.mod_upper_bound j 49). lia. }
    split; by eapply observed_weaken; [apply rtc_refl|exact D5|done|].
  - assert (j / 49 = 4)%nat as -> by (symmetry; apply (Nat.div_unique j 49 4 (j - 196)); lia).
    change 4 with (Z.of_nat 4) in Hid. rewrite list_index_nat in Hid.
    destruct (ids !! 4%nat) as [x|] eqn:E4; simplify_eq/=. exists id. split; [done|].
    assert (h ∈ slice 196 200 l) as [Hh Hh']%Hl by (eapply slice_lookup; [exact Hj|lia]).
    split; by eapply observed_weaken; [exact D4|apply rtc_refl|done|].
Qed.
End ForgingRuns.

Section FeeRuns.
Context {W : Type} `{Nodes W, Clock W, Os W, Rng W}.
Implicit Types st s : St (FW W).

(** The value of the payment at a place of the list a node reported. *)
Definition pays (payments : pyval) (i fee : Z) : Prop :=
  ∃ p v, getindex payments i = Val p ∧ getitem p "value" = Val v ∧ py_eqb (PInt fee) v = true.

(** A reply of [block_getFeePayments] with these payments. *)
Definition reports_payments (payments reply : pyval) : Prop := getpath reply ["result"; "feePayments"] = Val payments.

Lemma fee_payments_observed c id s payments s' :
  fee_payments c id s = (Val payments, s') →
  ∃ request, dumps (PDict [("blockId", id)]) = Val request
    ∧ observed c "block_getFeePayments" [PStr request] [] (reports_payments payments) s s'.
Proof.
  unfold fee_payments, http_block_getFeePayments, post, result_or_error, call, with_key.
  intros (r & s1 & Hr & [Hp ->]%lift_Val_inv)%bind_Val_inv. apply bind_Val_inv in Hr as (reply & s2 & Hc & Hr).
  apply bind_Val_inv in Hc as (request & s3 & [Hd ->]%lift_Val_inv & Hc).
  apply bind_Val_inv in Hr as (ok & s4 & [_ ->]%lift_Val_inv & Hr).
  destruct ok; [apply lift_Val_inv in Hr as [Hr ->]|discriminate Hr]. exists request. split; [done|].
  eapply observed_weaken; [apply rtc_refl|apply rtc_refl| |by eapply call_kw_observed].
  intros ? ->. unfold reports_payments, getpath. simpl. by rewrite Hr.
Qed.

Lemma check_length_state n v msg s s' : check_length n v msg s = (Val tt, s') → s' = s.
Proof. unfold check_length. intros Hr. inv_run. by subst. Qed.

Lemma payments_checked (fees : list (Z * Z)) api s s' i fee :
  forM_ (zrange 1 (Z.of_nat (length fees) + 1)) (λ i,
    let% fee := of_opt (KeyError (str_of_Z i)) (dict_get i fees) in
    let% payment := getindex api (i - 1) in
    let% value := getitem payment "value" in
    lift (assert_equal (PInt fee) value ("Different fee value found for payment " +:+ str_of_Z i))) s = (Val tt, s') →
  dict_get i fees = Some fee → 1 ≤ i ≤ Z.of_nat (length fees) → pays api (i - 1) fee.
Proof.
  intros Hr Hf Hi.
  eapply (forM_observed _ (λ i s s', during s s' ∧ ∀ fee, dict_get i fees = Some fee → pays api (i - 1) fee))
    in Hr as [_ Ho].
  - destruct (Ho i) as [_ Hp]; [|by apply Hp]. unfold zrange. apply elem_of_seqZ. lia.
  - intros k a b Hr'. apply bind_Val_inv in Hr' as (f & a1 & [E1 ->]%lift_Val_inv & Hr').
    apply bind_Val_inv in Hr' as (q & a1 & [E2 ->]%lift_Val_inv & Hr').
    apply bind_Val_inv in Hr' as (v & a1 & [E3 ->]%lift_Val_inv & [E4%assert_equal_inv ->]%lift_Val_inv).
    split; [apply rtc_refl|]. intros f' Hf'. rewrite Hf' in E1. injection E1 as ->. by exists q, v.
  - by intros k a b [Hd _].
  - intros k a b d e Ha Hb [Hd Hp]. split; [by do 2 (etrans; [eassumption|])|done].
Qed.

Lemma fee_payments_checks_inv c1 c2 middle last b1 b2 s s' :
  fee_payments_checks c1 c2 middle last b1 b2 s = (Val tt, s') →
  ∃ s1 s2 payments request,
    coins_balance c1 s = (Val (b1 + 941), s1) ∧ coins_balance c2 s1 = (Val (b2 + 260), s2)
    ∧ dumps (PDict [("blockId", last)]) = Val request
    ∧ observed c1 "block_getFeePayments" [PStr request] [] (reports_payments payments) s2 s'
    ∧ pays payments 0 941 ∧ pays payments 1 260.
Proof.
  unfold fee_payments_checks. rewrite epoch_fees_shares.
  intros ([? ?] & s0 & [[= <- <-] ->]%lift_Val_inv & Hr)%bind_Val_inv.
  apply bind_Val_inv in Hr as (a1 & s1 & Ha1 & Hr). apply bind_Val_inv in Hr as (a2 & s2 & Ha2 & Hr).
  do 2 apply bind_Val_inv in Hr as (? & ? & [[= <-] ->]%lift_Val_inv & Hr).
  apply bind_Val_inv in Hr as ([] & ? & [->%assert_equal_int_inv ->]%lift_Val_inv & Hr).
  apply bind_Val_inv in Hr as ([] & ? & [->%assert_equal_int_inv ->]%lift_Val_inv & Hr).
  apply bind_Val_inv in Hr as (? & s3 & (? & _ & D3%observed_during)%fee_payments_observed & Hr).
  apply bind_Val_inv in Hr as ([] & ? & ->%check_length_state & Hr).
  apply bind_Val_inv in Hr as (? & s4 & (? & _ & D4%observed_during)%fee_payments_observed & Hr).
  apply bind_Val_inv in Hr as ([] & ? & ->%check_length_state & Hr).
  apply bind_Val_inv in Hr as (payments & s5 & (request & Hq & Ho)%fee_payments_observed & Hr).
  apply bind_Val_inv in Hr as (? & s6 & (? & _ & D6%observed_during)%fee_payments_observed & Hr).
  apply bind_Val_inv in Hr as ([] & ? & [_ ->]%lift_Val_inv & Hr).
  exists s1, s2, payments, request. split_and!; [done..| |by eapply (payments_checked _ _ _ _ 1) in Hr|
    by eapply (payments_checked _ _ _ _ 2) in Hr].
  eapply observed_weaken; [by etrans|etrans; [exact D6|]|done|exact Ho].
  eapply (forM_observed _ (λ _, during)) in Hr as [Hd _]; [done|..].
  - intros k a b Hr'. inv_run. apply rtc_refl.
  - done.
  - intros. by do 2 (etrans; [eassumption|]).
Qed.

(** C21: when the fee payment test passes, the fees of the epoch are paid out in
    full: the balance the first node reports has grown, over the last block of
    the epoch, by 941 and that of the second by 260, together the 1201 that the
    blocks of the epoch collected; and the payments the node lists for that
    block are these two amounts. *)
Theorem MCSCForgingFeePayments_paid (fuel : nat) st st' :
  MCSCForgingFeePayments_run_test fuel st = (Val tt, st') →
  ∃ m c1 c2 b1 b2 middle last request payments s0 s1 s2 s3 s4 s5 s6,
    mc 0 st = (Val m, st) ∧ Scenarios.sc 0 st = (Val c1, st) ∧ Scenarios.sc 1 st = (Val c2, st)
    ∧ (do! connect_sc fuel 0 1 in do! sc_sync_all fuel false in fee_payments_epoch fuel m c1 c2) st = (Val middle, s0)
    ∧ coins_balance c1 s0 = (Val b1, s1) ∧ coins_balance c2 s1 = (Val b2, s2)
    ∧ generate_next_block c2 "second node" false PNone s2 = (Val last, s3) ∧ sc_sync_all fuel false s3 = (Val tt, s4)
    ∧ coins_balance c1 s4 = (Val (b1 + 941), s5) ∧ coins_balance c2 s5 = (Val (b2 + 260), s6)
    ∧ 941 + 260 = foldr Z.add 0 (map fee_value epoch_fees)
    ∧ dumps (PDict [("blockId", last)]) = Val request
    ∧ observed c1 "block_getFeePayments" [PStr request] [] (reports_payments payments) s6 st'
    ∧ pays payments 0 941 ∧ pays payments 1 260.
Proof.
  unfold MCSCForgingFeePayments_run_test. intros (m & s & Hm & Hr)%bind_Val_inv.
  pose proof (mc_Val_inv _ _ _ _ Hm) as ->. apply bind_Val_inv in Hr as (c1 & s & Hc1 & Hr). pose proof (sc_Val_inv _ _ _ _ Hc1) as ->.
  apply bind_Val_inv in Hr as (c2 & s & Hc2 & Hr). pose proof (sc_Val_inv _ _ _ _ Hc2) as ->.
  apply bind_Val_inv in Hr as ([] & ? & Hx & Hr). apply bind_Val_inv in Hr as ([] & ? & Hy & Hr).
  apply bind_Val_inv in Hr as (middle & s0 & Hz & Hr). apply bind_Val_inv in Hr as (b1 & s1 & Hb1 & Hr).
  apply bind_Val_inv in Hr as (b2 & s2 & Hb2 & Hr). apply bind_Val_inv in Hr as (last & s3 & Hl & Hr).
  apply bind_Val_inv in Hr as ([] & s4 & Hs & Hr).
  apply fee_payments_checks_inv in Hr as (s5 & s6 & payments & request & Ha1 & Ha2 & Hq & Ho & Hp1 & Hp2).
  exists m, c1, c2, b1, b2, middle, last, request, payments, s0, s1, s2, s3, s4, s5, s6. split_and!; try done.
  erewrite bind_run by exact Hx. by erewrite bind_run by exact Hy.
Qed.
End FeeRuns.

(** ** Runs of the scenarios against simulated nodes *)

Definition result (fields : list (string * pyval)) : pyval := PDict [("result", PDict fields)].

Definition running (mcs scs : list proxy) (f : nat → proxy → string → list pyval → exn + pyval) : St (FW sim) :=
  init_st (mkFW (mkSelf (Some mcs) (Is scs) None None None None) (sim_of f)).

(** Two nodes that list each other. *)
Definition ring_nodes (n : nat) (p : proxy) (m : string) (args : list pyval) : exn + pyval :=
  inr (result [("peers", PList [PDict [("remoteAddress",
    PStr (if decide (p = sc0) then "/127.0.0.1:8547" else "/127.0.0.1:8546"))]])]).

Definition ring_st : St (FW sim) := running [mc0] [sc0; sc1] ring_nodes.

Lemma NetRingOfNodes_connected_witness :
  (NetRingOfNodes_run_test 5 ring_st).1 = Val tt
  ∧ ∃ s, ring_connect 5 [sc0; sc1] ring_st = (Val tt, s)
    ∧ ∀ node, node ∈ [sc0; sc1] →
        observed node "node_connectedPeers" [] [] (lists_peers (λ k, k = 1)) s (NetRingOfNodes_run_test 5 ring_st).2.
Proof.
  split; [vm_compute; reflexivity|].
  apply (NetRingOfNodes_connected 5 [sc0; sc1] ring_st); [reflexivity|vm_compute; reflexivity].
Defined.

(** The replies the forging scenarios have in common. *)
Definition forging_replies (m : string) : option pyval :=
  match m with
  | "block_forgingInfo" => Some (result [("consensusSlotsInEpoch", PInt 720); ("bestBlockSlotNumber", PInt 1);
                                         ("bestBlockEpochNumber", PInt 1)])
  | "block_generate" => Some (result [("blockId", PStr "b")])
  | "getblockcount" => Some (PInt 420)
  | "getrawmempool" => Some (PList [])
  | _ => None
  end.

(** 200 mainchain blocks with one hash, carried 49 to a block and by 4 in the last. *)
Definition many_nodes (n : nat) (p : proxy) (m : string) (args : list pyval) : exn + pyval :=
  match forging_replies m with
  | Some r => inr r
  | None =>
    if String.eqb m "generate" then inr (PList (repeat (PStr "h") 200))
    else let k := if (n <? 413)%nat then 49%nat else 4%nat in
    inr (result [("block", PDict [("mainchainHeaders", PList (repeat (PDict [("hash", PStr "h")]) k));
      ("mainchainBlockReferencesData", PList (repeat (PDict [("headerHash", PStr "h")]) k))])])
  end.

Definition many_st : St (FW sim) := running [mc0] [sc0] many_nodes.

Lemma MCSCForging4_references_witness :
  (MCSCForging4_run_test 5 many_st).1 = Val tt
  ∧ ∃ m c hashes ids s1 s2 s3,
    sync_all 5 many_st = (Val tt, s1) ∧ mc 0 s1 = (Val m, s1) ∧ Scenarios.sc 0 s1 = (Val c, s1)
    ∧ call m "generate" [PInt 200] s1 = (Val hashes, s2)
    ∧ generate_next_blocks c "first node" 5 s2 = (Val ids, s3)
    ∧ ∀ l j h, hashes = PList l → l !! j = Some h → (j < 200)%nat →
        ∃ id, ids !! (j / 49)%nat = Some id ∧ block_references c id h s3 (MCSCForging4_run_test 5 many_st).2.
Proof.
  split; [vm_compute; reflexivity|].
  apply (MCSCForging4_references 5 many_st (MCSCForging4_run_test 5 many_st).2). vm_compute. reflexivity.
Defined.

Definition box (kind : string) (zen : Z) : pyval :=
  PDict [("proposition", PDict [("publicKey", PStr "k")]); ("typeName", PStr kind); ("value", PInt (zen * 100000000));
         ("id", PStr "i")].

(** Nodes on which the fees of the epoch are paid with its last block. *)
Definition fee_nodes (n : nat) (p : proxy) (m : string) (args : list pyval) : exn + pyval :=
  match forging_replies m with
  | Some r => inr r
  | None =>
    inr (match m with
    | "node_connectedPeers" => result [("peers", PList [PDict [("remoteAddress", PStr "/127.0.0.1:8547")]])]
    | "block_currentHeight" => result [("height", PInt 1)]
    | "transaction_allTransactions" => result [("transactions", PList [])]
    | "wallet_createPrivateKey25519" | "wallet_createVrfSecret" =>
        result [("proposition", PDict [("publicKey", PStr "k")])]
    | "sc_send" | "getnewaddress" => PStr "a"
    | "getmempoolinfo" => PDict [("size", PInt 1)]
    | "generate" => PList [PStr "h"]
    | "block_findById" => result [("block", PDict [("mainchainHeaders", PList [PDict [("hash", PStr "h")]]);
        ("mainchainBlockReferencesData", PList [PDict [("headerHash", PStr "h")]])])]
    | "wallet_coinsBalance" => result [("balance", PInt ((if decide (p = sc0) then 0 else 500 * 100000000)
        + (if (n <? 52)%nat then 0 else if decide (p = sc0) then 941 else 260)))]
    | "wallet_allBoxes" => result [("boxes", PList [box "ZenBox" 500; box "ForgerBox" 499])]
    | "block_getFeePayments" => result [("feePayments", PList (if (n <? 61)%nat then [] else
        [PDict [("value", PInt 941)]; PDict [("value", PInt 260)]]))]
    | _ => result []
    end)
  end.

Definition fee_st : St (FW sim) :=
  init_st (mkFW (mkSelf (Some [mc0]) (Is [sc0; sc1]) None None (Some ex_info) None) (sim_of fee_nodes)).

Lemma MCSCForgingFeePayments_paid_witness :
  (MCSCForgingFeePayments_run_test 5 fee_st).1 = Val tt
  ∧ ∃ (c2 : proxy) (b2 : Z) (s5 s6 : St (FW sim)), Scenarios.sc 1 fee_st = (Val c2, fee_st) ∧ coins_balance c2 s5 = (Val (b2 + 260), s6).
Proof.
  split; [vm_compute; reflexivity|].
  destruct (MCSCForgingFeePayments_paid 5 fee_st (MCSCForgingFeePayments_run_test 5 fee_st).2)
    as (m & c1 & c2 & b1 & b2 & middle & last & request & payments & s0 & s1 & s2 & s3 & s4 & s5 & s6 & Hr).
  - vm_compute. reflexivity.
  - exists c2, b2, s5, s6. destruct Hr as (_ & _ & Hc & _ & _ & _ & _ & _ & _ & Hb & _). by split.
Defined.

(** * What the checks of the scenarios can and cannot notice

    The two ways the scripts write "this must fail" ([must_fail] and
    [fail_inside]), the order of fees a block is checked for, and the loop that
    fills a memory pool. *)

Section Refusals.
Context {W : Type} `{Nodes W, Clock W, Os W, Rng W}.
Implicit Types st : St (FW W).

(** The check with the [fail] inside the [try] passes when the operation
    succeeds and when it raises something that is caught. *)
Lemma fail_inside_run (caught : exn → bool) (m : M (FW W) pyval) msg st r st' :
  m st = (r, st') → (∀ v, r = Val v → caught (AssertionError msg) = true) →
  fail_inside caught m msg st
  = match r with
    | Val _ => (Val tt, st')
    | Exc e => if caught e then (Val tt, st') else (Exc e, st')
    | NoFuel => (NoFuel, st')
    end.
Proof.
  intros Hm Hc. unfold fail_inside, catch, bind. rewrite Hm. destruct r as [v|e|]; cbn.
  - by rewrite (Hc v).
  - by destruct (caught e).
  - done.
Qed.

(** The check with the [fail] in the [else] branch raises when the operation succeeds. *)
Lemma must_fail_run (caught : exn → bool) (m : M (FW W) pyval) msg st r st' :
  m st = (r, st') →
  must_fail caught m msg st
  = match r with
    | Val _ => (Exc (AssertionError msg), st')
    | Exc e => if caught e then (Val tt, st') else (Exc e, st')
    | NoFuel => (NoFuel, st')
    end.
Proof.
  intros Hm. unfold must_fail, catch, bind. rewrite Hm. destruct r as [v|e|]; cbn; [done| |done].
  by destruct (caught e).
Qed.

(** A node that keeps forging after its sidechain has ceased passes the test of
    ceasing, and a node that accepts a fee above its limit passes the test of
    that limit: there the failing assertion is itself caught.  The test of
    delegation, which asks for the same refusal with [try]/[else], fails when a
    block is forged. *)
Theorem refusals_unnoticed (sc_node : proxy) (address v : pyval) st st' :
  (generate_next_block sc_node "first node" false PNone st = (Val v, st') →
   ceased_refuses sc_node st = (Val tt, st'))
  ∧ (sendCoinsToAddress sc_node address (PInt 10) (PInt (max_fee_limit + 1)) PNone st = (Val v, st') →
     high_fee_refused sc_node address st = (Val tt, st'))
  ∧ (∀ msg, generate_next_block sc_node "first node" true PNone st = (Val v, st') →
     must_fail (λ _, true) (generate_next_block sc_node "first node" true PNone) msg st
     = (Exc (AssertionError msg), st')).
Proof.
  split_and!.
  - intros Hg. by apply (fail_inside_run _ _ _ _ _ _ Hg).
  - intros Hs. by apply (fail_inside_run _ _ _ _ _ _ Hs).
  - intros msg Hg. by apply (must_fail_run _ _ _ _ _ _ Hg).
Qed.
End Refusals.

(** ** The order of the transactions of a block *)

(** [tx['fee'] / tx['size']] *)
Definition fee_rate (tx : pyval) : outcome pyval :=
  let? fee := getitem tx "fee" in
  let? size := getitem tx "size" in
  py_truediv fee size.

(** Every transaction has a rate and each rate is below the one before. *)
Definition rates_decrease (bound : pyval) (txs : list pyval) (rates : list pyval) : Prop :=
  Forall2 (λ tx rate, fee_rate tx = Val rate) txs rates
  ∧ ∀ i a b, (bound :: rates) !! i = Some a → rates !! i = Some b → py_lt b a = Val true.

Lemma feerates_decrease_inv txs : ∀ bound,
  feerates_decrease bound txs = Val tt → ∃ rates, rates_decrease bound txs rates.
Proof.
  induction txs as [|tx txs IH]; intros bound; simpl.
  - intros _. exists []. split; [constructor|]. intros i a b _ Hb. by destruct i.
  - intros (fee & Hf & Hr)%obind_Val_inv. apply obind_Val_inv in Hr as (size & Hs & Hr).
    apply obind_Val_inv in Hr as (rate & Hrate & Hr). apply obind_Val_inv in Hr as (below & Hb & Hr).
    apply obind_Val_inv in Hr as ([] & ->%assert_true_inv & [rates [Hfor Hdec]]%IH).
    exists (rate :: rates). split.
    + constructor; [|done]. unfold fee_rate. rewrite Hf. simpl. by rewrite Hs.
    + intros [|i] a b; simpl; [by intros [= <-] [= <-]|]. apply Hdec.
Qed.

Section Feerate.
Context {W : Type} `{Nodes W, Clock W, Os W, Rng W}.
Implicit Types st s : St (FW W).

(** When the fee rate test passes, the transactions of the block forged last, as
    the node reports them, are in strictly decreasing order of fee per size. *)
Theorem SCForgerFeerate_sorted (fuel : nat) st st' :
  SCForgerFeerate_run_test fuel st = (Val tt, st') →
  ∃ c id block v txs rates s1 s2,
    forge c s1 = (Val id, s2) ∧ find_block c id s2 = (Val block, st')
    ∧ getitem block "sidechainTransactions" = Val v ∧ py_iter v = Val txs
    ∧ rates_decrease (PInt 100000000) txs rates.
Proof.
  unfold SCForgerFeerate_run_test. intros ([] & ? & _ & Hr)%bind_Val_inv.
  apply bind_Val_inv in Hr as ([] & ? & _ & Hr). apply bind_Val_inv in Hr as (m & ? & _ & Hr).
  apply bind_Val_inv in Hr as (c & ? & _ & Hr). apply bind_Val_inv in Hr as ([] & ? & _ & Hr).
  do 4 apply bind_Val_inv in Hr as (? & ? & _ & Hr). apply bind_Val_inv in Hr as ([] & s1 & _ & Hr).
  apply bind_Val_inv in Hr as (id & s2 & Hid & Hr). apply bind_Val_inv in Hr as (block & s3 & Hblock & Hr).
  apply bind_Val_inv in Hr as (v & ? & [Hv ->]%lift_Val_inv & Hr).
  apply bind_Val_inv in Hr as (txs & ? & [Htxs ->]%lift_Val_inv & [[rates Hrates]%feerates_decrease_inv ->]%lift_Val_inv).
  by exists c, id, block, v, txs, rates, s1, s2.
Qed.
End Feerate.

(** ** Filling the memory pool *)

Section Fill.
Context {W : Type} `{Nodes W, Clock W, Os W, Rng W}.
Implicit Types st : St (FW W).
Context (Inv : St (FW W) → Prop) (c : proxy) (address : pyval) (least : Z).

(** From the states of an invariant every transaction is accepted and reported
    with a size of at least [least]. *)
Definition accepts_all : Prop := ∀ used st, Inv st → ∃ size st',
  (let! tx := send_eight c address 50 in add_size c (PInt used) tx) st = (Val (PInt (used + size)), st')
  ∧ least ≤ size ∧ Inv st'.

(** The loop that fills the memory pool of a node that accepts every transaction
    ends: when [n] transactions of the least size are enough to reach the limit
    of one megabyte, it makes at most [n] passes and adds their number to the
    count; a pool that is full already gets none. *)
Theorem fill_pool_terminates (n : nat) (used inserted : Z) (fuel : nat) st :
  accepts_all → Inv st → 0 < least → mempool_max_size_bytes - used ≤ Z.of_nat n * least → (n < fuel)%nat →
  ∃ k st', fill_pool fuel c address (PInt used) inserted st = (Val (inserted + k), st')
    ∧ 0 ≤ k ≤ Z.of_nat n ∧ (mempool_max_size_bytes ≤ used → k = 0) ∧ (used < mempool_max_size_bytes → 0 < k).
Proof.
  intros Hacc HI Hl. revert used inserted fuel st HI. induction n as [|n IH]; intros used inserted fuel st HI Hn Hf;
    (destruct fuel as [|f]; [lia|]); cbn [fill_pool]; rewrite py_lt_int.
  - rewrite (proj2 (Z.ltb_ge _ _)) by lia. exists 0, st. rewrite Z.add_0_r. split; [done|lia].
  - destruct (Z.ltb_spec used mempool_max_size_bytes) as [Hlt|Hge].
    + destruct (Hacc used st HI) as (size & st1 & Hrun & Hsize & HI1).
      destruct (IH (used + size) (inserted + 1) f st1 HI1) as (k & st2 & Hk & Hb & _); [lia|lia|].
      exists (1 + k), st2. split; [|lia]. rewrite Z.add_assoc, <- Hk.
      unfold bind at 1, lift at 1. cbn beta iota. unfold bind at 1, no_error, catch. by rewrite Hrun.
    + exists 0, st. rewrite Z.add_0_r. split; [done|lia].
Qed.
End Fill.

(** ** Runs against simulated nodes *)

(** A node that forges a block and accepts a transaction, whatever is asked. *)
Definition willing_nodes (n : nat) (p : proxy) (m : string) (args : list pyval) : exn + pyval :=
  match forging_replies m with
  | Some r => inr r
  | None => inr (result [("transactionId", PStr "t"); ("transaction", PDict [("size", PInt 600000)])])
  end.

Definition willing_st : St (FW sim) := running [mc0] [sc0] willing_nodes.

Lemma refusals_unnoticed_witness :
  ceased_refuses sc0 willing_st = (Val tt, (ceased_refuses sc0 willing_st).2)
  ∧ (must_fail (λ _, true) (generate_next_block sc0 "first node" true PNone) "accepted" willing_st).1
    = Exc (AssertionError "accepted").
Proof.
  pose proof (refusals_unnoticed sc0 (PStr "a") (PStr "b") willing_st) as Hr. split.
  - apply (Hr (ceased_refuses sc0 willing_st).2). vm_compute. reflexivity.
  - pose proof (proj2 (proj2 (Hr (generate_next_block sc0 "first node" true PNone willing_st).2)) "accepted") as ->;
      [reflexivity|]. vm_compute. reflexivity.
Defined.

(** The states in which the simulated nodes are the willing ones. *)
Definition willing (st : St (FW sim)) : Prop := s_node (fw_world (world st)) = willing_nodes.

Lemma willing_accepts : accepts_all willing sc0 (PStr "a") 600000.
Proof.
  intros used st Hw. destruct st as [[self w] tr hp g], w. unfold willing in Hw. simpl in Hw. subst.
  exists 600000. eexists. split_and!; [reflexivity|lia|reflexivity].
Qed.

Lemma fill_pool_terminates_witness :
  willing willing_st
  ∧ ∃ k st', fill_pool 3 sc0 (PStr "a") (PInt 0) 1 willing_st = (Val (1 + k), st') ∧ 0 ≤ k ≤ Z.of_nat 2
    ∧ (mempool_max_size_bytes ≤ 0 → k = 0) ∧ (0 < mempool_max_size_bytes → 0 < k).
Proof.
  split; [reflexivity|].
  apply (fill_pool_terminates willing sc0 (PStr "a") 600000 2 0 1 3 willing_st willing_accepts);
    [reflexivity|lia|vm_compute; discriminate|lia].
Defined.

(** A node whose block has three transactions of decreasing rates. *)
Definition feerate_nodes (n : nat) (p : proxy) (m : string) (args : list pyval) : exn + pyval :=
  match forging_replies m with
  | Some r => inr r
  | None =>
    inr (match m with
    | "wallet_createPrivateKey25519" => result [("proposition", PDict [("publicKey", PStr "k")])]
    | "wallet_allPublicKeys" => result [("propositions", PList [PDict [("publicKey", PStr "k")]])]
    | "getmempoolinfo" => PDict [("size", PInt 1)]
    | "wallet_allBoxes" => result [("boxes", PList (map (box "ZenBox") [10; 20; 30; 40; 50]))]
    | "transaction_sendCoinsToAddress" => result [("transactionId", PStr "t")]
    | "block_findById" => result [("block", PDict [("sidechainTransactions", PList
        (map (λ fee, PDict [("fee", PInt fee); ("size", PInt 174)]) [101; 100; 99]))])]
    | _ => PStr "a"
    end)
  end.

Definition feerate_st : St (FW sim) :=
  init_st (mkFW (mkSelf (Some [mc0]) (Is [sc0]) None None (Some ex_info) None) (sim_of feerate_nodes)).

Lemma SCForgerFeerate_sorted_witness :
  (SCForgerFeerate_run_test 5 feerate_st).1 = Val tt
  ∧ ∃ (txs rates : list pyval), rates_decrease (PInt 100000000) txs rates.
Proof.
  split; [vm_compute; reflexivity|].
  destruct (SCForgerFeerate_sorted 5 feerate_st (SCForgerFeerate_run_test 5 feerate_st).2)
    as (c & id & block & v & txs & rates & s1 & s2 & _ & _ & _ & _ & Hr); [vm_compute; reflexivity|].
  by exists txs, rates.
Defined.
