(* ===== verification/WithdrawalProps.v ===== *)
(** * What passing tests of withdrawals and certificates say

    Three parts: withdrawals from a ceased sidechain, backward transfers with their
    certificate, and the certificates that were published late. *)

From S2P Require Import Prelude PyStr Numbers PyVal Host Sim Json Encoding HttpProxy BootInfo McUtil ScUtil.
From S2P Require Import Forging Bootstrap Framework McFramework HttpCalls Checks BootstrapProps.
From Stdlib Require Import Ascii String.
From stdpp Require Import base list relations.
From S2P Require Import Scenarios StakeScenarios ChainScenarios MempoolScenarios CertScenarios CswScenarios ScenarioProps.
From S2P Require Import ForgingScenarios BackwardScenarios.
From S2P Require Import CertificateScenarios.
From S2P Require Import AccountUtil PendingCertScenarios.
Local Open Scope Z_scope.

(** * What a passing withdrawal from a ceased sidechain says

    The scripts of CswScenarios end with [csw_withdraw]: the theorem states
    which replies of both nodes a passing run has seen, before and after the
    withdrawals were sent. *)

Section CswRuns.
Context {W : Type} `{Nodes W, Clock W, Os W, Rng W}.
Implicit Types st s : St (FW W).
Local Abbreviation MF := (M (FW W)).

(** ** What the calls keep *)

Lemma during_self s s' : during s s' → fw_self (world s') = fw_self (world s).
Proof.
  induction 1 as [|a b c (p & m & args & kw & r & w & Hc & ->) _ IH]; [done|]. rewrite IH. simpl.
  unfold node_call, fw_nodes, through in Hc. destruct (node_call p m args kw (fw_world (world a))) as [? ?]. by injection Hc as <- <-.
Qed.

Lemma self_kept_post c m j k : self_kept (post c m j k : MF _).
Proof. unfold post. solve_self_kept. Qed.
#[local] Hint Resolve self_kept_post : self_kept.

Lemma self_kept_generated c ids b : self_kept (if_csws_were_generated c ids b : MF _).
Proof. induction ids as [|id ids IH]; cbn [if_csws_were_generated]; [by apply self_kept_pure|]. solve_self_kept. Qed.
#[local] Hint Resolve self_kept_generated : self_kept.

Lemma self_kept_start m c ids : self_kept (start_proofs m c ids : MF _).
Proof. unfold start_proofs. solve_self_kept. Qed.

Lemma self_kept_wait n c ids : self_kept (wait_proofs n c ids : MF _).
Proof. induction n as [|n IH]; cbn [wait_proofs]; solve_self_kept. Qed.

Lemma self_kept_send a m c k id : self_kept (send_csw a m c k id : MF _).
Proof. unfold send_csw, csw_info_of. solve_self_kept. Qed.
#[local] Hint Resolve self_kept_send : self_kept.

Lemma self_kept_sends a m c k ids : ∀ n, self_kept (send_csws a m c k n ids : MF _).
Proof. induction ids as [|id ids IH]; intros n; cbn [send_csws]; unfold when; solve_self_kept. Qed.

(** ** What the checks have seen *)

(** The bootstrap information the test keeps. *)
Definition keeps_info (info : SCBootstrapInfo) s : Prop := sc_nodes_bootstrap_info (fw_self (world s)) = Some info.

Lemma boot_info_run info s : keeps_info info s → boot_info s = (Val info, s).
Proof. unfold keeps_info, boot_info, self_get, bind, ask. by intros ->. Qed.

Lemma during_info info s s' : during s s' → keeps_info info s → keeps_info info s'.
Proof. intros Hd. unfold keeps_info. by rewrite (during_self s s'). Qed.

Lemma self_kept_info {A} (m : MF A) info s r s' : self_kept m → m s = (r, s') → keeps_info info s → keeps_info info s'.
Proof. intros Hm E. unfold keeps_info. specialize (Hm s). rewrite E in Hm. simpl in Hm. by rewrite Hm. Qed.

(** The sidechain node named a nullifier for the box, and the mainchain node
    then said of that nullifier of the sidechain whether it is known. *)
Definition nullifier_seen (m c : proxy) (info : SCBootstrapInfo) (known : string) (id : pyval) s s' : Prop :=
  ∃ request nullifier s1,
    dumps (PDict [("boxId", id)]) = Val request
    ∧ observed c "csw_nullifier" [PStr request] [] (λ r, getpath r ["result"; "nullifier"] = Val nullifier) s s1
    ∧ observed m "checkcswnullifier" [sidechain_id info; nullifier] []
        (λ r, ∃ v, getitem r "data" = Val v ∧ py_eqb (PStr known) v = true) s1 s'.

Lemma nullifier_seen_during m c info known id s s' : nullifier_seen m c info known id s s' → during s s'.
Proof. intros (? & ? & s1 & _ & Ha%observed_during & Hb%observed_during). by etrans. Qed.

Lemma nullifier_seen_weaken m c info known id a s s' b :
  during a s → during s' b → nullifier_seen m c info known id s s' → nullifier_seen m c info known id a b.
Proof.
  intros Ha Hb (q & n & s1 & Hq & Ho1 & Ho2). exists q, n, s1. split_and!; [done|..].
  - eapply observed_weaken; [exact Ha|apply rtc_refl| |exact Ho1]. by intros ?.
  - eapply observed_weaken; [apply rtc_refl|exact Hb| |exact Ho2]. by intros ?.
Qed.

Lemma post_observed c m j s v s' :
  post c m j PNone s = (Val v, s') → ∃ q, dumps (PDict j) = Val q ∧ observed c m [PStr q] [] (λ r, r = v) s s'.
Proof. unfold post. intros (q & ? & [Hq ->]%lift_Val_inv & Hr%call_observed)%bind_Val_inv. by exists q. Qed.

(** The nullifier of a box, with the assertion on what the mainchain says of it. *)
Lemma nullifier_state_inv m c id info known msg s n present s' :
  keeps_info info s → nullifier_state m c id s = (Val (n, present), s') →
  assert_equal (PStr known) present msg = Val tt → nullifier_seen m c info known id s s'.
Proof.
  intros Hi. unfold nullifier_state. intros (r & s1 & (q & Hq & Ho)%post_observed & Hr)%bind_Val_inv.
  apply bind_Val_inv in Hr as (n' & ? & [Hn ->]%lift_Val_inv & Hr).
  pose proof (during_info _ _ _ (observed_during _ _ _ _ _ _ _ Ho) Hi) as Hi1.
  rewrite (bind_run _ _ _ _ _ (boot_info_run _ _ Hi1)) in Hr.
  apply bind_Val_inv in Hr as (r2 & s2 & Ho2%call_observed & Hr).
  apply bind_Val_inv in Hr as (p & ? & [Hp ->]%lift_Val_inv & [[= -> ->] ->]%ret_Val_inv).
  intros He%assert_equal_inv. exists q, n, s1. split_and!; [done|..].
  - eapply observed_weaken; [apply rtc_refl|apply rtc_refl| |exact Ho]. by intros ? ->.
  - eapply observed_weaken; [apply rtc_refl|apply rtc_refl| |exact Ho2]. intros ? ->. by exists present.
Qed.

(** The information of a box that nobody has asked a proof for, with its amount. *)
Definition names_amount (value reply : pyval) : Prop :=
  ∃ i amount p status, getpath reply ["result"; "cswInfo"] = Val i
    ∧ getitem i "amount" = Val amount ∧ py_eqb value amount = true
    ∧ getitem i "proofInfo" = Val p ∧ getitem p "status" = Val status ∧ py_eqb (PStr "Absent") status = true.

(** What is seen of a box before the withdrawals. *)
Definition absent_seen (m c : proxy) (info : SCBootstrapInfo) (box : pyval) s s' : Prop :=
  ∃ id value request s1,
    getitem box "id" = Val id ∧ getitem box "value" = Val value ∧ dumps (PDict [("boxId", id)]) = Val request
    ∧ nullifier_seen m c info "false" id s s1
    ∧ observed c "csw_cswInfo" [PStr request] [] (names_amount value) s1 s'.

Lemma check_csw_absent_inv kind active m c tree box info s s' :
  keeps_info info s → check_csw_absent kind active m c tree box s = (Val tt, s') → absent_seen m c info box s s'.
Proof.
  intros Hi. unfold check_csw_absent. intros (id & ? & [Hid ->]%lift_Val_inv & Hr)%bind_Val_inv.
  apply bind_Val_inv in Hr as ([n present] & s1 & Hn & Hr).
  apply bind_Val_inv in Hr as ([] & ? & [Ha ->]%lift_Val_inv & Hr).
  apply bind_Val_inv in Hr as (i & s2 & Hc & Hr).
  apply bind_Val_inv in Hc as (r & ? & (q & Hq & Ho)%post_observed & [Hp ->]%lift_Val_inv).
  inv_run. repeat match goal with E : boot_info _ = _ |- _ => apply boot_info_state in E; subst end.
  repeat match goal with u : unit |- _ => destruct u end.
  eexists id, _, q, s1. split_and!; [done|eassumption|done|by eapply nullifier_state_inv|].
  eapply observed_weaken; [apply rtc_refl|apply rtc_refl| |exact Ho]. intros ? ->.
  eexists i, _, _, _. split_and!; try eassumption; by eapply assert_equal_inv; eassumption.
Qed.

Lemma absent_seen_weaken m c info box a s s' b :
  during a s → during s' b → absent_seen m c info box s s' → absent_seen m c info box a b.
Proof.
  intros Ha Hb (id & v & q & s1 & Hid & Hv & Hq & Hn & Ho). exists id, v, q, s1. split_and!; [done..| |].
  - eapply nullifier_seen_weaken; [exact Ha|apply rtc_refl|exact Hn].
  - eapply observed_weaken; [apply rtc_refl|exact Hb| |exact Ho]. by intros ?.
Qed.

Lemma absent_seen_during m c info box s s' : absent_seen m c info box s s' → during s s'.
Proof. intros (? & ? & ? & s1 & _ & _ & _ & Hn%nullifier_seen_during & Ho%observed_during). by etrans. Qed.

Lemma check_nullifiers_inv m c ids info s s' :
  keeps_info info s → check_nullifiers m c ids s = (Val tt, s') →
  ∀ id, id ∈ ids → nullifier_seen m c info "true" id s s'.
Proof.
  intros Hi Hr. eapply (forM_observed_inv (keeps_info info)) in Hr as [_ Ho]; [exact Ho|..|exact Hi].
  - intros a b. apply during_info.
  - intros id a b Ha ([n p] & a1 & Hn & Hr')%bind_Val_inv. apply bind_Val_inv in Hr' as (? & ? & [_ ->]%lift_Val_inv & Hr').
    apply lift_Val_inv in Hr' as [He ->]. by eapply nullifier_state_inv.
  - intros. by eapply nullifier_seen_during.
  - intros id a b d e Ha Hb. by apply nullifier_seen_weaken.
Qed.

(** A reply that lists a number of boxes, among them the given ones. *)
Definition lists_boxes (k : nat) (boxes : list pyval) (reply : pyval) : Prop :=
  ∃ listed, getpath reply ["result"; "cswBoxIds"] = Val listed ∧ py_len listed = Val (Z.of_nat k)
    ∧ ∀ box, box ∈ boxes → ∃ id, getitem box "id" = Val id ∧ py_in id listed = Val true.

Lemma check_csw_boxes_inv c boxes s s' :
  check_csw_boxes c boxes s = (Val tt, s') →
  observed c "csw_cswBoxIds" [] [] (lists_boxes (length boxes) boxes) s s'.
Proof.
  unfold check_csw_boxes. intros (r & s1 & Ho%call_observed & Hr)%bind_Val_inv.
  apply bind_Val_inv in Hr as (listed & ? & [Hl ->]%lift_Val_inv & Hr).
  apply bind_Val_inv in Hr as (k & ? & [Hk ->]%lift_Val_inv & Hr).
  apply bind_Val_inv in Hr as ([] & ? & [<-%assert_equal_int_inv ->]%lift_Val_inv & Hr).
  eapply (forM_observed _ (λ box a b, during a b ∧ ∃ id, getitem box "id" = Val id ∧ py_in id listed = Val true))
    in Hr as [Hd Hin].
  - eapply observed_weaken; [apply rtc_refl|exact Hd| |exact Ho]. intros ? ->. exists listed. split_and!; [done..|].
    intros box Hb. by apply Hin.
  - intros box a b Hr'. inv_run. split; [apply rtc_refl|]. eexists. split; [eassumption|].
    match goal with E : assert_true _ _ = _ |- _ => apply assert_true_inv in E as -> end. done.
  - by intros box a b [Hd _].
  - intros box a b d e Ha Hb [Hd Hx]. split; [|done]. by do 2 (etrans; [eassumption|]).
Qed.

Lemma absent_loop kind active m c tree boxes info s s' :
  keeps_info info s → forM_ boxes (check_csw_absent kind active m c tree) s = (Val tt, s') →
  during s s' ∧ ∀ box, box ∈ boxes → absent_seen m c info box s s'.
Proof.
  intros Hi Hr. eapply (forM_observed_inv (keeps_info info)) in Hr; [exact Hr|..|exact Hi].
  - intros a b. apply during_info.
  - intros. by eapply check_csw_absent_inv.
  - intros. by eapply absent_seen_during.
  - intros box a b d e Ha Hb. by apply absent_seen_weaken.
Qed.

(** The second half of the withdrawals: the attributes are kept while the proofs
    are made and the transactions sent. *)
Lemma withdraw_rest active attempts m c ids info s s' :
  keeps_info info s →
  (do! start_proofs m c ids in
   do! wait_proofs attempts c ids in
   let! generated := if_csws_were_generated c ids false in
   do% assert_true generated "Some CSW proof was not generated." in
   let! out := call m "getnewaddress" [] in
   let% out_key := as_key out in
   do! send_csws active m c out_key 0 ids in
   do! call m "generate" [PInt 1] in
   check_nullifiers m c ids) s = (Val tt, s') →
  ∃ out s2 s3 s4 s5, (do! start_proofs m c ids in wait_proofs attempts c ids) s = (Val tt, s2)
    ∧ if_csws_were_generated c ids false s2 = (Val true, s3) ∧ during s3 s4
    ∧ send_csws active m c out 0 ids s4 = (Val tt, s5)
    ∧ ∀ id, id ∈ ids → nullifier_seen m c info "true" id s5 s'.
Proof.
  intros Hi ([] & s1 & H1' & Hr)%bind_Val_inv. pose proof (self_kept_info _ info _ _ _ (self_kept_start _ _ _) H1' Hi) as E1.
  apply bind_Val_inv in Hr as ([] & s2 & H2' & Hr).
  pose proof (self_kept_info _ info _ _ _ (self_kept_wait _ _ _) H2' E1) as E2.
  apply bind_Val_inv in Hr as (g & s3 & Hg & Hr). pose proof (self_kept_info _ info _ _ _ (self_kept_generated _ _ _) Hg E2) as E3.
  apply bind_Val_inv in Hr as ([] & ? & [->%assert_true_inv ->]%lift_Val_inv & Hr).
  apply bind_Val_inv in Hr as (a & s4 & D4%call_observed%observed_during & Hr).
  apply bind_Val_inv in Hr as (out & ? & [_ ->]%lift_Val_inv & Hr). pose proof (during_info _ _ _ D4 E3) as E4.
  apply bind_Val_inv in Hr as ([] & s5 & Hs & Hr).
  pose proof (self_kept_info _ info _ _ _ (self_kept_sends _ _ _ _ _ _) Hs E4) as E5.
  apply bind_Val_inv in Hr as (b & s6 & D6%call_observed%observed_during & Hr).
  exists out, s2, s3, s4, s5. split_and!; [by rewrite (bind_run _ _ _ _ _ H1')|done..|]. intros id Hid.
  eapply nullifier_seen_weaken; [exact D6|apply rtc_refl|].
  eapply check_nullifiers_inv; [by eapply during_info|exact Hr|exact Hid].
Qed.

Lemma mature_during (mature : option Z) m s s' :
  (match mature with Some n => do! call m "generate" [PInt n] in ret tt | None => ret tt end) s = (Val tt, s') →
  during s s'.
Proof.
  destruct mature as [n|].
  - intros (v & s1 & Ho%call_observed & [_ ->]%ret_Val_inv)%bind_Val_inv. by eapply observed_during.
  - intros [_ ->]%ret_Val_inv. apply rtc_refl.
Qed.

(** C22: a test of withdrawals that passes has seen every one of them happen: the
    sidechain node listed as many boxes as the test has, these among them; of
    every box the mainchain did not know the nullifier and no proof had been
    asked for; then all proofs were generated and the withdrawals sent; and
    after the block that follows the mainchain knew every nullifier of the
    same sidechain. *)
Theorem csw_withdraw_spent (kind : pyval → outcome string) (active : bool) (mature : option Z) (attempts : nat)
    (m c : proxy) (boxes : list pyval) (info : SCBootstrapInfo) st st' :
  sc_nodes_bootstrap_info (fw_self (world st)) = Some info →
  csw_withdraw kind active mature attempts m c boxes st = (Val tt, st') →
  ∃ ids out s1 s1' s2 s3 s4 s5,
    box_ids boxes = Val ids ∧ ids ≠ []
    ∧ observed c "csw_cswBoxIds" [] [] (lists_boxes (length boxes) boxes) st s1
    ∧ (∀ box, box ∈ boxes → absent_seen m c info box st s1)
    ∧ during s1 s1' ∧ (do! start_proofs m c ids in wait_proofs attempts c ids) s1' = (Val tt, s2)
    ∧ if_csws_were_generated c ids false s2 = (Val true, s3) ∧ during s3 s4
    ∧ send_csws active m c out 0 ids s4 = (Val tt, s5)
    ∧ (∀ id, id ∈ ids → nullifier_seen m c info "true" id s5 st').
Proof.
  intros Hi. unfold csw_withdraw. intros ([] & s1 & Hb & Hr)%bind_Val_inv. apply check_csw_boxes_inv in Hb.
  pose proof (observed_during _ _ _ _ _ _ _ Hb) as D1. pose proof (during_info _ _ _ D1 Hi) as Hi1.
  rewrite (bind_run _ _ _ _ _ (boot_info_run _ _ Hi1)) in Hr.
  apply bind_Val_inv in Hr as (r & s2 & D2%call_observed%observed_during & Hr).
  apply bind_Val_inv in Hr as (tree & ? & [_ ->]%lift_Val_inv & Hr).
  apply bind_Val_inv in Hr as ([] & s3 & Ha & Hr).
  pose proof (during_info _ _ _ D2 Hi1) as Hi2. destruct (absent_loop _ _ _ _ _ _ _ _ _ Hi2 Ha) as [D3 Hall].
  apply bind_Val_inv in Hr as ([] & s3m & D3m%mature_during & Hr).
  pose proof (during_info _ _ _ D3m (during_info _ _ _ D3 Hi2)) as Hi3.
  apply bind_Val_inv in Hr as (ids & ? & [Hids ->]%lift_Val_inv & Hr).
  apply bind_Val_inv in Hr as ([] & ? & [Hn%assert_true_inv ->]%lift_Val_inv & Hr).
  apply withdraw_rest with (info := info) in Hr as (out & s2' & s3' & s4 & s5 & Hw & Hg & D4 & Hs & Ht); [|done].
  exists ids, out, s3, s3m, s2', s3', s4, s5. split_and!; [done|by intros ->| | |done..].
  - eapply observed_weaken; [apply rtc_refl|exact (transitivity D2 D3)| |exact Hb]. by intros ?.
  - intros box Hx. eapply absent_seen_weaken; [exact (transitivity D1 D2)|apply rtc_refl|by apply Hall].
Qed.
End CswRuns.

(** ** A run against simulated nodes *)

(** Nodes of a ceased sidechain with two boxes: no proof at first, both proofs
    and nullifiers after the first twelve calls. *)
Definition ceased_nodes (n : nat) (p : proxy) (m : string) (args : list pyval) : exn + pyval :=
  let first := (n <? 12)%nat in
  inr (match m with
  | "csw_cswBoxIds" => result [("cswBoxIds", PList [PStr "a"; PStr "b"])]
  | "getceasingcumsccommtreehash" => PDict [("ceasingCumScTxCommTree", PStr "t")]
  | "csw_nullifier" => result [("nullifier", PStr "n")]
  | "checkcswnullifier" => PDict [("data", PStr (if first then "false" else "true"))]
  | "csw_cswInfo" => result [("cswInfo", PDict
      [("cswType", PStr "ForwardTransferCswData"); ("amount", PInt 1000000000); ("scId", PStr "id");
       ("nullifier", PStr "n"); ("ceasingCumScTxCommTree", PStr "t");
       ("proofInfo", PDict (if first then [("status", PStr "Absent")]
         else [("status", PStr "Generated"); ("receiverAddress", PStr "r"); ("scProof", PStr "p")]))])]
  | "csw_generateCswProof" => result [("state", PStr "ProofGenerationStarted")]
  | "fundrawtransaction" => PDict [("hex", PStr "00")]
  | "signrawtransaction" => PDict [("hex", PStr "00")]
  | "getrawmempool" => PList [PStr "tx"]
  | "generate" => PList [PStr "h"]
  | _ => PStr "tx"
  end).

Definition ceased_st : St (FW sim) :=
  init_st (mkFW (mkSelf (Some [mc0]) (Is [sc0]) None None (Some ex_info) None) (sim_of ceased_nodes)).

Definition ceased_boxes : list pyval :=
  map (λ id, PDict [("id", PStr id); ("value", PInt 1000000000)]) ["a"; "b"].

Lemma csw_withdraw_spent_witness :
  (csw_withdraw transferred false None 3 mc0 sc0 ceased_boxes ceased_st).1 = Val tt
  ∧ ∃ s, ∀ id, id ∈ [PStr "a"; PStr "b"] →
      nullifier_seen mc0 sc0 ex_info "true" id s (csw_withdraw transferred false None 3 mc0 sc0 ceased_boxes ceased_st).2.
Proof.
  split; [vm_compute; reflexivity|].
  destruct (csw_withdraw_spent transferred false None 3 mc0 sc0 ceased_boxes ex_info ceased_st (csw_withdraw transferred false None 3 mc0 sc0 ceased_boxes ceased_st).2)
    as (ids & out & s1 & s1' & s2 & s3 & s4 & s5 & Hids & _ & _ & _ & _ & _ & _ & _ & _ & Ht);
    [reflexivity|vm_compute; reflexivity|].
  injection Hids as <-. by exists s5.
Defined.

(** * What a passing test of backward transfers says

    The certificate of the epoch in which coins were withdrawn, as both nodes
    report it. *)

(** The output of a certificate on the mainchain has the amount and the address. *)
Definition pays_out (cert : pyval) (i amount : Z) (address : pyval) : Prop :=
  ∃ v a, bt_vout_value cert i = Val v ∧ py_eqb (PInt amount) v = true
    ∧ bt_vout_address cert i = Val a ∧ py_eqb address a = true.

(** The transfer of a certificate on the sidechain has the amount and the address. *)
Definition transfers_back (cert : pyval) (i value : Z) (address : pyval) : Prop :=
  ∃ outputs out a v, getitem cert "backwardTransferOutputs" = Val outputs ∧ getindex outputs i = Val out
    ∧ getitem out "address" = Val a ∧ py_eqb address a = true
    ∧ getitem out "amount" = Val v ∧ py_eqb (PInt value) v = true.

Lemma bt_check_output_inv cert i which address value :
  bt_check_output cert i which address value = Val tt → transfers_back cert i value address.
Proof.
  unfold bt_check_output. intros (outputs & Ho & Hr)%obind_Val_inv. apply obind_Val_inv in Hr as (out & Hi & Hr).
  apply obind_Val_inv in Hr as (a & Ha & Hr). apply obind_Val_inv in Hr as ([] & He%assert_equal_inv & Hr).
  apply obind_Val_inv in Hr as (v & Hv & Hf%assert_equal_inv). by exists outputs, out, a, v.
Qed.

Lemma bt_check_entries_inv cert a1 a2 :
  bt_check_entries cert a1 a2 = Val tt → pays_out cert 1 bt_amount1 a1 ∧ pays_out cert 2 bt_amount2 a2.
Proof.
  unfold bt_check_entries. intros (v1 & H1 & Hr)%obind_Val_inv. apply obind_Val_inv in Hr as ([] & E1%assert_equal_inv & Hr).
  apply obind_Val_inv in Hr as (v2 & H2 & Hr). apply obind_Val_inv in Hr as ([] & E2%assert_equal_inv & Hr).
  apply obind_Val_inv in Hr as (b1 & H3 & Hr). apply obind_Val_inv in Hr as ([] & E3%assert_equal_inv & Hr).
  apply obind_Val_inv in Hr as (b2 & H4 & E4%assert_equal_inv). split; [by exists v1, b1|by exists v2, b2].
Qed.

Section BackwardRuns.
Context {W : Type} `{Nodes W, Clock W, Os W, Rng W}.
Implicit Types st s : St (FW W).
Local Abbreviation MF := (M (FW W)).

(** A reply whose first reference has a certificate. *)
Definition refers_to (cert reply : pyval) : Prop :=
  ∃ data first, getpath reply ["result"; "block"; "mainchainBlockReferencesData"] = Val data
    ∧ getindex data 0 = Val first ∧ getitem first "topQualityCertificate" = Val cert.

Lemma bt_sc_cert_inv c epoch root n s cert s' :
  bt_sc_cert c epoch root n s = (Val cert, s') →
  observed c "block_best" [] [] (refers_to cert) s s'
  ∧ (∃ e, getitem cert "epochNumber" = Val e ∧ py_eqb (PInt epoch) e = true)
  ∧ (∃ outputs, getitem cert "backwardTransferOutputs" = Val outputs ∧ py_len outputs = Val n).
Proof.
  unfold bt_sc_cert, check_length. intros (r & s1 & Ho%call_observed & Hr)%bind_Val_inv.
  inv_run. repeat match goal with E : boot_info _ = _ |- _ => apply boot_info_state in E; subst end.
  repeat match goal with u : unit |- _ => destruct u end.
  repeat match goal with E : assert_equal (PInt _) (PInt _) _ = _ |- _ => apply assert_equal_int_inv in E; subst end.
  split_and!.
  - eapply observed_weaken; [apply rtc_refl|apply rtc_refl| |exact Ho]. intros ? ->. repeat eexists; eassumption.
  - eexists. split; [eassumption|]. by eapply assert_equal_inv; eassumption.
  - eexists. split; eassumption.
Qed.

(** C23: when the test of backward transfers passes, the coins withdrawn came back
    through the certificate of their epoch: on the mainchain it pays 7 and 3 to
    the two addresses the withdrawals named, 10 in total, and the sidechain
    block that refers to it has a certificate with the same hash and exactly
    two transfers, of the same amounts in units of 10^-8 to the same
    addresses. *)
Theorem SCBackwardTransfer_returned (fuel : nat) st st' :
  SCBackwardTransfer_run_test fuel st = (Val tt, st') →
  ∃ m c root hash h a1 a2 cert sc_cert total outputs s0 s1 s2 s3 s4,
    bt_withdrawals m c s0 = (Val (a1, a2), s1)
    ∧ bt_mc_cert m 1 root s2 = (Val (hash, cert), s3)
    ∧ pays_out cert 1 7 a1 ∧ pays_out cert 2 3 a2
    ∧ getpath cert ["cert"; "totalAmount"] = Val total ∧ py_eqb (PInt 10) total = true
    ∧ observed c "block_best" [] [] (refers_to sc_cert) s4 st'
    ∧ getitem sc_cert "hash" = Val h ∧ py_eqb hash h = true
    ∧ getitem sc_cert "backwardTransferOutputs" = Val outputs ∧ py_len outputs = Val 2
    ∧ transfers_back sc_cert 0 700000000 a1 ∧ transfers_back sc_cert 1 300000000 a2.
Proof.
  unfold SCBackwardTransfer_run_test. intros ([m c] & ? & _ & Hr)%bind_Val_inv. do 4 skip_step Hr.
  apply bind_Val_inv in Hr as ([hash0 root0] & ? & _ & Hr). do 6 skip_step Hr.
  apply bind_Val_inv in Hr as ([certHash0 cert0] & ? & _ & Hr). do 7 skip_step Hr.
  apply bind_Val_inv in Hr as ([a1 a2] & s1 & Hw & Hr).
  apply bind_Val_inv in Hr as ([hash1 root] & ? & _ & Hr). do 6 skip_step Hr.
  apply bind_Val_inv in Hr as ([hash cert] & s3 & Hm & Hr).
  apply bind_Val_inv in Hr as ([] & ? & [Ht ->]%lift_Val_inv & Hr).
  apply obind_Val_inv in Ht as (total & Ht & Et%assert_equal_inv). skip_step Hr.
  apply bind_Val_inv in Hr as ([] & ? & [[P1 P2]%bt_check_entries_inv ->]%lift_Val_inv & Hr). do 3 skip_step Hr.
  apply bind_Val_inv in Hr as (sc_cert & s4 & (Ho & _ & outputs & Hout & Hlen)%bt_sc_cert_inv & Hr).
  apply bind_Val_inv in Hr as ([] & ? & [T1%bt_check_output_inv ->]%lift_Val_inv & Hr).
  apply bind_Val_inv in Hr as ([] & ? & [T2%bt_check_output_inv ->]%lift_Val_inv & [Hh ->]%lift_Val_inv).
  apply obind_Val_inv in Hh as (h & Hh & Eh%assert_equal_inv).
  eexists m, c, root, hash, h, a1, a2, cert, sc_cert, total, outputs, _, s1, _, s3, _. split_and!; eassumption.
Qed.
End BackwardRuns.

(** ** A run against simulated nodes *)

Definition cert_of (epoch : Z) : pyval :=
  PDict [("hash", PStr "cert"); ("sidechainId", PStr "id"); ("epochNumber", PInt epoch);
    ("endCumulativeScTxCommitmentTreeRoot", PStr "root");
    ("backwardTransferOutputs", PList (if epoch =? 0 then [] else
       map (λ v, PDict [("address", PStr "a"); ("amount", PInt v)]) [700000000; 300000000]))].

Definition mc_cert_of (epoch : Z) : pyval :=
  PDict [("cert", PDict [("scid", PStr "id"); ("epochNumber", PInt epoch); ("endEpochCumScTxCommTreeRoot", PStr "root");
           ("totalAmount", PInt (if epoch =? 0 then 0 else 10))]);
         ("vout", PList (map (λ v, PDict [("value", PInt v);
           ("scriptPubKey", PDict [("addresses", PList [PStr "a"])])]) [0; 7; 3]))].

Definition owned_box (kind key : string) (zen : Z) : pyval :=
  PDict [("id", PStr "i"); ("typeName", PStr kind); ("proposition", PDict [("publicKey", PStr key)]);
         ("value", PInt (zen * 100000000))].

(** Nodes that return what is withdrawn; the second epoch starts with call 60, and
    the memory pool is empty at calls 39 and 78, after a certificate was mined. *)
Definition backward_nodes (n : nat) (p : proxy) (m : string) (args : list pyval) : exn + pyval :=
  let epoch := if (n <? 60)%nat then 0 else 1 in
  let other := match forging_replies m with Some r => r | None => PStr "a" end in
  inr (match m with
  | "getrawmempool" => PList [PStr "cert"]
  | "getbestblockhash" => PStr "h"
  | "block_best" => result [("block", PDict [("id", PStr "b"); ("mainchainBlockReferencesData",
      PList [PDict [("topQualityCertificate", cert_of epoch); ("lowerCertificateLeaves", PList [])]])])]
  | "block_findById" => result [("block", PDict [("mainchainHeaders", PList [PDict [("hash", PStr "h")]]);
      ("mainchainBlockReferencesData", PList [PDict [("headerHash", PStr "h")]])])]
  | "getblock" => PDict [("height", PInt 480); ("scCumTreeHash", PStr "root"); ("tx", PList [PStr "t"]);
      ("cert", PList [PStr "cert"])]
  | "wallet_coinsBalance" => result [("balance", PInt ((if (n <? 12)%nat then 100 else 110) * 100000000))]
  | "wallet_allBoxes" => result [("boxes", PList [owned_box "ForgerBox" "acc key" 100; owned_box "ZenBox" "k" 10])]
  | "wallet_createPrivateKey25519" => result [("proposition", PDict [("publicKey", PStr "k")])]
  | "getmempoolinfo" => PDict [("size", PInt (if (n =? 39)%nat || (n =? 78)%nat then 0 else 1))]
  | "submitter_isCertGenerationActive" => result [("state", PBool false)]
  | "getrawtransaction" => match args with [_] => PStr "00" | _ => mc_cert_of epoch end
  | "generate" => PList (repeat (PStr "h") 8)
  | "transaction_withdrawCoins" => result []
  | _ => other
  end).

Definition backward_st : St (FW sim) :=
  init_st (mkFW (mkSelf (Some [mc0]) (Is [sc0]) None None (Some ex_info) None) (sim_of backward_nodes)).

Lemma SCBackwardTransfer_returned_witness :
  (SCBackwardTransfer_run_test 5 backward_st).1 = Val tt
  ∧ ∃ a1 a2 cert sc_cert, pays_out cert 1 7 a1 ∧ pays_out cert 2 3 a2
    ∧ transfers_back sc_cert 0 700000000 a1 ∧ transfers_back sc_cert 1 300000000 a2.
Proof.
  assert ((SCBackwardTransfer_run_test 5 backward_st).1 = Val tt) as Hr by (vm_compute; reflexivity). split; [exact Hr|].
  destruct (SCBackwardTransfer_returned 5 backward_st (SCBackwardTransfer_run_test 5 backward_st).2)
    as (m & c & root & hash & h & a1 & a2 & cert & sc_cert & total & outputs & s0 & s1 & s2 & s3 & s4
        & _ & _ & P1 & P2 & _ & _ & _ & _ & _ & _ & _ & T1 & T2); [rewrite <- Hr; apply surjective_pairing|].
  exists a1, a2, cert, sc_cert. exact (conj P1 (conj P2 (conj T1 T2))).
Defined.

(** * What a passing test of pending certificates says

    The certificates of a sidechain that does not cease are published one by
    one, each committed to the block of the one before. *)

Section Queue.
Context {W : Type} `{Nodes W, Clock W, Os W, Rng W}.
Implicit Types st s : St (FW W).

(** Epoch and tree hash of a certificate. *)
Definition certifies (cert : pyval) (epoch : Z) (root : pyval) : Prop :=
  ∃ e r, getpath cert ["cert"; "epochNumber"] = Val e ∧ py_eqb (PInt epoch) e = true
    ∧ getpath cert ["cert"; "endEpochCumScTxCommTreeRoot"] = Val r ∧ py_eqb root r = true.

Lemma check_pending_certificate_inv cert n root :
  check_pending_certificate cert n root = Val tt → certifies cert n root.
Proof.
  intros (e & He & Hr)%obind_Val_inv. apply obind_Val_inv in Hr as ([] & E1%assert_equal_inv & Hr).
  apply obind_Val_inv in Hr as (r & Hroot & E2%assert_equal_inv). by exists e, r.
Qed.

(** The certificate of the epoch was in the memory pool, and the block mined next
    has the second tree hash. *)
Definition pending_step (m : proxy) (epoch : Z) (root root' : pyval) : Prop :=
  ∃ hash cert id block s1 s2 s3 s4,
    pooled_certificate m s1 = (Val (hash, cert), s2) ∧ certifies cert epoch root
    ∧ mine m s2 = (Val id, s3) ∧ call m "getblock" [id] s3 = (Val block, s4)
    ∧ getitem block "scCumTreeHash" = Val root'.

Lemma next_pending_inv fuel m c root n st root' st' :
  next_pending fuel m c root n st = (Val root', st') → pending_step m n root root'.
Proof.
  unfold next_pending. intros ([] & s1 & _ & Hr)%bind_Val_inv.
  apply bind_Val_inv in Hr as ([hash cert] & s2 & Hp & Hr).
  apply bind_Val_inv in Hr as ([] & ? & [Hc%check_pending_certificate_inv ->]%lift_Val_inv & Hr).
  apply bind_Val_inv in Hr as (id & s3 & Hm & Hr). apply bind_Val_inv in Hr as (block & s4 & Hb & Hr).
  apply bind_Val_inv in Hr as (r & ? & [Hroot ->]%lift_Val_inv & Hr). do 2 skip_step Hr.
  apply bind_Val_inv in Hr as ([] & ? & _ & Hr). do 2 skip_step Hr. apply ret_Val_inv in Hr as [-> ->].
  by exists hash, cert, id, block, s1, s2, s3, s4.
Qed.

(** A chain of tree hashes through the certificates of the epochs. *)
Inductive queue (m : proxy) : pyval → list Z → pyval → Prop :=
| queue_nil root : queue m root [] root
| queue_cons root root' root'' n ns : pending_step m n root root' → queue m root' ns root'' → queue m root (n :: ns) root''.

Lemma foldM_queue fuel m c ns : ∀ root st root' st',
  foldM (next_pending fuel m c) root ns st = (Val root', st') → queue m root ns root'.
Proof.
  induction ns as [|n ns IH]; intros root st root' st'; simpl.
  - intros [<- _]%ret_Val_inv. constructor.
  - intros (r & s1 & Hn%next_pending_inv & Hr%IH)%bind_Val_inv. by econstructor.
Qed.

Lemma last_certificate m s st' mcblock_hash n :
  (let! '(_, cert) := pooled_certificate m in
   let% number := getpath cert ["cert"; "epochNumber"] in
   do% assert_equal (PInt n) number "Sidechain epoch number in certificate is wrong." in
   let! mcblock := call m "getblock" [mcblock_hash] in
   let% root := getitem mcblock "scCumTreeHash" in
   let% found := getpath cert ["cert"; "endEpochCumScTxCommTreeRoot"] in
   lift (assert_equal root found "Sidechain endEpochCumScTxCommTreeRoot in certificate is wrong.")) s = (Val tt, st') →
  ∃ hash cert block root s1, pooled_certificate m s = (Val (hash, cert), s1)
    ∧ call m "getblock" [mcblock_hash] s1 = (Val block, st') ∧ getitem block "scCumTreeHash" = Val root
    ∧ certifies cert n root.
Proof.
  intros ([hash cert] & s1 & Hp & Hr)%bind_Val_inv. apply bind_Val_inv in Hr as (e & ? & [He ->]%lift_Val_inv & Hr).
  apply bind_Val_inv in Hr as ([] & ? & [E1%assert_equal_inv ->]%lift_Val_inv & Hr).
  apply bind_Val_inv in Hr as (block & s2 & Hb & Hr). apply bind_Val_inv in Hr as (root & ? & [Hroot ->]%lift_Val_inv & Hr).
  apply bind_Val_inv in Hr as (r & ? & [Hf ->]%lift_Val_inv & [E2%assert_equal_inv ->]%lift_Val_inv).
  exists hash, cert, block, root, s1. split_and!; [done..|]. by exists e, r.
Qed.

(** The pending certificates form a chain from the root; that of the epoch in time is
    committed to the last block of that epoch. *)
Definition published (m : proxy) (root : pyval) (st' : St (FW W)) : Prop :=
  ∃ last, queue m root [0; 1; 2; 3; 4] last
  ∧ ∃ hashes mcblock_hash hash cert block end_root s2 s3 s4 s5,
      call m "generate" [PInt 5] s2 = (Val hashes, s3) ∧ getindex hashes (-1) = Val mcblock_hash
      ∧ pooled_certificate m s4 = (Val (hash, cert), s5)
      ∧ call m "getblock" [mcblock_hash] s5 = (Val block, st') ∧ getitem block "scCumTreeHash" = Val end_root
      ∧ certifies cert 5 end_root.

Lemma certificates_published_inv fuel m c root st st' :
  certificates_published fuel m c root st = (Val tt, st') → published m root st'.
Proof.
  unfold certificates_published. intros Hr. do 2 skip_step Hr.
  apply bind_Val_inv in Hr as (last & ? & Hq%foldM_queue & Hr).
  apply bind_Val_inv in Hr as (hashes & ? & Hg & Hr). apply bind_Val_inv in Hr as (h & ? & [Hh ->]%lift_Val_inv & Hr).
  do 4 skip_step Hr. apply last_certificate in Hr as (hash & cert & block & end_root & s5 & Hc & Hb & Hroot & Hcert).
  exists last. split; [exact Hq|].
  eexists hashes, h, hash, cert, block, end_root, _, _, _, s5. split_and!; eassumption.
Qed.

(** C24: when the test of pending certificates passes, the certificates of the five
    epochs that had been left without were published in order, each with its
    epoch's number and committed to a tree hash that forms a chain: the first
    to that of the end of the first epoch, every other to that of the block
    mined with the certificate before; and the certificate of the sixth epoch,
    which was in time, is committed to the last block of that epoch. *)
Theorem SCMultiplePendingCertsNonCeasing_queue (fuel : nat) st st' :
  SCMultiplePendingCertsNonCeasing_run_test fuel st = (Val tt, st') →
  ∃ m c root s0 s1, pending_epochs m c s0 = (Val root, s1) ∧ published m root st'.
Proof.
  unfold SCMultiplePendingCertsNonCeasing_run_test. intros (m & ? & _ & Hr)%bind_Val_inv.
  apply bind_Val_inv in Hr as (c & ? & _ & Hr). do 5 skip_step Hr.
  apply bind_Val_inv in Hr as (root & s1 & Hp & Hr%certificates_published_inv). by eexists m, c, root, _, s1.
Qed.

(** The same in the account model, whose epochs send one transaction for each withdrawal. *)
Theorem EvmMultiplePendingCerts_queue `{EthUtils} (fuel : nat) st st' :
  EvmMultiplePendingCerts_run_test fuel st = (Val tt, st') →
  ∃ m c root s0 s1, evm_pending_epochs m c s0 = (Val root, s1) ∧ published m root st'.
Proof.
  unfold EvmMultiplePendingCerts_run_test. intros (m & ? & _ & Hr)%bind_Val_inv.
  apply bind_Val_inv in Hr as (c & ? & _ & Hr). do 2 skip_step Hr.
  apply bind_Val_inv in Hr as (root & s1 & Hp & Hr%certificates_published_inv). by eexists m, c, root, _, s1.
Qed.
End Queue.

(** ** A run against simulated nodes *)

(** Nodes that publish the certificates in order: one is asked for at call 71 and
    at every 13th call after it. *)
Definition pending_nodes (n : nat) (p : proxy) (m : string) (args : list pyval) : exn + pyval :=
  let other := match forging_replies m with Some r => r | None => PStr "a" end in
  inr (match m with
  | "getrawmempool" => PList [PStr "cert"]
  | "getbestblockhash" => PStr "h"
  | "block_findById" => result [("block", PDict [("mainchainBlockReferencesData", PList [PDict [("headerHash", PStr "h")]]);
      ("sidechainTransactions", PList (if (n <? 15)%nat then [] else [PDict [("id", PStr "tx")]]))])]
  | "getblock" => PDict [("scCumTreeHash", PStr "root")]
  | "block_currentHeight" => result [("height", PInt 7)]
  | "getmempoolinfo" => PDict [("size", PInt 1)]
  | "transaction_withdrawCoins" => result [("transactionId", PStr "tx")]
  | "transaction_allTransactions" => result [("transactions", PList [])]
  | "submitter_isCertGenerationActive" => result [("state", PBool false)]
  | "getrawtransaction" => PDict [("cert", PDict [("epochNumber", PInt ((Z.of_nat n - 71) / 13));
      ("endEpochCumScTxCommTreeRoot", PStr "root")])]
  | "generate" => PList (repeat (PStr "h") 5)
  | "node_connectedPeers" => result [("peers", PList [PDict [("remoteAddress", PStr "/127.0.0.1:8547")]])]
  | _ => other
  end).

Definition pending_st : St (FW sim) :=
  init_st (mkFW (mkSelf (Some [mc0]) (Is [sc0; sc1]) None None (Some ex_info) None) (sim_of pending_nodes)).

Lemma SCMultiplePendingCertsNonCeasing_queue_witness :
  (SCMultiplePendingCertsNonCeasing_run_test 5 pending_st).1 = Val tt
  ∧ ∃ (m : proxy) (root last cert end_root : pyval), queue (W:=sim) m root [0; 1; 2; 3; 4] last ∧ certifies cert 5 end_root.
Proof.
  assert ((SCMultiplePendingCertsNonCeasing_run_test 5 pending_st).1 = Val tt) as Hr by (vm_compute; reflexivity).
  split; [exact Hr|].
  destruct (SCMultiplePendingCertsNonCeasing_queue 5 pending_st (SCMultiplePendingCertsNonCeasing_run_test 5 pending_st).2)
    as (m & c & root & s0 & s1 & _ & last & Hq & hashes & h & hash & cert & block & end_root & s2 & s3 & s4 & s5
        & _ & _ & _ & _ & _ & Hc); [rewrite <- Hr; apply surjective_pairing|].
  exists m, root, last, cert, end_root. exact (conj Hq Hc).
Defined.
