(* ===== verification/ForgerProps.v ===== *)
(** * Stakes, votes and configuration files of the forger scenarios

    The decoder of the stakes a contract returns, the sums of stakes, what a
    successful vote to open the list of forgers has seen, and the rewriting
    of a configuration file. *)

From S2P Require Import Prelude PyStr Numbers PyVal Host Sim Json Encoding HttpProxy BootInfo McUtil ScUtil.
From S2P Require Import Forging Bootstrap Framework AccountSetup McFramework HttpCalls AccountCalls AccountUtil SmartContract SmartContractProps Tools Checks.
From Stdlib Require Import Ascii String.
From stdpp Require Import base list.
From S2P Require Import Scenarios ForgingScenarios StakeScenarios ChainScenarios MempoolScenarios EvmScenarios BackwardScenarios.
From S2P Require Import CswScenarios CertificateScenarios KeyRotationScenarios EvmRotationScenarios ForgerScenarios EvmForgerScenarios.
From S2P Require Import BootstrapProps ScenarioProps WithdrawalProps.
Local Open Scope Z_scope.

(** ** Bytes as numbers *)

(** The big-endian value of bytes. *)
Fixpoint be_value (acc : N) (b : string) : N :=
  match b with
  | EmptyString => acc
  | String c b' => be_value (acc * 256 + N_of_ascii c) b'
  end.

Lemma digit_val_hex (d : N) : (d < 16)%N → digit_val (hex_digit d) = Some d ∧ Ascii.eqb (hex_digit d) "_" = false.
Proof.
  intros Hd. assert (In d (map N.of_nat (seq 0 16))) as Hin.
  { apply in_map_iff. exists (N.to_nat d). split; [lia|]. apply in_seq. lia. }
  simpl in Hin. repeat (destruct Hin as [<-|Hin]; [split; reflexivity|]). destruct Hin.
Qed.

Lemma hexlify_cons c b :
  hexlify (String c b) = String (hex_digit (N_of_ascii c / 16)) (String (hex_digit (N_of_ascii c mod 16)) (hexlify b)).
Proof. reflexivity. Qed.

Lemma parse_digits_hexlify b : ∀ acc u, (u = true ∨ b ≠ EmptyString) →
  parse_digits 16 acc u (hexlify b) = Some (be_value acc b).
Proof.
  induction b as [|c b IH]; intros acc u Hu; [destruct Hu as [->|]; [reflexivity|congruence]|].
  rewrite hexlify_cons. pose proof (byte_lt c) as Hc.
  destruct (digit_val_hex (N_of_ascii c / 16)) as [D1 U1]; [apply N.Div0.div_lt_upper_bound; lia|].
  destruct (digit_val_hex (N_of_ascii c mod 16)) as [D2 U2]; [apply N.mod_lt; lia|].
  cbn [parse_digits]. rewrite U1, D1, U2, D2.
  rewrite (proj2 (N.ltb_lt (N_of_ascii c / 16) 16)) by (apply N.Div0.div_lt_upper_bound; lia).
  rewrite (proj2 (N.ltb_lt (N_of_ascii c mod 16) 16)) by (apply N.mod_lt; lia).
  rewrite IH by (by left). cbn [be_value]. do 2 f_equal.
  rewrite (N.div_mod' (N_of_ascii c) 16) at 3. lia.
Qed.

Lemma non_space_hexlify b : str_all non_space (hexlify b) = true.
Proof.
  induction b as [|c b IH]; [reflexivity|]. rewrite hexlify_cons. cbn [str_all]. rewrite IH.
  pose proof (byte_lt c). rewrite !non_space_digit; [reflexivity|apply N.mod_lt; lia|apply N.Div0.div_lt_upper_bound; lia].
Qed.

Lemma hex_pair_plain c b : ∃ x y r, hexlify (String c b) = String x (String y r)
  ∧ x ≠ "-"%char ∧ x ≠ "+"%char ∧ lower_char y ≠ "x"%char.
Proof.
  rewrite hexlify_cons. eexists _, _, _. split; [reflexivity|].
  assert (∀ d, (d < 16)%N → hex_digit d ≠ "-"%char ∧ hex_digit d ≠ "+"%char ∧ lower_char (hex_digit d) ≠ "x"%char) as Hd.
  { intros d Hd. assert (In d (map N.of_nat (seq 0 16))) as Hin.
    { apply in_map_iff. exists (N.to_nat d). split; [lia|]. apply in_seq. lia. }
    simpl in Hin. repeat (destruct Hin as [<-|Hin]; [vm_compute; split_and!; discriminate|]). destruct Hin. }
  pose proof (byte_lt c) as Hc.
  destruct (Hd (N_of_ascii c / 16)%N) as (? & ? & _); [apply N.Div0.div_lt_upper_bound; lia|].
  destruct (Hd (N_of_ascii c mod 16)%N) as (_ & _ & ?); [apply N.mod_lt; lia|]. done.
Qed.

(** [int(bytes_to_hex_str(b), 16)] is the big-endian value. *)
Lemma py_int_hexlify b : b ≠ EmptyString → py_int_base (PStr (bytes_to_hex_str b)) 16 = Val (Z.of_N (be_value 0 b)).
Proof.
  intros Hb. unfold py_int_base, bytes_to_hex_str, parse_int. rewrite (strip_id _ (non_space_hexlify b)).
  destruct b as [|c b]; [congruence|]. destruct (hex_pair_plain c b) as (x & y & r & E & Hm & Hp & Hx).
  assert (parse_nat 16 (hexlify (String c b)) = Some (be_value 0 (String c b))) as Hn.
  { unfold parse_nat. cbn [N.eqb Pos.eqb]. unfold PyStr.strip_prefix. rewrite E. unfold startswith. cbn [lower String.prefix].
    destruct (ascii_dec "0" (lower_char x)); [|rewrite <- E; apply parse_digits_hexlify; by right].
    destruct (ascii_dec "x" (lower_char y)) as [e0|]; [by destruct Hx|rewrite <- E; apply parse_digits_hexlify; by right]. }
  rewrite E in Hn |- *.
  assert (∀ (A : Type) (p q o : A), match String x (String y r) with String "-" _ => p | String "+" _ => q | _ => o end = o) as Hm'.
  { intros A p q o. destruct x as [[] [] [] [] [] [] [] []]; congruence. }
  destruct x as [[] [] [] [] [] [] [] []]; try congruence; by rewrite Hn.
Qed.

(** ** The stakes of the contract *)

Lemma py_neqb_int a b : py_neqb (PInt a) (PInt b) = negb (a =? b).
Proof. unfold py_neqb. by rewrite py_eqb_int. Qed.

Lemma str_take_app a b : str_take (String.length a) (a +:+ b) = a.
Proof. induction a as [|c a IH]; simpl; [by destruct b|]. by rewrite IH. Qed.

Lemma str_take_app_n n a b : String.length a = n → str_take n (a +:+ b) = a.
Proof. intros <-. apply str_take_app. Qed.

Lemma str_drop_app_n n a b : String.length a = n → str_drop n (a +:+ b) = b.
Proof. intros <-. apply str_drop_app. Qed.

(** The texts of a list, one after the other. *)
Definition joined (l : list string) : string := foldr String.append "" l.

Lemma chunks_joined size elems rest :
  Forall (λ e, String.length e = size) elems → chunks size (length elems) (joined elems +:+ rest) = elems.
Proof.
  intros Hs. induction Hs as [|e elems He _ IH]; [done|]. simpl. rewrite str_app_assoc.
  by rewrite (str_take_app_n size), (str_drop_app_n size), IH.
Qed.

(** The bytes a contract returns for a list of stakes (an offset and a count of
    32 bytes each, then 192 bytes for every stake, whatever follows) are decoded
    to the list of the decoded stakes, each from its own 192 bytes and in order,
    provided that the count is the expected one; otherwise the decoder stops
    with the failed comparison of the two numbers. *)
Theorem decode_list_of_forger_stakes_encoded `{EthAbi} (offset count rest : string) (elems : list string)
    (stakes : list (list pyval)) (expected : Z) :
  String.length offset = 32%nat → String.length count = 32%nat → be_value 0 count = N.of_nat (length elems) →
  Forall (λ e, String.length e = elem_size) elems →
  Forall2 (λ e d, abi_decode [PStr STAKE_TUPLE] e = Val d) elems stakes →
  decode_list_of_forger_stakes (PBytes (offset +:+ count +:+ joined elems +:+ rest)) expected =
  if expected =? Z.of_nat (length stakes) then Val stakes
  else Exc (AssertionError ("(left == right)" +:+ message_suffix "wrong number of forger stakes" +:+ newline +:+ "  left: <"
         +:+ str_of_Z expected +:+ ">" +:+ newline +:+ " right: <" +:+ str_of_Z (Z.of_nat (length stakes)) +:+ ">")).
Proof.
  intros Ho Hc Hv Hs Hd. pose proof (Forall2_length _ _ _ Hd) as Hlen.
  unfold decode_list_of_forger_stakes. rewrite (str_drop_app_n 32), (str_take_app_n 32), (str_drop_app_n 32) by done.
  rewrite py_int_hexlify by (by intros ->). rewrite Hv, <- Hlen, nat_N_Z. cbn [obind].
  unfold assert_equal. rewrite Nat2Z.id, chunks_joined by done.
  rewrite py_neqb_int. destruct (Z.eqb_spec expected (Z.of_nat (length elems))); [|done].
  cbn [negb obind]. clear -Hd. induction Hd as [|e d elems stakes He _ IH]; [done|]. simpl. by rewrite He, IH.
Qed.

(** A decoder that returns the first 32 bytes of a stake. *)
Definition toy_stakes : EthAbi :=
  {| abi_encode _ _ := Val ""; abi_decode _ b := Val [PTuple [PBytes (str_take 32 b)]] |}.

Definition stake_bytes (c : ascii) : string := str_repeat c elem_size.

Lemma decode_list_of_forger_stakes_encoded_witness :
  decode_list_of_forger_stakes (H := toy_stakes)
    (PBytes (str_repeat "o" 32 +:+ (str_repeat "000" 31 +:+ String "002" "") +:+ joined [stake_bytes "a"; stake_bytes "b"] +:+ "")) 2
  = Val [[PTuple [PBytes (str_repeat "a" 32)]]; [PTuple [PBytes (str_repeat "b" 32)]]].
Proof.
  apply (@decode_list_of_forger_stakes_encoded toy_stakes (str_repeat "o" 32) (str_repeat "000" 31 +:+ String "002" "") ""
    [stake_bytes "a"; stake_bytes "b"]
    [[PTuple [PBytes (str_repeat "a" 32)]]; [PTuple [PBytes (str_repeat "b" 32)]]] 2);
    [reflexivity|vm_compute; reflexivity|vm_compute; reflexivity|repeat constructor|repeat constructor].
Defined.

(** ** Sums of stakes *)

(** An entry of a list of stakes: a block signer and an amount. *)
Definition stake_entry (e : pyval) (s : string * Z) : Prop :=
  getpath e ["forgerStakeData"; "forgerPublicKeys"; "blockSignPublicKey"; "publicKey"] = Val (PStr s.1)
  ∧ getpath e ["forgerStakeData"; "stakedAmount"] = Val (PInt s.2).

Definition sum_Z (l : list Z) : Z := foldr Z.add 0 l.

(** What a signer has, and what all have. *)
Definition stake_total (signer : string) (l : list (string * Z)) : Z :=
  sum_Z (map snd (filter (λ s, s.1 = signer) l)).

Lemma stake_total_cons signer s a l :
  stake_total signer ((s, a) :: l) = (if String.eqb s signer then a else 0) + stake_total signer l.
Proof.
  unfold stake_total. rewrite filter_cons. cbn [fst].
  destruct (String.eqb_spec s signer); (destruct (decide _); [|]); try done; simpl; lia.
Qed.

Lemma signer_stake_total signer entries stakes acc :
  Forall2 stake_entry entries stakes →
  signer_stake (PInt acc) (PStr signer) entries = Val (PInt (acc + stake_total signer stakes)).
Proof.
  intros He. revert acc. induction He as [|e [s a] entries stakes [Hs Ha] _ IH]; intros acc; simpl in *.
  - by rewrite Z.add_0_r.
  - rewrite Hs, stake_total_cons. cbn [obind py_eqb]. destruct (String.eqb_spec s signer).
    + rewrite Ha. simpl. rewrite IH. do 2 f_equal. lia.
    + apply IH.
Qed.

Lemma sum_Z_app l k : sum_Z (l ++ k) = sum_Z l + sum_Z k.
Proof. unfold sum_Z. induction l as [|x l IH]; simpl; lia. Qed.

Lemma sum_single (s : string) a signers :
  NoDup signers → s ∈ signers → sum_Z (map (λ k, if String.eqb s k then a else 0) signers) = a.
Proof.
  assert (∀ l, s ∉ l → sum_Z (map (λ k, if String.eqb s k then a else 0) l) = 0) as Hout.
  { induction l as [|k l IH]; [done|]. intros [Hk Hl]%not_elem_of_cons. simpl.
    destruct (String.eqb_spec s k); [congruence|]. rewrite IH; [lia|done]. }
  induction 1 as [|k signers Hk _ IH]; [by intros ?%elem_of_nil|]. intros [->|Hin]%elem_of_cons; simpl.
  - rewrite String.eqb_refl, (Hout _ Hk). lia.
  - destruct (String.eqb_spec s k) as [->|]; [done|]. rewrite (IH Hin). lia.
Qed.

Lemma sum_cons s a stakes signers :
  sum_Z (map (λ k, stake_total k ((s, a) :: stakes)) signers)
  = sum_Z (map (λ k, if String.eqb s k then a else 0) signers) + sum_Z (map (λ k, stake_total k stakes) signers).
Proof. induction signers as [|k l IH]; [done|]. simpl in *. rewrite stake_total_cons, IH. lia. Qed.

Lemma stakes_partition signers stakes :
  NoDup signers → Forall (λ s, s.1 ∈ signers) stakes →
  sum_Z (map (λ k, stake_total k stakes) signers) = sum_Z (map snd stakes).
Proof.
  intros Hn Hs. induction Hs as [|[s a] stakes Hin _ IH].
  - clear. induction signers as [|k l IH]; simpl; [done|]. unfold stake_total at 1. simpl. by rewrite IH.
  - rewrite sum_cons, (sum_single s a signers Hn Hin), IH. done.
Qed.

(** [getSignerStakeAmount] returns, for every block signer, the sum of the amounts
    of exactly the stakes delegated to it; over distinct signers that include
    all of the list, these sums add up to the whole amount at stake. *)
Theorem getSignerStakeAmount_sums (entries : list pyval) (stakes : list (string * Z)) (signers : list string) :
  Forall2 stake_entry entries stakes → NoDup signers → Forall (λ s, s.1 ∈ signers) stakes →
  ∃ sums, Forall2 (λ k sum, getSignerStakeAmount (PList entries) (PStr k) = Val (PInt sum)) signers sums
    ∧ sums = map (λ k, sum_Z (map snd (filter (λ s, s.1 = k) stakes))) signers
    ∧ sum_Z sums = sum_Z (map snd stakes).
Proof.
  intros He Hn Hs. eexists. split_and!; [|reflexivity|by apply stakes_partition].
  clear Hn Hs. induction signers as [|k signers IH]; [constructor|]. constructor; [|exact IH].
  unfold getSignerStakeAmount. simpl. by rewrite (signer_stake_total k entries stakes 0 He).
Qed.

(** The stakes of the delegation test, in wei. *)
Definition delegated : list (string * Z) :=
  [("sc1", 99 * 10 ^ 18); ("sc2", 50 * 10 ^ 18); ("sc3", 4 * 10 ^ 18); ("sc2", 60 * 10 ^ 18); ("sc2", 33 * 10 ^ 18)].

Definition entry_of (s : string * Z) : pyval :=
  PDict [("forgerStakeData", PDict [
    ("forgerPublicKeys", PDict [("blockSignPublicKey", PDict [("publicKey", PStr s.1)])]); ("stakedAmount", PInt s.2)])].

Lemma getSignerStakeAmount_sums_witness :
  ∃ sums, Forall2 (λ k sum, getSignerStakeAmount (PList (map entry_of delegated)) (PStr k) = Val (PInt sum))
      ["sc1"; "sc2"; "sc3"] sums
    ∧ sums = [99 * 10 ^ 18; 143 * 10 ^ 18; 4 * 10 ^ 18] ∧ sum_Z sums = 246 * 10 ^ 18.
Proof.
  destruct (getSignerStakeAmount_sums (map entry_of delegated) delegated ["sc1"; "sc2"; "sc3"]) as (sums & Hs & Heq & Hsum).
  - repeat (constructor; [split; reflexivity|]). constructor.
  - apply (bool_decide_unpack _). vm_compute. exact I.
  - apply (bool_decide_unpack _). vm_compute. exact I.
  - exists sums. split; [exact Hs|]. split; [rewrite Heq; vm_compute; reflexivity|].
    rewrite Hsum. vm_compute. reflexivity.
Defined.

(** ** The configuration file, line by line *)

Definition nl_char : ascii := ascii_of_nat 10.
Definition not_nl (c : ascii) : bool := negb (Ascii.eqb c nl_char).

Lemma prefix_before_nl old b : ∀ a, str_all not_nl old = true →
  String.prefix old (a +:+ String nl_char b) = String.prefix old a.
Proof.
  induction old as [|x old IH]; intros a Ho; [by destruct a|].
  apply andb_true_iff in Ho as [Hx Ho]. destruct a as [|c a]; simpl.
  - destruct (ascii_dec x nl_char) as [->|]; [discriminate Hx|done].
  - destruct (ascii_dec x c); [by apply IH|done].
Qed.

Lemma prefix_length old : ∀ s, String.prefix old s = true → (String.length old <= String.length s)%nat.
Proof.
  induction old as [|x old IH]; intros [|c s]; simpl; try done; [lia|].
  destruct (ascii_dec x c); [|done]. intros Hp%IH. lia.
Qed.

Lemma replace_before_nl old new b : str_all not_nl old = true → old ≠ "" →
  ∀ a k, (k <= String.length a)%nat →
  replace_go old new k (a +:+ String nl_char b) = replace_go old new k a +:+ String nl_char (replace_go old new 0 b).
Proof.
  intros Ho Hne. induction a as [|c a IH]; intros k Hk.
  - replace k with 0%nat by (simpl in Hk; lia). pose proof (prefix_before_nl old b "" Ho) as Hp.
    cbn [String.append replace_go] in *. rewrite Hp. by destruct old.
  - destruct k as [|k]; [|cbn [String.append replace_go]; apply IH; simpl in Hk; lia].
    pose proof (prefix_before_nl old b (String c a) Ho) as Hp. cbn [String.append replace_go] in *. rewrite Hp.
    destruct (String.prefix old (String c a)) eqn:E; [|cbn [String.append]; f_equal; apply IH; lia].
    rewrite str_app_assoc. f_equal. apply IH. apply prefix_length in E. simpl in E. lia.
Qed.

Lemma replace_absent old new s : str_contains old s = false → replace_go old new 0 s = s.
Proof.
  induction s as [|c s IH]; [done|]. cbn [str_contains replace_go]. intros [-> Hs]%orb_false_iff. by rewrite IH.
Qed.

Lemma split_char_nonempty sep s : split_char sep s ≠ [].
Proof. destruct s; simpl; [done|]. destruct (Ascii.eqb _ _); [done|]. by destruct (split_char sep s). Qed.

Lemma join_split sep s : str_join (String sep "") (split_char sep s) = s.
Proof.
  unfold str_join. induction s as [|c s IH]; [done|]. simpl. pose proof (split_char_nonempty sep s) as Hne.
  destruct (Ascii.eqb_spec c sep) as [->|]; destruct (split_char sep s) as [|w ws]; try done; simpl in *.
  - by rewrite IH.
  - destruct ws; simpl in *; by rewrite IH.
Qed.

(** Replacing a text without end of line can be done line by line. *)
Lemma replace_lines old new s : str_all not_nl old = true → old ≠ "" →
  str_replace s old new = str_join newline (map (λ l, str_replace l old new) (split_char nl_char s)).
Proof.
  intros Ho Hne. rewrite <- (join_split nl_char s) at 1. pose proof (split_char_nonempty nl_char s) as Hs.
  unfold str_join, str_replace. induction (split_char nl_char s) as [|w ws IH]; [done|].
  destruct ws as [|w' ws]; [done|]. cbn [String.concat map] in *. rewrite <- IH by done.
  change (newline) with (String nl_char ""). cbn [String.append]. apply replace_before_nl; [done..|lia].
Qed.

Section ForgerProps.
Context {W : Type} `{Nodes W, Clock W, Os W, Rng W} `{EthUtils, EthAbi, EthHash, EthEvents, EthHex}.
Implicit Types st s : St (FW W).

Lemma read_file_Val path text st :
  os_read path (world st) = inr text → read_file path st = (Val text, st).
Proof. intros Hr. unfold read_file, run_os. rewrite Hr. by destruct st. Qed.

Lemma write_file_Val path text st w :
  os_write path text (world st) = (inr tt, w) → write_file path text st = (Val tt, log_event (EWrite path text) (set_world w st)).
Proof. intros Hw. unfold write_file, act. by rewrite Hw. Qed.

Definition reward_setting (a : string) : string := "forgerRewardAddress = " +:+ qt +:+ a +:+ qt.
Definition second_conf (tmpdir : string) : string := path_join tmpdir "sc_node1" +:+ "/node1.conf".

(** The configuration of the second node is written back line by line: in every
    line the empty reward address is replaced by the address of the contract
    without its prefix, a line without that setting is kept as it was, and the
    lines keep their order. *)
Theorem set_reward_address_lines (tmpdir config a : string) (address : pyval) st (w : FW W) :
  os_read (second_conf tmpdir) (world st) = inr config →
  os_write (second_conf tmpdir) "" (world st) = (inr tt, w) →
  remove_0x_prefix address = Val (PStr a) →
  ∃ lines,
    set_reward_address tmpdir address st
    = write_file (second_conf tmpdir) (str_join newline lines)
        (log_event (EWrite (second_conf tmpdir) "") (set_world w st))
    ∧ Forall2 (λ l l', l' = str_replace l (reward_setting "") (reward_setting a)
        ∧ (str_contains (reward_setting "") l = false → l' = l)) (split_char nl_char config) lines
    ∧ str_join newline (split_char nl_char config) = config.
Proof.
  intros Hr Hw Ha. exists (map (λ l, str_replace l (reward_setting "") (reward_setting a)) (split_char nl_char config)).
  split_and!; [|apply Forall2_fmap_r, Forall_Forall2_diag, Forall_forall|apply join_split].
  - unfold set_reward_address. fold (second_conf tmpdir). unfold bind at 1. rewrite (read_file_Val _ _ _ Hr).
    unfold bind at 1. rewrite (write_file_Val _ _ _ w); [|exact Hw]. unfold bind, lift. rewrite Ha. cbv [as_str].
    by rewrite <- replace_lines.
  - intros l _. split; [done|]. intros Hc. by apply replace_absent.
Qed.

(** The event of a vote: two topics, the signature and the index of the forger. *)
Definition vote_event (event : pyval) (forgerIndex : Z) : Prop :=
  ∃ topics id event_id signature index,
    getitem event "topics" = Val topics ∧ py_len topics = Val 2 ∧ getindex topics 0 = Val id
    ∧ remove_0x_prefix id = Val event_id
    ∧ remove_0x_prefix (event_topic "OpenForgerList(uint32,address,bytes32)") = Val signature
    ∧ py_eqb signature event_id = true
    ∧ topic_value event 1 "uint32" = Val index ∧ py_eqb index (PInt forgerIndex) = true.

Lemma check_open_forger_list_event_inv event i :
  check_open_forger_list_event event i = Val tt → vote_event event i.
Proof.
  intros ([] & Ht & Hr)%obind_Val_inv. apply obind_Val_inv in Hr as (index & Hi & Hr).
  apply obind_Val_inv in Hr as ([] & E%assert_equal_inv & _).
  apply obind_Val_inv in Ht as (topics & Ht & Hr). apply obind_Val_inv in Hr as (k & Hk & Hr).
  apply obind_Val_inv in Hr as ([] & <-%assert_equal_int_inv & Hr).
  apply obind_Val_inv in Hr as (id & Hid & Hr). apply obind_Val_inv in Hr as (eid & He & Hr).
  apply obind_Val_inv in Hr as (sg & Hs & Hr%assert_equal_inv). by exists topics, id, eid, sg, index.
Qed.

(** C27: [tryOpenForgerList] reports success only when no API error was expected, the
    node accepted the vote, a block was forged after it, and the receipt of the
    vote has status 1 and exactly one event, with the signature of the event of
    the contract and the index of the forger as its topic. *)
Theorem tryOpenForgerList_opened (str_exn : exn → string) (fuel : nat) (node : proxy) (forgerIndex : Z)
    (api_error_expected : bool) (forger_node : option proxy) st st' :
  tryOpenForgerList str_exn fuel node forgerIndex api_error_expected forger_node st = (Val true, st') →
  api_error_expected = false
  ∧ ∃ reply tx hash receipt logs event s1 s2,
      open_forger_list node (PInt forgerIndex) false PNone st = (Val reply, s1)
      ∧ forge_synced fuel (default node forger_node) "first node" false s1 = (Val tt, s2)
      ∧ getitem reply "transactionId" = Val tx ∧ add_0x_prefix tx = Val hash
      ∧ call node "rpc_eth_getTransactionReceipt" [hash] s2 = (Val receipt, st')
      ∧ hex_field receipt "status" = Val 1
      ∧ getpath receipt ["result"; "logs"] = Val logs ∧ py_len logs = Val 1 ∧ getindex logs 0 = Val event
      ∧ vote_event event forgerIndex.
Proof.
  unfold tryOpenForgerList. intros ([reply|] & s1 & Ho & Hr)%bind_Val_inv; [|by apply ret_Val_inv in Hr as [? _]].
  destruct api_error_expected.
  { apply bind_Val_inv in Hr as ([] & ? & _ & Hr). by apply ret_Val_inv in Hr as [? _]. }
  split; [done|]. apply bind_Val_inv in Hr as ([] & s2 & Hf & Hr).
  apply bind_Val_inv in Hr as (tx & ? & [Htx ->]%lift_Val_inv & Hr).
  apply bind_Val_inv in Hr as (receipt & s3 & Hrec & Hr).
  apply bind_Val_inv in Hrec as (hash & ? & [Hh ->]%lift_Val_inv & Hrec).
  apply bind_Val_inv in Hr as (status & ? & [Hst ->]%lift_Val_inv & Hr).
  apply bind_Val_inv in Hr as ([] & s4 & Hw & Hr). apply ret_Val_inv in Hr as [E%Z.eqb_eq ->]. subst status.
  cbn [when Z.eqb Pos.eqb] in Hw. apply bind_Val_inv in Hw as (logs & ? & [Hl ->]%lift_Val_inv & Hw).
  apply bind_Val_inv in Hw as ([] & ? & Hlen & Hw).
  apply bind_Val_inv in Hlen as (k & ? & [Hk ->]%lift_Val_inv & [<-%assert_equal_int_inv ->]%lift_Val_inv).
  apply bind_Val_inv in Hw as (event & ? & [He ->]%lift_Val_inv & [Hv%check_open_forger_list_event_inv ->]%lift_Val_inv).
  exists reply, tx, hash, receipt, logs, event, s1, s2. split_and!; try done.
  unfold open_list_reply, catch in Ho. destruct (bind _ _ st) as [[[r|]| |] s] eqn:Eb; simplify_eq.
  - apply bind_Val_inv in Eb as (r & ? & Hop & [[= ->] ->]%ret_Val_inv). exact Hop.
  - destruct (negb _); [discriminate|]. cbn in Ho. discriminate.
Qed.
End ForgerProps.

(** ** Runs against simulated hosts *)

#[local] Instance sim_hex : EthHex := {|
  remove_0x_prefix v := match v with
                        | PStr s => Val (PStr (if startswith s "0x" then str_drop 2 s else s))
                        | _ => Exc TypeError
                        end;
  to_hex v := match v with PBytes b => Val (PStr ("0x" +:+ hexlify b)) | _ => Exc TypeError end
|}.

#[local] Instance sim_topic : EthEvents := λ _, PStr "0xab".

(** A decoder of one number, or of an address and a key. *)
#[local] Instance sim_vote_abi : EthAbi := {|
  abi_encode _ _ := Val "";
  abi_decode types _ := Val (match types with [_] => [PInt 1] | _ => [PStr "0xcd"; PBytes "k"] end)
|}.

Definition conf_text : string := "a = 1" +:+ newline +:+ reward_setting "" +:+ newline +:+ "b = 2".

Definition conf_st : St (FW sim) :=
  init_st (mkFW (mkSelf None (Is []) None None None None)
    (put_file "/tmp/sc_node1/node1.conf" conf_text (sim_of (λ _ _ _ _, inr PNone)))).

Lemma set_reward_address_lines_witness :
  ∃ lines,
    set_reward_address "/tmp" (PStr "0x1234") conf_st
    = write_file "/tmp/sc_node1/node1.conf" (str_join newline lines)
        (log_event (EWrite "/tmp/sc_node1/node1.conf" "")
           (set_world (os_write "/tmp/sc_node1/node1.conf" "" (world conf_st)).2 conf_st))
    ∧ length lines = 3%nat.
Proof.
  destruct (set_reward_address_lines "/tmp" conf_text "1234" (PStr "0x1234") conf_st
    (os_write "/tmp/sc_node1/node1.conf" "" (world conf_st)).2) as (lines & Hw & Hl & _).
  - vm_compute. reflexivity.
  - vm_compute. reflexivity.
  - vm_compute. reflexivity.
  - exists lines. split; [exact Hw|]. rewrite <- (Forall2_length _ _ _ Hl). vm_compute. reflexivity.
Defined.

(** A node that opens the list: the vote, a block, a receipt with the event. *)
Definition vote_nodes (n : nat) (p : proxy) (m : string) (args : list pyval) : exn + pyval :=
  let other := match forging_replies m with Some r => r | None => PStr "a" end in
  inr (match m with
  | "transaction_openForgerList" => result [("transactionId", PStr "tx")]
  | "rpc_eth_getTransactionReceipt" => result [("status", PStr "0x1");
      ("logs", PList [PDict [("topics", PList [PStr "0xab"; PStr "0x01"]); ("data", PStr "0x")]])]
  | "block_best" => result [("height", PInt 7); ("block", PDict [("id", PStr "b")])]
  | "block_currentHeight" => result [("height", PInt 7)]
  | "transaction_allTransactions" => result [("transactionIds", PList []); ("transactions", PList [])]
  | _ => other
  end).

Definition vote_st : St (FW sim) :=
  init_st (mkFW (mkSelf (Some [mc0]) (Is [sc0]) None None (Some ex_info) None) (sim_of vote_nodes)).

Local Abbreviation vote_run := (tryOpenForgerList (λ _, "") 5 sc0 1 false None vote_st).

Lemma tryOpenForgerList_opened_witness :
  vote_run.1 = Val true
  ∧ ∃ event, vote_event event 1.
Proof.
  assert (vote_run.1 = Val true) as Hr by (vm_compute; reflexivity).
  split; [exact Hr|].
  destruct (tryOpenForgerList_opened (λ _, "") 5 sc0 1
    false None vote_st vote_run.2) as (_ & reply & tx & hash & receipt & logs & event & s1 & s2 & Ho);
    [rewrite <- Hr; apply surjective_pairing|].
  exists event. apply Ho.
Defined.
