(* ===== verification/RotationProps.v ===== *)
(** * What a passing test of key rotation says

    After all keys were changed the node proves each change, lists the new keys
    only, and the certificates of the two epochs after it are signed with them.
    One check of the test across epochs looks at a block it had checked
    before. *)

From S2P Require Import Prelude PyStr Numbers PyVal Host Sim Json Encoding HttpProxy BootInfo McUtil ScUtil.
From S2P Require Import Forging Bootstrap Framework McFramework HttpCalls Tools Checks BootstrapProps.
From Stdlib Require Import Ascii String.
From stdpp Require Import base list relations.
From S2P Require Import Scenarios StakeScenarios ChainScenarios CertScenarios CswScenarios CertificateScenarios KeyRotationScenarios.
From S2P Require Import ScenarioProps WithdrawalProps.
Local Open Scope Z_scope.

Section Rotation.
Context {W : Type} `{Nodes W, Clock W, Os W, Rng W} `{Remote W}.
Implicit Types st s : St (FW W).

(** ** Runs of loops *)

Lemma forM_Val_inv {A} (f : A → M (FW W) unit) l st st' :
  forM_ l f st = (Val tt, st') → ∀ x, x ∈ l → ∃ s s', f x s = (Val tt, s').
Proof.
  revert st. induction l as [|y l IH]; intros st Hr x Hx; [by apply elem_of_nil in Hx|].
  simpl in Hr. apply bind_Val_inv in Hr as ([] & s & Hy & Hr).
  apply elem_of_cons in Hx as [->|Hx]; [by exists st, s|by eapply IH].
Qed.

Lemma omapM_Val_inv {A B} (f : A → outcome B) l ys : omapM f l = Val ys → ∀ x, x ∈ l → ∃ y, f x = Val y.
Proof.
  revert ys. induction l as [|y l IH]; intros ys Hr x Hx; [by apply elem_of_nil in Hx|].
  simpl in Hr. apply obind_Val_inv in Hr as (v & Hv & Hr). apply obind_Val_inv in Hr as (vs & Hvs & _).
  apply elem_of_cons in Hx as [->|Hx]; [by exists v|by eapply IH].
Qed.

Lemma elem_zrange n i : 0 <= i < n → i ∈ zrange 0 n.
Proof. intros Hi. unfold zrange. apply elem_of_seqZ. lia. Qed.

(** ** Keys *)

(** The key number [i] of a kind in a list of certifiers. *)
Definition lists_key (keys : pyval) (kind : string) (i : Z) (expected : pyval) : Prop :=
  ∃ l e k, getitem keys kind = Val l ∧ getindex l i = Val e ∧ getitem e "publicKey" = Val k ∧ py_eqb k expected = true.

Lemma check_certifier_inv keys kind i key :
  check_certifier keys kind i key = Val tt → ∃ expected, key = Val expected ∧ lists_key keys kind i expected.
Proof.
  intros (l & Hl & Hr)%obind_Val_inv. apply obind_Val_inv in Hr as (e & He & Hr).
  apply obind_Val_inv in Hr as (k & Hk & Hr). apply obind_Val_inv in Hr as (x & Hx & Hr%assert_equal_inv).
  exists x. split; [done|]. by exists l, e, k.
Qed.

Lemma check_certifiers_inv keys signing master :
  check_certifiers keys signing master = Val tt →
  ∃ l n, getitem keys "signingKeys" = Val l ∧ py_len l = Val n
    ∧ ∀ i, 0 <= i < n → (∃ k, signing i = Val k ∧ lists_key keys "signingKeys" i k)
                      ∧ (∃ k, master i = Val k ∧ lists_key keys "masterKeys" i k).
Proof.
  intros (l & Hl & Hr)%obind_Val_inv. apply obind_Val_inv in Hr as (n & Hn & Hr).
  apply obind_Val_inv in Hr as (ys & Hm & _). exists l, n. split_and!; [done..|]. intros i Hi%elem_zrange.
  destruct (omapM_Val_inv _ _ _ Hm i Hi) as ([] & Hc). cbv beta in Hc.
  apply obind_Val_inv in Hc as ([] & Hs%check_certifier_inv & Hma%check_certifier_inv). done.
Qed.

(** A proof of a change of a key. *)
Definition proves (proof : pyval) (index : Z) (type : string) (key : pyval) : Prop :=
  ∃ i t k, getitem proof "index" = Val i ∧ py_eqb i (PInt index) = true
    ∧ getpath proof ["keyType"; "value"] = Val t ∧ py_eqb t (PStr type) = true
    ∧ getpath proof ["newKey"; "publicKey"] = Val k ∧ py_eqb k key = true.

Lemma check_proof_key_inv proof index type key : check_proof_key proof index type key = Val tt → proves proof index type key.
Proof.
  intros (i & Hi & Hr)%obind_Val_inv. apply obind_Val_inv in Hr as ([] & E1%assert_equal_inv & Hr).
  apply obind_Val_inv in Hr as (t & Ht & Hr). apply obind_Val_inv in Hr as ([] & E2%assert_equal_inv & Hr).
  apply obind_Val_inv in Hr as (k & Hk & E3%assert_equal_inv). by exists i, t, k.
Qed.

(** The node proves the change of both keys number [i]. *)
Definition proved_change (node : proxy) (epoch : pyval) (k : NewKeys) (i : Z) : Prop :=
  ∃ signing master proof_s proof_m s1 s2 s3 s4,
    list_index (new_signing_keys k) i = Val signing ∧ list_index (new_master_keys k) i = Val master
    ∧ rotation_proof node epoch i 0 s1 = (Val proof_s, s2) ∧ proves proof_s i signing_proof (schnorr_publicKey signing)
    ∧ rotation_proof node epoch i 1 s3 = (Val proof_m, s4) ∧ proves proof_m i master_proof (schnorr_publicKey master).

Lemma all_rotated_inv node epoch k n st st' :
  all_rotated node epoch k n st = (Val tt, st') → ∀ i, 0 <= i < n → proved_change node epoch k i.
Proof.
  intros Hr i Hi%elem_zrange. destruct (forM_Val_inv _ _ _ _ Hr i Hi) as (s1 & s' & Hb). cbv beta in Hb.
  apply bind_Val_inv in Hb as (ps & s2 & Hps & Hb). apply bind_Val_inv in Hb as (s & ? & [Hs ->]%lift_Val_inv & Hb).
  apply bind_Val_inv in Hb as ([] & ? & [Hc%check_proof_key_inv ->]%lift_Val_inv & Hb).
  apply bind_Val_inv in Hb as (pm & s4 & Hpm & Hb). apply bind_Val_inv in Hb as (m & ? & [Hm ->]%lift_Val_inv & Hb).
  apply lift_Val_inv in Hb as [Hc2%check_proof_key_inv _]. by exists s, m, ps, pm, s1, s2, s2, s4.
Qed.

(** The certificate of a block, as the mainchain reports it, has all signatures
    and the hash of the keys. *)
Definition certified (hash root : pyval) s s' : Prop :=
  ∃ field quality, get_certificate_info hash s = (Val (field, quality), s')
    ∧ py_eqb quality (PInt 7) = true ∧ py_eqb field root = true.

Lemma check_keys_certificate_inv hash signers st st' :
  check_keys_certificate hash signers 7 st = (Val tt, st') →
  ∃ root, getitem signers "keysRootHash" = Val root ∧ certified hash root st st'.
Proof.
  intros ([field quality] & s & Hi & Hr)%bind_Val_inv.
  apply bind_Val_inv in Hr as ([] & ? & [E1%assert_equal_inv ->]%lift_Val_inv & Hr).
  apply bind_Val_inv in Hr as (root & ? & [Hroot ->]%lift_Val_inv & [E2%assert_equal_inv ->]%lift_Val_inv).
  exists root. split; [done|]. by exists field, quality.
Qed.

(** The epoch after the change: what is listed, and the first certificate. *)
Lemma rotation_epoch3_inv fuel m c k st signers st' :
  rotation_epoch3 fuel m c k st = (Val signers, st') →
  ∃ keys root l n hash s1 s2 s3,
    rotation_epoch_start fuel m c st = (Val hash, s1)
    ∧ http_get_certifiers_keys c (PInt 2) s1 = (Val signers, s2)
    ∧ getitem signers "certifiersKeys" = Val keys ∧ getitem signers "keysRootHash" = Val root
    ∧ getitem keys "signingKeys" = Val l ∧ py_len l = Val n
    ∧ (∀ i, 0 <= i < n → (∃ key, public_of (new_signing_keys k) i = Val key ∧ lists_key keys "signingKeys" i key)
                       ∧ (∃ key, public_of (new_master_keys k) i = Val key ∧ lists_key keys "masterKeys" i key))
    ∧ certified hash root s2 s3.
Proof.
  intros (hash & s1 & Hh & Hr)%bind_Val_inv. apply bind_Val_inv in Hr as (signers' & s2 & Hs & Hr).
  apply bind_Val_inv in Hr as (keys & ? & [Hk ->]%lift_Val_inv & Hr).
  apply bind_Val_inv in Hr as ([] & ? & [(l & n & Hl & Hn & Hall)%check_certifiers_inv ->]%lift_Val_inv & Hr).
  apply bind_Val_inv in Hr as ([] & s3 & (root & Hroot & Hc)%check_keys_certificate_inv & Hr). do 2 skip_step Hr.
  apply ret_Val_inv in Hr as [-> _]. by exists keys, root, l, n, hash, s1, s2, s3.
Qed.

Lemma rotation_epoch4_inv fuel m c signers st st' :
  rotation_epoch4 fuel m c signers st = (Val tt, st') →
  ∃ root hash s1 s2, mine_certificate m c s1 = (Val hash, s2)
    ∧ getitem signers "keysRootHash" = Val root ∧ certified hash root s2 st'.
Proof.
  unfold rotation_epoch4. intros Hr. do 2 skip_step Hr.
  apply bind_Val_inv in Hr as ([] & s1 & _ & Hr). apply bind_Val_inv in Hr as (hash & s2 & Hm & Hr).
  apply check_keys_certificate_inv in Hr as (root & Hroot & Hc). by exists root, hash, s1, s2.
Qed.

(** C25: when the last three epochs of the rotation test pass, the node proved the
    change of all seven signing and master keys to the generated ones, every key
    it then listed for that epoch is the generated key of the same number, of
    both kinds, and the certificates of both following epochs were published with
    the full quality of seven and committed to the hash of exactly these keys. *)
Theorem rotation_epochs_rotated (fuel : nat) (address : string) (mc_node sc_node : proxy) (k : NewKeys) st st' :
  (do! rotation_epoch2 fuel address mc_node sc_node k in
   let! signers := rotation_epoch3 fuel mc_node sc_node k in
   rotation_epoch4 fuel mc_node sc_node signers) st = (Val tt, st') →
  (∀ i, 0 <= i < 7 → proved_change sc_node (PInt 2) k i)
  ∧ ∃ signers keys root l n hash hash' s0 s1 s2 s3 s4 s5,
      rotation_epoch_start fuel mc_node sc_node s0 = (Val hash, s1)
      ∧ http_get_certifiers_keys sc_node (PInt 2) s1 = (Val signers, s2)
      ∧ getitem signers "certifiersKeys" = Val keys ∧ getitem signers "keysRootHash" = Val root
      ∧ getitem keys "signingKeys" = Val l ∧ py_len l = Val n
      ∧ (∀ i, 0 <= i < n → (∃ key, public_of (new_signing_keys k) i = Val key ∧ lists_key keys "signingKeys" i key)
                         ∧ (∃ key, public_of (new_master_keys k) i = Val key ∧ lists_key keys "masterKeys" i key))
      ∧ certified hash root s2 s3
      ∧ mine_certificate mc_node sc_node s4 = (Val hash', s5) ∧ certified hash' root s5 st'.
Proof.
  intros ([] & s & Hb & Hr)%bind_Val_inv. apply bind_Val_inv in Hr as (signers & s' & He3 & He4).
  apply rotation_epoch3_inv in He3 as (keys & root & l & n & hash & s1 & s2 & s3 & He3).
  apply rotation_epoch4_inv in He4 as (root' & hash' & s4 & s5 & Hm & Hroot & Hc). split.
  - unfold rotation_epoch2 in Hb. apply bind_Val_inv in Hb as (h & ? & _ & Hb). do 2 skip_step Hb.
    do 3 skip_step Hb. do 2 skip_step Hb. apply bind_Val_inv in Hb as ([] & ? & Hall & _).
    exact (all_rotated_inv _ _ _ _ _ _ Hall).
  - assert (root' = root) as -> by (destruct He3 as (_ & _ & _ & E & _); congruence).
    eexists signers, keys, root, l, n, hash, hash', s, s1, s2, s3, s4, s5.
    destruct He3 as (? & ? & ? & ? & ? & ? & ? & ?). split_and!; try eassumption.
Qed.

(** ** The end of the epoch in the test across epochs *)

Lemma bind_ext_Val {A B} (m : M (FW W) A) (f g : A → M (FW W) B) st :
  (∀ a s, m st = (Val a, s) → f a s = g a s) → bind m f st = bind m g st.
Proof. intros Hfg. unfold bind. destruct (m st) as [[a| |] s]; [by apply Hfg|done..]. Qed.

(** The same steps without a look at the block of the new epoch. *)
Definition across_epoch_end_unlooked (mc_node sc_node : proxy) (id3 id4 : pyval) : M (FW W) unit :=
  do! call mc_node "generate" [PInt 1] in
  do! generate_next_block sc_node "first node" false PNone in
  let! block_json := http_block_best sc_node in
  do% no_block_txs block_json in
  let! r := allTransactions sc_node false in
  let% ids := getitem r "transactionIds" in
  do! check_length 2 ids "Different mempool size found" in
  let% there := py_in id3 ids in
  do% assert_true there "" in
  let% there := py_in id4 ids in
  do% assert_true there "" in
  do! generate_next_blocks sc_node "first node" 1 in
  ret tt.

(** The test across epochs asserts once more, after it has forged the first block
    of the new epoch, that a block has no transactions; it is the block of the
    epoch before, which had passed.  So the steps have the same outcome, in every
    state and for every node, as without that assertion: what the new block
    contains is not looked at. *)
Theorem across_epoch_end_stale (mc_node sc_node : proxy) (id3 id4 : pyval) st :
  across_epoch_end mc_node sc_node id3 id4 st = across_epoch_end_unlooked mc_node sc_node id3 id4 st.
Proof.
  unfold across_epoch_end, across_epoch_end_unlooked. do 3 (apply bind_ext_Val; intros ? ? _).
  apply bind_ext_Val; intros [] ? [Hb _]%lift_Val_inv. do 8 (apply bind_ext_Val; intros ? ? _).
  unfold lift. by rewrite Hb.
Qed.
End Rotation.

(** ** A run against simulated nodes *)

#[local] Instance sim_remote : Remote sim := {
  requests_post _ _ w := (inr ("{" +:+ qt +:+ "signature" +:+ qt +:+ ": " +:+ qt +:+ "s" +:+ qt +:+ "}"), w);
  enclave_start _ w := (inr tt, w)
}.

(** The keys number [i]. *)
Definition sim_key (kind : string) (i : Z) : SchnorrAccount :=
  mkSchnorrAccount (PStr ("secret " +:+ kind +:+ str_of_Z i)) (PStr (kind +:+ str_of_Z i)).

Definition sim_keys : NewKeys :=
  mkNewKeys (sim_key "a" 1) (sim_key "a" 2) (sim_key "b" 0) (sim_key "a" 4)
    (map (sim_key "s") (zrange 0 7)) (map (sim_key "m") (zrange 0 7)).

Definition rotation_info : SCBootstrapInfo :=
  with_proof_info ex_info (mkCertificateProofInfo (PInt 5) (PStr "c") (PStr "v") (map (λ i, PStr (str_of_Z i)) (zrange 0 7))
    [] (map (λ i, PStr (str_of_Z i)) (zrange 0 7)) []).

(** The index and the kind of a request for a proof. *)
Definition asked_index (body : string) : Z :=
  default 0 (List.find (λ i, str_contains ("indexOfKey" +:+ qt +:+ ": " +:+ str_of_Z i) body) (zrange 0 7)).
Definition asked_master (body : string) : bool := str_contains ("keyType" +:+ qt +:+ ": 1") body.

(** Before the rotations there are no proofs, after them one for each key. *)
Definition rotation_nodes (first : nat) (n : nat) (p : proxy) (m : string) (args : list pyval) : exn + pyval :=
  let other := match forging_replies m with Some r => r | None => PStr "a" end in
  let body := match args with PStr b :: _ => b | _ => "" end in
  let entry kind i := PDict [("publicKey", PStr (kind +:+ str_of_Z i))] in
  inr (match m with
  | "submitter_getKeyRotationProof" =>
      if (n <? first)%nat then result [] else
      result [("keyRotationProof", PDict [("index", PInt (asked_index body));
        ("keyType", PDict [("value", PStr (if asked_master body then master_proof else signing_proof))]);
        ("newKey", PDict [("publicKey", PStr ((if asked_master body then "m" else "s") +:+ str_of_Z (asked_index body)))])])]
  | "submitter_getCertifiersKeys" =>
      result [("keysRootHash", PStr "root");
        ("certifiersKeys", if (n <? first)%nat then PDict [("signingKeys", PList [entry "a" 4])]
           else PDict [("signingKeys", PList (map (entry "s") (zrange 0 7)));
                       ("masterKeys", PList (map (entry "m") (zrange 0 7)))])]
  | "submitter_getKeyRotationMessageToSignForSigningKey" | "submitter_getKeyRotationMessageToSignForMasterKey" =>
      result [("keyRotationMessageToSign", PStr "message")]
  | "transaction_createKeyRotationTransaction" => result [("transactionId", PStr "tx")]
  | "getmempoolinfo" => PDict [("size", PInt 1)]
  | "submitter_isCertGenerationActive" => result [("state", PBool false)]
  | "generate" => PList [PStr "h"]
  | "getblock" => PDict [("scCumTreeHash", PStr "t"); ("cert", PList [PDict [("cert", PDict [
      ("vFieldElementCertificateField", PList [PStr "root"]); ("quality", PInt 7)])]])]
  | "block_best" => result [("block", PDict [("id", PStr "b")])]
  | "block_findBlockInfoById" => result [("blockInfo", PDict [("withdrawalEpochInfo", PDict [("epoch", PInt 2)])])]
  | "block_findById" => result [("block", PDict [("mainchainHeaders", PList [PDict [("hash", PStr "h")]]);
      ("mainchainBlockReferencesData", PList [PDict [("headerHash", PStr "h")]])])]
  | _ => other
  end).

Definition rotation_st : St (FW sim) :=
  init_st (mkFW (mkSelf (Some [mc0]) (Is [sc0]) None None (Some rotation_info) None) (sim_of (rotation_nodes 40))).

Local Abbreviation rotation_run :=
  ((do! rotation_epoch2 5 "u" mc0 sc0 sim_keys in
    let! signers := rotation_epoch3 5 mc0 sc0 sim_keys in
    rotation_epoch4 5 mc0 sc0 signers) rotation_st).

Lemma rotation_epochs_rotated_witness :
  rotation_run.1 = Val tt ∧ proved_change (W:=sim) sc0 (PInt 2) sim_keys 6
  ∧ ∃ (hash root : pyval) (s s' : St (FW sim)), certified hash root s s'.
Proof.
  assert (rotation_run.1 = Val tt) as Hr by (vm_compute; reflexivity).
  split; [exact Hr|].
  destruct (rotation_epochs_rotated 5 "u" mc0 sc0 sim_keys rotation_st rotation_run.2)
    as (Hp & signers & keys & root & l & n & hash & hash' & s0 & s1 & s2 & s3 & s4 & s5 & Ho);
    [rewrite <- Hr; apply surjective_pairing|].
  split; [apply Hp; split; [intros [=]|reflexivity]|].
  exists hash, root, s2, s3. apply Ho.
Defined.
