(* ===== verification/NativeProps.v ===== *)
(** * What the tests of the native contracts compute

    Three parts: the pages and sums of the stakes, the rewards of forgers and delegators,
    and the links between accounts and mainchain addresses. *)

From S2P Require Import Prelude PyStr Numbers PyVal Host Sim Json Encoding HttpProxy BootInfo McUtil ScUtil.
From S2P Require Import SmartContract EvmRotationScenarios ForgerScenarios EvmForgerScenarios NativeForgerScenarios RegisterScenarios PagedStakesScenarios Checks ForgerProps.
From Stdlib Require Import Ascii String.
From stdpp Require Import base list sets.
From S2P Require Import ChainScenarios RewardScenarios.
From S2P Require Import Framework AccountUtil.
From S2P Require Import CertificateScenarios.
From S2P Require Import OwnershipScenarios.
Local Open Scope Z_scope.

(** * Pages and sums of the contracts of the stakes

    The decoders of pages, what the comparison of the stakes before and after the
    migration to the second contract shows, the stakes grouped by owner, and the
    address that the checks of two events do not compare. *)

(** ** Pages *)

Lemma omapM_Forall2 {A B} (f : A → outcome B) l k : Forall2 (λ x y, f x = Val y) l k → omapM f l = Val k.
Proof. induction 1 as [|x y l k Hx _ IH]; [done|]. simpl. by rewrite Hx, IH. Qed.

(** A page: its next position, what is skipped, the number of its elements, its
    elements, and what follows. *)
Record Page := mkPage { pg_next : string; pg_offset : string; pg_count : string; pg_elems : list string; pg_rest : string }.

Definition page_bytes (p : Page) : string :=
  pg_next p +:+ pg_offset p +:+ pg_count p +:+ joined (pg_elems p) +:+ pg_rest p.

Definition page_ok (elem_size : nat) (p : Page) : Prop :=
  String.length (pg_next p) = 32%nat ∧ String.length (pg_offset p) = 32%nat ∧ String.length (pg_count p) = 32%nat
  ∧ be_value 0 (pg_count p) = N.of_nat (length (pg_elems p))
  ∧ Forall (λ e, String.length e = elem_size) (pg_elems p).

Lemma decode_page_encoded `{EthAbi} {A} size (decode : string → outcome A) p next l :
  page_ok size p → decode_one "int32" (pg_next p) = Val next →
  Forall2 (λ e x, decode e = Val x) (pg_elems p) l →
  decode_page size decode (page_bytes p) = Val (next, l).
Proof.
  intros (Hn & Ho & Hc & Hv & Hs) Hnext Hd. unfold decode_page, page_bytes, decode_one in *.
  rewrite (str_take_app_n 32), !(str_drop_app_n 32), (str_take_app_n 32) by done.
  destruct (abi_decode [PStr "int32"] (pg_next p)) as [first|e|] eqn:E; [|done..]. cbn [obind] in *. rewrite Hnext. cbn [obind].
  rewrite py_int_hexlify by (by intros E'; rewrite E' in Hc). cbn [obind].
  by rewrite Hv, nat_N_Z, Nat2Z.id, chunks_joined, (omapM_Forall2 _ _ _ Hd).
Qed.

(** The dictionary of pairs with distinct keys has them in their order. *)
Lemma dict_of_pairs_distinct (l acc : list (string * pyval)) :
  NoDup (acc ++ l).*1 → dict_of_pairs acc (map (λ s, PTuple [PStr s.1; s.2]) l) = Val (PDict (acc ++ l)).
Proof.
  revert acc. induction l as [|[k v] l IH]; intros acc Hn; simpl; [by rewrite app_nil_r|].
  rewrite dict_set_fresh.
  - rewrite IH; rewrite <- app_assoc; done.
  - rewrite fmap_app, NoDup_app in Hn. destruct Hn as (_ & Hn & _). intros Hk. apply (Hn k Hk). simpl. set_solver.
Qed.

Lemma dict_get_elem {V} (k : string) (v : V) d : NoDup d.*1 → (k, v) ∈ d → dict_get k d = Some v.
Proof.
  induction d as [|[k' v'] d IH]; intros Hn Hin; [by apply elem_of_nil in Hin|]. simpl in *.
  apply NoDup_cons in Hn as [Hk Hn]. apply elem_of_cons in Hin as [[= <- <-]|Hin]; [by rewrite decide_True|].
  rewrite decide_False; [by apply IH|]. intros ->. apply Hk. apply list_elem_of_fmap. by exists (k', v).
Qed.

(** C34: a page of the stakes of a forger (the next position, an offset and a count of
    32 bytes each, 64 bytes for every stake, whatever follows) is decoded to its next
    position and a dictionary with the amount of every owner of the page and of no
    other one, when the owners are distinct. *)
Theorem decode_paged_list_of_forger_stakes_encoded `{EthAbi} (p : Page) (next : pyval) (stakes : list (string * Z)) :
  page_ok 64 p → decode_one "int32" (pg_next p) = Val next →
  Forall2 (λ e s, decode_one "(address,uint256)" e = Val (PTuple [PStr s.1; PInt s.2])) (pg_elems p) stakes →
  NoDup stakes.*1 →
  ∃ d, NativeForgerScenarios.decode_paged_list_of_forger_stakes (page_bytes p) = Val (next, PDict d)
    ∧ py_len (PDict d) = Val (Z.of_nat (length stakes))
    ∧ (∀ a n, (a, n) ∈ stakes → getitem (PDict d) a = Val (PInt n))
    ∧ (∀ a, a ∉ stakes.*1 → py_in (PStr a) (PDict d) = Val false).
Proof.
  intros Hp Hnext Hd Hn. set (l := (λ s : string * Z, (s.1, PInt s.2)) <$> stakes).
  assert (l.*1 = stakes.*1) as Hl by (unfold l; rewrite <- list_fmap_compose; done).
  exists l. split_and!.
  - unfold NativeForgerScenarios.decode_paged_list_of_forger_stakes.
    rewrite (decode_page_encoded 64 _ p next (map (λ s, PTuple [PStr s.1; s.2]) l) Hp Hnext).
    + cbn [obind fst snd]. rewrite (dict_of_pairs_distinct l []); [done|]. simpl. by rewrite Hl.
    + unfold l. clear -Hd. induction Hd; constructor; auto.
  - simpl. by rewrite <- (length_fmap (λ s : string * Z, (s.1, PInt s.2))).
  - intros a n Hin. simpl. rewrite (dict_get_elem a (PInt n)); [done|by rewrite Hl|].
    apply list_elem_of_fmap. by exists (a, n).
  - intros a Ha. simpl. unfold dict_mem. by rewrite (proj2 (dict_get_None a l)) by (by rewrite Hl).
Qed.

(** ** Sums of the owners *)

(** A stake with its owner and its amount. *)
Definition owned (e : pyval) (s : string * Z) : Prop :=
  owner_of e = Val (PStr s.1) ∧ staked_amount e = Val (PInt s.2).

(** What the owners that are not named have. *)
Definition other_total (names : list string) (l : list (string * Z)) : Z :=
  sum_Z (map snd (filter (λ s, s.1 ∉ names) l)).

Lemma other_total_cons names s a l :
  other_total names ((s, a) :: l) = (if decide (s ∈ names) then 0 else a) + other_total names l.
Proof.
  unfold other_total. rewrite filter_cons. cbn [fst].
  destruct (decide (s ∈ names)); (destruct (decide (_ ∉ _)); [|]); try done; simpl; lia.
Qed.

Definition py_sums (sums : list (string * Z)) : list (pyval * pyval) := map (λ s, (PStr s.1, PInt s.2)) sums.

(** [add_stake] raises the sum of the owner, or that of the rest. *)
Lemma add_stake_spec a n sums g :
  NoDup sums.*1 →
  add_stake (PStr a) (PInt n) (py_sums sums) (PInt g)
  = Val (py_sums (map (λ s, (s.1, s.2 + if String.eqb a s.1 then n else 0)) sums),
         PInt (g + if decide (a ∈ sums.*1) then 0 else n)).
Proof.
  induction sums as [|[o s] sums IH]; intros Hn; [done|]. simpl in *. apply NoDup_cons in Hn as [Ho Hn].
  destruct (String.eqb_spec a o) as [->|Hne].
  - simpl. rewrite decide_True by set_solver. rewrite Z.add_0_r. do 3 f_equal.
    unfold py_sums. rewrite map_map. apply map_ext_in. intros [k m] Hk. simpl.
    destruct (String.eqb_spec o k) as [->|]; [|by rewrite Z.add_0_r].
    destruct Ho. apply list_elem_of_fmap. exists (k, m). split; [done|]. by apply list_elem_of_In.
  - rewrite IH by done. simpl. rewrite Z.add_0_r. do 3 f_equal.
    apply f_equal, (decide_ext (a ∈ sums.*1) (a ∈ o :: sums.*1)). rewrite elem_of_cons. naive_solver.
Qed.

Lemma owner_sums_spec entries stakes :
  Forall2 owned entries stakes → ∀ sums g, NoDup sums.*1 →
  owner_sums entries (py_sums sums) (PInt g)
  = Val (py_sums (map (λ s, (s.1, s.2 + stake_total s.1 stakes)) sums), PInt (g + other_total sums.*1 stakes)).
Proof.
  induction 1 as [|e [a n] entries stakes [Ha Hn] _ IH]; intros sums g Hd.
  - simpl. unfold other_total. simpl. rewrite Z.add_0_r. do 3 f_equal. rewrite <- (map_id sums) at 1.
    apply map_ext. intros [k m]. unfold stake_total. simpl. by rewrite Z.add_0_r.
  - simpl in *. rewrite Ha, Hn. cbn [obind]. rewrite add_stake_spec by done. cbn [obind fst snd].
    assert (∀ f : string * Z → Z, (map (λ s, (s.1, f s)) sums).*1 = sums.*1) as Hf.
    { intros f. clear. induction sums as [|x l IH]; [done|]. simpl. f_equal. exact IH. }
    rewrite IH; rewrite Hf; [|done]. rewrite other_total_cons, Z.add_assoc. do 3 f_equal. rewrite map_map.
    apply map_ext. intros [k m]. simpl. rewrite stake_total_cons. f_equal. lia.
Qed.

(** The amount a stake has to have after the migration. *)
Definition expected_after (names : list string) (before : list (string * Z)) (a : string) : Z :=
  if decide (a ∈ names) then stake_total a before else other_total names before.

Lemma check_owner_spec e a n sums g :
  NoDup sums.*1 → staked_amount e = Val (PInt n) →
  check_owner (PStr a) e (map (λ s, (s.1, Some s.2)) (py_sums sums)) (Some (PInt g)) = Val tt
  ↔ n = default g (dict_get a sums).
Proof.
  intros Hd Hn. assert (∀ x, (let? amount := staked_amount e in
    assert_equal (PInt x) amount "Forger stake is different after upgrade") = Val tt ↔ n = x) as Hx.
  { intros x. rewrite Hn. simpl. unfold assert_equal. rewrite py_neqb_int. destruct (Z.eqb_spec x n); simpl; naive_solver. }
  induction sums as [|[o s] sums IH]; simpl; [apply Hx|]. apply NoDup_cons in Hd as [_ Hd].
  destruct (String.eqb_spec a o); [rewrite decide_True by done; apply Hx|rewrite decide_False by done; by apply IH].
Qed.

Lemma check_owners_spec entries stakes sums g :
  NoDup sums.*1 → Forall2 owned entries stakes →
  check_owners entries (map (λ s, (s.1, Some s.2)) (py_sums sums)) (Some (PInt g)) = Val tt
  ↔ Forall (λ s, s.2 = default g (dict_get s.1 sums)) stakes ∧ Forall (λ e, has_key "stakeId" e = Val false) entries.
Proof.
  intros Hd. induction 1 as [|e [a n] entries stakes [Ha Hn] _ IH]; [split; [done|intros _; reflexivity]|].
  simpl in *. rewrite Ha, !Forall_cons. cbn [obind fst snd]. pose proof (check_owner_spec e a n sums g Hd Hn) as Hc.
  destruct (check_owner _ _ _ _) as [[]|?|]; cbn [obind]; [|naive_solver..].
  destruct (has_key "stakeId" e) as [[]|?|]; cbn [obind assert_false assert_true negb]; naive_solver.
Qed.

Lemma sum_absent (s : string) a names : s ∉ names → sum_Z (map (λ k, if String.eqb s k then a else 0) names) = 0.
Proof.
  induction names as [|k l IH]; [done|]. intros [Hk Hl]%not_elem_of_cons. simpl.
  destruct (String.eqb_spec s k); [done|]. by rewrite IH.
Qed.

(** The named owners and the others have all of it. *)
Lemma total_split names stakes :
  NoDup names →
  sum_Z (map (λ k, stake_total k stakes) names) + other_total names stakes = sum_Z (map snd stakes).
Proof.
  intros Hn. induction stakes as [|[s a] stakes IH].
  - unfold other_total. simpl. clear. induction names as [|k l IH]; simpl; [done|]. unfold stake_total at 1. simpl in *. lia.
  - rewrite sum_cons, other_total_cons. simpl. destruct (decide (s ∈ names)).
    + rewrite sum_single by done. lia.
    + rewrite sum_absent by done. lia.
Qed.

Lemma sum_Z_perm l k : l ≡ₚ k → sum_Z l = sum_Z k.
Proof. unfold sum_Z. induction 1; simpl; lia. Qed.

Lemma dict_get_totals names before a :
  default (other_total names before) (dict_get a (map (λ k, (k, stake_total k before)) names))
  = expected_after names before a.
Proof.
  unfold expected_after. generalize (other_total names before) as g. intros g.
  induction names as [|k l IH]; [done|]. simpl. destruct (decide (a = k)) as [->|Hne]; simpl.
  - rewrite decide_True by set_solver. done.
  - rewrite IH. apply decide_ext. set_solver.
Qed.


(** ** Stakes by their owners *)

(** One stake goes to the group of its owner. *)
Lemma add_owned_spec a stake groups g :
  NoDup groups.*1 →
  add_owned (PStr a) stake (map (λ s, (PStr s.1, s.2)) groups) g
  = (map (λ s, (PStr s.1, s.2)) (map (λ s, (s.1, s.2 ++ if String.eqb a s.1 then [stake] else [])) groups),
     if decide (a ∈ groups.*1) then g else stake).
Proof.
  induction groups as [|[o l] groups IH]; intros Hn; [done|]. simpl in *. apply NoDup_cons in Hn as [Ho Hn].
  destruct (String.eqb_spec a o) as [->|Hne].
  - rewrite decide_True by set_solver. do 2 f_equal. rewrite map_map. apply map_ext_in. intros [k m] Hk. simpl.
    destruct (String.eqb_spec o k) as [->|]; [|by rewrite app_nil_r].
    destruct Ho. apply list_elem_of_fmap. exists (k, m). split; [done|]. by apply list_elem_of_In.
  - rewrite IH by done. simpl. rewrite app_nil_r. f_equal.
    apply (decide_ext (a ∈ groups.*1) (a ∈ o :: groups.*1)). rewrite elem_of_cons. naive_solver.
Qed.

(** The stakes of an owner, and the last one of another owner. *)
Definition owned_by (a : string) (l : list (pyval * string)) : list pyval := (filter (λ s, s.2 = a) l).*1.

Lemma owned_by_cons a e o l : owned_by a ((e, o) :: l) = (if String.eqb o a then [e] else []) ++ owned_by a l.
Proof. unfold owned_by. rewrite filter_cons. simpl. destruct (String.eqb_spec o a), (decide (o = a)); try done. Qed.

Definition last_other (names : list string) (l : list (pyval * string)) (g : pyval) : pyval :=
  default g (last (filter (λ s, s.2 ∉ names) l).*1).

Lemma last_other_cons names e o l g :
  last_other names ((e, o) :: l) g = last_other names l (if decide (o ∈ names) then g else e).
Proof.
  unfold last_other. rewrite filter_cons. simpl. destruct (decide (o ∈ names)); (destruct (decide (_ ∉ _)); [|]); try done.
  change (default g (last (e :: (filter (λ s, s.2 ∉ names) l).*1)) = default e (last (filter (λ s, s.2 ∉ names) l).*1)).
  rewrite last_cons. by destruct (last _).
Qed.

(** Grouping the stakes keeps, for every named owner, exactly its stakes in their order
    behind those it had; the genesis stake is the last one of another owner.  The
    group is what filtering all stakes for the owner gives. *)
Theorem group_stakes_partition (l : list (pyval * string)) : Forall (λ s, owner_of s.1 = Val (PStr s.2)) l →
  ∀ groups g, NoDup groups.*1 →
  group_stakes l.*1 (map (λ s, (PStr s.1, s.2)) groups) g
    = Val (map (λ s, (PStr s.1, s.2 ++ owned_by s.1 l)) groups, last_other groups.*1 l g)
  ∧ Forall (λ s, stakes_of_owner (PStr s.1) l.*1 = Val (owned_by s.1 l)) groups.
Proof.
  intros Hl groups g Hn. split.
  - revert groups g Hn. induction Hl as [|[e o] l Ho _ IH]; intros groups g Hn.
    + simpl. do 2 f_equal. apply map_ext. intros [k m]. by rewrite app_nil_r.
    + simpl in *. rewrite Ho. cbn [obind]. rewrite add_owned_spec by done. cbn [fst snd].
      assert (∀ f : string * list pyval → list pyval, (map (λ s, (s.1, f s)) groups).*1 = groups.*1) as Hf.
      { intros f. clear. induction groups as [|x k IH]; [done|]. simpl. f_equal. exact IH. }
      rewrite IH; rewrite Hf; [|done]. rewrite last_other_cons. do 2 f_equal. rewrite map_map. apply map_ext.
      intros [k m]. simpl. by rewrite owned_by_cons, app_assoc.
  - apply Forall_forall. intros [a m] _. simpl. clear g Hn. induction Hl as [|[e o] l Ho _ IH]; [done|].
    rewrite fmap_cons. cbn [stakes_of_owner fst snd] in *. rewrite Ho. cbn [obind]. rewrite IH, owned_by_cons. simpl.
    by destruct (String.eqb o a).
Qed.

(** ** What the checks of two events do not notice *)

(** [assert_equal(reward_address, reward_address)] *)
Lemma assert_equal_itself (a message : string) : assert_equal (PStr a) (PStr a) message = Val tt.
Proof. unfold assert_equal, py_neqb. simpl. by rewrite String.eqb_refl. Qed.

(** The reward address a script expects makes no difference: the check of the event of a
    registration, and that of an update, have the same result for any two addresses. *)
Theorem reward_address_unnoticed `{EthAbi, EthEvents, EthHex} (event sender vrf sign amount share : pyval) (a b : string) :
  check_register_event event sender vrf sign amount share (PStr a)
    = check_register_event event sender vrf sign amount share (PStr b)
  ∧ check_update_event event sender vrf sign share (PStr a) = check_update_event event sender vrf sign share (PStr b).
Proof. unfold check_register_event, check_update_event. by rewrite !assert_equal_itself. Qed.

(** ** Witnesses *)

(** The stakes of the script, in zennies: two owners of several ones, and the genesis. *)
Definition stakes_before : list (string * Z) :=
  [("genesis", 100); ("a1", 2); ("a2", 1); ("a2", 11); ("a3", 2); ("a2", 1); ("a4", 3); ("a3", 3); ("a5", 1)].
Definition stakes_after : list (string * Z) := [("a2", 13); ("a1", 2); ("genesis", 100); ("a5", 1); ("a4", 3); ("a3", 5)].
Definition names_of_script : list string := ["a1"; "a2"; "a3"; "a4"; "a5"].

Definition owned_entry (s : string * Z) : pyval :=
  PDict [("forgerStakeData", PDict [("ownerPublicKey", PDict [("address", PStr s.1)]); ("stakedAmount", PInt s.2)])].


(** A decoder of pages: a number below 256 in the last of 32 bytes, or an address and
    an amount of one byte each, in the last of theirs. *)
Definition toy_pages : EthAbi := {|
  abi_encode _ _ := Val "";
  abi_decode types b :=
    let last n := match str_drop n b with String c _ => Z.of_N (N_of_ascii c) | _ => 0 end in
    match types with
    | [PStr "int32"] => Val [PInt (if last 31%nat =? 255 then -1 else last 31%nat)]
    | _ => Val [PTuple [PStr (str_take 1 (str_drop 31 b)); PInt (last 63%nat)]]
    end
|}.

Definition word (c : ascii) : string := str_repeat "000" 31 +:+ String c "".
Definition two_stakes : Page :=
  mkPage (str_repeat "255" 32) (word "064") (word "002") [word "a" +:+ word "007"; word "b" +:+ word "009"] "tail".

Lemma decode_paged_list_of_forger_stakes_encoded_witness :
  ∃ d, NativeForgerScenarios.decode_paged_list_of_forger_stakes (H := toy_pages) (page_bytes two_stakes) = Val (PInt (-1), PDict d)
    ∧ getitem (PDict d) "b" = Val (PInt 9) ∧ py_in (PStr "c") (PDict d) = Val false.
Proof.
  destruct (@decode_paged_list_of_forger_stakes_encoded toy_pages two_stakes (PInt (-1)) [("a", 7); ("b", 9)])
    as (d & Hd & _ & Hin & Hout).
  - unfold page_ok. split_and!; [reflexivity..|vm_compute; reflexivity|repeat constructor].
  - vm_compute. reflexivity.
  - repeat constructor.
  - apply (bool_decide_unpack _). vm_compute. exact I.
  - exists d. split_and!; [exact Hd|apply Hin|apply Hout]; apply (bool_decide_unpack _); vm_compute; exact I.
Defined.

(** * Properties of the rewards of forgers and delegators

    The scripts write out what every address is paid at the end of an epoch.  The
    numbers left over by the division among the 16 blocks are the numbers of blocks of
    each forger among the first ones; nothing of the reward or of the fees is lost, and
    the value of each payment is the sum of its two parts.  The other script keeps the
    pool as a number of the machine, which is only right while the fees are small. *)

(** ** Forgers of the blocks *)

(** The forger of each of the 16 blocks in order: 0 is the first forger before the fork. *)
Definition block_order : list Z := [0; 0; 1; 1; 1; 2; 2; 3; 3; 4; 4; 5; 5; 6; 7; 2].

(** How many of the first [r] blocks are of a forger. *)
Definition blocks_among (r forger : Z) : Z :=
  Z.of_nat (length (filter (λ f, f = forger) (take (Z.to_nat r) block_order))).

Definition rewards_list (f : Rewards) : list Reward :=
  [forger_1_before f; forger_1_after f; forger_2 f; forger_3 f; forger_4 f; forger_5 f; forger_6 f; forger_7 f].

Definition paid (l : list Payment) : Z := foldr (λ p s, pay_value p + s) 0 l.

(** A number below 16 is one of 16 numbers. *)
Lemma below_16 (P : Z → Prop) :
  Forall P (map Z.of_nat (seq 0 16)) → ∀ r, 0 ≤ r < 16 → P r.
Proof.
  intros HP r Hr. rewrite Forall_forall in HP. apply HP, list_elem_of_fmap.
  exists (Z.to_nat r). rewrite elem_of_seq. split; lia.
Qed.

Ltac all_below_16 :=
  match goal with |- ∀ r, 0 ≤ r < 16 → @?P r => apply (below_16 P) end;
  cbn [map seq]; repeat (apply Forall_cons; split); [..|apply Forall_nil; exact I].

(** The remainders are at most 3, sum up to the remainder of the fees, and those of the
    third and the fourth forger are not both odd. *)
Lemma calculate_remainders_sum : ∀ r, 0 ≤ r < 16 → ∃ q, calculate_remainders r = Val q ∧
  rem_1_before q + rem_1_after q + rem_2 q + rem_3 q + rem_4 q + rem_5 q + rem_6 q + rem_7 q = r ∧
  (rem_3 q mod 2 = 0 ∨ rem_4 q mod 2 = 0).
Proof. all_below_16; (eexists; split; [reflexivity|]; split; [reflexivity|]; cbn; auto). Qed.

(** C33: for every remainder of a division by 16, [calculate_remainders] gives each forger
    one unit for each of its blocks among that many first blocks of the epoch; for any
    larger number it returns nothing, and unpacking that raises. *)
Theorem calculate_remainders_spec (r : Z) : 0 ≤ r →
  calculate_remainders r =
    if r <? 16 then
      Val (mkRemainders (blocks_among r 0) (blocks_among r 1) (blocks_among r 2) (blocks_among r 3)
             (blocks_among r 4) (blocks_among r 5) (blocks_among r 6) (blocks_among r 7))
    else Exc TypeError.
Proof.
  intros Hr. destruct (Z.ltb_spec r 16) as [Hlt|Hge].
  - revert r Hr Hlt.
    enough (∀ r, 0 ≤ r < 16 → calculate_remainders r = Val (mkRemainders (blocks_among r 0) (blocks_among r 1)
      (blocks_among r 2) (blocks_among r 3) (blocks_among r 4) (blocks_among r 5) (blocks_among r 6)
      (blocks_among r 7))) by auto.
    all_below_16; reflexivity.
  - unfold calculate_remainders.
    repeat match goal with |- context [?a <=? ?b] => destruct (Z.leb_spec a b); [lia|] end.
    by repeat match goal with |- context [?a =? ?b] => destruct (Z.eqb_spec a b); [lia|] end.
Qed.

Lemma calculate_remainders_spec_witness :
  0 ≤ 15 ∧ calculate_remainders 15 = Val (mkRemainders 2 3 2 2 2 2 1 1) ∧
  0 ≤ 16 ∧ calculate_remainders 16 = Exc TypeError.
Proof.
  split; [lia|]. split; [rewrite (calculate_remainders_spec 15) by lia; reflexivity|].
  split; [lia|]. rewrite (calculate_remainders_spec 16) by lia; reflexivity.
Defined.

(** ** Nothing is lost *)

(** The halves of a sum, when its first part is even. *)
Lemma halves_even (a b : Z) : a mod 2 = 0 →
  smaller_half (a + b) = smaller_half a + smaller_half b ∧ (a + b) mod 2 = b mod 2.
Proof. unfold smaller_half. intros Ha. Z.div_mod_to_equations. lia. Qed.

Lemma halves_sum (x : Z) : larger_half x + smaller_half x = x.
Proof. unfold larger_half, smaller_half. Z.div_mod_to_equations. lia. Qed.

(** A payment is right when its value is the sum of its parts. *)
Definition payment_right (p : Payment) : Prop := pay_value p = pay_mc p + pay_fees p.

(** The payments of any rewards add up to the rewards. *)
Lemma expected_payments_paid (f : Rewards) :
  paid (expected_payments f) = foldr (λ r s, reward_total r + s) 0 (rewards_list f).
Proof.
  unfold paid, expected_payments, rewards_list. cbn [foldr payment_by reward_1 delegator_3 pay_value].
  unfold larger_half, smaller_half. Z.div_mod_to_equations. lia.
Qed.

Lemma payment_by_right (address : string) (g : Z → Z) (r : Reward) : from_mc r mod 2 = 0 →
  g = larger_half ∨ g = smaller_half ∨ g = (λ x, x) → payment_right (payment_by address g r).
Proof.
  unfold payment_right, payment_by, reward_total. cbn [pay_value pay_mc pay_fees].
  intros Hm [-> | [-> | ->]]; [unfold larger_half| unfold smaller_half |]; Z.div_mod_to_equations; lia.
Qed.

Lemma reward_1_right (f : Rewards) : from_mc (forger_1_after f) mod 2 = 0 → from_mc (forger_2 f) mod 2 = 0 →
  payment_right (reward_1 f).
Proof.
  unfold payment_right, reward_1, reward_total. cbn [pay_value pay_mc pay_fees]. intros H1 H2.
  destruct (halves_even _ (from_fees (forger_1_after f)) H1) as [-> ->].
  destruct (halves_even _ (from_fees (forger_2 f)) H2) as [-> ->]. lia.
Qed.

Lemma delegator_3_right (f : Rewards) : from_mc (forger_3 f) mod 2 = 0 → from_mc (forger_4 f) mod 2 = 0 →
  from_fees (forger_3 f) mod 2 = 0 ∨ from_fees (forger_4 f) mod 2 = 0 → payment_right (delegator_3 f).
Proof.
  unfold payment_right, delegator_3, reward_total, smaller_half. cbn [pay_value pay_mc pay_fees].
  intros H3 H4 H. Z.div_mod_to_equations. lia.
Qed.

Lemma blocks_reward_even (mc fee n extra : Z) : mc mod 2 = 0 → from_mc (blocks_reward mc fee n extra) mod 2 = 0.
Proof. cbn [blocks_reward from_mc]. intros H. rewrite Z.mul_mod, H by lia. reflexivity. Qed.

Lemma two_blocks_fees_even (mc fee extra : Z) : extra mod 2 = 0 → from_fees (blocks_reward mc fee 2 extra) mod 2 = 0.
Proof. cbn [blocks_reward from_fees]. intros H. Z.div_mod_to_equations. lia. Qed.

(** C32: when the mainchain's part of a block's reward is even, the script always has its
    expected payments; they sum up to the 16 parts of the reward, the fees and the tips, so
    that halving and the division by 16 lose nothing, and the value of each is its part of
    the reward plus its part of the fees, also for the delegator of two forgers, whose
    value is a sum of halves and whose parts are halves of sums. *)
Theorem rewards_conserved (per_block_mc total_block_fee tips1 tips2 : Z) : per_block_mc mod 2 = 0 →
  ∃ f, forger_rewards per_block_mc total_block_fee tips1 tips2 = Val f ∧
    paid (expected_payments f) = 16 * per_block_mc + total_block_fee + tips1 + tips2 ∧
    Forall payment_right (expected_payments f).
Proof.
  intros Hmc. pose proof (Z.mod_pos_bound total_block_fee 16 eq_refl) as Hb.
  destruct (calculate_remainders_sum _ Hb) as (q & Hq & Hsum & Hodd).
  eexists. unfold forger_rewards. rewrite Hq. split; [reflexivity|]. split.
  - rewrite expected_payments_paid. cbn [rewards_list foldr forger_1_before forger_1_after forger_2 forger_3
      forger_4 forger_5 forger_6 forger_7].
    unfold reward_total, blocks_reward. cbn [from_mc from_fees]. pose proof (Z.div_mod total_block_fee 16). lia.
  - repeat (apply Forall_cons; split); try (apply payment_by_right; [by apply blocks_reward_even|tauto]).
    + by apply reward_1_right; apply blocks_reward_even.
    + apply delegator_3_right; [by apply blocks_reward_even..|].
      destruct Hodd; [left|right]; by apply two_blocks_fees_even.
    + by apply Forall_nil.
Qed.

(** The reward of the script: 25 coins in 16 parts. *)
Lemma rewards_conserved_witness :
  (2500000000 * 10 ^ 10 / 16) mod 2 = 0 ∧
  ∃ f, forger_rewards (2500000000 * 10 ^ 10 / 16) 1000001 7 9 = Val f ∧
    paid (expected_payments f) = 16 * (2500000000 * 10 ^ 10 / 16) + 1000001 + 7 + 9 ∧
    Forall payment_right (expected_payments f).
Proof. split; [reflexivity|]. apply rewards_conserved. reflexivity. Defined.

(** ** Fees as numbers of the machine *)

(** The sum of the fees of forgers. *)
Definition shared_fees (l : list (Z * Z)) : Z := foldr (λ p s, p.2 + s) 0 l.

(** The pool of fees of sc_evm_forging_fee_payments.py starts as 0.0 and is a number of
    the machine from then on: one block with a base fee of [2^53 + 1] leaves its forger one
    unit less than the fee that was paid. *)
Lemma float_pool_loses :
  ∃ total fees, evm_forger_fees [mkEvmBlockFeeInfo 1 (2 ^ 53 + 1) 0] = Val (total, fees) ∧
    total = 2 ^ 53 + 1 ∧ shared_fees fees = 2 ^ 53.
Proof. eexists _, _. split; [vm_compute; reflexivity|]. split; reflexivity. Qed.

(** * Properties of the ownership of mainchain addresses

    The bytes a contract returns for the links of accounts are decoded to the links of
    each account: accounts in the order of their first link, and the links of each in
    order.  The text of an address survives the trip through its bytes. *)

(** ** Texts in bytes *)

(** The two bytes of a character that is not ASCII. *)
Lemma two_bytes (n : N) : (128 ≤ n)%N → (n < 256)%N →
  (194 ≤ 192 + n / 64)%N ∧ (192 + n / 64 < 196)%N ∧ (128 ≤ 128 + n mod 64)%N ∧ (128 + n mod 64 < 192)%N
  ∧ ((192 + n / 64 - 192) * 64 + (128 + n mod 64 - 128) = n)%N.
Proof.
  intros Hl Hu. pose proof (N.div_mod' n 64) as E. pose proof (N.mod_lt n 64 ltac:(done)) as B.
  revert E B. generalize (n / 64)%N (n mod 64)%N. intros q r E B. subst n. lia.
Qed.

(** One character more. *)
Lemma utf8_decode_char c s b : utf8_decode b = Val s → utf8_decode (utf8 (String c "") +:+ b) = Val (String c s).
Proof.
  intros Hb. pose proof (N_ascii_bounded c) as Hc. cbn [utf8].
  destruct (N.ltb_spec (N_of_ascii c) 128) as [Hlt|Hge].
  - change (String c "" +:+ b) with (String c b). cbn [utf8_decode]. rewrite (proj2 (N.ltb_lt _ _) Hlt). by rewrite Hb.
  - destruct (two_bytes _ Hge Hc) as (H1 & H2 & H3 & H4 & H5).
    change (String ?x (String ?y "") +:+ b) with (String x (String y b)). cbn [utf8_decode].
    rewrite !N_ascii_embedding by lia. rewrite (proj2 (N.ltb_ge (192 + _) 128)) by lia.
    rewrite (proj2 (N.leb_le 194 _) H1), (proj2 (N.ltb_lt _ 196) H2). cbn [andb].
    rewrite (proj2 (N.leb_le 128 _) H3), (proj2 (N.ltb_lt _ 192) H4). cbn [andb].
    by rewrite Hb, H5, ascii_N_embedding.
Qed.

Lemma utf8_cons c s : utf8 (String c s) = utf8 (String c "") +:+ utf8 s.
Proof. simpl. by destruct (N_of_ascii c <? 128)%N. Qed.

Lemma utf8_decode_utf8 s : utf8_decode (utf8 s) = Val s.
Proof.
  induction s as [|c s IH]; [done|]. rewrite utf8_cons. by apply utf8_decode_char.
Qed.

(** ** Links by account *)

(** The accounts of the links in the order in which they first appear, each with the
    addresses linked to it. *)
Definition accounts_of (links : list (string * string)) : list string :=
  reverse (remove_dups (reverse (map fst links))).

Definition addresses_of (links : list (string * string)) (a : string) : list string :=
  map snd (filter (λ l : string * string, l.1 = a) links).

Definition by_account (links : list (string * string)) : list (string * list string) :=
  map (λ a, (a, addresses_of links a)) (accounts_of links).

Lemma elem_of_accounts a links : a ∈ accounts_of links ↔ a ∈ map fst links.
Proof. unfold accounts_of. by rewrite elem_of_reverse, elem_of_remove_dups, elem_of_reverse. Qed.

Lemma accounts_of_NoDup links : NoDup (accounts_of links).
Proof. unfold accounts_of. rewrite (reverse_Permutation (remove_dups _)); apply NoDup_remove_dups. Qed.

Lemma accounts_of_snoc links a m :
  accounts_of (links ++ [(a, m)]) =
    if decide (a ∈ accounts_of links) then accounts_of links else accounts_of links ++ [a].
Proof.
  rewrite (decide_ext _ _ _ _ (elem_of_accounts a links)). unfold accounts_of. rewrite map_app, reverse_app.
  change (remove_dups (reverse (map fst [(a, m)]) ++ reverse (map fst links))) with
    (if decide (a ∈ reverse (map fst links)) then remove_dups (reverse (map fst links))
     else a :: remove_dups (reverse (map fst links))).
  destruct (decide (a ∈ reverse (map fst links))) as [Hin|Hni]; rewrite elem_of_reverse in *.
  - by rewrite decide_True.
  - by rewrite decide_False, reverse_cons.
Qed.

Lemma addresses_of_snoc links a m b :
  addresses_of (links ++ [(a, m)]) b = if decide (a = b) then addresses_of links b ++ [m] else addresses_of links b.
Proof.
  unfold addresses_of. rewrite filter_app, map_app. cbn. by case_decide; [|rewrite app_nil_r].
Qed.

Lemma addresses_of_absent links a : a ∉ accounts_of links → addresses_of links a = [].
Proof.
  rewrite elem_of_accounts. induction links as [|[b m] links IH]; [done|]. cbn [map fst].
  rewrite not_elem_of_cons. intros [Hne Hni]. unfold addresses_of. rewrite filter_cons_False by (simpl; congruence).
  by apply IH.
Qed.

(** Dictionaries that hold a function of their keys. *)
Section Tabulated.
Context {V : Type}.
Implicit Types (g : string → V) (keys : list string).

Definition tabulated g keys : list (string * V) := map (λ k, (k, g k)) keys.

Lemma dict_get_tabulated g keys k : dict_get k (tabulated g keys) = if decide (k ∈ keys) then Some (g k) else None.
Proof.
  induction keys as [|k' keys IH]; cbn [dict_get tabulated map]; [by rewrite decide_False by apply not_elem_of_nil|].
  destruct (decide (k = k')) as [<-|Hk]; [by rewrite decide_True by apply list_elem_of_here|].
  etrans; [exact IH|]. apply decide_ext. rewrite elem_of_cons. naive_solver.
Qed.

Lemma dict_set_tabulated g g' keys k :
  NoDup keys → (∀ k', k' ∈ keys → k' ≠ k → g' k' = g k') →
  dict_set k (g' k) (tabulated g keys) = tabulated g' (if decide (k ∈ keys) then keys else keys ++ [k]).
Proof.
  intros Hnd Hg. induction Hnd as [|k' keys Hni Hnd IH]; cbn [dict_set tabulated map].
  { by rewrite decide_False by apply not_elem_of_nil. }
  destruct (decide (k = k')) as [<-|Hk].
  - rewrite decide_True by apply list_elem_of_here. cbn. f_equal.
    apply map_ext_in. intros k' Hin%list_elem_of_In. rewrite Hg; [done|by right|by intros ->].
  - fold (tabulated g keys). rewrite IH by (intros; apply Hg; [by right|done]).
    rewrite (decide_ext (k ∈ k' :: keys) (k ∈ keys)) by (rewrite elem_of_cons; naive_solver).
    case_decide; cbn; (rewrite Hg; [done|apply list_elem_of_here|done]).
Qed.
End Tabulated.

(** One link more. *)
Lemma by_account_snoc links a m :
  by_account (links ++ [(a, m)]) = add_association (by_account links) a m.
Proof.
  unfold add_association. change (by_account links) with (tabulated (addresses_of links) (accounts_of links)).
  rewrite dict_get_tabulated.
  assert (Hv : default [] (if decide (a ∈ accounts_of links) then Some (addresses_of links a) else None) ++ [m]
    = addresses_of (links ++ [(a, m)]) a).
  { rewrite addresses_of_snoc. destruct (decide (a = a)) as [_|[]]; [|done].
    case_decide; [done|]. cbn. by rewrite addresses_of_absent. }
  rewrite Hv, dict_set_tabulated.
  - by rewrite <- accounts_of_snoc with (m := m).
  - apply accounts_of_NoDup.
  - intros k' _ Hne. rewrite addresses_of_snoc. by rewrite decide_False by congruence.
Qed.

Section Decode.
Context `{EthAbi, EthUtils}.

(** The bytes of a link: the decoder finds the account, which has its checksum added, and
    the two parts of the text of the address. *)
Definition link_bytes (e : string) (link : string * string) : Prop :=
  ∃ account mca3 mca32,
    abi_decode [PStr "address"; PStr "bytes3"; PStr "bytes32"] e = Val [account; PBytes mca3; PBytes mca32] ∧
    to_checksum_address account = Val (PStr link.1) ∧ mca3 +:+ mca32 = utf8 link.2.

Lemma decode_association_bytes e link : link_bytes e link → decode_association e = Val link.
Proof.
  intros (account & mca3 & mca32 & Hd & Hc & Hm). unfold decode_association. rewrite Hd. cbn [obind]. rewrite Hc.
  cbn [obind mc_address_of]. rewrite Hm, utf8_decode_utf8. by destruct link.
Qed.

Lemma associations_bytes elems links done' :
  Forall2 link_bytes elems links → associations (by_account done') elems = Val (by_account (done' ++ links)).
Proof.
  intros Hl. revert done'. induction Hl as [|e [a m] elems links He _ IH]; intros done'; [by rewrite app_nil_r|].
  cbn [associations]. rewrite (decode_association_bytes _ _ He). cbn [obind fst snd].
  by rewrite <- by_account_snoc, IH, <- app_assoc.
Qed.

(** C35: the bytes a contract returns for the links of accounts (the offset 32, the number
    of links and 96 bytes for every link, whatever follows) are decoded to a dictionary
    with each account once, in the order of the first links, and with the texts of the
    addresses linked to it, all of them and in order. *)
Theorem extract_sc_associations_list_encoded (offset count rest : string) (elems : list string)
    (links : list (string * string)) :
  String.length offset = 32%nat → String.length count = 32%nat →
  abi_decode [PStr "uint32"] offset = Val [PInt 32] →
  abi_decode [PStr "uint32"] count = Val [PInt (Z.of_nat (length elems))] →
  Forall (λ e, String.length e = 96%nat) elems → Forall2 link_bytes elems links →
  extract_sc_associations_list (offset +:+ count +:+ joined elems +:+ rest) = Val (by_account links).
Proof.
  intros Ho Hc Hd Hn Hs Hl. unfold extract_sc_associations_list, decode_one.
  rewrite (str_take_app_n 32), (str_drop_app_n 32), (str_take_app_n 32) by done. rewrite Hd, Hn.
  cbn [obind list_index range_stop]. rewrite <- str_app_assoc, (str_drop_app_n 64).
  - change (list_index [PInt ?x] 0) with (Val (PInt x)). cbn [obind range_stop].
    change (assert_equal (PInt 32) (PInt 32) "") with (Val tt). cbn [obind].
    rewrite Nat2Z.id, chunks_joined by done. apply (associations_bytes elems links []), Hl.
  - by rewrite str_length_app, Ho, Hc.
Qed.
End Decode.

(** A decoder: a number is the last byte, the three parts of a link are the first bytes of
    its three words; the checksum of an account changes nothing. *)
Definition toy_links : EthAbi := {|
  abi_encode _ _ := Val "";
  abi_decode types b :=
    match types with
    | [_] => Val [PInt (Z.of_N (be_value 0 (str_drop 31 b)))]
    | _ => Val [PStr (str_take 1 b); PBytes (str_take 3 (str_drop 32 b)); PBytes (str_take 32 (str_drop 64 b))]
    end |}.

Definition toy_checksum : EthUtils := {| to_checksum_address := Val; add_0x_prefix := Val |}.

Definition toy_link (account : string) (mca32 : ascii) : string :=
  account +:+ str_repeat "0" 31 +:+ "zta" +:+ str_repeat "0" 29 +:+ str_repeat mca32 32.

Definition toy_address (mca32 : ascii) : string := "zta" +:+ str_repeat mca32 32.

Definition toy_word (n : ascii) : string := str_repeat "000" 31 +:+ String n "".

(** Three links of two accounts. *)
Lemma extract_sc_associations_list_encoded_witness :
  @extract_sc_associations_list toy_links toy_checksum
    (toy_word "032" +:+ toy_word "003" +:+ joined [toy_link "B" "1"; toy_link "A" "2"; toy_link "B" "3"] +:+ "") =
  Val [("B", [toy_address "1"; toy_address "3"]); ("A", [toy_address "2"])].
Proof.
  apply (@extract_sc_associations_list_encoded toy_links toy_checksum (toy_word "032") (toy_word "003") ""
    [toy_link "B" "1"; toy_link "A" "2"; toy_link "B" "3"]
    [("B", toy_address "1"); ("A", toy_address "2"); ("B", toy_address "3")]);
    [reflexivity|reflexivity|vm_compute; reflexivity|vm_compute; reflexivity| |].
  - repeat (apply Forall_cons; split; [vm_compute; reflexivity|]). apply Forall_nil. exact I.
  - repeat (apply Forall2_cons; split;
      [eexists _, _, _; split; [reflexivity|]; split; [reflexivity|vm_compute; reflexivity]|]).
    apply Forall2_nil. exact I.
Defined.

(** ** Receipts *)

(** For a transaction that fails, the addresses given to the check of the receipt and the
    operation are not compared with anything. *)
Lemma failed_receipt_addresses {W} `{Nodes W} `{EthUtils, EthAbi, EthEvents, EthHex}
    sc_node tx_hash status sc_addr mc_addr op sc_addr' mc_addr' op' :
  status ≠ 1 →
  check_receipt sc_node tx_hash status sc_addr mc_addr op = check_receipt sc_node tx_hash status sc_addr' mc_addr' op'.
Proof. intros Hs%Z.eqb_neq. unfold check_receipt. by rewrite Hs. Qed.
