(* ===== verification/RecoveryProps.v ===== *)
(** * What a passing test of recovery says

    The storages that a test rolls back are the last ones in the order of their update,
    as a crash leaves them; after each test the node has the tip of the other one, and
    every storage is at the block that was forged for the test.  The blocks up to the end
    of a consensus epoch are forged in chunks that stay below the limit of blocks without
    a reference to the mainchain.  A second part is about the status of a synchronisation. *)

From S2P Require Import Prelude PyStr Numbers PyVal Host Sim Json Encoding HttpProxy BootInfo McUtil ScUtil.
From S2P Require Import Forging Bootstrap Framework FrameworkProps McFramework HttpCalls Checks BootstrapProps.
From Stdlib Require Import Ascii String.
From stdpp Require Import base list relations.
From S2P Require Import Scenarios StakeScenarios ChainScenarios CertScenarios CswScenarios RecoveryScenarios.
From S2P Require Import ScenarioProps WithdrawalProps RotationProps.
From S2P Require Import ScLoops.
From S2P Require Import ConsensusScenarios SyncScenarios.
Local Open Scope Z_scope.

(** ** Chunks of blocks *)

Definition sum_of (l : list Z) : Z := foldr Z.add 0 l.

Lemma sum_of_app l1 l2 : sum_of (l1 ++ l2) = sum_of l1 + sum_of l2.
Proof. induction l1 as [|x l1 IH]; simpl; [done|]. unfold sum_of in *. simpl. lia. Qed.

Lemma sum_of_const {A} (c : Z) (l : list A) : sum_of (map (λ _, c) l) = c * Z.of_nat (length l).
Proof. induction l as [|x l IH]; [simpl; lia|]. cbn [map sum_of foldr length]. unfold sum_of in IH. rewrite IH. lia. Qed.

Lemma chunk_sizes_sum n : 0 ≤ n → sum_of (chunk_sizes n) = n.
Proof.
  intros Hn. unfold chunk_sizes. rewrite sum_of_app, sum_of_const. unfold zrange. rewrite length_seqZ.
  pose proof (Z.div_mod n CHUNK_SIZE ltac:(done)). pose proof (Z.mod_pos_bound n CHUNK_SIZE eq_refl).
  pose proof (Z.div_pos n CHUNK_SIZE Hn eq_refl). rewrite Z2Nat.id by lia.
  case_match eqn:E; b2p; cbn [sum_of foldr]; lia.
Qed.

(** At most 90 blocks in a row. *)
Lemma chunk_sizes_bound n : Forall (λ c, 0 < c ≤ 90) (chunk_sizes n).
Proof.
  unfold chunk_sizes. apply Forall_app. split.
  - apply Forall_forall. intros x (_ & -> & _)%list_elem_of_fmap. unfold CHUNK_SIZE. lia.
  - pose proof (Z.mod_pos_bound n CHUNK_SIZE eq_refl). pose proof (Z.div_mod n CHUNK_SIZE ltac:(done)).
    case_match eqn:E; b2p; [|by apply Forall_nil]. apply Forall_singleton. unfold CHUNK_SIZE in *. lia.
Qed.

Section Recovered.
Context {W : Type} `{Nodes W, Clock W, Os W, Rng W}.
Implicit Types st s : St (FW W).

Lemma mmap_length {A B} (f : A → M (FW W) B) l st ys st' : mmap f l st = (Val ys, st') → length ys = length l.
Proof.
  revert st ys st'. induction l as [|x l IH]; intros st ys st'; cbn [mmap].
  - by intros [<- _]%ret_Val_inv.
  - intros (y & s & _ & Hr)%bind_Val_inv. apply bind_Val_inv in Hr as (ys' & s2 & Hys & [<- _]%ret_Val_inv).
    cbn [length]. f_equal. by eapply IH.
Qed.

Lemma generate_next_blocks_length node name n st l st' :
  0 ≤ n → generate_next_blocks node name n st = (Val l, st') → Z.of_nat (length l) = n.
Proof. intros Hn Hl%mmap_length. rewrite Hl. unfold zrange. rewrite length_seqZ. lia. Qed.

Lemma forge_chunks_length fuel sc1 sizes blocks st l st' :
  Forall (λ c, 0 < c ≤ 90) sizes → forge_chunks fuel sc1 sizes blocks st = (Val l, st') →
  Z.of_nat (length l) = Z.of_nat (length blocks) + sum_of sizes.
Proof.
  intros Hs. revert blocks st. induction Hs as [|n sizes Hn _ IH]; intros blocks st; cbn [forge_chunks].
  - intros [<- _]%ret_Val_inv. cbn. lia.
  - intros (m & s1 & _ & Hr)%bind_Val_inv. skip_step Hr. apply bind_Val_inv in Hr as (new & s2 & Hnew & Hr).
    skip_step Hr. apply generate_next_blocks_length in Hnew; [|lia]. apply IH in Hr.
    rewrite length_app in Hr. unfold sum_of in *. cbn [foldr]. lia.
Qed.


(** ** One test *)

(** A storage reports a version. *)
Definition version_is (k : RecoveryKind) (node : proxy) (v : pyval) (name : string) : Prop :=
  ∃ s s' r x, db_tool k node "lastVersionID" [("storage", PStr name)] s = (Val r, s')
    ∧ getitem r "version" = Val x ∧ py_eqb x v = true.

(** A storage was rolled back to the last of its [n] versions. *)
Definition rolled_back (k : RecoveryKind) (node : proxy) (n : Z) (name : string) : Prop :=
  ∃ s1 s2 s3 l v r c, versions_of k node name n s1 = (Val l, s2) ∧ getindex l (-1) = Val v
    ∧ db_tool k node "rollback" [("storage", PStr name); ("versionToRollback", v)] s2 = (Val r, s3)
    ∧ getitem r "versionCurrent" = Val c ∧ py_eqb c v = true.

(** Two nodes report the same best block, one after the other. *)
Definition agree (sc1 sc2 : proxy) : Prop :=
  ∃ s1 s2 s3 b1 b2, best sc1 s1 = (Val b1, s2) ∧ best sc2 s2 = (Val b2, s3) ∧ py_eqb b1 b2 = true.

Lemma checkStoragesVersion_inv k node names v st st' :
  checkStoragesVersion k node names v st = (Val tt, st') → ∀ name, name ∈ names → version_is k node v name.
Proof.
  intros Hr name Hn. destruct (forM_Val_inv _ _ _ _ Hr name Hn) as (s & s' & Hb). cbv beta in Hb.
  apply bind_Val_inv in Hb as (r & s1 & Hd & Hb). apply bind_Val_inv in Hb as (x & ? & [Hx ->]%lift_Val_inv & Hb).
  apply lift_Val_inv in Hb as [E%assert_equal_inv _]. by exists s, s1, r, x.
Qed.

Lemma rollbackStorages_inv k node names n st st' :
  rollbackStorages k node names n st = (Val tt, st') → ∀ name, name ∈ names → rolled_back k node n name.
Proof.
  intros Hr name Hn. destruct (forM_Val_inv _ _ _ _ Hr name Hn) as (s & s' & Hb). cbv beta in Hb.
  apply bind_Val_inv in Hb as (l & s1 & Hl & Hb). apply bind_Val_inv in Hb as (v & ? & [Hv ->]%lift_Val_inv & Hb).
  apply bind_Val_inv in Hb as (r & s2 & Hr' & Hb). apply bind_Val_inv in Hb as (c & ? & [Hc ->]%lift_Val_inv & Hb).
  apply lift_Val_inv in Hb as [E%assert_equal_inv _]. by exists s, s1, s2, l, v, r, c.
Qed.

Lemma same_best_inv sc1 sc2 st st' : same_best sc1 sc2 st = (Val tt, st') → agree sc1 sc2.
Proof.
  intros (b1 & s1 & Hb1 & Hr)%bind_Val_inv. apply bind_Val_inv in Hr as (b2 & s2 & Hb2 & Hr).
  apply lift_Val_inv in Hr as [E%assert_equal_inv _]. by exists st, s1, s2, b1, b2.
Qed.

(** The node recovered: the first node forged a block, the two nodes agree, and the
    versioned storages are at that block. *)
Definition at_new_tip (k : RecoveryKind) : Prop :=
  ∃ sc1 sc2 tip s s', generate_next_blocks sc1 "first node" 1 s = (Val [tip], s')
    ∧ (∃ sc1', agree sc1' sc2) ∧ ∀ name, name ∈ rk_versioned k → version_is k sc2 tip name.

Lemma list_index_last {A} (l : list A) (x : A) : list_index (l ++ [x]) (-1) = Val x.
Proof.
  unfold list_index. rewrite length_app. cbn [length]. change (-1 <? 0) with true. cbn iota.
  rewrite (proj2 (andb_true_iff _ _)) by (rewrite Z.leb_le, Z.ltb_lt; lia).
  replace (Z.to_nat (-1 + Z.of_nat (length l + 1))) with (length l) by lia.
  by rewrite list_lookup_middle.
Qed.

Lemma forgeBlockAndCheckSync_inv k fuel o blocks st l st' :
  forgeBlockAndCheckSync k fuel o blocks st = (Val l, st') → at_new_tip k.
Proof.
  intros (sc1 & s1 & _ & Hr)%bind_Val_inv. apply bind_Val_inv in Hr as (new & s2 & Hnew & Hr).
  assert (Hlen := generate_next_blocks_length _ _ 1 _ _ _ ltac:(lia) Hnew).
  destruct new as [|tip [|? ?]]; cbn [length] in Hlen; [lia| |lia]. do 2 skip_step Hr.
  apply bind_Val_inv in Hr as (sc1' & s3 & _ & Hr). apply bind_Val_inv in Hr as (sc2 & s4 & _ & Hr).
  apply bind_Val_inv in Hr as ([] & s5 & Hag%same_best_inv & Hr). do 2 skip_step Hr.
  rewrite list_index_last in Hr. apply bind_Val_inv in Hr as (t & ? & [[= <-] ->]%lift_Val_inv & Hr).
  apply bind_Val_inv in Hr as ([] & s6 & Hv & _).
  exists sc1, sc2, tip, s1, s2. split; [done|]. split; [by exists sc1'|]. by eapply checkStoragesVersion_inv.
Qed.

(** A test: the storages of the crash were rolled back, and the node recovered. *)
Definition recovered (k : RecoveryKind) (sc2 : proxy) (p : CrashPoint) : Prop :=
  (∀ l n name, (l, n) ∈ p → name ∈ l → rolled_back k sc2 n name) ∧ at_new_tip k.

Lemma crash_tests_inv k fuel o sc2 points blocks st l st' :
  crash_tests k fuel o sc2 points blocks st = (Val l, st') → ∀ p, p ∈ points → recovered k sc2 p.
Proof.
  revert blocks st. induction points as [|q points IH]; intros blocks st Hr p Hp; [by apply elem_of_nil in Hp|].
  apply bind_Val_inv in Hr as (blocks' & s1 & Hq & Hr).
  apply elem_of_cons in Hp as [->|Hp]; [|by eapply IH].
  apply bind_Val_inv in Hq as ([] & s2 & Hroll & Hf%forgeBlockAndCheckSync_inv). split; [|done].
  intros names n name Hin Hn. destruct (forM_Val_inv _ _ _ _ Hroll _ Hin) as (s & s' & Hb). by eapply rollbackStorages_inv.
Qed.

(** ** The order of updates *)

(** A crash leaves the history behind, or the history and the storages that come last in
    the order of their update. *)
Definition crash_leaves (csw : bool) (p : CrashPoint) : Prop :=
  ∃ n, p = [(["history"], n)] ∨ ∃ i, (i < length (app_storages csw))%nat ∧ p = crash_at n (drop i (app_storages csw)).

(** Where the storages of the tests start in that order. *)
Definition crash_starts (csw : bool) : list (Z * nat) :=
  if csw then [(3, 10%nat); (3, 9%nat); (3, 8%nat); (3, 7%nat); (3, 6%nat); (3, 4%nat); (3, 3%nat); (3, 2%nat); (3, 1%nat); (4, 0%nat)]
  else [(3, 8%nat); (3, 7%nat); (3, 6%nat); (3, 5%nat); (3, 3%nat); (3, 2%nat); (3, 1%nat); (4, 0%nat)].

Definition crash_points (csw : bool) : list CrashPoint := if csw then crash_points_csw else crash_points_no_csw.

Lemma crash_points_starts csw :
  crash_points csw = [[(["history"], 2)]; [(["history"], 3)]]
    ++ map (λ c, crash_at c.1 (drop c.2 (app_storages csw))) (crash_starts csw).
Proof. by destruct csw. Qed.

Lemma crash_starts_bound csw : Forall (λ c, (c.2 < length (app_storages csw))%nat) (crash_starts csw).
Proof. destruct csw; repeat (apply Forall_cons; split; [cbn; lia|]); by apply Forall_nil. Qed.

Lemma crash_points_left csw p : p ∈ crash_points csw → crash_leaves csw p.
Proof.
  rewrite crash_points_starts, elem_of_app. intros [Hp|Hp].
  - repeat (apply elem_of_cons in Hp as [->|Hp]; [eexists; by left|]). by apply elem_of_nil in Hp.
  - apply list_elem_of_fmap in Hp as ([n i] & -> & Hi). exists n. right. exists i. split; [|done].
    pose proof (crash_starts_bound csw) as HF. rewrite Forall_forall in HF. by apply (HF _ Hi).
Qed.


(** ** The last test *)

(** Any exception counts as the expected one: when the first node cannot forge, the test
    of the unexpected inconsistency passes without having started the second node. *)
Lemma recovery_negative_any_failure k fuel o sc2 p blocks e st s1 s2 s3 :
  roll_back k sc2 p st = (Val tt, s1) → is_Exception e = true →
  forgeBlockAndCheckSync k fuel o blocks s1 = (Exc e, s2) → stop_sc_node sc2 1 s2 = (Val tt, s3) →
  recovery_negative k fuel o sc2 p blocks st = (Val tt, s3).
Proof.
  intros Hr He Hf Hs. unfold recovery_negative, bind at 1. rewrite Hr. unfold bind at 1, catch, bind at 1. rewrite Hf, He.
  unfold bind. by rewrite Hs.
Qed.
End Recovered.

(** ** A run against simulated nodes *)

Definition quoted (s : string) : string := qt +:+ s +:+ qt.

(** Every storage is at the only block there is. *)
Definition recovery_tool (_ : list string) : exn + string :=
  inr ("{" +:+ quoted "version" +:+ ": " +:+ quoted "b" +:+ ", " +:+ quoted "versionsList" +:+ ": [" +:+ quoted "b" +:+ "], "
       +:+ quoted "versionCurrent" +:+ ": " +:+ quoted "b" +:+ "}").

(** Nodes that agree; the first one stops forging at call [limit]. *)
Definition recovery_nodes (limit n : nat) (p : proxy) (m : string) (args : list pyval) : exn + pyval :=
  match m with
  | "block_forgingInfo" => if (n <? limit)%nat then inr (default PNone (forging_replies m)) else inl (SCAPIException "stopped")
  | "block_best" => inr (result [("block", PDict [("id", PStr "b")])])
  | "block_currentHeight" => inr (result [("height", PInt 1)])
  | "node_connectedPeers" => inr (result [("peers", PList [PDict [("remoteAddress", PStr "/127.0.0.1:8547")]])])
  | "transaction_allTransactions" => inr (result [("transactions", PList [])])
  | _ => inr (match forging_replies m with Some r => r | None => result [] end)
  end.

Definition recovery_st (limit : nat) : St (FW sim) :=
  init_st (mkFW (mkSelf (Some [mc0]) (Is [sc0; sc1]) None None None None)
    (Sim 0 0 (recovery_nodes limit) [] [] recovery_tool 4242 0)).



(** * What the checks of the synchronisation status say

    The loop that watches a synchronisation ends within its limit; when it passes, the
    node reported the synchronisation with the right numbers in the last turn and the
    heights were equal after it.  Two of its checks do not do what their messages say. *)

(** ** The clock of the driver *)

#[export] Instance fw_clock_laws {W} `{Nodes W, Clock W} `{!ClockLaws W} : ClockLaws (FW W).
Proof.
  refine {| clk := λ w, clk (fw_world w) |}.
  - intros w. pose proof (clk_now_val (fw_world w)) as Hv. cbn. unfold through.
    by destruct (clk_now (fw_world w)).
  - intros w. pose proof (clk_now_mono (fw_world w)) as Hv. cbn. unfold through.
    by destruct (clk_now (fw_world w)).
  - intros w d Hd. apply (clk_sleep_mono (fw_world w) d Hd).
  - intros p m a k w. pose proof (clk_call_mono p m a k (fw_world w)) as Hv. unfold node_call, fw_nodes, through.
    by destruct (node_call p m a k (fw_world w)).
Defined.

(** ** Numbers of a reply *)

Lemma ends_py_int_base v b : ends (py_int_base v b).
Proof. destruct v; try done; apply ends_of_opt. Qed.
Lemma ends_assert_true b m : ends (assert_true b m).
Proof. by destruct b. Qed.
Lemma ends_assert_equal a b m : ends (assert_equal a b m).
Proof. unfold assert_equal. by case_match. Qed.

Lemma ends_check_sync_numbers e res : ends (check_sync_numbers e res).
Proof.
  unfold check_sync_numbers.
  repeat first [apply ends_bind; [|intros ?] | apply ends_getitem | apply ends_py_int_base | apply ends_assert_true
               | apply ends_assert_equal | case_match | done].
Qed.

(** A synchronisation is reported with numbers in order, and with the expected start. *)
Definition reports (e : option Z) (res : pyval) : Prop :=
  is_syncing res = true ∧ ∃ s c h vs vc vh,
    getitem res "startingBlock" = Val vs ∧ py_int_base vs 16 = Val s
    ∧ getitem res "currentBlock" = Val vc ∧ py_int_base vc 16 = Val c
    ∧ getitem res "highestBlock" = Val vh ∧ py_int_base vh 16 = Val h
    ∧ (∀ n, e = Some n → s = n) ∧ s ≤ c ∧ 0 < c < h.

Lemma check_sync_numbers_inv e res : is_syncing res = true → check_sync_numbers e res = Val tt → reports e res.
Proof.
  intros Hs (vs & Hvs & Hr)%obind_Val_inv. apply obind_Val_inv in Hr as (s & Hs' & Hr).
  apply obind_Val_inv in Hr as (vc & Hvc & Hr). apply obind_Val_inv in Hr as (c & Hc & Hr).
  apply obind_Val_inv in Hr as (vh & Hvh & Hr). apply obind_Val_inv in Hr as (h & Hh & Hr).
  apply obind_Val_inv in Hr as ([] & He & Hr).
  apply obind_Val_inv in Hr as ([] & E1%assert_true_inv & Hr). apply obind_Val_inv in Hr as ([] & E2%assert_true_inv & Hr).
  apply obind_Val_inv in Hr as ([] & E3%assert_true_inv & Hr). apply obind_Val_inv in Hr as ([] & E4%assert_true_inv & E5%assert_true_inv).
  split; [done|]. exists s, c, h, vs, vc, vh. split_and!; try done; try lia.
  intros n ->. by apply assert_equal_int_inv in He.
Qed.

Section Watched.
Context {W : Type} `{Nodes W, Clock W, Os W, Rng W} `{!ClockLaws W}.
Implicit Types st : St (FW W).

(** ** Turns take no time back *)

Lemma timed_ask {A} (f : FW W → A) : timed (ask f).
Proof. intros st. split; [simpl; lia|done]. Qed.
Lemma timed_get_sc_nodes : timed get_sc_nodes.
Proof. apply timed_bind; [apply timed_ask|]. intros []; [apply timed_raise..|apply timed_ret]. Qed.
Lemma timed_sc i : timed (Scenarios.sc i).
Proof. apply timed_bind; [apply timed_get_sc_nodes|]. intros l. apply timed_lift, ends_list_index. Qed.
Lemma timed_best p : timed (best p).
Proof. apply timed_bind; [apply timed_call|]. intros v. apply timed_lift, ends_getitem. Qed.
Lemma timed_best_height p : timed (best_height p).
Proof.
  apply timed_bind; [apply timed_best|]. intros v. apply timed_bind; [apply timed_lift, ends_getitem|].
  intros h. apply timed_lift, ends_py_int.
Qed.
Lemma timed_eth_syncing : timed eth_syncing.
Proof.
  apply timed_bind; [apply timed_sc|]. intros p. apply timed_bind; [apply timed_call|].
  intros v. apply timed_lift, ends_getitem.
Qed.

Ltac timed_steps :=
  repeat first
    [ apply timed_sc | apply timed_get_sc_nodes | apply timed_best | apply timed_best_height | apply timed_eth_syncing
    | apply timed_call | apply timed_time | apply timed_ret | apply timed_mmap; intros ?
    | apply timed_lift; first [apply ends_getitem | apply ends_getpath | apply ends_heights_equal]
    | apply timed_bind; [|intros ?] ].

Lemma timed_log_status : timed log_status.
Proof. unfold log_status. timed_steps. Qed.

Lemma timed_status_turn e start wait_for b : timed (status_turn e start wait_for false b).
Proof.
  apply timed_bind; [apply timed_eth_syncing|]. intros res. apply timed_bind; [apply timed_log_status|]. intros [].
  apply timed_bind; [apply timed_lift; case_match; [apply ends_check_sync_numbers|done]|]. intros [].
  case_match; [apply timed_ret|]. apply timed_bind; [apply timed_time|]. intros now.
  apply timed_bind; [apply timed_lift; by case_match|]. intros [].
  apply timed_bind; [apply timed_get_sc_nodes|]. intros l. apply timed_bind; [timed_steps|]. intros counts.
  apply timed_bind; [apply timed_lift, ends_heights_equal|]. intros []; [apply timed_ret|].
  apply (timed_ret (false, is_syncing res)).
Qed.

(** ** The loop *)

(** What the last turn saw: the synchronisation was reported, and then all nodes reported
    the same height. *)
Definition watched (e : option Z) st' : Prop :=
  ∃ res l counts c s1 s2 s3, eth_syncing s1 = (Val res, s2) ∧ reports e res
    ∧ mmap best_height l s3 = (Val counts, st') ∧ Forall (λ x, x = c) counts.

Lemma status_turn_inv e start wait_for b ended b' st st' :
  status_turn e start wait_for false b st = (Val (ended, b'), st') →
  (ended = false → clk (world st) - start < wait_for) ∧ (ended = true → b' = true → watched e st').
Proof.
  intros (res & s1 & Hres & Hr)%bind_Val_inv. apply bind_Val_inv in Hr as ([] & s2 & Hlog & Hr).
  apply bind_Val_inv in Hr as ([] & ? & [Hc ->]%lift_Val_inv & Hr).
  destruct (negb (is_syncing res) && b); [by apply ret_Val_inv in Hr as [[= <- <-] _]|].
  apply bind_Val_inv in Hr as (now & s3 & Hnow & Hr).
  assert (clk (world st) <= now) as Hclk.
  { destruct (timed_eth_syncing st) as [Hm1 _], (timed_log_status s1) as [Hm2 _], (time_time_val s2) as (s & Ht & _).
    rewrite Hres in Hm1. rewrite Hlog in Hm2. rewrite Hnow in Ht. injection Ht as -> _. simpl in *. lia. }
  apply bind_Val_inv in Hr as ([] & ? & [Hlim ->]%lift_Val_inv & Hr).
  destruct (Z.geb_spec (now - start) wait_for) as [?|Hlt]; [done|].
  split; [intros; lia|]. intros -> ->.
  apply bind_Val_inv in Hr as (l & s4 & Hl & Hr). apply bind_Val_inv in Hr as (counts & s5 & Hm & Hr).
  apply bind_Val_inv in Hr as (same & ? & [Hh ->]%lift_Val_inv & Hr).
  destruct same; [|by apply bind_Val_inv in Hr as ([] & ? & [[=] _]%ret_Val_inv & [[=] _]%ret_Val_inv)].
  apply ret_Val_inv in Hr as [[= Hs] ->]. rewrite Hs in Hc. apply heights_equal_spec in Hh as (c & Hall & _).
  exists res, l, counts, c, st, s1, s4. split_and!; try done. by apply check_sync_numbers_inv.
Qed.

Lemma sync_status_loop_spec fuel e start wait_for b st :
  (0 < fuel)%nat → wait_for - (clk (world st) - start) ≤ (Z.of_nat fuel - 1) * secs 1 →
  match sync_status_loop fuel e start wait_for false b st with
  | (Val true, st') => watched e st'
  | (NoFuel, _) => False
  | _ => True
  end.
Proof.
  revert b st. induction fuel as [|f IH]; intros b st Hpos Hf; [lia|]. cbn [sync_status_loop]. unfold bind at 1.
  destruct (timed_status_turn e start wait_for b st) as [Hmono Hends].
  destruct (status_turn e start wait_for false b st) as [[[ended b']|ex|] s1] eqn:Ht; cbn [fst snd] in Hmono, Hends; [|done|done].
  apply status_turn_inv in Ht as [Hgo Hend]. destruct ended; [by destruct b'; [apply Hend|]|].
  specialize (Hgo eq_refl). unfold bind at 1. pose proof (sleep_clk (secs 1) s1 ltac:(done)) as Hs.
  destruct (sleep (secs 1) s1) as [o s2] eqn:Hsl. injection Hsl as <- Hs2. cbn [fst snd] in Hs.
  destruct f as [|f]; unfold secs in *; [lia|]. apply IH; lia.
Qed.


(** ** Two checks *)

(** A synchronisation that was reported and is then reported to be over fails, with the
    message that it was not detected. *)
Lemma detected_sync_fails fuel e start wait_for st res s1 s2 :
  eth_syncing st = (Val res, s1) → log_status s1 = (Val tt, s2) → is_syncing res = false →
  sync_status_loop (S fuel) e start wait_for false true st = (Val false, s2).
Proof.
  intros Hr Hl Hs. cbn [sync_status_loop]. unfold status_turn, bind. rewrite Hr, Hl. cbv zeta. rewrite Hs. reflexivity.
Qed.
End Watched.

(** A node that still reports a synchronisation passes the check that it does not. *)
Lemma still_syncing_unnoticed res : is_syncing res = true → check_not_syncing res = Val tt.
Proof. by destruct res. Qed.

(** ** A run against simulated nodes *)

(** Blocks 1 to 3 are received; the heights are equal at the second turn. *)
Definition syncing_nodes (n : nat) (p : proxy) (m : string) (args : list pyval) : exn + pyval :=
  inr (match m with
  | "rpc_eth_syncing" => result [("startingBlock", PStr "0x1"); ("currentBlock", PStr "0x2"); ("highestBlock", PStr "0x3")]
  | "block_best" => result [("height", PInt (if (n <? 6)%nat then Z.of_nat n else 3))]
  | _ => result [("peers", PList [])]
  end).

Definition syncing_st : St (FW sim) := running [mc0] [sc0; sc1] syncing_nodes.

