(* ===== verification/InteropProps.v ===== *)
(** * What the data and the traces of calls through the proxy contract are

    The data two scenarios put together by hand is the standard encoding of a call with an
    address and bytes, as long as the length has the number of digits the script leaves
    room for; the data of a call of the proxy contract by itself is the same encoding
    applied twice.  A trace that passes has exactly the expected frames.
    Two more parts are about lists that are read page by page and about tokens. *)

From S2P Require Import Prelude PyStr Numbers PyVal Host Sim Json Encoding HttpProxy McUtil.
From Stdlib Require Import Ascii String.
From stdpp Require Import base list.
From S2P Require Import EvmRotationScenarios ForgerScenarios EvmMempoolScenarios InteropScenarios ScenarioProps SmartContractProps ForgerProps.
From S2P Require Import BootInfo ScUtil.
From S2P Require Import Framework AccountUtil SmartContract.
From S2P Require Import Scenarios OwnershipScenarios PagerScenarios Checks.
From S2P Require Import StakeScenarios NativeForgerScenarios TokenScenarios.
From S2P Require Import AccountProps.
Local Open Scope Z_scope.

(** ** The standard encoding of a call with an address and bytes *)

Definition abi_word (s : string) : option N :=
  if (String.length s =? 64)%nat then parse_digits 16 0 false s else None.

Definition only_zeros (s : string) : bool := String.eqb s (zeros (String.length s)).

(** The selector, the address and the bytes of the arguments, in hexadecimal. *)
Definition decode_invoke (input : string) : option (string * string * string) :=
  let args := str_drop 10 input in
  let word i := str_take 64 (str_drop i args) in
  offset ← abi_word (word 64%nat);
  let start := (2 * N.to_nat offset)%nat in
  n ← abi_word (word start);
  let data := str_take (2 * N.to_nat n) (str_drop (start + 64) args) in
  let rest := str_drop (start + 64 + 2 * N.to_nat n) args in
  if only_zeros (str_take 24 args) && (String.length data =? 2 * N.to_nat n)%nat && only_zeros rest
     && (String.length args mod 64 =? 0)%nat
  then Some (str_take 10 input, str_drop 24 (word 0%nat), data) else None.

(** ** Texts *)

Lemma zeros_length n : String.length (zeros n) = n.
Proof. unfold zeros. induction n as [|n IH]; [done|]. cbn [repeat_text]. rewrite str_length_app, IH. done. Qed.

Lemma only_zeros_zeros n : only_zeros (zeros n) = true.
Proof. unfold only_zeros. rewrite zeros_length. apply String.eqb_refl. Qed.

Lemma zeros_app m n : zeros m +:+ zeros n = zeros (m + n).
Proof. unfold zeros. induction m as [|m IH]; [done|]. cbn [repeat_text Nat.add]. rewrite <-IH. by rewrite str_app_assoc. Qed.

Lemma parse_zeros n k u : parse_digits 16 0 u (zeros n +:+ digits 16 k) = Some k.
Proof.
  revert u. induction n as [|n IH]; intros u; [by apply parse_digits_digits|].
  change (zeros (S n) +:+ digits 16 k) with (String "0" (zeros n +:+ digits 16 k)).
  change (parse_digits 16 0 true (zeros n +:+ digits 16 k) = Some k). apply IH.
Qed.

Lemma abi_word_zeros n k : (n + String.length (digits 16 k) = 64)%nat → abi_word (zeros n +:+ digits 16 k) = Some k.
Proof. intros Hn. unfold abi_word. rewrite str_length_app, zeros_length, Hn. apply parse_zeros. Qed.

Lemma abi_word_40 : abi_word word_40 = Some 64%N.
Proof. reflexivity. Qed.

Lemma str_drop_add m n s : str_drop (m + n) s = str_drop n (str_drop m s).
Proof. revert s. induction m as [|m IH]; intros [|c s]; simpl; [by destruct n|done|by destruct n|apply IH]. Qed.

(** The arguments of a call: words and data, one after the other. *)
Lemma decode_invoke_parts selector a len d pad n :
  String.length selector = 10%nat → String.length a = 40%nat → abi_word len = Some n →
  String.length d = (2 * N.to_nat n)%nat → ((String.length d + pad) mod 64 = 0)%nat →
  decode_invoke (selector +:+ zeros 24 +:+ a +:+ word_40 +:+ len +:+ d +:+ zeros pad) = Some (selector, a, d).
Proof.
  intros Hs Ha Hl Hd Hp. assert (String.length len = 64%nat) as Hlen.
  { unfold abi_word in Hl. by destruct (Nat.eqb_spec (String.length len) 64). }
  unfold decode_invoke. rewrite (str_drop_app_n 10), (str_take_app_n 10) by done.
  set (args := zeros 24 +:+ a +:+ word_40 +:+ len +:+ d +:+ zeros pad).
  assert (str_drop 64 args = word_40 +:+ len +:+ d +:+ zeros pad) as H64.
  { unfold args. rewrite <-(str_app_assoc (zeros 24)). apply str_drop_app_n. by rewrite str_length_app, Ha. }
  assert (str_drop 128 args = len +:+ d +:+ zeros pad) as H128.
  { change 128%nat with (64 + 64)%nat. rewrite str_drop_add, H64. by apply str_drop_app_n. }
  assert (str_drop (128 + 64) args = d +:+ zeros pad) as H192.
  { rewrite str_drop_add, H128. by apply str_drop_app_n. }
  rewrite H64, (str_take_app_n 64), abi_word_40 by done. cbn [mbind option_bind].
  change (2 * N.to_nat 64)%nat with 128%nat. rewrite H128, (str_take_app_n 64), Hl by done. cbn [mbind option_bind].
  rewrite H192, (str_take_app_n (2 * N.to_nat n)) by done. rewrite str_drop_add, H192, (str_drop_app_n (2 * N.to_nat n)) by done.
  rewrite only_zeros_zeros, Hd, Nat.eqb_refl.
  assert (str_take 64 (str_drop 0 args) = zeros 24 +:+ a) as ->.
  { change (str_drop 0 args) with args. unfold args. rewrite <-(str_app_assoc (zeros 24)). apply str_take_app_n. by rewrite str_length_app, Ha. }
  unfold args. rewrite (str_take_app_n 24), only_zeros_zeros, (str_drop_app_n 24) by done.
  rewrite !str_length_app, !zeros_length, Ha, Hlen. change (String.length word_40) with 64%nat.
  replace (24 + (40 + (64 + (64 + (String.length d + pad)))))%nat with (String.length d + pad + 3 * 64)%nat by lia.
  rewrite Nat.Div0.mod_add, Hp. done.
Qed.

(** Data whose arguments are no whole number of words cannot be decoded. *)
Lemma decode_invoke_aligned input r : decode_invoke input = Some r → (String.length (str_drop 10 input) mod 64 = 0)%nat.
Proof.
  unfold decode_invoke. intros (off & _ & (n & _ & Hr)%bind_Some)%bind_Some. case_match eqn:E; [|done].
  b2p. done.
Qed.

(** ** Lengths in hexadecimal *)

Lemma small_digits : forallb (λ i, String.length (digits 16 (N.of_nat i)) =? if (i <? 16)%nat then 1 else 2)%nat (seq 0 256) = true.
Proof. vm_compute. reflexivity. Qed.

Lemma digits_length_small k : (k < 256)%N → String.length (digits 16 k) = if (k <? 16)%N then 1%nat else 2%nat.
Proof.
  intros Hk. pose proof small_digits as Hs. rewrite forallb_forall in Hs. specialize (Hs (N.to_nat k)).
  rewrite N2Nat.id in Hs. rewrite (proj1 (Nat.eqb_eq _ _) (Hs ltac:(apply in_seq; lia))).
  destruct (Nat.ltb_spec (N.to_nat k) 16), (N.ltb_spec k 16); try done; lia.
Qed.

Section Inputs.
Context `{EthHex}.
(** [remove_0x_prefix] takes the prefix away. *)
Hypothesis remove_0x : ∀ s, remove_0x_prefix (PStr ("0x" +:+ s)) = Val (PStr s).

Lemma bare_0x s : bare (PStr ("0x" +:+ s)) = Val s.
Proof. unfold bare. by rewrite remove_0x. Qed.

Lemma hex_digits_nat n : hex_digits (Z.of_nat n) = Val (digits 16 (N.of_nat n)).
Proof.
  unfold hex_digits, hex. rewrite (proj2 (Z.ltb_ge _ _)) by lia. rewrite bare_0x.
  do 2 f_equal. lia.
Qed.

Lemma half_length d n : String.length d = (2 * n)%nat → Z.of_nat (String.length d) / 2 = Z.of_nat n.
Proof. intros ->. rewrite Nat2Z.inj_mul, Z.mul_comm. by apply Z.div_mul. Qed.

Lemma proxy_input_run selector a d n z :
  String.length d = (2 * n)%nat →
  proxy_input selector (PStr ("0x" +:+ a)) (PStr ("0x" +:+ d)) z
  = Val (selector +:+ zeros 24 +:+ a +:+ word_40 +:+ (zeros z +:+ digits 16 (N.of_nat n)) +:+ d +:+ zeros 56).
Proof.
  intros Hd. unfold proxy_input. rewrite !bare_0x. cbn [obind]. rewrite (half_length d n), hex_digits_nat by done.
  cbn [obind]. by rewrite (str_app_assoc (zeros z)).
Qed.

Lemma proxy_input_decoded selector a d n z :
  String.length selector = 10%nat → String.length a = 40%nat → String.length d = (2 * n)%nat →
  (n mod 32 = 4)%nat → (z + String.length (digits 16 (N.of_nat n)) = 64)%nat →
  ∃ input, proxy_input selector (PStr ("0x" +:+ a)) (PStr ("0x" +:+ d)) z = Val input
    ∧ decode_invoke input = Some (selector, a, d).
Proof.
  intros Hs Ha Hd Hm Hz. eexists. split; [by apply proxy_input_run|].
  eapply decode_invoke_parts; [done|done|by apply abi_word_zeros| |].
  - by rewrite Nat2N.id.
  - rewrite Hd. apply Nat.Lcm0.mod_divide. pose proof (Nat.div_mod_eq n 32). exists (n / 32 + 1)%nat. lia.
Qed.

(** The data of the inner call, without its prefix. *)
Definition inner_input (opcode a d : string) (n : nat) : string :=
  opcode +:+ zeros 24 +:+ a +:+ word_40 +:+ (zeros 62 +:+ digits 16 (N.of_nat n)) +:+ d +:+ zeros 56.

Lemma inner_input_length opcode a d n :
  String.length opcode = 8%nat → String.length a = 40%nat → String.length d = (2 * n)%nat →
  String.length (digits 16 (N.of_nat n)) = 2%nat → String.length (inner_input opcode a d n) = (2 * (n + 128))%nat.
Proof.
  intros Ho Ha Hd Hn. unfold inner_input. rewrite !str_length_app, !zeros_length, Ho, Ha, Hd, Hn.
  change (String.length word_40) with 64%nat. lia.
Qed.

(** The call of the proxy contract by itself is the call of the proxy contract with the data
    of the call of the contract. *)
Lemma proxy_input_twice_nested opcode a d n :
  String.length opcode = 8%nat → String.length a = 40%nat → String.length d = (2 * n)%nat →
  String.length (digits 16 (N.of_nat n)) = 2%nat →
  proxy_input_twice ("0x" +:+ opcode) (PStr ("0x" +:+ a)) (PStr ("0x" +:+ d))
  = proxy_input ("0x" +:+ opcode) (PStr ("0x" +:+ PROXY_SMART_CONTRACT_ADDRESS)) (PStr ("0x" +:+ inner_input opcode a d n)) 62.
Proof.
  intros Ho Ha Hd Hn. rewrite (proxy_input_run _ _ _ (n + 128)) by by apply inner_input_length.
  unfold proxy_input_twice. rewrite !bare_0x. cbn [obind]. rewrite (half_length d n), (half_length opcode 4) by done.
  unfold py_int_base. rewrite parse_hex. cbn [of_opt obind].
  replace (4 + 3 * 32 + Z.of_nat n + (32 - Z.of_nat 4)) with (Z.of_nat (n + 128)) by lia.
  rewrite !hex_digits_nat. cbn [obind]. unfold inner_input. by rewrite !str_app_assoc.
Qed.

(** C38: the data of calls through the proxy contract that two scenarios put together by hand
    is the standard encoding of the selector, the address and the bytes: with room for one
    digit of the length for data below 16 bytes, as that of a method without arguments; with
    room for two digits for data of 16 to 255 bytes; and the call of the proxy contract by
    itself encodes a call that is encoded in the same way.  With room for one digit, data
    of 16 bytes and more cannot be decoded. *)
Theorem proxy_calls_decoded (opcode a d : string) (n : nat) :
  String.length opcode = 8%nat → String.length a = 40%nat → String.length d = (2 * n)%nat → (n mod 32 = 4)%nat →
  (n < 256)%nat →
  let selector := "0x" +:+ opcode in
  let data := proxy_input selector (PStr ("0x" +:+ a)) (PStr ("0x" +:+ d)) in
  ((n < 16)%nat → ∃ input, data 63%nat = Val input ∧ decode_invoke input = Some (selector, a, d))
  ∧ ((16 ≤ n)%nat → ∃ input, data 62%nat = Val input ∧ decode_invoke input = Some (selector, a, d))
  ∧ ((16 ≤ n < 128)%nat → ∃ inner input, data 62%nat = Val ("0x" +:+ inner)
       ∧ proxy_input_twice selector (PStr ("0x" +:+ a)) (PStr ("0x" +:+ d)) = Val input
       ∧ decode_invoke input = Some (selector, PROXY_SMART_CONTRACT_ADDRESS, inner))
  ∧ ((16 ≤ n)%nat → ∃ input, data 63%nat = Val input ∧ decode_invoke input = None).
Proof.
  intros Ho Ha Hd Hm Hn selector data.
  assert (String.length selector = 10%nat) as Hs by (unfold selector; by rewrite str_length_app, Ho).
  assert (∀ k, (k < 256)%nat → String.length (digits 16 (N.of_nat k)) = if (k <? 16)%nat then 1%nat else 2%nat) as Hdig.
  { intros k Hk. rewrite digits_length_small by lia. destruct (N.ltb_spec (N.of_nat k) 16), (Nat.ltb_spec k 16); try done; lia. }
  assert ((16 ≤ n)%nat → String.length (digits 16 (N.of_nat n)) = 2%nat) as H2.
  { intros Hle. rewrite Hdig by done. by rewrite (proj2 (Nat.ltb_ge _ _)). }
  split_and!.
  - intros Hlt. apply (proxy_input_decoded _ _ _ n); try done. by rewrite Hdig, (proj2 (Nat.ltb_lt _ _)).
  - intros Hge. apply (proxy_input_decoded _ _ _ n); try done. by rewrite H2.
  - intros [Hge Hlt]. destruct (proxy_input_decoded selector PROXY_SMART_CONTRACT_ADDRESS (inner_input opcode a d n) (n + 128) 62)
      as (input & Hin & Hdec); [done|done|by apply inner_input_length; auto| | |].
    + rewrite (Nat.Div0.add_mod n 128), Hm. done.
    + rewrite Hdig by lia. rewrite (proj2 (Nat.ltb_ge _ _)) by lia. done.
    + exists (inner_input opcode a d n), input. split_and!; [|unfold selector; rewrite (proxy_input_twice_nested _ _ _ n); auto|done].
      unfold data. rewrite (proxy_input_run _ _ _ n) by done. done.
  - intros Hge. eexists. split; [by apply (proxy_input_run _ _ _ n)|].
    destruct (decode_invoke _) as [r|] eqn:E; [|done]. apply decode_invoke_aligned in E. exfalso. revert E.
    rewrite (str_drop_app_n 10) by done. rewrite !str_length_app, !zeros_length, Ha, Hd, H2 by done.
    change (String.length word_40) with 64%nat. pose proof (Nat.div_mod_eq n 32) as Hq. rewrite Hm in Hq.
    intros E%Nat.Lcm0.mod_divide. destruct E as [q Hq']. lia.
Qed.
End Inputs.

(** ** Frames of a trace *)

(** [n] frames, one inside of the other, each with less gas; the last has no calls. *)
Inductive frames : nat → pyval → Z → Prop :=
| frames_last lev gas : has_key "calls" lev = Val false → frames 0 lev gas
| frames_inside n lev gas inner v gas' :
    only_call lev = Val inner → getitem inner "gasUsed" = Val v → py_int_base v 16 = Val gas' → gas' < gas →
    frames n inner gas' → frames (S n) lev gas.

(** A trace passes exactly when it has as many frames as expected, each with less gas than
    the one around it. *)
Theorem check_frames_spec (n : nat) (lev gas_k : pyval) (gas : Z) :
  py_int_base gas_k 16 = Val gas → check_frames n lev gas_k = Val tt ↔ frames n lev gas.
Proof.
  revert lev gas_k gas. induction n as [|n IH]; intros lev gas_k gas Hg; cbn [check_frames]; split.
  - intros (there & Ht & Ha%assert_true_inv)%obind_Val_inv. constructor. by destruct there.
  - inversion 1 as [l g Hc|]; subst. by rewrite Hc.
  - intros (inner & Hi & Hr)%obind_Val_inv. apply obind_Val_inv in Hr as (outer & Ho & Hr).
    apply obind_Val_inv in Hr as (v & Hv & Hr). apply obind_Val_inv in Hr as (gas' & Hg' & Hr).
    apply obind_Val_inv in Hr as ([] & Hlt%assert_true_inv & Hr). 
    rewrite Hg in Ho. injection Ho as <-. apply Z.gtb_lt in Hlt. econstructor; [done|done|done|exact Hlt|by apply (IH inner v gas')].
  - inversion 1 as [|m l g inner v gas' Hi Hv Hg' Hlt Hf]; subst. rewrite Hi. cbn [obind]. rewrite Hg. cbn [obind].
    rewrite Hv. cbn [obind]. rewrite Hg'. cbn [obind]. rewrite (proj2 (Z.gtb_lt _ _)) by lia. cbn [assert_true obind].
    by apply (IH inner v gas').
Qed.

(** ** The packages with the behaviour the theorem asks for *)

Definition drop_0x : EthHex :=
  {| remove_0x_prefix v := match v with PStr s => Val (PStr (str_drop 2 s)) | _ => Exc TypeError end; to_hex := Val |}.

Lemma proxy_calls_decoded_witness :
  (let? i := @proxy_input drop_0x "0x9b679b4d" (PStr "0x840463d17b8c7833883eaa47d23b2646f7fd1fd9") (PStr ("0x" +:+ zeros 200)) 62
   in Val (decode_invoke i)) = Val (Some ("0x9b679b4d", "840463d17b8c7833883eaa47d23b2646f7fd1fd9", zeros 200))
  ∧ ∃ inner input, @proxy_input_twice drop_0x "0x9b679b4d" (PStr "0x840463d17b8c7833883eaa47d23b2646f7fd1fd9")
      (PStr ("0x" +:+ zeros 200)) = Val input
    ∧ decode_invoke input = Some ("0x9b679b4d", PROXY_SMART_CONTRACT_ADDRESS, inner).
Proof.
  split; [vm_compute; reflexivity|].
  destruct (@proxy_calls_decoded drop_0x (λ s, eq_refl) "9b679b4d" "840463d17b8c7833883eaa47d23b2646f7fd1fd9" (zeros 200) 100
    eq_refl eq_refl eq_refl eq_refl ltac:(lia)) as (_ & _ & Htwice & _).
  destruct (Htwice ltac:(lia)) as (inner & input & _ & Hin & Hdec). exists inner, input. by split.
Defined.

(** * Reading a list page by page

    The loop of the test of pages ends when the nodes serve the pages of one list, after as
    many pages as the list needs, and has then read the list once, from the contract and
    from the API. *)

Section Pages.
Context {W : Type} `{Nodes W, Clock W, Os W, Rng W} `{EthUtils, EthAbi, EthHash, EthHex, EthSelectors}.
Implicit Types st : St (FW W).
Context (Inv : St (FW W) → Prop) (sc1 sc2 : proxy) (address : pyval) (stakes : list pyval) (size : nat).

(** Where the page after [start] begins; -1 after the last page. *)
Definition next_start (start : nat) : Z :=
  if (start + size <? length stakes)%nat then Z.of_nat (start + size) else -1.

(** From the states of an invariant both nodes serve the pages of the list. *)
Definition serves_pages : Prop := ∀ start st, Inv st → (start = 0 ∨ start < length stakes)%nat → ∃ st',
  page_pair sc1 sc2 address (Z.of_nat size) (PInt (Z.of_nat start)) st
  = (Val (PInt (next_start start), take size (drop start stakes), take size (drop start stakes)), st') ∧ Inv st'.

(** The last round of the loop. *)
Lemma all_pages_end fuel l l' st :
  all_pages (S fuel) sc1 sc2 address (Z.of_nat size) (PInt (-1)) l l' st = (Val (l, l'), st).
Proof. reflexivity. Qed.

(** A round that reads a page. *)
Lemma all_pages_round fuel start next page l st st' :
  page_pair sc1 sc2 address (Z.of_nat size) (PInt (Z.of_nat start)) st = (Val (next, page, page), st') →
  all_pages (S fuel) sc1 sc2 address (Z.of_nat size) (PInt (Z.of_nat start)) l l st
  = all_pages fuel sc1 sc2 address (Z.of_nat size) next (l ++ page) (l ++ page) st'.
Proof.
  intros Hp. cbn [all_pages]. unfold py_neqb. rewrite py_eqb_int.
  destruct (Z.eqb_spec (Z.of_nat start) (-1)); [lia|]. cbn [negb]. unfold bind. by rewrite Hp.
Qed.

(** The pages from a position on, of which [n] are enough. *)
Lemma all_pages_from n : ∀ start fuel l st,
  serves_pages → Inv st → (start = 0 ∨ start < length stakes)%nat → (0 < size)%nat →
  (length stakes - start ≤ n * size)%nat → (0 < n < fuel)%nat →
  ∃ st', all_pages fuel sc1 sc2 address (Z.of_nat size) (PInt (Z.of_nat start)) l l st
         = (Val (l ++ drop start stakes, l ++ drop start stakes), st') ∧ Inv st'.
Proof.
  induction n as [|n IH]; intros start fuel l st Hs HI Hst Hp Hn Hf; [lia|].
  destruct fuel as [|fuel]; [lia|]. destruct (Hs start st HI Hst) as (s & Hpage & HI').
  rewrite (all_pages_round _ _ _ _ _ _ _ Hpage). unfold next_start in *.
  destruct (Nat.ltb_spec (start + size) (length stakes)) as [Hlt|Hge].
  - destruct (IH (start + size)%nat fuel (l ++ take size (drop start stakes)) s) as (st' & Hr & HI2); [done|done|lia|done|lia|lia|].
    exists st'. split; [|done]. rewrite Hr, <-app_assoc, <-drop_drop, take_drop. done.
  - destruct fuel as [|fuel]; [lia|]. exists s. split; [|done]. rewrite all_pages_end, take_ge; [done|].
    rewrite length_drop. lia.
Qed.

End Pages.

(** ** Two nodes that serve a list of two stakes *)

(** A number below 256 in the last of 32 bytes, or a stake of six words. *)
Definition pager_abi : EthAbi := {|
  abi_encode _ _ := Val "";
  abi_decode types b :=
    let last n := match str_drop n b with String c _ => Z.of_N (N_of_ascii c) | _ => 0 end in
    let part a n := PBytes (str_take n (str_drop a b)) in
    match types with
    | [PStr "int32"] => Val [PInt (if last 31%nat =? 255 then -1 else last 31%nat)]
    | [PStr _] => Val [PInt (last 31%nat)]
    | _ => Val [part 0%nat 32%nat; PInt (last 63%nat); PStr ("0x" +:+ hexlify (str_take 20 (str_drop 76 b)));
                part 96%nat 32%nat; part 128%nat 32%nat; part 160%nat 1%nat]
    end
|}.

Definition pager_utils : EthUtils := {| to_checksum_address := Val; add_0x_prefix := Val |}.
Definition pager_hash : EthHash := {| to_bytes_hexstr _ := Val ""; keccak s := s; rlp_encode _ := Val "" |}.
Definition pager_selectors : EthSelectors := λ _, PStr "s".

Definition word_of (c : ascii) : string := str_repeat "000" 31 +:+ String c "".
Definition stake_bytes (c : ascii) : string := str_join "" (repeat (word_of c) 6).
Definition stake_of (c : ascii) : pyval :=
  match @paged_entry pager_abi drop_0x (hexlify (stake_bytes c)) with Val e => e | _ => PNone end.

Definition pager_reply (next c : ascii) : pyval :=
  PDict [("result", PStr ("0x" +:+ hexlify (word_of next +:+ word_of "064" +:+ word_of "001" +:+ stake_bytes c)))].

Definition pager_nodes (n : nat) (p : proxy) (m : string) (args : list pyval) : exn + pyval :=
  match args with
  | [PDict d; _] =>
      match dict_get "data" d with
      | Some (PStr data) => inr (if String.eqb (str_take 1 (str_drop 64 data)) "0" then pager_reply "001" "a" else pager_reply "255" "b")
      | _ => inl (KeyError "data")
      end
  | [PStr request] =>
      inr (if str_contains ": 0" request
           then result [("nextPos", PInt 1); ("stakes", PList [stake_of "a"])]
           else result [("nextPos", PInt (-1)); ("stakes", PList [stake_of "b"])])
  | _ => inl (KeyError m)
  end.

Definition pager_st : St (FW sim) := running [mc0] [sc0; sc1] pager_nodes.
Definition pager_inv (st : St (FW sim)) : Prop := s_node (fw_world (world st)) = pager_nodes.

Lemma pager_serves :
  serves_pages (H3 := pager_utils) (H4 := pager_abi) (H6 := drop_0x) (H7 := pager_selectors) pager_inv sc0 sc1 (PStr "x")
    [stake_of "a"; stake_of "b"] 1.
Proof.
  intros start [[self w] tr hp g] Hw Hst. destruct w. unfold pager_inv in Hw. simpl in Hw. subst.
  destruct start as [|[|start]]; [| |simpl in Hst; lia]; (eexists; split; [vm_compute; reflexivity|reflexivity]).
Qed.


(** * What the tests of tokens and of deployed contracts check

    The topics a filter is asked for are words of 32 bytes; the second deployment at the
    same address, which has to be refused, is never asked for. *)

(** ** Topics *)

Definition zero_bytes (n : nat) : string := str_repeat (ascii_of_N 0) n.

Lemma hexlify_app a b : hexlify (a +:+ b) = hexlify a +:+ hexlify b.
Proof. induction a as [|c a IH]; [done|]. simpl. rewrite IH. done. Qed.

Lemma hexlify_zero_bytes n : hexlify (zero_bytes n) = zeros (2 * n).
Proof.
  induction n as [|n IH]; [done|]. replace (2 * S n)%nat with (S (S (2 * n))) by lia.
  cbn [zero_bytes str_repeat hexlify]. unfold zero_bytes in IH. rewrite IH. done.
Qed.

(** The topic of at most 32 bytes in hexadecimal is these bytes after zeros, 32 bytes in
    all: an address is found in the filter as the contract logs it. *)
Theorem topic_bytes_padded b :
  (String.length b ≤ 32)%nat →
  topic_bytes (hexlify b) = Val (zero_bytes (32 - String.length b) +:+ b).
Proof.
  intros Hb. unfold topic_bytes, TOPIC_LENGTH. rewrite hexlify_length.
  replace (64 - 2 * String.length b)%nat with (2 * (32 - String.length b))%nat by lia.
  rewrite <- hexlify_zero_bytes, <- hexlify_app. apply bytes_fromhex_hexlify.
Qed.

(** ** The second deployment *)

Section Redeployed.
Context {W : Type} `{Nodes W, Clock W, Os W, Rng W} `{EthUtils, EthAbi, EthHash, EthHex, EthSelectors, EthBloom}.
Implicit Types st : St (FW W).

(** The contract that deploys the others has no [getStorageValue()].  The last test then
    passes after the nonce was read: the node is not asked to deploy anything, so that it
    cannot have refused. *)
Theorem second_deployment_not_tried node d address salt a nonce st st' :
  dict_get "getStorageValue()" (Functions (d_contract d)) = None →
  format_evm address = Val a →
  ensure_nonce node address PNone (PStr "latest") st = (Val nonce, st') →
  not_deployed_again node d address salt st = (Val tt, st').
Proof.
  intros Hf Ha Hn. unfold not_deployed_again.
  erewrite must_fail_run.
  2:{ unfold send, call_on, contract_function_call, SmartContract_estimate_gas.
      unfold bind at 1. rewrite (bind_lift_run _ _ _ _ Ha), (bind_run _ _ _ _ _ Hn).
      cbn [String.eqb Ascii.eqb Bool.eqb]. unfold raw_encode_call, lookup_function. rewrite Hf. reflexivity. }
  done.
Qed.
End Redeployed.
