(* ===== verification/TransactionProps.v ===== *)
(** * What the tests of transactions of the account model say

    Three parts: the memory pool and the order in a block, blocks and states as a contract
    sees them, and keys, wallets and transfers. *)

From S2P Require Import Prelude PyStr Numbers PyVal Host Sim Json Encoding HttpProxy BootInfo McUtil ScUtil.
From S2P Require Import Framework AccountSetup HttpCalls AccountCalls.
From Stdlib Require Import Ascii String.
From stdpp Require Import base list.
From S2P Require Import Scenarios StakeScenarios ForgerScenarios OwnershipScenarios SeederScenarios EvmMempoolScenarios.
From S2P Require Import Checks ScenarioProps RotationProps RecoveryProps.
From S2P Require Import CertScenarios EvmScenarios MempoolScenarios EvmStateScenarios.
From S2P Require Import WithdrawalProps.
From S2P Require Import Bootstrap ChainScenarios KeyScenarios ForgerProps.
Local Open Scope Z_scope.

(** * What the tests of the memory pool of the account model have seen

    The order a block must have in the test of orphan transactions is the order of the
    effective tips, for every base fee; the scenario passes only on a block in that order.
    A transaction counts as refused only when the node answered with the expected error and
    its pool is as large as before. *)

(** ** Order by tip *)

#[export] Instance ordered_tx_eq_dec : EqDecision OrderedTx.
Proof. solve_decision. Defined.

(** A transaction is its account, its nonce and its fees. *)
Local Abbreviation PoolTx := (Z * Z * OrderedTx)%type.

(** What the forger gets for a unit of gas. *)
Definition tip (base : Z) (t : PoolTx) : Z :=
  match t.2 with
  | LegacyTx gas_price => gas_price - base
  | Eip1559Tx priority fee => Z.min priority (fee - base)
  end.

(** No transaction of the same account has to come before. *)
Definition ready (pool : list PoolTx) (t : PoolTx) : bool :=
  forallb (λ u, negb (u.1.1 =? t.1.1) || (t.1.2 <=? u.1.2)) pool.

(** The transaction with the highest tip among those that are ready. *)
Definition best_ready (base : Z) (pool : list PoolTx) (t : PoolTx) : Prop :=
  t ∈ pool ∧ ready pool t = true ∧ Forall (λ u, u = t ∨ tip base u < tip base t) (List.filter (ready pool) pool).

(** Each transaction is the best of those that are left. *)
Fixpoint by_tip (base : Z) (pool order : list PoolTx) : Prop :=
  match order with
  | [] => pool = []
  | t :: order' => best_ready base pool t ∧ by_tip base (filter (λ u, u ≠ t) pool) order'
  end.

(** The order by tip is unique. *)
Lemma best_ready_unique base pool t t' : best_ready base pool t → best_ready base pool t' → t = t'.
Proof.
  intros (Ht & Hr & Hb) (Ht' & Hr' & Hb'). rewrite Forall_forall in Hb, Hb'.
  assert (∀ u, u ∈ pool → ready pool u = true → u ∈ List.filter (ready pool) pool) as Hin.
  { intros u Hu Hru. apply list_elem_of_In, filter_In. by split; [apply list_elem_of_In|]. }
  destruct (Hb t' (Hin _ Ht' Hr')) as [|L], (Hb' t (Hin _ Ht Hr)) as [|L']; try done. lia.
Qed.

Lemma by_tip_unique base order : ∀ pool order', by_tip base pool order → by_tip base pool order' → order = order'.
Proof.
  induction order as [|t order IH]; intros pool [|t' order']; cbn [by_tip].
  - done.
  - intros -> [(Ht & _) _]. by apply elem_of_nil in Ht.
  - intros [(Ht & _) _] ->. by apply elem_of_nil in Ht.
  - intros [Ht Ho] [Ht' Ho']. pose proof (best_ready_unique _ _ _ _ Ht Ht') as <-. f_equal. by eapply IH.
Qed.

(** One step, with the transactions that are ready and those that are left computed. *)
Lemma by_tip_step base pool t order heads pool' :
  bool_decide (t ∈ pool) = true → ready pool t = true → List.filter (ready pool) pool = heads →
  filter (λ u, u ≠ t) pool = pool' → Forall (λ u, u = t ∨ tip base u < tip base t) heads →
  by_tip base pool' order → by_tip base pool (t :: order).
Proof. intros Ht Hr <- <- Hb Ho. split; [|done]. split_and!; [by eapply bool_decide_eq_true_1|done..]. Qed.

(** The places the scenario expects, as transactions. *)
Definition expected_txs : list PoolTx := omap (λ i, ordered_txs !! Z.to_nat i) expected_order.

Lemma expected_by_tip base : 0 ≤ base → by_tip base ordered_txs expected_txs.
Proof.
  intros Hb. let l := eval vm_compute in expected_txs in change expected_txs with l.
  repeat (eapply by_tip_step; [vm_compute; reflexivity..| |];
    [repeat (apply Forall_cons; split; [first [left; reflexivity|right; unfold tip; cbn [fst snd]; lia]|]); by apply Forall_nil|]).
  done.
Qed.

(** Places in the list of sent transactions. *)
Lemma expected_places : Forall2 (λ j t, 0 ≤ j ∧ ordered_txs !! Z.to_nat j = Some t) expected_order expected_txs.
Proof. repeat (apply Forall2_cons; split; [by vm_compute|]). by apply Forall2_nil. Qed.

Lemma list_index_Val_inv {A} (l : list A) i x : 0 ≤ i → list_index l i = Val x → l !! Z.to_nat i = Some x.
Proof. intros Hi. rewrite <-(Z2Nat.id i) at 1 by done. rewrite list_index_nat. by destruct (l !! Z.to_nat i) as [y|]; intros [= ->]. Qed.

Lemma omapM_Val_Forall2 {A B} (f : A → outcome B) l : ∀ ys, omapM f l = Val ys → Forall2 (λ x y, f x = Val y) l ys.
Proof.
  induction l as [|x l IH]; intros ys; cbn [omapM].
  - intros [= <-]. constructor.
  - intros (y & Hy & (zs & Hzs & [= <-])%obind_Val_inv)%obind_Val_inv. constructor; [done|by apply IH].
Qed.

(** The [i]-th transaction of a block has this id. *)
Definition block_id_at (txs : pyval) (i : Z) (id : pyval) : Prop :=
  ∃ tx found, getindex txs i = Val tx ∧ getitem tx "id" = Val found ∧ py_eqb id found = true.

Section Blocks.
Context {W : Type} `{Nodes W, Clock W, Os W, Rng W}.
Implicit Types st s : St (FW W).

(** A loop of checks that only look keeps the state. *)
Lemma forM_same {A} (f : A → M (FW W) unit) l st st' :
  (∀ x s s', f x s = (Val tt, s') → s' = s) → forM_ l f st = (Val tt, st') → st' = st ∧ ∀ x, x ∈ l → f x st = (Val tt, st).
Proof.
  intros Hf. induction l as [|x l IH]; cbn [forM_].
  - intros [_ ->]%ret_Val_inv. split; [done|]. by intros x Hx%elem_of_nil.
  - intros ([] & s & Hx & Hr)%bind_Val_inv. pose proof (Hf _ _ _ Hx) as ->. destruct (IH Hr) as [-> Hl].
    split; [done|]. intros y [->|Hy]%elem_of_cons; [done|by apply Hl].
Qed.

(** The block has exactly the ids, in order. *)
Lemma check_block_txs_inv c message expected st st' :
  check_block_txs c message expected st = (Val tt, st') →
  ∃ b txs, best c st = (Val b, st') ∧ getpath b ["block"; "sidechainTransactions"] = Val txs
    ∧ py_len txs = Val (Z.of_nat (length expected))
    ∧ ∀ i e, expected !! i = Some e → block_id_at txs (Z.of_nat i) e.1.
Proof.
  unfold check_block_txs. intros (b & s & Hb & Hr)%bind_Val_inv. apply bind_Val_inv in Hr as (txs & ? & [Htxs ->]%lift_Val_inv & Hr).
  apply bind_Val_inv in Hr as ([] & s2 & Hl & Hr). pose proof (check_length_state _ _ _ _ _ Hl) as ->.
  unfold check_length in Hl. apply bind_Val_inv in Hl as (n & ? & [Hn ->]%lift_Val_inv & [<-%assert_equal_int_inv _]%lift_Val_inv).
  apply forM_same in Hr as [-> Hids].
  - exists b, txs. split_and!; [done..|]. intros i e He.
    assert ((Z.of_nat i, e) ∈ zip (zrange 0 (Z.of_nat (length expected))) expected) as Hin.
    { apply list_elem_of_lookup_2 with i. apply lookup_zip_with_Some. exists (Z.of_nat i), e. split_and!; [done| |done].
      unfold zrange. apply lookup_seqZ. apply lookup_lt_Some in He. lia. }
    apply Hids in Hin. cbn [fst snd] in Hin. apply bind_Val_inv in Hin as (tx & ? & [Htx _]%lift_Val_inv & Hin).
    apply bind_Val_inv in Hin as (found & ? & [Hf _]%lift_Val_inv & [Heq%assert_equal_inv _]%lift_Val_inv).
    by exists tx, found.
  - intros [i e] s1 s2 Hx. inv_run. done.
Qed.

(** C28: when the test of the order passes, the transactions of the block forged last, as the
    node reports them, are those sent, each the one with the highest effective tip among
    those whose nonces allow it, whatever the base fee was. *)
Theorem ordered_in_block_by_tip (fuel : nat) (c : proxy) (accounts : list pyval) (address : pyval) (base : Z) st st' :
  ordered_in_block fuel c accounts address st = (Val tt, st') → 0 ≤ base →
  ∃ ids s1 s2 block txs order,
    mmap (send_ordered c accounts address) ordered_txs st = (Val ids, s1) ∧ best c s2 = (Val block, st')
    ∧ getpath block ["block"; "sidechainTransactions"] = Val txs ∧ py_len txs = Val 9
    ∧ by_tip base ordered_txs order
    ∧ ∀ i t, order !! i = Some t → ∃ k id, ordered_txs !! k = Some t ∧ ids !! k = Some id ∧ block_id_at txs (Z.of_nat i) id.
Proof.
  unfold ordered_in_block. intros (ids & s1 & Hids & Hr)%bind_Val_inv Hb. do 2 skip_step Hr.
  apply bind_Val_inv in Hr as (expected & s2 & [He ->]%lift_Val_inv & Hr).
  apply check_block_txs_inv in Hr as (block & txs & Hbest & Htxs & Hlen & Hat).
  apply omapM_Val_Forall2 in He. exists ids, s1. eexists. exists block, txs, expected_txs.
  split_and!; [done|exact Hbest|done| |by apply expected_by_tip|].
  - rewrite Hlen, length_map. by apply Forall2_length in He as <-.
  - intros i t Ht. destruct (Forall2_lookup_r _ _ _ _ _ expected_places Ht) as (j & Hj & Hpos & Hsent).
    destruct (Forall2_lookup_l _ _ _ _ _ He Hj) as (id & Hid & Hget%list_index_Val_inv); [|done].
    exists (Z.to_nat j), id. split_and!; [done..|]. apply (Hat i (id, "")). by rewrite list_lookup_fmap, Hid.
Qed.

(** The request with which a transaction that must be refused is sent. *)
Definition send_invalid (c : proxy) (from : pyval) (t : InvalidTx) : M (FW W) pyval :=
  AccountCalls.createEIP1559Transaction c
    (mkTxArgs from (inv_to t) (PInt (inv_nonce t)) (PInt (inv_gas t)) (PInt (inv_value t)) (PStr (inv_data t))
      PNone PNone PNone) (PInt (inv_priority t)) (PInt (inv_fee t)) PNone.

Lemma check_pool_size_run c n message st st' :
  (∃ ids, check_pool_size c n message st = (Val ids, st')) ↔ ∃ ids, pool_ids c st = (Val ids, st') ∧ py_len ids = Val n.
Proof.
  unfold check_pool_size, check_length. split.
  - intros (ids & (ids' & s & Hi & Hr)%bind_Val_inv). apply bind_Val_inv in Hr as ([] & s2 & Hl & [<- <-]%ret_Val_inv).
    apply bind_Val_inv in Hl as (k & ? & [Hk ->]%lift_Val_inv & [<-%assert_equal_int_inv ->]%lift_Val_inv). by exists ids'.
  - intros (ids & Hi & Hn). exists ids. unfold bind. rewrite Hi, Hn. cbn. by destruct (assert_equal_ints n n message) as [[-> _]|[_ Hne]].
Qed.

(** A transaction counts as refused exactly when the request for it raised a RuntimeError
    with the expected text and the pool then has the expected size; the failure of the
    script, when the request is accepted, is not caught. *)
Theorem refused_tx_seen (c : proxy) (from : pyval) (t : InvalidTx) (pool : Z) st st' :
  refused_tx c from t pool st = (Val tt, st') ↔
  ∃ e text s, send_invalid c from t st = (Exc e, s) ∧ runtime_text e = Some text
    ∧ str_contains (inv_text t) text = true ∧ ∃ ids, pool_ids c s = (Val ids, st') ∧ py_len ids = Val pool.
Proof.
  unfold refused_tx. fold (send_invalid c from t). split.
  - intros (raised & s & Hc & Hr)%bind_Val_inv. apply bind_Val_inv in Hr as ([] & ? & [Ht ->]%lift_Val_inv & Hr).
    apply bind_Val_inv in Hr as (ids & ? & Hp & [_ ->]%ret_Val_inv).
    unfold catch, bind in Hc. destruct (send_invalid c from t st) as [[v|e|] s1] eqn:E; cbn in Hc; [done| |done].
    destruct (runtime_text e) as [text|] eqn:Et; [|done]. apply ret_Val_inv in Hc as [<- ->].
    exists e, text, s1. split_and!; [done|done|by apply assert_true_inv in Ht|]. eapply check_pool_size_run; eauto.
  - intros (e & text & s & Hc & Et & Hin & Hp). unfold bind, catch. rewrite Hc, Et.
    cbn -[check_pool_size String.append]. rewrite Hin. cbn -[check_pool_size String.append].
    apply (check_pool_size_run _ _ ("Transaction " +:+ inv_added t +:+ " added to node 1 mempool")) in Hp as (ids & ->). done.
Qed.
End Blocks.

(** ** A node that answers as the test expects *)

(** The ids are the numbers of the calls; the block has them in the expected order. *)
Definition tip_nodes (n : nat) (p : proxy) (m : string) (args : list pyval) : exn + pyval :=
  match forging_replies m with
  | Some r => inr r
  | None =>
    inr (match m with
    | "block_best" => result [("block", PDict [("sidechainTransactions", PList
        (map (λ i, PDict [("id", PInt i)]) expected_order))])]
    | "block_currentHeight" => result [("height", PInt 3)]
    | "transaction_allTransactions" => result [("transactionIds", PList []); ("transactions", PList [])]
    | _ => result [("transactionId", PInt (Z.of_nat n))]
    end)
  end.

Definition tip_st : St (FW sim) := running [mc0] [sc0; sc1] tip_nodes.

Definition tip_run := ordered_in_block 5 sc0 [PStr "A"; PStr "B"; PStr "C"] (PStr "D") tip_st.

Lemma ordered_in_block_by_tip_witness :
  tip_run.1 = Val tt ∧ ∃ order, by_tip 875000000 ordered_txs order ∧ length order = 9%nat.
Proof.
  split; [vm_compute; reflexivity|].
  destruct (ordered_in_block_by_tip 5 sc0 [PStr "A"; PStr "B"; PStr "C"] (PStr "D") 875000000 tip_st tip_run.2)
    as (ids & s1 & s2 & block & txs & order & _ & _ & _ & _ & Ho & _); [vm_compute; reflexivity|lia|].
  exists order. split; [exact Ho|].
  rewrite (by_tip_unique _ _ _ _ Ho (expected_by_tip 875000000 ltac:(lia))). reflexivity.
Defined.

(** * What the tests of blocks and states ask for

    The hashes a contract must return are those of the BLOCKHASH instruction in the state
    of the block the call names; the test of the Shanghai fork cannot see that one of its
    transactions is in the block. *)

(** ** Hashes of blocks *)

(** The instruction in the block [current]: the hash of an earlier block, or zero. *)
Definition BLOCKHASH (chain : Z → pyval) (current n : Z) : pyval :=
  if n <? current then chain n else PStr zero_hash.

(** A contract that reads the hash [k] blocks before the current one, called in the state
    of the block [reference] before the tip, has to return what the test expects there. *)
Theorem asked_hash_opcode chain height reference offset :
  0 ≤ reference →
  let '(k, expected) := asked_hash reference (offset, chain (height - offset)) in
  0 ≤ k ∧ expected = BLOCKHASH chain (height - reference) (height - reference - k).
Proof.
  intros Hr. unfold asked_hash, BLOCKHASH, fst, snd. destruct (offset - reference <=? 0) eqn:E; b2p.
  - rewrite Z.sub_0_r, Z.ltb_irrefl. done.
  - split; [lia|]. rewrite (proj2 (Z.ltb_lt _ _)) by lia. f_equal. lia.
Qed.

(** ** A transaction in the block *)

Section Shanghai.
Context {W : Type} `{Nodes W, Clock W, Os W, Rng W}.
Implicit Types st : St (FW W).

(** A block with two transactions passes whatever their ids are, also when they are the ids
    of the transactions that must not be in the block: an id is compared with objects. *)
Theorem shanghai_block_unnoticed block id_gas id_initcode d1 d2 st :
  getpath block ["block"; "sidechainTransactions"] = Val (PList [PDict d1; PDict d2]) →
  check_shanghai_block block (PStr id_gas) (PStr id_initcode) st = (Val tt, st).
Proof. intros Hb. unfold check_shanghai_block. rewrite (bind_lift_run _ _ _ _ Hb). reflexivity. Qed.
End Shanghai.

(** * What the tests of keys and of transfers establish

    A file of keys is read back as it was written, comments apart.  When the dump of one
    wallet was imported into the other one, both have the same keys.  A transfer that is
    reported as made or as failed costs the two accounts its fee and nothing else. *)

(** ** Files of keys *)

(** No character of the text satisfies [bad]. *)
Fixpoint free_of (bad : ascii → bool) (s : string) : bool :=
  match s with EmptyString => true | String c s' => negb (bad c) && free_of bad s' end.

Definition line_end (c : ascii) : bool := Ascii.eqb c cr || Ascii.eqb c lf.
Definition special (c : ascii) : bool := line_end c || Ascii.eqb c " " || Ascii.eqb c "#".

(** A line of the file: a comment, or a secret and its public key. *)
Inductive entry := Comment (text : string) | Key (secret public : string).

Definition entry_text (e : entry) : string :=
  match e with Comment t => String "#" t | Key s p => s +:+ " " +:+ p end.
Definition entry_ok (e : entry) : bool :=
  match e with Comment t => free_of line_end t | Key s p => free_of special s && free_of special p end.
Definition entry_key (e : entry) : list (string * string) :=
  match e with Comment _ => [] | Key s p => [(s, p)] end.

Fixpoint dump_text (es : list entry) : string :=
  match es with [] => EmptyString | e :: es' => entry_text e +:+ String lf (dump_text es') end.

Lemma free_of_app bad a b : free_of bad (a +:+ b) = free_of bad a && free_of bad b.
Proof. induction a as [|c a IH]; [done|]. cbn. rewrite IH. by rewrite andb_assoc. Qed.

Lemma free_of_weaken (p q : ascii → bool) s : (∀ c, q c = true → p c = true) → free_of p s = true → free_of q s = true.
Proof.
  intros Hpq. induction s as [|c s IH]; [done|]. cbn. intros [Hc Hs]%andb_true_iff. rewrite (IH Hs), andb_true_r.
  destruct (q c) eqn:E; [|done]. by rewrite (Hpq _ E) in Hc.
Qed.

Lemma line_end_special c : line_end c = true → special c = true.
Proof. unfold special. intros ->. done. Qed.

Lemma entry_text_line e : entry_ok e = true → free_of line_end (entry_text e) = true.
Proof.
  destruct e as [t|s p]; cbn; [done|]. intros [Hs Hp]%andb_true_iff. rewrite !free_of_app.
  rewrite (free_of_weaken _ _ _ line_end_special Hs). cbn. exact (free_of_weaken _ _ _ line_end_special Hp).
Qed.

Lemma universal_newlines_line s r :
  free_of line_end s = true → universal_newlines (s +:+ String lf r) = s +:+ String lf (universal_newlines r).
Proof.
  induction s as [|c s IH]; [done|]. cbn [free_of]. intros [Hc Hs]%andb_true_iff.
  change (universal_newlines (String c (s +:+ String lf r)) = String c (s +:+ String lf (universal_newlines r))).
  cbn [universal_newlines]. apply negb_true_iff, orb_false_iff in Hc as [-> _]. by rewrite (IH Hs).
Qed.

Lemma file_lines_line s r :
  free_of line_end s = true → file_lines (s +:+ String lf r) = (s +:+ newline) :: file_lines r.
Proof.
  induction s as [|c s IH]; [reflexivity|]. cbn [free_of]. intros [Hc Hs]%andb_true_iff.
  change (file_lines (String c (s +:+ String lf r)) = String c (s +:+ newline) :: file_lines r).
  cbn [file_lines]. apply negb_true_iff, orb_false_iff in Hc as [_ ->]. by rewrite (IH Hs).
Qed.

Lemma no_hash s : free_of special s = true → ∀ t, str_contains "#" t = false → str_contains "#" (s +:+ t) = false.
Proof.
  intros Hs t Ht. induction s as [|c s IH]; [done|]. cbn [free_of] in Hs. apply andb_true_iff in Hs as [Hc Hs].
  change (str_contains "#" (String c (s +:+ t)) = false). cbn [str_contains]. rewrite (IH Hs).
  apply negb_true_iff, orb_false_iff in Hc as [_ Hc]. rewrite orb_false_r. cbn [String.prefix].
  destruct (ascii_dec "#" c) as [<-|]; [discriminate Hc|done].
Qed.

Lemma split_char_free sep s t :
  free_of (λ c, Ascii.eqb c sep) s = true →
  split_char sep (s +:+ String sep t) = s :: split_char sep t.
Proof.
  induction s as [|c s IH]; cbn [free_of].
  - intros _. change (split_char sep (String sep t) = "" :: split_char sep t). cbn [split_char]. by rewrite Ascii.eqb_refl.
  - intros [Hc Hs]%andb_true_iff. change (split_char sep (String c (s +:+ String sep t)) = String c s :: split_char sep t).
    cbn [split_char]. apply negb_true_iff in Hc as ->. by rewrite (IH Hs).
Qed.

Lemma split_char_none sep s : free_of (λ c, Ascii.eqb c sep) s = true → split_char sep s = [s].
Proof.
  induction s as [|c s IH]; [done|]. cbn [free_of split_char]. intros [Hc Hs]%andb_true_iff.
  apply negb_true_iff in Hc as ->. by rewrite (IH Hs).
Qed.

Lemma space_special c : Ascii.eqb c " " = true → special c = true.
Proof. unfold special. intros ->. by rewrite orb_true_r. Qed.

Lemma key_line_entry s p :
  free_of special s = true → free_of special p = true → key_line (s +:+ " " +:+ p +:+ newline) = Val (s, p).
Proof.
  intros Hs Hp. unfold key_line.
  change (" " +:+ p +:+ newline) with (String " " (p +:+ newline)).
  rewrite split_char_free by exact (free_of_weaken _ _ _ space_special Hs).
  rewrite split_char_none.
  2:{ rewrite free_of_app. by rewrite (free_of_weaken _ _ _ space_special Hp). }
  unfold all_but_end. do 2 f_equal. rewrite str_length_app. apply str_take_app_n. cbn. lia.
Qed.

(** A file of comments and of keys without spaces, line ends and number signs is read as
    exactly its keys, in order. *)
Theorem parse_keys_dump es :
  forallb entry_ok es = true → parse_keys (dump_text es) = Val (concat (map entry_key es)).
Proof.
  intros He. unfold parse_keys.
  assert (Hl : file_lines (universal_newlines (dump_text es)) = map (λ e, entry_text e +:+ newline) es).
  { induction es as [|e es IH]; [done|]. cbn [forallb] in He. apply andb_true_iff in He as [He Hes].
    cbn [dump_text map]. pose proof (entry_text_line _ He) as Ht.
    rewrite (universal_newlines_line _ _ Ht), (file_lines_line _ _ Ht). by rewrite (IH Hes). }
  rewrite Hl. clear Hl. induction es as [|e es IH]; [done|]. cbn [forallb] in He. apply andb_true_iff in He as [He Hes].
  cbn [map keys_of concat]. destruct e as [t|s p]; cbn [entry_text entry_key].
  - change (String "#" t +:+ newline) with (String "#" (t +:+ newline)). cbn [str_contains String.prefix].
    destruct (ascii_dec "#" "#"); [|done].
    destruct (t +:+ newline); exact (IH Hes).
  - cbn in He. apply andb_true_iff in He as [Hs Hp]. rewrite !str_app_assoc, no_hash; [|done|].
    2:{ change (str_contains "#" (String " " (p +:+ newline)) = false). cbn [str_contains String.prefix].
        destruct (ascii_dec "#" " "); [done|]. by rewrite no_hash. }
    rewrite (key_line_entry _ _ Hs Hp). cbn [obind]. by rewrite (IH Hes).
Qed.

(** ** Wallets *)

Section Wallets.
Context {W : Type} `{Nodes W, Clock W, Os W, Rng W}.
Implicit Types st s : St (FW W).

(** What a wallet lists. *)
Definition wallet_lists (t : KeyTest (W := W)) (node : proxy) (api_key : string) (props : list pyval) (st' : St (FW W)) : Prop :=
  ∃ st pkeys, all_keys node api_key st = (Val pkeys, st') ∧ omapM (proposition_of t) pkeys = Val props.

Lemma same_keys (l1 l2 : list string) :
  NoDup l2 → length l2 = length l1 → (∀ k, k ∈ l2 → k ∈ l1) → l2 ≡ₚ l1.
Proof. intros Hn Hl Hs. apply submseteq_length_Permutation; [by apply NoDup_submseteq|lia]. Qed.

Lemma all_listed (k1 k2 : list string) st st' :
  forM_ (map PStr k2) (λ p, lift (assert_true (list_mem p (map PStr k1)) "")) st = (Val tt, st') →
  st' = st ∧ ∀ k, k ∈ k2 → k ∈ k1.
Proof.
  revert st. induction k2 as [|k k2 IH]; intros st; cbn [map forM_].
  - intros [_ ->]%ret_Val_inv. split; [done|]. intros k Hk%elem_of_nil. done.
  - intros ([] & s1 & [Hk%assert_true_inv ->]%lift_Val_inv & Hr)%bind_Val_inv. apply IH in Hr as [-> Hr].
    rewrite list_mem_strings in Hk. apply bool_decide_eq_true in Hk. split; [done|].
    intros x [->|Hx]%elem_of_cons; [done|]. by apply Hr.
Qed.

Lemma omapM_length {A B} (f : A → outcome B) l ys : omapM f l = Val ys → length ys = length l.
Proof. intros Hl%omapM_Val_Forall2. by apply Forall2_length in Hl. Qed.

(** When the part of the tests that imports the dump of the first wallet into the second
    one passes, what the second one lists at the end is what the first one listed after the
    dump, up to the order: the keys of both are texts, and none is listed twice by the
    second.  The two new keys are among them. *)
Theorem keys_dumped_same_wallets o (t : KeyTest (W := W)) sc1 sc2 st st' :
  keys_dumped o t sc1 sc2 st = (Val tt, st') →
  ∃ s1 l1 l2 a3 a4,
    wallet_lists t sc1 API_KEY_NODE1 l1 s1 ∧ wallet_lists t sc2 API_KEY_NODE2 l2 st'
    ∧ length l2 = length l1 ∧ list_mem a3 l2 = true ∧ list_mem a4 l2 = true
    ∧ ∀ k1 k2, l1 = map PStr k1 → l2 = map PStr k2 → NoDup k2 → k2 ≡ₚ k1.
Proof.
  unfold keys_dumped. intros Hr. apply bind_Val_inv in Hr as (a3 & s3 & _ & Hr).
  apply bind_Val_inv in Hr as (a4 & s4 & _ & Hr). do 4 skip_step Hr.
  apply bind_Val_inv in Hr as (pk1 & s7 & Hpk1 & Hr). do 3 skip_step Hr.
  apply bind_Val_inv in Hr as (l1 & s11 & [Hl1 _]%lift_Val_inv & Hr). do 16 skip_step Hr.
  apply bind_Val_inv in Hr as (pk2 & s28 & Hpk2 & Hr).
  apply bind_Val_inv in Hr as ([] & ? & [Hlen%assert_equal_int_inv ->]%lift_Val_inv & Hr).
  apply bind_Val_inv in Hr as (l2 & ? & [Hl2 ->]%lift_Val_inv & Hr).
  apply bind_Val_inv in Hr as ([] & s31 & Hall & Hr).
  apply bind_Val_inv in Hr as ([] & ? & [H3%assert_true_inv ->]%lift_Val_inv & [H4%assert_true_inv ->]%lift_Val_inv).
  assert (Hst : s31 = s28).
  { clear -Hall. revert Hall. generalize l2 at 1. intros l. revert s28. induction l as [|p l IH]; intros s28; cbn [forM_].
    - by intros [_ ->]%ret_Val_inv.
    - intros (? & ? & [_ ->]%lift_Val_inv & Hr)%bind_Val_inv. by apply IH. }
  subst s31. exists s7, l1, l2, a3, a4. assert (Hn : length l2 = length l1).
  { rewrite (omapM_length _ _ _ Hl1), (omapM_length _ _ _ Hl2). lia. }
  repeat split; [by eexists _, pk1|by eexists _, pk2|done..|].
  intros k1 k2 -> -> Hd. rewrite !length_map in Hn. apply all_listed in Hall as [_ Hin]. by apply same_keys.
Qed.
End Wallets.

(** ** Transfers *)

(** A transfer between two accounts that the test accepts as made, or as failed, costs
    the two together exactly the fee; made, it moves the amount. *)
Theorem check_moved_conserves a b f0 t0 f1 t1 status wei fee ok :
  py_eqb a b = false → status = 0 ∨ status = 1 →
  check_moved a b (PInt f0) (PInt t0) (PInt f1) (PInt t1) status wei fee = Val ok →
  f1 + t1 = f0 + t0 - fee ∧ t1 = t0 + (if ok then wei else 0).
Proof.
  intros Hab Hs Hr. unfold check_moved in Hr. destruct Hs as [-> | ->].
  - apply obind_Val_inv in Hr as ([] & E1%assert_equal_int_inv & Hr).
    apply obind_Val_inv in Hr as (? & [= <-] & Hr).
    apply obind_Val_inv in Hr as ([] & E2%assert_equal_int_inv & [= <-]). lia.
  - rewrite Hab in Hr. change (py_add (PInt t0) (PInt wei)) with (Val (PInt (t0 + wei))) in Hr.
    change (py_sub (PInt f0) (PInt wei)) with (Val (PInt (f0 - wei))) in Hr. cbn [obind negb Z.eqb] in Hr.
    change (py_sub (PInt (f0 - wei)) (PInt fee)) with (Val (PInt (f0 - wei - fee))) in Hr. cbn [obind fst snd] in Hr.
    rewrite !py_eqb_int in Hr. apply obind_Val_inv in Hr as ([] & E1%assert_true_inv & Hr).
    apply obind_Val_inv in Hr as ([] & E2%assert_true_inv & [= <-]). b2p. lia.
Qed.

Section Negative.
Context {W : Type} `{Nodes W, Clock W, Os W, Rng W} `{AccountUtil.EthUtils}.
Implicit Types st : St (FW W).

(** The test of a transfer of a negative amount passes also when the transfer is made: the
    failure of the test is caught with the others. *)
Theorem negative_transfer_unnoticed fuel sc1 sc2 from to m st st' :
  makeEoa2Eoa fuel sc1 sc2 from to (zen (-1) (-1)) PNone false st = (Val m, st') →
  negative_transfer fuel sc1 sc2 from to st = (Val tt, st').
Proof.
  intros Hm. unfold negative_transfer. rewrite (fail_inside_run _ _ _ _ (Val PNone) st'); [done| |done].
  by rewrite (bind_run _ _ _ _ _ Hm).
Qed.
End Negative.
